(* ===== verification/_CoqProject ===== *)
-Q . S2P
Prelude.v
Storage.v
JsValue.v
JsText.v
JsNumber.v
JsDate.v
Balance.v
Goals.v
Groups.v
LockedPlans.v
Savings.v
Notifications.v
Generator.v
Projection.v
SorobanEvents.v
Indexer.v
Listener.v
Reconciliation.v
GroupShares.v
Currency.v
Streaks.v
GoalCalculator.v
Roundup.v
Idempotency.v
Encoding.v
Sessions.v
OAuth.v
ApiKeys.v
RateLimit.v
RequestSigning.v
Webhooks.v
Referral.v
Anchor.v
InterestRates.v
NftRewards.v
Account.v
AuditLog.v
SorobanTx.v
Admin.v
Activity.v
Email.v
Digest.v
Health.v
Analytics.v
Filtering.v
Users.v
Contract.v
NotificationStream.v
Live.v
ClientForms.v
ApiClient.v
Widgets.v
Catalog.v
Migrations.v
Schema.v
Routes.v
Server.v
Sms.v
Backup.v
Fx.v
