(* ===== verification/Prelude.v ===== *)
(** * Stow: a verification of the savings backend

    Stow is a savings application on the Stellar network.  Users hold balances in a
    Soroban vault contract; a NestJS backend ([src/backend/]) follows the contract's
    events and keeps read models ("projections") of them in a database, from which
    a web frontend ([src/frontend/]) is served.  The chain is the source of truth, so
    the backend is correct when its tables are the right function of the events.
    This library models that path end to end, and the components around it that
    carry money arithmetic, at-most-once guarantees or access control.

    ** The program

<<
      RPC node
         |  getEvents pages, retries                      SorobanEvents
         v
      event source ---------+---------------------+
         |                  |                     |
      indexer            listener         reconciliation
      (event store,      (live poll,      (reorg rollback,
       batches,           no store)        gap backfill over
       checkpoints)         |               the event store)
         |                  |
         +--------+---------+
                  v
      projection: one dispatch per event topic            Projection
                  |
      +-----------+-----------+------------+------------+
      v           v           v            v            v
   balances     goals      groups    locked plans   yield positions,
                                                    notifications
>>

    Beside this path:
    - money: round-up savings, which credit the balance service; interest rates over
      the total deposits; anchor deposits, whose first one qualifies a referral; NFT
      rewards for balances, goals and activity; the harvest yield attributed to an
      account;
    - access: wallet and passkey logins with rotating refresh tokens; social sign-in
      that ends in such a session; API keys; signed requests; rate limits; the
      idempotency keys in front of mutating HTTP handlers;
    - delivery: webhooks with retries and signatures; e-mail with its queue and the
      periodic digests; the live notification stream; account exports and deletion;
    - operation: administration with its audit log, analytics, health checks, the
      activity timeline, query filters, users and their follows, the transactions and
      the read-only calls sent to the contract;
    - the frontend: the libraries for amounts, streaks, savings projections and group
      shares; the HTTP client with its session and the hooks that call the backend; the
      notification list; the checks of the forms; the widgets that keep state.

    ** Files

    Shared by all components:
    - [Prelude] (this file): exceptions, the service monad [M] with its [await]
      notation, invariant preservation ([preserves], tactic [preserve]), the
      stable sort by key, sums and list lemmas.
    - [Storage]: the interface [Backend] of TypeORM repositories and cache-manager,
      which are not part of the repository: lookup, save, remove, enumeration,
      ordering and the time-to-live cache, with their documented laws.  Services are
      written and proved against it; [MemBackend] is an instance, which also runs
      every witness.
    - [JsValue], [JsNumber], [JsText], [JsDate]: the JavaScript values and conversions
      used by the program: [String], [BigInt], [Number], [??], [new Date], IEEE doubles,
      [Math.floor], [parseFloat], [toFixed], number printing, text in code units, the
      calendar and ISO dates.
    - [Encoding]: hexadecimal digests and [JSON.stringify].

    One file per component, with the source it translates:
    - [Balance]: [backend/src/savings/balance.service.ts].
    - [Goals]: [backend/src/goals/goals.service.ts].
    - [Groups]: [backend/src/savings/groups.service.ts].
    - [LockedPlans]: [backend/src/savings/locked-plans.service.ts].
    - [Savings]: [backend/src/savings/savings.service.ts].
    - [Notifications], [Generator]: [backend/src/notifications/]
      [notifications.service.ts] and [notification-generator.service.ts].
    - [Projection]: [backend/src/savings-projection/savings-projection.service.ts].
    - [SorobanEvents]: the event fetching of [backend/src/soroban/soroban.service.ts].
    - [Indexer]: [backend/src/indexer/indexer.service.ts], written against the
      interface [EventSource], of which [SorobanSource] is the modelled service.
    - [Listener]: [backend/src/soroban/soroban.listener.ts].
    - [Reconciliation]: [backend/src/indexer/reconciliation.service.ts].
    - [GroupShares]: [frontend/src/lib/groupShares.ts].
    - [Roundup]: [backend/src/savings-roundup/services/], the calculator and the
      service.
    - [Idempotency]: [backend/src/common/idempotency/], the service and the two
      interceptors.
    - [InterestRates]: [backend/src/interest-rates/], the rate curve, the service and
      the activation endpoint of the admin controller.
    - [Referral], [Anchor]: [backend/src/users/referral.service.ts] and
      [backend/src/savings/anchor.service.ts], which reports qualifying deposits to it.
    - [NftRewards]: [backend/src/nft-rewards/], evaluator, rewards, metadata and
      administration.
    - [Account]: [backend/src/account/account.service.ts].
    - [Sessions], [OAuth]: [backend/src/auth/auth.service.ts] and [oauth.service.ts]
      with its callback endpoint; [OAuth] opens sessions of [Sessions].
    - [ApiKeys]: [backend/src/auth/api-key.service.ts] and its guard.
    - [RateLimit]: the rate-limit middleware, the status service and the keys of the
      throttler guard ([backend/src/common/], [backend/src/auth/]).
    - [RequestSigning]: the request signer and its guard ([backend/src/common/]).
    - [Webhooks]: [backend/src/webhooks/], emission, delivery and verification.
    - [Currency], [Streaks], [GoalCalculator]: [frontend/src/lib/currency.ts],
      [streaks.ts] and [savingsProjection.ts].
    - [AuditLog], [Admin]: [backend/src/admin/], the chained audit log with its
      interceptor, and the administration service over the components it manages.
    - [SorobanTx]: the transactions and stub calls of
      [backend/src/soroban/soroban.service.ts]; [Contract]:
      [backend/src/contract/contract.service.ts].
    - [Activity]: [backend/src/activity/activity.service.ts].
    - [Email], [Digest]: [backend/src/notifications/email.service.ts] with its
      templates, and [digest.service.ts], which fills its queue.
    - [Health]: [backend/src/indexer/health.service.ts] and
      [backend/src/health/health.service.ts].
    - [Analytics]: [backend/src/analytics/].
    - [Filtering]: [backend/src/common/filtering.service.ts].
    - [Users]: [backend/src/users/users.service.ts].
    - [NotificationStream], [Live]: [frontend/src/hooks/useNotifications.ts], its parser
      and its list, and the stream of the backend that feeds them, with the envelope of
      [common/interceptors/response.interceptor.ts] around each emission.
    - [ClientForms]: the amount and date checks of [frontend/src/hooks/].
    - [ApiClient]: [frontend/src/lib/api.ts], the session provider and the request hooks,
      with the response wrapper and the error filter of the backend.
    - [Widgets]: the state of four components under [frontend/src/components/].
    - [Catalog], [Migrations], [Schema]: a catalogue of tables and columns with the
      statements that change it; [backend/src/migrations/], every migration as its
      statements; the entities of the backend and the migration runner.
    - [Routes], [Server]: every [*.controller.ts] and [*.module.ts] of the backend as
      data (routes, decorators, the service calls of the handlers); the dispatch, the
      guards of [backend/src/common/guards/] and [app.module.ts], and the run of a
      handler.
    - [Sms], [Backup], [Fx]: [backend/src/notifications/sms.service.ts],
      [backend/src/backup/backup.service.ts] and
      [backend/src/common/fx-rate.service.ts].

    Each component is a Module of its file's name: a Record per entity (its columns),
    a Record [state] of the tables, caches and in-memory maps the service owns, and
    one definition per method, in the order of the source and under its name.

    ** The model

    - A method is a function [state -> outcome A * state].  [Throw] carries the
      exception; the state after a throw keeps the writes made before it, since the
      modelled methods open no transaction.  A [try/catch] is [catch], so error
      paths are values.
    - The clock, random numbers, generated uuids and third-party code (keyed digests,
      signature checks, [bcrypt], the answers of OAuth providers, of the pinning
      service and of webhook endpoints, the file system, [Intl.NumberFormat]) are
      arguments, with what the code relies on as hypotheses or class laws and a
      concrete instance in the witnesses.  A component that
      makes several requests to the node takes the node as a function of the request
      number, so every theorem holds for every sequence of answers and failures.
    - A method runs to its end before the next one.  Where interleaving matters the
      method is split at its [await] points and the schedule is written out
      ([Balance.credit_interleaving_loses_update],
      [Sessions.concurrent_rotation_forks_family],
      [Account.deletion_during_export_leaks]).
    - Token amounts are decimal strings in the database and [BigInt]s in arithmetic;
      the model keeps the strings and proves the round trip
      ([BigInt_of_string_to_string]), with a [SyntaxError] on malformed input.
      A [number] is a double ([spec_float], 53 bits), also where the source rounds
      money through it ([Roundup], [GroupShares]).

    ** What the theorems show

    - Abstract specifications and refinement.  The balance service is a ledger under
      any sequence of calls ([Balance.ledger_refinement]) and its cached read is the
      stored balance ([get_is_table_view]); the projection of an arbitrary event
      stream is the ledger of its deposits and withdrawals
      ([Projection.projected_balance]).
    - Delivery.  Against an honest node [getEvents] returns the events from the
      requested ledger on, without a gap, up to its cap and the node's latest ledger
      ([getEvents_complete]) and terminates ([getEvents_terminates]); a poll of the indexer stores every event
      ([fetch_stores_every_event]) and delivers each to the projections once, in
      ledger order ([poll_applies_each_once], [batch_projects_in_ledger_order]);
      the listener moves its checkpoint only past applied events
      ([poll_checkpoint]); a reorg removes exactly the events above the fork
      ([reorg_rollback]).
    - State machines and invariants.  Goals move along their status order, keep
      their identity and are claimed once ([goal_never_lost], [claim_once],
      [active_goal_below_target]); a tried event is frozen until a
      recorded reorg deletes it ([tried_events_frozen]).
    - Replay.  Which topics can be redelivered without effect, at once or after
      anything else has happened, a reached goal that was claimed since apart
      ([replay_idempotent], [withdraw_replay_stable]), and which cannot
      ([deposit_replay_double_counts]).
    - Access.  In every reachable state a refresh-token family has at most one live
      token ([at_most_one_live_token]), a replayed token ends its family
      ([reuse_revokes_family]), a rotation changes exactly the two rows it should
      ([rotation_spec]); a passkey ceremony and an OAuth exchange code succeed once
      ([passkey_ceremony_once], [exchange_code_once]), a social login from start to
      session is that of the linked account ([social_login_end_to_end]) and a linked
      identity never changes hands ([identities_never_move]); API keys are accepted
      under exactly the stated conditions ([validateKey_iff]); an accepted signature
      covers method, path, timestamp, nonce and body, but not the query
      ([signature_covers_request]), and a signed request is accepted
      ([signed_request_accepted]); a client gets at most
      twice its limit through in a window ([admitted_at_most_twice_limit]).
    - Delivery that ends.  Webhook deliveries settle in bounded time when the job runs
      on schedule with room in its batch ([deliveries_settle]), export jobs after
      finitely many passes ([exports_settle]), whatever the network or the file system
      does.
    - Money beside the ledger.  Referral rewards are issued exactly once, unless the
      database refuses them, and then never ([rewards_exactly_once]); pending round-ups
      are credited once ([process_credits_once]); an evaluation grants exactly the milestones reached
      ([evaluation_rewards_reached]); the yield attributed to all owners is the
      yield there was by the shares they minted, rounded down ([attribution_conserved]); rates stay within their bounds
      or are not numbers ([rate_within_bounds]) and activating a configuration leaves
      it the only active one ([activate_makes_unique]); deleting an account erases
      what it holds ([deletion_erases]).
    - Reference definitions.  Streaks are the runs of consecutive periods
      ([streak_spec], [activity_streak_is_run]), the savings projection agrees with
      its closed form ([projection_agrees]), a formatted USDC amount parses back
      ([usdc_roundtrip]) and the amount validation accepts exactly the amounts within
      its limits ([validate_accepts]).
    - Administration.  Every change of what the audit log digests, but the loss of its
      newest rows, is detected ([tamper_evident]); a failing user of a bulk action leaves the others done and
      itself untouched ([bulk_isolated]); the calls a filter makes on the query builder
      put on a row what the request asks for ([filters_mean_request]) and a malformed
      request is refused ([filter_refusals]).
    - Mail.  No window sends more mails than the rate allows ([email_rate_limited]); a
      digest period is sent once per user over any history of checks, as long as the
      date of the user's zone does not go back ([digest_once]).
    - Frontend and backend composed.  The stream's text in any chunks is read back
      ([sse_chunking], [sse_roundtrip]) and no notification is listed twice on the page
      ([listed_once]); without the envelope of the global interceptor the page would list
      what is published to its user ([bare_stream_listed]), with it the page lists
      nothing ([served_stream_lists_nothing]); token, context and
      stored session are one session ([session_refines]); a withdrawal sends the amount
      typed, within the balance, or nothing ([withdraw_exact]); the balance shown
      is the backend's row ([balance_shown]); an exported
      activity file reads back ([csv_roundtrip]); an anonymous ranking is the same
      whoever holds the shares ([anonymous_reveals_nothing]).
    - The HTTP server.  A service is called only after the guards have seen what the
      route asks for ([calls_need_policy], [guards_refine_policy]); paths under [admin]
      ask for the admin role ([admin_paths_need_admin]); a handler that passes the
      caller along acts for the admitted user ([personal_routes_act_for_caller]), and
      the routes that do not are listed ([routes_without_caller]); every served route
      answers its own paths but two ([routes_reachable]).
    - The schema.  No database lets the migrations run to their end
      ([migrations_never_complete]), no sequence of them makes certain tables and
      columns of the entities ([unmigrated_columns]), and without the broken ones a
      fresh database gets all the other columns ([repaired_builds_schema]).
    - Texts, backups and rates.  A text message settles ([sms_settles]); only dumped
      texts are restored ([restored_was_dumped]); the rates shown are fresh
      ([rates_fresh]).
    - Exactness of the remaining operations: group shares and payouts, pages of
      locked plans, totals, quiet hours, routing and draining of notifications,
      round-ups, retries, idempotent handlers.
    - Behaviours the code has against its intent, each as a theorem with a concrete
      run: a lost update between two credits, a claim reopened by a late event,
      deposits applied by both pollers, a ledger skipped after a failed request,
      events dropped at the page boundary, a checkpoint moved over a window that
      could not be read, a claimed withdrawal that stays pending, a refresh-token
      family forked by concurrent rotations, an OAuth state that stays usable, a
      key lookup that never ends, a rate that stays NaN, an activation that switches
      everything off, a reward that is never minted, exports that read dropped
      tables, health checks that ask the indexer for fields it does not have, a
      dashboard that never answers, aggregates counted twice, a digest lost to a skipped
      hour, a mail lost after its retries, follows that always fail
      ([follows_unavailable]), a search of plans that fails on the envelope
      ([plan_search_fails]), a self-referral by the case of an id, rewards lost between
      two writes, a digest repeated by a change of zone, contract
      views without an answer, a notification dropped by a rollback, a refusal whose
      text the page loses, a wallet login that needs a session
      ([wallet_login_needs_session]), a ban without effect ([ban_not_enforced]), a
      delivered text sent again, rates per dollar taken as rates per XLM.

    ** Bounds and fuel

    - [SorobanEvents.pages], the paging loop, takes fuel; every round but the last
      adds an event and the loop stops at [MAX_EVENTS_PER_FETCH] = 10,000, so that
      much fuel is enough for any node with well-formed events
      ([getEvents_terminates]); [SorobanSource] uses that bound.
    - [Idempotency.acquire] calls itself once after deleting an expired key; fuel two
      is enough ([acquire_total]).
    - The backfill of the indexer is bounded by the source's own
      [BACKFILL_MAX_PAGES] = 1,000, that of the reconciliation reads one page, and
      retries stay within the source's attempt budget ([withRetry_bounded]).
    - [OAuth.appleSigningKey] calls itself until a key set has the key; no fuel is
      enough when none ever does ([appleSigningKey_diverges]), one round is when the
      fetched set has it ([appleSigningKey_found]).
    - [Contract.view_loop] and [Email.deliver_loop] are bounded by the source's own
      numbers of attempts ([view_total], [tick_attempts_bounded]); the splitting of the
      event stream recurses on the length of the text ([split_n_enough]).
    - [Routes.scan], the walk over the imports of the modules, takes the depth of the
      walk as fuel; ten is enough ([served_closed]).
    - Printing a double searches 310 exponents upwards, 330 downwards and 18 lengths
      of digits, which covers every finite double (17 digits identify it).

    ** What is not modelled

    Cryptographic and authentication libraries and the Stellar SDK; how the handlers of
    the controllers shape the values they return, and the rules of the validation
    library on their inputs; metrics and the connection-pool monitor, which only read
    the process; the shared cache wrapper, which nothing uses; configuration and seeding;
    the order of statements inside PostgreSQL beyond the catalogue; the conversion
    between APR and APY by [Math.pow]; the markup, styles and wallet connection of the
    user interface.  The vault contracts are Rust programs; their events are the input
    of the model.  The yield handlers of the notification generator name columns and
    enum members that do not exist and have no caller. *)
From Stdlib Require Import ZArith Lia.
From stdpp Require Import base list strings sorting sets.

Declare Scope js_scope.
Delimit Scope js_scope with js.

(** ** Exceptions and the service monad

    A NestJS service method is an [async] function over the state of its
    repositories and caches.  It either resolves with a value or rejects with
    an exception; the writes made before a [throw] are kept, because no
    service method of the modelled components runs in a transaction. *)

Inductive exn :=
| HttpException (status : Z) (message : string)
| SyntaxError (message : string)
| TypeError (message : string)
| DatabaseError (code : string)
| JsError (message : string).

#[export] Instance exn_eq_dec : EqDecision exn.
Proof. solve_decision. Defined.

(** [error.message], as the services that store it read it. *)
Definition exn_message (e : exn) : string :=
  match e with
  | HttpException _ m | SyntaxError m | TypeError m | JsError m => m
  | DatabaseError c => c
  end.

Definition NotFoundException (m : string) : exn := HttpException 404 m.
Definition BadRequestException (m : string) : exn := HttpException 400 m.
Definition ConflictException (m : string) : exn := HttpException 409 m.
Definition UnauthorizedException (m : string) : exn := HttpException 401 m.
Definition UnprocessableEntityException (m : string) : exn := HttpException 422 m.

Inductive outcome (A : Type) : Type :=
| Ret (a : A)
| Throw (e : exn).
Arguments Ret {A} a.
Arguments Throw {A} e.

Definition is_ret {A} (o : outcome A) : bool :=
  match o with Ret _ => true | Throw _ => false end.

Definition M (St A : Type) : Type := St -> outcome A * St.

Definition ret {St A} (a : A) : M St A := fun s => (Ret a, s).
Definition throw {St A} (e : exn) : M St A := fun s => (Throw e, s).
Definition bind {St A B} (m : M St A) (k : A -> M St B) : M St B :=
  fun s => match m s with
           | (Ret a, s') => k a s'
           | (Throw e, s') => (Throw e, s')
           end.
(** [try { m } catch (err) { h(err) }]: the handler runs in the state the
    failing body left. *)
Definition catch {St A} (m : M St A) (h : exn -> M St A) : M St A :=
  fun s => match m s with
           | (Ret a, s') => (Ret a, s')
           | (Throw e, s') => h e s'
           end.
Definition gets {St A} (f : St -> A) : M St A := fun s => (Ret (f s), s).
Definition modify {St} (f : St -> St) : M St unit := fun s => (Ret tt, f s).
Definition of_option {St A} (e : exn) (o : option A) : M St A :=
  match o with Some a => ret a | None => throw e end.

(** A component's method called by a service that holds more state. *)
Definition zoom {W St A} (get : W -> St) (put : St -> W -> W) (m : M St A)
  : M W A :=
  fun w => let '(o, s) := m (get w) in (o, put s w).

(** [for (const x of xs) { await f(x) }]. *)
Fixpoint for_each {St A} (f : A -> M St unit) (xs : list A) : M St unit :=
  match xs with
  | [] => ret tt
  | x :: xs' => bind (f x) (fun _ => for_each f xs')
  end.

(** The same loop collecting one result per element. *)
Fixpoint map_each {St A B} (f : A -> M St B) (xs : list A) : M St (list B) :=
  match xs with
  | [] => ret []
  | x :: xs' =>
      bind (f x) (fun y => bind (map_each f xs') (fun ys => ret (y :: ys)))
  end.

(** A loop over steps that never throw runs them all. *)
Lemma for_each_run {St A} (f : A -> M St unit) (xs : list A) (s : St) :
  (forall x s, (f x s).1 = Ret tt) ->
  for_each f xs s = (Ret tt, foldl (fun s x => (f x s).2) s xs).
Proof.
  intros Hf. revert s. induction xs as [|x xs IH]; intros s; simpl; [done|].
  unfold bind. specialize (Hf x s). destruct (f x s) as [o s']. simpl in Hf. subst o. apply IH.
Qed.

Notation "'await' x ':=' m 'in' k" := (bind m (fun x => k))
  (at level 10, x name, m at level 100, k at level 200,
   format "'await'  x  ':='  m  'in' '//' k") : js_scope.
Notation "'do' m ';>' k" := (bind m (fun _ => k))
  (at level 10, m at level 100, k at level 200,
   format "'do'  m  ';>' '//' k") : js_scope.
Open Scope js_scope.

(** ** Preservation of a state predicate by a method *)

Definition preserves {St A} (I : St -> Prop) (m : M St A) : Prop :=
  forall s, I s -> I (m s).2.

Create HintDb stow.

Section preservation.
Context {St : Type} (I : St -> Prop).

Lemma preserves_ret {A} (a : A) : preserves I (ret a).
Proof. by intros s. Qed.

Lemma preserves_throw {A} e : preserves I (throw (A := A) e).
Proof. by intros s. Qed.

Lemma preserves_bind {A B} (m : M St A) (k : A -> M St B) :
  preserves I m -> (forall a, preserves I (k a)) -> preserves I (bind m k).
Proof.
  intros Hm Hk s Hs. unfold bind.
  specialize (Hm s Hs). destruct (m s) as [[a|e] s']; simpl in *; [|done].
  by apply Hk.
Qed.

Lemma preserves_catch {A} (m : M St A) (h : exn -> M St A) :
  preserves I m -> (forall e, preserves I (h e)) -> preserves I (catch m h).
Proof.
  intros Hm Hh s Hs. unfold catch.
  specialize (Hm s Hs). destruct (m s) as [[a|e] s']; simpl in *; [done|].
  by apply Hh.
Qed.

Lemma preserves_gets {A} (f : St -> A) : preserves I (gets f).
Proof. by intros s. Qed.

Lemma preserves_modify (f : St -> St) :
  (forall s, I s -> I (f s)) -> preserves I (modify f).
Proof. by intros Hf s Hs; apply Hf. Qed.

Lemma preserves_of_option {A} e (o : option A) : preserves I (of_option e o).
Proof. by destruct o; intros s. Qed.

Lemma preserves_for_each {A} (f : A -> M St unit) (xs : list A) :
  (forall x, preserves I (f x)) -> preserves I (for_each f xs).
Proof.
  intros Hf. induction xs as [|x xs IH]; simpl.
  - apply preserves_ret.
  - by apply preserves_bind.
Qed.

Lemma preserves_map_each {A B} (f : A -> M St B) (xs : list A) :
  (forall x, preserves I (f x)) -> preserves I (map_each f xs).
Proof.
  intros Hf. induction xs as [|x xs IH]; simpl.
  - apply preserves_ret.
  - apply preserves_bind; [done|]. intros y.
    apply preserves_bind; [done|]. intros ys. apply preserves_ret.
Qed.
End preservation.

Lemma preserves_zoom {W St A} (get : W -> St) (put : St -> W -> W)
    (I : W -> Prop) (m : M St A) :
  (forall w, I w -> I (put (m (get w)).2 w)) -> preserves I (zoom get put m).
Proof. intros H w Hw. unfold zoom. specialize (H w Hw). by destruct (m (get w)). Qed.

Lemma zoom_snd {W St A} (get : W -> St) (put : St -> W -> W) (m : M St A) w :
  (zoom get put m w).2 = put (m (get w)).2 w.
Proof. unfold zoom. by destruct (m (get w)). Qed.

Lemma zoom_fst {W St A} (get : W -> St) (put : St -> W -> W) (m : M St A) w :
  (zoom get put m w).1 = (m (get w)).1.
Proof. unfold zoom. by destruct (m (get w)). Qed.

(** A call on a component keeps what holds of that component, and what does
    not depend on it. *)
Lemma preserves_zoom_part {W St A} (get : W -> St) (put : St -> W -> W)
    (J : St -> Prop) (m : M St A) :
  (forall x w, get (put x w) = x) -> preserves J m ->
  preserves (fun w => J (get w)) (zoom get put m).
Proof. intros Hgp Hm w Hw. rewrite zoom_snd, Hgp. by apply Hm. Qed.

Lemma preserves_zoom_frame {W St T A} (get : W -> St) (put : St -> W -> W)
    (other : W -> T) (J : T -> Prop) (m : M St A) :
  (forall x w, other (put x w) = other w) ->
  preserves (fun w => J (other w)) (zoom get put m).
Proof. intros Hgp w Hw. by rewrite zoom_snd, Hgp. Qed.

#[export] Hint Resolve preserves_ret preserves_throw preserves_bind
  preserves_catch preserves_gets preserves_of_option preserves_for_each
  preserves_map_each : stow.

(** Runs a method symbolically: unfolds the monad and splits on the outcomes
    of the calls it makes. *)
Ltac run := unfold bind, catch, ret, throw, gets, modify, of_option, zoom in *;
            simpl in *.

(** Proves that a method preserves an invariant from the calls it makes. *)
Ltac preserve :=
  repeat match goal with
    | |- preserves _ (bind _ _) => apply preserves_bind; [|intros ?]
    | |- preserves _ (ret _) => apply preserves_ret
    | |- preserves _ (match ?x with _ => _ end) => destruct x
    | |- preserves _ (let _ := _ in _) => cbv zeta
    end; eauto with stow.

Ltac split_match :=
  repeat (case_match; simplify_eq/=; try done).

(** ** Lists and integers *)

Fixpoint sumZ (l : list Z) : Z :=
  match l with [] => 0 | x :: l' => x + sumZ l' end%Z.

Lemma sumZ_app l k : sumZ (l ++ k) = (sumZ l + sumZ k)%Z.
Proof. induction l as [|x l IH]; simpl; [done|]. rewrite IH. lia. Qed.

Lemma sumZ_Permutation l k : l ≡ₚ k -> sumZ l = sumZ k.
Proof. induction 1; simpl in *; lia. Qed.

#[export] Instance sumZ_proper : Proper ((≡ₚ) ==> eq) sumZ.
Proof. intros l k. apply sumZ_Permutation. Qed.

Lemma sumZ_nonneg l : Forall (fun z => 0 <= z)%Z l -> (0 <= sumZ l)%Z.
Proof. induction 1; simpl; lia. Qed.

(** [xs.filter(p)] of a permuted list. *)
#[export] Instance List_filter_Permutation {A} (p : A -> bool) :
  Proper ((≡ₚ) ==> (≡ₚ)) (List.filter p).
Proof.
  intros l k. induction 1; simpl; repeat case_match; auto using perm_swap.
  by etrans.
Qed.

Lemma elem_of_List_filter {A} (p : A -> bool) (l : list A) x :
  x ∈ List.filter p l <-> x ∈ l /\ p x = true.
Proof. rewrite !list_elem_of_In, filter_In. done. Qed.

Lemma NoDup_fmap_filter {A K} (f : A -> K) (p : A -> bool) (l : list A) :
  NoDup (f <$> l) -> NoDup (f <$> List.filter p l).
Proof.
  induction l as [|x l IH]; csimpl; [done|]. rewrite NoDup_cons. intros [Hn Hd].
  destruct (p x); csimpl; [|by auto]. apply NoDup_cons. split; [|by auto].
  rewrite list_elem_of_fmap. intros (y & Hy & Hin). apply Hn. apply elem_of_List_filter in Hin as [Hin _].
  apply list_elem_of_fmap. by exists y.
Qed.

(** Elements of a list with distinct keys are determined by their key. *)
Lemma NoDup_fmap_inj {A K} (f : A -> K) (l : list A) x y :
  NoDup (f <$> l) -> x ∈ l -> y ∈ l -> f x = f y -> x = y.
Proof.
  intros Hnd Hx Hy Hf. apply list_elem_of_lookup in Hx as [i Hi], Hy as [j Hj].
  assert (i = j) as ->; [|congruence]. eapply (NoDup_lookup (f <$> l) i j (f x) Hnd).
  - rewrite list_lookup_fmap, Hi. done.
  - rewrite list_lookup_fmap, Hj. simpl. by rewrite Hf.
Qed.

(** [xs.reduce((sum, x) => sum + f(x), 0n)] is a left fold. *)
Lemma foldl_add_sumZ {A} (f : A -> Z) (l : list A) (acc : Z) :
  foldl (fun sum x => sum + f x)%Z acc l = (acc + sumZ (f <$> l))%Z.
Proof.
  revert acc. induction l as [|x l IH]; intros acc; csimpl; [lia|].
  rewrite IH. lia.
Qed.

(** [xs.sort((a, b) => key(a) - key(b))]: [Array.prototype.sort] is stable. *)
Section sort.
Context {A : Type} (key : A -> Z).

Fixpoint insert_by (x : A) (l : list A) : list A :=
  match l with
  | [] => [x]
  | y :: l' => if (key x <=? key y)%Z then x :: l else y :: insert_by x l'
  end.

Fixpoint sort_by (l : list A) : list A :=
  match l with [] => [] | x :: l' => insert_by x (sort_by l') end.

Lemma insert_by_perm x l : insert_by x l ≡ₚ x :: l.
Proof. induction l as [|y l IH]; simpl; [done|]. case_match; [done|].
  rewrite IH. apply perm_swap. Qed.

Lemma sort_by_perm l : sort_by l ≡ₚ l.
Proof. induction l as [|x l IH]; simpl; [done|]. by rewrite insert_by_perm, IH. Qed.

Lemma insert_by_sorted x l :
  StronglySorted (fun a b => key a <= key b)%Z l ->
  StronglySorted (fun a b => key a <= key b)%Z (insert_by x l).
Proof.
  induction 1 as [|y l Hs IH Hall]; simpl; [repeat constructor|].
  destruct (Z.leb_spec (key x) (key y)).
  - repeat constructor; try done. eapply Forall_impl; [exact Hall|].
    simpl. lia.
  - constructor; [done|]. rewrite insert_by_perm. constructor; [lia|done].
Qed.

Lemma sort_by_sorted l :
  StronglySorted (fun a b => key a <= key b)%Z (sort_by l).
Proof. induction l; simpl; [constructor|]. by apply insert_by_sorted. Qed.
End sort.

(** ** Pages of a listing *)

(** [skip: (page - 1) * take, take] of an ordered result. *)
Definition paginate {A} (page limit : Z) (l : list A) : list A :=
  let tk := Z.min limit 100 in
  take (Z.to_nat tk) (drop (Z.to_nat ((page - 1) * tk)) l).

Lemma length_paginate {A} page limit (l : list A) :
  (length (paginate page limit l) <= 100)%nat.
Proof. unfold paginate. rewrite length_take. lia. Qed.

Lemma paginate_in {A} page limit (l : list A) x : x ∈ paginate page limit l -> x ∈ l.
Proof.
  unfold paginate. intros H.
  eapply elem_of_submseteq; [exact H|].
  apply sublist_submseteq. etrans; [apply sublist_take|apply sublist_drop].
Qed.

(** The pages [1 .. n] put one after the other are the first [n * take]
    elements: no element is skipped or repeated between pages. *)
Lemma paginate_concat {A} (n : nat) limit (l : list A) :
  (1 <= limit)%Z ->
  concat ((fun i => paginate (Z.of_nat i + 1) limit l) <$> seq 0 n) =
    take (n * Z.to_nat (Z.min limit 100)) l.
Proof.
  intros Hl. induction n as [|n IH]; [done|].
  rewrite seq_S, fmap_app, concat_app, IH. csimpl. rewrite app_nil_r.
  unfold paginate. set (t := Z.to_nat (Z.min limit 100)).
  replace (Z.to_nat ((Z.of_nat n + 1 - 1) * Z.min limit 100)) with (n * t)%nat by lia.
  rewrite take_take_drop. f_equal. lia.
Qed.
