(* ===== verification/Storage.v ===== *)
(** * Storage: what the services rely on of the database and of the cache

    TypeORM's [Repository], the Postgres server behind it and
    [cache-manager] are not part of the repository; [Backend] is the interface
    the services are written against, with the documented laws they rely on.
    [MemBackend] is an implementation of it, used to run the model. *)
From Stdlib Require Import ZArith Lia.
From stdpp Require Import base list strings sorting sets.
From S2P Require Import Prelude.

(** A [table K V] holds the rows [V] of one entity, keyed by the column
    ([PrimaryColumn], generated id or [unique] column) its service looks rows
    up by.  [find_one] is [findOne({ where: { key } })], [save] inserts a row
    or replaces the row with that key, [rows] is an unordered [find()],
    [order_by] is the [ORDER BY] clause (ties in any order), [fresh_id] is the
    id a [PrimaryGeneratedColumn] gives to an inserted row.

    A [cache V] maps string keys to values that expire; it may also drop an
    entry before it expires, so [cache_get] after [cache_set] is only required
    not to invent a value. *)
Class Backend := {
  table : Type -> Type -> Type;
  cache : Type -> Type;

  empty_table : forall {K V}, table K V;
  find_one : forall {K V} `{EqDecision K}, K -> table K V -> option V;
  save : forall {K V} `{EqDecision K}, K -> V -> table K V -> table K V;
  remove : forall {K V} `{EqDecision K}, K -> table K V -> table K V;
  rows : forall {K V} `{EqDecision K}, table K V -> list (K * V);
  fresh_id : forall {V}, table nat V -> nat;
  order_by : forall {A}, (A -> Z) -> list A -> list A;

  cache_get : forall {V}, string -> Z -> cache V -> option V;
  cache_set : forall {V}, string -> V -> Z -> Z -> cache V -> cache V;
  cache_del : forall {V}, string -> cache V -> cache V;
  empty_cache : forall {V}, cache V;

  find_one_empty : forall {K V} `{EqDecision K} (k : K),
    find_one k (empty_table (V := V)) = None;
  find_one_save_eq : forall {K V} `{EqDecision K} (k : K) (v : V) t,
    find_one k (save k v t) = Some v;
  find_one_save_ne : forall {K V} `{EqDecision K} (k k' : K) (v : V) t,
    k ≠ k' -> find_one k' (save k v t) = find_one k' t;
  find_one_remove_eq : forall {K V} `{EqDecision K} (k : K) (t : table K V),
    find_one k (remove k t) = None;
  find_one_remove_ne : forall {K V} `{EqDecision K} (k k' : K) (t : table K V),
    k ≠ k' -> find_one k' (remove k t) = find_one k' t;
  elem_of_rows : forall {K V} `{EqDecision K} (k : K) (v : V) t,
    (k, v) ∈ rows t <-> find_one k t = Some v;
  NoDup_rows : forall {K V} `{EqDecision K} (t : table K V), NoDup ((rows t).*1);
  fresh_id_None : forall {V} (t : table nat V), find_one (fresh_id t) t = None;
  order_by_perm : forall {A} (key : A -> Z) l, order_by key l ≡ₚ l;
  order_by_sorted : forall {A} (key : A -> Z) l,
    StronglySorted (fun x y => key x <= key y)%Z (order_by key l);

  cache_get_set : forall {V} k (v w : V) ttl now now' c,
    cache_get k now' (cache_set k v ttl now c) = Some w ->
    w = v /\ (now' < now + ttl)%Z;
  cache_get_set_ne : forall {V} k k' (v w : V) ttl now now' c,
    k ≠ k' -> cache_get k' now' (cache_set k v ttl now c) = Some w ->
    cache_get k' now' c = Some w;
  cache_get_del_eq : forall {V} k now (c : cache V),
    cache_get k now (cache_del k c) = None;
  cache_get_del_ne : forall {V} k k' now (w : V) c,
    k ≠ k' -> cache_get k' now (cache_del k c) = Some w ->
    cache_get k' now c = Some w;
  cache_get_empty : forall {V} k now,
    cache_get k now (empty_cache (V := V)) = None;
}.

Section derived.
Context {B : Backend} {K V : Type} `{EqDecision K}.

Lemma find_one_save (k k' : K) (v : V) (t : table K V) :
  find_one k' (save k v t) =
    if decide (k = k') then Some v else find_one k' t.
Proof.
  case_decide as Hk; [subst; apply find_one_save_eq|].
  by apply find_one_save_ne.
Qed.

Lemma find_one_remove (k k' : K) (t : table K V) :
  find_one k' (remove k t) =
    if decide (k = k') then None else find_one k' t.
Proof.
  case_decide as Hk; [subst; apply find_one_remove_eq|].
  by apply find_one_remove_ne.
Qed.

Lemma rows_empty : rows (empty_table (K := K) (V := V)) = [].
Proof.
  destruct (rows empty_table) as [|[k v] l] eqn:Hr; [done|].
  assert (Hin : (k, v) ∈ rows (empty_table (K := K) (V := V))) by (rewrite Hr; left).
  apply elem_of_rows in Hin. by rewrite find_one_empty in Hin.
Qed.

(** [rows] as a multiset: what a save does to it. *)
Lemma rows_save_new (k : K) (v : V) (t : table K V) :
  find_one k t = None -> rows (save k v t) ≡ₚ (k, v) :: rows t.
Proof.
  intros Hk. apply NoDup_Permutation.
  - apply (NoDup_fmap_1 fst), NoDup_rows.
  - apply NoDup_cons. split.
    + rewrite elem_of_rows. congruence.
    + apply (NoDup_fmap_1 fst), NoDup_rows.
  - intros [k' v']. rewrite elem_of_cons, !elem_of_rows, find_one_save.
    case_decide as Hkk; [subst|naive_solver].
    rewrite Hk. naive_solver.
Qed.

Lemma rows_save_old (k : K) (v w : V) (t : table K V) :
  find_one k t = Some v ->
  exists l, rows t ≡ₚ (k, v) :: l /\ rows (save k w t) ≡ₚ (k, w) :: l.
Proof.
  intros Hk. pose proof Hk as Hin. apply elem_of_rows in Hin.
  apply list_elem_of_split in Hin as (l1 & l2 & Heq).
  exists (l1 ++ l2).
  assert (Hp : rows t ≡ₚ (k, v) :: l1 ++ l2).
  { rewrite Heq. symmetry. apply Permutation_middle. }
  split; [done|].
  assert (Hnd : NoDup (((k, v) :: l1 ++ l2).*1)).
  { rewrite <-Hp. apply NoDup_rows. }
  csimpl in Hnd. apply NoDup_cons in Hnd as [Hni Hnd].
  apply NoDup_Permutation.
  - apply (NoDup_fmap_1 fst), NoDup_rows.
  - apply NoDup_cons. split; [|by apply (NoDup_fmap_1 fst)].
    intros Hin. apply Hni. apply list_elem_of_fmap. by exists (k, w).
  - intros [k' v']. rewrite elem_of_cons, elem_of_rows, find_one_save.
    case_decide as Hkk.
    + subst k'. split; [naive_solver|]. intros [?|Hin]; [naive_solver|].
      exfalso. apply Hni. apply list_elem_of_fmap. by exists (k, v').
    + rewrite <-elem_of_rows, Hp, elem_of_cons. naive_solver.
Qed.
End derived.

(** ** An in-memory implementation *)

Module Mem.
Section mem.
Context {K V : Type} `{EqDecision K}.
Implicit Types (t : list (K * V)) (k : K) (v : V).

Fixpoint find t k : option V :=
  match t with
  | [] => None
  | (k', v) :: t' => if decide (k' = k) then Some v else find t' k
  end.

(** Replaces the first row with the key in place, or appends a row. *)
Fixpoint upsert k v t : list (K * V) :=
  match t with
  | [] => [(k, v)]
  | (k', v') :: t' =>
      if decide (k' = k) then (k, v) :: t' else (k', v') :: upsert k v t'
  end.

Fixpoint drop_key k t : list (K * V) :=
  match t with
  | [] => []
  | (k', v') :: t' =>
      if decide (k' = k) then drop_key k t' else (k', v') :: drop_key k t'
  end.

(** The rows in order, each key once. *)
Fixpoint scan t : list (K * V) :=
  match t with
  | [] => []
  | (k, v) :: t' => (k, v) :: drop_key k (scan t')
  end.

Lemma find_upsert k k' v t :
  find (upsert k v t) k' = if decide (k = k') then Some v else find t k'.
Proof. induction t as [|[a b] t IH]; simpl; repeat case_decide; simplify_eq/=;
  repeat case_decide; simplify_eq/=; by rewrite ?IH. Qed.

Lemma find_drop_key k k' t :
  find (drop_key k t) k' = if decide (k = k') then None else find t k'.
Proof. induction t as [|[a b] t IH]; simpl; repeat case_decide; simplify_eq/=;
  repeat case_decide; simplify_eq/=; by rewrite ?IH. Qed.

Lemma elem_of_drop_key k k' v t :
  (k', v) ∈ drop_key k t <-> k ≠ k' /\ (k', v) ∈ t.
Proof.
  induction t as [|[a b] t IH]; simpl; [set_solver|].
  case_decide; [subst|]; rewrite ?elem_of_cons, IH, ?elem_of_cons; naive_solver.
Qed.

Lemma elem_of_scan k v t : (k, v) ∈ scan t <-> find t k = Some v.
Proof.
  induction t as [|[a b] t IH]; simpl; [set_solver|].
  rewrite elem_of_cons, elem_of_drop_key, IH.
  case_decide; naive_solver.
Qed.

Lemma NoDup_drop_key k t : NoDup t.*1 -> NoDup (drop_key k t).*1.
Proof.
  induction t as [|[a b] t IH]; csimpl; [done|].
  rewrite NoDup_cons. intros [Hni Hnd]. case_decide; csimpl; [by auto|].
  apply NoDup_cons. split; [|by auto].
  intros Hin. apply Hni. apply list_elem_of_fmap in Hin as ([c d] & ? & Hin).
  simplify_eq/=. apply elem_of_drop_key in Hin as [_ Hin].
  apply list_elem_of_fmap. by exists (c, d).
Qed.

Lemma NoDup_scan t : NoDup (scan t).*1.
Proof.
  induction t as [|[a b] t IH]; csimpl; [constructor|].
  apply NoDup_cons. split; [|by apply NoDup_drop_key].
  intros Hin. apply list_elem_of_fmap in Hin as ([c d] & ? & Hin).
  simplify_eq/=. apply elem_of_drop_key in Hin. naive_solver.
Qed.
End mem.

Lemma find_elem {K V} `{EqDecision K} (l : list (K * V)) k v :
  NoDup l.*1 -> find l k = Some v <-> (k, v) ∈ l.
Proof.
  intros Hnd. induction l as [|[a b] l IH]; [set_solver|].
  csimpl in Hnd. apply NoDup_cons in Hnd as [Hni Hnd]. specialize (IH Hnd).
  simpl. rewrite elem_of_cons. case_decide as Hk; [subst|naive_solver].
  split; [naive_solver|]. intros [?|Hin]; [naive_solver|].
  exfalso. apply Hni. apply list_elem_of_fmap. by exists (k, v).
Qed.

Definition next_id {V} (t : list (nat * V)) : nat :=
  S (foldr (fun r m => Nat.max r.1 m) 0 t).

Lemma find_ge {V} (t : list (nat * V)) n :
  foldr (fun r m => Nat.max r.1 m) 0 t < n -> find t n = None.
Proof.
  induction t as [|[a b] t IH]; simpl; intros Hn; [done|].
  case_decide; [lia|]. apply IH. lia.
Qed.

(** A cache entry with the time it expires at. *)
Definition entry (V : Type) : Type := (V * Z)%type.

Definition live {V} (now : Z) (e : option (entry V)) : option V :=
  match e with
  | Some (v, expiry) => if (now <? expiry)%Z then Some v else None
  | None => None
  end.
End Mem.

#[refine, export] Instance MemBackend : Backend := {|
  table K V := list (K * V);
  cache V := list (string * Mem.entry V);
  empty_table _ _ := [];
  find_one _ _ _ k t := Mem.find t k;
  save _ _ _ k v t := Mem.upsert k v t;
  remove _ _ _ k t := Mem.drop_key k t;
  rows _ _ _ t := Mem.scan t;
  fresh_id _ t := Mem.next_id t;
  order_by _ key l := sort_by key l;
  cache_get _ k now c := Mem.live now (Mem.find c k);
  cache_set _ k v ttl now c := Mem.upsert k (v, now + ttl)%Z c;
  cache_del _ k c := Mem.drop_key k c;
  empty_cache _ := [];
|}.
Proof.
  - done.
  - intros. rewrite Mem.find_upsert. by case_decide.
  - intros. rewrite Mem.find_upsert. by case_decide.
  - intros. rewrite Mem.find_drop_key. by case_decide.
  - intros. rewrite Mem.find_drop_key. by case_decide.
  - intros. apply Mem.elem_of_scan.
  - intros. apply Mem.NoDup_scan.
  - intros. apply Mem.find_ge. unfold Mem.next_id. lia.
  - intros. apply sort_by_perm.
  - intros. apply sort_by_sorted.
  - intros V k v w ttl now now' c. rewrite Mem.find_upsert. case_decide; [|done].
    simpl. destruct (Z.ltb_spec now' (now + ttl)); naive_solver.
  - intros V k k' v w ttl now now' c Hk. rewrite Mem.find_upsert. by case_decide.
  - intros V k now c. rewrite Mem.find_drop_key. by case_decide.
  - intros V k k' now w c Hk. rewrite Mem.find_drop_key. by case_decide.
  - done.
Defined.

(** ** Bulk statements: [repository.update(criteria, patch)], [delete], [count] *)

Section bulk.
Context {B : Backend} {K V : Type} `{EqDecision K}.
Implicit Types (p : K -> V -> bool) (f : V -> V) (t : table K V).

Definition update_where p f t : table K V :=
  foldl (fun t r => if p r.1 r.2 then save r.1 (f r.2) t else t) t (rows t).

Definition delete_where p t : table K V :=
  foldl (fun t r => if p r.1 r.2 then remove r.1 t else t) t (rows t).

Definition count_where p t : Z :=
  Z.of_nat (length (List.filter (fun r => p r.1 r.2) (rows t))).

Lemma find_rows k t : Mem.find (rows t) k = find_one k t.
Proof.
  destruct (find_one k t) as [v|] eqn:Hk.
  - apply Mem.find_elem; [apply NoDup_rows|]. by apply elem_of_rows.
  - destruct (Mem.find (rows t) k) as [v|] eqn:Hv; [|done].
    apply Mem.find_elem in Hv; [|apply NoDup_rows].
    apply elem_of_rows in Hv. congruence.
Qed.

(** A fold that writes each row of the scan at most once. *)
Lemma find_one_foldl (g : K * V -> table K V -> table K V) (o : K * V -> option V -> option V) l t k :
  (forall r t k', find_one k' (g r t) = if decide (r.1 = k') then o r (find_one k' t) else find_one k' t) ->
  NoDup l.*1 ->
  find_one k (foldl (fun t r => g r t) t l) =
    match Mem.find l k with Some v => o (k, v) (find_one k t) | None => find_one k t end.
Proof.
  intros Hg. revert t. induction l as [|[a b] l IH]; intros t Hnd; [done|].
  csimpl in Hnd. apply NoDup_cons in Hnd as [Hni Hnd]. simpl.
  rewrite (IH _ Hnd), !Hg. simpl. case_decide; [subst|done].
  destruct (Mem.find l k) as [v|] eqn:Hv; [|done].
  exfalso. apply Hni. apply Mem.find_elem in Hv; [|done].
  apply list_elem_of_fmap. by exists (k, v).
Qed.

Lemma find_one_update_where p f t k :
  find_one k (update_where p f t) =
    (fun v => if p k v then f v else v) <$> find_one k t.
Proof.
  unfold update_where.
  rewrite (find_one_foldl (fun r t => if p r.1 r.2 then save r.1 (f r.2) t else t)
             (fun r o => if p r.1 r.2 then Some (f r.2) else o)).
  - rewrite find_rows. destruct (find_one k t); [|done]. simpl. by case_match.
  - intros [a b] t' k'. simpl. case_match; [apply find_one_save|]. by case_decide.
  - apply NoDup_rows.
Qed.

Lemma find_one_delete_where p t k :
  find_one k (delete_where p t) =
    match find_one k t with
    | Some v => if p k v then None else Some v
    | None => None
    end.
Proof.
  unfold delete_where.
  rewrite (find_one_foldl (fun r t => if p r.1 r.2 then remove r.1 t else t)
             (fun r o => if p r.1 r.2 then None else o)).
  - rewrite find_rows. destruct (find_one k t); [|done]. simpl. by case_match.
  - intros [a b] t' k'. simpl. case_match; [apply find_one_remove|]. by case_decide.
  - apply NoDup_rows.
Qed.

(** [update] seen on the whole table: every row in place, the matching ones
    changed. *)
Lemma rows_update_where p f t :
  rows (update_where p f t) ≡ₚ (fun r => (r.1, if p r.1 r.2 then f r.2 else r.2)) <$> rows t.
Proof.
  apply NoDup_Permutation.
  - apply (NoDup_fmap_1 fst), NoDup_rows.
  - apply (NoDup_fmap_1 fst). rewrite <-list_fmap_compose. apply NoDup_rows.
  - intros [k v]. rewrite elem_of_rows, find_one_update_where, list_elem_of_fmap, fmap_Some.
    split.
    + intros (w & Hw & ->). exists (k, w). split; [done|]. by apply elem_of_rows.
    + intros ([k' w] & Heq & Hw). simplify_eq/=. exists w. split; [|done].
      by apply elem_of_rows.
Qed.

(** [delete] seen on the whole table. *)
Lemma rows_delete_where p t : rows (delete_where p t) ≡ₚ List.filter (fun r => negb (p r.1 r.2)) (rows t).
Proof.
  apply NoDup_Permutation.
  - apply (NoDup_fmap_1 fst), NoDup_rows.
  - apply (NoDup_fmap_1 fst), (NoDup_fmap_filter fst), NoDup_rows.
  - intros [k v]. rewrite elem_of_List_filter, !elem_of_rows, find_one_delete_where.
    destruct (find_one k t) as [w|]; [|naive_solver]. simpl.
    destruct (p k w) eqn:Hp; split; [done| |intros [= ->]; by rewrite Hp|by intros [? _]].
    intros [[= ->] Hn]. by rewrite Hp in Hn.
Qed.

Lemma count_where_update q p f t :
  count_where q (update_where p f t) =
    count_where (fun k v => q k (if p k v then f v else v)) t.
Proof.
  unfold count_where. rewrite rows_update_where. f_equal.
  induction (rows t) as [|[k v] l IH]; [done|]. csimpl. case_match; simpl; by rewrite IH.
Qed.

Lemma count_where_ext p q t :
  (forall k v, find_one k t = Some v -> p k v = q k v) -> count_where p t = count_where q t.
Proof.
  intros Hpq. unfold count_where. do 2 f_equal. apply List.filter_ext_in.
  intros [k v] Hin. apply Hpq. by apply elem_of_rows, list_elem_of_In.
Qed.

Lemma count_where_false t : count_where (fun _ _ => false) t = 0%Z.
Proof. unfold count_where. induction (rows t); [done|]. simpl. done. Qed.

Lemma count_where_save_new p k v t :
  find_one k t = None ->
  count_where p (save k v t) = ((if p k v then 1 else 0) + count_where p t)%Z.
Proof.
  intros Hk. unfold count_where. rewrite (rows_save_new k v t Hk). simpl.
  case_match; simpl; lia.
Qed.
End bulk.
