(* ===== verification/JsValue.v ===== *)
(** * JavaScript values: the decoded payload of a contract event

    [data: Record<string, unknown>] of [contract_events] is a decoded JSON
    value.  This file models the conversions the services apply to it:
    [String(v)], [BigInt(s)], [v ?? w], [Number(v)], [new Date(n)] and
    truthiness.  Amounts are kept as decimal strings in the database, as the
    source keeps them; [BigInt_of_string_to_string] is the round trip that
    makes that representation exact. *)
From Stdlib Require Import ZArith Lia DecimalString DecimalZ DecimalFacts.
From Stdlib Require Import SpecFloat Ascii.
From stdpp Require Import base list strings.
From S2P Require Import Prelude.
Local Open Scope Z_scope.

(** ** Decimal printing and parsing of [bigint] *)

(** [n.toString()] of a [bigint]. *)
Definition Z_to_string (n : Z) : string := NilZero.string_of_int (Z.to_int n).

Definition is_space (c : ascii) : bool :=
  match N_of_ascii c with
  | 9 | 10 | 11 | 12 | 13 | 32 | 160 => true
  | _ => false
  end%N.

Fixpoint trim_start (s : string) : string :=
  match s with
  | String c s' => if is_space c then trim_start s' else s
  | EmptyString => EmptyString
  end.

Fixpoint trim_end (s : string) : string :=
  match s with
  | EmptyString => EmptyString
  | String c s' =>
      match trim_end s' with
      | EmptyString => if is_space c then EmptyString else String c EmptyString
      | s'' => String c s''
      end
  end.

(** [s.trim()]. *)
Definition trim (s : string) : string := trim_end (trim_start s).

(** The value of a digit in radix 2, 8 or 16. *)
Definition digit_value (radix : Z) (c : ascii) : option Z :=
  let n := Z.of_N (N_of_ascii c) in
  let d := if (48 <=? n) && (n <=? 57) then Some (n - 48)
           else if (97 <=? n) && (n <=? 102) then Some (n - 87)
           else if (65 <=? n) && (n <=? 70) then Some (n - 55)
           else None in
  match d with
  | Some v => if v <? radix then Some v else None
  | None => None
  end.

Fixpoint radix_digits (radix acc : Z) (s : string) : option Z :=
  match s with
  | EmptyString => Some acc
  | String c s' =>
      match digit_value radix c with
      | Some d => radix_digits radix (acc * radix + d) s'
      | None => None
      end
  end.

Definition radix_literal (radix : Z) (s : string) : option Z :=
  match s with EmptyString => None | _ => radix_digits radix 0 s end.

(** [BigInt(s)] of a string, [None] for the [SyntaxError] it throws: blanks
    around are ignored, the empty string is [0n], a sign is allowed on decimal
    digits, [0x], [0o] and [0b] prefix an unsigned literal. *)
Definition BigInt_of_string (s : string) : option Z :=
  match trim s with
  | EmptyString => Some 0
  | String "0" (String ("x" | "X") s') => radix_literal 16 s'
  | String "0" (String ("o" | "O") s') => radix_literal 8 s'
  | String "0" (String ("b" | "B") s') => radix_literal 2 s'
  | String "+" s' => option_map (fun u => Z.of_int (Decimal.Pos u)) (NilZero.uint_of_string s')
  | s' => option_map Z.of_int (NilZero.int_of_string s')
  end%char.

(** [BigInt(s)] in a service method: throws on a malformed string. *)
Definition BigInt {St} (s : string) : M St Z :=
  of_option (SyntaxError ("Cannot convert " +:+ s +:+ " to a BigInt"))
            (BigInt_of_string s).

(** *** The round trip *)

Definition decimal_char (c : ascii) : bool :=
  let n := N_of_ascii c in ((48 <=? n) && (n <=? 57))%N.

Fixpoint all_chars (p : ascii -> bool) (s : string) : bool :=
  match s with
  | EmptyString => true
  | String c s' => p c && all_chars p s'
  end.

Lemma string_of_uint_digits d : all_chars decimal_char (NilEmpty.string_of_uint d) = true.
Proof. induction d; simpl; by rewrite ?IHd. Qed.

Lemma decimal_not_space c : decimal_char c = true -> is_space c = false.
Proof.
  unfold decimal_char, is_space. intros [H1 H2]%andb_true_iff.
  apply N.leb_le in H1, H2.
  assert (Hn : exists k, N_of_ascii c = (48 + k)%N) by (exists (N_of_ascii c - 48)%N; lia).
  destruct Hn as [k Hk].
  repeat match goal with |- context [match ?x with _ => _ end] => destruct x; try lia; try done end.
Qed.

Lemma trim_end_digits s : all_chars decimal_char s = true -> trim_end s = s.
Proof.
  induction s as [|c s IH]; simpl; [done|]. intros [Hc Hs]%andb_true_iff.
  rewrite (IH Hs). destruct s; [|done]. by rewrite decimal_not_space.
Qed.

Lemma trim_digits s : all_chars decimal_char s = true -> trim s = s.
Proof.
  intros Hs. unfold trim. destruct s as [|c s]; [done|]. simpl in *.
  apply andb_true_iff in Hs as [Hc Hs]. rewrite decimal_not_space by done.
  apply trim_end_digits. simpl. by rewrite Hc, Hs.
Qed.

Lemma trim_neg_digits s :
  s ≠ ""%string -> all_chars decimal_char s = true -> trim (String "-" s) = String "-" s.
Proof.
  intros Hne Hs. unfold trim. simpl. rewrite trim_end_digits by done.
  by destruct s.
Qed.

Lemma BigInt_of_digits s :
  s ≠ ""%string -> all_chars decimal_char s = true ->
  BigInt_of_string s = option_map Z.of_int (NilZero.int_of_string s).
Proof.
  intros Hne Hs. unfold BigInt_of_string. rewrite trim_digits by done.
  destruct s as [|c s]; [done|]. simpl in Hs. apply andb_true_iff in Hs as [Hc Hs].
  destruct c as [[] [] [] [] [] [] [] []]; try discriminate Hc; try reflexivity.
  destruct s as [|d s]; [reflexivity|]. simpl in Hs. apply andb_true_iff in Hs as [Hd _].
  destruct d as [[] [] [] [] [] [] [] []]; try discriminate Hd; reflexivity.
Qed.

Lemma BigInt_of_neg_digits s :
  s ≠ ""%string -> all_chars decimal_char s = true ->
  BigInt_of_string (String "-" s) = option_map Z.of_int (NilZero.int_of_string (String "-" s)).
Proof. intros Hne Hs. unfold BigInt_of_string. by rewrite trim_neg_digits. Qed.

Lemma string_of_uint_nonempty d :
  NilZero.string_of_uint d ≠ ""%string /\
  all_chars decimal_char (NilZero.string_of_uint d) = true.
Proof.
  split; [by destruct d|]. destruct d; try apply string_of_uint_digits. done.
Qed.

(** Parsing what [toString] prints gives the integer back. *)
Lemma BigInt_of_string_to_string (n : Z) : BigInt_of_string (Z_to_string n) = Some n.
Proof.
  unfold Z_to_string.
  pose proof (NilZero.isi (Z.to_int n)) as Hisi.
  assert (Hnn : Z.to_int n ≠ Decimal.Pos Decimal.Nil /\ Z.to_int n ≠ Decimal.Neg Decimal.Nil).
  { split; destruct n; simpl; try done; intros [= Heq];
      pose proof (DecimalPos.Unsigned.to_uint_nonnil p); congruence. }
  specialize (Hisi (proj1 Hnn) (proj2 Hnn)).
  destruct (Z.to_int n) as [d|d] eqn:Hn; simpl in *;
    destruct (string_of_uint_nonempty d) as [Hne Hd].
  - rewrite BigInt_of_digits, Hisi by done. simpl. f_equal.
    rewrite <-(DecimalZ.of_to n), Hn. done.
  - rewrite BigInt_of_neg_digits by done. simpl in *. rewrite Hisi. simpl. f_equal.
    rewrite <-(DecimalZ.of_to n), Hn. done.
Qed.

Lemma Z_to_string_inj n m : Z_to_string n = Z_to_string m -> n = m.
Proof.
  intros H. apply (f_equal BigInt_of_string) in H.
  rewrite !BigInt_of_string_to_string in H. congruence.
Qed.

Example BigInt_examples :
  BigInt_of_string " 0x1F " = Some 31 /\ BigInt_of_string "" = Some 0 /\
  BigInt_of_string "-42" = Some (-42) /\ BigInt_of_string "1.5" = None /\
  BigInt_of_string "+7" = Some 7 /\ BigInt_of_string "undefined" = None /\
  Z_to_string (-1200) = "-1200"%string.
Proof. repeat split; vm_compute; reflexivity. Qed.

(** ** [unknown] values *)

(** A decoded payload value.  [VNum] is an integral [number] in the safe range
    (the contracts emit integers only; larger ones are decoded as strings or
    [bigint]s). *)
Inductive jsval :=
| VUndef
| VNull
| VBool (b : bool)
| VNum (z : Z)
| VBigInt (z : Z)
| VStr (s : string)
| VArr (l : list jsval)
| VObj (fields : list (string * jsval)).

(** [Record<string, unknown>]. *)
Definition record : Type := list (string * jsval).

(** [data.key]: [undefined] when the record has no such key. *)
Fixpoint prop (data : record) (key : string) : jsval :=
  match data with
  | [] => VUndef
  | (k, v) :: data' => if decide (k = key) then v else prop data' key
  end.

Notation "data .[ key ]" := (prop data key)
  (at level 1, left associativity, format "data .[ key ]") : js_scope.

(** [v ?? w]. *)
Definition nullish (v w : jsval) : jsval :=
  match v with VUndef | VNull => w | _ => v end.
Infix "??" := nullish (at level 61, left associativity) : js_scope.

Definition truthy (v : jsval) : bool :=
  match v with
  | VUndef | VNull => false
  | VBool b => b
  | VNum z | VBigInt z => negb (z =? 0)
  | VStr s => bool_decide (s ≠ ""%string)
  | VArr _ | VObj _ => true
  end.

Fixpoint join_with (sep : string) (l : list string) : string :=
  match l with
  | [] => ""
  | [s] => s
  | s :: l' => s +:+ sep +:+ join_with sep l'
  end.

(** [String(v)]. *)
Fixpoint js_String (v : jsval) : string :=
  match v with
  | VUndef => "undefined"
  | VNull => "null"
  | VBool true => "true"
  | VBool false => "false"
  | VNum z | VBigInt z => Z_to_string z
  | VStr s => s
  | VArr l =>
      join_with "," (map (fun w => match w with VUndef | VNull => ""%string | _ => js_String w end) l)
  | VObj _ => "[object Object]"
  end.

(** [typeof v === 'string'], with the string. *)
Definition as_string (v : jsval) : option string :=
  match v with VStr s => Some s | _ => None end.

(** ** Numbers as IEEE doubles, where the source computes with them *)

Definition prec : Z := 53.
Definition emax : Z := 1024.
Definition number : Type := spec_float.

Definition num_of_Z (z : Z) : number := binary_normalize prec emax z 0 false.
Definition num_mul : number -> number -> number := SFmul prec emax.
Definition num_neg_if (neg : bool) (f : number) : number := if neg then SFopp f else f.

(** The double nearest to [m * 10^e], [m >= 0]. *)
Definition num_of_decimal (m e : Z) : number :=
  if 0 <=? e then num_of_Z (m * 10 ^ e)
  else match m with
       | Zpos p => SFdiv prec emax (S754_finite false p 0)
                         (S754_finite false (Z.to_pos (10 ^ (- e))) 0)
       | _ => S754_zero false
       end.

(** Reads decimal digits: their value after [acc], how many, and the rest. *)
Fixpoint take_digits (acc n : Z) (s : string) : Z * Z * string :=
  match s with
  | EmptyString => (acc, n, s)
  | String c s' =>
      match digit_value 10 c with
      | Some d => take_digits (acc * 10 + d) (n + 1) s'
      | None => (acc, n, s)
      end
  end.

Definition parse_exponent (s : string) : option Z :=
  let '(neg, s') := match s with
                    | String "+" r => (false, r)
                    | String "-" r => (true, r)
                    | _ => (false, s)
                    end%char in
  match take_digits 0 0 s' with
  | (e, n, EmptyString) => if n =? 0 then None else Some (if neg : bool then - e else e)
  | _ => None
  end.

(** [StrUnsignedDecimalLiteral]. *)
Definition parse_unsigned_decimal (s : string) : number :=
  if decide (s = "Infinity"%string) then S754_infinity false
  else
    let '(m1, n1, r1) := take_digits 0 0 s in
    let '(m2, n2, r2) := match r1 with
                         | String "." r => take_digits m1 0 r
                         | _ => (m1, 0, r1)
                         end%char in
    if n1 + n2 =? 0 then S754_nan
    else match r2 with
         | EmptyString => num_of_decimal m2 (- n2)
         | String ("e" | "E") r3 =>
             match parse_exponent r3 with
             | Some e => num_of_decimal m2 (e - n2)
             | None => S754_nan
             end
         | _ => S754_nan
         end%char.

Definition num_of_radix (o : option Z) : number :=
  match o with Some z => num_of_Z z | None => S754_nan end.

(** [Number(s)] of a string. *)
Definition Number_of_string (s : string) : number :=
  match trim s with
  | EmptyString => num_of_Z 0
  | String "0" (String ("x" | "X") s') => num_of_radix (radix_literal 16 s')
  | String "0" (String ("o" | "O") s') => num_of_radix (radix_literal 8 s')
  | String "0" (String ("b" | "B") s') => num_of_radix (radix_literal 2 s')
  | String "+" s' => parse_unsigned_decimal s'
  | String "-" s' => SFopp (parse_unsigned_decimal s')
  | s' => parse_unsigned_decimal s'
  end%char.

(** [Number(v)]. *)
Definition js_Number (v : jsval) : number :=
  match v with
  | VUndef => S754_nan
  | VNull => num_of_Z 0
  | VBool b => num_of_Z (if b then 1 else 0)
  | VNum z | VBigInt z => num_of_Z z
  | VStr s => Number_of_string s
  | VArr _ | VObj _ => Number_of_string (js_String v)
  end.

(** The integer part of a finite double. *)
Definition num_trunc (f : number) : option Z :=
  match f with
  | S754_zero _ => Some 0
  | S754_finite s m e =>
      let a := if 0 <=? e then Zpos m * 2 ^ e else Zpos m / 2 ^ (- e) in
      Some (if s then - a else a)
  | _ => None
  end.

(** A [Date] as its time value in milliseconds, [None] for an invalid one. *)
Definition Date : Type := option Z.

(** [new Date(n)]: TimeClip. *)
Definition Date_of_number (f : number) : Date :=
  match num_trunc f with
  | Some t => if Z.abs t <=? 8640000000000000 then Some t else None
  | None => None
  end.

(** [toDate(value)]: a ledger timestamp in seconds, as the indexer and the
    projection service convert it. *)
Definition toDate (value : jsval) : Date :=
  let seconds := match value with
                 | VBigInt _ => js_Number value
                 | _ => js_Number (value ?? VNum 0)
                 end in
  Date_of_number (num_mul seconds (num_of_Z 1000)).

(** A date written to a [timestamptz] column: an invalid [Date] is rejected by the
    database with [invalid_datetime_format]. *)
Definition timestamptz {St} (d : Date) : M St Z := of_option (DatabaseError "22007") d.

Example toDate_examples :
  toDate (VNum 1700000000) = Some 1700000000000 /\
  toDate (VStr "1700000000") = Some 1700000000000 /\
  toDate (VBigInt 1700000000) = Some 1700000000000 /\
  toDate (VStr "1.5e0") = Some 1500 /\ toDate VUndef = Some 0 /\
  toDate (VStr "soon") = None.
Proof. repeat split; vm_compute; reflexivity. Qed.
