(* ===== verification/JsText.v ===== *)
(** * JavaScript strings as sequences of UTF-16 code units

    The frontend's parsers look at characters outside ASCII (the separators of a
    locale), so their strings are lists of code units.  This file models the string
    methods and regular expressions they use and the decimal notation of integers. *)
From Stdlib Require Import ZArith Lia Ascii DecimalString DecimalN DecimalFacts.
From stdpp Require Import base list strings.
From S2P Require Import Prelude JsValue.
Local Open Scope Z_scope.

Definition text : Type := list Z.

Definition unit_of (c : ascii) : Z := Z.of_N (N_of_ascii c).
(** A literal of the source, which is ASCII. *)
Definition units (s : string) : text := unit_of <$> String.list_ascii_of_string s.

(** [\d]. *)
Definition is_dec (c : Z) : bool := (48 <=? c) && (c <=? 57).

(** [\s], which is also what [trim] removes. *)
Definition is_blank (c : Z) : bool :=
  ((9 <=? c) && (c <=? 13)) || (c =? 32) || (c =? 160) || (c =? 5760) ||
  ((8192 <=? c) && (c <=? 8202)) || (c =? 8232) || (c =? 8233) || (c =? 8239) ||
  (c =? 8287) || (c =? 12288) || (c =? 65279).

Fixpoint drop_blanks (u : text) : text :=
  match u with
  | c :: u' => if is_blank c then drop_blanks u' else u
  | [] => []
  end.

(** [u.trim()]. *)
Definition text_trim (u : text) : text := rev (drop_blanks (rev (drop_blanks u))).

Fixpoint starts_with (p u : text) : bool :=
  match p, u with
  | [], _ => true
  | x :: p', y :: u' => (x =? y) && starts_with p' u'
  | _, _ => false
  end.

(** [u.indexOf(p)], [None] for -1. *)
Fixpoint index_of (p u : text) : option nat :=
  if starts_with p u then Some O
  else match u with [] => None | _ :: u' => S <$> index_of p u' end.

(** [u.includes(p)]. *)
Definition includes (p u : text) : bool :=
  match index_of p u with Some _ => true | None => false end.

(** Removes the matches of a pattern of [len] code units, left to right, none
    overlapping. *)
Fixpoint remove_matches (m : text -> bool) (len skip : nat) (u : text) : text :=
  match u with
  | [] => []
  | c :: u' =>
      match skip with
      | S k => remove_matches m len k u'
      | O => if m u then remove_matches m len (pred len) u' else c :: remove_matches m len O u'
      end
  end.

(** [u.split(p).join('')]. *)
Definition remove_all (p u : text) : text :=
  match p with [] => u | _ => remove_matches (starts_with p) (length p) O u end.

Definition padStart (n : nat) (c : Z) (u : text) : text := replicate (n - length u) c ++ u.
Definition padEnd (n : nat) (c : Z) (u : text) : text := u ++ replicate (n - length u) c.

(** [u.replace(/0+$/, '')]. *)
Definition strip_zeros (u : text) : text :=
  foldr (fun c acc => match acc with [] => if c =? 48 then [] else [c] | _ => c :: acc end) [] u.

(** [n.toString()]. *)
Definition dec (n : Z) : text := units (Z_to_string n).

(** [BigInt(u)] of decimal digits. *)
Definition digits_value (u : text) : Z := foldl (fun a c => 10 * a + (c - 48)) 0 u.

(** ** Lemmas *)

Lemma foldl_value u a :
  foldl (fun a c => 10 * a + (c - 48)) a u = a * 10 ^ Z.of_nat (length u) + digits_value u.
Proof.
  unfold digits_value. revert a. induction u as [|c u IH]; intros a; cbn [foldl length].
  - change (10 ^ Z.of_nat 0) with 1. lia.
  - rewrite (IH (10 * a + (c - 48))), (IH (10 * 0 + (c - 48))).
    rewrite Nat2Z.inj_succ, Z.pow_succ_r by lia. lia.
Qed.

Lemma digits_value_cons c u :
  digits_value (c :: u) = (c - 48) * 10 ^ Z.of_nat (length u) + digits_value u.
Proof. unfold digits_value at 1. simpl. rewrite foldl_value. lia. Qed.

Lemma digits_value_app u v :
  digits_value (u ++ v) = digits_value u * 10 ^ Z.of_nat (length v) + digits_value v.
Proof. unfold digits_value at 1. rewrite foldl_app. apply foldl_value. Qed.

Lemma digits_value_zeros n : digits_value (replicate n 48) = 0.
Proof. induction n as [|n IH]; [done|]. simpl replicate. rewrite digits_value_cons, IH. lia. Qed.

Lemma digits_value_bounds u :
  Forall (fun c => is_dec c = true) u -> 0 <= digits_value u < 10 ^ Z.of_nat (length u).
Proof.
  induction 1 as [|c u Hc Hu IH]; [done|]. rewrite digits_value_cons. cbn [length].
  rewrite Nat2Z.inj_succ, Z.pow_succ_r by lia. unfold is_dec in Hc.
  apply andb_true_iff in Hc as [H1 H2]. apply Z.leb_le in H1, H2. nia.
Qed.

Lemma replicate_dec n : Forall (fun c => is_dec c = true) (replicate n 48).
Proof. by apply Forall_replicate. Qed.

(** *** Decimal notation *)

Lemma units_uint_dec d : Forall (fun c => is_dec c = true) (units (NilEmpty.string_of_uint d)).
Proof. unfold units. induction d; csimpl; try constructor; done. Qed.

Lemma value_uint_acc d p :
  foldl (fun a c => 10 * a + (c - 48)) (Zpos p) (units (NilEmpty.string_of_uint d)) =
    Zpos (Pos.of_uint_acc d p).
Proof.
  unfold units. revert p. induction d; intros p; [done|..]; csimpl; rewrite <-IHd; f_equal;
    match goal with |- context [unit_of ?c] => let v := eval vm_compute in (unit_of c) in
      change (unit_of c) with v end; lia.
Qed.

Lemma value_uint d : digits_value (units (NilEmpty.string_of_uint d)) = Z.of_N (N.of_uint d).
Proof.
  unfold N.of_uint. induction d; [done|exact IHd|..]; apply value_uint_acc.
Qed.

Lemma length_uint_acc d p :
  Zpos p * 10 ^ Z.of_nat (length (units (NilEmpty.string_of_uint d))) <= Zpos (Pos.of_uint_acc d p).
Proof.
  rewrite <-value_uint_acc, foldl_value.
  pose proof (digits_value_bounds _ (units_uint_dec d)). lia.
Qed.

Lemma dec_uint n : 0 <= n -> exists d, Z_to_string n = NilZero.string_of_uint d /\ d = N.to_uint (Z.to_N n).
Proof. intros Hn. exists (N.to_uint (Z.to_N n)). split; [|done]. by destruct n. Qed.

Lemma NilZero_uint d : d ≠ Decimal.Nil -> NilZero.string_of_uint d = NilEmpty.string_of_uint d.
Proof. by destruct d. Qed.

Lemma to_uint_nonnil n : N.to_uint n ≠ Decimal.Nil.
Proof. destruct n as [|p]; [done|]. apply DecimalPos.Unsigned.to_uint_nonnil. Qed.

Lemma dec_eq n : 0 <= n -> dec n = units (NilEmpty.string_of_uint (N.to_uint (Z.to_N n))).
Proof.
  intros Hn. unfold dec. destruct (dec_uint n Hn) as (d & -> & ->).
  by rewrite NilZero_uint by apply to_uint_nonnil.
Qed.

(** The notation of a natural number: digits only, and their value. *)
Lemma dec_digits n : 0 <= n -> Forall (fun c => is_dec c = true) (dec n).
Proof. intros Hn. rewrite dec_eq by done. apply units_uint_dec. Qed.

Lemma dec_value n : 0 <= n -> digits_value (dec n) = n.
Proof.
  intros Hn. rewrite dec_eq, value_uint, DecimalN.Unsigned.of_to by done. by apply Z2N.id.
Qed.

Lemma dec_nonempty n : 0 <= n -> dec n ≠ [].
Proof.
  intros Hn. rewrite dec_eq by done. pose proof (to_uint_nonnil (Z.to_N n)) as H.
  by destruct (N.to_uint (Z.to_N n)).
Qed.

(** No leading zero, hence no more digits than needed. *)
Lemma dec_length n k : 0 <= n < 10 ^ Z.of_nat k -> (0 < k)%nat -> (length (dec n) <= k)%nat.
Proof.
  intros [Hn Hk] Hpos. destruct (Z.eq_dec n 0) as [->|Hne]; [exact Hpos|].
  pose proof (dec_value n Hn) as Hv. rewrite dec_eq in * by done.
  set (d := N.to_uint (Z.to_N n)) in *.
  assert (Hnorm : Decimal.unorm d = d).
  { unfold d. by rewrite <-DecimalN.Unsigned.to_of, DecimalN.Unsigned.of_to. }
  rewrite value_uint in Hv. clearbody d.
  assert (Hhead : forall d', d ≠ Decimal.D0 d').
  { intros d' Hd. rewrite Hd in Hnorm, Hv. unfold Decimal.unorm in Hnorm. simpl in Hnorm.
    destruct (Decimal.nzhead d') eqn:Hz; try discriminate Hnorm.
    - injection Hnorm as <-. simpl in Hv. lia.
    - eapply DecimalFacts.nzhead_nonzero. exact Hz. }
  assert (Hle : 10 ^ (Z.of_nat (length (units (NilEmpty.string_of_uint d))) - 1) <= n).
  { rewrite <-Hv. revert Hv Hhead Hne. destruct d; intros Hv Hhead Hne;
      [exfalso; simpl in Hv; lia|exfalso; exact (Hhead _ eq_refl)|..];
      unfold N.of_uint, Pos.of_uint; cbn [NilEmpty.string_of_uint];
      match goal with |- context [Pos.of_uint_acc ?d ?p] => pose proof (length_uint_acc d p) as Hl end;
      unfold units in *; csimpl; rewrite Nat2Z.inj_succ;
      match goal with |- 10 ^ (Z.succ ?x - 1) <= _ => replace (Z.succ x - 1) with x by lia end;
      cbn [Z.of_N]; nia. }
  apply Nat.nlt_ge. intros Hlt.
  assert (10 ^ Z.of_nat k <= 10 ^ (Z.of_nat (length (units (NilEmpty.string_of_uint d))) - 1)).
  { apply Z.pow_le_mono_r; lia. }
  lia.
Qed.

(** *** Searching for one code unit *)

Lemma index_of_absent c u : c ∉ u -> index_of [c] u = None.
Proof.
  induction u as [|x u IH]; [done|]. rewrite not_elem_of_cons. intros [Hx Hu]. simpl.
  destruct (Z.eqb_spec c x); [done|]. simpl. by rewrite IH.
Qed.

Lemma index_of_first c u v : c ∉ u -> index_of [c] (u ++ c :: v) = Some (length u).
Proof.
  induction u as [|x u IH].
  - intros _. simpl. by rewrite Z.eqb_refl.
  - rewrite not_elem_of_cons. intros [Hx Hu]. simpl.
    destruct (Z.eqb_spec c x); [done|]. simpl. by rewrite IH.
Qed.

Lemma includes_false c u : includes [c] u = false -> c ∉ u.
Proof.
  unfold includes. induction u as [|x u IH]; [intros _; apply not_elem_of_nil|]. simpl.
  destruct (Z.eqb_spec c x) as [->|Hx]; [done|]. simpl.
  destruct (index_of [c] u); [done|]. intros _. apply not_elem_of_cons. auto.
Qed.

Lemma remove_all_one c u : remove_all [c] u = List.filter (fun x => negb (x =? c)) u.
Proof.
  unfold remove_all. cbn [length].
  assert (Hm : forall x u, starts_with [c] (x :: u) = (x =? c)).
  { intros x u'. simpl. by rewrite andb_true_r, Z.eqb_sym. }
  induction u as [|x u IH]; [done|].
  cbn [remove_matches pred List.filter]. rewrite Hm, IH. by destruct (x =? c).
Qed.

Lemma filter_all {A} (p : A -> bool) l : Forall (fun x => p x = true) l -> List.filter p l = l.
Proof. induction 1 as [|x l Hx Hl IH]; [done|]. simpl. by rewrite Hx, IH. Qed.

Lemma forallb_Forall_true {A} (p : A -> bool) l : Forall (fun x => p x = true) l -> forallb p l = true.
Proof. induction 1 as [|x l Hx Hl IH]; [done|]. simpl. by rewrite Hx, IH. Qed.

Lemma drop_blanks_none u : Forall (fun c => is_blank c = false) u -> drop_blanks u = u.
Proof. destruct 1 as [|c u Hc]; [done|]. simpl. by rewrite Hc. Qed.

Lemma text_trim_none u : Forall (fun c => is_blank c = false) u -> text_trim u = u.
Proof.
  intros Hu. unfold text_trim. rewrite (drop_blanks_none u Hu), drop_blanks_none by by apply Forall_rev.
  apply rev_involutive.
Qed.

Lemma dec_not_blank c : is_dec c = true -> is_blank c = false.
Proof.
  unfold is_dec, is_blank. rewrite andb_true_iff, !Z.leb_le. intros [H1 H2].
  repeat (apply orb_false_iff; split); try (apply Z.eqb_neq; lia);
    apply andb_false_iff; rewrite !Z.leb_gt; lia.
Qed.
