(* ===== verification/JsNumber.v ===== *)
(** * JavaScript numbers: [Math], [parseFloat], [toString]

    A [number] is an IEEE double ([spec_float] with 53 bits of precision); the
    operations are those of the language, rounded to nearest even. *)
From Stdlib Require Import ZArith Lia SpecFloat Ascii.
From stdpp Require Import base list strings.
From S2P Require Import Prelude JsValue.
Local Open Scope Z_scope.

Definition num_add : number -> number -> number := SFadd prec emax.
Definition num_sub : number -> number -> number := SFsub prec emax.
Definition num_div : number -> number -> number := SFdiv prec emax.
Definition num_ltb : number -> number -> bool := SFltb.
Definition num_leb : number -> number -> bool := SFleb.
Definition num_nan (f : number) : bool := match f with S754_nan => true | _ => false end.

Definition num_finite (f : number) : bool :=
  match f with S754_zero _ | S754_finite _ _ _ => true | _ => false end.

(** [Math.max(a, b)] and [Math.min(a, b)]: [NaN] if either is; the sign of zero
    does not matter to any caller. *)
Definition Math_max (a b : number) : number :=
  if num_nan a || num_nan b then S754_nan else if num_ltb a b then b else a.
Definition Math_min (a b : number) : number :=
  if num_nan a || num_nan b then S754_nan else if num_ltb b a then b else a.

(** The floor of [m * 2^e]. *)
Definition floor_dyadic (m e : Z) : Z :=
  if 0 <=? e then m * 2 ^ e else m / 2 ^ (- e).

(** [Math.floor(f)] as an integer, [None] when [f] is not finite. *)
Definition num_floor (f : number) : option Z :=
  match f with
  | S754_zero _ => Some 0
  | S754_finite s m e => Some (floor_dyadic (if s then - Zpos m else Zpos m) e)
  | _ => None
  end.

(** [Math.round(f)]: halves round up. *)
Definition num_round (f : number) : option Z :=
  match f with
  | S754_zero _ => Some 0
  | S754_finite s m e =>
      let n := if s then - Zpos m else Zpos m in
      Some (if 0 <=? e then n * 2 ^ e else (n * 2 + 2 ^ (- e)) / (2 * 2 ^ (- e)))
  | _ => None
  end.

(** [Math.floor(f)] as a number. *)
Definition Math_floor (f : number) : number :=
  match num_floor f with Some z => num_of_Z z | None => f end.

(** ** [Number.prototype.toString] *)

(** The number of decimal digits of the integer part of [p / q], [p, q > 0];
    zero or negative below one. *)
Fixpoint digits_up (fuel : nat) (n p q : Z) : Z :=
  match fuel with
  | O => n
  | S fuel' => if p <? q * 10 ^ n then n else digits_up fuel' (n + 1) p q
  end.
Fixpoint digits_down (fuel : nat) (n p q : Z) : Z :=
  match fuel with
  | O => n
  | S fuel' => if p * 10 ^ (- n + 1) <? q then digits_down fuel' (n - 1) p q else n
  end.

(** [10^(n-1) <= p / q < 10^n]: the doubles lie between 1e-324 and 1e309. *)
Definition decimal_exponent (p q : Z) : Z :=
  if q <=? p then digits_up 310 1 p q else digits_down 330 0 p q.

(** The shortest digits [s] of length [k] with [s * 10^(n-k)] rounding to [f]:
    tries the lengths upwards, and of the two neighbours the closest. *)
Fixpoint shortest (fuel : nat) (k n p q : Z) (f : number) : Z * Z :=
  match fuel with
  | O => (k, p / q)
  | S fuel' =>
      let a := if n - k <? 0 then p * 10 ^ (k - n) else p in
      let b := if n - k <? 0 then q else q * 10 ^ (n - k) in
      let s := a / b in
      let near := if 2 * (a - s * b) <? b then [s; s + 1] else [s + 1; s] in
      match List.filter (fun c => SFeqb (num_of_decimal c (n - k)) f && (c <? 10 ^ k)) near with
      | c :: _ => (k, c)
      | [] => shortest fuel' (k + 1) n p q f
      end
  end.

Fixpoint repeat_char (n : nat) (c : ascii) : string :=
  match n with O => ""%string | S n' => String c (repeat_char n' c) end.

(** The notations of [Number::toString] for digits [s] of length [k] and
    decimal exponent [n]. *)
Definition format_digits (k n s : Z) : string :=
  let ds := Z_to_string s in
  if (k <=? n) && (n <=? 21) then ds +:+ repeat_char (Z.to_nat (n - k)) "0"
  else if (0 <? n) && (n <=? 21) then
    String.substring 0 (Z.to_nat n) ds +:+ "." +:+
    String.substring (Z.to_nat n) (Z.to_nat (k - n)) ds
  else if (-6 <? n) && (n <=? 0) then "0." +:+ repeat_char (Z.to_nat (- n)) "0" +:+ ds
  else
    let e := n - 1 in
    let mant := if k =? 1 then ds
                else String.substring 0 1 ds +:+ "." +:+ String.substring 1 (Z.to_nat (k - 1)) ds in
    mant +:+ "e" +:+ (if 0 <=? e then "+" else "") +:+ Z_to_string e.

(** [f.toString()]. *)
Definition num_to_string (f : number) : string :=
  match f with
  | S754_nan => "NaN"
  | S754_infinity s => if s then "-Infinity" else "Infinity"
  | S754_zero _ => "0"
  | S754_finite sg m e =>
      let p := if 0 <=? e then Zpos m * 2 ^ e else Zpos m in
      let q := if 0 <=? e then 1 else 2 ^ (- e) in
      let n := decimal_exponent p q in
      let '(k, s) := shortest 18 1 n p q (S754_finite false m e) in
      (if sg then "-" else "") +:+ format_digits k n s
  end.

(** ** [Number.prototype.toFixed] *)

(** The integer nearest to [p / q], the larger one of two. *)
Definition nearest (p q : Z) : Z := (2 * p + q) / (2 * q).

Definition fixed_digits (d n : Z) : string :=
  let ds := Z_to_string n in
  let padded := (repeat_char (Z.to_nat (d + 1 - Z.of_nat (String.length ds))) "0" +:+ ds)%string in
  let cut := (String.length padded - Z.to_nat d)%nat in
  if d =? 0 then ds
  else String.substring 0 cut padded +:+ "." +:+ String.substring cut (Z.to_nat d) padded.

(** [f.toFixed(d)], for [f] below 1e21. *)
Definition num_toFixed (d : Z) (f : number) : string :=
  match f with
  | S754_nan => "NaN"
  | S754_infinity s => if s then "-Infinity" else "Infinity"
  | S754_zero _ => fixed_digits d 0
  | S754_finite sg m e =>
      let p := (if 0 <=? e then Zpos m * 2 ^ e else Zpos m) * 10 ^ d in
      let q := if 0 <=? e then 1 else 2 ^ (- e) in
      (if sg then "-" else "") +:+ fixed_digits d (nearest p q)
  end.

Example toFixed_examples :
  num_toFixed 4 (num_of_Z 5) = "5.0000"%string /\
  num_toFixed 4 (num_div (num_of_Z 1) (num_of_Z 3)) = "0.3333"%string /\
  num_toFixed 2 (num_of_decimal 1005 (-3)) = "1.00"%string /\
  num_toFixed 2 (SFopp (num_of_decimal 25 (-1))) = "-2.50"%string /\
  num_toFixed 0 (num_of_decimal 25 (-1)) = "3"%string.
Proof. repeat split; vm_compute; reflexivity. Qed.

(** ** Order *)

Lemma SFcompare_antisym (a b : number) c :
  SFcompare a b = Some c -> SFcompare b a = Some (CompOpp c).
Proof.
  destruct a as [sa|sa| |sa ma ea], b as [sb|sb| |sb mb eb]; simpl; try done;
    try (destruct sa; intros [= <-]; done); try (destruct sb; intros [= <-]; done);
    try (destruct sa, sb; intros [= <-]; done); try (intros [= <-]; done).
  destruct sa, sb; try (intros [= <-]; done);
    rewrite (Z.compare_antisym ea eb); destruct (Z.compare ea eb) eqn:He; simpl; intros [= <-]; try done;
    rewrite (Pos.compare_cont_antisym ma mb); simpl; try rewrite CompOpp_involutive; try done.
Qed.

Lemma SFcompare_total (a b : number) : num_nan a = false -> num_nan b = false -> exists c, SFcompare a b = Some c.
Proof. destruct a as [[]|[]| |[] ma ea], b as [[]|[]| |[] mb eb]; simpl; try done; intros _ _; eauto. Qed.

Lemma SFcompare_refl (a : number) : num_nan a = false -> SFcompare a a = Some Eq.
Proof.
  destruct a as [[]|[]| |[] m e]; simpl; try done; intros _; rewrite Z.compare_refl; simpl; unfold Pos.compare;
    by rewrite Pos.compare_cont_refl.
Qed.

Lemma num_leb_refl a : num_nan a = false -> num_leb a a = true.
Proof. intros Ha. unfold num_leb, SFleb. by rewrite SFcompare_refl. Qed.

Lemma num_ltb_leb a b : num_ltb a b = true -> num_leb a b = true.
Proof. unfold num_ltb, SFltb, num_leb, SFleb. by destruct (SFcompare a b) as [[]|]. Qed.

Lemma num_ltb_false a b : num_nan a = false -> num_nan b = false -> num_ltb a b = false -> num_leb b a = true.
Proof.
  intros Ha Hb. destruct (SFcompare_total a b Ha Hb) as [c Hc]. unfold num_ltb, SFltb, num_leb, SFleb.
  rewrite Hc, (SFcompare_antisym _ _ _ Hc). by destruct c.
Qed.

(** [Math.max(lo, Math.min(hi, x))] lies between the bounds, unless [x] is [NaN]. *)
Lemma clamp_bounds lo hi x :
  num_nan lo = false -> num_nan hi = false -> num_leb lo hi = true -> num_nan x = false ->
  num_leb lo (Math_max lo (Math_min hi x)) = true /\ num_leb (Math_max lo (Math_min hi x)) hi = true.
Proof.
  intros Hlo Hhi Hle Hx. unfold Math_max, Math_min. rewrite Hhi, Hx. simpl.
  destruct (num_ltb x hi) eqn:Hxh.
  - rewrite Hlo, Hx. simpl. destruct (num_ltb lo x) eqn:Hlx.
    + split; by apply num_ltb_leb.
    + split; [by apply num_leb_refl|done].
  - rewrite Hlo, Hhi. simpl. destruct (num_ltb lo hi) eqn:Hlh.
    + split; [by apply num_ltb_leb|by apply num_leb_refl].
    + split; [by apply num_leb_refl|done].
Qed.

Lemma clamp_nan lo hi x : num_nan x = true -> Math_max lo (Math_min hi x) = S754_nan.
Proof. intros Hx. unfold Math_max, Math_min. rewrite Hx, orb_true_r. simpl. by rewrite orb_true_r. Qed.

Lemma num_mul_nan x : num_mul x S754_nan = S754_nan.
Proof. by destruct x. Qed.

Lemma num_add_nan x : num_add x S754_nan = S754_nan.
Proof. by destruct x. Qed.

(** ** [parseFloat] *)

(** The exponent part of a decimal prefix, [0] when it is not well formed. *)
Definition prefix_exponent (s : string) : Z :=
  match s with
  | String ("e" | "E") r =>
      let '(neg, r') := match r with
                        | String "+" r' => (false, r')
                        | String "-" r' => (true, r')
                        | _ => (false, r)
                        end in
      let '(e, _, _) := take_digits 0 0 r' in if neg : bool then - e else e
  | _ => 0
  end%char.

Definition parse_decimal_prefix (s : string) : number :=
  if String.prefix "Infinity" s then S754_infinity false
  else
    let '(m1, n1, r1) := take_digits 0 0 s in
    let '(m2, n2, r2) := match r1 with
                         | String "." r => take_digits m1 0 r
                         | _ => (m1, 0, r1)
                         end%char in
    if n1 + n2 =? 0 then S754_nan
    else
      (* without fraction digits the point is not part of the literal, but an
         exponent may still follow it: "5.e3" *)
      num_of_decimal m2 (prefix_exponent r2 - n2).

(** [parseFloat(s)]: the longest decimal literal the string starts with. *)
Definition parseFloat (s : string) : number :=
  match trim_start s with
  | String "+" s' => parse_decimal_prefix s'
  | String "-" s' => SFopp (parse_decimal_prefix s')
  | s' => parse_decimal_prefix s'
  end%char.

Example num_to_string_examples :
  num_to_string (num_of_Z 1200) = "1200"%string /\
  num_to_string (num_of_Z (2 ^ 60)) = "1152921504606847000"%string /\
  num_to_string (num_div (num_of_Z 1) (num_of_Z 3)) = "0.3333333333333333"%string /\
  num_to_string (num_div (num_of_Z 1) (num_of_Z 10)) = "0.1"%string /\
  num_to_string (num_of_decimal 125 (-2)) = "1.25"%string /\
  num_to_string (num_of_decimal 1 21) = "1e+21"%string /\
  num_to_string (num_of_decimal 123 (-9)) = "1.23e-7"%string /\
  num_to_string (parseFloat " -12.50xyz") = "-12.5"%string /\
  num_to_string (parseFloat "abc") = "NaN"%string.
Proof. repeat split; vm_compute; reflexivity. Qed.
