(* ===== verification/JsDate.v ===== *)
(** * Calendar dates and [Date.prototype.toISOString]

    The calendar of ECMAScript ([DayFromYear], [YearFromTime], [MonthFromTime],
    [DateFromTime]) and the ISO text of a time value, which the services put in digests
    and answers.  [toISOString_inj]: within the years written with four digits the text
    identifies the millisecond. *)
From Stdlib Require Import ZArith Lia Ascii.
From stdpp Require Import base list strings.
From S2P Require Import Prelude JsValue.
Local Open Scope Z_scope.

(** [Math.floor(t / 86400000)] and the milliseconds within the day. *)
Definition msPerDay : Z := 86400000.
Definition Day (t : Z) : Z := t / msPerDay.
Definition TimeWithinDay (t : Z) : Z := t mod msPerDay.

Definition DayFromYear (y : Z) : Z :=
  365 * (y - 1970) + (y - 1969) / 4 - (y - 1901) / 100 + (y - 1601) / 400.

Definition leap (y : Z) : bool :=
  (y mod 4 =? 0) && (negb (y mod 100 =? 0) || (y mod 400 =? 0)).

(** The year a day falls in: an estimate, corrected by one year at most. *)
Definition YearFromDay (d : Z) : Z :=
  let y := 1970 + d * 400 / 146097 in
  if d <? DayFromYear y then y - 1 else if DayFromYear (y + 1) <=? d then y + 1 else y.

(** The day of the year on which month [m] (from [0]) starts. *)
Definition month_start (lp : bool) (m : Z) : Z :=
  nth (Z.to_nat m) [0; 31; 59; 90; 120; 151; 181; 212; 243; 273; 304; 334] 365
  + (if lp && (2 <=? m) then 1 else 0).

(** The last month starting at or before day [d] of the year, from month [m] down. *)
Fixpoint month_down (lp : bool) (d : Z) (m : nat) : Z :=
  match m with
  | O => 0
  | S m' => if month_start lp (Z.of_nat m) <=? d then Z.of_nat m else month_down lp d m'
  end.

(** Year, month (from [1]) and day of the month of a day number. *)
Definition ymd (d : Z) : Z * Z * Z :=
  let y := YearFromDay d in
  let r := d - DayFromYear y in
  let m := month_down (leap y) r 11 in
  (y, m + 1, r - month_start (leap y) m + 1).

(** [n] decimal digits of [z]. *)
Fixpoint fixed (n : nat) (z : Z) : string :=
  match n with
  | O => EmptyString
  | S n' => fixed n' (z / 10) +:+ String (ascii_of_N (Z.to_N (48 + z mod 10))) EmptyString
  end.

Definition iso_year (y : Z) : string :=
  if (0 <=? y) && (y <=? 9999) then fixed 4 y
  else (if y <? 0 then "-" else "+") +:+ fixed 6 (Z.abs y).

(** [YYYY-MM-DD], also what [DATE(column)] is serialised to. *)
Definition iso_day (d : Z) : string :=
  let '(y, m, dd) := ymd d in iso_year y +:+ "-" +:+ fixed 2 m +:+ "-" +:+ fixed 2 dd.

Definition toISOString (t : Z) : string :=
  let ms := TimeWithinDay t in
  iso_day (Day t) +:+ "T" +:+ fixed 2 (ms / 3600000) +:+ ":" +:+ fixed 2 (ms / 60000 mod 60) +:+
  ":" +:+ fixed 2 (ms / 1000 mod 60) +:+ "." +:+ fixed 3 (ms mod 1000) +:+ "Z".

Example toISOString_examples :
  toISOString 0 = "1970-01-01T00:00:00.000Z"%string /\
  toISOString 1709251199999 = "2024-02-29T23:59:59.999Z"%string /\
  toISOString (-1) = "1969-12-31T23:59:59.999Z"%string /\
  toISOString 253402300800000 = "+010000-01-01T00:00:00.000Z"%string.
Proof. repeat split; vm_compute; reflexivity. Qed.

(** ** Fields *)

#[local] Ltac Zify.zify_post_hook ::= Z.to_euclidean_division_equations.

Lemma YearFromDay_spec d : DayFromYear (YearFromDay d) <= d < DayFromYear (YearFromDay d + 1).
Proof.
  unfold YearFromDay. set (y := 1970 + d * 400 / 146097).
  assert (H1 : DayFromYear (y - 1) <= d) by (unfold DayFromYear, y; lia).
  assert (H2 : d < DayFromYear (y + 2)) by (unfold DayFromYear, y; lia).
  destruct (Z.ltb_spec d (DayFromYear y)); [replace (y - 1 + 1) with y by lia; lia|].
  destruct (Z.leb_spec (DayFromYear (y + 1)) d); [replace (y + 1 + 1) with (y + 2) by lia; lia|lia].
Qed.

Lemma DayFromYear_next y : DayFromYear (y + 1) = DayFromYear y + (if leap y then 366 else 365).
Proof.
  unfold leap, DayFromYear.
  destruct (Z.eqb_spec (y mod 4) 0), (Z.eqb_spec (y mod 100) 0), (Z.eqb_spec (y mod 400) 0); simpl; lia.
Qed.

Lemma month_down_spec lp d m :
  0 <= d -> let k := month_down lp d m in
  0 <= k <= Z.of_nat m /\ month_start lp k <= d /\ (k < Z.of_nat m -> d < month_start lp (k + 1)).
Proof.
  intros Hd. induction m as [|m IH]; cbn [month_down]; cbv zeta.
  - destruct lp; unfold month_start; simpl; lia.
  - destruct (Z.leb_spec (month_start lp (Z.of_nat (S m))) d); [lia|].
    destruct IH as (H1 & H2 & H3). repeat split; [lia|lia|done|].
    intros _. destruct (decide (month_down lp d m = Z.of_nat m)) as [He|]; [|apply H3; lia].
    rewrite He. by replace (Z.of_nat m + 1) with (Z.of_nat (S m)) by lia.
Qed.

Lemma month_length lp k : 0 <= k < 11 -> month_start lp (k + 1) <= month_start lp k + 31.
Proof.
  intros Hk. assert (Hc : k ∈ seqZ 0 11) by (apply elem_of_seqZ; lia). revert k Hk Hc.
  assert (Hall : Forall (fun k => month_start lp (k + 1) <= month_start lp k + 31) (seqZ 0 11)).
  { destruct lp; apply (bool_decide_unpack _); vm_compute; exact I. }
  intros k _ Hc. by apply (proj1 (Forall_forall _ _) Hall).
Qed.

Lemma ymd_fields d :
  let '(y, m, dd) := ymd d in
  1 <= m <= 12 /\ 1 <= dd <= 31 /\ d = DayFromYear y + month_start (leap y) (m - 1) + dd - 1.
Proof.
  unfold ymd. set (y := YearFromDay d). pose proof (YearFromDay_spec d) as Hy. fold y in Hy.
  rewrite DayFromYear_next in Hy. set (r := d - DayFromYear y).
  assert (Hr : 0 <= r < (if leap y then 366 else 365)) by (unfold r; destruct (leap y); lia).
  destruct (month_down_spec (leap y) r 11 (proj1 Hr)) as (H1 & H2 & H3).
  set (k := month_down (leap y) r 11) in *. replace (k + 1 - 1) with k by lia.
  assert (Hk : r - month_start (leap y) k + 1 <= 31); [|repeat split; unfold r in *; lia].
  destruct (decide (k < 11)).
  - pose proof (month_length (leap y) k ltac:(lia)). specialize (H3 ltac:(lia)). lia.
  - assert (k = 11) as -> by lia. unfold month_start in *. destruct (leap y); simpl in *; lia.
Qed.

(** ** Making dates *)

(** [MakeDay(year, month, date)], the month from [0] and past the year as [Date] allows. *)
Definition MakeDay (y m d : Z) : Z :=
  let ym := y + m / 12 in DayFromYear ym + month_start (leap ym) (m mod 12) + d - 1.

(** The days of month [m] (from [1]). *)
Definition days_in_month (y m : Z) : Z := month_start (leap y) m - month_start (leap y) (m - 1).
Definition calendar_date (y m d : Z) : Prop := 1 <= m <= 12 /\ 1 <= d <= days_in_month y m.

Lemma DayFromYear_mono y z : y <= z -> DayFromYear y <= DayFromYear z.
Proof.
  intros Hyz. replace z with (y + Z.of_nat (Z.to_nat (z - y))) by lia.
  induction (Z.to_nat (z - y)) as [|n IH]; [replace (y + Z.of_nat 0) with y by lia; lia|].
  replace (y + Z.of_nat (S n)) with (y + Z.of_nat n + 1) by lia.
  rewrite DayFromYear_next. destruct (leap _); lia.
Qed.

Lemma YearFromDay_unique d y : DayFromYear y <= d < DayFromYear (y + 1) -> YearFromDay d = y.
Proof.
  intros Hy. pose proof (YearFromDay_spec d) as Hd. set (z := YearFromDay d) in *.
  destruct (Z.lt_trichotomy z y) as [H|[H|H]]; [|done|].
  - pose proof (DayFromYear_mono (z + 1) y ltac:(lia)). lia.
  - pose proof (DayFromYear_mono (y + 1) z ltac:(lia)). lia.
Qed.

Lemma month_start_table lp :
  month_start lp 0 = 0 /\ month_start lp 12 = (if lp then 366 else 365) /\
  forall k, 0 <= k < 12 -> 0 <= month_start lp k < month_start lp (k + 1).
Proof.
  split; [by destruct lp|]. split; [by destruct lp|]. intros k Hk.
  assert (Hall : Forall (fun k => 0 <= month_start lp k < month_start lp (k + 1)) (seqZ 0 12)).
  { destruct lp; apply (bool_decide_unpack _); vm_compute; exact I. }
  apply (proj1 (Forall_forall _ _) Hall). apply elem_of_seqZ. lia.
Qed.

Lemma month_start_mono lp j k : 0 <= j <= k -> k <= 12 -> month_start lp j <= month_start lp k.
Proof.
  intros Hjk Hk. replace k with (j + Z.of_nat (Z.to_nat (k - j))) in * by lia.
  induction (Z.to_nat (k - j)) as [|n IH]; [replace (j + Z.of_nat 0) with j by lia; lia|].
  destruct (month_start_table lp) as (_ & _ & H). specialize (H (j + Z.of_nat n) ltac:(lia)).
  replace (j + Z.of_nat (S n)) with (j + Z.of_nat n + 1) in * by lia. specialize (IH ltac:(lia) ltac:(lia)). lia.
Qed.

(** Months have 28 to 31 days. *)
Lemma short_month y m : 1 <= m <= 12 -> 28 <= days_in_month y m <= 31.
Proof.
  intros Hm. assert (Hall : Forall (fun k => 28 <= month_start (leap y) k - month_start (leap y) (k - 1) <= 31) (seqZ 1 12)).
  { destruct (leap y); apply (bool_decide_unpack _); vm_compute; exact I. }
  apply (proj1 (Forall_forall _ _) Hall m). apply elem_of_seqZ. lia.
Qed.

(** The fields of a day are a date of the calendar. *)
Lemma ymd_calendar D y m d : ymd D = (y, m, d) -> calendar_date y m d /\ DayFromYear y <= D < DayFromYear (y + 1).
Proof.
  unfold ymd, calendar_date, days_in_month. set (z := YearFromDay D). pose proof (YearFromDay_spec D) as Hz. fold z in Hz.
  rewrite DayFromYear_next in *. set (r := D - DayFromYear z).
  assert (Hr : 0 <= r < (if leap z then 366 else 365)) by (unfold r; destruct (leap z); lia).
  destruct (month_down_spec (leap z) r 11 (proj1 Hr)) as (H1 & H2 & H3).
  set (k := month_down (leap z) r 11) in *. intros [= <- <- <-].
  replace (k + 1 - 1) with k by lia. destruct (month_start_table (leap z)) as (_ & Hlast & _).
  split; [|lia]. split; [lia|]. destruct (decide (k < 11)); [specialize (H3 ltac:(lia)); lia|].
  assert (k = 11) as -> by lia. change (11 + 1) with 12. rewrite Hlast. lia.
Qed.

(** Every date of the calendar is the fields of its day. *)
Lemma ymd_MakeDay y m d : calendar_date y m d -> ymd (MakeDay y (m - 1) d) = (y, m, d).
Proof.
  intros [Hm Hd]. unfold days_in_month in Hd. unfold MakeDay.
  rewrite Z.div_small, Z.mod_small, Z.add_0_r by lia. set (D := DayFromYear y + month_start (leap y) (m - 1) + d - 1).
  destruct (month_start_table (leap y)) as (_ & Hlast & Hpos).
  assert (Hend : month_start (leap y) m <= month_start (leap y) 12) by (apply month_start_mono; lia).
  pose proof (Hpos (m - 1) ltac:(lia)) as Hm0.
  assert (Hyear : DayFromYear y <= D < DayFromYear (y + 1)).
  { rewrite DayFromYear_next. unfold D. rewrite Hlast in Hend. destruct (leap y); lia. }
  unfold ymd. rewrite (YearFromDay_unique D y Hyear). set (r := D - DayFromYear y).
  assert (Hr : month_start (leap y) (m - 1) <= r < month_start (leap y) m) by (unfold r, D; lia).
  destruct (month_down_spec (leap y) r 11 ltac:(lia)) as (H1 & H2 & H3).
  set (k := month_down (leap y) r 11) in *.
  assert (k = m - 1) as ->.
  { destruct (Z.lt_trichotomy k (m - 1)) as [Hlt|[He|Hgt]]; [|done|].
    - specialize (H3 ltac:(lia)). pose proof (month_start_mono (leap y) (k + 1) (m - 1) ltac:(lia) ltac:(lia)). lia.
    - pose proof (month_start_mono (leap y) m k ltac:(lia) ltac:(lia)). lia. }
  f_equal; [f_equal; lia|]. unfold r, D. lia.
Qed.

Lemma String_app_inj (a a' b b' : string) :
  String.length a = String.length a' -> a +:+ b = a' +:+ b' -> a = a' /\ b = b'.
Proof.
  revert a'. induction a as [|c a IH]; intros [|c' a'] Hl He; simpl in *; try done.
  injection He as -> He. injection Hl as Hl. by destruct (IH a' Hl He) as [-> ->].
Qed.

Lemma String_length_app (a b : string) : String.length (a +:+ b) = (String.length a + String.length b)%nat.
Proof. induction a as [|c a IH]; simpl; [done|]. by rewrite IH. Qed.

Lemma String_app_assoc (a b c : string) : (a +:+ b) +:+ c = a +:+ b +:+ c.
Proof.
  induction a as [|k a IH]; [done|]. change (String k ((a +:+ b) +:+ c) = String k (a +:+ b +:+ c)). by rewrite IH.
Qed.

Lemma String_app_nil_r (a : string) : a +:+ ""%string = a.
Proof. induction a as [|k a IH]; [done|]. change (String k (a +:+ ""%string) = String k a). by rewrite IH. Qed.

Lemma length_fixed n z : String.length (fixed n z) = n.
Proof. revert z. induction n as [|n IH]; intros z; simpl; [done|]. rewrite String_length_app, IH. simpl. lia. Qed.

(** Digits of fixed width determine a number that fits. *)
Lemma fixed_inj n a b :
  0 <= a < 10 ^ Z.of_nat n -> 0 <= b < 10 ^ Z.of_nat n -> fixed n a = fixed n b -> a = b.
Proof.
  revert a b. induction n as [|n IH]; intros a b Ha Hb He; [simpl in *; lia|].
  simpl fixed in He. apply String_app_inj in He as [He Hd]; [|by rewrite !length_fixed].
  rewrite Nat2Z.inj_succ, Z.pow_succ_r in Ha, Hb by lia.
  assert (Hq : a / 10 = b / 10) by (apply IH; [lia|lia|done]).
  injection Hd as Hd. apply (f_equal N_of_ascii) in Hd. rewrite !N_ascii_embedding in Hd by lia. lia.
Qed.

(** The times written with a four-digit year from 1970 on. *)
Definition iso_range (t : Z) : Prop := 0 <= t < 253402300800000.

Lemma year_in_range t : iso_range t -> 0 <= YearFromDay (Day t) <= 9999.
Proof.
  unfold iso_range, Day, msPerDay. intros Ht.
  assert (Hd : 0 <= t / 86400000 < 2932897) by lia.
  pose proof (YearFromDay_spec (t / 86400000)) as Hy.
  unfold DayFromYear in Hy. lia.
Qed.

Lemma iso_day_inj a b :
  0 <= YearFromDay a <= 9999 -> 0 <= YearFromDay b <= 9999 ->
  String.length (iso_day a) = 10%nat /\ (iso_day a = iso_day b -> a = b).
Proof.
  intros Hya Hyb. unfold iso_day. pose proof (ymd_fields a) as Ha. pose proof (ymd_fields b) as Hb.
  assert (Ea : (ymd a).1.1 = YearFromDay a) by done. assert (Eb : (ymd b).1.1 = YearFromDay b) by done.
  destruct (ymd a) as [[y m] d], (ymd b) as [[y' m'] d']. simpl in Ea, Eb. subst y y'.
  destruct Ha as (Hm & Hd & Ha), Hb as (Hm' & Hd' & Hb). unfold iso_year.
  rewrite !(proj2 (andb_true_iff _ _)) by (split; apply Z.leb_le; lia).
  split; [by rewrite !String_length_app, !length_fixed|]. intros He.
  apply String_app_inj in He as [Hy He]; [|by rewrite !length_fixed].
  apply String_app_inj in He as [_ He]; [|done].
  apply String_app_inj in He as [Hmm He]; [|by rewrite !length_fixed].
  apply String_app_inj in He as [_ He]; [|done].
  apply fixed_inj in Hy; [|simpl; lia|simpl; lia]. apply fixed_inj in Hmm; [|simpl; lia|simpl; lia].
  apply fixed_inj in He; [|simpl; lia|simpl; lia]. rewrite Ha, Hb. by rewrite Hy, Hmm, He.
Qed.

Lemma toISOString_length t : iso_range t -> String.length (toISOString t) = 24%nat.
Proof.
  intros Ht. apply year_in_range in Ht. destruct (iso_day_inj _ _ Ht Ht) as [Hl _].
  unfold toISOString. rewrite !String_length_app, Hl, !length_fixed. done.
Qed.

(** The ISO text of a time identifies its millisecond. *)
Lemma toISOString_inj a b : iso_range a -> iso_range b -> toISOString a = toISOString b -> a = b.
Proof.
  intros Ha Hb He. pose proof (year_in_range a Ha) as Ya. pose proof (year_in_range b Hb) as Yb.
  unfold toISOString in He.
  apply String_app_inj in He as [Hday He];
    [|by rewrite (proj1 (iso_day_inj _ _ Ya Yb)), (proj1 (iso_day_inj _ _ Yb Ya))].
  apply (proj2 (iso_day_inj _ _ Ya Yb)) in Hday.
  assert (Hms : TimeWithinDay a = TimeWithinDay b).
  { unfold TimeWithinDay, msPerDay in *. set (u := a mod 86400000) in *. set (v := b mod 86400000) in *.
    assert (Hu : 0 <= u < 86400000) by (unfold u; lia). assert (Hv : 0 <= v < 86400000) by (unfold v; lia).
    do 4 (apply String_app_inj in He as [_ He]; [|done];
          apply String_app_inj in He as [?H He]; [|by rewrite !length_fixed]).
    apply fixed_inj in H, H0, H1, H2; simpl; lia. }
  unfold Day, TimeWithinDay, msPerDay in *. lia.
Qed.
