(* ===== verification/Balance.v ===== *)
(** * BalanceService: the flexible-savings balance projection and its cache

    Models [backend/src/savings/balance.service.ts]: the [balances] table, the
    ten-second read cache in front of it, and the yield-rate view. *)
From Stdlib Require Import ZArith Lia SpecFloat.
From stdpp Require Import base list strings.
From S2P Require Import Prelude Storage JsValue.
Local Open Scope Z_scope.

Module Balance.

(** The [balances] entity. *)
Record Balance := mkBalance {
  account : string;
  amount : string;
  created_at : Z;
  updated_at : Z;
}.

Record BalanceView := mkView { view_account : string; view_amount : string }.

(** [AccountBalanceView]. *)
Record AccountBalanceView := mkAccountView {
  av_account : string;
  av_amount : string;
  av_created_at : Z;
  av_updated_at : Z;
}.

(** A harvest observation: the scaled rate and its time. *)
Record HarvestRecord := mkHarvest { rate : string; timestamp : Z }.

Record YieldRateView := mkYieldRate {
  yr_rate : string;
  yr_apr : option number;
  yr_window_days : Z;
}.

Definition BALANCE_CACHE_TTL_MS : Z := 10000.
Definition APR_WINDOW_DAYS : Z := 30.
Definition MS_PER_DAY : Z := 24 * 60 * 60 * 1000.

Definition cacheKey (account : string) : string := "savings:balance:" +:+ account.

Section service.
Context {B : Backend}.

(** The service's repository and cache. *)
Record state := mkState {
  balances : table string Balance;
  balance_cache : cache BalanceView;
}.

Definition initial : state := mkState empty_table empty_cache.

(** [findOne({ where: { account } })], or an unsaved row with a zero amount. *)
Definition find_or_create (acc : string) (now : Z) (s : state) : Balance :=
  match find_one acc (balances s) with
  | Some b => b
  | None => mkBalance acc "0" now now
  end.

(** [balance.amount = a; save(balance); cache.del(cacheKey(account))]. *)
Definition store_amount (acc : string) (b : Balance) (a : string) (now : Z)
  : M state Balance :=
  let saved := mkBalance (account b) a (created_at b) now in
  do modify (fun s => mkState (save acc saved (balances s)) (balance_cache s)) ;>
  do modify (fun s => mkState (balances s) (cache_del (cacheKey acc) (balance_cache s))) ;>
  ret saved.

Definition credit (acc amt : string) (now : Z) : M state Balance :=
  await balance := gets (find_or_create acc now) in
  await current := BigInt (amount balance) in
  await delta := BigInt amt in
  store_amount acc balance (Z_to_string (current + delta)) now.

Definition setBalance (acc amt : string) (now : Z) : M state Balance :=
  await balance := gets (find_or_create acc now) in
  store_amount acc balance amt now.

(** [get]: the cached view, or the row's amount ('0' for an unknown account)
    put in the cache. *)
Definition get (acc : string) (now : Z) : M state BalanceView :=
  await cached := gets (fun s => cache_get (cacheKey acc) now (balance_cache s)) in
  match cached with
  | Some view => ret view
  | None =>
      await balance := gets (fun s => find_one acc (balances s)) in
      let view := mkView acc (match balance with Some b => amount b | None => "0" end) in
      do modify (fun s => mkState (balances s)
                 (cache_set (cacheKey acc) view BALANCE_CACHE_TTL_MS now (balance_cache s))) ;>
      ret view
  end.

Definition findAccount (acc : string) : M state (option AccountBalanceView) :=
  await balance := gets (fun s => find_one acc (balances s)) in
  match balance with
  | None => ret None
  | Some b => ret (Some (mkAccountView (account b) (amount b) (created_at b) (updated_at b)))
  end.
End service.

(** [computeApr]: annualised growth between the oldest and the newest harvest
    of the trailing window, in double arithmetic; [None] is [null]. *)
Definition computeApr {St} (history : list HarvestRecord) (windowDays now : Z)
  : M St (option number) :=
  if (length history <? 2)%nat then ret None
  else
    let windowStart := now - windowDays * MS_PER_DAY in
    let inWindow := sort_by timestamp
                      (List.filter (fun h => windowStart <=? timestamp h) history) in
    match inWindow with
    | oldest :: (_ :: _) as rest =>
        let latest := List.last rest oldest in
        await oldestRate := BigInt (rate oldest) in
        await latestRate := BigInt (rate latest) in
        if oldestRate <=? 0 then ret None
        else
          let elapsedMs := timestamp latest - timestamp oldest in
          if elapsedMs <=? 0 then ret None
          else
            let elapsedDays := SFdiv prec emax (num_of_Z elapsedMs) (num_of_Z MS_PER_DAY) in
            let growth := SFsub prec emax
                            (SFdiv prec emax (num_of_Z latestRate) (num_of_Z oldestRate))
                            (num_of_Z 1) in
            ret (Some (num_mul growth (SFdiv prec emax (num_of_Z 365) elapsedDays)))
    | _ => ret None
    end.

Definition buildYieldRateView {St} (currentRate : string)
    (history : list HarvestRecord) (windowDays now : Z) : M St YieldRateView :=
  await apr := computeApr history windowDays now in
  ret (mkYieldRate currentRate apr windowDays).

(** ** Specification *)

(** [BigInt(balance.amount)] of the account's row, zero without a row. *)
Definition amount_of {B : Backend} (acc : string) (s : state) : option Z :=
  match find_one acc (balances s) with
  | Some b => BigInt_of_string (amount b)
  | None => Some 0
  end.

(** What [get] would answer from the table. *)
Definition table_view {B : Backend} (acc : string) (s : state) : BalanceView :=
  mkView acc (match find_one acc (balances s) with Some b => amount b | None => "0" end).

(** Every cached view is the view of the table. *)
Definition coherent {B : Backend} (s : state) : Prop :=
  forall acc now v, cache_get (cacheKey acc) now (balance_cache s) = Some v ->
               v = table_view acc s.

(** ** Lemmas *)

Lemma cacheKey_inj a b : cacheKey a = cacheKey b -> a = b.
Proof. unfold cacheKey. intros H. by simplify_eq. Qed.

Section proofs.
Context {B : Backend}.

Lemma store_amount_run acc b a now (s : state) :
  store_amount acc b a now s =
    (Ret (mkBalance (account b) a (created_at b) now),
     mkState (save acc (mkBalance (account b) a (created_at b) now) (balances s))
             (cache_del (cacheKey acc) (balance_cache s))).
Proof. done. Qed.

Lemma amount_of_find_or_create acc now (s : state) :
  BigInt_of_string (amount (find_or_create acc now s)) = amount_of acc s.
Proof. unfold find_or_create, amount_of. by case_match. Qed.

(** The state after a write: the account's amount is the written one, the
    other accounts keep theirs. *)
Lemma amount_of_store acc acc' b a now (s : state) :
  amount_of acc' (store_amount acc b a now s).2 =
    if decide (acc = acc') then BigInt_of_string a else amount_of acc' s.
Proof.
  rewrite store_amount_run. unfold amount_of. simpl.
  rewrite find_one_save. by case_decide.
Qed.

Lemma table_view_store acc acc' b a now (s : state) :
  table_view acc' (store_amount acc b a now s).2 =
    if decide (acc = acc') then mkView acc' a else table_view acc' s.
Proof.
  rewrite store_amount_run. unfold table_view. simpl.
  rewrite find_one_save. by case_decide.
Qed.

Lemma store_amount_coherent acc b a now : preserves coherent (store_amount acc b a now).
Proof.
  intros s Hs acc' now' v. rewrite table_view_store, store_amount_run. simpl.
  case_decide as Hacc; [subst|]; intros Hget.
  - by rewrite cache_get_del_eq in Hget.
  - apply cache_get_del_ne in Hget; [by apply Hs in Hget|].
    intros ?%cacheKey_inj. done.
Qed.

Lemma BigInt_preserves (I : state -> Prop) a : preserves I (BigInt a).
Proof. apply preserves_of_option. Qed.

Lemma credit_coherent acc a now : preserves coherent (credit acc a now).
Proof.
  unfold credit. eauto 10 using store_amount_coherent, BigInt_preserves with stow.
Qed.

Lemma setBalance_coherent acc a now : preserves coherent (setBalance acc a now).
Proof. unfold setBalance. eauto using store_amount_coherent with stow. Qed.

Lemma get_run acc now (s : state) :
  coherent s ->
  (get acc now s).1 = Ret (table_view acc s) /\ coherent (get acc now s).2 /\
  balances (get acc now s).2 = balances s.
Proof.
  intros Hs. unfold get. run.
  destruct (cache_get (cacheKey acc) now (balance_cache s)) as [v|] eqn:Hc; simpl.
  - by rewrite (Hs _ _ _ Hc).
  - split; [done|]. split; [|done].
    intros acc' now' v Hget. simpl in *.
    destruct (decide (acc = acc')) as [<-|Hne].
    + apply cache_get_set in Hget as [-> _]. done.
    + apply cache_get_set_ne in Hget; [by apply Hs in Hget|].
      intros ?%cacheKey_inj. done.
Qed.

Lemma get_coherent acc now : preserves coherent (get acc now).
Proof. intros s Hs. by apply get_run. Qed.

Lemma initial_coherent : coherent initial.
Proof. intros acc now v. simpl. by rewrite cache_get_empty. Qed.

(** A credit of a well-formed amount adds it to the account and leaves the
    others alone. *)
Lemma credit_run acc a now (s : state) n d :
  amount_of acc s = Some n -> BigInt_of_string a = Some d ->
  exists b, credit acc a now s =
    (Ret b, (store_amount acc (find_or_create acc now s) (Z_to_string (n + d)) now s).2)
    /\ amount b = Z_to_string (n + d).
Proof.
  intros Hn Hd. unfold credit. run. unfold BigInt.
  rewrite amount_of_find_or_create, Hn. simpl. unfold BigInt. rewrite Hd. simpl.
  by eexists.
Qed.

Lemma credit_amount_of acc acc' a now (s : state) n d :
  amount_of acc s = Some n -> BigInt_of_string a = Some d ->
  amount_of acc' (credit acc a now s).2 =
    if decide (acc = acc') then Some (n + d) else amount_of acc' s.
Proof.
  intros Hn Hd. destruct (credit_run acc a now s n d Hn Hd) as (b & -> & _).
  cbn [snd]. rewrite amount_of_store. by rewrite BigInt_of_string_to_string.
Qed.

Lemma setBalance_amount_of acc acc' a now (s : state) :
  amount_of acc' (setBalance acc a now s).2 =
    if decide (acc = acc') then BigInt_of_string a else amount_of acc' s.
Proof. unfold setBalance. run. apply (amount_of_store acc acc'). Qed.

(** An amount that is not an integer literal, in the event or in the row,
    makes [credit] throw before it writes anything. *)
Lemma credit_throws acc a now (s : state) :
  amount_of acc s = None \/ BigInt_of_string a = None ->
  exists e, credit acc a now s = (Throw e, s).
Proof.
  intros H. unfold credit. run. unfold BigInt at 1.
  rewrite amount_of_find_or_create.
  destruct (amount_of acc s) as [n|]; simpl; [|by eexists].
  destruct H as [|H]; [done|]. unfold BigInt. rewrite H. simpl. by eexists.
Qed.
End proofs.

(** ** Sequences of calls and the ledger they implement *)

Inductive op :=
| Credit (acc amt : string)
| SetBalance (acc amt : string)
| Get (acc : string)
| FindAccount (acc : string).

Section ledger.
Context {B : Backend}.

(** One call at time [now]; a call that throws leaves the state it reached. *)
Definition run_op (o : op) (now : Z) (s : state) : state :=
  match o with
  | Credit acc amt => (credit acc amt now s).2
  | SetBalance acc amt => (setBalance acc amt now s).2
  | Get acc => (get acc now s).2
  | FindAccount acc => (findAccount acc s).2
  end.

Definition run_ops (ops : list (op * Z)) (s : state) : state :=
  foldl (fun s '(o, now) => run_op o now s) s ops.

(** The contract: a total function from accounts to integers. *)
Definition ledger : Type := string -> Z.

Definition int_of (a : string) : Z := default 0 (BigInt_of_string a).

Definition ledger_op (o : op) (l : ledger) : ledger :=
  match o with
  | Credit acc amt => fun a => if decide (acc = a) then l a + int_of amt else l a
  | SetBalance acc amt => fun a => if decide (acc = a) then int_of amt else l a
  | Get _ | FindAccount _ => l
  end.

Definition ledger_ops (ops : list (op * Z)) (l : ledger) : ledger :=
  foldl (fun l '(o, _) => ledger_op o l) l ops.

(** The amounts of the calls are integer literals. *)
Definition wf_op (o : op) : bool :=
  match o with
  | Credit _ amt | SetBalance _ amt => bool_decide (is_Some (BigInt_of_string amt))
  | _ => true
  end.

(** The table holds the ledger. *)
Definition implements (s : state) (l : ledger) : Prop :=
  forall acc, amount_of acc s = Some (l acc).

Lemma run_op_coherent o now s : coherent s -> coherent (run_op o now s).
Proof.
  destruct o; simpl.
  - apply credit_coherent.
  - apply setBalance_coherent.
  - apply get_coherent.
  - unfold findAccount. run. by destruct (find_one _ _).
Qed.

Lemma run_ops_coherent ops s : coherent s -> coherent (run_ops ops s).
Proof.
  revert s. induction ops as [|[o now] ops IH]; intros s Hs; simpl; [done|].
  apply IH. by apply run_op_coherent.
Qed.

Lemma run_op_implements o now s l :
  coherent s -> wf_op o = true -> implements s l -> implements (run_op o now s) (ledger_op o l).
Proof.
  intros Hc Hwf Hl. destruct o as [acc amt|acc amt|acc|acc];
    cbn [run_op ledger_op wf_op] in *.
  - apply bool_decide_eq_true in Hwf as [d Hd]. intros a.
    rewrite (credit_amount_of acc a amt now s _ d (Hl acc) Hd).
    unfold int_of. rewrite Hd. simpl. case_decide; [by subst|apply Hl].
  - apply bool_decide_eq_true in Hwf as [d Hd]. intros a.
    rewrite setBalance_amount_of. unfold int_of. rewrite Hd. case_decide; [done|apply Hl].
  - intros a. unfold amount_of. destruct (get_run acc now s Hc) as (_ & _ & ->). apply Hl.
  - unfold findAccount. run. by destruct (find_one _ _).
Qed.

Lemma run_ops_implements ops s l :
  coherent s -> Forall (fun '(o, _) => wf_op o = true) ops -> implements s l ->
  implements (run_ops ops s) (ledger_ops ops l).
Proof.
  intros Hc Hwf. revert s l Hc.
  induction Hwf as [|[o now] ops Ho Hwf IH]; intros s l Hc Hl; simpl; [done|].
  apply IH; [by apply run_op_coherent|by apply run_op_implements].
Qed.

(** Calls on other accounts leave an account's amount alone, even when they
    throw. *)
Lemma run_op_other o now s acc :
  match o with Credit a _ | SetBalance a _ => a ≠ acc | _ => True end ->
  amount_of acc (run_op o now s) = amount_of acc s.
Proof.
  destruct o as [a amt|a amt|a|a]; cbn [run_op]; intros Hne.
  - destruct (amount_of a s) as [n|] eqn:Hn; cycle 1.
    { destruct (credit_throws a amt now s) as [e ->]; [by left|done]. }
    destruct (BigInt_of_string amt) as [d|] eqn:Hd; cycle 1.
    { destruct (credit_throws a amt now s) as [e ->]; [by right|done]. }
    rewrite (credit_amount_of a acc amt now s n d Hn Hd). by rewrite decide_False.
  - rewrite setBalance_amount_of. by rewrite decide_False.
  - unfold amount_of, get. run. by destruct (cache_get _ _ _).
  - unfold findAccount. run. by destruct (find_one _ _).
Qed.

Lemma run_ops_other ops s acc :
  Forall (fun '(o, _) => match o with
                         | Credit a _ | SetBalance a _ => a ≠ acc
                         | _ => True end) ops ->
  amount_of acc (run_ops ops s) = amount_of acc s.
Proof.
  intros H. revert s. induction H as [|[o now] ops Ho _ IH]; intros s; [done|].
  cbn [run_ops foldl]. change (foldl _ ?x ops) with (run_ops ops x).
  rewrite IH. by apply run_op_other.
Qed.

Lemma initial_implements : implements initial (fun _ => 0).
Proof. intros acc. unfold amount_of. simpl. by rewrite find_one_empty. Qed.
End ledger.

(** C14: After any sequence of [credit], [setBalance], [get] and [findAccount]
    calls, failing ones included, [get] answers exactly what the [balances]
    table holds for the account: the cache is never stale between calls. *)
Theorem get_is_table_view {B : Backend} (ops : list (op * Z)) (acc : string) (now : Z) :
  let s := run_ops ops initial in
  (get acc now s).1 = Ret (table_view acc s).
Proof. intros s. apply get_run, run_ops_coherent, initial_coherent. Qed.

(** C3: The service implements a ledger: after any sequence of calls whose
    amounts are integer literals, every account's stored amount is the sum of
    the credits made since the last [setBalance] on top of the amount it set. *)
Theorem ledger_refinement {B : Backend} (ops : list (op * Z)) (acc : string) :
  Forall (fun '(o, _) => wf_op o = true) ops ->
  amount_of acc (run_ops ops initial) = Some (ledger_ops ops (fun _ => 0) acc).
Proof.
  intros Hwf. apply run_ops_implements; [apply initial_coherent|done|apply initial_implements].
Qed.

Lemma ledger_refinement_witness :
  let ops := [(Credit "G1" "500", 0); (Get "G1", 1); (Credit "G2" "70", 2);
              (SetBalance "G1" "120", 3); (Credit "G1" "9", 4)] in
  amount_of (B := MemBackend) "G1" (run_ops ops initial) = Some 129 /\
  ledger_ops ops (fun _ => 0) "G1" = 129.
Proof.
  split; [|vm_compute; reflexivity].
  rewrite ledger_refinement; [vm_compute; reflexivity|repeat constructor].
Defined.

(** [credit] reads the row, awaits, and writes the sum back.  When a second
    [credit] of the account reads between the read and the write of the first
    one (two polls, or a poll and a round-up batch), the first amount is lost:
    the account ends at [n + d2] instead of [n + d1 + d2]. *)
Theorem credit_interleaving_loses_update {B : Backend} (acc : string)
    (now1 now2 : Z) (s : state) (n d1 d2 : Z) :
  amount_of acc s = Some n ->
  let read1 := find_or_create acc now1 s in
  let read2 := find_or_create acc now2 s in
  let write r d now := store_amount acc r
                         (Z_to_string (int_of (amount r) + d)) now in
  let s1 := (write read1 d1 now1 s).2 in
  amount_of acc (write read2 d2 now2 s1).2 = Some (n + d2) /\
  (credit acc (Z_to_string d1) now1 s).2 = s1.
Proof.
  intros Hn read1 read2 write s1. split.
  - unfold write. rewrite amount_of_store, decide_True, BigInt_of_string_to_string by done.
    unfold int_of, read2. by rewrite amount_of_find_or_create, Hn.
  - destruct (credit_run acc (Z_to_string d1) now1 s n d1 Hn) as (b & -> & _);
      [apply BigInt_of_string_to_string|].
    unfold s1, write, int_of, read1. by rewrite amount_of_find_or_create, Hn.
Qed.

Lemma credit_interleaving_loses_update_witness :
  let s := (credit (B := MemBackend) "G1" "100" 0 initial).2 in
  let r := find_or_create (B := MemBackend) "G1" 1 s in
  let s1 := (store_amount (B := MemBackend) "G1" r (Z_to_string (100 + 20)) 1 s).2 in
  amount_of (B := MemBackend) "G1"
    (store_amount (B := MemBackend) "G1" r (Z_to_string (100 + 3)) 1 s1).2 = Some 103.
Proof.
  assert (H := credit_interleaving_loses_update (B := MemBackend) "G1" 1 1
                 (credit (B := MemBackend) "G1" "100" 0 initial).2 100 20 3 eq_refl).
  exact (proj1 H).
Defined.

(** A row whose amount is not an integer literal (what [setBalance] stores
    when the event has no [new_balance]) stays so under every later [credit]:
    each of them throws and changes nothing. *)
Theorem malformed_amount_blocks_credit {B : Backend} (acc bad amt : string)
    (now now' : Z) (s : state) :
  BigInt_of_string bad = None ->
  let s' := (setBalance acc bad now s).2 in
  exists e, credit acc amt now' s' = (Throw e, s').
Proof.
  intros Hbad s'. apply credit_throws. left. unfold s'.
  by rewrite setBalance_amount_of, decide_True, Hbad.
Qed.

Lemma malformed_amount_blocks_credit_witness :
  exists e, let s' := (setBalance (B := MemBackend) "G1" "undefined" 0 initial).2 in
       credit "G1" "5" 1 s' = (Throw e, s').
Proof.
  apply (malformed_amount_blocks_credit (B := MemBackend) "G1" "undefined" "5" 0 1 initial).
  vm_compute. reflexivity.
Defined.
End Balance.
