(* ===== verification/Goals.v ===== *)
(** * GoalsService: the savings-goal projection

    Models [backend/src/goals/goals.service.ts]: the [goals] table keyed by
    [on_chain_id], its status machine and its listings. *)
From Stdlib Require Import ZArith Lia.
From stdpp Require Import base list strings relations.
From S2P Require Import Prelude Storage JsValue.
Local Open Scope Z_scope.

Module Goals.

Inductive GoalStatus := ACTIVE | REACHED | CLAIMED.

#[export] Instance GoalStatus_eq_dec : EqDecision GoalStatus.
Proof. solve_decision. Defined.

(** The [goals] entity. *)
Record Goal := mkGoal {
  on_chain_id : string;
  owner : string;
  name : string;
  target_amount : string;
  current_amount : string;
  status : GoalStatus;
  reached_at : option Z;
  created_at : Z;
}.

Record GoalSummary := mkSummary {
  total_goals : Z;
  active_goals : Z;
  reached_goals : Z;
  total_target : string;
  total_saved : string;
}.

Record PaginatedGoals := mkPage {
  data : list Goal;
  total : Z;
  page : Z;
  limit : Z;
}.

Section service.
Context {B : Backend}.

(** The repository. *)
Definition state : Type := table string Goal.

Definition findByOnChainId (id : string) : M state Goal :=
  await goal := gets (find_one id) in
  of_option (NotFoundException ("Goal " +:+ id +:+ " not found")) goal.

Definition save_goal (g : Goal) : M state Goal :=
  do modify (save (on_chain_id g) g) ;>
  ret g.

Definition upsertCreated (id own nm target : string) (now : Z) : M state Goal :=
  await existing := gets (find_one id) in
  match existing with
  | Some g => ret g
  | None => save_goal (mkGoal id own nm target "0" ACTIVE None now)
  end.

Definition applyContribution (id amt : string) : M state Goal :=
  await goal := findByOnChainId id in
  await current := BigInt (current_amount goal) in
  await delta := BigInt amt in
  save_goal (mkGoal (on_chain_id goal) (owner goal) (name goal) (target_amount goal)
               (Z_to_string (current + delta)) (status goal) (reached_at goal)
               (created_at goal)).

Definition with_status (g : Goal) (st : GoalStatus) (at_ : option Z) : Goal :=
  mkGoal (on_chain_id g) (owner g) (name g) (target_amount g) (current_amount g)
    st at_ (created_at g).

(** [markReached]: the goal and whether the call changed it. *)
Definition markReached (id : string) (now : Z) : M state (Goal * bool) :=
  await goal := findByOnChainId id in
  if decide (status goal = REACHED) then ret (goal, false)
  else
    await saved := save_goal (with_status goal REACHED (Some now)) in
    ret (saved, true).

Definition getByOnChainId (id : string) : M state Goal := findByOnChainId id.

Definition claim (id : string) : M state Goal :=
  await goal := findByOnChainId id in
  match status goal with
  | ACTIVE => throw (BadRequestException ("Goal " +:+ id +:+ " has not reached its target yet"))
  | CLAIMED => throw (BadRequestException ("Goal " +:+ id +:+ " has already been claimed"))
  | REACHED => save_goal (with_status goal CLAIMED (reached_at goal))
  end.

(** [find({ where: { owner }, order: { created_at } })]. *)
Definition owned_by (own : string) (t : state) : list Goal :=
  List.filter (fun g => bool_decide (owner g = own)) ((rows t).*2).

(** [list(owner?)]: an absent or empty owner lists every goal. *)
Definition list_goals (own : option string) : M state (list Goal) :=
  gets (fun t =>
    let found := match own with
                 | Some o => if decide (o = ""%string) then (rows t).*2 else owned_by o t
                 | None => (rows t).*2
                 end in
    order_by (fun g => - created_at g) found).

Definition listByOwnerPaginated (own : string) (pg lim : Z) (asc : bool)
  : M state PaginatedGoals :=
  gets (fun t =>
    let found := owned_by own t in
    let key := fun g => if asc then created_at g else - created_at g in
    mkPage (paginate pg lim (order_by key found)) (Z.of_nat (length found)) pg (Z.min lim 100)).

(** [goals.reduce((sum, g) => sum + BigInt(g.f), 0n)]. *)
Fixpoint sum_amounts (f : Goal -> string) (sum : Z) (gs : list Goal) : M state Z :=
  match gs with
  | [] => ret sum
  | g :: gs' => await n := BigInt (f g) in sum_amounts f (sum + n) gs'
  end.

Definition count_status (st : GoalStatus) (gs : list Goal) : Z :=
  Z.of_nat (length (List.filter (fun g => bool_decide (status g = st)) gs)).

Definition summary (own : option string) : M state GoalSummary :=
  await goals := list_goals own in
  await totalTarget := sum_amounts target_amount 0 goals in
  await totalSaved := sum_amounts current_amount 0 goals in
  ret (mkSummary (Z.of_nat (length goals)) (count_status ACTIVE goals)
         (count_status REACHED goals) (Z_to_string totalTarget) (Z_to_string totalSaved)).
End service.

(** ** Specification *)

(** Every row is stored under its own on-chain id. *)
Definition keyed {B : Backend} (t : state) : Prop :=
  forall id g, find_one id t = Some g -> on_chain_id g = id.

(** The calls that write. *)
Inductive op :=
| UpsertCreated (id own nm target : string)
| ApplyContribution (id amt : string)
| MarkReached (id : string)
| Claim (id : string).

Definition run_op {B : Backend} (o : op) (now : Z) (t : state) : state :=
  match o with
  | UpsertCreated id own nm target => (upsertCreated id own nm target now t).2
  | ApplyContribution id amt => (applyContribution id amt t).2
  | MarkReached id => (markReached id now t).2
  | Claim id => (claim id t).2
  end.

(** The steps a stored goal's status can take. *)
Inductive status_step : GoalStatus -> GoalStatus -> Prop :=
| step_stay st : status_step st st
| step_reach : status_step ACTIVE REACHED
| step_claim : status_step REACHED CLAIMED
| step_reopen : status_step CLAIMED REACHED.

(** The columns no call rewrites. *)
Definition same_goal (g g' : Goal) : Prop :=
  on_chain_id g = on_chain_id g' /\ owner g = owner g' /\ name g = name g' /\
  target_amount g = target_amount g' /\ created_at g = created_at g'.

(** The goals of an owner filter, unordered. *)
Definition selected {B : Backend} (own : option string) (t : state) : list Goal :=
  match own with
  | Some o => if decide (o = ""%string) then (rows t).*2 else owned_by o t
  | None => (rows t).*2
  end.

Section proofs.
Context {B : Backend}.

Lemma findByOnChainId_run id (t : state) :
  findByOnChainId id t =
    match find_one id t with
    | Some g => (Ret g, t)
    | None => (Throw (NotFoundException ("Goal " +:+ id +:+ " not found")), t)
    end.
Proof. unfold findByOnChainId. run. by destruct (find_one id t). Qed.

Lemma upsertCreated_run id own nm target now (t : state) :
  upsertCreated id own nm target now t =
    match find_one id t with
    | Some g => (Ret g, t)
    | None => let g := mkGoal id own nm target "0" ACTIVE None now in
             (Ret g, save id g t)
    end.
Proof. unfold upsertCreated. run. by destruct (find_one id t). Qed.

Definition contributed (g : Goal) (n : Z) : Goal :=
  mkGoal (on_chain_id g) (owner g) (name g) (target_amount g)
    (Z_to_string n) (status g) (reached_at g) (created_at g).

Lemma applyContribution_run id amt (t : state) g n d :
  find_one id t = Some g -> BigInt_of_string (current_amount g) = Some n ->
  BigInt_of_string amt = Some d ->
  applyContribution id amt t =
    (Ret (contributed g (n + d)), save (on_chain_id g) (contributed g (n + d)) t).
Proof.
  intros Hg Hn Hd. unfold applyContribution, bind at 1.
  rewrite findByOnChainId_run, Hg. unfold BigInt. rewrite Hn. run. by rewrite Hd.
Qed.

(** An unknown goal or a malformed amount makes it throw and write nothing. *)
Lemma applyContribution_throws id amt (t : state) :
  (forall g, find_one id t = Some g ->
        BigInt_of_string (current_amount g) = None \/ BigInt_of_string amt = None) ->
  exists e, applyContribution id amt t = (Throw e, t).
Proof.
  intros H. unfold applyContribution, bind at 1. rewrite findByOnChainId_run.
  destruct (find_one id t) as [g|]; [|by eexists].
  unfold BigInt. run. destruct (BigInt_of_string (current_amount g)) eqn:Hn; simpl; [|by eexists].
  destruct (H g eq_refl) as [|Hd]; [congruence|]. rewrite Hd. by eexists.
Qed.

Lemma markReached_run id now (t : state) g :
  find_one id t = Some g ->
  markReached id now t =
    if decide (status g = REACHED) then (Ret (g, false), t)
    else let g' := with_status g REACHED (Some now) in
         (Ret (g', true), save (on_chain_id g) g' t).
Proof.
  intros Hg. unfold markReached, bind at 1. rewrite findByOnChainId_run, Hg.
  by case_decide.
Qed.

Lemma markReached_unknown id now (t : state) :
  find_one id t = None ->
  markReached id now t = (Throw (NotFoundException ("Goal " +:+ id +:+ " not found")), t).
Proof. intros Hg. unfold markReached, bind at 1. by rewrite findByOnChainId_run, Hg. Qed.

Lemma claim_run id (t : state) g :
  find_one id t = Some g ->
  claim id t =
    match status g with
    | REACHED => let g' := with_status g CLAIMED (reached_at g) in
                 (Ret g', save (on_chain_id g) g' t)
    | ACTIVE => (Throw (BadRequestException ("Goal " +:+ id +:+ " has not reached its target yet")), t)
    | CLAIMED => (Throw (BadRequestException ("Goal " +:+ id +:+ " has already been claimed")), t)
    end.
Proof.
  intros Hg. unfold claim, bind at 1. rewrite findByOnChainId_run, Hg.
  by destruct (status g).
Qed.

(** Every write of the service is the save of one row under its key, that
    either is new and active with nothing saved, or updates the row. *)
Lemma run_op_shape o now (t : state) :
  keyed t ->
  run_op o now t = t \/
  exists g, run_op o now t = save (on_chain_id g) g t /\
    match find_one (on_chain_id g) t with
    | None => status g = ACTIVE /\ current_amount g = "0"%string
    | Some g0 => status_step (status g0) (status g) /\ same_goal g0 g
    end.
Proof.
  intros Hk. destruct o as [id own nm target|id amt|id|id]; cbn [run_op].
  - rewrite upsertCreated_run. destruct (find_one id t) eqn:Hg; [by left|right].
    exists (mkGoal id own nm target "0" ACTIVE None now). split; [done|]. simpl. by rewrite Hg.
  - destruct (find_one id t) as [g|] eqn:Hg; cycle 1.
    { left. edestruct (applyContribution_throws id amt t) as [e ->]; [|done].
      intros g. congruence. }
    destruct (BigInt_of_string (current_amount g)) as [n|] eqn:Hn; cycle 1.
    { left. edestruct (applyContribution_throws id amt t) as [e ->]; [|done].
      intros g'. rewrite Hg. intros [= <-]. by left. }
    destruct (BigInt_of_string amt) as [d|] eqn:Hd; cycle 1.
    { left. edestruct (applyContribution_throws id amt t) as [e ->]; [|done]. by right. }
    right. rewrite (applyContribution_run id amt t g n d) by done.
    exists (contributed g (n + d)). split; [done|]. simpl.
    rewrite (Hk _ _ Hg), Hg. split; [constructor|done].
  - destruct (find_one id t) as [g|] eqn:Hg; [|left; by rewrite markReached_unknown].
    rewrite (markReached_run id now t g Hg). case_decide as Hst; [by left|right].
    exists (with_status g REACHED (Some now)). split; [done|]. simpl. rewrite (Hk _ _ Hg), Hg.
    split; [|done]. destruct (status g); [constructor|done|constructor].
  - destruct (find_one id t) as [g|] eqn:Hg; cycle 1.
    { left. unfold claim, bind at 1. by rewrite findByOnChainId_run, Hg. }
    rewrite (claim_run id t g Hg). destruct (status g) eqn:Hst; [by left| |by left].
    right. exists (with_status g CLAIMED (reached_at g)). split; [done|].
    simpl. rewrite (Hk _ _ Hg), Hg, Hst.
    split; [constructor|done].
Qed.

Lemma save_keyed g (t : state) : keyed t -> keyed (save (on_chain_id g) g t).
Proof.
  intros Hk id g'. rewrite find_one_save. case_decide as Hid; [|apply Hk].
  intros [= <-]. done.
Qed.

Lemma run_op_keyed o now (t : state) : keyed t -> keyed (run_op o now t).
Proof.
  intros Hk. destruct (run_op_shape o now t Hk) as [->|(g & -> & _)]; [done|].
  by apply save_keyed.
Qed.

Lemma sum_amounts_run f (gs : list Goal) ns acc (t : state) :
  Forall2 (fun g n => BigInt_of_string (f g) = Some n) gs ns ->
  sum_amounts f acc gs t = (Ret (acc + sumZ ns), t).
Proof.
  intros H. revert acc. induction H as [|g n gs ns Hn Hrest IH]; intros acc; simpl.
  - unfold ret. do 2 f_equal. lia.
  - unfold BigInt, bind. rewrite Hn. simpl. rewrite IH. do 2 f_equal. lia.
Qed.

Lemma count_status_total (gs : list Goal) :
  Z.of_nat (length gs) = count_status ACTIVE gs + count_status REACHED gs + count_status CLAIMED gs.
Proof.
  unfold count_status. induction gs as [|g gs IH]; [done|]. simpl.
  destruct (status g); repeat case_bool_decide; simplify_eq/=; lia.
Qed.

Lemma run_op_goal o now (t : state) id g :
  keyed t -> find_one id t = Some g ->
  exists g', find_one id (run_op o now t) = Some g' /\
        status_step (status g) (status g') /\ same_goal g g'.
Proof.
  intros Hk Hg. destruct (run_op_shape o now t Hk) as [->|(g1 & -> & Hshape)].
  { exists g. repeat split; auto. constructor. }
  rewrite find_one_save. case_decide as Hid.
  - subst. rewrite Hg in Hshape. by exists g1.
  - exists g. repeat split; auto. constructor.
Qed.

Lemma list_goals_run own (t : state) :
  exists gs, list_goals own t = (Ret gs, t) /\ gs ≡ₚ selected own t.
Proof.
  eexists. split; [reflexivity|]. simpl. etrans; [apply order_by_perm|]. done.
Qed.
End proofs.

Definition run_ops {B : Backend} (ops : list (op * Z)) (t : state) : state :=
  foldl (fun t '(o, now) => run_op o now t) t ops.

Lemma run_ops_keyed {B : Backend} ops (t : state) : keyed t -> keyed (run_ops ops t).
Proof.
  revert t. induction ops as [|[o now] ops IH]; intros t Hk; simpl; [done|].
  apply IH. by apply run_op_keyed.
Qed.

Lemma empty_keyed {B : Backend} : keyed empty_table.
Proof. intros id g. by rewrite find_one_empty. Qed.

(** C20: A projected goal is never lost: whatever calls follow, failing ones
    included, the goal is still stored, its owner, name, target and creation
    time are unchanged, and its status has only moved along the steps
    active, reached, claimed (and back from claimed to reached). *)
Theorem goal_never_lost {B : Backend} (before after : list (op * Z)) (id : string) (g : Goal) :
  find_one id (run_ops before empty_table) = Some g ->
  exists g', find_one id (run_ops after (run_ops before empty_table)) = Some g' /\
        rtc status_step (status g) (status g') /\ same_goal g g'.
Proof.
  set (t := run_ops before empty_table).
  assert (Hk : keyed t) by apply run_ops_keyed, empty_keyed.
  clearbody t. revert t g Hk.
  induction after as [|[o now] after IH]; intros t g Hk Hg; simpl.
  { exists g. repeat split; auto. apply rtc_refl. }
  destruct (run_op_goal o now t id g Hk Hg) as (g1 & Hg1 & Hs1 & (? & ? & ? & ? & ?)).
  destruct (IH (run_op o now t) g1 (run_op_keyed o now t Hk) Hg1)
    as (g2 & Hg2 & Hs2 & (? & ? & ? & ? & ?)).
  exists g2. split; [done|]. split; [by eapply rtc_l|].
  repeat split; congruence.
Qed.

Lemma goal_never_lost_witness :
  exists g', find_one (Backend := MemBackend) "7" (run_ops
          [(ApplyContribution "7" "60", 2); (MarkReached "7", 3); (Claim "7", 4)]
          (run_ops [(UpsertCreated "7" "G1" "car" "50", 1)] empty_table)) = Some g' /\
        rtc status_step ACTIVE (status g') /\
        same_goal (mkGoal "7" "G1" "car" "50" "0" ACTIVE None 1) g'.
Proof.
  apply (goal_never_lost (B := MemBackend) [(UpsertCreated "7" "G1" "car" "50", 1)]
    [(ApplyContribution "7" "60", 2); (MarkReached "7", 3); (Claim "7", 4)] "7"
    (mkGoal "7" "G1" "car" "50" "0" ACTIVE None 1)).
  vm_compute. reflexivity.
Defined.

(** C23: [claim] succeeds on a reached goal only, marks it claimed, and a second
    claim is rejected with 400 without a write; an active goal is rejected with
    400 and an unknown one with 404. *)
Theorem claim_once {B : Backend} (id : string) (t : state) :
  keyed t ->
  match find_one id t with
  | Some g =>
      (status g = REACHED ->
       exists g', (claim id t).1 = Ret g' /\ status g' = CLAIMED /\
             find_one id (claim id t).2 = Some g' /\
             exists m, claim id (claim id t).2 = (Throw (HttpException 400 m), (claim id t).2)) /\
      (status g ≠ REACHED -> exists m, claim id t = (Throw (HttpException 400 m), t))
  | None => exists m, claim id t = (Throw (HttpException 404 m), t)
  end.
Proof.
  intros Hk. destruct (find_one id t) as [g|] eqn:Hg; cycle 1.
  { eexists. unfold claim, bind at 1. by rewrite findByOnChainId_run, Hg. }
  split; intros Hst; rewrite (claim_run id t g Hg).
  - rewrite Hst. exists (with_status g CLAIMED (reached_at g)). cbn [fst snd].
    rewrite (Hk _ _ Hg), find_one_save_eq. repeat split; auto.
    eexists. erewrite claim_run by apply find_one_save_eq. done.
  - destruct (status g); [by eexists|done|by eexists].
Qed.

Lemma claim_once_witness :
  let t := run_ops (B := MemBackend)
             [(UpsertCreated "7" "G1" "car" "50", 1); (MarkReached "7", 2)] empty_table in
  exists g', (claim "7" t).1 = Ret g' /\ status g' = CLAIMED.
Proof.
  intros t.
  assert (H := claim_once (B := MemBackend) "7" t (run_ops_keyed _ _ empty_keyed)).
  destruct (proj1 H eq_refl) as (g' & H1 & H2 & _). by exists g'.
Defined.

(** [markReached] is idempotent: the second call reports no change and
    writes nothing, so the notification it guards is not sent again. *)
Theorem markReached_idempotent {B : Backend} (id : string) (now now' : Z) (t : state) (g : Goal) :
  keyed t -> find_one id t = Some g ->
  exists g', markReached id now' (markReached id now t).2 = (Ret (g', false), (markReached id now t).2)
        /\ status g' = REACHED.
Proof.
  intros Hk Hg. rewrite (markReached_run id now t g Hg). case_decide as Hst.
  - exists g. cbn [snd]. rewrite (markReached_run id now' t g Hg). by rewrite decide_True.
  - cbn [snd]. exists (with_status g REACHED (Some now)). rewrite (Hk _ _ Hg).
    erewrite markReached_run by apply find_one_save_eq. by rewrite decide_True.
Qed.

Lemma markReached_idempotent_witness :
  let t := run_ops (B := MemBackend) [(UpsertCreated "7" "G1" "car" "50", 1)] empty_table in
  exists g', markReached "7" 9 (markReached "7" 5 t).2 = (Ret (g', false), (markReached "7" 5 t).2)
        /\ status g' = REACHED.
Proof.
  intros t. apply (markReached_idempotent (B := MemBackend) "7" 5 9 t
    (mkGoal "7" "G1" "car" "50" "0" ACTIVE None 1) (run_ops_keyed _ _ empty_keyed)).
  vm_compute. reflexivity.
Defined.

(** A [goal_reached] event delivered again after the claim reopens the
    goal: [markReached] reports a change on a claimed goal and sets it back to
    reached, after which the claim that was rejected succeeds a second time. *)
Theorem replayed_reached_reopens_claim {B : Backend} (id : string) (now : Z) (t : state) (g : Goal) :
  keyed t -> find_one id t = Some g -> status g = REACHED ->
  let t1 := (claim id t).2 in
  let t2 := (markReached id now t1).2 in
  is_ret (claim id t1).1 = false /\
  (exists g1, (markReached id now t1).1 = Ret (g1, true)) /\
  is_ret (claim id t2).1 = true.
Proof.
  intros Hk Hg Hst t1 t2.
  assert (Ht1 : t1 = save id (with_status g CLAIMED (reached_at g)) t).
  { unfold t1. rewrite (claim_run id t g Hg), Hst. cbn [snd]. by rewrite (Hk _ _ Hg). }
  assert (Hg1 : find_one id t1 = Some (with_status g CLAIMED (reached_at g))).
  { rewrite Ht1. apply find_one_save_eq. }
  unfold t2. rewrite (claim_run id t1 _ Hg1), (markReached_run id now t1 _ Hg1).
  rewrite decide_False by done. cbn [fst snd status with_status].
  repeat split; [by eexists|]. simpl. rewrite (Hk _ _ Hg).
  erewrite claim_run by apply find_one_save_eq. done.
Qed.

Lemma replayed_reached_reopens_claim_witness :
  let t := run_ops (B := MemBackend)
             [(UpsertCreated "7" "G1" "car" "50", 1); (MarkReached "7", 2)] empty_table in
  let t1 := (claim "7" t).2 in
  is_ret (claim "7" t1).1 = false /\ is_ret (claim "7" (markReached "7" 3 t1).2).1 = true.
Proof.
  intros t t1.
  destruct (replayed_reached_reopens_claim (B := MemBackend) "7" 3 t
    (mkGoal "7" "G1" "car" "50" "0" REACHED (Some 2) 1) (run_ops_keyed _ _ empty_keyed)
    eq_refl eq_refl) as (H1 & _ & H2).
  split; [exact H1|exact H2].
Defined.

Lemma summary_run {B : Backend} (own : option string) (t : state) (targets saved : list Z) :
  Forall2 (fun g n => BigInt_of_string (target_amount g) = Some n) (selected own t) targets ->
  Forall2 (fun g n => BigInt_of_string (current_amount g) = Some n) (selected own t) saved ->
  exists sm, summary own t = (Ret sm, t) /\
    total_target sm = Z_to_string (sumZ targets) /\
    total_saved sm = Z_to_string (sumZ saved) /\
    total_goals sm = Z.of_nat (length (selected own t)) /\
    total_goals sm = active_goals sm + reached_goals sm + count_status CLAIMED (selected own t).
Proof.
  intros Ht Hs. destruct (list_goals_run own t) as (gs & Hrun & Hperm).
  destruct (Permutation_Forall2 (symmetry Hperm) Ht) as (ts' & Htp & Ht').
  destruct (Permutation_Forall2 (symmetry Hperm) Hs) as (ss' & Hsp & Hs').
  eexists. split.
  { unfold summary, bind at 1. rewrite Hrun. unfold bind.
    rewrite (sum_amounts_run _ _ _ _ _ Ht'), (sum_amounts_run _ _ _ _ _ Hs'). reflexivity. }
  cbn [total_target total_saved total_goals active_goals reached_goals]. rewrite !Z.add_0_l.
  assert (Hc : count_status CLAIMED gs = count_status CLAIMED (selected own t)).
  { unfold count_status. f_equal. apply Permutation_length. by rewrite Hperm. }
  repeat split.
  - f_equal. symmetry. by apply sumZ_Permutation.
  - f_equal. symmetry. by apply sumZ_Permutation.
  - by rewrite Hperm.
  - rewrite <-Hc. apply count_status_total.
Qed.

(** When the selected goals' amounts are integer literals, [summary] returns
    their exact sums, whatever order the database lists them in, and its counts
    add up: the goals that are neither active nor reached are the claimed ones. *)
Theorem summary_totals {B : Backend} (own : option string) (t : state) (targets saved : list Z) :
  Forall2 (fun g n => BigInt_of_string (target_amount g) = Some n) (selected own t) targets ->
  Forall2 (fun g n => BigInt_of_string (current_amount g) = Some n) (selected own t) saved ->
  exists sm, summary own t = (Ret sm, t) /\
    total_target sm = Z_to_string (sumZ targets) /\
    total_saved sm = Z_to_string (sumZ saved) /\
    total_goals sm = Z.of_nat (length (selected own t)) /\
    total_goals sm = active_goals sm + reached_goals sm + count_status CLAIMED (selected own t).
Proof. apply summary_run. Qed.

Lemma summary_totals_witness :
  let t := run_ops (B := MemBackend)
             [(UpsertCreated "7" "G1" "car" "50", 1); (UpsertCreated "8" "G2" "boat" "900", 2);
              (ApplyContribution "7" "20", 3); (UpsertCreated "9" "G1" "home" "70", 4)] empty_table in
  exists sm, summary (Some "G1"%string) t = (Ret sm, t) /\ total_target sm = "120"%string /\
        total_saved sm = "20"%string.
Proof.
  intros t.
  destruct (summary_totals (B := MemBackend) (Some "G1"%string) t [50; 70] [20; 0])
    as (sm & H1 & H2 & H3 & _); [repeat constructor; vm_compute; reflexivity..|].
  exists sm. split; [exact H1|]. by rewrite H2, H3.
Defined.
End Goals.
