(* ===== verification/Groups.v ===== *)
(** * GroupsService: the group-savings projection

    Models [backend/src/savings/groups.service.ts]: the [groups] table keyed
    by [on_chain_id] and the [group_members] table keyed by the pair of the
    group's id and the member's address (its unique constraint). *)
From Stdlib Require Import ZArith Lia.
From stdpp Require Import base list strings sets.
From S2P Require Import Prelude Storage JsValue.
Local Open Scope Z_scope.

Module Groups.

(** The [groups] entity; [id] is the generated primary key. *)
Record Group := mkGroup {
  id : string;
  on_chain_id : string;
  creator : option string;
  name : option string;
  balance : string;
  open : bool;
  settled : bool;
  settled_at : option Z;
}.

(** The [group_members] entity. *)
Record GroupMember := mkMember {
  group_id : string;
  address : string;
  share_bps : Z;
  created_at : Z;
}.

Section service.
Context {B : Backend}.

Record state := mkState {
  groups : table string Group;
  members : table (string * string) GroupMember;
}.

Definition initial : state := mkState empty_table empty_table.

Definition save_group (g : Group) : M state Group :=
  do modify (fun s => mkState (save (on_chain_id g) g (groups s)) (members s)) ;>
  ret g.

Definition save_member (m : GroupMember) : M state GroupMember :=
  do modify (fun s => mkState (groups s) (save (group_id m, address m) m (members s))) ;>
  ret m.

Definition findByOnChainId (oid : string) : M state Group :=
  await group := gets (fun s => find_one oid (groups s)) in
  of_option (NotFoundException ("Group " +:+ oid +:+ " not found")) group.

(** [uuid] is the id the database generates should the row be inserted. *)
Definition markSettled (oid uuid : string) (now : Z) : M state (Group * bool) :=
  await found := gets (fun s => find_one oid (groups s)) in
  let group := match found with
               | Some g => g
               | None => mkGroup uuid oid None None "0" true false None
               end in
  if settled group then ret (group, false)
  else
    await saved := save_group (mkGroup (id group) (on_chain_id group) (creator group)
                     (name group) "0" (open group) true (Some now)) in
    ret (saved, true).

Definition upsertCreated (oid uuid crt nm : string) : M state Group :=
  await existing := gets (fun s => find_one oid (groups s)) in
  match existing with
  | Some g => ret g
  | None => save_group (mkGroup uuid oid (Some crt) (Some nm) "0" true false None)
  end.

Definition addMember (oid addr : string) (now : Z) : M state GroupMember :=
  await group := findByOnChainId oid in
  await existing := gets (fun s => find_one (id group, addr) (members s)) in
  match existing with
  | Some m => ret m
  | None => save_member (mkMember (id group) addr 0 now)
  end.

(** One entry of [Object.entries(sharesBps)]. *)
Definition setShare (gid : string) (now : Z) (entry : string * Z) : M state GroupMember :=
  let '(addr, bps) := entry in
  await member := gets (fun s => find_one (gid, addr) (members s)) in
  match member with
  | Some m => save_member (mkMember (group_id m) (address m) bps (created_at m))
  | None => save_member (mkMember gid addr bps now)
  end.

Definition setShares (oid : string) (sharesBps : list (string * Z)) (now : Z)
  : M state (list GroupMember) :=
  await group := findByOnChainId oid in
  map_each (setShare (id group) now) sharesBps.

Definition listMembers (oid : string) : M state (list GroupMember) :=
  await group := findByOnChainId oid in
  gets (fun s => order_by (fun m => - created_at m)
    (List.filter (fun m => bool_decide (group_id m = id group)) ((rows (members s)).*2))).

(** [relations: ['group']]: each membership with the group row of its foreign
    key. *)
Definition listGroupsForAddress (addr : string) : M state (list Group) :=
  gets (fun s =>
    let memberships := List.filter (fun m => bool_decide (address m = addr))
                         ((rows (members s)).*2) in
    omap (fun m => List.find (fun g => bool_decide (id g = group_id m)) ((rows (groups s)).*2))
         memberships).
End service.

(** ** Lemmas *)

Definition member_keyed {B : Backend} (s : state) : Prop :=
  forall k m, find_one k (members s) = Some m -> k = (group_id m, address m).

(** The share a member holds in the group with generated id [gid]. *)
Definition share_of {B : Backend} (gid addr : string) (s : state) : option Z :=
  share_bps <$> find_one (gid, addr) (members s).

Section proofs.
Context {B : Backend}.

Lemma markSettled_run oid uuid now (s : state) :
  markSettled oid uuid now s =
    let g := default (mkGroup uuid oid None None "0" true false None) (find_one oid (groups s)) in
    if settled g then (Ret (g, false), s)
    else
      let g' := mkGroup (id g) (on_chain_id g) (creator g) (name g) "0" (open g) true (Some now) in
      (Ret (g', true), mkState (save (on_chain_id g) g' (groups s)) (members s)).
Proof.
  unfold markSettled. run. destruct (find_one oid (groups s)) as [g|]; simpl; [|done].
  by destruct (settled g).
Qed.

Lemma setShare_run gid now addr bps (s : state) :
  member_keyed s ->
  exists m, setShare gid now (addr, bps) s =
    (Ret m, mkState (groups s) (save (gid, addr) m (members s))) /\
    share_bps m = bps /\ group_id m = gid /\ address m = addr.
Proof.
  intros Hk. unfold setShare. run.
  destruct (find_one (gid, addr) (members s)) as [m|] eqn:Hm.
  - apply Hk in Hm. simplify_eq. by eexists.
  - by eexists.
Qed.

Lemma setShare_spec gid now addr bps (s : state) :
  member_keyed s ->
  let s' := (setShare gid now (addr, bps) s).2 in
  member_keyed s' /\ groups s' = groups s /\
  (forall g a, share_of g a s' =
     if decide ((gid, addr) = (g, a)) then Some bps else share_of g a s).
Proof.
  intros Hk. destruct (setShare_run gid now addr bps s Hk) as (m & -> & Hb & Hg & Ha).
  cbn [snd]. split; [|split; [done|]].
  - intros k m'. cbn [members]. rewrite find_one_save. case_decide as Heq; [|apply Hk].
    intros [= <-]. subst. done.
  - intros g a. unfold share_of. cbn [members]. rewrite find_one_save.
    case_decide; [|done]. simpl. by rewrite Hb.
Qed.

Lemma initial_member_keyed : member_keyed initial.
Proof. intros k m. simpl. by rewrite find_one_empty. Qed.

Lemma save_member_keyed m : preserves member_keyed (save_member m).
Proof.
  intros s Hk k m'. cbn. rewrite find_one_save. case_decide; [|apply Hk].
  intros [= <-]. done.
Qed.

Lemma findByOnChainId_keyed oid : preserves member_keyed (findByOnChainId oid).
Proof. unfold findByOnChainId. eauto with stow. Qed.

Lemma addMember_keyed oid addr now : preserves member_keyed (addMember oid addr now).
Proof.
  unfold addMember. apply preserves_bind; [apply findByOnChainId_keyed|]. intros g.
  apply preserves_bind; [apply preserves_gets|]. intros [m|];
    [apply preserves_ret|apply save_member_keyed].
Qed.

Lemma upsertCreated_keyed oid uuid crt nm : preserves member_keyed (upsertCreated oid uuid crt nm).
Proof.
  unfold upsertCreated. apply preserves_bind; [apply preserves_gets|].
  intros [g|]; [apply preserves_ret|]. intros s Hs k m.
  change (find_one k (members s) = Some m -> k = (group_id m, address m)). apply Hs.
Qed.

Lemma map_each_setShare gid now (entries : list (string * Z)) (s : state) :
  member_keyed s -> NoDup entries.*1 ->
  exists ms s', map_each (setShare gid now) entries s = (Ret ms, s') /\
    length ms = length entries /\ member_keyed s' /\ groups s' = groups s /\
    (forall a b, (a, b) ∈ entries -> share_of gid a s' = Some b) /\
    (forall g a, g ≠ gid \/ a ∉ entries.*1 -> share_of g a s' = share_of g a s).
Proof.
  revert s. induction entries as [|[addr bps] entries IH]; intros s Hk Hnd.
  { eexists _, _. repeat split; try done. intros a b H. by apply not_elem_of_nil in H. }
  csimpl in Hnd. apply NoDup_cons in Hnd as [Hni Hnd].
  destruct (setShare_run gid now addr bps s Hk) as (m & Hrun & _).
  destruct (setShare_spec gid now addr bps s Hk) as (Hk1 & Hg1 & Hs1).
  cbn [map_each]. unfold bind at 1. rewrite Hrun in *. cbn [snd] in *.
  destruct (IH _ Hk1 Hnd) as (ms & s' & Hrest & Hlen & Hk' & Hg' & Hin & Hout).
  unfold bind. rewrite Hrest. eexists _, _. split; [reflexivity|].
  split; [simpl; lia|]. split; [done|]. split; [congruence|]. split.
  - intros a b [Heq|Hab]%elem_of_cons; [|by apply Hin].
    simplify_eq. rewrite Hout by (by right). rewrite Hs1. by rewrite decide_True.
  - intros g a Hga. csimpl in Hga. rewrite Hout by set_solver.
    rewrite Hs1. rewrite decide_False; [done|]. set_solver.
Qed.
End proofs.

(** Every group row is stored under its own on-chain id. *)
Definition group_keyed {B : Backend} (s : state) : Prop :=
  forall oid g, find_one oid (groups s) = Some g -> on_chain_id g = oid.

Lemma markSettled_group_keyed {B : Backend} oid uuid now :
  preserves group_keyed (markSettled oid uuid now).
Proof.
  intros s Hk. rewrite markSettled_run. cbv zeta. case_match; [done|].
  intros oid' g'. cbn [groups snd]. rewrite find_one_save. case_decide; [|apply Hk].
  intros [= <-]. done.
Qed.

(** A group stays settled: a later call changes nothing. *)
Lemma markSettled_again {B : Backend} oid uuid uuid' now now' (s : state) :
  group_keyed s ->
  exists g, markSettled oid uuid' now' (markSettled oid uuid now s).2 =
    (Ret (g, false), (markSettled oid uuid now s).2).
Proof.
  intros Hk. rewrite (markSettled_run oid uuid now). cbv zeta.
  set (g0 := default _ _).
  assert (Hid : on_chain_id g0 = oid).
  { unfold g0. destruct (find_one oid (groups s)) eqn:Hg; [by apply Hk in Hg|done]. }
  destruct (settled g0) eqn:Hs; cbn [snd]; rewrite markSettled_run; cbv zeta.
  - unfold g0 in *. destruct (find_one oid (groups s)); [|done]. simpl in *.
    rewrite Hs. by eexists.
  - cbn [groups]. rewrite Hid, find_one_save_eq. by eexists.
Qed.

Lemma markSettled_settles {B : Backend} oid uuid now (s : state) :
  group_keyed s ->
  exists g, find_one oid (groups (markSettled oid uuid now s).2) = Some g /\ settled g = true.
Proof.
  intros Hk. rewrite markSettled_run. cbv zeta.
  destruct (find_one oid (groups s)) as [g|] eqn:Hg; simpl.
  - destruct (settled g) eqn:Hs; simpl; [by exists g|].
    rewrite (Hk _ _ Hg), find_one_save_eq. by eexists.
  - rewrite find_one_save_eq. by eexists.
Qed.

(** The calls that write, with the time and the generated id they use. *)
Inductive op :=
| MarkSettled (oid uuid : string) (now : Z)
| UpsertCreated (oid uuid crt nm : string)
| AddMember (oid addr : string) (now : Z)
| SetShares (oid : string) (sharesBps : list (string * Z)) (now : Z).

Definition run_op {B : Backend} (o : op) (s : state) : state :=
  match o with
  | MarkSettled oid uuid now => (markSettled oid uuid now s).2
  | UpsertCreated oid uuid crt nm => (upsertCreated oid uuid crt nm s).2
  | AddMember oid addr now => (addMember oid addr now s).2
  | SetShares oid sharesBps now => (setShares oid sharesBps now s).2
  end.

Section steps.
Context {B : Backend}.

Lemma findByOnChainId_rows (J : table string Group -> Prop) oid :
  preserves (fun s => J (groups s)) (findByOnChainId oid).
Proof. unfold findByOnChainId. preserve. Qed.

Lemma save_member_rows (J : table string Group -> Prop) m :
  preserves (fun s => J (groups s)) (save_member m).
Proof. unfold save_member. preserve. by apply preserves_modify. Qed.

Lemma addMember_rows (J : table string Group -> Prop) oid addr now :
  preserves (fun s => J (groups s)) (addMember oid addr now).
Proof.
  unfold addMember. preserve; first [apply findByOnChainId_rows|apply save_member_rows].
Qed.

Lemma setShares_rows (J : table string Group -> Prop) oid shs now :
  preserves (fun s => J (groups s)) (setShares oid shs now).
Proof.
  unfold setShares. preserve.
  apply preserves_map_each. intros [addr bps]. unfold setShare.
  preserve; apply save_member_rows.
Qed.

(** Every write to the group table stores a new row under a free on-chain id,
    or settles the row that is there. *)
Lemma run_op_rows o (s : state) :
  group_keyed s ->
  groups (run_op o s) = groups s \/
  exists g, groups (run_op o s) = save (on_chain_id g) g (groups s) /\
    (find_one (on_chain_id g) (groups s) = None \/ settled g = true).
Proof.
  intros Hk. destruct o as [oid uuid now|oid uuid crt nm|oid addr now|oid shs now]; cbn [run_op].
  - rewrite markSettled_run. cbv zeta. case_match; [by left|right].
    eexists (mkGroup _ (on_chain_id _) _ _ _ _ true _). split; [reflexivity|by right].
  - unfold upsertCreated. run. destruct (find_one oid (groups s)) eqn:Hg; [by left|right].
    exists (mkGroup uuid oid (Some crt) (Some nm) "0" true false None). split; [done|by left].
  - left. by apply (addMember_rows (fun t => t = groups s)).
  - left. by apply (setShares_rows (fun t => t = groups s)).
Qed.

Lemma run_op_group_keyed o (s : state) : group_keyed s -> group_keyed (run_op o s).
Proof.
  intros Hk oid g. destruct (run_op_rows o s Hk) as [->|(g1 & -> & _)]; [apply Hk|].
  rewrite find_one_save. case_decide; [|apply Hk]. intros [= <-]. done.
Qed.

Lemma run_op_settled o (s : state) oid g :
  group_keyed s -> find_one oid (groups s) = Some g -> settled g = true ->
  exists g', find_one oid (groups (run_op o s)) = Some g' /\ settled g' = true.
Proof.
  intros Hk Hg Hs. destruct (run_op_rows o s Hk) as [->|(g1 & -> & Hg1)]; [by exists g|].
  rewrite find_one_save. case_decide as Hid; [|by exists g].
  exists g1. split; [done|]. destruct Hg1 as [Hn|]; [|done]. congruence.
Qed.
End steps.

(** [setShares] on a known group stores exactly the listed basis points:
    every listed address, already a member or not, ends with its listed share,
    every other membership of any group keeps its share, and no group row
    changes. *)
Theorem setShares_exact {B : Backend} (oid : string) (shares : list (string * Z)) (now : Z)
    (s : state) (g : Group) :
  member_keyed s -> NoDup shares.*1 -> find_one oid (groups s) = Some g ->
  exists ms s', setShares oid shares now s = (Ret ms, s') /\
    length ms = length shares /\ groups s' = groups s /\
    (forall a b, (a, b) ∈ shares -> share_of (id g) a s' = Some b) /\
    (forall g' a, g' ≠ id g \/ a ∉ shares.*1 -> share_of g' a s' = share_of g' a s).
Proof.
  intros Hk Hnd Hg.
  destruct (map_each_setShare (id g) now shares s Hk Hnd) as (ms & s' & Hrun & Hlen & _ & Hgr & H).
  exists ms, s'. split; [|done].
  unfold setShares, findByOnChainId. run. by rewrite Hg.
Qed.

Lemma setShares_exact_witness :
  let s := (addMember (B := MemBackend) "3" "G1" 5
             (upsertCreated "3" "uuid" "G1" "trip" initial).2).2 in
  exists ms s', setShares "3" [("G1"%string, 6000); ("G2"%string, 4000)] 9 s = (Ret ms, s') /\
    share_of "uuid" "G2" s' = Some 4000.
Proof.
  intros s.
  destruct (setShares_exact (B := MemBackend) "3" [("G1"%string, 6000); ("G2"%string, 4000)] 9 s
    (mkGroup "uuid" "3" (Some "G1"%string) (Some "trip"%string) "0" true false None))
    as (ms & s' & H1 & _ & _ & H2 & _).
  - apply addMember_keyed, upsertCreated_keyed, initial_member_keyed.
  - repeat constructor; set_solver.
  - vm_compute. reflexivity.
  - exists ms, s'. split; [exact H1|]. apply H2. set_solver.
Defined.

(** [markSettled] settles a group once: the first call reports a change and
    leaves a settled group with a zero balance, a second call reports no change
    and writes nothing. *)
Theorem markSettled_once {B : Backend} (oid uuid uuid' : string) (now now' : Z) (s : state) :
  (forall g, find_one oid (groups s) = Some g -> on_chain_id g = oid /\ settled g = false) ->
  exists g, (markSettled oid uuid now s).1 = Ret (g, true) /\ settled g = true /\
    balance g = "0"%string /\
    find_one oid (groups (markSettled oid uuid now s).2) = Some g /\
    markSettled oid uuid' now' (markSettled oid uuid now s).2 =
      (Ret (g, false), (markSettled oid uuid now s).2).
Proof.
  intros H. rewrite markSettled_run. cbv zeta.
  set (g0 := default _ _).
  assert (Hg0 : on_chain_id g0 = oid /\ settled g0 = false).
  { unfold g0. destruct (find_one oid (groups s)); [by apply H|done]. }
  destruct Hg0 as [Hid Hs]. rewrite Hs. cbn [fst snd].
  eexists. split; [done|]. split; [done|]. split; [done|]. cbn [groups].
  rewrite Hid, find_one_save_eq. split; [done|].
  rewrite markSettled_run. cbn [groups]. by rewrite find_one_save_eq.
Qed.

Lemma markSettled_once_witness :
  exists g, (markSettled (B := MemBackend) "3" "u" 4 initial).1 = Ret (g, true) /\ settled g = true.
Proof.
  destruct (markSettled_once (B := MemBackend) "3" "u" "v" 4 5 initial) as (g & H1 & H2 & _).
  - intros g Hg. discriminate Hg.
  - by exists g.
Defined.
End Groups.
