(* ===== verification/LockedPlans.v ===== *)
(** * LockedPlansService: the locked-savings projection

    Models [backend/src/savings/locked-plans.service.ts]. *)
From Stdlib Require Import ZArith Lia.
From stdpp Require Import base list strings sorting.
From S2P Require Import Prelude Storage JsValue.
Local Open Scope Z_scope.

Module LockedPlans.

(** The [locked_plans] entity. *)
Record LockedPlan := mkPlan {
  on_chain_id : string;
  owner : string;
  balance : string;
  unlock_at : Z;
  created_at : Z;
}.

Record PaginatedLockedPlans := mkPage {
  data : list LockedPlan;
  total : Z;
  page : Z;
  limit : Z;
}.

Section service.
Context {B : Backend}.

Definition state : Type := table string LockedPlan.

Definition upsertCreated (oid own bal : string) (unlockAt : Date) (now : Z)
  : M state LockedPlan :=
  await existing := gets (find_one oid) in
  match existing with
  | Some p => ret p
  | None =>
      await at_ := timestamptz unlockAt in
      let plan := mkPlan oid own bal at_ now in
      do modify (save oid plan) ;>
      ret plan
  end.

Definition owned_by (own : string) (t : state) : list LockedPlan :=
  List.filter (fun p => bool_decide (owner p = own)) ((rows t).*2).

Definition listByOwner (own : string) (pg lim : Z) (desc : bool)
  : M state PaginatedLockedPlans :=
  gets (fun t =>
    let found := owned_by own t in
    let key := fun p => if desc then - unlock_at p else unlock_at p in
    mkPage (paginate pg lim (order_by key found)) (Z.of_nat (length found)) pg (Z.min lim 100)).
End service.

Lemma upsertPlan_run {B : Backend} oid own bal at_ now (t : state) :
  upsertCreated oid own bal at_ now t =
    match find_one oid t with
    | Some p => (Ret p, t)
    | None =>
        match at_ with
        | Some z => (Ret (mkPlan oid own bal z now), save oid (mkPlan oid own bal z now) t)
        | None => (Throw (DatabaseError "22007"), t)
        end
    end.
Proof. unfold upsertCreated. run. destruct (find_one oid t); [done|]. by destruct at_. Qed.

(** The pages of [listByOwner], put one after the other, are the owner's
    plans in unlock order, each plan once and none skipped, and every page
    reports the owner's total and at most 100 plans. *)
Theorem listByOwner_pages {B : Backend} (own : string) (lim : Z) (n : nat) (t : state) :
  1 <= lim -> Z.of_nat (length (owned_by own t)) <= Z.of_nat n * Z.min lim 100 ->
  exists pages, Forall2 (fun i p => (listByOwner own (Z.of_nat i + 1) lim false t).1 = Ret p)
                        (seq 0 n) pages /\
    concat (data <$> pages) ≡ₚ owned_by own t /\
    StronglySorted (fun p q => unlock_at p <= unlock_at q) (concat (data <$> pages)) /\
    Forall (fun p => total p = Z.of_nat (length (owned_by own t)) /\
                     (length (data p) <= 100)%nat) pages.
Proof.
  intros Hlim Hn. set (all := order_by unlock_at (owned_by own t)).
  set (pg := fun i : nat => mkPage (paginate (Z.of_nat i + 1) lim all)
               (Z.of_nat (length (owned_by own t))) (Z.of_nat i + 1) (Z.min lim 100)).
  assert (Hall : concat (data <$> (pg <$> seq 0 n)) = all).
  { rewrite <-list_fmap_compose. unfold pg, compose. simpl.
    rewrite (paginate_concat n lim all Hlim). apply take_ge. unfold all.
    rewrite order_by_perm. lia. }
  exists (pg <$> seq 0 n). rewrite Hall. split.
  - apply Forall2_fmap_r, Forall_Forall2_diag, Forall_true. done.
  - split; [apply order_by_perm|]. split; [apply order_by_sorted|].
    apply Forall_fmap, Forall_true. intros i. split; [done|]. apply length_paginate.
Qed.

Lemma listByOwner_pages_witness :
  let t := (upsertCreated (B := MemBackend) "1" "G1" "5" (Some 90) 0
             (upsertCreated "2" "G1" "6" (Some 40) 0 empty_table).2).2 in
  exists pages, concat (data <$> pages) ≡ₚ owned_by "G1" t /\ length pages = 2%nat.
Proof.
  intros t.
  destruct (listByOwner_pages (B := MemBackend) "G1" 1 2 t) as (pages & H1 & H2 & _).
  - lia.
  - vm_compute. discriminate.
  - exists pages. split; [exact H2|]. by rewrite <-(Forall2_length _ _ _ H1).
Defined.
End LockedPlans.
