(* ===== verification/Savings.v ===== *)
(** * SavingsService: product summary and yield positions

    Models [backend/src/savings/savings.service.ts], which reads the balance
    and goal services and keeps the [yield_positions] table and the cached
    yield rate. *)
From Stdlib Require Import ZArith Lia SpecFloat.
From stdpp Require Import base list strings.
From S2P Require Import Prelude Storage JsValue JsNumber Balance Goals.
Local Open Scope Z_scope.

Module Savings.

(** The [yield_positions] entity. *)
Record YieldPosition := mkPosition {
  owner : string;
  shares : string;
  exchange_rate_snapshot : option string;
  updated_at : Z;
}.

Record YieldRateResponse := mkRate {
  rr_rate : string;
  rr_apr : option number;
  rr_window_days : Z;
}.

Record YieldPositionResponse := mkPositionResponse {
  pr_address : string;
  pr_shares : string;
  pr_estimated_asset_value : option string;
  pr_exchange_rate_snapshot : option string;
  pr_updated_at : Z;
}.

Record SavingsSummary := mkSummary {
  address : string;
  products : list (string * string);
  total : string;
}.

Definition YIELD_RATE_CACHE_TTL_MS : Z := 30000.
Definition YIELD_RATE_CACHE_KEY : string := "savings:yield:rate".

Section service.
Context {B : Backend}.

(** The services and repositories injected in the constructor.  The cache
    entries of this service and of [BalanceService] have distinct keys. *)
Record state := mkState {
  balance : Balance.state;
  goals : Goals.state;
  positions : table string YieldPosition;
  rate_cache : cache YieldRateResponse;
}.

Definition on_balance {A} (m : M Balance.state A) : M state A :=
  zoom balance (fun b s => mkState b (goals s) (positions s) (rate_cache s)) m.
Definition on_goals {A} (m : M Goals.state A) : M state A :=
  zoom goals (fun g s => mkState (balance s) g (positions s) (rate_cache s)) m.

(** [products.reduce((sum, p) => sum + BigInt(p.total), 0n)]. *)
Fixpoint sum_products (sum : Z) (ps : list (string * string)) : M state Z :=
  match ps with
  | [] => ret sum
  | p :: ps' => await n := BigInt p.2 in sum_products (sum + n) ps'
  end.

Definition summary (addr : string) (now : Z) : M state SavingsSummary :=
  await flexible := on_balance (Balance.get addr now) in
  await gs := on_goals (Goals.summary (Some addr)) in
  let ps := [("flexible"%string, Balance.view_amount flexible);
             ("goals"%string, Goals.total_saved gs)] in
  await sum := sum_products 0 ps in
  ret (mkSummary addr ps (Z_to_string sum)).

(** The [try] block of [getYieldPosition]: [null] when the shares are not an
    integer literal or the rate is not positive. *)
Definition estimate (sh rate : string) : option string :=
  match BigInt_of_string sh with
  | Some n =>
      let r := parseFloat rate in
      if num_ltb (num_of_Z 0) r
      then Some (num_to_string (Math_floor (num_mul (num_of_Z n) r)))
      else None
  | None => None
  end.

Definition getYieldPosition (ownerAddress : string) (now : Z) : M state YieldPositionResponse :=
  await position := gets (fun s => find_one ownerAddress (positions s)) in
  match position with
  | None => ret (mkPositionResponse ownerAddress "0" None None now)
  | Some p =>
      let estimatedValue :=
        match exchange_rate_snapshot p with
        | Some r => if decide (r = ""%string \/ shares p = "0"%string) then None
                    else estimate (shares p) r
        | None => None
        end in
      ret (mkPositionResponse (owner p) (shares p) estimatedValue
             (exchange_rate_snapshot p) (updated_at p))
  end.

Definition upsertYieldPosition (own sh : string) (exchangeRate : option string) (now : Z)
  : M state YieldPosition :=
  await found := gets (fun s => find_one own (positions s)) in
  let position := match found with
                  | Some p => p
                  | None => mkPosition own "0" None now
                  end in
  let snapshot := match exchangeRate with
                  | Some r => Some r
                  | None => exchange_rate_snapshot position
                  end in
  let saved := mkPosition (owner position) sh snapshot now in
  do modify (fun s => mkState (balance s) (goals s) (save own saved (positions s)) (rate_cache s)) ;>
  ret saved.

(** [first_row] is the database library's answer to
    [findOne({ order: { updated_at: 'DESC' } })], a query without a [where]. *)
Definition getYieldRate (first_row : table string YieldPosition -> outcome (option YieldPosition))
    (now : Z) : M state YieldRateResponse :=
  await cached := gets (fun s => cache_get YIELD_RATE_CACHE_KEY now (rate_cache s)) in
  match cached with
  | Some r => ret r
  | None =>
      await latestPosition := (fun s => (first_row (positions s), s)) in
      let currentRate :=
        default "0"%string (latestPosition ≫= exchange_rate_snapshot) in
      await view := Balance.buildYieldRateView currentRate [] Balance.APR_WINDOW_DAYS now in
      let response := mkRate (Balance.yr_rate view) (Balance.yr_apr view)
                             (Balance.yr_window_days view) in
      do modify (fun s => mkState (balance s) (goals s) (positions s)
           (cache_set YIELD_RATE_CACHE_KEY response YIELD_RATE_CACHE_TTL_MS now (rate_cache s))) ;>
      ret response
  end.

Definition invalidateYieldRateCache : M state unit :=
  modify (fun s => mkState (balance s) (goals s) (positions s)
                           (cache_del YIELD_RATE_CACHE_KEY (rate_cache s))).
End service.

(** ** Properties *)

(** The address's savings total is its flexible balance, as the table holds
    it even when the read comes from the cache, plus the saved amounts of all its
    goals; the goal product is the same sum.  Amounts are integer literals and the
    balance cache is coherent, as every balance call leaves it. *)
Theorem summary_total {B : Backend} (addr : string) (now : Z) (s : state) (n : Z) (targets saved : list Z) :
  Balance.coherent (balance s) -> Balance.amount_of addr (balance s) = Some n ->
  Forall2 (fun g z => BigInt_of_string (Goals.target_amount g) = Some z)
    (Goals.selected (Some addr) (goals s)) targets ->
  Forall2 (fun g z => BigInt_of_string (Goals.current_amount g) = Some z)
    (Goals.selected (Some addr) (goals s)) saved ->
  exists sm, (summary addr now s).1 = Ret sm /\ total sm = Z_to_string (n + sumZ saved) /\
    products sm = [("flexible"%string, Balance.view_amount (Balance.table_view addr (balance s)));
                   ("goals"%string, Z_to_string (sumZ saved))].
Proof.
  intros Hc Hn Ht Hs. unfold summary, bind at 1, on_balance, zoom.
  destruct (Balance.get_run addr now (balance s) Hc) as (Hget & _ & _).
  destruct (Balance.get addr now (balance s)) as [r b']. cbn [fst] in Hget. subst r.
  destruct (Goals.summary_run (Some addr) (goals s) targets saved Ht Hs) as (gs & Hrun & _ & Hsum & _).
  unfold bind at 1, on_goals, zoom. cbn [goals]. rewrite Hrun, Hsum.
  assert (Hb : BigInt_of_string (Balance.view_amount (Balance.table_view addr (balance s))) = Some n).
  { rewrite <-Hn. unfold Balance.table_view, Balance.amount_of. cbn. by case_match. }
  unfold bind, sum_products, BigInt. cbn [snd]. rewrite Hb. cbn [of_option ret bind].
  unfold bind. rewrite BigInt_of_string_to_string. cbn [of_option ret].
  by eexists.
Qed.

Lemma summary_total_witness :
  let s := mkState (B := MemBackend) (Balance.credit "G1" "30" 0 Balance.initial).2
    (Goals.run_ops [(Goals.UpsertCreated "7" "G1" "car" "50", 1);
                    (Goals.ApplyContribution "7" "12", 2)] empty_table) empty_table empty_cache in
  exists sm, (summary "G1" 3 s).1 = Ret sm /\ total sm = "42"%string.
Proof.
  intros s.
  destruct (summary_total (B := MemBackend) "G1" 3 s 30 [50] [12]) as (sm & H1 & H2 & _).
  - apply Balance.credit_coherent, Balance.initial_coherent.
  - vm_compute. reflexivity.
  - repeat constructor.
  - repeat constructor.
  - exists sm. split; [exact H1|exact H2].
Defined.

(** [getYieldRate] never reports an APR: whichever position the database
    returns, a response that is not served from the cache carries that position's
    rate and [apr] [null], because the harvest history it is computed from is
    always empty. *)
Theorem getYieldRate_no_apr {B : Backend}
    (first_row : table string YieldPosition -> outcome (option YieldPosition))
    (now : Z) (s : state) (p : option YieldPosition) :
  cache_get YIELD_RATE_CACHE_KEY now (rate_cache s) = None -> first_row (positions s) = Ret p ->
  exists r, (getYieldRate first_row now s).1 = Ret r /\ rr_apr r = None /\
    rr_rate r = default "0"%string (p ≫= exchange_rate_snapshot).
Proof. intros Hc Hp. unfold getYieldRate. run. rewrite Hc. simpl. rewrite Hp. by eexists. Qed.

Lemma getYieldRate_no_apr_witness :
  let s := (upsertYieldPosition (B := MemBackend) "G1" "5" (Some "10500000"%string) 1
    (mkState Balance.initial empty_table empty_table empty_cache)).2 in
  let first_row := fun t : table string YieldPosition =>
    Ret (head (order_by (fun p => - updated_at p) ((rows t).*2))) in
  exists r, (getYieldRate first_row 2 s).1 = Ret r /\ rr_apr r = None /\ rr_rate r = "10500000"%string.
Proof.
  intros s first_row.
  apply (getYieldRate_no_apr (B := MemBackend) first_row 2 s
    (Some (mkPosition "G1" "5" (Some "10500000"%string) 1))); reflexivity.
Defined.
End Savings.
