(* ===== verification/Notifications.v ===== *)
(** * NotificationsService: storing and routing notifications

    Models [backend/src/notifications/notifications.service.ts]: storing, routing by
    preference and quiet hours, the in-memory pending buckets and the read state. *)
From Stdlib Require Import ZArith Lia SpecFloat Ascii.
From stdpp Require Import base list strings.
From S2P Require Import Prelude Storage JsValue JsNumber.
Local Open Scope Z_scope.

Module Notifications.

Inductive NotificationFrequency := INSTANT | HOURLY | DAILY.
Inductive NotificationChannel := IN_APP | EMAIL | PUSH.

#[export] Instance NotificationFrequency_eq_dec : EqDecision NotificationFrequency.
Proof. solve_decision. Defined.
#[export] Instance NotificationChannel_eq_dec : EqDecision NotificationChannel.
Proof. solve_decision. Defined.

Definition frequency_string (f : NotificationFrequency) : string :=
  match f with INSTANT => "INSTANT" | HOURLY => "HOURLY" | DAILY => "DAILY" end.

(** The [notifications] entity, keyed by its generated id. *)
Record Notification := mkNotification {
  id : nat;
  user_address : string;
  type : string;
  title : string;
  message : string;
  data : option record;
  read : bool;
  created_at : Z;
  deleted_at : option Z;
}.

(** The [notification_preferences] entity, keyed by user and channel. *)
Record NotificationPreference := mkPreference {
  frequency : NotificationFrequency;
  quietHours : option string;
}.

Record PendingEntry := mkPending {
  pe_userAddress : string;
  pe_notification : Notification;
  pe_enqueuedAt : Z;
}.

(** ** [isInQuietHours] *)

(** [s.split(c)]. *)
Fixpoint split_on (c : ascii) (s : string) : list string :=
  match s with
  | EmptyString => [""%string]
  | String d s' =>
      if decide (d = c) then ""%string :: split_on c s'
      else match split_on c s' with
           | [] => [String d EmptyString]
           | w :: ws => String d w :: ws
           end
  end.

(** [const [h, m] = s.split(':').map(Number); h * 60 + m]. *)
Definition minutes_of (s : string) : number :=
  let parts := Number_of_string <$> split_on ":" s in
  let h := default S754_nan (parts !! 0%nat) in
  let m := default S754_nan (parts !! 1%nat) in
  num_add (num_mul h (num_of_Z 60)) m.

(** [now.getUTCHours() * 60 + now.getUTCMinutes()]. *)
Definition utc_minutes (now : Z) : Z := (now / 60000) mod 1440.

(** Throws when the window has no [-]: [endStr] is then [undefined]. *)
Definition isInQuietHours (q : string) (now : Z) : outcome bool :=
  match split_on "-" q with
  | startStr :: endStr :: _ =>
      let nowMinutes := num_of_Z (utc_minutes now) in
      let startMinutes := minutes_of startStr in
      let endMinutes := minutes_of endStr in
      Ret (if num_leb startMinutes endMinutes
           then num_leb startMinutes nowMinutes && num_ltb nowMinutes endMinutes
           else num_leb startMinutes nowMinutes || num_ltb nowMinutes endMinutes)
  | _ => Throw (TypeError "Cannot read properties of undefined (reading 'split')")
  end.

Section service.
Context {B : Backend}.

(** [buckets] is the [pendingBuckets] map in insertion order, [published] the
    events handed to the [instantNotifications$] subject. *)
Record state := mkState {
  notifications : table nat Notification;
  preferences : table (string * NotificationChannel) NotificationPreference;
  buckets : list (string * list PendingEntry);
  published : list (string * Notification);
}.

Definition initial : state := mkState empty_table empty_table [] [].

Definition set_notifications (f : table nat Notification -> table nat Notification) (s : state) : state :=
  mkState (f (notifications s)) (preferences s) (buckets s) (published s).

Definition getPreference (userId : string) (channel : NotificationChannel)
  : M state NotificationPreference :=
  await pref := gets (fun s => find_one (userId, channel) (preferences s)) in
  ret (default (mkPreference INSTANT None) pref).

Definition deliverInstant (userAddress : string) (saved : Notification) : M state unit :=
  modify (fun s => mkState (notifications s) (preferences s) (buckets s)
                           (published s ++ [(userAddress, saved)])).

Definition bucket_key (f : NotificationFrequency) (userAddress : string) : string :=
  frequency_string f +:+ ":" +:+ userAddress.

Definition enqueue (userAddress : string) (n : Notification) (f : NotificationFrequency) (now : Z)
  : M state unit :=
  let key := bucket_key f userAddress in
  modify (fun s =>
    let bucket := default [] (Mem.find (buckets s) key) in
    mkState (notifications s) (preferences s)
      (Mem.upsert key (bucket ++ [mkPending userAddress n now]) (buckets s)) (published s)).

(** The row the database inserts: unread, with a generated id. *)
Definition insert_notification (userAddress ty ttl msg : string) (d : option record) (now : Z)
  : M state Notification :=
  await nid := gets (fun s => fresh_id (notifications s)) in
  let n := mkNotification nid userAddress ty ttl msg d false now None in
  do modify (set_notifications (save nid n)) ;>
  ret n.

Definition create (userAddress ty ttl msg : string) (d : option record)
    (userId : option string) (now : Z) : M state Notification :=
  await saved := insert_notification userAddress ty ttl msg d now in
  match userId with
  | None | Some EmptyString =>
      do deliverInstant userAddress saved ;>
      ret saved
  | Some uid =>
      await pref := getPreference uid IN_APP in
      await quiet := (match quietHours pref with
                      | None | Some EmptyString => ret false
                      | Some q => fun s => (isInQuietHours q now, s)
                      end) in
      if quiet : bool then
        do enqueue userAddress saved (frequency pref) now ;>
        ret saved
      else
        do (match frequency pref with
            | INSTANT => deliverInstant userAddress saved
            | HOURLY => enqueue userAddress saved HOURLY now
            | DAILY => enqueue userAddress saved DAILY now
            end) ;>
        ret saved
  end.

Definition drainPending (userAddress : string) (f : NotificationFrequency) : M state (list Notification) :=
  let key := bucket_key f userAddress in
  await bucket := gets (fun s => default [] (Mem.find (buckets s) key)) in
  do modify (fun s => mkState (notifications s) (preferences s)
                              (Mem.drop_key key (buckets s)) (published s)) ;>
  ret (pe_notification <$> bucket).

Definition getPendingUsers (f : NotificationFrequency) : M state (list string) :=
  let prefix := frequency_string f +:+ ":" in
  gets (fun s =>
    (fun k => String.substring (String.length prefix) (String.length k - String.length prefix) k)
      <$> List.filter (String.prefix prefix) ((buckets s).*1)).

(** Soft-deleted rows are invisible to [find] and [count]. *)
Definition visible (n : Notification) : bool :=
  match deleted_at n with None => true | Some _ => false end.

Definition matches (addr : string) (readFilter : option bool) (ty : option string) (n : Notification) : bool :=
  visible n && bool_decide (user_address n = addr) &&
  match readFilter with Some r => Bool.eqb (read n) r | None => true end &&
  match ty with
  | Some t => if decide (t = ""%string) then true else bool_decide (type n = t)
  | None => true
  end.

Definition getUnreadCount (addr : string) : M state Z :=
  gets (fun s => count_where (fun _ n => matches addr (Some false) None n) (notifications s)).

Definition findAllForUser (addr : string) (pg lim : Z) (readFilter : option bool) (ty : option string)
  : M state (list Notification * Z * Z * Z * Z) :=
  gets (fun s =>
    let found := List.filter (matches addr readFilter ty) ((rows (notifications s)).*2) in
    (paginate pg lim (order_by (fun n => - created_at n) found), Z.of_nat (length found),
     pg, Z.min lim 100,
     count_where (fun _ n => matches addr (Some false) None n) (notifications s))).

Definition set_read (r : bool) (n : Notification) : Notification :=
  mkNotification (id n) (user_address n) (type n) (title n) (message n) (data n) r
    (created_at n) (deleted_at n).

(** [update(criteria, { read })]: the criteria do not exclude soft-deleted
    rows; the result is the number of affected rows. *)
Definition update_read (p : Notification -> bool) (r : bool) : M state Z :=
  await affected := gets (fun s => count_where (fun _ n => p n) (notifications s)) in
  do modify (set_notifications (update_where (fun _ n => p n) (set_read r))) ;>
  ret affected.

Definition markAsRead (nid : nat) (addr : string) : M state unit :=
  await affected := update_read
    (fun n => bool_decide (id n = nid) && bool_decide (user_address n = addr)) true in
  if affected =? 0 then throw (NotFoundException "Notification not found") else ret tt.

Definition markAllAsRead (addr : string) : M state Z :=
  await _affected := update_read
    (fun n => bool_decide (user_address n = addr) && negb (read n)) true in
  getUnreadCount addr.

Definition markAllAsUnread (addr : string) : M state Z :=
  await _affected := update_read
    (fun n => bool_decide (user_address n = addr) && read n) false in
  getUnreadCount addr.

(** [markMultipleAsRead] and [markMultipleAsUnread]. *)
Definition markMultiple (addr : string) (ids : list nat) (r : bool) : M state Z :=
  do (match ids with
      | [] => ret tt
      | _ => await _affected := update_read (fun n => bool_decide (user_address n = addr) &&
                               bool_decide (id n ∈ ids)) r in ret tt
      end) ;>
  getUnreadCount addr.
Definition markMultipleAsRead (addr : string) (ids : list nat) : M state Z :=
  markMultiple addr ids true.
Definition markMultipleAsUnread (addr : string) (ids : list nat) : M state Z :=
  markMultiple addr ids false.

Definition remove_notification (nid : nat) (addr : string) (now : Z) : M state unit :=
  await found := gets (fun s => find_one nid (notifications s)) in
  match found with
  | Some n =>
      if visible n && bool_decide (user_address n = addr)
      then modify (set_notifications (save nid (mkNotification (id n) (user_address n) (type n)
             (title n) (message n) (data n) (read n) (created_at n) (Some now))))
      else throw (NotFoundException "Notification not found")
  | None => throw (NotFoundException "Notification not found")
  end.

(** [quietHours] is [None] when the argument is omitted. *)
Definition upsertPreference (userId : string) (channel : NotificationChannel)
    (f : NotificationFrequency) (quiet : option (option string)) : M state NotificationPreference :=
  await found := gets (fun s => find_one (userId, channel) (preferences s)) in
  let pref := default (mkPreference INSTANT None) found in
  let saved := mkPreference f (match quiet with Some q => q | None => quietHours pref end) in
  do modify (fun s => mkState (notifications s) (save (userId, channel) saved (preferences s))
                              (buckets s) (published s)) ;>
  ret saved.

Definition getPreferences (userId : string) : M state (list NotificationPreference) :=
  gets (fun s => (List.filter (fun r => bool_decide (r.1.1 = userId)) (rows (preferences s))).*2).
End service.

(** ** Quiet hours: the clock-time specification *)

(** Two decimal digits of a number below 100. *)
Definition digit (n : Z) : ascii := Ascii.ascii_of_nat (Z.to_nat (48 + n)).
Definition pad2 (n : Z) : string := String (digit (n / 10)) (String (digit (n mod 10)) EmptyString).

(** ["HH:MM"] of a minute of the day. *)
Definition clock (t : Z) : string := pad2 (t / 60) +:+ ":" +:+ pad2 (t mod 60).

(** Whether minute [t] is in the window, which wraps past midnight when it
    ends before it starts. *)
Definition in_window (start end_ t : Z) : bool :=
  if start <=? end_ then (start <=? t) && (t <? end_) else (start <=? t) || (t <? end_).

Definition day : list Z := Z.of_nat <$> seq 0 1440.

Lemma elem_of_day t : 0 <= t < 1440 -> t ∈ day.
Proof.
  intros Ht. apply list_elem_of_fmap. exists (Z.to_nat t).
  rewrite elem_of_seq. lia.
Qed.

Definition no_dash (s : string) : bool :=
  forallb (fun c => negb (Ascii.eqb c "-")) (String.list_ascii_of_string s).

Lemma split_on_app a b :
  no_dash a = true -> split_on "-" (a +:+ "-" +:+ b) = a :: split_on "-" b.
Proof.
  induction a as [|c a IH]; intros Ha; [done|]. cbn in Ha.
  apply andb_true_iff in Ha as [Hc Ha]. apply negb_true_iff, Ascii.eqb_neq in Hc.
  specialize (IH Ha). simpl in *. rewrite IH. by rewrite decide_False.
Qed.

Lemma split_on_none a : no_dash a = true -> split_on "-" a = [a].
Proof.
  induction a as [|c a IH]; intros Ha; [done|]. cbn in Ha.
  apply andb_true_iff in Ha as [Hc Ha]. apply negb_true_iff, Ascii.eqb_neq in Hc.
  specialize (IH Ha). simpl in *. rewrite IH. by rewrite decide_False.
Qed.

Definition sf_eqb (x y : number) : bool :=
  match x, y with
  | S754_zero a, S754_zero b => Bool.eqb a b
  | S754_finite s m e, S754_finite s' m' e' => Bool.eqb s s' && Pos.eqb m m' && Z.eqb e e'
  | _, _ => false
  end.

Lemma sf_eqb_eq x y : sf_eqb x y = true -> x = y.
Proof.
  destruct x, y; cbn; try done.
  - by intros ->%Bool.eqb_prop.
  - rewrite !andb_true_iff. intros [[->%Bool.eqb_prop ->%Pos.eqb_eq] ->%Z.eqb_eq]. done.
Qed.

Lemma clock_table :
  forallb (fun t => no_dash (clock t) && sf_eqb (minutes_of (clock t)) (num_of_Z t)) day = true.
Proof. vm_compute. reflexivity. Qed.

Lemma clock_spec t :
  0 <= t < 1440 -> no_dash (clock t) = true /\ minutes_of (clock t) = num_of_Z t.
Proof.
  intros Ht. pose proof clock_table as H. rewrite forallb_forall in H.
  specialize (H t). rewrite <-list_elem_of_In in H. specialize (H (elem_of_day t Ht)).
  apply andb_true_iff in H as [H1 H2]. split; [done|by apply sf_eqb_eq].
Qed.

(** The normalised double of a minute: its comparison is the integers'. *)
Definition minute_float (t : Z) : number :=
  if t =? 0 then S754_zero false
  else S754_finite false (Z.to_pos (t * 2 ^ (52 - Z.log2 t))) (Z.log2 t - 52).

Lemma minute_float_table : forallb (fun t => sf_eqb (num_of_Z t) (minute_float t)) day = true.
Proof. vm_compute. reflexivity. Qed.

Lemma num_of_minute t : 0 <= t < 1440 -> num_of_Z t = minute_float t.
Proof.
  intros Ht. pose proof minute_float_table as H. rewrite forallb_forall in H.
  apply sf_eqb_eq, H. rewrite <-list_elem_of_In. by apply elem_of_day.
Qed.

Lemma minute_float_compare a b :
  0 <= a < 1440 -> 0 <= b < 1440 -> SFcompare (minute_float a) (minute_float b) = Some (a ?= b).
Proof.
  intros Ha Hb. unfold minute_float.
  destruct (Z.eqb_spec a 0), (Z.eqb_spec b 0); subst; cbn [SFcompare].
  - done.
  - f_equal. symmetry. apply Z.compare_lt_iff. lia.
  - f_equal. symmetry. apply Z.compare_gt_iff. lia.
  - assert (Hlog : forall z, 0 < z < 1440 -> 0 <= Z.log2 z <= 52).
    { intros z Hz. split; [apply Z.log2_nonneg|].
      assert (Z.log2 z <= Z.log2 1440) by (apply Z.log2_le_mono; lia).
      change (Z.log2 1440) with 10 in *. lia. }
    pose proof (Hlog a ltac:(lia)). pose proof (Hlog b ltac:(lia)).
    destruct (Z.compare_spec (Z.log2 a - 52) (Z.log2 b - 52)) as [He|He|He].
    + change (Pos.compare_cont Eq ?p ?q) with (p ?= q)%positive.
      rewrite Pos2Z.inj_compare, !Z2Pos.id by (apply Z.mul_pos_pos; lia).
      replace (Z.log2 b) with (Z.log2 a) by lia.
      rewrite <-Zmult_compare_compat_r by lia. done.
    + f_equal. symmetry. apply Z.compare_lt_iff. apply Z.log2_lt_cancel. lia.
    + f_equal. symmetry. apply Z.compare_gt_iff. apply Z.log2_lt_cancel. lia.
Qed.

Lemma minute_leb a b :
  0 <= a < 1440 -> 0 <= b < 1440 -> num_leb (num_of_Z a) (num_of_Z b) = (a <=? b).
Proof.
  intros Ha Hb. unfold num_leb, SFleb. rewrite !num_of_minute by done.
  rewrite minute_float_compare by done. unfold Z.leb. by destruct (a ?= b).
Qed.

Lemma minute_ltb a b :
  0 <= a < 1440 -> 0 <= b < 1440 -> num_ltb (num_of_Z a) (num_of_Z b) = (a <? b).
Proof.
  intros Ha Hb. unfold num_ltb, SFltb. rewrite !num_of_minute by done.
  rewrite minute_float_compare by done. unfold Z.ltb. by destruct (a ?= b).
Qed.

(** For every window of clock times ["HH:MM-HH:MM"] and every instant,
    [isInQuietHours] answers whether the UTC minute of the day lies in the
    window, from its start inclusive to its end exclusive, across midnight when
    the window ends before it starts. *)
Theorem quiet_hours_spec (start end_ now : Z) :
  0 <= start < 1440 -> 0 <= end_ < 1440 ->
  isInQuietHours (clock start +:+ "-" +:+ clock end_) now =
    Ret (in_window start end_ (utc_minutes now)).
Proof.
  intros Hs He. destruct (clock_spec start Hs) as [Hd1 Hm1], (clock_spec end_ He) as [Hd2 Hm2].
  unfold isInQuietHours. rewrite split_on_app, split_on_none by done.
  assert (0 <= utc_minutes now < 1440) by (apply Z.mod_pos_bound; lia).
  cbv zeta. rewrite Hm1, Hm2, !minute_leb, !minute_ltb by done. done.
Qed.

Lemma quiet_hours_spec_witness :
  isInQuietHours "22:00-07:30" 1700000000000 =
    Ret (in_window 1320 450 (utc_minutes 1700000000000)) /\
  in_window 1320 450 (utc_minutes 1700000000000) = true.
Proof.
  split; [|vm_compute; reflexivity].
  apply (quiet_hours_spec 1320 450 1700000000000); lia.
Defined.

(** ** Routing, buckets and unread counts *)

Section proofs.
Context {B : Backend}.

(** The pending entries of a user at a frequency, oldest first. *)
Definition bucket_of (f : NotificationFrequency) (addr : string) (s : state) : list PendingEntry :=
  default [] (Mem.find (buckets s) (bucket_key f addr)).

Lemma bucket_key_inj f f' a a' : bucket_key f a = bucket_key f' a' -> f = f' /\ a = a'.
Proof. destruct f, f'; cbn; intros H; simplify_eq; done. Qed.

Lemma bucket_of_enqueue f f' a a' n now s :
  bucket_of f' a' (enqueue a n f now s).2 =
    if decide (f = f' /\ a = a') then bucket_of f' a' s ++ [mkPending a n now]
    else bucket_of f' a' s.
Proof.
  unfold bucket_of, enqueue. cbn [modify snd buckets]. rewrite Mem.find_upsert.
  case_decide as Hk.
  - apply bucket_key_inj in Hk as [-> ->]. by rewrite decide_True.
  - rewrite decide_False; [done|]. naive_solver.
Qed.

(** What a stored notification looks like. *)
Definition stored (addr ty ttl msg : string) (d : option record) (now : Z) (s : state) : Notification :=
  mkNotification (fresh_id (notifications s)) addr ty ttl msg d false now None.

(** The preference that routes a notification, and whether it is quiet now. *)
Definition route (uid : string) (now : Z) (s : state) : NotificationFrequency * outcome bool :=
  let pref := default (mkPreference INSTANT None) (find_one (uid, IN_APP) (preferences s)) in
  (frequency pref,
   match quietHours pref with
   | None | Some EmptyString => Ret false
   | Some q => isInQuietHours q now
   end).

Lemma create_run addr ty ttl msg d uid now s :
  uid ≠ ""%string ->
  let n := stored addr ty ttl msg d now s in
  let s1 := set_notifications (save (id n) n) s in
  create addr ty ttl msg d (Some uid) now s =
    match route uid now s with
    | (_, Throw e) => (Throw e, s1)
    | (INSTANT, Ret false) => (Ret n, (deliverInstant addr n s1).2)
    | (f, Ret _) => (Ret n, (enqueue addr n f now s1).2)
    end.
Proof.
  intros Hu n s1. destruct uid as [|c uid]; [done|].
  unfold create, insert_notification, getPreference, route. run.
  destruct (find_one (String c uid, IN_APP) (preferences s)) as [[f q]|]; simpl; [|done].
  destruct q as [[|c' q]|]; simpl; [by destruct f| |by destruct f].
  destruct (isInQuietHours (String c' q) now) as [[]|e]; by destruct f.
Qed.
End proofs.

(** [create] stores the notification under a fresh id and hands it to
    exactly one place: outside quiet hours an [INSTANT] user gets it published
    at once, and in every other case it is appended to the user's bucket of the
    preferred frequency.  Nothing else is published or queued.  A malformed
    quiet-hours window makes [create] reject after the row is stored, routed
    nowhere. *)
Theorem create_routes {B : Backend} (addr ty ttl msg : string) (d : option record)
    (uid : string) (now : Z) (s : state) :
  uid ≠ ""%string ->
  let n := stored addr ty ttl msg d now s in
  let r := create addr ty ttl msg d (Some uid) now s in
  let f := (route uid now s).1 in
  find_one (id n) (notifications s) = None /\
  find_one (id n) (notifications r.2) = Some n /\
  match (route uid now s).2 with
  | Throw e => r.1 = Throw e /\ published r.2 = published s /\ buckets r.2 = buckets s
  | Ret quiet =>
      r.1 = Ret n /\
      let instant := bool_decide (f = INSTANT) && negb quiet in
      published r.2 = (if instant then published s ++ [(addr, n)] else published s) /\
      forall f' a', bucket_of f' a' r.2 =
        if negb instant && bool_decide (f' = f /\ a' = addr)
        then bucket_of f' a' s ++ [mkPending addr n now] else bucket_of f' a' s
  end.
Proof.
  intros Hu n r f. split; [apply fresh_id_None|]. unfold r, f.
  rewrite (create_run addr ty ttl msg d uid now s Hu). fold n.
  set (s1 := set_notifications _ s).
  assert (Hs1 : find_one (id n) (notifications s1) = Some n) by apply find_one_save_eq.
  assert (Hq : forall f0, published (enqueue addr n f0 now s1).2 = published s /\
    forall f' a', bucket_of f' a' (enqueue addr n f0 now s1).2 =
      if bool_decide (f' = f0 /\ a' = addr)
      then bucket_of f' a' s ++ [mkPending addr n now] else bucket_of f' a' s).
  { intros f0. split; [done|]. intros f' a'. rewrite bucket_of_enqueue.
    change (bucket_of f' a' s1) with (bucket_of f' a' s).
    case_decide; case_bool_decide; naive_solver. }
  destruct (route uid now s) as [f0 [[]|e]]; destruct f0; cbn [fst snd];
    (split; [exact Hs1|]); (split; [done|]); try apply Hq; (split; [done|]); done.
Qed.

Lemma create_routes_witness :
  let s := (upsertPreference (B := MemBackend) "u1" IN_APP DAILY None initial).2 in
  let r := create "G1" "deposit" "t" "m" None (Some "u1"%string) 5 s in
  published r.2 = [] /\ length (bucket_of DAILY "G1" r.2) = 1%nat.
Proof.
  intros s r.
  destruct (create_routes (B := MemBackend) "G1" "deposit" "t" "m" None "u1" 5 s)
    as (_ & _ & _ & Hp & Hb); [done|].
  split; [exact Hp|]. unfold r. rewrite Hb. reflexivity.
Defined.

(** A drain returns, in order, exactly the notifications queued for that user
    at that frequency, whatever was queued for others in between, and a second
    drain returns nothing. *)
Theorem drain_returns_queued {B : Backend}
    (queued : list (string * Notification * NotificationFrequency * Z)) (addr : string)
    (f : NotificationFrequency) :
  let s := foldl (fun s '(a, n, f', now) => (enqueue a n f' now s).2) initial queued in
  let r := drainPending addr f s in
  r.1 = Ret ((fun q => q.1.1.2) <$>
             List.filter (fun q => bool_decide (q.1.2 = f /\ q.1.1.1 = addr)) queued) /\
  (drainPending addr f r.2).1 = Ret [].
Proof.
  intros s r. split; cycle 1.
  { unfold r, drainPending. run. rewrite Mem.find_drop_key. by rewrite decide_True. }
  change r.1 with (Ret (pe_notification <$> bucket_of f addr s)). f_equal. unfold s.
  assert (H : forall s0, pe_notification <$> bucket_of f addr
      (foldl (fun s '(a, n, f', now) => (enqueue a n f' now s).2) s0 queued) =
    (pe_notification <$> bucket_of f addr s0) ++
    ((fun q => q.1.1.2) <$> List.filter (fun q => bool_decide (q.1.2 = f /\ q.1.1.1 = addr)) queued));
    [|by rewrite H].
  induction queued as [|[[[a n] f'] now] queued IH]; intros s0; [by rewrite app_nil_r|].
  cbn [foldl List.filter fst snd]. rewrite IH, bucket_of_enqueue.
  case_decide; case_bool_decide; try done.
  rewrite fmap_app, <-app_assoc. done.
Qed.

(** [markAllAsRead] answers 0 and leaves the user without an unread
    notification, and no other user's unread count changes; a notification
    created afterwards counts as unread for its addressee only. *)
Theorem unread_counts {B : Backend} (addr : string) (s : state) :
  let r := markAllAsRead addr s in
  r.1 = Ret 0 /\ (getUnreadCount addr r.2).1 = Ret 0 /\
  (forall other, other ≠ addr -> (getUnreadCount other r.2).1 = (getUnreadCount other s).1) /\
  forall a ty ttl msg d now n s', insert_notification a ty ttl msg d now r.2 = (Ret n, s') ->
    (getUnreadCount addr s').1 = Ret (if decide (a = addr) then 1 else 0).
Proof.
  intros r.
  assert (Hself : count_where (fun _ n => matches addr (Some false) None n) (notifications r.2) = 0).
  { unfold r, markAllAsRead, update_read, getUnreadCount. run.
    rewrite count_where_update, <-(count_where_false (notifications s)).
    apply count_where_ext. intros k n _. unfold matches.
    destruct (read n) eqn:Hr; case_bool_decide; simpl;
      rewrite ?Hr, ?andb_false_r, ?andb_true_r; simpl; rewrite ?Hr, ?andb_false_r; try done;
      by rewrite bool_decide_eq_false_2, andb_false_r by done. }
  split; [unfold r, markAllAsRead; run; f_equal; exact Hself|].
  split; [unfold getUnreadCount; run; f_equal; exact Hself|]. split.
  - intros other Hne. unfold getUnreadCount. run. f_equal.
    rewrite count_where_update. apply count_where_ext. intros k n _.
    case_match eqn:Hc; [|done]. apply andb_true_iff in Hc as [Hu _].
    apply bool_decide_eq_true in Hu. unfold matches. cbn.
    rewrite !(bool_decide_eq_false_2 (user_address n = other)) by congruence.
    by rewrite !andb_false_r.
  - intros a ty ttl msg d now n s' Hins. clearbody r.
    unfold insert_notification, set_notifications in Hins. unfold getUnreadCount. run. simplify_eq. f_equal. cbn [notifications]. rewrite count_where_save_new by apply fresh_id_None.
    rewrite Hself. unfold matches. cbn. case_decide.
    + by rewrite bool_decide_eq_true_2.
    + by rewrite bool_decide_eq_false_2.
Qed.
End Notifications.
