(* ===== verification/Generator.v ===== *)
(** * NotificationGeneratorService: savings events to notifications

    Models the savings handlers of
    [backend/src/notifications/notification-generator.service.ts].  The two
    yield handlers refer to enum members and columns the entities do not
    declare and have no caller; they are not modelled. *)
From Stdlib Require Import ZArith Lia Ascii.
From stdpp Require Import base list strings.
From S2P Require Import Prelude Storage JsValue Notifications.
Local Open Scope Z_scope.

Module Generator.

(** The columns of [users] and [user_preferences] the handlers read. *)
Record User := mkUser { user_id : string; stellar_address : string }.
Record UserPreferences := mkPrefs {
  goal_reached_notifications : bool;
  deposit_notifications : bool;
  group_settlement_notifications : bool;
}.

(** A double-quoted name in a message template. *)
Definition quoted (s : string) : string := String "034" (s +:+ String "034" EmptyString).

Section service.
Context {B : Backend}.

(** [users] is keyed by Stellar address, [prefs] by user id. *)
Record state := mkState {
  users : table string User;
  prefs : table string UserPreferences;
  inbox : Notifications.state;
}.

Definition on_inbox {A} (m : M Notifications.state A) : M state A :=
  zoom inbox (fun n s => mkState (users s) (prefs s) n) m.

(** Steps 1 and 2 of each handler: the address's user, and whether that user
    has opted out of this kind of notification. *)
Definition resolve (enabled : UserPreferences -> bool) (addr : string)
  : M state (option User * bool) :=
  await user := gets (fun s => find_one addr (users s)) in
  match user with
  | None => ret (None, false)
  | Some u =>
      await p := gets (fun s => find_one (user_id u) (prefs s)) in
      ret (Some u, match p with Some p => negb (enabled p) | None => false end)
  end.

Definition handleGoalReached (goalId owner name targetAmount : string) (now : Z) : M state unit :=
  await r := resolve goal_reached_notifications owner in
  if r.2 : bool then ret tt
  else
    await _saved := on_inbox (Notifications.create owner "goal_reached"
      "Savings goal reached! 🎯"
      ("Your goal " +:+ quoted name +:+ " has reached its target of " +:+ targetAmount +:+
       " stroops. Well done!")
      (Some [("goal_id"%string, VStr goalId); ("target_amount"%string, VStr targetAmount)])
      (user_id <$> r.1) now) in
    ret tt.

(** The optional fields added by a conditional spread. *)
Definition spread (key : string) (v : jsval) : record :=
  if truthy v then [(key, v)] else [].

Definition handleDepositReceived (data : record) (now : Z) : M state unit :=
  let owner := data.["owner"] ?? data.["user"] ?? data.["account"] in
  if negb (truthy owner) then ret tt
  else
    let addr := js_String owner in
    await r := resolve deposit_notifications addr in
    if r.2 : bool then ret tt
    else
      await _saved := on_inbox (Notifications.create addr "deposit"
        "Deposit confirmed! 💰"
        ("Your deposit of " +:+ js_String data.["amount"] +:+ " stroops has been confirmed.")
        (Some ([("amount"%string, data.["amount"])] ++ spread "asset" data.["asset"] ++
               spread "transaction_hash" data.["transactionHash"]))
        (user_id <$> r.1) now) in
      ret tt.

(** The fields of a value of [data.members]; reading a field of [null] or
    [undefined] throws. *)
Definition fields_of (v : jsval) : outcome record :=
  match v with
  | VUndef | VNull => Throw (TypeError "Cannot read properties of undefined")
  | VObj fs => Ret fs
  | _ => Ret []
  end.

Definition share_text (fs : record) : string :=
  js_String (fs.["amount"] ?? fs.["settledShare"] ?? fs.["share"] ?? VStr "0").

(** The entries pushed to [membersList] for [data.members]. *)
Fixpoint collect_members (ms : list jsval) : outcome (list (string * string)) :=
  match ms with
  | [] => Ret []
  | m :: ms' =>
      match fields_of m with
      | Throw e => Throw e
      | Ret fs =>
          let address := fs.["address"] ?? fs.["member"] in
          match collect_members ms' with
          | Throw e => Throw e
          | Ret rest =>
              Ret (if truthy address then (js_String address, share_text fs) :: rest else rest)
          end
      end
  end.

Definition membersList (data : record) : outcome (list (string * string)) :=
  match data.["members"] with
  | VArr (m :: ms) => collect_members (m :: ms)
  | _ => Ret (if truthy data.["member"] then [(js_String data.["member"], share_text data)] else [])
  end.

Definition notify_member (groupId : string) (groupName : jsval) (now : Z) (member : string * string)
  : M state unit :=
  let '(addr, shareText) := member in
  await r := resolve group_settlement_notifications addr in
  if r.2 : bool then ret tt
  else
    let groupLabel := if truthy groupName then quoted (js_String groupName)
                      else "Group pool #" +:+ groupId in
    await _saved := on_inbox (Notifications.create addr "group_settled"
      "Group pool settled! 🤝"
      ("Your group savings pool " +:+ groupLabel +:+ " has settled. Your share of " +:+
       shareText +:+ " stroops is now available.")
      (Some ([("group_id"%string, VStr groupId); ("share"%string, VStr shareText);
              ("amount"%string, VStr shareText)] ++ spread "group_name" groupName))
      (user_id <$> r.1) now) in
    ret tt.

Definition handleGroupSettled (data : record) (now : Z) : M state unit :=
  let groupId := js_String (data.["groupId"] ?? data.["id"] ?? data.["group_id"] ?? VStr "unknown") in
  let groupName := data.["groupName"] ?? data.["name"] in
  await members := (fun s => (membersList data, s)) in
  for_each (notify_member groupId groupName now) members.
End service.
End Generator.
