(* ===== verification/Projection.v ===== *)
(** * SavingsProjectionService: contract events to projections

    Models [backend/src/savings-projection/savings-projection.service.ts]: one
    dispatch per event topic over the balance, goal, group, locked-plan,
    yield-position and notification components. *)
From Stdlib Require Import ZArith Lia.
From stdpp Require Import base list strings relations.
From S2P Require Import Prelude Storage JsValue JsNumber Balance Goals Groups LockedPlans Savings Notifications Generator.
Local Open Scope Z_scope.

Module Projection.

(** [calculateExchangeRate]: assets per share scaled by 1e7; [bigint] division
    truncates, any error gives ['0']. *)
Definition calculateExchangeRate (totalAssets totalShares : string) : string :=
  match BigInt_of_string totalAssets, BigInt_of_string totalShares with
  | Some assets, Some shares =>
      if shares =? 0 then "0" else Z_to_string (Z.quot (assets * 10000000) shares)
  | _, _ => "0"
  end.

Section service.
Context {B : Backend}.

(** The injected services; the balance and goal repositories are the ones the
    savings service reads. *)
Record state := mkState {
  savings : Savings.state;
  groups : Groups.state;
  locked : LockedPlans.state;
  gen : Generator.state;
}.

Definition on_savings {A} (m : M Savings.state A) : M state A :=
  zoom savings (fun x s => mkState x (groups s) (locked s) (gen s)) m.
Definition on_groups {A} (m : M Groups.state A) : M state A :=
  zoom groups (fun x s => mkState (savings s) x (locked s) (gen s)) m.
Definition on_locked {A} (m : M LockedPlans.state A) : M state A :=
  zoom locked (fun x s => mkState (savings s) (groups s) x (gen s)) m.
Definition on_gen {A} (m : M Generator.state A) : M state A :=
  zoom gen (fun x s => mkState (savings s) (groups s) (locked s) x) m.

Definition on_balance {A} (m : M Balance.state A) : M state A :=
  on_savings (Savings.on_balance m).
Definition on_goals {A} (m : M Goals.state A) : M state A :=
  on_savings (Savings.on_goals m).

Definition markGoalReachedAndNotify (onChainId : string) (now : Z) : M state unit :=
  await r := on_goals (Goals.markReached onChainId now) in
  if r.2 : bool then
    let goal := r.1 in
    on_gen (Generator.handleGoalReached (Goals.on_chain_id goal) (Goals.owner goal)
              (Goals.name goal) (Goals.target_amount goal) now)
  else ret tt.

Definition event_id (data : record) (alt : string) : string :=
  js_String (data.["id"] ?? data.[alt]).

Definition apply_goal_created (data : record) (now : Z) : M state unit :=
  await _g := on_goals (Goals.upsertCreated (event_id data "goal_id") (js_String data.["owner"])
    (default ""%string (as_string data.["name"])) (js_String data.["target_amount"]) now) in
  ret tt.

Definition apply_goal_contribution (data : record) (now : Z) : M state unit :=
  await goal := on_goals (Goals.applyContribution (event_id data "goal_id")
                            (js_String data.["amount"])) in
  await current := BigInt (Goals.current_amount goal) in
  await target := BigInt (Goals.target_amount goal) in
  if target <=? current then markGoalReachedAndNotify (Goals.on_chain_id goal) now
  else ret tt.

Definition apply_locked_created (data : record) (now : Z) : M state unit :=
  await _p := on_locked (LockedPlans.upsertCreated (event_id data "plan_id")
    (js_String data.["owner"]) (js_String data.["amount"]) (toDate data.["unlock_at"]) now) in
  ret tt.

(** [data.owner ?? data.user ?? data.account]. *)
Definition event_account (data : record) : string :=
  js_String (data.["owner"] ?? data.["user"] ?? data.["account"]).

Definition apply_deposit (data : record) (now : Z) : M state unit :=
  await _b := on_balance (Balance.credit (event_account data) (js_String data.["amount"]) now) in
  ret tt.

Definition apply_withdraw (data : record) (now : Z) : M state unit :=
  await _b := on_balance (Balance.setBalance (event_account data)
                            (js_String data.["new_balance"]) now) in
  ret tt.

(** [uuid] is the id generated for a group row that does not exist yet. *)
Definition apply_group_split_settled (data : record) (uuid : string) (now : Z) : M state unit :=
  await r := on_groups (Groups.markSettled (event_id data "group_id") uuid now) in
  if r.2 : bool then on_gen (Generator.handleGroupSettled data now) else ret tt.

Definition apply_deposited (data : record) (now : Z) : M state unit :=
  let owner := js_String (data.["owner"] ?? VStr "") in
  let shares := js_String (data.["position_shares"] ?? data.["total_shares"] ?? VStr "0") in
  let exchangeRate :=
    if truthy data.["total_shares"] && truthy data.["total_assets"]
    then Some (calculateExchangeRate (js_String data.["total_assets"])
                                     (js_String data.["total_shares"]))
    else None in
  if bool_decide (owner ≠ ""%string) && bool_decide (shares ≠ ""%string) then
    await _p := on_savings (Savings.upsertYieldPosition owner shares exchangeRate now) in
    ret tt
  else ret tt.

(** [apply(topic, data)].  [strategy_changed] and unknown topics only log. *)
Definition apply (topic : string) (data : record) (uuid : string) (now : Z) : M state unit :=
  if decide (topic = "goal_created"%string) then apply_goal_created data now
  else if decide (topic = "goal_contribution"%string) then apply_goal_contribution data now
  else if decide (topic = "goal_reached"%string)
  then markGoalReachedAndNotify (event_id data "goal_id") now
  else if decide (topic = "locked_created"%string) then apply_locked_created data now
  else if decide (topic = "deposit"%string) then apply_deposit data now
  else if decide (topic = "withdraw"%string) then apply_withdraw data now
  else if decide (topic = "group_split_settled"%string)
  then apply_group_split_settled data uuid now
  else if decide (topic = "strategy_changed"%string) then ret tt
  else if decide (topic = "deposited"%string) then apply_deposited data now
  else if decide (topic = "harvested"%string) then on_savings Savings.invalidateYieldRateCache
  else ret tt.
End service.

(** ** Sequences of events *)

(** An event as it is delivered, with the id and the time its handling uses. *)
Record event := mkEvent {
  topic : string;
  payload : record;
  uuid : string;
  at_ : Z;
}.

Section proofs.
Context {B : Backend}.

Definition initial : state :=
  mkState (Savings.mkState Balance.initial empty_table empty_table empty_cache)
    Groups.initial empty_table
    (Generator.mkState empty_table empty_table Notifications.initial).

(** One delivery; a handler that throws leaves the state it reached. *)
Definition deliver (s : state) (e : event) : state :=
  (apply (topic e) (payload e) (uuid e) (at_ e) s).2.

Definition deliver_all (es : list event) (s : state) : state := foldl deliver s es.

Definition balance_of (s : state) : Balance.state := Savings.balance (savings s).
Definition goals_of (s : state) : Goals.state := Savings.goals (savings s).

(** *** Which component a call can change *)

Lemma gen_frame {T A} (other : state -> T) (J : T -> Prop) (m : M Generator.state A) :
  (forall x s, other (mkState (savings s) (groups s) (locked s) x) = other s) ->
  preserves (fun s => J (other s)) (on_gen m).
Proof. apply preserves_zoom_frame. Qed.

Lemma locked_frame {T A} (other : state -> T) (J : T -> Prop) (m : M LockedPlans.state A) :
  (forall x s, other (mkState (savings s) (groups s) x (gen s)) = other s) ->
  preserves (fun s => J (other s)) (on_locked m).
Proof. apply preserves_zoom_frame. Qed.

Lemma groups_frame {T A} (other : state -> T) (J : T -> Prop) (m : M Groups.state A) :
  (forall x s, other (mkState (savings s) x (locked s) (gen s)) = other s) ->
  preserves (fun s => J (other s)) (on_groups m).
Proof. apply preserves_zoom_frame. Qed.

Lemma savings_frame {T A} (other : state -> T) (J : T -> Prop) (m : M Savings.state A) :
  (forall x s, other (mkState x (groups s) (locked s) (gen s)) = other s) ->
  preserves (fun s => J (other s)) (on_savings m).
Proof. apply preserves_zoom_frame. Qed.

(** A call on the savings service that leaves one of its parts alone. *)
Lemma savings_part {T A} (part : Savings.state -> T) (J : T -> Prop) (m : M Savings.state A) :
  preserves (fun s => J (part s)) m -> preserves (fun s => J (part (savings s))) (on_savings m).
Proof. intros Hm s Hs. unfold on_savings. rewrite zoom_snd. by apply Hm. Qed.

Lemma goals_on_balance {A} (J : Goals.state -> Prop) (m : M Balance.state A) :
  preserves (fun s => J (goals_of s)) (on_balance m).
Proof. apply savings_part, preserves_zoom_frame. done. Qed.

Lemma balance_on_goals {A} (J : Balance.state -> Prop) (m : M Goals.state A) :
  preserves (fun s => J (balance_of s)) (on_goals m).
Proof. apply savings_part, preserves_zoom_frame. done. Qed.

Lemma goals_on_goals {A} (J : Goals.state -> Prop) (m : M Goals.state A) :
  preserves J m -> preserves (fun s => J (goals_of s)) (on_goals m).
Proof. intros Hm. by apply savings_part, preserves_zoom_part. Qed.

Lemma balance_on_balance {A} (J : Balance.state -> Prop) (m : M Balance.state A) :
  preserves J m -> preserves (fun s => J (balance_of s)) (on_balance m).
Proof. intros Hm. by apply savings_part, preserves_zoom_part. Qed.

Lemma upsertYieldPosition_frame {T} (part : Savings.state -> T) (J : T -> Prop) own sh r now :
  (forall p s, part (Savings.mkState (Savings.balance s) (Savings.goals s) p (Savings.rate_cache s)) = part s) ->
  preserves (fun s => J (part (savings s))) (on_savings (Savings.upsertYieldPosition own sh r now)).
Proof. intros Hp. apply savings_part. intros s Hs. cbn. by rewrite Hp. Qed.

Lemma invalidate_frame {T} (part : Savings.state -> T) (J : T -> Prop) :
  (forall c s, part (Savings.mkState (Savings.balance s) (Savings.goals s) (Savings.positions s) c) = part s) ->
  preserves (fun s => J (part (savings s))) (on_savings Savings.invalidateYieldRateCache).
Proof. intros Hp. apply savings_part. intros s Hs. cbn. by rewrite Hp. Qed.

Lemma BigInt_frame (I : state -> Prop) a : preserves I (BigInt a).
Proof. apply preserves_of_option. Qed.

(** *** Handlers and the balance projection *)

(** The balance call an event makes, if any. *)
Definition balance_op (e : event) : option (Balance.op * Z) :=
  if decide (topic e = "deposit"%string)
  then Some (Balance.Credit (event_account (payload e)) (js_String (payload e).["amount"]), at_ e)
  else if decide (topic e = "withdraw"%string)
  then Some (Balance.SetBalance (event_account (payload e)) (js_String (payload e).["new_balance"]), at_ e)
  else None.

Lemma notify_balance (J : Balance.state -> Prop) oid now :
  preserves (fun s => J (balance_of s)) (markGoalReachedAndNotify oid now).
Proof.
  unfold markGoalReachedAndNotify. preserve; [apply balance_on_goals|by apply gen_frame].
Qed.

Lemma other_topics_balance (J : Balance.state -> Prop) tp d u now :
  tp ≠ "deposit"%string -> tp ≠ "withdraw"%string ->
  preserves (fun s => J (balance_of s)) (apply tp d u now).
Proof.
  intros Hd Hw. unfold apply. repeat (case_decide; [try done|]).
  - unfold apply_goal_created. preserve. apply balance_on_goals.
  - unfold apply_goal_contribution. preserve;
      [apply balance_on_goals|apply BigInt_frame..|apply notify_balance].
  - apply notify_balance.
  - unfold apply_locked_created. preserve. by apply locked_frame.
  - unfold apply_group_split_settled. preserve; [by apply groups_frame|by apply gen_frame].
  - preserve.
  - unfold apply_deposited. preserve. by apply upsertYieldPosition_frame.
  - by apply invalidate_frame.
  - preserve.
Qed.

Lemma apply_deposit_balance d now s :
  balance_of (apply_deposit d now s).2 =
    (Balance.credit (event_account d) (js_String d.["amount"]) now (balance_of s)).2.
Proof.
  unfold apply_deposit, on_balance, on_savings, Savings.on_balance, bind, zoom, balance_of.
  by destruct (Balance.credit _ _ _ _) as [[] ?].
Qed.

Lemma apply_withdraw_balance d now s :
  balance_of (apply_withdraw d now s).2 =
    (Balance.setBalance (event_account d) (js_String d.["new_balance"]) now (balance_of s)).2.
Proof.
  unfold apply_withdraw, on_balance, on_savings, Savings.on_balance, bind, zoom, balance_of.
  by destruct (Balance.setBalance _ _ _ _) as [[] ?].
Qed.

Lemma deliver_balance e s :
  balance_of (deliver s e) =
    match balance_op e with
    | Some (o, now) => Balance.run_op o now (balance_of s)
    | None => balance_of s
    end.
Proof.
  unfold deliver, balance_op. case_decide as Hd; [|case_decide as Hw].
  - rewrite Hd. apply apply_deposit_balance.
  - rewrite Hw. apply apply_withdraw_balance.
  - by apply (other_topics_balance (fun b => b = balance_of s)).
Qed.

Lemma deliver_deposit d u now s :
  balance_of (deliver s (mkEvent "deposit" d u now)) =
    (Balance.credit (event_account d) (js_String d.["amount"]) now (balance_of s)).2.
Proof. apply apply_deposit_balance. Qed.

Lemma deliver_withdraw d u now s :
  balance_of (deliver s (mkEvent "withdraw" d u now)) =
    (Balance.setBalance (event_account d) (js_String d.["new_balance"]) now (balance_of s)).2.
Proof. apply apply_withdraw_balance. Qed.

Lemma deliver_all_balance es s :
  balance_of (deliver_all es s) = Balance.run_ops (omap balance_op es) (balance_of s).
Proof.
  revert s. induction es as [|e es IH]; intros s; [done|]. cbn [deliver_all foldl].
  change (foldl deliver (deliver s e) es) with (deliver_all es (deliver s e)).
  rewrite IH, deliver_balance. cbn. by destruct (balance_op e) as [[o now]|].
Qed.
End proofs.

(** *** Handlers and the goal and group projections *)

Section replay.
Context {B : Backend}.

(** Goals and groups are stored under their on-chain ids. *)
Definition inv (s : state) : Prop :=
  Goals.keyed (goals_of s) /\ Groups.group_keyed (groups s).

(** A property of the goals that every write of the goals service keeps. *)
Definition goal_inv (J : Goals.state -> Prop) : Prop :=
  forall o now t, J t -> J (Goals.run_op o now t).

Lemma keyed_goal_inv : goal_inv Goals.keyed.
Proof. intros o now t. apply Goals.run_op_keyed. Qed.

Lemma goal_op_inv {A} J (m : M Goals.state A) o now :
  goal_inv J -> (forall t, (m t).2 = Goals.run_op o now t) -> preserves J m.
Proof. intros HJ H t Ht. rewrite H. by apply HJ. Qed.

Lemma notify_goals_inv J oid now :
  goal_inv J -> preserves (fun s => J (goals_of s)) (markGoalReachedAndNotify oid now).
Proof.
  intros HJ. unfold markGoalReachedAndNotify. preserve; [|by apply gen_frame].
  by apply goals_on_goals, (goal_op_inv J _ (Goals.MarkReached oid) now).
Qed.

Lemma other_topics_goals (J : Goals.state -> Prop) tp d u now :
  tp ≠ "goal_created"%string -> tp ≠ "goal_contribution"%string -> tp ≠ "goal_reached"%string ->
  preserves (fun s => J (goals_of s)) (apply tp d u now).
Proof.
  intros H1 H2 H3. unfold apply. repeat (case_decide; [try done|]).
  - unfold apply_locked_created. preserve. by apply locked_frame.
  - unfold apply_deposit. preserve. apply goals_on_balance.
  - unfold apply_withdraw. preserve. apply goals_on_balance.
  - unfold apply_group_split_settled. preserve; [by apply groups_frame|by apply gen_frame].
  - preserve.
  - unfold apply_deposited. preserve. by apply upsertYieldPosition_frame.
  - by apply invalidate_frame.
  - preserve.
Qed.

Lemma apply_goals_inv J tp d u now :
  goal_inv J -> preserves (fun s => J (goals_of s)) (apply tp d u now).
Proof.
  intros HJ. destruct (decide (tp = "goal_created"%string)) as [->|H1].
  { change (preserves (fun s => J (goals_of s)) (apply_goal_created d now)).
    unfold apply_goal_created. preserve.
    by eapply goals_on_goals, (goal_op_inv J _ (Goals.UpsertCreated _ _ _ _) now). }
  destruct (decide (tp = "goal_contribution"%string)) as [->|H2].
  { change (preserves (fun s => J (goals_of s)) (apply_goal_contribution d now)).
    unfold apply_goal_contribution. preserve;
      [|apply BigInt_frame..|by apply notify_goals_inv].
    by eapply goals_on_goals, (goal_op_inv J _ (Goals.ApplyContribution _ _) now). }
  destruct (decide (tp = "goal_reached"%string)) as [->|H3]; [by apply notify_goals_inv|].
  by apply other_topics_goals.
Qed.

(** The same for the groups service, of which the handlers call
    [markSettled] only. *)
Lemma apply_groups_inv (J : Groups.state -> Prop) tp d u now :
  (forall o t, J t -> J (Groups.run_op o t)) ->
  preserves (fun s => J (groups s)) (apply tp d u now).
Proof.
  intros HJ.
  unfold apply, apply_goal_created, apply_goal_contribution, markGoalReachedAndNotify,
    apply_locked_created, apply_deposit, apply_withdraw, apply_group_split_settled, apply_deposited.
  repeat (case_decide; [|]); preserve; try apply BigInt_frame;
    try (by apply savings_frame); try (by apply gen_frame); try (by apply locked_frame).
  apply preserves_zoom_part; [done|]. intros t. apply (HJ (Groups.MarkSettled _ _ _)).
Qed.

Lemma initial_inv : inv initial.
Proof.
  split; [apply Goals.empty_keyed|]. intros oid g. simpl. by rewrite find_one_empty.
Qed.

Lemma deliver_all_inv es s : inv s -> inv (deliver_all es s).
Proof.
  revert s. induction es as [|e es IH]; intros s [Hg Hgr]; [done|]. apply IH. split.
  - by apply (apply_goals_inv _ _ _ _ _ keyed_goal_inv).
  - by apply (apply_groups_inv _ _ _ _ _ Groups.run_op_group_keyed).
Qed.

(** The topics whose handlers are guarded by a lookup or a status flag. *)
Definition guarded (tp : string) : bool :=
  bool_decide (tp ∈ ["goal_created"; "goal_reached"; "locked_created"; "group_split_settled"]%string).

Definition put_goals (t : Goals.state) (s : state) : state :=
  mkState (Savings.mkState (Savings.balance (savings s)) t (Savings.positions (savings s))
             (Savings.rate_cache (savings s))) (groups s) (locked s) (gen s).

Lemma put_goals_same s : put_goals (goals_of s) s = s.
Proof. by destruct s as [[] ? ? ?]. Qed.

Lemma on_goals_run {A} (m : M Goals.state A) s :
  on_goals m s = ((m (goals_of s)).1, put_goals (m (goals_of s)).2 s).
Proof.
  unfold on_goals, on_savings, Savings.on_goals, zoom, put_goals, goals_of.
  by destruct (m _).
Qed.

Lemma on_groups_run {A} (m : M Groups.state A) s :
  on_groups m s = ((m (groups s)).1, mkState (savings s) (m (groups s)).2 (locked s) (gen s)).
Proof. unfold on_groups, zoom. by destruct (m _). Qed.

Lemma on_gen_run {A} (m : M Generator.state A) s :
  on_gen m s = ((m (gen s)).1, mkState (savings s) (groups s) (locked s) (m (gen s)).2).
Proof. unfold on_gen, zoom. by destruct (m _). Qed.

Lemma put_goals_stays t t' s :
  goals_of s = t -> t' = t -> put_goals t' s = s.
Proof. intros <- ->. apply put_goals_same. Qed.

Lemma goal_created_run d now s :
  apply_goal_created d now s =
    (Ret tt, put_goals (Goals.upsertCreated (event_id d "goal_id") (js_String d.["owner"])
       (default ""%string (as_string d.["name"])) (js_String d.["target_amount"]) now (goals_of s)).2 s).
Proof.
  unfold apply_goal_created, bind. rewrite on_goals_run, Goals.upsertCreated_run.
  by destruct (find_one _ (goals_of s)).
Qed.

Lemma goal_created_replay d now now' s :
  (apply_goal_created d now' (apply_goal_created d now s).2).2 = (apply_goal_created d now s).2.
Proof.
  rewrite (goal_created_run d now' (apply_goal_created d now s).2). cbn [snd].
  apply (put_goals_stays (goals_of (apply_goal_created d now s).2)); [done|].
  rewrite goal_created_run, Goals.upsertCreated_run. cbn [snd].
  change (goals_of (put_goals ?t s)) with t. rewrite Goals.upsertCreated_run.
  destruct (find_one _ (goals_of s)) as [g|] eqn:Hg; cbn [snd].
  - by rewrite Hg.
  - by rewrite find_one_save_eq.
Qed.

Lemma locked_created_run d now s :
  (apply_locked_created d now s).2 =
    mkState (savings s) (groups s)
       (LockedPlans.upsertCreated (event_id d "plan_id") (js_String d.["owner"])
          (js_String d.["amount"]) (toDate d.["unlock_at"]) now (locked s)).2 (gen s).
Proof.
  unfold apply_locked_created, bind, on_locked, zoom. rewrite LockedPlans.upsertPlan_run.
  destruct (find_one _ (locked s)); [done|]. by destruct (toDate _).
Qed.

Lemma locked_created_replay d now now' s :
  (apply_locked_created d now' (apply_locked_created d now s).2).2 = (apply_locked_created d now s).2.
Proof.
  rewrite !locked_created_run. cbn [snd locked savings groups gen]. f_equal.
  rewrite (LockedPlans.upsertPlan_run _ _ _ _ now). destruct (find_one _ (locked s)) as [g|] eqn:Hg;
    [|destruct (toDate _) as [z|]]; cbn [snd]; rewrite LockedPlans.upsertPlan_run.
  - by rewrite Hg.
  - by rewrite find_one_save_eq.
  - by rewrite Hg.
Qed.

(** After a delivery the goal is reached or unknown, and the handler stops
    at its guard. *)
Lemma notify_noop oid now s :
  (forall g, find_one oid (goals_of s) = Some g -> Goals.status g = Goals.REACHED) ->
  (markGoalReachedAndNotify oid now s).2 = s.
Proof.
  intros H. unfold markGoalReachedAndNotify, bind. rewrite on_goals_run.
  destruct (find_one oid (goals_of s)) as [g|] eqn:Hg.
  - rewrite (Goals.markReached_run _ _ _ _ Hg), decide_True by auto. apply put_goals_same.
  - rewrite Goals.markReached_unknown by done. apply put_goals_same.
Qed.

Lemma notify_reaches oid now s g :
  Goals.keyed (goals_of s) ->
  find_one oid (goals_of (markGoalReachedAndNotify oid now s).2) = Some g ->
  Goals.status g = Goals.REACHED.
Proof.
  intros Hk. unfold markGoalReachedAndNotify, bind. rewrite on_goals_run.
  destruct (find_one oid (goals_of s)) as [g0|] eqn:Hg.
  - rewrite (Goals.markReached_run _ _ _ _ Hg), (Hk _ _ Hg). case_decide as Hst; cbn [fst snd].
    + rewrite put_goals_same. cbn. congruence.
    + rewrite on_gen_run. unfold goals_of. cbn. rewrite find_one_save_eq. by intros [= <-].
  - rewrite Goals.markReached_unknown by done. cbn [fst snd]. rewrite put_goals_same. congruence.
Qed.

Lemma group_settled_groups d u now s :
  groups (apply_group_split_settled d u now s).2 =
    (Groups.markSettled (event_id d "group_id") u now (groups s)).2.
Proof.
  unfold apply_group_split_settled, bind. rewrite on_groups_run.
  destruct (Groups.markSettled _ _ _ _) as [[[g []]|e] t']; [|done..]. cbn [fst snd].
  by rewrite on_gen_run.
Qed.

Lemma group_settled_replay d u u' now now' s :
  Groups.group_keyed (groups s) ->
  (apply_group_split_settled d u' now' (apply_group_split_settled d u now s).2).2 =
    (apply_group_split_settled d u now s).2.
Proof.
  intros Hk. pose proof (group_settled_groups d u now s) as Hgr.
  set (s1 := (apply_group_split_settled d u now s).2) in *.
  destruct (Groups.markSettled_again (event_id d "group_id") u u' now now' (groups s) Hk) as [g Hg].
  unfold apply_group_split_settled, bind. rewrite on_groups_run, Hgr, Hg. cbn [fst snd].
  rewrite <-Hgr. unfold ret. cbn. by destruct s1.
Qed.

Lemma replay_state tp d u u' now now' s :
  inv s -> guarded tp = true ->
  (apply tp d u' now' (apply tp d u now s).2).2 = (apply tp d u now s).2.
Proof.
  intros [Hgo Hgr] Hg. apply bool_decide_eq_true in Hg.
  rewrite !elem_of_cons, elem_of_nil in Hg. destruct Hg as [->|[->|[->|[->|[]]]]].
  - apply goal_created_replay.
  - apply notify_noop. intros g. by apply notify_reaches.
  - apply locked_created_replay.
  - by apply group_settled_replay.
Qed.
End replay.

(** C1: The balance projection of an event stream: whatever the stream holds,
    failing handlers and every other topic included, an account's stored
    balance is the sum of its [deposit] amounts since its last [withdraw], on
    top of the balance that [withdraw] reported; no other topic touches a
    balance.  The deposit and withdraw amounts are integer literals. *)
Theorem projected_balance {B : Backend} (es : list event) (acc : string) :
  Forall (fun '(o, _) => Balance.wf_op o = true) (omap balance_op es) ->
  Balance.amount_of acc (balance_of (deliver_all es initial)) =
    Some (Balance.ledger_ops (omap balance_op es) (fun _ => 0) acc).
Proof.
  intros Hwf. rewrite deliver_all_balance. apply Balance.run_ops_implements;
    [apply Balance.initial_coherent|done|apply Balance.initial_implements].
Qed.

Lemma projected_balance_witness :
  let es := [mkEvent "deposit" [("owner"%string, VStr "G1"); ("amount"%string, VStr "500")] "" 1;
             mkEvent "goal_contribution" [("id"%string, VStr "4"); ("amount"%string, VStr "5")] "" 2;
             mkEvent "withdraw" [("user"%string, VStr "G1"); ("new_balance"%string, VStr "80")] "" 3;
             mkEvent "deposit" [("account"%string, VStr "G1"); ("amount"%string, VStr "7")] "" 4] in
  Balance.amount_of (B := MemBackend) "G1" (balance_of (deliver_all es initial)) = Some 87.
Proof.
  intros es. rewrite (projected_balance (B := MemBackend) es "G1").
  - vm_compute. reflexivity.
  - repeat constructor.
Defined.

(** *** Goals and their targets *)

Section targets.
Context {B : Backend}.

(** An active goal has saved less than its target. *)
Definition below_target (g : Goals.Goal) : Prop :=
  Goals.status g = Goals.ACTIVE -> forall c t,
  BigInt_of_string (Goals.current_amount g) = Some c ->
  BigInt_of_string (Goals.target_amount g) = Some t -> c < t.

Definition unmet (t : Goals.state) : Prop :=
  forall id g, find_one id t = Some g -> below_target g.

Lemma unmet_save id g t : unmet t -> below_target g -> unmet (save id g t).
Proof.
  intros Ht Hg id' g'. rewrite find_one_save. case_decide; [|apply Ht].
  by intros [= <-].
Qed.

Lemma notify_goals oid now s :
  goals_of (markGoalReachedAndNotify oid now s).2 = (Goals.markReached oid now (goals_of s)).2.
Proof.
  unfold markGoalReachedAndNotify, bind. rewrite on_goals_run.
  destruct (Goals.markReached oid now (goals_of s)) as [[[g []]|e] t]; [|done..].
  cbn [fst snd]. by rewrite on_gen_run.
Qed.

(** Reaching a goal repairs the one row that may have met its target. *)
Lemma markReached_unmet oid now (t : Goals.state) :
  Goals.keyed t -> (forall id g, id ≠ oid -> find_one id t = Some g -> below_target g) ->
  unmet (Goals.markReached oid now t).2.
Proof.
  intros Hk Hother. destruct (find_one oid t) as [g|] eqn:Hg; cycle 1.
  { rewrite Goals.markReached_unknown by done. cbn [snd]. intros id g Hid.
    apply (Hother id); [congruence|done]. }
  rewrite (Goals.markReached_run _ _ _ _ Hg). case_decide as Hst; cbn [snd].
  - intros id g' Hid. destruct (decide (id = oid)) as [->|]; [|by eapply Hother].
    intros Hact. congruence.
  - intros id g'. rewrite (Hk _ _ Hg), find_one_save. case_decide; [|intros; by eapply Hother].
    intros [= <-] Hact. done.
Qed.

Lemma contribution_unmet d now s :
  inv s -> unmet (goals_of s) -> unmet (goals_of (apply_goal_contribution d now s).2).
Proof.
  intros [Hk _] Hu. unfold apply_goal_contribution, bind at 1. rewrite on_goals_run.
  set (oid := event_id d "goal_id"). set (amt := js_String _).
  destruct (find_one oid (goals_of s)) as [g|] eqn:Hg; cycle 1.
  { edestruct (Goals.applyContribution_throws oid amt (goals_of s)) as [e ->]; [congruence|done]. }
  destruct (BigInt_of_string (Goals.current_amount g)) as [n|] eqn:Hn; cycle 1.
  { edestruct (Goals.applyContribution_throws oid amt (goals_of s)) as [e ->]; [|done].
    intros g'. rewrite Hg. intros [= <-]. by left. }
  destruct (BigInt_of_string amt) as [x|] eqn:Hx; cycle 1.
  { edestruct (Goals.applyContribution_throws oid amt (goals_of s)) as [e ->]; [by right|done]. }
  rewrite (Goals.applyContribution_run _ _ _ _ _ _ Hg Hn Hx). cbn [fst snd].
  set (g' := Goals.contributed g (n + x)).
  assert (Hc : BigInt_of_string (Goals.current_amount g') = Some (n + x))
    by apply BigInt_of_string_to_string.
  set (s1 := put_goals _ s).
  assert (Hs1 : goals_of s1 = save oid g' (goals_of s)).
  { unfold s1. cbn. f_equal. apply (Hk _ _ Hg). }
  unfold bind, BigInt. rewrite Hc. cbn [of_option ret].
  change (Goals.target_amount g') with (Goals.target_amount g).
  destruct (BigInt_of_string (Goals.target_amount g)) as [tg|] eqn:Htg; cbn [of_option ret throw];
    [|cbn [snd]; rewrite Hs1; apply unmet_save; [done|intros _ c t _; cbn; congruence]].
  destruct (Z.leb_spec tg (n + x)).
  - rewrite notify_goals, Hs1. change (Goals.on_chain_id g') with (Goals.on_chain_id g).
    rewrite (Hk _ _ Hg). apply markReached_unmet.
    + assert (Hid : Goals.on_chain_id g' = oid) by apply (Hk _ _ Hg).
      rewrite <-Hid. by apply Goals.save_keyed.
    + intros id g1 Hid. rewrite find_one_save_ne by done. apply Hu.
  - change (unmet (goals_of s1)). rewrite Hs1. apply unmet_save; [done|]. intros _ c t Hcc Ht. cbn in Ht. simplify_eq. lia.
Qed.

(** The events a vault emits: a goal is created with a positive target. *)
Definition positive_target (e : event) : Prop :=
  topic e = "goal_created"%string -> forall t,
  BigInt_of_string (js_String (payload e).["target_amount"]) = Some t -> 0 < t.

Lemma deliver_unmet e s :
  inv s -> positive_target e -> unmet (goals_of s) -> unmet (goals_of (deliver s e)).
Proof.
  intros Hinv Hpos Hu. unfold deliver. destruct e as [tp d u now]. cbn [topic payload uuid at_] in *.
  destruct (decide (tp = "goal_created"%string)) as [->|H1].
  { change (unmet (goals_of (apply_goal_created d now s).2)).
    rewrite goal_created_run, Goals.upsertCreated_run. cbn [snd].
    change (goals_of (put_goals ?t s)) with t. destruct (find_one _ _); [done|].
    apply unmet_save; [done|]. intros _ c t Hc Ht. cbn [Goals.current_amount Goals.target_amount] in Hc, Ht.
    vm_compute in Hc. injection Hc as <-. by apply (Hpos eq_refl). }
  destruct (decide (tp = "goal_contribution"%string)) as [->|H2]; [by apply contribution_unmet|].
  destruct (decide (tp = "goal_reached"%string)) as [->|H3].
  { change (unmet (goals_of (markGoalReachedAndNotify (event_id d "goal_id") now s).2)).
    rewrite notify_goals. apply markReached_unmet; [apply Hinv|]. intros id g _. apply Hu. }
  by apply (other_topics_goals unmet).
Qed.

Lemma deliver_all_unmet es s :
  inv s -> Forall positive_target es -> unmet (goals_of s) -> unmet (goals_of (deliver_all es s)).
Proof.
  intros Hinv Hes. revert s Hinv. induction Hes as [|e es He _ IH]; intros s Hinv Hu; [done|].
  apply (IH (deliver s e)); [apply (deliver_all_inv [e] s Hinv)|by apply deliver_unmet].
Qed.
End targets.

(** C5: After any event stream, failing handlers included, a goal that is still
    active has saved less than its target: a contribution that meets the target
    marks the goal reached in the same delivery.  Goals are created with positive
    targets. *)
Theorem active_goal_below_target {B : Backend} (es : list event) (id : string) (g : Goals.Goal) (c t : Z) :
  Forall positive_target es ->
  find_one id (goals_of (deliver_all es initial)) = Some g ->
  Goals.status g = Goals.ACTIVE ->
  BigInt_of_string (Goals.current_amount g) = Some c ->
  BigInt_of_string (Goals.target_amount g) = Some t -> c < t.
Proof.
  intros Hes Hg Hst. eapply (deliver_all_unmet es initial); eauto using initial_inv.
  intros id' g'. cbn. by rewrite find_one_empty.
Qed.

Lemma active_goal_below_target_witness :
  let es := [mkEvent "goal_created" [("id"%string, VStr "4"); ("owner"%string, VStr "G1");
               ("name"%string, VStr "car"); ("target_amount"%string, VStr "50")] "" 1;
             mkEvent "goal_contribution" [("id"%string, VStr "4"); ("amount"%string, VStr "20")] "" 2] in
  find_one (Backend := MemBackend) "4" (goals_of (deliver_all es initial)) =
    Some (Goals.mkGoal "4" "G1" "car" "50" "20" Goals.ACTIVE None 1) /\ 20 < 50.
Proof.
  intros es. split; [vm_compute; reflexivity|].
  apply (active_goal_below_target (B := MemBackend) es "4"
    (Goals.mkGoal "4" "G1" "car" "50" "20" Goals.ACTIVE None 1)); [|vm_compute; reflexivity..].
  repeat constructor; intros Ht t Hp; [|discriminate Ht].
  vm_compute in Hp. by simplify_eq.
Defined.

(** *** What may happen between two deliveries of an event *)

#[local] Existing Instance Goals.GoalStatus_eq_dec.

Section redelivery.
Context {B : Backend}.

(** One later step: another event, a call of the goals service (a claim over
    the API among them), a call of the groups service, or anything that writes
    neither goals, groups nor locked plans (balances, yield positions, inbox,
    caches). *)
Inductive later : state -> state -> Prop :=
| later_event s e : later s (deliver s e)
| later_goal s o now : later s (put_goals (Goals.run_op o now (goals_of s)) s)
| later_group s o :
    later s (mkState (savings s) (Groups.run_op o (groups s)) (locked s) (gen s))
| later_rest s s' :
    goals_of s' = goals_of s -> groups s' = groups s -> locked s' = locked s -> later s s'.

Lemma later_goals_inv J s s' : goal_inv J -> later s s' -> J (goals_of s) -> J (goals_of s').
Proof.
  intros HJ []; [by apply apply_goals_inv|by apply HJ|done|congruence].
Qed.

Lemma later_groups_inv (J : Groups.state -> Prop) s s' :
  (forall o t, J t -> J (Groups.run_op o t)) -> later s s' -> J (groups s) -> J (groups s').
Proof.
  intros HJ []; [by apply apply_groups_inv|done|by apply HJ|congruence].
Qed.

Lemma later_inv s s' : later s s' -> inv s -> inv s'.
Proof.
  intros H [Hg Hgr]. split.
  - by eapply later_goals_inv; [apply keyed_goal_inv|..].
  - by eapply later_groups_inv; [apply Groups.run_op_group_keyed|..].
Qed.

Lemma apply_locked_kept pid tp d u now :
  preserves (fun s => is_Some (find_one pid (locked s))) (apply tp d u now).
Proof.
  unfold apply, apply_goal_created, apply_goal_contribution, markGoalReachedAndNotify,
    apply_locked_created, apply_deposit, apply_withdraw, apply_group_split_settled, apply_deposited.
  repeat (case_decide; [|]); preserve; try apply BigInt_frame;
    try (by apply (savings_frame locked (fun t => is_Some (find_one pid t))));
    try (by apply (gen_frame locked (fun t => is_Some (find_one pid t))));
    try (by apply (groups_frame locked (fun t => is_Some (find_one pid t)))).
  apply (preserves_zoom_part locked _ (fun t => is_Some (find_one pid t))); [done|].
  intros t Ht. rewrite LockedPlans.upsertPlan_run. case_match; [done|]. case_match; [|done].
  cbn [snd]. rewrite find_one_save. by case_decide.
Qed.

(** The status of a stored goal. *)
Definition goal_status (oid : string) (s : state) : option Goals.GoalStatus :=
  Goals.status <$> find_one oid (goals_of s).

(** What a delivered event leaves behind: the goal, the plan, the goal no
    longer active, the settled group. *)
Definition effected (tp : string) (d : record) (s : state) : Prop :=
  if decide (tp = "goal_created"%string) then is_Some (find_one (event_id d "goal_id") (goals_of s))
  else if decide (tp = "goal_reached"%string)
  then exists g, find_one (event_id d "goal_id") (goals_of s) = Some g /\ Goals.status g ≠ Goals.ACTIVE
  else if decide (tp = "locked_created"%string)
  then is_Some (find_one (event_id d "plan_id") (locked s))
  else exists g, find_one (event_id d "group_id") (Groups.groups (groups s)) = Some g /\
                 Groups.settled g = true.

Lemma later_effected tp d s s' : later s s' -> inv s -> effected tp d s -> effected tp d s'.
Proof.
  intros Hl [Hk Hgk]. unfold effected. repeat case_decide.
  - intros Hs. eapply (later_goals_inv (fun t => Goals.keyed t /\ is_Some (find_one _ t))); [|done..].
    intros o now t [Ht [g Hg]]. split; [by apply Goals.run_op_keyed|].
    destruct (Goals.run_op_goal o now t _ g Ht Hg) as (g' & -> & _). done.
  - intros Hs. eapply (later_goals_inv (fun t => Goals.keyed t /\
      exists g, find_one _ t = Some g /\ Goals.status g ≠ Goals.ACTIVE)); [|done..].
    intros o now t [Ht (g & Hg & Hst)]. split; [by apply Goals.run_op_keyed|].
    destruct (Goals.run_op_goal o now t _ g Ht Hg) as (g' & Hg' & Hstep & _).
    exists g'. split; [done|]. by inversion Hstep; congruence.
  - intros Hs. destruct Hl; try done; [by apply apply_locked_kept|congruence].
  - intros Hs. eapply (later_groups_inv (fun t => Groups.group_keyed t /\
      exists g, find_one _ (Groups.groups t) = Some g /\ Groups.settled g = true)); [|done..].
    intros o t [Ht (g & Hg & Hst)]. split; [by apply Groups.run_op_group_keyed|].
    by apply (Groups.run_op_settled o t _ g).
Qed.

Lemma laters_effected tp d s s' :
  rtc later s s' -> inv s -> effected tp d s -> inv s' /\ effected tp d s'.
Proof.
  induction 1 as [|s s1 s' Hl _ IH]; intros Hi He; [done|].
  apply IH; [by eapply later_inv|by eapply later_effected].
Qed.

Lemma laters_inv s s' : rtc later s s' -> inv s -> inv s'.
Proof. induction 1; eauto using later_inv. Qed.

(** A first delivery that returned has had its effect. *)
Lemma returned_effected tp d u now s :
  inv s -> guarded tp = true -> (apply tp d u now s).1 = Ret tt ->
  effected tp d (apply tp d u now s).2.
Proof.
  intros [Hk Hgk] Hg. apply bool_decide_eq_true in Hg.
  rewrite !elem_of_cons, elem_of_nil in Hg.
  destruct Hg as [->|[->|[->|[->|[]]]]]; intros Hr; unfold effected; cbn [decide].
  - change (is_Some (find_one (event_id d "goal_id") (goals_of (apply_goal_created d now s).2))).
    rewrite goal_created_run, Goals.upsertCreated_run. cbn [snd].
    change (goals_of (put_goals ?t s)) with t. destruct (find_one _ (goals_of s)) eqn:He; cbn [snd]; [by rewrite He|].
    by rewrite find_one_save_eq.
  - change (exists g, find_one (event_id d "goal_id")
      (goals_of (markGoalReachedAndNotify (event_id d "goal_id") now s).2) = Some g /\ Goals.status g ≠ Goals.ACTIVE).
    change (apply _ _ _ _ _) with (markGoalReachedAndNotify (event_id d "goal_id") now s) in Hr.
    destruct (find_one (event_id d "goal_id") (goals_of (markGoalReachedAndNotify (event_id d "goal_id") now s).2)) as [g|] eqn:He.
    { exists g. split; [done|]. apply notify_reaches in He; [congruence|done]. }
    exfalso. unfold markGoalReachedAndNotify, bind in Hr, He. rewrite on_goals_run in Hr, He.
    destruct (find_one (event_id d "goal_id") (goals_of s)) as [g|] eqn:Hg;
      [|by rewrite Goals.markReached_unknown in Hr].
    rewrite (Goals.markReached_run _ _ _ _ Hg) in He. case_decide; cbn [fst snd] in He.
    + cbn in He. congruence.
    + rewrite on_gen_run in He. cbn in He. by rewrite (Hk _ _ Hg), find_one_save_eq in He.
  - change (is_Some (find_one (event_id d "plan_id") (locked (apply_locked_created d now s).2))).
    change (apply _ _ _ _ _) with (apply_locked_created d now s) in Hr.
    rewrite locked_created_run. cbn [locked]. unfold apply_locked_created, bind, on_locked, zoom in Hr.
    rewrite LockedPlans.upsertPlan_run in Hr |- *. destruct (find_one _ (locked s)) eqn:He; cbn [snd]; [by rewrite He|].
    destruct (toDate _); [|done]. cbn [snd]. by rewrite find_one_save_eq.
  - change (exists g, find_one (event_id d "group_id")
      (Groups.groups (groups (apply_group_split_settled d u now s).2)) = Some g /\ Groups.settled g = true).
    rewrite group_settled_groups.
    destruct (Groups.markSettled_settles (event_id d "group_id") u now (groups s) Hgk) as (g & H1 & H2).
    by exists g.
Qed.

(** An event whose effect is there is a no-op, unless it would reach a
    claimed goal again. *)
Lemma effected_noop tp d u now s :
  inv s -> guarded tp = true -> effected tp d s ->
  (tp = "goal_reached"%string -> goal_status (event_id d "goal_id") s ≠ Some Goals.CLAIMED) ->
  (apply tp d u now s).2 = s.
Proof.
  intros [Hk Hgk] Hg. apply bool_decide_eq_true in Hg.
  rewrite !elem_of_cons, elem_of_nil in Hg.
  destruct Hg as [->|[->|[->|[->|[]]]]]; unfold effected; cbn [decide].
  - intros [g Hg] _. change (apply _ _ _ _ _) with (apply_goal_created d now s).
    rewrite goal_created_run, Goals.upsertCreated_run. cbn [snd].
    rewrite Hg. apply put_goals_same.
  - intros (g & Hg & Hst) Hcl. apply notify_noop. intros g'. rewrite Hg. intros [= <-].
    specialize (Hcl eq_refl). unfold goal_status in Hcl. rewrite Hg in Hcl. cbn in Hcl.
    by destruct (Goals.status g).
  - intros [p Hp] _. change (apply _ _ _ _ _) with (apply_locked_created d now s).
    rewrite locked_created_run, LockedPlans.upsertPlan_run, Hp. by destruct s.
  - intros (g & Hg & Hst) _. change (apply _ _ _ _ _) with (apply_group_split_settled d u now s).
    unfold apply_group_split_settled, bind. rewrite on_groups_run, Groups.markSettled_run.
    rewrite Hg. cbn [default from_option id]. rewrite Hst. cbn. by destruct s.
Qed.

(** Reaching a claimed goal again. *)
Lemma reopened oid now s :
  inv s -> goal_status oid s = Some Goals.CLAIMED ->
  goal_status oid (markGoalReachedAndNotify oid now s).2 = Some Goals.REACHED.
Proof.
  intros [Hk _]. unfold goal_status. rewrite notify_goals.
  destruct (find_one oid (goals_of s)) as [g|] eqn:Hg; [|done]. cbn. intros [= Hst].
  rewrite (Goals.markReached_run _ _ _ _ Hg), decide_False by congruence.
  cbn [snd]. by rewrite (Hk _ _ Hg), find_one_save_eq.
Qed.
End redelivery.

(** C4: Redelivery of a [goal_created], [goal_reached], [locked_created] or
    [group_split_settled] event.  Delivered twice in a row it leaves every
    projection and the inbox exactly as the first delivery left them, whether or
    not that one threw.  When the first delivery returned, the same holds of a
    redelivery after anything has happened in between (other events, claims, group
    calls), with one exception, a [goal_reached] whose goal has been claimed
    meanwhile: that one makes the goal reached, hence claimable, again. *)
Theorem replay_idempotent {B : Backend} (s0 s2 : state) (e : event) (u' : string) (now' : Z) :
  guarded (topic e) = true -> rtc later initial s0 ->
  let again := mkEvent (topic e) (payload e) u' now' in
  let oid := event_id (payload e) "goal_id" in
  deliver (deliver s0 e) again = deliver s0 e /\
  ((apply (topic e) (payload e) (uuid e) (at_ e) s0).1 = Ret tt -> rtc later (deliver s0 e) s2 ->
   if decide (topic e = "goal_reached"%string /\ goal_status oid s2 = Some Goals.CLAIMED)
   then goal_status oid (deliver s2 again) = Some Goals.REACHED
   else deliver s2 again = s2).
Proof.
  intros Hg Hs0 again oid.
  assert (Hi : inv s0) by (eapply laters_inv; [done|apply initial_inv]).
  split; [by apply replay_state|]. intros Hr Hs2.
  destruct (laters_effected (topic e) (payload e) _ _ Hs2) as [Hi2 He2].
  { eapply later_inv; [apply later_event|done]. }
  { by apply returned_effected. }
  unfold deliver, again. cbn [topic payload uuid at_]. case_decide as Hc.
  - destruct Hc as [-> Hcl]. by apply reopened.
  - apply effected_noop; [done..|]. intros Ht Hcl. by apply Hc.
Qed.

Lemma replay_idempotent_witness :
  let new := mkEvent "goal_created" [("id"%string, VStr "4"); ("owner"%string, VStr "G1");
        ("name"%string, VStr "car"); ("target_amount"%string, VStr "50")] "" 1 in
  let e := mkEvent "goal_reached" [("goal_id"%string, VStr "4")] "" 9 in
  let s0 := deliver (B := MemBackend) initial new in
  let s2 := deliver (deliver s0 e) (mkEvent "deposit" [("owner"%string, VStr "G1");
              ("amount"%string, VStr "5")] "" 10) in
  let s3 := put_goals (Goals.run_op (Goals.Claim "4") 11 (goals_of s2)) s2 in
  deliver s2 (mkEvent (topic e) (payload e) "" 12) = s2 /\
  goal_status "4" s3 = Some Goals.CLAIMED /\
  goal_status "4" (deliver s3 (mkEvent (topic e) (payload e) "" 12)) = Some Goals.REACHED.
Proof.
  intros new e s0 s2 s3.
  assert (H0 : rtc later initial s0) by (apply rtc_once, later_event).
  assert (H2 : rtc later (deliver s0 e) s2) by (apply rtc_once, later_event).
  assert (H3 : rtc later (deliver s0 e) s3) by (eapply rtc_r; [exact H2|apply later_goal]).
  pose proof (proj2 (replay_idempotent (B := MemBackend) s0 s2 e "" 12 eq_refl H0) eq_refl H2) as R2.
  pose proof (proj2 (replay_idempotent (B := MemBackend) s0 s3 e "" 12 eq_refl H0) eq_refl H3) as R3.
  split; [exact R2|]. split; [vm_compute; reflexivity|exact R3].
Defined.

(** A [deposit] event delivered twice is credited twice: the account's
    balance ends higher by the amount than after one delivery.  The handlers
    of [deposit] and [goal_contribution] carry no event identity, so exactly-once
    delivery is the caller's obligation. *)
Theorem deposit_replay_double_counts {B : Backend} (s : state) (d : record) (u : string) (now now' n a : Z) :
  Balance.amount_of (event_account d) (balance_of s) = Some n ->
  BigInt_of_string (js_String d.["amount"]) = Some a ->
  let s1 := deliver s (mkEvent "deposit" d u now) in
  Balance.amount_of (event_account d) (balance_of s1) = Some (n + a) /\
  Balance.amount_of (event_account d) (balance_of (deliver s1 (mkEvent "deposit" d u now'))) = Some (n + a + a).
Proof.
  intros Hn Ha s1.
  assert (H1 : Balance.amount_of (event_account d) (balance_of s1) = Some (n + a)).
  { unfold s1. rewrite deliver_deposit.
    rewrite (Balance.credit_amount_of _ _ _ _ _ _ _ Hn Ha). by rewrite decide_True. }
  split; [done|]. rewrite deliver_deposit.
  rewrite (Balance.credit_amount_of _ _ _ _ _ _ _ H1 Ha). by rewrite decide_True.
Qed.

Lemma deposit_replay_double_counts_witness :
  let d := [("owner"%string, VStr "G1"); ("amount"%string, VStr "500")] in
  let s1 := deliver (B := MemBackend) initial (mkEvent "deposit" d "" 1) in
  Balance.amount_of "G1" (balance_of (deliver s1 (mkEvent "deposit" d "" 1))) = Some 1000.
Proof.
  intros d s1.
  apply (deposit_replay_double_counts (B := MemBackend) initial d "" 1 1 0 500);
    vm_compute; reflexivity.
Defined.

(** A [withdraw] event delivered again, with no event of the same account
    in between, leaves every account's balance as it was: the handler writes
    the contract's own balance instead of subtracting. *)
Theorem withdraw_replay_stable {B : Backend} (s : state) (d : record) (u : string) (now now' : Z)
    (between : list event) (acc : string) :
  Forall (fun '(o, _) => match o with
                         | Balance.Credit a _ | Balance.SetBalance a _ => a ≠ event_account d
                         | _ => True end) (omap balance_op between) ->
  let s1 := deliver_all between (deliver s (mkEvent "withdraw" d u now)) in
  Balance.amount_of acc (balance_of (deliver s1 (mkEvent "withdraw" d u now'))) =
  Balance.amount_of acc (balance_of s1).
Proof.
  intros Hb s1. rewrite deliver_withdraw.
  rewrite Balance.setBalance_amount_of. case_decide as Hacc; [subst acc|done].
  unfold s1. rewrite deliver_all_balance. symmetry.
  rewrite Balance.run_ops_other by exact Hb.
  rewrite deliver_withdraw, Balance.setBalance_amount_of. by rewrite decide_True.
Qed.

Lemma withdraw_replay_stable_witness :
  let d := [("owner"%string, VStr "G1"); ("new_balance"%string, VStr "80")] in
  let b := [mkEvent "deposit" [("owner"%string, VStr "G2"); ("amount"%string, VStr "5")] "" 2] in
  let s1 := deliver_all b (deliver (B := MemBackend) initial (mkEvent "withdraw" d "" 1)) in
  Balance.amount_of "G1" (balance_of (deliver s1 (mkEvent "withdraw" d "" 3))) =
  Balance.amount_of "G1" (balance_of s1).
Proof.
  intros d b s1. apply (withdraw_replay_stable (B := MemBackend) initial d "" 1 3 b "G1").
  repeat constructor. discriminate.
Defined.
(** A [deposited] event stores the owner's position shares as reported and
    the exchange rate of the totals scaled by 1e7, rounded down; the totals are
    integer literals with positive shares. *)
Theorem deposited_position {B : Backend} (s : state) (d : record) (u : string) (now : Z)
    (own shares : string) (assets total : Z) :
  d.["owner"] = VStr own -> own ≠ ""%string -> d.["position_shares"] = VStr shares -> shares ≠ ""%string ->
  d.["total_assets"] = VStr (Z_to_string assets) -> d.["total_shares"] = VStr (Z_to_string total) ->
  0 <= assets -> 0 < total ->
  exists p, find_one own (Savings.positions (savings (deliver s (mkEvent "deposited" d u now)))) = Some p /\
    Savings.shares p = shares /\
    Savings.exchange_rate_snapshot p = Some (Z_to_string (assets * 10000000 / total)).
Proof.
  intros Ho Hne Hs Hse Ha Ht Hpa Hpt.
  assert (Hnz : forall z, truthy (VStr (Z_to_string z)) = true).
  { intros z. cbn. destruct (Z_to_string z) eqn:Hz; [|done].
    pose proof (BigInt_of_string_to_string z) as Hr. rewrite Hz in Hr.
    pose proof (BigInt_of_string_to_string 0) as H0. destruct (decide (z = 0)) as [->|]; [done|].
    vm_compute in Hr. congruence. }
  change (deliver s (mkEvent "deposited" d u now)) with (apply_deposited d now s).2.
  unfold apply_deposited. rewrite Ho, Hs, Ha, Ht, !Hnz. cbn [js_String nullish andb].
  rewrite !bool_decide_eq_true_2 by done. cbn [andb].
  unfold calculateExchangeRate. rewrite !BigInt_of_string_to_string.
  destruct (Z.eqb_spec total 0); [lia|].
  rewrite Z.quot_div_nonneg by lia.
  unfold bind, on_savings, zoom, Savings.upsertYieldPosition. run.
  rewrite find_one_save_eq. by eexists.
Qed.

Lemma deposited_position_witness :
  let d := [("owner"%string, VStr "G1"); ("position_shares"%string, VStr "40");
            ("total_assets"%string, VStr "1050"); ("total_shares"%string, VStr "1000")] in
  exists p, find_one (Backend := MemBackend) "G1"
      (Savings.positions (savings (deliver initial (mkEvent "deposited" d "" 1)))) = Some p /\
    Savings.exchange_rate_snapshot p = Some "10500000"%string.
Proof.
  intros d.
  destruct (deposited_position (B := MemBackend) initial d "" 1 "G1" "40" 1050 1000)
    as (p & H1 & _ & H2); [reflexivity|done|reflexivity|done|reflexivity..|lia|lia|].
  exists p. split; [exact H1|exact H2].
Defined.

(** The estimated value of a yield position is ten million times too high:
    an owner of all 250 shares of a vault holding 250 stroops, whose [deposited]
    event sets the position, is reported 2,500,000,000 stroops, because
    [getYieldPosition] multiplies by the rate without removing its 1e7 scale. *)
Theorem yield_estimate_unscaled :
  let d := [("owner"%string, VStr "G1"); ("position_shares"%string, VStr "250");
            ("total_assets"%string, VStr "250"); ("total_shares"%string, VStr "250")] in
  let s := deliver (B := MemBackend) initial (mkEvent "deposited" d "" 1) in
  exists r, (Savings.getYieldPosition "G1" 2 (savings s)).1 = Ret r /\
    Savings.pr_shares r = "250"%string /\
    Savings.pr_estimated_asset_value r = Some "2500000000"%string.
Proof. eexists. split; [vm_compute; reflexivity|]. split; reflexivity. Qed.
End Projection.
