(* ===== verification/SorobanEvents.v ===== *)
(** * SorobanService: fetching contract events from the RPC node

    Models the event side of [backend/src/soroban/soroban.service.ts]: the
    paging loop of [getEvents], the retry wrapper and the failure counter behind
    [isRpcHealthy], and the normalisation of raw events.

    The RPC node is a parameter: [net n req] is what the [n]-th [fetch] of the
    process answers to [req]. *)
From Stdlib Require Import ZArith Lia SpecFloat Ascii.
From stdpp Require Import base list strings sorting sets.
From S2P Require Import Prelude JsValue JsNumber.
Local Open Scope Z_scope.

Module SorobanEvents.

(** A normalised event. *)
Record SorobanRpcEvent := mkRpcEvent {
  id : string;
  ledger : Z;
  topic : list string;
  value : record;
  txHash : option string;
}.

Record SorobanEventsResponse := mkResponse {
  events : list SorobanRpcEvent;
  latestLedger : Z;
  cursor : option string;
}.

(** ** [normalizeEvent] and its helpers *)

(** [toNumber], for the integers a ledger sequence is: of a string with a
    fraction, which the code would keep, the model has the integer part. *)
Definition toNumber (v : jsval) : option Z :=
  match v with
  | VNum z => Some z
  | VStr s => num_trunc (Number_of_string s)
  | _ => None
  end.

Definition topic_item (item : jsval) : option string :=
  match item with
  | VStr s => Some s
  | VObj obj =>
      match as_string obj.["symbol"] with
      | Some s => Some s
      | None => as_string obj.["value"]
      end
  | _ => None
  end.

Definition toStringArray (v : jsval) : list string :=
  match v with VArr l => omap topic_item l | _ => [] end.

(** [toRecord]; every value has a record, so it never gives [null]. *)
Definition toRecord (v : jsval) : record :=
  match v with
  | VObj fs => fs
  | VUndef | VNull => []
  | _ => [("value"%string, v)]
  end.

(** The fields of a raw event: an object's, none for an array. *)
Definition raw_fields (raw : jsval) : option record :=
  match raw with VObj fs => Some fs | VArr _ => Some [] | _ => None end.

(** [fallback] is the generated id of an event without one. *)
Definition normalizeEvent (fallback : string) (raw : jsval) : option SorobanRpcEvent :=
  fs ← raw_fields raw;
  l ← toNumber fs.["ledger"];
  let eid := default fallback (as_string fs.["id"]) in
  let tx := match as_string fs.["txHash"] with
            | Some h => Some h
            | None => as_string fs.["tx_hash"]
            end in
  Some (mkRpcEvent eid l (toStringArray (fs.["topic"] ?? fs.["topics"]))
          (toRecord (fs.["value"] ?? fs.["data"])) tx).

(** ** Errors and retries *)

(** A thrown value: whether it is an [Error] and a [TypeError], its name, the
    [code] of its [cause] when that is a string, its message. *)
Record js_error := mkError {
  is_Error : bool;
  is_TypeError : bool;
  err_name : string;
  cause_code : option string;
  err_message : string;
}.

Definition transient_codes : list string :=
  ["ECONNRESET"; "ECONNREFUSED"; "ETIMEDOUT"; "ENOTFOUND"; "EPIPE"; "EHOSTUNREACH"; "EAI_AGAIN"]%string.

(** The status of the first match of [/HTTP (\d{3})/]. *)
Definition three_digits (s : string) : option Z :=
  match s with
  | String a (String b (String c _)) =>
      x ← digit_value 10 a; y ← digit_value 10 b; z ← digit_value 10 c;
      Some (x * 100 + y * 10 + z)
  | _ => None
  end.

Fixpoint http_status (s : string) : option Z :=
  match s with
  | EmptyString => None
  | String _ s' =>
      match (if String.prefix "HTTP " s then three_digits (String.substring 5 3 s) else None) with
      | Some n => Some n
      | None => http_status s'
      end
  end.

Definition isTransientRpcError (e : js_error) : bool :=
  if negb (is_Error e) then false
  else if is_TypeError e then true
  else if bool_decide (err_name e = "AbortError"%string) then true
  else if match cause_code e with Some c => bool_decide (c ∈ transient_codes) | None => false end
  then true
  else match http_status (err_message e) with
       | Some status => (status =? 429) || ((500 <=? status) && (status <=? 599))
       | None => false
       end.

Definition RPC_RETRY_JITTER_FACTOR : number := num_of_decimal 2 (-1).
Definition RPC_UNHEALTHY_FAILURE_THRESHOLD : Z := 3.

(** [computeRpcBackoffDelay]; [random] is [Math.random()]. *)
Definition computeRpcBackoffDelay (random : number) (baseDelayMs attemptIndex : Z) : Z :=
  let exponential := num_mul (num_of_Z baseDelayMs) (num_of_Z (4 ^ attemptIndex)) in
  let jitter := num_mul (num_mul exponential RPC_RETRY_JITTER_FACTOR)
                        (num_sub (num_mul random (num_of_Z 2)) (num_of_Z 1)) in
  Z.max 0 (default 0 (num_round (num_add exponential jitter))).

(** The mutable fields: the failure counter, the number of fetches made and the
    delays slept so far. *)
Record state := mkState {
  consecutiveRpcFailures : Z;
  fetches : nat;
  slept : list Z;
}.

Definition initial : state := mkState 0 0 [].

Definition isRpcHealthy (s : state) : bool :=
  consecutiveRpcFailures s <? RPC_UNHEALTHY_FAILURE_THRESHOLD.

Definition getConsecutiveRpcFailures (s : state) : Z := consecutiveRpcFailures s.

(** ** The RPC node *)

(** The parameters of a [getEvents] request. *)
Record request := mkRequest {
  req_startLedger : option Z;
  req_cursor : option string;
  req_limit : Z;
}.

(** The parsed body, an object (on a body that is the JSON [null] the code's
    [body.error] throws, which is outside the model): whether it has an [error], the [result.events] (empty when
    absent), [result.latestLedger] when it is a number, [result.cursor] when it is a
    string. *)
Record rpc_body := mkBody {
  body_error : bool;
  body_events : list jsval;
  body_latestLedger : option Z;
  body_cursor : option string;
}.

(** What a [fetch] and the reading of its JSON give. *)
Inductive fetch_result :=
| Responded (status : Z) (body : option rpc_body)
| Rejected (e : js_error).

Record config := mkConfig {
  rpcUrl : string;
  contractId : string;
  maxAttempts : Z;
  baseDelayMs : Z;
}.

Definition MAX_EVENTS_PER_FETCH : Z := 10000.
Definition MAX_PAGE_SIZE : Z := 200.

Section service.
Context (cfg : config) (net : nat -> request -> fetch_result)
        (random : nat -> number) (fallback_id : nat -> nat -> string).

(** The body of the retried closure: one [fetch]. *)
Definition fetch_once (req : request) (s : state) : (rpc_body + js_error) * state :=
  let s' := mkState (consecutiveRpcFailures s) (S (fetches s)) (slept s) in
  match net (fetches s) req with
  | Responded status body =>
      if (200 <=? status) && (status <=? 299) then
        match body with
        | Some b => (inl b, s')
        | None => (inr (mkError true false "SyntaxError" None "Unexpected token in JSON"), s')
        end
      else (inr (mkError true false "Error" None ("HTTP " +:+ Z_to_string status)), s')
  | Rejected e => (inr e, s')
  end.

(** The attempts left, the index of the next one.  The error is [None] when no
    attempt was made. *)
Fixpoint retry_loop {A} (left : nat) (attempt : Z) (last : option js_error)
    (fn : state -> (A + js_error) * state) (s : state) : (A + option js_error) * state :=
  match left with
  | O => (inr last, mkState (consecutiveRpcFailures s + 1) (fetches s) (slept s))
  | S left' =>
      match fn s with
      | (inl a, s') => (inl a, mkState 0 (fetches s') (slept s'))
      | (inr e, s') =>
          if negb (isTransientRpcError e) then (inr (Some e), s')
          else match left' with
               | O => (inr (Some e), mkState (consecutiveRpcFailures s' + 1) (fetches s') (slept s'))
               | _ =>
                   let d := computeRpcBackoffDelay (random (length (slept s'))) (baseDelayMs cfg) attempt in
                   retry_loop left' (attempt + 1) (Some e) fn
                     (mkState (consecutiveRpcFailures s') (fetches s') (slept s' ++ [d]))
               end
      end
  end.

Definition withRetry {A} (fn : state -> (A + js_error) * state) (s : state)
  : (A + option js_error) * state :=
  retry_loop (Z.to_nat (maxAttempts cfg)) 0 None fn s.

(** The local variables of [getEvents]. *)
Record loop := mkLoop {
  accumulated : list SorobanRpcEvent;
  activeCursor : option string;
  tip : Z;
  lastCursor : option string;
}.

(** A string that is neither absent nor empty. *)
Definition nonempty (o : option string) : option string :=
  match o with Some EmptyString | None => None | Some s => Some s end.

Inductive step := Break (l : loop) | Continue (l : loop).

(** The part of the loop body after a page arrived; [n] numbers the page. *)
Definition take_page (pageSize : Z) (n : nat) (body : rpc_body) (l : loop) : step :=
  let latest := default (tip l) (body_latestLedger body) in
  let raws := body_events body in
  match raws with
  | [] => Break (mkLoop (accumulated l) (activeCursor l) latest (lastCursor l))
  | _ =>
      let pageEvents := omap (fun p => normalizeEvent (fallback_id n p.1) p.2) (imap pair raws) in
      let responseCursor := match body_cursor body with
                            | Some c => Some c
                            | None => id <$> last pageEvents
                            end in
      let l' := match nonempty responseCursor with
                | Some c => mkLoop (accumulated l ++ pageEvents) (Some c) latest (Some c)
                | None => mkLoop (accumulated l ++ pageEvents) (activeCursor l) latest (lastCursor l)
                end in
      (* Math.max(...[]) is -Infinity *)
      let caught_up := match ledger <$> pageEvents with
                       | [] => false
                       | x :: xs => latest <=? foldl Z.max x xs
                       end in
      if caught_up then Break l'
      else if Z.of_nat (length raws) <? pageSize then Break l'
      else Continue l'
  end.

Definition page_step (fromLedger pageSize : Z) (l : loop) (s : state) : step * state :=
  let cur := nonempty (activeCursor l) in
  let req := mkRequest (match cur with Some _ => None | None => Some fromLedger end) cur pageSize in
  match withRetry (fetch_once req) s with
  | (inr _, s') => (Break l, s')
  | (inl body, s') =>
      if body_error body then (Break l, s')
      else (take_page pageSize (fetches s') body l, s')
  end.

(** The [while] loop; [None] when the fuel is exhausted. *)
Fixpoint pages (fuel : nat) (fromLedger pageSize : Z) (l : loop) (s : state) : option loop * state :=
  if Z.of_nat (length (accumulated l)) <? MAX_EVENTS_PER_FETCH then
    match fuel with
    | O => (None, s)
    | S fuel' =>
        match page_step fromLedger pageSize l s with
        | (Break l', s') => (Some l', s')
        | (Continue l', s') => pages fuel' fromLedger pageSize l' s'
        end
    end
  else (Some l, s).

Definition getEvents (fuel : nat) (fromLedger : Z) (limit : option Z) (resume : option string) (s : state)
  : option SorobanEventsResponse * state :=
  if bool_decide (rpcUrl cfg = ""%string) || bool_decide (contractId cfg = ""%string)
  then (Some (mkResponse [] fromLedger None), s)
  else
    let pageSize := Z.min (default MAX_PAGE_SIZE limit) MAX_PAGE_SIZE in
    match pages fuel fromLedger pageSize (mkLoop [] resume fromLedger None) s with
    | (Some l, s') => (Some (mkResponse (accumulated l) (tip l) (lastCursor l)), s')
    | (None, s') => (None, s')
    end.
End service.

(** ** Retries *)

Section proofs.
Context (cfg : config) (net : nat -> request -> fetch_result)
        (random : nat -> number) (fallback_id : nat -> nat -> string).

(** The outcomes of the retry loop over one request. *)
Inductive retried (budget : nat) (s : state) : (rpc_body + option js_error) * state -> Prop :=
| retried_ok b s' :
    (fetches s < fetches s' <= fetches s + budget)%nat -> consecutiveRpcFailures s' = 0 ->
    retried budget s (inl b, s')
| retried_permanent e s' :
    (fetches s < fetches s' <= fetches s + budget)%nat -> isTransientRpcError e = false ->
    consecutiveRpcFailures s' = consecutiveRpcFailures s -> retried budget s (inr (Some e), s')
| retried_exhausted e s' :
    (fetches s' = fetches s + budget)%nat ->
    consecutiveRpcFailures s' = consecutiveRpcFailures s + 1 -> retried budget s (inr e, s').

Lemma fetch_once_count req s r s' :
  fetch_once net req s = (r, s') ->
  fetches s' = S (fetches s) /\ consecutiveRpcFailures s' = consecutiveRpcFailures s /\ slept s' = slept s.
Proof. unfold fetch_once. intros H. repeat case_match; simplify_eq; done. Qed.

Lemma retry_loop_spec req left attempt last s :
  retried left s (retry_loop cfg random left attempt last (fetch_once net req) s).
Proof.
  revert attempt last s. induction left as [|left IH]; intros attempt last s; cbn [retry_loop].
  { constructor; simpl; lia. }
  destruct (fetch_once net req s) as [[b|e] s'] eqn:Hf;
    pose proof Hf as (Hn & Hc & _)%fetch_once_count.
  - constructor; simpl; lia.
  - destruct (isTransientRpcError e) eqn:Ht; cbn [negb]; [|constructor; simpl; [lia|done|done]].
    destruct left as [|left]; [constructor; simpl; lia|].
    set (s1 := mkState (consecutiveRpcFailures s') (fetches s') _).
    specialize (IH (attempt + 1) (Some e) s1).
    set (r := retry_loop _ _ (S left) _ _ _ _) in *. clearbody r.
    inversion IH as [b s2 Hk Hz Heq|e' s2 Hk He' Hz Heq|e' s2 Hk Hz Heq]; simpl in *.
    + constructor; simpl; lia.
    + constructor; simpl; [lia|done|lia].
    + apply retried_exhausted; simpl; lia.
Qed.

(** ** The paging loop ends *)

(** Every raw event of every response is well formed. *)
Definition wf_net : Prop := forall n req st b, net n req = Responded st (Some b) ->
  Forall (fun raw => forall f, is_Some (normalizeEvent f raw)) (body_events b).

Lemma fetch_once_body req s b s' :
  fetch_once net req s = (inl b, s') -> exists n st, net n req = Responded st (Some b).
Proof. unfold fetch_once. intros H. repeat case_match; simplify_eq; eauto. Qed.

Lemma retry_loop_body req left attempt last s b s' :
  retry_loop cfg random left attempt last (fetch_once net req) s = (inl b, s') ->
  exists n st, net n req = Responded st (Some b).
Proof.
  revert attempt last s. induction left as [|left IH]; intros attempt last s; simpl; [done|].
  destruct (fetch_once net req s) as [[b'|e] s1] eqn:Hf.
  - intros [= -> <-]. by eapply fetch_once_body.
  - destruct (isTransientRpcError e); simpl; [|done]. destruct left; [done|]. apply IH.
Qed.

Lemma omap_imap_length {A C} (g : nat -> A -> option C) (k : nat -> nat) (l : list A) :
  Forall (fun x => forall n, is_Some (g n x)) l ->
  length (omap (fun p => g p.1 p.2) (imap (fun i x => (k i, x)) l)) = length l.
Proof.
  intros H. revert k. induction H as [|x l Hx _ IH]; intros k; [done|].
  rewrite imap_cons. csimpl. destruct (Hx (k 0%nat)) as [y ->]. simpl. f_equal.
  apply (IH (k ∘ S)).
Qed.

Lemma take_page_continue pageSize n b l l' :
  Forall (fun raw => forall f, is_Some (normalizeEvent f raw)) (body_events b) ->
  take_page fallback_id pageSize n b l = Continue l' ->
  (length (accumulated l) < length (accumulated l'))%nat.
Proof.
  intros Hwf. unfold take_page. destruct (body_events b) as [|raw raws] eqn:Hb; [done|].
  set (page := omap _ _).
  assert (Hlen : length page = S (length raws)).
  { unfold page. apply (omap_imap_length (fun i raw => normalizeEvent (fallback_id n i) raw) (fun i => i) (raw :: raws)).
    eapply Forall_impl; [exact Hwf|]. simpl. auto. }
  clearbody page. intros H. repeat case_match; simplify_eq; simpl; rewrite length_app; lia.
Qed.

Lemma pages_total fuel from ps l s :
  wf_net -> (Z.to_nat MAX_EVENTS_PER_FETCH <= length (accumulated l) + fuel)%nat ->
  exists l' s', pages cfg net random fallback_id fuel from ps l s = (Some l', s').
Proof.
  intros Hwf. revert l s. induction fuel as [|fuel IH]; intros l s Hlen; simpl.
  { destruct (Z.ltb_spec (Z.of_nat (length (accumulated l))) MAX_EVENTS_PER_FETCH); [lia|by eauto]. }
  case_match; [|by eauto].
  destruct (page_step _ _ _ _ from ps l s) as [[l'|l'] s'] eqn:Hstep; [by eauto|].
  apply IH. unfold page_step in Hstep.
  destruct (withRetry _ _ _ _) as [[b|e] s1] eqn:Hr; [|done].
  destruct (body_error b); simplify_eq.
  apply retry_loop_body in Hr as (n & st & Hn).
  match goal with H : take_page _ _ _ _ _ = _ |- _ => apply take_page_continue in H; [lia|] end.
  by eapply Hwf.
Qed.
End proofs.

(** [withRetry] makes at most the configured number of attempts and keeps the
    health counter exact: a success resets it, a permanent error leaves it as it
    was after the attempts made so far, and only an exhausted budget adds one.  So
    the connection is reported unhealthy only after three calls in a row exhausted
    their budget. *)
Theorem withRetry_bounded (cfg : config) (net : nat -> request -> fetch_result)
    (random : nat -> number) (req : request) (s : state) :
  let r := withRetry cfg random (fetch_once net req) s in
  (fetches r.2 <= fetches s + Z.to_nat (maxAttempts cfg))%nat /\
  match r.1 with
  | inl _ => consecutiveRpcFailures r.2 = 0
  | inr (Some e) =>
      (isTransientRpcError e = false /\ consecutiveRpcFailures r.2 = consecutiveRpcFailures s) \/
      (consecutiveRpcFailures r.2 = consecutiveRpcFailures s + 1 /\
       fetches r.2 = (fetches s + Z.to_nat (maxAttempts cfg))%nat)
  | inr None => consecutiveRpcFailures r.2 = consecutiveRpcFailures s + 1
  end.
Proof.
  intros r. pose proof (retry_loop_spec cfg net random req (Z.to_nat (maxAttempts cfg)) 0 None s) as H.
  change (retry_loop _ _ _ _ _ _ _) with r in H.
  inversion H as [b s2 Hk Hz Heq|e s2 Hk He Hz Heq|e s2 Hk Hz Heq]; simpl.
  - split; [lia|done].
  - split; [lia|]. by left.
  - split; [lia|]. destruct e; [right|]; done.
Qed.

(** C24: When the node's raw events are well formed, [getEvents] ends: ten thousand
    rounds of the paging loop are always enough, whatever the node answers
    otherwise, because every further page adds an event and ten thousand events
    stop the loop. *)
Theorem getEvents_terminates (cfg : config) (net : nat -> request -> fetch_result)
    (random : nat -> number) (fallback_id : nat -> nat -> string)
    (from : Z) (limit : option Z) (resume : option string) (s : state) :
  wf_net net ->
  exists r s', getEvents cfg net random fallback_id (Z.to_nat MAX_EVENTS_PER_FETCH) from limit resume s
    = (Some r, s').
Proof.
  intros Hwf. unfold getEvents. case_match; [by eauto|].
  edestruct (pages_total cfg net random fallback_id (Z.to_nat MAX_EVENTS_PER_FETCH) from)
    as (l' & s' & Hp); [exact Hwf| |by rewrite Hp; eauto].
  lia.
Qed.

(** ** A node that serves a fixed chain of events *)

(** The JSON of an event, as the node sends it. *)
Definition encode (e : SorobanRpcEvent) : jsval :=
  VObj ([("id"%string, VStr (id e)); ("ledger"%string, VNum (ledger e));
         ("topic"%string, VArr (VStr <$> topic e)); ("value"%string, VObj (value e))] ++
        match txHash e with Some h => [("txHash"%string, VStr h)] | None => [] end).

Fixpoint after_cursor (c : string) (chain : list SorobanRpcEvent) : list SorobanRpcEvent :=
  match chain with
  | [] => []
  | e :: chain' => if decide (id e = c) then chain' else after_cursor c chain'
  end.

(** The [getEvents] method of the node: the events from [startLedger], or after
    the cursor, at most [limit] of them, with the latest ledger. *)
Definition serve (chain : list SorobanRpcEvent) (head : Z) (req : request) : rpc_body :=
  let from := match req_cursor req with
              | Some c => after_cursor c chain
              | None => List.filter (fun e => default 0 (req_startLedger req) <=? ledger e) chain
              end in
  mkBody false (encode <$> take (Z.to_nat (req_limit req)) from) (Some head) None.

Definition honest (chain : list SorobanRpcEvent) (head : Z) (net : nat -> request -> fetch_result) : Prop :=
  forall n req, net n req = Responded 200 (Some (serve chain head req)).

Lemma toStringArray_encode ts : toStringArray (VArr (VStr <$> ts)) = ts.
Proof. unfold toStringArray. induction ts as [|t ts IH]; [done|]. csimpl. by rewrite IH. Qed.

(** Reading back what the node sends gives the event. *)
Lemma normalize_encode f e : normalizeEvent f (encode e) = Some e.
Proof.
  destruct e as [eid l tp v tx].
  transitivity (Some (mkRpcEvent eid l (toStringArray (VArr (VStr <$> tp))) v tx)).
  - by destruct tx.
  - by rewrite toStringArray_encode.
Qed.

Lemma normalize_page f (page : list SorobanRpcEvent) :
  omap (fun p => normalizeEvent (f p.1) p.2) (imap pair (encode <$> page)) = page.
Proof.
  assert (H : forall k : nat -> nat, omap (fun p => normalizeEvent (f p.1) p.2)
    (imap (fun i x => (k i, x)) (encode <$> page)) = page); [|apply (H (fun i => i))].
  induction page as [|e page IH]; intros k; [done|].
  rewrite fmap_cons, imap_cons. cbn [omap list_omap fst snd].
  rewrite normalize_encode. f_equal. apply (IH (k ∘ S)).
Qed.

Lemma after_cursor_app done_ e rest :
  NoDup (id <$> done_ ++ e :: rest) -> after_cursor (id e) (done_ ++ e :: rest) = rest.
Proof.
  induction done_ as [|d done_ IH]; csimpl; intros Hnd.
  - by rewrite decide_True.
  - apply NoDup_cons in Hnd as [Hni Hnd]. rewrite decide_False; [by apply IH|].
    intros Heq. apply Hni. rewrite Heq, fmap_app. set_solver.
Qed.

(** A sorted chain splits at the first requested ledger. *)
Lemma filter_suffix (chain : list SorobanRpcEvent) from :
  StronglySorted (fun a b => ledger a <= ledger b) chain ->
  exists pre, chain = pre ++ List.filter (fun e => from <=? ledger e) chain.
Proof.
  induction 1 as [|e chain Hs [pre IH] Hall]; [by exists []|]. simpl.
  destruct (Z.leb_spec from (ledger e)).
  - exists []. simpl. f_equal. symmetry.
    clear -Hall H. induction chain as [|x chain IH]; [done|]. simpl.
    apply Forall_cons in Hall as [Hx Hall]. rewrite (proj2 (Z.leb_le from (ledger x))) by lia.
    by rewrite IH.
  - exists (e :: pre). simpl. by f_equal.
Qed.

Section complete.
Context (cfg : config) (net : nat -> request -> fetch_result)
        (random : nat -> number) (fallback_id : nat -> nat -> string).
Context (chain pre evs : list SorobanRpcEvent) (head from ps : Z).
Hypothesis Hnet : honest chain head net.
Hypothesis Hattempts : 0 < maxAttempts cfg.
Hypothesis Hchain : chain = pre ++ evs.
Hypothesis Hevs : evs = List.filter (fun e => from <=? ledger e) chain.
Hypothesis Hids : NoDup (id <$> chain).
Hypothesis Hnonempty : Forall (fun e => id e ≠ ""%string) chain.
Hypothesis Hsorted : StronglySorted (fun a b => ledger a <= ledger b) chain.
Hypothesis Hhead : Forall (fun e => ledger e <= head) chain.
Hypothesis Hps : 0 < ps.

Lemma withRetry_honest req s :
  exists s', withRetry cfg random (fetch_once net req) s = (inl (serve chain head req), s').
Proof.
  unfold withRetry. destruct (Z.to_nat (maxAttempts cfg)) eqn:Hm; [lia|]. cbn [retry_loop].
  unfold fetch_once. rewrite Hnet. by eexists.
Qed.

(** The loop variables after the events [done_] were fetched. *)
Definition fetched (done_ : list SorobanRpcEvent) (l : loop) : Prop :=
  accumulated l = done_ /\ activeCursor l = (id <$> last done_) /\ lastCursor l = (id <$> last done_).

Lemma serve_next done_ rest l :
  evs = done_ ++ rest -> fetched done_ l ->
  serve chain head (mkRequest (match nonempty (activeCursor l) with Some _ => None | None => Some from end)
                    (nonempty (activeCursor l)) ps) =
    mkBody false (encode <$> take (Z.to_nat ps) rest) (Some head) None.
Proof.
  intros Hsplit (_ & Hcur & _). rewrite Hcur. unfold serve.
  destruct done_ as [|e done_ _] using rev_ind.
  - change (mkBody false (encode <$> take (Z.to_nat ps)
      (List.filter (fun e => from <=? ledger e) chain)) (Some head) None =
      mkBody false (encode <$> take (Z.to_nat ps) rest) (Some head) None).
    by rewrite <-Hevs, Hsplit.
  - rewrite last_snoc. cbn [fmap option_fmap option_map].
    assert (Hne : id e ≠ ""%string).
    { rewrite Forall_forall in Hnonempty. apply Hnonempty.
      rewrite Hchain, Hsplit. set_solver. }
    assert (Hafter : after_cursor (id e) chain = rest).
    { assert (Hc : chain = (pre ++ done_) ++ e :: rest)
        by (by rewrite Hchain, Hsplit, <-!app_assoc).
      rewrite Hc. apply after_cursor_app. by rewrite <-Hc. }
    destruct (id e) as [|c w]; [done|]. cbn. by rewrite Hafter.
Qed.

(** What a call may leave unfetched: nothing, or the events after the cap, or
    events of the latest ledger. *)
Definition complete (got rest : list SorobanRpcEvent) : Prop :=
  rest = [] \/ MAX_EVENTS_PER_FETCH <= Z.of_nat (length got) \/ Forall (fun e => ledger e = head) rest.

Lemma caught_up_elem (page : list SorobanRpcEvent) :
  match ledger <$> page with [] => false | x :: xs => head <=? foldl Z.max x xs end = true ->
  exists e, e ∈ page /\ head <= ledger e.
Proof.
  destruct page as [|e page]; [done|]. csimpl. intros H%Z.leb_le. revert e H.
  induction page as [|x page IH]; csimpl; intros e H; [exists e; split; [by apply list_elem_of_singleton|done]|].
  destruct (Z.max_spec (ledger e) (ledger x)) as [[_ Hm]|[_ Hm]]; rewrite Hm in H;
    destruct (IH _ H) as (y & Hy & Hle); exists y; (split; [set_solver|done]).
Qed.

(** After a page that reaches the latest ledger only events of that ledger
    are left. *)
Lemma caught_up_rest got rest :
  evs = got ++ rest -> (exists e, e ∈ got /\ head <= ledger e) ->
  Forall (fun e => ledger e = head) rest.
Proof.
  intros Hsplit (e & He & Hle). apply Forall_forall. intros x Hx.
  assert (H1 : ledger x <= head).
  { rewrite Forall_forall in Hhead. apply Hhead. rewrite Hchain, Hsplit. set_solver. }
  assert (H2 : ledger e <= ledger x); [|lia].
  pose proof Hsorted as Hs. rewrite Hchain, Hsplit, app_assoc in Hs.
  apply (StronglySorted_app_1_elem_of _ _ _ e x) in Hs; [done|set_solver|done].
Qed.

(** The cursor of a page that is not empty is the id of its last event. *)
Lemma page_cursor done_ page rest :
  evs = done_ ++ page ++ rest -> page ≠ [] ->
  exists w, id <$> last page = Some w /\ nonempty (Some w) = Some w.
Proof.
  intros Hsplit Hp. destruct page as [|e page _] using rev_ind; [done|].
  rewrite last_snoc. exists (id e). split; [done|].
  assert (id e ≠ ""%string); [|by destruct (id e)].
  rewrite Forall_forall in Hnonempty. apply Hnonempty. rewrite Hchain, Hsplit. set_solver.
Qed.

(** One page of the served events is taken: the loop ends with everything it may
    leave, or goes on with at least one event more. *)
Lemma take_page_served done_ rest l n :
  evs = done_ ++ rest -> fetched done_ l ->
  exists page rest', rest = page ++ rest' /\
    let st := take_page fallback_id ps n (mkBody false (encode <$> take (Z.to_nat ps) rest) (Some head) None) l in
    ((exists l1, st = Break l1 /\ fetched (done_ ++ page) l1 /\ tip l1 = head /\ complete (done_ ++ page) rest') \/
     (exists l1, st = Continue l1 /\ fetched (done_ ++ page) l1 /\ (done_ ++ page ≠ [] -> tip l1 = head) /\
        (0 < length page)%nat)).
Proof.
  intros Hsplit (Hacc & Hcur & Hlast). cbv zeta.
  unfold take_page. cbn [body_events body_latestLedger body_cursor].
  change (default (tip l) (Some head)) with head.
  set (page := take (Z.to_nat ps) rest). exists page, (drop (Z.to_nat ps) rest).
  assert (Hpage : rest = page ++ drop (Z.to_nat ps) rest) by (symmetry; apply take_drop).
  split; [done|]. destruct page as [|e page'] eqn:Hp.
  { left. eexists. split; [done|]. rewrite app_nil_r. split; [done|]. split; [done|]. left.
    assert (rest = []) as ->; [|by rewrite drop_nil]. destruct rest; [done|].
    unfold page in Hp. destruct (Z.to_nat ps) eqn:?; [lia|done]. }
  rewrite fmap_cons. change (encode e :: (encode <$> page')) with (encode <$> e :: page').
  change (match encode <$> e :: page' with [] => ?a | _ :: _ => ?b end) with b.
  rewrite normalize_page, length_fmap.
  destruct (page_cursor done_ (e :: page') (drop (Z.to_nat ps) rest)) as (w & Hw & Hne); [by rewrite Hsplit, <-Hpage|done|].
  rewrite Hw, Hne. set (l1 := mkLoop _ _ _ _).
  assert (Hf1 : fetched (done_ ++ e :: page') l1).
  { split; [cbn; by rewrite Hacc|]. cbn. by rewrite last_app, <-Hw; destruct (last (e :: page')). }
  match goal with |- context [if ?b then Break l1 else _] => destruct b eqn:Hcu end.
  { left. exists l1. repeat split; try done; try apply Hf1. right. right.
    eapply (caught_up_rest (done_ ++ e :: page')); [by rewrite Hsplit, <-app_assoc; f_equal|].
    apply caught_up_elem in Hcu as (x & Hx & Hle). exists x. split; [set_solver|done]. }
  destruct (Z.ltb_spec (Z.of_nat (length (e :: page'))) ps) as [Hlt|Hge].
  - left. exists l1. repeat split; try done; try apply Hf1. left.
    apply drop_ge. rewrite <-Hp in Hlt. unfold page in Hlt. rewrite length_take in Hlt. lia.
  - right. exists l1. repeat split; try done; try apply Hf1. cbn. lia.
Qed.

Lemma pages_complete fuel done_ rest l s :
  evs = done_ ++ rest -> fetched done_ l -> (done_ ≠ [] -> tip l = head) ->
  MAX_EVENTS_PER_FETCH <= Z.of_nat (length done_ + fuel) ->
  exists l' s' got rest', pages cfg net random fallback_id fuel from ps l s = (Some l', s') /\
    evs = got ++ rest' /\ fetched got l' /\ tip l' = head /\ complete got rest'.
Proof.
  revert done_ rest l s. induction fuel as [|fuel IH]; intros done_ rest l s Hsplit Hf Htip Hfuel;
    cbn [pages]; pose proof Hf as (Hacc & Hcur & Hlast); rewrite Hacc;
    destruct (Z.ltb_spec (Z.of_nat (length done_)) MAX_EVENTS_PER_FETCH) as [Hlt|Hcap]; [lia| | |].
  1,3: exists l, s, done_, rest; repeat split; try done; [|by right; left];
    apply Htip; intros ->; by unfold MAX_EVENTS_PER_FETCH in Hcap; cbn in Hcap; lia.
  unfold page_step. destruct (withRetry_honest (mkRequest (match nonempty (activeCursor l) with Some _ => None | None => Some from end)
    (nonempty (activeCursor l)) ps) s) as [s' ->].
  rewrite (serve_next done_ rest l Hsplit Hf). cbn [body_error].
  destruct (take_page_served done_ rest l (fetches s') Hsplit Hf) as (page & rest' & Hpage & Hcase).
  destruct Hcase as [(l1 & Ht & Hf1 & Htip1 & Hc)|(l1 & Ht & Hf1 & Htip1 & Hlen)]; rewrite Ht.
  - exists l1, s', (done_ ++ page), rest'. split; [done|]. split; [by rewrite Hsplit, Hpage, app_assoc|].
    done.
  - apply (IH (done_ ++ page) rest'); [by rewrite Hsplit, Hpage, app_assoc|done|done|].
    rewrite length_app. lia.
Qed.
End complete.

(** C6: Against a node that serves a chain in ledger order with distinct ids,
    no event above its latest ledger, [getEvents] returns a prefix of the events
    from the requested ledger on: in order, none skipped or repeated between pages,
    with the node's latest ledger and the cursor of the last event returned.  An
    event is left out only beyond the cap of ten thousand events, or when it is
    of the node's latest ledger; below the latest ledger and the cap none is. *)
Theorem getEvents_complete (cfg : config) (net : nat -> request -> fetch_result)
    (random : nat -> number) (fallback_id : nat -> nat -> string)
    (chain : list SorobanRpcEvent) (head from : Z) (limit : option Z) (s : state) :
  honest chain head net -> rpcUrl cfg ≠ ""%string -> contractId cfg ≠ ""%string -> 0 < maxAttempts cfg ->
  StronglySorted (fun a b => ledger a <= ledger b) chain -> NoDup (id <$> chain) ->
  Forall (fun e => id e ≠ ""%string /\ ledger e <= head) chain -> 0 < default MAX_PAGE_SIZE limit ->
  exists got rest s',
    getEvents cfg net random fallback_id (Z.to_nat MAX_EVENTS_PER_FETCH) from limit None s =
      (Some (mkResponse got head (id <$> last got)), s') /\
    List.filter (fun e => from <=? ledger e) chain = got ++ rest /\
    (rest = [] \/ MAX_EVENTS_PER_FETCH <= Z.of_nat (length got) \/ Forall (fun e => ledger e = head) rest).
Proof.
  intros Hnet Hurl Hcid Hatt Hsort Hids Hall Hlim.
  destruct (filter_suffix chain from Hsort) as [pre Hpre].
  set (evs := List.filter (fun e => from <=? ledger e) chain) in *.
  apply Forall_and in Hall as [Hne Hhead].
  destruct (pages_complete cfg net random fallback_id chain pre evs head from
    (Z.min (default MAX_PAGE_SIZE limit) MAX_PAGE_SIZE) Hnet Hatt Hpre eq_refl Hids Hne Hsort Hhead
    ltac:(unfold MAX_PAGE_SIZE in *; lia) (Z.to_nat MAX_EVENTS_PER_FETCH) [] evs
    (mkLoop [] None from None) s) as (l & s' & got & rest & Hp & Hsplit & (Hacc & _ & Hlast) & Htip & Hc);
    [done|done|done|lia|].
  exists got, rest, s'. split; [|done]. unfold getEvents.
  rewrite !bool_decide_eq_false_2 by done. cbn [orb]. by rewrite Hp, Hacc, Htip, Hlast.
Qed.

(** A chain, a node that serves it and a configuration, for the witnesses. *)
Definition sample_event (i : string) (l : Z) : SorobanRpcEvent :=
  mkRpcEvent i l ["deposit"%string] [("owner"%string, VStr "G1"); ("amount"%string, VStr "5")] None.
Definition sample_cfg : config := mkConfig "http://rpc" "C1" 3 500.
Definition sample_net (chain : list SorobanRpcEvent) (head : Z) : nat -> request -> fetch_result :=
  fun _ req => Responded 200 (Some (serve chain head req)).

Lemma getEvents_terminates_witness :
  exists r s', getEvents sample_cfg (fun _ _ => Responded 200 (Some (mkBody false [encode (sample_event "a" 3)] None None)))
    (fun _ => num_of_Z 0) (fun _ _ => "x"%string) (Z.to_nat MAX_EVENTS_PER_FETCH) 1 (Some 1) None initial = (Some r, s').
Proof.
  apply (getEvents_terminates sample_cfg
    (fun _ _ => Responded 200 (Some (mkBody false [encode (sample_event "a" 3)] None None)))).
  intros n req st b [= _ <-]. repeat constructor. intros f. rewrite normalize_encode. by eexists.
Defined.

Lemma getEvents_complete_witness :
  let chain := [sample_event "a" 3; sample_event "b" 5; sample_event "c" 5; sample_event "d" 8; sample_event "e" 9] in
  exists got rest s', getEvents sample_cfg (sample_net chain 9) (fun _ => num_of_Z 0) (fun _ _ => "x"%string)
      (Z.to_nat MAX_EVENTS_PER_FETCH) 4 (Some 2) None initial =
    (Some (mkResponse got 9 (id <$> last got)), s') /\
    [sample_event "b" 5; sample_event "c" 5; sample_event "d" 8; sample_event "e" 9] = got ++ rest.
Proof.
  intros chain.
  destruct (getEvents_complete sample_cfg (sample_net chain 9) (fun _ => num_of_Z 0) (fun _ _ => "x"%string)
    chain 9 4 (Some 2) initial) as (got & rest & s' & H1 & H2 & _); try done.
  - repeat constructor; simpl; lia.
  - repeat constructor; set_solver.
  - repeat constructor; done.
  - exists got, rest, s'. split; [exact H1|exact H2].
Defined.

(** Paging stops inside the latest ledger: when a full page ends with an event
    of the node's latest ledger, the further events of that ledger are not fetched,
    although the response reports that ledger as reached.  With a page size of two
    and three events in the latest ledger the third is missing. *)
Theorem getEvents_truncates_tip :
  let chain := [sample_event "a" 9; sample_event "b" 9; sample_event "c" 9] in
  exists c s', getEvents sample_cfg (sample_net chain 9) (fun _ => num_of_Z 0) (fun _ _ => "x"%string)
      (Z.to_nat MAX_EVENTS_PER_FETCH) 4 (Some 2) None initial =
    (Some (mkResponse [sample_event "a" 9; sample_event "b" 9] 9 c), s').
Proof. eexists _, _. vm_compute. reflexivity. Qed.

Lemma getEvents_fails (cfg : config) (net : nat -> request -> fetch_result)
    (random : nat -> number) (fallback_id : nat -> nat -> string) (fuel : nat)
    (from : Z) (limit : option Z) (s : state) :
  (forall n req, match net n req with Rejected _ => True | Responded st _ => 299 < st end) ->
  exists s', getEvents cfg net random fallback_id (S fuel) from limit None s =
    (Some (mkResponse [] from None), s').
Proof.
  intros Hnet. unfold getEvents. case_match; [by eauto|]. cbn [pages accumulated length].
  unfold page_step, withRetry. set (req := mkRequest _ _ _).
  assert (Hr : forall left a last s, exists e s', retry_loop cfg random left a last (fetch_once net req) s = (inr e, s')).
  { induction left as [|left IH]; intros a last s0; cbn [retry_loop]; [by eauto|].
    assert (Hf : exists e s1, fetch_once net req s0 = (inr e, s1)).
    { unfold fetch_once. specialize (Hnet (fetches s0) req). destruct (net (fetches s0) req) as [st b|e]; [|by eauto].
      destruct (Z.leb_spec st 299); [lia|]. rewrite andb_false_r. by eauto. }
    destruct Hf as (e & s1 & ->). destruct (isTransientRpcError e); cbn [negb]; [|by eauto].
    destruct left; [by eauto|]. apply IH. }
  destruct (Hr (Z.to_nat (maxAttempts cfg)) 0 None s) as (e & s' & ->). by eexists.
Qed.

(** When every attempt fails, [getEvents] answers no events and the ledger it
    was asked to start from as the latest one, whatever the failure. *)
Theorem getEvents_failure (cfg : config) (net : nat -> request -> fetch_result)
    (random : nat -> number) (fallback_id : nat -> nat -> string) (fuel : nat)
    (from : Z) (limit : option Z) (s : state) :
  (forall n req, match net n req with Rejected _ => True | Responded st _ => 299 < st end) ->
  exists s', getEvents cfg net random fallback_id (S fuel) from limit None s =
    (Some (mkResponse [] from None), s').
Proof. apply getEvents_fails. Qed.

Lemma getEvents_failure_witness :
  exists s', getEvents sample_cfg (fun _ _ => Responded 503 None) (fun _ => num_of_Z 0) (fun _ _ => "x"%string)
      5 41 None None initial = (Some (mkResponse [] 41 None), s').
Proof.
  apply (getEvents_failure sample_cfg (fun _ _ => Responded 503 None) (fun _ => num_of_Z 0)
    (fun _ _ => "x"%string) 4 41 None initial). intros n req. lia.
Defined.
End SorobanEvents.
