(* ===== verification/Indexer.v ===== *)
(** * IndexerService: the event store and its processing pipeline

    Models [backend/src/indexer/indexer.service.ts]: polling the RPC node into the
    [contract_events] table, applying pending events, the yield-adapter handlers,
    checkpoints, backfill and metrics.

    The indexer is written against [EventSource], the interface of the service
    that fetches events; [SorobanSource] is the modelled [SorobanService]. *)
From Stdlib Require Import ZArith Lia SpecFloat.
From stdpp Require Import base list strings sorting sets.
From S2P Require Import Prelude Storage JsValue Balance SorobanEvents Projection.
Local Open Scope Z_scope.

(** [sorobanService.getEvents(fromLedger)]. *)
Class EventSource := {
  source_state : Type;
  fetch_events : Z -> source_state -> SorobanEvents.SorobanEventsResponse * source_state;
}.

(** The service of [SorobanEvents]: [getEvents_terminates] shows that the bound on
    the loop is never reached when the node's events are well formed. *)
Definition SorobanSource (cfg : SorobanEvents.config)
    (net : nat -> SorobanEvents.request -> SorobanEvents.fetch_result)
    (random : nat -> number) (fallback_id : nat -> nat -> string) : EventSource := {|
  source_state := SorobanEvents.state;
  fetch_events from s :=
    match SorobanEvents.getEvents cfg net random fallback_id
            (Z.to_nat SorobanEvents.MAX_EVENTS_PER_FETCH) from None None s with
    | (Some r, s') => (r, s')
    | (None, s') => (SorobanEvents.mkResponse [] from None, s')
    end;
|}.

Module Indexer.

Inductive ContractEventStatus := PENDING | PROCESSED | FAILED | DLQ.
#[export] Instance ContractEventStatus_eq_dec : EqDecision ContractEventStatus.
Proof. solve_decision. Defined.

(** The [contract_events] entity; its [error_message] and [processed_at] columns are
    never written. *)
Record ContractEvent := mkEvent {
  id : nat;
  ledger : Z;
  log_index : Z;
  event_type : string;
  data : record;
  tx_hash : option string;
  status : ContractEventStatus;
  retry_count : Z;
}.

(** A stored event with its [created_at], for the components that list events. *)
Record EventRow := mkEventRow { ev : ContractEvent; ev_created_at : Z }.

Inductive PendingWithdrawalStatus := WPending | WClaimed | WCancelled.
#[export] Instance PendingWithdrawalStatus_eq_dec : EqDecision PendingWithdrawalStatus.
Proof. solve_decision. Defined.

Record PendingWithdrawal := mkWithdrawal {
  request_id : string;
  owner : string;
  shares : string;
  claimable_at : Z;
  w_status : PendingWithdrawalStatus;
  cancelled_at : option Z;
}.

Record HarvestHistory := mkHarvest {
  delta : string;
  fee : string;
  harvested_at : Z;
  h_ledger : Z;
  h_tx_hash : option string;
}.

(** The counters of the metrics endpoint. *)
Record Metrics := mkMetrics {
  eventsProcessed : Z;
  depositsProcessed : Z;
  withdrawalsProcessed : Z;
  lastProcessedAt : Z;
  eventTimestamps : list Z;
  startTime : Z;
}.

Record IndexerMetricsDto := mkMetricsDto {
  m_eventsProcessed : Z;
  m_depositsProcessed : Z;
  m_withdrawalsProcessed : Z;
  m_eventsPerMinute : Z;
  m_lastProcessedAt : Z;
  m_uptimeSeconds : Z;
}.

Record BackfillResponse := mkBackfill {
  b_fromLedger : Z;
  b_toLedger : Z;
  b_totalFetched : Z;
  b_newlyProcessed : Z;
  b_alreadyIndexed : Z;
  b_errors : Z;
}.

Definition CHECKPOINT_LEDGER_KEY : string := "indexer:last_processed_ledger".
Definition CHECKPOINT_LEDGER_KEY_LATEST : string := "indexer:latest_contract_ledger".
Definition MAX_RETRIES : Z := 5.
Definition BATCH_SIZE : nat := 100.
Definition BACKFILL_MAX_PAGES : nat := 1000.
Definition WITHDRAW_CLAIMED_TOPIC : string := "withdraw_claimed".

(** [stringifyStroops(value, fallback?)]. *)
Definition stringifyStroops {St} (v : jsval) (fallback : option string) : M St string :=
  match v with
  | VUndef | VNull =>
      match fallback with
      | Some f => ret f
      | None => throw (JsError "stringifyStroops: value is missing and no fallback was given")
      end
  | VStr _ | VNum _ | VBigInt _ => ret (js_String v)
  | VBool _ => throw (JsError "stringifyStroops: unexpected type boolean for a stroop-amount field")
  | VArr _ | VObj _ => throw (JsError "stringifyStroops: unexpected type object for a stroop-amount field")
  end.

Definition extractWithdrawalId (d : record) : option string :=
  match d.["withdrawal_id"] ?? d.["withdrawalId"] ?? d.["id"] ?? d.["request_id"] ?? d.["requestId"] with
  | VUndef | VNull => None
  | v => Some (js_String v)
  end.

Section service.
Context {B : Backend} {Src : EventSource}.
(** The ids the database generates for rows of other components. *)
Context (gen_uuid : nat -> string).

Record state := mkState {
  isRunning : bool;
  events : table nat ContractEvent;
  checkpoints : table string Z;
  withdrawals : table string PendingWithdrawal;
  harvests : table nat HarvestHistory;
  pendingWithdrawals : list (string * record);
  metrics : Metrics;
  proj : Projection.state;
  source : source_state;
}.

Definition set_events f s := mkState (isRunning s) (f (events s)) (checkpoints s) (withdrawals s)
  (harvests s) (pendingWithdrawals s) (metrics s) (proj s) (source s).
Definition set_checkpoints f s := mkState (isRunning s) (events s) (f (checkpoints s)) (withdrawals s)
  (harvests s) (pendingWithdrawals s) (metrics s) (proj s) (source s).
Definition set_withdrawals f s := mkState (isRunning s) (events s) (checkpoints s) (f (withdrawals s))
  (harvests s) (pendingWithdrawals s) (metrics s) (proj s) (source s).
Definition set_harvests f s := mkState (isRunning s) (events s) (checkpoints s) (withdrawals s)
  (f (harvests s)) (pendingWithdrawals s) (metrics s) (proj s) (source s).
Definition set_pendingWithdrawals f s := mkState (isRunning s) (events s) (checkpoints s) (withdrawals s)
  (harvests s) (f (pendingWithdrawals s)) (metrics s) (proj s) (source s).
Definition set_metrics f s := mkState (isRunning s) (events s) (checkpoints s) (withdrawals s)
  (harvests s) (pendingWithdrawals s) (f (metrics s)) (proj s) (source s).
Definition set_running b s := mkState b (events s) (checkpoints s) (withdrawals s)
  (harvests s) (pendingWithdrawals s) (metrics s) (proj s) (source s).

Definition on_proj {A} (m : M Projection.state A) : M state A :=
  zoom proj (fun p s => mkState (isRunning s) (events s) (checkpoints s) (withdrawals s)
               (harvests s) (pendingWithdrawals s) (metrics s) p (source s)) m.

Definition fetch (from : Z) : M state SorobanEvents.SorobanEventsResponse :=
  fun s => let '(r, src) := fetch_events from (source s) in
           (Ret r, mkState (isRunning s) (events s) (checkpoints s) (withdrawals s)
                     (harvests s) (pendingWithdrawals s) (metrics s) (proj s) src).

(** *** Checkpoints *)

Definition getCheckpoint (key : string) : M state Z :=
  await record := gets (fun s => find_one key (checkpoints s)) in
  ret (default 0 record).

Definition setCheckpoint (key : string) (v : Z) : M state unit :=
  modify (set_checkpoints (save key v)).

(** *** Persisting fetched events *)

(** Whether a row has this ledger and index. *)
Definition indexed (l i : Z) (t : table nat ContractEvent) : bool :=
  existsb (fun e => (ledger e =? l) && (log_index e =? i)) ((rows t).*2).

Definition event_type_of (e : SorobanEvents.SorobanRpcEvent) : string :=
  match SorobanEvents.topic e with t :: _ => t | [] => "unknown" end.

(** [create] and [save] of the row of a fetched event. *)
Definition insert_event (e : SorobanEvents.SorobanRpcEvent) (logIndex : Z) : M state unit :=
  modify (set_events (fun t =>
    let n := fresh_id t in
    save n (mkEvent n (SorobanEvents.ledger e) logIndex (event_type_of e)
              (SorobanEvents.value e) (SorobanEvents.txHash e) PENDING 0) t)).

(** The loop over the response: the rows inserted and the highest ledger. *)
Fixpoint persist_all (index : Z) (evs : list SorobanEvents.SorobanRpcEvent)
    (persistedCount maxEventLedger : Z) : M state (Z * Z) :=
  match evs with
  | [] => ret (persistedCount, maxEventLedger)
  | e :: evs' =>
      await existing := gets (fun s => indexed (SorobanEvents.ledger e) index (events s)) in
      do (if existing : bool then ret tt else insert_event e index) ;>
      persist_all (index + 1) evs' (if existing : bool then persistedCount else persistedCount + 1)
        (Z.max maxEventLedger (SorobanEvents.ledger e))
  end.

Definition fetchAndPersistEvents : M state Z :=
  await lastProcessed := getCheckpoint CHECKPOINT_LEDGER_KEY in
  let startLedger := if 0 <? lastProcessed then lastProcessed + 1 else 1 in
  await r := fetch startLedger in
  let latestLedger := SorobanEvents.latestLedger r in
  do (if 0 <? latestLedger then setCheckpoint CHECKPOINT_LEDGER_KEY_LATEST latestLedger else ret tt) ;>
  await counts := persist_all 0 (SorobanEvents.events r) 0 lastProcessed in
  let newCheckpoint := match SorobanEvents.events r with
                       | _ :: _ => Z.max counts.2 latestLedger
                       | [] => Z.max lastProcessed latestLedger
                       end in
  do (if lastProcessed <? newCheckpoint then setCheckpoint CHECKPOINT_LEDGER_KEY newCheckpoint
      else ret tt) ;>
  ret counts.1.

(** *** The yield-adapter handlers *)

Definition request_id_of (d : record) : string := js_String (d.["id"] ?? d.["request_id"]).

Definition applyWithdrawRequested (e : ContractEvent) : M state unit :=
  let requestId := request_id_of (data e) in
  await existing := gets (fun s => find_one requestId (withdrawals s)) in
  match existing with
  | Some _ => ret tt
  | None =>
      await claimable := timestamptz (toDate (data e).["claimable_at"]) in
      modify (set_withdrawals (save requestId
        (mkWithdrawal requestId (js_String (data e).["owner"]) (js_String (data e).["shares"])
           claimable WPending None)))
  end.

Definition recordWithdrawal (m : Metrics) : Metrics :=
  mkMetrics (eventsProcessed m) (depositsProcessed m) (withdrawalsProcessed m + 1)
    (lastProcessedAt m) (eventTimestamps m) (startTime m).

(** [this.pendingWithdrawals] is the in-memory map. *)
Definition decodeWithdrawClaimed (d : record) : M state unit :=
  match extractWithdrawalId d with
  | None => ret tt
  | Some wid =>
      await resolved := gets (fun s => bool_decide (is_Some (Mem.find (pendingWithdrawals s) wid))) in
      do modify (set_pendingWithdrawals (Mem.drop_key wid)) ;>
      if resolved : bool then modify (set_metrics recordWithdrawal) else ret tt
  end.

Definition registerPendingWithdrawal (wid : string) (r : record) : M state unit :=
  modify (set_pendingWithdrawals (Mem.upsert wid r)).

Definition isWithdrawalPending (wid : string) : M state bool :=
  gets (fun s => bool_decide (is_Some (Mem.find (pendingWithdrawals s) wid))).

Definition applyWithdrawCancelled (e : ContractEvent) (now : Z) : M state unit :=
  let requestId := request_id_of (data e) in
  modify (set_withdrawals (update_where (fun k _ => bool_decide (k = requestId))
    (fun w => mkWithdrawal (request_id w) (owner w) (shares w) (claimable_at w) WCancelled (Some now)))).

Definition applyHarvested (e : ContractEvent) : M state unit :=
  await d := stringifyStroops (data e).["delta"] None in
  await f := stringifyStroops (data e).["fee"] (Some "0"%string) in
  await harvested := timestamptz (toDate (data e).["timestamp"]) in
  modify (set_harvests (fun t => save (fresh_id t)
    (mkHarvest d f harvested (ledger e) (tx_hash e)) t)).

Definition decodeAndApply (e : ContractEvent) (now : Z) : M state unit :=
  if decide (event_type e = WITHDRAW_CLAIMED_TOPIC) then decodeWithdrawClaimed (data e)
  else if decide (event_type e = "withdraw_requested"%string) then applyWithdrawRequested e
  else if decide (event_type e = "withdraw_cancelled"%string) then applyWithdrawCancelled e now
  else if decide (event_type e = "harvested"%string) then applyHarvested e
  else on_proj (Projection.apply (event_type e) (data e) (gen_uuid (id e)) now).

(** *** Processing pending events *)

Definition recordProcessed (eventType : string) (now : Z) (m : Metrics) : Metrics :=
  mkMetrics (eventsProcessed m + 1)
    (if decide (eventType = "deposit"%string) then depositsProcessed m + 1 else depositsProcessed m)
    (if decide (eventType = "withdraw"%string) then withdrawalsProcessed m + 1 else withdrawalsProcessed m)
    now (eventTimestamps m ++ [now]) (startTime m).

Definition with_status (e : ContractEvent) (st : ContractEventStatus) (retries : Z) : ContractEvent :=
  mkEvent (id e) (ledger e) (log_index e) (event_type e) (data e) (tx_hash e) st retries.

Definition save_event (e : ContractEvent) : M state unit :=
  modify (set_events (save (id e) e)).

Definition applyEvent (e : ContractEvent) (now : Z) : M state unit :=
  catch
    (do decodeAndApply e now ;>
     do save_event (with_status e PROCESSED (retry_count e)) ;>
     modify (set_metrics (recordProcessed (event_type e) now)))
    (fun _ =>
       let retries := retry_count e + 1 in
       save_event (with_status e (if MAX_RETRIES <=? retries then DLQ else FAILED) retries)).

(** [find({ where: { status: PENDING }, order: { ledger: 'ASC' }, take })]. *)
Definition pending_batch (s : state) : list ContractEvent :=
  take BATCH_SIZE (order_by ledger
    (List.filter (fun e => bool_decide (status e = PENDING)) ((rows (events s)).*2))).

Definition processPendingBatch (now : Z) : M state unit :=
  await pending := gets pending_batch in
  for_each (fun e => applyEvent e now) pending.

(** [configured] is whether [SOROBAN_CONTRACT_ID] is set; [finally] resets the
    flag. *)
Definition pollContractEvents (configured : bool) (now : Z) : M state unit :=
  if negb configured then ret tt
  else
    await running := gets isRunning in
    if running : bool then ret tt
    else
      do modify (set_running true) ;>
      do catch (await _n := fetchAndPersistEvents in processPendingBatch now) (fun _ => ret tt) ;>
      modify (set_running false).

Definition triggerManualSync (configured : bool) (now : Z) : M state unit :=
  pollContractEvents configured now.

Definition reindex (fromLedger : Z) : M state unit :=
  setCheckpoint CHECKPOINT_LEDGER_KEY fromLedger.

(** *** Backfill *)

(** The loop over the events of one page that lie in the range. *)
Fixpoint backfill_page (index : Z) (evs : list SorobanEvents.SorobanRpcEvent)
    (newly already : Z) : M state (Z * Z) :=
  match evs with
  | [] => ret (newly, already)
  | e :: evs' =>
      await existing := gets (fun s => indexed (SorobanEvents.ledger e) index (events s)) in
      if existing : bool then backfill_page (index + 1) evs' newly (already + 1)
      else
        do insert_event e index ;>
        backfill_page (index + 1) evs' (newly + 1) already
  end.

Fixpoint backfill_loop (pages_left : nat) (fromLedger toLedger cursor : Z) (acc : BackfillResponse)
  : M state BackfillResponse :=
  match pages_left with
  | O => ret acc
  | S pages_left' =>
      if cursor <=? toLedger then
        await r := fetch cursor in
        match SorobanEvents.events r with
        | [] => ret acc
        | evs =>
            let inRange := List.filter (fun e => (fromLedger <=? SorobanEvents.ledger e) &&
                                                 (SorobanEvents.ledger e <=? toLedger)) evs in
            await counts := backfill_page 0 inRange (b_newlyProcessed acc) (b_alreadyIndexed acc) in
            let acc' := mkBackfill (b_fromLedger acc) (b_toLedger acc)
                          (b_totalFetched acc + Z.of_nat (length inRange)) counts.1 counts.2
                          (b_errors acc) in
            let cursor' := match SorobanEvents.ledger <$> inRange with
                           | [] => toLedger + 1
                           | x :: xs => foldl Z.max x xs + 1
                           end in
            backfill_loop pages_left' fromLedger toLedger cursor' acc'
        end
      else ret acc
  end.

Definition backfillEvents (fromLedger toLedger : Z) : M state BackfillResponse :=
  backfill_loop BACKFILL_MAX_PAGES fromLedger toLedger fromLedger
    (mkBackfill fromLedger toLedger 0 0 0 0).

(** *** Reads *)

Definition getEvents (st : option ContractEventStatus) (limit : nat) : M state (list ContractEvent) :=
  gets (fun s => take limit (order_by (fun e => - ledger e)
    (List.filter (fun e => match st with Some x => bool_decide (status e = x) | None => true end)
       ((rows (events s)).*2)))).

Definition getMetrics (now : Z) : M state IndexerMetricsDto :=
  do modify (set_metrics (fun m => mkMetrics (eventsProcessed m) (depositsProcessed m)
       (withdrawalsProcessed m) (lastProcessedAt m)
       (List.filter (fun t => now - t <? 60000) (eventTimestamps m)) (startTime m))) ;>
  gets (fun s => let m := metrics s in
    mkMetricsDto (eventsProcessed m) (depositsProcessed m) (withdrawalsProcessed m)
      (Z.of_nat (length (eventTimestamps m))) (lastProcessedAt m) ((now - startTime m) / 1000)).
End service.

Section proofs.
Context {B : Backend} {Src : EventSource} (gen_uuid : nat -> string).

(** ** What a call leaves alone *)

Lemma decodeWithdrawClaimed_frame {T} (part : state -> T) (J : T -> Prop) d :
  (forall f s, part (set_pendingWithdrawals f s) = part s) ->
  (forall f s, part (set_metrics f s) = part s) ->
  preserves (fun s => J (part s)) (decodeWithdrawClaimed d).
Proof.
  intros H1 H2. unfold decodeWithdrawClaimed. preserve; intros st Hst; cbn [modify snd];
    by rewrite ?H1, ?H2.
Qed.

Lemma decodeAndApply_events e now s : events (decodeAndApply gen_uuid e now s).2 = events s.
Proof.
  set (t := events s).
  assert (H : preserves (fun s => events s = t) (decodeAndApply gen_uuid e now)); [|by apply H].
  unfold decodeAndApply. repeat (case_decide; [|]).
  - by apply (decodeWithdrawClaimed_frame events (fun x => x = t)).
  - unfold applyWithdrawRequested. preserve. by intros ? <-.
  - by intros ? <-.
  - unfold applyHarvested, stringifyStroops. preserve. by intros ? <-.
  - intros x <-. unfold on_proj. by rewrite zoom_snd.
Qed.

(** The event a row delivers to the savings projections; the yield-adapter topics
    are handled by the indexer itself. *)
Definition projected (now : Z) (e : ContractEvent) : option Projection.event :=
  if decide (event_type e ∈ ["withdraw_claimed"; "withdraw_requested"; "withdraw_cancelled"; "harvested"]%string)
  then None else Some (Projection.mkEvent (event_type e) (data e) (gen_uuid (id e)) now).

Lemma decodeAndApply_proj e now s :
  proj (decodeAndApply gen_uuid e now s).2 =
    match projected now e with
    | Some ev => Projection.deliver (proj s) ev
    | None => proj s
    end.
Proof.
  unfold projected. set (p := proj s).
  assert (H : event_type e ∈ ["withdraw_claimed"; "withdraw_requested"; "withdraw_cancelled"; "harvested"]%string ->
    preserves (fun s => proj s = p) (decodeAndApply gen_uuid e now)).
  { intros Hin. unfold decodeAndApply. repeat (case_decide; [|]).
    - by apply (decodeWithdrawClaimed_frame proj (fun x => x = p)).
    - unfold applyWithdrawRequested. preserve. by intros ? <-.
    - by intros ? <-.
    - unfold applyHarvested, stringifyStroops. preserve. by intros ? <-.
    - unfold WITHDRAW_CLAIMED_TOPIC in *. set_solver. }
  case_decide as Hin; [by apply H|].
  rewrite !elem_of_cons in Hin. unfold decodeAndApply, WITHDRAW_CLAIMED_TOPIC.
  rewrite !decide_False by tauto. unfold on_proj. by rewrite zoom_snd.
Qed.

(** How the row of an event ends after it was tried. *)
Definition settled (e : ContractEvent) (ok : bool) : ContractEvent :=
  if ok then with_status e PROCESSED (retry_count e)
  else with_status e (if MAX_RETRIES <=? retry_count e + 1 then DLQ else FAILED) (retry_count e + 1).

Lemma applyEvent_spec e now s :
  let r := decodeAndApply gen_uuid e now s in
  (applyEvent gen_uuid e now s).1 = Ret tt /\
  events (applyEvent gen_uuid e now s).2 = save (id e) (settled e (is_ret r.1)) (events s) /\
  proj (applyEvent gen_uuid e now s).2 = proj r.2.
Proof.
  intros r. pose proof (decodeAndApply_events e now s) as He.
  unfold applyEvent, catch, bind. fold r in He |- *. clearbody r.
  destruct r as [[[]|ex] s']; cbn in *; by rewrite He.
Qed.

Lemma processPendingBatch_run now s :
  processPendingBatch gen_uuid now s =
    (Ret tt, foldl (fun s e => (applyEvent gen_uuid e now s).2) s (pending_batch s)).
Proof.
  unfold processPendingBatch, bind, gets. apply for_each_run.
  intros e s'. apply applyEvent_spec.
Qed.

Lemma batch_proj now batch s :
  proj (foldl (fun s e => (applyEvent gen_uuid e now s).2) s batch) =
    Projection.deliver_all (omap (projected now) batch) (proj s).
Proof.
  revert s. induction batch as [|e batch IH]; intros s; [done|]. cbn [foldl].
  rewrite IH. destruct (applyEvent_spec e now s) as (_ & _ & ->). rewrite decodeAndApply_proj.
  cbn [omap list_omap]. by destruct (projected now e).
Qed.

Lemma elem_of_pending_batch e s :
  e ∈ pending_batch s -> status e = PENDING /\ exists n, find_one n (events s) = Some e.
Proof.
  unfold pending_batch. intros Hin. apply elem_of_take in Hin as (i & Hi & _).
  apply list_elem_of_lookup_2 in Hi. rewrite order_by_perm, elem_of_List_filter in Hi.
  destruct Hi as [Hin Hst]. apply bool_decide_eq_true in Hst. split; [done|].
  apply list_elem_of_fmap in Hin as ([n e'] & -> & Hin). exists n. by apply elem_of_rows.
Qed.

End proofs.

(** ** The event table *)

Section table.
Context {B : Backend} {Src : EventSource}.

Definition wf_row (n : nat) (e : ContractEvent) : Prop :=
  id e = n /\ match status e with
              | PENDING | PROCESSED => retry_count e = 0
              | FAILED => retry_count e = 1
              | DLQ => False
              end.

Definition wf_events (t : table nat ContractEvent) : Prop :=
  forall n e, find_one n t = Some e -> wf_row n e.

(** Rows are only added, as pending ones. *)
Definition extends (t t' : table nat ContractEvent) : Prop :=
  (forall n e, find_one n t = Some e -> find_one n t' = Some e) /\
  (forall n e, find_one n t' = Some e -> find_one n t = Some e \/
     (wf_row n e /\ status e = PENDING /\ find_one n t = None)).

Lemma extends_refl t : extends t t.
Proof. split; auto. Qed.

Lemma extends_trans t1 t2 t3 : extends t1 t2 -> extends t2 t3 -> extends t1 t3.
Proof.
  intros [H1 H1'] [H2 H2']. split; [auto|]. intros n e [Hn|(Hw & Hp & Hn)]%H2'; [by apply H1'|].
  right. repeat split; try apply Hw; try done. destruct (find_one n t1) as [e'|] eqn:He; [|done].
  apply H1 in He. congruence.
Qed.

Lemma extends_wf t t' : extends t t' -> wf_events t -> wf_events t'.
Proof. intros [_ H] Hwf n e [He|(Hw & _)]%H; [by apply Hwf|done]. Qed.

Lemma insert_event_extends e i s : extends (events s) (events (insert_event e i s).2).
Proof.
  cbn. set (n := fresh_id (events s)). split; intros m x; rewrite find_one_save.
  - intros Hm. rewrite decide_False; [done|]. intros <-. unfold n in Hm. by rewrite fresh_id_None in Hm.
  - case_decide as Hn; [subst m|by left]. intros [= <-]. right. repeat split. apply fresh_id_None.
Qed.

Lemma indexed_iff l i t :
  indexed l i t = true <-> exists n e, find_one n t = Some e /\ ledger e = l /\ log_index e = i.
Proof.
  unfold indexed. rewrite existsb_exists. split.
  - intros (e & Hin & Hc). apply list_elem_of_In, list_elem_of_fmap in Hin as ([n e'] & -> & Hin).
    apply andb_true_iff in Hc as [?%Z.eqb_eq ?%Z.eqb_eq]. exists n, e'. split; [|done]. by apply elem_of_rows.
  - intros (n & e & Hn & <- & <-). exists e. rewrite !Z.eqb_refl. split; [|done].
    apply list_elem_of_In, list_elem_of_fmap. exists (n, e). split; [done|]. by apply elem_of_rows.
Qed.

Lemma indexed_extends l i t t' : extends t t' -> indexed l i t = true -> indexed l i t' = true.
Proof. intros [H _]. rewrite !indexed_iff. naive_solver. Qed.

Lemma indexed_insert e i s : indexed (SorobanEvents.ledger e) i (events (insert_event e i s).2) = true.
Proof. apply indexed_iff. eexists _, _. cbn. rewrite find_one_save_eq. done. Qed.

(** ** Fetching *)

(** The state without the event table. *)
Definition others (s : state) :=
  (isRunning s, checkpoints s, withdrawals s, harvests s, pendingWithdrawals s, metrics s, proj s, source s).

Lemma persist_all_spec evs index cnt mx s :
  exists cnt' s', persist_all index evs cnt mx s =
      (Ret (cnt', foldl Z.max mx (SorobanEvents.ledger <$> evs)), s') /\
    others s' = others s /\ extends (events s) (events s') /\ (evs = [] -> s' = s) /\
    (forall i e, evs !! i = Some e ->
       indexed (SorobanEvents.ledger e) (index + Z.of_nat i) (events s') = true).
Proof.
  revert index cnt mx s. induction evs as [|e evs IH]; intros index cnt mx s.
  { eexists _, _. split; [done|]. split; [done|]. split; [apply extends_refl|done]. }
  cbn [persist_all fmap list_fmap foldl]. unfold bind at 1, gets.
  set (s1 := if indexed (SorobanEvents.ledger e) index (events s) then s else (insert_event e index s).2).
  assert (Hs1 : others s1 = others s /\ extends (events s) (events s1) /\
                indexed (SorobanEvents.ledger e) index (events s1) = true).
  { unfold s1. destruct (indexed _ _ _) eqn:Hi; [split; [done|split; [apply extends_refl|done]]|].
    split; [done|]. split; [apply insert_event_extends|apply indexed_insert]. }
  destruct Hs1 as (Ho1 & Hx1 & Hi1). unfold bind.
  assert (Hstep : (if indexed (SorobanEvents.ledger e) index (events s) then ret tt else insert_event e index) s
    = (Ret tt, s1)) by (unfold s1; by destruct (indexed _ _ _)).
  rewrite Hstep. set (c1 := if indexed _ _ _ then cnt else cnt + 1).
  destruct (IH (index + 1) c1 (Z.max mx (SorobanEvents.ledger e)) s1)
    as (cnt' & s' & -> & Ho & Hx & _ & Hidx).
  exists cnt', s'. split; [done|]. split; [congruence|]. split; [by eapply extends_trans|].
  split; [done|].
  intros [|i] x Hx'; simplify_eq/=.
  - rewrite Z.add_0_r. by eapply indexed_extends.
  - replace (index + Z.of_nat (S i)) with (index + 1 + Z.of_nat i) by lia. by apply Hidx.
Qed.

Definition checkpoint (s : state) : Z := default 0 (find_one CHECKPOINT_LEDGER_KEY (checkpoints s)).

Definition start_ledger (s : state) : Z := if 0 <? checkpoint s then checkpoint s + 1 else 1.

(** The response the next poll receives. *)
Definition response (s : state) : SorobanEvents.SorobanEventsResponse :=
  (fetch_events (start_ledger s) (source s)).1.

Lemma foldl_max_ge l x : x <= foldl Z.max x l.
Proof. revert x. induction l as [|y l IH]; intros x; simpl; [lia|]. specialize (IH (Z.max x y)). lia. Qed.

(** Only the event table, the checkpoints and the source change, and the
    checkpoint is the maximum of what was seen. *)
Lemma fetchAndPersistEvents_spec s :
  exists cnt s', fetchAndPersistEvents s = (Ret cnt, s') /\
    extends (events s) (events s') /\
    (SorobanEvents.events (response s) = [] -> events s' = events s) /\
    (forall i e, SorobanEvents.events (response s) !! i = Some e ->
       indexed (SorobanEvents.ledger e) (Z.of_nat i) (events s') = true) /\
    checkpoint s' = Z.max (foldl Z.max (checkpoint s) (SorobanEvents.ledger <$> SorobanEvents.events (response s)))
                          (SorobanEvents.latestLedger (response s)) /\
    (isRunning s', withdrawals s', harvests s', pendingWithdrawals s', metrics s', proj s') =
    (isRunning s, withdrawals s, harvests s, pendingWithdrawals s, metrics s, proj s) /\
    source s' = (fetch_events (start_ledger s) (source s)).2.
Proof.
  unfold fetchAndPersistEvents, getCheckpoint, bind at 1, gets, bind at 1, ret at 1.
  fold (checkpoint s). fold (start_ledger s). unfold bind at 1, fetch. unfold response.
  destruct (fetch_events (start_ledger s) (source s)) as [r src] eqn:Hfetch. cbn [fst snd].
  set (latest := SorobanEvents.latestLedger r).
  set (s1 := mkState (isRunning s) (events s) (checkpoints s) _ _ _ _ _ src).
  set (s2 := if 0 <? latest then set_checkpoints (save CHECKPOINT_LEDGER_KEY_LATEST latest) s1 else s1).
  assert (Hs2 : (if 0 <? latest then setCheckpoint CHECKPOINT_LEDGER_KEY_LATEST latest else ret tt) s1 = (Ret tt, s2)).
  { unfold s2. by destruct (0 <? latest). }
  assert (Hc2 : checkpoint s2 = checkpoint s /\ events s2 = events s /\ source s2 = src).
  { unfold s2. destruct (0 <? latest); [|done]. unfold checkpoint. cbn.
    by rewrite find_one_save_ne by done. }
  destruct Hc2 as (Hc2 & He2 & Hsrc2).
  unfold bind at 1. rewrite Hs2. unfold bind at 1.
  destruct (persist_all_spec (SorobanEvents.events r) 0 0 (checkpoint s) s2)
    as (cnt & s3 & -> & Ho & Hx & Hnil & Hidx). cbn [fst snd]. rewrite He2 in Hx.
  assert (Hnil' : SorobanEvents.events r = [] -> events s3 = events s) by (intros He; rewrite Hnil; done).
  set (mx := foldl Z.max (checkpoint s) _).
  assert (Hnew : match SorobanEvents.events r with _ :: _ => Z.max mx latest | [] => Z.max (checkpoint s) latest end
                 = Z.max mx latest).
  { unfold mx. by destruct (SorobanEvents.events r). }
  rewrite Hnew. assert (Hmx : checkpoint s <= mx) by apply foldl_max_ge.
  injection Ho as Hr3 Hk3 Hw3 Hh3 Hp3 Hm3 Hj3 Hsr3.
  assert (Hck3 : checkpoint s3 = checkpoint s) by (unfold checkpoint in *; by rewrite Hk3).
  unfold bind. destruct (Z.ltb_spec (checkpoint s) (Z.max mx latest)); eexists cnt, _;
    (split; [reflexivity|]); cbn [snd modify setCheckpoint set_checkpoints events source];
    (split; [done|]); (split; [done|]); (split; [by intros i e He; apply Hidx in He|]); split.
  - unfold checkpoint. cbn. by rewrite find_one_save_eq.
  - cbn. split; [|congruence]. rewrite Hr3, Hw3, Hh3, Hp3, Hm3, Hj3. unfold s2. by destruct (0 <? latest).
  - rewrite Hck3. lia.
  - split; [|congruence]. rewrite Hr3, Hw3, Hh3, Hp3, Hm3, Hj3. unfold s2. by destruct (0 <? latest).
Qed.

(** *** Storing events of new ledgers *)







End table.

(** ** Processing *)

Section processing.
Context {B : Backend} {Src : EventSource} (gen_uuid : nat -> string).

Lemma batch_untouched now batch s n :
  n ∉ id <$> batch ->
  find_one n (events (foldl (fun s e => (applyEvent gen_uuid e now s).2) s batch)) = find_one n (events s).
Proof.
  revert s. induction batch as [|e batch IH]; intros s Hn; [done|]. csimpl in Hn.
  apply not_elem_of_cons in Hn as [Hne Hn]. cbn [foldl]. rewrite IH by done.
  destruct (applyEvent_spec gen_uuid e now s) as (_ & -> & _). by apply find_one_save_ne.
Qed.

Lemma batch_wf now batch s :
  Forall (fun e => wf_row (id e) e /\ status e = PENDING) batch -> wf_events (events s) ->
  wf_events (events (foldl (fun s e => (applyEvent gen_uuid e now s).2) s batch)).
Proof.
  intros Hb. revert s. induction Hb as [|e batch [Hw Hp] _ IH]; intros s Hs; [done|]. cbn [foldl].
  apply IH. destruct (applyEvent_spec gen_uuid e now s) as (_ & -> & _). intros n x.
  rewrite find_one_save. case_decide as Hid; [|apply Hs]. intros [= <-]. subst n.
  destruct Hw as [_ Hw]. rewrite Hp in Hw. unfold settled. case_match; split; cbn; rewrite ?Hw; done.
Qed.

Lemma pending_batch_wf s :
  wf_events (events s) -> Forall (fun e => wf_row (id e) e /\ status e = PENDING) (pending_batch s).
Proof.
  intros Hwf. apply Forall_forall. intros e [Hp [n Hn]]%elem_of_pending_batch.
  pose proof (Hwf _ _ Hn) as [Hid Hrow]. split; [|done]. rewrite Hid. by split.
Qed.

Lemma pending_batch_not_settled s n e :
  wf_events (events s) -> find_one n (events s) = Some e -> status e ≠ PENDING ->
  n ∉ id <$> pending_batch s.
Proof.
  intros Hwf Hn Hst Hin. apply list_elem_of_fmap in Hin as (x & -> & Hx).
  apply elem_of_pending_batch in Hx as [Hp [m Hm]]. pose proof (Hwf _ _ Hm) as [Hid _].
  subst m. congruence.
Qed.

(** Polling is the fetch followed by the batch. *)
Lemma poll_run now s :
  isRunning s = false ->
  exists s1, fetchAndPersistEvents (set_running true s) = (Ret s1.1, s1.2) /\
    pollContractEvents gen_uuid true now s =
      (Ret tt, set_running false (foldl (fun s e => (applyEvent gen_uuid e now s).2) s1.2 (pending_batch s1.2))).
Proof.
  intros Hr. destruct (fetchAndPersistEvents_spec (set_running true s)) as (cnt & s' & Hf & _).
  exists (cnt, s'). split; [done|]. unfold pollContractEvents, bind, gets, modify, catch. cbn [negb].
  rewrite Hr, Hf. by rewrite processPendingBatch_run.
Qed.

Lemma backfill_page_extends evs index a b s :
  exists c s', backfill_page index evs a b s = (Ret c, s') /\ extends (events s) (events s') /\ proj s' = proj s.
Proof.
  revert index a b s. induction evs as [|e evs IH]; intros index a b s.
  { eexists _, _. split; [done|]. split; [apply extends_refl|done]. }
  cbn [backfill_page]. unfold bind at 1, gets. destruct (indexed _ _ _); [apply IH|].
  unfold bind at 1. change (insert_event e index s) with (Ret tt, (insert_event e index s).2).
  destruct (IH (index + 1) (a + 1) b (insert_event e index s).2) as (c & s' & -> & Hx & Hp).
  eexists _, _. split; [done|]. split; [|by rewrite Hp].
  eapply extends_trans; [apply insert_event_extends|exact Hx].
Qed.

Lemma backfill_loop_extends n from to cur acc s :
  exists r s', backfill_loop n from to cur acc s = (Ret r, s') /\ extends (events s) (events s') /\ proj s' = proj s.
Proof.
  revert cur acc s. induction n as [|n IH]; intros cur acc s; cbn [backfill_loop].
  { eexists _, _. split; [done|]. split; [apply extends_refl|done]. }
  destruct (cur <=? to); [|eexists _, _; split; [done|]; split; [apply extends_refl|done]].
  unfold bind at 1, fetch. destruct (fetch_events cur (source s)) as [r src].
  set (s1 := mkState _ _ _ _ _ _ _ _ _).
  destruct (SorobanEvents.events r) as [|e0 evs0] eqn:Hevs.
  { eexists _, _. split; [done|]. split; [apply extends_refl|done]. }
  set (inRange := List.filter _ _). unfold bind at 1.
  destruct (backfill_page_extends inRange 0 (b_newlyProcessed acc) (b_alreadyIndexed acc) s1)
    as (c & s2 & -> & Hx & Hp).
  match goal with |- context [backfill_loop n from to ?cu ?ac s2] =>
    destruct (IH cu ac s2) as (r' & s' & -> & Hx' & Hp') end.
  eexists _, _. split; [done|]. split; [by eapply extends_trans|]. rewrite Hp', Hp. done.
Qed.

(** The calls that reach the event table. *)
Inductive op :=
| Poll (configured : bool) (now : Z)
| Backfill (fromLedger toLedger : Z)
| Reindex (fromLedger : Z).

Definition run_op (o : op) (s : state) : state :=
  match o with
  | Poll c now => (pollContractEvents gen_uuid c now s).2
  | Backfill f t => (backfillEvents f t s).2
  | Reindex l => (reindex l s).2
  end.

Lemma run_op_events o s :
  wf_events (events s) ->
  wf_events (events (run_op o s)) /\
  (forall n e, find_one n (events s) = Some e -> status e ≠ PENDING -> find_one n (events (run_op o s)) = Some e).
Proof.
  intros Hwf. destruct o as [c now|f t|l]; cbn [run_op].
  - destruct c; [|done]. destruct (isRunning s) eqn:Hr.
    { unfold pollContractEvents, bind, gets. cbn [negb]. by rewrite Hr. }
    destruct (poll_run now s Hr) as ([cnt s1] & Hf & ->). cbn [fst snd set_running events] in *.
    destruct (fetchAndPersistEvents_spec (set_running true s)) as (cnt' & s1' & Hf' & Hx & _).
    rewrite Hf' in Hf. injection Hf as <- <-. cbn [set_running events] in Hx.
    pose proof (extends_wf _ _ Hx Hwf) as Hwf1. split.
    + apply batch_wf; [by apply pending_batch_wf|done].
    + intros n e Hn Hst. pose proof (proj1 Hx _ _ Hn) as Hn1.
      rewrite batch_untouched; [done|]. by eapply pending_batch_not_settled.
  - unfold backfillEvents.
    destruct (backfill_loop_extends BACKFILL_MAX_PAGES f t f (mkBackfill f t 0 0 0 0) s) as (r & s' & -> & Hx & _).
    cbn [snd]. split; [by eapply extends_wf|]. intros n e Hn _. by apply Hx.
  - done.
Qed.

Definition run_ops (ops : list op) (s : state) : state := foldl (fun s o => run_op o s) s ops.

Lemma run_ops_events ops s :
  wf_events (events s) ->
  wf_events (events (run_ops ops s)) /\
  (forall n e, find_one n (events s) = Some e -> status e ≠ PENDING -> find_one n (events (run_ops ops s)) = Some e).
Proof.
  revert s. induction ops as [|o ops IH]; intros s Hwf; [done|].
  destruct (run_op_events o s Hwf) as [Hwf1 Hfix]. destruct (IH (run_op o s) Hwf1) as [Hwf2 Hfix2].
  split; [done|]. intros n e Hn Hst. apply Hfix2; auto.
Qed.
End processing.

(** A service that has indexed nothing yet. *)
Definition initial {B : Backend} {Src : EventSource} (src : source_state) (now : Z) : state :=
  mkState false empty_table empty_table empty_table empty_table []
    (mkMetrics 0 0 0 now [] now) Projection.initial src.

Lemma initial_wf {B : Backend} {Src : EventSource} src now : wf_events (events (initial src now)).
Proof. intros n e. cbn. by rewrite find_one_empty. Qed.

(** A batch hands the pending events to the savings projections one by one in
    ledger order, at most a hundred of them, each exactly once and past a failing
    one; the yield-adapter topics are not handed over, and the projections change
    in no other way. *)
Theorem batch_projects_in_ledger_order {B : Backend} {Src : EventSource} (gen_uuid : nat -> string)
    (now : Z) (s : state) :
  exists rest,
    pending_batch s ++ rest ≡ₚ List.filter (fun e => bool_decide (status e = PENDING)) ((rows (events s)).*2) /\
    StronglySorted (fun a b => ledger a <= ledger b) (pending_batch s ++ rest) /\
    (length (pending_batch s) <= 100)%nat /\
    processPendingBatch gen_uuid now s = (Ret tt, (processPendingBatch gen_uuid now s).2) /\
    proj (processPendingBatch gen_uuid now s).2 =
      Projection.deliver_all (omap (projected gen_uuid now) (pending_batch s)) (proj s).
Proof.
  unfold pending_batch at 1 2 3. set (all := List.filter _ _).
  exists (drop BATCH_SIZE (order_by ledger all)). rewrite take_drop.
  split; [apply order_by_perm|]. split; [apply order_by_sorted|].
  split; [rewrite length_take; unfold BATCH_SIZE; lia|].
  rewrite processPendingBatch_run. split; [done|]. apply batch_proj.
Qed.

(** A fetch stores every event of the response under its ledger and position,
    drops no stored event, applies nothing to the projections, and moves the
    checkpoint forward to the highest ledger it has seen. *)
Theorem fetch_stores_every_event {B : Backend} {Src : EventSource} (s : state) :
  exists cnt s', fetchAndPersistEvents s = (Ret cnt, s') /\
    (forall i e, SorobanEvents.events (response s) !! i = Some e ->
       indexed (SorobanEvents.ledger e) (Z.of_nat i) (events s') = true) /\
    (forall n e, find_one n (events s) = Some e -> find_one n (events s') = Some e) /\
    proj s' = proj s /\ checkpoint s <= checkpoint s' /\
    SorobanEvents.latestLedger (response s) <= checkpoint s'.
Proof.
  destruct (fetchAndPersistEvents_spec s) as (cnt & s' & Hf & Hx & _ & Hidx & Hc & Hsame & _).
  exists cnt, s'. split; [done|]. split; [done|]. split; [apply Hx|].
  split; [by injection Hsame|]. rewrite Hc.
  pose proof (foldl_max_ge (SorobanEvents.ledger <$> SorobanEvents.events (response s)) (checkpoint s)). lia.
Qed.


(** A failing RPC node makes the indexer skip a ledger: with the checkpoint at
    ledger [l] and every request failing, the poll stores nothing and moves the
    checkpoint to [l + 1], so the next poll asks for [l + 2] on and the events of
    ledger [l + 1] are never fetched. *)
Theorem rpc_failure_skips_ledger {B : Backend} (cfg : SorobanEvents.config)
    (net : nat -> SorobanEvents.request -> SorobanEvents.fetch_result)
    (random : nat -> number) (fallback_id : nat -> nat -> string) :
  let Src := SorobanSource cfg net random fallback_id in
  forall s : state,
  (forall n req, match net n req with SorobanEvents.Rejected _ => True | SorobanEvents.Responded st _ => 299 < st end) ->
  0 < checkpoint s ->
  exists cnt s', fetchAndPersistEvents s = (Ret cnt, s') /\
    checkpoint s' = checkpoint s + 1 /\ start_ledger s' = checkpoint s + 2 /\
    forall n, find_one n (events s') = find_one n (events s).
Proof.
  intros Src s Hnet Hpos.
  destruct (fetchAndPersistEvents_spec s) as (cnt & s' & Hf & _ & Hnil & _ & Hc & _).
  assert (Hr : response s = SorobanEvents.mkResponse [] (checkpoint s + 1) None).
  { unfold response, start_ledger. rewrite (proj2 (Z.ltb_lt 0 (checkpoint s)) Hpos).
    cbn [fetch_events Src SorobanSource].
    destruct (SorobanEvents.getEvents_fails cfg net random fallback_id
      (Z.to_nat SorobanEvents.MAX_EVENTS_PER_FETCH - 1) (checkpoint s + 1) None (source s) Hnet) as [src' Hg].
    replace (S (Z.to_nat SorobanEvents.MAX_EVENTS_PER_FETCH - 1)) with (Z.to_nat SorobanEvents.MAX_EVENTS_PER_FETCH) in Hg
      by (unfold SorobanEvents.MAX_EVENTS_PER_FETCH; lia).
    by rewrite Hg. }
  exists cnt, s'. split; [done|]. rewrite Hr in Hc. cbn in Hc.
  assert (Hc' : checkpoint s' = checkpoint s + 1) by lia.
  split; [done|]. split.
  { unfold start_ledger. rewrite Hc'. destruct (Z.ltb_spec 0 (checkpoint s + 1)); lia. }
  intros n. rewrite Hnil; [done|]. by rewrite Hr.
Qed.

(** ** Witnesses and traces *)

(** A node that answers a fixed script: the response to a given start ledger. *)
Definition ScriptSource (script : Z -> SorobanEvents.SorobanEventsResponse) : EventSource := {|
  source_state := unit;
  fetch_events from s := (script from, s);
|}.

Definition deposit_event (i : string) (l : Z) (acc amt : string) : SorobanEvents.SorobanRpcEvent :=
  SorobanEvents.mkRpcEvent i l ["deposit"%string]
    [("owner"%string, VStr acc); ("amount"%string, VStr amt)] None.

(** The events of a fixed chain from a ledger on. *)
Definition chain_script (chain : list SorobanEvents.SorobanRpcEvent) (head : Z) (from : Z)
  : SorobanEvents.SorobanEventsResponse :=
  SorobanEvents.mkResponse (List.filter (fun e => from <=? SorobanEvents.ledger e) chain) head None.


Lemma rpc_failure_skips_ledger_witness :
  let net := fun (_ : nat) (_ : SorobanEvents.request) => SorobanEvents.Responded 503 None in
  let Src := SorobanSource SorobanEvents.sample_cfg net (fun _ => num_of_Z 0) (fun _ _ => "x"%string) in
  let s := (reindex (B := MemBackend) (Src := Src) 40 (initial (Src := Src) SorobanEvents.initial 0)).2 in
  exists cnt s', fetchAndPersistEvents (Src := Src) s = (Ret cnt, s') /\ start_ledger (Src := Src) s' = 42.
Proof.
  intros net Src s.
  destruct (rpc_failure_skips_ledger (B := MemBackend) SorobanEvents.sample_cfg net
    (fun _ => num_of_Z 0) (fun _ _ => "x"%string) s) as (cnt & s' & H1 & _ & H2 & _).
  - intros n req. unfold net. lia.
  - vm_compute. reflexivity.
  - exists cnt, s'. split; [exact H1|exact H2].
Defined.

(** A reindex stores an event twice and credits it twice: the position stored
    with an event is its index in the response, so the same deposit fetched again in
    a shorter response has another index, is not recognised, and the account ends
    with twice the amount. *)
Theorem reindex_duplicates_event :
  let Src := ScriptSource (chain_script [deposit_event "a" 5 "G1" "7"; deposit_event "b" 6 "G2" "3"] 9) in
  let s0 := initial (B := MemBackend) (Src := Src) tt 0 in
  let once := run_ops (Src := Src) (fun _ => ""%string) [Poll true 1] s0 in
  let again := run_ops (Src := Src) (fun _ => ""%string) [Poll true 1; Reindex 5; Poll true 2] s0 in
  Balance.Balance.amount_of "G2" (Projection.balance_of (proj once)) = Some 3 /\
  Balance.Balance.amount_of "G2" (Projection.balance_of (proj again)) = Some 6 /\
  length (rows (events again)) = 3%nat.
Proof. vm_compute. repeat split. Qed.

(** A claimed withdrawal stays pending in the database: the [withdraw_claimed]
    handler only looks in the in-memory map, so the [pending_withdrawals] table, where
    [withdraw_requested] stores the request, never changes with it. *)
Theorem claimed_withdrawal_stays_pending {B : Backend} {Src : EventSource} (gen_uuid : nat -> string)
    (now : Z) (s : state) (e : ContractEvent) :
  event_type e = WITHDRAW_CLAIMED_TOPIC ->
  withdrawals (applyEvent gen_uuid e now s).2 = withdrawals s /\ (applyEvent gen_uuid e now s).1 = Ret tt.
Proof.
  intros Ht. unfold applyEvent, decodeAndApply. rewrite decide_True by done.
  unfold decodeWithdrawClaimed. destruct (extractWithdrawalId (data e)); [|done].
  unfold catch, bind, gets, modify. by case_bool_decide.
Qed.

Lemma claimed_withdrawal_stays_pending_witness :
  let Src := ScriptSource (chain_script [] 9) in
  let req := mkEvent 1 5 0 "withdraw_requested" [("id"%string, VStr "8"); ("owner"%string, VStr "G1");
    ("shares"%string, VStr "4"); ("claimable_at"%string, VNum 100)] None PENDING 0 in
  let claim := mkEvent 2 6 0 "withdraw_claimed" [("id"%string, VStr "8")] None PENDING 0 in
  let s := (applyEvent (B := MemBackend) (Src := Src) (fun _ => ""%string) req 1 (initial (Src := Src) tt 0)).2 in
  let s' := (applyEvent (B := MemBackend) (Src := Src) (fun _ => ""%string) claim 2 s).2 in
  withdrawals s' = withdrawals s /\ w_status <$> find_one "8"%string (withdrawals s) = Some WPending.
Proof.
  intros Src req claim s s'. split; [|vm_compute; reflexivity].
  apply (claimed_withdrawal_stays_pending (B := MemBackend) (Src := Src) (fun _ => ""%string) 2 s claim).
  reflexivity.
Defined.
End Indexer.
