(* ===== verification/Listener.v ===== *)
(** * SorobanListener: the live poll loop

    Models [backend/src/soroban/soroban.listener.ts], which applies fetched events
    to the savings projections directly, and its interplay with the indexer, which
    applies the same events from its event store. *)
From Stdlib Require Import ZArith Lia.
From stdpp Require Import base list strings sorting sets.
From S2P Require Import Prelude Storage JsValue Balance SorobanEvents Projection Indexer.
Local Open Scope Z_scope.

Module Listener.

Definition LAST_LEDGER_KEY : string := "soroban:last_processed_ledger".

Section service.
Context {B : Backend} {Src : EventSource}.
(** The id generated for a group row first seen in this event. *)
Context (gen_uuid : string -> string).

(** [system_state] maps keys to the stored ledger. *)
Record state := mkState {
  isPolling : bool;
  system_state : table string Z;
  proj : Projection.state;
  source : source_state;
}.

Definition set_polling b s := mkState b (system_state s) (proj s) (source s).

Definition on_proj {A} (m : M Projection.state A) : M state A :=
  zoom proj (fun p s => mkState (isPolling s) (system_state s) p (source s)) m.

Definition fetch (from : Z) : M state SorobanEvents.SorobanEventsResponse :=
  fun s => let '(r, src) := fetch_events from (source s) in
           (Ret r, mkState (isPolling s) (system_state s) (proj s) src).

Definition getLastProcessedLedger : M state Z :=
  gets (fun s => default 0 (find_one LAST_LEDGER_KEY (system_state s))).

Definition persistLastProcessedLedger (l : Z) : M state unit :=
  modify (fun s => mkState (isPolling s) (save LAST_LEDGER_KEY l (system_state s)) (proj s) (source s)).

Definition processEvent (now : Z) (e : SorobanEvents.SorobanRpcEvent) : M state unit :=
  match SorobanEvents.topic e with
  | [] | EmptyString :: _ => ret tt
  | t :: _ => on_proj (Projection.apply t (SorobanEvents.value e) (gen_uuid (SorobanEvents.id e)) now)
  end.

(** The loop over the ordered events: the highest ledger applied. *)
Fixpoint process_all (now : Z) (evs : list SorobanEvents.SorobanRpcEvent) (maxLedger : Z) : M state Z :=
  match evs with
  | [] => ret maxLedger
  | e :: evs' =>
      do processEvent now e ;>
      process_all now evs' (Z.max maxLedger (SorobanEvents.ledger e))
  end.

(** The [try] block of [pollEvents]. *)
Definition poll_body (now : Z) : M state unit :=
  await lastProcessedLedger := getLastProcessedLedger in
  let fromLedger := Z.max (lastProcessedLedger + 1) 1 in
  await r := fetch fromLedger in
  match SorobanEvents.events r with
  | [] => if lastProcessedLedger <? SorobanEvents.latestLedger r
          then persistLastProcessedLedger (SorobanEvents.latestLedger r) else ret tt
  | evs =>
      let ordered := sort_by SorobanEvents.ledger evs in
      await maxProcessedLedger := process_all now ordered lastProcessedLedger in
      persistLastProcessedLedger (Z.max maxProcessedLedger (SorobanEvents.latestLedger r))
  end.

Definition pollEvents (configured : bool) (now : Z) : M state unit :=
  if negb configured then ret tt
  else
    await polling := gets isPolling in
    if polling : bool then ret tt
    else
      do modify (set_polling true) ;>
      do catch (poll_body now) (fun _ => ret tt) ;>
      modify (set_polling false).
End service.

(** ** Properties *)

Section proofs.
Context {B : Backend} {Src : EventSource} (gen_uuid : string -> string).

Definition last_ledger (s : state) : Z := default 0 (find_one LAST_LEDGER_KEY (system_state s)).

(** The event handed to the projections. *)
Definition handed (now : Z) (e : SorobanEvents.SorobanRpcEvent) : option Projection.event :=
  match SorobanEvents.topic e with
  | [] | EmptyString :: _ => None
  | t :: _ => Some (Projection.mkEvent t (SorobanEvents.value e) (gen_uuid (SorobanEvents.id e)) now)
  end.

Lemma processEvent_proj now e s :
  proj (processEvent gen_uuid now e s).2 =
    match handed now e with Some ev => Projection.deliver (proj s) ev | None => proj s end /\
  system_state (processEvent gen_uuid now e s).2 = system_state s.
Proof.
  unfold processEvent, handed. destruct (SorobanEvents.topic e) as [|[|c w] ts]; [done..|].
  unfold on_proj. by rewrite zoom_snd.
Qed.

(** Whether every handler of the list succeeds, one after the other. *)
Fixpoint all_succeed (now : Z) (evs : list SorobanEvents.SorobanRpcEvent) (s : state) : bool :=
  match evs with
  | [] => true
  | e :: evs' => is_ret (processEvent gen_uuid now e s).1 &&
                 all_succeed now evs' (processEvent gen_uuid now e s).2
  end.

Lemma process_all_ok now evs mx s :
  all_succeed now evs s = true ->
  exists s', process_all gen_uuid now evs mx s = (Ret (foldl Z.max mx (SorobanEvents.ledger <$> evs)), s') /\
    proj s' = Projection.deliver_all (omap (handed now) evs) (proj s) /\
    system_state s' = system_state s.
Proof.
  revert mx s. induction evs as [|e evs IH]; intros mx s Hok; [by eexists|].
  cbn [all_succeed process_all] in *. apply andb_true_iff in Hok as [He Hok].
  destruct (processEvent_proj now e s) as [Hp Hs]. unfold bind.
  destruct (processEvent gen_uuid now e s) as [[[]|ex] s1]; [|done]. cbn [fst snd] in *.
  destruct (IH (Z.max mx (SorobanEvents.ledger e)) s1 Hok) as (s' & -> & Hp' & Hs').
  exists s'. split; [done|]. split; [|congruence]. rewrite Hp', Hp.
  cbn [omap list_omap]. by destruct (handed now e).
Qed.

Lemma process_all_fails now evs mx s :
  all_succeed now evs s = false ->
  exists ex s', process_all gen_uuid now evs mx s = (Throw ex, s') /\ system_state s' = system_state s.
Proof.
  revert mx s. induction evs as [|e evs IH]; intros mx s Hok; [done|].
  cbn [all_succeed process_all] in *. destruct (processEvent_proj now e s) as [_ Hs]. unfold bind.
  destruct (processEvent gen_uuid now e s) as [[[]|ex] s1]; cbn [fst snd is_ret andb] in *.
  - destruct (IH (Z.max mx (SorobanEvents.ledger e)) s1 Hok) as (ex & s' & -> & Hs'). by exists ex, s'; rewrite Hs'.
  - by exists ex, s1.
Qed.

Definition from_ledger (s : state) : Z := Z.max (last_ledger s + 1) 1.
Definition response (s : state) : SorobanEvents.SorobanEventsResponse :=
  (fetch_events (from_ledger s) (source s)).1.
Definition ordered (s : state) : list SorobanEvents.SorobanRpcEvent :=
  sort_by SorobanEvents.ledger (SorobanEvents.events (response s)).
End proofs.

(** One poll of the listener is all or nothing for its checkpoint: when every
    handler succeeds, the projections are those of delivering exactly the fetched
    events in ledger order and the checkpoint moves to the highest ledger seen; when
    one fails, the checkpoint stays where it was. *)
Theorem poll_checkpoint {B : Backend} {Src : EventSource} (gen_uuid : string -> string) (now : Z) (s : state) :
  isPolling s = false -> SorobanEvents.events (response s) ≠ [] ->
  let s' := (pollEvents gen_uuid true now s).2 in
  let go := mkState true (system_state s) (proj s) (fetch_events (from_ledger s) (source s)).2 in
  ordered s ≡ₚ SorobanEvents.events (response s) /\
  StronglySorted (fun a b => SorobanEvents.ledger a <= SorobanEvents.ledger b) (ordered s) /\
  if all_succeed gen_uuid now (ordered s) go then
    proj s' = Projection.deliver_all (omap (handed gen_uuid now) (ordered s)) (proj s) /\
    last_ledger s' = Z.max (foldl Z.max (last_ledger s) (SorobanEvents.ledger <$> ordered s))
                           (SorobanEvents.latestLedger (response s))
  else last_ledger s' = last_ledger s.
Proof.
  intros Hp Hne s' go. split; [apply sort_by_perm|]. split; [apply sort_by_sorted|].
  assert (Hs' : s' = set_polling false (catch (poll_body gen_uuid now) (fun _ => ret tt) (set_polling true s)).2).
  { unfold s', pollEvents, bind, gets, modify. cbn [negb]. rewrite Hp. unfold catch.
    by destruct (poll_body gen_uuid now (set_polling true s)) as [[[]|ex] s1]. }
  assert (Hbody : poll_body gen_uuid now (set_polling true s) =
    bind (process_all gen_uuid now (ordered s) (last_ledger s))
      (fun m => persistLastProcessedLedger (Z.max m (SorobanEvents.latestLedger (response s)))) go).
  { unfold poll_body, bind at 1, getLastProcessedLedger, gets. unfold bind at 1, fetch.
    unfold ordered, response, go in *. change (default 0 (find_one _ (system_state (set_polling true s)))) with (last_ledger s).
    fold (from_ledger s). cbn [source set_polling isPolling system_state proj].
    destruct (fetch_events (from_ledger s) (source s)) as [r src]. cbn [fst snd] in *.
    by destruct (SorobanEvents.events r). }
  rewrite Hs'. unfold catch. rewrite Hbody. unfold bind.
  destruct (all_succeed gen_uuid now (ordered s) go) eqn:Hok.
  - destruct (process_all_ok gen_uuid now _ (last_ledger s) _ Hok) as (s1 & -> & Hpr & Hss).
    cbn. split; [exact Hpr|]. unfold last_ledger at 1. cbn. by rewrite find_one_save_eq.
  - destruct (process_all_fails gen_uuid now _ (last_ledger s) _ Hok) as (ex & s1 & -> & Hss).
    cbn. unfold last_ledger. cbn. by rewrite Hss.
Qed.

Definition initial {B : Backend} {Src : EventSource} (src : source_state) : state :=
  mkState false empty_table Projection.initial src.

Lemma poll_checkpoint_witness :
  let Src := Indexer.ScriptSource (Indexer.chain_script [Indexer.deposit_event "a" 5 "G1" "7"] 9) in
  last_ledger (pollEvents (B := MemBackend) (fun _ => ""%string) true 1 (initial (Src := Src) tt)).2 = 9.
Proof.
  intros Src.
  destruct (poll_checkpoint (B := MemBackend) (Src := Src) (fun _ => ""%string) 1 (initial (Src := Src) tt))
    as (_ & _ & H); [reflexivity|discriminate|].
  destruct H as [_ H]. rewrite H. vm_compute. reflexivity.
Defined.

(** A poll that fails half way is not safe to retry: a deposit followed by an
    event whose handler throws is credited again on every poll, since the checkpoint
    stays and the deposit carries no mark. *)
Theorem retried_poll_double_credits :
  let bad := SorobanEvents.mkRpcEvent "b" 6 ["goal_contribution"%string]
               [("id"%string, VStr "1"); ("amount"%string, VStr "5")] None in
  let Src := Indexer.ScriptSource (Indexer.chain_script [Indexer.deposit_event "a" 5 "G1" "7"; bad] 9) in
  let poll := fun now s => (pollEvents (B := MemBackend) (Src := Src) (fun _ => ""%string) true now s).2 in
  let s3 := poll 3 (poll 2 (poll 1 (initial (Src := Src) tt))) in
  Balance.amount_of "G1" (Projection.balance_of (proj s3)) = Some 21 /\ last_ledger s3 = 0.
Proof. vm_compute. split; reflexivity. Qed.

(** The listener and the indexer both apply the events of the contract to the
    same projections: one poll of each credits a single on-chain deposit of 7 as 14. *)
Theorem two_pollers_double_credit :
  let Src := Indexer.ScriptSource (Indexer.chain_script [Indexer.deposit_event "a" 5 "G1" "7"] 9) in
  let l := (pollEvents (B := MemBackend) (Src := Src) (fun _ => ""%string) true 1 (initial (Src := Src) tt)).2 in
  let i0 := Indexer.initial (B := MemBackend) (Src := Src) tt 0 in
  let i := (Indexer.pollContractEvents (Src := Src) (fun _ => ""%string) true 2
    (Indexer.mkState false (Indexer.events i0) (Indexer.checkpoints i0) (Indexer.withdrawals i0)
       (Indexer.harvests i0) [] (Indexer.metrics i0) (proj l) tt)).2 in
  Balance.amount_of "G1" (Projection.balance_of (proj l)) = Some 7 /\
  Balance.amount_of "G1" (Projection.balance_of (Indexer.proj i)) = Some 14.
Proof. vm_compute. split; reflexivity. Qed.
End Listener.
