(* ===== verification/Reconciliation.v ===== *)
(** * ReconciliationService: reorg rollback and gap backfill

    Models [backend/src/indexer/reconciliation.service.ts] over the indexer's
    event store.  The RPC node is a parameter: the [n]-th request of the process
    gets the [n]-th answer. *)
From Stdlib Require Import ZArith Lia.
From stdpp Require Import base list strings sorting sets.
From S2P Require Import Prelude Storage JsValue SorobanEvents Projection Indexer.
Local Open Scope Z_scope.

Module Reconciliation.

(** The [chain_sync_checkpoints] entity, keyed by contract id. *)
Record ChainSyncCheckpoint := mkSync {
  contract_id : string;
  last_indexed_ledger : Z;
  last_indexed_ledger_hash : option string;
  chain_head_ledger : Z;
  last_reconciled_from : Z;
  last_reconciled_to : Z;
  last_reconciled_at : option Z;
  last_backfill_count : Z;
}.

(** The [reorg_events] audit row. *)
Record ReorgEvent := mkReorg {
  r_contract_id : string;
  fork_ledger : Z;
  previous_ledger : Z;
  previous_hash : string;
  new_hash : string;
  rolled_back_event_count : Z;
  detected_at : Z;
}.

Definition DEFAULT_RECONCILE_INTERVAL_MS : Z := 60000.
Definition DEFAULT_RECONCILE_WINDOW : Z := 200.
Definition BACKFILL_BATCH_SIZE : Z := 100.
Definition DEFAULT_REORG_ROLLBACK_DEPTH : Z := 10.

(** The environment variables the service reads. *)
Record config := mkConfig {
  RECONCILE_ENABLED : option string;
  RECONCILE_WINDOW : option Z;
  RECONCILE_INTERVAL_MS : option Z;
  INDEXER_REORG_ROLLBACK_DEPTH : option Z;
  SOROBAN_RPC_URL : option string;
  SOROBAN_CONTRACT_ID : option string;
  YIELD_ADAPTER_CONTRACT_ID : option string;
}.

(** A JSON-RPC exchange: the parsed body of a 2xx response, [None] when the
    request, the status or the parsing failed. *)
Record rpc_node := mkNode {
  (** [getEvents] from a ledger: whether the body has an [error], and the raw
      events. *)
  node_events : nat -> string -> Z -> option (bool * list jsval);
  (** [getEvents] with limit 1: [latestLedger] when it is a number. *)
  node_head : nat -> string -> option (option Z);
  (** [getLedgers]: the hash when it is a string. *)
  node_hash : nat -> Z -> option (option string);
}.

(** [extractEventType(record)]. *)
Definition extractEventType (fs : record) : option string :=
  match as_string fs.["type"] with
  | Some t => Some t
  | None =>
      match fs.["value"] with
      | VObj v =>
          match as_string v.["event"] with
          | Some t => Some t
          | None => as_string v.["event_type"]
          end
      | _ => None
      end
  end.

(** The fields a handler can read of a stored payload. *)
Definition payload_fields (v : jsval) : record := match v with VObj fs => fs | _ => [] end.

(** [record.value && typeof record.value === 'object' ? record.value : record.data ?? {}]. *)
Definition raw_data (fs : record) : record :=
  match fs.["value"] with
  | VObj v => v
  | VArr _ => []
  | _ => payload_fields fs.["data"]
  end.

Section service.
Context {B : Backend} {Src : EventSource} (cfg : config) (node : rpc_node).

(** The service's own fields and tables, the number of requests made, and the
    indexer whose tables it writes. *)
Record state := mkState {
  isRunning : bool;
  lastRunAt : option Z;
  lastBackfillCount : Z;
  sync : table string ChainSyncCheckpoint;
  reorgs : table nat ReorgEvent;
  requests : nat;
  index : Indexer.state;
}.

Definition set_running b s := mkState b (lastRunAt s) (lastBackfillCount s) (sync s) (reorgs s) (requests s) (index s).
Definition set_lastRunAt t s := mkState (isRunning s) (Some t) (lastBackfillCount s) (sync s) (reorgs s) (requests s) (index s).
Definition set_lastBackfillCount c s := mkState (isRunning s) (lastRunAt s) c (sync s) (reorgs s) (requests s) (index s).
Definition set_sync f s := mkState (isRunning s) (lastRunAt s) (lastBackfillCount s) (f (sync s)) (reorgs s) (requests s) (index s).
Definition set_reorgs f s := mkState (isRunning s) (lastRunAt s) (lastBackfillCount s) (sync s) (f (reorgs s)) (requests s) (index s).

Definition on_index {A} (m : M Indexer.state A) : M state A :=
  zoom index (fun x s => mkState (isRunning s) (lastRunAt s) (lastBackfillCount s) (sync s) (reorgs s) (requests s) x) m.

(** One request. *)
Definition ask {A} (f : nat -> A) : M state A :=
  fun s => (Ret (f (requests s)),
            mkState (isRunning s) (lastRunAt s) (lastBackfillCount s) (sync s) (reorgs s) (S (requests s)) (index s)).

Definition isEnabled : bool :=
  negb (bool_decide (RECONCILE_ENABLED cfg = Some "false"%string)) &&
  negb (bool_decide (RECONCILE_ENABLED cfg = Some "0"%string)).

Definition getReconcileWindow : Z :=
  match RECONCILE_WINDOW cfg with
  | Some w => if 0 <? w then w else DEFAULT_RECONCILE_WINDOW
  | None => DEFAULT_RECONCILE_WINDOW
  end.

Definition getReconcileIntervalMs : Z :=
  match RECONCILE_INTERVAL_MS cfg with
  | Some w => if 0 <? w then w else DEFAULT_RECONCILE_INTERVAL_MS
  | None => DEFAULT_RECONCILE_INTERVAL_MS
  end.

Definition getReconciledContractIds : list string :=
  List.filter (fun id => negb (bool_decide (id = ""%string)) &&
                         negb (bool_decide (id = "your-contract-id-here"%string)))
    (omap (fun o => o) [SOROBAN_CONTRACT_ID cfg; YIELD_ADAPTER_CONTRACT_ID cfg]).

Definition fetchChainHead (contractId : string) : M state (option Z) :=
  await r := ask (fun n => node_head node n contractId) in
  ret (match r with Some h => h | None => None end).

Definition fetchLedgerHash (ledger : Z) : M state (option string) :=
  await r := ask (fun n => node_hash node n ledger) in
  ret (match r with Some h => h | None => None end).

Definition save_sync (c : ChainSyncCheckpoint) : M state unit :=
  modify (set_sync (save (contract_id c) c)).

Definition getOrCreateCheckpoint (contractId : string) : M state ChainSyncCheckpoint :=
  await found := gets (fun s => find_one contractId (sync s)) in
  match found with
  | Some c => ret c
  | None =>
      let c := mkSync contractId 0 None 0 0 0 None 0 in
      do save_sync c ;> ret c
  end.

Definition set_indexed (c : ChainSyncCheckpoint) (l : Z) (h : option string) : ChainSyncCheckpoint :=
  mkSync (contract_id c) l h (chain_head_ledger c) (last_reconciled_from c)
    (last_reconciled_to c) (last_reconciled_at c) (last_backfill_count c).

(** [delete({ ledger: MoreThan(forkLedger) })]: the number of rows deleted. *)
Definition delete_events_after (fork : Z) : M state Z :=
  await affected := gets (fun s => count_where (fun _ e => fork <? Indexer.ledger e) (Indexer.events (index s))) in
  do on_index (modify (Indexer.set_events (delete_where (fun _ e => fork <? Indexer.ledger e)))) ;>
  ret affected.

(** [update({ key }, { value })] on the indexer's checkpoint: no row, no change. *)
Definition rewind_indexer (fork : Z) : M state unit :=
  on_index (modify (Indexer.set_checkpoints
    (update_where (fun k _ => bool_decide (k = Indexer.CHECKPOINT_LEDGER_KEY)) (fun _ => fork)))).

(** [detectAndHandleReorg]: the checkpoint object, mutated in place, and the audit
    row when a rollback was made. *)
Definition detectAndHandleReorg (contractId : string) (checkpoint : ChainSyncCheckpoint) (now : Z)
  : M state (ChainSyncCheckpoint * option ReorgEvent) :=
  match last_indexed_ledger_hash checkpoint with
  | None | Some EmptyString => ret (checkpoint, None)
  | Some previousHash =>
      let previousLedger := last_indexed_ledger checkpoint in
      await cur := fetchLedgerHash previousLedger in
      match cur with
      | None => ret (checkpoint, None)
      | Some currentHash =>
          if decide (currentHash = previousHash) then ret (checkpoint, None)
          else
            let rollbackDepth := default DEFAULT_REORG_ROLLBACK_DEPTH (INDEXER_REORG_ROLLBACK_DEPTH cfg) in
            let forkLedger := Z.max (previousLedger - rollbackDepth) 0 in
            await rolledBackCount := delete_events_after forkLedger in
            await forkHash := fetchLedgerHash forkLedger in
            let checkpoint' := set_indexed checkpoint forkLedger forkHash in
            do save_sync checkpoint' ;>
            do rewind_indexer forkLedger ;>
            let reorg := mkReorg contractId forkLedger previousLedger previousHash currentHash
                           rolledBackCount now in
            do modify (set_reorgs (fun t => save (fresh_id t) reorg t)) ;>
            ret (checkpoint', Some reorg)
      end
  end.

(** One raw event of the response: 1 when a row was stored. *)
Definition backfill_raw (toLedger : Z) (raw : jsval) : M state Z :=
  match raw with
  | VObj fs =>
      match fs.["ledger"] with
      | VNum ledger =>
          if toLedger <? ledger then ret 0
          else
            let logIndex := match fs.["log_index"] with VNum i => i | _ => 0 end in
            await existing := gets (fun s => Indexer.indexed ledger logIndex (Indexer.events (index s))) in
            if existing : bool then ret 0
            else
              let eventType := match extractEventType fs with
                               | Some EmptyString | None => "unknown"%string
                               | Some t => t
                               end in
              do on_index (modify (Indexer.set_events (fun t =>
                   let n := fresh_id t in
                   save n (Indexer.mkEvent n ledger logIndex eventType (raw_data fs)
                             (as_string fs.["tx_hash"]) Indexer.PENDING 0) t))) ;>
              ret 1
      | _ => ret 0
      end
  | _ => ret 0
  end.

Fixpoint backfill_raws (toLedger : Z) (raws : list jsval) (backfilled : Z) : M state Z :=
  match raws with
  | [] => ret backfilled
  | raw :: raws' =>
      await n := backfill_raw toLedger raw in
      backfill_raws toLedger raws' (backfilled + n)
  end.

(** A failed request, an HTTP error and a JSON-RPC error all give zero. *)
Definition backfillGap (contractId : string) (fromLedger toLedger : Z) : M state Z :=
  await r := ask (fun n => node_events node n contractId fromLedger) in
  match r with
  | None | Some (true, _) => ret 0
  | Some (false, raws) => backfill_raws toLedger raws 0
  end.

Definition runReconciliation (contractId : string) (now : Z) : M state unit :=
  await checkpoint0 := getOrCreateCheckpoint contractId in
  match SOROBAN_RPC_URL cfg with
  | None | Some EmptyString => ret tt
  | Some _ =>
      await dr := detectAndHandleReorg contractId checkpoint0 now in
      let checkpoint1 := dr.1 in
      await head := fetchChainHead contractId in
      match head with
      | None => ret tt
      | Some chainHead =>
          let lastIndexed := last_indexed_ledger checkpoint1 in
          if chainHead <=? lastIndexed then
            await h := fetchLedgerHash lastIndexed in
            let hash := match h with Some x => Some x | None => last_indexed_ledger_hash checkpoint1 end in
            do save_sync (mkSync (contract_id checkpoint1) lastIndexed hash chainHead
                 (last_reconciled_from checkpoint1) (last_reconciled_to checkpoint1)
                 (last_reconciled_at checkpoint1) (last_backfill_count checkpoint1)) ;>
            modify (set_lastRunAt now)
          else
            let window := getReconcileWindow in
            let fromLedger := Z.max (lastIndexed + 1) 1 in
            let toLedger := Z.min (fromLedger + window - 1) chainHead in
            await backfilledCount := backfillGap contractId fromLedger toLedger in
            let newLast := if 0 <=? backfilledCount then toLedger else lastIndexed in
            await h := fetchLedgerHash newLast in
            let hash := match h with Some x => Some x | None => last_indexed_ledger_hash checkpoint1 end in
            do save_sync (mkSync (contract_id checkpoint1) newLast hash chainHead fromLedger toLedger
                 (Some now) backfilledCount) ;>
            do modify (set_lastRunAt now) ;>
            modify (set_lastBackfillCount backfilledCount)
      end
  end.

Definition reconcile (now : Z) : M state unit :=
  if negb isEnabled then ret tt
  else match getReconciledContractIds with
       | [] => ret tt
       | contractIds =>
           await running := gets isRunning in
           if running : bool then ret tt
           else
             do modify (set_running true) ;>
             do catch (for_each (fun c => runReconciliation c now) contractIds) (fun _ => ret tt) ;>
             modify (set_running false)
       end.

(** [getReorgEvents(contractId?, limit)]. *)
Definition getReorgEvents (contractId : option string) (limit : nat) : M state (list ReorgEvent) :=
  gets (fun s =>
    let wanted := match contractId with
                  | None | Some EmptyString => fun _ => true
                  | Some c => fun r => bool_decide (r_contract_id r = c)
                  end in
    take limit (order_by (fun r => - detected_at r) (List.filter wanted ((rows (reorgs s)).*2)))).

Definition advanceCheckpoint (contractId : string) (ledger : Z) : M state unit :=
  await c := getOrCreateCheckpoint contractId in
  if last_indexed_ledger c <? ledger
  then save_sync (set_indexed c ledger (last_indexed_ledger_hash c)) else ret tt.

(** The fields of [getStatus]. *)
Definition getStatus (s : state) : bool * bool * option Z * Z :=
  (isEnabled, isRunning s, lastRunAt s, lastBackfillCount s).

Definition getCheckpointForContract (contractId : string) : M state (option ChainSyncCheckpoint) :=
  gets (fun s => find_one contractId (sync s)).
End service.

(** ** Properties *)

Section proofs.
Context {B : Backend} {Src : EventSource} (cfg : config) (node : rpc_node).

(** Where a rollback from ledger [l] goes. *)
Definition fork_of (l : Z) : Z :=
  Z.max (l - default DEFAULT_REORG_ROLLBACK_DEPTH (INDEXER_REORG_ROLLBACK_DEPTH cfg)) 0.

Definition event_rows (s : state) : table nat Indexer.ContractEvent := Indexer.events (index s).

Lemma fetchLedgerHash_run l s :
  fetchLedgerHash node l s =
    (Ret (match node_hash node (requests s) l with Some h => h | None => None end),
     mkState (isRunning s) (lastRunAt s) (lastBackfillCount s) (sync s) (reorgs s) (S (requests s)) (index s)).
Proof. done. Qed.

Lemma detect_no_hash contractId c now s :
  last_indexed_ledger_hash c = None -> detectAndHandleReorg cfg node contractId c now s = (Ret (c, None), s).
Proof. intros H. unfold detectAndHandleReorg. by rewrite H. Qed.

Lemma reconcile_window_bounds last head :
  last < head -> 0 <= last ->
  let from := Z.max (last + 1) 1 in
  let to := Z.min (from + getReconcileWindow cfg - 1) head in
  last < to <= head /\ to < from + getReconcileWindow cfg /\ from = last + 1.
Proof.
  intros Hl H0 from to. assert (0 < getReconcileWindow cfg).
  { unfold getReconcileWindow, DEFAULT_RECONCILE_WINDOW. repeat case_match; lia. }
  unfold to, from. lia.
Qed.
End proofs.

(** C8: On a hash mismatch the store is rolled back to the fork point: every stored
    event above the fork ledger is deleted and every other one kept, both the sync
    checkpoint and the indexer's own checkpoint are at the fork ledger, and one audit
    row with the number of deleted events is added. *)
Theorem reorg_rollback {B : Backend} {Src : EventSource} (cfg : config) (node : rpc_node)
    (contractId : string) (c : ChainSyncCheckpoint) (now : Z) (s : state) (old new : string) (ck : Z) :
  last_indexed_ledger_hash c = Some old -> old ≠ ""%string ->
  node_hash node (requests s) (last_indexed_ledger c) = Some (Some new) -> new ≠ old ->
  find_one Indexer.CHECKPOINT_LEDGER_KEY (Indexer.checkpoints (index s)) = Some ck ->
  let fork := fork_of cfg (last_indexed_ledger c) in
  exists r c' s', detectAndHandleReorg cfg node contractId c now s = (Ret (c', Some r), s') /\
    (forall n, find_one n (event_rows s') =
       match find_one n (event_rows s) with
       | Some e => if fork <? Indexer.ledger e then None else Some e
       | None => None
       end) /\
    last_indexed_ledger c' = fork /\ find_one (contract_id c) (sync s') = Some c' /\
    find_one Indexer.CHECKPOINT_LEDGER_KEY (Indexer.checkpoints (index s')) = Some fork /\
    Indexer.proj (index s') = Indexer.proj (index s) /\
    fork_ledger r = fork /\ previous_ledger r = last_indexed_ledger c /\
    rolled_back_event_count r = count_where (fun _ e => fork <? Indexer.ledger e) (event_rows s) /\
    rows (reorgs s') ≡ₚ (fresh_id (reorgs s), r) :: rows (reorgs s).
Proof.
  intros Hold Hne Hnew Hdiff Hck fork. unfold detectAndHandleReorg. rewrite Hold.
  destruct old as [|ch w]; [done|]. unfold bind at 1. rewrite fetchLedgerHash_run, Hnew.
  rewrite decide_False by done. fold (fork_of cfg (last_indexed_ledger c)). fold fork.
  unfold delete_events_after, rewind_indexer, save_sync, on_index, zoom, bind, gets, modify, ret.
  cbn [index requests isRunning lastRunAt lastBackfillCount sync reorgs fetchLedgerHash].
  unfold fetchLedgerHash, ask, bind, ret. cbn.
  eexists _, _, _. split; [reflexivity|]. unfold event_rows. cbn.
  rewrite find_one_save_eq, find_one_update_where, Hck. cbn. rewrite bool_decide_eq_true_2 by done.
  repeat split.
  - intros n. apply find_one_delete_where.
  - apply rows_save_new, fresh_id_None.
Qed.

Definition sample_cfg : config :=
  mkConfig None None None None (Some "http://rpc"%string) (Some "C1"%string) None.

Lemma reorg_rollback_witness :
  let Src := Indexer.ScriptSource (Indexer.chain_script [Indexer.deposit_event "a" 5 "G1" "7";
               Indexer.deposit_event "b" 46 "G1" "3"] 50) in
  let node := mkNode (fun _ _ _ => None) (fun _ _ => None) (fun _ _ => Some (Some "h2"%string)) in
  let ix := (Indexer.pollContractEvents (B := MemBackend) (Src := Src) (fun _ => ""%string) true 1
               (Indexer.initial (Src := Src) tt 0)).2 in
  let s := mkState false None 0 empty_table empty_table 0 ix in
  let c := mkSync "C1" 50 (Some "h1"%string) 50 0 0 None 0 in
  exists r c' s', detectAndHandleReorg sample_cfg node "C1" c 2 s = (Ret (c', Some r), s') /\
    last_indexed_ledger c' = 40 /\ rolled_back_event_count r = 1.
Proof.
  intros Src node ix s c.
  destruct (reorg_rollback (B := MemBackend) (Src := Src) sample_cfg node "C1" c 2 s "h1" "h2" 50)
    as (r & c' & s' & H1 & _ & H2 & _ & _ & _ & _ & _ & H3 & _).
  - reflexivity.
  - done.
  - reflexivity.
  - done.
  - vm_compute. reflexivity.
  - exists r, c', s'. split; [exact H1|]. split; [exact H2|]. rewrite H3. vm_compute. reflexivity.
Defined.

(** ** Tried events over indexing and reconciliation *)

Section histories.
Context {B : Backend} {Src : EventSource} (cfg : config) (node : rpc_node) (gen_uuid : nat -> string).

(** A rollback recorded between two states that goes below ledger [l]. *)
Definition rolled_back (l : Z) (s s' : state) : Prop :=
  exists k r, find_one k (reorgs s') = Some r /\ find_one k (reorgs s) = None /\ fork_ledger r < l.

(** Rows stay well formed, a tried event stays as it is or is rolled back, and no
    audit row is lost. *)
Record frozen (s s' : state) : Prop := mkFrozen {
  frozen_wf : Indexer.wf_events (event_rows s) -> Indexer.wf_events (event_rows s');
  frozen_tried : Indexer.wf_events (event_rows s) -> forall n e,
    find_one n (event_rows s) = Some e -> Indexer.status e ≠ Indexer.PENDING ->
    find_one n (event_rows s') = Some e \/ rolled_back (Indexer.ledger e) s s';
  frozen_reorgs : forall k r, find_one k (reorgs s) = Some r -> find_one k (reorgs s') = Some r;
}.

Lemma frozen_same s s' : event_rows s' = event_rows s -> reorgs s' = reorgs s -> frozen s s'.
Proof. intros He Hr. split; rewrite ?He, ?Hr; auto. Qed.

Lemma frozen_trans s1 s2 s3 : frozen s1 s2 -> frozen s2 s3 -> frozen s1 s3.
Proof.
  intros H12 H23. split.
  - intros Hwf. by apply H23, H12.
  - intros Hwf n e Hn Hst.
    destruct (frozen_tried _ _ H12 Hwf n e Hn Hst) as [Hn2|(k & r & Hk & Hnew & Hl)].
    + destruct (frozen_tried _ _ H23 (frozen_wf _ _ H12 Hwf) n e Hn2 Hst) as [|(k & r & Hk & Hnew & Hl)];
        [by left|right]. exists k, r. repeat split; try done.
      destruct (find_one k (reorgs s1)) as [r'|] eqn:Hr; [|done].
      apply (frozen_reorgs _ _ H12) in Hr. congruence.
    + right. exists k, r. repeat split; try done. by apply H23.
  - intros k r Hk. by apply H23, H12.
Qed.

Lemma frozen_step {A} (m : M state A) s0 :
  (forall s, frozen s (m s).2) -> preserves (frozen s0) m.
Proof. intros H s Hs. by eapply frozen_trans. Qed.

Lemma frozen_extends s s' :
  Indexer.extends (event_rows s) (event_rows s') -> reorgs s' = reorgs s -> frozen s s'.
Proof.
  intros Hx Hr. split.
  - by apply Indexer.extends_wf.
  - intros _ n e Hn _. left. by apply Hx.
  - by rewrite Hr.
Qed.

Lemma backfill_raw_frozen to raw s : frozen s (backfill_raw to raw s).2.
Proof.
  unfold backfill_raw. destruct raw as [| | | | | | |fs]; try (by apply frozen_same).
  destruct (fs.["ledger"]) as [| | |l| | | |]; try (by apply frozen_same).
  destruct (to <? l); [by apply frozen_same|]. unfold bind at 1, gets.
  destruct (Indexer.indexed _ _ _); [by apply frozen_same|].
  apply frozen_extends; [|done]. cbn. set (n := fresh_id (Indexer.events (index s))).
  split; intros m x; unfold event_rows; cbn; rewrite find_one_save.
  - intros Hm. rewrite decide_False; [done|]. intros <-. unfold n in Hm. by rewrite fresh_id_None in Hm.
  - case_decide as Hn; [subst m|by left]. intros [= <-]. right. repeat split. apply fresh_id_None.
Qed.

Lemma detect_frozen contractId c now s : frozen s (detectAndHandleReorg cfg node contractId c now s).2.
Proof.
  unfold detectAndHandleReorg. destruct (last_indexed_ledger_hash c) as [[|ch old]|]; try (by apply frozen_same).
  unfold bind at 1. rewrite fetchLedgerHash_run.
  destruct (match node_hash _ _ _ with Some h => h | None => None end) as [cur|]; [|by apply frozen_same].
  case_decide; [by apply frozen_same|].
  fold (fork_of cfg (last_indexed_ledger c)). set (fork := fork_of cfg _).
  unfold delete_events_after, rewind_indexer, save_sync, on_index, zoom, fetchLedgerHash, ask, bind, gets, modify, ret.
  cbn. split; unfold event_rows; cbn.
  - intros Hwf n e. rewrite find_one_delete_where. case_match; [|done]. case_match; [done|].
    intros [= <-]. by apply Hwf.
  - intros _ n e Hn _. rewrite find_one_delete_where, Hn. destruct (Z.ltb_spec fork (Indexer.ledger e)); [right|by left].
    eexists (fresh_id (reorgs s)), _. cbn. rewrite find_one_save_eq. split; [done|].
    split; [apply fresh_id_None|done].
  - intros k r Hk. rewrite find_one_save_ne; [done|]. intros <-. by rewrite fresh_id_None in Hk.
Qed.

Lemma backfill_raws_frozen s0 to raws acc : preserves (frozen s0) (backfill_raws to raws acc).
Proof.
  revert acc. induction raws as [|raw raws IH]; intros acc; cbn [backfill_raws]; preserve.
  apply frozen_step, backfill_raw_frozen.
Qed.

(** A call that writes neither events nor audit rows. *)
Lemma quiet_frozen {A} (m : M state A) s0 :
  (forall s, event_rows (m s).2 = event_rows s /\ reorgs (m s).2 = reorgs s) -> preserves (frozen s0) m.
Proof. intros H. apply frozen_step. intros s. by apply frozen_same; apply H. Qed.

Lemma runReconciliation_frozen s0 contractId now : preserves (frozen s0) (runReconciliation cfg node contractId now).
Proof.
  unfold runReconciliation, getOrCreateCheckpoint, backfillGap, fetchChainHead, fetchLedgerHash.
  preserve; try (by apply quiet_frozen); try apply backfill_raws_frozen.
  apply frozen_step, detect_frozen.
Qed.

Lemma reconcile_frozen now s : frozen s (reconcile cfg node now s).2.
Proof.
  assert (H : preserves (frozen s) (reconcile cfg node now)); [|by apply H, frozen_same].
  unfold reconcile. preserve; try (by apply quiet_frozen).
  apply preserves_catch; [|intros; preserve]. apply preserves_for_each. intros x. apply runReconciliation_frozen.
Qed.

(** Every call that writes the event table: the indexer's (polls, backfills and
    reindexes) and the reconciliation cron's. *)
Inductive op :=
| Index (o : Indexer.op)
| Reconcile (now : Z).

Definition run_op (o : op) (s : state) : state :=
  match o with
  | Index o => mkState (isRunning s) (lastRunAt s) (lastBackfillCount s) (sync s) (reorgs s) (requests s)
                 (Indexer.run_op gen_uuid o (index s))
  | Reconcile now => (reconcile cfg node now s).2
  end.

Definition run_ops (ops : list op) (s : state) : state := foldl (fun s o => run_op o s) s ops.

Lemma run_op_frozen o s : frozen s (run_op o s).
Proof.
  destruct o as [o|now]; [|apply reconcile_frozen]. split.
  - intros Hwf. by apply Indexer.run_op_events.
  - intros Hwf n e Hn Hst. left. by apply Indexer.run_op_events.
  - done.
Qed.

Lemma run_ops_frozen ops s : frozen s (run_ops ops s).
Proof.
  revert s. induction ops as [|o ops IH]; intros s; [by apply frozen_same|].
  eapply frozen_trans; [apply run_op_frozen|apply IH].
Qed.

(** Nothing indexed and nothing reconciled yet. *)
Definition initial (src : source_state) (t0 : Z) : state :=
  mkState false None 0 empty_table empty_table 0 (Indexer.initial src t0).
End histories.

(** C7: What happens to an event after its one try, over every call that writes the
    event table: polls, backfills, reindexes and reconciliation passes with their
    reorg rollbacks.  A tried event is processed with no retry counted or failed with
    one, never dead-lettered, and its row then stays exactly as it is, so it is neither
    applied nor retried again, until a rollback deletes it; such a rollback is recorded
    in an audit row whose fork ledger is below the event's. *)
Theorem tried_events_frozen {B : Backend} {Src : EventSource} (cfg : config) (node : rpc_node)
    (gen_uuid : nat -> string) (src : source_state) (t0 : Z) (before after : list op)
    (n : nat) (e : Indexer.ContractEvent) :
  let s := run_ops cfg node gen_uuid before (initial src t0) in
  let s' := run_ops cfg node gen_uuid after s in
  find_one n (event_rows s) = Some e -> Indexer.status e ≠ Indexer.PENDING ->
  (Indexer.status e = Indexer.PROCESSED /\ Indexer.retry_count e = 0 \/
   Indexer.status e = Indexer.FAILED /\ Indexer.retry_count e = 1) /\
  (find_one n (event_rows s') = Some e \/
   exists k r, find_one k (reorgs s') = Some r /\ find_one k (reorgs s) = None /\
          fork_ledger r < Indexer.ledger e).
Proof.
  intros s s' Hn Hst.
  assert (Hwf : Indexer.wf_events (event_rows s)).
  { apply (frozen_wf _ _ (run_ops_frozen cfg node gen_uuid before (initial src t0))), Indexer.initial_wf. }
  split; [|by apply (frozen_tried _ _ (run_ops_frozen cfg node gen_uuid after s))].
  destruct (Hwf n e Hn) as [_ Hrow]. destruct (Indexer.status e); tauto.
Qed.

Lemma tried_events_frozen_witness :
  let Src := Indexer.ScriptSource (Indexer.chain_script [Indexer.deposit_event "a" 5 "G1" "7"] 9) in
  let node := mkNode (fun _ _ _ => None) (fun _ _ => Some (Some 9)) (fun _ _ => Some (Some "h"%string)) in
  let s := run_ops (B := MemBackend) sample_cfg node (fun _ => ""%string) [Index (Indexer.Poll true 1)]
             (initial (Src := Src) tt 0) in
  let s' := run_ops sample_cfg node (fun _ => ""%string)
              [Reconcile 2; Index (Indexer.Reindex 0); Index (Indexer.Poll true 3); Reconcile 4] s in
  exists e, find_one 1%nat (event_rows s) = Some e /\ Indexer.status e = Indexer.PROCESSED /\
    find_one 1%nat (event_rows s') = Some e.
Proof.
  intros Src node s s'.
  set (e := Indexer.mkEvent 1 5 0 "deposit" [("owner"%string, VStr "G1"); ("amount"%string, VStr "7")]
              None Indexer.PROCESSED 0).
  exists e. split; [vm_compute; reflexivity|]. split; [reflexivity|].
  destruct (tried_events_frozen (B := MemBackend) (Src := Src) sample_cfg node (fun _ => ""%string) tt 0
    [Index (Indexer.Poll true 1)]
    [Reconcile 2; Index (Indexer.Reindex 0); Index (Indexer.Poll true 3); Reconcile 4] 1%nat e)
    as (_ & [H|(k & r & H & _)]).
  - vm_compute. reflexivity.
  - discriminate.
  - exact H.
  - exfalso. assert (Hn : find_one k (reorgs s') = None); [vm_compute|fold s s' in H; congruence].
    reflexivity.
Defined.

(** A reconciliation pass moves its checkpoint past a window it could not read:
    when the event request fails, with the chain head ahead of the checkpoint and no
    hash to compare, nothing is stored and the checkpoint still advances to the end of
    the window, so those ledgers are not reconciled again. *)
Theorem failed_backfill_advances {B : Backend} {Src : EventSource} (cfg : config) (node : rpc_node)
    (contractId url : string) (c : ChainSyncCheckpoint) (now head : Z) (s : state) :
  find_one contractId (sync s) = Some c -> contract_id c = contractId ->
  last_indexed_ledger_hash c = None -> SOROBAN_RPC_URL cfg = Some url -> url ≠ ""%string ->
  (forall n, node_head node n contractId = Some (Some head)) ->
  (forall n from, node_events node n contractId from = None) ->
  0 <= last_indexed_ledger c < head ->
  exists c' s', runReconciliation cfg node contractId now s = (Ret tt, s') /\
    find_one contractId (sync s') = Some c' /\ index s' = index s /\
    last_indexed_ledger c < last_indexed_ledger c' <= head /\
    last_indexed_ledger c' = Z.min (last_indexed_ledger c + getReconcileWindow cfg) head.
Proof.
  intros Hc Hid Hh Hurl Hne Hhead Hev Hl.
  destruct (reconcile_window_bounds cfg (last_indexed_ledger c) head) as (Hb & _ & Hfrom); [lia..|].
  unfold runReconciliation, bind at 1, getOrCreateCheckpoint, bind at 1, gets. rewrite Hc. cbn [ret].
  rewrite Hurl. destruct url as [|ch u]; [done|]. unfold bind at 1. rewrite detect_no_hash by done. cbn [fst].
  unfold bind at 1, fetchChainHead, bind at 1, ask. rewrite Hhead. cbn [ret].
  destruct (Z.leb_spec head (last_indexed_ledger c)); [lia|].
  unfold bind at 1, backfillGap, bind at 1, ask. rewrite Hev. cbn [ret].
  change (0 <=? 0) with true. cbv iota. unfold bind at 1. rewrite fetchLedgerHash_run.
  eexists _, _. split; [reflexivity|]. cbn. rewrite Hid, find_one_save_eq.
  split; [done|]. split; [done|]. cbn. split; [exact Hb|]. lia.
Qed.

Lemma failed_backfill_advances_witness :
  let Src := Indexer.ScriptSource (Indexer.chain_script [] 50) in
  let node := mkNode (fun _ _ _ => None) (fun _ _ => Some (Some 1000)) (fun _ _ => None) in
  let c := mkSync "C1" 50 None 50 0 0 None 0 in
  let s := mkState (B := MemBackend) false None 0 (save "C1"%string c empty_table) empty_table 0
             (Indexer.initial (Src := Src) tt 0) in
  exists c' s', runReconciliation sample_cfg node "C1" 2 s = (Ret tt, s') /\
    find_one "C1"%string (sync s') = Some c' /\ last_indexed_ledger c' = 250.
Proof.
  intros Src node c s.
  destruct (failed_backfill_advances (B := MemBackend) (Src := Src) sample_cfg node "C1" "http://rpc" c 2 1000 s)
    as (c' & s' & H1 & H2 & _ & _ & H3); try done.
  exists c', s'. split; [exact H1|]. split; [exact H2|exact H3].
Defined.
End Reconciliation.
