(* ===== verification/GroupShares.v ===== *)
(** * Group-split share arithmetic of the frontend

    Models [frontend/src/lib/groupShares.ts]: equal splits in basis points, the
    percentages they are edited as and the payout computation that mirrors the vault
    contract. *)
From Stdlib Require Import ZArith Lia SpecFloat Ascii.
From stdpp Require Import base list strings sets.
From S2P Require Import Prelude Storage JsValue JsNumber.
Local Open Scope Z_scope.

Module GroupShares.

Definition TOTAL_BPS : Z := 10000.

(** A [Record<string, number>] in insertion order. *)
Definition shares : Type := list (string * Z).

(** The loop of [equalSharesBps]. *)
Fixpoint share_out (base leftover : Z) (addresses : list string) (acc : shares) : shares :=
  match addresses with
  | [] => acc
  | a :: rest =>
      share_out base (if 0 <? leftover then leftover - 1 else leftover) rest
        (Mem.upsert a (base + (if 0 <? leftover then 1 else 0)) acc)
  end.

Definition equalSharesBps (addresses : list string) : shares :=
  match addresses with
  | [] => []
  | _ =>
      let n := Z.of_nat (length addresses) in
      let base := TOTAL_BPS / n in
      share_out base (TOTAL_BPS - base * n) addresses []
  end.

Definition sumBps (s : shares) : Z := foldl (fun total e => total + e.2) 0 s.

(** [/^\d{1,3}(\.\d{0,2})?$/]. *)
Definition is_digit (c : ascii) : bool :=
  match digit_value 10 c with Some _ => true | None => false end.

Fixpoint digits_then (n : nat) (s : string) : nat * string :=
  match n, s with
  | S n', String c s' => if is_digit c then let '(k, r) := digits_then n' s' in (S k, r) else (O, s)
  | _, _ => (O, s)
  end.

Definition percent_syntax (s : string) : bool :=
  let '(k, r) := digits_then 3 s in
  match k, r with
  | O, _ => false
  | _, EmptyString => true
  | _, String "." r' => match digits_then 2 r' with (_, EmptyString) => true | _ => false end
  | _, _ => false
  end%char.

Definition percentToBps (v : string) : option Z :=
  let trimmed := trim v in
  if decide (trimmed = ""%string) then Some 0
  else if negb (percent_syntax trimmed) then None
  else match num_round (num_mul (parseFloat trimmed) (num_of_Z 100)) with
       | Some bps => if (bps <? 0) || (TOTAL_BPS <? bps) then None else Some bps
       | None => None
       end.

(** [s.replace(/\.?0+$/, "")]: the first position from which an optional point and zeros
    reach the end. *)
Fixpoint all_zeros (s : string) : bool :=
  match s with EmptyString => true | String "0" s' => all_zeros s' | _ => false end%char.
Fixpoint strip_point_zeros (s : string) : string :=
  match s with
  | EmptyString => EmptyString
  | String c s' =>
      let tail := match c with "."%char => s' | _ => s end in
      if negb (bool_decide (tail = ""%string)) && all_zeros tail then EmptyString else String c (strip_point_zeros s')
  end.

(** [(bps / 100).toFixed(2)] without trailing zeros. *)
Definition bpsToPercent (bps : Z) : string :=
  strip_point_zeros (num_toFixed 2 (num_div (num_of_Z bps) (num_of_Z 100))).

(** The loop over [Object.entries(sharesBps)]: the payouts and their sum. *)
Definition pay (poolBig : Z) (acc : shares * Z) (e : string * Z) : shares * Z :=
  let amount := Z.quot (poolBig * e.2) TOTAL_BPS in
  (Mem.upsert e.1 amount acc.1, acc.2 + amount).

(** [None] when the pool is not an integer literal. *)
Definition computePayouts (pool : string) (sharesBps : shares) (remainderRecipient : string)
  : option shares :=
  poolBig ← BigInt_of_string (if decide (pool = ""%string) then "0" else pool)%string;
  let '(payouts, distributed) := foldl (pay poolBig) ([], 0) sharesBps in
  let remainder := poolBig - distributed in
  Some (if remainder =? 0 then payouts
        else Mem.upsert remainderRecipient
               (default 0 (Mem.find payouts remainderRecipient) + remainder) payouts).

Example percentToBps_examples :
  percentToBps "33.33" = Some 3333 /\ percentToBps " 100 " = Some 10000 /\
  percentToBps "7." = Some 700 /\ percentToBps "100.01" = None /\ percentToBps "1.005" = None /\
  percentToBps "" = Some 0.
Proof. repeat split; vm_compute; reflexivity. Qed.

(** ** Properties *)

Lemma upsert_new {V} (k : string) (v : V) t : k ∉ t.*1 -> Mem.upsert k v t = t ++ [(k, v)].
Proof.
  induction t as [|[a b] t IH]; csimpl; [done|]. rewrite not_elem_of_cons. intros [Hne Hni].
  rewrite decide_False by done. by rewrite IH.
Qed.

(** Overwriting a key adds the difference to the sum. *)
Lemma sum_upsert k v (t : shares) :
  NoDup t.*1 -> sumZ ((Mem.upsert k v t).*2) = sumZ (t.*2) + v - default 0 (Mem.find t k).
Proof.
  induction t as [|[a b] t IH]; csimpl; intros Hnd; [lia|].
  apply NoDup_cons in Hnd as [Hni Hnd]. case_decide; csimpl; [lia|]. rewrite IH by done. lia.
Qed.

Lemma sumBps_sumZ (s : shares) : sumBps s = sumZ s.*2.
Proof. unfold sumBps. rewrite foldl_add_sumZ. f_equal. Qed.

(** What the loop gives each address: one more for the first [leftover]. *)
Lemma share_out_run base (addresses : list string) leftover acc :
  NoDup (acc.*1 ++ addresses) -> 0 <= leftover ->
  share_out base leftover addresses acc =
    acc ++ imap (fun i a => (a, base + if Z.of_nat i <? leftover then 1 else 0)) addresses.
Proof.
  revert leftover acc. induction addresses as [|a addresses IH]; intros leftover acc Hnd Hl;
    cbn [share_out]; [by rewrite app_nil_r|].
  assert (Ha : a ∉ acc.*1).
  { apply NoDup_app in Hnd as (_ & Hd & _). intros Hin. apply (Hd a Hin). set_solver. }
  rewrite upsert_new by done. rewrite IH.
  - rewrite <-app_assoc. f_equal. rewrite imap_cons. cbn. f_equal.
    apply imap_ext. intros i x _. cbn. do 2 f_equal.
    destruct (Z.ltb_spec 0 leftover); repeat case_match;
      rewrite ?Z.ltb_lt, ?Z.ltb_ge in *; lia.
  - rewrite fmap_app, <-app_assoc. done.
  - destruct (Z.ltb_spec 0 leftover); lia.
Qed.

Lemma sum_imap_first {A} base leftover (l : list A) :
  0 <= leftover <= Z.of_nat (length l) ->
  sumZ ((imap (fun i a => (a, base + if Z.of_nat i <? leftover then 1 else 0)) l).*2) =
    base * Z.of_nat (length l) + leftover.
Proof.
  revert leftover. induction l as [|a l IH]; intros leftover Hl; [simpl in *; lia|].
  rewrite imap_cons. csimpl in *.
  rewrite (imap_ext _ (fun i a => (a, base + if Z.of_nat i <? Z.max 0 (leftover - 1) then 1 else 0))).
  - rewrite IH by lia. change (Z.of_nat 0) with 0. rewrite Nat2Z.inj_succ.
    destruct (Z.ltb_spec 0 leftover); nia.
  - intros i x _. cbn. do 2 f_equal.
    destruct (Z.ltb_spec (Z.of_nat (S i)) leftover), (Z.ltb_spec (Z.of_nat i) (Z.max 0 (leftover - 1))); lia.
Qed.

(** An equal split is exact and fair: for any non-empty list of distinct
    addresses the shares add up to 10,000 basis points, every address gets a share,
    and no two shares differ by more than one. *)
Theorem equal_shares_exact (addresses : list string) :
  addresses ≠ [] -> NoDup addresses ->
  sumBps (equalSharesBps addresses) = TOTAL_BPS /\ (equalSharesBps addresses).*1 = addresses /\
  exists base, forall a b, (a, b) ∈ equalSharesBps addresses -> b = base \/ b = base + 1.
Proof.
  intros Hne Hnd. set (n := Z.of_nat (length addresses)).
  assert (Hn : 0 < n) by (unfold n; destruct addresses; [done|simpl; lia]).
  assert (Hrun : equalSharesBps addresses = imap (fun i a => (a, TOTAL_BPS / n +
    if Z.of_nat i <? TOTAL_BPS - TOTAL_BPS / n * n then 1 else 0)) addresses).
  { unfold equalSharesBps. destruct addresses as [|a0 l]; [done|]. fold n.
    rewrite share_out_run; [done|done|].
    pose proof (Z.mul_div_le TOTAL_BPS n Hn). lia. }
  rewrite Hrun. pose proof (Z.mul_div_le TOTAL_BPS n Hn). pose proof (Z.mod_pos_bound TOTAL_BPS n Hn).
  pose proof (Z.div_mod TOTAL_BPS n ltac:(lia)). split; [|split].
  - rewrite sumBps_sumZ, sum_imap_first by (unfold n in *; lia). unfold n in *. lia.
  - clear. generalize (TOTAL_BPS - TOTAL_BPS / n * n). intros l.
    rewrite fmap_imap. rewrite <-(list_fmap_id addresses) at 2.
    rewrite <-imap_const. apply imap_ext. done.
  - exists (TOTAL_BPS / n). intros a b Hin. apply elem_of_lookup_imap in Hin as (i & x & Heq & _).
    simplify_eq. case_match; lia.
Qed.

Lemma equal_shares_exact_witness :
  sumBps (equalSharesBps ["G1"; "G2"; "G3"]%string) = 10000 /\
  equalSharesBps ["G1"; "G2"; "G3"]%string = [("G1", 3334); ("G2", 3333); ("G3", 3333)]%string.
Proof.
  split; [|vm_compute; reflexivity].
  apply (equal_shares_exact ["G1"; "G2"; "G3"]%string); [done|repeat constructor; set_solver].
Defined.

Lemma pay_fold poolBig (entries : shares) (acc : shares) d :
  NoDup (acc.*1 ++ entries.*1) ->
  foldl (pay poolBig) (acc, d) entries =
    (acc ++ ((fun e => (e.1, Z.quot (poolBig * e.2) TOTAL_BPS)) <$> entries),
     d + sumZ ((fun e => Z.quot (poolBig * e.2) TOTAL_BPS) <$> entries)).
Proof.
  revert acc d. induction entries as [|[a b] entries IH]; intros acc d Hnd; csimpl.
  { rewrite app_nil_r. f_equal. lia. }
  assert (Ha : a ∉ acc.*1).
  { apply NoDup_app in Hnd as (_ & Hd & _). intros Hin. apply (Hd a Hin). set_solver. }
  unfold pay at 2. cbn [fst snd]. rewrite upsert_new by done. rewrite IH.
  - rewrite <-app_assoc. f_equal. lia.
  - rewrite fmap_app, <-app_assoc. done.
Qed.

(** The sum of the floors of a split that adds up is less than one stroop per member
    away from the pool. *)
Lemma floor_sum pool (entries : shares) :
  0 <= pool -> Forall (fun e => 0 <= e.2) entries ->
  pool * sumZ entries.*2 - TOTAL_BPS * Z.of_nat (length entries) <=
    TOTAL_BPS * sumZ ((fun e => Z.quot (pool * e.2) TOTAL_BPS) <$> entries) <= pool * sumZ entries.*2.
Proof.
  intros Hp H. induction H as [|[a b] entries Hb _ IH]; csimpl; [lia|]. simpl in Hb.
  rewrite Z.quot_div_nonneg by (unfold TOTAL_BPS; nia).
  pose proof (Z.mul_div_le (pool * b) TOTAL_BPS ltac:(unfold TOTAL_BPS; lia)).
  pose proof (Z.mul_succ_div_gt (pool * b) TOTAL_BPS ltac:(unfold TOTAL_BPS; lia)). nia.
Qed.

(** C28: Payouts never create or lose a stroop: for any pool and shares they add up
    to the pool exactly.  When the shares add up to 10,000 basis points and the pool
    is not negative, everyone is paid the floor of their share, except that the
    remainder recipient gets at most one stroop per member on top. *)
Theorem payouts_exact (pool : Z) (sharesBps : shares) (recipient : string) :
  NoDup sharesBps.*1 ->
  exists payouts, computePayouts (Z_to_string pool) sharesBps recipient = Some payouts /\
    sumZ payouts.*2 = pool /\
    (0 <= pool -> Forall (fun e => 0 <= e.2) sharesBps -> sumBps sharesBps = TOTAL_BPS ->
     forall a b, (a, b) ∈ sharesBps ->
       exists p, Mem.find payouts a = Some p /\
         pool * b / TOTAL_BPS <= p <= pool * b / TOTAL_BPS +
           (if decide (a = recipient) then Z.of_nat (length sharesBps) else 0)).
Proof.
  intros Hnd. unfold computePayouts.
  assert (Hne : Z_to_string pool ≠ ""%string).
  { intros He. pose proof (BigInt_of_string_to_string pool) as Hr. rewrite He in Hr.
    destruct (decide (pool = 0)) as [->|]; [done|]. vm_compute in Hr. congruence. }
  rewrite decide_False by done. rewrite BigInt_of_string_to_string. cbn [mbind option_bind].
  rewrite pay_fold by done. cbn [app]. rewrite Z.add_0_l.
  set (base := (fun e : string * Z => (e.1, _)) <$> sharesBps).
  set (d := sumZ _).
  assert (Hbk : base.*1 = sharesBps.*1) by (unfold base; by rewrite <-list_fmap_compose).
  assert (Hbs : sumZ base.*2 = d) by (unfold base, d; by rewrite <-list_fmap_compose).
  assert (Hfind : forall a b, (a, b) ∈ sharesBps -> Mem.find base a = Some (Z.quot (pool * b) TOTAL_BPS)).
  { intros a b Hab. apply Mem.find_elem; [by rewrite Hbk|]. unfold base.
    apply list_elem_of_fmap. by exists (a, b). }
  eexists. split; [reflexivity|]. split.
  - destruct (Z.eqb_spec (pool - d) 0); [lia|]. rewrite sum_upsert by (by rewrite Hbk). lia.
  - intros Hp Hpos Hsum a b Hab. specialize (Hfind a b Hab).
    assert (Hb : 0 <= b). { rewrite Forall_forall in Hpos. by apply (Hpos (a, b)). }
    rewrite Z.quot_div_nonneg in Hfind by (unfold TOTAL_BPS; nia).
    pose proof (floor_sum pool sharesBps Hp Hpos) as Hfl. rewrite sumBps_sumZ in Hsum.
    rewrite Hsum in Hfl. fold d in Hfl. unfold TOTAL_BPS in Hfl.
    destruct (Z.eqb_spec (pool - d) 0); [exists (pool * b / TOTAL_BPS); case_decide; split; [done|lia|done|lia]|].
    rewrite Mem.find_upsert. destruct (decide (recipient = a)) as [->|Hne'].
    + rewrite Hfind. cbn. rewrite decide_True by done. eexists. split; [done|]. lia.
    + rewrite decide_False by done. eexists. split; [done|]. lia.
Qed.

Lemma payouts_exact_witness :
  exists payouts, computePayouts "100" [("G1", 3334); ("G2", 3333); ("G3", 3333)]%string "G1" = Some payouts /\
    sumZ payouts.*2 = 100 /\ Mem.find payouts "G1"%string = Some 34.
Proof.
  destruct (payouts_exact 100 [("G1", 3334); ("G2", 3333); ("G3", 3333)]%string "G1")
    as (payouts & H1 & H2 & _); [repeat constructor; set_solver|].
  exists payouts. split; [exact H1|]. split; [exact H2|].
  vm_compute in H1. injection H1 as <-. reflexivity.
Defined.

Example bpsToPercent_examples :
  bpsToPercent 3333 = "33.33"%string /\ bpsToPercent 10000 = "100"%string /\ bpsToPercent 0 = "0"%string /\
  bpsToPercent 1050 = "10.5"%string /\ bpsToPercent 7 = "0.07"%string.
Proof. vm_compute. repeat split. Qed.

Definition bps_reads_back (bps : Z) : bool := bool_decide (percentToBps (bpsToPercent bps) = Some bps).

Lemma even_shares_read_back :
  forallb (fun n => bps_reads_back (TOTAL_BPS / n) && bps_reads_back (TOTAL_BPS / n + 1)) (seqZ 2 99) = true.
Proof. vm_compute. reflexivity. Qed.

Lemma share_out_forall (P : Z -> Prop) base addresses : forall leftover acc,
  P base -> P (base + 1) -> Forall (fun e => P e.2) acc -> Forall (fun e => P e.2) (share_out base leftover addresses acc).
Proof.
  induction addresses as [|a rest IH]; intros leftover acc Hb Hb1 Hacc; [done|]. cbn [share_out].
  apply IH; [done..|]. assert (Hv : P (base + (if 0 <? leftover then 1 else 0))) by (destruct (0 <? leftover); [done|by rewrite Z.add_0_r]).
  clear IH. induction Hacc as [|[k v] acc Hk Hacc IHacc]; cbn [Mem.upsert]; [by repeat constructor|].
  by case_decide; constructor.
Qed.

(** The shares of an equal split among up to a hundred members, shown as percentages
    and read again by the editor, are the same basis points, although both directions
    compute in doubles. *)
Theorem equal_split_editable (addresses : list string) : (length addresses <= 100)%nat ->
  Forall (fun e => percentToBps (bpsToPercent e.2) = Some e.2) (equalSharesBps addresses).
Proof.
  intros Hn. unfold equalSharesBps. destruct addresses as [|a [|b rest]]; [constructor|by repeat constructor|].
  set (n := Z.of_nat (length (a :: b :: rest))). assert (Hin : n ∈ seqZ 2 99) by (apply elem_of_seqZ; unfold n; simpl in *; lia).
  pose proof (proj1 (forallb_forall _ _) even_shares_read_back n (proj1 (list_elem_of_In _ _) Hin)) as H.
  apply andb_true_iff in H as [H0 H1].
  by apply (share_out_forall (fun b => percentToBps (bpsToPercent b) = Some b)); [apply bool_decide_eq_true_1 in H0|apply bool_decide_eq_true_1 in H1|].
Qed.

Lemma equal_split_editable_witness :
  Forall (fun e => percentToBps (bpsToPercent e.2) = Some e.2) (equalSharesBps ["G1"; "G2"; "G3"]%string).
Proof. apply (equal_split_editable ["G1"; "G2"; "G3"]%string). simpl. lia. Defined.
End GroupShares.
