(* ===== verification/Currency.v ===== *)
(** * Currency display and parsing of the frontend

    Models [frontend/src/lib/currency.ts].  [Intl.NumberFormat] belongs to the
    runtime: [Intl] is what the module uses of it, and [Latin] the CLDR facts the
    round trip relies on; [en_US] is a concrete instance. *)
From Stdlib Require Import ZArith Lia SpecFloat Ascii.
From stdpp Require Import base list strings.
From S2P Require Import Prelude JsValue JsText JsNumber.
Local Open Scope Z_scope.

Module Currency.

Definition STROOPS_PER_XLM : Z := 10000000.
Definition USDC_DECIMALS : Z := 7.
Definition STROOPS_PER_USDC : Z := 10 ^ USDC_DECIMALS.

(** The options given to [Intl.NumberFormat]. *)
Record NumberFormatOptions := mkOptions {
  o_currency : option text;
  o_minimumFractionDigits : option number;
  o_maximumFractionDigits : option number;
}.

(** A formatter: [format] of a [bigint] without fraction digits, with or without
    grouping; [format] of a number, [None] when the options are rejected; the value of
    the [decimal] part of a probe and those of the [group] part of the probes
    1234567.5 and 1234.5, when they have them. *)
Record NumberFormat := mkFormat {
  format_bigint : bool -> Z -> text;
  format_number : NumberFormatOptions -> number -> option text;
  group_part : option text;
  group_part_1234 : option text;
  decimal_part : option text;
}.

(** The runtime: its default locale, and a tag's formatter unless the tag is
    rejected with a [RangeError]. *)
Record Intl := mkIntl {
  default_format : NumberFormat;
  named_format : string -> option NumberFormat;
}.

(** The variants of [UsdcParseResult]. *)
Inductive UsdcParseError := empty | invalid | too_many_decimals.
Definition UsdcParseResult : Type := Z + UsdcParseError.

Record LocaleSeparators := mkSeparators { group : text; decimal : text }.

Record FormatUsdcOptions := mkUsdcOptions {
  u_locale : option string;
  u_maximumFractionDigits : option number;
  u_minimumFractionDigits : option number;
  u_useGrouping : bool;
  u_withSymbol : bool;
}.

(** [options ?? {}] with the defaults of the destructuring. *)
Definition default_usdc (locale : option string) : FormatUsdcOptions :=
  mkUsdcOptions locale None None true false.

Definition clampDigits (value : option number) (fallback : Z) : Z :=
  match value with
  | None => fallback
  | Some v => match num_trunc v with
              | Some z => Z.min USDC_DECIMALS (Z.max 0 z)
              | None => fallback
              end
  end.

Definition toBigInt (stroops : text + Z) : option Z :=
  match stroops with
  | inr z => Some z
  | inl s =>
      match text_trim s with
      | [] | [45] => None
      | 45 :: ds => if forallb is_dec ds then Some (- digits_value ds) else None
      | ds => if forallb is_dec ds then Some (digits_value ds) else None
      end
  end.

(** [/usdc/i] at the start of the text. *)
Definition match_usdc (u : text) : bool :=
  match u with
  | a :: b :: c :: d :: _ =>
      ((a =? 85) || (a =? 117)) && ((b =? 83) || (b =? 115)) &&
      ((c =? 68) || (c =? 100)) && ((d =? 67) || (d =? 99))
  | _ => false
  end.

Section intl.
Context (I : Intl).

(** [new Intl.NumberFormat(resolveLocale(locale))]. *)
Definition resolveLocale (locale : option string) : option NumberFormat :=
  match locale with
  | None => Some (default_format I)
  | Some tag => named_format I tag
  end.

(** The formatter, or the default one when the tag is rejected. *)
Definition format_for (locale : option string) : NumberFormat :=
  default (default_format I) (resolveLocale locale).

(** *** Display through doubles *)

(** [None] when the fallback throws too. *)
Definition formatNumber (value : number) (locale : option string) (rest : NumberFormatOptions) : option text :=
  match num_trunc value with
  | None => Some (units "0")
  | Some _ =>
      match resolveLocale locale ≫= (fun nf => format_number nf rest value) with
      | Some t => Some t
      | None => format_number (default_format I) rest value
      end
  end.

Definition formatCurrency (value : number) (currency : text) (locale : option string)
    (minDigits maxDigits : option number) : option text :=
  let value := match num_trunc value with None => num_of_Z 0 | Some _ => value end in
  match resolveLocale locale ≫= (fun nf => format_number nf (mkOptions (Some currency) minDigits maxDigits) value) with
  | Some t => Some t
  | None =>
      amount ← (resolveLocale locale ≫= (fun nf => format_number nf (mkOptions None minDigits maxDigits) value));
      Some (currency ++ units " " ++ amount)
  end.

Definition formatAssetAmount (value : number) (assetCode : text) (locale : option string)
    (maxDigits : option number) : option text :=
  amount ← formatNumber value locale (mkOptions None None (Some (default (num_of_Z 7) maxDigits)));
  Some (amount ++ units " " ++ assetCode).

(** [Number(stroops) / STROOPS_PER_XLM]. *)
Definition xlm_of_stroops (stroops : string) : number :=
  num_div (Number_of_string stroops) (num_of_Z STROOPS_PER_XLM).

Definition formatStroopsAmount (stroops : string) (locale : option string) (maxDigits : option number)
  : option text :=
  formatNumber (xlm_of_stroops stroops) locale (mkOptions None None (Some (default (num_of_Z 7) maxDigits))).

Definition formatStroops (stroops : string) (assetCode : text) (locale : option string)
    (maxDigits : option number) : option text :=
  formatAssetAmount (xlm_of_stroops stroops) assetCode locale maxDigits.

Definition formatYieldAmount (value : number) (locale : option string) (maxDigits : option number)
  : option text :=
  formatNumber value locale (mkOptions None None (Some (default (num_of_Z 7) maxDigits))).

Definition formatAPR (value : number) (locale : option string) (maxDigits : option number)
  : option text :=
  amount ← formatNumber value locale (mkOptions None None (Some (default (num_of_Z 2) maxDigits)));
  Some (amount ++ units "%").

(** *** Separators *)

Definition getLocaleSeparators (locale : option string) : LocaleSeparators :=
  let nf := format_for locale in
  mkSeparators (default (units ",") (group_part nf)) (default (units ".") (decimal_part nf)).

(** [u.replace(p, by)] replaces the first occurrence of a string. *)
Definition replace_first (p by_ u : text) : text :=
  match index_of p u with
  | Some i => take i u ++ by_ ++ drop (i + length p) u
  | None => u
  end.

(** The double of a text of digits, dots and minus signs. *)
Definition Number_of_text (u : text) : number :=
  Number_of_string (String.string_of_list_ascii ((fun c => ascii_of_N (Z.to_N c)) <$> u)).

(** [None] when the locale tag is rejected, which throws. *)
Definition parseLocaleNumber (input : text) (locale : option string) : option number :=
  match text_trim input with
  | [] => Some S754_nan
  | trimmed =>
      nf ← resolveLocale locale;
      let groupSeparator := default (units ",") (group_part_1234 nf) in
      let decimalSeparator := default (units ".") (decimal_part nf) in
      let isNegative := match trimmed with 45 :: _ => true | _ => false end in
      let ungrouped := List.filter (fun c => negb (existsb (Z.eqb c) groupSeparator || is_blank c)) trimmed in
      let cleaned := List.filter (fun c => is_dec c || (c =? 46) || (c =? 45))
                       (replace_first decimalSeparator (units ".") ungrouped) in
      let value := Number_of_text cleaned in
      Some (if isNegative && num_ltb (num_of_Z 0) value then SFopp value else value)
  end.

(** *** USDC *)

Definition formatGroupedInteger (value : Z) (locale : option string) (useGrouping : bool) : text :=
  format_bigint (format_for locale) useGrouping value.

(** The digits after the decimal mark: at most [maxDigits], without trailing zeros,
    at least [minDigits]. *)
Definition fraction_digits (fraction maxDigits minDigits : Z) : text :=
  padEnd (Z.to_nat minDigits) 48
    (strip_zeros (take (Z.to_nat maxDigits) (padStart (Z.to_nat USDC_DECIMALS) 48 (dec fraction)))).

Definition formatUsdc (stroops : text + Z) (o : FormatUsdcOptions) : text :=
  let maxDigits := clampDigits (u_maximumFractionDigits o) USDC_DECIMALS in
  let minDigits := Z.min (clampDigits (u_minimumFractionDigits o) 2) maxDigits in
  let value := default 0 (toBigInt stroops) in
  let negative := value <? 0 in
  let abs := if negative then - value else value in
  let whole := abs / STROOPS_PER_USDC in
  let fraction := abs mod STROOPS_PER_USDC in
  let fractionDigits := fraction_digits fraction maxDigits minDigits in
  let wholeText := formatGroupedInteger whole (u_locale o) (u_useGrouping o) in
  let isZero := (whole =? 0) && forallb (Z.eqb 48) fractionDigits in
  let sign := if negative && negb isZero then units "-" else [] in
  let amount := match fractionDigits with
                | [] => sign ++ wholeText
                | _ => sign ++ wholeText ++ decimal (getLocaleSeparators (u_locale o)) ++ fractionDigits
                end in
  if u_withSymbol o then amount ++ units " USDC" else amount.

(** The digits of the whole part, ungrouped; [None] when they are grouped
    otherwise than the locale groups them. *)
Definition ungroup (locale : option string) (g wholePart : text) : option text :=
  let groupIsSpace := match g with [c] => is_blank c | _ => false end in
  if negb groupIsSpace && includes g wholePart then
    let wholeDigits := remove_all g wholePart in
    match wholeDigits with
    | [] => None
    | _ =>
        if negb (forallb is_dec wholeDigits) then None
        else if decide (formatGroupedInteger (digits_value wholeDigits) locale true = wholePart)
             then Some wholeDigits else None
    end
  else Some wholePart.

(** The parts before and after the first decimal mark. *)
Definition split_decimal (mark cleaned : text) : text * text :=
  match index_of mark cleaned with
  | None => (cleaned, [])
  | Some i => (take i cleaned, drop (i + length mark) cleaned)
  end.

Definition parseUsdc (input : text) (locale : option string) : UsdcParseResult :=
  let seps := getLocaleSeparators locale in
  let cleaned := text_trim (List.filter (fun c => negb (is_blank c)) (remove_matches match_usdc 4 O input)) in
  match cleaned with
  | [] => inr empty
  | _ =>
      let '(wholePart, fractionPart) := split_decimal (decimal seps) cleaned in
      match ungroup locale (group seps) wholePart with
      | None => inr invalid
      | Some wholeDigits =>
          if negb (forallb is_dec wholeDigits) || negb (forallb is_dec fractionPart) then inr invalid
          else if bool_decide (wholeDigits = []) && bool_decide (fractionPart = []) then inr invalid
          else if (Z.to_nat USDC_DECIMALS <? length fractionPart)%nat then inr too_many_decimals
          else inl (digits_value wholeDigits * STROOPS_PER_USDC +
                    digits_value (padEnd (Z.to_nat USDC_DECIMALS) 48 fractionPart))
      end
  end.

(** The message of a rejected amount. *)
Definition limit_text (bound : Z) (locale : option string) : text :=
  formatUsdc (inr bound) (mkUsdcOptions locale None (Some (num_of_Z 0)) true false).

Definition validateUsdcAmount (input : text) (locale : option string) (min max : option Z) : Z + text :=
  let min := default 1 min in
  match parseUsdc input locale with
  | inr empty => inr (units "Enter an amount.")
  | inr too_many_decimals => inr (units "USDC supports at most 7 decimal places.")
  | inr invalid => inr (units "Enter a valid amount.")
  | inl stroops =>
      if stroops <? min then
        inr (if min <=? 1 then units "Amount must be greater than 0."
             else units "Minimum amount is " ++ limit_text min locale ++ units " USDC.")
      else match max with
           | Some m => if m <? stroops
                       then inr (units "Maximum amount is " ++ limit_text m locale ++ units " USDC.")
                       else inl stroops
           | None => inl stroops
           end
  end.
End intl.

(** ** Round trip *)

(** A locale with Latin digits: one code unit for each separator, the two distinct,
    neither a digit nor a letter of the asset code, the decimal mark visible; the
    grouped notation of a natural number is its digits with group separators
    between. *)
Record Latin (nf : NumberFormat) (g d : Z) : Prop := mkLatin {
  latin_group : default (units ",") (group_part nf) = [g];
  latin_decimal : default (units ".") (decimal_part nf) = [d];
  latin_distinct : g ≠ d;
  latin_symbols : Forall (fun c => is_dec c = false /\ c ≠ 85 /\ c ≠ 117) [g; d];
  latin_visible : is_blank d = false;
  latin_plain : forall v, 0 <= v -> format_bigint nf false v = dec v;
  latin_grouped : forall v, 0 <= v ->
    List.filter (fun c => negb (c =? g)) (format_bigint nf true v) = dec v;
}.

(** *** Fraction digits *)

Lemma strip_zeros_spec u : exists k, u = strip_zeros u ++ replicate k 48.
Proof.
  induction u as [|c u [k IH]]; [by exists O|]. cbn [strip_zeros foldr].
  fold (strip_zeros u). destruct (strip_zeros u) as [|x l] eqn:Hs.
  - destruct (Z.eqb_spec c 48) as [->|Hc].
    + exists (S k). simpl. by rewrite IH.
    + exists k. simpl. by rewrite IH.
  - exists k. rewrite IH at 1. done.
Qed.

Lemma Forall_strip_zeros (P : Z -> Prop) u : Forall P u -> Forall P (strip_zeros u).
Proof.
  destruct (strip_zeros_spec u) as [k Hk]. rewrite Hk at 1. by intros [? _]%Forall_app.
Qed.

(** Padding back the digits of a stripped fraction keeps its value. *)
Lemma value_padded n m u :
  (length u <= n)%nat -> (m <= n)%nat ->
  digits_value (padEnd n 48 (padEnd m 48 (strip_zeros u))) =
    digits_value u * 10 ^ Z.of_nat (n - length u).
Proof.
  intros Hu Hm. destruct (strip_zeros_spec u) as [k Hk].
  set (v := strip_zeros u) in *. clearbody v. subst u. rewrite length_app, length_replicate in *.
  unfold padEnd. rewrite <-app_assoc, <-replicate_add, !digits_value_app, !digits_value_zeros,
    !length_replicate, length_app, length_replicate, !Z.add_0_r.
  rewrite <-Z.mul_assoc, <-Z.pow_add_r by lia. do 2 f_equal. lia.
Qed.

Section fraction.
Context (f M m : Z) (Hf : 0 <= f < STROOPS_PER_USDC) (HM : 0 <= M <= 7) (Hm : 0 <= m <= M).
Let P := padStart 7 48 (dec f).

Lemma padded_length : length P = 7%nat.
Proof.
  unfold P, padStart. rewrite length_app, length_replicate.
  pose proof (dec_length f 7 Hf ltac:(lia)). lia.
Qed.

Lemma padded_digits : Forall (fun c => is_dec c = true) P.
Proof. apply Forall_app. split; [apply replicate_dec|apply dec_digits; lia]. Qed.

Lemma padded_value : digits_value P = f.
Proof. unfold P, padStart. rewrite digits_value_app, digits_value_zeros, dec_value; lia. Qed.

Lemma fraction_digits_dec : Forall (fun c => is_dec c = true) (fraction_digits f M m).
Proof.
  apply Forall_app. split; [|apply replicate_dec].
  apply Forall_strip_zeros, Forall_take, padded_digits.
Qed.

Lemma fraction_digits_length : (length (fraction_digits f M m) <= 7)%nat.
Proof.
  unfold fraction_digits, padEnd. rewrite length_app, length_replicate.
  destruct (strip_zeros_spec (take (Z.to_nat M) P)) as [k Hk].
  apply (f_equal length) in Hk. rewrite length_app, length_take, padded_length in Hk.
  change (padStart (Z.to_nat USDC_DECIMALS) 48 (dec f)) with P. lia.
Qed.

(** The kept digits are the fraction cut off after [M] places. *)
Lemma fraction_digits_value :
  digits_value (padEnd 7 48 (fraction_digits f M m)) = f - f mod 10 ^ (7 - M).
Proof.
  unfold fraction_digits. change (padStart (Z.to_nat USDC_DECIMALS) 48 (dec f)) with P.
  rewrite value_padded by (rewrite ?length_take, ?padded_length; lia).
  rewrite length_take, padded_length, Nat.min_l by lia.
  replace (Z.of_nat (7 - Z.to_nat M)) with (7 - M) by lia.
  set (t := digits_value (take (Z.to_nat M) P)).
  assert (Hd : f = t * 10 ^ (7 - M) + digits_value (drop (Z.to_nat M) P)).
  { rewrite <-padded_value at 1. rewrite <-(take_drop (Z.to_nat M) P) at 1.
    rewrite digits_value_app, length_drop, padded_length. unfold t. do 3 f_equal. lia. }
  pose proof (digits_value_bounds (drop (Z.to_nat M) P) ltac:(apply Forall_drop, padded_digits)) as Hb.
  rewrite length_drop, padded_length in Hb.
  replace (Z.of_nat (7 - Z.to_nat M)) with (7 - M) in Hb by lia.
  rewrite Hd at 2. rewrite Z.add_comm, Z.mod_add, Z.mod_small; lia.
Qed.
End fraction.

(** *** The whole text *)

Lemma remove_usdc_skip u v :
  Forall (fun c => c ≠ 85 /\ c ≠ 117) u ->
  remove_matches match_usdc 4 O (u ++ v) = u ++ remove_matches match_usdc 4 O v.
Proof.
  induction 1 as [|c u [H1 H2] Hu IH]; [done|]. cbn [app remove_matches].
  assert (Hm : match_usdc (c :: u ++ v) = false).
  { unfold match_usdc. destruct (Z.eqb_spec c 85), (Z.eqb_spec c 117); try lia.
    by repeat case_match. }
  by rewrite Hm, IH.
Qed.

Section roundtrip.
Context (I : Intl) (locale : option string) (g d : Z).
Context (HL : Latin (format_for I locale) g d).

Lemma g_symbol : is_dec g = false /\ g ≠ 85 /\ g ≠ 117.
Proof. pose proof (latin_symbols _ _ _ HL) as H. by inversion H. Qed.
Lemma d_symbol : is_dec d = false /\ d ≠ 85 /\ d ≠ 117.
Proof. pose proof (latin_symbols _ _ _ HL) as H. inversion H as [|x l _ H']. by inversion H'. Qed.

(** The whole part: digits and separators, whose digits are those of the number. *)
Lemma whole_text_spec w useGrouping :
  0 <= w ->
  let t := formatGroupedInteger I w locale useGrouping in
  List.filter (fun c => negb (c =? g)) t = dec w /\
  Forall (fun c => is_dec c = true \/ c = g) t.
Proof.
  intros Hw t.
  assert (Hf : List.filter (fun c => negb (c =? g)) t = dec w).
  { unfold t, formatGroupedInteger. destruct useGrouping; [by apply (latin_grouped _ _ _ HL)|].
    rewrite (latin_plain _ _ _ HL) by done. apply filter_all.
    eapply Forall_impl; [by apply dec_digits|]. intros c Hc. simpl.
    destruct (Z.eqb_spec c g) as [->|]; [|done]. by rewrite (proj1 g_symbol) in Hc. }
  split; [done|]. apply Forall_forall. intros c Hc. destruct (Z.eq_dec c g) as [|Hne]; [by right|].
  left. pose proof (dec_digits w Hw) as Hd. rewrite Forall_forall in Hd. apply Hd.
  rewrite <-Hf. apply elem_of_List_filter. split; [done|].
  apply negb_true_iff. by apply Z.eqb_neq.
Qed.

(** What [parseUsdc] sees of it once blanks are removed. *)
Lemma ungroup_whole w useGrouping :
  0 <= w ->
  let W := List.filter (fun c => negb (is_blank c)) (formatGroupedInteger I w locale useGrouping) in
  ungroup I locale [g] W = Some (dec w) /\ (d ∉ W) /\ W ≠ [].
Proof.
  intros Hw W. destruct (whole_text_spec w useGrouping Hw) as [Hf Hall].
  set (t := formatGroupedInteger I w locale useGrouping) in *.
  assert (HW : List.filter (fun c => negb (c =? g)) W = dec w).
  { rewrite <-Hf. unfold W. clear -Hall HL. induction Hall as [|c l Hc Hl IH]; [done|]. simpl.
    destruct Hc as [Hc| ->].
    - rewrite (dec_not_blank c Hc). simpl. rewrite IH. done.
    - rewrite Z.eqb_refl. simpl. destruct (is_blank g); simpl; [exact IH|].
      rewrite Z.eqb_refl. exact IH. }
  assert (HdW : d ∉ W).
  { intros [Hd _]%elem_of_List_filter. rewrite Forall_forall in Hall. destruct (Hall d Hd) as [H|H].
    - by rewrite (proj1 d_symbol) in H.
    - by apply (latin_distinct _ _ _ HL). }
  assert (HneW : W ≠ []).
  { intros E. rewrite E in HW. simpl in HW. symmetry in HW. by apply (dec_nonempty w Hw). }
  split; [|done]. unfold ungroup. destruct (is_blank g) eqn:Hb; cbn [negb andb].
  - (* the separators were removed with the blanks *)
    f_equal. rewrite <-HW. symmetry. apply filter_all. apply Forall_forall.
    intros c [_ Hc]%elem_of_List_filter. destruct (Z.eqb_spec c g) as [->|]; [by rewrite Hb in Hc|done].
  - assert (HWt : W = t).
    { apply filter_all. eapply Forall_impl; [exact Hall|]. intros c [Hc| ->]; simpl.
      - by rewrite dec_not_blank.
      - by rewrite Hb. }
    destruct (includes [g] W) eqn:Hin.
    + rewrite remove_all_one, HW. destruct (dec w) eqn:Hdw; [by apply dec_nonempty in Hdw|].
      rewrite <-Hdw, (forallb_Forall_true is_dec) by by apply dec_digits. cbn [negb].
      rewrite dec_value, decide_True; [done| |done]. rewrite HWt.
      destruct useGrouping; [done|]. exfalso. rewrite HWt in Hin.
      unfold t, formatGroupedInteger in Hin. rewrite (latin_plain _ _ _ HL) in Hin by done.
      unfold includes in Hin. rewrite index_of_absent in Hin; [done|].
      intros Hg. pose proof (dec_digits w Hw) as Hd. rewrite Forall_forall in Hd.
      specialize (Hd g Hg). by rewrite (proj1 g_symbol) in Hd.
    + f_equal. rewrite <-HW. symmetry. apply filter_all. apply Forall_forall. intros c Hc. simpl.
      destruct (Z.eqb_spec c g) as [->|]; [|done]. by apply includes_false in Hin.
Qed.

(** What [parseUsdc] makes of a whole part and fraction digits. *)
Lemma parse_assembled w useGrouping F (suffix : text) :
  0 <= w -> Forall (fun c => is_dec c = true) F -> (length F <= 7)%nat ->
  suffix = [] \/ suffix = units " USDC" ->
  parseUsdc I ((formatGroupedInteger I w locale useGrouping ++
                match F with [] => [] | _ => d :: F end) ++ suffix) locale =
    inl (w * STROOPS_PER_USDC + digits_value (padEnd 7 48 F)).
Proof.
  intros Hw HF Hlen Hsuf. destruct (whole_text_spec w useGrouping Hw) as [_ Hall].
  destruct (ungroup_whole w useGrouping Hw) as (Hun & HdW & HneW). cbv zeta in *.
  set (t := formatGroupedInteger I w locale useGrouping) in *.
  set (D := match F with [] => [] | _ => d :: F end).
  assert (HD : Forall (fun c => is_dec c = true \/ c = d) D).
  { unfold D. destruct F; [constructor|]. constructor; [by right|].
    eapply Forall_impl; [exact HF|]. by left. }
  assert (Hnu : Forall (fun c => c ≠ 85 /\ c ≠ 117) (t ++ D)).
  { assert (Hd : forall c, is_dec c = true -> c ≠ 85 /\ c ≠ 117) by (intros c; unfold is_dec; lia).
    apply Forall_app. split; eapply Forall_impl; [exact Hall| |exact HD|].
    - intros c [?| ->]; [auto|apply g_symbol].
    - intros c [?| ->]; [auto|apply d_symbol]. }
  assert (Hclean : List.filter (fun c => negb (is_blank c)) (remove_matches match_usdc 4 O ((t ++ D) ++ suffix)) =
            List.filter (fun c => negb (is_blank c)) t ++ D).
  { rewrite remove_usdc_skip by done.
    assert (Hs : List.filter (fun c => negb (is_blank c)) (remove_matches match_usdc 4 O suffix) = [])
      by (destruct Hsuf as [->| ->]; reflexivity).
    rewrite !List.filter_app, Hs, app_nil_r. f_equal. apply filter_all.
    eapply Forall_impl; [exact HD|]. intros c [Hc| ->]; simpl.
    - by rewrite dec_not_blank.
    - by rewrite (latin_visible _ _ _ HL). }
  unfold parseUsdc. rewrite Hclean. unfold getLocaleSeparators. cbn [group decimal].
  rewrite (latin_group _ _ _ HL), (latin_decimal _ _ _ HL).
  set (W := List.filter _ t) in *.
  rewrite text_trim_none.
  2:{ apply Forall_app. split.
      - apply Forall_forall. intros c [_ Hc]%elem_of_List_filter. by apply negb_true_iff.
      - eapply Forall_impl; [exact HD|]. intros c [Hc| ->]; [by apply dec_not_blank|apply (latin_visible _ _ _ HL)]. }
  destruct (W ++ D) as [|x l] eqn:HWD; [by apply app_eq_nil in HWD as [? _]|]. rewrite <-HWD.
  assert (Hparts : split_decimal [d] (W ++ D) = (W, F)).
  { unfold split_decimal, D. destruct F as [|y F'].
    - by rewrite app_nil_r, index_of_absent.
    - rewrite index_of_first, take_app_length by done. f_equal.
      change (d :: y :: F') with ([d] ++ y :: F'). rewrite app_assoc.
      rewrite <-(length_app W [d]). apply drop_app_length. }
  rewrite Hparts, Hun.
  rewrite !(forallb_Forall_true is_dec) by (try done; by apply dec_digits). cbn [negb orb].
  rewrite bool_decide_eq_false_2 by by apply dec_nonempty. cbn [andb].
  destruct (Nat.ltb_spec (Z.to_nat USDC_DECIMALS) (length F)); [change (Z.to_nat USDC_DECIMALS) with 7%nat in *; lia|].
  by rewrite dec_value.
Qed.
End roundtrip.

Lemma format_parses (I : Intl) (o : FormatUsdcOptions) (g d n : Z) :
  Latin (format_for I (u_locale o)) g d -> 0 <= n ->
  parseUsdc I (formatUsdc I (inr n) o) (u_locale o) =
    inl (n - n mod 10 ^ (7 - clampDigits (u_maximumFractionDigits o) 7)).
Proof.
  intros HL Hn. unfold formatUsdc. change (default 0 (toBigInt (inr n))) with n.
  destruct (Z.ltb_spec n 0); [lia|]. cbn [andb]. cbv zeta.
  set (M := clampDigits (u_maximumFractionDigits o) USDC_DECIMALS).
  set (m := Z.min (clampDigits (u_minimumFractionDigits o) 2) M).
  assert (HM : 0 <= M <= 7) by (unfold M, clampDigits, USDC_DECIMALS; repeat case_match; lia).
  assert (Hm : 0 <= m <= M).
  { unfold m, clampDigits, USDC_DECIMALS. repeat case_match; lia. }
  assert (Hf : 0 <= n mod STROOPS_PER_USDC < STROOPS_PER_USDC) by (apply Z.mod_pos_bound; done).
  set (F := fraction_digits (n mod STROOPS_PER_USDC) M m).
  assert (Hw : 0 <= n / STROOPS_PER_USDC) by (apply Z.div_pos; [done|unfold STROOPS_PER_USDC, USDC_DECIMALS; lia]).
  assert (Hgoal : parseUsdc I ((formatGroupedInteger I (n / STROOPS_PER_USDC) (u_locale o) (u_useGrouping o) ++
                match F with [] => [] | _ => d :: F end) ++ (if u_withSymbol o then units " USDC" else [])) (u_locale o) =
             inl (n - n mod 10 ^ (7 - M))).
  { rewrite (parse_assembled I (u_locale o) g d HL); [|done|apply fraction_digits_dec; lia|
      apply fraction_digits_length; lia|destruct (u_withSymbol o); auto].
    f_equal. unfold F. rewrite fraction_digits_value by lia.
    assert (Hmod : n mod STROOPS_PER_USDC mod 10 ^ (7 - M) = n mod 10 ^ (7 - M)).
    { unfold STROOPS_PER_USDC, USDC_DECIMALS. apply Z.mod_mod_divide.
      exists (10 ^ M). rewrite <-Z.pow_add_r by lia. f_equal. lia. }
    rewrite Hmod. pose proof (Z.div_mod n STROOPS_PER_USDC ltac:(done)). lia. }
  unfold M, USDC_DECIMALS in Hgoal. rewrite <-Hgoal. f_equal. unfold getLocaleSeparators. cbn [decimal].
  rewrite (latin_decimal _ _ _ HL). fold USDC_DECIMALS. fold M. fold F.
  destruct F; [rewrite app_nil_r|]; destruct (u_withSymbol o); by rewrite ?app_nil_r, ?app_nil_l.
Qed.

(** C27: Parsing what [formatUsdc] prints gives the amount back, cut off after the
    displayed decimals and never rounded up: exactly the amount with the default seven
    decimals.  It holds for every non-negative amount however large, every setting of
    the options and every locale with Latin digits. *)
Theorem usdc_roundtrip (I : Intl) (o : FormatUsdcOptions) (g d n : Z) :
  Latin (format_for I (u_locale o)) g d -> 0 <= n ->
  parseUsdc I (formatUsdc I (inr n) o) (u_locale o) =
    inl (n - n mod 10 ^ (7 - clampDigits (u_maximumFractionDigits o) 7)).
Proof. apply format_parses. Qed.

(** *** A concrete locale *)

(** Thousands separated by commas. *)
Fixpoint group3 (u : text) : text :=
  match u with
  | [] => []
  | c :: u' => if (length u' mod 3 =? 0)%nat && negb (length u' =? 0)%nat
               then c :: 44 :: group3 u' else c :: group3 u'
  end.

Definition en_US : NumberFormat :=
  mkFormat (fun grouping v => if grouping then group3 (dec v) else dec v)
           (fun _ v => match num_trunc v with Some z => Some (dec z) | None => None end)
           (Some (units ",")) (Some (units ",")) (Some (units ".")).

Lemma group3_filter u :
  Forall (fun c => is_dec c = true) u -> List.filter (fun c => negb (c =? 44)) (group3 u) = u.
Proof.
  induction 1 as [|c u Hc Hu IH]; [done|]. cbn [group3].
  assert (Hn : negb (c =? 44) = true) by (unfold is_dec in Hc; lia).
  case_match; cbn [List.filter]; by rewrite Hn, ?IH.
Qed.

Lemma en_US_latin : Latin en_US 44 46.
Proof.
  constructor; try done.
  - repeat constructor; done.
  - intros v Hv. simpl. apply group3_filter. by apply dec_digits.
Qed.

Definition US : Intl := mkIntl en_US (fun tag => if decide (tag = "en-US"%string) then Some en_US else None).

Lemma usdc_roundtrip_witness :
  formatUsdc US (inr 12345678900001) (default_usdc (Some "en-US"%string)) = units "1,234,567.8900001" /\
  parseUsdc US (units "1,234,567.8900001") (Some "en-US"%string) = inl 12345678900001.
Proof.
  split; [vm_compute; reflexivity|].
  exact (usdc_roundtrip US (default_usdc (Some "en-US"%string)) 44 46 12345678900001 en_US_latin ltac:(lia)).
Defined.

Example parseUsdc_examples :
  parseUsdc US (units "1,23.5") (Some "en-US"%string) = inr invalid /\
  parseUsdc US (units " 0.5 usdc ") None = inl 5000000 /\
  parseUsdc US (units ".00000001") None = inr too_many_decimals /\
  parseUsdc US (units "-3") None = inr invalid /\ parseUsdc US (units " USDC") None = inr empty /\
  formatUsdc US (inr (-5)) (mkUsdcOptions None (Some (num_of_Z 2)) None true true) = units "0.00 USDC".
Proof. repeat split; vm_compute; reflexivity. Qed.

(** ** Validation *)

Lemma parseUsdc_nonneg I input locale s : parseUsdc I input locale = inl s -> 0 <= s.
Proof.
  unfold parseUsdc. cbv zeta. destruct (text_trim _) as [|x l]; [done|].
  destruct (split_decimal _ _) as [W F]. destruct (ungroup _ _ _ _) as [ds|]; [|done].
  destruct (forallb is_dec ds) eqn:H1; [|done]. destruct (forallb is_dec F) eqn:H2; [|done].
  cbn [negb orb]. case_match; [done|]. case_match; [done|]. intros [= <-].
  assert (Hall : forall u, forallb is_dec u = true -> Forall (fun c => is_dec c = true) u).
  { intros u Hu. rewrite forallb_forall in Hu. apply Forall_forall. intros c. rewrite list_elem_of_In. auto. }
  pose proof (digits_value_bounds ds (Hall ds H1)).
  pose proof (digits_value_bounds (padEnd (Z.to_nat USDC_DECIMALS) 48 F)
    ltac:(apply Forall_app; split; [auto|apply replicate_dec])).
  apply Z.add_nonneg_nonneg; [apply Z.mul_nonneg_nonneg; [|done]|]; tauto.
Qed.

(** A typed amount is accepted exactly when it parses and lies within the bounds
    (at least one stroop by default), and is then the parsed amount, which is never
    negative; every other input is rejected with a message. *)
Theorem validate_accepts (I : Intl) (input : text) (locale : option string) (min max : option Z) :
  (exists s, validateUsdcAmount I input locale min max = inl s /\ parseUsdc I input locale = inl s /\
        0 <= s /\ default 1 min <= s /\ (forall m, max = Some m -> s <= m)) \/
  (exists msg, validateUsdcAmount I input locale min max = inr msg /\ msg ≠ [] /\
     (forall s, parseUsdc I input locale = inl s ->
        s < default 1 min \/ exists m, max = Some m /\ m < s)).
Proof.
  unfold validateUsdcAmount.
  destruct (parseUsdc I input locale) as [s|[]] eqn:Hp;
    [|right; eexists; split; [done|]; split; [vm_compute; done|naive_solver]..].
  destruct (Z.ltb_spec s (default 1 min)).
  { right. case_match; (eexists; split; [done|]; split; [done|]); intros ? [= <-]; by left. }
  destruct max as [m|].
  - destruct (Z.ltb_spec m s).
    + right. eexists. split; [done|]. split; [done|]. intros ? [= <-]. right. eauto.
    + left. exists s. split; [done|]. split; [done|]. split; [by eapply parseUsdc_nonneg|]. naive_solver.
  - left. exists s. split; [done|]. split; [done|]. split; [by eapply parseUsdc_nonneg|]. naive_solver.
Qed.

(** In a locale that groups only from five digits on (Spanish, Polish, European
    Portuguese) the probe 1234.5 has no group part; [parseLocaleNumber] then takes the
    comma, the decimal mark, for the group separator and reads ["0,5"] as five. *)
Theorem locale_number_misread (nf : NumberFormat) (named : string -> option NumberFormat) :
  group_part_1234 nf = None -> decimal_part nf = Some (units ",") ->
  parseLocaleNumber (mkIntl nf named) (units "0,5") None = Some (num_of_Z 5).
Proof.
  intros Hg Hd. unfold parseLocaleNumber.
  change (text_trim (units "0,5")) with (units "0,5"). cbn -[is_blank is_dec Number_of_text replace_first].
  rewrite Hg, Hd. vm_compute. reflexivity.
Qed.
End Currency.
