(* ===== verification/Streaks.v ===== *)
(** * Savings streaks of the frontend

    Models [frontend/src/lib/streaks.ts]: runs of consecutive days or weeks with a
    deposit, and the badges they earn.  The viewer's time zone is a parameter. *)
From Stdlib Require Import ZArith Lia Sorted.
From stdpp Require Import base list strings sorting sets.
From S2P Require Import Prelude JsValue.
Local Open Scope Z_scope.

Module Streaks.

Inductive StreakUnit := day | week.
#[export] Instance StreakUnit_eq_dec : EqDecision StreakUnit.
Proof. solve_decision. Defined.

Record StreakStats := mkStats {
  current : Z;
  longest : Z;
  depositedThisPeriod : bool;
  lastDepositAt : option Z;
}.

Record StreakBadge := mkBadge { badge_id : string; label : string; threshold : Z; unit : StreakUnit }.

Definition STREAK_BADGES : list StreakBadge :=
  [mkBadge "day-3" "Getting started" 3 day; mkBadge "day-7" "One-week wonder" 7 day;
   mkBadge "day-30" "Monthly master" 30 day; mkBadge "day-100" "Century saver" 100 day;
   mkBadge "week-4" "Steady saver" 4 week; mkBadge "week-12" "Quarter streak" 12 week;
   mkBadge "week-26" "Half-year habit" 26 week; mkBadge "week-52" "Year-round saver" 52 week].

Definition MS_PER_DAY : Z := 86400000.

(** [Array.from(new Set(xs))]: first occurrences, in order. *)
Definition distinct (xs : list Z) : list Z :=
  foldl (fun acc x => if decide (x ∈ acc) then acc else acc ++ [x]) [] xs.

(** The loop of [longest]: the previous period, the run it ends and the longest so
    far. *)
Fixpoint longest_run (prev run best : Z) (rest : list Z) : Z :=
  match rest with
  | [] => best
  | p :: rest' =>
      let run' := if p =? prev + 1 then run + 1 else 1 in
      longest_run p run' (Z.max best run') rest'
  end.

(** The loop of [current], backwards from the latest period. *)
Fixpoint count_back (next count : Z) (before : list Z) : Z :=
  match before with
  | [] => count
  | p :: before' => if p =? next - 1 then count_back p (count + 1) before' else count
  end.

Section local_time.
(** The offset of local time at an instant, in milliseconds. *)
Context (offset : Z -> Z).

(** [Date.UTC(year, month, date)] of the local calendar date is midnight of the local
    day. *)
Definition localDayNumber (date : Z) : Z := (date + offset date) / MS_PER_DAY.

Definition periodIndex (date : Z) (u : StreakUnit) : Z :=
  match u with
  | day => localDayNumber date
  | week => (localDayNumber date + 3) / 7
  end.

Definition computeStreak (depositDates : list Date) (u : StreakUnit) (now : Z) : StreakStats :=
  let valid := omap (fun d => d) depositDates in
  match valid with
  | [] => mkStats 0 0 false None
  | first :: rest =>
      let last_at := foldl Z.max first rest in
      let periods := sort_by (fun p => p) (distinct ((fun d => periodIndex d u) <$> valid)) in
      match periods with
      | [] => mkStats 0 0 false None
      | p0 :: ps =>
          let latest := List.last ps p0 in
          let nowPeriod := periodIndex now u in
          mkStats
            (if (latest =? nowPeriod) || (latest =? nowPeriod - 1)
             then match rev periods with
                  | _ :: before => count_back latest 1 before
                  | [] => 0
                  end
             else 0)
            (longest_run p0 1 1 ps)
            (latest =? nowPeriod)
            (Some last_at)
      end
  end.
End local_time.

Definition getStreakBadges (best : Z) (u : StreakUnit) : list (StreakBadge * bool) :=
  (fun b => (b, threshold b <=? best)) <$> List.filter (fun b => bool_decide (unit b = u)) STREAK_BADGES.

(** ** Specification *)

(** The [k] consecutive periods from [a] on all have a deposit. *)
Definition run_in (P : list Z) (a k : Z) : Prop := forall i, 0 <= i < k -> a + i ∈ P.

(** [best] is the length of the longest run of [P]. *)
Definition longest_in (P : list Z) (best : Z) : Prop :=
  (exists a, run_in P a best) /\ forall a k, run_in P a k -> k <= best.

(** The run that ends at [e] has [n] periods. *)
Definition run_ending (P : list Z) (e n : Z) : Prop :=
  (forall i, 0 <= i < n -> e - i ∈ P) /\ e - n ∉ P.

(** ** Lemmas *)

Lemma distinct_spec xs : NoDup (distinct xs) /\ forall x, x ∈ distinct xs <-> x ∈ xs.
Proof.
  unfold distinct.
  cut (forall acc, NoDup acc ->
    NoDup (foldl (fun acc x => if decide (x ∈ acc) then acc else acc ++ [x]) acc xs) /\
    forall x, x ∈ foldl (fun acc x => if decide (x ∈ acc) then acc else acc ++ [x]) acc xs <-> x ∈ acc \/ x ∈ xs).
  { intros H. destruct (H [] ltac:(constructor)) as [H1 H2]. split; [done|]. intros x. rewrite H2. set_solver. }
  induction xs as [|x xs IH]; intros acc Hnd; simpl; [set_solver|].
  case_decide as Hx.
  - destruct (IH acc Hnd) as [H1 H2]. split; [done|]. intros y. rewrite H2. set_solver.
  - destruct (IH (acc ++ [x])) as [H1 H2].
    { apply NoDup_app. split; [done|]. split; [set_solver|apply NoDup_singleton]. }
    split; [done|]. intros y. rewrite H2. set_solver.
Qed.

(** The sorted periods are strictly increasing. *)
Lemma sorted_strict l : NoDup l -> StronglySorted Z.lt (sort_by (fun p => p) l).
Proof.
  intros Hnd. pose proof (sort_by_sorted (fun p : Z => p) l) as Hs.
  assert (Hnd' : NoDup (sort_by (fun p => p) l)) by by rewrite sort_by_perm.
  induction Hs as [|x xs Hs IH Hall]; [constructor|].
  apply NoDup_cons in Hnd' as [Hni Hnd']. constructor; [by apply IH|].
  rewrite Forall_forall in *. intros y Hy. specialize (Hall y Hy). simpl in Hall.
  assert (x ≠ y) by (intros ->; done). lia.
Qed.

(** Adding a period after all others extends the run that ends there. *)
Lemma run_ending_snoc P prev run p :
  Forall (fun x => x <= prev) P -> prev ∈ P -> prev < p -> 1 <= run -> run_ending P prev run ->
  run_ending (P ++ [p]) p (if p =? prev + 1 then run + 1 else 1).
Proof.
  intros Hle Hin Hlt Hr [H1 H2]. rewrite Forall_forall in Hle.
  destruct (Z.eqb_spec p (prev + 1)) as [->|Hne]; split.
  - intros i Hi. destruct (Z.eq_dec i 0) as [->|]; [set_solver by lia|].
    apply elem_of_app. left. replace (prev + 1 - i) with (prev - (i - 1)) by lia. apply H1. lia.
  - rewrite elem_of_app, list_elem_of_singleton. intros [H|H]; [|lia].
    apply H2. by replace (prev - run) with (prev + 1 - (run + 1)) by lia.
  - intros i Hi. replace i with 0 by lia. rewrite Z.sub_0_r. set_solver.
  - rewrite elem_of_app, list_elem_of_singleton. intros [H|H]; [|lia]. specialize (Hle _ H). lia.
Qed.

Lemma longest_snoc P best prev p n :
  Forall (fun x => x <= prev) P -> prev < p -> longest_in P best ->
  1 <= n -> run_ending (P ++ [p]) p n -> longest_in (P ++ [p]) (Z.max best n).
Proof.
  intros Hle Hlt [[a Ha] Hmax] Hn [H1 H2]. rewrite Forall_forall in Hle. split.
  - destruct (Z.max_spec best n) as [[_ ->]|[_ ->]].
    + exists (p - n + 1). intros i Hi. replace (p - n + 1 + i) with (p - (n - 1 - i)) by lia. apply H1. lia.
    + exists a. intros i Hi. apply elem_of_app. left. by apply Ha.
  - intros b k Hk. destruct (Z.le_gt_cases k 0) as [|Hpos]; [lia|].
    assert (Hlast : b + (k - 1) <= p).
    { specialize (Hk (k - 1) ltac:(lia)). rewrite elem_of_app, list_elem_of_singleton in Hk.
      destruct Hk as [Hk|Hk]; [specialize (Hle _ Hk)|]; lia. }
    destruct (Z.eq_dec (b + (k - 1)) p) as [Heq|Hne].
    + (* the run ends at [p] *)
      apply Z.max_le_iff. right. apply Z.nlt_ge. intros Hlt'. apply H2.
      replace (p - n) with (b + (k - 1 - n)) by lia. apply Hk. lia.
    + apply Z.max_le_iff. left. apply (Hmax b). intros i Hi. specialize (Hk i Hi).
      rewrite elem_of_app, list_elem_of_singleton in Hk. destruct Hk; [done|lia].
Qed.

Lemma longest_run_spec P prev run best rest :
  Forall (fun x => x <= prev) P -> prev ∈ P -> 1 <= run -> run_ending P prev run ->
  longest_in P best -> StronglySorted Z.lt (prev :: rest) ->
  longest_in (P ++ rest) (longest_run prev run best rest).
Proof.
  revert P prev run best. induction rest as [|p rest IH]; intros P prev run best Hle Hin Hr He Hl Hs.
  { by rewrite app_nil_r. }
  apply StronglySorted_inv in Hs as [Hs Hall].
  assert (Hlt : prev < p) by (rewrite Forall_forall in Hall; apply Hall; set_solver).
  simpl. replace (P ++ p :: rest) with ((P ++ [p]) ++ rest) by (by rewrite <-app_assoc).
  pose proof (run_ending_snoc P prev run p Hle Hin Hlt Hr He) as He'.
  apply IH; [|set_solver|destruct (p =? prev + 1); lia|done| |done].
  - apply Forall_app. split; [|by repeat constructor].
    eapply Forall_impl; [exact Hle|]. simpl. lia.
  - eapply longest_snoc; eauto. destruct (p =? prev + 1); lia.
Qed.

Lemma sorted_snoc l x :
  StronglySorted Z.lt (l ++ [x]) -> StronglySorted Z.lt l /\ Forall (fun y => y < x) l.
Proof.
  induction l as [|y l IH]; simpl; intros Hs; [by repeat constructor|].
  apply StronglySorted_inv in Hs as [Hs Hall]. destruct (IH Hs) as [H1 H2].
  apply Forall_app in Hall as [Ha Hb]. split; [by constructor|].
  constructor; [by inversion Hb|done].
Qed.

Lemma count_back_spec l next count :
  StronglySorted Z.lt (l ++ [next]) ->
  run_ending (l ++ [next]) next (count_back next count (rev l) - count + 1) /\
  count <= count_back next count (rev l).
Proof.
  revert next count. induction l as [|p l IH] using rev_ind; intros next count Hs.
  { simpl. split; [|lia]. replace (count - count + 1) with 1 by lia. split.
    - intros i Hi. replace i with 0 by lia. rewrite Z.sub_0_r. set_solver.
    - rewrite list_elem_of_singleton. lia. }
  apply sorted_snoc in Hs as [Hs Hlt]. rewrite rev_app_distr. simpl.
  destruct (sorted_snoc _ _ Hs) as [_ Hltp]. rewrite Forall_forall in Hlt, Hltp.
  assert (Hp : p < next) by (apply Hlt; set_solver).
  destruct (Z.eqb_spec p (next - 1)) as [Heq|Hne].
  - destruct (IH p (count + 1) Hs) as [[H1 H2] H3]. split; [|lia].
    set (n := count_back p (count + 1) (rev l)) in *. split.
    + intros i Hi. destruct (Z.eq_dec i 0) as [->|]; [rewrite Z.sub_0_r; set_solver|].
      apply elem_of_app. left. replace (next - i) with (p - (i - 1)) by lia. apply H1. lia.
    + rewrite elem_of_app, list_elem_of_singleton. intros [H|H]; [|lia].
      apply H2. by replace (p - (n - (count + 1) + 1)) with (next - (n - count + 1)) by lia.
  - split; [|lia]. replace (count - count + 1) with 1 by lia. split.
    + intros i Hi. replace i with 0 by lia. rewrite Z.sub_0_r. set_solver.
    + rewrite !elem_of_app, !list_elem_of_singleton. intros [[H|H]|H]; [|lia|lia].
      specialize (Hltp _ H). lia.
Qed.

Lemma max_spec x l : foldl Z.max x l ∈ x :: l /\ Forall (fun y => y <= foldl Z.max x l) (x :: l).
Proof.
  revert x. induction l as [|y l IH]; intros x; simpl.
  { split; [set_solver|by repeat constructor]. }
  destruct (IH (Z.max x y)) as [H1 H2]. inversion H2 as [|a b Ha Hb]; subst. split.
  - apply elem_of_cons in H1 as [H1|H1]; [|set_solver].
    destruct (Z.max_spec x y) as [[_ Hm]|[_ Hm]]; rewrite Hm in H1; rewrite Hm, H1; set_solver.
  - repeat constructor; [lia|lia|done].
Qed.

(** A strictly sorted non-empty list ends in its greatest element. *)
Lemma sorted_last x l : StronglySorted Z.lt (x :: l) -> exists front, x :: l = front ++ [List.last l x].
Proof.
  intros _. revert x. induction l as [|y l IH]; intros x; [by exists []|].
  destruct (IH y) as [front Hf]. exists (x :: front). simpl. f_equal.
  rewrite Hf at 1. f_equal. f_equal. clear. revert x y. induction l; intros; [done|]. simpl in *. by destruct l.
Qed.

(** The loop over a strictly sorted list finds its longest run. *)
Lemma longest_of_sorted p0 ps : StronglySorted Z.lt (p0 :: ps) -> longest_in (p0 :: ps) (longest_run p0 1 1 ps).
Proof.
  intros Hs. change (p0 :: ps) with ([p0] ++ ps).
  apply longest_run_spec; [by repeat constructor|set_solver|lia| | |done].
  - split; [intros i Hi; replace i with 0 by lia; rewrite Z.sub_0_r; set_solver|].
    rewrite list_elem_of_singleton. lia.
  - split; [exists p0; intros i Hi; replace i with 0 by lia; rewrite Z.add_0_r; set_solver|].
    intros a k Hk. apply Z.nlt_ge. intros Hgt.
    pose proof (Hk 0 ltac:(lia)) as H0. pose proof (Hk 1 ltac:(lia)) as H1.
    rewrite list_elem_of_singleton in *. lia.
Qed.

(** C36: [computeStreak] agrees with the definition of a streak.  Let [P] be the
    periods (days or weeks of the viewer's calendar) in which a valid deposit was
    made.  [longest] is the length of the longest run of consecutive periods in [P];
    [current] is the length of the run that ends at the latest period when that is
    this period or the previous one and zero otherwise; the flag says whether the
    latest period is the current one; the last deposit is the latest valid date. *)
Theorem streak_spec (offset : Z -> Z) (dates : list Date) (u : StreakUnit) (now : Z) :
  let valid := omap (fun d => d) dates in
  let P := (fun d => periodIndex offset d u) <$> valid in
  let nowP := periodIndex offset now u in
  let s := computeStreak offset dates u now in
  longest_in P (longest s) /\
  (valid = [] -> s = mkStats 0 0 false None) /\
  (valid ≠ [] -> exists latest,
     latest ∈ P /\ Forall (fun p => p <= latest) P /\
     (if decide (latest = nowP \/ latest = nowP - 1) then run_ending P latest (current s) else current s = 0) /\
     depositedThisPeriod s = bool_decide (latest = nowP) /\
     exists t, lastDepositAt s = Some t /\ t ∈ valid /\ Forall (fun d => d <= t) valid).
Proof.
  intros valid P nowP s. unfold s, computeStreak. fold valid. clearbody valid.
  destruct valid as [|d0 ds].
  { split; [|split; [done|by intros []]]. split; [exists 0; intros i Hi; simpl in Hi; lia|].
    intros a k Hk. simpl. apply Z.nlt_ge. intros Hpos. specialize (Hk 0 ltac:(lia)). set_solver. }
  fold P. destruct (distinct_spec P) as [Hnd Hdist].
  pose proof (sorted_strict _ Hnd) as Hs. set (L := sort_by (fun p => p) (distinct P)) in *.
  assert (HL : forall x, x ∈ L <-> x ∈ P).
  { intros x. unfold L. by rewrite sort_by_perm, Hdist. }
  destruct L as [|p0 ps] eqn:HLe.
  { exfalso. assert (H : periodIndex offset d0 u ∈ P) by (unfold P; csimpl; set_solver).
    apply HL in H. set_solver. }
  assert (Hrun : forall e n, run_ending (p0 :: ps) e n -> run_ending P e n).
  { intros e n [H1 H2]. split; [intros i Hi; by apply HL, H1|by rewrite <-HL]. }
  destruct (sorted_last p0 ps Hs) as [front Hfront].
  set (latest := List.last ps p0) in *. split.
  - pose proof (longest_of_sorted p0 ps Hs) as Hlong.
    destruct Hlong as [[a Ha] Hmax]. split.
    + exists a. intros i Hi. apply HL. by apply Ha.
    + intros b k Hk. apply (Hmax b). intros i Hi. apply HL. by apply Hk.
  - split; [done|]. intros _. exists latest.
    assert (Hss : StronglySorted Z.lt (front ++ [latest])) by by rewrite <-Hfront.
    split; [apply HL; rewrite Hfront; set_solver|]. split.
    { apply Forall_forall. intros x Hx%HL. rewrite Hfront in Hx.
      apply sorted_snoc in Hss as [_ Hlt]. rewrite Forall_forall in Hlt.
      apply elem_of_app in Hx as [Hx|Hx]; [specialize (Hlt x Hx); lia|set_solver by lia]. }
    cbn [current depositedThisPeriod lastDepositAt]. split; [|split].
    + fold nowP. rewrite Hfront, rev_app_distr. cbn [rev app].
      assert (Hc : run_ending P latest (count_back latest 1 (rev front))).
      { apply Hrun. rewrite Hfront. destruct (count_back_spec front latest 1 Hss) as [Hc _].
        by replace (count_back latest 1 (rev front) - 1 + 1) with (count_back latest 1 (rev front)) in Hc by lia. }
      destruct (Z.eqb_spec latest nowP), (Z.eqb_spec latest (nowP - 1)); cbn [orb];
        [rewrite decide_True by lia..|rewrite decide_False by lia]; done.
    + fold nowP. destruct (Z.eqb_spec latest nowP); symmetry;
        [by apply bool_decide_eq_true_2|by apply bool_decide_eq_false_2].
    + destruct (max_spec d0 ds) as [H1 H2]. eauto.
Qed.

Example streak_example :
  let t d := Some (d * MS_PER_DAY + 1000) in
  computeStreak (fun _ => 0) [t 10; t 12; None; t 11; t 20; t 12] day (13 * MS_PER_DAY) =
    mkStats 0 3 false (Some (20 * MS_PER_DAY + 1000)) /\
  computeStreak (fun _ => 0) [t 10; t 12; t 11] day (13 * MS_PER_DAY) =
    mkStats 3 3 false (Some (12 * MS_PER_DAY + 1000)).
Proof. vm_compute. done. Qed.

End Streaks.
