(* ===== verification/GoalCalculator.v ===== *)
(** * Savings projections of the goal calculator

    Models [frontend/src/lib/savingsProjection.ts] in double arithmetic, as the
    widget computes: the month-by-month projection towards a goal, the balance
    after a number of months and the calendar date that many months ahead. *)
From Stdlib Require Import ZArith Lia SpecFloat.
From stdpp Require Import base list.
From S2P Require Import Prelude JsValue JsNumber JsDate.
Local Open Scope Z_scope.

Module GoalCalculator.

Definition MAX_PROJECTION_MONTHS : nat := 600.

Record ProjectionInput := mkInput {
  goalAmount : number;
  initialDeposit : number;
  monthlyContribution : number;
  apr : number;
}.

Record ProjectionPoint := mkPoint {
  month : nat;
  balance : number;
  contributed : number;
  yieldEarned : number;
}.

Record ProjectionResult := mkResult {
  monthsToGoal : option nat;
  points : list ProjectionPoint;
  final : ProjectionPoint;
}.

Definition sanitize (value : number) : number :=
  match value with
  | S754_finite false _ _ => value
  | _ => S754_zero false
  end.

Definition monthly_rate (i : ProjectionInput) : number :=
  num_div (num_div (sanitize (apr i)) (num_of_Z 100)) (num_of_Z 12).

(** [balance * (1 + monthlyRate) + monthly]. *)
Definition grow (i : ProjectionInput) (b : number) : number :=
  num_add (num_mul b (num_add (num_of_Z 1) (monthly_rate i))) (sanitize (monthlyContribution i)).

Definition reaches (i : ProjectionInput) (b : number) : bool := num_leb (sanitize (goalAmount i)) b.

Definition stalled (i : ProjectionInput) : bool :=
  SFeqb (sanitize (monthlyContribution i)) (num_of_Z 0) && SFeqb (monthly_rate i) (num_of_Z 0).

(** The [for] loop with the months left; [last] is the last point pushed. *)
Fixpoint project_loop (i : ProjectionInput) (left m : nat) (b c : number)
    (pushed : list ProjectionPoint) (last : ProjectionPoint) : ProjectionResult :=
  match left with
  | O => mkResult None pushed last
  | S left' =>
      let b' := grow i b in
      let c' := num_add c (sanitize (monthlyContribution i)) in
      let point := mkPoint m b' c' (num_sub b' c') in
      let pushed' := pushed ++ [point] in
      if reaches i b' then mkResult (Some m) pushed' point
      else if stalled i then mkResult None pushed' point
      else project_loop i left' (S m) b' c' pushed' point
  end.

Definition projectSavings (i : ProjectionInput) : ProjectionResult :=
  let b := sanitize (initialDeposit i) in
  let start := mkPoint 0 b b (num_of_Z 0) in
  if reaches i b then mkResult (Some O) [start] start
  else project_loop i MAX_PROJECTION_MONTHS 1 b b [start] start.

(** The loop of [balanceAfter]: the balance and the principal. *)
Fixpoint after (i : ProjectionInput) (months : nat) : number * number :=
  match months with
  | O => (sanitize (initialDeposit i), sanitize (initialDeposit i))
  | S k => let '(b, c) := after i k in
           (grow i b, num_add c (sanitize (monthlyContribution i)))
  end.

Definition balanceAfter (i : ProjectionInput) (months : nat) : ProjectionPoint :=
  let '(b, c) := after i months in mkPoint months b c (num_sub b c).

(** ** Properties *)

Lemma sanitize_sub x : num_sub (sanitize x) (sanitize x) = num_of_Z 0.
Proof.
  destruct x as [| | |[] m e]; try reflexivity. simpl sanitize. unfold num_sub, SFsub.
  set (ez := Z.min e e). by rewrite Z.sub_diag.
Qed.

(** The points of months [0 .. n - 1]. *)
Definition months (i : ProjectionInput) (n : nat) : list ProjectionPoint := balanceAfter i <$> seq 0 n.

Lemma months_S i n : months i (S n) = months i n ++ [balanceAfter i n].
Proof. unfold months. by rewrite seq_S, fmap_app. Qed.

(** Whether the balance after [k] months reaches the goal. *)
Definition reached (i : ProjectionInput) (k : nat) : bool := reaches i (balance (balanceAfter i k)).

Lemma project_loop_spec i left m b c pushed last :
  after i m = (b, c) -> pushed = months i (S m) -> last = balanceAfter i m ->
  (forall j, (j <= m)%nat -> reached i j = false) ->
  exists n, let r := project_loop i left (S m) b c pushed last in
    (m <= n <= m + left)%nat /\ points r = months i (S n) /\ final r = balanceAfter i n /\
    (forall j, (j < n)%nat -> reached i j = false) /\
    ((monthsToGoal r = Some n /\ reached i n = true) \/
     (monthsToGoal r = None /\ reached i n = false /\ (n = (m + left)%nat \/ stalled i = true))).
Proof.
  revert m b c pushed last. induction left as [|left IH]; intros m b c pushed last Hbc Hp Hl Hj.
  { exists m. cbv zeta. cbn [project_loop points final monthsToGoal].
    repeat split; try lia; try done; [intros j ?; apply Hj; lia|]. right. repeat split; [by apply Hj|]. left. lia. }
  assert (Hpt : mkPoint (S m) (grow i b) (num_add c (sanitize (monthlyContribution i)))
            (num_sub (grow i b) (num_add c (sanitize (monthlyContribution i)))) = balanceAfter i (S m)).
  { unfold balanceAfter. cbn [after]. by rewrite Hbc. }
  assert (Hre : reaches i (grow i b) = reached i (S m)).
  { unfold reached. by rewrite <-Hpt. }
  assert (Hb' : after i (S m) = (grow i b, num_add c (sanitize (monthlyContribution i))))
    by (cbn [after]; by rewrite Hbc).
  cbn [project_loop]. rewrite Hpt, Hre, Hp, <-months_S.
  destruct (reached i (S m)) eqn:Hr; [|destruct (stalled i) eqn:Hst].
  - exists (S m). repeat split; try lia; [intros j ?; apply Hj; lia|]. by left.
  - exists (S m). repeat split; try lia; [intros j ?; apply Hj; lia|]. right. auto.
  - destruct (IH (S m) _ _ _ _ Hb' eq_refl eq_refl) as (n & H1 & H2 & H3 & H4 & H5).
    { intros j Hj'. destruct (decide (j = S m)) as [->|]; [done|]. apply Hj. lia. }
    exists n. repeat split; try done; try lia. destruct H5 as [H5|(H5 & H6 & H7)]; [by left|].
    right. repeat split; try done. destruct H7; [left; lia|by right].
Qed.

(** The two models of the calculator agree: every point of [projectSavings] is
    [balanceAfter] of its month, and the projection stops at the first month whose
    [balanceAfter] reaches the goal, within 600 months.  It reports no month only when
    none of the projected ones reaches the goal and it has projected all 600 or
    nothing is contributed and nothing accrues. *)
Theorem projection_agrees (i : ProjectionInput) :
  exists n, (n <= MAX_PROJECTION_MONTHS)%nat /\
    points (projectSavings i) = balanceAfter i <$> seq 0 (S n) /\
    final (projectSavings i) = balanceAfter i n /\
    (forall j, (j < n)%nat -> reaches i (balance (balanceAfter i j)) = false) /\
    match monthsToGoal (projectSavings i) with
    | Some k => k = n /\ reaches i (balance (balanceAfter i n)) = true
    | None => reaches i (balance (balanceAfter i n)) = false /\
              (n = MAX_PROJECTION_MONTHS \/ stalled i = true)
    end.
Proof.
  assert (Hstart : mkPoint 0 (sanitize (initialDeposit i)) (sanitize (initialDeposit i)) (num_of_Z 0) =
            balanceAfter i 0).
  { unfold balanceAfter. cbn [after]. by rewrite sanitize_sub. }
  unfold projectSavings. rewrite Hstart.
  change (reaches i (sanitize (initialDeposit i))) with (reached i 0).
  destruct (reached i 0) eqn:H0.
  - exists 0%nat. cbn [points final monthsToGoal]. repeat split; try done; lia.
  - destruct (project_loop_spec i MAX_PROJECTION_MONTHS 0 _ _ [balanceAfter i 0] (balanceAfter i 0) eq_refl eq_refl eq_refl)
      as (n & H1 & H2 & H3 & H4 & H5).
    { intros j Hj. by replace j with 0%nat by lia. }
    exists n. split; [lia|]. split; [done|]. split; [done|]. split; [done|].
    destruct H5 as [[-> ?]|(-> & ? & ?)]; [done|]. split; [done|]. tauto.
Qed.

Example projection_example :
  let i := mkInput (num_of_Z 1000) (num_of_Z 100) (num_of_Z 300) (num_of_Z 0) in
  monthsToGoal (projectSavings i) = Some 3%nat /\
  balance (final (projectSavings i)) = num_of_Z 1000.
Proof. vm_compute. done. Qed.

(** ** Calendar months *)

Section calendar.
(** Local time of an instant and the instant of a local time. *)
Context (LocalTime UTC : Z -> Z).

(** [date.setMonth(date.getMonth() + months)]: the day of the month is kept and may run
    into the month after. *)
Definition addMonths (months from : Z) : Z :=
  let t := LocalTime from in
  let '(y, m, d) := ymd (Day t) in
  UTC (MakeDay y (m - 1 + months) d * msPerDay + TimeWithinDay t).

(** Adding months to a date gives the same day of the month that many months on, at
    the same time of day, when that month has the day; otherwise it runs over into the
    following month by the days that are missing. *)
Theorem addMonths_calendar (months from : Z) : (forall t, LocalTime (UTC t) = t) ->
  let '(y, m, d) := ymd (Day (LocalTime from)) in
  let y' := y + (m - 1 + months) / 12 in
  let m' := (m - 1 + months) mod 12 + 1 in
  TimeWithinDay (LocalTime (addMonths months from)) = TimeWithinDay (LocalTime from) /\
  (d <= days_in_month y' m' -> ymd (Day (LocalTime (addMonths months from))) = (y', m', d)) /\
  (days_in_month y' m' < d -> m' < 12 ->
     ymd (Day (LocalTime (addMonths months from))) = (y', m' + 1, d - days_in_month y' m')).
Proof.
  intros Hz. unfold addMonths. pose proof (ymd_fields (Day (LocalTime from))) as Hf.
  destruct (ymd (Day (LocalTime from))) as [[y m] d]. destruct Hf as (Hm & Hd & _).
  set (y' := y + (m - 1 + months) / 12). set (m' := (m - 1 + months) mod 12 + 1). rewrite Hz.
  pose proof (Z.mod_pos_bound (LocalTime from) msPerDay ltac:(done)) as Ht. unfold TimeWithinDay at 1 2.
  pose proof (Z.mod_pos_bound (m - 1 + months) 12 ltac:(done)) as Hm'.
  assert (Hmk : forall D, MakeDay y (m - 1 + months) D = MakeDay y' (m' - 1) D).
  { intros D. unfold MakeDay, m'. replace ((m - 1 + months) mod 12 + 1 - 1) with ((m - 1 + months) mod 12) by lia.
    rewrite (Z.div_small ((m - 1 + months) mod 12)), (Z.mod_small ((m - 1 + months) mod 12)), Z.add_0_r by lia. done. }
  assert (Hday : forall D, Day (D * msPerDay + TimeWithinDay (LocalTime from)) = D).
  { intros D. unfold Day, TimeWithinDay. rewrite Z.div_add_l, Z.div_small by done. lia. }
  split; [unfold TimeWithinDay; rewrite Z.add_comm, Z.mod_add, Z.mod_mod by done; done|].
  rewrite Hday, Hmk. split.
  - intros Hle. apply ymd_MakeDay. unfold m' in *. split; lia.
  - intros Hlt H12. replace (MakeDay y' (m' - 1) d) with (MakeDay y' (m' + 1 - 1) (d - days_in_month y' m')).
    + apply ymd_MakeDay. unfold calendar_date. split; [unfold m' in *; lia|].
      pose proof (short_month y' (m' + 1) ltac:(unfold m' in *; lia)). pose proof (short_month y' m' ltac:(unfold m' in *; lia)). lia.
    + unfold MakeDay, days_in_month. rewrite !Z.div_small, !Z.mod_small, !Z.add_0_r by (unfold m' in *; lia).
      replace (m' + 1 - 1) with m' by lia. lia.
Qed.
End calendar.

Lemma addMonths_calendar_witness : ymd (Day (addMonths id id 1 1706659200000)) = (2024, 3, 2).
Proof.
  destruct (addMonths_calendar id id 1 1706659200000) as (_ & _ & H); [done|]. apply H; vm_compute; reflexivity.
Defined.
End GoalCalculator.
