(* ===== verification/Roundup.v ===== *)
(** * Round-up savings: calculator and service

    Models [backend/src/savings-roundup/services/roundup-calculator.service.ts] and
    [roundup.service.ts] over the configuration, record and batch tables and the
    balance service the deposits are credited to. *)
From Stdlib Require Import ZArith Lia SpecFloat.
From stdpp Require Import base list strings sorting sets.
From S2P Require Import Prelude Storage JsValue JsNumber Balance.
Local Open Scope Z_scope.

Module Roundup.

Inductive RoundupMethod := NEAREST_DOLLAR | NEAREST_CENT | NEAREST_QUARTER | PERCENTAGE | FIXED_AMOUNT.
Inductive RoundupFrequency := IMMEDIATE | DAILY | WEEKLY | MONTHLY | BATCH.
Inductive RoundupRecordStatus := RPending | RProcessing | RCompleted | RFailed | RCancelled.
Inductive RoundupTriggerSource := TRANSACTION | EXTERNAL | WEBHOOK | API | SCHEDULED.
Inductive RoundupBatchStatus := BPending | BProcessing | BCompleted | BPartial | BFailed | BCancelled.

#[export] Instance RoundupFrequency_eq_dec : EqDecision RoundupFrequency.
Proof. solve_decision. Defined.
#[export] Instance RoundupRecordStatus_eq_dec : EqDecision RoundupRecordStatus.
Proof. solve_decision. Defined.

Record RoundupConfig := mkConfig {
  cfg_id : string;
  cfg_user_id : string;
  cfg_name : string;
  description : option string;
  method : RoundupMethod;
  method_parameter : option string;
  frequency : RoundupFrequency;
  min_roundup_amount : string;
  max_roundup_per_transaction : string;
  target_vault : string;
  is_active : bool;
  is_paused : bool;
  pause_reason : option string;
  cfg_created_at : Z;
}.

Record RoundupRecord := mkRecord {
  rec_id : nat;
  user_id : string;
  config_id : string;
  status : RoundupRecordStatus;
  trigger_source : RoundupTriggerSource;
  roundup_amount : string;
  original_amount : string;
  method_applied : RoundupMethod;
  transaction_reference : option string;
  trigger_timestamp : Z;
  batch_id : option nat;
  deposit_tx_hash : option string;
  deposit_ledger : option Z;
  error_message : option string;
  processed_at : option Z;
  rec_created_at : Z;
}.

Record RoundupBatch := mkBatch {
  b_id : nat;
  record_count : Z;
  total_amount : string;
  b_status : RoundupBatchStatus;
  successful_count : Z;
  b_error_message : option string;
  b_created_at : Z;
  processing_started_at : option Z;
  b_processed_at : option Z;
}.

(** ** The calculator *)

(** [amount % unit] of [bigint]s has the sign of the amount. *)
Definition round_to (unit amount : Z) : Z :=
  let remainder := Z.rem amount unit in
  if remainder =? 0 then 0 else unit - remainder.

Definition roundNearestDollar (amount : Z) : Z := round_to 10000000 amount.
Definition roundNearestCent (amount : Z) : Z := round_to 100000 amount.
Definition roundNearestQuarter (amount : Z) : Z := round_to 2500000 amount.

(** [BigInt(Math.floor(...))] throws on a number that is not finite. *)
Definition roundPercentage {St} (amount : Z) (percentage : number) : M St Z :=
  if num_leb percentage (num_of_Z 0) || num_leb (num_of_Z 100) percentage then ret 0
  else
    let percentageDecimal := num_div percentage (num_of_Z 100) in
    of_option (JsError "The number cannot be converted to a BigInt because it is not an integer")
      (num_floor (num_mul (num_of_Z amount) percentageDecimal)).

(** [Number(methodParameter) || 1]. *)
Definition percentage_of (methodParameter : option string) : number :=
  let n := match methodParameter with Some p => Number_of_string p | None => S754_nan end in
  match n with S754_nan | S754_zero _ => num_of_Z 1 | _ => n end.

Definition calculateRoundup {St} (amount : Z) (mth : RoundupMethod) (methodParameter : option string)
    (maxRoundup : option Z) : M St Z :=
  await roundup := (match mth with
    | NEAREST_DOLLAR => ret (roundNearestDollar amount)
    | NEAREST_CENT => ret (roundNearestCent amount)
    | NEAREST_QUARTER => ret (roundNearestQuarter amount)
    | PERCENTAGE => roundPercentage amount (percentage_of methodParameter)
    | FIXED_AMOUNT =>
        match methodParameter with
        | None | Some EmptyString => ret 0
        | Some p => BigInt p
        end
    end) in
  let capped := match maxRoundup with
                | Some mx => if negb (mx =? 0) && (mx <? roundup) then mx else roundup
                | None => roundup
                end in
  ret (if capped <? 0 then 0 else capped).

Definition getRoundedAmount {St} (original : Z) (mth : RoundupMethod) (methodParameter : option string)
    (maxRoundup : option Z) : M St Z :=
  await roundup := calculateRoundup original mth methodParameter maxRoundup in
  ret (original + roundup).

(** ** The service *)

(** The fields of [CreateRoundupConfigDto] and [UpdateRoundupConfigDto]; the numeric
    ones are given as their decimal strings, zero being falsy. *)
Record CreateRoundupConfigDto := mkCreate {
  c_name : string;
  c_description : option string;
  c_method : RoundupMethod;
  c_method_parameter : option string;
  c_frequency : RoundupFrequency;
  c_min : option Z;
  c_max : option Z;
  c_target_vault : option string;
}.

Record UpdateRoundupConfigDto := mkUpdate {
  u_name : option string;
  u_description : option (option string);
  u_method : option RoundupMethod;
  u_method_parameter : option string;
  u_frequency : option RoundupFrequency;
  u_min : option Z;
  u_max : option Z;
  u_target_vault : option string;
  u_is_active : option bool;
  u_is_paused : option bool;
  u_pause_reason : option (option string);
}.

Record RoundupStats := mkStats {
  total_configs : Z;
  active_configs : Z;
  paused_configs : Z;
  total_accumulated : string;
  total_processed : string;
  pending_records : Z;
  completed_records : Z;
  failed_records : Z;
  last_batch_at : option Z;
}.

(** [x || d] of a number and of a string. *)
Definition or_num (x : option Z) (d : Z) : Z :=
  match x with Some z => if z =? 0 then d else z | None => d end.
Definition or_str (x : option string) (d : string) : string :=
  match x with None | Some EmptyString => d | Some s => s end.

Section service.
Context {B : Backend}.
(** [numeric p] is the text the database returns for the stored [numeric(10,4)]
    value [p]; [tx] names the generated transaction hashes. *)
Context (numeric : string -> string) (tx : nat -> string).

Record state := mkState {
  configs : table string RoundupConfig;
  records : table nat RoundupRecord;
  batches : table nat RoundupBatch;
  balance : Balance.state;
}.

Definition set_configs f s := mkState (f (configs s)) (records s) (batches s) (balance s).
Definition set_records f s := mkState (configs s) (f (records s)) (batches s) (balance s).
Definition set_batches f s := mkState (configs s) (records s) (f (batches s)) (balance s).
Definition on_balance {A} (m : M Balance.state A) : M state A :=
  zoom balance (fun b s => mkState (configs s) (records s) (batches s) b) m.

(** The unique index on [(user_id, is_active)]. *)
Definition conflicts (c : RoundupConfig) (t : table string RoundupConfig) : bool :=
  existsb (fun r => negb (bool_decide (r.1 = cfg_id c)) && bool_decide (cfg_user_id r.2 = cfg_user_id c) &&
                    Bool.eqb (is_active r.2) (is_active c)) (rows t).

Definition save_config (c : RoundupConfig) : M state RoundupConfig :=
  await clash := gets (fun s => conflicts c (configs s)) in
  if clash : bool then throw (DatabaseError "23505")
  else do modify (set_configs (save (cfg_id c) c)) ;> ret c.

Definition createConfig (uuid userId : string) (dto : CreateRoundupConfigDto) (now : Z)
  : M state RoundupConfig :=
  save_config (mkConfig uuid userId (c_name dto) (c_description dto) (c_method dto)
    (numeric <$> c_method_parameter dto) (c_frequency dto)
    (Z_to_string (or_num (c_min dto) 1000000)) (Z_to_string (or_num (c_max dto) 100000000))
    (or_str (c_target_vault dto) "flexible") true false None now).

Definition getConfig (cid : string) : M state RoundupConfig :=
  await c := gets (fun s => find_one cid (configs s)) in
  of_option (NotFoundException ("Configuration " +:+ cid +:+ " not found")) c.

Definition listConfigs (userId : string) (activeOnly : bool) : M state (list RoundupConfig) :=
  gets (fun s => order_by (fun c => - cfg_created_at c)
    (List.filter (fun c => bool_decide (cfg_user_id c = userId) && (negb activeOnly || is_active c))
       ((rows (configs s)).*2))).

Definition updateConfig (cid : string) (dto : UpdateRoundupConfigDto) : M state RoundupConfig :=
  await c := getConfig cid in
  save_config (mkConfig (cfg_id c) (cfg_user_id c)
    (or_str (u_name dto) (cfg_name c))
    (default (description c) (u_description dto))
    (default (method c) (u_method dto))
    (match u_method_parameter dto with Some p => Some (numeric p) | None => method_parameter c end)
    (default (frequency c) (u_frequency dto))
    (match u_min dto with Some z => Z_to_string z | None => min_roundup_amount c end)
    (match u_max dto with Some z => Z_to_string z | None => max_roundup_per_transaction c end)
    (or_str (u_target_vault dto) (target_vault c))
    (default (is_active c) (u_is_active dto))
    (default (is_paused c) (u_is_paused dto))
    (default (pause_reason c) (u_pause_reason dto))
    (cfg_created_at c)).

Definition set_paused (c : RoundupConfig) (b : bool) (reason : option string) : RoundupConfig :=
  mkConfig (cfg_id c) (cfg_user_id c) (cfg_name c) (description c) (method c) (method_parameter c)
    (frequency c) (min_roundup_amount c) (max_roundup_per_transaction c) (target_vault c)
    (is_active c) b reason (cfg_created_at c).

(** Without a reason the column keeps its value: [save] skips [undefined]. *)
Definition pauseConfig (cid : string) (reason : option string) : M state RoundupConfig :=
  await c := getConfig cid in
  save_config (set_paused c true (match reason with Some r => Some r | None => pause_reason c end)).

Definition resumeConfig (cid : string) : M state RoundupConfig :=
  await c := getConfig cid in
  save_config (set_paused c false None).

(** [records.reduce((sum, r) => sum + BigInt(r.roundup_amount), 0n)]. *)
Fixpoint sum_roundups (sum : Z) (rs : list RoundupRecord) : M state Z :=
  match rs with
  | [] => ret sum
  | r :: rs' => await n := BigInt (roundup_amount r) in sum_roundups (sum + n) rs'
  end.

(** [recordRepository.update(r.id, patch)] for each of the records. *)
Definition update_records (rs : list RoundupRecord) (patch : RoundupRecord -> RoundupRecord)
  : M state unit :=
  modify (set_records (update_where (fun k _ => bool_decide (k ∈ rec_id <$> rs)) patch)).

Definition patch_processing (bid : nat) (r : RoundupRecord) : RoundupRecord :=
  mkRecord (rec_id r) (user_id r) (config_id r) RProcessing (trigger_source r) (roundup_amount r)
    (original_amount r) (method_applied r) (transaction_reference r) (trigger_timestamp r)
    (Some bid) (deposit_tx_hash r) (deposit_ledger r) (error_message r) (processed_at r) (rec_created_at r).
Definition patch_completed (now : Z) (r : RoundupRecord) : RoundupRecord :=
  mkRecord (rec_id r) (user_id r) (config_id r) RCompleted (trigger_source r) (roundup_amount r)
    (original_amount r) (method_applied r) (transaction_reference r) (trigger_timestamp r)
    (batch_id r) (Some (tx (rec_id r))) (Some 12345) (error_message r) (Some now) (rec_created_at r).
Definition patch_failed (msg : string) (now : Z) (r : RoundupRecord) : RoundupRecord :=
  mkRecord (rec_id r) (user_id r) (config_id r) RFailed (trigger_source r) (roundup_amount r)
    (original_amount r) (method_applied r) (transaction_reference r) (trigger_timestamp r)
    (batch_id r) (deposit_tx_hash r) (deposit_ledger r) (Some msg) (Some now) (rec_created_at r).

Definition simulateDepositSuccess (rs : list RoundupRecord) (now : Z) : M state unit :=
  do update_records rs (patch_completed now) ;>
  await total := sum_roundups 0 rs in
  match rs with
  | [] => throw (TypeError "Cannot read properties of undefined (reading 'user_id')")
  | r :: _ =>
      await _b := on_balance (Balance.credit (user_id r) (Z_to_string total) now) in
      ret tt
  end.

Definition finish (b : RoundupBatch) (st : RoundupBatchStatus) (ok : Z) (err : option string) (now : Z)
  : RoundupBatch :=
  mkBatch (b_id b) (record_count b) (total_amount b) st ok err (b_created_at b)
    (processing_started_at b) (Some now).

Definition processBatch (rs : list RoundupRecord) (cid : string) (now : Z) : M state RoundupBatch :=
  await _config := getConfig cid in
  await total := sum_roundups 0 rs in
  await bid := gets (fun s => fresh_id (batches s)) in
  let batch := mkBatch bid (Z.of_nat (length rs)) (Z_to_string total) BProcessing 0 None now (Some now) None in
  do modify (set_batches (save bid batch)) ;>
  do update_records rs (patch_processing bid) ;>
  await final := catch
    (do simulateDepositSuccess rs now ;>
     ret (finish batch BCompleted (Z.of_nat (length rs)) None now))
    (fun e =>
       do update_records rs (patch_failed (exn_message e) now) ;>
       ret (finish batch BFailed 0 (Some (exn_message e)) now)) in
  do modify (set_batches (save bid final)) ;>
  ret final.

Definition pending_of (cid : string) (s : state) : list RoundupRecord :=
  List.filter (fun r => bool_decide (config_id r = cid) && bool_decide (status r = RPending))
    ((rows (records s)).*2).

Definition processRecordsForConfig (cid : string) (now : Z) : M state (option RoundupBatch) :=
  await _config := getConfig cid in
  await pending := gets (pending_of cid) in
  match pending with
  | [] => ret None
  | rs => await b := processBatch rs cid now in ret (Some b)
  end.

Fixpoint process_configs (now : Z) (cs : list RoundupConfig) : M state (list RoundupBatch) :=
  match cs with
  | [] => ret []
  | c :: cs' =>
      await b := processRecordsForConfig (cfg_id c) now in
      await rest := process_configs now cs' in
      ret (match b with Some x => x :: rest | None => rest end)
  end.

Definition processRecordsForUser (userId : string) (now : Z) : M state (list RoundupBatch) :=
  await cs := listConfigs userId true in
  process_configs now cs.

(** [recordRoundup]: [None] is [null], nothing recorded. *)
Definition recordRoundup (userId cid : string) (amount : Z) (trigger : RoundupTriggerSource)
    (reference : option string) (triggerTimestamp : option Z) (now : Z) : M state (option RoundupRecord) :=
  await c := getConfig cid in
  if negb (bool_decide (cfg_user_id c = userId))
  then throw (BadRequestException "Configuration does not belong to user")
  else if is_paused c || negb (is_active c) then ret None
  else
    await cap := BigInt (max_roundup_per_transaction c) in
    await amt := calculateRoundup amount (method c) (method_parameter c) (Some cap) in
    await mn := BigInt (min_roundup_amount c) in
    if amt <? mn then ret None
    else
      await rid := gets (fun s => fresh_id (records s)) in
      let r := mkRecord rid userId cid RPending trigger (Z_to_string amt) (Z_to_string amount)
                 (method c) reference (default now triggerTimestamp) None None None None None now in
      do modify (set_records (save rid r)) ;>
      do (if decide (frequency c = IMMEDIATE)
          then await _b := processRecordsForConfig cid now in ret tt
          else ret tt) ;>
      ret (Some r).

Definition triggerExternalRoundup (userId cid : string) (amount : option Z) (now : Z)
  : M state (option RoundupRecord) :=
  await c := getConfig cid in
  if negb (bool_decide (cfg_user_id c = userId))
  then throw (BadRequestException "Configuration does not belong to user")
  else
    await amt := (match amount with
                  | Some a => if a =? 0 then
                                await view := on_balance (Balance.get (cfg_user_id c) now) in
                                BigInt (Balance.view_amount view)
                              else ret a
                  | None => await view := on_balance (Balance.get (cfg_user_id c) now) in
                            BigInt (Balance.view_amount view)
                  end) in
    recordRoundup userId cid amt EXTERNAL (Some ("external-" +:+ Z_to_string now)) None now.

Definition getRecord (rid : nat) : M state RoundupRecord :=
  await r := gets (fun s => find_one rid (records s)) in
  of_option (NotFoundException ("Record " +:+ Z_to_string (Z.of_nat rid) +:+ " not found")) r.

Definition records_of (userId : string) (s : state) : list RoundupRecord :=
  List.filter (fun r => bool_decide (user_id r = userId)) ((rows (records s)).*2).

Definition listPendingRecords (userId : string) : M state (list RoundupRecord) :=
  gets (fun s => order_by rec_created_at
    (List.filter (fun r => bool_decide (status r = RPending)) (records_of userId s))).

Definition listRecords (userId : string) (limit : nat) : M state (list RoundupRecord) :=
  gets (fun s => take limit (order_by (fun r => - rec_created_at r) (records_of userId s))).

Definition with_record_status (st : RoundupRecordStatus) (rs : list RoundupRecord) : list RoundupRecord :=
  List.filter (fun r => bool_decide (status r = st)) rs.

Definition getStats (userId : string) : M state RoundupStats :=
  await cs := listConfigs userId false in
  await rs := gets (records_of userId) in
  await acc := sum_roundups 0 (with_record_status RPending rs) in
  await done_ := sum_roundups 0 (with_record_status RCompleted rs) in
  await lastb := gets (fun s => head (order_by (fun b => - b_created_at b) ((rows (batches s)).*2))) in
  let len {A} (l : list A) := Z.of_nat (length l) in
  ret (mkStats (len cs) (len (List.filter (fun c => is_active c && negb (is_paused c)) cs))
         (len (List.filter is_paused cs)) (Z_to_string acc) (Z_to_string done_)
         (len (with_record_status RPending rs)) (len (with_record_status RCompleted rs))
         (len (with_record_status RFailed rs)) (b_created_at <$> lastb)).
End service.

(** ** Properties *)

(** The unit of the rounding methods, in stroops. *)
Definition unit_of (mth : RoundupMethod) : option Z :=
  match mth with
  | NEAREST_DOLLAR => Some 10000000
  | NEAREST_CENT => Some 100000
  | NEAREST_QUARTER => Some 2500000
  | _ => None
  end.

Lemma round_to_spec unit amount :
  0 < unit -> 0 <= amount -> round_to unit amount = (- amount) mod unit.
Proof.
  intros Hu Ha. unfold round_to. rewrite Z.rem_mod_nonneg by lia.
  destruct (Z.eqb_spec (amount mod unit) 0) as [H0|H0].
  - by rewrite Z.mod_opp_l_z by lia.
  - rewrite Z.mod_opp_l_nz by lia. done.
Qed.

(** A nearest-unit round-up brings the amount to the next multiple of the
    unit: it is the least non-negative amount that does so, cut down to the cap of
    the configuration when that is positive; a cap of zero does not cap. *)
Theorem nearest_roundup {St} (amount : Z) (mth : RoundupMethod) (p : option string)
    (cap : option Z) (unit : Z) (s : St) :
  unit_of mth = Some unit -> 0 <= amount ->
  exists up, calculateRoundup amount mth p cap s =
    (Ret (match cap with
          | Some c => if c =? 0 then up else Z.max 0 (Z.min c up)
          | None => up
          end), s) /\
    (unit | amount + up) /\ (forall x, 0 <= x -> (unit | amount + x) -> up <= x) /\ 0 <= up < unit.
Proof.
  intros Hu Ha. exists (round_to unit amount).
  assert (Hpos : 0 < unit) by (destruct mth; simplify_eq/=; lia).
  pose proof (Z.mod_pos_bound (- amount) unit Hpos) as Hb. rewrite <-(round_to_spec unit amount Hpos Ha) in Hb.
  assert (Hdiv : (unit | amount + round_to unit amount)).
  { rewrite round_to_spec by done. apply Z.mod_divide; [lia|].
    rewrite Z.add_mod_idemp_r by lia. replace (amount + - amount) with 0 by lia. apply Z.mod_0_l. lia. }
  split; [|split; [done|split; [|done]]].
  - unfold calculateRoundup.
    assert (Hr : forall r : Z, 0 <= r ->
      (let capped := match cap with
                     | Some mx => if negb (mx =? 0) && (mx <? r) then mx else r
                     | None => r
                     end in if capped <? 0 then 0 else capped) =
      match cap with Some c => if c =? 0 then r else Z.max 0 (Z.min c r) | None => r end).
    { intros r Hr. cbv zeta. destruct cap as [c|].
      - destruct (Z.eqb_spec c 0); cbn [negb andb]; [destruct (Z.ltb_spec r 0); lia|].
        destruct (Z.ltb_spec c r); [destruct (Z.ltb_spec c 0)|destruct (Z.ltb_spec r 0)]; lia.
      - destruct (Z.ltb_spec r 0); lia. }
    destruct mth; simplify_eq/=; run; unfold roundNearestDollar, roundNearestCent, roundNearestQuarter;
      rewrite (Hr _ (proj1 Hb)); done.
  - intros x Hx [k Hk]. destruct Hdiv as [j Hj].
    assert (j <= k) by nia. nia.
Qed.

Lemma nearest_roundup_witness :
  exists up, calculateRoundup 123400000 NEAREST_DOLLAR None (Some 100000000) tt = (Ret up, tt) /\ up = 6600000.
Proof.
  destruct (nearest_roundup 123400000 NEAREST_DOLLAR None (Some 100000000) 10000000 tt)
    as (up & H1 & _); [reflexivity|lia|].
  eexists. split; [exact H1|]. vm_compute in H1 |- *. congruence.
Defined.

Section proofs.
Context {B : Backend} (tx : nat -> string).

Definition records_keyed (s : state) : Prop :=
  forall k r, find_one k (records s) = Some r -> rec_id r = k.

Lemma sum_roundups_run rs ns acc (s : state) :
  Forall2 (fun r n => BigInt_of_string (roundup_amount r) = Some n) rs ns ->
  sum_roundups acc rs s = (Ret (acc + sumZ ns), s).
Proof.
  intros H. revert acc. induction H as [|r n rs ns Hn _ IH]; intros acc; simpl.
  - unfold ret. do 2 f_equal. lia.
  - unfold BigInt, bind. rewrite Hn. simpl. rewrite IH. do 2 f_equal. lia.
Qed.

Lemma elem_of_pending r cid s :
  r ∈ pending_of cid s <-> config_id r = cid /\ status r = RPending /\ exists k, find_one k (records s) = Some r.
Proof.
  unfold pending_of. rewrite elem_of_List_filter, andb_true_iff, !bool_decide_eq_true, list_elem_of_fmap. split.
  - intros (([k r'] & -> & Hin) & Hc & Hs). apply elem_of_rows in Hin. eauto.
  - intros (Hc & Hs & k & Hk). split; [|done]. exists (k, r). split; [done|]. by apply elem_of_rows.
Qed.

Lemma getConfig_run cid s c : find_one cid (configs s) = Some c -> getConfig cid s = (Ret c, s).
Proof. intros H. unfold getConfig, bind, gets. by rewrite H. Qed.

(** Two successive updates of the same rows. *)
Lemma find_one_updates (ids : list nat) f g (t : table nat RoundupRecord) k :
  find_one k (update_where (fun k _ => bool_decide (k ∈ ids)) g
               (update_where (fun k _ => bool_decide (k ∈ ids)) f t)) =
  (fun r => if bool_decide (k ∈ ids) then g (f r) else r) <$> find_one k t.
Proof.
  rewrite !find_one_update_where. destruct (find_one k t); [|done]. simpl. by case_bool_decide.
Qed.

(** After the rows of the pending records are completed none is pending. *)
Lemma no_pending_left cid s s' f :
  records_keyed s ->
  (forall r, status (f r) = RCompleted) ->
  (forall k, find_one k (records s') =
     (fun r => if bool_decide (k ∈ rec_id <$> pending_of cid s) then f r else r) <$> find_one k (records s)) ->
  pending_of cid s' = [].
Proof.
  intros Hk Hf Hs'. destruct (pending_of cid s') as [|r l] eqn:Hp; [done|].
  assert (Hr : r ∈ pending_of cid s') by (rewrite Hp; set_solver).
  apply elem_of_pending in Hr as (Hc & Hst & k & Hr). rewrite Hs' in Hr.
  apply fmap_Some in Hr as (r0 & Hr0 & ->). case_bool_decide as Hin.
  - by rewrite Hf in Hst.
  - exfalso. apply Hin, list_elem_of_fmap. exists r0. split; [by rewrite (Hk _ _ Hr0)|].
    apply elem_of_pending. eauto.
Qed.

Lemma process_credits cid now (s : state) c r rs ns n :
  find_one cid (configs s) = Some c -> pending_of cid s = r :: rs ->
  Forall2 (fun r n => BigInt_of_string (roundup_amount r) = Some n) (r :: rs) ns ->
  Balance.amount_of (user_id r) (balance s) = Some n ->
  exists b s', processRecordsForConfig tx cid now s = (Ret (Some b), s') /\
    b_status b = BCompleted /\ record_count b = Z.of_nat (length (r :: rs)) /\
    total_amount b = Z_to_string (sumZ ns) /\ find_one (b_id b) (batches s') = Some b /\
    balance s' = (Balance.credit (user_id r) (Z_to_string (sumZ ns)) now (balance s)).2 /\
    configs s' = configs s /\
    records s' = update_where (fun k _ => bool_decide (k ∈ rec_id <$> r :: rs)) (patch_completed tx now)
      (update_where (fun k _ => bool_decide (k ∈ rec_id <$> r :: rs)) (patch_processing (b_id b)) (records s)).
Proof.
  intros Hc Hp Hns Hn. unfold processRecordsForConfig, bind at 1. rewrite (getConfig_run _ _ _ Hc).
  unfold bind at 1, gets. rewrite Hp. unfold bind at 1, processBatch, bind at 1.
  rewrite (getConfig_run _ _ _ Hc). unfold bind at 1. rewrite (sum_roundups_run _ _ _ _ Hns), Z.add_0_l.
  unfold bind at 1, gets. set (bid := fresh_id (batches s)). set (batch := mkBatch _ _ _ _ _ _ _ _ _).
  unfold bind at 1, modify. cbn [set_batches]. unfold bind at 1, update_records at 1, modify.
  unfold bind at 1, catch, bind at 1, simulateDepositSuccess, bind at 1, update_records at 1, modify.
  unfold bind at 1. rewrite (sum_roundups_run _ _ _ _ Hns), Z.add_0_l.
  unfold bind at 1, on_balance, zoom. cbn [balance set_batches set_records].
  destruct (Balance.credit_run (user_id r) (Z_to_string (sumZ ns)) now (balance s) n (sumZ ns) Hn
    (BigInt_of_string_to_string _)) as (bal & Hcr & _).
  rewrite Hcr. eexists _, _. split; [reflexivity|]. cbn [b_status finish record_count total_amount b_id batch].
  cbn. rewrite find_one_save_eq. done.
Qed.
End proofs.

(** C19: Processing a configuration's pending round-ups credits its user with exactly
    their sum and no one else, completes every one of them in one completed batch with
    that count and total, and running it again finds nothing and changes nothing.  The
    amounts are integer literals, as recorded, and the records belong to one user. *)
Theorem process_credits_once {B : Backend} (tx : nat -> string) (cid : string) (now now' : Z)
    (s : state) (c : RoundupConfig) (u : string) (ns : list Z) (n : Z) :
  records_keyed s -> find_one cid (configs s) = Some c -> pending_of cid s ≠ [] ->
  Forall (fun r => user_id r = u) (pending_of cid s) ->
  Forall2 (fun r n => BigInt_of_string (roundup_amount r) = Some n) (pending_of cid s) ns ->
  Balance.amount_of u (balance s) = Some n ->
  exists b s', processRecordsForConfig tx cid now s = (Ret (Some b), s') /\
    b_status b = BCompleted /\ record_count b = Z.of_nat (length (pending_of cid s)) /\
    total_amount b = Z_to_string (sumZ ns) /\
    (forall acc, Balance.amount_of acc (balance s') =
       if decide (u = acc) then Some (n + sumZ ns) else Balance.amount_of acc (balance s)) /\
    (forall k r, find_one k (records s) = Some r -> r ∈ pending_of cid s ->
       exists r', find_one k (records s') = Some r' /\ status r' = RCompleted /\ roundup_amount r' = roundup_amount r) /\
    processRecordsForConfig tx cid now' s' = (Ret None, s').
Proof.
  intros Hk Hc Hne Hu Hns Hn. destruct (pending_of cid s) as [|r rs] eqn:Hp; [done|].
  assert (Hur : user_id r = u) by (by apply Forall_cons in Hu as [? _]). subst u.
  destruct (process_credits tx cid now s c r rs ns n Hc Hp Hns Hn)
    as (b & s' & Hrun & Hst & Hcnt & Htot & _ & Hbal & Hcfg & Hrec).
  exists b, s'. split; [done|]. split; [done|]. split; [done|]. split; [done|].
  assert (Hfind : forall k, find_one k (records s') = (fun r => if bool_decide (k ∈ rec_id <$> pending_of cid s)
      then patch_completed tx now (patch_processing (b_id b) r) else r) <$> find_one k (records s)).
  { intros k. rewrite Hrec, Hp. apply find_one_updates. }
  split; [|split].
  - intros acc. rewrite Hbal.
    apply (Balance.credit_amount_of _ _ _ _ _ _ _ Hn (BigInt_of_string_to_string _)).
  - intros k r0 Hr0 Hin. rewrite Hfind, Hr0. cbn.
    rewrite bool_decide_eq_true_2; [by eexists|]. rewrite Hp. apply list_elem_of_fmap. exists r0.
    by rewrite (Hk _ _ Hr0).
  - unfold processRecordsForConfig, bind. rewrite (getConfig_run cid s' c) by congruence.
    unfold gets. rewrite (no_pending_left cid s s' (fun r => patch_completed tx now (patch_processing (b_id b) r)) Hk (fun _ => eq_refl) Hfind). done.
Qed.

Definition sample_config : RoundupConfig :=
  mkConfig "c1" "u1" "daily" None NEAREST_DOLLAR None DAILY "0" "100000000" "flexible" true false None 0.
Definition sample_record (k : nat) (amt : string) : RoundupRecord :=
  mkRecord k "u1" "c1" RPending TRANSACTION amt "0" NEAREST_DOLLAR None 1 None None None None None 1.

Lemma process_credits_once_witness :
  let s := mkState (B := MemBackend) (save "c1"%string sample_config empty_table)
    (save 2%nat (sample_record 2 "5000000") (save 1%nat (sample_record 1 "6600000") empty_table))
    empty_table Balance.initial in
  exists b s', processRecordsForConfig (fun n => "tx"%string) "c1" 3 s = (Ret (Some b), s') /\
    total_amount b = "11600000"%string /\ Balance.amount_of "u1" (balance s') = Some 11600000 /\
    processRecordsForConfig (fun n => "tx"%string) "c1" 4 s' = (Ret None, s').
Proof.
  intros s.
  assert (Hp : pending_of "c1" s = [sample_record 1 "6600000"; sample_record 2 "5000000"]) by reflexivity.
  destruct (process_credits_once (B := MemBackend) (fun n => "tx"%string) "c1" 3 4 s sample_config "u1"
    [6600000; 5000000] 0) as (b & s' & H1 & _ & _ & H2 & H3 & _ & H4).
  - intros k r. unfold s. cbn [records]. rewrite !find_one_save, find_one_empty.
    repeat case_decide; intros [= <-]; done.
  - reflexivity.
  - by rewrite Hp.
  - rewrite Hp. repeat constructor.
  - rewrite Hp. apply Forall2_cons; split; [vm_compute; reflexivity|].
    apply Forall2_cons; split; [vm_compute; reflexivity|constructor].
  - reflexivity.
  - exists b, s'. split; [exact H1|]. split; [rewrite H2; reflexivity|].
    split; [rewrite (H3 "u1"%string); reflexivity|exact H4].
Defined.
End Roundup.
