(* ===== verification/Idempotency.v ===== *)
(** * Idempotency keys

    Models [backend/src/common/idempotency/]: the key store of
    [idempotency.service.ts] and the two interceptors that run a handler behind it.
    The handler is a parameter; so is the SHA-256 digest of a request. *)
From Stdlib Require Import ZArith Lia Ascii.
From stdpp Require Import base list strings sets.
From S2P Require Import Prelude Storage JsValue.
Local Open Scope Z_scope.

Module Idempotency.

(** The [idempotency_keys] entity, unique in key and user. *)
Record IdempotencyKey := mkKey {
  id : string;
  key : string;
  userId : string;
  request_hash : string;
  status_code : option Z;
  response_body : jsval;
  in_progress : bool;
  created_at : Z;
}.

(** [AcquireResult]: whether the key was acquired, and its record. *)
Record AcquireResult := mkAcquire { acquired : bool; record_ : IdempotencyKey }.

Definition POSTGRES_UNIQUE_VIOLATION : string := "23505".
Definition DEFAULT_TTL_HOURS : Z := 24.

(** What the client receives: the status when the interceptor sets it, the body, and
    whether the replay header is set. *)
Record reply := mkReply { rep_status : option Z; rep_body : jsval; rep_replayed : bool }.

Record request := mkRequest {
  header : option string;
  user : option string;
  method_url_body : string;
}.

(** *** [UUID_REGEX] *)

Definition hex (c : ascii) : bool :=
  match digit_value 16 c with Some _ => true | None => false end.
Definition one_of (cs : string) (c : ascii) : bool := bool_decide (c ∈ String.list_ascii_of_string cs).

(** The character classes of the thirty-six positions. *)
Definition uuid_pattern : list (ascii -> bool) :=
  replicate 8 hex ++ [one_of "-"] ++ replicate 4 hex ++ [one_of "-"] ++
  [one_of "12345"] ++ replicate 3 hex ++ [one_of "-"] ++
  [one_of "89abAB"] ++ replicate 3 hex ++ [one_of "-"] ++ replicate 12 hex.

Fixpoint matches (pat : list (ascii -> bool)) (s : string) : bool :=
  match pat, s with
  | [], EmptyString => true
  | p :: pat', String c s' => p c && matches pat' s'
  | _, _ => false
  end.

Definition is_uuid (s : string) : bool := matches uuid_pattern s.

Example is_uuid_examples :
  is_uuid "3f2504e0-4f89-41d3-9a0c-0305e82c3301" = true /\
  is_uuid "3F2504E0-4F89-41D3-9A0C-0305E82C3301" = true /\
  is_uuid "3f2504e0-4f89-61d3-9a0c-0305e82c3301" = false /\ is_uuid "abc" = false.
Proof. repeat split; vm_compute; reflexivity. Qed.

Section service.
Context {B : Backend}.
(** The application state behind the handler, the configured time to live and the
    digest of a request. *)
Context {App : Type} (ttlMs : Z) (sha256 : string -> string).

Record state := mkState {
  keys : table (string * string) IdempotencyKey;
  app : App;
}.

Definition set_keys f s := mkState (f (keys s)) (app s).
Definition on_app {A} (m : M App A) : M state A := zoom app (fun a s => mkState (keys s) a) m.

Definition isExpired (r : IdempotencyKey) (now : Z) : bool := ttlMs <? now - created_at r.

(** [repository.save] of a new row: the unique index rejects a taken key. *)
Definition insert_key (r : IdempotencyKey) : M state IdempotencyKey :=
  await taken := gets (fun s => find_one (key r, userId r) (keys s)) in
  match taken with
  | Some _ => throw (DatabaseError POSTGRES_UNIQUE_VIOLATION)
  | None => do modify (set_keys (save (key r, userId r) r)) ;> ret r
  end.

Definition delete_key (kid : string) : M state unit :=
  modify (set_keys (delete_where (fun _ r => bool_decide (id r = kid)))).

(** [uuid] is the id of the row should it be inserted; the fuel counts the
    recursive call after an expired record was purged. *)
Fixpoint acquire (fuel : nat) (uuid k uid requestHash : string) (now : Z) : M state AcquireResult :=
  match fuel with
  | O => throw (JsError "fuel")
  | S fuel' =>
      catch
        (await inserted := insert_key (mkKey uuid k uid requestHash None VNull true now) in
         ret (mkAcquire true inserted))
        (fun err =>
           if negb (bool_decide (err = DatabaseError POSTGRES_UNIQUE_VIOLATION)) then throw err
           else
             await existing := gets (fun s => find_one (k, uid) (keys s)) in
             match existing with
             | None => throw err
             | Some r =>
                 if isExpired r now then
                   do delete_key (id r) ;>
                   acquire fuel' uuid k uid requestHash now
                 else ret (mkAcquire false r)
             end)
  end.

Definition complete (kid : string) (statusCode : Z) (body : jsval) : M state unit :=
  modify (set_keys (update_where (fun _ r => bool_decide (id r = kid))
    (fun r => mkKey (id r) (key r) (userId r) (request_hash r) (Some statusCode) body false (created_at r)))).

Definition release (kid : string) : M state unit := delete_key kid.

Definition cleanupExpiredKeys (now : Z) : M state unit :=
  modify (set_keys (delete_where (fun _ r => created_at r <? now - ttlMs))).

(** The end of both interceptors: the handler, then [complete] or [release], which
    are started without being awaited and here run before the next request. *)
Definition run_handler (handler : M App (Z * jsval)) (r : IdempotencyKey) : M state reply :=
  catch
    (await out := on_app handler in
     do complete (id r) out.1 out.2 ;>
     ret (mkReply (Some out.1) out.2 false))
    (fun err => do release (id r) ;> throw err).

Definition rejected_hash : exn :=
  UnprocessableEntityException "Idempotency-Key was already used with a different request body".
Definition rejected_progress : exn :=
  ConflictException "A request with this Idempotency-Key is already in progress".

(** [IdempotencyInterceptor.intercept]: the header is required; a replay returns the
    stored body only. *)
Definition intercept (handler : M App (Z * jsval)) (uuid : string) (req : request) (now : Z) : M state reply :=
  match header req with
  | None | Some EmptyString => throw (BadRequestException "idempotency-key header is required for this request")
  | Some k =>
      match user req with
      | None => throw (TypeError "Cannot read properties of undefined (reading 'id')")
      | Some uid =>
          let requestHash := sha256 (method_url_body req) in
          await result := acquire 2 uuid k uid requestHash now in
          let r := record_ result in
          if negb (acquired result) then
            if negb (bool_decide (request_hash r = requestHash)) then throw rejected_hash
            else if in_progress r then throw rejected_progress
            else ret (mkReply None (response_body r) false)
          else run_handler handler r
      end
  end.

(** [OptionalIdempotencyInterceptor.intercept]. *)
Definition intercept_optional (handler : M App (Z * jsval)) (uuid : string) (req : request) (now : Z)
  : M state reply :=
  match header req with
  | None | Some EmptyString =>
      await out := on_app handler in ret (mkReply (Some out.1) out.2 false)
  | Some k =>
      if negb (is_uuid k) then throw (UnprocessableEntityException "idempotency-key must be a valid UUID")
      else
        let uid := default "anonymous"%string (user req) in
        let requestHash := sha256 (method_url_body req) in
        await result := acquire 2 uuid k uid requestHash now in
        let r := record_ result in
        if negb (acquired result) then
          if negb (bool_decide (request_hash r = requestHash)) then throw rejected_hash
          else if in_progress r then throw rejected_progress
          else ret (mkReply (Some (default 200 (status_code r))) (response_body r) true)
        else run_handler handler r
  end.
End service.

(** ** Properties *)

Section proofs.
Context {B : Backend} {App : Type} (ttlMs : Z).

Lemma acquire_free fuel uuid k uid h now (s : state (App := App)) :
  find_one (k, uid) (keys s) = None ->
  let r := mkKey uuid k uid h None VNull true now in
  acquire ttlMs (S fuel) uuid k uid h now s =
    (Ret (mkAcquire true r), mkState (save (k, uid) r (keys s)) (app s)).
Proof. intros Hf r. cbn [acquire]. unfold catch, bind, insert_key, bind, gets. cbn. by rewrite Hf. Qed.

Lemma acquire_taken fuel uuid k uid h now (s : state (App := App)) r :
  find_one (k, uid) (keys s) = Some r ->
  acquire ttlMs (S fuel) uuid k uid h now s =
    if isExpired ttlMs r now
    then acquire ttlMs fuel uuid k uid h now
           (mkState (delete_where (fun _ x => bool_decide (id x = id r)) (keys s)) (app s))
    else (Ret (mkAcquire false r), s).
Proof.
  intros Hf. cbn [acquire]. unfold catch, bind, insert_key, bind, gets. cbn.
  rewrite Hf. unfold throw. rewrite bool_decide_eq_true_2 by done. cbn [negb].
  rewrite Hf. by destruct (isExpired ttlMs r now).
Qed.

(** The recursion is at most one deep: the purge frees the key. *)
Lemma acquire_total uuid k uid h now (s : state (App := App)) :
  exists res s', acquire ttlMs 2 uuid k uid h now s = (Ret res, s') /\ app s' = app s /\
    (acquired res = true -> record_ res = mkKey uuid k uid h None VNull true now /\
       find_one (k, uid) (keys s') = Some (record_ res)).
Proof.
  destruct (find_one (k, uid) (keys s)) as [r|] eqn:Hf.
  - rewrite (acquire_taken 1 _ _ _ _ _ _ _ Hf). destruct (isExpired ttlMs r now).
    + rewrite acquire_free.
      * eexists _, _. split; [done|]. split; [done|]. intros _. split; [done|]. cbn. by rewrite find_one_save_eq.
      * cbn. rewrite find_one_delete_where, Hf. by rewrite bool_decide_eq_true_2.
    + eexists _, _. split; [done|]. split; [done|]. done.
  - rewrite (acquire_free 1 _ _ _ _ _ _ Hf). eexists _, _. split; [done|]. split; [done|].
    intros _. split; [done|]. cbn. by rewrite find_one_save_eq.
Qed.

Lemma run_handler_ok (handler : M App (Z * jsval)) r (s : state (App := App)) st body a' k uid :
  handler (app s) = (Ret (st, body), a') -> find_one (k, uid) (keys s) = Some r ->
  exists s', run_handler handler r s = (Ret (mkReply (Some st) body false), s') /\ app s' = a' /\
    find_one (k, uid) (keys s') =
      Some (mkKey (id r) (key r) (userId r) (request_hash r) (Some st) body false (created_at r)).
Proof.
  intros Hh Hf. unfold run_handler, catch, bind, on_app, zoom. rewrite Hh. cbn.
  eexists. split; [done|]. split; [done|]. cbn. rewrite find_one_update_where, Hf. cbn.
  by rewrite bool_decide_eq_true_2.
Qed.

Lemma run_handler_fails (handler : M App (Z * jsval)) r (s : state (App := App)) e a' k uid :
  handler (app s) = (Throw e, a') -> find_one (k, uid) (keys s) = Some r ->
  exists s', run_handler handler r s = (Throw e, s') /\ app s' = a' /\ find_one (k, uid) (keys s') = None.
Proof.
  intros Hh Hf. unfold run_handler, catch, bind, on_app, zoom. rewrite Hh. cbn.
  eexists. split; [done|]. split; [done|]. cbn. rewrite find_one_delete_where, Hf.
  by rewrite bool_decide_eq_true_2.
Qed.
End proofs.

(** C29: A handler behind an idempotency key runs once: after a first request that
    succeeded, a repetition of it within the time to live gets the stored status and
    body back, marked as replayed, and the application state does not change; a
    request with the same key and another digest is rejected with 422, again without
    running the handler. *)
Theorem handler_runs_once {B : Backend} {App : Type} (ttlMs : Z) (sha256 : string -> string)
    (handler : M App (Z * jsval)) (uuid uuid' k uid mub mub' : string) (now now' : Z)
    (s : state (App := App)) (st : Z) (body : jsval) (a' : App) :
  is_uuid k = true -> find_one (k, uid) (keys s) = None ->
  handler (app s) = (Ret (st, body), a') -> now' - now <= ttlMs ->
  let req := mkRequest (Some k) (Some uid) mub in
  let req' := mkRequest (Some k) (Some uid) mub' in
  exists s', intercept_optional ttlMs sha256 handler uuid req now s = (Ret (mkReply (Some st) body false), s') /\
    app s' = a' /\
    intercept_optional ttlMs sha256 handler uuid' req now' s' = (Ret (mkReply (Some st) body true), s') /\
    (sha256 mub' ≠ sha256 mub ->
     exists m, intercept_optional ttlMs sha256 handler uuid' req' now' s' = (Throw (HttpException 422 m), s')).
Proof.
  intros Hk Hfree Hh Httl req req'. unfold intercept_optional, req, req'. cbn [header user method_url_body].
  destruct k as [|ch k0]; [done|]. set (k := String ch k0) in *. rewrite Hk. cbn [negb default].
  unfold bind at 1. rewrite (acquire_free ttlMs 1 _ _ _ _ _ _ Hfree). cbn [acquired record_ negb].
  set (r := mkKey uuid k uid (sha256 mub) None VNull true now).
  set (s1 := mkState (save (k, uid) r (keys s)) (app s)).
  destruct (run_handler_ok handler r s1 st body a' k uid) as (s' & Hrun & Happ & Hrow);
    [done|apply find_one_save_eq|].
  exists s'. split; [done|]. split; [done|]. cbn in Hrow.
  assert (Hlive : isExpired ttlMs (mkKey uuid k uid (sha256 mub) (Some st) body false now) now' = false).
  { unfold isExpired. cbn. apply Z.ltb_ge. lia. }
  split.
  - unfold bind. rewrite (acquire_taken ttlMs 1 _ _ _ _ _ _ _ Hrow), Hlive. cbn.
    by rewrite bool_decide_eq_true_2.
  - intros Hd. unfold bind. rewrite (acquire_taken ttlMs 1 _ _ _ _ _ _ _ Hrow), Hlive. cbn.
    rewrite bool_decide_eq_false_2 by done. by eexists.
Qed.

Lemma handler_runs_once_witness :
  let handler : M nat (Z * jsval) := fun n => (Ret (201, VNum (Z.of_nat n)), S n) in
  let k := "3f2504e0-4f89-41d3-9a0c-0305e82c3301"%string in
  let s := mkState (B := MemBackend) empty_table 7%nat in
  exists s', intercept_optional 1000 (fun x => x) handler "i1" (mkRequest (Some k) (Some "u1"%string) "POST:/d:5") 0 s =
      (Ret (mkReply (Some 201) (VNum 7) false), s') /\ app s' = 8%nat /\
    intercept_optional 1000 (fun x => x) handler "i2" (mkRequest (Some k) (Some "u1"%string) "POST:/d:5") 900 s' =
      (Ret (mkReply (Some 201) (VNum 7) true), s').
Proof.
  intros handler k s.
  destruct (handler_runs_once (B := MemBackend) 1000 (fun x => x) handler "i1" "i2" k "u1" "POST:/d:5" "" 0 900 s
    201 (VNum 7) 8%nat) as (s' & H1 & H2 & H3 & _); [reflexivity|reflexivity|reflexivity|lia|].
  exists s'. split; [exact H1|]. split; [exact H2|exact H3].
Defined.

(** A failed handler gives the key back: a retry runs the handler again. *)
Theorem failed_handler_releases {B : Backend} {App : Type} (ttlMs : Z) (sha256 : string -> string)
    (handler : M App (Z * jsval)) (uuid k uid mub : string) (now : Z)
    (s : state (App := App)) (e : exn) (a' : App) :
  is_uuid k = true -> find_one (k, uid) (keys s) = None -> handler (app s) = (Throw e, a') ->
  exists s', intercept_optional ttlMs sha256 handler uuid (mkRequest (Some k) (Some uid) mub) now s = (Throw e, s') /\
    app s' = a' /\ find_one (k, uid) (keys s') = None.
Proof.
  intros Hk Hfree Hh. unfold intercept_optional. cbn [header user method_url_body].
  destruct k as [|ch k0]; [done|]. set (k := String ch k0) in *. rewrite Hk. cbn [negb default].
  unfold bind at 1. rewrite (acquire_free ttlMs 1 _ _ _ _ _ _ Hfree). cbn [acquired record_ negb].
  apply (run_handler_fails handler _ (mkState (save (k, uid) _ (keys s)) (app s))); [done|apply find_one_save_eq].
Qed.
End Idempotency.
