(* ===== verification/Encoding.v ===== *)
(** * Encoding: hexadecimal buffers and JSON text

    The parts of the runtime the signing services use: [Buffer.from(s, 'hex')] and
    [toString('hex')] on bytes, and [JSON.stringify] on decoded values.  Strings are
    sequences of bytes (UTF-8). *)
From Stdlib Require Import ZArith Lia Ascii.
From stdpp Require Import base list strings.
From S2P Require Import Prelude JsValue.
Local Open Scope Z_scope.

(** ** Hexadecimal *)

Definition hex_digit (d : Z) : ascii :=
  ascii_of_N (Z.to_N (if d <? 10 then 48 + d else 87 + d)).

(** [buffer.toString('hex')]; a byte is a [Z] in [0, 255]. *)
Fixpoint to_hex (bytes : list Z) : string :=
  match bytes with
  | [] => EmptyString
  | b :: bytes' => String (hex_digit (b / 16)) (String (hex_digit (b mod 16)) (to_hex bytes'))
  end.

(** [Buffer.from(s, 'hex')]: decoding stops at the first pair that is not two digits. *)
Fixpoint from_hex (s : string) : list Z :=
  match s with
  | String a (String b s') =>
      match digit_value 16 a, digit_value 16 b with
      | Some x, Some y => (16 * x + y) :: from_hex s'
      | _, _ => []
      end
  | _ => []
  end.

Definition is_byte (b : Z) : Prop := 0 <= b < 256.

Lemma digit_value_hex d : 0 <= d < 16 -> digit_value 16 (hex_digit d) = Some d.
Proof.
  intros Hd. assert (Hc : d ∈ [0;1;2;3;4;5;6;7;8;9;10;11;12;13;14;15]).
  { rewrite list_elem_of_In. simpl. lia. }
  rewrite !elem_of_cons in Hc.
  repeat match goal with H : _ \/ _ |- _ => destruct H as [->|H]; [reflexivity|] end.
  by apply not_elem_of_nil in Hc.
Qed.

Lemma from_to_hex bytes : Forall is_byte bytes -> from_hex (to_hex bytes) = bytes.
Proof.
  induction 1 as [|b l Hb _ IH]; [done|]. unfold is_byte in Hb.
  cbn [to_hex from_hex]. rewrite !digit_value_hex, IH.
  - f_equal. pose proof (Z.div_mod b 16). lia.
  - apply Z.mod_pos_bound. lia.
  - split; [apply Z.div_pos; lia|apply Z.div_lt_upper_bound; lia].
Qed.

Lemma to_hex_digits bytes : Forall is_byte bytes -> all_chars (fun c => bool_decide (is_Some (digit_value 16 c))) (to_hex bytes) = true.
Proof.
  induction 1 as [|b l Hb _ IH]; [done|]. unfold is_byte in Hb. cbn [to_hex all_chars]. rewrite IH.
  rewrite !digit_value_hex; [done| |].
  - apply Z.mod_pos_bound. lia.
  - split; [apply Z.div_pos; lia|apply Z.div_lt_upper_bound; lia].
Qed.

(** ** Joined fields *)

(** No [sep] in a string. *)
Definition free_of (sep : ascii) (s : string) : bool := all_chars (fun c => negb (bool_decide (c = sep))) s.

(** The first of two fields is the text up to the separator. *)
Lemma append_sep_inj sep a b r r' :
  free_of sep a = true -> free_of sep b = true -> a +:+ String sep r = b +:+ String sep r' -> a = b /\ r = r'.
Proof.
  revert b. induction a as [|c a IH]; intros [|d b] Ha Hb Heq; cbn in Heq; simplify_eq; [done|..].
  - cbn in Hb. by rewrite bool_decide_true in Hb.
  - cbn in Ha. by rewrite bool_decide_true in Ha.
  - cbn in Ha, Hb. apply andb_true_iff in Ha as [_ Ha], Hb as [_ Hb].
    by destruct (IH b Ha Hb ltac:(done)) as [-> ->].
Qed.

Lemma free_of_hex sep bytes : digit_value 16 sep = None -> Forall is_byte bytes -> free_of sep (to_hex bytes) = true.
Proof.
  intros Hs Hb. apply to_hex_digits in Hb. unfold free_of. induction (to_hex bytes) as [|c t IH]; [done|].
  cbn in *. apply andb_true_iff in Hb as [Hc Hb]. rewrite (IH Hb), andb_true_r.
  apply bool_decide_eq_true in Hc. rewrite bool_decide_false; [done|]. intros ->. rewrite Hs in Hc. by destruct Hc.
Qed.

(** ** [JSON.stringify] *)

Definition quote : string := String (ascii_of_N 34) EmptyString.
Definition backslash : string := String (ascii_of_N 92) EmptyString.

Definition escape_char (c : ascii) : string :=
  let n := Z.of_N (N_of_ascii c) in
  if n =? 34 then backslash +:+ quote
  else if n =? 92 then backslash +:+ backslash
  else if n =? 8 then backslash +:+ "b"
  else if n =? 9 then backslash +:+ "t"
  else if n =? 10 then backslash +:+ "n"
  else if n =? 12 then backslash +:+ "f"
  else if n =? 13 then backslash +:+ "r"
  else if n <? 32 then backslash +:+ "u00" +:+ to_hex [n]
  else String c EmptyString.

Fixpoint escape (s : string) : string :=
  match s with
  | EmptyString => EmptyString
  | String c s' => escape_char c +:+ escape s'
  end.

Definition json_string (s : string) : string := quote +:+ escape s +:+ quote.

(** The texts of the members of a container; the first failure is the result. *)
Fixpoint sequence {A} (l : list (outcome A)) : outcome (list A) :=
  match l with
  | [] => Ret []
  | Throw e :: _ => Throw e
  | Ret a :: l' =>
      match sequence l' with Ret r => Ret (a :: r) | Throw e => Throw e end
  end.

(** [None] is [undefined], which is [null] in an array and no member of an object;
    a [bigint] throws. *)
Fixpoint JSON_stringify (v : jsval) : outcome (option string) :=
  match v with
  | VUndef => Ret None
  | VNull => Ret (Some "null"%string)
  | VBool b => Ret (Some (if b then "true" else "false")%string)
  | VNum z => Ret (Some (Z_to_string z))
  | VBigInt _ => Throw (TypeError "Do not know how to serialize a BigInt")
  | VStr s => Ret (Some (json_string s))
  | VArr l =>
      match sequence (map JSON_stringify l) with
      | Ret parts => Ret (Some ("[" +:+ join_with "," (default "null"%string <$> parts) +:+ "]"))
      | Throw e => Throw e
      end
  | VObj fields =>
      match sequence (map (fun kv => JSON_stringify kv.2) fields) with
      | Ret parts =>
          Ret (Some ("{" +:+ join_with ","
            (omap (fun kp => (fun t => json_string kp.1 +:+ ":" +:+ t) <$> kp.2) (zip (fields.*1) parts)) +:+ "}"))
      | Throw e => Throw e
      end
  end.

Example stringify_object :
  JSON_stringify (VObj [("a"%string, VNum 1); ("b"%string, VArr [VUndef; VBool true]); ("c"%string, VUndef)]) =
    Ret (Some ("{" +:+ json_string "a" +:+ ":1," +:+ json_string "b" +:+ ":[null,true]}")).
Proof. vm_compute. reflexivity. Qed.
