(* ===== verification/Sessions.v ===== *)
(** * Sessions: wallet and passkey login, refresh tokens

    Models [backend/src/auth/auth.service.ts]: the challenges a wallet signs, the
    passkey ceremonies and the families of rotating refresh tokens.  The digest, the
    token signer and the signature verifiers are third-party code and parameters
    ([AuthLib]); random values and generated ids are arguments. *)
From Stdlib Require Import ZArith Lia Ascii.
From stdpp Require Import base list strings sets relations.
From S2P Require Import Prelude Storage JsValue.
Local Open Scope Z_scope.

Module Sessions.

(** *** Entities *)

(** The columns of [users] that signing in reads or writes. *)
Record User := mkUser {
  user_key : string;
  stellar_address : string;
  username : option string;
  deleted_at : option Z;
  user_updated_at : Z;
}.

Record RefreshToken := mkToken {
  token_id : string;
  user_id : string;
  family_id : string;
  token_hash : string;
  previous_token_id : option string;
  revoked_at : option Z;
  expires_at : Z;
  token_created_at : Z;
}.

Record AuthAuditEvent := mkAudit {
  event_type : string;
  audit_user : option string;
  audit_family : option string;
  metadata : list (string * string);
}.

Record WebAuthnCredential := mkCredential {
  cred_key : string;
  cred_user : string;
  credential_id : string;
  public_key : list Z;
  counter : string;
  device_type : option string;
  backed_up : bool;
  transports : option (list string);
  last_used_at : option Z;
}.

(** The entries of the challenge maps. *)
Record challenge_entry := mkEntry { expiresAt : Z; used : bool }.
Record registration_entry := mkReg { reg_user : string; reg_expiresAt : Z; reg_used : bool }.

(** The messages of the browser; [payload] is what only the verifier looks at. *)
Record AuthenticationResponse := mkAssertion {
  asr_id : string;
  asr_clientData : string;
  asr_payload : string;
}.

Record RegistrationResponse := mkAttestation { att_clientData : string; att_payload : string }.

(** [verification.registrationInfo]. *)
Record RegistrationInfo := mkInfo {
  info_id : string;
  info_publicKey : list Z;
  info_counter : Z;
  info_transports : option (list string);
  info_deviceType : string;
  info_backedUp : bool;
}.

Record RequestOptions := mkRequestOptions { ro_rpID : string; ro_challenge : string }.

Record CreationOptions := mkCreationOptions {
  co_rpID : string;
  co_rpName : string;
  co_userName : string;
  co_userDisplayName : string;
  co_exclude : list (string * option (list string));
  co_algorithms : list Z;
  co_challenge : string;
}.

Record Config := mkConfig {
  REFRESH_TOKEN_TTL_DAYS : option Z;
  WEBAUTHN_RP_ID : option string;
  WEBAUTHN_RP_NAME : option string;
  WEBAUTHN_ORIGIN : option string;
}.

(** The third-party calls: the digest, the token signer, the key check of the Stellar
    SDK ([None] when it throws) and the two verifiers of the WebAuthn library; the
    value of [JSON.parse] on decoded client data. *)
Class AuthLib := {
  sha256 : string -> string;
  signAsync : string -> string -> Z -> string;
  keypair_verify : string -> string -> string -> option bool;
  client_data : string -> option jsval;
  verifyAuthenticationResponse :
    AuthenticationResponse -> string -> string -> string ->
    string * list Z * number * option (list string) -> option (bool * Z);
  verifyRegistrationResponse :
    RegistrationResponse -> string -> string -> string -> list Z ->
    option (bool * option RegistrationInfo);
}.

Definition DEFAULT_REFRESH_TOKEN_TTL_DAYS : Z := 30.
Definition TTL_MS : Z := 5 * 60 * 1000.
Definition PASSKEY_TTL_MS : Z := 5 * 60 * 1000.
Definition SECP256R1_COSE_ALG_ID : Z := -7.

(** [key.endsWith(suffix)]. *)
Fixpoint ends_with (suffix s : string) : bool :=
  bool_decide (s = suffix) ||
  match s with
  | EmptyString => false
  | String _ s' => ends_with suffix s'
  end.

Section service.
Context {B : Backend} {L : AuthLib} (cfg : Config).

Record state := mkState {
  challengeCache : list (string * challenge_entry);
  passkeyChallengeCache : list (string * challenge_entry);
  passkeyRegistrationChallengeCache : list (string * registration_entry);
  users : table string User;
  preferences : table string string;
  refreshTokens : table string RefreshToken;
  authAuditEvents : list AuthAuditEvent;
  webAuthnCredentials : table string WebAuthnCredential;
}.

Definition set_challenges f s :=
  mkState (f (challengeCache s)) (passkeyChallengeCache s) (passkeyRegistrationChallengeCache s)
    (users s) (preferences s) (refreshTokens s) (authAuditEvents s) (webAuthnCredentials s).
Definition set_passkeys f s :=
  mkState (challengeCache s) (f (passkeyChallengeCache s)) (passkeyRegistrationChallengeCache s)
    (users s) (preferences s) (refreshTokens s) (authAuditEvents s) (webAuthnCredentials s).
Definition set_registrations f s :=
  mkState (challengeCache s) (passkeyChallengeCache s) (f (passkeyRegistrationChallengeCache s))
    (users s) (preferences s) (refreshTokens s) (authAuditEvents s) (webAuthnCredentials s).
Definition set_users f s :=
  mkState (challengeCache s) (passkeyChallengeCache s) (passkeyRegistrationChallengeCache s)
    (f (users s)) (preferences s) (refreshTokens s) (authAuditEvents s) (webAuthnCredentials s).
Definition set_preferences f s :=
  mkState (challengeCache s) (passkeyChallengeCache s) (passkeyRegistrationChallengeCache s)
    (users s) (f (preferences s)) (refreshTokens s) (authAuditEvents s) (webAuthnCredentials s).
Definition set_tokens f s :=
  mkState (challengeCache s) (passkeyChallengeCache s) (passkeyRegistrationChallengeCache s)
    (users s) (preferences s) (f (refreshTokens s)) (authAuditEvents s) (webAuthnCredentials s).
Definition set_audit f s :=
  mkState (challengeCache s) (passkeyChallengeCache s) (passkeyRegistrationChallengeCache s)
    (users s) (preferences s) (refreshTokens s) (f (authAuditEvents s)) (webAuthnCredentials s).
Definition set_credentials f s :=
  mkState (challengeCache s) (passkeyChallengeCache s) (passkeyRegistrationChallengeCache s)
    (users s) (preferences s) (refreshTokens s) (authAuditEvents s) (f (webAuthnCredentials s)).

(** *** Wallet challenges *)

Definition cleanupExpiredChallenges (now : Z) : M state unit :=
  do modify (set_challenges (List.filter (fun e => negb (expiresAt e.2 <? now)))) ;>
  do modify (set_passkeys (List.filter (fun e => negb (expiresAt e.2 <? now)))) ;>
  modify (set_registrations (List.filter (fun e => negb (reg_expiresAt e.2 <? now)))).

(** [random] is the hex nonce. *)
Definition generateChallenge (random address : string) (now : Z) : M state string :=
  let challenge := ("InsightArena:nonce:" +:+ Z_to_string now +:+ ":" +:+ random +:+ ":" +:+ address)%string in
  do modify (set_challenges (Mem.upsert challenge (mkEntry (now + TTL_MS) false))) ;>
  ret challenge.

Definition removeChallenge (challenge : string) : M state unit :=
  modify (set_challenges (Mem.drop_key challenge)).

Definition isValidChallenge (challenge : string) (now : Z) : M state bool :=
  await entry := gets (fun s => Mem.find (challengeCache s) challenge) in
  match entry with
  | None => ret false
  | Some e =>
      if expiresAt e <? now then do removeChallenge challenge ;> ret false
      else ret true
  end.

Definition findValidChallengeForAddress (address : string) (now : Z) (s : state) : option string :=
  fst <$> List.find (fun e => ends_with (":" +:+ address)%string e.1 && (now <=? expiresAt e.2)) (challengeCache s).

Definition verifyStellarSignature (address challenge signed_challenge : string) : bool :=
  default false (keypair_verify address challenge signed_challenge).

(** [findOneBy] on the users table: a soft-deleted row is not found. *)
Definition live_user (u : User) : bool := bool_decide (deleted_at u = None).
Definition find_user (uid : string) (s : state) : option User :=
  match find_one uid (users s) with
  | Some u => if live_user u then Some u else None
  | None => None
  end.
Definition find_user_by_address (address : string) (s : state) : option User :=
  List.find (fun u => bool_decide (stellar_address u = address) && live_user u) ((rows (users s)).*2).

Definition unique_violation : exn := DatabaseError "23505".

(** [usersRepository.save] of a new row: the address is unique in the table. *)
Definition insert_user (u : User) : M state User :=
  await taken := gets (fun s =>
    existsb (fun u' => bool_decide (stellar_address u' = stellar_address u)) ((rows (users s)).*2)) in
  if (taken : bool) then throw unique_violation
  else do modify (set_users (save (user_key u) u)) ;> ret u.

(** [newUserId] and [newPrefsId] are the generated ids, should rows be created. *)
Definition verifySignatureWithStatus (newUserId newPrefsId address signed_challenge : string) (now : Z)
  : M state (User * bool) :=
  await found := gets (findValidChallengeForAddress address now) in
  match found with
  | None => throw (UnauthorizedException "No valid challenge found or challenge expired")
  | Some challenge =>
      await entry := gets (fun s => Mem.find (challengeCache s) challenge) in
      match entry with
      | None => throw (TypeError "Cannot read properties of undefined (reading 'used')")
      | Some e =>
          if used e then throw (UnauthorizedException "Challenge already used")
          else if negb (verifyStellarSignature address challenge signed_challenge)
          then throw (UnauthorizedException "Invalid signature")
          else
            do modify (set_challenges (Mem.upsert challenge (mkEntry (expiresAt e) true))) ;>
            await existing := gets (find_user_by_address address) in
            match existing with
            | Some u =>
                let u' := mkUser (user_key u) (stellar_address u) (username u) (deleted_at u) now in
                do modify (set_users (save (user_key u) u')) ;>
                ret (u', false)
            | None =>
                await u := insert_user (mkUser newUserId address None None now) in
                await existingPrefs := gets (fun s => find_one (user_key u) (preferences s)) in
                match existingPrefs with
                | Some _ => ret (u, true)
                | None =>
                    do modify (set_preferences (save (user_key u) newPrefsId)) ;>
                    ret (u, true)
                end
            end
      end
  end.

Definition verifySignature (newUserId newPrefsId address signed_challenge : string) (now : Z) : M state User :=
  await r := verifySignatureWithStatus newUserId newPrefsId address signed_challenge now in
  ret r.1.

(** *** Refresh tokens *)

Definition hashToken (raw : string) : string := sha256 raw.

(** [refreshTokensRepository.save] of a new row: the digest is unique. *)
Definition insert_token (t : RefreshToken) : M state RefreshToken :=
  await taken := gets (fun s => find_one (token_hash t) (refreshTokens s)) in
  match taken with
  | Some _ => throw unique_violation
  | None => do modify (set_tokens (save (token_hash t) t)) ;> ret t
  end.

(** The random values of one issue: the raw token and the id of its row. *)
Record mint := mkMint { raw : string; row_id : string }.

Definition issueRefreshToken (mi : mint) (userId familyId : string) (previousTokenId : option string) (now : Z)
  : M state (string * RefreshToken) :=
  let ttlDays := default DEFAULT_REFRESH_TOKEN_TTL_DAYS (REFRESH_TOKEN_TTL_DAYS cfg) in
  let entity := mkToken (row_id mi) userId familyId (hashToken (raw mi)) previousTokenId None
                  (now + ttlDays * 24 * 60 * 60 * 1000) now in
  await saved := insert_token entity in
  ret (raw mi, saved).

(** What a client holds after a login. *)
Record session := mkSession { access_token : string; refresh_token : string }.

Definition createSession (mi : mint) (familyId : string) (u : User) (now : Z) : M state session :=
  let token := signAsync (user_key u) (stellar_address u) now in
  await issued := issueRefreshToken mi (user_key u) familyId None now in
  ret (mkSession token issued.1).

Definition verifyChallenge (newUserId newPrefsId familyId : string) (mi : mint)
    (address signed_challenge : string) (now : Z) : M state (session * User * bool) :=
  await r := verifySignatureWithStatus newUserId newPrefsId address signed_challenge now in
  await s := createSession mi familyId r.1 now in
  ret (s, r.1, r.2).

Definition revoke (now : Z) (t : RefreshToken) : RefreshToken :=
  mkToken (token_id t) (user_id t) (family_id t) (token_hash t) (previous_token_id t)
    (Some now) (expires_at t) (token_created_at t).

(** The read half of a rotation, up to the write that revokes the presented token. *)
Definition rotate_check (rawToken : string) (now : Z) : M state (RefreshToken * User) :=
  await found := gets (fun s => find_one (hashToken rawToken) (refreshTokens s)) in
  match found with
  | None => throw (UnauthorizedException "Invalid refresh token")
  | Some existing =>
      if expires_at existing <? now then throw (UnauthorizedException "Refresh token expired")
      else
        match revoked_at existing with
        | Some _ =>
            do modify (set_tokens (update_where
                 (fun _ t => bool_decide (family_id t = family_id existing) && bool_decide (revoked_at t = None))
                 (revoke now))) ;>
            do modify (set_audit (fun l => l ++
                 [mkAudit "refresh_token_reuse_detected" (Some (user_id existing)) (Some (family_id existing))
                    [("tokenId"%string, token_id existing)]])) ;>
            throw (UnauthorizedException "Refresh token reuse detected; session revoked")
        | None =>
            await u := gets (find_user (user_id existing)) in
            match u with
            | None => throw (UnauthorizedException "User not found or has been deleted")
            | Some u => ret (existing, u)
            end
        end
  end.

(** The write half: revoke the token that was read, issue its successor. *)
Definition rotate_issue (mi : mint) (existing : RefreshToken) (u : User) (now : Z) : M state session :=
  do modify (set_tokens (save (token_hash existing) (revoke now existing))) ;>
  await issued := issueRefreshToken mi (user_key u) (family_id existing) (Some (token_id existing)) now in
  ret (mkSession (signAsync (user_key u) (stellar_address u) now) issued.1).

Definition rotateRefreshToken (mi : mint) (rawToken : string) (now : Z) : M state session :=
  await found := rotate_check rawToken now in
  rotate_issue mi found.1 found.2 now.

(** *** Passkeys *)

Definition rpID : string := default "localhost"%string (WEBAUTHN_RP_ID cfg).
Definition origin : string := default "http://localhost:3000"%string (WEBAUTHN_ORIGIN cfg).

(** [challenge] is the random challenge of the generated options. *)
Definition beginPasskeyAuthentication (challenge : string) (now : Z) : M state RequestOptions :=
  do modify (set_passkeys (Mem.upsert challenge (mkEntry (now + PASSKEY_TTL_MS) false))) ;>
  ret (mkRequestOptions rpID challenge).

(** A property read on [null] or [undefined] throws; other primitives have none. *)
Definition extractChallengeFromClientData (clientDataJSON : string) : M state jsval :=
  let malformed := UnauthorizedException "Malformed passkey assertion" in
  match client_data clientDataJSON with
  | Some (VObj fields) =>
      let c := prop fields "challenge" in
      if truthy c then ret c else throw malformed
  | _ => throw malformed
  end.

(** [Map.get] with a key that need not be a string. *)
Definition map_get {V} (m : list (string * V)) (k : jsval) : option (string * V) :=
  match k with
  | VStr c => (fun v => (c, v)) <$> Mem.find m c
  | _ => None
  end.

Definition finishPasskeyAuthentication (mi : mint) (familyId : string) (response : AuthenticationResponse) (now : Z)
  : M state (session * User) :=
  let invalid := UnauthorizedException "Invalid passkey assertion" in
  await c := extractChallengeFromClientData (asr_clientData response) in
  await found := gets (fun s => map_get (passkeyChallengeCache s) c) in
  match found with
  | Some (challenge, entry) =>
      if used entry || (expiresAt entry <? now)
      then throw (UnauthorizedException "No valid passkey challenge found or challenge expired")
      else
        await credential := gets (fun s => find_one (asr_id response) (webAuthnCredentials s)) in
        match credential with
        | None => throw (UnauthorizedException "Passkey not recognized")
        | Some cr =>
            match verifyAuthenticationResponse response challenge origin rpID
                    (credential_id cr, public_key cr, Number_of_string (counter cr), transports cr) with
            | None => throw invalid
            | Some (verified, newCounter) =>
                if negb verified then throw invalid
                else
                  do modify (set_passkeys (Mem.upsert challenge (mkEntry (expiresAt entry) true))) ;>
                  do modify (set_credentials (save (credential_id cr)
                       (mkCredential (cred_key cr) (cred_user cr) (credential_id cr) (public_key cr)
                          (Z_to_string newCounter) (device_type cr) (backed_up cr) (transports cr) (Some now)))) ;>
                  await u := gets (find_user (cred_user cr)) in
                  match u with
                  | None => throw (UnauthorizedException "User not found or has been deleted")
                  | Some u =>
                      let token := signAsync (user_key u) (stellar_address u) now in
                      await issued := issueRefreshToken mi (user_key u) familyId None now in
                      ret (mkSession token issued.1, u)
                  end
            end
        end
  | None => throw (UnauthorizedException "No valid passkey challenge found or challenge expired")
  end.

Definition beginPasskeyRegistration (challenge : string) (u : User) (displayName : option string) (now : Z)
  : M state CreationOptions :=
  let name := default (stellar_address u) (username u) in
  await existing := gets (fun s =>
    List.filter (fun c => bool_decide (cred_user c = user_key u)) ((rows (webAuthnCredentials s)).*2)) in
  do modify (set_registrations (Mem.upsert challenge (mkReg (user_key u) (now + PASSKEY_TTL_MS) false))) ;>
  ret (mkCreationOptions rpID (default "Stow"%string (WEBAUTHN_RP_NAME cfg)) name (default name displayName)
         ((fun c => (credential_id c, transports c)) <$> existing) [SECP256R1_COSE_ALG_ID] challenge).

(** [uuid] is the id of the new row. *)
Definition finishPasskeyRegistration (uuid : string) (u : User) (response : RegistrationResponse) (now : Z)
  : M state WebAuthnCredential :=
  let invalid := UnauthorizedException "Invalid passkey registration response" in
  await c := extractChallengeFromClientData (att_clientData response) in
  await found := gets (fun s => map_get (passkeyRegistrationChallengeCache s) c) in
  match found with
  | None => throw (UnauthorizedException "No valid passkey registration challenge found or challenge expired")
  | Some (challenge, entry) =>
      if reg_used entry || (reg_expiresAt entry <? now)
      then throw (UnauthorizedException "No valid passkey registration challenge found or challenge expired")
      else if negb (bool_decide (reg_user entry = user_key u))
      then throw (UnauthorizedException "Passkey registration challenge does not belong to this user")
      else
        match verifyRegistrationResponse response challenge origin rpID [SECP256R1_COSE_ALG_ID] with
        | Some (true, Some info) =>
            do modify (set_registrations (Mem.upsert challenge (mkReg (reg_user entry) (reg_expiresAt entry) true))) ;>
            await existing := gets (fun s => find_one (info_id info) (webAuthnCredentials s)) in
            match existing with
            | Some _ => throw (UnauthorizedException "This passkey is already registered")
            | None =>
                let record := mkCredential uuid (user_key u) (info_id info) (info_publicKey info)
                                (Z_to_string (info_counter info)) (Some (info_deviceType info))
                                (info_backedUp info) (info_transports info) None in
                do modify (set_credentials (save (info_id info) record)) ;>
                ret record
            end
        | _ => throw invalid
        end
  end.

(** *** The service as a transition system *)

(** Every call that changes state, with the random values it draws; [Accounts] is any
    change other services make to the users. *)
Inductive op :=
| Cleanup (now : Z)
| Generate (random address : string) (now : Z)
| IsValid (challenge : string) (now : Z)
| Remove (challenge : string)
| VerifySignature (newUserId newPrefsId address signed : string) (now : Z)
| Login (newUserId newPrefsId familyId : string) (mi : mint) (address signed : string) (now : Z)
| Create (mi : mint) (familyId : string) (u : User) (now : Z)
| Rotate (mi : mint) (rawToken : string) (now : Z)
| BeginAuth (challenge : string) (now : Z)
| FinishAuth (mi : mint) (familyId : string) (response : AuthenticationResponse) (now : Z)
| BeginReg (challenge : string) (u : User) (displayName : option string) (now : Z)
| FinishReg (uuid : string) (u : User) (response : RegistrationResponse) (now : Z)
| Accounts (f : table string User -> table string User).

Definition exec (o : op) (s : state) : state :=
  match o with
  | Cleanup now => (cleanupExpiredChallenges now s).2
  | Generate r a now => (generateChallenge r a now s).2
  | IsValid c now => (isValidChallenge c now s).2
  | Remove c => (removeChallenge c s).2
  | VerifySignature n p a sg now => (verifySignature n p a sg now s).2
  | Login n p f mi a sg now => (verifyChallenge n p f mi a sg now s).2
  | Create mi f u now => (createSession mi f u now s).2
  | Rotate mi r now => (rotateRefreshToken mi r now s).2
  | BeginAuth c now => (beginPasskeyAuthentication c now s).2
  | FinishAuth mi f r now => (finishPasskeyAuthentication mi f r now s).2
  | BeginReg c u d now => (beginPasskeyRegistration c u d now s).2
  | FinishReg i u r now => (finishPasskeyRegistration i u r now s).2
  | Accounts f => set_users f s
  end.

Definition family_of (o : op) : option string :=
  match o with
  | Login _ _ f _ _ _ _ | Create _ f _ _ | FinishAuth _ f _ _ => Some f
  | _ => None
  end.

(** A generated family id is not in use ([randomUUID]). *)
Definition fresh_family (f : string) (T : table string RefreshToken) : Prop :=
  forall h t, find_one h T = Some t -> family_id t ≠ f.

Definition step (s s' : state) : Prop :=
  exists o, (forall f, family_of o = Some f -> fresh_family f (refreshTokens s)) /\ s' = exec o s.

Definition no_tokens (s : state) : Prop := forall h, find_one h (refreshTokens s) = None.

(** The abstract view: what a call may do to the token table. *)
Inductive token_step : table string RefreshToken -> table string RefreshToken -> Prop :=
| ts_same T : token_step T T
| ts_new T t :
    find_one (token_hash t) T = None -> fresh_family (family_id t) T -> revoked_at t = None ->
    token_step T (save (token_hash t) t T)
| ts_reuse T h t now :
    find_one h T = Some t -> revoked_at t ≠ None ->
    token_step T (update_where
      (fun _ t' => bool_decide (family_id t' = family_id t) && bool_decide (revoked_at t' = None)) (revoke now) T)
| ts_revoke T t now :
    find_one (token_hash t) T = Some t -> revoked_at t = None ->
    token_step T (save (token_hash t) (revoke now t) T)
| ts_rotate T t t' now :
    find_one (token_hash t) T = Some t -> revoked_at t = None ->
    find_one (token_hash t') T = None -> family_id t' = family_id t -> revoked_at t' = None ->
    token_step T (save (token_hash t') t' (save (token_hash t) (revoke now t) T)).

(** Rows are filed under their digest. *)
Definition filed (T : table string RefreshToken) : Prop :=
  forall h t, find_one h T = Some t -> token_hash t = h.

Definition one_live (T : table string RefreshToken) : Prop :=
  forall h h' t t', find_one h T = Some t -> find_one h' T = Some t' ->
    family_id t = family_id t' -> revoked_at t = None -> revoked_at t' = None -> h = h'.


(** *** The calls refine the abstract steps *)

Ltac keeps :=
  repeat match goal with
    | |- preserves _ (modify _) => apply preserves_modify; intros ? <-; reflexivity
    | |- preserves _ (gets _) => apply preserves_gets
    | |- preserves _ (throw _) => apply preserves_throw
    | _ => progress preserve
    end.

Lemma verify_keeps_tokens n p a sg now T :
  preserves (fun s => refreshTokens s = T) (verifySignatureWithStatus n p a sg now).
Proof. unfold verifySignatureWithStatus, insert_user. keeps. Qed.

Lemma issue_step mi u f prev now s :
  fresh_family f (refreshTokens s) ->
  token_step (refreshTokens s) (refreshTokens (issueRefreshToken mi u f prev now s).2).
Proof.
  intros Hf. unfold issueRefreshToken, insert_token. run.
  destruct (find_one _ _) eqn:Hh; simpl; [constructor|].
  apply (ts_new _ (mkToken _ _ _ _ _ _ _ _)); done.
Qed.

Lemma rotate_step mi r now s :
  filed (refreshTokens s) ->
  token_step (refreshTokens s) (refreshTokens (rotateRefreshToken mi r now s).2).
Proof.
  intros Hw. unfold rotateRefreshToken, rotate_check. run.
  destruct (find_one _ _) as [t|] eqn:Ht; simpl; [|constructor].
  destruct (expires_at t <? now); simpl; [constructor|].
  destruct (revoked_at t) as [z|] eqn:Hr; simpl.
  { eapply ts_reuse; [exact Ht|congruence]. }
  destruct (find_user _ s) as [u|]; simpl; [|constructor].
  unfold rotate_issue, issueRefreshToken, insert_token. run.
  rewrite (Hw _ _ Ht). rewrite find_one_save.
  case_decide as Hd; simpl; [rewrite <-(Hw _ _ Ht); apply ts_revoke; [by rewrite (Hw _ _ Ht)|done]|].
  destruct (find_one (hashToken (raw mi)) _) eqn:Hn; simpl.
  - rewrite <-(Hw _ _ Ht); apply ts_revoke; [by rewrite (Hw _ _ Ht)|done].
  - rewrite <-(Hw _ _ Ht).
    apply (ts_rotate _ t (mkToken _ _ _ _ _ _ _ _)); try done. by rewrite (Hw _ _ Ht).
Qed.

Lemma finish_auth_step mi f r now s :
  fresh_family f (refreshTokens s) ->
  token_step (refreshTokens s) (refreshTokens (finishPasskeyAuthentication mi f r now s).2).
Proof.
  intros Hf. unfold finishPasskeyAuthentication, extractChallengeFromClientData. run.
  repeat case_match; simplify_eq/=; try constructor;
  match goal with
  | H : issueRefreshToken ?mi ?u ?f ?p ?now ?s' = (_, ?s2) |- _ =>
      pose proof (issue_step mi u f p now s' Hf) as Hs; rewrite H in Hs; exact Hs
  end.
Qed.

Lemma login_step n p f mi a sg now s :
  fresh_family f (refreshTokens s) ->
  token_step (refreshTokens s) (refreshTokens (verifyChallenge n p f mi a sg now s).2).
Proof.
  intros Hf. unfold verifyChallenge, createSession, bind.
  pose proof (verify_keeps_tokens n p a sg now _ s eq_refl) as Hk.
  destruct (verifySignatureWithStatus n p a sg now s) as [[r|e] s1]; simpl in *; [|rewrite Hk; constructor].
  rewrite <-Hk in Hf |- *. pose proof (issue_step mi (user_key r.1) f None now s1 Hf) as Hs.
  by destruct (issueRefreshToken _ _ _ _ _ s1) as [[i|e] s2].
Qed.

(** Every call is an abstract step on the tokens. *)
Lemma exec_token_step o s :
  filed (refreshTokens s) ->
  (forall f, family_of o = Some f -> fresh_family f (refreshTokens s)) ->
  token_step (refreshTokens s) (refreshTokens (exec o s)).
Proof.
  intros Hw Hf.
  assert (Hsame : forall A (m : M state A),
            (forall T, preserves (fun s => refreshTokens s = T) m) ->
            token_step (refreshTokens s) (refreshTokens (m s).2)).
  { intros A m Hm. rewrite (Hm _ s eq_refl). constructor. }
  destruct o; cbn [exec family_of] in *.
  - apply Hsame. intros T. unfold cleanupExpiredChallenges. keeps.
  - apply Hsame. intros T. unfold generateChallenge. keeps.
  - apply Hsame. intros T. unfold isValidChallenge, removeChallenge. keeps.
  - apply Hsame. intros T. unfold removeChallenge. keeps.
  - apply Hsame. intros T. unfold verifySignature.
    apply preserves_bind; [apply verify_keeps_tokens|keeps].
  - apply login_step; by auto.
  - unfold createSession, bind. pose proof (issue_step mi (user_key u) familyId None now s) as Hs.
    destruct (issueRefreshToken _ _ _ _ _ s) as [[i|e] s2]; apply Hs; by auto.
  - by apply rotate_step.
  - apply Hsame. intros T. unfold beginPasskeyAuthentication. keeps.
  - apply finish_auth_step; by auto.
  - apply Hsame. intros T. unfold beginPasskeyRegistration. keeps.
  - apply Hsame. intros T. unfold finishPasskeyRegistration, extractChallengeFromClientData. keeps.
  - constructor.
Qed.

(** *** What the abstract steps keep *)

(** The lookups of a table after a step, split on the written keys. *)
Ltac lookups :=
  repeat match goal with
    | H : find_one _ (save _ _ _) = Some _ |- _ =>
        rewrite find_one_save in H; case_decide; simplify_eq/=
    | H : find_one _ (update_where _ _ _) = Some _ |- _ =>
        rewrite find_one_update_where in H; apply fmap_Some in H as (? & ? & ?); subst
    end.

Lemma filed_step T T' : token_step T T' -> filed T -> filed T'.
Proof.
  intros Hs Hw. destruct Hs; try done; intros h1 t1 Hl; lookups; try done; try by apply Hw.
  by case_match; simpl; apply Hw.
Qed.

Lemma one_live_step T T' : token_step T T' -> filed T -> one_live T -> one_live T'.
Proof.
  intros Hs Hw Hl. destruct Hs as [ |T t Hn Hf Hr|T h t now Ht Hr|T t now Ht Hr|T t t' now Ht Hr Hn Hfam Hr'];
    [done|..]; intros h1 h2 t1 t2 H1 H2 He L1 L2; lookups; try done; try by eapply Hl.
  - by match goal with H : find_one _ T = Some _ |- _ => destruct (Hf _ _ H) end.
  - by match goal with H : find_one _ T = Some _ |- _ => destruct (Hf _ _ H) end.
  - repeat case_match; simpl in *; try done. by eapply Hl.
  - exfalso. eauto using eq_trans.
  - exfalso. eauto using eq_trans, eq_sym.
Qed.



Lemma steps_filed s s' : rtc step s s' -> filed (refreshTokens s) -> filed (refreshTokens s').
Proof.
  induction 1 as [|s1 s2 s3 (o & Hf & ->) _ IH]; [done|]. intros Hw. apply IH.
  eapply filed_step; [|exact Hw]. by apply exec_token_step.
Qed.


(** C9: In every state the service reaches, through any calls of any of its methods,
    a family of refresh tokens has at most one token that is not revoked. *)
Theorem at_most_one_live_token (s0 s : state) :
  no_tokens s0 -> rtc step s0 s -> one_live (refreshTokens s).
Proof.
  intros H0 Hs.
  cut (filed (refreshTokens s) /\ one_live (refreshTokens s)); [tauto|].
  assert (Hi : filed (refreshTokens s0) /\ one_live (refreshTokens s0)).
  { split; intros h; intros; by rewrite H0 in *. }
  revert Hi. clear H0. induction Hs as [|s1 s2 s3 (o & Hf & ->) _ IH]; [done|]. intros [Hw Hl].
  pose proof (exec_token_step o s1 Hw Hf) as Hs.
  apply IH. split; [by eapply filed_step|by eapply one_live_step].
Qed.


(** A rotation on every branch that reaches a live token: the client gets a signed
    access token and the new refresh token; the new row continues the family from the
    presented one, which is revoked; every other row is as before; and presenting the
    old token again, before it expires, is refused as a replay. *)
Theorem rotation_spec (s : state) (mi mi2 : mint) (r : string) (now now2 : Z) (t : RefreshToken) (u : User) :
  filed (refreshTokens s) ->
  find_one (hashToken r) (refreshTokens s) = Some t -> now <= now2 <= expires_at t -> revoked_at t = None ->
  find_user (user_id t) s = Some u -> find_one (hashToken (raw mi)) (refreshTokens s) = None ->
  let s' := (rotateRefreshToken mi r now s).2 in
  (rotateRefreshToken mi r now s).1 = Ret (mkSession (signAsync (user_key u) (stellar_address u) now) (raw mi)) /\
  (exists t', find_one (hashToken (raw mi)) (refreshTokens s') = Some t' /\ revoked_at t' = None /\
     family_id t' = family_id t /\ previous_token_id t' = Some (token_id t) /\ user_id t' = user_key u /\
     expires_at t' = now + default DEFAULT_REFRESH_TOKEN_TTL_DAYS (REFRESH_TOKEN_TTL_DAYS cfg) * 86400000) /\
  find_one (hashToken r) (refreshTokens s') = Some (revoke now t) /\
  (forall h, h ≠ hashToken r -> h ≠ hashToken (raw mi) ->
     find_one h (refreshTokens s') = find_one h (refreshTokens s)) /\
  (rotateRefreshToken mi2 r now2 s').1 = Throw (UnauthorizedException "Refresh token reuse detected; session revoked").
Proof.
  intros Hw Ht Hx Hr Hu Hn s'.
  pose proof (Hw _ _ Ht) as Hh.
  assert (Hne : hashToken r ≠ hashToken (raw mi)) by (intros He; rewrite He in Ht; congruence).
  assert (Hrun : rotateRefreshToken mi r now s =
    (Ret (mkSession (signAsync (user_key u) (stellar_address u) now) (raw mi)),
     set_tokens (fun T => save (hashToken (raw mi))
       (mkToken (row_id mi) (user_key u) (family_id t) (hashToken (raw mi)) (Some (token_id t)) None
         (now + default DEFAULT_REFRESH_TOKEN_TTL_DAYS (REFRESH_TOKEN_TTL_DAYS cfg) * 24 * 60 * 60 * 1000) now)
       (save (hashToken r) (revoke now t) T)) s)).
  { unfold rotateRefreshToken, rotate_check, rotate_issue, issueRefreshToken, insert_token. run. rewrite Ht.
    destruct (Z.ltb_spec (expires_at t) now); [lia|]. rewrite Hr. simpl. rewrite Hu. simpl. rewrite Hh.
    by rewrite find_one_save_ne, Hn. }
  subst s'. rewrite Hrun. simpl. split; [done|].
  assert (Hold : find_one (hashToken r) (refreshTokens (rotateRefreshToken mi r now s).2) = Some (revoke now t)).
  { rewrite Hrun. simpl. rewrite find_one_save_ne, find_one_save_eq; [done|congruence]. }
  split.
  { eexists. rewrite find_one_save_eq. split; [done|]. simpl. repeat split. lia. }
  rewrite Hrun in Hold. simpl in Hold. split; [done|]. split.
  - intros h H1 H2. by rewrite !find_one_save_ne.
  - unfold rotateRefreshToken, rotate_check. run. rewrite Hold. simpl.
    destruct (Z.ltb_spec (expires_at t) now2); [lia|done].
Qed.

(** Two rotations of the same token that both read it before either revokes it
    both succeed, and leave two tokens of one family alive: the check and the
    revocation are separate statements. *)
Theorem concurrent_rotation_forks_family (s : state) (mi1 mi2 : mint) (r : string) (now : Z)
    (t : RefreshToken) (u : User) :
  filed (refreshTokens s) ->
  (rotate_check r now s).1 = Ret (t, u) ->
  find_one (hashToken (raw mi1)) (refreshTokens s) = None ->
  find_one (hashToken (raw mi2)) (refreshTokens s) = None ->
  hashToken (raw mi1) ≠ hashToken (raw mi2) ->
  let s1 := (rotate_issue mi1 t u now s).2 in
  let s2 := (rotate_issue mi2 t u now s1).2 in
  is_ret (rotate_issue mi1 t u now s).1 = true /\ is_ret (rotate_issue mi2 t u now s1).1 = true /\
  ~ one_live (refreshTokens s2).
Proof.
  intros Hw Hc H1 H2 Hne s1 s2.
  assert (Ht : find_one (hashToken r) (refreshTokens s) = Some t).
  { unfold rotate_check in Hc. run. destruct (find_one _ _) as [t0|]; [|done].
    repeat case_match; simplify_eq/=; done. }
  pose proof (Hw _ _ Ht) as Hh.
  assert (N1 : token_hash t ≠ hashToken (raw mi1)) by congruence.
  assert (N2 : token_hash t ≠ hashToken (raw mi2)) by congruence.
  assert (Hi : forall mi s0, token_hash t ≠ hashToken (raw mi) ->
            find_one (hashToken (raw mi)) (refreshTokens s0) = None ->
            exists t', family_id t' = family_id t /\ revoked_at t' = None /\
              rotate_issue mi t u now s0 =
                (Ret (mkSession (signAsync (user_key u) (stellar_address u) now) (raw mi)),
                 set_tokens (fun T => save (hashToken (raw mi)) t' (save (token_hash t) (revoke now t) T)) s0)).
  { intros mi s0 Hn H0. eexists. unfold rotate_issue, issueRefreshToken, insert_token. run.
    rewrite find_one_save_ne, H0 by done. simpl. by split_and!; [..|reflexivity]. }
  destruct (Hi mi1 s N1 H1) as (t1 & F1 & R1 & E1).
  subst s2 s1. rewrite E1. simpl.
  edestruct (Hi mi2) as (t2 & F2 & R2 & E2); [exact N2| |rewrite E2].
  { simpl. rewrite !find_one_save_ne; done. }
  simpl. split; [done|]. split; [done|]. intros Hl. apply Hne.
  eapply (Hl _ _ t1 t2); [| |congruence..].
  - rewrite !find_one_save. repeat case_decide; try done; by destruct Hne.
  - by rewrite find_one_save_eq.
Qed.

(** *** Challenges *)

(** A challenge is drawn that is not pending yet. *)
Definition new_challenge (s s' : state) : Prop :=
  exists random address now c,
    (generateChallenge random address now s).1 = Ret c /\ Mem.find (challengeCache s) c = None /\
    s' = (generateChallenge random address now s).2.

Lemma upsert_fresh {V} (l : list (string * V)) k v :
  Mem.find l k = None -> Mem.upsert k v l = l ++ [(k, v)].
Proof. induction l as [|[a b] l IH]; simpl; [done|]. case_decide; [done|]. intros H'. by rewrite IH. Qed.

Lemma upsert_split {V} (l1 l2 : list (string * V)) k v w :
  k ∉ l1.*1 -> Mem.upsert k w (l1 ++ (k, v) :: l2) = l1 ++ (k, w) :: l2.
Proof.
  induction l1 as [|[a b] l IH]; csimpl; [by case_decide|]. rewrite not_elem_of_cons. intros [Hk Hl].
  case_decide; [congruence|]. by rewrite IH.
Qed.

Lemma find_split {V} (l1 l2 : list (string * V)) k v :
  k ∉ l1.*1 -> Mem.find (l1 ++ (k, v) :: l2) k = Some v.
Proof.
  induction l1 as [|[a b] l IH]; csimpl; [by case_decide|]. rewrite not_elem_of_cons. intros [Hk Hl].
  case_decide; [congruence|]. by rewrite IH.
Qed.

Lemma List_find_split {A} (p : A -> bool) l x :
  List.find p l = Some x -> exists l1 l2, l = l1 ++ x :: l2 /\ Forall (fun y => p y = false) l1 /\ p x = true.
Proof.
  induction l as [|y l IH]; simpl; [done|]. destruct (p y) eqn:Hp; intros Hf.
  - simplify_eq. by exists [], l.
  - destruct (IH Hf) as (l1 & l2 & -> & H1 & H2). exists (y :: l1), l2. auto.
Qed.

Lemma List_find_app {A} (p : A -> bool) l1 x l2 :
  Forall (fun y => p y = false) l1 -> p x = true -> List.find p (l1 ++ x :: l2) = Some x.
Proof. intros Hl Hx. induction Hl as [|y l Hy _ IH]; simpl; [by rewrite Hx|]. by rewrite Hy. Qed.

(** The pending challenges of an address up to an unexpired used one. *)
Definition shadowed (a c : string) (now x : Z) (l : list (string * challenge_entry)) : Prop :=
  exists l1 l2, l = l1 ++ (c, mkEntry x true) :: l2 /\ (c ∉ l1.*1) /\ ends_with (":" +:+ a)%string c = true /\
    Forall (fun e => (ends_with (":" +:+ a)%string e.1 && (now <=? expiresAt e.2)) = false) l1.

Lemma shadowed_generate a c now x s s' :
  rtc new_challenge s s' -> shadowed a c now x (challengeCache s) -> shadowed a c now x (challengeCache s').
Proof.
  induction 1 as [|s1 s2 s3 (r & a' & now' & c' & Hr & Hn & ->) _ IH]; [done|].
  intros (l1 & l2 & Hl & H1 & H2 & H3). apply IH. unfold generateChallenge in *. run. simplify_eq.
  eexists l1, _. rewrite upsert_fresh, Hl, <-app_assoc by done. by split_and!.
Qed.

Lemma shadowed_refused a c now now2 x s n p sg :
  shadowed a c now x (challengeCache s) -> now <= now2 <= x ->
  verifySignatureWithStatus n p a sg now2 s = (Throw (UnauthorizedException "Challenge already used"), s).
Proof.
  intros (l1 & l2 & Hl & H1 & H2 & H3) Hx. unfold verifySignatureWithStatus, findValidChallengeForAddress. run.
  rewrite Hl, (List_find_app _ l1); [|..].
  - simpl. by rewrite Hl, find_split.
  - eapply Forall_impl; [exact H3|]. intros [k e]; simpl.
    destruct (ends_with _ k); simpl; [|done]. rewrite !Z.leb_gt. lia.
  - simpl. rewrite H2. simpl. apply Z.leb_le. lia.
Qed.

Lemma verify_success_shadows n p a sg now s r :
  NoDup (challengeCache s).*1 -> (verifySignatureWithStatus n p a sg now s).1 = Ret r ->
  exists c e, Mem.find (challengeCache s) c = Some e /\ used e = false /\ now <= expiresAt e /\
    keypair_verify a c sg = Some true /\
    shadowed a c now (expiresAt e) (challengeCache (verifySignatureWithStatus n p a sg now s).2).
Proof.
  intros Hnd. unfold verifySignatureWithStatus, findValidChallengeForAddress. run.
  destruct (List.find _ _) as [[c e]|] eqn:Hf; simpl; [|done].
  apply List_find_split in Hf as (l1 & l2 & Hl & Hall & Hp). simpl in Hp. apply andb_true_iff in Hp as [Hp1 Hp2].
  rewrite Hl in *.
  assert (Hc : c ∉ l1.*1).
  { intros Hin. rewrite fmap_app in Hnd. csimpl in Hnd. apply NoDup_app in Hnd as (_ & Hd & _).
    apply (Hd c Hin). set_solver. }
  rewrite find_split by done. simpl. destruct (used e) eqn:Hu; [done|].
  unfold verifyStellarSignature. destruct (keypair_verify a c sg) as [[]|] eqn:Hk; simpl; [|done..].
  intros _. exists c, e. split; [by rewrite find_split|]. split; [done|]. split; [by apply Z.leb_le|]. split; [done|].
  exists l1, l2. unfold insert_user. run.
  repeat case_match; simplify_eq/=; by rewrite Hl, upsert_split.
Qed.

(** A wallet login accepts only an unused, unexpired challenge of the address with
    a valid signature over it; but until that challenge expires, every other login of
    the address is refused as a replay, also with a challenge requested since: the
    lookup returns the oldest pending challenge, used or not. *)
Theorem login_blocks_next_login (s s' : state) (n p n' p' a sg sg' : string) (now : Z) (r : User * bool) :
  NoDup (challengeCache s).*1 ->
  (verifySignatureWithStatus n p a sg now s).1 = Ret r ->
  rtc new_challenge (verifySignatureWithStatus n p a sg now s).2 s' ->
  exists c e, Mem.find (challengeCache s) c = Some e /\ used e = false /\ now <= expiresAt e /\
    keypair_verify a c sg = Some true /\
    forall now2, now <= now2 <= expiresAt e ->
      verifySignatureWithStatus n' p' a sg' now2 s' = (Throw (UnauthorizedException "Challenge already used"), s').
Proof.
  intros Hnd Hr Hs. destruct (verify_success_shadows n p a sg now s r Hnd Hr) as (c & e & H1 & H2 & H3 & H4 & H5).
  exists c, e. split_and!; try done. intros now2 Hx.
  eapply shadowed_refused; [|exact Hx]. by eapply shadowed_generate.
Qed.

(** *** Passkey ceremonies *)

Lemma map_get_find {V} (m : list (string * V)) k c v : map_get m k = Some (c, v) -> k = VStr c /\ Mem.find m c = Some v.
Proof. destruct k; simpl; try done. intros (w & Hw & ?)%fmap_Some. by simplify_eq. Qed.

Lemma issue_keeps_passkeys mi u f prev now P :
  preserves (fun s => passkeyChallengeCache s = P) (issueRefreshToken mi u f prev now).
Proof. unfold issueRefreshToken, insert_token. keeps. Qed.

(** The challenge a message answers. *)
Definition answers (clientData c : string) : Prop :=
  exists fs, client_data clientData = Some (VObj fs) /\ truthy (prop fs "challenge") = true /\
    prop fs "challenge" = VStr c.

Lemma finish_auth_refused mi f a now s c e :
  answers (asr_clientData a) c -> Mem.find (passkeyChallengeCache s) c = Some e -> used e = true ->
  finishPasskeyAuthentication mi f a now s =
    (Throw (UnauthorizedException "No valid passkey challenge found or challenge expired"), s).
Proof.
  intros (fs & Hc & Ht & Hv) Hf Hu. unfold finishPasskeyAuthentication, extractChallengeFromClientData. run.
  rewrite Hc, Ht. simpl. rewrite Hv. simpl. rewrite Hf. simpl. by rewrite Hu.
Qed.

Lemma finish_auth_success mi f a now s :
  is_ret (finishPasskeyAuthentication mi f a now s).1 = true ->
  exists c e, answers (asr_clientData a) c /\ used e = true /\
    Mem.find (passkeyChallengeCache (finishPasskeyAuthentication mi f a now s).2) c = Some e.
Proof.
  unfold finishPasskeyAuthentication, extractChallengeFromClientData. run. intros Hr.
  destruct (client_data (asr_clientData a)) as [[| | | | | | |fs]|] eqn:Hc; try done.
  destruct (truthy (prop fs "challenge")) eqn:Ht; [|done]. simpl in *.
  destruct (map_get _ _) as [[c e]|] eqn:Hm; [|done]. apply map_get_find in Hm as [Hv Hm].
  exists c, (mkEntry (expiresAt e) true). split; [by exists fs|]. split; [done|].
  repeat case_match; simplify_eq/=;
    match goal with
    | H : issueRefreshToken ?mi ?u ?f ?p ?now ?s' = (_, ?s2) |- _ =>
        pose proof (issue_keeps_passkeys mi u f p now _ s' eq_refl) as Hk; rewrite H in Hk; simpl in Hk
    end; rewrite Hk, Mem.find_upsert; by case_decide.
Qed.

Lemma finish_reg_refused uuid u g now s c e :
  answers (att_clientData g) c -> Mem.find (passkeyRegistrationChallengeCache s) c = Some e -> reg_used e = true ->
  finishPasskeyRegistration uuid u g now s =
    (Throw (UnauthorizedException "No valid passkey registration challenge found or challenge expired"), s).
Proof.
  intros (fs & Hc & Ht & Hv) Hf Hu. unfold finishPasskeyRegistration, extractChallengeFromClientData. run.
  rewrite Hc, Ht. simpl. rewrite Hv. simpl. rewrite Hf. simpl. by rewrite Hu.
Qed.

Lemma finish_reg_success uuid u g now s cr :
  (finishPasskeyRegistration uuid u g now s).1 = Ret cr ->
  cred_user cr = user_key u /\
  find_one (credential_id cr) (webAuthnCredentials (finishPasskeyRegistration uuid u g now s).2) = Some cr /\
  exists c e e', answers (att_clientData g) c /\ reg_used e' = true /\
    Mem.find (passkeyRegistrationChallengeCache (finishPasskeyRegistration uuid u g now s).2) c = Some e' /\
    Mem.find (passkeyRegistrationChallengeCache s) c = Some e /\ reg_user e = user_key u /\
    reg_used e = false /\ now <= reg_expiresAt e.
Proof.
  unfold finishPasskeyRegistration, extractChallengeFromClientData. run. intros Hr.
  destruct (client_data (att_clientData g)) as [[| | | | | | |fs]|] eqn:Hc; try done.
  destruct (truthy (prop fs "challenge")) eqn:Ht; [|done]. simpl in *.
  destruct (map_get _ _) as [[c e]|] eqn:Hm; [|done]. apply map_get_find in Hm as [Hv Hm].
  destruct (reg_used e) eqn:Hu; [done|]. destruct (Z.ltb_spec (reg_expiresAt e) now); [done|]. simpl in *.
  case_bool_decide as Hreg; [|done]. simpl in *.
  destruct (verifyRegistrationResponse _ _ _ _ _) as [[[] [info|]]|]; try done. simpl in *.
  destruct (find_one _ _) eqn:Hcred; [done|]. simplify_eq/=.
  split; [done|]. split; [apply find_one_save_eq|].
  exists c, e, (mkReg (reg_user e) (reg_expiresAt e) true).
  rewrite Mem.find_upsert. case_decide; [|done]. split_and!; try done. by exists fs.
Qed.

(** A passkey login or registration ceremony succeeds at most once: the same
    client data is refused from then on, whatever else the message holds; a
    registration succeeds only for the user who began it. *)
Theorem passkey_ceremony_once (s : state) (mi mi' : mint) (f f' uuid uuid' : string) (u u' : User)
    (a a' : AuthenticationResponse) (g g' : RegistrationResponse) (now now2 : Z) :
  asr_clientData a' = asr_clientData a -> att_clientData g' = att_clientData g ->
  let login := finishPasskeyAuthentication mi f a now s in
  let reg := finishPasskeyRegistration uuid u g now s in
  (is_ret login.1 = true ->
     finishPasskeyAuthentication mi' f' a' now2 login.2 =
       (Throw (UnauthorizedException "No valid passkey challenge found or challenge expired"), login.2)) /\
  (forall cr, reg.1 = Ret cr -> cred_user cr = user_key u /\
     find_one (credential_id cr) (webAuthnCredentials reg.2) = Some cr /\
     (exists c e, Mem.find (passkeyRegistrationChallengeCache s) c = Some e /\ reg_user e = user_key u /\
        reg_used e = false /\ now <= reg_expiresAt e) /\
     finishPasskeyRegistration uuid' u' g' now2 reg.2 =
       (Throw (UnauthorizedException "No valid passkey registration challenge found or challenge expired"), reg.2)).
Proof.
  intros Ha Hg login reg. split.
  - intros (c & e & H1 & H2 & H3)%finish_auth_success. eapply finish_auth_refused; [rewrite Ha; exact H1|..]; done.
  - intros cr (H1 & H2 & c & e & e' & H3 & H4 & H5 & H6 & H7)%finish_reg_success.
    split; [done|]. split; [done|]. split; [by exists c, e|].
    eapply finish_reg_refused; [rewrite Hg; exact H3|..]; done.
Qed.
End service.

(** *** Concrete runs *)

(** A digest that tags its input, signatures that repeat the signed text, client data
    that is the challenge itself. *)
#[local] Instance ToyLib : AuthLib := {|
  sha256 := fun s => ("h:" +:+ s)%string;
  signAsync := fun uid a _ => ("jwt:" +:+ uid +:+ ":" +:+ a)%string;
  keypair_verify := fun _ c s => Some (bool_decide (s = c));
  client_data := fun s => Some (VObj [("challenge"%string, VStr s)]);
  verifyAuthenticationResponse := fun _ _ _ _ _ => Some (true, 1);
  verifyRegistrationResponse := fun r _ _ _ _ =>
    Some (true, Some (mkInfo (att_payload r) [1; 2; 3] 0 None "singleDevice" false));
|}.

Definition toy_config : Config := mkConfig None None None None.

Definition toy_user : User := mkUser "u1" "GALICE" None None 0.

Definition toy_state : state (B := MemBackend) :=
  mkState [] [] [] [("u1"%string, toy_user)] [] [] [] [].

(** A state with one session: the wallet logs in with a challenge it asked for. *)
Definition toy_challenge : string := "InsightArena:nonce:1000:abcd:GALICE".
Definition toy_asked : state (B := MemBackend) := exec toy_config (Generate "abcd" "GALICE" 1000) toy_state.
Definition toy_login : op := Login "u2" "p2" "fam" (mkMint "tok0" "id0") "GALICE" toy_challenge 2000.
Definition toy_session : state (B := MemBackend) := exec toy_config toy_login toy_asked.
Definition toy_rotated : state (B := MemBackend) := exec toy_config (Rotate (mkMint "tok1" "id1") "tok0" 3000) toy_session.

Lemma toy_steps_session : rtc (step toy_config) toy_state toy_session.
Proof.
  eapply rtc_l; [exists (Generate "abcd" "GALICE" 1000); split; [done|reflexivity]|].
  eapply rtc_l; [exists toy_login; split; [|reflexivity]|apply rtc_refl].
  intros f Hf h t Ht. discriminate Ht.
Qed.

Lemma toy_steps : rtc (step toy_config) toy_state toy_rotated.
Proof.
  eapply rtc_r; [apply toy_steps_session|].
  exists (Rotate (mkMint "tok1" "id1") "tok0" 3000). split; [done|reflexivity].
Qed.

Lemma toy_filed_session : filed (refreshTokens toy_session).
Proof. by eapply steps_filed; [apply toy_steps_session|]. Qed.


Lemma at_most_one_live_token_witness :
  no_tokens toy_state /\ one_live (refreshTokens toy_rotated).
Proof.
  split; [done|]. apply (at_most_one_live_token toy_config toy_state toy_rotated); [done|apply toy_steps].
Defined.


Lemma rotation_spec_witness :
  (rotateRefreshToken toy_config (mkMint "tok1" "id1") "tok0" 3000 toy_session).1 =
    Ret (mkSession "jwt:u1:GALICE" "tok1").
Proof.
  edestruct (rotation_spec toy_config toy_session (mkMint "tok1" "id1") (mkMint "x" "x") "tok0" 3000 4000) as [Hr _];
    [apply toy_filed_session|vm_compute; reflexivity|vm_compute; done|vm_compute; done
    |vm_compute; reflexivity|vm_compute; reflexivity|exact Hr].
Defined.

Lemma concurrent_rotation_forks_family_witness :
  exists t u, (rotate_check "tok0" 3000 toy_session).1 = Ret (t, u) /\
    ~ one_live (refreshTokens
        (rotate_issue toy_config (mkMint "b" "b") t u 3000
           (rotate_issue toy_config (mkMint "a" "a") t u 3000 toy_session).2).2).
Proof.
  eexists _, _. split; [vm_compute; reflexivity|].
  edestruct (concurrent_rotation_forks_family toy_config toy_session (mkMint "a" "a") (mkMint "b" "b") "tok0" 3000)
    as (_ & _ & Hl);
    [apply toy_filed_session|vm_compute; reflexivity|vm_compute; reflexivity|vm_compute; reflexivity|vm_compute; done
    |exact Hl].
Defined.

(** A second challenge is requested and signed within the five minutes; it is not
    accepted. *)
Lemma login_blocks_next_login_witness :
  exists s', rtc new_challenge (verifySignatureWithStatus "u2" "p2" "GALICE" toy_challenge 2000 toy_asked).2 s' /\
    verifySignatureWithStatus "u3" "p3" "GALICE" "InsightArena:nonce:9000:ef01:GALICE" 10000 s' =
      (Throw (UnauthorizedException "Challenge already used"), s').
Proof.
  set (s1 := (verifySignatureWithStatus "u2" "p2" "GALICE" toy_challenge 2000 toy_asked).2).
  assert (Hs : rtc new_challenge s1 (generateChallenge "ef01" "GALICE" 9000 s1).2).
  { eapply rtc_l; [|apply rtc_refl]. eexists "ef01"%string, "GALICE"%string, 9000, _.
    split; [reflexivity|]. split; [vm_compute; reflexivity|reflexivity]. }
  exists (generateChallenge "ef01" "GALICE" 9000 s1).2. split; [exact Hs|].
  edestruct (login_blocks_next_login toy_asked (generateChallenge "ef01" "GALICE" 9000 s1).2 "u2" "p2" "u3" "p3"
    "GALICE" toy_challenge "InsightArena:nonce:9000:ef01:GALICE" 2000) as (c & e & Hc & _ & _ & _ & Hn);
    [repeat constructor; set_solver|vm_compute; reflexivity|exact Hs|].
  apply Hn. change (challengeCache toy_asked) with [(toy_challenge, mkEntry 301000 false)] in Hc.
  simpl in Hc. case_decide; simplify_eq. simpl. lia.
Defined.

Definition toy_registering : state (B := MemBackend) :=
  exec toy_config (BeginReg "chal" toy_user None 1000) (exec toy_config (BeginAuth "auth" 1000) toy_state).

Lemma passkey_ceremony_once_witness :
  exists cr, (finishPasskeyRegistration toy_config "k1" toy_user (mkAttestation "chal" "cred") 2000 toy_registering).1 = Ret cr /\
    cred_user cr = "u1"%string.
Proof.
  destruct (passkey_ceremony_once toy_config toy_registering (mkMint "a" "a") (mkMint "b" "b") "f" "f'" "k1" "k2"
    toy_user toy_user (mkAssertion "cred" "auth" "") (mkAssertion "cred" "auth" "x")
    (mkAttestation "chal" "cred") (mkAttestation "chal" "other") 2000 2500 eq_refl eq_refl) as [_ Hr].
  eexists. split; [vm_compute; reflexivity|]. eapply Hr. vm_compute. reflexivity.
Defined.
End Sessions.
