(* ===== verification/OAuth.v ===== *)
(** * OAuth: social sign-in and account linking

    Models [backend/src/auth/oauth.service.ts] on top of [Sessions]: the login and link
    transactions, the provider profiles, the linked identities and the one-time
    exchange codes.  The network, the token signatures and the URL resolution of the
    runtime are parameters ([Platform]); random values are arguments. *)
From Stdlib Require Import ZArith Lia Ascii.
From stdpp Require Import base list strings sets.
From S2P Require Import Prelude Storage JsValue Encoding Sessions.
Local Open Scope Z_scope.

Module OAuth.

Inductive OAuthProvider := google | apple | github.
#[export] Instance OAuthProvider_eq_dec : EqDecision OAuthProvider.
Proof. solve_decision. Defined.

Inductive Intent := login | link.
#[export] Instance Intent_eq_dec : EqDecision Intent.
Proof. solve_decision. Defined.

Definition OAUTH_PROVIDERS : list OAuthProvider := [google; apple; github].
Definition provider_name (p : OAuthProvider) : string :=
  match p with google => "google" | apple => "apple" | github => "github" end.
Definition PROVIDER_NAME (p : OAuthProvider) : string :=
  match p with google => "GOOGLE" | apple => "APPLE" | github => "GITHUB" end.

Record OAuthProfile := mkProfile { subject : string; email : option string; displayName : option string }.
Record ProviderConfig := mkProviderConfig { clientId : string; clientSecret : string }.

Definition OAUTH_TRANSACTION_TTL_MS : Z := 5 * 60 * 1000.
Definition OAUTH_EXCHANGE_TTL_MS : Z := 60 * 1000.

Record OAuthIdentity := mkIdentity {
  idn_user : string;
  idn_email : option string;
  idn_name : option string;
}.

(** A transaction, filed under its [state_hash]. *)
Record OAuthTransaction := mkTx {
  provider : OAuthProvider;
  intent : Intent;
  tx_user : option string;
  nonce : option string;
  client_verifier_hash : string;
  expires_at : Z;
  consumed_at : option Z;
  exchange_code_hash : option string;
  exchanged_at : option Z;
  return_to : string;
}.

(** What [fetch] gives: an error, or a response with its [ok] flag and its JSON body
    when it parses. *)
Inductive fetched := NetworkError | Response (ok : bool) (json : option jsval).

(** A redirect of the browser, on the frontend's origin. *)
Inductive redirect :=
| ToPath (path : string)
| ToLoginWithCode (code returnTo : string).

(** An authorization URL: its endpoint and its query parameters in order. *)
Record authorization := mkAuthorization { endpoint : string; query : list (string * string) }.

Class Platform := {
  (** [ConfigService.get]. *)
  config : string -> option string;
  (** The request by its address and the values it carries. *)
  fetch : string -> list string -> fetched;
  (** The answers to the successive requests for Apple's keys. *)
  fetch_keys : nat -> fetched;
  (** [JSON.parse] of a base64url part, a JWS signature over header and payload, and the
      RSA check of a signed text ([None] when it throws). *)
  parse_part : string -> option jsval;
  sign_es256 : jsval -> jsval -> string -> string;
  rsa_verify : string -> jsval -> string -> option bool;
  (** [new URL(path, frontend)]: whether the origin is the frontend's, and the path with
      query and fragment. *)
  resolve_url : string -> bool * string;
}.

Definition ServiceUnavailableException (m : string) : exn := HttpException 503 m.
Definition provider_unavailable : exn := ServiceUnavailableException "OAuth provider is unavailable".
Definition invalid_response : exn := ServiceUnavailableException "OAuth provider returned an invalid response".
Definition provider_rejected : exn := UnauthorizedException "OAuth provider rejected authentication".
Definition state_invalid : exn := UnauthorizedException "OAuth state is invalid or expired".
Definition code_invalid : exn := UnauthorizedException "OAuth exchange code is invalid or expired".
Definition apple_invalid : exn := UnauthorizedException "Apple ID token is invalid".

(** A configured, non-empty value. *)
Definition present (o : option string) : option string :=
  match o with Some EmptyString | None => None | Some s => Some s end.

(** [/^[A-Za-z0-9_-]{43,128}$/]. *)
Definition verifier_char (c : ascii) : bool :=
  let n := Z.of_N (N_of_ascii c) in
  ((65 <=? n) && (n <=? 90)) || ((97 <=? n) && (n <=? 122)) || ((48 <=? n) && (n <=? 57)) || (n =? 95) || (n =? 45).
Definition isValidClientVerifier (v : string) : bool :=
  (43 <=? Z.of_nat (String.length v)) && (Z.of_nat (String.length v) <=? 128) && all_chars verifier_char v.

(** [/^[a-f0-9]{64}$/]. *)
Definition lower_hex (c : ascii) : bool :=
  let n := Z.of_N (N_of_ascii c) in ((97 <=? n) && (n <=? 102)) || ((48 <=? n) && (n <=? 57)).
Definition is_digest (h : string) : bool := (Z.of_nat (String.length h) =? 64) && all_chars lower_hex h.

Definition requiredString (v : jsval) (label : string) : outcome string :=
  match v with
  | VStr EmptyString => Throw (UnauthorizedException ("OAuth " +:+ label +:+ " is missing"))
  | VStr s => Ret s
  | _ => Throw (UnauthorizedException ("OAuth " +:+ label +:+ " is missing"))
  end.

Definition optionalString (v : jsval) : option string :=
  match v with VStr EmptyString => None | VStr s => Some s | _ => None end.

(** [s.replace(/\\n/g, '\n')]: the two characters backslash and n become a newline. *)
Fixpoint unescape_newlines (s : string) : string :=
  match s with
  | EmptyString => EmptyString
  | String a r =>
      match r with
      | String b s' =>
          if bool_decide (a = ascii_of_N 92) && bool_decide (b = "n"%char)
          then String (ascii_of_N 10) (unescape_newlines s')
          else String a (unescape_newlines r)
      | EmptyString => s
      end
  end.

(** [s.split('.')]. *)
Fixpoint split_dots (s : string) : list string :=
  match s with
  | EmptyString => [EmptyString]
  | String c s' =>
      if decide (c = "."%char) then EmptyString :: split_dots s'
      else match split_dots s' with
           | [] => [String c EmptyString]
           | w :: ws => String c w :: ws
           end
  end.

Section pure.
Context {P : Platform}.

(** *** Provider requests *)

Definition requestJson (r : fetched) : outcome record :=
  match r with
  | NetworkError => Throw provider_unavailable
  | Response ok None => Throw invalid_response
  | Response ok (Some body) =>
      if negb ok then Throw provider_rejected
      else match body with
           | VObj fields => Ret fields
           | _ => Throw invalid_response
           end
  end.

Definition requestJsonArray (r : fetched) : outcome (list record) :=
  match r with
  | NetworkError => Throw provider_unavailable
  | Response ok None => Throw invalid_response
  | Response ok (Some body) =>
      if negb ok then Throw provider_rejected
      else match body with
           | VArr entries => Ret (omap (fun e => match e with VObj f => Some f | _ => None end) entries)
           | _ => Throw invalid_response
           end
  end.

Definition providerConfig (p : OAuthProvider) : option ProviderConfig :=
  let secret := match p with
                | apple => config "APPLE_PRIVATE_KEY"
                | _ => config (PROVIDER_NAME p +:+ "_CLIENT_SECRET")
                end in
  match present (config (PROVIDER_NAME p +:+ "_CLIENT_ID")), present secret with
  | Some i, Some s =>
      match p with
      | apple =>
          match present (config "APPLE_TEAM_ID"), present (config "APPLE_KEY_ID") with
          | Some _, Some _ => Some (mkProviderConfig i s)
          | _, _ => None
          end
      | _ => Some (mkProviderConfig i s)
      end
  | _, _ => None
  end.

Definition availableProviders : list OAuthProvider :=
  List.filter (fun p => match providerConfig p with Some _ => true | None => false end) OAUTH_PROVIDERS.

Definition authorizationEndpoint (p : OAuthProvider) : string :=
  match p with
  | google => "https://accounts.google.com/o/oauth2/v2/auth"
  | apple => "https://appleid.apple.com/auth/authorize"
  | github => "https://github.com/login/oauth/authorize"
  end.

Definition tokenEndpoint (p : OAuthProvider) : string :=
  match p with
  | google => "https://oauth2.googleapis.com/token"
  | apple => "https://appleid.apple.com/auth/token"
  | github => "https://github.com/login/oauth/access_token"
  end.

Definition scopes (p : OAuthProvider) : string :=
  match p with
  | google => "openid email profile"
  | apple => "name email"
  | github => "read:user user:email"
  end.

(** [s.replace(/\/$/, '')]. *)
Fixpoint strip_slash (s : string) : string :=
  match s with
  | EmptyString => EmptyString
  | String c EmptyString => if decide (c = "/"%char) then EmptyString else s
  | String c s' => String c (strip_slash s')
  end.

Definition callbackUrl : string :=
  match present (config "OAUTH_CALLBACK_URL") with
  | Some u => u
  | None => strip_slash (default "http://localhost:3000"%string (config "BACKEND_URL")) +:+ "/api/v1/auth/oauth/callback"
  end.

Definition contains_backslash (s : string) : bool :=
  negb (all_chars (fun c => negb (bool_decide (c = ascii_of_N 92))) s).

Definition safeReturnTo (path : option string) : string :=
  match present path with
  | None => "/savings"
  | Some p =>
      if negb (String.prefix "/" p) || String.prefix "//" p || contains_backslash p then "/savings"
      else
        let '(same, target) := resolve_url p in
        if negb same then "/savings" else String.substring 0 512 target
  end.

Definition createAppleClientSecret (cid : string) (now : Z) : outcome string :=
  match present (config "APPLE_TEAM_ID"), present (config "APPLE_KEY_ID"),
        present (unescape_newlines <$> config "APPLE_PRIVATE_KEY") with
  | Some teamId, Some keyId, Some key =>
      let issuedAt := now / 1000 in
      Ret (sign_es256
             (VObj [("alg", VStr "ES256"); ("kid", VStr keyId)]%string)
             (VObj [("iss", VStr teamId); ("iat", VNum issuedAt); ("exp", VNum (issuedAt + 5 * 60));
                    ("aud", VStr "https://appleid.apple.com"); ("sub", VStr cid)]%string)
             key)
  | _, _, _ => Throw (ServiceUnavailableException "Apple sign-in is not configured")
  end.

Definition exchangeProviderCode (p : OAuthProvider) (c : ProviderConfig) (code : string) (now : Z) : outcome record :=
  match (match p with apple => createAppleClientSecret (clientId c) now | _ => Ret (clientSecret c) end) with
  | Throw e => Throw e
  | Ret secret =>
      requestJson (fetch (tokenEndpoint p) [clientId c; secret; code; callbackUrl; "authorization_code"%string])
  end.

(** The verified addresses, the primary ones first. *)
Definition githubEmail (accessToken : string) : outcome (option string) :=
  match requestJsonArray (fetch "https://api.github.com/user/emails" [accessToken]) with
  | Throw e => Throw e
  | Ret emails =>
      let verified := List.filter (fun e =>
        match prop e "verified", prop e "email" with VBool true, VStr _ => true | _, _ => false end) emails in
      let sorted := sort_by (fun e => match prop e "primary" with VBool true => 0 | _ => 1 end) verified in
      Ret (match sorted with e :: _ => optionalString (prop e "email") | [] => None end)
  end.

(** *** Apple's signing keys *)

(** The cached keys and how often they were requested. *)
Record key_state := mkKeys { appleKeys : option (Z * list jsval); requests : nat }.

Definition kid_of (key : jsval) : jsval := match key with VObj f => prop f "kid" | _ => VUndef end.
Definition has_kid (kid : string) (key : jsval) : bool :=
  match kid_of key with VStr k => bool_decide (k = kid) | _ => false end.

(** An unknown key id drops the cache and tries again, as often as the fuel lasts. *)
Fixpoint appleSigningKey (fuel : nat) (kid : string) (now : Z) : M key_state jsval :=
  match fuel with
  | O => throw (JsError "fuel")
  | S fuel' =>
      await cached := gets appleKeys in
      do (if match cached with Some (expires, _) => expires <=? now | None => true end then
            await n := gets requests in
            do modify (fun k => mkKeys (appleKeys k) (S (requests k))) ;>
            match requestJson (fetch_keys n) with
            | Throw e => throw e
            | Ret response =>
                match prop response "keys" with
                | VArr keys => modify (fun k => mkKeys (Some (now + 60 * 60 * 1000, keys)) (requests k))
                | _ => throw (ServiceUnavailableException "Apple signing keys are unavailable")
                end
            end
          else ret tt) ;>
      await current := gets appleKeys in
      match List.find (has_kid kid) (match current with Some (_, ks) => ks | None => [] end) with
      | Some key => ret key
      | None =>
          do modify (fun k => mkKeys None (requests k)) ;>
          appleSigningKey fuel' kid now
      end
  end.

(** The signature of an ID token, then its claims. *)
Definition verifyAppleIdToken (fuel : nat) (idToken : jsval) (expectedNonce : option string) (now : Z)
  : M key_state record :=
  match requiredString idToken "Apple ID token" with
  | Throw e => throw e
  | Ret token =>
      match split_dots token with
      | [h; c; sg] =>
          match parse_part h, parse_part c with
          | Some (VObj header), Some (VObj claims) =>
              match prop header "alg", prop header "kid" with
              | VStr alg, VStr kid =>
                  if negb (bool_decide (alg = "RS256"%string))
                  then throw (UnauthorizedException "Apple ID token algorithm is invalid")
                  else
                    await key := appleSigningKey fuel kid now in
                    match rsa_verify (h +:+ "." +:+ c) key sg with
                    | None => throw (JsError "Invalid key")
                    | Some validSignature =>
                        let validAudience :=
                          match prop claims "aud", config "APPLE_CLIENT_ID" with
                          | VStr a, Some cid => bool_decide (a = cid)
                          | VArr l, Some cid => existsb (fun a => match a with VStr a => bool_decide (a = cid) | _ => false end) l
                          | VUndef, None => true
                          | _, _ => false
                          end in
                        let validIssuer := match prop claims "iss" with
                                           | VStr i => bool_decide (i = "https://appleid.apple.com"%string) | _ => false end in
                        let validExp := match prop claims "exp" with VNum e => now / 1000 <? e | _ => false end in
                        let validSub := match prop claims "sub" with VStr _ => true | _ => false end in
                        let validNonce := match present expectedNonce, prop claims "nonce" with
                                          | Some n, VStr n' => bool_decide (n' = n) | _, _ => false end in
                        if validSignature && validIssuer && validAudience && validExp && validSub && validNonce
                        then ret claims
                        else throw apple_invalid
                    end
              | _, _ => throw (UnauthorizedException "Apple ID token algorithm is invalid")
              end
          | _, _ => throw apple_invalid
          end
      | _ => throw apple_invalid
      end
  end.

(** [String(subject)] of a GitHub id: a number or a non-empty string. *)
Definition github_subject (v : jsval) : outcome string :=
  match v with
  | VNum z => Ret (Z_to_string z)
  | VStr EmptyString => Throw (UnauthorizedException "GitHub account ID is missing")
  | VStr s => Ret s
  | _ => Throw (UnauthorizedException "GitHub account ID is missing")
  end.

Definition of_outcome {St A} (o : outcome A) : M St A :=
  match o with Ret a => ret a | Throw e => throw e end.

Definition not_configured (p : OAuthProvider) : exn :=
  ServiceUnavailableException (provider_name p +:+ " sign-in is not configured").

Definition fetchProfile (fuel : nat) (p : OAuthProvider) (code : string) (nonce : option string) (now : Z)
  : M key_state OAuthProfile :=
  match providerConfig p with
  | None => throw (not_configured p)
  | Some c =>
      await token := of_outcome (exchangeProviderCode p c code now) in
      match p with
      | apple =>
          await claims := verifyAppleIdToken fuel (prop token "id_token") nonce now in
          ret (mkProfile (match prop claims "sub" with VStr s => s | _ => EmptyString end)
                 (as_string (prop claims "email")) None)
      | google =>
          await accessToken := of_outcome (requiredString (prop token "access_token") "access token") in
          await profile := of_outcome (requestJson
            (fetch "https://openidconnect.googleapis.com/v1/userinfo" [accessToken])) in
          match prop profile "email_verified" with
          | VBool true =>
              await sub := of_outcome (requiredString (prop profile "sub") "Google subject") in
              ret (mkProfile sub (optionalString (prop profile "email")) (optionalString (prop profile "name")))
          | _ => throw (UnauthorizedException "Google email address is not verified")
          end
      | github =>
          await accessToken := of_outcome (requiredString (prop token "access_token") "access token") in
          await profile := of_outcome (requestJson (fetch "https://api.github.com/user" [accessToken])) in
          await sub := of_outcome (github_subject (prop profile "id")) in
          await mail := of_outcome (githubEmail accessToken) in
          ret (mkProfile sub mail
                 (match optionalString (prop profile "name") with
                  | Some n => Some n
                  | None => optionalString (prop profile "login")
                  end))
      end
  end.

(** An Apple key id that is in none of Apple's key sets makes the lookup request the
    keys for ever: it ends for no amount of fuel, and each round is one more request. *)
Theorem appleSigningKey_diverges (kid : string) (now : Z) (keys : nat -> list jsval) (fuel : nat) (k : key_state) :
  (forall n, fetch_keys n = Response true (Some (VObj [("keys"%string, VArr (keys n))]))) ->
  (forall n, List.find (has_kid kid) (keys n) = None) ->
  appleKeys k = None ->
  appleSigningKey fuel kid now k = (Throw (JsError "fuel"), mkKeys None (requests k + fuel)).
Proof.
  intros Hf Hk. revert k. induction fuel as [|fuel IH]; intros [ks r] H0; simpl in H0; subst ks.
  { cbn. by rewrite Nat.add_0_r. }
  cbn [appleSigningKey]. run. rewrite Hf. simpl. rewrite Hk. rewrite IH by done. simpl. do 2 f_equal. lia.
Qed.

(** With a key set that has the key, one request is enough. *)
Lemma appleSigningKey_found kid now key keys k :
  fetch_keys (requests k) = Response true (Some (VObj [("keys"%string, VArr keys)])) ->
  List.find (has_kid kid) keys = Some key -> appleKeys k = None ->
  appleSigningKey 1 kid now k = (Ret key, mkKeys (Some (now + 3600000, keys)) (S (requests k))).
Proof.
  intros Hf Hk H0. destruct k as [ks r]. simpl in *. subst ks. cbn [appleSigningKey]. run. rewrite Hf. simpl.
  by rewrite Hk.
Qed.
End pure.

Section service.
Context {B : Backend} {L : Sessions.AuthLib} {P : Platform} (cfg : Sessions.Config).

Record state := mkState {
  transactions : table string OAuthTransaction;
  identities : table (OAuthProvider * string) OAuthIdentity;
  sessions : Sessions.state;
  keys : key_state;
}.

Definition set_tx f s := mkState (f (transactions s)) (identities s) (sessions s) (keys s).
Definition set_identities f s := mkState (transactions s) (f (identities s)) (sessions s) (keys s).
Definition on_sessions {A} (m : M Sessions.state A) : M state A :=
  zoom sessions (fun x s => mkState (transactions s) (identities s) x (keys s)) m.
Definition on_keys {A} (m : M key_state A) : M state A :=
  zoom keys (fun x s => mkState (transactions s) (identities s) (sessions s) x) m.

Definition hash (v : string) : string := Sessions.sha256 v.

Definition find_user (uid : string) (s : state) : option Sessions.User := Sessions.find_user uid (sessions s).

Definition find_for_provider (uid : string) (p : OAuthProvider) (s : state)
  : option (OAuthProvider * string * OAuthIdentity) :=
  List.find (fun r => bool_decide (r.1.1 = p) && bool_decide (idn_user r.2 = uid)) (rows (identities s)).

Definition linkedProviders (userId : string) : M state (list OAuthProvider) :=
  gets (fun s => (fun r => r.1.1) <$> List.filter (fun r => bool_decide (idn_user r.2 = userId)) (rows (identities s))).

(** [st] and [nc] are the random state and nonce. *)
Definition begin (st nc : string) (p : OAuthProvider) (i : Intent) (userId : option string) (clientVerifier : string)
    (returnTo : option string) (now : Z) : M state authorization :=
  match providerConfig p with
  | None => throw (not_configured p)
  | Some c =>
      if negb (isValidClientVerifier clientVerifier) then throw (BadRequestException "OAuth client verifier is invalid")
      else
        do match i, present userId with
           | link, Some uid =>
               await u := gets (find_user uid) in
               match u with Some _ => ret tt | None => throw (UnauthorizedException "Account not found") end
           | _, _ => ret tt
           end ;>
        let n := match p with apple => Some nc | _ => None end in
        await taken := gets (fun s => find_one (hash st) (transactions s)) in
        match taken with
        | Some _ => throw (DatabaseError "23505")
        | None =>
            do modify (set_tx (save (hash st)
                 (mkTx p i userId n (hash clientVerifier) (now + OAUTH_TRANSACTION_TTL_MS) None None None (safeReturnTo returnTo)))) ;>
            ret (mkAuthorization (authorizationEndpoint p)
              ([("client_id", clientId c); ("redirect_uri", callbackUrl); ("response_type", "code"); ("state", st);
                ("scope", scopes p)]%string
               ++ match n with Some n => [("nonce", n)]%string | None => [] end
               ++ match p with
                  | apple => [("response_mode", "query")]%string
                  | google => [("prompt", "select_account")]%string
                  | github => []
                  end))
        end
  end.

Definition beginLogin (st nc : string) (p : OAuthProvider) (v : string) (returnTo : option string) (now : Z) :=
  begin st nc p login None v returnTo now.
Definition beginLink (st nc : string) (p : OAuthProvider) (userId v : string) (now : Z) :=
  begin st nc p link (Some userId) v (Some "/settings"%string) now.

Definition set_consumed (now : Z) (t : OAuthTransaction) : OAuthTransaction :=
  mkTx (provider t) (intent t) (tx_user t) (nonce t) (client_verifier_hash t) (expires_at t) (Some now)
    (exchange_code_hash t) (exchanged_at t) (return_to t).
Definition set_exchanged (now : Z) (t : OAuthTransaction) : OAuthTransaction :=
  mkTx (provider t) (intent t) (tx_user t) (nonce t) (client_verifier_hash t) (expires_at t) (consumed_at t)
    (exchange_code_hash t) (Some now) (return_to t).

(** The transaction is returned as it was read, before [consumed_at] is written. *)
Definition consumeState (p : OAuthProvider) (st : option string) (now : Z) : M state (string * OAuthTransaction) :=
  match present st with
  | None => throw state_invalid
  | Some st =>
      await found := gets (fun s => find_one (hash st) (transactions s)) in
      match found with
      | Some t =>
          if bool_decide (provider t = p) && bool_decide (consumed_at t = None) && (now <? expires_at t) then
            do modify (set_tx (update_where (fun k t' =>
                 bool_decide (k = hash st) && bool_decide (consumed_at t' = None) && (now <? expires_at t')) (set_consumed now))) ;>
            ret (hash st, t)
          else throw state_invalid
      | None => throw state_invalid
      end
  end.

Definition linkIdentity (uid : string) (p : OAuthProvider) (pr : OAuthProfile) : M state unit :=
  await bySubject := gets (fun s => find_one (p, subject pr) (identities s)) in
  if match bySubject with Some i => negb (bool_decide (idn_user i = uid)) | None => false end
  then throw (BadRequestException "This social account is already linked to another Stow account")
  else
    await forProvider := gets (find_for_provider uid p) in
    if match forProvider with Some r => negb (bool_decide (r.1.2 = subject pr)) | None => false end
    then throw (BadRequestException ("A different " +:+ provider_name p +:+ " account is already linked"))
    else
      let uid' := match bySubject with Some i => idn_user i | None => uid end in
      modify (set_identities (save (p, subject pr) (mkIdentity uid' (email pr) (displayName pr)))).

(** [code] is the query parameter; [exchange] the random exchange code. *)
Definition completeCallback (fuel : nat) (p : OAuthProvider) (st code : option string) (exchange : string) (now : Z)
  : M state redirect :=
  await found := consumeState p st now in
  let '(key, t) := found in
  match present code with
  | None => throw (UnauthorizedException "OAuth authorization code is missing")
  | Some code =>
      await profile := on_keys (fetchProfile fuel p code (nonce t) now) in
      match intent t with
      | link =>
          match present (tx_user t) with
          | None => throw (UnauthorizedException "OAuth link transaction is invalid")
          | Some uid =>
              do linkIdentity uid p profile ;>
              ret (ToPath "/settings?oauth_linked=1")
          end
      | login =>
          await identity := gets (fun s => find_one (p, subject profile) (identities s)) in
          match identity with
          | None => ret (ToPath "/login?oauth_error=not_linked")
          | Some i =>
              await u := gets (find_user (idn_user i)) in
              match u with
              | None => throw (UnauthorizedException "Linked account is no longer available")
              | Some u =>
                  do modify (set_tx (save key
                       (mkTx (provider t) (intent t) (Some (Sessions.user_key u)) (nonce t) (client_verifier_hash t)
                          (now + OAUTH_EXCHANGE_TTL_MS) (consumed_at t) (Some (hash exchange)) (exchanged_at t) (return_to t)))) ;>
                  ret (ToLoginWithCode exchange (return_to t))
              end
          end
      end
  end.

Definition providerForState (st : option string) (now : Z) : M state OAuthProvider :=
  match present st with
  | None => throw state_invalid
  | Some st =>
      await found := gets (fun s => find_one (hash st) (transactions s)) in
      match found with
      | Some t => if bool_decide (consumed_at t = None) && (now <? expires_at t) then ret (provider t) else throw state_invalid
      | None => throw state_invalid
      end
  end.

Definition completeProviderError (p : OAuthProvider) (st : option string) (error : string) (now : Z) : M state redirect :=
  await found := consumeState p st now in
  let message := if bool_decide (error = "access_denied"%string) then "cancelled"%string else "failed"%string in
  ret (ToPath (match intent found.2 with
               | link => "/settings?oauth_error=" +:+ message
               | login => "/login?oauth_error=" +:+ message end)).

Definition callbackFailureForState (st : option string) : M state redirect :=
  match present st with
  | None => ret (ToPath "/login?oauth_error=failed")
  | Some st =>
      await found := gets (fun s => find_one (hash st) (transactions s)) in
      ret (ToPath (match found with
                   | Some t => match intent t with link => "/settings?oauth_error=failed" | login => "/login?oauth_error=failed" end
                   | None => "/login?oauth_error=failed" end))
  end.

(** The controller's route: the provider of the state, then the callback; an HTTP error
    becomes a redirect, any other one is rethrown. *)
Definition oauthCallback (fuel : nat) (st code error : option string) (exchange : string) (now : Z) : M state redirect :=
  catch
    (await p := providerForState st now in
     match present error with
     | Some e => completeProviderError p st e now
     | None => completeCallback fuel p st code exchange now
     end)
    (fun e => match e with HttpException _ _ => callbackFailureForState st | _ => throw e end).

Definition matchesClientVerifier (expectedHash verifier : string) : bool :=
  if negb (isValidClientVerifier verifier) || negb (is_digest expectedHash) then false
  else bool_decide (from_hex expectedHash = from_hex (hash verifier)).

Definition find_exchange (h : string) (s : state) : option (string * OAuthTransaction) :=
  List.find (fun r => bool_decide (exchange_code_hash r.2 = Some h) && bool_decide (exchanged_at r.2 = None))
    (rows (transactions s)).

Definition exchangeCode (mi : Sessions.mint) (familyId code codeVerifier : string) (now : Z)
  : M state (Sessions.session * Sessions.User) :=
  if bool_decide (code = ""%string) || (128 <? Z.of_nat (String.length code)) then throw code_invalid
  else
    await found := gets (find_exchange (hash code)) in
    match found with
    | None => throw code_invalid
    | Some (key, t) =>
        match present (tx_user t) with
        | None => throw code_invalid
        | Some uid =>
            if (expires_at t <=? now) || negb (matchesClientVerifier (client_verifier_hash t) codeVerifier)
            then throw code_invalid
            else
              do modify (set_tx (update_where (fun k t' =>
                   bool_decide (k = key) && bool_decide (exchanged_at t' = None) && (now <? expires_at t')) (set_exchanged now))) ;>
              await u := gets (find_user uid) in
              match u with
              | None => throw (UnauthorizedException "Linked account is no longer available")
              | Some u =>
                  await sess := on_sessions (Sessions.createSession cfg mi familyId u now) in
                  ret (sess, u)
              end
        end
    end.

Definition cleanupExpiredTransactions (now : Z) : M state unit :=
  modify (set_tx (delete_where (fun _ t => expires_at t <? now))).

(** *** Linked identities *)

(** An account has at most one identity per provider (and an identity one account, by
    its key). *)
Definition linked_once (T : table (OAuthProvider * string) OAuthIdentity) : Prop :=
  forall k k' i i', find_one k T = Some i -> find_one k' T = Some i' -> k.1 = k'.1 -> idn_user i = idn_user i' -> k = k'.

(** Every link of [T0] is still there, to the same account. *)
Definition keeps_links (T0 T : table (OAuthProvider * string) OAuthIdentity) : Prop :=
  forall k i, find_one k T0 = Some i -> exists i', find_one k T = Some i' /\ idn_user i' = idn_user i.

Definition stable (T0 : table (OAuthProvider * string) OAuthIdentity) (s : state) : Prop :=
  linked_once (identities s) /\ keeps_links T0 (identities s).

Lemma find_for_provider_None uid p s k i :
  find_for_provider uid p s = None -> find_one k (identities s) = Some i -> k.1 = p -> idn_user i = uid -> False.
Proof.
  intros Hf Hk Hp Hu. apply elem_of_rows, list_elem_of_In in Hk.
  pose proof (find_none _ _ Hf _ Hk) as Hn. simpl in Hn. by rewrite !bool_decide_eq_true_2 in Hn.
Qed.

Lemma find_for_provider_Some uid p s r :
  find_for_provider uid p s = Some r ->
  find_one r.1 (identities s) = Some r.2 /\ r.1.1 = p /\ idn_user r.2 = uid.
Proof.
  intros Hf. apply find_some in Hf as [Hin Hp]. apply andb_true_iff in Hp as [H1 H2].
  apply bool_decide_eq_true in H1, H2. split; [|done]. apply elem_of_rows. destruct r. by apply list_elem_of_In.
Qed.

Lemma stable_link T0 uid p pr : preserves (stable T0) (linkIdentity uid p pr).
Proof.
  intros s [Ho Hk]. unfold linkIdentity. run.
  destruct (find_one (p, subject pr) (identities s)) as [i|] eqn:Hsub.
  - case_bool_decide as Hu; [|done]. simpl. destruct (find_for_provider uid p s) as [r|] eqn:Hf; simpl.
    + case_bool_decide as Hr; [|done]. simpl. split; simpl.
      * intros k k' a b. rewrite !find_one_save. repeat case_decide; subst; intros Ha Hb Hp Hx; simplify_eq/=; try done.
        -- by apply (Ho _ _ _ _ Hsub Hb).
        -- by apply (Ho _ _ _ _ Ha Hsub).
        -- by apply (Ho _ _ _ _ Ha Hb).
      * intros k a Ha. destruct (Hk _ _ Ha) as (b & Hb & Hub). rewrite find_one_save. case_decide; [|by eauto].
        subst k. eexists. split; [done|]. simpl. congruence.
    + exfalso. by eapply (find_for_provider_None uid p s (p, subject pr)).
  - simpl. destruct (find_for_provider uid p s) as [r|] eqn:Hf; simpl.
    + case_bool_decide as Hr; [|done]. exfalso. apply find_for_provider_Some in Hf as (H1 & H2 & _).
      destruct r as [[p' sub'] i']. simpl in *. subst. congruence.
    + split; simpl.
      * intros k k' a b. rewrite !find_one_save. repeat case_decide; subst; intros Ha Hb Hp Hx; simplify_eq/=; try done.
        -- exfalso. by eapply (find_for_provider_None _ _ s k').
        -- exfalso. by eapply (find_for_provider_None _ _ s k).
        -- by apply (Ho _ _ _ _ Ha Hb).
      * intros k a Ha. destruct (Hk _ _ Ha) as (b & Hb & Hub). rewrite find_one_save. case_decide; [|by eauto].
        subst k. congruence.
Qed.

Lemma stable_frame T0 (f : state -> state) :
  (forall s, identities (f s) = identities s) -> preserves (stable T0) (modify f).
Proof. intros Hf s [H1 H2]. unfold stable. simpl. by rewrite Hf. Qed.

Lemma stable_keys T0 {A} (m : M key_state A) : preserves (stable T0) (on_keys m).
Proof. intros s Hs. unfold on_keys. by rewrite zoom_snd. Qed.

Lemma stable_sessions T0 {A} (m : M Sessions.state A) : preserves (stable T0) (on_sessions m).
Proof. intros s Hs. unfold on_sessions. by rewrite zoom_snd. Qed.

Ltac stays :=
  repeat match goal with
    | |- preserves _ (modify _) => apply stable_frame; done
    | |- preserves _ (on_keys _) => apply stable_keys
    | |- preserves _ (on_sessions _) => apply stable_sessions
    | |- preserves _ (linkIdentity _ _ _) => apply stable_link
    | |- preserves _ (gets _) => apply preserves_gets
    | |- preserves _ (throw _) => apply preserves_throw
    | |- preserves _ (catch _ _) => apply preserves_catch; [|intros ?]
    | _ => progress preserve
    end.

Inductive op :=
| Begin (st nc : string) (p : OAuthProvider) (i : Intent) (userId : option string) (v : string) (r : option string) (now : Z)
| Callback (fuel : nat) (st code error : option string) (exchange : string) (now : Z)
| Exchange (mi : Sessions.mint) (familyId code verifier : string) (now : Z)
| Cleanup (now : Z)
| Other (f : Sessions.state -> Sessions.state).

(** [Other] is anything that happens to sessions and accounts. *)
Definition exec (o : op) (s : state) : state :=
  match o with
  | Begin st nc p i u v r now => (begin st nc p i u v r now s).2
  | Callback fuel st c e x now => (oauthCallback fuel st c e x now s).2
  | Exchange mi f c v now => (exchangeCode mi f c v now s).2
  | Cleanup now => (cleanupExpiredTransactions now s).2
  | Other f => mkState (transactions s) (identities s) (f (sessions s)) (keys s)
  end.

Lemma stable_exec T0 o s : stable T0 s -> stable T0 (exec o s).
Proof.
  intros Hs. destruct o; cbn [exec]; [| | | |done].
  - assert (Hp : preserves (stable T0) (begin st nc p i userId v r now)) by (unfold begin; stays). by apply Hp.
  - assert (Hp : preserves (stable T0) (oauthCallback fuel st code error exchange now)).
    { unfold oauthCallback, providerForState, completeProviderError, completeCallback, consumeState, callbackFailureForState.
      stays. }
    by apply Hp.
  - assert (Hp : preserves (stable T0) (exchangeCode mi familyId code verifier now)) by (unfold exchangeCode; stays).
    by apply Hp.
  - assert (Hp : preserves (stable T0) (cleanupExpiredTransactions now)) by (unfold cleanupExpiredTransactions; stays).
    by apply Hp.
Qed.

Lemma stable_run T0 ops s : stable T0 s -> stable T0 (foldl (fun s o => exec o s) s ops).
Proof. revert s. induction ops as [|o ops IH]; intros s Hs; [exact Hs|]. simpl. apply IH. by apply stable_exec. Qed.

(** C30: Whatever the providers answer, an account keeps at most one identity per
    provider, and an identity once linked stays linked to the same account: nobody can
    take over a social account that is linked elsewhere. *)
Theorem identities_never_move (s : state) (ops : list op) :
  linked_once (identities s) ->
  let s' := foldl (fun s o => exec o s) s ops in
  linked_once (identities s') /\ keeps_links (identities s) (identities s').
Proof.
  intros Ho. apply stable_run. split; [done|]. intros k i Hk. by exists i.
Qed.

(** *** Transactions *)

(** A login callback leaves its state usable: until the exchange code expires, the
    same state passes the check that consumes it again, because the saved transaction is
    the copy read before [consumed_at] was written. *)
Theorem completed_state_is_reusable (fuel : nat) (p : OAuthProvider) (st code : option string) (exchange r : string)
    (now now2 : Z) (s : state) :
  (completeCallback fuel p st code exchange now s).1 = Ret (ToLoginWithCode exchange r) ->
  now2 < now + OAUTH_EXCHANGE_TTL_MS ->
  exists x, (consumeState p st now2 (completeCallback fuel p st code exchange now s).2).1 = Ret x.
Proof.
  intros Hr Hx. unfold completeCallback, consumeState in *. destruct (present st) as [st'|]; [|done]. unfold bind in *.
  unfold gets in *. destruct (find_one (hash st') (transactions s)) as [t|] eqn:Ht; [|done].
  destruct (bool_decide (provider t = p) && bool_decide (consumed_at t = None) && (now <? expires_at t)) eqn:Hg; [|done].
  apply andb_true_iff in Hg as [Hg _]. apply andb_true_iff in Hg as [Hp Hc].
  unfold modify, ret in *. destruct (present code); [|done].
  destruct (on_keys _ _) as [[pr|e] s1] eqn:Hk; [|done]. destruct (intent t).
  - destruct (find_one (p, subject pr) (identities s1)) as [i|]; [|done].
    destruct (find_user _ s1) as [u|]; [|done]. cbn -[find_one save] in *. rewrite find_one_save_eq. cbn.
    rewrite Hp, Hc. destruct (Z.ltb_spec now2 (now + OAUTH_EXCHANGE_TTL_MS)); [|lia]. by eexists.
  - destruct (present (tx_user t)); [|done]. by destruct (linkIdentity _ _ _ s1) as [[]].
Qed.

(** Exchange codes are unique in the table. *)
Definition unique_codes (T : table string OAuthTransaction) : Prop :=
  forall k k' t t' h, find_one k T = Some t -> find_one k' T = Some t' ->
    exchange_code_hash t = Some h -> exchange_code_hash t' = Some h -> k = k'.

Lemma find_exchange_Some h s k t :
  find_exchange h s = Some (k, t) ->
  find_one k (transactions s) = Some t /\ exchange_code_hash t = Some h /\ exchanged_at t = None.
Proof.
  intros Hf. apply find_some in Hf as [Hin Hp]. apply andb_true_iff in Hp as [H1 H2].
  apply bool_decide_eq_true in H1, H2. split; [|done]. by apply elem_of_rows, list_elem_of_In.
Qed.

Lemma exchange_transactions mi f code v now s x :
  (exchangeCode mi f code v now s).1 = Ret x ->
  exists k t uid, find_one k (transactions s) = Some t /\ exchange_code_hash t = Some (hash code) /\ exchanged_at t = None /\
    now < expires_at t /\ tx_user t = Some uid /\ find_user uid s = Some x.2 /\
    matchesClientVerifier (client_verifier_hash t) v = true /\
    transactions (exchangeCode mi f code v now s).2 =
      update_where (fun k' t' => bool_decide (k' = k) && bool_decide (exchanged_at t' = None) && (now <? expires_at t'))
        (set_exchanged now) (transactions s).
Proof.
  unfold exchangeCode. destruct (_ || _); [done|]. unfold bind, gets.
  destruct (find_exchange (hash code) s) as [[k t]|] eqn:Hf; [|done].
  apply find_exchange_Some in Hf as (Hk & Hh & He).
  destruct (tx_user t) as [uid|] eqn:Hu; [|done]. simpl. destruct uid as [|c0 u0]; [done|].
  destruct (Z.leb_spec (expires_at t) now); [done|]. simpl.
  destruct (matchesClientVerifier (client_verifier_hash t) v) eqn:Hm; [|done]. simpl.
  unfold modify, ret. change (find_user (String c0 u0) (set_tx _ s)) with (find_user (String c0 u0) s).
  destruct (find_user (String c0 u0) s) as [u|] eqn:Hus; [|done].
  destruct (on_sessions _ _) as [[sess|e] s1] eqn:Hs; [|done]. intros [= <-].
  exists k, t, (String c0 u0). simpl. split_and!; try done.
  assert (Hz : transactions s1 = transactions (on_sessions (Sessions.createSession cfg mi f u now)
    (set_tx (update_where (fun k' t' => bool_decide (k' = k) && bool_decide (exchanged_at t' = None) && (now <? expires_at t'))
        (set_exchanged now)) s)).2) by by rewrite Hs.
  rewrite Hz. unfold on_sessions. by rewrite zoom_snd.
Qed.

(** An exchange code gives a session once: only for the account of its transaction,
    only before it expires and only with the verifier the login was begun with; from
    then on the code is refused with any verifier. *)
Theorem exchange_code_once (s : state) (mi mi2 : Sessions.mint) (f f2 code v v2 : string) (now now2 : Z)
    (x : Sessions.session * Sessions.User) :
  unique_codes (transactions s) ->
  (exchangeCode mi f code v now s).1 = Ret x ->
  (exists k t uid, find_one k (transactions s) = Some t /\ exchange_code_hash t = Some (hash code) /\
     now < expires_at t /\ tx_user t = Some uid /\ find_user uid s = Some x.2 /\
     matchesClientVerifier (client_verifier_hash t) v = true) /\
  let s' := (exchangeCode mi f code v now s).2 in
  exchangeCode mi2 f2 code v2 now2 s' = (Throw code_invalid, s').
Proof.
  intros Hu Hx. destruct (exchange_transactions _ _ _ _ _ _ _ Hx) as (k & t & uid & H1 & H2 & H3 & H4 & H5 & H6 & H7 & H8).
  split; [by exists k, t, uid|]. cbv zeta.
  set (s' := (exchangeCode mi f code v now s).2) in *.
  assert (Hnone : find_exchange (hash code) s' = None).
  { destruct (find_exchange (hash code) s') as [[k' t']|] eqn:Hf; [|done]. exfalso.
    apply find_exchange_Some in Hf as (Hk' & Hh' & He'). rewrite H8, find_one_update_where in Hk'.
    apply fmap_Some in Hk' as (t0 & Ht0 & ->).
    assert (Hh0 : exchange_code_hash t0 = Some (hash code)) by (by destruct (_ && _) in Hh').
    assert (k' = k) as -> by (by eapply Hu). simplify_eq.
    rewrite !bool_decide_eq_true_2 in He' by done. destruct (Z.ltb_spec now (expires_at t)); [done|lia]. }
  unfold exchangeCode at 1. destruct (_ || _) eqn:Hl; [done|]. unfold bind, gets. by rewrite Hnone.
Qed.

(** *** A whole sign-in *)

Lemma find_exchange_unique h s k t :
  find_one k (transactions s) = Some t -> exchange_code_hash t = Some h -> exchanged_at t = None ->
  (forall k' t', find_one k' (transactions s) = Some t' -> exchange_code_hash t' = Some h -> k' = k) ->
  find_exchange h s = Some (k, t).
Proof.
  intros Hk Hh He Hu. destruct (find_exchange h s) as [[k' t']|] eqn:Hf.
  - apply find_exchange_Some in Hf as (Hk' & Hh' & _). assert (k' = k) as -> by (by eapply Hu). by simplify_eq.
  - exfalso. apply elem_of_rows, list_elem_of_In in Hk. pose proof (find_none _ _ Hf _ Hk) as Hn. simpl in Hn.
    by rewrite !bool_decide_eq_true_2 in Hn.
Qed.

Definition nonce_for (p : OAuthProvider) (nc : string) : option string := match p with apple => Some nc | _ => None end.

Lemma begin_run st nc p v r t0 s c :
  providerConfig p = Some c -> isValidClientVerifier v = true -> find_one (hash st) (transactions s) = None ->
  is_ret (beginLogin st nc p v r t0 s).1 = true /\
  (beginLogin st nc p v r t0 s).2 = set_tx (save (hash st)
    (mkTx p login None (nonce_for p nc) (hash v) (t0 + OAUTH_TRANSACTION_TTL_MS) None None None (safeReturnTo r))) s.
Proof. intros Hc Hv Hf. unfold beginLogin, begin. rewrite Hc, Hv. simpl. unfold bind, ret, gets, modify. by rewrite Hf. Qed.

Lemma callback_run fuel st code x r t1 s p nc v e profile k' i u :
  st ≠ ""%string -> code ≠ ""%string -> t1 < e ->
  find_one (hash st) (transactions s) = Some (mkTx p login None (nonce_for p nc) v e None None None r) ->
  fetchProfile fuel p code (nonce_for p nc) t1 (keys s) = (Ret profile, k') ->
  find_one (p, subject profile) (identities s) = Some i -> find_user (idn_user i) s = Some u ->
  exists T, oauthCallback fuel (Some st) (Some code) None x t1 s =
    (Ret (ToLoginWithCode x r), mkState (save (hash st)
       (mkTx p login (Some (Sessions.user_key u)) (nonce_for p nc) v (t1 + OAUTH_EXCHANGE_TTL_MS) None (Some (hash x)) None r) T)
       (identities s) (sessions s) k') /\
    forall k t, k ≠ hash st -> find_one k T = Some t -> find_one k (transactions s) = Some t.
Proof.
  intros Hst Hcode He Ht Hp Hi Hu.
  assert (Hps : present (Some st) = Some st) by by destruct st.
  assert (Hpc : present (Some code) = Some code) by by destruct code.
  eexists. split.
  - unfold oauthCallback, providerForState, completeCallback, consumeState, catch, bind. rewrite Hps, Hpc.
    unfold gets. rewrite Ht. simpl. destruct (Z.ltb_spec t1 e); [|lia]. simpl. rewrite Ht. simpl.
    rewrite !bool_decide_eq_true_2 by done. destruct (Z.ltb_spec t1 e); [|lia]. simpl.
    unfold on_keys, zoom. simpl. rewrite Hp. simpl. rewrite Hi.
    change (find_user (idn_user i) _) with (find_user (idn_user i) s). rewrite Hu. simpl. reflexivity.
  - intros k t Hk. simpl. rewrite find_one_update_where. destruct (find_one k (transactions s)); [|done]. simpl.
    rewrite bool_decide_eq_false_2 by done. done.
Qed.

(** C12: A social sign-in, from the start to the session: when the identity the provider
    reports is linked to a live account, the callback hands the browser the exchange
    code and the page it came from, and exchanging the code with the verifier of the
    start gives a session of exactly that account. *)
Theorem social_login_end_to_end (s : state) (fuel : nat) (p : OAuthProvider) (c : ProviderConfig)
    (st nc v code x fam : string) (r : option string) (mi : Sessions.mint) (t0 t1 t2 : Z)
    (profile : OAuthProfile) (k' : key_state) (i : OAuthIdentity) (u : Sessions.User) :
  providerConfig p = Some c -> isValidClientVerifier v = true -> is_digest (hash v) = true ->
  find_one (hash st) (transactions s) = None ->
  (forall k t, find_one k (transactions s) = Some t -> exchange_code_hash t ≠ Some (hash x)) ->
  st ≠ ""%string -> code ≠ ""%string -> x ≠ ""%string -> Z.of_nat (String.length x) <= 128 ->
  fetchProfile fuel p code (nonce_for p nc) t1 (keys s) = (Ret profile, k') ->
  find_one (p, subject profile) (identities s) = Some i -> find_user (idn_user i) s = Some u ->
  Sessions.user_key u = idn_user i -> idn_user i ≠ ""%string ->
  t1 < t0 + OAUTH_TRANSACTION_TTL_MS -> t2 < t1 + OAUTH_EXCHANGE_TTL_MS ->
  find_one (Sessions.hashToken (Sessions.raw mi)) (Sessions.refreshTokens (sessions s)) = None ->
  let s1 := (beginLogin st nc p v r t0 s).2 in
  let cb := oauthCallback fuel (Some st) (Some code) None x t1 s1 in
  cb.1 = Ret (ToLoginWithCode x (safeReturnTo r)) /\
  (exchangeCode mi fam x v t2 cb.2).1 =
    Ret (Sessions.mkSession (Sessions.signAsync (Sessions.user_key u) (Sessions.stellar_address u) t2) (Sessions.raw mi), u).
Proof.
  intros Hc Hv Hd Hfree Hx Hst Hcode Hx0 Hxl Hp Hi Hu Huk Hune Ht1 Ht2 Htok s1 cb.
  destruct (begin_run st nc p v r t0 s c Hc Hv Hfree) as [_ Hs1]. fold s1 in Hs1.
  destruct (callback_run fuel st code x (safeReturnTo r) t1 s1 p nc (hash v) (t0 + OAUTH_TRANSACTION_TTL_MS) profile k' i u)
    as (T & Hcb & HT); try done.
  { rewrite Hs1. simpl. by rewrite find_one_save_eq. }
  { by rewrite Hs1. }
  { by rewrite Hs1. }
  { by rewrite Hs1. }
  subst cb. rewrite Hcb. simpl. split; [done|].
  set (tx := mkTx p login (Some (Sessions.user_key u)) _ _ _ _ _ _ _).
  set (s2 := mkState (save (hash st) tx T) (identities s1) (sessions s1) k').
  assert (Hsess : sessions s2 = sessions s) by by unfold s2; simpl; rewrite Hs1.
  assert (Hfe : find_exchange (hash x) s2 = Some (hash st, tx)).
  { apply find_exchange_unique; simpl; try done; [by rewrite find_one_save_eq|].
    intros k t. rewrite find_one_save. case_decide; [done|]. intros Hk Hh. exfalso.
    apply HT in Hk; [|done]. rewrite Hs1 in Hk. simpl in Hk. rewrite find_one_save_ne in Hk by done. by destruct (Hx _ _ Hk). }
  unfold exchangeCode. rewrite bool_decide_eq_false_2 by done.
  destruct (Z.ltb_spec 128 (Z.of_nat (String.length x))); [lia|]. unfold bind, gets. simpl. rewrite Hfe. simpl.
  assert (Hpu : present (Some (Sessions.user_key u)) = Some (Sessions.user_key u)).
  { rewrite Huk. by destruct (idn_user i). }
  simpl in Hpu. rewrite Hpu.
  destruct (Z.leb_spec (t1 + OAUTH_EXCHANGE_TTL_MS) t2); [lia|]. simpl.
  assert (Hm : matchesClientVerifier (hash v) v = true).
  { unfold matchesClientVerifier. rewrite Hv, Hd. simpl. by apply bool_decide_eq_true. }
  rewrite Hm. simpl.
  assert (Hfu : forall g, find_user (Sessions.user_key u) (set_tx g s2) = Some u).
  { intros g. unfold find_user in *. simpl. change (sessions s1) with (sessions s2). by rewrite Hsess, Huk. }
  rewrite Hfu. unfold on_sessions, zoom. simpl. change (sessions s1) with (sessions s2). rewrite Hsess.
  unfold Sessions.createSession, Sessions.issueRefreshToken, Sessions.insert_token. run. by rewrite Htok.
Qed.
End service.

(** *** Concrete runs *)

(** A digest that spells out the first 32 bytes of its input. *)
Definition codes (s : string) : list Z := (fun c => Z.of_N (N_of_ascii c)) <$> String.list_ascii_of_string s.
Definition toy_sha (s : string) : string := to_hex (take 32 (codes s ++ replicate 32 0)).

Definition ToyAuth : Sessions.AuthLib := {|
  Sessions.sha256 := toy_sha;
  Sessions.signAsync := fun uid a _ => ("jwt:" +:+ uid)%string;
  Sessions.keypair_verify := fun _ _ _ => None;
  Sessions.client_data := fun _ => None;
  Sessions.verifyAuthenticationResponse := fun _ _ _ _ _ => None;
  Sessions.verifyRegistrationResponse := fun _ _ _ _ _ => None;
|}.

(** Every setting is present; GitHub knows one account; Apple never has the key. *)
Definition ToyPlatform : Platform := {|
  config := fun _ => Some "x"%string;
  fetch := fun url _ =>
    if bool_decide (url = "https://github.com/login/oauth/access_token"%string)
    then Response true (Some (VObj [("access_token"%string, VStr "t")]))
    else if bool_decide (url = "https://api.github.com/user"%string)
    then Response true (Some (VObj [("id"%string, VNum 7)]))
    else Response true (Some (VArr []));
  fetch_keys := fun _ => Response true (Some (VObj [("keys"%string, VArr [VObj [("kid"%string, VStr "other")]])]));
  parse_part := fun _ => None;
  sign_es256 := fun _ _ _ => ""%string;
  rsa_verify := fun _ _ _ => None;
  resolve_url := fun p => (true, p);
|}.

#[local] Existing Instance ToyAuth.
#[local] Existing Instance ToyPlatform.

Lemma appleSigningKey_diverges_witness :
  forall fuel, appleSigningKey fuel "kid1" 0 (mkKeys None 0) = (Throw (JsError "fuel"), mkKeys None (0 + fuel)).
Proof.
  intros fuel. apply (appleSigningKey_diverges "kid1" 0 (fun _ => [VObj [("kid"%string, VStr "other")]])).
  - reflexivity.
  - intros n. vm_compute. reflexivity.
  - reflexivity.
Defined.

Definition toy_user : Sessions.User := Sessions.mkUser "u1" "GALICE" None None 0.
Definition toy_sessions : Sessions.state (B := MemBackend) :=
  Sessions.mkState [] [] [] [("u1"%string, toy_user)] [] [] [] [].
Definition toy_start : state (B := MemBackend) :=
  mkState [] [((github, "7"%string), mkIdentity "u1" None None)] toy_sessions (mkKeys None 0).
Definition toy_verifier : string := "abcdefghijklmnopqrstuvwxyz0123456789ABCDEFGHIJ".
Definition toy_cfg : Sessions.Config := Sessions.mkConfig None None None None.
Definition toy_begun : state (B := MemBackend) := (beginLogin "st" "nc" github toy_verifier None 0 toy_start).2.
Definition toy_back : state (B := MemBackend) :=
  (completeCallback 5 github (Some "st"%string) (Some "code"%string) "xc" 1000 toy_begun).2.

Lemma social_login_end_to_end_witness :
  (exchangeCode toy_cfg (Sessions.mkMint "tok" "id") "fam" "xc" toy_verifier 2000
     (oauthCallback 5 (Some "st"%string) (Some "code"%string) None "xc" 1000 toy_begun).2).1 =
    Ret (Sessions.mkSession "jwt:u1" "tok", toy_user).
Proof.
  edestruct (social_login_end_to_end toy_cfg toy_start 5 github (mkProviderConfig "x" "x") "st" "nc" toy_verifier "code" "xc" "fam"
    None (Sessions.mkMint "tok" "id") 0 1000 2000 (mkProfile "7" None None)) as [_ Hx];
    [vm_compute; reflexivity|vm_compute; reflexivity|vm_compute; reflexivity|vm_compute; reflexivity
    |intros k t Hk; discriminate Hk|done|done|done|vm_compute; discriminate|vm_compute; reflexivity
    |vm_compute; reflexivity|vm_compute; reflexivity|vm_compute; reflexivity|vm_compute; discriminate
    |vm_compute; reflexivity|vm_compute; reflexivity|vm_compute; reflexivity|].
  exact Hx.
Defined.

Lemma completed_state_is_reusable_witness :
  exists x, (consumeState github (Some "st"%string) 2000 toy_back).1 = Ret x.
Proof.
  apply (completed_state_is_reusable 5 github (Some "st"%string) (Some "code"%string) "xc" "/savings" 1000 2000 toy_begun).
  - vm_compute. reflexivity.
  - vm_compute. reflexivity.
Defined.

Lemma toy_back_unique : unique_codes (transactions toy_back).
Proof.
  assert (Hr : exists t, rows (transactions toy_back) = [(hash "st", t)]) by (eexists; vm_compute; reflexivity).
  destruct Hr as [t Hr]. intros k k' a b h Ha Hb _ _.
  apply elem_of_rows in Ha, Hb. rewrite Hr, list_elem_of_singleton in Ha, Hb. by simplify_eq.
Qed.

Lemma exchange_code_once_witness :
  let s' := (exchangeCode toy_cfg (Sessions.mkMint "tok" "id") "fam" "xc" toy_verifier 2000 toy_back).2 in
  exchangeCode toy_cfg (Sessions.mkMint "tok2" "id2") "fam2" "xc" toy_verifier 2500 s' = (Throw code_invalid, s').
Proof.
  edestruct (exchange_code_once toy_cfg toy_back (Sessions.mkMint "tok" "id") (Sessions.mkMint "tok2" "id2") "fam" "fam2" "xc"
    toy_verifier toy_verifier 2000 2500) as [_ Hx]; [apply toy_back_unique|vm_compute; reflexivity|exact Hx].
Defined.

Lemma identities_never_move_witness :
  linked_once (identities toy_start) /\
  keeps_links (identities toy_start)
    (identities (foldl (fun s o => exec toy_cfg o s) toy_start
       [Begin "st" "nc" github link (Some "u1"%string) toy_verifier None 0;
        Callback 5 (Some "st"%string) (Some "code"%string) None "xc" 1000])).
Proof.
  assert (Ho : linked_once (identities toy_start)).
  { intros k k' a b Ha Hb _ _. apply elem_of_rows in Ha, Hb.
    change (rows (identities toy_start)) with [((github, "7"%string), mkIdentity "u1" None None)] in Ha, Hb.
    rewrite list_elem_of_singleton in Ha, Hb. by simplify_eq. }
  split; [exact Ho|]. apply (identities_never_move toy_cfg toy_start _ Ho).
Defined.
End OAuth.
