(* ===== verification/ApiKeys.v ===== *)
(** * API keys

    Models [backend/src/auth/api-key.service.ts] and the guard that authenticates a
    request by its key, [backend/src/common/guards/api-key.guard.ts].  bcrypt is a
    parameter with its documented laws ([Bcrypt]). *)
From Stdlib Require Import ZArith Lia.
From stdpp Require Import base list strings sets.
From S2P Require Import Prelude Storage JsValue.
Local Open Scope Z_scope.

Module ApiKeys.

(** [bcrypt.hash] with its random salt, [bcrypt.compare].  Only the first 72 bytes of
    a password count. *)
Class Bcrypt := {
  hash : string -> string -> string;
  compare : string -> string -> bool;
  compare_hash : forall salt k, compare k (hash salt k) = true;
  compare_inj : forall salt k k', (String.length k <= 72)%nat -> (String.length k' <= 72)%nat ->
    compare k (hash salt k') = true -> k = k';
}.

Record ApiKey := mkApiKey {
  userId : string;
  name : string;
  key_prefix : string;
  key_hash : string;
  scopes : list string;
  expires_at : option Z;
  revoked_at : option Z;
  last_used_at : option Z;
  created_at : Z;
}.

Record CreateApiKeyDto := mkCreate { dto_name : string; dto_scopes : list string; dto_expires_at : option Z }.

(** What the owner sees of a key. *)
Record ApiKeyListItem := mkItem {
  it_id : nat;
  it_name : string;
  it_prefix : string;
  it_scopes : list string;
  it_expires_at : option Z;
  it_last_used_at : option Z;
  it_revoked_at : option Z;
  it_created_at : Z;
}.

Definition LAST_USED_THROTTLE_MS : Z := 60000.
Definition KEY_PREFIX : string := "ia_".

(** [rawKey.slice(0, 10)]. *)
Definition prefix_of (raw : string) : string := String.substring 0 10 raw.

Section service.
Context {B : Backend} {H : Bcrypt}.

Definition state : Type := table nat ApiKey.

(** [hex] is the hex text of the 32 random bytes, [salt] the salt of the digest. *)
Definition create (hex salt uid : string) (dto : CreateApiKeyDto) (now : Z) : M state (nat * string * ApiKey) :=
  let rawKey := (KEY_PREFIX +:+ hex)%string in
  let k := mkApiKey uid (dto_name dto) (prefix_of rawKey) (hash salt rawKey) (dto_scopes dto)
             (dto_expires_at dto) None None now in
  await id := gets fresh_id in
  do modify (save id k) ;>
  ret (id, rawKey, k).

Definition toListItem (r : nat * ApiKey) : ApiKeyListItem :=
  let k := r.2 in
  mkItem r.1 (name k) (key_prefix k) (scopes k) (expires_at k) (last_used_at k) (revoked_at k) (created_at k).

Definition listForUser (uid : string) : M state (list ApiKeyListItem) :=
  gets (fun s => toListItem <$>
    order_by (fun r => - created_at r.2) (List.filter (fun r => bool_decide (userId r.2 = uid)) (rows s))).

Definition set_revoked (now : Z) (k : ApiKey) : ApiKey :=
  mkApiKey (userId k) (name k) (key_prefix k) (key_hash k) (scopes k) (expires_at k) (Some now)
    (last_used_at k) (created_at k).
Definition set_last_used (now : Z) (k : ApiKey) : ApiKey :=
  mkApiKey (userId k) (name k) (key_prefix k) (key_hash k) (scopes k) (expires_at k) (revoked_at k)
    (Some now) (created_at k).

Definition revoke (id : nat) (uid : string) (now : Z) : M state ApiKeyListItem :=
  await found := gets (find_one id) in
  match found with
  | Some k =>
      if bool_decide (userId k = uid) then
        match revoked_at k with
        | Some _ => throw (HttpException 403 "API key is already revoked")
        | None => do modify (save id (set_revoked now k)) ;> ret (toListItem (id, set_revoked now k))
        end
      else throw (NotFoundException "API key not found")
  | None => throw (NotFoundException "API key not found")
  end.

Definition validateKey (rawKey : string) (now : Z) : M state (nat * ApiKey) :=
  if negb (String.prefix KEY_PREFIX rawKey) then throw (UnauthorizedException "Invalid API key format")
  else
    await candidates := gets (fun s =>
      List.filter (fun r => bool_decide (key_prefix r.2 = prefix_of rawKey)) (rows s)) in
    match List.find (fun r => compare rawKey (key_hash r.2)) candidates with
    | None => throw (UnauthorizedException "Invalid API key")
    | Some (id, k) =>
        match revoked_at k with
        | Some _ => throw (UnauthorizedException "API key has been revoked")
        | None =>
            match expires_at k with
            | Some e => if e <? now then throw (UnauthorizedException "API key has expired") else ret (id, k)
            | None => ret (id, k)
            end
        end
    end.

(** Started without being awaited; runs before the next request here. *)
Definition touchLastUsed (id : nat) (k : ApiKey) (now : Z) : M state unit :=
  let last := default 0 (last_used_at k) in
  if now - last <? LAST_USED_THROTTLE_MS then ret tt
  else modify (update_where (fun i _ => bool_decide (i = id)) (set_last_used now)).

(** The guard: the key of the header, then the scopes the route asks for. *)
Definition canActivate (header : option string) (requiredScopes : list string) (now : Z) : M state (nat * ApiKey) :=
  match header with
  | None | Some EmptyString => throw (UnauthorizedException "X-API-Key header is required")
  | Some rawKey =>
      await found := validateKey rawKey now in
      let missing := List.filter (fun sc => negb (bool_decide (sc ∈ scopes found.2))) requiredScopes in
      match missing with
      | [] => do touchLastUsed found.1 found.2 now ;> ret found
      | _ => throw (HttpException 403 ("API key missing required scope(s): " +:+ join_with ", " missing))
      end
  end.

(** *** Which keys are valid *)

(** [raws] are the keys that were handed out, per row. *)
Definition issued (raws : nat -> string) (s : state) : Prop :=
  forall i k, find_one i s = Some k ->
    (exists salt, key_hash k = hash salt (raws i)) /\ key_prefix k = prefix_of (raws i) /\
    (String.length (raws i) <= 72)%nat.

Definition distinct_raws (raws : nat -> string) (s : state) : Prop :=
  forall i j k k', find_one i s = Some k -> find_one j s = Some k' -> raws i = raws j -> i = j.

Lemma candidate_find raws s raw i k :
  issued raws s -> distinct_raws raws s -> (String.length raw <= 72)%nat ->
  List.find (fun r => compare raw (key_hash r.2))
    (List.filter (fun r => bool_decide (key_prefix r.2 = prefix_of raw)) (rows s)) = Some (i, k) <->
  find_one i s = Some k /\ raws i = raw.
Proof.
  intros Hi Hd Hlen. split.
  - intros Hf. apply find_some in Hf as [Hin Hc]. apply list_elem_of_In, elem_of_List_filter in Hin as [Hin _].
    apply elem_of_rows in Hin. split; [done|]. destruct (Hi _ _ Hin) as ([salt Hs] & _ & Hl). simpl in Hc.
    rewrite Hs in Hc. symmetry. by eapply compare_inj.
  - intros [Hk Hr]. destruct (List.find _ _) as [[j k']|] eqn:Hf.
    + apply find_some in Hf as [Hin Hc]. apply list_elem_of_In, elem_of_List_filter in Hin as [Hin _].
      apply elem_of_rows in Hin. destruct (Hi _ _ Hin) as ([salt Hs] & _ & Hl). simpl in Hc. rewrite Hs in Hc.
      assert (raw = raws j) by (by eapply compare_inj).
      assert (j = i) by (eapply Hd; [done..|congruence]). by simplify_eq.
    + exfalso. destruct (Hi _ _ Hk) as ([salt Hs] & Hp & _).
      assert (Hin : In (i, k) (List.filter (fun r => bool_decide (key_prefix r.2 = prefix_of raw)) (rows s))).
      { apply list_elem_of_In, elem_of_List_filter. rewrite elem_of_rows. split; [done|]. simpl.
        apply bool_decide_eq_true. by rewrite Hp, Hr. }
      pose proof (find_none _ _ Hf _ Hin) as Hc. simpl in Hc. rewrite Hs, Hr, compare_hash in Hc. done.
Qed.

(** A presented key is valid exactly when it is the key handed out for a stored
    row that is neither revoked nor past its expiry; validation never changes state. *)
Theorem validateKey_iff (raws : nat -> string) (s : state) (raw : string) (now : Z) (i : nat) (k : ApiKey) :
  issued raws s -> distinct_raws raws s -> (String.length raw <= 72)%nat -> String.prefix KEY_PREFIX raw = true ->
  validateKey raw now s = (Ret (i, k), s) <->
  find_one i s = Some k /\ raws i = raw /\ revoked_at k = None /\
  match expires_at k with Some e => now <= e | None => True end.
Proof.
  intros Hi Hd Hlen Hp. unfold validateKey. rewrite Hp. run.
  split.
  - intros Hv. destruct (List.find _ _) as [[j k']|] eqn:Hl; [|done].
    apply (candidate_find raws s raw j k' Hi Hd Hlen) in Hl. destruct (revoked_at k') eqn:Hr; [done|].
    destruct (expires_at k') as [e|] eqn:He; simplify_eq/=.
    + destruct (Z.ltb_spec e now); simplify_eq. rewrite Hr, He. naive_solver.
    + rewrite Hr, He. naive_solver.
  - intros (Hk & Hr & Hrev & He). rewrite (proj2 (candidate_find raws s raw i k Hi Hd Hlen) (conj Hk Hr)), Hrev.
    destruct (expires_at k) as [e|]; [|done]. destruct (Z.ltb_spec e now); [lia|done].
Qed.

(** A key just created, if its random part was never handed out before, validates
    until it expires, and gives the new row; the bookkeeping of handed-out keys goes on. *)
Theorem created_key_validates (raws : nat -> string) (s : state) (hex salt uid : string) (dto : CreateApiKeyDto)
    (now now2 : Z) :
  let raw := (KEY_PREFIX +:+ hex)%string in
  issued raws s -> distinct_raws raws s -> (String.length raw <= 72)%nat ->
  (forall i k, find_one i s = Some k -> raws i ≠ raw) ->
  match dto_expires_at dto with Some e => now2 <= e | None => True end ->
  exists id k, (create hex salt uid dto now s).1 = Ret (id, raw, k) /\
    let s' := (create hex salt uid dto now s).2 in
    let raws' := fun i => if decide (i = id) then raw else raws i in
    issued raws' s' /\ distinct_raws raws' s' /\
    validateKey raw now2 s' = (Ret (id, k), s') /\ userId k = uid /\ scopes k = dto_scopes dto.
Proof.
  intros raw Hi Hd Hlen Hnew He. unfold create. run. eexists _, _. split; [reflexivity|].
  set (k := mkApiKey _ _ _ _ _ _ _ _ _). pose proof (fresh_id_None s) as Hid.
  set (id := fresh_id s) in *. clearbody id. cbv zeta.
  set (raws' := fun i => if decide (i = id) then raw else raws i).
  assert (Hold : forall i k', find_one i s = Some k' -> raws' i = raws i).
  { intros i k' Hk. unfold raws'. case_decide; [congruence|done]. }
  assert (Hidr : raws' id = raw) by (unfold raws'; by case_decide).
  assert (Hi' : issued raws' (save id k s)).
  { intros i k'. rewrite find_one_save. case_decide as Hx; intros Hk.
    - simplify_eq. rewrite Hidr. split_and!; [by exists salt|done|done].
    - rewrite (Hold _ _ Hk). by apply Hi. }
  assert (Hd' : distinct_raws raws' (save id k s)).
  { intros i j a b. rewrite !find_one_save. repeat case_decide; subst; intros Ha Hb Hr; try done.
    - rewrite Hidr, (Hold _ _ Hb) in Hr. by destruct (Hnew _ _ Hb).
    - rewrite Hidr, (Hold _ _ Ha) in Hr. by destruct (Hnew _ _ Ha).
    - rewrite (Hold _ _ Ha), (Hold _ _ Hb) in Hr. by eapply Hd. }
  split_and!; try done.
  unfold validateKey. assert (Hp : String.prefix KEY_PREFIX raw = true) by by destruct hex. rewrite Hp. run.
  rewrite (proj2 (candidate_find raws' (save id k s) raw id k Hi' Hd' Hlen) (conj (find_one_save_eq _ _ _) Hidr)).
  simpl. destruct (dto_expires_at dto) as [e|]; [|done]. destruct (Z.ltb_spec e now2); [lia|done].
Qed.

(** *** Revocation is final *)

Inductive op :=
| Create (hex salt uid : string) (dto : CreateApiKeyDto) (now : Z)
| Revoke (id : nat) (uid : string) (now : Z)
| Guard (header : option string) (required : list string) (now : Z).

Definition exec (o : op) (s : state) : state :=
  match o with
  | Create h salt u dto now => (create h salt u dto now s).2
  | Revoke i u now => (revoke i u now s).2
  | Guard h r now => (canActivate h r now s).2
  end.

Lemma validateKey_state raw now s : (validateKey raw now s).2 = s.
Proof. unfold validateKey. run. repeat case_match; simplify_eq/=; done. Qed.

(** Every call keeps a row's digest and prefix, and keeps it revoked. *)
Lemma exec_row o s i k :
  find_one i s = Some k ->
  exists k', find_one i (exec o s) = Some k' /\ key_hash k' = key_hash k /\ key_prefix k' = key_prefix k /\
    (revoked_at k ≠ None -> revoked_at k' ≠ None).
Proof.
  intros Hk. destruct o; simpl.
  - unfold create. run. exists k. rewrite find_one_save_ne; [done|].
    intros He. pose proof (fresh_id_None s) as Hn. congruence.
  - unfold revoke. run. destruct (find_one id s) as [k0|] eqn:H0; [|by eauto].
    case_bool_decide; [|by eauto]. destruct (revoked_at k0) eqn:Hr; [by eauto|]. simpl. rewrite find_one_save.
    destruct (decide (id = i)) as [->|]; [|by eauto]. simplify_eq. eexists. split; [reflexivity|]. by split_and!.
  - unfold canActivate. destruct header as [[|c h]|]; [by eauto| |by eauto]. unfold bind.
    pose proof (validateKey_state (String c h) now s) as Hv.
    destruct (validateKey (String c h) now s) as [[[j kj]|e] s1]; simpl in *; subst s1; [|by eauto].
    destruct (List.filter _ required); simpl; [|by eauto]. unfold touchLastUsed.
    destruct (now - default 0 (last_used_at kj) <? LAST_USED_THROTTLE_MS); simpl; [by eauto|].
    rewrite find_one_update_where, Hk. simpl.
    case_bool_decide; (eexists; split; [reflexivity|]); by split_and!.
Qed.

Lemma exec_rows ops s i k :
  find_one i s = Some k ->
  exists k', find_one i (foldl (fun s o => exec o s) s ops) = Some k' /\ key_hash k' = key_hash k /\
    key_prefix k' = key_prefix k /\ (revoked_at k ≠ None -> revoked_at k' ≠ None).
Proof.
  revert s k. induction ops as [|o ops IH]; intros s k Hk; [by exists k|]. simpl.
  destruct (exec_row o s i k Hk) as (k1 & H1 & H2 & H3 & H4).
  destruct (IH _ _ H1) as (k2 & G1 & G2 & G3 & G4). exists k2. split_and!; [done|congruence..|auto].
Qed.

(** A key that was revoked is refused for ever: after any sequence of calls of the
    service and the guard, as long as keys are distinct, presenting it fails with 401
    and passes no route. *)
Theorem revoked_key_refused (raws : nat -> string) (s : state) (ops : list op) (i : nat) (k : ApiKey)
    (required : list string) (now : Z) :
  let s' := foldl (fun s o => exec o s) s ops in
  find_one i s = Some k -> revoked_at k ≠ None -> String.prefix KEY_PREFIX (raws i) = true ->
  issued raws s' -> distinct_raws raws s' ->
  canActivate (Some (raws i)) required now s' = (Throw (UnauthorizedException "API key has been revoked"), s').
Proof.
  intros s' Hk Hr Hp Hi Hd.
  destruct (exec_rows ops s i k Hk) as (k' & Hk' & _ & _ & Hr'). specialize (Hr' Hr). fold s' in Hk'.
  destruct (Hi _ _ Hk') as (_ & _ & Hlen).
  pose proof (proj2 (candidate_find raws s' (raws i) i k' Hi Hd Hlen) (conj Hk' eq_refl)) as Hf.
  unfold canActivate. destruct (raws i) as [|c h] eqn:Hraw; [done|].
  unfold bind, validateKey. rewrite Hp. run. rewrite Hf. by destruct (revoked_at k').
Qed.

Lemma guard_scopes header required now s r :
  (canActivate header required now s).1 = Ret r -> forall sc, sc ∈ required -> sc ∈ scopes r.2.
Proof.
  unfold canActivate. destruct header as [[|c h]|]; [done| |done]. unfold bind.
  destruct (validateKey (String c h) now s) as [[r0|e] s1]; [|done].
  destruct (List.filter _ required) eqn:Hm; [|done]. intros Hr sc Hin.
  assert (r = r0) as ->.
  { revert Hr. unfold touchLastUsed. run. destruct (_ <? LAST_USED_THROTTLE_MS); simpl; congruence. }
  destruct (decide (sc ∈ scopes r0.2)) as [|Hn]; [done|].
  assert (Hx : sc ∈ List.filter (fun sc => negb (bool_decide (sc ∈ scopes r0.2))) required).
  { apply elem_of_List_filter. split; [done|]. by rewrite bool_decide_eq_false_2. }
  rewrite Hm in Hx. by apply not_elem_of_nil in Hx.
Qed.
End service.

(** *** Concrete runs *)

#[local] Instance ToyBcrypt : Bcrypt.
Proof.
  refine {| hash := fun salt k => ("$" +:+ k)%string; compare := fun k h => bool_decide (h = ("$" +:+ k)%string) |}.
  - intros. by apply bool_decide_eq_true.
  - intros salt k k' _ _ Hc. apply bool_decide_eq_true in Hc. by simplify_eq.
Defined.

Definition toy_keys : state (B := MemBackend) := (create "00ff" "s" "u1" (mkCreate "k" ["a"%string] (Some 100)) 1 []).2.
Definition toy_raws (_ : nat) : string := "ia_00ff".

Lemma toy_rows (s : state (B := MemBackend)) k :
  rows s = [(1%nat, k)] -> key_hash k = "$ia_00ff"%string -> key_prefix k = "ia_00ff"%string ->
  issued toy_raws s /\ distinct_raws toy_raws s.
Proof.
  intros Hs Hh Hp.
  assert (Hone : forall i k', find_one i s = Some k' -> i = 1%nat /\ k' = k).
  { intros i k' Hk. apply elem_of_rows in Hk. rewrite Hs, list_elem_of_singleton in Hk. by simplify_eq. }
  split.
  - intros i k' Hk. destruct (Hone _ _ Hk) as [-> ->]. split_and!; [by exists "s"%string|done|simpl; lia].
  - intros i j k1 k2 H1 H2 _. by destruct (Hone _ _ H1), (Hone _ _ H2); subst.
Qed.

Lemma created_key_validates_witness :
  exists k, validateKey "ia_00ff" 50 toy_keys = (Ret (1%nat, k), toy_keys).
Proof.
  destruct (created_key_validates toy_raws ([] : state (B := MemBackend)) "00ff" "s" "u1"
    (mkCreate "k" ["a"%string] (Some 100)) 1 50) as (id & k & Hc & _ & _ & Hv & _);
    [by intros i k Hk|by intros i j k k' Hk|simpl; lia|by intros i k Hk|simpl; lia|].
  exists k. vm_compute in Hc. simplify_eq. exact Hv.
Defined.

Lemma validateKey_iff_witness :
  exists k, validateKey "ia_00ff" 50 toy_keys = (Ret (1%nat, k), toy_keys).
Proof.
  eexists. eapply (validateKey_iff toy_raws toy_keys "ia_00ff" 50).
  - eapply toy_rows; vm_compute; reflexivity.
  - eapply toy_rows; vm_compute; reflexivity.
  - simpl. lia.
  - reflexivity.
  - split_and!; [vm_compute; reflexivity|reflexivity|reflexivity|vm_compute; discriminate].
Defined.

Lemma revoked_key_refused_witness :
  let s := (revoke 1 "u1" 5 toy_keys).2 in
  canActivate (Some "ia_00ff"%string) [] 50 s = (Throw (UnauthorizedException "API key has been revoked"), s).
Proof.
  eapply (revoked_key_refused toy_raws (revoke 1 "u1" 5 toy_keys).2 [] 1).
  - vm_compute. reflexivity.
  - vm_compute. discriminate.
  - reflexivity.
  - eapply toy_rows; vm_compute; reflexivity.
  - eapply toy_rows; vm_compute; reflexivity.
Defined.
End ApiKeys.
