(* ===== verification/RateLimit.v ===== *)
(** * Rate limiting

    Models [backend/src/common/middleware/rate-limit.middleware.ts] (a fixed-window
    counter per client address), [backend/src/auth/rate-limit.service.ts] and the keys
    of [backend/src/common/guards/tiered-throttler.guard.ts].  The throttler storage and
    the token decoder are parameters. *)
From Stdlib Require Import ZArith Lia Ascii.
From stdpp Require Import base list strings sets.
From S2P Require Import Prelude Storage JsValue.
Local Open Scope Z_scope.

Module RateLimit.

Record RateLimitEntry := mkEntry { count : Z; resetTime : Z }.

(** The parts of a request that name the client. *)
Record request := mkRequest { forwarded : option string; ip : option string; remoteAddress : option string }.

(** The headers of the response; [Retry-After] is set when the request is refused. *)
Record headers := mkHeaders { limit_header : Z; remaining : Z; reset_seconds : Z; retry_after : option Z }.

(** [Math.ceil(ms / 1000)]. *)
Definition ceil_seconds (ms : Z) : Z := - (- ms / 1000).

(** The part of a string before the first comma: [s.split(',')[0]]. *)
Fixpoint before_comma (s : string) : string :=
  match s with
  | EmptyString => EmptyString
  | String c s' => if decide (c = ","%char) then EmptyString else String c (before_comma s')
  end.

Definition getIdentifier (r : request) : string :=
  match forwarded r with
  | Some f => trim (before_comma f)
  | None =>
      match ip r with
      | Some a => a
      | None => default "unknown"%string (remoteAddress r)
      end
  end.

Section middleware.
(** [RATE_LIMIT_MIDDLEWARE_LIMIT] and [RATE_LIMIT_MIDDLEWARE_WINDOW_MS], or their defaults. *)
Context (defaultLimit defaultWindow : Z).

Definition state : Type := list (string * RateLimitEntry).

Definition too_many : exn := HttpException 429 "Too many requests from this IP, please try again later".

(** The entry the request counts against, with the request counted. *)
Definition counted (e : option RateLimitEntry) (now : Z) : RateLimitEntry :=
  let fresh := mkEntry 0 (now + defaultWindow) in
  let e' := match e with
            | None => fresh
            | Some e => if resetTime e <? now then fresh else e
            end in
  mkEntry (count e' + 1) (resetTime e').

Definition use_id (identifier : string) (now : Z) (s : state) : headers * outcome unit * state :=
  let e := counted (Mem.find s identifier) now in
  let over := defaultLimit <? count e in
  (mkHeaders defaultLimit (Z.max 0 (defaultLimit - count e)) (ceil_seconds (resetTime e))
     (if over then Some (ceil_seconds (resetTime e - now)) else None),
   (if over then Throw too_many else Ret tt),
   Mem.upsert identifier e s).

Definition use (r : request) (now : Z) (s : state) : headers * outcome unit * state := use_id (getIdentifier r) now s.

Definition cleanup (now : Z) (s : state) : state := List.filter (fun e => negb (resetTime e.2 <? now)) s.

Definition getStats (now : Z) (s : state) : Z * Z :=
  (Z.of_nat (length s), Z.of_nat (length (List.filter (fun e => now <=? resetTime e.2) s))).

Definition clear (s : state) : state := [].

(** *** Runs *)

Inductive event := Request (r : request) (now : Z) | Sweep (now : Z).

Definition time (ev : event) : Z := match ev with Request _ t | Sweep t => t end.

Definition step (ev : event) (s : state) : state :=
  match ev with
  | Request r now => (use r now s).2
  | Sweep now => cleanup now s
  end.

(** The time of an event if it is a request of [who] that is let through. *)
Definition passed (who : string) (ev : event) (s : state) : list Z :=
  match ev with
  | Request r now => if bool_decide (getIdentifier r = who) && is_ret (use r now s).1.2 then [now] else []
  | Sweep _ => []
  end.

(** The times at which a client's requests were let through. *)
Fixpoint admitted (who : string) (evs : list event) (s : state) : list Z :=
  match evs with
  | [] => []
  | ev :: evs' => passed who ev s ++ admitted who evs' (step ev s)
  end.

(** Events in the order of the clock. *)
Fixpoint timed (t : Z) (evs : list event) : Prop :=
  match evs with
  | [] => True
  | ev :: evs' => t <= time ev /\ timed (time ev) evs'
  end.

Definition within (a b : Z) (l : list Z) : list Z := List.filter (fun x => (a <=? x) && (x <=? b)) l.

(** *** The entry of a client *)

Lemma find_filter (p : string * RateLimitEntry -> bool) (s : state) k :
  NoDup s.*1 ->
  Mem.find (List.filter p s) k =
    match Mem.find s k with Some e => if p (k, e) then Some e else None | None => None end.
Proof.
  induction s as [|[a e] s IH]; intros Hnd; [done|]. csimpl in Hnd. apply NoDup_cons in Hnd as [Hni Hnd].
  simpl. case_decide as Ha.
  - subst a. destruct (p (k, e)) eqn:Hp; simpl; [by case_decide|]. rewrite IH by done.
    destruct (Mem.find s k) eqn:Hk; [|done]. exfalso. apply Hni. apply Mem.find_elem in Hk; [|done].
    apply list_elem_of_fmap. by eexists (k, _).
  - destruct (p (a, e)); simpl; [case_decide; [done|]|]; by rewrite IH.
Qed.

Lemma NoDup_step ev s : NoDup s.*1 -> NoDup (step ev s).*1.
Proof.
  intros Hs. destruct ev as [r now|now]; simpl; [|by apply NoDup_fmap_filter].
  clear -Hs. generalize (counted (Mem.find s (getIdentifier r)) now) as e. generalize (getIdentifier r) as k. intros k e.
  induction s as [|[a b] s IH]; csimpl; [repeat constructor; set_solver|]. csimpl in Hs.
  apply NoDup_cons in Hs as [Hni Hs]. case_decide; csimpl; apply NoDup_cons; [by subst|]. split; [|by auto].
  intros Hin. apply Hni. clear -Hin H. induction s as [|[c d] s IH]; csimpl in Hin; [set_solver|].
  case_decide; csimpl in *; set_solver.
Qed.

(** What an event does to the entry of [who]. *)
Lemma find_step who ev s :
  NoDup s.*1 ->
  Mem.find (step ev s) who =
    match ev with
    | Request r now =>
        if decide (getIdentifier r = who) then Some (counted (Mem.find s who) now) else Mem.find s who
    | Sweep now =>
        match Mem.find s who with Some e => if resetTime e <? now then None else Some e | None => None end
    end.
Proof.
  intros Hs. destruct ev as [r now|now]; simpl.
  - rewrite Mem.find_upsert. case_decide; [by subst|done].
  - unfold cleanup. rewrite find_filter by done. destruct (Mem.find s who); [|done]. simpl. by destruct (_ <? _).
Qed.

Local Arguments use : simpl never.
Local Arguments step : simpl never.
Local Arguments within : simpl never.

Lemma within_app a b l k : within a b (l ++ k) = within a b l ++ within a b k.
Proof. apply List.filter_app. Qed.

Lemma length_within_mono a b a' b' l :
  a' <= a -> b <= b' -> (length (within a b l) <= length (within a' b' l))%nat.
Proof.
  intros Ha Hb. unfold within. induction l as [|x l IH]; [done|]. simpl.
  destruct (Z.leb_spec a x), (Z.leb_spec x b), (Z.leb_spec a' x), (Z.leb_spec x b'); simpl; lia.
Qed.

Lemma length_within_cons a b x l : (length (within a b (x :: l)) <= S (length (within a b l)))%nat.
Proof. unfold within. simpl. destruct (_ && _); simpl; lia. Qed.

Lemma within_one_late a b x : b < x -> within a b [x] = [].
Proof. intros Hx. unfold within. simpl. destruct (Z.leb_spec x b); [lia|]. by rewrite andb_false_r. Qed.

(** Whether a counted request passes. *)
Lemma use_ret r now s :
  is_ret (use r now s).1.2 = negb (defaultLimit <? count (counted (Mem.find s (getIdentifier r)) now)).
Proof. unfold use, use_id. simpl. by case_match. Qed.

(** In one window at most the remaining budget passes. *)
Lemma window_budget who a w evs s t (b : nat) :
  NoDup s.*1 -> timed t evs ->
  (exists e, Mem.find s who = Some e /\ resetTime e = w /\ defaultLimit - count e <= Z.of_nat b) \/ w < t ->
  (length (within a w (admitted who evs s)) <= b)%nat.
Proof.
  revert s t b. induction evs as [|ev evs IH]; intros s t b Hnd Ht Hc; [simpl; lia|].
  destruct Ht as [Ht Htl]. pose proof (NoDup_step ev s Hnd) as Hnd'.
  pose proof (find_step who ev s Hnd) as Hf.
  destruct (Z.ltb_spec w (time ev)) as [Hw|Hw].
  { simpl. rewrite within_app, length_app.
    assert (Hz : within a w (passed who ev s) = []).
    { destruct ev; [|done]. unfold passed. simpl in Hw. destruct (_ && _); [by apply within_one_late|done]. }
    rewrite Hz. simpl. eapply IH; [done|exact Htl|by right]. }
  destruct Hc as [(e & He & Hr & Hb)|Hc]; [|lia].
  simpl. unfold passed. destruct ev as [r now|now]; simpl in Hw, Htl.
  - destruct (decide (getIdentifier r = who)) as [Hid|Hid].
    + rewrite bool_decide_eq_true_2, use_ret, Hid, He by done. rewrite He in Hf. unfold counted in *.
      destruct (Z.ltb_spec (resetTime e) now); [lia|]. simpl in *.
      destruct (Z.ltb_spec defaultLimit (count e + 1)); simpl.
      * eapply IH; [done|exact Htl|]. left. eexists. split; [exact Hf|]. simpl. split; [done|lia].
      * etrans; [apply length_within_cons|].
        assert (Hrest : (length (within a w (admitted who evs (step (Request r now) s))) <= b - 1)%nat); [|simpl in *; lia].
        eapply IH; [done|exact Htl|]. left. eexists. split; [exact Hf|]. simpl. split; [done|lia].
    + rewrite bool_decide_eq_false_2 by done. simpl. eapply IH; [done|exact Htl|]. left. exists e. by rewrite Hf.
  - simpl. eapply IH; [done|exact Htl|]. left. exists e. simpl in Hf. rewrite Hf, He.
    destruct (Z.ltb_spec (resetTime e) now); [lia|done].
Qed.

(** In a span no longer than a window, the budget of the open one and a full one. *)
Lemma two_windows who a T evs s t (b : nat) :
  0 <= defaultLimit -> NoDup s.*1 -> timed t evs -> T <= t + defaultWindow ->
  (forall e, Mem.find s who = Some e -> defaultLimit - count e <= Z.of_nat b) ->
  (length (within a T (admitted who evs s)) <= b + Z.to_nat defaultLimit)%nat.
Proof.
  intros Hlim. revert s t b. induction evs as [|ev evs IH]; intros s t b Hnd Ht HT Hc; [simpl; lia|].
  destruct Ht as [Ht Htl]. pose proof (NoDup_step ev s Hnd) as Hnd'.
  pose proof (find_step who ev s Hnd) as Hf. simpl. unfold passed.
  destruct ev as [r now|now]; simpl in Htl, Ht.
  - destruct (decide (getIdentifier r = who)) as [Hid|Hid].
    + rewrite bool_decide_eq_true_2, use_ret, Hid by done. rewrite <-Hid, Hid in Hf.
      assert (Hopen : counted (Mem.find s who) now = mkEntry 1 (now + defaultWindow) \/
        exists e, Mem.find s who = Some e /\ counted (Mem.find s who) now = mkEntry (count e + 1) (resetTime e)).
      { unfold counted. destruct (Mem.find s who) as [e|]; [|by left]. case_match; [by left|right; by exists e]. }
      destruct Hopen as [Hn|(e & He & Hn)]; rewrite Hn in *; simpl.
      * assert (Hrest : forall b', defaultLimit - 1 <= Z.of_nat b' ->
          (length (within a T (admitted who evs (step (Request r now) s))) <= b')%nat).
        { intros b' Hb'. etrans; [apply (length_within_mono a T a (now + defaultWindow)); lia|].
          eapply window_budget; [done|exact Htl|]. left. eexists. split; [exact Hf|]. done. }
        destruct (Z.ltb_spec defaultLimit 1); simpl.
        { etrans; [apply (Hrest 0%nat)|]; lia. }
        etrans; [apply length_within_cons|].
        specialize (Hrest (Z.to_nat (defaultLimit - 1))). simpl in *. lia.
      * specialize (Hc _ He).
        destruct (Z.ltb_spec defaultLimit (count e + 1)); simpl.
        { eapply (IH _ now); [done|exact Htl|lia|]. intros e' He'. rewrite Hf in He'. simplify_eq. simpl. lia. }
        etrans; [apply length_within_cons|].
        assert (Hrest : (length (within a T (admitted who evs (step (Request r now) s))) <= (b - 1) + Z.to_nat defaultLimit)%nat).
        { eapply (IH _ now); [done|exact Htl|lia|]. intros e' He'. rewrite Hf in He'. simplify_eq. simpl. lia. }
        simpl in *. lia.
    + rewrite bool_decide_eq_false_2 by done. simpl. eapply (IH _ now); [done|exact Htl|lia|]. by rewrite Hf.
  - simpl. eapply (IH _ now); [done|exact Htl|lia|]. simpl in Hf. rewrite Hf. intros e.
    destruct (Mem.find s who) as [e0|] eqn:He0; [|done]. case_match; [done|]. intros. simplify_eq. by apply Hc.
Qed.

Lemma counted_nonneg e now : (forall e', e = Some e' -> 0 <= count e') -> 0 <= count (counted e now).
Proof.
  intros He. unfold counted. destruct e as [e|]; [|simpl; lia]. specialize (He e eq_refl). case_match; simpl; lia.
Qed.

Lemma span_bound who a evs s t :
  0 <= defaultLimit -> NoDup s.*1 -> timed t evs -> (forall e, Mem.find s who = Some e -> 0 <= count e) ->
  (length (within a (a + defaultWindow) (admitted who evs s)) <= 2 * Z.to_nat defaultLimit)%nat.
Proof.
  intros Hlim. revert s t. induction evs as [|ev evs IH]; intros s t Hnd Ht Hc; [simpl; lia|].
  destruct (Z.ltb_spec (time ev) a) as [Ha|Ha].
  - destruct Ht as [_ Htl]. simpl. rewrite within_app, length_app.
    assert (Hz : within a (a + defaultWindow) (passed who ev s) = []).
    { destruct ev; [|done]. unfold passed. simpl in Ha. destruct (_ && _); [|done]. unfold within. simpl. by destruct (Z.leb_spec a now); [lia|]. }
    rewrite Hz. simpl. eapply IH; [by apply NoDup_step|exact Htl|].
    rewrite (find_step who ev s Hnd). intros e. destruct ev.
    + case_decide; [|by apply Hc]. intros. simplify_eq. by apply counted_nonneg.
    + destruct (Mem.find s who) as [e0|]; [|done]. case_match; [done|]. intros. simplify_eq. by apply Hc.
  - etrans; [eapply (two_windows who a (a + defaultWindow) _ s (time ev) (Z.to_nat defaultLimit))|]; [lia|done| |lia| |lia].
    + destruct Ht. by split.
    + intros e He. specialize (Hc _ He). lia.
Qed.

(** C39: In any span as long as the window, a client gets at most twice the limit of
    requests through, whatever the other clients send and whenever the store is swept. *)
Theorem admitted_at_most_twice_limit (who : string) (evs : list event) (t a : Z) :
  0 <= defaultLimit -> timed t evs ->
  (length (within a (a + defaultWindow) (admitted who evs [])) <= 2 * Z.to_nat defaultLimit)%nat.
Proof. intros Hlim Ht. by apply (span_bound who a evs [] t); [|constructor|exact Ht|]. Qed.

(** *** No client is refused early *)

(** The times of all requests of a client. *)
Definition requests (who : string) (evs : list event) : list Z :=
  omap (fun ev => match ev with
                  | Request r now => if bool_decide (getIdentifier r = who) then Some now else None
                  | Sweep _ => None end) evs.

Definition since (a : Z) (l : list Z) : list Z := List.filter (fun x => a <=? x) l.

Lemma length_since_mono a a' l : a <= a' -> (length (since a' l) <= length (since a l))%nat.
Proof. intros Ha. induction l as [|x l IH]; [done|]. simpl. destruct (Z.leb_spec a' x), (Z.leb_spec a x); simpl; lia. Qed.

Definition run (evs : list event) (s : state) : state := foldl (fun s ev => step ev s) s evs.

(** The count is at most the number of requests since the window opened. *)
Definition tallied (who : string) (acc : list Z) (t : Z) (s : state) : Prop :=
  NoDup s.*1 /\ forall e, Mem.find s who = Some e ->
    count e <= Z.of_nat (length (since (resetTime e - defaultWindow) acc)) /\ resetTime e - defaultWindow <= t.

Lemma tallied_run who evs acc t s :
  timed t evs -> tallied who acc t s ->
  exists t', tallied who (acc ++ requests who evs) t' (run evs s) /\ forall now, timed t (evs ++ [Sweep now]) -> t' <= now.
Proof.
  revert acc t s. induction evs as [|ev evs IH]; intros acc t s Ht Hs.
  { exists t. rewrite app_nil_r. split; [done|]. simpl. tauto. }
  destruct Ht as [Ht Htl]. destruct Hs as [Hnd Hs].
  assert (Hacc : acc ++ requests who (ev :: evs) = (acc ++ requests who [ev]) ++ requests who evs).
  { rewrite <-app_assoc. f_equal. unfold requests. simpl. by case_match. }
  rewrite Hacc. destruct (IH (acc ++ requests who [ev]) (time ev) (step ev s) Htl) as (t' & H1 & H2).
  - split; [by apply NoDup_step|]. rewrite (find_step who ev s Hnd). intros e. destruct ev as [r now|now]; simpl in *.
    + case_decide as Hid; [rewrite bool_decide_eq_true_2 by done|rewrite bool_decide_eq_false_2 by done].
      * intros [= <-]. subst who. unfold counted. destruct (Mem.find s (getIdentifier r)) as [e0|] eqn:He0.
        { destruct (Hs _ eq_refl). destruct (Z.ltb_spec (resetTime e0) now); simpl; unfold since in *;
            rewrite List.filter_app, length_app; simpl.
          - destruct (Z.leb_spec (now + defaultWindow - defaultWindow) now); simpl; lia.
          - destruct (Z.leb_spec (resetTime e0 - defaultWindow) now); simpl; lia. }
        unfold since; simpl; rewrite List.filter_app, length_app; simpl.
        destruct (Z.leb_spec (now + defaultWindow - defaultWindow) now); simpl; lia.
      * rewrite app_nil_r. intros He. destruct (Hs _ He). split; [done|lia].
    + rewrite app_nil_r. destruct (Mem.find s who) as [e0|]; [|done]. case_match; [done|]. intros. simplify_eq.
      destruct (Hs _ eq_refl). split; [done|lia].
  - exists t'. split; [exact H1|]. intros now0 Ht0. apply H2. destruct Ht0. done.
Qed.

(** A client that sent fewer requests than the limit in the last window, this one
    not counted, is let through. *)
Theorem under_limit_is_admitted (r : request) (evs : list event) (t now : Z) :
  timed t (evs ++ [Request r now]) ->
  Z.of_nat (length (since (now - defaultWindow) (requests (getIdentifier r) evs))) < defaultLimit ->
  (use r now (run evs [])).1.2 = Ret tt.
Proof.
  intros Ht Hlt.
  assert (Htl : timed t evs /\ timed t (evs ++ [Sweep now])).
  { clear Hlt. revert t Ht. induction evs as [|ev evs IH]; intros t; simpl; [done|]. intros [H1 H2]. apply IH in H2. tauto. }
  destruct (tallied_run (getIdentifier r) evs [] t [] (proj1 Htl)) as (t' & [_ Hc] & Ht'); [split; [constructor|done]|].
  specialize (Ht' now (proj2 Htl)). simpl in Hc.
  assert (Hret : is_ret (use r now (run evs [])).1.2 = true).
  { rewrite use_ret. unfold counted. destruct (Mem.find (run evs []) (getIdentifier r)) as [e|] eqn:He.
    - destruct (Hc _ eq_refl) as [Hc1 Hc2]. destruct (Z.ltb_spec (resetTime e) now); simpl.
      + destruct (Z.ltb_spec defaultLimit (0 + 1)); [lia|done].
      + pose proof (length_since_mono (now - defaultWindow) (resetTime e - defaultWindow) (requests (getIdentifier r) evs)).
        destruct (Z.ltb_spec defaultLimit (count e + 1)); [lia|done].
    - simpl. destruct (Z.ltb_spec defaultLimit (0 + 1)); [lia|done]. }
  revert Hret. unfold use, use_id. simpl. by destruct (_ <? _).
Qed.
End middleware.

(** *** Status of the throttler tiers *)

Record TierConfig := mkTier { tier_limit : Z; ttl : Z }.
Record RateLimitStatus := mkStatus { st_limit : Z; st_remaining : Z; reset_at : Z }.

(** The configured values of a tier. *)
Record tier_env := mkTierEnv { env_limit : option Z; env_ttl : option Z }.

Definition tiers (def auth read write : tier_env) : list (string * TierConfig) :=
  [("default"%string, mkTier (default 100 (env_limit def)) (default 60000 (env_ttl def)));
   ("auth"%string, mkTier (default 10 (env_limit auth)) (default 60000 (env_ttl auth)));
   ("read"%string, mkTier (default 200 (env_limit read)) (default 60000 (env_ttl read)));
   ("write"%string, mkTier (default 30 (env_limit write)) (default 60000 (env_ttl write)))].

Definition status_key (tier identifier : string) : string := ("throttle:" +:+ tier +:+ ":user:" +:+ identifier)%string.

Section status.
(** The throttler storage: [increment key ttl limit blockDuration name] counts a hit and
    gives the total. *)
Context {St : Type} (increment : string -> Z -> Z -> Z -> string -> M St Z).
Context (configured : list (string * TierConfig)).

Definition tier_status (tier identifier : string) (c : TierConfig) (now : Z) : M St RateLimitStatus :=
  await used := catch (increment (status_key tier identifier) (ttl c) (tier_limit c) (tier_limit c) tier) (fun _ => ret 0) in
  ret (mkStatus (tier_limit c) (Z.max 0 (tier_limit c - used)) (now + ttl c)).

Definition getStatus (identifier : string) (now : Z) : M St (list (string * RateLimitStatus)) :=
  map_each (fun t => await st := tier_status t.1 identifier t.2 now in ret (t.1, st)) configured.

(** An unknown tier has the configuration of the default one, under its own key. *)
Definition getTierStatus (identifier tier : string) (now : Z) : M St RateLimitStatus :=
  match Mem.find configured tier with
  | Some c => tier_status tier identifier c now
  | None =>
      match Mem.find configured "default"%string with
      | Some c => tier_status tier identifier c now
      | None => throw (TypeError "Cannot read properties of undefined (reading 'ttl')")
      end
  end.
End status.

(** *** The keys of the tiered throttler guard *)

Section guard.
(** [jwtService.decode], [None] when it throws. *)
Context (decode : string -> option jsval).

Definition extractUserId (authorization : option string) : option string :=
  match authorization with
  | Some h =>
      if String.prefix "Bearer " h then
        match decode (String.substring 7 (String.length h - 7) h) with
        | Some (VObj fields) =>
            match prop fields "sub" with
            | VStr EmptyString => None
            | VStr sub => Some sub
            | _ => None
            end
        | _ => None
        end
      else None
  | None => None
  end.

Definition getTracker (authorization ip remoteAddress : option string) : string :=
  match extractUserId authorization with
  | Some uid => ("user:" +:+ uid)%string
  | None => match ip with Some a => a | None => default "unknown"%string remoteAddress end
  end.

Definition generateKey (authorization ip remoteAddress : option string) (suffix name : string) : string :=
  ("throttle:" +:+ name +:+ ":" +:+ getTracker authorization ip remoteAddress +:+ ":" +:+ suffix)%string.

Lemma length_append (a b : string) : String.length (a +:+ b) = (String.length a + String.length b)%nat.
Proof. induction a as [|c a IH]; simpl; [done|]. by rewrite IH. Qed.

(** The status a user is shown never comes from the counter that limits the user:
    for the same tier and user the service reads, and increments, another key than the
    guard. *)
Theorem status_key_is_not_guard_key (authorization ip remoteAddress : option string) (suffix tier uid : string) :
  extractUserId authorization = Some uid ->
  generateKey authorization ip remoteAddress suffix tier ≠ status_key tier uid.
Proof.
  intros Hu Heq. apply (f_equal String.length) in Heq. unfold generateKey, status_key, getTracker in Heq.
  rewrite Hu, !length_append in Heq. simpl in Heq. lia.
Qed.
End guard.

(** *** Concrete runs *)

Definition alice : request := mkRequest None (Some "10.0.0.1"%string) None.
Definition burst (n : nat) (t : Z) : list event := replicate n (Request alice t).

(** Two full windows fit in one span: three requests at the end of the first window,
    three more at the start of the next. *)
Definition straddle : list event := Request alice 0 :: burst 2 1000 ++ burst 3 1001.

Lemma admitted_at_most_twice_limit_witness :
  timed 0 straddle /\
  (length (within 1 1001 (admitted 3 1000 "10.0.0.1" straddle [])) <= 6)%nat /\
  length (within 0 1001 (admitted 3 1000 "10.0.0.1" straddle [])) = 6%nat.
Proof.
  split; [vm_compute; repeat split; discriminate|]. split; [|vm_compute; reflexivity].
  apply (admitted_at_most_twice_limit 3 1000 "10.0.0.1" straddle 0 1); [lia|vm_compute; repeat split; discriminate].
Defined.

Lemma under_limit_is_admitted_witness :
  (use 3 1000 alice 1500 (run 3 1000 (burst 2 600) [])).1.2 = Ret tt.
Proof.
  apply (under_limit_is_admitted 3 1000 alice (burst 2 600) 0 1500).
  - vm_compute. repeat split; discriminate.
  - vm_compute. reflexivity.
Defined.

Lemma status_key_is_not_guard_key_witness :
  generateKey (fun _ => Some (VObj [("sub"%string, VStr "u1")])) (Some "Bearer x"%string) None None "user:u1" "auth"
    ≠ status_key "auth" "u1".
Proof.
  apply (status_key_is_not_guard_key (fun _ => Some (VObj [("sub"%string, VStr "u1")])) (Some "Bearer x"%string)).
  vm_compute. reflexivity.
Defined.
End RateLimit.
