(* ===== verification/RequestSigning.v ===== *)
(** * Signed requests

    Models [backend/src/common/services/request-signer.service.ts] and the guard that
    checks its headers, [backend/src/common/guards/request-signature.guard.ts].  The
    keyed digest is a parameter. *)
From Stdlib Require Import ZArith Lia Ascii DecimalString Decimal DecimalPos DecimalZ.
From stdpp Require Import base list strings.
From S2P Require Import Prelude JsValue Encoding.
Local Open Scope Z_scope.

Module RequestSigning.

(** [parseInt(s, 10)], [None] for [NaN]: blanks, a sign, then the digits there are. *)
Definition parseInt10 (s : string) : option Z :=
  let '(neg, r) := match trim_start s with
                   | String "+" r => (false, r)
                   | String "-" r => (true, r)
                   | r => (false, r)
                   end%char in
  let '(v, n, _) := take_digits 0 0 r in
  if n =? 0 then None else Some (if neg : bool then - v else v).

Record SignedRequestHeaders := mkHeaders { x_signature : string; x_timestamp : string; x_nonce : string }.

(** An incoming request; [url] is the path with the query string, if there is one. *)
Record request := mkRequest {
  h_signature : option string;
  h_timestamp : option string;
  h_nonce : option string;
  method : string;
  url : string;
  body : jsval;
}.

(** [request.path]: the part of the url before the query. *)
Fixpoint pathname (u : string) : string :=
  match u with
  | EmptyString => EmptyString
  | String c u' => if bool_decide (c = "?"%char) then EmptyString else String c (pathname u')
  end.
Definition path (r : request) : string := pathname (url r).

Definition newline : ascii := ascii_of_N 10.

(** A header that is missing or empty. *)
Definition absent (h : option string) : bool :=
  match h with None | Some EmptyString => true | Some _ => false end.

Section signing.
Context (hmac : string -> string -> list Z).
(** [REQUEST_SIGNATURE_SECRET] and [REQUEST_SIGNATURE_TOLERANCE_MS]. *)
Context (signatureSecret : option string) (tolerance_env : option Z).

Definition timestampToleranceMs : Z :=
  match tolerance_env with
  | Some t => if t =? 0 then 300000 else t
  | None => 300000
  end.

Definition computeHmacSignature (data secret : string) : string := to_hex (hmac secret data).

(** [body ? JSON.stringify(body) : '']. *)
Definition body_string (b : jsval) : outcome string :=
  if truthy b then
    match JSON_stringify b with
    | Ret t => Ret (default "undefined"%string t)
    | Throw e => Throw e
    end
  else Ret ""%string.

Definition canonical (m p t n b : string) : string :=
  m +:+ String newline (p +:+ String newline (t +:+ String newline (n +:+ String newline b))).

(** [nonce] is the hex text of 32 random bytes. *)
Definition signRequest (m p : string) (b : jsval) (nonce : string) (now : Z) : outcome SignedRequestHeaders :=
  match signatureSecret with
  | None | Some EmptyString => Throw (JsError "REQUEST_SIGNATURE_SECRET not configured")
  | Some secret =>
      match body_string b with
      | Throw e => Throw e
      | Ret bs =>
          Ret (mkHeaders (computeHmacSignature (canonical m p (Z_to_string now) nonce bs) secret)
                 (Z_to_string now) nonce)
      end
  end.

(** The signer's own check: an unset secret makes the digest throw. *)
Definition verifySignature (m p timestamp nonce : string) (b : jsval) (signature : string) : outcome bool :=
  match body_string b with
  | Throw e => Throw e
  | Ret bs =>
      match signatureSecret with
      | None => Throw (TypeError "The key argument must be of type string")
      | Some secret => Ret (bool_decide (signature = computeHmacSignature (canonical m p timestamp nonce bs) secret))
      end
  end.

Definition canActivate (requireSignature : bool) (r : request) (now : Z) : outcome bool :=
  if negb requireSignature then Ret true
  else
    match signatureSecret with
    | None | Some EmptyString => Throw (UnauthorizedException "Request signature validation not configured")
    | Some secret =>
        match h_signature r, h_timestamp r, h_nonce r with
        | Some signature, Some timestamp, Some nonce =>
            if absent (Some signature) || absent (Some timestamp) || absent (Some nonce)
            then Throw (UnauthorizedException "Missing required signature headers (x-signature, x-timestamp, x-nonce)")
            else
              match parseInt10 timestamp with
              | None => Throw (UnauthorizedException "Invalid timestamp format")
              | Some requestTime =>
                  if timestampToleranceMs <? Z.abs (now - requestTime)
                  then Throw (UnauthorizedException "Request timestamp outside acceptable window")
                  else if (Z.of_nat (String.length nonce) <? 16)
                  then Throw (UnauthorizedException "Nonce must be at least 16 characters")
                  else
                    match body_string (body r) with
                    | Throw e => Throw e
                    | Ret bs =>
                        let computed := from_hex (computeHmacSignature (canonical (method r) (path r) timestamp nonce bs) secret) in
                        let given := from_hex signature in
                        if negb (bool_decide (length given = length computed)) || negb (bool_decide (given = computed))
                        then Throw (UnauthorizedException "Invalid request signature")
                        else Ret true
                    end
              end
        | _, _, _ =>
            Throw (UnauthorizedException "Missing required signature headers (x-signature, x-timestamp, x-nonce)")
        end
    end.

(** *** The timestamp round trip *)

(** The value of a decimal numeral after [acc]. *)
Fixpoint uvalue (acc : Z) (d : uint) : Z :=
  match d with
  | Nil => acc
  | D0 d => uvalue (acc * 10) d
  | D1 d => uvalue (acc * 10 + 1) d
  | D2 d => uvalue (acc * 10 + 2) d
  | D3 d => uvalue (acc * 10 + 3) d
  | D4 d => uvalue (acc * 10 + 4) d
  | D5 d => uvalue (acc * 10 + 5) d
  | D6 d => uvalue (acc * 10 + 6) d
  | D7 d => uvalue (acc * 10 + 7) d
  | D8 d => uvalue (acc * 10 + 8) d
  | D9 d => uvalue (acc * 10 + 9) d
  end.

Lemma take_digits_uint d acc n :
  exists k, take_digits acc n (NilEmpty.string_of_uint d) = (uvalue acc d, n + k, EmptyString) /\ 0 <= k /\ (d ≠ Nil -> 0 < k).
Proof.
  revert acc n. induction d; intros acc n;
    [exists 0; simpl; rewrite Z.add_0_r; by split_and!|..];
    cbn [NilEmpty.string_of_uint take_digits uvalue];
    (match goal with |- context [digit_value 10 ?c] => change (digit_value 10 c) with (Some (Z.of_N (N_of_ascii c) - 48)) end);
    cbn [N_of_ascii N_of_digits];
    match goal with |- context [take_digits ?a ?m _] => destruct (IHd a m) as (k & Hk & H0 & _) end;
    exists (1 + k); rewrite Hk; (split_and!; [|lia|lia]); f_equal; f_equal; try lia; f_equal; simpl; lia.
Qed.

Lemma uvalue_pos d p : uvalue (Zpos p) d = Zpos (Pos.of_uint_acc d p).
Proof.
  revert p. induction d; intros p; [done|..]; cbn [uvalue Pos.of_uint_acc]; rewrite <-IHd; f_equal; lia.
Qed.

Lemma uvalue_of_uint d : uvalue 0 d = Z.of_N (Pos.of_uint d).
Proof.
  induction d; [done|..]; cbn [uvalue Pos.of_uint]; [exact IHd|..]; apply uvalue_pos.
Qed.

Lemma parseInt10_to_string n : 0 <= n -> parseInt10 (Z_to_string n) = Some n.
Proof.
  intros Hn. unfold parseInt10, Z_to_string.
  assert (Hd : exists d, Z.to_int n = Pos d /\ d ≠ Nil /\ uvalue 0 d = n).
  { destruct n as [|p|p]; [by exists (D0 Nil)| |lia]. exists (Pos.to_uint p).
    split; [done|]. split; [apply DecimalPos.Unsigned.to_uint_nonnil|].
    by rewrite uvalue_of_uint, DecimalPos.Unsigned.of_to. }
  destruct Hd as (d & -> & Hnil & Hv). simpl.
  assert (Hs : NilZero.string_of_uint d = NilEmpty.string_of_uint d) by by destruct d. rewrite Hs.
  destruct (take_digits_uint d 0 0) as (k & Ht & _ & Hk). specialize (Hk Hnil). rewrite Hv in Ht.
  assert (Htrim : trim_start (NilEmpty.string_of_uint d) = NilEmpty.string_of_uint d) by by destruct d.
  rewrite Htrim.
  assert (Hm : (match NilEmpty.string_of_uint d with
                | String "+" r => (false, r) | String "-" r => (true, r) | r => (false, r) end)%char
               = (false, NilEmpty.string_of_uint d)) by by destruct d.
  rewrite Hm, Ht. destruct (Z.eqb_spec (0 + k) 0); [lia|done].
Qed.

(** *** What a signature means *)

Definition digest32 : Prop := forall k t, Forall is_byte (hmac k t) /\ length (hmac k t) = 32%nat.

(** Headers made by the signer pass the guard for the same request, with whatever query,
    as long as the clocks differ by no more than the tolerance. *)
Theorem signed_request_accepted (m p u : string) (b : jsval) (nonce : string) (t now : Z) (h : SignedRequestHeaders) :
  digest32 -> signRequest m p b nonce t = Ret h -> pathname u = p -> 0 <= t -> 16 <= Z.of_nat (String.length nonce) ->
  Z.abs (now - t) <= timestampToleranceMs ->
  canActivate true (mkRequest (Some (x_signature h)) (Some (x_timestamp h)) (Some (x_nonce h)) m u b) now = Ret true.
Proof.
  intros Hd Hs Hu Ht Hn Htol. unfold signRequest in Hs. unfold canActivate, path. simpl. subst p.
  destruct signatureSecret as [[|c secret]|]; [done| |done].
  destruct (body_string b) as [bs|] eqn:Hb; [|done]. simplify_eq/=.
  set (text := canonical m (pathname u) (Z_to_string t) nonce bs). destruct (Hd (String c secret) text) as [Hbytes Hl].
  assert (Ha : absent (Some (computeHmacSignature text (String c secret))) = false).
  { unfold computeHmacSignature. by destruct (hmac (String c secret) text). }
  assert (Hat : absent (Some (Z_to_string t)) = false).
  { pose proof (parseInt10_to_string t Ht) as Hp. by destruct (Z_to_string t). }
  assert (Han : absent (Some nonce) = false) by (destruct nonce; [simpl in Hn; lia|done]).
  simpl in Ha, Hat, Han. rewrite Ha, Hat, Han. simpl.
  rewrite parseInt10_to_string by done.
  destruct (Z.ltb_spec timestampToleranceMs (Z.abs (now - t))); [lia|].
  destruct (Z.ltb_spec (Z.of_nat (String.length nonce)) 16); [lia|].
  by rewrite !bool_decide_eq_true_2.
Qed.

(** No newline in a string. *)
Definition one_line (s : string) : bool := free_of newline s.

Definition header_lines (r : request) : Prop :=
  one_line (method r) = true /\ one_line (path r) = true /\
  one_line (default ""%string (h_timestamp r)) = true /\ one_line (default ""%string (h_nonce r)) = true.

(** The text whose digest a request must carry. *)
Definition signed_text (r : request) : outcome string :=
  match body_string (body r) with
  | Ret bs => Ret (canonical (method r) (path r) (default ""%string (h_timestamp r)) (default ""%string (h_nonce r)) bs)
  | Throw e => Throw e
  end.

Lemma canActivate_inv r now :
  digest32 -> canActivate true r now = Ret true ->
  exists secret text, signatureSecret = Some secret /\ signed_text r = Ret text /\
    from_hex (default ""%string (h_signature r)) = hmac secret text /\
    is_Some (h_timestamp r) /\ is_Some (h_nonce r).
Proof.
  intros Hd. unfold canActivate, signed_text. simpl. destruct signatureSecret as [[|c secret]|]; [done| |done].
  destruct (h_signature r) as [sg|], (h_timestamp r) as [t|], (h_nonce r) as [n|]; try done.
  destruct (_ || _); [done|]. destruct (parseInt10 t); [|done].
  destruct (_ <? _); [done|]. destruct (_ <? _); [done|]. destruct (body_string (body r)) as [bs|]; [|done].
  unfold computeHmacSignature. rewrite from_to_hex by apply Hd. repeat case_bool_decide; try done.
  intros _. exists (String c secret). by eexists.
Qed.

Definition with_url (u : string) (r : request) : request :=
  mkRequest (h_signature r) (h_timestamp r) (h_nonce r) (method r) u (body r).

(** C31: What a signature covers.  An accepted request carries the keyed digest of its
    text of method, path, timestamp, nonce and body; a second request accepted with the
    same signature, when the digests of the two texts do not collide, has the same
    method, path, timestamp, nonce and body text.  The query string is not covered:
    with another query the request is accepted all the same. *)
Theorem signature_covers_request (r r' : request) (now now' : Z) :
  digest32 -> header_lines r -> header_lines r' ->
  canActivate true r now = Ret true -> canActivate true r' now' = Ret true ->
  (exists secret text, signatureSecret = Some secret /\ signed_text r = Ret text /\
     from_hex (default ""%string (h_signature r)) = hmac secret text) /\
  ((forall secret text text', signed_text r = Ret text -> signed_text r' = Ret text' ->
      hmac secret text = hmac secret text' -> text = text') ->
   h_signature r = h_signature r' ->
   method r = method r' /\ path r = path r' /\ h_timestamp r = h_timestamp r' /\
   h_nonce r = h_nonce r' /\ body_string (body r) = body_string (body r')) /\
  (forall u, pathname u = path r -> canActivate true (with_url u r) now = Ret true).
Proof.
  intros Hd Hl Hl' Ha Ha'.
  destruct (canActivate_inv r now Hd Ha) as (secret & text & Hs & Ht & Hsig & [t Hts] & [n Hn]).
  destruct (canActivate_inv r' now' Hd Ha') as (secret' & text' & Hs' & Ht' & Hsig' & [t' Hts'] & [n' Hn']).
  split_and!.
  - by exists secret, text.
  - intros Hcf Heq. assert (Htext : text = text').
    { apply (Hcf secret); [done..|]. rewrite <-Hsig, Heq, Hsig'. congruence. }
    unfold header_lines in Hl, Hl'. rewrite Hts, Hn in Hl. rewrite Hts', Hn' in Hl'. cbn [default] in Hl, Hl'.
    unfold signed_text in Ht, Ht'. rewrite Hts, Hn in Ht |- *. rewrite Hts', Hn' in Ht' |- *.
    destruct (body_string (body r)), (body_string (body r')); [|done..].
    destruct Hl as (L1 & L2 & L3 & L4), Hl' as (L1' & L2' & L3' & L4').
    rewrite <-Htext, <-Ht in Ht'. injection Ht' as Ht'. unfold canonical in Ht'.
    apply append_sep_inj in Ht' as [-> Ht']; [|done..]. apply append_sep_inj in Ht' as [-> Ht']; [|done..].
    apply append_sep_inj in Ht' as [Ht0 Ht']; [|done..]. apply append_sep_inj in Ht' as [Hn0 ->]; [|done..].
    cbn in Ht0, Hn0. by rewrite Ht0, Hn0.
  - intros u Hu. rewrite <-Ha. unfold canActivate, with_url, path in *. cbn. by rewrite Hu.
Qed.

(** The guard keeps no nonces: an accepted request is accepted again at every moment
    within the tolerance of its timestamp, although it is meant to stop replays. *)
Theorem signed_request_replayable (r : request) (now now' t : Z) :
  canActivate true r now = Ret true ->
  parseInt10 (default ""%string (h_timestamp r)) = Some t -> Z.abs (now' - t) <= timestampToleranceMs ->
  canActivate true r now' = Ret true.
Proof.
  unfold canActivate. simpl. intros Ha Ht Htol. destruct signatureSecret as [[|c secret]|]; [done| |done].
  destruct (h_signature r) as [sg|], (h_timestamp r) as [ts|], (h_nonce r) as [n|]; try done.
  destruct (_ || _); [done|]. simpl in Ht. rewrite Ht in *.
  destruct (timestampToleranceMs <? Z.abs (now - t)); [done|].
  destruct (Z.ltb_spec timestampToleranceMs (Z.abs (now' - t))); [lia|done].
Qed.
End signing.

(** *** Concrete runs *)

Definition toy_hmac (k t : string) : list Z := replicate 32 (Z.of_nat (String.length k + String.length t) mod 256).

Lemma toy_signature_digest32 : digest32 toy_hmac.
Proof.
  intros k t. split; [|apply length_replicate]. apply Forall_replicate. unfold is_byte. apply Z.mod_pos_bound. lia.
Qed.

Definition toy_body : jsval := VObj [("amount"%string, VNum 5)].
Definition toy_headers : SignedRequestHeaders :=
  match signRequest toy_hmac (Some "k"%string) "POST" "/x" toy_body "0123456789abcdef" 1000 with
  | Ret h => h
  | Throw _ => mkHeaders "" "" ""
  end.
Definition toy_request : request :=
  mkRequest (Some (x_signature toy_headers)) (Some (x_timestamp toy_headers)) (Some (x_nonce toy_headers))
    "POST" "/x?dry=1" toy_body.

Lemma signed_request_accepted_witness :
  canActivate toy_hmac (Some "k"%string) None true toy_request 2000 = Ret true.
Proof.
  apply (signed_request_accepted toy_hmac (Some "k"%string) None "POST" "/x" "/x?dry=1" toy_body "0123456789abcdef" 1000 2000 toy_headers).
  - apply toy_signature_digest32.
  - vm_compute. reflexivity.
  - reflexivity.
  - lia.
  - vm_compute. discriminate.
  - vm_compute. discriminate.
Defined.

(** Two different requests with one signature. *)
Lemma signature_covers_request_witness :
  let r' := with_url "/x?dry=0" toy_request in
  url toy_request ≠ url r' /\ path toy_request = path r' /\
  canActivate toy_hmac (Some "k"%string) None true r' 2000 = Ret true.
Proof.
  intros r'. split; [discriminate|].
  destruct (signature_covers_request toy_hmac (Some "k"%string) None toy_request r' 2000 2000)
    as (_ & H2 & H3);
    [apply toy_signature_digest32|by split_and!|by split_and!|vm_compute; reflexivity|vm_compute; reflexivity|].
  split; [|apply H3; reflexivity]. apply H2; [|reflexivity].
  intros secret text text' Ht Ht' _. change (signed_text r') with (signed_text toy_request) in Ht'. congruence.
Defined.

Lemma signed_request_replayable_witness :
  canActivate toy_hmac (Some "k"%string) None true toy_request 200000 = Ret true.
Proof.
  apply (signed_request_replayable toy_hmac (Some "k"%string) None toy_request 2000 200000 1000).
  - vm_compute. reflexivity.
  - vm_compute. reflexivity.
  - vm_compute. discriminate.
Defined.
End RequestSigning.
