(* ===== verification/Webhooks.v ===== *)
(** * Webhooks: endpoints, delivery with retries, incoming signatures

    Models [backend/src/webhooks/]: [webhooks.service.ts] (endpoints of a user),
    [webhook-dispatcher.service.ts] (the delivery queue), [webhook-cron.service.ts],
    [webhook-signature.service.ts] and the guard in front of incoming webhooks.  The
    keyed digest and the HTTP client are parameters. *)
From Stdlib Require Import ZArith Lia Ascii.
From stdpp Require Import base list strings sets.
From S2P Require Import Prelude Storage JsValue Encoding.
Local Open Scope Z_scope.

Module Webhooks.

Inductive DeliveryStatus := PENDING | SUCCESS | FAILED.
#[export] Instance DeliveryStatus_eq_dec : EqDecision DeliveryStatus.
Proof. solve_decision. Defined.

Record WebhookEndpoint := mkEndpoint {
  ep_user : string;
  url : string;
  event_types : list string;
  secret_key : string;
  is_active : bool;
  failure_count : Z;
  last_delivery_at : option Z;
  last_failure_at : option Z;
  ep_created_at : Z;
}.

Record WebhookDeliveryLog := mkLog {
  endpoint_id : nat;
  event_type : string;
  payload : jsval;
  status : DeliveryStatus;
  attempt_count : Z;
  http_status_code : option Z;
  error_message : option string;
  next_retry_at : option Z;
  created_at : Z;
  delivered_at : option Z;
}.

Record CreateWebhookEndpointDto := mkCreate { dto_url : string; dto_event_types : list string }.
Record UpdateWebhookEndpointDto := mkUpdate {
  upd_url : option string;
  upd_event_types : option (list string);
  upd_is_active : option bool;
}.

(** What a [post] gives: a response, or an error with its message and, when it has the
    member, its [response?.status]. *)
Inductive http_result :=
| Response (code : Z)
| RequestFailed (message : string) (response : option (option Z)).

(** An incoming request: the path parameter, the signature header, the raw body when
    the framework kept it, and the parsed body. *)
Record request := mkRequest {
  params_source : option (string + list string);
  signature_header : option string;
  rawBody : option string;
  body : jsval;
}.

Definition DEFAULT_REPLAY_WINDOW_SECONDS : Z := 300.
Definition MAX_BACKOFF_MS : Z := 3600000.

Section service.
Context {B : Backend}.
(** [hmac secret text] is the SHA-256 keyed digest. *)
Context (hmac : string -> string -> list Z).
(** [WEBHOOK_MAX_ATTEMPTS], [WEBHOOK_BATCH_SIZE] and the incoming configuration. *)
Context (maxAttempts batchSize : Z) (WEBHOOK_HMAC_SECRET : option string) (WEBHOOK_REPLAY_WINDOW_SECONDS : option Z).

(** Processed events hold their [received_at], unique in source and event id. *)
Record state := mkState {
  endpoints : table nat WebhookEndpoint;
  logs : table nat WebhookDeliveryLog;
  processed : table (string * string) Z;
}.

Definition set_endpoints f s := mkState (f (endpoints s)) (logs s) (processed s).
Definition set_logs f s := mkState (endpoints s) (f (logs s)) (processed s).
Definition set_processed f s := mkState (endpoints s) (logs s) (f (processed s)).

(** *** [WebhooksService] *)

(** [secretKey] is the generated key. *)
Definition createEndpoint (user secretKey : string) (dto : CreateWebhookEndpointDto) (now : Z)
  : M state (nat * WebhookEndpoint) :=
  let e := mkEndpoint user (dto_url dto) (dto_event_types dto) secretKey true 0 None None now in
  await id := gets (fun s => fresh_id (endpoints s)) in
  do modify (set_endpoints (save id e)) ;>
  ret (id, e).

Definition findEndpointById (id : nat) (userId : string) : M state WebhookEndpoint :=
  await found := gets (fun s => find_one id (endpoints s)) in
  match found with
  | Some e => if bool_decide (ep_user e = userId) then ret e
              else throw (NotFoundException "Webhook endpoint not found")
  | None => throw (NotFoundException "Webhook endpoint not found")
  end.

Definition listEndpoints (userId : string) : M state (list (nat * WebhookEndpoint)) :=
  gets (fun s => order_by (fun r => - ep_created_at r.2)
    (List.filter (fun r => bool_decide (ep_user r.2 = userId)) (rows (endpoints s)))).

Definition apply_update (dto : UpdateWebhookEndpointDto) (e : WebhookEndpoint) : WebhookEndpoint :=
  mkEndpoint (ep_user e) (default (url e) (upd_url dto)) (default (event_types e) (upd_event_types dto))
    (secret_key e) (default (is_active e) (upd_is_active dto)) (failure_count e) (last_delivery_at e)
    (last_failure_at e) (ep_created_at e).

Definition updateEndpoint (id : nat) (userId : string) (dto : UpdateWebhookEndpointDto) : M state WebhookEndpoint :=
  await e := findEndpointById id userId in
  do modify (set_endpoints (save id (apply_update dto e))) ;>
  ret (apply_update dto e).

(** The foreign key of the delivery logs cascades. *)
Definition deleteEndpoint (id : nat) (userId : string) : M state unit :=
  do findEndpointById id userId ;>
  do modify (set_endpoints (remove id)) ;>
  modify (set_logs (delete_where (fun _ l => bool_decide (endpoint_id l = id)))).

Definition getDeliveryLogs (endpointId : nat) (userId : string) (limit offset : Z)
  : M state (list (nat * WebhookDeliveryLog) * Z) :=
  do findEndpointById endpointId userId ;>
  gets (fun s =>
    let all := order_by (fun r => - created_at r.2)
                 (List.filter (fun r => bool_decide (endpoint_id r.2 = endpointId)) (rows (logs s))) in
    (take (Z.to_nat limit) (drop (Z.to_nat offset) all), Z.of_nat (length all))).

(** *** [WebhookDispatcherService] *)

Definition new_log (eventType : string) (pl : jsval) (now : Z) (epId : nat) : WebhookDeliveryLog :=
  mkLog epId eventType pl PENDING 0 None None (Some now) now None.

Definition createDeliveryLog (epId : nat) (eventType : string) (pl : jsval) (now : Z) : M state unit :=
  await id := gets (fun s => fresh_id (logs s)) in
  modify (set_logs (save id (new_log eventType pl now epId))).

(** The active endpoints subscribed to an event type. *)
Definition targets (eventType : string) (s : state) : list nat :=
  (List.filter (fun r => is_active r.2 && bool_decide (eventType ∈ event_types r.2)) (rows (endpoints s))).*1.

Definition emit (eventType : string) (pl : jsval) (now : Z) : M state unit :=
  await eps := gets (targets eventType) in
  for_each (fun epId => createDeliveryLog epId eventType pl now) eps.

Definition generateSignature (pl : jsval) (secretKey : string) : outcome string :=
  match JSON_stringify pl with
  | Ret (Some text) => Ret (to_hex (hmac secretKey text))
  | Ret None => Throw (TypeError "The data argument must be of type string")
  | Throw e => Throw e
  end.

Definition backoffMs (attempt : Z) : Z := Z.min (2 ^ (attempt - 1) * 1000) MAX_BACKOFF_MS.

(** The status and the next retry after a failed attempt. *)
Definition scheduleRetry (attempt now : Z) (l : WebhookDeliveryLog) : DeliveryStatus * option Z :=
  if maxAttempts <=? attempt then (FAILED, None) else (status l, Some (now + backoffMs attempt)).

Definition failed_log (attempt now : Z) (code : option Z) (message : option string) (l : WebhookDeliveryLog)
  : WebhookDeliveryLog :=
  let sr := scheduleRetry attempt now l in
  mkLog (endpoint_id l) (event_type l) (payload l) sr.1 attempt code message sr.2 (created_at l) (delivered_at l).

Definition failed_endpoint (now : Z) (e : WebhookEndpoint) : WebhookEndpoint :=
  mkEndpoint (ep_user e) (url e) (event_types e) (secret_key e) (is_active e) (failure_count e + 1)
    (last_delivery_at e) (Some now) (ep_created_at e).

(** One attempt: the log and the endpoint as they are saved.  [answer] is what the
    endpoint gives to this request. *)
Definition attempt_result (answer : http_result) (now : Z) (l : WebhookDeliveryLog) (e : WebhookEndpoint)
  : WebhookDeliveryLog * WebhookEndpoint :=
  let attempt := attempt_count l + 1 in
  match generateSignature (payload l) (secret_key e) with
  | Throw err => (failed_log attempt now (http_status_code l) (Some (exn_message err)) l, failed_endpoint now e)
  | Ret _ =>
      match answer with
      | Response code =>
          if (200 <=? code) && (code <? 300) then
            (mkLog (endpoint_id l) (event_type l) (payload l) SUCCESS attempt (Some code) (error_message l)
               (next_retry_at l) (created_at l) (Some now),
             mkEndpoint (ep_user e) (url e) (event_types e) (secret_key e) (is_active e) 0 (Some now)
               (last_failure_at e) (ep_created_at e))
          else (failed_log attempt now (http_status_code l) (error_message l) l, failed_endpoint now e)
      | RequestFailed m r =>
          let code := match r with
                      | None => http_status_code l
                      | Some (Some c) => if c =? 0 then None else Some c
                      | Some None => None
                      end in
          (failed_log attempt now code (Some m) l, failed_endpoint now e)
      end
  end.

(** The endpoint object was loaded with the log, before the loop started; a missing
    one makes the handler itself throw. *)
Definition attemptDelivery (http : nat -> Z -> http_result) (now : Z)
    (x : nat * WebhookDeliveryLog * option WebhookEndpoint) : M state unit :=
  let '(id, l, oe) := x in
  match oe with
  | None => throw (TypeError "Cannot set properties of null (setting 'last_failure_at')")
  | Some e =>
      let r := attempt_result (http id (attempt_count l + 1)) now l e in
      do modify (set_logs (save id r.1)) ;>
      modify (set_endpoints (save (endpoint_id l) r.2))
  end.

Definition is_ready (now : Z) (l : WebhookDeliveryLog) : bool :=
  match next_retry_at l with None => true | Some t => t <=? now end.

(** [find] with [take] and no order, then the filter on the time of the retry. *)
Definition ready_logs (now : Z) (s : state) : list (nat * WebhookDeliveryLog * option WebhookEndpoint) :=
  let pending := take (Z.to_nat batchSize)
                   (List.filter (fun r => bool_decide (status r.2 = PENDING)) (rows (logs s))) in
  (fun r => (r.1, r.2, find_one (endpoint_id r.2) (endpoints s))) <$> List.filter (fun r => is_ready now r.2) pending.

Definition processPendingDeliveries (http : nat -> Z -> http_result) (now : Z) : M state unit :=
  await ready := gets (ready_logs now) in
  for_each (attemptDelivery http now) ready.

(** The cron job logs an error and goes on. *)
Definition cron (http : nat -> Z -> http_result) (now : Z) : M state unit :=
  catch (processPendingDeliveries http now) (fun _ => ret tt).

(** *** [WebhookSignatureService] and the guard *)

Definition verifySignature (text : option string) (header : option string) (secret : string) : bool :=
  match header, text with
  | None, _ | Some EmptyString, _ | _, None => false
  | Some h, Some t =>
      let expected := from_hex (to_hex (hmac secret t)) in
      let received := from_hex h in
      if negb (bool_decide (length expected = length received)) then false
      else bool_decide (expected = received)
  end.

Definition getReplayWindowMs : Z :=
  default DEFAULT_REPLAY_WINDOW_SECONDS WEBHOOK_REPLAY_WINDOW_SECONDS * 1000.

Definition isReplay (source eventId : string) (now : Z) (s : state) : bool :=
  match find_one (source, eventId) (processed s) with
  | None => false
  | Some received_at => now - received_at <? getReplayWindowMs
  end.

(** The insert is refused when the pair is taken; the error is only logged. *)
Definition recordProcessed (source eventId : string) (now : Z) : M state unit :=
  catch
    (await taken := gets (fun s => find_one (source, eventId) (processed s)) in
     match taken with
     | Some _ => throw (DatabaseError "23505")
     | None => modify (set_processed (save (source, eventId) now))
     end)
    (fun _ => ret tt).

Definition source_of (r : request) : option string :=
  match params_source r with
  | None => None
  | Some (inl s) => Some s
  | Some (inr l) => head l
  end.

(** The text that is signed. *)
Definition body_text (r : request) : outcome (option string) :=
  match rawBody r with Some b => Ret (Some b) | None => JSON_stringify (body r) end.

(** [body?.event_id], when it is a non-empty string. *)
Definition event_id_of (r : request) : option string :=
  match body r with
  | VObj fields =>
      match prop fields "event_id" with
      | VStr EmptyString => None
      | VStr eventId => Some eventId
      | _ => None
      end
  | _ => None
  end.

Definition canActivate (r : request) (now : Z) : M state bool :=
  match source_of r with
  | None | Some EmptyString => throw (BadRequestException "Missing webhook source in path")
  | Some source =>
      match WEBHOOK_HMAC_SECRET with
      | None | Some EmptyString => throw (UnauthorizedException "Webhook signature verification is not configured")
      | Some secret =>
          match body_text r with
          | Throw e => throw e
          | Ret text =>
              if negb (verifySignature text (signature_header r) secret)
              then throw (UnauthorizedException "Invalid webhook signature")
              else
                match event_id_of r with
                | None => throw (BadRequestException "Missing event_id")
                | Some eventId =>
                    await replay := gets (isReplay source eventId now) in
                    if (replay : bool) then throw (UnauthorizedException "Duplicate webhook event")
                    else do recordProcessed source eventId now ;> ret true
                end
          end
      end
  end.

(** *** The retry schedule *)

(** Every log points to an endpoint, which the cascade keeps. *)
Definition linked (s : state) : Prop :=
  forall id l, find_one id (logs s) = Some l -> is_Some (find_one (endpoint_id l) (endpoints s)).

(** The pending logs, which a pass reads. *)
Definition pending_rows (s : state) : list (nat * WebhookDeliveryLog) :=
  List.filter (fun r => bool_decide (status r.2 = PENDING)) (rows (logs s)).

Lemma failed_log_cases attempt now c m l :
  attempt_count (failed_log attempt now c m l) = attempt /\
  endpoint_id (failed_log attempt now c m l) = endpoint_id l /\
  (status (failed_log attempt now c m l) = FAILED \/
   attempt < maxAttempts /\ next_retry_at (failed_log attempt now c m l) = Some (now + backoffMs attempt)).
Proof.
  unfold failed_log, scheduleRetry. destruct (Z.leb_spec maxAttempts attempt); simpl; auto.
Qed.

(** What an attempt does to its log: one more attempt, and either it is settled or it
    is due again within the longest back-off. *)
Lemma attempt_result_cases a now l e :
  let l' := (attempt_result a now l e).1 in
  attempt_count l' = attempt_count l + 1 /\ endpoint_id l' = endpoint_id l /\
  (status l' = SUCCESS \/ status l' = FAILED \/
   attempt_count l' < maxAttempts /\ exists r, next_retry_at l' = Some r /\ now <= r <= now + MAX_BACKOFF_MS).
Proof.
  assert (Hf : forall c m, let l' := failed_log (attempt_count l + 1) now c m l in
    attempt_count l' = attempt_count l + 1 /\ endpoint_id l' = endpoint_id l /\
    (status l' = SUCCESS \/ status l' = FAILED \/
     attempt_count l' < maxAttempts /\ exists r, next_retry_at l' = Some r /\ now <= r <= now + MAX_BACKOFF_MS)).
  { intros c m l'. destruct (failed_log_cases (attempt_count l + 1) now c m l) as (H1 & H2 & H3).
    split; [done|]. split; [done|]. destruct H3 as [H3|[H3 H4]]; [auto|].
    right. right. split; [unfold l'; by rewrite H1|]. eexists. split; [exact H4|].
    unfold backoffMs, MAX_BACKOFF_MS. pose proof (Z.pow_nonneg 2 (attempt_count l + 1 - 1)). lia. }
  unfold attempt_result. destruct (generateSignature _ _); [|apply Hf].
  destruct a; [|apply Hf]. case_match; [|apply Hf]. simpl. auto.
Qed.

(** The loop attempts each log once and touches no other. *)
Lemma attempts_run http now xs s :
  NoDup xs.*1.*1 -> Forall (fun x => is_Some x.2) xs ->
  exists s', for_each (attemptDelivery http now) xs s = (Ret tt, s') /\
    (forall id l e, (id, l, Some e) ∈ xs ->
       find_one id (logs s') = Some (attempt_result (http id (attempt_count l + 1)) now l e).1) /\
    (forall id, id ∉ xs.*1.*1 -> find_one id (logs s') = find_one id (logs s)) /\
    (forall k, is_Some (find_one k (endpoints s)) -> is_Some (find_one k (endpoints s'))).
Proof.
  revert s. induction xs as [|[[id l] oe] xs IH]; intros s Hnd Hall.
  { exists s. split_and!; try done. set_solver. }
  csimpl in Hnd. apply NoDup_cons in Hnd as [Hni Hnd]. apply Forall_cons in Hall as [[e He] Hall].
  simpl in He. subst oe. simpl. unfold bind, modify. simpl.
  edestruct IH as (s' & Hr & H1 & H2 & H3); [exact Hnd|exact Hall|]. exists s'.
  split; [exact Hr|]. split_and!.
  - intros id' l' e'. rewrite elem_of_cons. intros [?|Hin]; [|by apply H1]. simplify_eq.
    rewrite H2 by done. simpl. by rewrite find_one_save_eq.
  - intros id' Hn. csimpl in Hn. apply not_elem_of_cons in Hn as [Hn1 Hn2]. rewrite H2 by done. simpl.
    by rewrite find_one_save_ne.
  - intros k Hk. apply H3. simpl. rewrite find_one_save. by case_decide.
Qed.

(** One pass with room for every pending log in the batch. *)
Lemma pass_logs http now s :
  linked s -> Z.of_nat (length (pending_rows s)) <= batchSize ->
  exists s', processPendingDeliveries http now s = (Ret tt, s') /\
    (forall id l, find_one id (logs s) = Some l -> status l = PENDING -> is_ready now l = true ->
       exists e, find_one id (logs s') = Some (attempt_result (http id (attempt_count l + 1)) now l e).1) /\
    (forall id l, find_one id (logs s) = Some l -> status l ≠ PENDING \/ is_ready now l = false ->
       find_one id (logs s') = Some l) /\
    (forall id, find_one id (logs s) = None -> find_one id (logs s') = None) /\
    (forall k, is_Some (find_one k (endpoints s)) -> is_Some (find_one k (endpoints s'))).
Proof.
  intros Hl Hb.
  set (xs := ready_logs now s).
  assert (Hin : forall id l oe, (id, l, oe) ∈ xs <->
            find_one id (logs s) = Some l /\ status l = PENDING /\ is_ready now l = true /\
            oe = find_one (endpoint_id l) (endpoints s)).
  { intros id l oe. unfold xs, ready_logs. rewrite list_elem_of_fmap. rewrite take_ge.
    - split.
      + intros ([i l'] & Heq & Hx). simplify_eq/=. rewrite !elem_of_List_filter, elem_of_rows in Hx. simpl in Hx.
        destruct Hx as [[Hx1 Hx2] Hx3]. apply bool_decide_eq_true in Hx2. auto.
      + intros (H1 & H2 & H3 & ->). exists (id, l). split; [done|].
        rewrite !elem_of_List_filter, elem_of_rows. simpl. by rewrite bool_decide_eq_true_2.
    - unfold pending_rows in Hb. lia. }
  assert (Hnd : NoDup xs.*1.*1).
  { unfold xs, ready_logs. rewrite <-!list_fmap_compose.
    change (NoDup (List.filter (fun r => is_ready now r.2) (take (Z.to_nat batchSize)
      (List.filter (fun r => bool_decide (status r.2 = PENDING)) (rows (logs s))))).*1).
    apply NoDup_fmap_filter. rewrite fmap_take. eapply sublist_NoDup; [|apply sublist_take].
    apply NoDup_fmap_filter, NoDup_rows. }
  destruct (attempts_run http now xs s Hnd) as (s' & Hr & H1 & H2 & H3).
  { apply Forall_forall. intros [[id l] oe] Hx. apply Hin in Hx as (Hx & _ & _ & ->). by eapply Hl. }
  assert (Hkeys : forall id, id ∈ xs.*1.*1 -> exists l, find_one id (logs s) = Some l /\ status l = PENDING /\ is_ready now l = true).
  { intros id Hi. rewrite <-list_fmap_compose in Hi. apply list_elem_of_fmap in Hi as ([[i l] oe] & -> & Hx).
    apply Hin in Hx as (? & ? & ? & _). by exists l. }
  exists s'. split; [exact Hr|]. split_and!.
  - intros id l Hf Hs Hrd. destruct (Hl _ _ Hf) as [e He]. exists e. apply H1. apply Hin. by rewrite He.
  - intros id l Hf Hno. rewrite H2; [done|]. intros Hi. apply Hkeys in Hi as (l' & ? & ? & ?).
    simplify_eq. destruct Hno; congruence.
  - intros id Hf. rewrite H2; [done|]. intros Hi. apply Hkeys in Hi as (l' & ? & ? & ?). congruence.
  - exact H3.
Qed.

(** *** The queue over time *)

(** What happens to the queue: a pass of the job, with the answers it gets, an
    emitted event, and the calls of the endpoints' owners. *)
Inductive op :=
| Pass (http : nat -> Z -> http_result) (now : Z)
| Emit (eventType : string) (pl : jsval) (now : Z)
| Create (user secretKey : string) (dto : CreateWebhookEndpointDto) (now : Z)
| Update (id : nat) (userId : string) (dto : UpdateWebhookEndpointDto)
| Delete (id : nat) (userId : string).

Definition run_op (o : op) (s : state) : state :=
  match o with
  | Pass http now => (cron http now s).2
  | Emit ty pl now => (emit ty pl now s).2
  | Create u k dto now => (createEndpoint u k dto now s).2
  | Update id u dto => (updateEndpoint id u dto s).2
  | Delete id u => (deleteEndpoint id u s).2
  end.

Definition run_ops (ops : list op) (s : state) : state := foldl (fun s o => run_op o s) s ops.

(** From time [p] on, the job runs at least every [gap] milliseconds, each time with
    room for the pending logs in its batch, and ends with a run at or after [stop]. *)
Fixpoint punctual (gap p stop : Z) (ops : list op) (s : state) : Prop :=
  match ops with
  | [] => stop <= p
  | o :: ops' =>
      match o with
      | Pass _ now => p <= now <= p + gap /\ Z.of_nat (length (pending_rows s)) <= batchSize /\
                      punctual gap now stop ops' (run_op o s)
      | _ => punctual gap p stop ops' (run_op o s)
      end
  end.

(** How a log can change while its endpoint is kept: not at all, or, in a pass that
    finds it pending and due, by one attempt. *)
Definition attempted (o : op) (id : nat) (l l' : WebhookDeliveryLog) : Prop :=
  l' = l \/ exists http now e, o = Pass http now /\ status l = PENDING /\ is_ready now l = true /\
             l' = (attempt_result (http id (attempt_count l + 1)) now l e).1.

Lemma attempted_endpoint o id l l' : attempted o id l l' -> endpoint_id l' = endpoint_id l.
Proof.
  intros [->|(http & now & e & _ & _ & _ & ->)]; [done|].
  by destruct (attempt_result_cases (http id (attempt_count l + 1)) now l e) as (_ & ? & _).
Qed.

(** A pass attempts exactly the logs that are pending and due. *)
Lemma pass_step http now s :
  linked s -> Z.of_nat (length (pending_rows s)) <= batchSize ->
  linked (run_op (Pass http now) s) /\
  forall id l, find_one id (logs s) = Some l ->
    exists l', find_one id (logs (run_op (Pass http now) s)) = Some l' /\ attempted (Pass http now) id l l' /\
      (status l = PENDING -> is_ready now l = true -> attempt_count l' = attempt_count l + 1).
Proof.
  intros Hl Hb. destruct (pass_logs http now s Hl Hb) as (s1 & Hr & H1 & H2 & H3 & H4).
  assert (Hrun : run_op (Pass http now) s = s1) by (cbn; unfold cron, catch; by rewrite Hr).
  rewrite Hrun.
  assert (Hstep : forall id l, find_one id (logs s) = Some l ->
    exists l', find_one id (logs s1) = Some l' /\ attempted (Pass http now) id l l' /\
      (status l = PENDING -> is_ready now l = true -> attempt_count l' = attempt_count l + 1)).
  { intros id l Hf. destruct (decide (status l = PENDING)) as [Hp|Hp].
    - destruct (is_ready now l) eqn:Hrd.
      + destruct (H1 _ _ Hf Hp Hrd) as [e He]. eexists. split; [exact He|].
        split; [right; by exists http, now, e|]. intros _ _. by apply attempt_result_cases.
      + exists l. split; [apply (H2 _ _ Hf); by right|]. split; [by left|done].
    - exists l. split; [apply (H2 _ _ Hf); by left|]. split; [by left|done]. }
  split; [|exact Hstep]. intros id l' Hl'.
  destruct (find_one id (logs s)) as [l|] eqn:Hf; [|by rewrite (H3 _ Hf) in Hl'].
  destruct (Hstep _ _ Hf) as (l1 & Hl1 & Ha & _). rewrite Hl1 in Hl'. simplify_eq.
  apply H4. rewrite (attempted_endpoint _ _ _ _ Ha). by eapply Hl.
Qed.

Lemma create_logs_kept ty pl now ids s :
  let s' := (for_each (fun epId => createDeliveryLog epId ty pl now) ids s).2 in
  (forall id l, find_one id (logs s) = Some l -> find_one id (logs s') = Some l) /\
  (forall id l, find_one id (logs s') = Some l -> find_one id (logs s) = Some l \/ endpoint_id l ∈ ids) /\
  endpoints s' = endpoints s.
Proof.
  revert s. induction ids as [|i ids IH]; intros s; [by split_and!; auto|].
  simpl. unfold bind, createDeliveryLog, gets, modify. simpl.
  set (s1 := set_logs _ s). destruct (IH s1) as (H1 & H2 & H3). split_and!; [| |exact H3].
  - intros id l Hf. apply H1. cbn. rewrite find_one_save_ne; [done|]. intros <-. by rewrite fresh_id_None in Hf.
  - intros id l Hf. destruct (H2 _ _ Hf) as [Hf1|Hin]; [|right; by apply list_elem_of_further].
    cbn in Hf1. rewrite find_one_save in Hf1. case_decide; [|by left]. simplify_eq. right. by apply list_elem_of_here.
Qed.

(** The other calls leave the logs of endpoints they do not delete, and every log
    keeps its endpoint. *)
Lemma other_step o s :
  (forall http now, o ≠ Pass http now) -> linked s ->
  linked (run_op o s) /\
  forall id l, (forall u, o ≠ Delete (endpoint_id l) u) -> find_one id (logs s) = Some l ->
    find_one id (logs (run_op o s)) = Some l.
Proof.
  intros Hno Hl. destruct o as [http now|ty pl now|u k dto now|i u dto|i u]; [by edestruct Hno|..]; cbn [run_op].
  - unfold emit. run. destruct (create_logs_kept ty pl now (targets ty s) s) as (H1 & H2 & H3).
    split; [|auto]. intros id l Hf. rewrite H3. destruct (H2 _ _ Hf) as [Hf1|Hin]; [by eapply Hl|].
    unfold targets in Hin. apply list_elem_of_fmap in Hin as ([i e] & -> & Hin).
    apply elem_of_List_filter in Hin as [Hin _]. apply elem_of_rows in Hin. by eexists.
  - split; [|done]. intros id l Hf. cbn. rewrite find_one_save. case_decide; [by eexists|]. by eapply Hl.
  - unfold updateEndpoint, findEndpointById. run. destruct (find_one i (endpoints s)) as [e|]; [|done].
    case_bool_decide; [|done]. split; [|done]. intros id l Hf. cbn. rewrite find_one_save.
    case_decide; [by eexists|]. by eapply Hl.
  - unfold deleteEndpoint, findEndpointById. run. destruct (find_one i (endpoints s)) as [e|]; [|done].
    case_bool_decide; [|done]. split.
    + intros id l. cbn. rewrite find_one_delete_where. destruct (find_one id (logs s)) as [l0|] eqn:Hf; [|done].
      case_bool_decide; [done|]. intros [= <-]. rewrite find_one_remove_ne by done. by eapply Hl.
    + intros id l Hd Hf. cbn. rewrite find_one_delete_where, Hf. case_bool_decide as Hi; [|done]. subst i.
      by edestruct Hd.
Qed.

(** The log is settled, or it has attempts left, was not due before [p] and its retry
    is at most one back-off and one gap per attempt after [t0]. *)
Definition on_schedule (gap t0 p : Z) (l : WebhookDeliveryLog) : Prop :=
  status l = SUCCESS \/ status l = FAILED \/
  status l = PENDING /\ 0 <= attempt_count l < maxAttempts /\
  exists r, next_retry_at l = Some r /\ p <= r <= t0 + attempt_count l * (MAX_BACKOFF_MS + gap).

Definition within_attempts (l : WebhookDeliveryLog) : Prop := 0 <= attempt_count l <= maxAttempts.

Lemma pass_on_schedule http now gap t0 p id l l' :
  p <= now <= p + gap -> on_schedule gap t0 p l -> within_attempts l ->
  attempted (Pass http now) id l l' ->
  (status l = PENDING -> is_ready now l = true -> attempt_count l' = attempt_count l + 1) ->
  on_schedule gap t0 now l' /\ within_attempts l'.
Proof.
  intros Ht Hs Hw Ha Hone. unfold on_schedule, within_attempts in *.
  destruct Ha as [->|(http' & now' & e & [= <- <-] & Hp & Hrd & ->)].
  - split; [|done]. destruct Hs as [|[|(Hp & Hc & r & Hr & Hb)]]; [auto..|].
    destruct (is_ready now l) eqn:Hrd; [specialize (Hone Hp eq_refl); lia|].
    right. right. split_and!; [done|lia..|]. exists r. unfold is_ready in Hrd. rewrite Hr in Hrd.
    apply Z.leb_gt in Hrd. split; [done|lia].
  - destruct Hs as [Hs|[Hs|(_ & Hc & r & Hr & Hb)]]; [congruence..|].
    unfold is_ready in Hrd. rewrite Hr in Hrd. apply Z.leb_le in Hrd.
    destruct (attempt_result_cases (http id (attempt_count l + 1)) now l e) as (Hcount & _ & Hcases).
    rewrite Hcount in *. split; [|lia].
    destruct (status (attempt_result (http id (attempt_count l + 1)) now l e).1) eqn:Hst; [|auto..].
    destruct Hcases as [|[|(Hlt & r' & Hr' & Hb')]]; [done..|].
    right. right. split_and!; [done|lia..|]. exists r'. split; [done|]. nia.
Qed.

Lemma punctual_on_schedule gap t0 stop id ep ops :
  forall p s l, punctual gap p stop ops s -> Forall (fun o => forall u, o ≠ Delete ep u) ops ->
  linked s -> find_one id (logs s) = Some l -> endpoint_id l = ep -> on_schedule gap t0 p l -> within_attempts l ->
  exists l' p', find_one id (logs (run_ops ops s)) = Some l' /\ stop <= p' /\ on_schedule gap t0 p' l' /\ within_attempts l'.
Proof.
  induction ops as [|o ops IH]; intros p s l Hp Hd Hl Hf He Hs Hw; [by exists l, p|].
  apply Forall_cons in Hd as [Hdo Hd]. cbn [punctual run_ops foldl] in *.
  destruct o as [http now|ty pl now|u k dto now|i u dto|i u];
    [|match type of Hp with punctual _ _ _ _ (run_op ?o _) => destruct (other_step o s) as [Hl' Hkeep]; [done..|] end;
      (eapply (IH p); [exact Hp|exact Hd|exact Hl'|apply Hkeep; [subst; done|done]|done..])..].
  destruct Hp as (Ht & Hb & Hp). destruct (pass_step http now s Hl Hb) as [Hl' Hstep].
  destruct (Hstep _ _ Hf) as (l' & Hf' & Ha & Hone).
  destruct (pass_on_schedule http now gap t0 p id l l' Ht Hs Hw Ha Hone) as [Hs' Hw'].
  eapply (IH now); [exact Hp|exact Hd|exact Hl'|exact Hf'| |done..].
  by rewrite (attempted_endpoint _ _ _ _ Ha).
Qed.

(** C10: Every queued webhook delivery is settled in bounded time.  Take a delivery
    that is queued at time [t0] and a job that from then on runs at least every [gap]
    milliseconds (the cron expression gives 30 000), its batch having room for the
    deliveries pending at each run; between the runs further events are emitted and
    endpoints created, updated and deleted, but the delivery's own.  Once more than
    [maxAttempts - 1] times an hour and a gap have passed the delivery is a success
    or has failed, whatever the endpoints answered, after at most [maxAttempts]
    attempts. *)
Theorem deliveries_settle (gap t0 stop : Z) (ops : list op) (s : state) (id : nat) (l : WebhookDeliveryLog) :
  linked s -> find_one id (logs s) = Some l ->
  status l = PENDING -> attempt_count l = 0 -> next_retry_at l = Some t0 -> 0 < maxAttempts ->
  Forall (fun o => forall u, o ≠ Delete (endpoint_id l) u) ops ->
  t0 + (maxAttempts - 1) * (MAX_BACKOFF_MS + gap) < stop -> 0 <= gap ->
  punctual gap t0 stop ops s ->
  exists l', find_one id (logs (run_ops ops s)) = Some l' /\
    (status l' = SUCCESS \/ status l' = FAILED) /\ attempt_count l' <= maxAttempts.
Proof.
  intros Hl Hf Hp Ha Hr Hm Hd Hstop Hgap Hops.
  destruct (punctual_on_schedule gap t0 stop id (endpoint_id l) ops t0 s l) as (l' & p' & Hf' & Hp' & Hs & Hw);
    [done..| | |].
  - right. right. split_and!; [done|lia..|]. exists t0. split; [done|]. lia.
  - unfold within_attempts. lia.
  - exists l'. split; [done|]. unfold within_attempts in Hw. split; [|lia].
    destruct Hs as [|[|(_ & Hc & r & _ & Hb)]]; [auto..|]. exfalso. unfold MAX_BACKOFF_MS in *. nia.
Qed.

(** *** Emitting *)

Lemma elem_of_targets eventType s id :
  id ∈ targets eventType s <->
  exists e, find_one id (endpoints s) = Some e /\ is_active e = true /\ eventType ∈ event_types e.
Proof.
  unfold targets. rewrite list_elem_of_fmap. split.
  - intros ([i e] & -> & Hin). apply elem_of_List_filter in Hin as [Hin Hp]. apply elem_of_rows in Hin. simpl in *.
    apply andb_true_iff in Hp as [H1 H2%bool_decide_eq_true]. by exists e.
  - intros (e & Hf & H1 & H2). exists (id, e). split; [done|]. apply elem_of_List_filter. rewrite elem_of_rows.
    simpl. by rewrite H1, bool_decide_eq_true_2.
Qed.

Lemma create_logs_rows eventType pl now ids s :
  let r := for_each (fun epId => createDeliveryLog epId eventType pl now) ids s in
  r.1 = Ret tt /\ endpoints r.2 = endpoints s /\ processed r.2 = processed s /\
  (rows (logs r.2)).*2 ≡ₚ (new_log eventType pl now <$> ids) ++ (rows (logs s)).*2.
Proof.
  revert s. induction ids as [|i ids IH]; intros s; [done|].
  simpl. unfold bind, createDeliveryLog, gets, modify. simpl.
  destruct (IH (set_logs (save (fresh_id (logs s)) (new_log eventType pl now i)) s)) as (H1 & H2 & H3 & H4).
  split_and!; [done..|]. rewrite H4. simpl.
  rewrite (rows_save_new _ _ _ (fresh_id_None (logs s))). csimpl. symmetry. apply Permutation_middle.
Qed.

(** Emitting an event queues exactly one pending delivery, due at once, for every
    active endpoint subscribed to its type, and changes nothing else. *)
Theorem emit_queues_each_subscriber (eventType : string) (pl : jsval) (now : Z) (s : state) :
  exists ids, NoDup ids /\
    (forall id, id ∈ ids <-> exists e, find_one id (endpoints s) = Some e /\ is_active e = true /\ eventType ∈ event_types e) /\
    let r := emit eventType pl now s in
    r.1 = Ret tt /\ endpoints r.2 = endpoints s /\ processed r.2 = processed s /\
    (rows (logs r.2)).*2 ≡ₚ (new_log eventType pl now <$> ids) ++ (rows (logs s)).*2.
Proof.
  exists (targets eventType s). split; [|split; [apply elem_of_targets|apply create_logs_rows]].
  apply NoDup_fmap_filter, NoDup_rows.
Qed.

(** *** Signatures *)

(** The documented shape of a SHA-256 digest. *)
Definition digest32 : Prop := forall k t, Forall is_byte (hmac k t) /\ length (hmac k t) = 32%nat.

Lemma verifySignature_true text header secret :
  digest32 ->
  verifySignature text header secret = true <->
  exists t h, text = Some t /\ header = Some h /\ from_hex h = hmac secret t.
Proof.
  intros Hd. unfold verifySignature. destruct header as [[|c h]|].
  - split; [done|]. intros (t & h & _ & ? & Hh). simplify_eq. destruct (Hd secret t) as [_ Hl]. by rewrite <-Hh in Hl.
  - destruct text as [t|]; [|naive_solver]. destruct (Hd secret t) as [Hb Hl]. rewrite from_to_hex by done.
    split.
    + repeat case_bool_decide; try done. intros _. eauto.
    + intros (t' & h' & ? & ? & Hh). simplify_eq. rewrite Hh. by rewrite !bool_decide_eq_true_2.
  - split; [done|]. naive_solver.
Qed.

(** The signature the dispatcher puts on a payload is accepted by the verifier for
    the text of that payload under the same secret; and a text is accepted under a
    header only if the header decodes to the digest of that text. *)
Theorem signature_roundtrip (pl : jsval) (text secret : string) :
  digest32 -> JSON_stringify pl = Ret (Some text) ->
  exists sig, generateSignature pl secret = Ret sig /\
    verifySignature (Some text) (Some sig) secret = true /\
    forall text' header, verifySignature (Some text') (Some header) secret = true ->
      from_hex header = hmac secret text'.
Proof.
  intros Hd Ht. unfold generateSignature. rewrite Ht. eexists. split; [done|]. split.
  - apply verifySignature_true; [done|]. eexists _, _. split_and!; [done..|]. by apply from_to_hex, Hd.
  - intros text' header (t & h & ? & ? & Hh)%verifySignature_true; [|done]. by simplify_eq.
Qed.

(** A request the guard has no reason to refuse, but for a replay. *)
Definition authentic (r : request) (source eventId : string) : Prop :=
  source ≠ ""%string /\ source_of r = Some source /\ event_id_of r = Some eventId /\
  exists secret text, WEBHOOK_HMAC_SECRET = Some secret /\ secret ≠ ""%string /\
    body_text r = Ret text /\ verifySignature text (signature_header r) secret = true.

Lemma canActivate_authentic r source eventId now s :
  authentic r source eventId ->
  canActivate r now s =
    if isReplay source eventId now s then (Throw (UnauthorizedException "Duplicate webhook event"), s)
    else (Ret true, (recordProcessed source eventId now s).2).
Proof.
  intros (Hs & Hsrc & Hev & secret & text & Hsec & Hne & Htext & Hv).
  unfold canActivate. rewrite Hsrc. destruct source as [|c0 s0]; [done|]. rewrite Hsec. destruct secret as [|c1 s1]; [done|].
  rewrite Htext, Hv, Hev. unfold bind, gets, ret. simpl. case_match; [done|]. unfold recordProcessed. run.
  by destruct (find_one _ _).
Qed.

(** Refusals leave the state as it was; only authentic requests pass. *)
Lemma canActivate_cases r now s :
  (exists source eventId, authentic r source eventId) \/ (exists e, canActivate r now s = (Throw e, s)).
Proof.
  unfold canActivate. destruct (source_of r) as [[|c0 s0]|] eqn:Hsrc; [right; by eexists| |right; by eexists].
  destruct WEBHOOK_HMAC_SECRET as [[|c1 s1]|] eqn:Hsec; [right; by eexists| |right; by eexists].
  destruct (body_text r) as [text|e] eqn:Ht; [|right; by eexists].
  destruct (verifySignature text (signature_header r) _) eqn:Hv; [|right; by eexists]. simpl.
  destruct (event_id_of r) as [ev|] eqn:Hev; [|right; by eexists].
  left. exists (String c0 s0), ev. split_and!; [done..|]. by exists (String c1 s1), text.
Qed.

(** The guard lets a request through only with a source, a valid signature over its
    body and an event id; a second request with the same event id is refused inside
    the replay window; but from the end of the window on it is accepted every time,
    since the record of the first one is never renewed. *)
Theorem replay_window (r r' : request) (source eventId : string) (t0 : Z) (s : state) :
  authentic r source eventId -> authentic r' source eventId ->
  find_one (source, eventId) (processed s) = None -> 0 < getReplayWindowMs ->
  let s1 := (canActivate r t0 s).2 in
  (canActivate r t0 s).1 = Ret true /\
  (forall t, t < t0 + getReplayWindowMs ->
     canActivate r' t s1 = (Throw (UnauthorizedException "Duplicate webhook event"), s1)) /\
  (forall t, t0 + getReplayWindowMs <= t -> canActivate r' t s1 = (Ret true, s1)) /\
  (forall q t, (canActivate q t s).1 = Ret true -> exists src ev, authentic q src ev).
Proof.
  intros Ha Ha' Hn Hw s1.
  assert (H1 : canActivate r t0 s = (Ret true, set_processed (save (source, eventId) t0) s)).
  { rewrite (canActivate_authentic _ _ _ _ _ Ha). unfold isReplay, recordProcessed. run. by rewrite Hn. }
  subst s1. rewrite H1. simpl. split; [done|]. split_and!.
  - intros t Ht. rewrite (canActivate_authentic _ _ _ _ _ Ha'). unfold isReplay. simpl. rewrite find_one_save_eq.
    destruct (Z.ltb_spec (t - t0) getReplayWindowMs); [done|lia].
  - intros t Ht. rewrite (canActivate_authentic _ _ _ _ _ Ha'). unfold isReplay, recordProcessed. run.
    rewrite find_one_save_eq. simpl. destruct (Z.ltb_spec (t - t0) getReplayWindowMs); [lia|done].
  - intros q t Hq. destruct (canActivate_cases q t s) as [|[e He]]; [done|]. by rewrite He in Hq.
Qed.

(** When none of the first [batchSize] pending logs is due, a pass does nothing, even
    if a log beyond them is: the limit is applied before the filter on the time. *)
Lemma full_batch_blocks_queue http now s :
  ready_logs now s = [] -> processPendingDeliveries http now s = (Ret tt, s).
Proof. intros Hr. unfold processPendingDeliveries. run. by rewrite Hr. Qed.
End service.

(** *** Concrete runs *)

Definition toy_hmac (k t : string) : list Z := replicate 32 (Z.of_nat (String.length k + String.length t) mod 256).

Lemma toy_digest32 : digest32 toy_hmac.
Proof.
  intros k t. split; [|apply length_replicate]. apply Forall_replicate. unfold is_byte. apply Z.mod_pos_bound. lia.
Qed.

Definition toy_endpoint : WebhookEndpoint := mkEndpoint "u1" "https://x" ["deposit"%string] "key" true 0 None None 0.
Definition toy_start : state (B := MemBackend) := mkState [(1%nat, toy_endpoint)] [] [].
Definition toy_payload : jsval := VObj [("amount"%string, VNum 5)].

(** Two events are queued for the same endpoint, which is down. *)
Definition toy_queued : state (B := MemBackend) :=
  (emit "deposit" toy_payload 0 (emit "deposit" toy_payload 0 toy_start).2).2.
Definition down : nat -> Z -> http_result := fun _ _ => RequestFailed "ECONNREFUSED" None.

Lemma toy_queued_rows :
  rows (logs toy_queued) =
    [(1%nat, new_log "deposit" toy_payload 0 1); (2%nat, new_log "deposit" toy_payload 0 1)].
Proof. vm_compute. reflexivity. Qed.

(** An event, and the job every half minute from then on, for four hours and more. *)
Definition toy_day : list op :=
  Emit "deposit" toy_payload 10 :: (Pass down <$> ((fun i => 30000 * Z.of_nat i) <$> seq 0 500)).

Fixpoint punctualb (gap p stop : Z) (ops : list op) (s : state (B := MemBackend)) : bool :=
  match ops with
  | [] => stop <=? p
  | o :: ops' =>
      match o with
      | Pass _ now => (p <=? now) && (now <=? p + gap) && (Z.of_nat (length (pending_rows s)) <=? 50) &&
                      punctualb gap now stop ops' (run_op toy_hmac 5 50 o s)
      | _ => punctualb gap p stop ops' (run_op toy_hmac 5 50 o s)
      end
  end.

Lemma punctualb_true gap p stop ops s : punctualb gap p stop ops s = true -> punctual toy_hmac 5 50 gap p stop ops s.
Proof.
  revert p s. induction ops as [|o ops IH]; intros p s; cbn [punctualb punctual]; [apply Z.leb_le|].
  destruct o; try apply IH. rewrite !andb_true_iff. intros [[[H1%Z.leb_le H2%Z.leb_le] H3%Z.leb_le] H4].
  split_and!; auto.
Qed.

Lemma deliveries_settle_witness :
  exists l, find_one 1%nat (logs (run_ops toy_hmac 5 50 toy_day toy_queued)) = Some l /\
    (status l = SUCCESS \/ status l = FAILED) /\ attempt_count l <= 5.
Proof.
  apply (deliveries_settle toy_hmac 5 50 30000 0 14970000 toy_day toy_queued 1%nat (new_log "deposit" toy_payload 0 1)).
  - intros id l Hl. apply elem_of_rows in Hl. rewrite toy_queued_rows in Hl.
    rewrite !elem_of_cons in Hl. destruct Hl as [Hl|[Hl|Hl]]; [..|by apply not_elem_of_nil in Hl]; simplify_eq; by eexists.
  - vm_compute. reflexivity.
  - reflexivity.
  - reflexivity.
  - reflexivity.
  - lia.
  - unfold toy_day. apply Forall_cons. split; [done|]. apply Forall_fmap, Forall_true. done.
  - unfold MAX_BACKOFF_MS. lia.
  - lia.
  - apply punctualb_true. vm_compute. reflexivity.
Defined.

(** Both attempts of one pass fail, yet the endpoint counts one failure: each log is
    loaded with its own copy of the endpoint. *)
Lemma failures_of_a_pass_count_once :
  failure_count <$> find_one 1%nat (endpoints (cron toy_hmac 5 50 down 0 toy_queued).2) = Some 1.
Proof. vm_compute. reflexivity. Qed.

(** With a batch of one, the log that waits for its retry hides the one that is due. *)
Lemma waiting_log_hides_due_log :
  let s := (emit "deposit" toy_payload 500 (cron toy_hmac 5 1 down 0 (emit "deposit" toy_payload 0 toy_start).2).2).2 in
  (exists l, find_one 2%nat (logs s) = Some l /\ status l = PENDING /\ is_ready 600 l = true) /\
  processPendingDeliveries toy_hmac 5 1 down 600 s = (Ret tt, s).
Proof. split; [eexists; split; [vm_compute; reflexivity|vm_compute; done]|]. apply full_batch_blocks_queue. vm_compute. reflexivity. Qed.

Lemma signature_roundtrip_witness :
  exists sig, generateSignature toy_hmac toy_payload "key" = Ret sig /\
    verifySignature toy_hmac (Some (default ""%string
      match JSON_stringify toy_payload with Ret t => t | Throw _ => None end)) (Some sig) "key" = true.
Proof.
  edestruct (signature_roundtrip toy_hmac toy_payload) as (sig & H1 & H2 & _);
    [apply toy_digest32|vm_compute; reflexivity|]. exists sig. split; [exact H1|exact H2].
Defined.

Definition toy_request : request :=
  mkRequest (Some (inl "anchor"%string)) (Some (to_hex (toy_hmac "secret" "body"))) (Some "body"%string)
    (VObj [("event_id"%string, VStr "evt_1")]).

Lemma toy_authentic : authentic toy_hmac (Some "secret"%string) toy_request "anchor" "evt_1".
Proof.
  split_and!; [done..|]. exists "secret"%string, (Some "body"%string). split_and!; try done.
Qed.

(** The same event is accepted twice, six minutes apart. *)
Lemma replay_window_witness :
  let s1 := (canActivate toy_hmac (Some "secret"%string) None toy_request 0 toy_start).2 in
  canActivate toy_hmac (Some "secret"%string) None toy_request 360000 s1 = (Ret true, s1).
Proof.
  destruct (replay_window toy_hmac (Some "secret"%string) None toy_request toy_request "anchor" "evt_1" 0 toy_start
    toy_authentic toy_authentic eq_refl ltac:(vm_compute; reflexivity)) as (_ & _ & H3 & _).
  apply H3. vm_compute. discriminate.
Defined.
End Webhooks.
