(* ===== verification/Referral.v ===== *)
(** * Referrals

    Models [backend/src/users/referral.service.ts]: who referred whom, and the rewards
    both parties get when the referred account qualifies.  Account ids are uuids: the
    database compares and stores them without regard to the case of their letters
    ([uuid]), while the service compares texts.  The two rewards are written after the
    referral, in a transaction of their own; [outage] says when the database refuses it. *)
From Stdlib Require Import ZArith Lia Ascii.
From stdpp Require Import base list strings sets relations.
From S2P Require Import Prelude Storage.
Local Open Scope Z_scope.

Module Referral.

Inductive ReferralStatus := R_PENDING | QUALIFIED.
Inductive RewardType := REFERRER_BONUS | REFEREE_BONUS.
Inductive RewardStatus := W_PENDING | ISSUED | CANCELLED.

#[export] Instance ReferralStatus_eq_dec : EqDecision ReferralStatus.
Proof. solve_decision. Defined.
#[export] Instance RewardType_eq_dec : EqDecision RewardType.
Proof. solve_decision. Defined.
#[export] Instance RewardStatus_eq_dec : EqDecision RewardStatus.
Proof. solve_decision. Defined.

Record UserReferral := mkReferral {
  referrer_id : string;
  referred_id : string;
  status : ReferralStatus;
  qualified_at : option Z;
  created_at : Z;
}.

Record ReferralReward := mkReward {
  referral_id : nat;
  recipient_id : string;
  type : RewardType;
  amount : string;
  asset_code : string;
  reward_status : RewardStatus;
  reward_created_at : Z;
}.

Record ReferralStats := mkStats {
  total : Z;
  pending : Z;
  qualified : Z;
  total_rewards_issued : Z;
  referral_code : string;
  stat_referrals : list (nat * UserReferral);
}.

Record AdminReferralOverview := mkOverview {
  ov_total_referrals : Z;
  ov_pending : Z;
  ov_qualified : Z;
  ov_rewards_pending : Z;
  ov_rewards_issued : Z;
}.

(** A page of a listing with its [meta]. *)
Record page_of (A : Type) := mkPage { data : list A; meta_total : Z; meta_page : Z; meta_limit : Z; totalPages : Z }.
Arguments mkPage {A}.
Arguments data {A}.
Arguments meta_total {A}.
Arguments totalPages {A}.

Definition DEFAULT_REWARD_AMOUNT : string := "1000000".
Definition DEFAULT_ASSET_CODE : string := "XLM".

(** [REFERRAL_REWARD_AMOUNT_STROOPS] and [REFERRAL_REWARD_ASSET_CODE]. *)
Record Config := mkConfig { cfg_amount : option string; cfg_asset : option string }.

(** The text of a uuid as the database has it. *)
Fixpoint uuid (s : string) : string :=
  match s with
  | EmptyString => EmptyString
  | String c s' =>
      let n := N_of_ascii c in
      String (if ((65 <=? n) && (n <=? 90))%N then ascii_of_N (n + 32) else c) (uuid s')
  end.

Section service.
Context {B : Backend} (cfg : Config) (outage : Z -> bool).

(** The ids of live accounts, the referrals and the rewards. *)
Record state := mkState {
  accounts : list string;
  referrals : table nat UserReferral;
  rewards : table nat ReferralReward;
}.

Definition set_referrals f s := mkState (accounts s) (f (referrals s)) (rewards s).
Definition set_rewards f s := mkState (accounts s) (referrals s) (f (rewards s)).

Definition find_referral (p : UserReferral -> bool) (s : state) : option (nat * UserReferral) :=
  List.find (fun r => p r.2) (rows (referrals s)).

Definition claimReferral (userId referralCode : string) (now : Z) : M state UserReferral :=
  if bool_decide (referralCode = userId) then throw (BadRequestException "You cannot refer yourself")
  else
    await referrer := gets (fun s => bool_decide (uuid referralCode ∈ accounts s)) in
    if negb referrer then throw (NotFoundException "Referral code is invalid")
    else
      await existing := gets (find_referral (fun r => bool_decide (referred_id r = uuid userId))) in
      match existing with
      | Some _ => throw (ConflictException "A referral has already been recorded for this account")
      | None =>
          let r := mkReferral (uuid referralCode) (uuid userId) R_PENDING None now in
          await id := gets (fun s => fresh_id (referrals s)) in
          do modify (set_referrals (save id r)) ;>
          ret r
      end.

Definition insert_reward (w : ReferralReward) : M state unit :=
  await id := gets (fun s => fresh_id (rewards s)) in
  modify (set_rewards (save id w)).

Definition issueRewards (rid : nat) (r : UserReferral) (now : Z) : M state unit :=
  let a := default DEFAULT_REWARD_AMOUNT (cfg_amount cfg) in
  let c := default DEFAULT_ASSET_CODE (cfg_asset cfg) in
  if outage now then throw (DatabaseError "08006")
  else
    do insert_reward (mkReward rid (referrer_id r) REFERRER_BONUS a c W_PENDING now) ;>
    insert_reward (mkReward rid (referred_id r) REFEREE_BONUS a c W_PENDING now).

Definition recordQualifyingAction (userId : string) (now : Z) : M state unit :=
  await found := gets (find_referral (fun r =>
    bool_decide (referred_id r = uuid userId) && bool_decide (status r = R_PENDING))) in
  match found with
  | None => ret tt
  | Some (rid, r) =>
      let r' := mkReferral (referrer_id r) (referred_id r) QUALIFIED (Some now) (created_at r) in
      do modify (set_referrals (save rid r')) ;>
      issueRewards rid r' now
  end.

Definition getMyReferrals (userId : string) : M state ReferralStats :=
  gets (fun s =>
    let rs := order_by (fun r => - created_at r.2)
                (List.filter (fun r => bool_decide (referrer_id r.2 = uuid userId)) (rows (referrals s))) in
    let q := Z.of_nat (length (List.filter (fun r => bool_decide (status r.2 = QUALIFIED)) rs)) in
    let p := Z.of_nat (length (List.filter (fun r => negb (bool_decide (status r.2 = QUALIFIED))) rs)) in
    let issued := count_where (fun _ w =>
      bool_decide (recipient_id w = uuid userId) && bool_decide (reward_status w = ISSUED)) (rewards s) in
    mkStats (Z.of_nat (length rs)) p q issued userId rs).

(** [skip((page - 1) * limit).take(limit)] with [Math.ceil(total / limit)] pages. *)
Definition page_result {A} (page limit : Z) (l : list A) : page_of A :=
  let n := Z.of_nat (length l) in
  mkPage (take (Z.to_nat limit) (drop (Z.to_nat ((page - 1) * limit)) l)) n page limit ((n + limit - 1) / limit).

Definition getMyRewards (userId : string) (page limit : Z) : M state (page_of (nat * ReferralReward)) :=
  gets (fun s => page_result page limit
    (order_by (fun w => - reward_created_at w.2)
       (List.filter (fun w => bool_decide (recipient_id w.2 = uuid userId)) (rows (rewards s))))).

Definition listReferrals (page limit : Z) (st : option ReferralStatus) : M state (page_of (nat * UserReferral)) :=
  gets (fun s => page_result page limit
    (order_by (fun r => - created_at r.2)
       (List.filter (fun r => match st with Some x => bool_decide (status r.2 = x) | None => true end)
          (rows (referrals s))))).

Definition getAdminOverview : M state AdminReferralOverview :=
  gets (fun s =>
    mkOverview (count_where (fun _ _ => true) (referrals s))
      (count_where (fun _ r => bool_decide (status r = R_PENDING)) (referrals s))
      (count_where (fun _ r => bool_decide (status r = QUALIFIED)) (referrals s))
      (count_where (fun _ w => bool_decide (reward_status w = W_PENDING)) (rewards s))
      (count_where (fun _ w => bool_decide (reward_status w = ISSUED)) (rewards s))).

(** *** Rewards are paid once *)

(** The rewards a referral calls for. *)
Definition owed (rid : nat) (r : UserReferral) : list (string * RewardType) :=
  match status r with
  | R_PENDING => []
  | QUALIFIED => [(referrer_id r, REFERRER_BONUS); (referred_id r, REFEREE_BONUS)]
  end.

(** The rewards on file for it. *)
Definition paid (rid : nat) (s : state) : list (string * RewardType) :=
  (fun w => (recipient_id w, type w)) <$>
    List.filter (fun w => bool_decide (referral_id w = rid)) ((rows (rewards s)).*2).

(** The rewards of a referral were refused when it qualified. *)
Definition refused (rid : nat) (r : UserReferral) (s : state) : Prop :=
  exists t, status r = QUALIFIED /\ qualified_at r = Some t /\ outage t = true /\ paid rid s = [].

(** One referral per referred account, exactly the rewards owed unless they were
    refused, and none without its referral. *)
Record settled (s : state) : Prop := {
  st_unique : forall i j r r', find_one i (referrals s) = Some r -> find_one j (referrals s) = Some r' ->
    referred_id r = referred_id r' -> i = j;
  st_paid : forall i r, find_one i (referrals s) = Some r -> paid i s ≡ₚ owed i r \/ refused i r s;
  st_known : forall i, find_one i (referrals s) = None -> paid i s = [];
}.

Inductive op := Claim (userId code : string) (now : Z) | Qualify (userId : string) (now : Z) | Accounts (l : list string).

Definition exec (o : op) (s : state) : state :=
  match o with
  | Claim u c now => (claimReferral u c now s).2
  | Qualify u now => (recordQualifyingAction u now s).2
  | Accounts l => mkState l (referrals s) (rewards s)
  end.

Definition run_ops (ops : list op) (s : state) : state := foldl (fun s o => exec o s) s ops.

Lemma find_referral_Some p s i r :
  find_referral p s = Some (i, r) -> find_one i (referrals s) = Some r /\ p r = true.
Proof.
  intros Hf. apply find_some in Hf as [Hin Hp]. split; [|done]. by apply elem_of_rows, list_elem_of_In.
Qed.

Lemma find_referral_None p s i r :
  find_referral p s = None -> find_one i (referrals s) = Some r -> p r = false.
Proof.
  intros Hf Hr. apply elem_of_rows, list_elem_of_In in Hr. by apply (find_none _ _ Hf (i, r)).
Qed.

Lemma paid_insert w s i :
  paid i (insert_reward w s).2 ≡ₚ
    (if bool_decide (referral_id w = i) then [(recipient_id w, type w)] else []) ++ paid i s.
Proof.
  unfold paid, insert_reward. run. rewrite (rows_save_new _ _ _ (fresh_id_None (rewards s))). csimpl.
  by case_bool_decide.
Qed.

Lemma settled_claim u c now : preserves settled (claimReferral u c now).
Proof.
  intros s Hs. unfold claimReferral. run. case_bool_decide as Hc; [done|]. simpl.
  case_bool_decide; simpl; [|done].
  destruct (find_referral _ s) as [|] eqn:Hn; [done|]. simpl.
  pose proof (fresh_id_None (referrals s)) as Hid. set (k := fresh_id (referrals s)) in *. clearbody k.
  assert (Hfree : forall i r, find_one i (referrals s) = Some r -> referred_id r ≠ uuid u).
  { intros i r Hr. pose proof (find_referral_None _ _ _ _ Hn Hr) as Hp. by apply bool_decide_eq_false in Hp. }
  destruct Hs as [Hu Hp Hk]. split; simpl.
  - intros i j r r'. rewrite !find_one_save. repeat case_decide; subst; intros; simplify_eq/=; eauto.
    + by destruct (Hfree j r').
    + by destruct (Hfree i r).
  - intros i r. rewrite find_one_save. case_decide; [|by apply Hp]. intros. simplify_eq. simpl.
    left. change (paid i s ≡ₚ []). by rewrite Hk.
  - intros i. rewrite find_one_save. case_decide; [done|]. apply Hk.
Qed.

(** A qualified referral for a pending one, the rewards [pay] of it added. *)
Lemma settled_update rid r r' s s' pay :
  settled s -> find_one rid (referrals s) = Some r -> status r = R_PENDING -> referred_id r' = referred_id r ->
  referrals s' = save rid r' (referrals s) ->
  (forall i, paid i s' ≡ₚ (if bool_decide (rid = i) then pay else []) ++ paid i s) ->
  (pay = owed rid r' \/ pay = [] /\ exists t, status r' = QUALIFIED /\ qualified_at r' = Some t /\ outage t = true) ->
  settled s'.
Proof.
  intros [Hun Hpd Hk] Hr Hst Hid Href Hpaid Hpay.
  assert (Hnone : paid rid s = []).
  { destruct (Hpd _ _ Hr) as [Hp|(t & Hq & _)]; [|congruence]. unfold owed in Hp. rewrite Hst in Hp.
    symmetry in Hp. by apply Permutation_nil in Hp. }
  split; rewrite Href.
  - intros i j a b Ha Hb He. rewrite find_one_save in Ha, Hb.
    destruct (decide (rid = i)), (decide (rid = j)); subst; simplify_eq; [done|..].
    + eapply Hun; [exact Hr|exact Hb|congruence].
    + eapply Hun; [exact Ha|exact Hr|congruence].
    + by eapply Hun.
  - intros i a. rewrite find_one_save. pose proof (Hpaid i) as Hi. destruct (decide (rid = i)) as [<-|].
    + intros [= <-]. rewrite bool_decide_eq_true_2, Hnone, app_nil_r in Hi by done.
      destruct Hpay as [->|[-> (t & H1 & H2 & H3)]]; [by left|right]. exists t. split_and!; [done..|].
      symmetry in Hi. by apply Permutation_nil in Hi.
    + intros Ha. rewrite bool_decide_eq_false_2 in Hi by done. simpl in Hi.
      destruct (Hpd _ _ Ha) as [Hp|(t & H1 & H2 & H3 & H4)]; [left; by rewrite Hi|right].
      exists t. split_and!; [done..|]. rewrite H4 in Hi. symmetry in Hi. by apply Permutation_nil in Hi.
  - intros i. rewrite find_one_save. case_decide; [done|]. intros Ha.
    pose proof (Hpaid i) as Hi. rewrite bool_decide_eq_false_2, (Hk _ Ha) in Hi by done. simpl in Hi.
    symmetry in Hi. by apply Permutation_nil in Hi.
Qed.

Lemma settled_qualify u now : preserves settled (recordQualifyingAction u now).
Proof.
  intros s Hs. unfold recordQualifyingAction. run.
  destruct (find_referral _ s) as [[rid r]|] eqn:Hf; [|done].
  apply find_referral_Some in Hf as [Hr Hp]. apply andb_true_iff in Hp as [Hu Hst].
  apply bool_decide_eq_true in Hst, Hu.
  set (r' := mkReferral (referrer_id r) (referred_id r) QUALIFIED (Some now) (created_at r)).
  unfold issueRewards. destruct (outage now) eqn:Ho.
  - apply (settled_update rid r r' s _ []); try done.
    + intros i. by case_bool_decide.
    + right. split; [done|]. by exists now.
  - set (w1 := mkReward rid (referrer_id r') REFERRER_BONUS _ _ W_PENDING now).
    set (w2 := mkReward rid (referred_id r') REFEREE_BONUS _ _ W_PENDING now).
    change (settled (insert_reward w2 (insert_reward w1 (set_referrals (save rid r') s)).2).2).
    apply (settled_update rid r r' s _ (owed rid r')); try done; [|by left].
    intros i. rewrite !paid_insert. change (paid i (set_referrals (save rid r') s)) with (paid i s). simpl.
    case_bool_decide; simpl; [|done]. apply perm_swap.
Qed.

Lemma run_ops_settled (s : state) (ops : list op) : settled s -> settled (run_ops ops s).
Proof.
  revert s. induction ops as [|o ops IH]; intros s Hs; [done|]. simpl. apply IH. destruct o; simpl.
  - by apply settled_claim.
  - by apply settled_qualify.
  - by destruct Hs; constructor.
Qed.

Lemma settled_empty l : settled (mkState l empty_table empty_table).
Proof.
  split; simpl; intros; try (by rewrite find_one_empty in *).
  unfold paid. simpl.
  destruct (List.filter _ _) as [|w ws] eqn:Hw; [done|].
  assert (Hin : w ∈ List.filter (fun w => bool_decide (referral_id w = i)) ((rows (empty_table (K:=nat) (V:=ReferralReward))).*2)).
  { rewrite Hw. set_solver. }
  apply elem_of_List_filter in Hin as [Hin _]. apply list_elem_of_fmap in Hin as ([k v] & -> & Hin).
  apply elem_of_rows in Hin. by rewrite find_one_empty in Hin.
Qed.

(** C32: From empty tables, under any sequence of claims and qualifying actions, with the
    database failing at any of the reward writes: no account is referred twice; a pending
    referral has no rewards; a qualified one has exactly one reward for the referrer and
    one for the referred account, unless the write of the two was refused when it
    qualified, in which case it has none; and no reward is without its referral. *)
Theorem rewards_exactly_once (accs : list string) (ops : list op) :
  let s := run_ops ops (mkState accs empty_table empty_table) in
  (forall i j r r', find_one i (referrals s) = Some r -> find_one j (referrals s) = Some r' ->
     referred_id r = referred_id r' -> i = j) /\
  (forall i r, find_one i (referrals s) = Some r -> status r = R_PENDING -> paid i s = []) /\
  (forall i r, find_one i (referrals s) = Some r -> status r = QUALIFIED ->
     paid i s ≡ₚ [(referrer_id r, REFERRER_BONUS); (referred_id r, REFEREE_BONUS)] \/
     exists t, qualified_at r = Some t /\ outage t = true /\ paid i s = []) /\
  (forall i, find_one i (referrals s) = None -> paid i s = []).
Proof.
  intros s. destruct (run_ops_settled _ ops (settled_empty accs)) as [Hu Hp Hk]. fold s in Hu, Hp, Hk.
  split_and!; [done| | |done].
  - intros i r Hr Hst. destruct (Hp i r Hr) as [H|(t & Hq & _)]; [|congruence].
    unfold owed in H. rewrite Hst in H. symmetry in H. by apply Permutation_nil in H.
  - intros i r Hr Hst. destruct (Hp i r Hr) as [H|(t & _ & H1 & H2 & H3)]; [|right; by exists t].
    left. unfold owed in H. by rewrite Hst in H.
Qed.

(** A qualifying action of a pending referral qualifies it; repeated, it does nothing. *)
Lemma qualify_idempotent u now now' s :
  settled s -> let s1 := (recordQualifyingAction u now s).2 in
  recordQualifyingAction u now' s1 = (Ret tt, s1).
Proof.
  intros Hs s1. unfold recordQualifyingAction at 1. run.
  destruct (find_referral _ s1) as [[i r]|] eqn:Hf; [exfalso|done].
  apply find_referral_Some in Hf as [Hr Hp]. apply andb_true_iff in Hp as [Hu Hst].
  apply bool_decide_eq_true in Hst. apply bool_decide_eq_true in Hu.
  subst s1. unfold recordQualifyingAction, issueRewards, insert_reward in Hr. run.
  destruct (find_referral _ s) as [[j r0]|] eqn:Hf; simpl in Hr.
  - apply find_referral_Some in Hf as [Hr0 Hp]. apply andb_true_iff in Hp as [Hu0 _].
    replace (referrals _) with (save j (mkReferral (referrer_id r0) (referred_id r0) QUALIFIED (Some now) (created_at r0)) (referrals s))
      in Hr by (by destruct (outage now)).
    apply bool_decide_eq_true in Hu0. rewrite find_one_save in Hr. case_decide; [by simplify_eq|].
    destruct Hs as [Hun _ _]. destruct (Hun _ _ _ _ Hr Hr0); congruence.
  - pose proof (find_referral_None _ _ _ _ Hf Hr) as Hp. simpl in Hp.
    by rewrite Hu, Hst, !bool_decide_eq_true_2 in Hp.
Qed.
End service.

(** *** Concrete runs *)

Definition toy_start : state (B := MemBackend) := mkState ["alice"%string; "bob"%string] [] [].
Definition no_config : Config := mkConfig None None.
Definition no_outage (_ : Z) : bool := false.
Definition toy_ops : list op := [Claim "bob" "alice" 1; Qualify "bob" 2; Qualify "bob" 3; Claim "bob" "alice" 4].

Example toy_rewards :
  length (rows (rewards (run_ops no_config no_outage toy_ops toy_start))) = 2%nat.
Proof. vm_compute. reflexivity. Qed.

(** An account refers itself with its own id in capital letters: the comparison of the
    texts lets it pass, the database finds the account, and both rewards are its own. *)
Theorem self_referral_by_case :
  let s := run_ops no_config no_outage [Claim "bob" "BOB" 1; Qualify "bob" 2] toy_start in
  (claimReferral "bob" "BOB" 1 toy_start).1 = Ret (mkReferral "bob" "bob" R_PENDING None 1) /\
  paid 1 s ≡ₚ [("bob"%string, REFERRER_BONUS); ("bob"%string, REFEREE_BONUS)].
Proof. split; vm_compute; reflexivity. Qed.

(** A qualifying action that fails between its two writes loses the rewards: the referral
    is qualified, so that repeating the action does nothing. *)
Theorem refused_rewards_are_lost :
  let out := fun t => bool_decide (t = 2) in
  let s := run_ops no_config out [Claim "bob" "alice" 1; Qualify "bob" 2; Qualify "bob" 3] toy_start in
  status <$> find_one 1%nat (referrals s) = Some QUALIFIED /\ paid 1 s = [].
Proof. split; vm_compute; reflexivity. Qed.
End Referral.
