(* ===== verification/Anchor.v ===== *)
(** * Anchor deposits

    Models [backend/src/savings/anchor.service.ts], whose first deposit of a user
    qualifies the referral, and the guard in front of the anchor's status callback,
    [backend/src/savings/anchor-callback.controller.ts].  The anchor platform is a
    parameter. *)
From Stdlib Require Import ZArith Lia.
From stdpp Require Import base list strings sets.
From S2P Require Import Prelude Storage JsValue Webhooks Referral.
Local Open Scope Z_scope.

Module Anchor.
Import Referral.

Inductive AnchorDepositStatus := D_pending | D_processing | D_completed | D_failed.

(** The columns an anchor may leave out are nullable. *)
Record AnchorDeposit := mkDeposit {
  dep_user : string;
  stellar_account : string;
  dep_asset : string;
  transaction_id : option string;
  interactive_url : option string;
  dep_status : AnchorDepositStatus;
  dep_created_at : Z;
}.

Record Sep38Quote := mkQuote {
  sell_asset : string;
  buy_asset : string;
  sell_amount : string;
  buy_amount : string;
  price : string;
  expires_at : string;
}.

Record InitiateDepositDto := mkInitiate { dto_asset_code : string; dto_account : string }.
Record Sep24DepositResponse := mkSep24 { sep_id : option string; sep_url : option string }.
Record DepositInitiationResult := mkInitiated { deposit_id : nat; res_transaction : option string; res_url : option string }.

Definition QUOTE_CACHE_TTL_MS : Z := 30000.
Definition quoteCacheKey (sellAsset buyAsset sellAmount : string) : string :=
  ("savings:quote:" +:+ sellAsset +:+ ":" +:+ buyAsset +:+ ":" +:+ sellAmount)%string.

Definition BadGatewayException (m : string) : exn := HttpException 502 m.

Section service.
Context {B : Backend} (cfg : Config) (outage : Z -> bool).
(** Whether the optional referral service is provided. *)
Context (referralService : bool).

Record state := mkState {
  deposits : table nat AnchorDeposit;
  quotes : cache Sep38Quote;
  referral : Referral.state;
}.

Definition set_deposits f s := mkState (f (deposits s)) (quotes s) (referral s).
Definition set_quotes f s := mkState (deposits s) (f (quotes s)) (referral s).
Definition on_referral {A} (m : M Referral.state A) : M state A :=
  zoom referral (fun r s => mkState (deposits s) (quotes s) r) m.

(** [depositRepo.save] of a new row: a transaction id is unique when present. *)
Definition insert_deposit (d : AnchorDeposit) : M state nat :=
  await taken := gets (fun s =>
    match transaction_id d with
    | None => false
    | Some t => existsb (fun d' => bool_decide (transaction_id d' = Some t)) ((rows (deposits s)).*2)
    end) in
  if (taken : bool) then throw (DatabaseError "23505")
  else
    await id := gets (fun s => fresh_id (deposits s)) in
    do modify (set_deposits (save id d)) ;> ret id.

(** [answer] is what the anchor's interactive endpoint gives, [None] on any failure. *)
Definition initiateDeposit (answer : option Sep24DepositResponse) (userId : string) (dto : InitiateDepositDto) (now : Z)
  : M state DepositInitiationResult :=
  match answer with
  | None => throw (BadGatewayException "Anchor service unavailable. Please try again later.")
  | Some r =>
      await id := insert_deposit
        (mkDeposit userId (dto_account dto) (dto_asset_code dto) (sep_id r) (sep_url r) D_pending now) in
      do (if referralService then
            await depositCount := gets (fun s => count_where (fun _ d => bool_decide (dep_user d = userId)) (deposits s)) in
            if depositCount =? 1
            then catch (on_referral (recordQualifyingAction cfg outage userId now)) (fun _ => ret tt)
            else ret tt
          else ret tt) ;>
      ret (mkInitiated id (sep_id r) (sep_url r))
  end.

Definition getQuote (answer : option Sep38Quote) (sellAsset buyAsset sellAmount : string) (now : Z) : M state Sep38Quote :=
  let key := quoteCacheKey sellAsset buyAsset sellAmount in
  await cached := gets (fun s => cache_get key now (quotes s)) in
  match cached with
  | Some q => ret q
  | None =>
      match answer with
      | None => throw (BadGatewayException "Anchor quote service unavailable.")
      | Some q => do modify (set_quotes (cache_set key q QUOTE_CACHE_TTL_MS now)) ;> ret q
      end
  end.

Lemma count_user_fresh u d t :
  dep_user d = u -> count_where (fun _ d => bool_decide (dep_user d = u)) (save (fresh_id t) d t) =
    1 + count_where (fun _ d => bool_decide (dep_user d = u)) t.
Proof. intros Hd. rewrite count_where_save_new by apply fresh_id_None. by rewrite bool_decide_eq_true_2. Qed.

(** Starting a deposit, on every branch: a failing anchor is a 502 and a repeated
    transaction id is refused, both without effect; otherwise the deposit is stored as
    pending, and exactly the first deposit of a user qualifies the user's referral -
    when it is started, not when it completes - keeping the reward invariant. *)
Theorem initiateDeposit_spec (answer : option Sep24DepositResponse) (u : string) (dto : InitiateDepositDto) (now : Z) (s : state) :
  settled outage (referral s) ->
  let o := (initiateDeposit answer u dto now s).1 in
  let s' := (initiateDeposit answer u dto now s).2 in
  settled outage (referral s') /\
  match answer with
  | None => o = Throw (BadGatewayException "Anchor service unavailable. Please try again later.") /\ s' = s
  | Some r =>
      (exists t i d, sep_id r = Some t /\ find_one i (deposits s) = Some d /\ transaction_id d = Some t /\
         o = Throw (DatabaseError "23505") /\ s' = s) \/
      (exists id d, o = Ret (mkInitiated id (sep_id r) (sep_url r)) /\
         find_one id (deposits s) = None /\ find_one id (deposits s') = Some d /\
         dep_user d = u /\ transaction_id d = sep_id r /\ dep_status d = D_pending /\
         (forall i, i ≠ id -> find_one i (deposits s') = find_one i (deposits s)) /\
         referral s' =
           (if referralService && (count_where (fun _ d => bool_decide (dep_user d = u)) (deposits s) =? 0)
            then (recordQualifyingAction cfg outage u now (referral s)).2 else referral s))
  end.
Proof.
  intros Hs o s'. subst o s'. unfold initiateDeposit. destruct answer as [r|]; [|run; done].
  unfold insert_deposit, on_referral. run.
  set (d := mkDeposit _ _ _ _ _ _ _).
  destruct (match sep_id r with Some t => existsb _ _ | None => false end) eqn:Htaken.
  { split; [done|]. left. destruct (sep_id r) as [t|]; [|done].
    apply existsb_exists in Htaken as (d' & Hin & Hd'). apply bool_decide_eq_true in Hd'.
    apply list_elem_of_In, list_elem_of_fmap in Hin as ([i d''] & -> & Hin). apply elem_of_rows in Hin.
    by exists t, i, d''. }
  assert (Hc : count_where (fun _ d => bool_decide (dep_user d = u)) (save (fresh_id (deposits s)) d (deposits s)) =
            1 + count_where (fun _ d => bool_decide (dep_user d = u)) (deposits s)) by by apply count_user_fresh.
  pose proof (fresh_id_None (deposits s)) as Hid.
  assert (Hrest : find_one (fresh_id (deposits s)) (save (fresh_id (deposits s)) d (deposits s)) = Some d /\
    forall i, i ≠ fresh_id (deposits s) -> find_one i (save (fresh_id (deposits s)) d (deposits s)) = find_one i (deposits s)).
  { split; [apply find_one_save_eq|]. intros i Hi. by apply find_one_save_ne. }
  destruct Hrest as [Hr1 Hr2]. simpl.
  destruct referralService; simpl; [rewrite Hc|].
  - destruct (Z.eqb_spec (1 + count_where (fun _ d => bool_decide (dep_user d = u)) (deposits s)) 1) as [H1|H1].
    + pose proof (settled_qualify cfg outage u now (referral s) Hs) as Hset.
      simpl. destruct (recordQualifyingAction cfg outage u now (referral s)) as [o' rs] eqn:Hrq. simpl in *.
      assert (Hz : (count_where (fun _ d => bool_decide (dep_user d = u)) (deposits s) =? 0) = true) by (apply Z.eqb_eq; lia).
      rewrite Hz. destruct o'; simpl; (split; [done|]); right; by exists (fresh_id (deposits s)), d.
    + split; [done|]. right. exists (fresh_id (deposits s)), d. split_and!; try done. simpl.
      destruct (Z.eqb_spec (count_where (fun _ d => bool_decide (dep_user d = u)) (deposits s)) 0); [lia|done].
  - split; [done|]. right. by exists (fresh_id (deposits s)), d.
Qed.
End service.

(** The anchor's status callback, [savings/anchor/callbacks/sep24]: the route has no
    path parameter, and its requests go through the webhook guard. *)
Definition callback_request (signature raw : option string) (body : jsval) : Webhooks.request :=
  Webhooks.mkRequest None signature raw body.

(** Every status callback of the anchor is refused, also a correctly signed one:
    the guard takes the webhook source from the path, and the route has none. *)
Theorem anchor_callbacks_refused {B : Backend} hmac secret window (signature raw : option string) (body : jsval) (now : Z) s :
  Webhooks.canActivate hmac secret window (callback_request signature raw body) now s =
    (Throw (BadRequestException "Missing webhook source in path"), s).
Proof. done. Qed.

(** *** Concrete runs *)

(** Bob was referred by Alice, starts a deposit and pays nothing; both rewards are on
    file. *)
Definition claimed : Referral.state (B := MemBackend) := (claimReferral "bob" "alice" 1 toy_start).2.
Definition toy_answer : option Sep24DepositResponse := Some (mkSep24 (Some "tx1"%string) None).
Definition bob_starts : state (B := MemBackend) :=
  (initiateDeposit no_config no_outage true toy_answer "bob" (mkInitiate "USDC" "GBOB") 5 (mkState [] [] claimed)).2.

Lemma claimed_settled : settled no_outage claimed.
Proof. apply (settled_claim no_outage "bob" "alice" 1 toy_start), (settled_empty (B := MemBackend) no_outage). Qed.

Lemma initiateDeposit_spec_witness :
  settled no_outage (referral bob_starts) /\
  dep_status <$> find_one 1%nat (deposits bob_starts) = Some D_pending /\
  length (rows (rewards (referral bob_starts))) = 2%nat.
Proof.
  split; [|split; vm_compute; reflexivity].
  apply (initiateDeposit_spec no_config no_outage true toy_answer "bob" (mkInitiate "USDC" "GBOB") 5
           (mkState (B := MemBackend) [] [] claimed) claimed_settled).
Defined.
End Anchor.
