(* ===== verification/InterestRates.v ===== *)
(** * Interest rates

    Models [backend/src/interest-rates]: the rate curve of
    [rate-calculator.service.ts], the configurations, the rate history and the oracle
    prices of [interest-rate.service.ts], and the activation endpoint of
    [admin/interest-rates-admin.controller.ts].  The rates are JavaScript numbers; the
    [numeric(p, s)] columns they are kept in round to [s] decimals. *)
From Stdlib Require Import ZArith Lia SpecFloat Ascii.
From stdpp Require Import base list strings sets.
From S2P Require Import Prelude Storage JsValue JsNumber Balance.
Local Open Scope Z_scope.

Module InterestRates.

(** ** [numeric] columns *)

(** A PostgreSQL [numeric]: [m * 10^e] with its sign. *)
Inductive pg_numeric :=
| PgNaN
| PgInfinity
| PgDec (neg : bool) (m e : Z).

(** The cast of a text, [None] when it is malformed. *)
Definition numeric_of_text (t : string) : option pg_numeric :=
  let t := trim t in
  if bool_decide (t = "NaN"%string) then Some PgNaN
  else
    let '(neg, u) := match t with
                     | String "-" u => (true, u)
                     | String "+" u => (false, u)
                     | _ => (false, t)
                     end%char in
    if bool_decide (u = "Infinity"%string) then Some PgInfinity
    else
      let '(m1, n1, r1) := take_digits 0 0 u in
      let '(m2, n2, r2) := match r1 with
                           | String "." r => take_digits m1 0 r
                           | _ => (m1, 0, r1)
                           end%char in
      if n1 + n2 =? 0 then None
      else match r2 with
           | EmptyString => Some (PgDec neg m2 (- n2))
           | String ("e" | "E") r => option_map (fun e => PgDec neg m2 (e - n2)) (parse_exponent r)
           | _ => None
           end%char.

(** A text stored in a [numeric(p, s)] column, as it is read back. *)
Definition numeric_column (p s : Z) (t : string) : outcome string :=
  match numeric_of_text t with
  | None => Throw (DatabaseError "22P02")
  | Some PgNaN => Ret "NaN"%string
  | Some PgInfinity => Throw (DatabaseError "22003")
  | Some (PgDec neg m e) =>
      let n := if 0 <=? e + s then m * 10 ^ (e + s) else nearest m (10 ^ (- (e + s))) in
      if 10 ^ p <=? n then Throw (DatabaseError "22003")
      else Ret ((if neg && (0 <? n) then "-" else "") +:+ fixed_digits s n)
  end.

Definition store_numeric {St} (p s : Z) (t : string) : M St string :=
  match numeric_column p s t with Ret u => ret u | Throw e => throw e end.

Example numeric_column_examples :
  numeric_column 10 4 "5" = Ret "5.0000"%string /\
  numeric_column 5 4 "0.35" = Ret "0.3500"%string /\
  numeric_column 5 4 "0.00005" = Ret "0.0001"%string /\
  numeric_column 5 4 "1e-7" = Ret "0.0000"%string /\
  numeric_column 10 4 "-0.0000" = Ret "0.0000"%string /\
  numeric_column 10 4 "-1.25" = Ret "-1.2500"%string /\
  numeric_column 10 4 "NaN" = Ret "NaN"%string /\
  numeric_column 5 4 "10" = Throw (DatabaseError "22003") /\
  numeric_column 5 4 "ten" = Throw (DatabaseError "22P02").
Proof. repeat split; vm_compute; reflexivity. Qed.

(** ** Entities *)

(** [InterestRateConfig]. *)
Record InterestRateConfig := mkConfig {
  name : string;
  description : string;
  asset : string;
  base_rate : string;
  min_rate : string;
  max_rate : string;
  optimal_utilization : string;
  slope_up : string;
  slope_down : string;
  smoothing_factor : string;
  is_active : bool;
  notes : option string;
  created_at : Z;
}.

(** [InterestRateHistory]. *)
Record InterestRateHistory := mkHistory {
  config_id : nat;
  calculated_rate : string;
  utilization_ratio : string;
  total_liquidity : string;
  total_utilization : string;
  oracle_price : option string;
  previous_rate : string;
  rate_delta : string;
  h_created_at : Z;
}.

Inductive OracleSourceType := STELLAR_QUEST | CHAINLINK | BAND_PROTOCOL | ANCHOR | MANUAL.

(** [OracleData]. *)
Record OracleData := mkOracle {
  o_asset : string;
  source_type : OracleSourceType;
  price_usd : option string;
  price_base : option string;
  confidence : option string;
  price_timestamp : Z;
  is_valid : bool;
  o_notes : option string;
  updated_at : Z;
}.

(** ** The curve *)

Definition one : number := num_of_Z 1.
Definition hundred : number := num_of_Z 100.

(** [Math.max(lo, Math.min(hi, x))]. *)
Definition clamp (lo hi x : number) : number := Math_max lo (Math_min hi x).

(** The rate of a utilization in [0, 1] before the bounds are applied. *)
Definition curve (utilization : number) (config : InterestRateConfig) : number :=
  let baseRate := Number_of_string (base_rate config) in
  let optimalUtil := Number_of_string (optimal_utilization config) in
  let slopeUp := Number_of_string (slope_up config) in
  let slopeDown := Number_of_string (slope_down config) in
  if num_leb utilization optimalUtil then
    let utilizationRatio := num_div utilization optimalUtil in
    let rateIncrease := num_mul (num_mul slopeUp utilizationRatio) hundred in
    num_add baseRate rateIncrease
  else
    let excessUtilization := num_sub utilization optimalUtil in
    let excessRange := num_sub one optimalUtil in
    let excessRatio := num_div excessUtilization excessRange in
    let rateAtOptimal := num_add baseRate (num_mul slopeUp hundred) in
    let additionalIncrease := num_mul (num_mul slopeDown excessRatio) hundred in
    num_add rateAtOptimal additionalIncrease.

Definition in_unit (utilization : number) : number :=
  if num_ltb utilization (num_of_Z 0) || num_ltb one utilization
  then clamp (num_of_Z 0) one utilization else utilization.

(** The rate before [toFixed(4)]. *)
Definition rate_value (utilization : number) (config : InterestRateConfig) (previousRate : option string) : number :=
  let minRate := Number_of_string (min_rate config) in
  let maxRate := Number_of_string (max_rate config) in
  let smoothingFactor := Number_of_string (smoothing_factor config) in
  let bounded := clamp minRate maxRate (curve (in_unit utilization) config) in
  let smoothed :=
    match previousRate with
    | Some p =>
        num_add (num_mul smoothingFactor bounded)
                (num_mul (num_sub one smoothingFactor) (Number_of_string p))
    | None => bounded
    end in
  clamp minRate maxRate smoothed.

Definition calculateRate (utilization : number) (config : InterestRateConfig) (previousRate : option string) : string :=
  num_toFixed 4 (rate_value utilization config previousRate).

Definition projectRate (utilization : number) (config : InterestRateConfig) : string :=
  calculateRate utilization config None.

Definition calculateUtilization (totalLiquidity borrowedAmount : Z) : number :=
  if totalLiquidity =? 0 then num_of_Z 0
  else clamp (num_of_Z 0) one (num_div (num_of_Z borrowedAmount) (num_of_Z totalLiquidity)).

(** [None] is the [RangeError] of [BigInt] of a number that is not finite. *)
Definition calculateInterestEarned (principal : Z) (apy daysElapsed : number) : option Z :=
  let principalNum := num_of_Z principal in
  let dailyRate := num_mul (num_div apy hundred) (num_div daysElapsed (num_of_Z 365)) in
  let earned := num_mul principalNum dailyRate in
  num_round earned.

Definition calculateUtilizationFromPositions (totalDeposits totalBorrows : Z) (reserveRatio : number) : option number :=
  match num_round (num_mul reserveRatio hundred) with
  | None => None
  | Some r =>
      let reserveAmount := Z.quot (totalDeposits * r) 100 in
      let availableForLending := totalDeposits - reserveAmount in
      if availableForLending =? 0 then Some (num_of_Z 0)
      else Some (clamp (num_of_Z 0) one (num_div (num_of_Z totalBorrows) (num_of_Z availableForLending)))
  end.

(** ** The service *)

(** [CreateInterestRateConfigDto], validated. *)
Record CreateData := mkCreate {
  c_name : string;
  c_description : string;
  c_asset : option string;
  c_base_rate : number;
  c_min_rate : number;
  c_max_rate : number;
  c_optimal_utilization : number;
  c_slope_up : number;
  c_slope_down : number;
  c_smoothing_factor : number;
  c_notes : option string;
}.

(** A field of a partial update: absent, [null] or given. *)
Inductive field (A : Type) := Undefined | Null | Given (a : A).
Arguments Undefined {A}.
Arguments Null {A}.
Arguments Given {A}.

(** [UpdateInterestRateConfigDto]. *)
Record UpdateData := mkUpdate {
  u_name : field string;
  u_description : field string;
  u_base_rate : field number;
  u_min_rate : field number;
  u_max_rate : field number;
  u_optimal_utilization : field number;
  u_slope_up : field number;
  u_slope_down : field number;
  u_smoothing_factor : field number;
  u_notes : field string;
  u_is_active : field bool;
}.

Definition only_active (b : bool) : UpdateData :=
  mkUpdate Undefined Undefined Undefined Undefined Undefined Undefined Undefined Undefined Undefined
    Undefined (Given b).

Record CurrentInterestRateDto := mkCurrent {
  apy : string;
  utilization : string;
  d_total_liquidity : string;
  d_total_utilization : string;
  d_config_id : nat;
  d_config_name : string;
  calculated_at : Z;
}.

Record InterestRateHistoryDto := mkHistoryDto {
  hd_id : nat;
  hd_calculated_rate : string;
  hd_utilization_ratio : string;
  hd_previous_rate : string;
  hd_rate_delta : string;
  hd_created_at : Z;
  hd_config_name : string;
}.

Record UtilizationMetricsDto := mkMetrics {
  current_utilization : string;
  available_liquidity : string;
  borrowed_amount : string;
  m_optimal_utilization : string;
  utilization_above_optimal : option string;
  headroom_to_max : string;
}.

(** The body of [updateOraclePrice], [price_timestamp] already a date. *)
Record OracleInput := mkOracleInput {
  i_asset : string;
  i_source_type : OracleSourceType;
  i_price_usd : option string;
  i_price_base : option string;
  i_confidence : option string;
  i_price_timestamp : Date;
  i_notes : option string;
}.

Section service.
Context {B : Backend}.

Record state := mkState {
  configs : table nat InterestRateConfig;
  history : table nat InterestRateHistory;
  oracle : table nat OracleData;
  balances : table string Balance.Balance;
}.

Definition set_configs f s := mkState (f (configs s)) (history s) (oracle s) (balances s).
Definition set_history f s := mkState (configs s) (f (history s)) (oracle s) (balances s).
Definition set_oracle f s := mkState (configs s) (history s) (f (oracle s)) (balances s).

Definition getActiveConfig : M state (nat * InterestRateConfig) :=
  await config := gets (fun s => List.find (fun r => is_active r.2) (rows (configs s))) in
  of_option (NotFoundException "No active interest rate configuration found") config.

Definition getConfig (configId : nat) : M state InterestRateConfig :=
  await config := gets (fun s => find_one configId (configs s)) in
  of_option (NotFoundException ("Configuration " +:+ Z_to_string (Z.of_nat configId) +:+ " not found")) config.

Definition listConfigs (activeOnly : bool) : M state (list (nat * InterestRateConfig)) :=
  gets (fun s => order_by (fun r => - created_at r.2)
    (List.filter (fun r => negb activeOnly || is_active r.2) (rows (configs s)))).

(** A column of a saved entity: written when it differs from the stored row. *)
Definition write (p sc : Z) (old : option string) (t : string) : M state string :=
  if bool_decide (old = Some t) then ret t else store_numeric p sc t.

(** The row of a saved configuration: every rate column rounds what is written. *)
Definition config_row (old : option InterestRateConfig) (c : InterestRateConfig) : M state InterestRateConfig :=
  await base := write 10 4 (base_rate <$> old) (base_rate c) in
  await lo := write 10 4 (min_rate <$> old) (min_rate c) in
  await hi := write 10 4 (max_rate <$> old) (max_rate c) in
  await opt := write 5 4 (optimal_utilization <$> old) (optimal_utilization c) in
  await up := write 10 4 (slope_up <$> old) (slope_up c) in
  await down := write 10 4 (slope_down <$> old) (slope_down c) in
  await smooth := write 5 4 (smoothing_factor <$> old) (smoothing_factor c) in
  ret (mkConfig (name c) (description c) (asset c) base lo hi opt up down smooth
         (is_active c) (notes c) (created_at c)).

(** [configRepository.save(config)]: the caller keeps the entity it passed. *)
Definition save_config (id : nat) (c : InterestRateConfig) : M state InterestRateConfig :=
  await old := gets (fun s => find_one id (configs s)) in
  await row := config_row old c in
  do modify (set_configs (save id row)) ;>
  ret c.

Definition createConfig (data : CreateData) (now : Z) : M state (nat * InterestRateConfig) :=
  let config := mkConfig (c_name data) (c_description data)
    (match c_asset data with
     | Some a => if bool_decide (a = ""%string) then "USDC"%string else a
     | None => "USDC"%string
     end)
    (num_to_string (c_base_rate data)) (num_to_string (c_min_rate data)) (num_to_string (c_max_rate data))
    (num_to_string (c_optimal_utilization data)) (num_to_string (c_slope_up data))
    (num_to_string (c_slope_down data)) (num_to_string (c_smoothing_factor data))
    true (c_notes data) now in
  await id := gets (fun s => fresh_id (configs s)) in
  await saved := save_config id config in
  ret (id, saved).

(** [...(v && { key: v })]. *)
Definition if_truthy (old : string) (v : field string) : string :=
  match v with Given a => if bool_decide (a = ""%string) then old else a | _ => old end.

(** [...(v !== undefined && { key: v.toString() })]. *)
Definition if_number (old : string) (v : field number) : M state string :=
  match v with
  | Undefined => ret old
  | Null => throw (TypeError "Cannot read properties of null (reading 'toString')")
  | Given f => ret (num_to_string f)
  end.

Definition updateConfig (configId : nat) (data : UpdateData) : M state InterestRateConfig :=
  await config := getConfig configId in
  await base := if_number (base_rate config) (u_base_rate data) in
  await lo := if_number (min_rate config) (u_min_rate data) in
  await hi := if_number (max_rate config) (u_max_rate data) in
  await opt := if_number (optimal_utilization config) (u_optimal_utilization data) in
  await up := if_number (slope_up config) (u_slope_up data) in
  await down := if_number (slope_down config) (u_slope_down data) in
  await smooth := if_number (smoothing_factor config) (u_smoothing_factor data) in
  let notes' := match u_notes data with Undefined => notes config | Null => None | Given n => Some n end in
  match u_is_active data with
  | Null => throw (DatabaseError "23502")
  | active =>
      save_config configId
        (mkConfig (if_truthy (name config) (u_name data)) (if_truthy (description config) (u_description data))
           (asset config) base lo hi opt up down smooth
           (match active with Given b => b | _ => is_active config end) notes' (created_at config))
  end.

(** [SUM(CAST(balance.amount AS NUMERIC))], then [BigInt(total || 0)]: a total with
    decimals is not a [BigInt]. *)
Definition integer_value (v : pg_numeric) : option Z :=
  match v with
  | PgDec neg m e => if 0 <=? e then Some ((if neg then - m else m) * 10 ^ e) else None
  | _ => None
  end.

Definition getTotalDeposits : M state Z :=
  await amounts := gets (fun s => (fun r => Balance.amount r.2) <$> rows (balances s)) in
  await values := of_option (DatabaseError "22P02") (mapM numeric_of_text amounts) in
  await total := of_option (SyntaxError "Cannot convert to a BigInt") (mapM integer_value values) in
  ret (sumZ total).

Definition getTotalBorrowed : M state Z :=
  await totalDeposits := getTotalDeposits in
  ret (Z.quot (totalDeposits * 35) 100).

(** The newest row of a configuration's history. *)
Definition last_history (configId : nat) (s : state) : option (nat * InterestRateHistory) :=
  head (order_by (fun r => - h_created_at r.2)
    (List.filter (fun r => bool_decide (config_id r.2 = configId)) (rows (history s)))).

(** [previousRate || '0']. *)
Definition rate_or_zero (p : option string) : string :=
  match p with
  | Some t => if bool_decide (t = ""%string) then "0"%string else t
  | None => "0"%string
  end.

Definition calculateCurrentRate (configId : nat) (now : Z) : M state CurrentInterestRateDto :=
  await config := getConfig configId in
  await totalDeposits := getTotalDeposits in
  await totalBorrowed := getTotalBorrowed in
  let util := calculateUtilization totalDeposits totalBorrowed in
  await lastHistory := gets (last_history configId) in
  let previousRate := (fun r => calculated_rate r.2) <$> lastHistory in
  let newRate := calculateRate util config previousRate in
  await rate := store_numeric 10 4 newRate in
  await ratio := store_numeric 5 4 (num_to_string util) in
  await prev := store_numeric 10 4 (rate_or_zero previousRate) in
  await delta := store_numeric 10 4
    (num_toFixed 4 (num_sub (Number_of_string newRate) (Number_of_string (rate_or_zero previousRate)))) in
  await id := gets (fun s => fresh_id (history s)) in
  do modify (set_history (save id (mkHistory configId rate ratio (Z_to_string totalDeposits)
       (Z_to_string totalBorrowed) None prev delta now))) ;>
  ret (mkCurrent newRate (num_toFixed 4 util) (Z_to_string totalDeposits) (Z_to_string totalBorrowed)
         configId (name config) now).

Definition getCurrentRate (now : Z) : M state CurrentInterestRateDto :=
  await config := getActiveConfig in
  calculateCurrentRate config.1 now.

Definition getUtilizationMetrics : M state UtilizationMetricsDto :=
  await config := getActiveConfig in
  await totalDeposits := getTotalDeposits in
  await totalBorrowed := getTotalBorrowed in
  let util := calculateUtilization totalDeposits totalBorrowed in
  let optimalUtil := Number_of_string (optimal_utilization config.2) in
  let above := if num_ltb optimalUtil util then Some (num_sub util optimalUtil) else None in
  let headroomToMax := num_mul (num_sub one util) hundred in
  ret (mkMetrics (num_toFixed 4 util) (Z_to_string totalDeposits) (Z_to_string totalBorrowed)
         (num_toFixed 4 optimalUtil)
         (match above with
          | Some d => if SFeqb d (num_of_Z 0) || num_nan d then None else Some (num_toFixed 4 d)
          | None => None
          end)
         (num_toFixed 2 headroomToMax)).

Definition getRateHistory (configId : nat) (limit : nat) : M state (list InterestRateHistoryDto) :=
  await config := getConfig configId in
  await hist := gets (fun s => take limit (order_by (fun r => - h_created_at r.2)
    (List.filter (fun r => bool_decide (config_id r.2 = configId)) (rows (history s))))) in
  ret ((fun h => mkHistoryDto h.1 (calculated_rate h.2) (utilization_ratio h.2) (previous_rate h.2)
                   (rate_delta h.2) (h_created_at h.2) (name config)) <$> hist).

Definition projectRate_of (configId : nat) (util : number) : M state string :=
  await config := getConfig configId in
  ret (projectRate util config).

Definition updateOraclePrice (data : OracleInput) (now : Z) : M state (nat * OracleData) :=
  await ts := timestamptz (i_price_timestamp data) in
  await conf := match i_confidence data with
                | Some c => await u := store_numeric 5 4 c in ret (Some u)
                | None => ret None
                end in
  await id := gets (fun s => fresh_id (oracle s)) in
  let row := fun c => mkOracle (i_asset data) (i_source_type data) (i_price_usd data) (i_price_base data) c
                        ts true (i_notes data) now in
  do modify (set_oracle (save id (row conf))) ;>
  ret (id, row (i_confidence data)).

Definition getLatestOraclePrice (a : string) : M state (option (nat * OracleData)) :=
  gets (fun s => head (order_by (fun r => - updated_at r.2)
    (List.filter (fun r => bool_decide (o_asset r.2 = a) && is_valid r.2) (rows (oracle s))))).

(** *** The admin controller *)

Definition deactivate (configId : nat) (cfg : nat * InterestRateConfig) : M state unit :=
  if negb (bool_decide (cfg.1 = configId)) && is_active cfg.2
  then await updated := updateConfig cfg.1 (only_active false) in ret tt
  else ret tt.

Definition activateConfig (configId : nat) : M state (string * InterestRateConfig) :=
  await cfgs := listConfigs false in
  do for_each (deactivate configId) cfgs ;>
  await updated := updateConfig configId (only_active true) in
  ret (("Configuration " +:+ Z_to_string (Z.of_nat configId) +:+ " is now active")%string, updated).

Definition getStats : M state ((nat * InterestRateConfig) * Z * Z) :=
  await activeConfig := getActiveConfig in
  await allConfigs := listConfigs false in
  ret (activeConfig, Z.of_nat (length allConfigs), 0).

(** *** One active configuration *)

Definition set_active (b : bool) (c : InterestRateConfig) : InterestRateConfig :=
  mkConfig (name c) (description c) (asset c) (base_rate c) (min_rate c) (max_rate c) (optimal_utilization c)
    (slope_up c) (slope_down c) (smoothing_factor c) b (notes c) (created_at c).

Lemma set_active_same c : set_active (is_active c) c = c.
Proof. by destruct c. Qed.

(** Changing the flag alone writes no rate column. *)
Lemma updateConfig_active id b c s :
  find_one id (configs s) = Some c ->
  updateConfig id (only_active b) s = (Ret (set_active b c), set_configs (save id (set_active b c)) s).
Proof.
  intros Hc. unfold updateConfig, getConfig, save_config, config_row, write. run. rewrite Hc. cbn -[bool_decide].
  rewrite Hc. cbn -[bool_decide]. by rewrite !bool_decide_eq_true_2 by done.
Qed.

Lemma updateConfig_unknown id d s :
  find_one id (configs s) = None ->
  updateConfig id d s =
    (Throw (NotFoundException ("Configuration " +:+ Z_to_string (Z.of_nat id) +:+ " not found")), s).
Proof. intros Hc. unfold updateConfig, getConfig. run. by rewrite Hc. Qed.

(** What the configurations are after the others were switched off. *)
Definition switched_off (id : nat) (ks : list nat) (s s' : state) : Prop :=
  history s' = history s /\ oracle s' = oracle s /\ balances s' = balances s /\
  forall k, find_one k (configs s') =
    (if bool_decide (k ∈ ks) && negb (bool_decide (k = id))
     then set_active false <$> find_one k (configs s) else find_one k (configs s)).

Lemma deactivate_all id l s :
  NoDup l.*1 -> (forall k c, (k, c) ∈ l -> find_one k (configs s) = Some c) ->
  exists s', for_each (deactivate id) l s = (Ret tt, s') /\ switched_off id l.*1 s s'.
Proof.
  revert s. induction l as [|[k c] l IH]; intros s Hnd Hl; csimpl.
  { exists s. repeat split. }
  apply NoDup_cons in Hnd as [Hk Hnd].
  assert (Hc : find_one k (configs s) = Some c) by (apply Hl; set_solver).
  assert (Hstep : exists s1, deactivate id (k, c) s = (Ret tt, s1) /\ switched_off id [k] s s1).
  { unfold deactivate. cbn [fst snd]. destruct (bool_decide (k = id)) eqn:Hid; cbn [negb andb].
    - exists s. repeat split. intros k'. apply bool_decide_eq_true in Hid as ->.
      destruct (decide (k' = id)) as [->|].
      + by rewrite (bool_decide_eq_true_2 (id = id)), andb_false_r.
      + rewrite bool_decide_eq_false_2; [done|set_solver].
    - apply bool_decide_eq_false in Hid. destruct (is_active c) eqn:Ha.
      + eexists. unfold bind. rewrite (updateConfig_active _ _ c) by done. split; [done|]. repeat split.
        intros k'. simpl. rewrite find_one_save. case_decide as Hkk.
        * subst k'. rewrite bool_decide_eq_true_2 by set_solver. rewrite bool_decide_eq_false_2 by done.
          simpl. by rewrite Hc.
        * rewrite bool_decide_eq_false_2; [done|set_solver].
      + exists s. repeat split. intros k'. destruct (decide (k' = k)) as [->|].
        * rewrite bool_decide_eq_true_2 by set_solver. rewrite bool_decide_eq_false_2 by done.
          simpl. rewrite Hc. simpl. by rewrite <-Ha, set_active_same.
        * rewrite bool_decide_eq_false_2; [done|set_solver]. }
  destruct Hstep as (s1 & Hd & Hh1 & Ho1 & Hb1 & H1).
  destruct (IH s1 Hnd) as (s2 & Hf & Hh2 & Ho2 & Hb2 & H2).
  { intros k' c' Hin. rewrite H1, bool_decide_eq_false_2; [by apply Hl; set_solver|].
    intros ->%list_elem_of_singleton. apply Hk. apply list_elem_of_fmap. by exists (k, c'). }
  exists s2. unfold bind. rewrite Hd. split; [done|]. repeat split; try congruence.
  intros k'. rewrite H2, H1. destruct (decide (k' = k)) as [->|Hkk].
  - rewrite (bool_decide_eq_false_2 (k ∈ l.*1)) by done.
    rewrite (bool_decide_eq_true_2 (k ∈ [k])) by set_solver.
    by rewrite (bool_decide_eq_true_2 (k ∈ k :: l.*1)) by set_solver.
  - rewrite (bool_decide_eq_false_2 (k' ∈ [k])) by set_solver. simpl.
    by rewrite (bool_decide_ext (k' ∈ k :: l.*1) (k' ∈ l.*1)) by set_solver.
Qed.

(** The configurations listed are those of the table. *)
Lemma listConfigs_all s :
  exists l, listConfigs false s = (Ret l, s) /\ NoDup l.*1 /\
    forall k c, (k, c) ∈ l <-> find_one k (configs s) = Some c.
Proof.
  unfold listConfigs. run. eexists. split; [done|].
  set (f := List.filter _ _). assert (Hf : f = rows (configs s)).
  { subst f. by induction (rows (configs s)) as [|x xs IH]; simpl; [|rewrite IH]. }
  rewrite Hf. split.
  - rewrite order_by_perm. apply NoDup_rows.
  - intros k c. rewrite order_by_perm. apply elem_of_rows.
Qed.

Lemma switch_others_off id s :
  exists l s', listConfigs false s = (Ret l, s) /\ for_each (deactivate id) l s = (Ret tt, s') /\
    history s' = history s /\ oracle s' = oracle s /\ balances s' = balances s /\
    forall k, find_one k (configs s') =
      (if bool_decide (k = id) then find_one k (configs s) else set_active false <$> find_one k (configs s)).
Proof.
  destruct (listConfigs_all s) as (l & Hl & Hnd & Hin).
  destruct (deactivate_all id l s Hnd) as (s' & Hf & Hh & Ho & Hb & H); [by intros; apply Hin|].
  exists l, s'. do 5 (split; [done|]). intros k. rewrite H.
  destruct (bool_decide (k = id)); simpl; [by rewrite andb_false_r|]. rewrite andb_true_r.
  destruct (find_one k (configs s)) as [c|] eqn:Hc; [|by destruct (bool_decide _)].
  rewrite bool_decide_eq_true_2; [done|]. apply list_elem_of_fmap. exists (k, c). by rewrite Hin.
Qed.

Lemma getActiveConfig_only id c s :
  (forall k d, find_one k (configs s) = Some d -> is_active d = true <-> k = id) ->
  find_one id (configs s) = Some c -> getActiveConfig s = (Ret (id, c), s).
Proof.
  intros Hu Hc. unfold getActiveConfig. run.
  destruct (List.find _ _) as [[k d]|] eqn:Hf.
  - apply find_some in Hf as [Hin%list_elem_of_In%elem_of_rows Ha]. simpl in Ha.
    apply (Hu _ _ Hin) in Ha as ->. by simplify_eq.
  - assert (Ha : is_active c = true) by (by apply (Hu id c)).
    apply elem_of_rows, list_elem_of_In in Hc.
    apply (find_none _ _ Hf) in Hc. simpl in Hc. congruence.
Qed.

Lemma getActiveConfig_none s :
  (forall k d, find_one k (configs s) = Some d -> is_active d = false) ->
  getActiveConfig s = (Throw (NotFoundException "No active interest rate configuration found"), s).
Proof.
  intros Hu. unfold getActiveConfig. run. destruct (List.find _ _) as [[k d]|] eqn:Hf; [|done].
  apply find_some in Hf as [Hin%list_elem_of_In%elem_of_rows Ha]. simpl in Ha. apply Hu in Hin. congruence.
Qed.

(** Activating an existing configuration makes it the only active one, changes
    nothing else of any configuration and touches no other table; the active
    configuration read back is it. *)
Theorem activate_makes_unique (id : nat) (c : InterestRateConfig) (s : state) :
  find_one id (configs s) = Some c ->
  exists s', (activateConfig id s).2 = s' /\ is_ret (activateConfig id s).1 = true /\
    history s' = history s /\ oracle s' = oracle s /\ balances s' = balances s /\
    (forall k, find_one k (configs s') = set_active (bool_decide (k = id)) <$> find_one k (configs s)) /\
    getActiveConfig s' = (Ret (id, set_active true c), s').
Proof.
  intros Hc. destruct (switch_others_off id s) as (l & s1 & Hl & Hf & Hh & Ho & Hb & H1).
  assert (Hc1 : find_one id (configs s1) = Some c) by (rewrite H1, bool_decide_eq_true_2; done).
  unfold activateConfig, bind. rewrite Hl, Hf, (updateConfig_active _ _ _ _ Hc1). simpl.
  eexists. split; [done|]. split; [done|]. simpl. do 3 (split; [done|]).
  assert (Hk : forall k, find_one k (save id (set_active true c) (configs s1)) =
                         set_active (bool_decide (k = id)) <$> find_one k (configs s)).
  { intros k. rewrite find_one_save. case_decide as Hd.
    - subst k. rewrite bool_decide_eq_true_2, Hc by done. done.
    - rewrite H1, bool_decide_eq_false_2 by done. done. }
  split; [exact Hk|]. apply getActiveConfig_only; simpl.
  - intros k d. rewrite Hk. destruct (find_one k (configs s)); simpl; [|done]. intros [= <-]. simpl.
    apply bool_decide_eq_true.
  - rewrite Hk, Hc. by rewrite bool_decide_eq_true_2.
Qed.

(** Activating an id that does not exist is answered with 404, but only after every
    configuration was switched off: no configuration is active afterwards, and every
    read of the current rate fails until one is activated again. *)
Theorem activate_unknown_disables_all (id : nat) (s : state) (now : Z) :
  find_one id (configs s) = None ->
  exists s', activateConfig id s =
      (Throw (NotFoundException ("Configuration " +:+ Z_to_string (Z.of_nat id) +:+ " not found")), s') /\
    (forall k, find_one k (configs s') = set_active false <$> find_one k (configs s)) /\
    getCurrentRate now s' = (Throw (NotFoundException "No active interest rate configuration found"), s').
Proof.
  intros Hc. destruct (switch_others_off id s) as (l & s1 & Hl & Hf & _ & _ & _ & H1).
  exists s1. unfold activateConfig. unfold bind at 1 2. rewrite Hl, Hf. unfold bind.
  rewrite updateConfig_unknown by (rewrite H1, bool_decide_eq_true_2; done).
  assert (Hk : forall k, find_one k (configs s1) = set_active false <$> find_one k (configs s)).
  { intros k. rewrite H1. case_bool_decide; [subst; by rewrite Hc|done]. }
  do 2 (split; [done|]). unfold getCurrentRate, bind. rewrite getActiveConfig_none; [done|].
  intros k d. rewrite Hk. destruct (find_one k (configs s)); simpl; [|done]. by intros [= <-].
Qed.

(** *** Bounds, and what escapes them *)

(** Whatever the utilization and the previous rate, a rate computed under a
    configuration whose floor is not above its ceiling lies between the two, or is
    not a number. *)
Theorem rate_within_bounds (u : number) (c : InterestRateConfig) (prev : option string) :
  num_leb (Number_of_string (min_rate c)) (Number_of_string (max_rate c)) = true ->
  num_nan (rate_value u c prev) = true \/
  (num_leb (Number_of_string (min_rate c)) (rate_value u c prev) = true /\
   num_leb (rate_value u c prev) (Number_of_string (max_rate c)) = true).
Proof.
  intros Hle. assert (Hn : num_nan (Number_of_string (min_rate c)) = false /\
                           num_nan (Number_of_string (max_rate c)) = false).
  { revert Hle. unfold num_leb, SFleb. destruct (Number_of_string (min_rate c)), (Number_of_string (max_rate c)); done. }
  unfold rate_value. set (x := match prev with Some _ => _ | None => _ end). clearbody x. unfold clamp.
  destruct Hn. destruct (num_nan x) eqn:Hx; [left; by rewrite clamp_nan|right]. by apply clamp_bounds.
Qed.

(** A rate smoothed with [NaN] is [NaN]. *)
Lemma calculateRate_NaN u c : calculateRate u c (Some "NaN"%string) = "NaN"%string.
Proof.
  unfold calculateRate, rate_value. change (Number_of_string "NaN") with S754_nan.
  rewrite num_mul_nan, num_add_nan. unfold clamp at 1. by rewrite clamp_nan.
Qed.

(** The history of a configuration holds rates, and none is a number. *)
Definition poisoned (id : nat) (s : state) : Prop :=
  (exists k h, find_one k (history s) = Some h /\ config_id h = id) /\
  forall k h, find_one k (history s) = Some h -> config_id h = id -> calculated_rate h = "NaN"%string.

Lemma last_history_poisoned id s :
  poisoned id s -> exists k h, last_history id s = Some (k, h) /\ calculated_rate h = "NaN"%string.
Proof.
  intros [(k & h & Hk & Hid) Hall]. unfold last_history.
  set (l := order_by _ _). assert (Hl : forall k h, (k, h) ∈ l <-> find_one k (history s) = Some h /\ config_id h = id).
  { intros k' h'. subst l. rewrite order_by_perm, elem_of_List_filter, elem_of_rows. simpl.
    by rewrite bool_decide_eq_true. }
  clearbody l. destruct l as [|[k' h'] l].
  - exfalso. assert (Hin : (k, h) ∈ @nil (nat * InterestRateHistory)) by by apply Hl. by apply elem_of_nil in Hin.
  - exists k', h'. split; [done|]. destruct (proj1 (Hl k' h')) as [H1 H2]; [set_solver|]. by apply (Hall k').
Qed.

Lemma store_numeric_pure {St} p sc t (s : St) : (store_numeric p sc t s).2 = s.
Proof. unfold store_numeric. by destruct (numeric_column p sc t). Qed.

Lemma totals_pure (s : state) : (getTotalDeposits s).2 = s /\ (getTotalBorrowed s).2 = s.
Proof.
  assert (Hd : (getTotalDeposits s).2 = s).
  { unfold getTotalDeposits. run. destruct (mapM _ _); simpl; [|done]. by destruct (mapM _ _). }
  split; [done|]. unfold getTotalBorrowed, bind. destruct (getTotalDeposits s) as [[]]; simpl in *; by subst.
Qed.

(** Every rate computed for it is again [NaN]. *)
Lemma calculate_poisoned id now s :
  poisoned id s ->
  poisoned id (calculateCurrentRate id now s).2 /\
  (forall d, (calculateCurrentRate id now s).1 = Ret d -> apy d = "NaN"%string).
Proof.
  intros Hp. destruct (last_history_poisoned id s Hp) as (k & h & Hl & Hh).
  unfold calculateCurrentRate, getConfig. run. destruct (find_one id (configs s)) as [c|]; [|done]. simpl.
  destruct (totals_pure s) as [Hd Hb]. destruct (getTotalDeposits s) as [[dep|] s1]; simpl in Hd; subst s1; [|done].
  destruct (getTotalBorrowed s) as [[bor|] s1]; simpl in Hb; subst s1; [|done].
  rewrite Hl. simpl. rewrite Hh, calculateRate_NaN. set (u := calculateUtilization dep bor). clearbody u.
  destruct (numeric_column 5 4 (num_to_string u)) as [ratio|] eqn:Hr; unfold store_numeric; rewrite Hr; [|done].
  change (rate_or_zero (Some "NaN"%string)) with "NaN"%string.
  change (num_sub (Number_of_string "NaN") (Number_of_string "NaN")) with S754_nan.
  cbn -[find_one save fresh_id history set_history]. split; [|by intros d [= <-]]. destruct Hp as [(k0 & h0 & Hk0 & Hid0) Hall].
  pose proof (fresh_id_None (history s)) as Hf. split; simpl.
  - exists k0, h0. rewrite find_one_save_ne; [done|]. intros Hn. rewrite Hn in Hf. congruence.
  - intros k' h'. rewrite find_one_save. case_decide; [by intros [= <-]|]. apply Hall.
Qed.

(** The operations of the API and the deposits changing around them. *)
Inductive op :=
| Create (data : CreateData) (now : Z)
| Update (configId : nat) (data : UpdateData)
| Activate (configId : nat)
| Calculate (configId : nat) (now : Z)
| Oracle (data : OracleInput) (now : Z)
| Deposits (b : table string Balance.Balance).

Definition exec (o : op) (s : state) : state :=
  match o with
  | Create d now => (createConfig d now s).2
  | Update id d => (updateConfig id d s).2
  | Activate id => (activateConfig id s).2
  | Calculate id now => (calculateCurrentRate id now s).2
  | Oracle d now => (updateOraclePrice d now s).2
  | Deposits b => mkState (configs s) (history s) (oracle s) b
  end.

Definition run_ops (ops : list op) (s : state) : state := foldl (fun s o => exec o s) s ops.

(** Only a calculation writes the history. *)
Lemma save_config_history id c s : history (save_config id c s).2 = history s.
Proof.
  unfold save_config, config_row, write. run.
  repeat (case_bool_decide; simpl; [|unfold store_numeric; destruct (numeric_column _ _ _); simpl; [|done]]); done.
Qed.

Lemma updateConfig_history id d s : history (updateConfig id d s).2 = history s.
Proof.
  unfold updateConfig, getConfig. run. destruct (find_one id (configs s)) as [c|]; [|done]. simpl.
  destruct d as [? ? b lo hi o up dn sm ? a]. simpl.
  destruct b; try done; destruct lo; try done; destruct hi; try done; destruct o; try done; destruct up; try done;
    destruct dn; try done; destruct sm; try done; destruct a; try done; apply save_config_history.
Qed.

Lemma calculate_appends id now s :
  let s' := (calculateCurrentRate id now s).2 in
  history s' = history s \/
  exists h, config_id h = id /\ history s' = save (fresh_id (history s)) h (history s).
Proof.
  unfold calculateCurrentRate, getConfig. run. destruct (find_one id (configs s)) as [c|]; [|by left]. simpl.
  destruct (totals_pure s) as [Hd Hb].
  destruct (getTotalDeposits s) as [[dep|] s1]; simpl in Hd; subst s1; [|by left].
  destruct (getTotalBorrowed s) as [[bor|] s1]; simpl in Hb; subst s1; [|by left].
  unfold store_numeric. do 4 (destruct (numeric_column _ _ _); simpl; [|by left]).
  right. by eexists (mkHistory _ _ _ _ _ _ _ _ _).
Qed.

Lemma poisoned_history id s s' : history s' = history s -> poisoned id s -> poisoned id s'.
Proof. unfold poisoned. by intros ->. Qed.

Lemma poisoned_calculate id j now : preserves (poisoned id) (calculateCurrentRate j now).
Proof.
  intros s Hp. destruct (decide (j = id)) as [->|Hj]; [by apply calculate_poisoned|].
  destruct (calculate_appends j now s) as [He|(h & Hh & He)]; [by apply (poisoned_history _ s)|].
  destruct Hp as [(k0 & h0 & Hk0 & Hid0) Hall]. split; rewrite He.
  - exists k0, h0. rewrite find_one_save_ne; [done|]. intros Hn.
    pose proof (fresh_id_None (history s)) as Hf. rewrite Hn in Hf. congruence.
  - intros k h'. rewrite find_one_save. case_decide; [|by apply Hall]. intros [= <-]. congruence.
Qed.

Lemma for_each_history {A} (f : A -> M state unit) l s :
  (forall x s, history (f x s).2 = history s) -> history (for_each f l s).2 = history s.
Proof.
  intros Hf. apply (preserves_for_each (fun s' => history s' = history s) f l); [|done].
  intros x s' Hs'. by rewrite Hf.
Qed.

Lemma activateConfig_history id s : history (activateConfig id s).2 = history s.
Proof.
  unfold activateConfig, listConfigs. unfold bind at 1. run.
  set (l := order_by _ _). clearbody l.
  assert (Hd : forall x s, history (deactivate id x s).2 = history s).
  { intros x s'. unfold deactivate. destruct (negb _ && _); [|done]. unfold bind.
    pose proof (updateConfig_history x.1 (only_active false) s') as H.
    destruct (updateConfig x.1 (only_active false) s') as [[]]; done. }
  pose proof (for_each_history _ l s Hd) as Hl. destruct (for_each (deactivate id) l s) as [[] s1]; simpl in *; [|done].
  pose proof (updateConfig_history id (only_active true) s1) as H.
  destruct (updateConfig id (only_active true) s1) as [[] s2]; simpl in *; congruence.
Qed.

Lemma exec_poisoned id o s : poisoned id s -> poisoned id (exec o s).
Proof.
  intros Hp. destruct o; simpl; try (by apply poisoned_calculate); apply (poisoned_history _ s); try done.
  - unfold createConfig. run. pose proof save_config_history as H.
    match goal with |- context [save_config ?i ?c ?st] => specialize (H i c st); destruct (save_config i c st) as [[]] end; done.
  - apply updateConfig_history.
  - apply activateConfig_history.
  - unfold updateOraclePrice, timestamptz. run. destruct (i_price_timestamp data); simpl; [|done].
    destruct (i_confidence data); [|done]. unfold store_numeric. by destruct (numeric_column _ _ _).
Qed.

(** A rate that is not a number is never recovered from: once the rates recorded for
    a configuration are [NaN], every later calculation of it answers [NaN], whatever
    happens to the deposits and however the configuration is corrected. *)
Theorem nan_rate_sticks (id : nat) (s : state) (ops : list op) (now : Z) (d : CurrentInterestRateDto) :
  poisoned id s -> (calculateCurrentRate id now (run_ops ops s)).1 = Ret d -> apy d = "NaN"%string.
Proof.
  intros Hp. assert (Hr : poisoned id (run_ops ops s)).
  { revert s Hp. induction ops as [|o ops IH]; intros s Hp; [done|]. apply IH. by apply exec_poisoned. }
  by apply calculate_poisoned.
Qed.
End service.

(** *** Concrete runs *)

Definition n_ (m e : Z) : number := num_of_decimal m e.

Definition vault : CreateData :=
  mkCreate "Main Vault" "flexible" None (n_ 5 0) (n_ 1 0) (n_ 20 0) (n_ 85 (-2)) (n_ 5 (-2)) (n_ 25 (-2)) (n_ 1 (-1)) None.
(** The lowest optimum the validation admits. *)
Definition vault_zero : CreateData :=
  mkCreate "Main Vault" "flexible" None (n_ 5 0) (n_ 1 0) (n_ 20 0) (n_ 0 0) (n_ 5 (-2)) (n_ 25 (-2)) (n_ 1 (-1)) None.

Definition no_rows : state (B := MemBackend) := mkState [] [] [] [].
Definition some_deposits : table (Backend := MemBackend) string Balance.Balance :=
  [("alice"%string, Balance.mkBalance "alice" "1000" 0 0)].

(** The first rate, on 350 of 1000 borrowed: 5 + 5 * (0.35 / 0.85); then smoothed. *)
Example first_rates :
  let s := run_ops [Create vault 1; Deposits some_deposits; Calculate 1 2] no_rows in
  apy <$> (match (getCurrentRate 3 s).1 with Ret d => Some d | _ => None end) = Some "7.0588"%string /\
  (calculated_rate <$> (rows (history s)).*2) = ["7.0588"%string].
Proof. vm_compute. done. Qed.

Definition configured : state (B := MemBackend) := run_ops [Create vault 1; Create vault_zero 2] no_rows.

Lemma activate_makes_unique_witness :
  exists c, find_one 1%nat (configs configured) = Some c /\
  exists s', (activateConfig 1 configured).2 = s' /\ getActiveConfig s' = (Ret (1%nat, set_active true c), s').
Proof.
  eexists. split; [vm_compute; reflexivity|].
  destruct (activate_makes_unique 1%nat _ configured ltac:(vm_compute; reflexivity))
    as (s' & H & _ & _ & _ & _ & _ & Ha).
  exists s'. split; [exact H|exact Ha].
Defined.

Lemma activate_unknown_disables_all_witness :
  find_one 7%nat (configs configured) = None /\
  exists s', (activateConfig 7 configured).2 = s' /\
    getCurrentRate 5 s' = (Throw (NotFoundException "No active interest rate configuration found"), s').
Proof.
  split; [vm_compute; reflexivity|].
  destruct (activate_unknown_disables_all 7%nat configured 5 ltac:(vm_compute; reflexivity)) as (s' & H & _ & Ha).
  exists s'. split; [by rewrite H|exact Ha].
Defined.

Definition stored_vault : InterestRateConfig :=
  mkConfig "Main Vault" "flexible" "USDC" "5.0000" "1.0000" "20.0000" "0.8500" "0.0500" "0.2500" "0.1000" true None 1.

Lemma rate_within_bounds_witness :
  num_leb (Number_of_string (min_rate stored_vault)) (Number_of_string (max_rate stored_vault)) = true /\
  (num_nan (rate_value one stored_vault None) = true \/
   (num_leb (Number_of_string (min_rate stored_vault)) (rate_value one stored_vault None) = true /\
    num_leb (rate_value one stored_vault None) (Number_of_string (max_rate stored_vault)) = true)) /\
  calculateRate one stored_vault None = "20.0000"%string.
Proof.
  split; [vm_compute; reflexivity|]. split; [|vm_compute; reflexivity].
  apply (rate_within_bounds one stored_vault None). vm_compute. reflexivity.
Defined.

(** Without deposits [0 / 0] poisons the history; correcting the configuration and
    adding deposits does not help. *)
Definition poisoned_run : state (B := MemBackend) := run_ops [Create vault_zero 1; Calculate 1 2] no_rows.
Definition repair : list op :=
  [Update 1 (mkUpdate Undefined Undefined Undefined Undefined Undefined (Given (n_ 85 (-2))) Undefined Undefined
               Undefined Undefined Undefined);
   Deposits some_deposits; Calculate 1 3].

Lemma nan_rate_sticks_witness :
  poisoned 1 poisoned_run /\
  exists d, (calculateCurrentRate 1 4 (run_ops repair poisoned_run)).1 = Ret d /\ apy d = "NaN"%string.
Proof.
  assert (Hp : poisoned 1 poisoned_run).
  { split.
    - eexists 1%nat, _. split; vm_compute; reflexivity.
    - intros k h Hk _. destruct k as [|[|k]]; vm_compute in Hk; by simplify_eq. }
  split; [exact Hp|]. eexists. split; [vm_compute; reflexivity|].
  apply (nan_rate_sticks 1 poisoned_run repair 4); [exact Hp|vm_compute; reflexivity].
Defined.

(** A smoothing factor of zero, documented as no smoothing, keeps the previous rate for
    ever; one of one, documented as infinite smoothing, ignores it. *)
Definition with_smoothing (t : string) (c : InterestRateConfig) : InterestRateConfig :=
  mkConfig (name c) (description c) (asset c) (base_rate c) (min_rate c) (max_rate c) (optimal_utilization c)
    (slope_up c) (slope_down c) t (is_active c) (notes c) (created_at c).

Lemma smoothing_is_reversed :
  calculateRate one (with_smoothing "0.0000" stored_vault) (Some "5.0000"%string) = "5.0000"%string /\
  calculateRate one (with_smoothing "1.0000" stored_vault) (Some "5.0000"%string) =
    calculateRate one stored_vault None.
Proof. split; vm_compute; reflexivity. Qed.
End InterestRates.
