(* ===== verification/NftRewards.v ===== *)
(** * NFT rewards

    Models [backend/src/nft-rewards]: the progress of an account towards a milestone
    ([milestone-evaluator.service.ts]), the rewards of the milestones reached and their
    metadata ([nft-rewards.service.ts], [nft-metadata.service.ts]), the transfer endpoint
    of [nft-rewards.controller.ts] and the configuration of the milestones
    ([nft-rewards-admin.service.ts]). *)
From Stdlib Require Import ZArith Lia SpecFloat Ascii Sorted.
From stdpp Require Import base list strings sets.
From S2P Require Import Prelude Storage JsValue JsNumber Balance Goals Indexer Streaks.
Local Open Scope Z_scope.

Module NftRewards.

#[local] Existing Instance Indexer.ContractEventStatus_eq_dec.
#[local] Existing Instance Goals.GoalStatus_eq_dec.

Inductive MilestoneType := SAVINGS_AMOUNT | GOALS_REACHED | CONSECUTIVE_DEPOSITS | ACTIVITY_STREAK.
Inductive NftRewardStatus := EARNED | MINTED | TRANSFERRED.

#[export] Instance MilestoneType_eq_dec : EqDecision MilestoneType.
Proof. solve_decision. Defined.
#[export] Instance NftRewardStatus_eq_dec : EqDecision NftRewardStatus.
Proof. solve_decision. Defined.

Definition milestone_type_text (t : MilestoneType) : string :=
  match t with
  | SAVINGS_AMOUNT => "savings_amount"
  | GOALS_REACHED => "goals_reached"
  | CONSECUTIVE_DEPOSITS => "consecutive_deposits"
  | ACTIVITY_STREAK => "activity_streak"
  end.

Record NftRewardMilestone := mkMilestone {
  milestone_type : MilestoneType;
  threshold : Z;
  name : string;
  description : string;
  nft_title : string;
  nft_description : string;
  image_ipfs_cid : string;
  rarity_tier : Z;
  is_active : bool;
  is_soulbound : bool;
}.

(** The [user_nft_rewards] entity; its contract address, token id, transaction and
    ledger columns are never written. *)
Record UserNftReward := mkReward {
  user_id : string;
  milestone_id : nat;
  status : NftRewardStatus;
  metadata_ipfs_cid : option string;
  earned_at : Z;
  minted_at : option Z;
  transferred_at : option Z;
}.

(** An attribute of the metadata; the date is printed in ISO format. *)
Inductive trait_value := TText (s : string) | TDate (t : Z).

Record NftMetadataDto := mkMetadata {
  md_name : string;
  md_description : string;
  md_image : string;
  md_external_url : string;
  md_attributes : list (string * trait_value);
  md_category : string;
  md_milestone_type : string;
  md_rarity : string;
}.

Record GenerateNftMetadataDto := mkGenerate {
  g_user_address : string;
  g_milestone_name : string;
  g_milestone_type : MilestoneType;
  g_image_ipfs_cid : string;
  g_earned_date : Z;
  g_rarity_tier : Z;
  g_is_soulbound : bool;
}.

Record MilestoneProgressDto := mkProgress {
  p_milestone_id : nat;
  p_milestone_type : MilestoneType;
  p_name : string;
  p_description : string;
  p_threshold : Z;
  current_value : number;
  progress_percentage : number;
  is_earned : bool;
  p_earned_at : option Z;
  p_rarity_tier : Z;
  p_is_soulbound : bool;
}.

Record UserMilestonesResponseDto := mkMilestones {
  total_milestones : Z;
  earned_count : Z;
  in_progress : list MilestoneProgressDto;
  completed : list MilestoneProgressDto;
}.

Record CreateMilestoneDto := mkCreate {
  c_milestone_type : MilestoneType;
  c_threshold : Z;
  c_name : string;
  c_description : string;
  c_nft_title : string;
  c_nft_description : string;
  c_image_ipfs_cid : string;
  c_rarity_tier : option Z;
  c_is_soulbound : option bool;
}.

Record UpdateMilestoneDto := mkUpdate {
  u_name : option string;
  u_description : option string;
  u_nft_title : option string;
  u_nft_description : option string;
  u_image_ipfs_cid : option string;
  u_rarity_tier : option Z;
  u_is_soulbound : option bool;
  u_is_active : option bool;
}.

(** ** Progress *)

Definition DAY : Z := 1000 * 60 * 60 * 24.

(** A row of [contract_events] with its [created_at]. *)
Definition event_row : Type := Indexer.ContractEvent * Z.

Definition processed (types : list string) (r : event_row) : bool :=
  bool_decide (Indexer.event_type r.1 ∈ types) && bool_decide (Indexer.status r.1 = Indexer.PROCESSED).

(** The loop over the deposits, newest first: [last] is the date of the previous
    deposit of the account. *)
Fixpoint count_deposits (address : string) (deposits : list event_row) (consecutive : Z) (last : option Z) : Z :=
  match deposits with
  | [] => consecutive
  | r :: rest =>
      if negb (bool_decide (as_string (prop (Indexer.data r.1) "account") = Some address)) then count_deposits address rest consecutive last
      else match last with
           | None => count_deposits address rest 1 (Some r.2)
           | Some l =>
               if (l - r.2) / DAY <=? 1 then count_deposits address rest (consecutive + 1) (Some r.2)
               else consecutive
           end
  end.

(** [event.data->>'key']: the text of a composite value is never an address. *)
Definition json_text (v : jsval) : option string :=
  match v with
  | VUndef | VNull => None
  | VArr _ | VObj _ => Some ""%string
  | _ => Some (js_String v)
  end.

(** [COALESCE(event.data->>'account', event.data->>'user')]. *)
Definition event_address (data : record) : option string :=
  match json_text (prop data "account") with Some a => Some a | None => json_text (prop data "user") end.

(** The loop over the days, latest first; a day is its number of days since 1970, and
    [expected] a time. *)
Fixpoint count_days (days : list Z) (consecutive expected : Z) : Z :=
  match days with
  | [] => consecutive
  | d :: rest =>
      let daysDiff := (expected - d * DAY) / DAY in
      if (daysDiff =? 0) || ((consecutive =? 0) && (0 <=? daysDiff))
      then count_days rest (consecutive + 1) (d * DAY - DAY)
      else if 0 <? daysDiff then consecutive
      else count_days rest consecutive expected
  end.

(** [parseInt(s, 10)]. *)
Definition parseInt (s : string) : number :=
  let '(neg, r) := match trim_start s with
                   | String "+" r => (false, r)
                   | String "-" r => (true, r)
                   | r => (false, r)
                   end%char in
  let '(v, n, _) := take_digits 0 0 r in
  if n =? 0 then S754_nan else num_of_Z (if neg : bool then - v else v).

(** [Math.round] as a number. *)
Definition Math_round (f : number) : number :=
  match num_round f with Some z => num_of_Z z | None => f end.

(** ** Metadata *)

Definition getRarityTierName (tier : Z) : string :=
  if tier =? 2 then "Uncommon" else if tier =? 3 then "Rare" else if tier =? 4 then "Epic"
  else if tier =? 5 then "Legendary" else "Common".

(** [PINATA_GATEWAY], and the answer of the pinning service when its keys are set. *)
Record Pinata := mkPinata {
  gateway : string;
  pinToIpfs : option (NftMetadataDto -> outcome string);
}.

Definition metadata_of (p : Pinata) (d : GenerateNftMetadataDto) : NftMetadataDto :=
  let tier := getRarityTierName (g_rarity_tier d) in
  mkMetadata (g_milestone_name d)
    ("Milestone achievement unlocked on Stow. " +:+
       (if g_is_soulbound d then "This is a soulbound NFT and cannot be transferred." else ""))
    (gateway p +:+ g_image_ipfs_cid d)
    ("https://stow.app/achievements/" +:+ g_user_address d)
    [("Milestone Type"%string, TText (milestone_type_text (g_milestone_type d)));
     ("Rarity Tier"%string, TText tier);
     ("Earned Date"%string, TDate (g_earned_date d));
     ("Soulbound"%string, TText (if g_is_soulbound d then "Yes" else "No"))]
    "Stow Milestone" (milestone_type_text (g_milestone_type d)) tier.

Definition generateAndPinMetadata (p : Pinata) (d : GenerateNftMetadataDto) (now : Z) : outcome (string * NftMetadataDto) :=
  let md := metadata_of p d in
  match pinToIpfs p with
  | None => Ret ("mock_" +:+ Z_to_string now, md)
  | Some pin => match pin md with Ret cid => Ret (cid, md) | Throw e => Throw e end
  end.

Definition getMetadataUrl (p : Pinata) (cid : string) : string :=
  if String.prefix "mock_" cid then "ipfs://" +:+ cid else gateway p +:+ cid.

(** ** The services *)

Section service.
Context {B : Backend} (pinata : Pinata).

(** The live accounts with their addresses, the tables of the component and the tables
    it reads. *)
Record state := mkState {
  users : list (string * string);
  milestones : table nat NftRewardMilestone;
  rewards : table nat UserNftReward;
  balances : table string Balance.Balance;
  goals : table string Goals.Goal;
  events : table nat event_row;
}.

Definition set_milestones f s := mkState (users s) (f (milestones s)) (rewards s) (balances s) (goals s) (events s).
Definition set_rewards f s := mkState (users s) (milestones s) (f (rewards s)) (balances s) (goals s) (events s).

Definition find_user (userId : string) (s : state) : option (string * string) :=
  List.find (fun u => bool_decide (u.1 = userId)) (users s).

Definition no_user (userId : string) : exn := NotFoundException ("User " +:+ userId +:+ " not found").

Definition getSavingsAmount (address : string) (s : state) : number :=
  match find_one address (balances s) with
  | None => num_of_Z 0
  | Some b => parseInt (Balance.amount b)
  end.

Definition getGoalsReached (address : string) (s : state) : Z :=
  count_where (fun _ g => bool_decide (Goals.owner g = address) && bool_decide (Goals.status g = Goals.REACHED)) (goals s).

(** [ORDER BY ledger DESC, log_index DESC LIMIT 100]; [log_index] is a 32-bit column. *)
Definition getConsecutiveDeposits (address : string) (s : state) : Z :=
  count_deposits address
    (take 100 (order_by (fun r => - (Indexer.ledger r.1 * 2 ^ 32 + Indexer.log_index r.1))
       (List.filter (processed ["deposit"%string]) ((rows (events s)).*2)))) 0 None.

(** The rows of the query of [getActivityStreak]. *)
Definition activity (address : string) (s : state) : list event_row :=
  take 365 (order_by (fun r => - r.2)
    (List.filter (fun r => processed ["deposit"%string; "withdraw"%string] r &&
                           bool_decide (event_address (Indexer.data r.1) = Some address)) ((rows (events s)).*2))).

(** Their days, each once. *)
Definition day_set (evs : list event_row) : list Z := Streaks.distinct ((fun r => r.2 / DAY) <$> evs).

Definition getActivityStreak (address : string) (now : Z) (s : state) : Z :=
  let evs := activity address s in
  match evs with
  | [] => 0
  | _ => count_days (rev (sort_by (fun d => d) (day_set evs))) 0 now
  end.

Definition getProgress (address : string) (t : MilestoneType) (now : Z) (s : state) : number :=
  match t with
  | SAVINGS_AMOUNT => getSavingsAmount address s
  | GOALS_REACHED => num_of_Z (getGoalsReached address s)
  | CONSECUTIVE_DEPOSITS => num_of_Z (getConsecutiveDeposits address s)
  | ACTIVITY_STREAK => num_of_Z (getActivityStreak address now s)
  end.

Definition find_reward (userId : string) (mid : nat) (s : state) : option (nat * UserNftReward) :=
  List.find (fun r => bool_decide (user_id r.2 = userId) && bool_decide (milestone_id r.2 = mid)) (rows (rewards s)).

(** [rewardRepository.save] of a new row: a user has one row per milestone. *)
Definition insert_reward (r : UserNftReward) : M state nat :=
  await taken := gets (find_reward (user_id r) (milestone_id r)) in
  match taken with
  | Some _ => throw (DatabaseError "23505")
  | None =>
      await id := gets (fun s => fresh_id (rewards s)) in
      do modify (set_rewards (save id r)) ;>
      ret id
  end.

Definition of_outcome {A} (o : outcome A) : M state A := match o with Ret a => ret a | Throw e => throw e end.

Definition mint_details (address : string) (m : NftRewardMilestone) (now : Z) : GenerateNftMetadataDto :=
  mkGenerate address (nft_title m) (milestone_type m) (image_ipfs_cid m) now (rarity_tier m) (is_soulbound m).

Definition createAndMintReward (userId : string) (mid : nat) (m : NftRewardMilestone) (now : Z) : M state UserNftReward :=
  await user := gets (find_user userId) in
  match user with
  | None => throw (no_user userId)
  | Some u =>
      let reward := mkReward userId mid EARNED None now None None in
      await id := insert_reward reward in
      await pinned := of_outcome (generateAndPinMetadata pinata (mint_details u.2 m now) now) in
      let saved := mkReward userId mid MINTED (Some pinned.1) now (Some now) None in
      do modify (set_rewards (save id saved)) ;>
      ret saved
  end.

Definition evaluate_milestone (userId address : string) (now : Z) (r : nat * NftRewardMilestone) : M state unit :=
  await existing := gets (find_reward userId r.1) in
  match existing with
  | Some _ => ret tt
  | None =>
      await progress := gets (getProgress address (milestone_type r.2) now) in
      if num_leb (num_of_Z (threshold r.2)) progress then
        await saved := createAndMintReward userId r.1 r.2 now in ret tt
      else ret tt
  end.

Definition active_milestones (s : state) : list (nat * NftRewardMilestone) :=
  List.filter (fun r => is_active r.2) (rows (milestones s)).

Definition evaluateAndMintRewards (userId : string) (now : Z) : M state unit :=
  await user := gets (find_user userId) in
  match user with
  | None => throw (no_user userId)
  | Some u =>
      await ms := gets active_milestones in
      for_each (evaluate_milestone userId u.2 now) ms
  end.

Definition progress_of (earned : list UserNftReward) (address : string) (now : Z) (s : state)
    (r : nat * NftRewardMilestone) : MilestoneProgressDto :=
  let progress := getProgress address (milestone_type r.2) now s in
  let reward := List.find (fun w => bool_decide (milestone_id w = r.1)) earned in
  mkProgress r.1 (milestone_type r.2) (name r.2) (description r.2) (threshold r.2) progress
    (Math_min (num_of_Z 100) (Math_round (num_mul (num_div progress (num_of_Z (threshold r.2))) (num_of_Z 100))))
    (match reward with Some _ => true | None => false end) (earned_at <$> reward)
    (rarity_tier r.2) (is_soulbound r.2).

Definition user_rewards (userId : string) (s : state) : list (nat * UserNftReward) :=
  List.filter (fun r => bool_decide (user_id r.2 = userId)) (rows (rewards s)).

Definition getUserMilestoneProgress (userId : string) (now : Z) : M state UserMilestonesResponseDto :=
  await user := gets (find_user userId) in
  match user with
  | None => throw (no_user userId)
  | Some u =>
      await ms := gets (fun s => order_by (fun r => threshold r.2) (active_milestones s)) in
      await dtos := gets (fun s => progress_of ((user_rewards userId s).*2) u.2 now s <$> ms) in
      let done := List.filter is_earned dtos in
      ret (mkMilestones (Z.of_nat (length ms)) (Z.of_nat (length done))
             (List.filter (fun d => negb (is_earned d)) dtos) done)
  end.

Definition no_reward (id : nat) : exn := NotFoundException ("Reward " +:+ Z_to_string (Z.of_nat id) +:+ " not found").

(** The reward with its milestone, which the foreign key keeps. *)
Definition getReward (id : nat) : M state (UserNftReward * option NftRewardMilestone) :=
  await r := gets (fun s => find_one id (rewards s)) in
  match r with
  | None => throw (no_reward id)
  | Some w => await m := gets (fun s => find_one (milestone_id w) (milestones s)) in ret (w, m)
  end.

Definition getUserRewards (userId : string) : M state (list (nat * UserNftReward)) :=
  gets (fun s => order_by (fun r => - earned_at r.2) (user_rewards userId s)).

Definition set_status (newStatus : NftRewardStatus) (now : Z) (w : UserNftReward) : UserNftReward :=
  mkReward (user_id w) (milestone_id w) newStatus (metadata_ipfs_cid w) (earned_at w) (minted_at w)
    (match newStatus with TRANSFERRED => Some now | _ => transferred_at w end).

Definition updateRewardStatus (id : nat) (newStatus : NftRewardStatus) (now : Z) : M state UserNftReward :=
  await found := getReward id in
  await bound := match newStatus, found.2 with
                 | TRANSFERRED, None => throw (TypeError "Cannot read properties of null (reading 'is_soulbound')")
                 | TRANSFERRED, Some m => ret (is_soulbound m)
                 | _, _ => ret false
                 end in
  if bound : bool then throw (JsError "Cannot transfer soulbound NFT")
  else
    let w := set_status newStatus now found.1 in
    do modify (set_rewards (save id w)) ;>
    ret w.

(** The endpoint [PATCH rewards/:rewardId/transfer]. *)
Definition transferReward (userId : string) (id : nat) (now : Z) : M state UserNftReward :=
  await found := getReward id in
  if negb (bool_decide (user_id found.1 = userId)) then throw (BadRequestException "You do not own this reward")
  else updateRewardStatus id TRANSFERRED now.

(** *** Administration *)

(** [ORDER BY rarity_tier, threshold]; the threshold is a 64-bit column. *)
Definition listMilestones (active : option bool) : M state (list (nat * NftRewardMilestone)) :=
  gets (fun s => order_by (fun r => rarity_tier r.2 * 2 ^ 64 + threshold r.2)
    (List.filter (fun r => match active with Some b => Bool.eqb (is_active r.2) b | None => true end) (rows (milestones s)))).

Definition getMilestone (id : nat) : M state NftRewardMilestone :=
  await m := gets (fun s => find_one id (milestones s)) in
  of_option (NotFoundException ("Milestone " +:+ Z_to_string (Z.of_nat id) +:+ " not found")) m.

Definition createMilestone (d : CreateMilestoneDto) : M state (nat * NftRewardMilestone) :=
  let m := mkMilestone (c_milestone_type d) (c_threshold d) (c_name d) (c_description d) (c_nft_title d)
             (c_nft_description d) (c_image_ipfs_cid d) (default 1 (c_rarity_tier d)) true
             (default false (c_is_soulbound d)) in
  await id := gets (fun s => fresh_id (milestones s)) in
  do modify (set_milestones (save id m)) ;>
  ret (id, m).

(** [Object.assign(milestone, data)]. *)
Definition assign (m : NftRewardMilestone) (d : UpdateMilestoneDto) : NftRewardMilestone :=
  mkMilestone (milestone_type m) (threshold m) (default (name m) (u_name d)) (default (description m) (u_description d))
    (default (nft_title m) (u_nft_title d)) (default (nft_description m) (u_nft_description d))
    (default (image_ipfs_cid m) (u_image_ipfs_cid d)) (default (rarity_tier m) (u_rarity_tier d))
    (default (is_active m) (u_is_active d)) (default (is_soulbound m) (u_is_soulbound d)).

Definition updateMilestone (id : nat) (d : UpdateMilestoneDto) : M state NftRewardMilestone :=
  await m := getMilestone id in
  do modify (set_milestones (save id (assign m d))) ;>
  ret (assign m d).

Definition count_status (st : NftRewardStatus) (l : list UserNftReward) : Z :=
  Z.of_nat (length (List.filter (fun w => bool_decide (status w = st)) l)).

(** The counters in the order of the source, and the number of rewards of a tier. *)
Definition getStats : M state (Z * Z * Z * Z * (Z -> Z)) :=
  gets (fun s =>
    (count_where (fun _ _ => true) (milestones s), count_where (fun _ m => is_active m) (milestones s),
     Z.of_nat (length (rows (rewards s))), count_status MINTED ((rows (rewards s)).*2),
     fun tier => count_where (fun _ w => bool_decide (rarity_tier <$> find_one (milestone_id w) (milestones s) = Some tier))
                   (rewards s))).

Definition getUserRewardsAdmin (userId : string) : M state (Z * (Z * Z * Z) * list (nat * UserNftReward)) :=
  await l := getUserRewards userId in
  ret (Z.of_nat (length l),
       (count_status EARNED l.*2, count_status MINTED l.*2, count_status TRANSFERRED l.*2), l).

(** *** The activity streak *)

(** After the latest day the loop counts back day by day. *)
Lemma count_days_back d c l :
  1 <= c -> StronglySorted Z.lt (l ++ [d]) ->
  count_days (rev l) c (d * DAY - DAY) = Streaks.count_back d c (rev l).
Proof.
  revert d c. induction l as [|e l IH] using rev_ind; intros d c Hc Hs; [done|].
  apply Streaks.sorted_snoc in Hs as [Hs Hlt]. rewrite rev_app_distr. cbn [rev app count_days Streaks.count_back].
  assert (He : e < d) by (rewrite Forall_forall in Hlt; apply Hlt; set_solver).
  replace ((d * DAY - DAY - e * DAY) / DAY) with (d - 1 - e)
    by (replace (d * DAY - DAY - e * DAY) with ((d - 1 - e) * DAY) by ring; by rewrite Z.div_mul).
  rewrite (proj2 (Z.eqb_neq c 0)) by lia. cbn [andb]. rewrite orb_false_r.
  destruct (Z.eqb_spec (d - 1 - e) 0), (Z.eqb_spec e (d - 1)); try lia.
  - apply IH; [lia|done].
  - destruct (Z.ltb_spec 0 (d - 1 - e)); [done|lia].
Qed.

(** The activity streak is the length of the run of consecutive UTC days that ends at
    the latest day with a deposit or a withdrawal of the account, however long ago that
    day is. *)
Theorem activity_streak_is_run (address : string) (now : Z) (s : state) :
  let D := (fun r => r.2 / DAY) <$> activity address s in
  D ≠ [] -> Forall (fun d => d * DAY <= now) D ->
  exists latest, latest ∈ D /\ Forall (fun d => d <= latest) D /\
    Streaks.run_ending D latest (getActivityStreak address now s).
Proof.
  intros D Hne Hnow. unfold getActivityStreak, day_set. fold D.
  destruct (activity address s) as [|r0 rs] eqn:Ha; [done|]. destruct (Streaks.distinct_spec D) as [Hnd Hd].
  pose proof (Streaks.sorted_strict _ Hnd) as Hs.
  assert (HL : forall x, x ∈ sort_by (fun d => d) (Streaks.distinct D) <-> x ∈ D) by (intros x; by rewrite sort_by_perm, Hd).
  destruct (sort_by (fun d => d) (Streaks.distinct D)) as [|p0 ps] eqn:HLe.
  { exfalso. assert (H : r0.2 / DAY ∈ D) by (unfold D; csimpl; set_solver). apply HL in H. set_solver. }
  destruct (Streaks.sorted_last p0 ps Hs) as [front Hf]. rewrite Hf in *. set (latest := List.last ps p0) in *.
  assert (Hin : latest ∈ D) by (apply HL; set_solver). exists latest. split; [done|].
  destruct (Streaks.sorted_snoc _ _ Hs) as [_ Hlt]. split.
  { apply Forall_forall. intros x Hx%HL. rewrite Forall_forall in Hlt.
    apply elem_of_app in Hx as [Hx|Hx]; [specialize (Hlt x Hx); lia|set_solver by lia]. }
  rewrite rev_app_distr. cbn [rev app count_days]. rewrite Z.eqb_refl.
  assert (Hle : 0 <= (now - latest * DAY) / DAY).
  { apply Z.div_pos; [|done]. rewrite Forall_forall in Hnow. specialize (Hnow _ Hin). lia. }
  rewrite (proj2 (Z.leb_le 0 _) Hle). cbn [andb]. rewrite orb_true_r, count_days_back by (done || lia).
  destruct (Streaks.count_back_spec front latest 1 Hs) as [[H1 H2] _].
  replace (Streaks.count_back latest 1 (rev front) - 1 + 1) with (Streaks.count_back latest 1 (rev front)) in * by lia.
  split; [intros i Hi; by apply HL, H1|by rewrite <-HL].
Qed.

(** *** What an evaluation does *)

Lemma find_reward_Some u mid s k w :
  find_reward u mid s = Some (k, w) -> find_one k (rewards s) = Some w /\ user_id w = u /\ milestone_id w = mid.
Proof.
  intros [Hin Hp]%find_some. apply list_elem_of_In, elem_of_rows in Hin. split; [done|].
  apply andb_true_iff in Hp as [H1%bool_decide_eq_true H2%bool_decide_eq_true]. done.
Qed.

Lemma find_reward_is_Some u mid s :
  is_Some (find_reward u mid s) <-> exists k w, find_one k (rewards s) = Some w /\ user_id w = u /\ milestone_id w = mid.
Proof.
  split.
  - intros [[k w] Hf]. exists k, w. by apply find_reward_Some.
  - intros (k & w & Hk & Hu & Hm). destruct (find_reward u mid s) as [x|] eqn:Hf; [by exists x|].
    apply elem_of_rows, list_elem_of_In in Hk. apply (find_none _ _ Hf) in Hk. simpl in Hk.
    by rewrite !bool_decide_eq_true_2 in Hk.
Qed.

(** Nothing but new rewards of the user changes. *)
Definition only_adds (u : string) (s s' : state) : Prop :=
  users s' = users s /\ milestones s' = milestones s /\ balances s' = balances s /\ goals s' = goals s /\
  events s' = events s /\
  (forall k w, find_one k (rewards s) = Some w -> find_one k (rewards s') = Some w) /\
  (forall k w, find_one k (rewards s') = Some w -> find_one k (rewards s) = Some w \/ user_id w = u).

Lemma only_adds_refl u s : only_adds u s s.
Proof. unfold only_adds. repeat split; auto. Qed.

Lemma only_adds_trans u s1 s2 s3 : only_adds u s1 s2 -> only_adds u s2 s3 -> only_adds u s1 s3.
Proof.
  intros (? & ? & ? & ? & ? & Ha & Hb) (? & ? & ? & ? & ? & Hc & Hd).
  repeat split; try congruence; [by eauto|]. intros k w Hk. destruct (Hd k w Hk); [by eauto|by right].
Qed.

Lemma only_adds_save u s k w :
  find_one k (rewards s) = None -> user_id w = u -> only_adds u s (set_rewards (save k w) s).
Proof.
  intros Hk Hu. repeat split; simpl.
  - intros k' w'. rewrite find_one_save. case_decide; [congruence|done].
  - intros k' w'. rewrite find_one_save. case_decide; [|by left]. intros [= <-]. by right.
Qed.

Lemma getProgress_frame u a t now s s' : only_adds u s s' -> getProgress a t now s' = getProgress a t now s.
Proof.
  intros (_ & _ & Hb & Hg & He & _). destruct t; simpl.
  - unfold getSavingsAmount. by rewrite Hb.
  - unfold getGoalsReached. by rewrite Hg.
  - unfold getConsecutiveDeposits. by rewrite He.
  - unfold getActivityStreak, activity. by rewrite He.
Qed.

(** The reward of a milestone reached now: minted, or left earned when the metadata
    cannot be pinned. *)
Definition earned_row (u : string) (mid : nat) (now : Z) : UserNftReward := mkReward u mid EARNED None now None None.
Definition minted_row (u : string) (mid : nat) (cid : string) (now : Z) : UserNftReward :=
  mkReward u mid MINTED (Some cid) now (Some now) None.

Definition reached (a : string) (now : Z) (s : state) (m : NftRewardMilestone) : bool :=
  num_leb (num_of_Z (threshold m)) (getProgress a (milestone_type m) now s).

Lemma evaluate_cases u a now mid m s :
  find_user u s = Some (u, a) ->
  evaluate_milestone u a now (mid, m) s =
    (if bool_decide (is_Some (find_reward u mid s)) || negb (reached a now s m) then (Ret tt, s)
     else match generateAndPinMetadata pinata (mint_details a m now) now with
          | Ret p => (Ret tt, set_rewards (save (fresh_id (rewards s)) (minted_row u mid p.1 now))
                               (set_rewards (save (fresh_id (rewards s)) (earned_row u mid now)) s))
          | Throw e => (Throw e, set_rewards (save (fresh_id (rewards s)) (earned_row u mid now)) s)
          end).
Proof.
  intros Hu. unfold evaluate_milestone, createAndMintReward, insert_reward. run.
  destruct (find_reward u mid s) as [x|] eqn:Hf; [by rewrite bool_decide_eq_true_2 by eauto|].
  rewrite bool_decide_eq_false_2 by (by intros [? ?]). simpl. unfold reached.
  destruct (num_leb _ _); simpl; [|done]. rewrite Hu. simpl. rewrite Hf. simpl.
  by destruct (generateAndPinMetadata pinata _ now) as [[cid md]|e].
Qed.

Lemma only_adds_mint u s k w w' :
  find_one k (rewards s) = None -> user_id w' = u ->
  only_adds u s (set_rewards (save k w') (set_rewards (save k w) s)).
Proof.
  intros Hk Hu. repeat split; simpl.
  - intros k' v. rewrite !find_one_save. case_decide; [congruence|done].
  - intros k' v. rewrite !find_one_save. case_decide; [|by left]. intros [= <-]. by right.
Qed.

Lemma evaluate_only_adds u a now r s :
  find_user u s = Some (u, a) -> only_adds u s (evaluate_milestone u a now r s).2.
Proof.
  intros Hu. destruct r as [mid m]. rewrite evaluate_cases by done.
  pose proof (fresh_id_None (rewards s)) as Hf. destruct (_ || _); [apply only_adds_refl|].
  destruct (generateAndPinMetadata _ _ _); simpl; [by apply only_adds_mint|by apply only_adds_save].
Qed.

Definition has (u : string) (mid : nat) (s : state) : Prop :=
  exists k w, find_one k (rewards s) = Some w /\ user_id w = u /\ milestone_id w = mid.

Definition minted (w : UserNftReward) : Prop := status w = MINTED /\ is_Some (metadata_ipfs_cid w).

(** The new rewards are minted. *)
Definition mints (s s' : state) : Prop :=
  forall k w, find_one k (rewards s') = Some w -> find_one k (rewards s) = Some w \/ minted w.

Lemma evaluate_step u a now mid m s s' :
  find_user u s = Some (u, a) -> evaluate_milestone u a now (mid, m) s = (Ret tt, s') ->
  mints s s' /\ forall j, has u j s' <-> has u j s \/ (j = mid /\ reached a now s m = true).
Proof.
  intros Hu. rewrite evaluate_cases by done. pose proof (fresh_id_None (rewards s)) as Hf.
  destruct (bool_decide (is_Some (find_reward u mid s))) eqn:Hh; simpl.
  { intros [= <-]. split; [by left|]. intros j. split; [by left|]. intros [H|[-> _]]; [done|].
    apply bool_decide_eq_true, find_reward_is_Some in Hh. done. }
  destruct (reached a now s m) eqn:Hr; simpl; [|intros [= <-]; split; [by left|]; intros j; naive_solver].
  destruct (generateAndPinMetadata pinata _ now) as [p|e]; [|done]. intros [= <-]. split.
  - intros k w. simpl. rewrite !find_one_save. case_decide; [|by left]. intros [= <-]. right. by split; [|eexists].
  - intros j. split.
    + intros (k & w & Hk & Hw & Hj). simpl in Hk. rewrite !find_one_save in Hk.
      case_decide; [injection Hk as <-; simpl in Hj; right; by rewrite Hj|]. left. by exists k, w.
    + intros [(k & w & Hk & Hw & Hj)|[-> _]].
      * exists k, w. simpl. rewrite !find_one_save. case_decide; [congruence|done].
      * eexists _, (minted_row u mid p.1 now). simpl. by rewrite find_one_save_eq.
Qed.

Lemma find_user_adds u s s' : only_adds u s s' -> find_user u s' = find_user u s.
Proof. unfold find_user. by intros (-> & _). Qed.

Lemma evaluate_all u a now l s s' :
  find_user u s = Some (u, a) -> for_each (evaluate_milestone u a now) l s = (Ret tt, s') ->
  only_adds u s s' /\ mints s s' /\
  forall j, has u j s' <-> has u j s \/ exists m, (j, m) ∈ l /\ reached a now s m = true.
Proof.
  revert s. induction l as [|[mid m] l IH]; intros s Hu; cbn [for_each].
  { intros [= <-]. split; [apply only_adds_refl|]. split; [by left|]. intros j. split; [by left|].
    intros [H|(m & Hin & _)]; [done|set_solver]. }
  unfold bind. pose proof (evaluate_only_adds u a now (mid, m) s Hu) as Ha.
  destruct (evaluate_milestone u a now (mid, m) s) as [[[]|e] s1] eqn:He; [|done]. simpl in Ha. intros Hl.
  destruct (evaluate_step u a now mid m s s1 Hu He) as [Hm Hj].
  destruct (IH s1) as (Ha2 & Hm2 & Hj2); [by rewrite (find_user_adds u s)|done|].
  split; [by apply (only_adds_trans _ _ s1)|]. split.
  - intros k w Hk. destruct (Hm2 k w Hk) as [H|H]; [by apply Hm|by right].
  - intros j. rewrite Hj2, Hj. unfold reached. setoid_rewrite (getProgress_frame u a _ now s s1 Ha).
    fold (reached a now s m). split.
    + intros [[H|[-> H]]|(m' & Hin & H)]; [by left|right; exists m; set_solver|right; exists m'; set_solver].
    + intros [H|(m' & Hin & H)]; [by left; left|]. apply elem_of_cons in Hin as [[= -> ->]|Hin]; [by left; right|].
      right. by exists m'.
Qed.

Lemma find_user_id u s x : find_user u s = Some x -> x = (u, x.2).
Proof. intros [_ Hp%bool_decide_eq_true]%find_some. destruct x. simpl in *. by subst. Qed.

(** A completed evaluation gives a user exactly the rewards due: afterwards the user
    has a reward for an active milestone iff there was one before or its threshold is
    reached, every new reward is minted with its metadata, and no other row of any table
    changes. *)
Theorem evaluation_rewards_reached (u a : string) (now : Z) (s : state) :
  find_user u s = Some (u, a) -> (evaluateAndMintRewards u now s).1 = Ret tt ->
  let s' := (evaluateAndMintRewards u now s).2 in
  only_adds u s s' /\ mints s s' /\
  forall j m, find_one j (milestones s) = Some m -> is_active m = true ->
    (is_Some (find_reward u j s') <-> is_Some (find_reward u j s) \/ reached a now s m = true).
Proof.
  intros Hu. unfold evaluateAndMintRewards. unfold bind, gets. rewrite Hu. simpl.
  destruct (for_each (evaluate_milestone u a now) (active_milestones s) s) as [[[]|e] s'] eqn:He; [|done].
  intros _. destruct (evaluate_all u a now _ s s' Hu He) as (Ha & Hm & Hj). do 2 (split; [done|]).
  intros j m Hf Hact. rewrite !find_reward_is_Some. rewrite (Hj j).
  assert (Hin : forall m', (j, m') ∈ active_milestones s <-> m' = m).
  { intros m'. unfold active_milestones. rewrite elem_of_List_filter, elem_of_rows. simpl.
    split; [intros [? _]; congruence|by intros ->]. }
  split; (intros [H|H]; [by left|right]).
  - destruct H as (m' & ->%Hin & H). done.
  - exists m. by rewrite Hin.
Qed.

Lemma evaluate_loop_adds u a now l s :
  find_user u s = Some (u, a) -> only_adds u s (for_each (evaluate_milestone u a now) l s).2.
Proof.
  revert s. induction l as [|r l IH]; intros s Hu; cbn [for_each]; [apply only_adds_refl|].
  unfold bind. pose proof (evaluate_only_adds u a now r s Hu) as Ha.
  destruct (evaluate_milestone u a now r s) as [[[]|e] s1]; [|done]. simpl in Ha.
  apply (only_adds_trans _ _ s1); [done|]. apply IH. by rewrite (find_user_adds u s).
Qed.

(** However it ends, an evaluation leaves the rewards there are as they are. *)
Lemma evaluation_keeps_rewards u now s k w :
  find_one k (rewards s) = Some w -> find_one k (rewards (evaluateAndMintRewards u now s).2) = Some w.
Proof.
  intros Hk. unfold evaluateAndMintRewards. run. destruct (find_user u s) as [x|] eqn:Hu; [|done].
  pose proof (find_user_id u s x Hu) as Hx. rewrite Hx in Hu.
  destruct (evaluate_loop_adds u x.2 now (active_milestones s) s Hu) as (_ & _ & _ & _ & _ & Hkeep & _).
  by apply Hkeep.
Qed.
End service.

(** When the metadata of a reached milestone cannot be pinned the evaluation fails,
    but the reward stays on file as earned; every later evaluation, whatever the pinning
    service then answers, skips it: it is never minted. *)
Theorem failed_pin_strands_reward {B : Backend} (p p' : Pinata) (u a : string) (mid : nat) (m : NftRewardMilestone)
    (e : exn) (now : Z) (s : state) (later : list Z) :
  find_user u s = Some (u, a) -> find_reward u mid s = None -> reached a now s m = true ->
  generateAndPinMetadata p (mint_details a m now) now = Throw e ->
  exists k, (evaluate_milestone p u a now (mid, m) s).1 = Throw e /\
    find_one k (rewards (foldl (fun s t => (evaluateAndMintRewards p' u t s).2)
                          (evaluate_milestone p u a now (mid, m) s).2 later)) = Some (earned_row u mid now).
Proof.
  intros Hu Hf Hr Hp. rewrite evaluate_cases, bool_decide_eq_false_2, Hr, Hp by (done || by rewrite Hf; intros [? ?]).
  exists (fresh_id (rewards s)). split; [done|]. cbn [orb negb snd].
  assert (H0 : find_one (fresh_id (rewards s)) (rewards (set_rewards (save (fresh_id (rewards s)) (earned_row u mid now)) s))
               = Some (earned_row u mid now)) by (simpl; by rewrite find_one_save_eq).
  revert H0. generalize (set_rewards (save (fresh_id (rewards s)) (earned_row u mid now)) s).
  induction later as [|t later IH]; intros s1 H1; [done|]. simpl. apply IH. by apply evaluation_keeps_rewards.
Qed.

(** A transfer is recorded for the owner of a reward that is not soulbound, and for
    nobody else. *)
Lemma transfer_spec {B : Backend} u id now (s : state) w m :
  find_one id (rewards s) = Some w -> find_one (milestone_id w) (milestones s) = Some m ->
  transferReward u id now s =
    (if negb (bool_decide (user_id w = u)) then (Throw (BadRequestException "You do not own this reward"), s)
     else if is_soulbound m then (Throw (JsError "Cannot transfer soulbound NFT"), s)
     else (Ret (set_status TRANSFERRED now w), set_rewards (save id (set_status TRANSFERRED now w)) s)).
Proof.
  intros Hw Hm. unfold transferReward, updateRewardStatus, getReward. run. rewrite Hw. simpl.
  destruct (bool_decide (user_id w = u)); simpl; [|done]. rewrite Hw. simpl. rewrite Hm. simpl.
  by destruct (is_soulbound m).
Qed.

(** *** Concrete runs *)

Definition on_day (account : string) (d : Z) : event_row :=
  (Indexer.mkEvent 0 d 0 "deposit" [("account"%string, VStr account)] None Indexer.PROCESSED 0, d * DAY + 1000).

Definition saver (amount : string) : table (Backend := MemBackend) string Balance.Balance :=
  [("GALICE"%string, Balance.mkBalance "GALICE" amount 0 0)].

Definition first_thousand : NftRewardMilestone :=
  mkMilestone SAVINGS_AMOUNT 1000 "First" "d" "First 1000" "d" "img" 1 true true.
Definition ten_days : NftRewardMilestone :=
  mkMilestone ACTIVITY_STREAK 10 "Ten" "d" "Ten days" "d" "img" 3 true false.

Definition days_active : list Z := [20; 19; 18; 15].
Definition toy_start : state (B := MemBackend) :=
  mkState [("u1"%string, "GALICE"%string)] [(1%nat, first_thousand); (2%nat, ten_days)] [] (saver "1500") []
    (imap (fun i d => (i, on_day "GALICE" d)) days_active).

Definition no_pinning : Pinata := mkPinata "https://gateway/" None.
Definition pinning_down : Pinata := mkPinata "https://gateway/" (Some (fun _ => Throw (JsError "Failed to pin metadata to IPFS: down"))).

(** Three days in a row, thirty days ago. *)
Lemma activity_streak_is_run_witness :
  let D := (fun r => r.2 / DAY) <$> activity "GALICE" toy_start in
  (D ≠ [] /\ Forall (fun d => d * DAY <= 50 * DAY) D) /\
  (exists latest, latest ∈ D /\ Forall (fun d => d <= latest) D /\
     Streaks.run_ending D latest (getActivityStreak "GALICE" (50 * DAY) toy_start)) /\
  getActivityStreak "GALICE" (50 * DAY) toy_start = 3.
Proof.
  intros D. assert (H1 : D ≠ []) by (vm_compute; done).
  assert (H2 : Forall (fun d => d * DAY <= 50 * DAY) D) by (apply (bool_decide_unpack _); vm_compute; exact I).
  split; [done|]. split; [|vm_compute; reflexivity].
  apply (activity_streak_is_run "GALICE" (50 * DAY) toy_start); done.
Defined.

Lemma evaluation_rewards_reached_witness :
  find_user "u1" toy_start = Some ("u1"%string, "GALICE"%string) /\
  (evaluateAndMintRewards no_pinning "u1" (50 * DAY) toy_start).1 = Ret tt /\
  let s' := (evaluateAndMintRewards no_pinning "u1" (50 * DAY) toy_start).2 in
  (is_Some (find_reward "u1" 1 s') <->
     is_Some (find_reward "u1" 1 toy_start) \/ reached "GALICE" (50 * DAY) toy_start first_thousand = true) /\
  (is_Some (find_reward "u1" 2 s') <->
     is_Some (find_reward "u1" 2 toy_start) \/ reached "GALICE" (50 * DAY) toy_start ten_days = true) /\
  length (rows (rewards s')) = 1%nat.
Proof.
  assert (H1 : find_user "u1" toy_start = Some ("u1"%string, "GALICE"%string)) by (vm_compute; reflexivity).
  assert (H2 : (evaluateAndMintRewards no_pinning "u1" (50 * DAY) toy_start).1 = Ret tt) by (vm_compute; reflexivity).
  do 2 (split; [done|]).
  destruct (evaluation_rewards_reached no_pinning "u1" "GALICE" (50 * DAY) toy_start H1 H2) as (_ & _ & H).
  split; [apply (H 1%nat first_thousand); reflexivity|].
  split; [apply (H 2%nat ten_days); reflexivity|vm_compute; reflexivity].
Defined.

Lemma failed_pin_strands_reward_witness :
  (find_user "u1" toy_start = Some ("u1"%string, "GALICE"%string) /\ find_reward "u1" 1 toy_start = None /\
   reached "GALICE" 5 toy_start first_thousand = true) /\
  exists k, find_one k (rewards (foldl (fun s t => (evaluateAndMintRewards no_pinning "u1" t s).2)
              (evaluate_milestone pinning_down "u1" "GALICE" 5 (1%nat, first_thousand) toy_start).2 [6; 7]))
            = Some (earned_row "u1" 1 5).
Proof.
  split; [repeat split; vm_compute; reflexivity|].
  destruct (failed_pin_strands_reward pinning_down no_pinning "u1" "GALICE" 1 first_thousand
              (JsError "Failed to pin metadata to IPFS: down") 5 toy_start [6; 7]) as (k & _ & H);
    [vm_compute; reflexivity..|].
  exists k. exact H.
Defined.

(** The hundred deposits looked at are those of all accounts: after a hundred deposits
    of others, an account with a streak has none. *)
Lemma deposits_of_others_hide_streak :
  let mine := [(1%nat, on_day "GALICE" 18); (2%nat, on_day "GALICE" 19); (3%nat, on_day "GALICE" 20)] in
  let others := imap (fun i d => (i + 10, on_day "GBOB" d)%nat) (replicate 100 21) in
  let before : state (B := MemBackend) := mkState [] [] [] [] [] mine in
  let after : state (B := MemBackend) := mkState [] [] [] [] [] (mine ++ others) in
  getConsecutiveDeposits "GALICE" before = 3 /\ getConsecutiveDeposits "GALICE" after = 0.
Proof. split; vm_compute; reflexivity. Qed.
End NftRewards.
