(* ===== verification/Account.v ===== *)
(** * Account data: exports and deletion

    Models [backend/src/account/account.service.ts]: the export jobs with the files they
    write, the share of each harvest attributed to an account, and the deletion of an
    account; and the tables dropped by
    [migrations/1778200000000-DropLegacyPredictionMarketTables.ts], which the export
    still queries. *)
From Stdlib Require Import ZArith Lia.
From stdpp Require Import base list strings sets.
From S2P Require Import Prelude Storage JsValue Savings Indexer Notifications.
Local Open Scope Z_scope.

Module Account.

Inductive ExportStatus := pending | processing | ready | failed.
#[export] Instance ExportStatus_eq_dec : EqDecision ExportStatus.
Proof. solve_decision. Defined.

Record DataExportJob := mkJob {
  user_id : string;
  status : ExportStatus;
  file_path : option string;
  expires_at : option Z;
}.

(** The columns of [users] the component reads or clears. *)
Record AccountUser := mkUser {
  stellar_address : string;
  username : option string;
  avatar_url : option string;
  email : option string;
  role : string;
  ban_reason : option string;
  banned_at : option Z;
  banned_by : option string;
  created_at : Z;
  deleted_at : option Z;
}.

(** An entry of the harvest history of an account. *)
Record Attribution := mkAttribution {
  at_ledger : Z;
  at_delta : string;
  at_fee : string;
  at_total_assets : string;
  at_total_shares : string;
  user_shares_at_harvest : string;
  attributed_yield : string;
}.

(** The exported document. *)
Record Export := mkExport {
  exported_at : Z;
  profile : string * AccountUser;
  legacy : list (string * list jsval);
  x_notifications : list Notifications.Notification;
  yield_data : option (Savings.YieldPosition * list Attribution);
}.

Definition GoneException (m : string) : exn := HttpException 410 m.

(** [EXPORT_DIR], normalised, and [EXPORT_TTL_HOURS]. *)
Record Config := mkConfig { EXPORT_DIR : string; EXPORT_TTL_HOURS : Z }.

(** [path.join(dir, `${job.id}.json`)]. *)
Definition export_path (cfg : Config) (id : nat) : string :=
  EXPORT_DIR cfg +:+ "/" +:+ Z_to_string (Z.of_nat id) +:+ ".json".

(** The tables of the earlier product the export reads, in the order of the queries. *)
Definition exported_tables : list string :=
  ["predictions"; "markets"; "user_achievements"; "user_bookmarks"; "user_follows";
   "competition_participants"; "leaderboard_history"]%string.

(** The tables the migration drops. *)
Definition legacyTables : list string :=
  ["bracket_matchups"; "bracket_rounds"; "competition_brackets"; "competition_participants"; "competitions";
   "dispute_evidence"; "dispute_votes"; "disputes"; "match_predictions"; "event_matches"; "external_match_results";
   "predictions"; "markets"; "market_templates"; "prediction_fraud_flags"; "creator_event_leaderboard_entries";
   "creator_event_payouts"; "creator_events"; "leaderboard_entries"; "leaderboard_history"; "leaderboard_snapshots";
   "seasons"; "comments"; "user_bookmarks"; "oracle_submission_flags"; "oracle_source_reliability";
   "oracle_submissions"; "activity_logs"; "flags"; "user_achievements"]%string.

(** ** Harvest attribution *)

(** [BigInt(v)] of a value that is not nullish. *)
Definition BigInt_of_value (v : jsval) : option Z :=
  match v with
  | VNum z | VBigInt z => Some z
  | VBool b => Some (if b then 1 else 0)
  | _ => BigInt_of_string (js_String v)
  end.

(** [BigInt(data[key] ?? fallback)]. *)
Definition amount_of (data : record) (key fallback : string) : option Z :=
  BigInt_of_value (prop data key ?? VStr fallback).

(** [data[key]?.toString() ?? '0']. *)
Definition text_of (data : record) (key : string) : string :=
  match prop data key with VUndef | VNull => "0" | v => js_String v end.

(** The loop over the deposits of the owner. *)
Fixpoint shares_at (ledger : Z) (deposits : list (Z * jsval)) (acc : Z) : option Z :=
  match deposits with
  | [] => Some acc
  | (l, v) :: rest =>
      if l <=? ledger then
        match BigInt_of_value v with Some n => shares_at ledger rest (acc + n) | None => None end
      else shares_at ledger rest acc
  end.

Definition attributed (netYield shares totalShares : Z) : Z :=
  if (0 <? totalShares) && (0 <? shares) then Z.quot (netYield * shares) totalShares else 0.

(** One harvest: [None] when a [BigInt] conversion throws, the entry when the owner held
    shares. *)
Definition attribute (ownerDeposits : list (Z * jsval)) (h : Indexer.ContractEvent) : option (option Attribution) :=
  let data := Indexer.data h in
  match amount_of data "total_shares" "1", amount_of data "delta" "0", amount_of data "fee" "0" with
  | Some totalShares, Some delta, Some fee =>
      match shares_at (Indexer.ledger h) ownerDeposits 0 with
      | Some shares =>
          Some (if 0 <? shares then
                  Some (mkAttribution (Indexer.ledger h) (text_of data "delta") (text_of data "fee")
                          (text_of data "total_assets") (Z_to_string totalShares) (Z_to_string shares)
                          (Z_to_string (attributed (delta - fee) shares totalShares)))
                else None)
      | None => None
      end
  | _, _, _ => None
  end.

(** The deposits of an owner: ledger and minted shares. *)
Definition owner_deposits (owner : string) (deposits : list Indexer.ContractEvent) : list (Z * jsval) :=
  (fun d => (Indexer.ledger d, prop (Indexer.data d) "shares_minted" ?? VStr "0")) <$>
    List.filter (fun d => bool_decide (as_string (prop (Indexer.data d) "owner") = Some owner)) deposits.

Section service.
Context {B : Backend} (cfg : Config).

(** What the queries on the tables of the earlier product see: the tables there are and
    the rows of a user. *)
Context (schema : list string) (legacy_rows : string -> string -> list jsval).

Record state := mkState {
  jobs : table nat DataExportJob;
  users : table string AccountUser;
  notifications : table nat Notifications.Notification;
  digest_states : table string Z;
  positions : table string Savings.YieldPosition;
  events : table nat Indexer.ContractEvent;
  files : list (string * Export);
}.

Definition set_jobs f s := mkState (f (jobs s)) (users s) (notifications s) (digest_states s) (positions s) (events s) (files s).
Definition set_users f s := mkState (jobs s) (f (users s)) (notifications s) (digest_states s) (positions s) (events s) (files s).
Definition set_notifications f s := mkState (jobs s) (users s) (f (notifications s)) (digest_states s) (positions s) (events s) (files s).
Definition set_digests f s := mkState (jobs s) (users s) (notifications s) (f (digest_states s)) (positions s) (events s) (files s).
Definition set_files f s := mkState (jobs s) (users s) (notifications s) (digest_states s) (positions s) (events s) (f (files s)).

Definition open_job (userId : string) (j : DataExportJob) : bool :=
  bool_decide (user_id j = userId) && (bool_decide (status j = pending) || bool_decide (status j = processing)).

Definition requestExport (userId : string) : M state (nat * ExportStatus) :=
  await existing := gets (fun s => List.find (fun r => open_job userId r.2) (rows (jobs s))) in
  match existing with
  | Some (id, j) => ret (id, status j)
  | None =>
      await id := gets (fun s => fresh_id (jobs s)) in
      do modify (set_jobs (save id (mkJob userId pending None None))) ;>
      ret (id, pending)
  end.

Definition job_of (userId : string) (jobId : nat) : M state DataExportJob :=
  await job := gets (fun s => find_one jobId (jobs s)) in
  match job with
  | Some j => if bool_decide (user_id j = userId) then ret j else throw (NotFoundException "Export job not found")
  | None => throw (NotFoundException "Export job not found")
  end.

Definition getExportStatus (userId : string) (jobId : nat) : M state (nat * ExportStatus * option Z) :=
  await job := job_of userId jobId in
  ret (jobId, status job, expires_at job).

Definition downloadExport (userId : string) (jobId : nat) (now : Z) : M state string :=
  await job := job_of userId jobId in
  match status job, file_path job with
  | ready, Some path =>
      if bool_decide (path = ""%string) then throw (BadRequestException "Export is not ready yet")
      else if match expires_at job with Some t => t <? now | None => false end
      then throw (GoneException "Export has expired")
      else
        await present := gets (fun s => Mem.find (files s) path) in
        match present with
        | Some _ => ret path
        | None => throw (GoneException "Export file is no longer available")
        end
  | _, _ => throw (BadRequestException "Export is not ready yet")
  end.

(** A raw query on a table: refused when there is no such table. *)
Definition query_table (userId table : string) : M state (string * list jsval) :=
  if bool_decide (table ∈ schema) then ret (table, legacy_rows table userId) else throw (DatabaseError "42P01").

Definition getHarvestAttributionHistory (ownerAddress : string) : M state (list Attribution) :=
  await position := gets (fun s => find_one ownerAddress (positions s)) in
  match position with
  | None => ret []
  | Some _ =>
      await harvests := gets (fun s => take 100 (order_by (fun e => - Indexer.ledger e)
        (List.filter (fun e => bool_decide (Indexer.event_type e = "harvested"%string)) ((rows (events s)).*2)))) in
      await deposits := gets (fun s => order_by Indexer.ledger
        (List.filter (fun e => bool_decide (Indexer.event_type e = "deposited"%string)) ((rows (events s)).*2))) in
      await entries := of_option (SyntaxError "Cannot convert to a BigInt")
                         (mapM (attribute (owner_deposits ownerAddress deposits)) harvests) in
      ret (omap (fun x => x) entries)
  end.

Definition gatherUserData (userId : string) (now : Z) : M state Export :=
  await found := gets (fun s => find_one userId (users s)) in
  match found with
  | None => throw (NotFoundException "User not found")
  | Some u =>
      await tables := map_each (query_table userId) exported_tables in
      await inbox := gets (fun s => take 1000 (order_by (fun n => - Notifications.created_at n)
        (List.filter (fun n => bool_decide (Notifications.user_address n = stellar_address u)) ((rows (notifications s)).*2)))) in
      await position := gets (fun s => find_one (stellar_address u) (positions s)) in
      await harvests := getHarvestAttributionHistory (stellar_address u) in
      ret (mkExport now (userId, u) tables inbox ((fun p => (p, harvests)) <$> position))
  end.

(** [jobRepo.update(id, patch)]: nothing happens when the row is gone. *)
Definition update_job (id : nat) (f : DataExportJob -> DataExportJob) : M state unit :=
  modify (set_jobs (update_where (fun k _ => bool_decide (k = id)) f)).

Definition set_status (st : ExportStatus) (j : DataExportJob) : DataExportJob :=
  mkJob (user_id j) st (file_path j) (expires_at j).
Definition set_ready (path : string) (t : Z) (j : DataExportJob) : DataExportJob :=
  mkJob (user_id j) ready (Some path) (Some t).

(** [io] is the error of the file system, if any. *)
Definition write_export (io : option exn) (id : nat) (data : Export) (now : Z) : M state unit :=
  match io with
  | Some e => throw e
  | None =>
      do modify (set_files (Mem.upsert (export_path cfg id) data)) ;>
      update_job id (set_ready (export_path cfg id) (now + EXPORT_TTL_HOURS cfg * 3600000))
  end.

Definition runExport (io : option exn) (id : nat) (j : DataExportJob) (now : Z) : M state unit :=
  do update_job id (set_status processing) ;>
  catch (await data := gatherUserData (user_id j) now in write_export io id data now)
        (fun _ => update_job id (set_status failed)).

Definition pending_jobs (s : state) : list (nat * DataExportJob) :=
  List.filter (fun r => bool_decide (status r.2 = pending)) (rows (jobs s)).

Definition processExports (io : nat -> option exn) (now : Z) : M state unit :=
  await batch := gets (fun s => take 5 (pending_jobs s)) in
  for_each (fun r => catch (runExport (io r.1) r.1 r.2 now) (fun _ => ret tt)) batch.

(** [fs.unlink(path).catch(() => {})]. *)
Definition unlink (path : string) : M state unit := modify (set_files (Mem.drop_key path)).

Definition anonymize (now : Z) (u : AccountUser) : AccountUser :=
  mkUser (stellar_address u) None None None (role u) None None None (created_at u) (Some now).

Definition deleteAccount (userId : string) (now : Z) : M state unit :=
  await found := gets (fun s => find_one userId (users s)) in
  match found with
  | None => throw (NotFoundException "User not found")
  | Some u =>
      await paths := gets (fun s => omap (fun r => if bool_decide (user_id r.2 = userId) then file_path r.2 else None)
                                      (rows (jobs s))) in
      do modify (set_notifications (delete_where (fun _ n => bool_decide (Notifications.user_address n = stellar_address u)))) ;>
      do modify (set_digests (delete_where (fun k _ => bool_decide (k = userId)))) ;>
      do modify (set_jobs (delete_where (fun _ j => bool_decide (user_id j = userId)))) ;>
      do modify (set_users (update_where (fun k _ => bool_decide (k = userId)) (anonymize now))) ;>
      for_each unlink (List.filter (fun p => negb (bool_decide (p = ""%string))) paths)
  end.

Definition expired_job (now : Z) (j : DataExportJob) : bool :=
  bool_decide (status j = ready) && match expires_at j with Some t => t <? now | None => false end.

Definition cleanup_job (r : nat * DataExportJob) : M state unit :=
  do match file_path r.2 with
     | Some p => if bool_decide (p = ""%string) then ret tt else unlink p
     | None => ret tt
     end ;>
  modify (set_jobs (remove r.1)).

Definition cleanupExports (now : Z) : M state unit :=
  await expired := gets (fun s => List.filter (fun r => expired_job now r.2) (rows (jobs s))) in
  for_each cleanup_job expired.

(** *** Exports *)

Definition settled (st : ExportStatus) : bool := match st with ready | failed => true | _ => false end.

(** The tables an export does not write. *)
Definition reads_only (s s' : state) : Prop :=
  users s' = users s /\ notifications s' = notifications s /\ digest_states s' = digest_states s /\
  positions s' = positions s /\ events s' = events s.

Lemma reads_only_refl s : reads_only s s.
Proof. done. Qed.

Lemma reads_only_trans s1 s2 s3 : reads_only s1 s2 -> reads_only s2 s3 -> reads_only s1 s3.
Proof. unfold reads_only. intros (? & ? & ? & ? & ?) (? & ? & ? & ? & ?). repeat split; congruence. Qed.

Lemma map_each_query u l s : (map_each (query_table u) l s).2 = s.
Proof.
  revert s. induction l as [|t l IH]; intros s; [done|]. cbn [map_each]. unfold bind, query_table.
  destruct (bool_decide (t ∈ schema)); [|done]. simpl. specialize (IH s).
  destruct (map_each _ l s) as [[] s']; simpl in *; done.
Qed.

Lemma harvests_pure a s : (getHarvestAttributionHistory a s).2 = s.
Proof.
  unfold getHarvestAttributionHistory. run. destruct (find_one a (positions s)); [|done]. simpl. by destruct (mapM _ _).
Qed.

Lemma gather_pure u now s : (gatherUserData u now s).2 = s.
Proof.
  unfold gatherUserData, bind, gets. destruct (find_one u (users s)) as [x|]; [|done].
  pose proof (map_each_query u exported_tables s) as Ht.
  destruct (map_each (query_table u) exported_tables s) as [[ts|e] s1]; cbn [snd] in *; subst; [|done].
  pose proof (harvests_pure (stellar_address x) s) as Hh.
  destruct (getHarvestAttributionHistory _ s) as [[hs|e] s1]; cbn [snd] in *; by subst.
Qed.

Lemma find_update_job id f s k :
  find_one k (jobs (update_job id f s).2) = (if bool_decide (k = id) then f <$> find_one k (jobs s) else find_one k (jobs s)).
Proof.
  unfold update_job. run. rewrite find_one_update_where. destruct (bool_decide (k = id)); [done|].
  by destruct (find_one k (jobs s)).
Qed.

(** The row while the export runs. *)
Definition started (id : nat) (s : state) : state :=
  set_jobs (update_where (fun k _ => bool_decide (k = id)) (set_status processing)) s.

Definition ended (id : nat) (f : DataExportJob -> DataExportJob) (s : state) : state :=
  set_jobs (update_where (fun k _ => bool_decide (k = id)) f) s.

Lemma runExport_cases io id j now s :
  runExport io id j now s =
    (Ret tt,
     match (gatherUserData (user_id j) now (started id s)).1, io with
     | Ret d, None => ended id (set_ready (export_path cfg id) (now + EXPORT_TTL_HOURS cfg * 3600000))
                        (set_files (Mem.upsert (export_path cfg id) d) (started id s))
     | _, _ => ended id (set_status failed) (started id s)
     end).
Proof.
  unfold runExport, catch, update_job, modify. unfold bind at 1. fold (started id s). unfold bind.
  pose proof (gather_pure (user_id j) now (started id s)) as Hg.
  destruct (gatherUserData (user_id j) now (started id s)) as [[d|e] s2]; cbn [fst snd] in *; subst s2; [|done].
  by destruct io.
Qed.

Lemma find_ended id f s k :
  find_one k (jobs (ended id f s)) = (if bool_decide (k = id) then f <$> find_one k (jobs s) else find_one k (jobs s)).
Proof. apply (find_update_job id f s k). Qed.

(** How an export ends: the job is settled, the others are not touched. *)
Lemma runExport_spec io id j now s :
  find_one id (jobs s) = Some j ->
  reads_only s (runExport io id j now s).2 /\
  (forall k, k ≠ id -> find_one k (jobs (runExport io id j now s).2) = find_one k (jobs s)) /\
  exists j', find_one id (jobs (runExport io id j now s).2) = Some j' /\ user_id j' = user_id j /\ settled (status j') = true.
Proof.
  intros Hj. rewrite runExport_cases. cbn [snd].
  assert (H1 : forall k, find_one k (jobs (started id s)) =
                 (if bool_decide (k = id) then set_status processing <$> find_one k (jobs s) else find_one k (jobs s)))
    by apply (find_update_job id (set_status processing)).
  destruct (gatherUserData (user_id j) now (started id s)).1 as [d|e], io as [x|]; cbn [fst snd]; (split; [done|]);
    (split; [intros k Hk; rewrite find_ended, bool_decide_eq_false_2 by done; simpl; by rewrite H1, bool_decide_eq_false_2 by done|]);
    eexists; rewrite find_ended, bool_decide_eq_true_2 by done; simpl; rewrite H1, bool_decide_eq_true_2, Hj by done; done.
Qed.

(** A table the database does not have fails the export. *)
Lemma gather_missing_table u now s t :
  t ∈ exported_tables -> t ∉ schema -> exists e, (gatherUserData u now s).1 = Throw e.
Proof.
  intros Ht Hs. unfold gatherUserData, bind, gets. destruct (find_one u (users s)); [|by eexists].
  assert (Hq : exists e, (map_each (query_table u) exported_tables s).1 = Throw e).
  { revert Ht. generalize exported_tables. induction l as [|t' l IH]; intros Ht; [set_solver|].
    cbn [map_each]. unfold bind, query_table at 1. destruct (bool_decide (t' ∈ schema)) eqn:Hd; [|by eexists].
    apply bool_decide_eq_true in Hd. apply elem_of_cons in Ht as [->|Ht]; [done|]. destruct (IH Ht) as [e He].
    simpl. exists e. destruct (map_each (query_table u) l s) as [[] s']; simpl in *; congruence. }
  destruct Hq as [e He]. exists e. destruct (map_each _ exported_tables s) as [[] s']; simpl in *; congruence.
Qed.

(** What a pass does to a job: nothing, or it settles a pending one. *)
Definition advances (s s' : state) : Prop :=
  forall k j, find_one k (jobs s) = Some j ->
    find_one k (jobs s') = Some j \/
    (status j = pending /\ exists j', find_one k (jobs s') = Some j' /\ user_id j' = user_id j /\ settled (status j') = true).

Lemma advances_trans s1 s2 s3 : advances s1 s2 -> advances s2 s3 -> advances s1 s3.
Proof.
  intros H12 H23 k j Hj. destruct (H12 k j Hj) as [H2|(Hp & j' & H2 & Hu & Hs)]; [by apply H23|].
  right. split; [done|]. exists j'. destruct (H23 k j' H2) as [H3|(Hp' & _)]; [done|]. by rewrite Hp' in Hs.
Qed.

Lemma batch_spec io now l s :
  NoDup l.*1 -> (forall k j, (k, j) ∈ l -> find_one k (jobs s) = Some j) ->
  exists s', for_each (fun r => catch (runExport (io r.1) r.1 r.2 now) (fun _ => ret tt)) l s = (Ret tt, s') /\
    reads_only s s' /\
    (forall k, k ∉ l.*1 -> find_one k (jobs s') = find_one k (jobs s)) /\
    (forall k j, (k, j) ∈ l -> exists j', find_one k (jobs s') = Some j' /\ user_id j' = user_id j /\ settled (status j') = true).
Proof.
  revert s. induction l as [|[id j] l IH]; intros s Hnd Hl; cbn [for_each].
  { exists s. split; [done|]. split; [done|]. split; [done|set_solver]. }
  csimpl in Hnd. apply NoDup_cons in Hnd as [Hni Hnd].
  destruct (runExport_spec (io id) id j now s) as (Hr & Hk & j' & Hj' & Hu & Hs); [apply Hl; set_solver|].
  unfold bind, catch. cbn [fst snd]. pose proof (runExport_cases (io id) id j now s) as Hc.
  destruct (runExport (io id) id j now s) as [o s1]. injection Hc as -> _. cbn [fst snd] in *.
  destruct (IH s1 Hnd) as (s2 & Hf & Hr2 & Hk2 & Hj2).
  { intros k v Hin. rewrite Hk; [apply Hl; set_solver|]. intros ->. apply Hni. apply list_elem_of_fmap. by exists (id, v). }
  exists s2. split; [done|]. split; [by apply (reads_only_trans _ s1)|]. split.
  - intros k Hn. rewrite Hk2, Hk; [done| |]; set_solver.
  - intros k v Hin. apply elem_of_cons in Hin as [[= -> ->]|Hin]; [|by apply Hj2].
    exists j'. by rewrite Hk2.
Qed.

Lemma elem_of_pending_jobs k j s : (k, j) ∈ pending_jobs s <-> find_one k (jobs s) = Some j /\ status j = pending.
Proof. unfold pending_jobs. rewrite elem_of_List_filter, elem_of_rows. simpl. by rewrite bool_decide_eq_true. Qed.

Lemma NoDup_pending s : NoDup (pending_jobs s).*1.
Proof. apply NoDup_fmap_filter, NoDup_rows. Qed.

(** A pass settles up to five pending jobs. *)
Lemma pass_spec io now s :
  (processExports io now s).1 = Ret tt /\ reads_only s (processExports io now s).2 /\
  advances s (processExports io now s).2 /\
  (length (pending_jobs (processExports io now s).2) <= length (pending_jobs s) - 5)%nat.
Proof.
  assert (Hnd : NoDup (take 5 (pending_jobs s)).*1).
  { pose proof (NoDup_pending s) as H. rewrite <-(take_drop 5 (pending_jobs s)), fmap_app in H. by apply NoDup_app in H as [H _]. }
  destruct (batch_spec io now (take 5 (pending_jobs s)) s Hnd) as (s' & Hrun & Hr & Hk & Hj).
  { intros k j Hin. apply elem_of_pending_jobs. by apply (subseteq_take 5). }
  replace (processExports io now s) with (Ret tt, s') by (unfold processExports, bind, gets; by rewrite Hrun).
  cbn [fst snd]. split; [done|]. split; [done|].
  assert (Hin : forall k j, find_one k (jobs s) = Some j ->
            find_one k (jobs s') = Some j /\ k ∉ (take 5 (pending_jobs s)).*1 \/ (k, j) ∈ take 5 (pending_jobs s)).
  { intros k j Hkj. destruct (decide (k ∈ (take 5 (pending_jobs s)).*1)) as [Hi|Hi]; [right|left; by rewrite Hk].
    apply list_elem_of_fmap in Hi as ([k' j'] & Hkk & Hi). simpl in Hkk. subst k'.
    assert (Hp : (k, j') ∈ pending_jobs s) by by apply (subseteq_take 5). apply elem_of_pending_jobs in Hp as [Hp _].
    congruence. }
  split.
  - intros k j Hkj. destruct (Hin k j Hkj) as [[H _]|H]; [by left|right]. split; [|by apply Hj].
    apply (subseteq_take 5), elem_of_pending_jobs in H. tauto.
  - rewrite <-length_drop. apply submseteq_length, NoDup_submseteq.
    + apply (NoDup_fmap_1 fst), NoDup_pending.
    + intros [k j] [H1 Hp]%elem_of_pending_jobs.
      destruct (find_one k (jobs s)) as [j0|] eqn:H0.
      * destruct (Hin k j0 H0) as [[H2 Hn]|H2].
        -- assert (j0 = j) as -> by congruence.
           assert (Ha : (k, j) ∈ pending_jobs s) by by apply elem_of_pending_jobs.
           rewrite <-(take_drop 5 (pending_jobs s)) in Ha. apply elem_of_app in Ha as [Ha|Ha]; [|done].
           exfalso. apply Hn. apply list_elem_of_fmap. by exists (k, j).
        -- destruct (Hj k j0 H2) as (j' & H3 & _ & Hs). assert (j' = j) as -> by congruence. by rewrite Hp in Hs.
      * exfalso. rewrite Hk in H1; [congruence|]. intros Hi.
        apply list_elem_of_fmap in Hi as ([k' j'] & Hkk & Hi). simpl in Hkk. subst k'.
        apply (subseteq_take 5), elem_of_pending_jobs in Hi as [Hi _]. congruence.
Qed.

(** Requested exports are not forgotten: after as many passes as needed to take all
    pending jobs five at a time, each of them is ready or has failed, whatever the file
    system does; jobs that were not pending are untouched. *)
Theorem exports_settle (passes : list ((nat -> option exn) * Z)) (s : state) :
  (length (pending_jobs s) <= 5 * length passes)%nat ->
  let s' := foldl (fun s p => (processExports p.1 p.2 s).2) s passes in
  pending_jobs s' = [] /\
  forall k j, find_one k (jobs s) = Some j ->
    if decide (status j = pending)
    then exists j', find_one k (jobs s') = Some j' /\ user_id j' = user_id j /\ settled (status j') = true
    else find_one k (jobs s') = Some j.
Proof.
  intros Hlen s'. assert (H : advances s s' /\ pending_jobs s' = []).
  { subst s'. revert s Hlen. induction passes as [|[io now] passes IH]; intros s Hlen; cbn [foldl].
    - split; [by left|]. by destruct (pending_jobs s); [|simpl in Hlen; lia].
    - destruct (pass_spec io now s) as (_ & _ & Ha & Hp). cbn [length] in Hlen. destruct (IH (processExports io now s).2) as [Ha2 Hn]; [lia|].
      split; [by apply (advances_trans _ (processExports io now s).2)|done]. }
  destruct H as [Ha Hn]. split; [done|]. intros k j Hj. destruct (decide (status j = pending)) as [Hp|Hp].
  - destruct (Ha k j Hj) as [H|(_ & H)]; [|done]. exfalso.
    assert (Hin : (k, j) ∈ pending_jobs s') by by apply elem_of_pending_jobs. rewrite Hn in Hin. set_solver.
  - destruct (Ha k j Hj) as [H|(H & _)]; done.
Qed.

(** Once the tables of the earlier product are dropped, no export succeeds: every job
    that runs ends as failed and writes no file, because the export still reads them. *)
Theorem exports_fail_without_legacy_tables (io : option exn) (id : nat) (j : DataExportJob) (now : Z) (s : state) :
  (forall t, t ∈ legacyTables -> t ∉ schema) -> find_one id (jobs s) = Some j ->
  files (runExport io id j now s).2 = files s /\
  exists j', find_one id (jobs (runExport io id j now s).2) = Some j' /\ status j' = failed.
Proof.
  intros Hm Hj. rewrite runExport_cases. cbn [snd].
  destruct (gather_missing_table (user_id j) now (started id s) "predictions") as [e He].
  { apply (bool_decide_unpack _). vm_compute. exact I. }
  { apply Hm. apply (bool_decide_unpack _). vm_compute. exact I. }
  rewrite He. split; [done|]. eexists. rewrite find_ended, bool_decide_eq_true_2 by done.
  unfold started. simpl. rewrite find_one_update_where, Hj. done.
Qed.

(** A job left in processing, by a restart during its export, is never taken up again and
    is what every further request of its user is answered with. *)
Lemma processing_job_blocks_exports u k j s passes :
  find_one k (jobs s) = Some j -> user_id j = u -> status j = processing ->
  let s' := foldl (fun s p => (processExports p.1 p.2 s).2) s passes in
  exists id st, requestExport u s' = (Ret (id, st), s').
Proof.
  intros Hj Hu Hs s'. assert (Hj' : find_one k (jobs s') = Some j).
  { subst s'. revert s Hj. induction passes as [|[io now] passes IH]; intros s Hj; [done|]. cbn [foldl]. apply IH.
    destruct (pass_spec io now s) as (_ & _ & Ha & _). destruct (Ha k j Hj) as [H|(Hp & _)]; [done|congruence]. }
  unfold requestExport, bind, gets. destruct (List.find _ _) as [[id j']|] eqn:Hf; [by eexists _, _|].
  apply elem_of_rows, list_elem_of_In in Hj'. apply (find_none _ _ Hf) in Hj'. unfold open_job in Hj'. simpl in Hj'.
  by rewrite Hu, Hs, bool_decide_eq_true_2 in Hj'.
Qed.

(** *** Deletion *)

Lemma unlink_all l s :
  for_each unlink l s = (Ret tt, set_files (fun fs => foldl (fun fs p => Mem.drop_key p fs) fs l) s).
Proof.
  rewrite (for_each_run unlink) by done. f_equal. revert s. induction l as [|p l IH]; intros s; [by destruct s|].
  cbn [foldl]. by rewrite IH.
Qed.

Lemma find_drop_all l (fs : list (string * Export)) p :
  Mem.find (foldl (fun fs p => Mem.drop_key p fs) fs l) p = (if bool_decide (p ∈ l) then None else Mem.find fs p).
Proof.
  clear legacy_rows. revert fs. induction l as [|q l IH]; intros fs; cbn [foldl].
  { by rewrite bool_decide_eq_false_2 by set_solver. }
  rewrite IH, Mem.find_drop_key. destruct (decide (p ∈ l)) as [Hp|Hp].
  - by rewrite !bool_decide_eq_true_2 by set_solver.
  - rewrite (bool_decide_eq_false_2 (p ∈ l)) by done. destruct (decide (q = p)) as [Hq|Hq].
    + subst. by rewrite bool_decide_eq_true_2 by set_solver.
    + rewrite bool_decide_eq_false_2; [done|]. rewrite elem_of_cons. intros [->|?]; done.
Qed.

(** The export files of a user. *)
Definition paths_of (u : string) (s : state) : list string :=
  List.filter (fun p => negb (bool_decide (p = ""%string)))
    (omap (fun r => if bool_decide (user_id r.2 = u) then file_path r.2 else None) (rows (jobs s))).

Lemma elem_of_paths u s p :
  p ∈ paths_of u s <-> p ≠ ""%string /\ exists k j, find_one k (jobs s) = Some j /\ user_id j = u /\ file_path j = Some p.
Proof.
  unfold paths_of. rewrite elem_of_List_filter, list_elem_of_omap, negb_true_iff, bool_decide_eq_false. split.
  - intros [([k j] & Hin & Hp) Hne]. split; [done|]. apply elem_of_rows in Hin. simpl in Hp.
    case_bool_decide; [|done]. by exists k, j.
  - intros (Hne & k & j & Hj & Hu & Hp). split; [|done]. exists (k, j). split; [by apply elem_of_rows|]. simpl.
    by rewrite bool_decide_eq_true_2.
Qed.

(** C33: Deleting an account that exists erases the data it holds: its row keeps the
    address, the role and the time of creation, has no username, avatar, e-mail, ban
    reason, ban time or banning admin any more, and is marked deleted at this time; the
    notifications of the address, the digest state, the export jobs and the files they
    wrote are gone; the rows, notifications, jobs and files of every other account stay as
    they are. *)
Theorem deletion_erases (u : string) (usr : AccountUser) (now : Z) (s : state) :
  find_one u (users s) = Some usr ->
  (deleteAccount u now s).1 = Ret tt /\
  let s' := (deleteAccount u now s).2 in
  (exists row, find_one u (users s') = Some row /\
     stellar_address row = stellar_address usr /\ role row = role usr /\ created_at row = created_at usr /\
     username row = None /\ avatar_url row = None /\ email row = None /\
     ban_reason row = None /\ banned_at row = None /\ banned_by row = None /\ deleted_at row = Some now) /\
  (forall k, k ≠ u -> find_one k (users s') = find_one k (users s)) /\
  (forall k n, find_one k (notifications s') = Some n <->
     find_one k (notifications s) = Some n /\ Notifications.user_address n ≠ stellar_address usr) /\
  (forall k, find_one k (digest_states s') = if bool_decide (k = u) then None else find_one k (digest_states s)) /\
  (forall k j, find_one k (jobs s') = Some j <-> find_one k (jobs s) = Some j /\ user_id j ≠ u) /\
  (forall p, Mem.find (files s') p = if bool_decide (p ∈ paths_of u s) then None else Mem.find (files s) p).
Proof.
  clear legacy_rows. intros Hu. unfold deleteAccount, bind, gets, modify. rewrite Hu. fold (paths_of u s). rewrite unlink_all. cbn [fst snd].
  split; [done|]. simpl. split; [|split; [|split; [|split; [|split]]]].
  - exists (anonymize now usr). split; [|by split_and!]. rewrite find_one_update_where, Hu. by rewrite bool_decide_eq_true_2.
  - intros k Hk. rewrite find_one_update_where, bool_decide_eq_false_2 by done. by destruct (find_one k (users s)).
  - intros k n. rewrite find_one_delete_where. destruct (find_one k (notifications s)) as [n'|]; [|naive_solver].
    case_bool_decide; naive_solver.
  - intros k. rewrite find_one_delete_where. destruct (find_one k (digest_states s)); by case_bool_decide.
  - intros k j. rewrite find_one_delete_where. destruct (find_one k (jobs s)) as [j'|]; [|naive_solver].
    case_bool_decide; naive_solver.
  - intros p. apply find_drop_all.
Qed.

(** The file of a job that is gone stays: the cleanup only knows the files of jobs. *)
Lemma orphan_survives_cleanup p d now s :
  Mem.find (files s) p = Some d -> (forall k j, find_one k (jobs s) = Some j -> file_path j ≠ Some p) ->
  Mem.find (files (cleanupExports now s).2) p = Some d.
Proof.
  intros Hf Hj. unfold cleanupExports, bind, gets.
  set (l := List.filter _ _). assert (Hl : forall r, r ∈ l -> file_path r.2 ≠ Some p).
  { intros [k j] Hin. apply elem_of_List_filter in Hin as [Hin _]. apply elem_of_rows in Hin. by apply (Hj k). }
  clearbody l. revert s Hf Hj. induction l as [|[k j] l IH]; intros s Hf Hj; [done|]. cbn [for_each].
  assert (Hc : exists s1, cleanup_job (k, j) s = (Ret tt, s1) /\ Mem.find (files s1) p = Some d /\
                 jobs s1 = remove k (jobs s)).
  { unfold cleanup_job, bind. cbn [fst snd]. pose proof (Hl (k, j) ltac:(set_solver)) as Hp. simpl in Hp.
    destruct (file_path j) as [q|]; [|by eexists]. destruct (bool_decide (q = ""%string)); [by eexists|].
    eexists. split; [done|]. split; [|done]. simpl. rewrite Mem.find_drop_key. case_decide; [congruence|done]. }
  destruct Hc as (s1 & Hc & Hf1 & Hj1). unfold bind. rewrite Hc. apply IH; [|done|].
  - intros r Hr. apply Hl. set_solver.
  - intros k' j'. rewrite Hj1, find_one_remove. case_decide; [done|]. apply Hj.
Qed.

(** An account deleted while its export runs leaves its data behind: the export
    writes the file after the job rows are gone, so no job knows it and no later cleanup
    removes it. *)
Theorem deletion_during_export_leaks (u : string) (usr : AccountUser) (id : nat) (j : DataExportJob) (d : Export)
    (t1 t2 t3 t4 : Z) (s : state) :
  find_one id (jobs s) = Some j -> user_id j = u -> find_one u (users s) = Some usr ->
  (gatherUserData u t1 (started id s)).1 = Ret d ->
  (forall k j', find_one k (jobs s) = Some j' -> file_path j' ≠ Some (export_path cfg id)) ->
  let s1 := (deleteAccount u t2 (started id s)).2 in
  let s2 := (write_export None id d t3 s1).2 in
  Mem.find (files (cleanupExports t4 s2).2) (export_path cfg id) = Some d.
Proof.
  intros Hj Hu Husr Hd Hno s1 s2. subst s2. unfold write_export, bind, modify. cbn [snd]. apply orphan_survives_cleanup.
  - simpl. rewrite Mem.find_upsert. by case_decide.
  - intros k j'. rewrite find_update_job. simpl. subst s1. unfold deleteAccount, bind, gets, modify.
    simpl. rewrite Husr. fold (paths_of u (started id s)). rewrite unlink_all. simpl.
    rewrite find_one_delete_where. unfold started. simpl. rewrite find_one_update_where.
    destruct (find_one k (jobs s)) as [j0|] eqn:Hk; simpl; [|by case_bool_decide].
    case_bool_decide as Hki; simpl.
    + subst k. assert (j0 = j) as -> by congruence. simpl. by rewrite Hu, bool_decide_eq_true_2.
    + case_bool_decide; [done|]. intros [= <-]. by apply (Hno k).
Qed.
End service.

(** *** Attribution *)

(** The shares a deposit minted, and its owner. *)
Definition minted (d : Indexer.ContractEvent) : Z :=
  default 0 (BigInt_of_value (prop (Indexer.data d) "shares_minted" ?? VStr "0")).
Definition owned (o : string) (d : Indexer.ContractEvent) : bool :=
  bool_decide (as_string (prop (Indexer.data d) "owner") = Some o).

(** A deposit whose shares are a number that is not negative. *)
Definition sound (d : Indexer.ContractEvent) : Prop :=
  exists n, BigInt_of_value (prop (Indexer.data d) "shares_minted" ?? VStr "0") = Some n /\ 0 <= n.

(** The shares minted up to a ledger by the deposits that satisfy [p]. *)
Definition minted_by (p : Indexer.ContractEvent -> bool) (ledger : Z) (deposits : list Indexer.ContractEvent) : Z :=
  sumZ (minted <$> List.filter (fun d => p d && (Indexer.ledger d <=? ledger)) deposits).

Lemma shares_at_owner o ledger deposits acc :
  Forall sound deposits ->
  shares_at ledger (owner_deposits o deposits) acc = Some (acc + minted_by (owned o) ledger deposits).
Proof.
  intros H. revert acc. unfold owner_deposits, minted_by. fold (owned o).
  induction H as [|d ds (n & Hn & _) _ IH]; intros acc; [simpl; f_equal; lia|]. cbn [List.filter].
  change (bool_decide (as_string (prop (Indexer.data d) "owner") = Some o)) with (owned o d).
  destruct (owned o d); cbn [andb]; [|apply IH]. csimpl.
  destruct (Indexer.ledger d <=? ledger); [|apply IH]. rewrite Hn, IH. csimpl. unfold minted at 2. rewrite Hn. simpl.
  f_equal. lia.
Qed.

Lemma minted_by_cons p ledger d ds :
  minted_by p ledger (d :: ds) = (if p d && (Indexer.ledger d <=? ledger) then minted d else 0) + minted_by p ledger ds.
Proof. unfold minted_by. cbn [List.filter]. by destruct (p d && _). Qed.

Lemma sound_minted d : sound d -> 0 <= minted d.
Proof. intros (n & Hn & H0). unfold minted. by rewrite Hn. Qed.

Lemma minted_by_nonneg p ledger ds : Forall sound ds -> 0 <= minted_by p ledger ds.
Proof.
  induction 1 as [|d ds Hd _ IH]; [done|]. rewrite minted_by_cons. pose proof (sound_minted d Hd).
  destruct (p d && _); lia.
Qed.

Lemma sumZ_add {A} (f g : A -> Z) l : sumZ ((fun x => f x + g x) <$> l) = sumZ (f <$> l) + sumZ (g <$> l).
Proof. induction l as [|x l IH]; [done|]. csimpl. rewrite IH. lia. Qed.

(** A deposit has one owner. *)
Lemma owned_once v d owners :
  0 <= v -> NoDup owners -> sumZ ((fun o => if owned o d then v else 0) <$> owners) <= v.
Proof.
  intros Hv. induction 1 as [|o os Ho _ IH]; [done|]. csimpl. destruct (owned o d) eqn:Hd; [|lia].
  assert (Hz : sumZ ((fun o => if owned o d then v else 0) <$> os) = 0); [|lia].
  clear IH. apply bool_decide_eq_true in Hd. induction os as [|o' os IH]; [done|]. csimpl.
  rewrite IH by set_solver. unfold owned. rewrite bool_decide_eq_false_2; [done|]. rewrite Hd. set_solver.
Qed.

Lemma minted_by_owners owners ledger ds :
  NoDup owners -> Forall sound ds ->
  sumZ ((fun o => minted_by (owned o) ledger ds) <$> owners) <= minted_by (fun _ => true) ledger ds.
Proof.
  intros Hnd. induction 1 as [|d ds Hd _ IH].
  - clear Hnd. unfold minted_by. simpl. induction owners as [|o os IH]; [done|]. csimpl. lia.
  - rewrite minted_by_cons. cbn [andb].
    rewrite (list_fmap_ext _ (fun o => (if owned o d then (if Indexer.ledger d <=? ledger then minted d else 0) else 0) +
                                       minted_by (owned o) ledger ds)).
    + rewrite sumZ_add. pose proof (sound_minted d Hd).
      pose proof (owned_once (if Indexer.ledger d <=? ledger then minted d else 0) d owners) as Ho.
      destruct (Indexer.ledger d <=? ledger); specialize (Ho ltac:(lia) Hnd); lia.
    + intros i o _. rewrite minted_by_cons. by destruct (owned o d), (Indexer.ledger d <=? ledger).
Qed.

Lemma attributed_opp net n total : attributed (- net) n total = - attributed net n total.
Proof.
  unfold attributed. destruct (Z.ltb_spec 0 total); cbn [andb]; [|done]. destruct (0 <? n); [|done].
  rewrite Z.mul_opp_l. apply Z.quot_opp_l. lia.
Qed.

(** Each share of the yield is rounded down to an integer. *)
Lemma attributed_bounds net n total :
  0 <= net -> 0 <= n -> 0 < total ->
  0 <= attributed net n total /\ net * n - total <= total * attributed net n total <= net * n.
Proof.
  intros Hnet Hn Hpos. unfold attributed. rewrite (proj2 (Z.ltb_lt 0 total) Hpos). cbn [andb].
  destruct (Z.ltb_spec 0 n); [|split; nia].
  rewrite Z.quot_div_nonneg by nia. pose proof (Z.div_pos (net * n) total ltac:(nia) Hpos).
  pose proof (Z.mul_div_le (net * n) total Hpos). pose proof (Z.mul_succ_div_gt (net * n) total Hpos). split; nia.
Qed.

Lemma attributed_sum net total shares :
  0 <= net -> Forall (fun n => 0 <= n) shares -> 0 < total ->
  let y := sumZ ((fun n => attributed net n total) <$> shares) in
  0 <= y /\ net * sumZ shares - total * Z.of_nat (length shares) <= total * y <= net * sumZ shares.
Proof.
  intros Hn Hs Hpos. induction Hs as [|n ns Hn0 _ IH]; [simpl; lia|]. csimpl.
  pose proof (attributed_bounds net n total Hn Hn0 Hpos). cbv zeta in IH |- *. rewrite Nat2Z.inj_succ. split; nia.
Qed.

Lemma attributed_sum_opp net total shares :
  sumZ ((fun n => attributed (- net) n total) <$> shares) = - sumZ ((fun n => attributed net n total) <$> shares).
Proof. induction shares as [|n ns IH]; [done|]. csimpl. rewrite IH, attributed_opp. lia. Qed.

(** The sum has the sign of the yield, and its size that of the shares counted. *)
Lemma attributed_sum_abs net total shares :
  Forall (fun n => 0 <= n) shares ->
  let y := sumZ ((fun n => attributed net n total) <$> shares) in
  (total <= 0 -> y = 0) /\
  (0 < total -> 0 <= y * net /\
     Z.abs net * sumZ shares - total * Z.of_nat (length shares) <= total * Z.abs y <= Z.abs net * sumZ shares).
Proof.
  intros Hs y. split; intros Ht.
  - subst y. clear Hs. induction shares as [|n ns IH]; [done|]. csimpl. rewrite IH. unfold attributed.
    by rewrite (proj2 (Z.ltb_ge 0 total) Ht).
  - destruct (Z.le_gt_cases 0 net) as [Hn|Hn].
    + pose proof (attributed_sum net total shares Hn Hs Ht) as H. cbv zeta in H. fold y in H.
      rewrite !Z.abs_eq by lia. split; nia.
    + pose proof (attributed_sum (- net) total shares ltac:(lia) Hs Ht) as H. cbv zeta in H.
      rewrite attributed_sum_opp in H. fold y in H. rewrite !Z.abs_neq by lia. split; nia.
Qed.

(** The yield an entry reports. *)
Definition yield_of (r : option Attribution) : Z :=
  match r with Some a => default 0 (BigInt_of_string (attributed_yield a)) | None => 0 end.

(** C35: What the owners of deposits are told they earned of a harvest, taken together
    ([y]), measures up to the net yield by the shares they minted: with a positive
    [total_shares] in the harvest, [total_shares * |y|] is at most the net yield times the
    shares of all deposits up to the harvest, and falls short of the net yield times the
    shares of these owners by at most [total_shares] for each owner; [y] has the sign of
    the net yield, and is zero for a [total_shares] that is not positive.  So the yield is
    not given out more than once as long as the harvest counts at least the shares that
    were minted, which fails once shares have been withdrawn
    ([withdrawn_shares_still_earn]). *)
Theorem attribution_conserved (h : Indexer.ContractEvent) (deposits : list Indexer.ContractEvent) (owners : list string)
    (total delta fee : Z) :
  NoDup owners -> Forall sound deposits ->
  amount_of (Indexer.data h) "total_shares" "1" = Some total ->
  amount_of (Indexer.data h) "delta" "0" = Some delta -> amount_of (Indexer.data h) "fee" "0" = Some fee ->
  exists rs, mapM (fun o => attribute (owner_deposits o deposits) h) owners = Some rs /\
    let y := sumZ (yield_of <$> rs) in
    let net := delta - fee in
    let minted_all := minted_by (fun _ => true) (Indexer.ledger h) deposits in
    let minted_these := sumZ ((fun o => minted_by (owned o) (Indexer.ledger h) deposits) <$> owners) in
    (total <= 0 -> y = 0) /\
    (0 < total -> 0 <= y * net /\ total * Z.abs y <= Z.abs net * minted_all /\
       Z.abs net * minted_these - total * Z.of_nat (length owners) <= total * Z.abs y) /\
    (minted_all <= total -> Z.abs y <= Z.abs net).
Proof.
  intros Hnd Hs Ht Hd Hf. set (sh o := minted_by (owned o) (Indexer.ledger h) deposits).
  assert (Ha : forall o, exists r, attribute (owner_deposits o deposits) h = Some r /\
                            yield_of r = attributed (delta - fee) (sh o) total).
  { intros o. unfold attribute. rewrite Ht, Hd, Hf, shares_at_owner by done. rewrite Z.add_0_l. fold (sh o).
    eexists. split; [done|]. destruct (Z.ltb_spec 0 (sh o)) as [H|H]; simpl.
    - by rewrite BigInt_of_string_to_string.
    - unfold attributed. by rewrite (proj2 (Z.ltb_ge 0 (sh o)) H), andb_false_r. }
  assert (Hrs : exists rs, mapM (fun o => attribute (owner_deposits o deposits) h) owners = Some rs /\
                  yield_of <$> rs = (fun n => attributed (delta - fee) n total) <$> (sh <$> owners)).
  { clear Hnd. induction owners as [|o os IH]; [by exists []|]. destruct IH as (rs & Hrs & Hy), (Ha o) as (r & Hr & Hyr).
    exists (r :: rs). simpl. rewrite Hr. simpl. rewrite Hrs. split; [done|]. csimpl. rewrite Hyr. f_equal. exact Hy. }
  destruct Hrs as (rs & Hrs & Hy). exists rs. split; [done|]. cbv zeta. rewrite Hy.
  pose proof (attributed_sum_abs (delta - fee) total (sh <$> owners)) as [H0 H1].
  { apply Forall_fmap, Forall_true. intros o. by apply minted_by_nonneg. }
  pose proof (minted_by_owners owners (Indexer.ledger h) deposits Hnd Hs) as Hm. fold sh in Hm.
  rewrite length_fmap in H1. split; [exact H0|]. split.
  - intros Hpos. destruct (H1 Hpos) as (? & ? & ?). split_and!; [done|nia|done].
  - intros Hle. destruct (Z.le_gt_cases total 0) as [Hz|Hpos]; [rewrite (H0 Hz); lia|].
    destruct (H1 Hpos) as (_ & _ & ?). nia.
Qed.

(** *** Concrete runs *)

Definition toy_cfg : Config := mkConfig "exports" 48.
Definition alice : AccountUser :=
  mkUser "GALICE" (Some "alice"%string) None (Some "a@x"%string) "user" None None None 0 None.
Definition toy_note : Notifications.Notification :=
  Notifications.mkNotification 1 "GALICE" "t" "t" "m" None false 0 None.
Definition deposit (l : Z) (o n : string) : Indexer.ContractEvent :=
  Indexer.mkEvent 0 l 0 "deposited" [("owner"%string, VStr o); ("shares_minted"%string, VStr n)] None Indexer.PROCESSED 0.
Definition harvest (l : Z) (total delta fee : string) : Indexer.ContractEvent :=
  Indexer.mkEvent 0 l 0 "harvested"
    [("total_shares"%string, VStr total); ("delta"%string, VStr delta); ("fee"%string, VStr fee)] None Indexer.PROCESSED 0.

Definition toy_start : state (B := MemBackend) :=
  mkState [(1%nat, mkJob "u1" pending None None)] [("u1"%string, alice)] [(1%nat, toy_note)] [("u1"%string, 3)]
    [("GALICE"%string, Savings.mkPosition "GALICE" "100" None 0)]
    [(1%nat, deposit 5 "GALICE" "100"); (2%nat, harvest 9 "300" "31" "1")] [].

(** All tables there are. *)
Definition no_rows (t u : string) : list jsval := [].
Definition full : list string := exported_tables.
Definition export_pass (s : state (B := MemBackend)) := (processExports toy_cfg full no_rows (fun _ => None) 10 s).2.

(** The export of the toy account, and its download. *)
Example export_run :
  (downloadExport "u1" 1 20 (export_pass toy_start)).1 = Ret "exports/1.json"%string /\
  (attributed_yield <$> (match (getHarvestAttributionHistory "GALICE" toy_start).1 with Ret l => l | _ => [] end)) = ["10"%string] /\
  (downloadExport "u2" 1 20 (export_pass toy_start)).1 = Throw (NotFoundException "Export job not found") /\
  (downloadExport "u1" 1 200000000 (export_pass toy_start)).1 = Throw (GoneException "Export has expired").
Proof. repeat split; vm_compute; reflexivity. Qed.

Lemma exports_settle_witness :
  (length (pending_jobs toy_start) <= 5 * 1)%nat /\
  pending_jobs (foldl (fun s p => (processExports toy_cfg full no_rows p.1 p.2 s).2) toy_start [(fun _ => None, 10)]) = [].
Proof.
  split; [vm_compute; lia|]. apply (exports_settle toy_cfg full no_rows [(fun _ => None, 10)] toy_start). vm_compute. lia.
Defined.

Lemma exports_fail_without_legacy_tables_witness :
  (forall t, t ∈ legacyTables -> t ∉ ["user_follows"%string]) /\
  exists j', find_one 1%nat (jobs (runExport toy_cfg ["user_follows"%string] no_rows None 1 (mkJob "u1" pending None None) 10 toy_start).2)
               = Some j' /\ status j' = failed.
Proof.
  assert (H : forall t, t ∈ legacyTables -> t ∉ ["user_follows"%string]).
  { intros t Ht ->%list_elem_of_singleton. revert Ht. apply (bool_decide_unpack _). vm_compute. exact I. }
  split; [exact H|].
  apply (exports_fail_without_legacy_tables toy_cfg ["user_follows"%string] no_rows None 1 (mkJob "u1" pending None None) 10 toy_start H).
  reflexivity.
Defined.

Lemma deletion_erases_witness :
  find_one "u1"%string (users (export_pass toy_start)) = Some alice /\
  username alice = Some "alice"%string /\ email alice = Some "a@x"%string /\
  (deleteAccount "u1" 30 (export_pass toy_start)).1 = Ret tt /\
  (exists row, find_one "u1"%string (users (deleteAccount "u1" 30 (export_pass toy_start)).2) = Some row /\
     stellar_address row = "GALICE"%string /\ username row = None /\ email row = None /\ deleted_at row = Some 30) /\
  find_one 1%nat (notifications (export_pass toy_start)) ≠ None /\
  ~ find_one 1%nat (notifications (deleteAccount "u1" 30 (export_pass toy_start)).2) = Some toy_note /\
  Mem.find (files (export_pass toy_start)) "exports/1.json" ≠ None /\
  Mem.find (files (deleteAccount "u1" 30 (export_pass toy_start)).2) "exports/1.json" = None.
Proof.
  split; [vm_compute; reflexivity|]. split; [done|]. split; [done|].
  destruct (deletion_erases "u1" alice 30 (export_pass toy_start) ltac:(vm_compute; reflexivity))
    as (H1 & (row & Hrow & Ha & _ & _ & Hn & _ & He & _ & _ & _ & Hd) & _ & Hnote & _ & _ & H2).
  split; [exact H1|]. split; [exists row; by rewrite Ha|].
  split; [vm_compute; done|]. split; [intros [_ Hne]%Hnote; by apply Hne|].
  split; [vm_compute; done|]. rewrite H2. vm_compute. reflexivity.
Defined.

Lemma deletion_during_export_leaks_witness :
  exists d, (gatherUserData full no_rows "u1" 10 (started 1 toy_start)).1 = Ret d /\
    Mem.find (files (cleanupExports 999999999
      (write_export toy_cfg None 1 d 12 (deleteAccount "u1" 11 (started 1 toy_start)).2).2).2) "exports/1.json" = Some d.
Proof.
  eexists. split; [vm_compute; reflexivity|].
  apply (deletion_during_export_leaks toy_cfg full no_rows "u1" alice 1 (mkJob "u1" pending None None) _ 10 11 12 999999999 toy_start);
    [vm_compute; reflexivity..|].
  intros k j Hk. destruct k as [|[|k]]; vm_compute in Hk; try done. injection Hk as <-. done.
Defined.

Lemma attribution_conserved_witness :
  exists rs, mapM (fun o => attribute (owner_deposits o [deposit 5 "GA" "100"; deposit 6 "GB" "200"]) (harvest 9 "300" "32" "1"))
               ["GA"%string; "GB"%string] = Some rs /\ 29 <= sumZ (yield_of <$> rs) <= 31.
Proof.
  destruct (attribution_conserved (harvest 9 "300" "32" "1") [deposit 5 "GA" "100"; deposit 6 "GB" "200"] ["GA"%string; "GB"%string] 300 32 1)
    as (rs & Hrs & _ & H & _).
  - apply (bool_decide_unpack _). vm_compute. exact I.
  - repeat constructor; eexists; (split; [vm_compute; reflexivity|lia]).
  - reflexivity.
  - reflexivity.
  - reflexivity.
  - exists rs. split; [exact Hrs|]. destruct (H ltac:(lia)) as (H1 & H2 & H3). clear H Hrs.
    match type of H2 with _ <= _ * ?m => replace m with 300 in H2 by (vm_compute; reflexivity) end.
    match type of H3 with _ * ?m - _ <= _ => replace m with 300 in H3 by (vm_compute; reflexivity) end.
    cbn [length] in H3. lia.
Defined.

(** Shares that were withdrawn before the harvest are still counted: two owners who hold
    100 of 100 shares are told 31 and 31 of a yield of 31. *)
Lemma withdrawn_shares_still_earn :
  let deposits := [deposit 5 "GA" "100"; deposit 7 "GB" "100"] in
  (* GA withdrew its 100 shares at ledger 6 *)
  (fun o => yield_of <$> attribute (owner_deposits o deposits) (harvest 9 "100" "32" "1")) <$> ["GA"%string; "GB"%string]
    = [Some 31; Some 31].
Proof. vm_compute. reflexivity. Qed.
End Account.
