(* ===== verification/AuditLog.v ===== *)
(** * The administrators' audit log

    Models [backend/src/admin/audit-log.service.ts]: the log whose rows carry a chained
    keyed digest, its queries and the check of the chain; and
    [admin/interceptors/admin-audit.interceptor.ts], which writes a row per audited
    request.  The keyed digest is a parameter. *)
From Stdlib Require Import ZArith Lia Ascii.
From stdpp Require Import base list strings sorting sets.
From S2P Require Import Prelude Storage JsValue JsText JsDate Encoding.
Local Open Scope Z_scope.
#[local] Ltac Zify.zify_post_hook ::= Z.to_euclidean_division_equations.

Module AuditLog.

(** A row of [admin_audit_logs]; [created_at] is what the database holds, in
    microseconds. *)
Record AdminAuditLog := mkLog {
  actor_id : string;
  action : string;
  target_type : option string;
  target_id : option string;
  metadata : jsval;
  checksum : option string;
  created_at : Z;
}.

Record CreateAuditLogDto := mkDto {
  dto_actor : string;
  dto_action : string;
  dto_target_type : option string;
  dto_target_id : option string;
  dto_metadata : jsval;
}.

(** A [Date] read from the database has whole milliseconds. *)
Definition js_time (us : Z) : Z := us / 1000.

Record IntegrityReport := mkReport { ok : bool; checked : nat; broken_at : option string }.

Record AuditLogQueryDto := mkQuery {
  q_page : option Z;
  q_limit : option Z;
  q_actor_id : option string;
  q_action : option string;
  q_from : option Date;
  q_to : option Date;
}.

Record AuditLogPage := mkPage {
  data : list (string * AdminAuditLog);
  total : Z;
  page : Z;
  limit : Z;
  totalPages : Z;
}.

(** [createdAt, id] in the order of the database; uuids compare as their text does. *)
Definition before (a b : Z * string) : bool :=
  (a.1 <? b.1) || ((a.1 =? b.1) && String.ltb a.2 b.2).

Definition position (r : string * AdminAuditLog) : Z * string := (created_at r.2, r.1).

(** [ORDER BY created_at DESC, id DESC] and its first row. *)
Definition later (best : option (string * AdminAuditLog)) (r : string * AdminAuditLog) :=
  match best with
  | None => Some r
  | Some b => if before (position b) (position r) then Some r else best
  end.
Definition greatest (l : list (string * AdminAuditLog)) : option (string * AdminAuditLog) :=
  foldl later None l.

Section service.
Context {B : Backend}.
(** [hmac secret text] is the SHA-256 keyed digest; [AUDIT_LOG_HMAC_SECRET]. *)
Context (hmac : string -> string -> list Z) (AUDIT_LOG_HMAC_SECRET : option string).

Definition state : Type := table string AdminAuditLog.

Definition secret : string := default "default-dev-secret"%string AUDIT_LOG_HMAC_SECRET.

Definition payload (id : string) (row : AdminAuditLog) (prevChecksum : string) : string :=
  join_with "|" [prevChecksum; id; actor_id row; action row; toISOString (js_time (created_at row))].

Definition computeChecksumSync (id : string) (row : AdminAuditLog) (prevChecksum : string) : string :=
  to_hex (hmac secret (payload id row prevChecksum)).

(** The query takes [row.created_at] as the client has it, cut to milliseconds. *)
Definition preceding (id : string) (row : AdminAuditLog) (s : state) : option (string * AdminAuditLog) :=
  let ts := js_time (created_at row) * 1000 in
  greatest (List.filter (fun r => before (position r) (ts, id)) (rows s)).

Definition computeChecksum (id : string) (row : AdminAuditLog) : M state string :=
  await prev := gets (preceding id row) in
  ret (computeChecksumSync id row (default ""%string (prev ≫= (fun r => checksum r.2)))).

Definition set_checksum (c : string) (row : AdminAuditLog) : AdminAuditLog :=
  mkLog (actor_id row) (action row) (target_type row) (target_id row) (metadata row) (Some c) (created_at row).

Definition new_row (dto : CreateAuditLogDto) (now : Z) : AdminAuditLog :=
  mkLog (dto_actor dto) (dto_action dto) (dto_target_type dto) (dto_target_id dto) (dto_metadata dto) None now.

(** The two saves of [log], which other requests can come between. *)
Definition insert_entry (dto : CreateAuditLogDto) (id : string) (now : Z) : M state AdminAuditLog :=
  do modify (save id (new_row dto now)) ;> ret (new_row dto now).

Definition seal_entry (id : string) (saved : AdminAuditLog) : M state (string * AdminAuditLog) :=
  await c := computeChecksum id saved in
  do modify (save id (set_checksum c saved)) ;>
  ret (id, set_checksum c saved).

(** [id] and [now] are the uuid and the time the database gives to the row. *)
Definition log (dto : CreateAuditLogDto) (id : string) (now : Z) : M state (string * AdminAuditLog) :=
  await saved := insert_entry dto id now in
  seal_entry id saved.

Definition given (o : option string) (p : string -> bool) : bool :=
  match o with None | Some EmptyString => true | Some v => p v end.

(** A date filter: an invalid date is refused by the database. *)
Definition date_bound (o : option Date) : M state (option Z) :=
  match o with
  | None => ret None
  | Some d => await t := timestamptz d in ret (Some (t * 1000))
  end.

Definition matches (dto : AuditLogQueryDto) (from to : option Z) (r : AdminAuditLog) : bool :=
  given (q_actor_id dto) (fun a => bool_decide (actor_id r = a)) &&
  given (q_action dto) (fun a => bool_decide (action r = a)) &&
  match from with Some t => t <=? created_at r | None => true end &&
  match to with Some t => created_at r <=? t | None => true end.

Definition query (dto : AuditLogQueryDto) : M state AuditLogPage :=
  let page := default 1 (q_page dto) in
  let limit := default 20 (q_limit dto) in
  await from := date_bound (q_from dto) in
  await to := date_bound (q_to dto) in
  await found := gets (fun s => order_by (fun r => - created_at r.2)
                                 (List.filter (fun r => matches dto from to r.2) (rows s))) in
  let n := Z.of_nat (length found) in
  ret (mkPage (take (Z.to_nat limit) (drop (Z.to_nat ((page - 1) * limit)) found)) n page limit ((n + limit - 1) / limit)).

(** The loop of the check; [i] is the index of the next row. *)
Fixpoint verify_rows (prev : string) (i : nat) (l : list (string * AdminAuditLog)) : IntegrityReport :=
  match l with
  | [] => mkReport true i None
  | (id, row) :: l' =>
      if bool_decide (checksum row = Some (computeChecksumSync id row prev))
      then verify_rows (computeChecksumSync id row prev) (S i) l'
      else mkReport false (S i) (Some id)
  end.

Definition in_order (s : state) : list (string * AdminAuditLog) := order_by (fun r => created_at r.2) (rows s).

Definition verifyIntegrity : M state IntegrityReport := gets (fun s => verify_rows ""%string 0 (in_order s)).

(** *** [AdminAuditInterceptor] *)

(** [url.split('?')[0]]. *)
Fixpoint path_of (url : string) : string :=
  match url with
  | EmptyString => EmptyString
  | String c r => if bool_decide (c = "?"%char) then EmptyString else String c (path_of r)
  end.

Definition has (path p : string) : bool := includes (units p) (units path).
Definition ends (path p : string) : bool := starts_with (rev (units p)) (rev (units path)).

Definition resolveAction (method url : string) : string :=
  let path := path_of url in
  let m x := bool_decide (method = x) in
  if m "GET"%string && ends path "/admin/savings/overview" then "VIEW_SAVINGS_OVERVIEW"
  else if m "GET"%string && has path "/admin/savings/yield" then "VIEW_YIELD_OVERVIEW"
  else if m "PATCH"%string && has path "/ban" then "BAN_USER"
  else if m "PATCH"%string && has path "/unban" then "UNBAN_USER"
  else if m "PATCH"%string && has path "/role" then "UPDATE_USER_ROLE"
  else if m "POST"%string && has path "/bulk-action" then "BULK_USER_ACTION"
  else if m "POST"%string && has path "/resolve" then "RESOLVE_MARKET"
  else if m "PATCH"%string && has path "/feature" && negb (has path "/unfeature") then "FEATURE_MARKET"
  else if m "PATCH"%string && has path "/unfeature" then "UNFEATURE_MARKET"
  else if m "PATCH"%string && has path "/moderate" then "MODERATE_COMMENT"
  else if m "PATCH"%string && has path "/flags" then "RESOLVE_FLAG"
  else if m "DELETE"%string && has path "/competitions" then "CANCEL_COMPETITION"
  else method +:+ ":" +:+ path.

(** [id] is [params?.id ?? null]. *)
Definition resolveTarget (url : string) (id : option string) : option string * option string :=
  let path := path_of url in
  if has path "/users" then (Some "user"%string, id)
  else if has path "/markets" then (Some "market"%string, id)
  else if has path "/competitions" then (Some "competition"%string, id)
  else if has path "/comments" then (Some "comment"%string, id)
  else if has path "/flags" then (Some "flag"%string, id)
  else if ends path "/admin/savings/overview" then (Some "savings"%string, Some "overview"%string)
  else if has path "/admin/savings/yield" then (Some "savings"%string, Some "yield"%string)
  else (None, id).

(** [v.key]. *)
Definition member (v : jsval) (key : string) : outcome jsval :=
  match v with
  | VUndef | VNull => Throw (TypeError ("Cannot read properties of " +:+ js_String v))
  | VObj fields => Ret (prop fields key)
  | _ => Ret VUndef
  end.

(** [results.filter(r => !!r.success === want).map(f)]. *)
Fixpoint outcomes (want : bool) (f : jsval -> outcome jsval) (results : list jsval) : outcome (list jsval) :=
  match results with
  | [] => Ret []
  | r :: rest =>
      match member r "success", outcomes want f rest with
      | Throw e, _ | _, Throw e => Throw e
      | Ret v, Ret ys =>
          if Bool.eqb (truthy v) want then
            match f r with Ret y => Ret (y :: ys) | Throw e => Throw e end
          else Ret ys
      end
  end.

Definition failure_entry (r : jsval) : outcome jsval :=
  match member r "user_id", member r "code" with
  | Ret u, Ret c => Ret (VObj [("user_id"%string, u); ("code"%string, c)])
  | Throw e, _ | _, Throw e => Throw e
  end.

(** [{ ...(body ?? {}), outcome }]. *)
Definition with_outcome (body : option record) (o : jsval) : record :=
  List.filter (fun f => negb (bool_decide (f.1 = "outcome"%string))) (default [] body) ++ [("outcome"%string, o)].

Definition buildMetadata (action : string) (body : option record) (response : jsval) : outcome jsval :=
  if negb (bool_decide (action = "BULK_USER_ACTION"%string)) || negb (truthy response)
  then Ret (match body with Some b => VObj b | None => VNull end)
  else
    match member response "succeeded", member response "failed", member response "results" with
    | Ret succeeded, Ret failed, Ret results =>
        match match results with VUndef => Ret [] | VArr l => Ret l | _ => Throw (TypeError "results.filter is not a function") end with
        | Throw e => Throw e
        | Ret l =>
            match outcomes true (fun r => member r "user_id") l, outcomes false failure_entry l with
            | Ret ids, Ret failures =>
                Ret (VObj (with_outcome body (VObj
                  [("succeeded"%string, succeeded); ("failed"%string, failed);
                   ("succeeded_ids"%string, VArr ids); ("failures"%string, VArr failures)])))
            | Throw e, _ | _, Throw e => Throw e
            end
        end
    | Throw e, _, _ | _, Throw e, _ | _, _, Throw e => Throw e
    end.

(** [handled] is what the handler of the route gave. *)
Definition intercept (user : option string) (method url : string) (paramId : option string) (body : option record)
    (handled : outcome jsval) (id : string) (now : Z) : M state jsval :=
  match handled with
  | Throw e => throw e
  | Ret response =>
      match user with
      | None => ret response
      | Some actor =>
          let action := resolveAction method url in
          let '(target_type, target_id) := resolveTarget url paramId in
          match buildMetadata action body response with
          | Throw e => throw e
          | Ret md => do log (mkDto actor action target_type target_id md) id now ;> ret response
          end
      end
  end.

(** *** The chain *)

(** A chain of rows that follows [prev]. *)
Fixpoint chained (prev : string) (l : list (string * AdminAuditLog)) : Prop :=
  match l with
  | [] => True
  | (id, row) :: l' =>
      checksum row = Some (computeChecksumSync id row prev) /\ chained (computeChecksumSync id row prev) l'
  end.

Lemma verify_chained prev i l : chained prev l <-> verify_rows prev i l = mkReport true (i + length l) None.
Proof.
  revert prev i. induction l as [|[id row] l IH]; intros prev i; simpl; [by rewrite Nat.add_0_r|].
  case_bool_decide as Hc; [|naive_solver]. rewrite (IH _ (S i)), Nat.add_succ_r. naive_solver.
Qed.

Lemma verify_ok prev i l : ok (verify_rows prev i l) = true -> chained prev l.
Proof.
  revert prev i. induction l as [|[id row] l IH]; intros prev i; simpl; [done|].
  case_bool_decide as Hc; [|done]. intros H. split; [done|]. by eapply IH.
Qed.

(** The digest before the end of a chain. *)
Definition last_checksum (prev : string) (l : list (string * AdminAuditLog)) : string :=
  foldl (fun p r => computeChecksumSync r.1 r.2 p) prev l.

Lemma chained_app prev l k : chained prev (l ++ k) <-> chained prev l /\ chained (last_checksum prev l) k.
Proof.
  revert prev. induction l as [|[id row] l IH]; intros prev; simpl; [naive_solver|]. rewrite IH. naive_solver.
Qed.

Lemma chained_last prev l r : chained prev (l ++ [r]) -> checksum r.2 = Some (last_checksum prev (l ++ [r])).
Proof.
  intros [_ H]%chained_app. destruct r as [id row]. unfold last_checksum. rewrite foldl_app. simpl. apply H.
Qed.

(** *** Logging keeps the chain *)

Lemma ltb_irrefl (t : string) : String.ltb t t = false.
Proof.
  unfold String.ltb. pose proof (String.compare_antisym t t) as Ha. by destruct (String.compare t t).
Qed.

Lemma foldl_later_max r l best :
  best = Some r \/ (r ∈ l /\ forall b, best = Some b -> created_at b.2 < created_at r.2) ->
  (forall x, x ∈ l -> x = r \/ created_at x.2 < created_at r.2) ->
  foldl later best l = Some r.
Proof.
  revert best. induction l as [|x l IH]; intros best Hb Hmax; simpl; [set_solver|].
  assert (Hx : x = r \/ created_at x.2 < created_at r.2) by (apply Hmax; set_solver).
  apply IH; [|intros y Hy; apply Hmax; set_solver].
  destruct Hb as [->|[Hin Hb]].
  - left. unfold later, before, position. simpl. destruct Hx as [->|Hx]; [by case_match|].
    rewrite (proj2 (Z.ltb_ge _ _)), (proj2 (Z.eqb_neq _ _)) by lia. done.
  - destruct Hx as [->|Hx].
    + left. unfold later. destruct best as [b|]; [|done]. unfold before, position. simpl.
      by rewrite (proj2 (Z.ltb_lt _ _)) by by apply Hb.
    + right. split; [set_solver by lia|]. intros b. unfold later. destruct best as [c|]; [|naive_solver].
      case_match; naive_solver.
Qed.

(** Chained rows at distinct times. *)
Definition sound (s : state) : Prop :=
  NoDup ((fun r => created_at r.2) <$> rows s) /\ chained ""%string (in_order s).

Lemma in_order_snoc s s' r :
  NoDup ((fun r => created_at r.2) <$> rows s) ->
  rows s' ≡ₚ r :: rows s -> Forall (fun x => created_at x.2 < created_at r.2) (rows s) ->
  in_order s' = in_order s ++ [r].
Proof.
  intros Hnd Hp Hlt. unfold in_order.
  set (R := fun x y : string * AdminAuditLog => created_at x.2 <= created_at y.2).
  assert (Hlt' : Forall (fun x => created_at x.2 < created_at r.2) (order_by (fun r => created_at r.2) (rows s)))
    by by rewrite order_by_perm.
  apply (StronglySorted_unique_strong R).
  - intros x y Hx Hy Hxy Hyx. unfold R in *. rewrite order_by_perm, Hp in Hx.
    assert (Hy' : y ∈ r :: rows s) by (rewrite elem_of_app, order_by_perm in Hy; set_solver).
    apply (NoDup_fmap_inj (fun r => created_at r.2) (r :: rows s)); [|done|done|lia].
    csimpl. apply NoDup_cons. split; [|done]. rewrite list_elem_of_fmap. intros (z & Hz & Hin).
    rewrite Forall_forall in Hlt. specialize (Hlt z Hin). lia.
  - apply order_by_sorted.
  - apply StronglySorted_app_2; [|apply order_by_sorted|repeat constructor].
    intros x y Hx Hy. unfold R. rewrite Forall_forall in Hlt'. apply list_elem_of_singleton in Hy as ->.
    specialize (Hlt' x Hx). lia.
  - rewrite !order_by_perm, Hp. by rewrite Permutation_app_comm.
Qed.

Lemma rows_save_twice id (v w : AdminAuditLog) (s : state) :
  find_one id s = None -> rows (save id v (save id w s)) ≡ₚ (id, v) :: rows s.
Proof.
  intros Hf. destruct (rows_save_old id w v (save id w s) (find_one_save_eq id w s)) as (l & Hl & ->).
  apply perm_skip. apply (Permutation_cons_inv (a := (id, w))). rewrite <-Hl. by apply rows_save_new.
Qed.

(** The row before a new, later one is the last of the chain. *)
Lemma preceding_last id row s :
  NoDup ((fun r => created_at r.2) <$> rows s) -> find_one id s = None ->
  Forall (fun r => js_time (created_at r.2) < js_time (created_at row)) (rows s) ->
  preceding id row (save id row s) = last (in_order s).
Proof.
  intros Hnd Hf Hlt. unfold preceding, greatest.
  assert (Hp : List.filter (fun r => before (position r) (js_time (created_at row) * 1000, id)) (rows (save id row s))
               ≡ₚ rows s).
  { rewrite (rows_save_new id row s Hf). simpl. unfold before at 1, position. cbn [fst snd].
    rewrite ltb_irrefl, andb_false_r, orb_false_r.
    rewrite (proj2 (Z.ltb_ge _ _)) by (unfold js_time; lia).
    rewrite filter_all; [done|]. eapply Forall_impl; [exact Hlt|]. intros r Hr. simpl.
    unfold before. simpl. rewrite (proj2 (Z.ltb_lt _ _)); [done|]. unfold js_time in *. lia. }
  destruct (last (in_order s)) as [r|] eqn:Hl.
  - apply last_Some in Hl as [l' Hl].
    assert (Hr : r ∈ in_order s) by (rewrite Hl; set_solver).
    apply foldl_later_max.
    + right. split; [|done]. rewrite Hp. unfold in_order in Hr. by rewrite order_by_perm in Hr.
    + intros x. rewrite Hp. intros Hx. assert (Hx' : x ∈ in_order s) by (unfold in_order; by rewrite order_by_perm).
      rewrite Hl in Hx'. apply elem_of_app in Hx' as [Hx'|Hx']; [|left; set_solver].
      pose proof (order_by_sorted (fun r => created_at r.2) (rows s)) as Hs. fold (in_order s) in Hs. rewrite Hl in Hs.
      pose proof (StronglySorted_app_1_elem_of _ _ _ x r Hs Hx' ltac:(set_solver)) as Hle. simpl in Hle.
      destruct (decide (created_at x.2 = created_at r.2)) as [He|]; [|right; lia].
      left. eapply (NoDup_fmap_inj (fun r => created_at r.2)); [exact Hnd|done| |done].
      unfold in_order in Hr. by rewrite order_by_perm in Hr.
  - apply last_None in Hl. assert (rows s = []) as Hn.
    { apply Permutation_nil_r. rewrite <-Hl. unfold in_order. by rewrite order_by_perm. }
    rewrite Hn in Hp. apply Permutation_nil_r in Hp. by rewrite Hp.
Qed.

Lemma log_appends dto id now s :
  sound s -> find_one id s = None -> Forall (fun r => js_time (created_at r.2) < js_time now) (rows s) ->
  exists row, (log dto id now s).1 = Ret (id, row) /\ actor_id row = dto_actor dto /\ action row = dto_action dto /\
    target_type row = dto_target_type dto /\ target_id row = dto_target_id dto /\ metadata row = dto_metadata dto /\
    created_at row = now /\ rows (log dto id now s).2 ≡ₚ (id, row) :: rows s /\
    in_order (log dto id now s).2 = in_order s ++ [(id, row)] /\ sound (log dto id now s).2.
Proof.
  intros [Hnd Hch] Hf Hlt. unfold log, insert_entry, seal_entry, computeChecksum, bind, modify, gets, ret. cbn [fst snd].
  rewrite (preceding_last id (new_row dto now) s Hnd Hf Hlt).
  set (c := computeChecksumSync id (new_row dto now) _). set (row := set_checksum c (new_row dto now)).
  exists row. pose proof (rows_save_twice id row (new_row dto now) s Hf) as Hp.
  assert (Hlt' : Forall (fun x => created_at x.2 < created_at (id, row).2) (rows s)).
  { eapply Forall_impl; [exact Hlt|]. intros x. simpl. unfold js_time. lia. }
  pose proof (in_order_snoc s _ (id, row) Hnd Hp Hlt') as Hio.
  split_and!; try done. split.
  - rewrite Hp. csimpl. apply NoDup_cons. split; [|done]. rewrite list_elem_of_fmap. intros (z & Hz & Hin).
    rewrite Forall_forall in Hlt'. specialize (Hlt' z Hin). simpl in *. lia.
  - rewrite Hio, chained_app. split; [done|]. simpl. split; [|done]. f_equal. unfold c.
    change (computeChecksumSync id row) with (computeChecksumSync id (new_row dto now)). f_equal.
    destruct (last (in_order s)) as [r|] eqn:Hl; [|by apply last_None in Hl as ->].
    apply last_Some in Hl as [l' Hl]. rewrite Hl in Hch |- *. simpl.
    by rewrite (chained_last _ _ _ Hch).
Qed.

(** A sequence of logged actions, one after the other. *)
Definition run_logs (reqs : list (CreateAuditLogDto * string * Z)) (s : state) : state :=
  foldl (fun s q => (log q.1.1 q.1.2 q.2 s).2) s reqs.

Lemma run_logs_sound reqs s :
  sound s -> NoDup (reqs.*1.*2) -> StronglySorted (fun a b => js_time a < js_time b) (reqs.*2) ->
  (forall id row q, find_one id s = Some row -> q ∈ reqs -> id ≠ q.1.2 /\ js_time (created_at row) < js_time q.2) ->
  sound (run_logs reqs s) /\ length (in_order (run_logs reqs s)) = (length (in_order s) + length reqs)%nat.
Proof.
  revert s. induction reqs as [|[[dto id] now] reqs IH]; intros s Hs Hnd Hst Hold; [simpl; split; [done|lia]|].
  csimpl in *. apply NoDup_cons in Hnd as [Hni Hnd]. apply StronglySorted_inv in Hst as [Hst Hall].
  destruct (log_appends dto id now s Hs) as (row & _ & _ & _ & _ & _ & _ & Hc & Hp & Hio & Hs').
  - destruct (find_one id s) as [r|] eqn:Hf; [|done].
    destruct (Hold id r (dto, id, now) Hf ltac:(set_solver)) as [Hne _]. done.
  - apply Forall_forall. intros [i r] Hin. apply elem_of_rows in Hin. simpl.
    apply (Hold i r (dto, id, now) Hin ltac:(set_solver)).
  - destruct (IH (log dto id now s).2 Hs' Hnd Hst) as [H1 H2].
    + intros i r q Hf Hq. apply elem_of_rows in Hf. rewrite Hp, elem_of_cons in Hf. destruct Hf as [Hf|Hf].
      * injection Hf as -> ->. rewrite Hc. split.
        -- intros ->. apply Hni. apply list_elem_of_fmap. exists q.1. split; [done|]. apply list_elem_of_fmap. by exists q.
        -- rewrite Forall_forall in Hall. apply (Hall q.2). apply list_elem_of_fmap. by exists q.
      * apply elem_of_rows in Hf. apply (Hold i r q Hf). set_solver.
    + split; [done|]. rewrite Hio, length_app in H2. cbn [length] in H2 |- *.
      etrans; [exact H2|]. lia.
Qed.

(** Actions logged one after the other, in different milliseconds and under different
    ids, form a chain that the integrity check accepts: the report counts every row and
    names no broken one. *)
Theorem logged_chain_verifies (reqs : list (CreateAuditLogDto * string * Z)) :
  NoDup (reqs.*1.*2) -> StronglySorted (fun a b => js_time a < js_time b) (reqs.*2) ->
  (verifyIntegrity (run_logs reqs empty_table)).1 = Ret (mkReport true (length reqs) None).
Proof.
  intros Hnd Hst.
  assert (Hio : in_order empty_table = []).
  { apply Permutation_nil_r. unfold in_order. by rewrite order_by_perm, rows_empty. }
  destruct (run_logs_sound reqs empty_table) as [[_ Hc] Hl]; [|done|done| |].
  - split; [rewrite rows_empty; constructor|by rewrite Hio].
  - intros id row q Hf. by rewrite find_one_empty in Hf.
  - unfold verifyIntegrity, gets. cbn [fst]. apply (verify_chained _ 0) in Hc. by rewrite Hc, Hl, Hio.
Qed.

(** *** Tampering *)

Definition bar : ascii := "|"%char.

Definition digests : Prop := forall t, Forall is_byte (hmac secret t) /\ hmac secret t ≠ [].

(** The id column is a uuid: its text has no separator. *)
Definition uuid_key (r : string * AdminAuditLog) : Prop := free_of bar r.1 = true.

(** The part of the digested text after the checksum and the id. *)
Definition entry_text (r : string * AdminAuditLog) : string :=
  join_with "|" [actor_id r.2; action r.2; toISOString (js_time (created_at r.2))].

(** What the digest of a row covers. *)
Definition covered (r : string * AdminAuditLog) : string * string * option string :=
  (r.1, entry_text r, checksum r.2).

(** The text tells the checksum and the id it was made with. *)
Lemma payload_inj r r' prev prev' :
  uuid_key r -> uuid_key r' -> free_of bar prev = true -> free_of bar prev' = true ->
  payload r.1 r.2 prev = payload r'.1 r'.2 prev' ->
  prev = prev' /\ r.1 = r'.1 /\ entry_text r = entry_text r'.
Proof.
  intros Hi Hi' Hp Hp' He. unfold payload in He. cbn [join_with] in He.
  apply append_sep_inj in He as [-> He]; [|done..]. by apply append_sep_inj in He as [-> He].
Qed.

Lemma entry_text_split r :
  entry_text r = join_with "|" [actor_id r.2; action r.2] +:+ "|" +:+ toISOString (js_time (created_at r.2)).
Proof. unfold entry_text. cbn [join_with]. by rewrite !String_app_assoc. Qed.

(** Of a time in a four-digit year it tells the time, and the actor and the action
    up to where the one ends and the other starts. *)
Lemma entry_text_inj r r' :
  iso_range (js_time (created_at r.2)) -> iso_range (js_time (created_at r'.2)) ->
  entry_text r = entry_text r' ->
  js_time (created_at r.2) = js_time (created_at r'.2) /\
  join_with "|" [actor_id r.2; action r.2] = join_with "|" [actor_id r'.2; action r'.2].
Proof.
  intros Ht Ht' He. rewrite !entry_text_split in He.
  apply String_app_inj in He as [-> He].
  - apply String_app_inj in He as [_ He]; [|done]. split; [|done]. by apply toISOString_inj.
  - apply (f_equal String.length) in He. rewrite !String_length_app, !toISOString_length in He by done. lia.
Qed.

(** The text digested for each row of a chain. *)
Fixpoint payloads (prev : string) (l : list (string * AdminAuditLog)) : list string :=
  match l with
  | [] => []
  | (id, row) :: l' => payload id row prev :: payloads (computeChecksumSync id row prev) l'
  end.

Lemma payloads_app prev l k : payloads prev (l ++ k) = payloads prev l ++ payloads (last_checksum prev l) k.
Proof. revert prev. induction l as [|[id row] l IH]; intros prev; simpl; [done|]. by rewrite IH. Qed.

Lemma last_checksum_snoc prev l r : last_checksum prev (l ++ [r]) = computeChecksumSync r.1 r.2 (last_checksum prev l).
Proof. unfold last_checksum. by rewrite foldl_app. Qed.

Section tamper.
Hypothesis Hdig : digests.

Lemma last_checksum_free l : free_of bar (last_checksum ""%string l) = true.
Proof.
  destruct l as [|r l _] using rev_ind; [done|]. rewrite last_checksum_snoc. unfold computeChecksumSync.
  apply free_of_hex; [done|]. apply Hdig.
Qed.

Lemma checksum_nonempty r prev : computeChecksumSync r.1 r.2 prev ≠ ""%string.
Proof.
  unfold computeChecksumSync. destruct (Hdig (payload r.1 r.2 prev)) as [_ Hne].
  destruct (hmac secret _); [done|]. discriminate.
Qed.

Lemma computeChecksumSync_inj r r' prev prev' :
  (hmac secret (payload r.1 r.2 prev) = hmac secret (payload r'.1 r'.2 prev') ->
   payload r.1 r.2 prev = payload r'.1 r'.2 prev') ->
  computeChecksumSync r.1 r.2 prev = computeChecksumSync r'.1 r'.2 prev' ->
  payload r.1 r.2 prev = payload r'.1 r'.2 prev'.
Proof.
  intros Hinj He. apply Hinj. unfold computeChecksumSync in He. apply (f_equal from_hex) in He.
  by rewrite !from_to_hex in He by apply Hdig.
Qed.

(** No two texts of [ps] have one digest. *)
Definition collision_free (ps : list string) : Prop :=
  forall p q, p ∈ ps -> q ∈ ps -> hmac secret p = hmac secret q -> p = q.

Lemma payload_at l1 r l2 : payload r.1 r.2 (last_checksum ""%string l1) ∈ payloads ""%string (l1 ++ r :: l2).
Proof. rewrite payloads_app. destruct r as [id row]. simpl. set_solver. Qed.

(** The digests after the prefixes of a chain are different. *)
Lemma prefix_checksum_inj l1 l2 k1 k2 ps :
  l1 ++ k1 = l2 ++ k2 -> Forall uuid_key (l1 ++ k1) -> NoDup (l1 ++ k1).*1 ->
  payloads ""%string (l1 ++ k1) ⊆ ps -> collision_free ps ->
  last_checksum ""%string l1 = last_checksum ""%string l2 -> l1 = l2.
Proof.
  intros Heq Hpl Hnd Hps Hcf Hlast.
  destruct l1 as [|r1 l1 _] using rev_ind; destruct l2 as [|r2 l2 _] using rev_ind; [done|..];
    rewrite ?last_checksum_snoc in Hlast.
  - exfalso. by apply (checksum_nonempty r2 (last_checksum ""%string l2)).
  - exfalso. by apply (checksum_nonempty r1 (last_checksum ""%string l1)).
  - rewrite <-!app_assoc in Heq. simpl in Heq. rewrite <-app_assoc in Hpl, Hnd, Hps. simpl in Hpl, Hnd, Hps.
    pose proof (payload_at l1 r1 k1) as P1. pose proof (payload_at l2 r2 k2) as P2. rewrite <-Heq in P2.
    apply computeChecksumSync_inj in Hlast; [|intros Hh; apply Hcf; [apply Hps, P1|apply Hps, P2|done]].
    assert (Hr1 : uuid_key r1) by (eapply Forall_forall; [exact Hpl|set_solver]).
    assert (Hr2 : uuid_key r2) by (eapply Forall_forall; [exact Hpl|rewrite Heq; set_solver]).
    apply payload_inj in Hlast as (_ & Hid & _); [|done|done|apply last_checksum_free|apply last_checksum_free].
    assert (Hlen : length l1 = length l2).
    { apply (NoDup_lookup _ _ _ r1.1 Hnd).
      - by rewrite fmap_app, lookup_app_r, length_fmap, Nat.sub_diag by by rewrite length_fmap.
      - rewrite Heq, Hid. by rewrite fmap_app, lookup_app_r, length_fmap, Nat.sub_diag by by rewrite length_fmap. }
    apply app_inj_1 in Heq as [-> Heq]; [|done]. by injection Heq as -> _.
Qed.

Lemma chained_at prev l1 r l2 :
  chained prev (l1 ++ r :: l2) -> checksum r.2 = Some (computeChecksumSync r.1 r.2 (last_checksum prev l1)).
Proof. rewrite chained_app. destruct r as [id row]. simpl. naive_solver. Qed.

(** Rows that continue a chain with checksums taken from it are its next rows. *)
Lemma reused_checksums_prefix known rest l ps :
  Forall uuid_key (known ++ rest) -> NoDup (known ++ rest).*1 -> chained ""%string (known ++ rest) ->
  payloads ""%string (known ++ rest) ⊆ ps -> collision_free ps ->
  Forall uuid_key l -> chained (last_checksum ""%string known) l -> payloads (last_checksum ""%string known) l ⊆ ps ->
  (forall r, r ∈ l -> exists r0, r0 ∈ known ++ rest /\ checksum r.2 = checksum r0.2) ->
  (covered <$> l) `prefix_of` (covered <$> rest).
Proof.
  intros Hpl Hnd Hch Hps Hcf. revert known rest Hpl Hnd Hch Hps.
  induction l as [|r' l IH]; intros known rest Hpl Hnd Hch Hps Hpl' Hch' Hps' Hre; [apply prefix_nil|].
  apply Forall_cons in Hpl' as [Hr' Hpl']. destruct (Hre r' ltac:(set_solver)) as (r & Hin & Hc).
  apply list_elem_of_split in Hin as (l1 & l2 & Heq).
  pose proof (chained_at ""%string l1 r l2 ltac:(by rewrite <-Heq)) as Hcr.
  pose proof (chained_at (last_checksum ""%string known) [] r' l Hch') as Hcr'. simpl in Hcr'.
  assert (Hr : uuid_key r) by (eapply Forall_forall; [exact Hpl|rewrite Heq; set_solver]).
  pose proof (payload_at l1 r l2) as P1. rewrite <-Heq in P1.
  assert (P2 : payload r'.1 r'.2 (last_checksum ""%string known) ∈ ps).
  { apply Hps'. destruct r' as [id row]. simpl. set_solver. }
  rewrite Hcr, Hcr' in Hc. injection Hc as Hc. pose proof Hc as Hsum.
  apply computeChecksumSync_inj in Hc; [|intros Hh; apply Hcf; [done|by apply Hps|done]].
  apply payload_inj in Hc as (Hlast & Hid & Ht); [|done|done|apply last_checksum_free|apply last_checksum_free].
  assert (known = l1) as ->.
  { eapply (prefix_checksum_inj known l1 rest (r :: l2) ps); done. }
  apply app_inv_head in Heq as ->. csimpl.
  assert (covered r' = covered r) as ->.
  { unfold covered. by rewrite Hcr, Hcr', Hsum, Hid, Ht. }
  apply prefix_cons. rewrite (cons_middle r) in Hpl, Hnd, Hch, Hps, Hre. rewrite app_assoc in Hpl, Hnd, Hch, Hps, Hre.
  destruct r' as [id' row']. simpl in Hch'. destruct Hch' as [_ Hch'].
  assert (Hnext : computeChecksumSync id' row' (last_checksum ""%string l1) = last_checksum ""%string (l1 ++ [r])).
  { rewrite last_checksum_snoc. exact Hsum. }
  apply (IH (l1 ++ [r]) l2); try done.
  - by rewrite <-Hnext.
  - rewrite <-Hnext. intros p Hp. apply Hps'. simpl. set_solver.
  - intros x Hx. apply Hre. set_solver.
Qed.
End tamper.

Lemma in_order_perm s : in_order s ≡ₚ rows s.
Proof. apply order_by_perm. Qed.

(** C11: Tamper evidence: let a log pass the integrity check, and let someone without the
    key rewrite, reorder, insert or delete rows of it in any way, so that every checksum
    still in the log is one that was in it before.  If the log passes the check again,
    what is left of it is a beginning of the log as it was, row by row with the same id,
    checksum and digested text.  With four-digit years that text gives the time, and the
    actor and action but for the place of the separator between them; so they are the
    ones that were logged when the actor had, and has, no separator in it. *)
Theorem tamper_evident (s s' : state) :
  digests -> Forall uuid_key (rows s) -> Forall uuid_key (rows s') ->
  collision_free (payloads ""%string (in_order s) ++ payloads ""%string (in_order s')) ->
  (forall id row, find_one id s' = Some row ->
     exists id0 row0, find_one id0 s = Some row0 /\ checksum row = checksum row0) ->
  ok (verify_rows ""%string 0 (in_order s)) = true -> ok (verify_rows ""%string 0 (in_order s')) = true ->
  (covered <$> in_order s') `prefix_of` (covered <$> in_order s) /\
  forall i r r', in_order s !! i = Some r -> in_order s' !! i = Some r' ->
    iso_range (js_time (created_at r.2)) -> iso_range (js_time (created_at r'.2)) ->
    js_time (created_at r'.2) = js_time (created_at r.2) /\
    (actor_id r'.2 +:+ "|" +:+ action r'.2 = actor_id r.2 +:+ "|" +:+ action r.2)%string /\
    (free_of bar (actor_id r.2) = true -> free_of bar (actor_id r'.2) = true ->
     actor_id r'.2 = actor_id r.2 /\ action r'.2 = action r.2).
Proof.
  intros Hd Hpl Hpl' Hcf Hre Hok Hok'. apply verify_ok in Hok, Hok'.
  assert (Hpre : (covered <$> in_order s') `prefix_of` (covered <$> in_order s)).
  { eapply (reused_checksums_prefix Hd [] (in_order s) (in_order s')); [..|exact Hcf| |done| |].
    - simpl. by rewrite in_order_perm.
    - simpl. rewrite in_order_perm. apply NoDup_rows.
    - done.
    - set_solver.
    - by rewrite in_order_perm.
    - set_solver.
    - intros [id row]. rewrite in_order_perm, elem_of_rows. intros Hf.
      destruct (Hre id row Hf) as (id0 & row0 & Hf0 & Hc). exists (id0, row0). simpl.
      by rewrite in_order_perm, elem_of_rows. }
  split; [done|]. intros i r r' Hi Hi' Ht Ht'.
  assert (Hc : covered r' = covered r).
  { destruct Hpre as [k Hk]. apply (f_equal (lookup i)) in Hk.
    rewrite lookup_app_l, !list_lookup_fmap, Hi, Hi' in Hk by (rewrite length_fmap; by eapply lookup_lt_Some).
    change (Some (covered r) = Some (covered r')) in Hk. congruence. }
  injection Hc as _ Hc _. apply entry_text_inj in Hc as [Htime Hc]; [|done..].
  split_and!; [done..|]. intros Hb Hb'. by apply append_sep_inj in Hc.
Qed.

(** *** The interceptor *)

(** An audited request is logged exactly when its handler succeeded for a known user,
    and the answer is the handler's in every case: the chain grows by one row with the
    user as actor, the action and target of the route and the request's metadata; a
    failed or anonymous request leaves the log as it was. *)
Theorem intercept_logs user method url pid body handled id now (s : state) :
  sound s -> find_one id s = None -> Forall (fun r => js_time (created_at r.2) < js_time now) (rows s) ->
  let s' := (intercept user method url pid body handled id now s).2 in
  match handled, user with
  | Ret response, Some actor =>
      forall md, buildMetadata (resolveAction method url) body response = Ret md ->
      (intercept user method url pid body handled id now s).1 = Ret response /\ sound s' /\
      exists row, in_order s' = in_order s ++ [(id, row)] /\ actor_id row = actor /\
        action row = resolveAction method url /\ (target_type row, target_id row) = resolveTarget url pid /\
        metadata row = md /\ created_at row = now
  | _, _ => (intercept user method url pid body handled id now s).1 = handled /\ s' = s
  end.
Proof.
  intros Hs Hf Hlt. unfold intercept. destruct handled as [response|e]; [|done]. destruct user as [actor|]; [|done].
  cbv zeta. intros md ->. destruct (resolveTarget url pid) as [tt' ti].
  destruct (log_appends (mkDto actor (resolveAction method url) tt' ti md) id now s Hs Hf Hlt)
    as (row & Hr & H1 & H2 & H3 & H4 & H5 & H6 & _ & Hio & Hs').
  unfold bind. destruct (log _ id now s) as [o s1]. cbn [fst snd] in *. subst o. cbn [fst snd].
  split; [done|]. split; [done|]. exists row. simpl in *. split_and!; congruence.
Qed.

(** *** What the check does not see *)

(** A row with other values in the columns the digest leaves out. *)
Definition retarget (tt' ti : option string) (md : jsval) (r : string * AdminAuditLog) : string * AdminAuditLog :=
  (r.1, mkLog (actor_id r.2) (action r.2) tt' ti md (checksum r.2) (created_at r.2)).

(** The check gives the same report whatever the targets and the metadata say. *)
Theorem uncovered_columns_undetected (f : string -> option string * option string * jsval) prev i l :
  verify_rows prev i ((fun r => retarget (f r.1).1.1 (f r.1).1.2 (f r.1).2 r) <$> l) = verify_rows prev i l.
Proof. revert prev i. induction l as [|[id row] l IH]; intros prev i; [done|]. cbn. by rewrite IH. Qed.

(** A log cut after any of its rows passes the check. *)
Theorem truncation_undetected n l :
  ok (verify_rows ""%string 0 l) = true -> verify_rows ""%string 0 (take n l) = mkReport true (length (take n l)) None.
Proof.
  intros H. apply verify_ok in H. rewrite <-(take_drop n l) in H. apply chained_app in H as [H _].
  by apply (verify_chained _ 0) in H.
Qed.

(** The text of a row does not tell where the actor ends and the action starts. *)
Theorem separator_ambiguous id prev a x b tt' ti md c t :
  payload id (mkLog (a +:+ "|" +:+ x) b tt' ti md c t) prev = payload id (mkLog a (x +:+ "|" +:+ b) tt' ti md c t) prev.
Proof.
  unfold payload. cbn [join_with actor_id action created_at]. do 4 f_equal.
  by rewrite !String_app_assoc.
Qed.
End service.

(** *** Concrete runs *)

Definition toy_hmac (k t : string) : list Z := 1 :: units (k +:+ t).

Lemma toy_hmac_inj k p q : toy_hmac k p = toy_hmac k q -> p = q.
Proof.
  assert (Inj (=) (=) unit_of).
  { intros a b Hab. unfold unit_of in Hab. apply N2Z.inj in Hab.
    by rewrite <-(ascii_N_embedding a), Hab, ascii_N_embedding. }
  unfold toy_hmac, units. intros Heq. injection Heq as Heq. apply (inj (fmap unit_of)) in Heq as Hl.
  apply (f_equal String.string_of_list_ascii) in Hl. rewrite !String.string_of_list_ascii_of_string in Hl.
  by apply String_app_inj in Hl as [_ Hl].
Qed.

Lemma toy_hmac_digests secret : digests toy_hmac secret.
Proof.
  intros t. split; [|done]. constructor; [unfold is_byte; lia|]. apply Forall_fmap, Forall_forall.
  intros c _. unfold is_byte, unit_of. simpl. pose proof (N_ascii_bounded c). lia.
Qed.

Definition note (actor action : string) : CreateAuditLogDto := mkDto actor action None None VNull.

(** Three actions, in successive milliseconds. *)
Definition toy_reqs : list (CreateAuditLogDto * string * Z) :=
  [(note "admin-1" "BAN_USER", "b7"%string, 1700000000000123);
   (note "admin-2" "UNBAN_USER", "a1"%string, 1700000000001456);
   (note "admin-1" "GET:/x|y", "c3"%string, 1700000000002000)].

Lemma logged_chain_verifies_witness :
  (verifyIntegrity (B := MemBackend) toy_hmac (Some "k"%string) (run_logs toy_hmac (Some "k"%string) toy_reqs empty_table)).1
    = Ret (mkReport true 3 None).
Proof.
  apply (logged_chain_verifies (B := MemBackend) toy_hmac (Some "k"%string) toy_reqs).
  - apply (bool_decide_unpack _). vm_compute. exact I.
  - repeat constructor; vm_compute; reflexivity.
Defined.

Definition toy_log : state (B := MemBackend) := run_logs toy_hmac (Some "k"%string) toy_reqs empty_table.
(** The newest row deleted and the targets of the others changed. *)
Definition toy_cut : state (B := MemBackend) :=
  update_where (fun _ _ => true) (fun r => mkLog (actor_id r) (action r) (Some "user"%string) None VNull (checksum r) (created_at r))
    (remove "c3"%string toy_log).

Lemma toy_uuid_keys (s : state (B := MemBackend)) :
  forallb (fun r => free_of bar r.1) (rows s) = true -> Forall uuid_key (rows s).
Proof.
  rewrite forallb_forall. intros H. apply Forall_forall. intros r Hr. by apply list_elem_of_In, H in Hr.
Qed.

Lemma tamper_evident_witness :
  (covered <$> in_order toy_cut) `prefix_of` (covered <$> in_order toy_log) /\
  length (in_order toy_cut) = 2%nat.
Proof.
  split; [|vm_compute; reflexivity].
  apply (tamper_evident (B := MemBackend) toy_hmac (Some "k"%string) toy_log toy_cut).
  - apply toy_hmac_digests.
  - apply toy_uuid_keys. vm_compute. reflexivity.
  - apply toy_uuid_keys. vm_compute. reflexivity.
  - intros p q _ _. apply toy_hmac_inj.
  - intros id row Hf. apply elem_of_rows in Hf. vm_compute in Hf.
    apply elem_of_cons in Hf as [[= -> ->]|Hf]; [eexists "b7"%string, _; split; vm_compute; reflexivity|].
    apply list_elem_of_singleton in Hf as [= -> ->]. eexists "a1"%string, _. split; vm_compute; reflexivity.
  - vm_compute. reflexivity.
  - vm_compute. reflexivity.
Defined.

Lemma intercept_logs_witness :
  exists row, (intercept (B := MemBackend) toy_hmac None (Some "admin-1"%string) "PATCH" "/admin/users/7/ban?x=1" (Some "7"%string)
                 (Some [("reason"%string, VStr "spam")]) (Ret VNull) "b7" 1700000000000123 empty_table).1 = Ret VNull /\
    action row = "BAN_USER"%string /\ target_id row = Some "7"%string.
Proof.
  destruct (intercept_logs (B := MemBackend) toy_hmac None (Some "admin-1"%string) "PATCH" "/admin/users/7/ban?x=1" (Some "7"%string)
    (Some [("reason"%string, VStr "spam")]) (Ret VNull) "b7" 1700000000000123 empty_table)
    with (md := VObj [("reason"%string, VStr "spam")]) as (H1 & _ & row & _ & _ & H2 & H3 & _);
    [split; constructor|reflexivity|constructor|reflexivity|].
  exists row. split; [exact H1|]. rewrite H2. split; [reflexivity|].
  change (target_id row) with (target_type row, target_id row).2. rewrite H3. reflexivity.
Defined.

(** Two actions logged in one millisecond, one after the other, are reported as a
    violation: the second row is chained to the row before the first. *)
Definition same_millisecond : list (CreateAuditLogDto * string * Z) :=
  [(note "admin-1" "BAN_USER", "b7"%string, 1700000000000123); (note "admin-1" "UNBAN_USER", "c3"%string, 1700000000000456)].

Theorem same_millisecond_reported :
  (verifyIntegrity (B := MemBackend) toy_hmac None (run_logs toy_hmac None same_millisecond empty_table)).1
    = Ret (mkReport false 2 (Some "c3"%string)).
Proof. vm_compute. reflexivity. Qed.

(** Two requests whose saves interleave: the second row is chained to a row that has no
    checksum yet, and the check reports it. *)
Definition interleaved : M (state (B := MemBackend)) unit :=
  await a := insert_entry (note "admin-1" "BAN_USER") "b7" 1700000000000123 in
  await b := insert_entry (note "admin-2" "BAN_USER") "c3" 1700000000009456 in
  do seal_entry toy_hmac None "c3" b ;>
  do seal_entry toy_hmac None "b7" a ;>
  ret tt.

Theorem concurrent_logs_break_chain :
  (verifyIntegrity toy_hmac None (interleaved empty_table).2).1 = Ret (mkReport false 2 (Some "c3"%string)).
Proof. vm_compute. reflexivity. Qed.

End AuditLog.
