(* ===== verification/SorobanTx.v ===== *)
(** * Contract calls of the Soroban service

    Models the methods of [backend/src/soroban/soroban.service.ts] other than the event
    fetching of [SorobanEvents]: the two transactions that are really submitted, with
    their simulation and the wait for confirmation; the calls that only make up a
    transaction hash; and the reads of the yield adapter.  The Stellar SDK and the node
    are parameters: the node answers by request number. *)
From Stdlib Require Import ZArith Lia.
From stdpp Require Import base list strings.
From S2P Require Import Prelude JsValue JsText Encoding.
Local Open Scope Z_scope.

Module SorobanTx.

Inductive GetTransactionStatus := NOT_FOUND | SUCCESS | FAILED.
#[export] Instance GetTransactionStatus_eq_dec : EqDecision GetTransactionStatus.
Proof. solve_decision. Defined.

Definition status_text (st : GetTransactionStatus) : string :=
  match st with NOT_FOUND => "NOT_FOUND" | SUCCESS => "SUCCESS" | FAILED => "FAILED" end.

(** What [sendTransaction] answers: [ERROR] with the printed error, or the hash under
    which the transaction was taken up. *)
Inductive send_response := SendError (printed : string) | Sent (hash : string).

(** Key and value conversions of the SDK, which throw on malformed input. *)
Record Sdk := mkSdk {
  fromSecret : string -> outcome string;
  fromPublicKey : string -> outcome unit;
  toAddress : string -> outcome unit;
  toScVal : string -> Z -> outcome unit;
}.

(** The node; a simulation gives [Some error] or succeeds. *)
Record Node := mkNode {
  getAccount : nat -> string -> outcome unit;
  simulateTransaction : nat -> outcome (option string);
  sendTransaction : nat -> outcome send_response;
  getTransaction : nat -> string -> outcome GetTransactionStatus;
}.

Record Config := mkConfig {
  contractId : string;
  yieldAdapterContractId : string;
  serverSecretKey : string;
}.

(** The requests made so far and the transactions the node has taken up. *)
Record state := mkState { requests : nat; submitted : list string }.

(** [Buffer.from(text).toString('hex').padEnd(64, '0').slice(0, 64)]. *)
Definition stub_hash (text : string) : JsText.text := take 64 (padEnd 64 48 (units (to_hex (units text)))).

Definition decimal (n : Z) : string := Z_to_string n.

Section service.
Context (cfg : Config) (sdk : Sdk) (node : Node).

Definition lift {A} (o : outcome A) : M state A := match o with Ret a => ret a | Throw e => throw e end.

(** One request to the node. *)
Definition request {A} (ask : nat -> outcome A) : M state A :=
  await n := gets requests in
  do modify (fun s => mkState (S (requests s)) (submitted s)) ;>
  lift (ask n).

(** Logs and throws again. *)
Definition withSorobanErrorHandling {A} (fn : M state A) : M state A := catch fn (fun e => throw e).

(** *** Submitted transactions *)

(** The [while] loop with the attempts left. *)
Fixpoint await_status (left : nat) (hash : string) : M state GetTransactionStatus :=
  await st := request (fun n => getTransaction node n hash) in
  match st, left with
  | NOT_FOUND, S left' => await_status left' hash
  | _, _ => ret st
  end.

(** The response of [sendTransaction]; a transaction that is taken up is out. *)
Definition accepted (response : send_response) : M state string :=
  match response with
  | SendError printed => throw (JsError ("Transaction submission failed: " +:+ printed))
  | Sent hash => do modify (fun s => mkState (requests s) (submitted s ++ [hash])) ;> ret hash
  end.

Definition submit : M state string :=
  await response := request (sendTransaction node) in
  await hash := accepted response in
  await st := await_status 10 hash in
  match st with
  | SUCCESS => ret hash
  | _ => throw (JsError ("Transaction failed with status " +:+ status_text st))
  end.

Definition has_error (e p : string) : bool := includes (units p) (units e).

Definition refundCompetitionParticipant (userStellarAddress competitionId refundAmountStroops : string) : M state string :=
  withSorobanErrorHandling (
    await key := lift (fromSecret sdk (serverSecretKey cfg)) in
    do request (fun n => getAccount node n key) ;>
    do lift (toAddress sdk (contractId cfg)) ;>
    do lift (toAddress sdk userStellarAddress) ;>
    await amount := BigInt refundAmountStroops in
    do lift (toScVal sdk "u128" amount) ;>
    await simulation := request (simulateTransaction node) in
    match simulation with
    | Some e =>
        if has_error e "EscrowEmpty" then throw (JsError "EscrowEmpty")
        else if has_error e "InsufficientFunds" then throw (JsError "InsufficientFunds")
        else throw (JsError ("Simulation failed: " +:+ e))
    | None => submit
    end).

Definition finalizeEvent (onChainEventId : Z) : M state string :=
  withSorobanErrorHandling (
    await key := lift (fromSecret sdk (serverSecretKey cfg)) in
    do request (fun n => getAccount node n key) ;>
    do lift (toAddress sdk (contractId cfg)) ;>
    do lift (toScVal sdk "u64" onChainEventId) ;>
    await simulation := request (simulateTransaction node) in
    match simulation with
    | Some e => throw (JsError ("Simulation failed: " +:+ e))
    | None => submit
    end).

(** *** Calls that make up a hash *)

Definition getCreationFee : M state string := withSorobanErrorHandling (ret "10000000"%string).

(** [rnd] is the random suffix. *)
Definition createMarket (description rnd : string) (now : Z) : M state (string * JsText.text) :=
  withSorobanErrorHandling (
    let market_id := "market_" +:+ decimal now +:+ "_" +:+ rnd in
    ret (market_id, stub_hash (market_id +:+ ":" +:+ description))).

Definition createSeason (startTimeUnix endTimeUnix : Z) (rewardPoolStroops : string) : M state (Z * JsText.text) :=
  withSorobanErrorHandling (
    let mix := Z.land (Z.lxor startTimeUnix endTimeUnix) 2147483647 in
    let on_chain_season_id := if mix =? 0 then 1 else mix in
    ret (on_chain_season_id,
         stub_hash ("season:" +:+ decimal startTimeUnix +:+ ":" +:+ decimal endTimeUnix +:+ ":" +:+ rewardPoolStroops))).

(** A call signed by the server. *)
Definition signed {A} (k : M state A) : M state A :=
  withSorobanErrorHandling (do lift (fromSecret sdk (serverSecretKey cfg)) ;> k).

Definition cancelMarket (market : string) (now : Z) : M state JsText.text :=
  signed (ret (stub_hash ("cancel:" +:+ market +:+ ":" +:+ decimal now))).
Definition resolveMarket (market result : string) (now : Z) : M state unit := signed (ret tt).
Definition pauseMarket (market : string) (now : Z) : M state JsText.text :=
  signed (ret (stub_hash ("pause:" +:+ market +:+ ":" +:+ decimal now))).
Definition resumeMarket (market : string) (now : Z) : M state JsText.text :=
  signed (ret (stub_hash ("resume:" +:+ market +:+ ":" +:+ decimal now))).

Definition submitPrediction (user market chosen stake : string) (now : Z) : M state (JsText.text * string * string) :=
  signed (
    do lift (fromPublicKey sdk user) ;>
    let tx_hash := stub_hash (market +:+ ":" +:+ user +:+ ":" +:+ decimal now) in
    await stakeAmount := BigInt stake in
    let sharesReceived := Z.quot (stakeAmount * 100) 50 in
    let realizedPrice := if 0 <? stakeAmount then Z.quot (stakeAmount * 1000000) sharesReceived else 0 in
    ret (tx_hash, Z_to_string realizedPrice, Z_to_string sharesReceived)).

Definition claimPayout (user market : string) (now : Z) : M state (JsText.text * string) :=
  signed (
    do lift (fromPublicKey sdk user) ;>
    ret (stub_hash ("claim:" +:+ market +:+ ":" +:+ user +:+ ":" +:+ decimal now), "15000000"%string)).

Definition raiseDispute (market why rnd : string) (now : Z) : M state (string * JsText.text) :=
  signed (
    let dispute_id := "dispute_" +:+ decimal now +:+ "_" +:+ rnd in
    ret (dispute_id, stub_hash ("dispute:" +:+ market +:+ ":" +:+ dispute_id +:+ ":" +:+ decimal now))).

Definition resolveDispute (market dispute resolution : string) (now : Z) : M state (string * JsText.text) :=
  signed (ret (dispute, stub_hash ("resolve_dispute:" +:+ market +:+ ":" +:+ dispute +:+ ":" +:+ resolution +:+ ":" +:+ decimal now))).

(** *** Reads of the yield adapter *)

(** [build] is the building of the transaction.  The answer is not decoded yet: a read
    gives [null] also when the simulation succeeds. *)
Definition yield_read {A} (build : outcome unit) : M state (option A) :=
  if bool_decide (yieldAdapterContractId cfg = ""%string) then ret None
  else withSorobanErrorHandling (
    catch (do lift build ;>
           await result := request (simulateTransaction node) in
           match result with Some e => ret None | None => ret None end)
          (fun _ => ret None)).

(** The source account and the called contract of every read. *)
Definition read_source : outcome unit :=
  match toAddress sdk (serverSecretKey cfg) with
  | Throw e => Throw e
  | Ret _ => toAddress sdk (yieldAdapterContractId cfg)
  end.

Definition getYieldAdapterPosition (ownerAddress : string) : M state (option (string * Z * Z)) :=
  yield_read (match read_source with Throw e => Throw e | Ret _ => toAddress sdk ownerAddress end).
Definition getYieldAdapterExchangeRate : M state (option string) := yield_read read_source.
Definition getYieldAdapterTotalAssets : M state (option string) := yield_read read_source.
Definition getYieldAdapterWithdrawRequest (requestId : Z) : M state (option (Z * string * Z * option Z * option Z)) :=
  yield_read (match read_source with Throw e => Throw e | Ret _ => toScVal sdk "u64" requestId end).
Definition getYieldAdapterTotalShares : M state (option string) := yield_read read_source.
Definition getYieldAdapterActiveStrategy : M state (option Z) := yield_read read_source.
Definition getYieldAdapterAccruedFees : M state (option string) := yield_read read_source.

(** *** Submission *)

(** Status reads [n .. m - 1] all say the transaction is not there. *)
Definition unseen (hash : string) (n m : nat) : Prop :=
  forall i, (n <= i < m)%nat -> getTransaction node i hash = Ret NOT_FOUND.

Lemma await_status_spec left hash s :
  let '(o, s') := await_status left hash s in
  submitted s' = submitted s /\ (requests s < requests s' <= requests s + S left)%nat /\
  forall st, o = Ret st ->
    unseen hash (requests s) (pred (requests s')) /\ getTransaction node (pred (requests s')) hash = Ret st /\
    (st = NOT_FOUND -> requests s' = requests s + S left)%nat.
Proof.
  revert s. induction left as [|left IH]; intros s; cbn [await_status]; unfold request, bind, gets, modify, lift.
  - destruct (getTransaction node (requests s) hash) as [st|e] eqn:Hg; simpl; [|repeat split; try lia; done].
    destruct st; simpl; (split; [done|]); (split; [lia|]); intros st [= <-]; (split; [intros i Hi; lia|]); (split; [done|]); lia.
  - destruct (getTransaction node (requests s) hash) as [st|e] eqn:Hg; cbn [fst snd]; [|simpl; repeat split; try lia; done].
    destruct st; [|simpl; (split; [done|]); (split; [lia|]); intros st [= <-]; (split; [intros i Hi; lia|]); done..].
    specialize (IH (mkState (S (requests s)) (submitted s))). cbn [ret].
    destruct (await_status left hash (mkState (S (requests s)) (submitted s))) as [o s'].
    cbn [requests submitted] in IH. destruct IH as (H1 & H2 & H3). split; [done|]. split; [lia|]. intros st Hst.
    destruct (H3 st Hst) as (Hu & Hl & Hn). split; [|split; [done|intros ->; specialize (Hn eq_refl); lia]].
    intros i Hi. destruct (decide (i = requests s)) as [->|]; [done|]. apply Hu. lia.
Qed.

(** What a submitting call can end in. *)
Definition submission (extra : nat) (s : state) (r : outcome string * state) : Prop :=
  (requests r.2 <= requests s + extra)%nat /\
  match r.1 with
  | Ret hash =>
      submitted r.2 = submitted s ++ [hash] /\
      exists i, (requests s <= i < requests r.2)%nat /\ getTransaction node i hash = Ret SUCCESS
  | Throw _ => submitted r.2 = submitted s \/ exists hash, submitted r.2 = submitted s ++ [hash]
  end.

Lemma submission_mono a b s s1 r :
  submission a s1 r -> submitted s1 = submitted s -> (requests s <= requests s1)%nat ->
  (requests s1 + a <= requests s + b)%nat -> submission b s r.
Proof.
  intros [Hr H] Hs Hle Hb. split; [lia|]. rewrite Hs in H. destruct (r.1); [|done].
  destruct H as [H1 (i & Hi & H2)]. split; [done|]. exists i. split; [lia|done].
Qed.

Lemma submit_spec s : submission 12 s (submit s).
Proof.
  unfold submit, request, accepted, bind, gets, modify, lift.
  destruct (sendTransaction node (requests s)) as [[p|h]|e]; cbn [fst snd throw ret];
    [split; [simpl; lia|by left]| |split; [simpl; lia|by left]].
  pose proof (await_status_spec 10 h (mkState (S (requests s)) (submitted s ++ [h]))) as Hw.
  destruct (await_status 10 h _) as [[st|e] s']; cbn [requests submitted] in Hw; destruct Hw as (H1 & H2 & H3).
  - destruct (H3 st eq_refl) as (_ & Hl & _). destruct st; cbn; (split; [simpl; lia|]); simpl; [right; by exists h| |right; by exists h].
    split; [done|]. exists (pred (requests s')). split; [lia|done].
  - cbn. split; [simpl; lia|]. right. by exists h.
Qed.

Lemma error_handling_id {A} (m : M state A) s : withSorobanErrorHandling m s = m s.
Proof. unfold withSorobanErrorHandling, catch. by destruct (m s) as [[]]. Qed.

(** Steps before the submission. *)
Lemma submission_lift {A} (o : outcome A) (k : A -> M state string) n s :
  (forall a, submission n s (k a s)) -> submission n s (bind (lift o) k s).
Proof. intros Hk. destruct o; [apply Hk|]. split; [simpl; lia|by left]. Qed.

Lemma submission_request {A} (ask : nat -> outcome A) (k : A -> M state string) n s :
  (forall a, submission n (mkState (S (requests s)) (submitted s)) (k a (mkState (S (requests s)) (submitted s)))) ->
  submission (S n) s (bind (request ask) k s).
Proof.
  intros Hk. unfold request, bind, gets, modify, lift. destruct (ask (requests s)) as [a|e]; cbn [fst snd].
  - eapply submission_mono; [apply Hk|done|simpl; lia|simpl; lia].
  - split; [simpl; lia|by left].
Qed.

Lemma submission_throw e n s : submission n s (throw e s).
Proof. split; [simpl; lia|by left]. Qed.

(** A refund returns a hash only for a transaction that this call submitted and that
    the node reported successful; a call submits at most one transaction, also when it
    fails; and it ends within 14 requests to the node, whatever the node answers. *)
Theorem refund_confirmed (user competition amount : string) (s : state) :
  submission 14 s (refundCompetitionParticipant user competition amount s).
Proof.
  unfold refundCompetitionParticipant. rewrite error_handling_id.
  apply submission_lift. intros key. apply submission_request. intros []. apply submission_lift. intros [].
  apply submission_lift. intros []. unfold BigInt, of_option.
  destruct (BigInt_of_string amount) as [z|]; [|apply submission_throw]. apply submission_lift. intros [].
  apply submission_request. intros [e|]; [|apply submit_spec]. repeat case_match; apply submission_throw.
Qed.

(** The same of the finalisation of an event. *)
Theorem finalize_confirmed (event : Z) (s : state) : submission 14 s (finalizeEvent event s).
Proof.
  unfold finalizeEvent. rewrite error_handling_id.
  apply submission_lift. intros key. apply submission_request. intros []. apply submission_lift. intros [].
  apply submission_lift. intros []. apply submission_request. intros [e|]; [apply submission_throw|apply submit_spec].
Qed.

(** *** Made-up hashes *)

Lemma stub_hash_length t : length (stub_hash t) = 64%nat.
Proof. unfold stub_hash, padEnd. rewrite length_take, length_app, length_replicate. lia. Qed.

Lemma to_hex_app a b : to_hex (a ++ b) = to_hex a +:+ to_hex b.
Proof. induction a as [|x a IH]; [done|]. cbn [to_hex app]. rewrite IH. done. Qed.

Lemma units_app (a b : string) : units (a +:+ b) = units a ++ units b.
Proof. unfold units. rewrite <-fmap_app. f_equal. induction a as [|c a IH]; [done|]. simpl. f_equal. exact IH. Qed.

Lemma length_units_hex l : length (units (to_hex l)) = (2 * length l)%nat.
Proof. induction l as [|x l IH]; [done|]. cbn. unfold units in IH. rewrite IH. lia. Qed.

(** Only the first 32 bytes of the text count: two texts that share them, such as two
    calls on a market with a long id at different times, have one hash. *)
Theorem stub_hash_prefix (p a b : string) :
  length (units p) = 32%nat -> stub_hash (p +:+ a) = stub_hash (p +:+ b).
Proof.
  intros Hp. assert (Hh : forall x, stub_hash (p +:+ x) = units (to_hex (units p))).
  { intros x. unfold stub_hash, padEnd. rewrite units_app, to_hex_app, units_app, <-app_assoc.
    rewrite take_app_length'; [done|]. rewrite length_units_hex. lia. }
  by rewrite !Hh.
Qed.

(** A season id fits a positive signed 32-bit integer. *)
Theorem season_id_bounds (a b : Z) (pool : string) (s : state) id h :
  (createSeason a b pool s).1 = Ret (id, h) -> 1 <= id < 2 ^ 31.
Proof.
  unfold createSeason. rewrite error_handling_id. simpl. intros [= <- _].
  change 2147483647 with (Z.ones 31). rewrite Z.land_ones by lia.
  pose proof (Z.mod_pos_bound (Z.lxor a b) (2 ^ 31) ltac:(lia)). destruct (Z.eqb_spec (Z.lxor a b mod 2 ^ 31) 0); lia.
Qed.

(** A positive stake buys two shares a unit at the fixed price of a half. *)
Theorem prediction_price (user market chosen stake : string) (now n : Z) (s : state) h price shares :
  BigInt_of_string stake = Some n -> 0 < n ->
  (submitPrediction user market chosen stake now s).1 = Ret (h, price, shares) ->
  price = "500000"%string /\ shares = Z_to_string (2 * n).
Proof.
  intros Hb Hn. unfold submitPrediction, signed. rewrite error_handling_id. unfold bind, lift, BigInt, of_option. rewrite Hb.
  destruct (fromSecret sdk (serverSecretKey cfg)); [|done]. cbn. destruct (fromPublicKey sdk user); [|done]. cbn.
  rewrite (proj2 (Z.ltb_lt 0 n)) by lia.
  assert (Hs : Z.quot (n * 100) 50 = 2 * n) by (replace (n * 100) with (2 * n * 50) by lia; apply Z.quot_mul; lia).
  rewrite Hs. assert (Hq : Z.quot (n * 1000000) (2 * n) = 500000).
  { replace (n * 1000000) with (500000 * (2 * n)) by lia. apply Z.quot_mul. lia. }
  rewrite Hq. intros [= _ <- <-]. done.
Qed.

(** *** Reads *)

(** A read never gives a value and never fails, whatever the node does. *)
Lemma yield_read_null {A} (build : outcome unit) (s : state) : (yield_read (A := A) build s).1 = Ret None.
Proof.
  unfold yield_read. case_bool_decide; [done|]. rewrite error_handling_id. unfold catch, bind, lift, request, gets, modify.
  destruct build; [|done]. cbn. by destruct (simulateTransaction node (requests s)) as [[]|].
Qed.
End service.

(** *** Concrete runs *)

Definition toy_sdk : Sdk := mkSdk (fun _ => Ret "GSERVER"%string) (fun _ => Ret tt) (fun _ => Ret tt) (fun _ _ => Ret tt).
Definition toy_config : Config := mkConfig "C1" "C2" "SSECRET".
(** A node that sees the transaction at request [k]. *)
Definition slow_node (k : nat) : Node :=
  mkNode (fun _ _ => Ret tt) (fun _ => Ret None) (fun _ => Ret (Sent "h1"%string))
    (fun n _ => Ret (if (n <? k)%nat then NOT_FOUND else SUCCESS)).

Example refund_runs :
  refundCompetitionParticipant toy_config toy_sdk (slow_node 6) "GALICE" "c" "100" (mkState 0 [])
    = (Ret "h1"%string, mkState 7 ["h1"%string]).
Proof. vm_compute. reflexivity. Qed.

(** A transaction that is confirmed after the last status read is reported as failed,
    although it is out. *)
Theorem slow_refund_reported_failed :
  refundCompetitionParticipant toy_config toy_sdk (slow_node 14) "GALICE" "c" "100" (mkState 0 [])
    = (Throw (JsError "Transaction failed with status NOT_FOUND"), mkState 14 ["h1"%string]) /\
  getTransaction (slow_node 14) 14 "h1" = Ret SUCCESS.
Proof. split; vm_compute; reflexivity. Qed.

End SorobanTx.
