(* ===== verification/Admin.v ===== *)
(** * Administration

    Models [backend/src/admin/admin.service.ts]: bans and their bulk form with one
    transaction per user, roles, listings, the savings and yield overviews, the
    dashboard, analytics and reports; audit and referral queries are those of
    [AuditLog] and [Referral].  Answers of the node and failures of the database are
    parameters. *)
From Stdlib Require Import ZArith Lia Ascii.
From stdpp Require Import base list strings sorting sets.
From S2P Require Import Prelude Storage JsValue JsDate Encoding Indexer Referral Anchor Account AuditLog SorobanTx.
Local Open Scope Z_scope.

Module Admin.

Inductive BulkUserAction := Ban | Unban | Flag.
#[export] Instance BulkUserAction_eq_dec : EqDecision BulkUserAction.
Proof. solve_decision. Defined.

Inductive BulkUserActionErrorCode := NotFound | AlreadyBanned | NotBanned | SelfAction | ProtectedTarget | Internal.
#[export] Instance BulkUserActionErrorCode_eq_dec : EqDecision BulkUserActionErrorCode.
Proof. solve_decision. Defined.

Definition action_name (a : BulkUserAction) : string :=
  match a with Ban => "ban" | Unban => "unban" | Flag => "flag" end.

Record User := mkUser {
  stellar_address : string;
  username : option string;
  role : string;
  is_banned : bool;
  ban_reason : option string;
  banned_at : option Z;
  banned_by : option string;
  created_at : Z;
  deleted_at : option Z;
}.

Record UserFlag := mkFlag {
  flag_user : string;
  flag_reason : option string;
  flagged_by : string;
  flagged_at : Z;
}.

Record VerifiedAddress := mkVerified {
  address : string;
  verified_by : string;
  events_created : Z;
  verified_at : Z;
}.

Record BulkUserActionDto := mkBulk { user_ids : list string; bulk_action : BulkUserAction; reason : option string }.

(** [code] and [error] are set on failures. *)
Record BulkUserActionResult := mkResult {
  user_id : string;
  success : bool;
  code : option BulkUserActionErrorCode;
  error : option string;
}.

Record BulkUserActionResponse := mkResponse {
  results : list BulkUserActionResult;
  action : BulkUserAction;
  total : Z;
  succeeded : Z;
  failed : Z;
}.

(** A page and its [meta]. *)
Record page_of (A : Type) := mkPage { page_data : list A; page_total : Z; page_no : Z; page_limit : Z; totalPages : Z }.
Arguments mkPage {A}.
Arguments page_data {A}.
Arguments page_total {A}.

Record DepositsByStatus := mkByStatus { n_pending : Z; n_processing : Z; n_completed : Z; n_failed : Z }.
Record SavingsOverview := mkOverview {
  total_deposits : Z;
  total_savings_accounts : Z;
  deposits_by_status : DepositsByStatus;
  computed_at : string;
}.

Record HarvestHistoryEntry := mkHarvest { h_timestamp : Z; h_delta : string; h_fee : string; h_total_assets : string }.
Record YieldOverview := mkYield {
  active_strategy_id : option Z;
  active_strategy_name : option string;
  y_total_assets : string;
  y_total_shares : string;
  exchange_rate : string;
  accrued_fees : string;
  harvest_history : list HarvestHistoryEntry;
  y_computed_at : string;
}.

Record DashboardStats := mkDashboard {
  users_total : Z; active_24h : Z; active_7d : Z; new_24h : Z; new_7d : Z; users_banned : Z;
  d_savings : SavingsOverview;
  tx_total : Z; tx_24h : Z; tx_7d : Z;
  verified_addresses : Z;
}.

Record ActivityEntry := mkActivity {
  act_id : nat;
  act_type : string;
  transaction_hash : option string;
  act_ledger : Z;
  act_data : record;
  act_timestamp : Z;
}.

Record Analytics := mkAnalytics {
  period : string;
  start_date : string;
  end_date : string;
  user_growth : list (string * Z);
  transaction_trend : list (string * Z);
  deposit_trend : list (string * Z * string);
}.

Record SystemHealth := mkHealth { healthy : bool; db_up : bool; db_latency : Z; rpc_up : bool; rpc_latency : Z }.

Inductive report :=
| UsersReport (l : list (string * User))
| DepositsReport (l : list (nat * Anchor.AnchorDeposit))
| TransactionsReport (l : list (nat * Indexer.EventRow))
| EmptyReport.
Definition record_count (r : report) : Z :=
  match r with
  | UsersReport l => Z.of_nat (length l)
  | DepositsReport l => Z.of_nat (length l)
  | TransactionsReport l => Z.of_nat (length l)
  | EmptyReport => 0
  end.

(** ** SQL used by the queries *)

Definition lower (c : ascii) : ascii :=
  let n := N_of_ascii c in if ((65 <=? n) && (n <=? 90))%N then ascii_of_N (n + 32) else c.

(** [LIKE]: [%] matches any text, [_] any character, a backslash quotes the next one. *)
Fixpoint like (p : list ascii) : list ascii -> bool :=
  match p with
  | [] => fun u => match u with [] => true | _ => false end
  | c :: p' =>
      if bool_decide (c = "%"%char) then
        fix any u := like p' u || match u with [] => false | _ :: u' => any u' end
      else if bool_decide (c = "_"%char) then fun u => match u with [] => false | _ :: u' => like p' u' end
      else
        match p' with
        | d :: p'' =>
            if bool_decide (c = "\"%char) then fun u => match u with [] => false | x :: u' => bool_decide (x = d) && like p'' u' end
            else fun u => match u with [] => false | x :: u' => bool_decide (x = c) && like p' u' end
        | [] => fun u => match u with [] => false | x :: u' => bool_decide (x = c) && like p' u' end
        end
  end.

(** [column ILIKE '%search%']. *)
Definition ilike (search v : string) : bool :=
  like (map lower (String.list_ascii_of_string ("%" +:+ search +:+ "%"))) (map lower (String.list_ascii_of_string v)).

(** [SELECT key, COUNT(star) ... GROUP BY key]. *)
Definition group_count {A K} `{EqDecision K} (key : A -> K) (l : list A) : list (K * Z) :=
  (fun k => (k, Z.of_nat (length (List.filter (fun x => bool_decide (key x = k)) l)))) <$> remove_dups (key <$> l).

Definition paged {A} (pg lim : Z) (l : list A) : page_of A :=
  let n := Z.of_nat (length l) in
  mkPage (take (Z.to_nat lim) (drop (Z.to_nat ((pg - 1) * lim)) l)) n pg lim ((n + lim - 1) / lim).

Definition status_name (st : Anchor.AnchorDepositStatus) : string :=
  match st with
  | Anchor.D_pending => "pending"
  | Anchor.D_processing => "processing"
  | Anchor.D_completed => "completed"
  | Anchor.D_failed => "failed"
  end.

Section service.
Context {B : Backend}.
(** A transaction of the bulk action can fail when it writes or when it commits. *)
Context (write_error commit_error : string -> option exn).

Record state := mkState {
  users : table string User;
  flags : table nat UserFlag;
  verified : table nat VerifiedAddress;
  deposits : table nat Anchor.AnchorDeposit;
  events : table nat Indexer.EventRow;
  audit : AuditLog.state;
  referral : Referral.state;
}.

Definition set_users f s := mkState (f (users s)) (flags s) (verified s) (deposits s) (events s) (audit s) (referral s).
Definition set_flags f s := mkState (users s) (f (flags s)) (verified s) (deposits s) (events s) (audit s) (referral s).
Definition on_audit {A} (m : M AuditLog.state A) : M state A :=
  zoom audit (fun a s => mkState (users s) (flags s) (verified s) (deposits s) (events s) a (referral s)) m.
Definition on_referral {A} (m : M Referral.state A) : M state A :=
  zoom referral (fun r s => mkState (users s) (flags s) (verified s) (deposits s) (events s) (audit s) r) m.

(** Rows that are not soft-deleted. *)
Definition live (u : User) : bool := match deleted_at u with None => true | Some _ => false end.
Definition find_user (id : string) (s : state) : option User :=
  match find_one id (users s) with
  | Some u => if live u then Some u else None
  | None => None
  end.
Definition live_users (s : state) : list (string * User) := List.filter (fun r => live r.2) (rows (users s)).

(** A search or filter that is missing or empty lets every row through. *)
Definition when (o : option string) (p : string -> bool) : bool :=
  match o with None | Some EmptyString => true | Some v => p v end.

(** [order_users] is [ORDER BY user.<column>], [None] when there is no such column. *)
Definition listUsers (order_users : string -> bool -> list (string * User) -> option (list (string * User)))
    (pg lim : option Z) (search wanted sortBy : option string) (ascending : bool) : M state (page_of (string * User)) :=
  await found := gets (fun s => List.filter (fun r =>
    when search (fun q => default false (ilike q <$> username r.2) || ilike q (stellar_address r.2)) &&
    when wanted (fun x => bool_decide (role r.2 = x))) (live_users s)) in
  match order_users (default "created_at"%string sortBy) ascending found with
  | None => throw (DatabaseError "42703")
  | Some l => ret (paged (default 1 pg) (default 10 lim) l)
  end.

Definition listVerifiedAddresses (pg lim : option Z) (search : option string)
  : M state (page_of (string * string * string * Z)) :=
  await found := gets (fun s => order_by (fun v => - verified_at v)
    (List.filter (fun v => when search (fun q => ilike q (address v))) ((rows (verified s)).*2))) in
  let p := paged (default 1 pg) (default 20 lim) found in
  ret (mkPage ((fun v => (address v, toISOString (verified_at v), verified_by v, events_created v)) <$> page_data p)
         (page_total p) (default 1 pg) (default 20 lim) (totalPages _ p)).

Definition ban (by_ : string) (why : option string) (now : Z) (u : User) : User :=
  mkUser (stellar_address u) (username u) (role u) true why (Some now) (Some by_) (created_at u) (deleted_at u).
Definition unban (u : User) : User :=
  mkUser (stellar_address u) (username u) (role u) false None None None (created_at u) (deleted_at u).
Definition with_role (r : string) (u : User) : User :=
  mkUser (stellar_address u) (username u) r (is_banned u) (ban_reason u) (banned_at u) (banned_by u) (created_at u) (deleted_at u).

Definition banUser (id why adminId : string) (now : Z) : M state User :=
  await found := gets (find_user id) in
  match found with
  | None => throw (NotFoundException "User not found")
  | Some u =>
      if is_banned u then throw (ConflictException "User is already banned")
      else do modify (set_users (save id (ban adminId (Some why) now u))) ;> ret (ban adminId (Some why) now u)
  end.

Definition unbanUser (id adminId : string) : M state User :=
  await found := gets (find_user id) in
  match found with
  | None => throw (NotFoundException "User not found")
  | Some u =>
      if negb (is_banned u) then throw (BadRequestException "User is not banned")
      else do modify (set_users (save id (unban u))) ;> ret (unban u)
  end.

(** *** The bulk action *)

(** [BulkUserActionError]: the left of a sum, with its code and message. *)
Definition bulk_error : Type := BulkUserActionErrorCode * string.
Definition raise {A} (c : BulkUserActionErrorCode) (m : string) : M state (bulk_error + A) := ret (inl (c, m)).

(** [manager.transaction(body)]: the writes of a body that throws are undone. *)
Definition transaction (key : string) (body : M state (bulk_error + unit)) : M state (bulk_error + unit) :=
  fun s =>
    match body s with
    | (Ret (inr tt), s') => match commit_error key with Some e => (Throw e, s) | None => (Ret (inr tt), s') end
    | (Ret (inl e), _) => (Ret (inl e), s)
    | (Throw e, _) => (Throw e, s)
    end.

(** [manager.save]. *)
Definition manager_save (key : string) (f : state -> state) : M state (bulk_error + unit) :=
  match write_error key with Some e => throw e | None => do modify f ;> ret (inr tt) end.

Definition switch_action (id : string) (dto : BulkUserActionDto) (adminId : string) (now : Z) (u : User)
  : M state (bulk_error + unit) :=
  match bulk_action dto with
  | Ban =>
      if is_banned u then raise AlreadyBanned "User is already banned"
      else manager_save id (set_users (save id (ban adminId (reason dto) now u)))
  | Unban =>
      if negb (is_banned u) then raise NotBanned "User is not banned"
      else manager_save id (set_users (save id (unban u)))
  | Flag =>
      manager_save id (fun s => set_flags (save (fresh_id (flags s)) (mkFlag id (reason dto) adminId now)) s)
  end.

Definition applyBulkActionToUser (id : string) (dto : BulkUserActionDto) (adminId : string) (now : Z)
  : M state (bulk_error + unit) :=
  transaction id (
    await found := gets (find_user id) in
    match found with
    | None => raise NotFound ("User " +:+ quote +:+ id +:+ quote +:+ " not found")
    | Some u =>
        if negb (bool_decide (bulk_action dto = Unban)) && bool_decide (id = adminId)
        then raise SelfAction ("You cannot " +:+ action_name (bulk_action dto) +:+ " yourself")
        else if negb (bool_decide (bulk_action dto = Unban)) && bool_decide (role u = "admin"%string)
        then raise ProtectedTarget ("Cannot " +:+ action_name (bulk_action dto) +:+ " another admin")
        else switch_action id dto adminId now u
    end).

Definition toBulkFailure (id : string) (err : bulk_error + exn) : BulkUserActionResult :=
  match err with
  | inl (c, m) => mkResult id false (Some c) (Some m)
  | inr _ => mkResult id false (Some Internal) (Some "Unexpected error while applying action"%string)
  end.

(** One round of the loop: its entry in [results]. *)
Definition bulk_round (dto : BulkUserActionDto) (adminId : string) (now : Z) (id : string) : M state BulkUserActionResult :=
  fun s =>
    match applyBulkActionToUser id dto adminId now s with
    | (Ret (inr tt), s') => (Ret (mkResult id true None None), s')
    | (Ret (inl e), s') => (Ret (toBulkFailure id (inl e)), s')
    | (Throw e, s') => (Ret (toBulkFailure id (inr e)), s')
    end.

Definition bulkUserAction (dto : BulkUserActionDto) (adminId : string) (now : Z) : M state BulkUserActionResponse :=
  await rs := map_each (bulk_round dto adminId now) (user_ids dto) in
  let ok := Z.of_nat (length (List.filter success rs)) in
  ret (mkResponse rs (bulk_action dto) (Z.of_nat (length rs)) ok (Z.of_nat (length rs) - ok)).

Definition updateUserRole (id newRole adminId : string) : M state User :=
  if bool_decide (id = adminId) then throw (BadRequestException "You cannot change your own role")
  else
    await found := gets (find_user id) in
    match found with
    | None => throw (NotFoundException "User not found")
    | Some u => do modify (set_users (save id (with_role newRole u))) ;> ret (with_role newRole u)
    end.

(** *** Overviews *)

Definition getSavingsOverview (now : Z) : M state SavingsOverview :=
  await grouped := gets (fun s => group_count (fun d => status_name (Anchor.dep_status d)) ((rows (deposits s)).*2)) in
  let at_ k := default 0 (Mem.find grouped k) in
  let n := foldl (fun acc r => acc + r.2) 0 grouped in
  await accounts := gets (fun s => Z.of_nat (length (remove_dups (Anchor.dep_user <$> (rows (deposits s)).*2)))) in
  ret (mkOverview n accounts
         (mkByStatus (at_ "pending"%string) (at_ "processing"%string) (at_ "completed"%string) (at_ "failed"%string))
         (toISOString now)).

Definition of_type (t : string) (e : Indexer.EventRow) : bool := bool_decide (Indexer.event_type (Indexer.ev e) = t).

Definition getRecentHarvestEvents (lim : nat) : M state (list Indexer.EventRow) :=
  gets (fun s => take lim (order_by (fun e => - Indexer.ledger (Indexer.ev e)) (List.filter (of_type "harvested") ((rows (events s)).*2)))).

Definition getStrategyName (strategyId : Z) : M state (option string) :=
  gets (fun s =>
    match order_by (fun e => Indexer.ledger (Indexer.ev e)) (List.filter (of_type "strategy_registered") ((rows (events s)).*2)) with
    | [] => None
    | e :: _ => let n := prop (Indexer.data (Indexer.ev e)) "name" in if truthy n then Some (js_String n) else None
    end).

(** The answers of the yield adapter. *)
Record YieldReads := mkReads {
  r_rate : outcome (option string);
  r_assets : outcome (option string);
  r_shares : outcome (option string);
  r_strategy : outcome (option Z);
  r_fees : outcome (option string);
}.

Definition lift {A} (o : outcome A) : M state A := match o with Ret a => ret a | Throw e => throw e end.

Definition harvest_entry (e : Indexer.EventRow) : HarvestHistoryEntry :=
  let d := Indexer.data (Indexer.ev e) in
  mkHarvest (Indexer.ledger (Indexer.ev e)) (Account.text_of d "delta") (Account.text_of d "fee") (Account.text_of d "total_assets").

Definition getYieldOverview (reads : YieldReads) (now : Z) : M state YieldOverview :=
  await rate := lift (r_rate reads) in
  await assets := lift (r_assets reads) in
  await shares := lift (r_shares reads) in
  await strategy := lift (r_strategy reads) in
  await harvests := getRecentHarvestEvents 10 in
  await name := match strategy with Some i => getStrategyName i | None => ret None end in
  await fees := lift (r_fees reads) in
  ret (mkYield strategy name (default "0"%string assets) (default "0"%string shares) (default "0"%string rate)
         (default "0"%string fees) (harvest_entry <$> harvests) (toISOString now)).

(** *** Dashboard, activity, analytics, reports *)

Definition DAY : Z := 86400000.

(** [moreThanOrEqual]: whether [Repository.prototype] has such a method;
    [last_login_at]: that column of a user, when the entity has it. *)
Definition getDashboardStats (moreThanOrEqual : bool) (last_login_at : option (User -> option Z)) (now : Z)
  : M state DashboardStats :=
  if negb moreThanOrEqual then throw (TypeError "Repository.prototype.moreThanOrEqual is not a function")
  else
    match last_login_at with
    | None => throw (JsError "Property last_login_at was not found in User")
    | Some login =>
        let since d := now - d * DAY in
        let n_users p := gets (fun s => Z.of_nat (length (List.filter (fun r => p r.2) (live_users s)))) in
        let logged d u := match login u with Some t => since d <=? t | None => false end in
        let n_events p := gets (fun s => count_where (fun _ e => p e) (events s)) in
        await total := n_users (fun _ => true) in
        await a1 := n_users (logged 1) in
        await a7 := n_users (logged 7) in
        await n1 := n_users (fun u => since 1 <=? created_at u) in
        await n7 := n_users (fun u => since 7 <=? created_at u) in
        await banned := n_users is_banned in
        await savings := getSavingsOverview now in
        await t := n_events (fun _ => true) in
        await t1 := n_events (fun e => since 1 <=? Indexer.ev_created_at e) in
        await t7 := n_events (fun e => since 7 <=? Indexer.ev_created_at e) in
        await v := gets (fun s => count_where (fun _ _ => true) (verified s)) in
        ret (mkDashboard total a1 a7 n1 n7 banned savings t t1 t7 v)
    end.

(** [event.transaction_hash] is not a column of the entity, so it is [undefined]. *)
Definition activity_entry (r : nat * Indexer.EventRow) : ActivityEntry :=
  mkActivity r.1 (Indexer.event_type (Indexer.ev r.2)) None (Indexer.ledger (Indexer.ev r.2)) (Indexer.data (Indexer.ev r.2)) (Indexer.ev_created_at r.2).

Definition getRecentActivity (pg lim : option Z) (type : option string) : M state (page_of ActivityEntry) :=
  await found := gets (fun s => order_by (fun r => - Indexer.ev_created_at r.2)
    (List.filter (fun r => when type (fun t => of_type t r.2)) (rows (events s)))) in
  let p := paged (default 1 pg) (default 50 lim) found in
  ret (mkPage (activity_entry <$> page_data p) (page_total p) (default 1 pg) (default 50 lim) (totalPages _ p)).

Definition period_days (p : string) : Z :=
  if bool_decide (p = "24h"%string) then 1
  else if bool_decide (p = "7d"%string) then 7
  else if bool_decide (p = "30d"%string) then 30
  else if bool_decide (p = "90d"%string) then 90
  else 7.

(** [SELECT DATE(at), COUNT(star) WHERE at >= start GROUP BY DATE(at) ORDER BY DATE(at) ASC]. *)
Definition daily {A} (time : A -> Z) (start : Z) (l : list A) : list (Z * Z) :=
  order_by fst (group_count (fun x => Day (time x)) (List.filter (fun x => start <=? time x) l)).

Definition on_day {A} (time : A -> Z) (start d : Z) (l : list A) : list A :=
  List.filter (fun x => bool_decide (Day (time x) = d)) (List.filter (fun x => start <=? time x) l).

Definition dated (r : Z * Z) : string * Z := (iso_day r.1, r.2).

(** [amount]: that column of [anchor_deposits], when the table has it. *)
Definition getAnalytics (amount : option (Anchor.AnchorDeposit -> Z)) (per : option string) (now : Z) : M state Analytics :=
  let p := default "7d"%string per in
  let start := now - period_days p * DAY in
  await growth := gets (fun s => daily (fun r => created_at r.2) start (live_users s)) in
  await trend := gets (fun s => daily Indexer.ev_created_at start ((rows (events s)).*2)) in
  match amount with
  | None => throw (DatabaseError "42703")
  | Some amt =>
      await dep := gets (fun s =>
        let ds := (rows (deposits s)).*2 in
        (fun r => (iso_day r.1, r.2, Z_to_string (sumZ (amt <$> on_day Anchor.dep_created_at start r.1 ds)))) <$>
          daily Anchor.dep_created_at start ds) in
      ret (mkAnalytics p (toISOString start) (toISOString now) (dated <$> growth) (dated <$> trend) dep)
  end.

(** The placeholder: every figure is zero. *)
Definition getNotificationOverview : M state (Z * Z * Z * Z * list (string * (Z * Z * Z))) :=
  ret (0, 0, 0, 0, [("email"%string, (0, 0, 0)); ("sms"%string, (0, 0, 0)); ("in_app"%string, (0, 0, 0)); ("push"%string, (0, 0, 0))]).

(** [db] and [rpc] are the two probes: their latency, or the error. *)
Definition getSystemHealth (db rpc : outcome Z) : M state SystemHealth :=
  let up o := match o with Ret _ => true | Throw _ => false end in
  let ms o := match o with Ret t => t | Throw _ => 0 end in
  ret (mkHealth (up db && up rpc) (up db) (ms db) (up rpc) (ms rpc)).

Definition getAuditLogs (q : AuditLog.AuditLogQueryDto) : M state AuditLog.AuditLogPage := on_audit (AuditLog.query q).
Definition verifyAuditIntegrity (hmac : string -> string -> list Z) (key : option string) : M state AuditLog.IntegrityReport :=
  on_audit (AuditLog.verifyIntegrity hmac key).
Definition getReferralOverview : M state Referral.AdminReferralOverview := on_referral Referral.getAdminOverview.
Definition listReferrals (pg lim : Z) (st : option Referral.ReferralStatus) : M state (Referral.page_of (nat * Referral.UserReferral)) :=
  on_referral (Referral.listReferrals pg lim st).

Definition exportReport (type format : option string) : M state (string * string * Z * report) :=
  let t := default "users"%string type in
  await data := gets (fun s =>
    if bool_decide (t = "users"%string) then UsersReport (take (Z.to_nat 10000) (live_users s))
    else if bool_decide (t = "deposits"%string) then DepositsReport (take (Z.to_nat 10000) (rows (deposits s)))
    else if bool_decide (t = "transactions"%string) then TransactionsReport (take (Z.to_nat 10000) (rows (events s)))
    else EmptyReport) in
  ret (t, default "json"%string format, record_count data, data).

(** *** What the bulk action does to each user *)

(** The reason the action is refused for a user, judged on the state before the call. *)
Definition verdict (dto : BulkUserActionDto) (adminId : string) (s : state) (id : string) : option BulkUserActionErrorCode :=
  let acts := negb (bool_decide (bulk_action dto = Unban)) in
  match find_user id s with
  | None => Some NotFound
  | Some u =>
      if acts && bool_decide (id = adminId) then Some SelfAction
      else if acts && bool_decide (role u = "admin"%string) then Some ProtectedTarget
      else
        match bulk_action dto, is_banned u with
        | Ban, true => Some AlreadyBanned
        | Unban, false => Some NotBanned
        | _, _ => match write_error id, commit_error id with None, None => None | _, _ => Some Internal end
        end
  end.

(** What an accepted action makes of the user's row. *)
Definition edit (dto : BulkUserActionDto) (adminId : string) (now : Z) (u : User) : User :=
  match bulk_action dto with Ban => ban adminId (reason dto) now u | Unban => unban u | Flag => u end.

(** The flags raised on a user. *)
Definition flags_of (id : string) (s : state) : Z := count_where (fun _ f => bool_decide (flag_user f = id)) (flags s).

(** What an accepted action leaves. *)
Definition applied (dto : BulkUserActionDto) (adminId : string) (now : Z) (id : string) (s s' : state) : Prop :=
  (forall k, find_one k (users s') = if decide (k = id) then edit dto adminId now <$> find_one k (users s) else find_one k (users s)) /\
  (forall k, flags_of k s' = flags_of k s + (if decide (k = id /\ bulk_action dto = Flag) then 1 else 0)).

Lemma find_user_one id s u : find_user id s = Some u -> find_one id (users s) = Some u /\ live u = true.
Proof. unfold find_user. destruct (find_one id (users s)) as [v|]; [|done]. destruct (live v) eqn:Hl; naive_solver. Qed.

Lemma switch_action_run dto adminId now id u s :
  find_one id (users s) = Some u ->
  match (match bulk_action dto, is_banned u with Ban, true => Some AlreadyBanned | Unban, false => Some NotBanned | _, _ => None end) with
  | Some c => exists m, switch_action id dto adminId now u s = (Ret (inl (c, m)), s)
  | None =>
      match write_error id with
      | Some e => switch_action id dto adminId now u s = (Throw e, s)
      | None => exists s', switch_action id dto adminId now u s = (Ret (inr tt), s') /\ applied dto adminId now id s s'
      end
  end.
Proof.
  intros Hu. unfold switch_action, raise, manager_save, applied, edit.
  destruct (bulk_action dto) eqn:Ha, (is_banned u) eqn:Hb; simpl; try (eexists; reflexivity);
    (destruct (write_error id) as [e|]; [reflexivity|]); eexists; (split; [reflexivity|]); simpl;
    (split; intros k; [|unfold flags_of; simpl]).
  all: try (rewrite find_one_save; destruct (decide (id = k)) as [<-|]; destruct (decide (_ = _)) as [?|?]; try congruence;
            by rewrite Hu).
  all: try (destruct (decide (_ /\ _)) as [[_ ?]|_]; [done|lia]).
  all: try (destruct (decide (k = id)); by destruct (find_one k (users s))).
  all: rewrite count_where_save_new by apply fresh_id_None; simpl.
  all: destruct (decide (k = id /\ Flag = Flag)) as [[-> _]|Hn]; [rewrite bool_decide_true by done; lia|];
       rewrite bool_decide_false by naive_solver; lia.
Qed.

(** A round reports the verdict, and changes the state only when there is no objection. *)
Lemma bulk_round_spec dto adminId now id s :
  exists r s', bulk_round dto adminId now id s = (Ret r, s') /\ user_id r = id /\
    code r = verdict dto adminId s id /\ success r = bool_decide (code r = None) /\
    match verdict dto adminId s id with None => applied dto adminId now id s s' | Some _ => s' = s end.
Proof.
  unfold bulk_round, applyBulkActionToUser, verdict, transaction, bind, gets.
  destruct (find_user id s) as [u|] eqn:Hf; [|by eexists _, _].
  destruct (negb _ && bool_decide (id = adminId)); [by eexists _, _|].
  destruct (negb _ && bool_decide (role u = _)); [by eexists _, _|].
  apply find_user_one in Hf as [Hf _]. pose proof (switch_action_run dto adminId now id u s Hf) as Hs.
  destruct (bulk_action dto) eqn:Ha, (is_banned u) eqn:Hb.
  all: try (destruct Hs as [m ->]; by eexists _, _).
  all: destruct (write_error id) as [e|]; [rewrite Hs; by eexists _, _|].
  all: destruct Hs as (s' & -> & Hap); destruct (commit_error id) as [e|]; by eexists _, _.
Qed.

Lemma verdict_frame dto adminId s s' id :
  find_one id (users s') = find_one id (users s) -> verdict dto adminId s' id = verdict dto adminId s id.
Proof. intros H. unfold verdict, find_user. by rewrite H. Qed.

Lemma bulk_rounds_spec dto adminId now ids s :
  NoDup ids ->
  exists rs s', map_each (bulk_round dto adminId now) ids s = (Ret rs, s') /\ user_id <$> rs = ids /\
    code <$> rs = verdict dto adminId s <$> ids /\ Forall (fun r => success r = bool_decide (code r = None)) rs /\
    forall k,
      find_one k (users s') = (if decide (k ∈ ids /\ verdict dto adminId s k = None)
                               then edit dto adminId now <$> find_one k (users s) else find_one k (users s)) /\
      flags_of k s' = flags_of k s +
        (if decide ((k ∈ ids /\ verdict dto adminId s k = None) /\ bulk_action dto = Flag) then 1 else 0).
Proof.
  intros Hnd. revert s. induction Hnd as [|id ids Hni Hnd IH]; intros s.
  { exists [], s. split_and!; try done. intros k. split.
    - destruct (decide _) as [[Hk _]|]; [set_solver|done].
    - destruct (decide _) as [[[Hk _] _]|]; [set_solver|lia]. }
  destruct (bulk_round_spec dto adminId now id s) as (r & s1 & Hr & Hid & Hc & Hsu & Hst).
  destruct (IH s1) as (rs & s2 & Hrs & Hids & Hcs & Hall & Hk).
  assert (Hframe : forall k, k ≠ id -> find_one k (users s1) = find_one k (users s)).
  { intros k Hne. destruct (verdict dto adminId s id); [by subst|]. destruct Hst as [Hu _]. rewrite Hu.
    by destruct (decide (k = id)). }
  exists (r :: rs), s2. cbn [map_each]. unfold bind. rewrite Hr, Hrs. split; [done|]. csimpl.
  split; [by rewrite Hid, Hids|]. split.
  { rewrite Hc, Hcs. f_equal. apply list_fmap_ext. intros i x Hx. apply verdict_frame, Hframe.
    intros ->. apply Hni. by eapply list_elem_of_lookup_2. }
  split; [by constructor|]. intros k. destruct (Hk k) as [Hk1 Hk2]. rewrite Hk1, Hk2. clear Hk Hk1 Hk2 Hrs IH Hcs.
  destruct (decide (k = id)) as [->|Hne].
  - rewrite !(decide_False (P := (id ∈ ids /\ _))), (decide_False (P := ((id ∈ ids /\ _) /\ _))) by naive_solver.
    destruct (verdict dto adminId s id) eqn:Hv.
    + subst s1. rewrite !decide_False by naive_solver. split; [done|lia].
    + destruct Hst as [Hu Hfl]. rewrite (Hu id), (Hfl id), !decide_True by ((split; [left|done]) || done).
      split; [done|]. rewrite Z.add_0_r. f_equal. apply decide_ext. rewrite elem_of_cons. clear. naive_solver.
  - assert (Hv : verdict dto adminId s1 k = verdict dto adminId s k) by by apply verdict_frame, Hframe.
    assert (Hfl : flags_of k s1 = flags_of k s).
    { destruct (verdict dto adminId s id); [by subst|]. destruct Hst as [_ Hfl]. rewrite Hfl.
      rewrite decide_False by naive_solver. lia. }
    rewrite (Hframe k Hne), Hfl, Hv.
    split; [|f_equal]; apply decide_ext; rewrite elem_of_cons; clear -Hne; naive_solver.
Qed.

(** C13: The bulk action treats every user on its own: the results name the users of the
    request in order, each with the objection the action meets for that user (judged on
    the state before the call, whatever happened to the others) or success; exactly the
    rows of the accepted users change, by the action alone, a flag being raised exactly
    on them; and the counts add up. *)
Theorem bulk_isolated (dto : BulkUserActionDto) (adminId : string) (now : Z) (s : state) :
  NoDup (user_ids dto) ->
  exists r s', bulkUserAction dto adminId now s = (Ret r, s') /\
    user_id <$> results r = user_ids dto /\
    code <$> results r = verdict dto adminId s <$> user_ids dto /\
    Forall (fun x => success x = bool_decide (code x = None)) (results r) /\
    total r = Z.of_nat (length (user_ids dto)) /\ succeeded r + failed r = total r /\
    succeeded r = Z.of_nat (length (List.filter (fun id => bool_decide (verdict dto adminId s id = None)) (user_ids dto))) /\
    forall k,
      find_one k (users s') = (if decide (k ∈ user_ids dto /\ verdict dto adminId s k = None)
                               then edit dto adminId now <$> find_one k (users s) else find_one k (users s)) /\
      flags_of k s' = flags_of k s +
        (if decide ((k ∈ user_ids dto /\ verdict dto adminId s k = None) /\ bulk_action dto = Flag) then 1 else 0).
Proof.
  intros Hnd. destruct (bulk_rounds_spec dto adminId now (user_ids dto) s Hnd) as (rs & s' & Hrs & Hids & Hcs & Hall & Hk).
  unfold bulkUserAction, bind. rewrite Hrs. eexists _, s'. split; [reflexivity|]. cbn [results total succeeded failed].
  assert (Hlen : length rs = length (user_ids dto)) by by rewrite <-Hids, length_fmap.
  split_and!; try done; [by rewrite Hlen|lia|]. f_equal. clear Hlen Hk Hrs.
  revert Hids Hcs. generalize (user_ids dto). induction Hall as [|x rs Hx Hall IH]; intros [|id ids] Hids Hcs; try done.
  csimpl in *. injection Hids as _ Hids. injection Hcs as Hc Hcs. rewrite Hx, Hc.
  specialize (IH ids Hids Hcs). destruct (bool_decide (verdict dto adminId s id = None)); simpl; by rewrite IH.
Qed.

(** An administrator is never banned or flagged by the bulk action, and nobody bans or
    flags themselves with it. *)
Corollary bulk_spares_admins dto adminId s id u :
  find_user id s = Some u -> bulk_action dto ≠ Unban -> role u = "admin"%string \/ id = adminId ->
  is_Some (verdict dto adminId s id).
Proof.
  intros Hf Ha Hr. unfold verdict. rewrite Hf, bool_decide_false by done. simpl.
  destruct (bool_decide (id = adminId)) eqn:He; [done|]. apply bool_decide_eq_false in He.
  destruct Hr as [->|?]; [|done]. done.
Qed.

(** *** The ban record *)

(** A banned user has the date and the author of the ban, any other has none. *)
Definition ban_recorded (u : User) : Prop :=
  if is_banned u then is_Some (banned_at u) /\ is_Some (banned_by u)
  else ban_reason u = None /\ banned_at u = None /\ banned_by u = None.

Definition bans_recorded (s : state) : Prop := forall id u, find_one id (users s) = Some u -> ban_recorded u.

Lemma ban_recorded_ban a why now u : ban_recorded (ban a why now u).
Proof. unfold ban_recorded. simpl. split; by eexists. Qed.

Lemma ban_recorded_unban u : ban_recorded (unban u).
Proof. done. Qed.

Lemma bans_recorded_save id u s : ban_recorded u -> bans_recorded s -> bans_recorded (set_users (save id u) s).
Proof.
  intros Hu Hs k v. simpl. rewrite find_one_save. destruct (decide (id = k)); [naive_solver|]. apply Hs.
Qed.

Lemma bans_recorded_round dto adminId now id : preserves bans_recorded (bulk_round dto adminId now id).
Proof.
  intros s Hs. destruct (bulk_round_spec dto adminId now id s) as (r & s' & -> & _ & _ & _ & Hst). simpl.
  destruct (verdict dto adminId s id); [by subst|]. destruct Hst as [Hu _]. intros k u. rewrite Hu.
  destruct (decide (k = id)) as [->|]; [|apply Hs]. rewrite fmap_Some. intros (v & Hv & ->). unfold edit.
  destruct (bulk_action dto); [apply ban_recorded_ban|apply ban_recorded_unban|by eapply Hs].
Qed.

(** The operations on users. *)
Inductive op :=
| OpBan (id why adminId : string) (now : Z)
| OpUnban (id adminId : string)
| OpBulk (dto : BulkUserActionDto) (adminId : string) (now : Z)
| OpRole (id newRole adminId : string).

Definition exec (o : op) (s : state) : state :=
  match o with
  | OpBan id why a now => (banUser id why a now s).2
  | OpUnban id a => (unbanUser id a s).2
  | OpBulk dto a now => (bulkUserAction dto a now s).2
  | OpRole id r a => (updateUserRole id r a s).2
  end.

Lemma exec_bans_recorded o s : bans_recorded s -> bans_recorded (exec o s).
Proof.
  intros Hs. destruct o as [id why a now|id a|dto a now|id r a]; cbn [exec].
  - unfold banUser, bind, gets. destruct (find_user id s) as [u|] eqn:Hf; [|done]. destruct (is_banned u); [done|].
    apply (bans_recorded_save id); [apply ban_recorded_ban|done].
  - unfold unbanUser, bind, gets. destruct (find_user id s) as [u|] eqn:Hf; [|done]. destruct (negb (is_banned u)); [done|].
    apply (bans_recorded_save id); [apply ban_recorded_unban|done].
  - apply (preserves_bind bans_recorded); [|intros rs; apply preserves_ret|done].
    apply preserves_map_each. intros id. apply bans_recorded_round.
  - unfold updateUserRole, bind, gets. destruct (bool_decide (id = a)); [done|].
    destruct (find_user id s) as [u|] eqn:Hf; [|done]. apply find_user_one in Hf as [Hf _].
    apply (bans_recorded_save id); [exact (Hs id u Hf)|done].
Qed.

(** Under any sequence of bans, unbans, bulk actions and role changes, whatever the
    database refuses, a user is banned exactly when the row has the date and the author
    of the ban, and a user who is not banned carries no trace of one. *)
Theorem bans_always_recorded (ops : list op) (s : state) :
  bans_recorded s -> bans_recorded (foldl (fun s o => exec o s) s ops).
Proof. revert s. induction ops as [|o ops IH]; intros s Hs; [done|]. simpl. apply IH. by apply exec_bans_recorded. Qed.

(** *** Overviews *)

Section groups.
Context {A K : Type} `{EqDecision K} (key : A -> K).

Lemma sum_over_keys (ks : list K) (l : list A) :
  NoDup ks -> (forall x, x ∈ l -> key x ∈ ks) ->
  sumZ ((fun k => Z.of_nat (length (List.filter (fun x => bool_decide (key x = k)) l))) <$> ks) = Z.of_nat (length l).
Proof.
  intros Hnd. induction l as [|x l IH]; intros Hin.
  { simpl. clear. induction ks; csimpl; lia. }
  assert (Hone : forall ks, NoDup ks ->
    sumZ ((fun k => Z.of_nat (length (List.filter (fun y => bool_decide (key y = k)) (x :: l)))) <$> ks) =
    sumZ ((fun k => Z.of_nat (length (List.filter (fun y => bool_decide (key y = k)) l))) <$> ks) +
      (if decide (key x ∈ ks) then 1 else 0)).
  { clear. induction 1 as [|k ks Hni Hnd IH]; [rewrite decide_False by apply not_elem_of_nil; done|].
    csimpl. csimpl in IH. rewrite IH. destruct (decide (key x ∈ ks)), (decide (key x ∈ k :: ks)), (bool_decide (key x = k)) eqn:Hb;
      simpl; try lia; try (apply bool_decide_eq_true in Hb); try (apply bool_decide_eq_false in Hb); set_solver. }
  rewrite Hone, IH, decide_True; [simpl; lia|apply Hin; left|intros y Hy; apply Hin; by right|done].
Qed.

Lemma group_count_total (l : list A) : sumZ ((group_count key l).*2) = Z.of_nat (length l).
Proof.
  unfold group_count. rewrite <-list_fmap_compose. apply sum_over_keys; [apply NoDup_remove_dups|].
  intros x Hx. apply elem_of_remove_dups, list_elem_of_fmap. by exists x.
Qed.

Lemma group_count_keys (l : list A) : NoDup ((group_count key l).*1).
Proof. unfold group_count. rewrite <-list_fmap_compose, list_fmap_id. apply NoDup_remove_dups. Qed.

Lemma group_count_lookup (l : list A) k :
  default 0 (Mem.find (group_count key l) k) = Z.of_nat (length (List.filter (fun x => bool_decide (key x = k)) l)).
Proof.
  destruct (Mem.find (group_count key l) k) as [n|] eqn:Hf.
  - apply Mem.find_elem in Hf; [|apply group_count_keys]. unfold group_count in Hf.
    apply list_elem_of_fmap in Hf as (k' & Heq & _). by injection Heq as -> ->.
  - assert (Hni : k ∉ key <$> l).
    { intros Hin. assert (Hx : (k, Z.of_nat (length (List.filter (fun x => bool_decide (key x = k)) l))) ∈ group_count key l).
      { apply list_elem_of_fmap. exists k. split; [done|]. by apply elem_of_remove_dups. }
      apply Mem.find_elem in Hx; [|apply group_count_keys]. congruence. }
    simpl. clear Hf. induction l as [|x l IH]; [done|]. csimpl in Hni. simpl.
    rewrite bool_decide_false by set_solver. apply IH. set_solver.
Qed.
End groups.

(** The savings overview counts the deposit rows: the total and each status exactly, the
    four statuses adding up to the total, and the users with at least one deposit. *)
Theorem overview_exact (now : Z) (s : state) :
  exists o, getSavingsOverview now s = (Ret o, s) /\
    let ds := (rows (deposits s)).*2 in
    let n st := Z.of_nat (length (List.filter (fun d => bool_decide (status_name (Anchor.dep_status d) = status_name st)) ds)) in
    total_deposits o = Z.of_nat (length ds) /\
    deposits_by_status o = mkByStatus (n Anchor.D_pending) (n Anchor.D_processing) (n Anchor.D_completed) (n Anchor.D_failed) /\
    n Anchor.D_pending + n Anchor.D_processing + n Anchor.D_completed + n Anchor.D_failed = total_deposits o /\
    exists us, NoDup us /\ total_savings_accounts o = Z.of_nat (length us) /\
      forall u, u ∈ us <-> exists id d, find_one id (deposits s) = Some d /\ Anchor.dep_user d = u.
Proof.
  unfold getSavingsOverview, bind, gets, ret. eexists. split; [reflexivity|]. cbv zeta.
  cbn [total_deposits deposits_by_status total_savings_accounts].
  rewrite !group_count_lookup, foldl_add_sumZ, group_count_total. split; [lia|]. split; [done|]. split.
  - rewrite Z.add_0_l. generalize ((rows (deposits s)).*2). intros ds. induction ds as [|d ds IH]; [done|]. simpl in IH |- *.
    destruct (Anchor.dep_status d); repeat match goal with
      | |- context [bool_decide (status_name ?a = ?b)] =>
          let v := eval vm_compute in (bool_decide (status_name a = b)) in change (bool_decide (status_name a = b)) with v
      end; cbn [length]; lia.
  - exists (remove_dups (Anchor.dep_user <$> (rows (deposits s)).*2)). split; [apply NoDup_remove_dups|]. split; [done|].
    intros u. rewrite elem_of_remove_dups, list_elem_of_fmap. split.
    + intros (d & -> & Hd). apply list_elem_of_fmap in Hd as ([id d'] & -> & Hr). apply elem_of_rows in Hr. by exists id, d'.
    + intros (id & d & Hf & <-). exists d. split; [done|]. apply list_elem_of_fmap. exists (id, d). split; [done|]. by apply elem_of_rows.
Qed.

(** The daily series of a query: the days in order, each once, with the number of rows of
    that day; together they are all the rows since the start. *)
Theorem daily_spec {A} (time : A -> Z) (start : Z) (l : list A) :
  StronglySorted Z.lt ((daily time start l).*1) /\
  (forall d n, (d, n) ∈ daily time start l <->
     n = Z.of_nat (length (on_day time start d l)) /\ exists x, x ∈ l /\ start <= time x /\ Day (time x) = d) /\
  sumZ ((daily time start l).*2) = Z.of_nat (length (List.filter (fun x => start <=? time x) l)).
Proof.
  unfold daily. set (g := group_count _ _). split; [|split].
  - pose proof (order_by_sorted fst g) as Hs.
    assert (Hnd : NoDup ((order_by fst g).*1)) by (rewrite order_by_perm; apply group_count_keys).
    induction Hs as [|r k Hs IH Hall]; csimpl in *; [constructor|]. apply NoDup_cons in Hnd as [Hni Hnd].
    constructor; [by apply IH|]. apply Forall_fmap, Forall_forall. intros y Hy. simpl.
    rewrite Forall_forall in Hall. specialize (Hall y Hy). simpl in Hall.
    destruct (decide (r.1 = y.1)) as [He|]; [|lia]. exfalso. apply Hni. rewrite He. apply list_elem_of_fmap. by exists y.
  - intros d n. rewrite order_by_perm. unfold g, group_count. rewrite list_elem_of_fmap. setoid_rewrite elem_of_remove_dups.
    setoid_rewrite list_elem_of_fmap. setoid_rewrite elem_of_List_filter. setoid_rewrite Z.leb_le. unfold on_day.
    split.
    + intros (d' & Heq & x & Hd & Hx). injection Heq as -> ->. split; [done|]. exists x. naive_solver.
    + intros (-> & x & Hx & Hst & Hd). exists d. split; [done|]. exists x. naive_solver.
  - rewrite order_by_perm. apply group_count_total.
Qed.

(** The yield reads only look: no answer of the node makes the overview change a table. *)
Lemma yield_overview_pure reads now s : (getYieldOverview reads now s).2 = s.
Proof.
  unfold getYieldOverview, lift, getStrategyName, getRecentHarvestEvents, bind, gets, ret, throw.
  destruct (r_rate reads), (r_assets reads), (r_shares reads), (r_strategy reads) as [[]|]; simpl; try done;
    by destruct (r_fees reads).
Qed.

(** *** Behaviours against the intent *)

(** The name reported for the active strategy does not depend on which one is active. *)
Theorem strategy_name_ignores_id (a b : Z) (s : state) : getStrategyName a s = getStrategyName b s.
Proof. done. Qed.

(** The dashboard never answers: the query operator it calls does not exist, and the
    column it would filter on is not one of the entity. *)
Theorem dashboard_never_answers (op_ : bool) (login : option (User -> option Z)) (now : Z) (s : state) :
  op_ = false \/ login = None -> exists e, getDashboardStats op_ login now s = (Throw e, s).
Proof. unfold getDashboardStats. intros [->| ->]; [by eexists|]. destruct op_; by eexists. Qed.

(** The analytics never answer while [anchor_deposits] has no [amount] column. *)
Theorem analytics_never_answer (per : option string) (now : Z) (s : state) :
  getAnalytics None per now s = (Throw (DatabaseError "42703"), s).
Proof. done. Qed.

(** Banning one user has none of the guards of the bulk action: an administrator can be
    banned, also by themselves. *)
Theorem single_ban_unguarded (id why : string) (now : Z) (s : state) u :
  find_user id s = Some u -> is_banned u = false ->
  (banUser id why id now s).1 = Ret (ban id (Some why) now u) /\
  find_one id (users (banUser id why id now s).2) = Some (ban id (Some why) now u) /\
  verdict (mkBulk [id] Ban (Some why)) id s id = Some SelfAction.
Proof.
  intros Hf Hb. unfold banUser, bind, gets. rewrite Hf, Hb. simpl. split; [done|]. split; [apply find_one_save_eq|].
  unfold verdict. rewrite Hf. simpl. by rewrite bool_decide_true.
Qed.

(** The reads of the yield adapter, as the Soroban service makes them in state [st]. *)
Definition soroban_reads cfg sdk node (st : SorobanTx.state) : YieldReads :=
  mkReads (SorobanTx.getYieldAdapterExchangeRate cfg sdk node st).1 (SorobanTx.getYieldAdapterTotalAssets cfg sdk node st).1
    (SorobanTx.getYieldAdapterTotalShares cfg sdk node st).1 (SorobanTx.getYieldAdapterActiveStrategy cfg sdk node st).1
    (SorobanTx.getYieldAdapterAccruedFees cfg sdk node st).1.

(** The probe of the node: a read, timed. *)
Definition soroban_probe cfg sdk node (st : SorobanTx.state) (latency : Z) : outcome Z :=
  match (SorobanTx.getYieldAdapterTotalAssets cfg sdk node st).1 with Ret _ => Ret latency | Throw e => Throw e end.

(** Whatever the contract holds and the node answers, the overview shows an idle adapter
    with nothing in it, and the health check shows the node as up. *)
Theorem yield_overview_blind cfg sdk node st (now : Z) (s : state) (db : outcome Z) (latency : Z) :
  (exists o, getYieldOverview (soroban_reads cfg sdk node st) now s = (Ret o, s) /\
     active_strategy_id o = None /\ active_strategy_name o = None /\ y_total_assets o = "0"%string /\
     y_total_shares o = "0"%string /\ exchange_rate o = "0"%string /\ accrued_fees o = "0"%string) /\
  (exists h, getSystemHealth db (soroban_probe cfg sdk node st latency) s = (Ret h, s) /\ rpc_up h = true).
Proof.
  unfold soroban_probe, getYieldOverview, soroban_reads. cbn [r_rate r_assets r_shares r_strategy r_fees].
  unfold SorobanTx.getYieldAdapterExchangeRate, SorobanTx.getYieldAdapterTotalAssets, SorobanTx.getYieldAdapterTotalShares,
    SorobanTx.getYieldAdapterActiveStrategy, SorobanTx.getYieldAdapterAccruedFees.
  rewrite !SorobanTx.yield_read_null. split; [|by eexists].
  eexists. split; [reflexivity|]. done.
Qed.

(** Every activity entry lacks its transaction hash. *)
Theorem activity_without_hash (pg lim : option Z) (type : option string) (s : state) p :
  (getRecentActivity pg lim type s).1 = Ret p -> Forall (fun a => transaction_hash a = None) (page_data p).
Proof. unfold getRecentActivity. run. intros [= <-]. simpl. apply Forall_fmap, Forall_forall. done. Qed.
End service.

(** *** Concrete runs *)

Definition no_errors (_ : string) : option exn := None.
Definition person (name r : string) (b : bool) : User :=
  mkUser name None r b None (if b then Some 1 else None) (if b then Some "root"%string else None) 0 None.
Definition toy_users : state (B := MemBackend) :=
  mkState [("u1"%string, person "GALICE" "user" false); ("u2"%string, person "GBOB" "user" true);
           ("u3"%string, person "GCAROL" "admin" false); ("u4"%string, person "GDAN" "user" false)]
    [] [] [] [] [] (Referral.mkState [] [] []).
Definition toy_bulk : BulkUserActionDto := mkBulk ["u1"; "u2"; "u3"; "u4"; "u9"]%string Ban (Some "spam"%string).
(** The database refuses the write for [u4]. *)
Definition toy_errors (id : string) : option exn := if decide (id = "u4"%string) then Some (DatabaseError "40001") else None.

Lemma bulk_isolated_witness :
  exists r s', bulkUserAction toy_errors no_errors toy_bulk "u3" 5 toy_users = (Ret r, s') /\
    code <$> results r = [None; Some AlreadyBanned; Some SelfAction; Some Internal; Some NotFound] /\
    succeeded r = 1 /\ is_banned <$> find_one "u1"%string (users s') = Some true /\
    is_banned <$> find_one "u4"%string (users s') = Some false.
Proof.
  destruct (bulk_isolated toy_errors no_errors toy_bulk "u3" 5 toy_users) as (r & s' & Hr & _ & Hc & _ & _ & _ & Hn & Hk).
  - apply (bool_decide_unpack _). vm_compute. exact I.
  - exists r, s'. split; [exact Hr|]. rewrite Hc, Hn, (proj1 (Hk "u1"%string)), (proj1 (Hk "u4"%string)).
    repeat split; vm_compute; reflexivity.
Defined.

Lemma bans_always_recorded_witness :
  bans_recorded (foldl (fun s o => exec toy_errors no_errors o s) toy_users
    [OpBan "u1" "spam" "u3" 7; OpBulk toy_bulk "u3" 8; OpUnban "u2" "u3"; OpRole "u1" "moderator" "u3"]).
Proof.
  assert (Hall : Forall (fun r => ban_recorded r.2) (rows (users toy_users))).
  { change (rows (users toy_users)) with (users toy_users). repeat constructor; by eexists. }
  apply (bans_always_recorded (B := MemBackend) toy_errors no_errors). intros id u Hf. apply elem_of_rows in Hf.
  rewrite Forall_forall in Hall. exact (Hall (id, u) Hf).
Defined.

(** Two registered strategies: the second is active, the first is named. *)
Definition registered (i l : Z) (name : string) : nat * Indexer.EventRow :=
  (Z.to_nat i, Indexer.mkEventRow (Indexer.mkEvent (Z.to_nat i) l 0 "strategy_registered"
     [("strategy_id"%string, VNum i); ("name"%string, VStr name)] None Indexer.PROCESSED 0) 0).
Definition two_strategies : state (B := MemBackend) :=
  mkState [] [] [] [] [registered 1 10 "Blend"; registered 2 20 "Aquarius"] [] (Referral.mkState [] [] []).

Example wrong_strategy_named :
  (getStrategyName 2 two_strategies).1 = Ret (Some "Blend"%string).
Proof. vm_compute. reflexivity. Qed.

Example ilike_wildcards : ilike "a_c" "xxABCxx" = true /\ ilike "100%" "100 reasons" = true /\ ilike "b" "ACE" = false.
Proof. repeat split; vm_compute; reflexivity. Qed.

End Admin.
