(* ===== verification/Activity.v ===== *)
(** * The activity timeline and its CSV export

    Models [backend/src/activity/activity.service.ts]: the timeline of an address, built
    from the indexed contract events, and its export as CSV with quoting and protection
    against spreadsheet formulas. *)
From Stdlib Require Import ZArith Lia Ascii DecimalString.
From stdpp Require Import base list strings sorting sets.
From S2P Require Import Prelude Storage JsValue JsText JsDate Encoding Goals Indexer.
Local Open Scope Z_scope.

Module Activity.
#[local] Existing Instance Indexer.ContractEventStatus_eq_dec.

Inductive ActivityType := deposit | withdrawal | goal_created | goal_contribution | goal_reached.
#[export] Instance ActivityType_eq_dec : EqDecision ActivityType.
Proof. solve_decision. Defined.

Definition ACTIVITY_TYPES : list ActivityType := [deposit; withdrawal; goal_created; goal_contribution; goal_reached].
Definition DEFAULT_ACTIVITY_LIMIT : Z := 100.
Definition MAX_EXPORT_ROWS : Z := 10000.

Definition type_name (t : ActivityType) : string :=
  match t with
  | deposit => "deposit"
  | withdrawal => "withdrawal"
  | goal_created => "goal_created"
  | goal_contribution => "goal_contribution"
  | goal_reached => "goal_reached"
  end.

Definition EVENT_TOPIC_BY_TYPE (t : ActivityType) : string :=
  match t with
  | deposit => "deposit"
  | withdrawal => "withdraw"
  | goal_created => "goal_created"
  | goal_contribution => "goal_contribution"
  | goal_reached => "goal_reached"
  end.

Definition TYPE_BY_EVENT_TOPIC (topic : string) : option ActivityType :=
  List.find (fun t => bool_decide (EVENT_TOPIC_BY_TYPE t = topic)) ACTIVITY_TYPES.

Definition GOAL_TOPICS : list string := ["goal_contribution"; "goal_reached"]%string.

Record ActivityQueryDto := mkQuery {
  address : string;
  q_from : option Z;
  q_to : option Z;
  types : list ActivityType;
  q_limit : option Z;
}.

Record ActivityItem := mkItem {
  id : nat;
  type : ActivityType;
  amount : option string;
  goal_id : option string;
  goal_name : option string;
  tx_hash : option string;
  ledger : Z;
  occurred_at : string;
}.

(** ** CSV *)

Definition dquote : ascii := ascii_of_N 34.
Definition comma : ascii := ",".
Definition CR : ascii := ascii_of_N 13.
Definition LF : ascii := ascii_of_N 10.
Definition crlf : string := String CR (String LF EmptyString).
Definition apostrophe : string := "'".

Fixpoint some_char (p : ascii -> bool) (s : string) : bool :=
  match s with EmptyString => false | String c s' => p c || some_char p s' end.

(** [/\d+/] over the whole string. *)
Definition digits (s : string) : bool := negb (bool_decide (s = ""%string)) && all_chars decimal_char s.

(** A leading minus sign is optional. *)
Definition unsigned (s : string) : string :=
  match s with String "-" s' => s' | _ => s end%char.

(** [/^-?\d+$/]. *)
Definition int_literal (s : string) : bool := digits (unsigned s).

(** The parts around the first [.]. *)
Fixpoint split_point (s : string) : string * option string :=
  match s with
  | EmptyString => (EmptyString, None)
  | String c s' =>
      if bool_decide (c = "."%char) then (EmptyString, Some s')
      else let '(a, b) := split_point s' in (String c a, b)
  end.

(** [/^-?\d+(\.\d+)?$/]. *)
Definition number_literal (s : string) : bool :=
  match split_point (unsigned s) with
  | (a, None) => digits a
  | (a, Some b) => digits a && digits b
  end.

(** [/^[=+\-@\t\r]/]. *)
Definition formula_start (s : string) : bool :=
  match s with
  | EmptyString => false
  | String c _ => bool_decide (c ∈ ["="; "+"; "-"; "@"; ascii_of_N 9; CR]%char)
  end.

(** The first step of [escapeCsvField]: what the reader of the file sees. *)
Definition neutralise (value : string) : string :=
  if formula_start value && negb (number_literal value) then apostrophe +:+ value else value.

(** A double quote, a comma, or a character of a line end. *)
Definition needs_quotes (s : string) : bool := some_char (fun c => bool_decide (c ∈ [dquote; comma; CR; LF])) s.

(** Every double quote doubled. *)
Fixpoint double_quotes (s : string) : string :=
  match s with
  | EmptyString => EmptyString
  | String c s' => if bool_decide (c = dquote) then String c (String c (double_quotes s')) else String c (double_quotes s')
  end.

Definition escapeCsvField (value : string) : string :=
  let field := neutralise value in
  if needs_quotes field then String dquote (double_quotes field +:+ String dquote EmptyString) else field.

Definition csv_text (rows : list (list string)) : string :=
  join_with crlf (map (fun row => join_with "," (map escapeCsvField row)) rows).

Definition STROOPS_PER_UNIT : Z := 10000000.

(** [padStart(7, '0')] of a number below [STROOPS_PER_UNIT] is its seven digits. *)
Definition formatStroops (stroops : string) : string :=
  if negb (int_literal stroops) then stroops
  else
    match BigInt_of_string stroops with
    | None => stroops
    | Some value =>
        let abs := Z.abs value in
        (if value <? 0 then "-" else "") +:+ Z_to_string (abs / STROOPS_PER_UNIT) +:+ "." +:+ fixed 7 (abs mod STROOPS_PER_UNIT)
    end.

Definition CSV_COLUMNS : list string :=
  ["date"; "type"; "amount"; "amount_stroops"; "goal_id"; "goal_name"; "tx_hash"; "ledger"; "event_id"]%string.

Definition csv_row (i : ActivityItem) : list string :=
  [occurred_at i; type_name (type i); default ""%string (formatStroops <$> amount i); default ""%string (amount i);
   default ""%string (goal_id i); default ""%string (goal_name i); default ""%string (tx_hash i);
   Z_to_string (ledger i); Z_to_string (Z.of_nat (id i))].

Definition export_text (items : list ActivityItem) : string := csv_text (CSV_COLUMNS :: map csv_row items).

(** ** The timeline *)

(** [data->>'key']: the text of a JSON member, [NULL] when it is absent or null. *)
Definition json_text (data : record) (key : string) : option string :=
  match prop data key with VUndef | VNull => None | v => Some (js_String v) end.

Fixpoint coalesce (l : list (option string)) : option string :=
  match l with [] => None | Some v :: _ => Some v | None :: l' => coalesce l' end.

Definition event_owner (data : record) : option string :=
  coalesce [json_text data "owner"; json_text data "user"; json_text data "account"].
Definition event_goal (data : record) : option string := coalesce [json_text data "id"; json_text data "goal_id"].

(** [created_at], [ledger] and [log_index] as one descending key: a ledger is a 64-bit and
    a log index a 32-bit column. *)
Definition recency (e : Indexer.EventRow) : Z :=
  Indexer.ev_created_at e * 2 ^ 95 + Indexer.ledger (Indexer.ev e) * 2 ^ 31 + Indexer.log_index (Indexer.ev e).

Section service.
Context {B : Backend}.

Record state := mkState { goals : Goals.state; events : table nat Indexer.EventRow }.

(** The goals of an address, by on-chain id. *)
Definition goal_names (a : string) (s : state) : list (string * string) :=
  (fun r => (r.1, Goals.name r.2)) <$> List.filter (fun r => bool_decide (Goals.owner r.2 = a)) (rows (goals s)).

(** The events of an address. *)
Definition concerns (q : ActivityQueryDto) (names : list (string * string)) (e : Indexer.ContractEvent) : bool :=
  let topics := EVENT_TOPIC_BY_TYPE <$> (match types q with [] => ACTIVITY_TYPES | l => l end) in
  let goalTopics := List.filter (fun t => bool_decide (t ∈ GOAL_TOPICS)) topics in
  bool_decide (Indexer.event_type e ∈ topics) && bool_decide (Indexer.status e = Indexer.PROCESSED) &&
  (bool_decide (event_owner (Indexer.data e) = Some (address q)) ||
   (bool_decide (Indexer.event_type e ∈ goalTopics) &&
    match event_goal (Indexer.data e) with Some g => bool_decide (g ∈ names.*1) | None => false end)).

Definition in_window (q : ActivityQueryDto) (t : Z) : bool :=
  match q_from q with Some f => f <=? t | None => true end && match q_to q with Some u => t <=? u | None => true end.

(** [undefined] only when both members are missing; a [null] becomes the text [null]. *)
Definition raw_goal_id (data : record) : option string :=
  match prop data "id" ?? prop data "goal_id" with VUndef => None | v => Some (js_String v) end.

Definition raw_amount (t : ActivityType) (data : record) : option string :=
  match (if bool_decide (t = goal_created) then prop data "target_amount" else prop data "amount") with
  | VUndef | VNull => None
  | v => Some (js_String v)
  end.

Definition is_goal (t : ActivityType) : bool := match t with deposit | withdrawal => false | _ => true end.

(** A topic without a type makes [type.startsWith] throw. *)
Definition toActivityItem (names : list (string * string)) (r : nat * Indexer.EventRow) : outcome ActivityItem :=
  let e := Indexer.ev r.2 in
  let data := Indexer.data e in
  match TYPE_BY_EVENT_TOPIC (Indexer.event_type e) with
  | None => Throw (TypeError "Cannot read properties of undefined")
  | Some t =>
      let goalId := if is_goal t then raw_goal_id data else None in
      Ret (mkItem r.1 t (raw_amount t data) goalId
             (match goalId with
              | None => None
              | Some g => match Mem.find names g with
                          | Some n => Some n
                          | None => as_string (prop data "name")
                          end
              end)
             (Indexer.tx_hash e) (Indexer.ledger e) (toISOString (Indexer.ev_created_at r.2)))
  end.

Definition matching (q : ActivityQueryDto) (s : state) : list (nat * Indexer.EventRow) :=
  List.filter (fun r => concerns q (goal_names (address q) s) (Indexer.ev r.2) && in_window q (Indexer.ev_created_at r.2))
    (rows (events s)).

Definition list_ (q : ActivityQueryDto) (limit : Z) : M state (list ActivityItem) :=
  if match q_from q, q_to q with Some f, Some t => t <? f | _, _ => false end
  then throw (BadRequestException "from must be before to")
  else
    await names := gets (goal_names (address q)) in
    await found := gets (fun s => take (Z.to_nat limit) (order_by (fun r => - recency r.2) (matching q s))) in
    match sequence (map (toActivityItem names) found) with
    | Ret items => ret items
    | Throw e => throw e
    end.

Definition list_default (q : ActivityQueryDto) : M state (list ActivityItem) :=
  list_ q (default DEFAULT_ACTIVITY_LIMIT (q_limit q)).

Definition exportCsv (q : ActivityQueryDto) : M state string :=
  await items := list_ q MAX_EXPORT_ROWS in
  ret (export_text items).
End service.

(** *** Reading the file back *)

(** A reader of CSV (RFC 4180).  The field and the row read so far are [acc] and [row]. *)
Inductive mode := Start | Plain | Quoted | QuoteSeen | AfterCR.

Fixpoint read_csv (m : mode) (acc : string) (row : list string) (s : string) : option (list (list string)) :=
  match s with
  | EmptyString => match m with Quoted | AfterCR => None | _ => Some [row ++ [acc]] end
  | String c s' =>
      let end_field := if bool_decide (c = comma) then Some (read_csv Start ""%string (row ++ [acc]) s')
                       else if bool_decide (c = CR) then Some (read_csv AfterCR ""%string (row ++ [acc]) s')
                       else None in
      match m with
      | Start => if bool_decide (c = dquote) then read_csv Quoted ""%string row s'
                 else match end_field with Some r => r | None => read_csv Plain (String c EmptyString) row s' end
      | Plain => match end_field with Some r => r | None => read_csv Plain (acc +:+ String c EmptyString) row s' end
      | Quoted => if bool_decide (c = dquote) then read_csv QuoteSeen acc row s'
                  else read_csv Quoted (acc +:+ String c EmptyString) row s'
      | QuoteSeen => if bool_decide (c = dquote) then read_csv Quoted (acc +:+ String dquote EmptyString) row s'
                     else match end_field with Some r => r | None => None end
      | AfterCR => if bool_decide (c = LF) then cons row <$> read_csv Start ""%string [] s' else None
      end
  end.

Definition parse_csv (s : string) : option (list (list string)) := read_csv Start ""%string [] s.

(** What may follow a field. *)
Definition boundary (rest : string) : bool :=
  match rest with EmptyString => true | String c _ => bool_decide (c = comma) || bool_decide (c = CR) end.

(** The field ends with value [v]. *)
Definition ends_field (v : string) (row : list string) (rest : string) : option (list (list string)) :=
  match rest with
  | EmptyString => Some [row ++ [v]]
  | String c r => if bool_decide (c = comma) then read_csv Start ""%string (row ++ [v]) r
                  else read_csv AfterCR ""%string (row ++ [v]) r
  end.

Lemma read_boundary m v row rest :
  boundary rest = true -> m = Plain \/ m = QuoteSeen \/ (m = Start /\ v = ""%string) ->
  read_csv m v row rest = ends_field v row rest.
Proof.
  intros Hb Hm. destruct rest as [|c r]; [destruct Hm as [->|[->|[-> ->]]]; done|].
  cbn in Hb. apply orb_true_iff in Hb as [Hc|Hc]; apply bool_decide_eq_true in Hc as ->;
    destruct Hm as [->|[->|[-> ->]]]; reflexivity.
Qed.

Lemma read_plain v acc row rest :
  needs_quotes v = false -> read_csv Plain acc row (v +:+ rest) = read_csv Plain (acc +:+ v) row rest.
Proof.
  revert acc. induction v as [|c v IH]; intros acc Hv.
  - change (""%string +:+ rest) with rest. by rewrite String_app_nil_r.
  - cbn in Hv. apply orb_false_iff in Hv as [Hc Hv]. apply bool_decide_eq_false in Hc.
    change (String c v +:+ rest) with (String c (v +:+ rest)). cbn [read_csv].
    rewrite !bool_decide_false by set_solver. rewrite (IH _ Hv), String_app_assoc. done.
Qed.

Lemma read_quoted v acc row rest :
  read_csv Quoted acc row (double_quotes v +:+ String dquote rest) = read_csv QuoteSeen (acc +:+ v) row rest.
Proof.
  revert acc. induction v as [|c v IH]; intros acc.
  - cbn [double_quotes]. change (""%string +:+ String dquote rest) with (String dquote rest). cbn [read_csv].
    rewrite bool_decide_true by done. by rewrite String_app_nil_r.
  - cbn [double_quotes]. destruct (bool_decide (c = dquote)) eqn:Hc.
    + apply bool_decide_eq_true in Hc as ->.
      change (String dquote (String dquote (double_quotes v)) +:+ String dquote rest)
        with (String dquote (String dquote (double_quotes v +:+ String dquote rest))).
      cbn [read_csv]. rewrite !bool_decide_true by done. rewrite IH, String_app_assoc. done.
    + change (String c (double_quotes v) +:+ String dquote rest) with (String c (double_quotes v +:+ String dquote rest)).
      cbn [read_csv]. rewrite Hc, IH, String_app_assoc. done.
Qed.

(** An escaped field is read as its neutralised value. *)
Lemma read_field value row rest :
  boundary rest = true ->
  read_csv Start ""%string row (escapeCsvField value +:+ rest) = ends_field (neutralise value) row rest.
Proof.
  intros Hb. unfold escapeCsvField. destruct (needs_quotes (neutralise value)) eqn:Hq.
  - change (String dquote ?x +:+ rest) with (String dquote (x +:+ rest)). cbn [read_csv].
    rewrite bool_decide_true by done. rewrite String_app_assoc.
    change (String dquote EmptyString +:+ rest) with (String dquote rest). rewrite read_quoted.
    apply read_boundary; [done|]. by right; left.
  - destruct (neutralise value) as [|c v]; [apply read_boundary; [done|by right; right]|].
    pose proof Hq as Hq'. cbn in Hq'. apply orb_false_iff in Hq' as [Hc Hv]. apply bool_decide_eq_false in Hc.
    change (String c v +:+ rest) with (String c (v +:+ rest)). cbn [read_csv].
    rewrite !bool_decide_false by set_solver. rewrite read_plain by done. apply read_boundary; [done|by left].
Qed.

Lemma read_row fields row rest :
  fields ≠ [] -> boundary rest = true -> (forall r, rest ≠ String comma r) ->
  read_csv Start ""%string row (join_with "," (map escapeCsvField fields) +:+ rest) =
    match rest with
    | EmptyString => Some [row ++ map neutralise fields]
    | String _ r => read_csv AfterCR ""%string (row ++ map neutralise fields) r
    end.
Proof.
  intros Hne Hb Hc. revert row. induction fields as [|f [|g fields] IH]; intros row; [done|..].
  - cbn [map join_with]. rewrite read_field by done. destruct rest as [|c r]; [done|]. simpl.
    case_bool_decide; [subst; by destruct (Hc r)|done].
  - cbn [map]. change (join_with "," (escapeCsvField f :: ?l)) with (escapeCsvField f +:+ "," +:+ join_with "," l).
    rewrite !String_app_assoc. rewrite read_field by done. change ("," +:+ ?x) with (String comma x). cbn [ends_field].
    rewrite bool_decide_true by done. cbn [map] in IH. rewrite IH by done. rewrite <-app_assoc. done.
Qed.

(** A neutralised field starts no formula. *)
Lemma neutralise_safe v : formula_start (neutralise v) = true -> number_literal (neutralise v) = true.
Proof.
  unfold neutralise. destruct (formula_start v) eqn:Hf; [|cbn; by rewrite Hf]. destruct (number_literal v) eqn:Hn; [done|].
  cbn [andb negb]. change (apostrophe +:+ v) with (String "'" v). done.
Qed.

Lemma read_csv_text (rows : list (list string)) :
  rows ≠ [] -> Forall (fun r => r ≠ []) rows -> parse_csv (csv_text rows) = Some (map (map neutralise) rows).
Proof.
  unfold parse_csv, csv_text. intros Hne Hall. induction Hall as [|r rs Hr Hall IH]; [done|]. destruct rs as [|r' rs].
  - cbn [map join_with]. rewrite <-(String_app_nil_r (join_with "," _)). by rewrite read_row.
  - cbn [map]. change (join_with crlf (?a :: ?l)) with (a +:+ crlf +:+ join_with crlf l).
    rewrite read_row; [|done|done|intros x Hx; discriminate Hx].
    cbn [app]. change (crlf +:+ ?x) with (String CR (String LF x)). cbn [read_csv]. rewrite bool_decide_true by done.
    cbn [map] in IH. rewrite IH by done. done.
Qed.

(** C37: The exported file reads back: a CSV reader gets exactly the rows that were
    written, field by field, whatever quotes, commas and line ends they hold; the only
    difference is the apostrophe in front of a text a spreadsheet would run as a
    formula, and no text that is read starts a formula. *)
Theorem csv_roundtrip (rows : list (list string)) :
  rows ≠ [] -> Forall (fun r => r ≠ []) rows ->
  parse_csv (csv_text rows) = Some (map (map neutralise) rows) /\
  forall r v, r ∈ rows -> v ∈ map neutralise r -> formula_start v = true -> number_literal v = true.
Proof.
  intros Hne Hall. split; [by apply read_csv_text|]. intros r v _ Hv.
  apply list_elem_of_fmap in Hv as (x & -> & _). apply neutralise_safe.
Qed.


(** *** The timeline *)

Section timeline.
Context {B : Backend}.

Lemma topic_of_type t : TYPE_BY_EVENT_TOPIC (EVENT_TOPIC_BY_TYPE t) = Some t.
Proof. by destruct t. Qed.

(** The requested types. *)
Definition wanted (q : ActivityQueryDto) : list ActivityType := match types q with [] => ACTIVITY_TYPES | l => l end.

Lemma concerns_type q names e :
  concerns q names e = true -> exists t, t ∈ wanted q /\ TYPE_BY_EVENT_TOPIC (Indexer.event_type e) = Some t.
Proof.
  unfold concerns. intros [[Ht _]%andb_true_iff _]%andb_true_iff. apply bool_decide_eq_true in Ht.
  apply list_elem_of_fmap in Ht as (t & Ht & Hin). exists t. split; [exact Hin|]. by rewrite Ht, topic_of_type.
Qed.

Lemma sequence_items q names l :
  Forall (fun r => concerns q names (Indexer.ev r.2) = true) l ->
  exists items, sequence (map (toActivityItem names) l) = Ret items /\
    Forall2 (fun r i => toActivityItem names r = Ret i /\ id i = r.1 /\ type i ∈ wanted q) l items.
Proof.
  induction 1 as [|r l Hr Hl IH]; [by exists []|]. destruct IH as (items & Hs & Hf).
  destruct (concerns_type _ _ _ Hr) as (t & Hin & Ht). cbn [map sequence].
  unfold toActivityItem at 1. rewrite Ht, Hs. eexists. split; [reflexivity|]. constructor; [|done].
  unfold toActivityItem. rewrite Ht. done.
Qed.

(** The timeline of an address is never refused for a well-ordered window: it holds
    the newest [limit] of exactly the matching events, newest first, each as its item
    and of a requested type; and a window that ends before it starts is a bad request. *)
Theorem timeline_exact (q : ActivityQueryDto) (limit : Z) (s : state) :
  if match q_from q, q_to q with Some f, Some t => t <? f | _, _ => false end
  then list_ q limit s = (Throw (BadRequestException "from must be before to"), s)
  else exists found items, list_ q limit s = (Ret items, s) /\
    found ≡ₚ matching q s /\ StronglySorted (fun a b => recency b.2 <= recency a.2) found /\
    Forall2 (fun r i => toActivityItem (goal_names (address q) s) r = Ret i /\ id i = r.1 /\ type i ∈ wanted q)
      (take (Z.to_nat limit) found) items.
Proof.
  unfold list_. destruct (match q_from q, q_to q with Some f, Some t => t <? f | _, _ => false end) eqn:Hw; [done|].
  set (found := order_by (fun r => - recency r.2) (matching q s)).
  assert (Hp : found ≡ₚ matching q s) by apply order_by_perm.
  destruct (sequence_items q (goal_names (address q) s) (take (Z.to_nat limit) found)) as (items & Hs & Hf).
  { apply Forall_take. rewrite Hp. apply Forall_forall. intros r Hr. apply elem_of_List_filter in Hr as [_ Hr].
    by apply andb_true_iff in Hr as [Hr _]. }
  exists found, items. unfold bind, gets. fold found. rewrite Hs. split; [done|]. split; [done|]. split; [|done].
  pose proof (order_by_sorted (fun r : nat * Indexer.EventRow => - recency r.2) (matching q s)) as Hso. fold found in Hso.
  clear -Hso. induction Hso as [|r l Hso IH Hall]; constructor; [done|].
  eapply Forall_impl; [exact Hall|]. intros x. simpl. lia.
Qed.

Lemma timeline_exact_pure q limit (s : state) : (list_ q limit s).2 = s.
Proof.
  unfold list_, bind, gets. case_match; [done|]. by destruct (sequence _).
Qed.

(** The export of a window is the timeline of its newest [MAX_EXPORT_ROWS] events, one
    line each under the header. *)
Theorem export_reads_back (q : ActivityQueryDto) (s : state) text :
  (exportCsv q s).1 = Ret text ->
  exists items, list_ q MAX_EXPORT_ROWS s = (Ret items, s) /\
    parse_csv text = Some (CSV_COLUMNS :: map (map neutralise) (map csv_row items)).
Proof.
  unfold exportCsv, bind. pose proof (timeline_exact_pure q MAX_EXPORT_ROWS s) as Hp.
  destruct (list_ q MAX_EXPORT_ROWS s) as [[items|e] s'] eqn:Hl; [|done]. simpl in Hp. subst s'.
  intros [= <-]. exists items. split; [done|]. unfold export_text. rewrite read_csv_text; [|done|].
  - reflexivity.
  - constructor; [done|]. apply Forall_forall. intros r Hr. apply list_elem_of_fmap in Hr as (i & -> & _). done.
Qed.
End timeline.

(** *** Amounts *)

Lemma int_literal_decimal n : int_literal (Z_to_string n) = true.
Proof.
  unfold Z_to_string, int_literal. destruct (Z.to_int n) as [d|d]; simpl;
    destruct (string_of_uint_nonempty d) as [Hne Hd].
  - assert (Hu : unsigned (NilZero.string_of_uint d) = NilZero.string_of_uint d).
    { destruct (NilZero.string_of_uint d) as [|c t]; [done|]. cbn in Hd. apply andb_true_iff in Hd as [Hc _].
      destruct c as [[] [] [] [] [] [] [] []]; try discriminate Hc; reflexivity. }
    rewrite Hu. unfold digits. rewrite Hd, bool_decide_false by done. done.
  - unfold digits. rewrite Hd, bool_decide_false by done. done.
Qed.

(** An amount in stroops is written with the decimals it has: the whole units, a
    point and exactly seven digits, which together are the amount again. *)
Theorem formatStroops_exact (n : Z) :
  exists whole frac, Z.abs n = whole * STROOPS_PER_UNIT + frac /\ 0 <= whole /\ 0 <= frac < STROOPS_PER_UNIT /\
    formatStroops (Z_to_string n) = (if n <? 0 then "-" else "") +:+ Z_to_string whole +:+ "." +:+ fixed 7 frac.
Proof.
  exists (Z.abs n / STROOPS_PER_UNIT), (Z.abs n mod STROOPS_PER_UNIT). unfold STROOPS_PER_UNIT.
  pose proof (Z.div_mod (Z.abs n) 10000000 ltac:(lia)). pose proof (Z.mod_pos_bound (Z.abs n) 10000000 ltac:(lia)).
  split; [lia|]. split; [apply Z.div_pos; lia|]. split; [lia|].
  unfold formatStroops. rewrite int_literal_decimal, BigInt_of_string_to_string. done.
Qed.

(** *** Concrete runs *)

Definition nasty : list (list string) :=
  [["=HYPERLINK()"%string; "a,b"%string; String dquote "x"]; [""%string; "-5.25"%string; String "a" crlf]].

Lemma csv_roundtrip_witness :
  parse_csv (csv_text nasty) = Some [["'=HYPERLINK()"%string; "a,b"%string; String dquote "x"]; [""%string; "-5.25"%string; String "a" crlf]].
Proof.
  destruct (csv_roundtrip nasty) as [H _]; [discriminate|repeat constructor; discriminate|].
  rewrite H. reflexivity.
Defined.

Definition goal_row : string * Goals.Goal :=
  ("7"%string, Goals.mkGoal "7" "GALICE" "Trip, 2027" "100" "0" Goals.ACTIVE None 0).
Definition event_at (i : nat) (topic : string) (l t : Z) (d : record) : nat * Indexer.EventRow :=
  (i, Indexer.mkEventRow (Indexer.mkEvent i l 0 topic d (Some "tx"%string) Indexer.PROCESSED 0) t).
Definition toy_activity : state (B := MemBackend) :=
  mkState [goal_row]
    [event_at 1 "deposit" 10 1000 [("owner"%string, VStr "GALICE"); ("amount"%string, VStr "12500000")];
     event_at 2 "deposit" 11 2000 [("owner"%string, VStr "GBOB"); ("amount"%string, VStr "1")];
     event_at 3 "goal_contribution" 12 3000 [("id"%string, VStr "7"); ("amount"%string, VStr "5")]].
Definition all_of (a : string) : ActivityQueryDto := mkQuery a None None [] None.

Example toy_timeline :
  map id (match (list_default (all_of "GALICE") toy_activity).1 with Ret l => l | Throw _ => [] end) = [3; 1]%nat.
Proof. vm_compute. reflexivity. Qed.

Lemma export_reads_back_witness :
  exists items, list_ (all_of "GALICE") MAX_EXPORT_ROWS toy_activity = (Ret items, toy_activity) /\ length items = 2%nat.
Proof.
  destruct (export_reads_back (all_of "GALICE") toy_activity
    (match (exportCsv (all_of "GALICE") toy_activity).1 with Ret t => t | Throw _ => ""%string end)) as (items & Hl & _).
  - vm_compute. reflexivity.
  - exists items. split; [exact Hl|]. vm_compute in Hl. injection Hl as <-. reflexivity.
Defined.

End Activity.
