(* ===== verification/Email.v ===== *)
(** * E-mail

    Models [backend/src/notifications/email.service.ts]: opt-outs, the queue with its rate
    limit, delivery with retries; and [notifications/email-templates.ts].  The mail
    provider is a parameter, asked by attempt number. *)
From Stdlib Require Import ZArith Lia Ascii.
From stdpp Require Import base list strings sorting sets.
From S2P Require Import Prelude Storage JsValue JsText JsNumber Encoding SorobanEvents.
Local Open Scope Z_scope.

Module Email.
Import SorobanEvents.

(** ** Templates *)

Inductive EmailTemplateType := event_created | match_result_available | event_won | event_cancelled | digest.

Record DigestItem := mkItem { item_title : string; item_message : string }.

Record EmailTemplateContext := mkContext {
  eventTitle : option string;
  matchHomeTeam : option string;
  matchAwayTeam : option string;
  matchResult : option string;
  inviteCode : option string;
  weekly : bool;
  digestItems : list DigestItem;
  digestPeriod : option string;
}.

Definition empty_context : EmailTemplateContext := mkContext None None None None None false [] None.

Record Rendered := mkRendered { subject : string; html : string; text : string }.

(** Markup is written with backquotes for double quotes. *)
Fixpoint dq (s : string) : string :=
  match s with
  | EmptyString => EmptyString
  | String c s' => String (if bool_decide (c = "`"%char) then ascii_of_N 34 else c) (dq s')
  end.

Definition amp : ascii := "&".
Definition lt : ascii := "<".
Definition gt : ascii := ">".
Definition dquot : ascii := ascii_of_N 34.
Definition squot : ascii := "'".

Definition entity (c : ascii) : string :=
  if bool_decide (c = amp) then "&amp;"
  else if bool_decide (c = lt) then "&lt;"
  else if bool_decide (c = gt) then "&gt;"
  else if bool_decide (c = dquot) then "&quot;"
  else if bool_decide (c = squot) then "&#39;"
  else String c EmptyString.

Fixpoint escapeHtml (value : string) : string :=
  match value with EmptyString => EmptyString | String c v => entity c +:+ escapeHtml v end.

Definition baseStyles : string := "
  body { font-family: -apple-system, BlinkMacSystemFont, 'Segoe UI', sans-serif; color: #1a1a2e; line-height: 1.6; }
  .container { max-width: 560px; margin: 0 auto; padding: 32px 24px; }
  .header { background: #6366f1; color: #fff; padding: 24px; border-radius: 8px 8px 0 0; }
  .content { background: #f8fafc; padding: 24px; border-radius: 0 0 8px 8px; border: 1px solid #e2e8f0; border-top: none; }
  .cta { display: inline-block; background: #6366f1; color: #fff; padding: 12px 24px; border-radius: 6px; text-decoration: none; margin-top: 16px; }
  .footer { color: #64748b; font-size: 12px; margin-top: 24px; text-align: center; }
".

Definition wrapHtml (title body : string) : string :=
  "<!DOCTYPE html><html><head><style>" +:+ baseStyles +:+ dq "</style></head>
    <body><div class=`container`>
      <div class=`header`><h1 style=`margin:0;font-size:20px;`>" +:+ escapeHtml title +:+ dq "</h1></div>
      <div class=`content`>" +:+ body +:+ dq "
        <a class=`cta` href=`https://insightarena.app`>View on InsightArena</a>
      </div>
      <div class=`footer`>You received this email because of your InsightArena notification preferences.</div>
    </div></body></html>".

Definition strong (v : string) : string := "<strong>" +:+ escapeHtml v +:+ "</strong>".

Definition item_html (i : DigestItem) : string :=
  dq "<div style=`border-left:3px solid #6366f1;padding:8px 12px;margin:8px 0;`>
               <strong>" +:+ escapeHtml (item_title i) +:+ dq "</strong>
               <p style=`margin:4px 0 0;color:#475569;`>" +:+ escapeHtml (item_message i) +:+ "</p>
             </div>".

Definition item_text (i : DigestItem) : string := "• " +:+ item_title i +:+ ": " +:+ item_message i.

Definition newline : string := String (ascii_of_N 10) EmptyString.

Definition renderEmailTemplate (type : EmailTemplateType) (c : EmailTemplateContext) : Rendered :=
  let or d o := default d o in
  match type with
  | event_created =>
      mkRendered (dq "Your event `" +:+ or "New Event"%string (eventTitle c) +:+ dq "` is live on InsightArena")
        (wrapHtml "Event Created"
           ("<p>Your creator event " +:+ strong (or "New Event"%string (eventTitle c)) +:+ " has been created successfully.</p>
           <p>Share your invite code " +:+ strong (or ""%string (inviteCode c)) +:+ " with participants to get started.</p>"))
        (dq "Your event `" +:+ or "New Event"%string (eventTitle c) +:+ dq "` is live on InsightArena. Invite code: " +:+
         or ""%string (inviteCode c))
  | match_result_available =>
      mkRendered ("Match result: " +:+ or "Team A"%string (matchHomeTeam c) +:+ " vs " +:+ or "Team B"%string (matchAwayTeam c))
        (wrapHtml "Match Result Available"
           ("<p>The match " +:+ strong (or "Team A"%string (matchHomeTeam c)) +:+ " vs " +:+
            strong (or "Team B"%string (matchAwayTeam c)) +:+ " in event " +:+ strong (or ""%string (eventTitle c)) +:+
            " has been resolved.</p>
           <p>Result: " +:+ strong (or "Pending"%string (matchResult c)) +:+ "</p>"))
        ("Match result available for " +:+ or "undefined"%string (matchHomeTeam c) +:+ " vs " +:+
         or "undefined"%string (matchAwayTeam c) +:+ ". Result: " +:+ or "undefined"%string (matchResult c))
  | event_won =>
      mkRendered (dq "Congratulations! You won `" +:+ or "the event"%string (eventTitle c) +:+ dq "`")
        (wrapHtml "You Won!"
           ("<p>Congratulations! You are a verified winner of " +:+ strong (or "the event"%string (eventTitle c)) +:+ ".</p>
           <p>Log in to InsightArena to claim your payout.</p>"))
        (dq "Congratulations! You won the event `" +:+ or "the event"%string (eventTitle c) +:+ dq "`.")
  | event_cancelled =>
      mkRendered ("Event cancelled: " +:+ or "Event"%string (eventTitle c))
        (wrapHtml "Event Cancelled"
           ("<p>The event " +:+ strong (or "Event"%string (eventTitle c)) +:+ " has been cancelled by the creator.</p>
           <p>Any stakes will be refunded according to the event rules.</p>"))
        (dq "The event `" +:+ or "Event"%string (eventTitle c) +:+ dq "` has been cancelled.")
  | digest =>
      let freq := if weekly c then "Weekly"%string else "Daily"%string in
      let items := digestItems c in
      let n := Z.of_nat (length items) in
      mkRendered (trim_end ("Your " +:+ freq +:+ " InsightArena digest — " +:+ or ""%string (digestPeriod c)))
        (wrapHtml (freq +:+ " Activity Digest")
           ("<p>Here's a summary of your recent activity on InsightArena:</p>
           " +:+ join_with "" (map item_html items) +:+ dq "
           <p style=`margin-top:16px;color:#475569;font-size:13px;`>You have " +:+ Z_to_string n +:+ " unread notification" +:+
            (if n =? 1 then "" else "s") +:+ ".</p>"))
        ("Your " +:+ (if weekly c then "weekly" else "daily") +:+ " InsightArena digest:" +:+ newline +:+ newline +:+
         join_with newline (map item_text items))
  end.

(** *** What is escaped reads back *)

(** The entities of [escapeHtml], read as a browser reads them. *)
Definition entities : list (string * ascii) :=
  [("&amp;", amp); ("&lt;", lt); ("&gt;", gt); ("&quot;", dquot); ("&#39;", squot)]%string.

Fixpoint begins (p s : string) {struct p} : bool :=
  match p, s with
  | EmptyString, _ => true
  | String a p', String b s' => bool_decide (a = b) && begins p' s'
  | _, _ => false
  end.

Definition entity_at (s : string) : option (string * ascii) := List.find (fun e => begins e.1 s) entities.

Fixpoint unescape (skip : nat) (s : string) : string :=
  match s with
  | EmptyString => EmptyString
  | String c s' =>
      match skip with
      | S k => unescape k s'
      | O => match entity_at s with
             | Some (e, d) => String d (unescape (pred (String.length e)) s')
             | None => String c (unescape O s')
             end
      end
  end.

Lemma entity_at_ordinary c s : entity c = String c EmptyString -> c ≠ amp -> entity_at (String c s) = None.
Proof.
  intros _ Hc. unfold entity_at. cbn [List.find entities fst begins].
  rewrite bool_decide_false by done. done.
Qed.

Lemma entity_ordinary c :
  (c = amp \/ c = lt \/ c = gt \/ c = dquot \/ c = squot) \/ (entity c = String c EmptyString /\ c ≠ amp).
Proof.
  unfold entity. repeat case_bool_decide; naive_solver.
Qed.

Lemma unescape_entity c rest : unescape 0 (entity c +:+ rest) = String c (unescape 0 rest).
Proof.
  destruct (entity_ordinary c) as [[->|[->|[->|[->| ->]]]]|[He Hc]]; try reflexivity.
  rewrite He. change (String c EmptyString +:+ rest) with (String c rest). cbn [unescape].
  by rewrite (entity_at_ordinary c rest He Hc).
Qed.

Lemma unescape_escapeHtml v : unescape 0 (escapeHtml v) = v.
Proof.
  induction v as [|c v IH]; [done|]. cbn [escapeHtml]. by rewrite unescape_entity, IH.
Qed.

(** No markup character is left in escaped text. *)
Definition markup_free (s : string) : bool :=
  all_chars (fun c => negb (bool_decide (c ∈ [lt; gt; dquot; squot]))) s.

Lemma markup_free_app a b : markup_free (a +:+ b) = markup_free a && markup_free b.
Proof.
  unfold markup_free. induction a as [|c a IH]; [done|].
  change (String c a +:+ b) with (String c (a +:+ b)). cbn [all_chars]. by rewrite IH, andb_assoc.
Qed.

Lemma escapeHtml_markup_free v : markup_free (escapeHtml v) = true.
Proof.
  induction v as [|c v IH]; [done|]. cbn [escapeHtml]. rewrite markup_free_app, IH, andb_true_r.
  unfold entity. repeat case_bool_decide; try reflexivity.
  unfold markup_free. cbn [all_chars]. rewrite bool_decide_false; [done|]. set_solver.
Qed.

(** Text of users cannot become markup in an e-mail: what [escapeHtml] gives holds no
    tag or attribute delimiter, and a browser shows exactly the text that went in. *)
Theorem escaped_text_is_text (value : string) :
  markup_free (escapeHtml value) = true /\ unescape 0 (escapeHtml value) = value.
Proof. split; [apply escapeHtml_markup_free|apply unescape_escapeHtml]. Qed.

(** ** The service *)

Record QueuedEmail := mkEmail {
  to : string;
  q_subject : string;
  q_html : string;
  q_text : string;
  userAddress : option string;
  queuedAt : Z;
}.

(** A user, by stellar address: the id. *)
Inductive NotificationCategory := EventCreated | MatchAdded | PredictionSubmitted | MatchResolved | WinnerVerified | EventCancelled.
#[export] Instance NotificationCategory_eq_dec : EqDecision NotificationCategory.
Proof. solve_decision. Defined.

Definition isNetworkError (e : js_error) : bool :=
  if negb (is_Error e) then false
  else if is_TypeError e then true
  else if match cause_code e with Some c => bool_decide (c ∈ transient_codes) | None => false end then true
  else bool_decide (err_name e = "AbortError"%string).

Definition isTransientHttpStatus (status : Z) : bool := (status =? 429) || ((500 <=? status) && (status <=? 599)).

(** The status of the first match of [/SendGrid error \((\d{3})\)/]. *)
Fixpoint sendgrid_status (s : string) : option Z :=
  match s with
  | EmptyString => None
  | String _ s' =>
      match (if String.prefix "SendGrid error (" s && bool_decide (String.get 19 s = Some ")"%char)
             then three_digits (String.substring 16 3 s) else None) with
      | Some n => Some n
      | None => sendgrid_status s'
      end
  end.

Definition isTransientError (e : js_error) : bool :=
  if isNetworkError e then true
  else if is_Error e then
    match sendgrid_status (err_message e) with Some st => isTransientHttpStatus st | None => false end
  else false.

(** The formula of the RPC delays. *)
Definition computeBackoffDelay (random : number) (baseDelayMs attemptIndex : Z) : Z :=
  computeRpcBackoffDelay random baseDelayMs attemptIndex.

(** The settings as numbers, [None] for [NaN]. *)
Record Config := mkConfig {
  rateLimit : option Z;
  retryMaxAttempts : option Z;
  retryBaseDelayMs : Z;
  hasApiKey : bool;
}.

(** What the provider does with an attempt: the answered status, with the body of an
    error, or a network error. *)
Inductive send_result := Answered (status : Z) (body : string) | NetworkFailed (e : js_error).

Section service.
Context {B : Backend} (cfg : Config).
Context (provider : nat -> QueuedEmail -> send_result) (random : nat -> number).

(** [users]: ids by address; [prefs]: [email_notifications] by user id; [categories]: the
    [email] channel by user id and category.  [attempts] counts the requests to the
    provider, [slept] holds the delays, [accepted] what it took and when the service
    recorded it. *)
Record state := mkState {
  queue : list QueuedEmail;
  sentTimestamps : list Z;
  isProcessing : bool;
  users : table string string;
  prefs : table string bool;
  categories : table (string * NotificationCategory) bool;
  attempts : nat;
  slept : list Z;
  accepted : list (QueuedEmail * Z);
}.

Definition set_queue f s := mkState (f (queue s)) (sentTimestamps s) (isProcessing s) (users s) (prefs s) (categories s) (attempts s) (slept s) (accepted s).
Definition set_sent f s := mkState (queue s) (f (sentTimestamps s)) (isProcessing s) (users s) (prefs s) (categories s) (attempts s) (slept s) (accepted s).
Definition set_processing b s := mkState (queue s) (sentTimestamps s) b (users s) (prefs s) (categories s) (attempts s) (slept s) (accepted s).
Definition set_attempts n s := mkState (queue s) (sentTimestamps s) (isProcessing s) (users s) (prefs s) (categories s) n (slept s) (accepted s).
Definition set_slept f s := mkState (queue s) (sentTimestamps s) (isProcessing s) (users s) (prefs s) (categories s) (attempts s) (f (slept s)) (accepted s).
Definition set_accepted f s := mkState (queue s) (sentTimestamps s) (isProcessing s) (users s) (prefs s) (categories s) (attempts s) (slept s) (f (accepted s)).

Definition mapTemplateToCategory (template : option EmailTemplateType) : option NotificationCategory :=
  match template with
  | Some event_created => Some EventCreated
  | Some event_cancelled => Some EventCancelled
  | Some match_result_available => Some MatchResolved
  | Some event_won => Some WinnerVerified
  | Some digest | None => None
  end.

Definition isEmailAllowed (address : string) (template : option EmailTemplateType) : M state bool :=
  await user := gets (fun s => find_one address (users s)) in
  match user with
  | None => ret true
  | Some uid =>
      await pref := gets (fun s => find_one uid (prefs s)) in
      match pref with
      | Some false => ret false
      | _ =>
          match mapTemplateToCategory template with
          | None => ret true
          | Some c =>
              await cat := gets (fun s => find_one (uid, c) (categories s)) in
              ret (match cat with Some false => false | _ => true end)
          end
      end
  end.

Definition opted_out : string := "User has opted out of email notifications".

Definition queueEmail (recipient sub h t : string) (address : option string) (now : Z) : M state (bool * option string) :=
  if bool_decide (trim recipient = ""%string) then ret (false, Some "Recipient email is required"%string)
  else
    await allowed := match address with
                     | None | Some EmptyString => ret true
                     | Some a => isEmailAllowed a None
                     end in
    if negb allowed then ret (false, Some opted_out)
    else do modify (set_queue (fun q => q ++ [mkEmail (trim recipient) sub h t address now])) ;> ret (true, None).

Definition sendTemplatedEmail (recipient : string) (template : EmailTemplateType) (c : EmailTemplateContext)
    (address : option string) (now : Z) : M state (bool * option string) :=
  await allowed := match address with
                   | None | Some EmptyString => ret true
                   | Some a => isEmailAllowed a (Some template)
                   end in
  if negb allowed then ret (false, Some opted_out)
  else
    let r := renderEmailTemplate template c in
    queueEmail recipient (subject r) (html r) (text r) address now.

Definition getQueueLength : M state Z := gets (fun s => Z.of_nat (length (queue s))).

(** [recent] replaces [sentTimestamps]. *)
Definition canSendMore (now : Z) : M state bool :=
  do modify (set_sent (List.filter (fun t => now - 60000 <=? t))) ;>
  gets (fun s => match rateLimit cfg with Some l => Z.of_nat (length (sentTimestamps s)) <? l | None => false end).

(** One request; without an API key the message is only logged. *)
Definition deliverEmail (e : QueuedEmail) (s : state) : option js_error * state :=
  if negb (hasApiKey cfg) then (None, s)
  else
    let s' := set_attempts (S (attempts s)) s in
    match provider (attempts s) e with
    | Answered status body =>
        if (200 <=? status) && (status <=? 299) then (None, s')
        else (Some (mkError true false "Error" None ("SendGrid error (" +:+ Z_to_string status +:+ "): " +:+ body)), s')
    | NetworkFailed err => (Some err, s')
    end.

(** The attempts left and the index of the next one; [true] when delivered. *)
Fixpoint deliver_loop (left : nat) (attempt : Z) (e : QueuedEmail) (s : state) : bool * state :=
  match left with
  | O => (false, s)
  | S left' =>
      match deliverEmail e s with
      | (None, s') => (true, s')
      | (Some err, s') =>
          if negb (isTransientError err) then (false, s')
          else match left' with
               | O => (false, s')
               | _ => deliver_loop left' (attempt + 1) e
                        (set_slept (fun l => l ++ [computeBackoffDelay (random (length (slept s'))) (retryBaseDelayMs cfg) attempt]) s')
               end
      end
  end.

Definition deliverEmailWithRetry (e : QueuedEmail) (s : state) : bool * state :=
  deliver_loop (Z.to_nat (default 0 (retryMaxAttempts cfg))) 0 e s.

(** A tick of the timer at [now]; the delivery it makes ends at [fin]. *)
Definition processQueue (now fin : Z) : M state unit :=
  await idle := gets (fun s => isProcessing s || bool_decide (length (queue s) = 0)%nat) in
  if (idle : bool) then ret tt
  else
    await can := canSendMore now in
    if negb can then ret tt
    else
      fun s =>
        match queue s with
        | [] => (Ret tt, s)
        | e :: q =>
            let '(ok, s') := deliverEmailWithRetry e (set_queue (fun _ => q) (set_processing true s)) in
            let s'' := if ok then set_accepted (fun l => l ++ [(e, fin)]) (set_sent (fun l => l ++ [fin]) s') else s' in
            (Ret tt, set_processing false s'')
        end.

(** *** Delivery *)

(** A delivery touches the attempt counter and the delays only, and asks the provider at
    most once per attempt. *)
Definition same_but_attempts (s s' : state) : Prop :=
  queue s' = queue s /\ sentTimestamps s' = sentTimestamps s /\ isProcessing s' = isProcessing s /\
  users s' = users s /\ prefs s' = prefs s /\ categories s' = categories s /\ accepted s' = accepted s.

Lemma deliverEmail_frame e s :
  same_but_attempts s (deliverEmail e s).2 /\ (attempts s <= attempts (deliverEmail e s).2 <= S (attempts s))%nat.
Proof.
  unfold deliverEmail. destruct (hasApiKey cfg); simpl; [|by split; [|lia]].
  destruct (provider (attempts s) e); [case_match|]; simpl; (split; [done|lia]).
Qed.

Lemma deliver_loop_frame left attempt e s :
  same_but_attempts s (deliver_loop left attempt e s).2 /\
  (attempts s <= attempts (deliver_loop left attempt e s).2 <= attempts s + left)%nat.
Proof.
  revert attempt s. induction left as [|left IH]; intros attempt s; cbn [deliver_loop]; [split; [done|simpl; lia]|].
  pose proof (deliverEmail_frame e s) as [Hf Ha]. destruct (deliverEmail e s) as [[err|] s1]; cbn [snd] in *; [|split; [done|lia]].
  destruct (isTransientError err); simpl; [|split; [done|simpl; lia]].
  destruct left as [|left]; [split; [done|simpl; lia]|].
  set (s2 := set_slept _ s1). specialize (IH (attempt + 1) s2).
  assert (H12 : same_but_attempts s s2 /\ attempts s2 = attempts s1) by (split; [exact Hf|done]).
  destruct H12 as [H12 Hat]. destruct IH as [(Q1 & Q2 & Q3 & Q4 & Q5 & Q6 & Q7) Hb].
  destruct H12 as (P1 & P2 & P3 & P4 & P5 & P6 & P7). split; [|lia].
  unfold same_but_attempts. split_and!; congruence.
Qed.

(** A tick asks the provider about one message, at most [retryMaxAttempts] times. *)
Theorem tick_attempts_bounded (now fin : Z) (s : state) :
  (attempts (processQueue now fin s).2 <= attempts s + Z.to_nat (default 0%Z (retryMaxAttempts cfg)))%nat.
Proof.
  unfold processQueue, canSendMore, bind, gets, modify. destruct (isProcessing s || _); [simpl; lia|]. cbn [fst snd].
  destruct (negb _); [simpl; lia|]. destruct (queue (set_sent _ s)) as [|e q]; [simpl; lia|].
  unfold deliverEmailWithRetry.
  pose proof (deliver_loop_frame (Z.to_nat (default 0 (retryMaxAttempts cfg))) 0 e
    (set_queue (fun _ => q) (set_processing true (set_sent (List.filter (fun t => now - 60000 <=? t)) s)))) as [_ Hb].
  destruct (deliver_loop _ 0 e _) as [[] s']; simpl in *; lia.
Qed.

(** *** The rate limit *)

(** Deliveries recorded within the minute that ends at [t]. *)
Definition in_minute (t : Z) (s : state) : Z :=
  Z.of_nat (length (List.filter (fun x => (t - 60000 <=? x) && (x <=? t)) ((accepted s).*2))).

(** Up to time [T]: the timestamps kept are those since some moment at least a minute
    ago, and no minute holds more than the limit. *)
Definition throttled (l T : Z) (s : state) : Prop :=
  Forall (fun x => x <= T) ((accepted s).*2) /\
  (exists c, c <= T - 60000 /\ sentTimestamps s = List.filter (fun x => c <=? x) ((accepted s).*2)) /\
  forall t, in_minute t s <= l.

Lemma filter_filter_le (c c' : Z) (xs : list Z) :
  c <= c' -> List.filter (fun x => c' <=? x) (List.filter (fun x => c <=? x) xs) = List.filter (fun x => c' <=? x) xs.
Proof.
  intros Hc. induction xs as [|x xs IH]; [done|]. simpl. destruct (Z.leb_spec c x), (Z.leb_spec c' x); simpl;
    rewrite ?(proj2 (Z.leb_le c' x)), ?(proj2 (Z.leb_gt c' x)) by lia; rewrite ?IH; done || lia.
Qed.

Lemma filter_length_le {A} (p q : A -> bool) (xs : list A) :
  (forall x, p x = true -> q x = true) -> (length (List.filter p xs) <= length (List.filter q xs))%nat.
Proof.
  intros Hpq. induction xs as [|x xs IH]; [done|]. simpl. destruct (p x) eqn:Hp; [rewrite (Hpq x Hp); simpl; lia|].
  destruct (q x); simpl; lia.
Qed.

Lemma throttled_push l now fin e s s' :
  Forall (fun x => x <= now) ((accepted s).*2) -> now <= fin ->
  Z.of_nat (length (List.filter (fun x => now - 60000 <=? x) ((accepted s).*2))) < l ->
  (forall t, in_minute t s <= l) -> accepted s' = accepted s ++ [(e, fin)] -> forall t, in_minute t s' <= l.
Proof.
  intros Hle Hnf Hlt Hin Ha t. unfold in_minute in *. rewrite Ha, fmap_app, List.filter_app, length_app. cbn.
  destruct (Z.leb_spec fin t); [|rewrite andb_false_r; simpl; specialize (Hin t); lia].
  assert (Hc : Z.of_nat (length (List.filter (fun x => (t - 60000 <=? x) && (x <=? t)) ((accepted s).*2))) <=
               Z.of_nat (length (List.filter (fun x => now - 60000 <=? x) ((accepted s).*2)))).
  { apply Nat2Z.inj_le, filter_length_le. intros x [Hx _]%andb_true_iff. apply Z.leb_le in Hx. apply Z.leb_le. lia. }
  case_match; simpl; lia.
Qed.

(** A tick at [now] that ends at [fin] keeps the limit. *)
Lemma throttled_tick l T now fin s :
  rateLimit cfg = Some l -> T <= now <= fin -> throttled l T s -> throttled l fin (processQueue now fin s).2.
Proof.
  intros Hl Ht (Hall & (c & Hc & Hs) & Hin).
  assert (Hall' : forall u, now <= u -> Forall (fun x => x <= u) ((accepted s).*2)).
  { intros u Hu. eapply Forall_impl; [exact Hall|]. simpl. lia. }
  unfold processQueue, canSendMore, bind, gets, modify.
  destruct (isProcessing s || _); [repeat split; [apply Hall'; lia|exists c; split; [lia|done]|done]|]. cbn [fst snd].
  set (s1 := set_sent _ s).
  assert (Hs1 : sentTimestamps s1 = List.filter (fun x => now - 60000 <=? x) ((accepted s).*2)).
  { unfold s1. simpl. rewrite Hs. apply filter_filter_le. lia. }
  assert (Hstop : throttled l fin s1).
  { repeat split; [apply Hall'; lia|exists (now - 60000); split; [lia|done]|done]. }
  rewrite Hl. destruct (Z.ltb_spec (Z.of_nat (length (sentTimestamps s1))) l) as [Hlt|]; [|done]. cbn [negb].
  destruct (queue s1) as [|e q]; [done|]. unfold deliverEmailWithRetry.
  pose proof (deliver_loop_frame (Z.to_nat (default 0 (retryMaxAttempts cfg))) 0 e
    (set_queue (fun _ => q) (set_processing true s1))) as [(_ & F2 & _ & _ & _ & _ & F7) _].
  destruct (deliver_loop _ 0 e _) as [ok s2]. cbn [snd] in F2, F7. cbn [snd].
  assert (F2' : sentTimestamps s2 = List.filter (fun x => now - 60000 <=? x) ((accepted s).*2)) by (rewrite <-Hs1; exact F2).
  assert (F7' : accepted s2 = accepted s) by exact F7. clear F2 F7. rename F2' into F2, F7' into F7.
  rewrite Hs1 in Hlt.
  destruct ok; (split; [|split]).
  - simpl. rewrite F7, fmap_app. apply Forall_app. split; [apply Hall'; lia|]. repeat constructor. simpl. lia.
  - exists (now - 60000). split; [lia|]. simpl. rewrite F2, F7, fmap_app, List.filter_app. cbn.
    rewrite (proj2 (Z.leb_le _ _)) by lia. done.
  - apply (throttled_push l now fin e s); try done; [apply Hall'; lia|lia|]. simpl. by rewrite F7.
  - simpl. rewrite F7. apply Hall'. lia.
  - exists (now - 60000). split; [lia|]. simpl. rewrite F2, F7. done.
  - intros t. specialize (Hin t). unfold in_minute in *. simpl. by rewrite F7.
Qed.

(** Ticks of the timer, one after the other, between messages being queued. *)
Inductive event := Tick (now fin : Z) | Queue (e : QueuedEmail).

Definition step (ev : event) (s : state) : state :=
  match ev with
  | Tick now fin => (processQueue now fin s).2
  | Queue e => set_queue (fun q => q ++ [e]) s
  end.

(** The clock does not run backwards. *)
Fixpoint in_time (T : Z) (evs : list event) : Prop :=
  match evs with
  | [] => True
  | Tick now fin :: r => T <= now <= fin /\ in_time fin r
  | Queue _ :: r => in_time T r
  end.

(** No minute sees more deliveries than the configured limit, however the queue fills
    and whatever the provider answers: over any sequence of timer ticks and queued
    messages, the deliveries recorded within any sixty seconds are at most the limit. *)
Theorem email_rate_limited (l T : Z) (evs : list event) (s : state) :
  rateLimit cfg = Some l -> 0 <= l -> accepted s = [] -> sentTimestamps s = [] -> in_time T evs ->
  forall t, in_minute t (foldl (fun s ev => step ev s) s evs) <= l.
Proof.
  intros Hl Hpos Ha Hs Hev.
  assert (H0 : throttled l T s).
  { split; [by rewrite Ha|]. split; [exists (T - 60000); split; [lia|by rewrite Ha, Hs]|].
    intros t. unfold in_minute. rewrite Ha. simpl. lia. }
  clear Ha Hs. revert T s H0 Hev. induction evs as [|[now fin|e] evs IH]; intros T s H0 Hev; [apply H0|..]; simpl in *.
  - destruct Hev as [Ht Hev]. apply (IH fin); [|done]. by apply (throttled_tick l T).
  - apply (IH T); [|done]. exact H0.
Qed.

(** *** Opting out *)

(** A user who switched e-mail off is not written to: neither a templated nor a plain
    message for that user's address is queued. *)
Theorem opted_out_not_queued (recipient : string) template c address uid (now : Z) (s : state) :
  address ≠ ""%string -> find_one address (users s) = Some uid -> find_one uid (prefs s) = Some false ->
  (exists why, sendTemplatedEmail recipient template c (Some address) now s = (Ret (false, Some why), s)) /\
  forall sub h t, exists why, queueEmail recipient sub h t (Some address) now s = (Ret (false, Some why), s).
Proof.
  intros Hne Hu Hp. assert (Hno : forall tp, isEmailAllowed address tp s = (Ret false, s)).
  { intros tp. unfold isEmailAllowed, bind, gets. by rewrite Hu, Hp. }
  destruct address as [|ch address]; [done|]. split.
  - unfold sendTemplatedEmail, bind. rewrite Hno. by eexists.
  - intros sub h t. unfold queueEmail. case_bool_decide; [by eexists|]. unfold bind. rewrite Hno. by eexists.
Qed.
End service.

(** *** Concrete runs *)

Definition letter (n : Z) : QueuedEmail := mkEmail "a@x" "s" "h" "t" None n.
Definition toy_config : Config := mkConfig (Some 2) (Some 3) 1000 true.
(** The provider is overloaded on the first attempt. *)
Definition toy_provider (n : nat) (e : QueuedEmail) : send_result :=
  if decide (n = 0%nat) then Answered 503 "busy" else Answered 202 "".
Definition empty : state (B := MemBackend) := mkState [] [] false [] [] [] 0 [] [].
Definition toy_events : list event :=
  [Queue (letter 1); Queue (letter 2); Queue (letter 3); Tick 0 1000; Tick 2000 2500; Tick 4000 4100; Tick 70000 70100].

Example toy_run :
  let s := foldl (fun s ev => step toy_config toy_provider (fun _ => num_of_Z 0) ev s) empty toy_events in
  (accepted s).*2 = [1000; 2500; 70100] /\ queue s = [] /\ attempts s = 4%nat.
Proof. vm_compute. done. Qed.

Lemma email_rate_limited_witness :
  in_minute 60000 (foldl (fun s ev => step toy_config toy_provider (fun _ => num_of_Z 0) ev s) empty toy_events) <= 2.
Proof.
  apply (email_rate_limited (B := MemBackend) toy_config toy_provider (fun _ => num_of_Z 0) 2 0 toy_events empty);
    [reflexivity|lia|reflexivity|reflexivity|]. simpl. lia.
Defined.

Definition silent : state (B := MemBackend) :=
  mkState [] [] false [("GALICE"%string, "u1"%string)] [("u1"%string, false)] [] 0 [] [].

Lemma opted_out_not_queued_witness :
  exists why, sendTemplatedEmail (B := MemBackend) "a@x" event_won empty_context (Some "GALICE"%string) 0 silent = (Ret (false, Some why), silent).
Proof.
  apply (opted_out_not_queued (B := MemBackend) "a@x" event_won empty_context "GALICE" "u1" 0 silent);
    [discriminate|reflexivity|reflexivity].
Defined.

(** A message that cannot be delivered is gone from the queue. *)
Theorem undelivered_email_lost :
  let s := (processQueue toy_config (fun _ _ => Answered 503 "busy") (fun _ => num_of_Z 0) 0 9000
              (set_queue (fun _ => [letter 1]) empty)).2 in
  queue s = [] /\ accepted s = [] /\ attempts s = 3%nat.
Proof. vm_compute. done. Qed.

End Email.
