(* ===== verification/Digest.v ===== *)
(** * Notification digests

    Models [backend/src/notifications/digest.service.ts]: the hourly check, the daily and
    weekly digests with their period keys, and the digest state that keeps a period from
    being sent twice.  The wall clock of a time zone ([Intl.DateTimeFormat]) is a
    parameter; messages go to the queue of [Email]. *)
From Stdlib Require Import ZArith Lia Ascii.
From stdpp Require Import base list strings sorting sets.
From S2P Require Import Prelude Storage JsValue JsDate Notifications Email.
Local Open Scope Z_scope.
#[local] Ltac Zify.zify_post_hook ::= Z.to_euclidean_division_equations.

Module Digest.

Inductive digest_frequency := off | daily | weekly.
#[export] Instance digest_frequency_eq_dec : EqDecision digest_frequency.
Proof. solve_decision. Defined.

(** The columns of [user_preferences] the service reads, by user. *)
Record UserPreferences := mkPrefs {
  email_notifications : bool;
  frequency : digest_frequency;
  digest_hour : Z;
  digest_timezone : string;
}.

Record User := mkUser { email : option string; stellar_address : string; deleted : bool }.

Record NotificationDigestState := mkDigestState { lastDailyPeriod : option string; lastWeeklyPeriod : option string }.

Record Config := mkConfig {
  DIGEST_ENABLED : bool;
  (** [parseInt] of the setting, [None] for [NaN]. *)
  DIGEST_WEEKLY_DAY : option Z;
}.

(** ** Local time *)

(** A wall-clock time as the time value with the same fields in UTC. *)
Definition getLocalHour (wall : Z) : Z := TimeWithinDay wall / 3600000.

(** [0] is Sunday; day [0] is a Thursday. *)
Definition weekday (day : Z) : Z := (day + 4) mod 7.
Definition getLocalWeekday (wall : Z) : Z := weekday (Day wall).

Definition getLocalDateParts (wall : Z) : Z * Z * Z := ymd (Day wall).

(** [String(n).padStart(2, '0')] of a month or a day is its two digits. *)
Definition getLocalDailyPeriodKey (wall : Z) : string :=
  let '(y, m, d) := getLocalDateParts wall in
  Z_to_string y +:+ "-" +:+ fixed 2 m +:+ "-" +:+ fixed 2 d.

(** [getUTCDay() || 7]. *)
Definition isoDay (day : Z) : Z := if weekday day =? 0 then 7 else weekday day.

(** The Thursday of the week, and its year and week. *)
Definition thursday (day : Z) : Z := day + 4 - isoDay day.
Definition iso_week_year (day : Z) : Z := YearFromDay (thursday day).
Definition iso_week (day : Z) : Z := (thursday day - DayFromYear (iso_week_year day) + 1 + 6) / 7.

Definition getLocalWeeklyPeriodKey (wall : Z) : string :=
  let day := Day wall in
  Z_to_string (iso_week_year day) +:+ "-W" +:+ fixed 2 (iso_week day).

Section service.
Context {B : Backend}.

Record state := mkState {
  prefs : table string UserPreferences;
  users : table string User;
  notifications : table nat Notifications.Notification;
  digestStates : table string NotificationDigestState;
  mail : Email.state;
}.

Definition set_digests f s := mkState (prefs s) (users s) (notifications s) (f (digestStates s)) (mail s).
Definition on_mail {A} (m : M Email.state A) : M state A :=
  zoom mail (fun e s => mkState (prefs s) (users s) (notifications s) (digestStates s) e) m.

(** [user?.email] of a user that is there and has one. *)
Definition email_of (uid : string) (s : state) : option (string * string) :=
  match find_one uid (users s) with
  | Some u =>
      if deleted u then None
      else match email u with None | Some EmptyString => None | Some e => Some (e, stellar_address u) end
  | None => None
  end.

Definition last_period (f : digest_frequency) (st : option NotificationDigestState) : option string :=
  match st with
  | None => None
  | Some d => match f with daily => lastDailyPeriod d | _ => lastWeeklyPeriod d end
  end.

(** The newest unread notifications of the window, at most twenty. *)
Definition unread (address : string) (windowStart : Z) (s : state) : list Notifications.Notification :=
  take 20 (order_by (fun n => - Notifications.created_at n)
    (List.filter (fun n => bool_decide (Notifications.user_address n = address) && negb (Notifications.read n) &&
       (windowStart <=? Notifications.created_at n) &&
       match Notifications.deleted_at n with None => true | Some _ => false end)
     ((rows (notifications s)).*2))).

Definition set_period (f : digest_frequency) (key : string) (st : option NotificationDigestState) : NotificationDigestState :=
  let d := default (mkDigestState None None) st in
  match f with
  | daily => mkDigestState (Some key) (lastWeeklyPeriod d)
  | _ => mkDigestState (lastDailyPeriod d) (Some key)
  end.

Definition rendered (f : digest_frequency) (key : string) (ns : list Notifications.Notification) : Email.Rendered :=
  Email.renderEmailTemplate Email.digest
    (Email.mkContext None None None None None (bool_decide (f = weekly))
       (map (fun n => Email.mkItem (Notifications.title n) (Notifications.message n)) ns) (Some key)).

Definition processUserDigest (uid : string) (f : digest_frequency) (key : string) (windowStart now : Z) : M state unit :=
  await user := gets (email_of uid) in
  match user with
  | None => ret tt
  | Some (to, address) =>
      await st := gets (fun s => find_one uid (digestStates s)) in
      if bool_decide (last_period f st = Some key) then ret tt
      else
        await ns := gets (unread address windowStart) in
        match ns with
        | [] => ret tt
        | _ =>
            let r := rendered f key ns in
            do on_mail (Email.queueEmail to (Email.subject r) (Email.html r) (Email.text r) None now) ;>
            modify (set_digests (save uid (set_period f key st)))
        end
  end.

(** The users of a run: this frequency, e-mail on, in this zone at this hour. *)
Definition candidates (f : digest_frequency) (timezone : string) (hour : Z) (s : state) : list string :=
  (List.filter (fun r => bool_decide (frequency r.2 = f) && email_notifications r.2 &&
     bool_decide (digest_timezone r.2 = timezone) && (digest_hour r.2 =? hour)) (rows (prefs s))).*1.

Definition runDigests (f : digest_frequency) (key : string) (windowStart : Z) (timezone : string) (hour now : Z) : M state unit :=
  await ps := gets (candidates f timezone hour) in
  for_each (fun uid => catch (processUserDigest uid f key windowStart now) (fun _ => ret tt)) ps.

Definition sendDailyDigests (now : Z) (timezone : string) (wall hour : Z) : M state unit :=
  runDigests daily (getLocalDailyPeriodKey wall) (now - 24 * 60 * 60 * 1000) timezone hour now.
Definition sendWeeklyDigests (now : Z) (timezone : string) (wall hour : Z) : M state unit :=
  runDigests weekly (getLocalWeeklyPeriodKey wall) (now - 7 * 24 * 60 * 60 * 1000) timezone hour now.

Definition getActiveTimezones : M state (list string) :=
  gets (fun s => remove_dups ((fun r => digest_timezone r.2) <$>
    List.filter (fun r => negb (bool_decide (frequency r.2 = off)) && email_notifications r.2) (rows (prefs s)))).

Section hourly.
(** The wall clock of a zone at an instant, [None] for an unknown zone. *)
Context (cfg : Config) (local : string -> Z -> option Z).

(** The body of the loop over the zones. *)
Definition check_zone (now : Z) (timezone : string) : M state unit :=
  match local timezone now with
  | None => ret tt
  | Some wall =>
      do sendDailyDigests now timezone wall (getLocalHour wall) ;>
      if bool_decide (Some (getLocalWeekday wall) = DIGEST_WEEKLY_DAY cfg)
      then sendWeeklyDigests now timezone wall (getLocalHour wall)
      else ret tt
  end.

Definition handleHourlyCheck (now : Z) : M state unit :=
  if negb (DIGEST_ENABLED cfg) then ret tt
  else
    await zones := getActiveTimezones in
    for_each (check_zone now) zones.
End hourly.

(** *** Who gets a digest *)

(** The recipient and the notifications of a digest that is due. *)
Definition due (f : digest_frequency) (key : string) (windowStart : Z) (s : state) (uid : string)
  : option (string * list Notifications.Notification) :=
  match email_of uid s with
  | None => None
  | Some (to, address) =>
      if bool_decide (last_period f (find_one uid (digestStates s)) = Some key) then None
      else match unread address windowStart s with [] => None | ns => Some (to, ns) end
  end.

(** The message of a digest; none for a blank address. *)
Definition letter (f : digest_frequency) (key : string) (now : Z) (d : string * list Notifications.Notification)
  : list Email.QueuedEmail :=
  let r := rendered f key d.2 in
  if bool_decide (trim d.1 = ""%string) then []
  else [Email.mkEmail (trim d.1) (Email.subject r) (Email.html r) (Email.text r) None now].

Definition letters f key ws now s (uids : list string) : list Email.QueuedEmail :=
  concat (map (fun uid => match due f key ws s uid with Some d => letter f key now d | None => [] end) uids).

(** What a run for one user leaves. *)
Definition sent f key (ms : list Email.QueuedEmail) (uid : string) (s : state) : state :=
  mkState (prefs s) (users s) (notifications s)
    (save uid (set_period f key (find_one uid (digestStates s))) (digestStates s))
    (Email.set_queue (fun q => q ++ ms) (mail s)).

Lemma set_queue_nil (m : Email.state) : Email.set_queue (fun q => q ++ []) m = m.
Proof. destruct m. unfold Email.set_queue. cbn. by rewrite app_nil_r. Qed.

Lemma processUserDigest_run uid f key ws now s :
  processUserDigest uid f key ws now s =
    (Ret tt, match due f key ws s uid with Some d => sent f key (letter f key now d) uid s | None => s end).
Proof.
  unfold processUserDigest, due, bind, gets. destruct (email_of uid s) as [[to address]|]; [|done].
  case_bool_decide as Hl; [done|]. destruct (unread address ws s) as [|n ns] eqn:Hu; [done|].
  unfold on_mail, zoom, Email.queueEmail, letter. cbn [fst snd].
  destruct (bool_decide (trim to = ""%string)) eqn:Hb; unfold bind, ret, modify, sent, set_digests; cbn [negb]; [|done].
  cbn [prefs users notifications digestStates mail fst snd]. by rewrite set_queue_nil.
Qed.

Lemma due_frame f key ws uid s s' :
  users s' = users s -> notifications s' = notifications s ->
  find_one uid (digestStates s') = find_one uid (digestStates s) -> due f key ws s' uid = due f key ws s uid.
Proof. intros Hu Hn Hd. unfold due, email_of, unread. by rewrite Hu, Hn, Hd. Qed.

Lemma run_users f key ws now uids s :
  NoDup uids ->
  exists s', for_each (fun uid => catch (processUserDigest uid f key ws now) (fun _ => ret tt)) uids s = (Ret tt, s') /\
    prefs s' = prefs s /\ users s' = users s /\ notifications s' = notifications s /\
    mail s' = Email.set_queue (fun q => q ++ letters f key ws now s uids) (mail s) /\
    forall k, find_one k (digestStates s') =
      if decide (k ∈ uids /\ is_Some (due f key ws s k))
      then Some (set_period f key (find_one k (digestStates s))) else find_one k (digestStates s).
Proof.
  intros Hnd. revert s. induction Hnd as [|uid uids Hni Hnd IH]; intros s.
  { exists s. split_and!; [done|done|done|done|by rewrite set_queue_nil|].
    intros k. destruct (decide _) as [[Hk _]|]; [by apply not_elem_of_nil in Hk|done]. }
  cbn [for_each]. unfold bind, catch. rewrite processUserDigest_run.
  set (s1 := match due f key ws s uid with Some d => sent f key (letter f key now d) uid s | None => s end).
  assert (H1 : prefs s1 = prefs s /\ users s1 = users s /\ notifications s1 = notifications s /\
    mail s1 = Email.set_queue (fun q => q ++ match due f key ws s uid with Some d => letter f key now d | None => [] end) (mail s) /\
    forall k, find_one k (digestStates s1) = if decide (k = uid /\ is_Some (due f key ws s uid))
      then Some (set_period f key (find_one k (digestStates s))) else find_one k (digestStates s)).
  { unfold s1. destruct (due f key ws s uid) as [d|]; split_and!; try done.
    - intros k. simpl. rewrite find_one_save. destruct (decide (uid = k)) as [->|Hne].
      + by rewrite decide_True by (split; [done|by eexists]).
      + by rewrite decide_False by naive_solver.
    - by rewrite set_queue_nil.
    - intros k. by rewrite decide_False by (intros [_ [? ?]]; done). }
  destruct H1 as (P1 & P2 & P3 & P4 & P5). destruct (IH s1) as (s' & Hrun & Q1 & Q2 & Q3 & Q4 & Q5).
  assert (Hdue : forall k, k ∈ uids -> due f key ws s1 k = due f key ws s k).
  { intros k Hk. apply due_frame; [done|done|]. rewrite P5, decide_False; [done|]. intros [-> _]. done. }
  exists s'. split; [exact Hrun|]. split_and!; try congruence.
  - rewrite Q4, P4. unfold letters, Email.set_queue. cbn [map concat]. destruct (mail s). cbn. f_equal.
    rewrite <-app_assoc. do 2 f_equal. f_equal. apply map_ext_in. intros k Hk. rewrite Hdue; [done|]. by apply list_elem_of_In.
  - intros k. rewrite Q5, P5. destruct (decide (k ∈ uids)) as [Hin|Hout].
    + rewrite (Hdue k Hin). assert (k ≠ uid) by (intros ->; done).
      rewrite (decide_False (P := (k = uid /\ _))) by naive_solver. apply decide_ext. rewrite elem_of_cons. naive_solver.
    + rewrite (decide_False (P := (k ∈ uids /\ _))) by naive_solver.
      destruct (decide (k = uid)) as [->|Hne].
      * apply decide_ext. rewrite elem_of_cons. naive_solver.
      * rewrite !decide_False; [done|rewrite elem_of_cons; naive_solver|naive_solver].
Qed.

Lemma candidates_NoDup f tz hour s : NoDup (candidates f tz hour s).
Proof. apply NoDup_fmap_filter, NoDup_rows. Qed.

Lemma last_set_period f key st : f ≠ off -> last_period f (Some (set_period f key st)) = Some key.
Proof. by destruct f. Qed.

Lemma elem_of_candidates f tz hour s uid :
  uid ∈ candidates f tz hour s <-> exists p, find_one uid (prefs s) = Some p /\ frequency p = f /\
    email_notifications p = true /\ digest_timezone p = tz /\ digest_hour p = hour.
Proof.
  unfold candidates. rewrite list_elem_of_fmap. split.
  - intros ([k p] & -> & Hin). apply elem_of_List_filter in Hin as [Hin Hp%andb_true_iff]. apply elem_of_rows in Hin.
    cbn [fst snd] in *. destruct Hp as [[[Hf%bool_decide_eq_true He]%andb_true_iff Ht%bool_decide_eq_true]%andb_true_iff Hh%Z.eqb_eq].
    by exists p.
  - intros (p & Hp & Hf & He & Ht & Hh). exists (uid, p). split; [done|]. apply elem_of_List_filter.
    split; [by apply elem_of_rows|]. cbn [snd]. by rewrite !bool_decide_eq_true_2, He, (proj2 (Z.eqb_eq _ _) Hh).
Qed.

(** A run of one frequency, zone and hour. *)
Lemma run_digests f key ws tz hour now s :
  exists s', runDigests f key ws tz hour now s = (Ret tt, s') /\
    prefs s' = prefs s /\ users s' = users s /\ notifications s' = notifications s /\
    mail s' = Email.set_queue (fun q => q ++ letters f key ws now s (candidates f tz hour s)) (mail s) /\
    forall k, find_one k (digestStates s') =
      if decide (k ∈ candidates f tz hour s /\ is_Some (due f key ws s k))
      then Some (set_period f key (find_one k (digestStates s))) else find_one k (digestStates s).
Proof. apply run_users, candidates_NoDup. Qed.

Lemma letters_frame f key ws now uids s s' :
  users s' = users s -> notifications s' = notifications s ->
  (forall k, k ∈ uids -> find_one k (digestStates s') = find_one k (digestStates s)) ->
  letters f key ws now s' uids = letters f key ws now s uids.
Proof.
  intros Hu Hn Hd. unfold letters. f_equal. apply map_ext_in. intros k Hk%list_elem_of_In.
  by rewrite (due_frame f key ws k s s') by auto.
Qed.
End service.

(** *** Period keys *)

Lemma thursday_eq day : thursday day = 7 * ((day + 3) / 7).
Proof.
  unfold thursday, isoDay, weekday. destruct (Z.eqb_spec ((day + 4) mod 7) 0); lia.
Qed.

Lemma iso_week_bounds day : 1 <= iso_week day <= 53.
Proof.
  unfold iso_week, iso_week_year. pose proof (YearFromDay_spec (thursday day)) as Hy.
  rewrite DayFromYear_next in Hy. set (y := YearFromDay (thursday day)) in *. destruct (leap y); lia.
Qed.

Lemma suffix_inj (a a' b b' : string) :
  String.length b = String.length b' -> a +:+ b = a' +:+ b' -> a = a' /\ b = b'.
Proof.
  intros Hl He. apply String_app_inj; [|done]. apply (f_equal String.length) in He.
  rewrite !String_length_app in He. lia.
Qed.

(** A weekly period key names the ISO week, Monday to Sunday, of the local date, also
    around the new year: two moments have the same key exactly when no Monday lies
    between their dates. *)
Theorem weekly_key_iff (w w' : Z) :
  getLocalWeeklyPeriodKey w = getLocalWeeklyPeriodKey w' <-> (Day w + 3) / 7 = (Day w' + 3) / 7.
Proof.
  unfold getLocalWeeklyPeriodKey. split.
  - intros He. apply suffix_inj in He as [Hy He]; [|by rewrite !String_length_app, !length_fixed].
    apply String_app_inj in He as [_ He]; [|done]. apply Z_to_string_inj in Hy.
    pose proof (iso_week_bounds (Day w)). pose proof (iso_week_bounds (Day w')).
    apply fixed_inj in He; [|simpl; lia|simpl; lia].
    unfold iso_week in He. rewrite Hy, !thursday_eq in He. lia.
  - intros Hw. assert (Ht : thursday (Day w) = thursday (Day w')) by (rewrite !thursday_eq; lia).
    unfold iso_week, iso_week_year. by rewrite Ht.
Qed.

(** A daily period key names the local date. *)
Theorem daily_key_iff (w w' : Z) : getLocalDailyPeriodKey w = getLocalDailyPeriodKey w' <-> Day w = Day w'.
Proof.
  unfold getLocalDailyPeriodKey, getLocalDateParts. split; [|by intros ->].
  pose proof (ymd_fields (Day w)) as H. pose proof (ymd_fields (Day w')) as H'.
  destruct (ymd (Day w)) as [[y m] d], (ymd (Day w')) as [[y' m'] d']. intros He.
  destruct H as (Hm & Hd & ->), H' as (Hm' & Hd' & ->).
  apply suffix_inj in He as [Hy He]; [|by rewrite !String_length_app, !length_fixed]. apply Z_to_string_inj in Hy as ->.
  apply String_app_inj in He as [_ He]; [|done].
  apply String_app_inj in He as [Hmm He]; [|by rewrite !length_fixed].
  apply String_app_inj in He as [_ He]; [|done].
  apply fixed_inj in Hmm as ->; [|simpl; lia|simpl; lia]. apply fixed_inj in He as ->; [done|simpl; lia|simpl; lia].
Qed.

Example period_keys :
  getLocalWeeklyPeriodKey 1735603200000 = "2025-W01"%string /\ getLocalDailyPeriodKey 1735603200000 = "2024-12-31"%string /\
  getLocalWeeklyPeriodKey 1609459200000 = "2020-W53"%string.
Proof. repeat split; vm_compute; reflexivity. Qed.

(** *** Histories of hourly checks *)

Section history.
Context {B : Backend} (cfg : Config) (local : string -> Z -> option Z).

Definition period_key (f : digest_frequency) (wall : Z) : string :=
  match f with daily => getLocalDailyPeriodKey wall | _ => getLocalWeeklyPeriodKey wall end.
Definition window (f : digest_frequency) (now : Z) : Z :=
  match f with daily => now - 24 * 60 * 60 * 1000 | _ => now - 7 * 24 * 60 * 60 * 1000 end.

(** The local date, or the number of the week, whose digest a check would send. *)
Definition slot (f : digest_frequency) (wall : Z) : Z := match f with daily => Day wall | _ => (Day wall + 3) / 7 end.

(** The days of the week a digest of this frequency is sent on. *)
Definition day_of (f : digest_frequency) (wall : Z) : bool :=
  match f with
  | daily => true
  | weekly => bool_decide (Some (getLocalWeekday wall) = DIGEST_WEEKLY_DAY cfg)
  | off => false
  end.

(** The frequency and the wall clock of the digest that a check at [now] owes a user: the
    user wants e-mail, it is the user's hour and the day of the frequency, there is
    something unread, and the last digest was of another period. *)
Definition owed (now : Z) (s : state) (uid : string) : option (digest_frequency * Z) :=
  match find_one uid (prefs s) with
  | None => None
  | Some p =>
      match local (digest_timezone p) now with
      | None => None
      | Some wall =>
          let f := frequency p in
          if email_notifications p && (digest_hour p =? getLocalHour wall) && day_of f wall &&
             bool_decide (is_Some (due f (period_key f wall) (window f now) s uid))
          then Some (f, wall) else None
      end
  end.

(** The digest state a check leaves a user with. *)
Definition told (now : Z) (s : state) (uid : string) : option NotificationDigestState :=
  match owed now s uid with
  | Some (f, wall) => Some (set_period f (period_key f wall) (find_one uid (digestStates s)))
  | None => find_one uid (digestStates s)
  end.

Definition zone_of (s : state) (uid : string) : option string := digest_timezone <$> find_one uid (prefs s).

(** The messages of a check for the users of a zone. *)
Definition zone_letters (now : Z) (s : state) (tz : string) : list Email.QueuedEmail :=
  match local tz now with
  | None => []
  | Some wall =>
      concat (map (fun f => if day_of f wall
                            then letters f (period_key f wall) (window f now) now s (candidates f tz (getLocalHour wall) s)
                            else []) [daily; weekly])
  end.

Lemma set_queue_app l l' (m : Email.state) :
  Email.set_queue (fun q => q ++ l') (Email.set_queue (fun q => q ++ l) m) = Email.set_queue (fun q => q ++ (l ++ l')) m.
Proof. destruct m. unfold Email.set_queue. cbn. by rewrite app_assoc. Qed.

(** What a run of one frequency does to the digest state of a user. *)
Lemma run_told f wall now tz s k :
  f ≠ off -> local tz now = Some wall -> day_of f wall = true ->
  (if decide (k ∈ candidates f tz (getLocalHour wall) s /\ is_Some (due f (period_key f wall) (window f now) s k))
   then Some (set_period f (period_key f wall) (find_one k (digestStates s))) else find_one k (digestStates s)) =
  if decide (zone_of s k = Some tz /\ frequency <$> find_one k (prefs s) = Some f)
  then told now s k else find_one k (digestStates s).
Proof.
  intros Hf Hw Hd. unfold told, owed, zone_of. destruct (decide (_ /\ is_Some _)) as [[Hc Hdue]|Hno].
  - apply elem_of_candidates in Hc as (p & Hp & <- & He & <- & Hh). rewrite Hp. cbn.
    rewrite decide_True by done. by rewrite Hw, He, Hh, Z.eqb_refl, Hd, bool_decide_eq_true_2.
  - destruct (find_one k (prefs s)) as [p|] eqn:Hp; [|by destruct (decide _)]. cbn.
    destruct (decide _) as [[Ht Hfr]|]; [|done]. injection Ht as Ht. injection Hfr as Hfr. rewrite Ht, Hw, Hfr.
    destruct (email_notifications p) eqn:He; [|done]. destruct (Z.eqb_spec (digest_hour p) (getLocalHour wall)) as [Hh|]; [|done].
    rewrite Hd. cbn [andb]. case_bool_decide as Hdue; [|done]. destruct Hno. split; [|done].
    apply elem_of_candidates. by exists p.
Qed.

Lemma told_frame now k s s' :
  prefs s' = prefs s -> users s' = users s -> notifications s' = notifications s ->
  find_one k (digestStates s') = find_one k (digestStates s) -> told now s' k = told now s k.
Proof.
  intros Hp Hu Hn Hd. unfold told, owed. rewrite Hp, Hd. destruct (find_one k (prefs s)) as [p|]; [|done].
  destruct (local _ now) as [w|]; [|done]. by rewrite (due_frame _ _ _ k s s').
Qed.

(** Users who are not up in a zone at this time are told nothing. *)
Lemma told_other now tz wall s k f :
  zone_of s k = Some tz -> local tz now = Some wall -> frequency <$> find_one k (prefs s) = Some f ->
  day_of f wall = false -> told now s k = find_one k (digestStates s).
Proof.
  unfold zone_of, told, owed. destruct (find_one k (prefs s)) as [p|]; [|done]. cbn. intros [= ->] -> [= ->] ->.
  by rewrite andb_false_r.
Qed.

Lemma zone_run now tz s :
  exists s', check_zone cfg local now tz s = (Ret tt, s') /\
    prefs s' = prefs s /\ users s' = users s /\ notifications s' = notifications s /\
    mail s' = Email.set_queue (fun q => q ++ zone_letters now s tz) (mail s) /\
    forall k, find_one k (digestStates s') =
      if decide (zone_of s k = Some tz) then told now s k else find_one k (digestStates s).
Proof.
  unfold check_zone, zone_letters. destruct (local tz now) as [wall|] eqn:Hw.
  2: { exists s. split_and!; [done|done|done|done|by rewrite set_queue_nil|]. intros k. destruct (decide _) as [Hz|]; [|done].
       unfold zone_of in Hz. unfold told, owed. destruct (find_one k (prefs s)) as [p|]; [|done]. injection Hz as ->. by rewrite Hw. }
  unfold sendDailyDigests, sendWeeklyDigests, bind.
  destruct (run_digests daily (period_key daily wall) (window daily now) tz (getLocalHour wall) now s)
    as (s1 & R1 & P1 & U1 & N1 & M1 & D1).
  cbn [period_key window] in R1. rewrite R1.
  assert (D1' : forall k, find_one k (digestStates s1) = if decide (zone_of s k = Some tz /\ frequency <$> find_one k (prefs s) = Some daily)
                  then told now s k else find_one k (digestStates s)).
  { intros k. rewrite D1. by apply run_told. }
  cbn [map concat]. rewrite app_nil_r. cbn [day_of]. destruct (bool_decide _) eqn:Hday; cycle 1.
  { exists s1. split_and!; [done..|by rewrite app_nil_r|]. intros k. rewrite D1'.
    destruct (decide (zone_of s k = Some tz)) as [Hz|]; [|by rewrite decide_False by naive_solver].
    pose proof Hz as Hz'. unfold zone_of in Hz'. destruct (find_one k (prefs s)) as [p|] eqn:Hp; [|done].
    destruct (frequency p) eqn:Hf; [rewrite decide_False by (cbn; rewrite Hf; naive_solver)|
      by rewrite decide_True by (cbn; rewrite Hf; done)|rewrite decide_False by (cbn; rewrite Hf; naive_solver)];
      symmetry; (eapply told_other; [exact Hz|exact Hw|by rewrite Hp; cbn; rewrite Hf|done]). }
  destruct (run_digests weekly (period_key weekly wall) (window weekly now) tz (getLocalHour wall) now s1)
    as (s2 & R2 & P2 & U2 & N2 & M2 & D2).
  cbn [period_key window] in R2. rewrite R2. exists s2. split_and!; [done|congruence..| |].
  - rewrite M2, M1, set_queue_app. unfold candidates. rewrite P1. fold (candidates weekly tz (getLocalHour wall) s).
    rewrite (letters_frame _ _ _ _ _ s s1); [done|done|done|]. intros k (p & Hp & Hf & _)%elem_of_candidates.
    by rewrite D1', decide_False by (rewrite Hp; cbn; rewrite Hf; naive_solver).
  - intros k. rewrite D2, (run_told weekly wall now tz s1 k) by done. unfold zone_of. rewrite P1, D1'. fold (zone_of s k).
    destruct (decide (zone_of s k = Some tz)) as [Hz|]; [|by rewrite !decide_False by naive_solver].
    pose proof Hz as Hz'. unfold zone_of in Hz'. destruct (find_one k (prefs s)) as [p|] eqn:Hp; [|done]. cbn.
    destruct (frequency p) eqn:Hf.
    + rewrite !decide_False by naive_solver. symmetry. eapply told_other; [exact Hz|exact Hw|by rewrite Hp; cbn; rewrite Hf|done].
    + by rewrite decide_False, decide_True by naive_solver.
    + rewrite decide_True by done. apply told_frame; [done..|]. by rewrite D1', Hp, decide_False by (cbn; rewrite Hf; naive_solver).
Qed.

Definition in_zones (zs : list string) (s : state) (uid : string) : bool :=
  match zone_of s uid with Some tz => bool_decide (tz ∈ zs) | None => false end.

Lemma zone_letters_frame now tz s s' :
  prefs s' = prefs s -> users s' = users s -> notifications s' = notifications s ->
  (forall k, zone_of s k = Some tz -> find_one k (digestStates s') = find_one k (digestStates s)) ->
  zone_letters now s' tz = zone_letters now s tz.
Proof.
  intros Hp Hu Hn Hd. unfold zone_letters. destruct (local tz now) as [wall|]; [|done]. f_equal. apply map_ext. intros f.
  destruct (day_of f wall); [|done]. unfold candidates. rewrite Hp. fold (candidates f tz (getLocalHour wall) s).
  apply letters_frame; [done|done|]. intros k (p & Hpk & _ & _ & Ht & _)%elem_of_candidates. apply Hd.
  unfold zone_of. by rewrite Hpk, <-Ht.
Qed.

Lemma zones_run now zs s :
  NoDup zs ->
  exists s', for_each (check_zone cfg local now) zs s = (Ret tt, s') /\
    prefs s' = prefs s /\ users s' = users s /\ notifications s' = notifications s /\
    mail s' = Email.set_queue (fun q => q ++ concat (map (zone_letters now s) zs)) (mail s) /\
    forall k, find_one k (digestStates s') = if in_zones zs s k then told now s k else find_one k (digestStates s).
Proof.
  intros Hnd. revert s. induction Hnd as [|tz zs Hni _ IH]; intros s.
  { exists s. split_and!; [done..|by rewrite set_queue_nil|]. intros k. unfold in_zones. by destruct (zone_of s k). }
  cbn [for_each]. unfold bind. destruct (zone_run now tz s) as (s1 & R1 & P1 & U1 & N1 & M1 & D1). rewrite R1.
  destruct (IH s1) as (s' & R & P & U & N & M & D). exists s'. split_and!; [done|congruence..| |].
  - rewrite M, M1, set_queue_app. cbn [map concat]. do 2 f_equal. 
    assert (Hz : map (zone_letters now s1) zs = map (zone_letters now s) zs); [|by rewrite Hz].
    apply map_ext_in. intros tz' Hin%list_elem_of_In. apply zone_letters_frame; [done..|]. intros k Hk.
    rewrite D1, decide_False; [done|]. rewrite Hk. by intros [= ->].
  - intros k. rewrite D, D1. unfold in_zones, zone_of at 1. rewrite P1. fold (zone_of s k).
    destruct (zone_of s k) as [tz'|] eqn:Hk; [|done]. destruct (decide (Some tz' = Some tz)) as [[= ->]|Hne].
    + by rewrite (bool_decide_eq_false_2 (tz ∈ zs)), bool_decide_eq_true_2 by (try done; left).
    + destruct (bool_decide (tz' ∈ zs)) eqn:Hin.
      * apply bool_decide_eq_true in Hin. rewrite bool_decide_eq_true_2 by by right. apply told_frame; [done..|].
        by rewrite D1, Hk, decide_False.
      * apply bool_decide_eq_false in Hin. rewrite bool_decide_eq_false_2; [done|]. rewrite elem_of_cons. naive_solver.
Qed.

(** The messages of a check. *)
Definition check_letters (now : Z) (s : state) : list Email.QueuedEmail :=
  if DIGEST_ENABLED cfg
  then concat (map (zone_letters now s) (remove_dups ((fun r => digest_timezone r.2) <$>
         List.filter (fun r => negb (bool_decide (frequency r.2 = off)) && email_notifications r.2) (rows (prefs s)))))
  else [].

Lemma check_run now s :
  exists s', handleHourlyCheck cfg local now s = (Ret tt, s') /\
    mail s' = Email.set_queue (fun q => q ++ check_letters now s) (mail s) /\ prefs s' = prefs s /\
    forall k, find_one k (digestStates s') = if DIGEST_ENABLED cfg then told now s k else find_one k (digestStates s).
Proof.
  unfold handleHourlyCheck, check_letters. destruct (DIGEST_ENABLED cfg); cbn [negb].
  2: { exists s. by rewrite set_queue_nil. }
  unfold bind, getActiveTimezones, gets. set (zs := remove_dups _).
  destruct (zones_run now zs s) as (s' & R & P & _ & _ & M & D); [apply NoDup_remove_dups|].
  exists s'. split_and!; [done..|]. intros k. rewrite D. destruct (in_zones zs s k) eqn:Hz; [done|].
  unfold in_zones, zone_of in Hz. unfold told, owed. destruct (find_one k (prefs s)) as [p|] eqn:Hp; [|done].
  cbn in Hz. apply bool_decide_eq_false in Hz. destruct (local _ now) as [wall|]; [|done].
  destruct (email_notifications p) eqn:He; [|done]. destruct (frequency p) eqn:Hf; [by rewrite andb_false_r| |].
  all: destruct Hz; unfold zs; apply elem_of_remove_dups, list_elem_of_fmap; exists (k, p); split; [done|];
    apply elem_of_List_filter; split; [by apply elem_of_rows|]; cbn [snd]; by rewrite Hf, He.
Qed.

(** The message a check owes a user. *)
Definition owed_message (now : Z) (s : state) (uid : string) : list Email.QueuedEmail :=
  match (if DIGEST_ENABLED cfg then owed now s uid else None) with
  | Some (f, wall) =>
      match due f (period_key f wall) (window f now) s uid with
      | Some d => letter f (period_key f wall) now d
      | None => []
      end
  | None => []
  end.

Lemma letters_rows f wall tz now s :
  DIGEST_ENABLED cfg = true -> local tz now = Some wall ->
  (if day_of f wall then letters f (period_key f wall) (window f now) now s (candidates f tz (getLocalHour wall) s) else []) =
  concat (map (fun r => if bool_decide (frequency r.2 = f /\ digest_timezone r.2 = tz) then owed_message now s r.1 else [])
            (rows (prefs s))).
Proof.
  intros Hen Hw. unfold letters, candidates, owed_message, owed. rewrite Hen.
  assert (Hr : forall k p, (k, p) ∈ rows (prefs s) -> find_one k (prefs s) = Some p) by (intros k p; apply elem_of_rows).
  induction (rows (prefs s)) as [|[k p] rs IH]; [by destruct (day_of f wall)|].
  cbn [List.filter map concat]. rewrite <-IH by (intros; apply Hr; by right). cbn [fst snd].
  rewrite (Hr k p) by left. destruct (decide (frequency p = f /\ digest_timezone p = tz)) as [Hc|Hc].
  - rewrite (bool_decide_eq_true_2 _ Hc). destruct Hc as [<- <-]. rewrite Hw, !bool_decide_eq_true_2 by done.
    destruct (email_notifications p), (digest_hour p =? getLocalHour wall), (day_of (frequency p) wall) eqn:Hd; cbn [andb]; try done.
    cbn [fmap list_fmap fst map concat].
    destruct (due _ _ _ s k) as [d|] eqn:Hdue; [|done]. rewrite (bool_decide_eq_true_2 (is_Some _)) by (by eexists).
    by rewrite Hdue.
  - rewrite (bool_decide_eq_false_2 _ Hc). cbn [app]. destruct (day_of f wall); [|done].
    destruct (bool_decide (frequency p = f)) eqn:Hf, (bool_decide (digest_timezone p = tz)) eqn:Ht; cbn [andb]; try (by rewrite andb_false_r);
      try done.
    destruct Hc. by apply bool_decide_eq_true in Hf, Ht.
Qed.

Lemma Permutation_eq_of {C} (l l' : list C) : l = l' -> l ≡ₚ l'.
Proof. by intros ->. Qed.

Lemma concat_map_app {A C} (g h : A -> list C) l :
  concat (map g l) ++ concat (map h l) ≡ₚ concat (map (fun x => g x ++ h x) l).
Proof. induction l as [|x l IH]; [done|]. cbn [map concat]. rewrite <-IH. solve_Permutation. Qed.

Lemma concat_map_nil {A C} (l : list A) : concat (map (fun _ => @nil C) l) = [].
Proof. by induction l. Qed.

Lemma concat_map_swap {A B' C} (g : A -> B' -> list C) l l' :
  concat (map (fun x => concat (map (g x) l')) l) ≡ₚ concat (map (fun y => concat (map (fun x => g x y) l)) l').
Proof.
  induction l as [|x l IH]; cbn [map concat]; [by rewrite concat_map_nil|]. by rewrite IH, concat_map_app.
Qed.

Lemma concat_map_pick {A C} `{EqDecision A} (x : A) (r : list C) l :
  NoDup l -> concat (map (fun y => if bool_decide (x = y) then r else []) l) = if bool_decide (x ∈ l) then r else [].
Proof.
  induction 1 as [|y l Hni _ IH]; [done|]. cbn [map concat]. rewrite IH. destruct (decide (x = y)) as [<-|Hx].
  - rewrite (bool_decide_eq_true_2 (x = x)) by done. rewrite (bool_decide_eq_false_2 (x ∈ l)), app_nil_r by done. rewrite bool_decide_eq_true_2; [done|left].
  - rewrite (bool_decide_eq_false_2 (x = y)) by done. cbn [app].
    rewrite (bool_decide_ext (x ∈ y :: l) (x ∈ l)); [done|]. rewrite elem_of_cons. naive_solver.
Qed.

Lemma zone_letters_owed now s tz :
  DIGEST_ENABLED cfg = true ->
  zone_letters now s tz ≡ₚ
    concat (map (fun r => if bool_decide (digest_timezone r.2 = tz) then owed_message now s r.1 else []) (rows (prefs s))).
Proof.
  intros Hen. assert (Hrow : forall r, r ∈ rows (prefs s) -> find_one r.1 (prefs s) = Some r.2).
  { intros [k p]. apply elem_of_rows. }
  unfold zone_letters. destruct (local tz now) as [wall|] eqn:Hw.
  - cbn [map concat]. rewrite app_nil_r, !letters_rows by done. rewrite concat_map_app. apply Permutation_eq_of. f_equal.
    apply map_ext_in. intros r Hin%list_elem_of_In%Hrow. destruct (decide (digest_timezone r.2 = tz)) as [Ht|Ht].
    + rewrite (bool_decide_eq_true_2 (_ = tz)) by done. unfold owed_message, owed. rewrite Hen, Hin, Ht, Hw.
      destruct (frequency r.2) eqn:Hf.
      * by rewrite (bool_decide_eq_false_2 (off = daily /\ _)), (bool_decide_eq_false_2 (off = weekly /\ _)), andb_false_r by naive_solver.
      * rewrite (bool_decide_eq_true_2 (daily = daily /\ _)), (bool_decide_eq_false_2 (daily = weekly /\ _)) by naive_solver. apply app_nil_r.
      * by rewrite (bool_decide_eq_false_2 (weekly = daily /\ _)), (bool_decide_eq_true_2 (weekly = weekly /\ _)) by naive_solver.
    + by rewrite !bool_decide_eq_false_2 by naive_solver.
  - apply Permutation_eq_of. erewrite map_ext_in; [by rewrite concat_map_nil|]. intros r Hin%list_elem_of_In%Hrow.
    destruct (decide (digest_timezone r.2 = tz)) as [Ht|Ht]; [|by rewrite (bool_decide_eq_false_2 (_ = tz))].
    rewrite (bool_decide_eq_true_2 (_ = tz)) by done. unfold owed_message, owed. by rewrite Hen, Hin, Ht, Hw.
Qed.

(** A check queues the message owed to each user, and no other. *)
Lemma check_letters_owed now s : check_letters now s ≡ₚ concat (map (owed_message now s) (rows (prefs s)).*1).
Proof.
  unfold check_letters. destruct (DIGEST_ENABLED cfg) eqn:Hen.
  2: { unfold owed_message. rewrite Hen. by rewrite concat_map_nil. }
  set (zs := remove_dups _).
  trans (concat (map (fun tz => concat (map (fun r => if bool_decide (digest_timezone r.2 = tz)
           then owed_message now s r.1 else []) (rows (prefs s)))) zs)).
  - induction zs as [|tz zs IH]; [done|]. cbn [map concat]. rewrite IH. apply Permutation_app_tail. clear IH zs.
    by apply zone_letters_owed.
  - rewrite concat_map_swap. apply Permutation_eq_of. unfold fmap. rewrite map_map. f_equal. apply map_ext_in.
    intros [k p] Hin%list_elem_of_In. cbn [fst snd]. rewrite concat_map_pick by apply NoDup_remove_dups.
    destruct (decide (digest_timezone p ∈ zs)) as [Hz|Hz]; [by rewrite (bool_decide_eq_true_2 _ Hz)|].
    rewrite (bool_decide_eq_false_2 _ Hz). symmetry. unfold owed_message, owed. rewrite Hen.
    rewrite (proj1 (elem_of_rows _ _ _) Hin). destruct (local _ now) as [wall|]; [|done].
    destruct (email_notifications p) eqn:He; [|done]. destruct (frequency p) eqn:Hf; [by rewrite andb_false_r| |].
    all: destruct Hz; unfold zs; apply elem_of_remove_dups, list_elem_of_fmap; exists (k, p); split; [done|];
      apply elem_of_List_filter; split; [done|]; cbn [snd]; by rewrite Hf, He.
Qed.

(** What happens between and at the checks: anything may change the preferences, the
    users, the notifications and the mail; the digest states are written by the checks
    alone (the deletion of an account apart, which ends its e-mail). *)
Inductive op :=
| Check (now : Z)
| Edit (p : table string UserPreferences) (u : table string User) (n : table nat Notifications.Notification) (m : Email.state).

Definition run_op (o : op) (s : state) : state :=
  match o with
  | Check now => (handleHourlyCheck cfg local now s).2
  | Edit p u n m => mkState p u n (digestStates s) m
  end.

(** The times of the checks. *)
Definition times (ops : list op) : list Z := omap (fun o => match o with Check now => Some now | _ => None end) ops.

(** The wall clocks of the digests of a frequency that a history sends a user. *)
Definition sent_now (f : digest_frequency) (uid : string) (o : op) (s : state) : list Z :=
  match o with
  | Check now =>
      match (if DIGEST_ENABLED cfg then owed now s uid else None) with
      | Some (f', wall) => if bool_decide (f' = f) then [wall] else []
      | None => []
      end
  | Edit _ _ _ _ => []
  end.

Fixpoint sent_walls (f : digest_frequency) (uid : string) (ops : list op) (s : state) : list Z :=
  match ops with
  | [] => []
  | o :: ops' => sent_now f uid o s ++ sent_walls f uid ops' (run_op o s)
  end.

(** The preferences of a user name this zone, if there are any. *)
Definition zone_stays (uid tz : string) (p : table string UserPreferences) : Prop :=
  forall r, find_one uid p = Some r -> digest_timezone r = tz.

Definition keeps_zone (uid tz : string) (o : op) : Prop :=
  match o with Check _ => True | Edit p _ _ _ => zone_stays uid tz p end.

(** The date on the calendar of the zone does not go back. *)
Definition date_monotone (tz : string) : Prop :=
  forall t t' w w', t <= t' -> local tz t = Some w -> local tz t' = Some w' -> Day w <= Day w'.

Lemma slot_key f w w' : period_key f w = period_key f w' <-> slot f w = slot f w'.
Proof. destruct f; [apply weekly_key_iff|apply daily_key_iff|apply weekly_key_iff]. Qed.

Lemma slot_mono f w w' : Day w <= Day w' -> slot f w <= slot f w'.
Proof. intros H. destruct f; cbn [slot]; [|done|]; apply Z.div_le_mono; lia. Qed.

Lemma last_set_other f f' key st :
  f ≠ off -> f' ≠ off -> f' ≠ f -> last_period f (Some (set_period f' key st)) = last_period f st.
Proof. by destruct f, f', st. Qed.

Lemma owed_spec now s uid f wall :
  owed now s uid = Some (f, wall) ->
  f ≠ off /\ last_period f (find_one uid (digestStates s)) ≠ Some (period_key f wall) /\
  exists p, find_one uid (prefs s) = Some p /\ local (digest_timezone p) now = Some wall.
Proof.
  unfold owed. destruct (find_one uid (prefs s)) as [p|]; [|done]. destruct (local _ now) as [w|] eqn:Hw; [|done].
  destruct (_ && _) eqn:Hc; [|done]. intros [= <- ->]. apply andb_true_iff in Hc as [[_ Hd]%andb_true_iff Hdue].
  split; [by intros Hf; rewrite Hf in Hd|]. split; [|by exists p]. apply bool_decide_eq_true in Hdue.
  intros Hl. unfold due in Hdue. destruct (email_of uid s) as [[to a]|]; [|by destruct Hdue].
  rewrite bool_decide_eq_true_2 in Hdue by done. by destruct Hdue.
Qed.

(** A step sends no digest of the frequency and keeps its last period, or is a check that
    sends one of a new period and records it. *)
Lemma sent_now_spec f uid tz o s :
  f ≠ off -> zone_stays uid tz (prefs s) -> keeps_zone uid tz o ->
  zone_stays uid tz (prefs (run_op o s)) /\
  let before := last_period f (find_one uid (digestStates s)) in
  let after := last_period f (find_one uid (digestStates (run_op o s))) in
  (sent_now f uid o s = [] /\ after = before \/
   exists now wall, o = Check now /\ sent_now f uid o s = [wall] /\ local tz now = Some wall /\
     before ≠ Some (period_key f wall) /\ after = Some (period_key f wall)).
Proof.
  intros Hf Hz Ho. destruct o as [now|p u n m]; cbn [run_op sent_now]; [|by split; [|left]].
  destruct (check_run now s) as (s' & -> & _ & Hp & Hd). cbn [snd]. rewrite Hp, Hd. split; [done|].
  cbv zeta. destruct (DIGEST_ENABLED cfg); [|by left]. unfold told.
  destruct (owed now s uid) as [[f' wall]|] eqn:Ho'; [|by left]. apply owed_spec in Ho' as (Hf' & Hl & p & Hpk & Hw).
  rewrite (Hz p Hpk) in Hw. case_bool_decide as Hff.
  - subst f'. right. exists now, wall. by rewrite last_set_period.
  - left. by rewrite last_set_other.
Qed.

(** Once a period was sent, only later ones are, as long as no check is in an earlier one. *)
Lemma later_slots f uid tz ops s w0 :
  f ≠ off -> zone_stays uid tz (prefs s) -> Forall (keeps_zone uid tz) ops -> date_monotone tz -> StronglySorted Z.le (times ops) ->
  (forall t w, t ∈ times ops -> local tz t = Some w -> slot f w0 <= slot f w) ->
  last_period f (find_one uid (digestStates s)) = Some (period_key f w0) ->
  Forall (fun w => slot f w0 < slot f w) (sent_walls f uid ops s).
Proof.
  intros Hf Hz Hops Hmono. revert s w0 Hz. induction Hops as [|o ops Ho _ IH]; intros s w0 Hz Hs Hge Hl; [constructor|].
  cbn [sent_walls]. destruct (sent_now_spec f uid tz o s Hf Hz Ho) as [Hz' [[-> Ha]|(now & wall & -> & -> & Hw & Hb & Ha)]].
  - apply IH; [done| | |congruence].
    + destruct o; [apply StronglySorted_inv in Hs as [Hs _]|]; exact Hs.
    + intros t w Ht. apply Hge. destruct o; [by right|done].
  - cbn [times omap list_omap] in Hs, Hge. apply StronglySorted_inv in Hs as [Hs Hfirst].
    assert (Hlt : slot f w0 < slot f wall).
    { pose proof (Hge now wall ltac:(left) Hw). assert (slot f wall ≠ slot f w0); [|lia].
      intros He%slot_key. by rewrite He in Hb. }
    constructor; [done|]. eapply Forall_impl; [apply (IH (run_op (Check now) s) wall Hz' Hs)|cbn; lia]; [|exact Ha].
    intros t w Ht Hw'. apply slot_mono, (Hmono now t); [|done|done]. rewrite Forall_forall in Hfirst. by apply Hfirst.
Qed.

Lemma slots_increase f uid tz ops s :
  f ≠ off -> zone_stays uid tz (prefs s) -> Forall (keeps_zone uid tz) ops -> date_monotone tz -> StronglySorted Z.le (times ops) ->
  StronglySorted Z.lt (slot f <$> sent_walls f uid ops s).
Proof.
  intros Hf Hz Hops Hmono. revert s Hz. induction Hops as [|o ops Ho Hops IH]; intros s Hz Hs; [constructor|].
  cbn [sent_walls]. destruct (sent_now_spec f uid tz o s Hf Hz Ho) as [Hz' [[-> Ha]|(now & wall & -> & -> & Hw & Hb & Ha)]].
  - apply IH; [done|]. destruct o; [apply StronglySorted_inv in Hs as [Hs _]|]; exact Hs.
  - cbn [times omap list_omap] in Hs. apply StronglySorted_inv in Hs as [Hs Hfirst].
    constructor; [by apply IH|]. apply Forall_fmap. apply (later_slots f uid tz); try done.
    intros t w Ht Hw'. apply slot_mono, (Hmono now t); [|done|done]. rewrite Forall_forall in Hfirst. by apply Hfirst.
Qed.

Lemma keys_NoDup f ws : NoDup (slot f <$> ws) -> NoDup (period_key f <$> ws).
Proof.
  induction ws as [|w ws IH]; [constructor|]. cbn [fmap list_fmap]. intros [Hni Hnd]%NoDup_cons. apply NoDup_cons. split; [|by apply IH].
  intros (w' & He & Hin)%list_elem_of_fmap. apply Hni, list_elem_of_fmap. exists w'. by rewrite slot_key in He.
Qed.

Lemma increasing_NoDup (l : list Z) : StronglySorted Z.lt l -> NoDup l.
Proof.
  induction 1 as [|x l _ IH Hx]; [constructor|]. apply NoDup_cons. split; [|done]. intros Hin.
  rewrite Forall_forall in Hx. specialize (Hx x Hin). lia.
Qed.

(** C34: Every hourly check succeeds and queues exactly the messages it owes: one to each
    user who wants e-mail, whose hour it is in the user's zone, on the day of the user's
    frequency, who has unread notifications in the window and whose last digest was of
    another period ([owed_message]).  Over any history of checks at times that do not go
    back, with any changes of preferences, users, notifications and mail in between, a
    user whose zone stays the same, in which the date does not go back, is sent at most
    one digest of each frequency for a period, however often the check runs in it (an
    hour that the clock repeats, a restart). *)
Theorem digest_once (f : digest_frequency) (uid tz : string) (ops : list op) (s : state) :
  f ≠ off -> date_monotone tz -> StronglySorted Z.le (times ops) ->
  zone_stays uid tz (prefs s) -> Forall (keeps_zone uid tz) ops ->
  (forall now s0, exists s1 ms, handleHourlyCheck cfg local now s0 = (Ret tt, s1) /\
     Email.queue (mail s1) = Email.queue (mail s0) ++ ms /\
     ms ≡ₚ concat (map (owed_message now s0) (rows (prefs s0)).*1)) /\
  NoDup (period_key f <$> sent_walls f uid ops s).
Proof.
  intros Hf Hmono Ht Hz Hops. split.
  - intros now s0. destruct (check_run now s0) as (s1 & Hrun & Hm & _). exists s1, (check_letters now s0).
    split; [done|]. split; [by rewrite Hm|]. apply check_letters_owed.
  - apply keys_NoDup, increasing_NoDup. by apply (slots_increase f uid tz).
Qed.
End history.

(** *** Concrete runs *)

Definition note (i : nat) (t : Z) : nat * Notifications.Notification :=
  (i, Notifications.mkNotification i "GALICE" "deposit" "Deposit" "ok" None false t None).
Definition no_mail : Email.state (B := MemBackend) := Email.mkState [] [] false [] [] [] 0 [] [].
Definition toy_digest : state (B := MemBackend) :=
  mkState [("u1"%string, mkPrefs true daily 8 "UTC"); ("u2"%string, mkPrefs true daily 8 "UTC")]
    [("u1"%string, mkUser (Some "a@x"%string) "GALICE" false); ("u2"%string, mkUser None "GBOB" false)]
    [note 1 1000; note 2 2000] [] no_mail.

(** The hour of a digest comes twice, then a day later after a new notification. *)
Definition two_days : list (op (B := MemBackend)) :=
  [Check 28800000; Check 28800000; Check 32400000;
   Edit (prefs toy_digest) (users toy_digest) [note 3 50000000] no_mail; Check 115200000].
Definition utc (tz : string) (t : Z) : option Z := Some t.

Lemma digest_once_witness :
  length (sent_walls (mkConfig true (Some 1)) utc daily "u1" two_days toy_digest) = 2%nat /\
  NoDup (period_key daily <$> sent_walls (mkConfig true (Some 1)) utc daily "u1" two_days toy_digest) /\
  exists s1 ms, handleHourlyCheck (mkConfig true (Some 1)) utc 28800000 toy_digest = (Ret tt, s1) /\
    Email.queue (mail s1) = ms /\ length ms = 1%nat.
Proof.
  split; [vm_compute; reflexivity|].
  destruct (digest_once (B := MemBackend) (mkConfig true (Some 1)) utc daily "u1" "UTC" two_days toy_digest) as [H1 H2].
  - discriminate.
  - intros t t' w w' Hle [= <-] [= <-]. by apply Z.div_le_mono.
  - repeat constructor; vm_compute; discriminate.
  - intros r Hr. vm_compute in Hr. by injection Hr as <-.
  - repeat constructor; intros r Hr; vm_compute in Hr; by injection Hr as <-.
  - split; [exact H2|]. destruct (H1 28800000 toy_digest) as (s1 & ms & Hr & Hq & Hp). exists s1, ms.
    split; [exact Hr|]. split; [exact Hq|]. rewrite Hp. vm_compute. reflexivity.
Defined.

(** A user who moves west over the date line is sent the digest of a date again: only
    the last period is kept, and here the second date comes between. *)
Definition date_line (tz : string) (t : Z) : option Z :=
  Some (if bool_decide (tz = "Pacific/Kiritimati"%string) then t + 14 * 3600000 else t - 11 * 3600000).
Definition islander (tz : string) : table (Backend := MemBackend) string UserPreferences := [("u1"%string, mkPrefs true daily 8 tz)].
Definition moving_west : list (op (B := MemBackend)) :=
  [Check (18 * 3600000); Check (42 * 3600000);
   Edit (islander "Pacific/Pago_Pago") (users toy_digest) [note 3 (42 * 3600000)] no_mail; Check (43 * 3600000)].

Theorem zone_change_repeats_digest :
  period_key daily <$> sent_walls (mkConfig true (Some 1)) date_line daily "u1" moving_west
    (mkState (islander "Pacific/Kiritimati") (users toy_digest) [note 1 (17 * 3600000); note 2 (41 * 3600000)] [] no_mail)
  = ["1970-01-02"%string; "1970-01-03"%string; "1970-01-02"%string].
Proof. vm_compute. reflexivity. Qed.

(** A digest to a blank address counts as sent: nothing is queued, and the period is
    recorded. *)
Definition blank_address : state (B := MemBackend) :=
  mkState (prefs toy_digest) [("u1"%string, mkUser (Some " "%string) "GALICE" false)] (notifications toy_digest) [] no_mail.

Theorem blank_digest_recorded :
  let s := (runDigests daily "1970-01-01" 0 "UTC" 8 5000 blank_address).2 in
  Email.queue (mail s) = [] /\ lastDailyPeriod <$> find_one "u1"%string (digestStates s) = Some (Some "1970-01-01"%string).
Proof. vm_compute. done. Qed.

(** The day a zone moves its clocks forward at two: a user with the hour two gets no
    digest in a whole day of hourly checks, one with the hour eight gets it once. *)
Definition spring (tz : string) (t : Z) : option Z := Some (if t <? 2 * 3600000 then t else t + 3600000).
Definition spring_users (hour : Z) : state (B := MemBackend) :=
  mkState [("u1"%string, mkPrefs true daily hour "Europe/Somewhere")] (users toy_digest) [note 1 0] [] no_mail.
Definition day_of_checks (hour : Z) : state :=
  foldl (fun s h => (handleHourlyCheck (mkConfig true (Some 1)) spring (Z.of_nat h * 3600000) s).2) (spring_users hour) (seq 0 24).

Theorem skipped_hour_skips_digest :
  length (Email.queue (mail (day_of_checks 2))) = 0%nat /\ length (Email.queue (mail (day_of_checks 8))) = 1%nat.
Proof. vm_compute. done. Qed.

End Digest.
