(* ===== verification/Health.v ===== *)
(** * Health checks

    Models [backend/src/indexer/health.service.ts], the alerts on the indexer, and
    [backend/src/health/health.service.ts], the status of the application.  Both read the
    metrics object of the indexer; [IndexerFacade] is what they expect of it, and
    [indexer_facade] what the modelled indexer ([Indexer.getMetrics]) offers. *)
From Stdlib Require Import ZArith Lia Ascii SpecFloat.
From stdpp Require Import base list strings.
From S2P Require Import Prelude Storage JsValue JsNumber JsDate Indexer.
Local Open Scope Z_scope.

Module Health.

(** What the health services read of the indexer: the object [getMetrics] resolves to, and
    two methods, [None] when the indexer has no such method. *)
Record IndexerFacade := mkFacade {
  metrics_object : outcome record;
  eventsProcessedPerMinute : option Z;
  lastSuccessfulSync : option Z;
}.

Inductive IndexerAlertSeverity := Warning | Critical.
#[export] Instance IndexerAlertSeverity_eq_dec : EqDecision IndexerAlertSeverity.
Proof. solve_decision. Defined.

Record IndexerAlert := mkAlert { severity : IndexerAlertSeverity; code : string; message : string; triggered_at : string }.

Record HealthMetrics := mkMetrics {
  last_processed_ledger : jsval;
  current_stellar_ledger : jsval;
  lag_in_ledgers : jsval;
  events_processed_per_minute : Z;
  failed_event_count : number;
  error_rate_percent : number;
  last_successful_sync_at : Z;
  is_running : jsval;
  uptime_seconds : jsval;
  total_events_processed : jsval;
  deposits_processed : jsval;
  withdrawals_processed : jsval;
  pending_events : jsval;
  dlq_events : jsval;
}.

Inductive IndexerStatus := healthy | degraded | unhealthy.
#[export] Instance IndexerStatus_eq_dec : EqDecision IndexerStatus.
Proof. solve_decision. Defined.

Record HealthResponse := mkResponse { status : IndexerStatus; metrics : HealthMetrics; alerts : list IndexerAlert }.

Record Dashboard := mkDashboard {
  d_health : HealthResponse;
  events_per_second : jsval;
  sync_interval_seconds : Z;
  contract_configured : bool;
}.

Definition LAG_ALERT_THRESHOLD : Z := 100.
Definition STALE_SYNC_MINUTES : Z := 5.
Definition ERROR_RATE_THRESHOLD : Z := 5.

(** [Math.round(x)] as a number. *)
Definition Math_round (f : number) : number := match num_round f with Some z => num_of_Z z | None => f end.

(** [IndexerHealthService] *)

Definition error_rate (processed failed dlq : number) : number :=
  let totalAttempts := num_add (num_add processed failed) dlq in
  if num_ltb (num_of_Z 0) totalAttempts then
    num_div (Math_round (num_mul (num_div (num_add failed dlq) totalAttempts) (num_of_Z 10000))) (num_of_Z 100)
  else num_of_Z 0.

Definition buildMetrics (i : IndexerFacade) : outcome HealthMetrics :=
  match metrics_object i with
  | Throw e => Throw e
  | Ret b =>
      match eventsProcessedPerMinute i, lastSuccessfulSync i with
      | None, _ => Throw (TypeError "this.indexerService.getEventsProcessedPerMinute is not a function")
      | _, None => Throw (TypeError "this.indexerService.getLastSuccessfulSyncTimestamp is not a function")
      | Some n, Some t =>
          let num k := js_Number b.[k] in
          Ret (mkMetrics b.["last_processed_ledger"] b.["latest_contract_ledger"] b.["lag_in_ledgers"] n
                 (num_add (num "failed_events"%string) (num "dlq_events"%string))
                 (error_rate (num "total_events_processed"%string) (num "failed_events"%string) (num "dlq_events"%string))
                 t b.["is_running"] b.["uptime_seconds"] b.["total_events_processed"] b.["deposits_processed"]
                 b.["withdrawals_processed"] b.["pending_events"] b.["dlq_events"])
      end
  end.

(** A condition and the alert it raises. *)
Definition alert_if (cond : bool) (a : IndexerAlert) : list IndexerAlert := if cond then [a] else [].

Definition lag_high (m : HealthMetrics) : bool := num_ltb (num_of_Z LAG_ALERT_THRESHOLD) (js_Number (lag_in_ledgers m)).
Definition stale (m : HealthMetrics) (now : Z) : bool :=
  (events_processed_per_minute m =? 0) &&
  num_leb (num_of_Z STALE_SYNC_MINUTES) (num_div (num_of_Z (now - last_successful_sync_at m)) (num_of_Z 60000)).
Definition error_rate_high (m : HealthMetrics) : bool := num_ltb (num_of_Z ERROR_RATE_THRESHOLD) (error_rate_percent m).

Definition evaluateAlerts (m : HealthMetrics) (now : Z) : list IndexerAlert :=
  alert_if (lag_high m)
    (mkAlert Critical "INDEXER_LAG_HIGH"
       ("Indexer lag is " +:+ js_String (lag_in_ledgers m) +:+ " ledgers (threshold: " +:+ Z_to_string LAG_ALERT_THRESHOLD +:+ ")")
       (toISOString now)) ++
  alert_if (stale m now)
    (mkAlert Warning "INDEXER_STALE" ("No events processed in the last " +:+ Z_to_string STALE_SYNC_MINUTES +:+ " minutes")
       (toISOString now)) ++
  alert_if (error_rate_high m)
    (mkAlert Critical "INDEXER_ERROR_RATE_HIGH"
       ("Indexer error rate is " +:+ num_to_string (error_rate_percent m) +:+ "% (threshold: " +:+ Z_to_string ERROR_RATE_THRESHOLD +:+ "%)")
       (toISOString now)).

Definition resolveStatus (l : list IndexerAlert) : IndexerStatus :=
  if existsb (fun a => bool_decide (severity a = Critical)) l then unhealthy
  else if (0 <? Z.of_nat (length l)) then degraded
  else healthy.

Definition getHealth (i : IndexerFacade) (now : Z) : outcome HealthResponse :=
  match buildMetrics i with
  | Throw e => Throw e
  | Ret m => let a := evaluateAlerts m now in Ret (mkResponse (resolveStatus a) m a)
  end.

Definition getDashboard (i : IndexerFacade) (contractId : option string) (now : Z) : outcome Dashboard :=
  match getHealth i now, metrics_object i with
  | Ret h, Ret b =>
      Ret (mkDashboard h b.["events_per_second"] 30
             (match contractId with
              | None | Some EmptyString => false
              | Some c => negb (bool_decide (c = "your-contract-id-here"%string))
              end))
  | Throw e, _ | _, Throw e => Throw e
  end.

(** The three lines of a metric. *)
Definition metric_lines (name help kind value : string) : list string :=
  ["# HELP " +:+ name +:+ " " +:+ help; "# TYPE " +:+ name +:+ " " +:+ kind; name +:+ " " +:+ value]%string.

Definition newline : string := String (ascii_of_N 10) EmptyString.

Definition prometheus_text (m : HealthMetrics) : string :=
  join_with newline (
    metric_lines "indexer_last_processed_ledger" "Last ledger processed by the indexer" "gauge" (js_String (last_processed_ledger m)) ++
    metric_lines "indexer_current_stellar_ledger" "Current Stellar network ledger" "gauge" (js_String (current_stellar_ledger m)) ++
    metric_lines "indexer_lag_in_ledgers" "Ledger lag behind the network" "gauge" (js_String (lag_in_ledgers m)) ++
    metric_lines "indexer_events_processed_per_minute" "Events processed in the last minute" "gauge" (Z_to_string (events_processed_per_minute m)) ++
    metric_lines "indexer_failed_event_count" "Total failed contract events" "gauge" (num_to_string (failed_event_count m)) ++
    metric_lines "indexer_error_rate_percent" "Failed events as a percentage of total" "gauge" (num_to_string (error_rate_percent m)) ++
    metric_lines "indexer_is_running" "Whether the indexer poll is currently running" "gauge" (if truthy (is_running m) then "1" else "0") ++
    metric_lines "indexer_uptime_seconds" "Indexer process uptime in seconds" "counter" (js_String (uptime_seconds m)) ++
    metric_lines "indexer_total_events_processed" "Total successfully processed events" "counter" (js_String (total_events_processed m)) ++
    metric_lines "savings_deposits_processed_total" "Successfully processed savings deposits" "counter" (js_String (deposits_processed m)) ++
    metric_lines "savings_withdrawals_processed_total" "Successfully processed savings withdrawals" "counter" (js_String (withdrawals_processed m)) ++
    metric_lines "indexer_pending_events" "Pending events awaiting processing" "gauge" (js_String (pending_events m)) ++
    metric_lines "indexer_dlq_events" "Events in the dead-letter queue" "gauge" (js_String (dlq_events m))) +:+ newline.

Definition getPrometheusMetrics (i : IndexerFacade) : outcome string :=
  match buildMetrics i with Throw e => Throw e | Ret m => Ret (prometheus_text m) end.

(** [HealthService] *)

Inductive dependency := up | slow | down.
#[export] Instance dependency_eq_dec : EqDecision dependency.
Proof. solve_decision. Defined.

Record DependencyStatus := mkDep { dep_status : dependency; latency_ms : Z }.
Record IndexerHealthStatus := mkIndexerHealth {
  i_status : dependency;
  lag_ledgers : jsval;
  i_last_processed_ledger : jsval;
  i_latest_contract_ledger : jsval;
}.

Inductive overall := overall_healthy | overall_degraded | overall_down.

Record DetailedHealth := mkDetailed {
  o_status : overall;
  database : DependencyStatus;
  soroban : DependencyStatus;
  cache_status : DependencyStatus;
  indexer : IndexerHealthStatus;
  o_uptime : Z;
}.

Definition INDEXER_LAG_THRESHOLD_LEDGERS : Z := 100.
Definition CACHE_PROBE_KEY : string := "__health_check_probe__".

Definition is_up (d : dependency) : bool := bool_decide (d = up).

Definition computeOverallStatus (db sor cch : DependencyStatus) (ix : IndexerHealthStatus) : overall :=
  if negb (is_up (dep_status db)) then overall_down
  else if negb (is_up (dep_status sor)) || negb (is_up (dep_status cch)) || negb (is_up (i_status ix)) then overall_degraded
  else overall_healthy.

(** [query]: the outcome of [SELECT 1] and the time it took. *)
Definition checkDatabase (query : bool) (took : Z) : DependencyStatus := mkDep (if query then up else down) took.

(** [response]: the answered status, [None] when the request failed or was aborted. *)
Definition checkSoroban (response : option Z) (took : Z) : DependencyStatus :=
  match response with
  | Some st => mkDep (if (200 <=? st) && (st <=? 299) then up else slow) took
  | None => mkDep down took
  end.

Definition checkIndexer (i : IndexerFacade) : IndexerHealthStatus :=
  match metrics_object i with
  | Throw _ => mkIndexerHealth down (VNum (-1)) (VNum 0) (VNum 0)
  | Ret b =>
      let lag := b.["lag_in_ledgers"] in
      mkIndexerHealth (if num_ltb (num_of_Z INDEXER_LAG_THRESHOLD_LEDGERS) (js_Number lag) then down else up)
        lag b.["last_processed_ledger"] b.["latest_contract_ledger"]
  end.

Section service.
Context {B : Backend}.

(** The probe value is written and read back; [now] and [later] are the two moments. *)
Definition checkCache (now later : Z) : M (cache string) DependencyStatus :=
  do modify (cache_set CACHE_PROBE_KEY "ok"%string 5000 now) ;>
  await value := gets (cache_get CACHE_PROBE_KEY later) in
  ret (mkDep (if bool_decide (value = Some "ok"%string) then up else down) (later - now)).

Definition checkDetailed (query : bool) (response : option Z) (i : IndexerFacade) (tdb trpc now later start : Z)
  : M (cache string) DetailedHealth :=
  await c := checkCache now later in
  let db := checkDatabase query tdb in
  let sor := checkSoroban response trpc in
  let ix := checkIndexer i in
  ret (mkDetailed (computeOverallStatus db sor c ix) db sor c ix ((later - start) / 1000)).

(** The answer without details. *)
Definition summary (d : DetailedHealth) : overall * Z := (o_status d, o_uptime d).
End service.

(** *** The indexer's alerts *)

(** The indexer is reported unhealthy exactly when its lag or its error rate is over
    the threshold, degraded exactly when neither is but nothing was processed for five
    minutes, healthy otherwise; and the alerts are exactly those of the conditions that
    hold, the reported status agreeing with them. *)
Theorem indexer_status_spec (i : IndexerFacade) (now : Z) (h : HealthResponse) :
  getHealth i now = Ret h ->
  let m := metrics h in
  status h = (if lag_high m || error_rate_high m then unhealthy else if stale m now then degraded else healthy) /\
  map code (alerts h) = (if lag_high m then ["INDEXER_LAG_HIGH"%string] else []) ++
    (if stale m now then ["INDEXER_STALE"%string] else []) ++ (if error_rate_high m then ["INDEXER_ERROR_RATE_HIGH"%string] else []) /\
  buildMetrics i = Ret m.
Proof.
  unfold getHealth. destruct (buildMetrics i) as [m|e]; [|done]. intros [= <-]. cbn [metrics status alerts].
  unfold evaluateAlerts, alert_if, resolveStatus.
  by destruct (lag_high m), (stale m now), (error_rate_high m).
Qed.

(** The overall status of the application, by the dependencies: down exactly without the
    database, degraded when only another one fails. *)
Theorem overall_status_spec db sor cch ix :
  (computeOverallStatus db sor cch ix = overall_down <-> dep_status db ≠ up) /\
  (computeOverallStatus db sor cch ix = overall_healthy <->
     dep_status db = up /\ dep_status sor = up /\ dep_status cch = up /\ i_status ix = up).
Proof.
  unfold computeOverallStatus, is_up. repeat case_bool_decide; simpl; naive_solver.
Qed.

(** *** The indexer of the program *)

Section indexer.
Context {B : Backend} {Src : EventSource} (gen_uuid : nat -> string).

(** The object [Indexer.getMetrics] resolves to; the indexer has neither of the other two
    methods. *)
Definition metrics_record (d : Indexer.IndexerMetricsDto) : record :=
  [("eventsProcessed"%string, VNum (Indexer.m_eventsProcessed d));
   ("depositsProcessed"%string, VNum (Indexer.m_depositsProcessed d));
   ("withdrawalsProcessed"%string, VNum (Indexer.m_withdrawalsProcessed d));
   ("eventsPerMinute"%string, VNum (Indexer.m_eventsPerMinute d));
   ("lastProcessedAt"%string, VStr (toISOString (Indexer.m_lastProcessedAt d)));
   ("uptimeSeconds"%string, VNum (Indexer.m_uptimeSeconds d))].

Definition indexer_facade (now : Z) (s : Indexer.state) : IndexerFacade :=
  mkFacade (match (Indexer.getMetrics now s).1 with Ret d => Ret (metrics_record d) | Throw e => Throw e end) None None.

Definition triggerManualSync (configured : bool) (now : Z) : M Indexer.state string :=
  do Indexer.triggerManualSync gen_uuid configured now ;>
  ret "Indexer sync triggered successfully"%string.

(** Whatever the state of the indexer, its health, dashboard and Prometheus endpoints
    fail, and the application's health check shows it as up, however far it lags. *)
Theorem indexer_health_blind (now : Z) (s : Indexer.state) (contractId : option string) :
  (exists e, getHealth (indexer_facade now s) now = Throw e /\
     getDashboard (indexer_facade now s) contractId now = Throw e /\ getPrometheusMetrics (indexer_facade now s) = Throw e) /\
  i_status (checkIndexer (indexer_facade now s)) = up /\ lag_ledgers (checkIndexer (indexer_facade now s)) = VUndef.
Proof.
  assert (Hm : exists d, (Indexer.getMetrics now s).1 = Ret d) by by eexists.
  destruct Hm as [d Hd]. unfold getDashboard, getHealth, getPrometheusMetrics, buildMetrics, checkIndexer, indexer_facade.
  cbn [metrics_object eventsProcessedPerMinute lastSuccessfulSync]. rewrite Hd. split; [by eexists|]. done.
Qed.
End indexer.

(** *** Concrete runs *)

(** An indexer with the metrics the health service expects. *)
Definition conforming (lag failed perMinute lastSync : Z) : IndexerFacade :=
  mkFacade (Ret [("total_events_processed"%string, VNum 95); ("failed_events"%string, VNum failed); ("dlq_events"%string, VNum 0);
                 ("lag_in_ledgers"%string, VNum lag); ("is_running"%string, VBool true)]) (Some perMinute) (Some lastSync).

Example status_runs :
  (status <$> match getHealth (conforming 101 0 4 0) 1000 with Ret h => Some h | Throw _ => None end) = Some unhealthy /\
  (status <$> match getHealth (conforming 100 5 4 0) 1000 with Ret h => Some h | Throw _ => None end) = Some healthy /\
  (status <$> match getHealth (conforming 100 6 4 0) 1000 with Ret h => Some h | Throw _ => None end) = Some unhealthy /\
  (status <$> match getHealth (conforming 0 0 0 0) 300000 with Ret h => Some h | Throw _ => None end) = Some degraded /\
  num_to_string (error_rate (num_of_Z 95) (num_of_Z 6) (num_of_Z 0)) = "5.94"%string.
Proof. repeat split; vm_compute; reflexivity. Qed.

Lemma indexer_status_spec_witness :
  exists h, getHealth (conforming 101 0 4 0) 1000 = Ret h /\ status h = unhealthy.
Proof.
  destruct (getHealth (conforming 101 0 4 0) 1000) as [h|e] eqn:Hh; [|vm_compute in Hh; discriminate Hh].
  exists h. split; [reflexivity|]. destruct (indexer_status_spec _ _ _ Hh) as (Hs & _ & _). rewrite Hs.
  vm_compute in Hh. injection Hh as <-. reflexivity.
Defined.

End Health.
