(* ===== verification/Analytics.v ===== *)
(** * Analytics

    Models [backend/src/analytics/analytics-aggregation.service.ts], the metric rows and
    the jobs that aggregate them, and [analytics.service.ts], which records requests and
    activity.  The server runs in UTC; the decimal aggregates of the database are
    parameters. *)
From Stdlib Require Import ZArith Lia Ascii SpecFloat.
From stdpp Require Import base list strings sorting sets.
From S2P Require Import Prelude Storage JsValue JsNumber JsDate InterestRates.
Local Open Scope Z_scope.
#[local] Ltac Zify.zify_post_hook ::= Z.to_euclidean_division_equations.

Module Analytics.

Inductive MetricType := USER_ACTIVITY | SAVINGS_VOLUME | TRANSACTION_COUNT | API_REQUEST | ERROR_RATE | RESPONSE_TIME
  | USER_REGISTRATION | GOAL_CREATION | WEBHOOK_DELIVERY.
#[export] Instance MetricType_eq_dec : EqDecision MetricType.
Proof. solve_decision. Defined.

Inductive AggregationPeriod := HOURLY | DAILY | WEEKLY | MONTHLY.
#[export] Instance AggregationPeriod_eq_dec : EqDecision AggregationPeriod.
Proof. solve_decision. Defined.

Record AnalyticsMetric := mkMetric {
  metric_type : MetricType;
  period : AggregationPeriod;
  period_start : Z;
  period_end : Z;
  user_id : option string;
  value : string;
  count : Z;
  metadata : option record;
  created_at : Z;
}.

Record AggregationResult := mkResult { r_type : MetricType; total_value : string; r_count : Z; average_value : string }.

Record DashboardKpi := mkKpi {
  total_predictions : jsval;
  accuracy_rate : string;
  current_rank : Z;
  total_rewards_earned_stroops : jsval;
  active_predictions_count : Z;
  current_streak : Z;
  reputation_score : jsval;
  tier : string;
}.

(** ** Periods *)

Definition HOUR : Z := 3600000.
Definition DAY : Z := 86400000.

Definition getHourStart (t : Z) : Z := t - t mod HOUR.
(** [setMinutes(59, 59, 999)]. *)
Definition getHourEnd (t : Z) : Z := getHourStart t + HOUR - 1.

Definition day_start (t : Z) : Z := t - t mod DAY.
Definition weekday (t : Z) : Z := (Day t + 4) mod 7.
(** Years and months (from [0]) as the first day of the month. *)
Definition first_of_month (y m : Z) : Z := DayFromYear y + month_start (leap y) m.

Definition getPeriodStart (t : Z) (p : AggregationPeriod) : Z :=
  match p with
  | HOURLY => getHourStart t
  | DAILY => day_start t
  | WEEKLY => day_start t + (- weekday t + (if weekday t =? 0 then -6 else 1)) * DAY
  | MONTHLY => let '(y, m, _) := ymd (Day t) in first_of_month y (m - 1) * DAY
  end.

(** A start of a month is its first day, so [setMonth] does not overflow. *)
Definition getPeriodEnd (t : Z) (p : AggregationPeriod) : Z :=
  match p with
  | HOURLY => t + HOUR
  | DAILY => t + DAY
  | WEEKLY => t + 7 * DAY
  | MONTHLY =>
      let '(y, m, d) := ymd (Day t) in
      (if m =? 12 then first_of_month (y + 1) 0 else first_of_month y m) * DAY + (d - 1) * DAY + t mod DAY
  end.

(** ** Grouping *)

(** The key of a group: type, start of the period, user. *)
Definition group_key (p : AggregationPeriod) (m : AnalyticsMetric) : MetricType * Z * option string :=
  (metric_type m, getPeriodStart (period_start m) p, user_id m).

(** [Map.set] and [push]: groups in the order of their first metric. *)
Fixpoint push_into (k : MetricType * Z * option string) (m : AnalyticsMetric)
    (groups : list (MetricType * Z * option string * list AnalyticsMetric)) :=
  match groups with
  | [] => [(k, [m])]
  | (k', ms) :: rest => if decide (k' = k) then (k', ms ++ [m]) :: rest else (k', ms) :: push_into k m rest
  end.

Definition groupMetricsByPeriod (l : list AnalyticsMetric) (p : AggregationPeriod) :=
  foldl (fun g m => push_into (group_key p m) m g) [] l.

(** [===] on values that are not objects; two parsed objects are never the same. *)
Definition js_same (a b : jsval) : bool :=
  match a, b with
  | VUndef, VUndef | VNull, VNull => true
  | VBool x, VBool y => Bool.eqb x y
  | VNum x, VNum y | VBigInt x, VBigInt y => x =? y
  | VStr x, VStr y => bool_decide (x = y)
  | _, _ => false
  end.

(** Adds a value to the array under a key, once. *)
Fixpoint add_value (k : string) (v : jsval) (acc : list (string * list jsval)) : list (string * list jsval) :=
  match acc with
  | [] => [(k, [v])]
  | (k', vs) :: rest =>
      if decide (k' = k) then (k', if existsb (js_same v) vs then vs else vs ++ [v]) :: rest
      else (k', vs) :: add_value k v rest
  end.

Definition aggregateMetadata (l : list AnalyticsMetric) : option record :=
  let acc := foldl (fun acc m => foldl (fun acc f => add_value f.1 f.2 acc) acc (default [] (metadata m))) [] l in
  match acc with [] => None | _ => Some ((fun f => (f.1, VArr f.2)) <$> acc) end.

Section service.
Context {B : Backend}.
(** [SUM] and [AVG] of a decimal column, printed. *)
Context (sql_sum sql_avg : list string -> string).

Definition state : Type := table nat AnalyticsMetric.

(** [metricsRepository.save] of a new row; the value goes into a [decimal(20, 2)]. *)
Definition insert_metric (t : MetricType) (p : AggregationPeriod) (st en : Z) (u : option string) (v : string) (c : Z)
    (md : option record) (now : Z) : M state unit :=
  await stored := InterestRates.store_numeric 20 2 v in
  await id := gets fresh_id in
  modify (save id (mkMetric t p st en u stored c md now)).

Definition recordMetric (t : MetricType) (v : number) (md : option record) (u : option string) (now : Z) : M state unit :=
  insert_metric t HOURLY (getHourStart now) (getHourEnd now) u (num_to_string v) 1 md now.

(** [Between] includes both ends. *)
Definition between (a b : Z) (m : AnalyticsMetric) : bool := (a <=? period_start m) && (period_start m <=? b).

Definition selected (a b : Z) (s : state) : list AnalyticsMetric := List.filter (between a b) ((rows s).*2).

Definition total_of (ms : list AnalyticsMetric) : number :=
  foldl (fun sum m => num_add sum (parseFloat (value m))) (num_of_Z 0) ms.
Definition count_of (ms : list AnalyticsMetric) : Z := foldl (fun sum m => sum + count m) 0 ms.

Definition save_group (p : AggregationPeriod) (now : Z) (g : MetricType * Z * option string * list AnalyticsMetric) : M state unit :=
  let '((t, st, u), ms) := g in
  insert_metric t p st (getPeriodEnd st p) u (num_to_string (total_of ms)) (count_of ms) (aggregateMetadata ms) now.

Definition aggregateMetrics (p : AggregationPeriod) (startDate endDate now : Z) : M state unit :=
  await l := gets (selected startDate endDate) in
  for_each (save_group p now) (groupMetricsByPeriod l p).

(** A job logs the errors of its aggregation. *)
Definition job (m : M state unit) : M state unit := catch m (fun _ => ret tt).

Definition aggregateHourly (now : Z) : M state unit := job (aggregateMetrics HOURLY (now - HOUR) now now).
Definition aggregateDaily (now : Z) : M state unit :=
  job (aggregateMetrics DAILY (day_start now - DAY) (day_start now - DAY + DAY - 1) now).
Definition aggregateWeekly (now : Z) : M state unit :=
  job (aggregateMetrics WEEKLY (day_start now - 7 * DAY) (day_start now + DAY - 1) now).

Definition getAggregatedMetrics (t : MetricType) (p : AggregationPeriod) (a b : Z) (u : option string)
  : M state (list AnalyticsMetric) :=
  gets (fun s => order_by period_start (List.filter (fun m =>
    bool_decide (metric_type m = t) && bool_decide (period m = p) && between a b m &&
    match u with None | Some EmptyString => true | Some x => bool_decide (user_id m = Some x) end) ((rows s).*2))).

Definition summarised (t : MetricType) (a b : Z) (u : option string) (s : state) : list AnalyticsMetric :=
  List.filter (fun m => bool_decide (metric_type m = t) && between a b m &&
    match u with None | Some EmptyString => true | Some x => bool_decide (user_id m = Some x) end) ((rows s).*2).

Definition getMetricSummary (t : MetricType) (a b : Z) (u : option string) : M state AggregationResult :=
  gets (fun s =>
    match summarised t a b u s with
    | [] => mkResult t "0" 0 "0"
    | l => mkResult t (sql_sum (value <$> l)) (sumZ (count <$> l)) (sql_avg (value <$> l))
    end).

Definition cleanupOldMetrics (retentionDays now : Z) : M state unit :=
  modify (delete_where (fun _ m => created_at m <? now - retentionDays * DAY)).

(** *** [AnalyticsService] *)

Definition trackApiRequest (endpoint method : string) (statusCode : Z) (responseTime : number) (rt : jsval) (u : option string) (now : Z)
  : M state unit :=
  let where_ := [("endpoint"%string, VStr endpoint); ("method"%string, VStr method)] in
  do recordMetric API_REQUEST (num_of_Z 1)
       (Some (where_ ++ [("statusCode"%string, VNum statusCode); ("responseTime"%string, rt)])) u now ;>
  do recordMetric RESPONSE_TIME responseTime (Some where_) u now ;>
  if 400 <=? statusCode
  then recordMetric ERROR_RATE (num_of_Z 1) (Some (where_ ++ [("statusCode"%string, VNum statusCode)])) u now
  else ret tt.

(** [{ activityType, ...metadata }]: a field of the metadata of that name wins. *)
Definition trackUserActivity (userId activityType : string) (md : record) (now : Z) : M state unit :=
  let mine := match Mem.find md "activityType"%string with Some v => v | None => VStr activityType end in
  recordMetric USER_ACTIVITY (num_of_Z 1)
    (Some (("activityType"%string, mine) :: Mem.drop_key "activityType"%string md)) (Some userId) now.

(** [undefined >= n] is false. *)
Definition at_least (v : jsval) (n : Z) : bool := num_leb (num_of_Z n) (js_Number v).

Definition determineTier (score : jsval) : string :=
  if at_least score 1000 then "Diamond Predictor"
  else if at_least score 750 then "Gold Predictor"
  else if at_least score 500 then "Silver Predictor"
  else if at_least score 250 then "Bronze Predictor"
  else "Novice Predictor".

(** [user] is the row as an object, when there is one. *)
Definition getDashboardKpis (user : option record) : M state DashboardKpi :=
  match user with
  | None => throw (NotFoundException "User not found")
  | Some u =>
      let total := js_Number u.["total_predictions"] in
      let rate := if num_ltb (num_of_Z 0) total
                  then num_toFixed 1 (num_mul (num_div (js_Number u.["correct_predictions"]) total) (num_of_Z 100))
                  else "0.0"%string in
      ret (mkKpi u.["total_predictions"] rate 0 u.["total_winnings_stroops"] 0 0 u.["reputation_score"]
             (determineTier u.["reputation_score"]))
  end.

(** ** Grouping partitions the selected rows *)

Definition in_group (p : AggregationPeriod) (k : MetricType * Z * option string) (l : list AnalyticsMetric) : list AnalyticsMetric :=
  List.filter (fun m => bool_decide (group_key p m = k)) l.

Lemma elem_of_push_into k m groups k' ms :
  NoDup groups.*1 ->
  (k', ms) ∈ push_into k m groups <->
    if decide (k' = k) then ms = default [] (Mem.find groups k) ++ [m] else (k', ms) ∈ groups.
Proof.
  induction groups as [|[j js] groups IH]; cbn [push_into Mem.find].
  - intros _. rewrite list_elem_of_singleton. case_decide; [naive_solver|]. rewrite elem_of_nil. naive_solver.
  - csimpl. intros [Hj Hnd]%NoDup_cons. destruct (decide (j = k)) as [->|Hjk].
    + rewrite elem_of_cons. case_decide as Hk; [subst k'|].
      * split; [|intros ->; by left]. intros [[= ->]|Hin]; [done|].
        destruct Hj. by apply (list_elem_of_fmap_2 fst) in Hin.
      * rewrite elem_of_cons. naive_solver.
    + rewrite elem_of_cons, IH by done. case_decide as Hk; [subst k'; naive_solver|].
      rewrite elem_of_cons. naive_solver.
Qed.

Lemma push_into_keys k m groups :
  (push_into k m groups).*1 = if decide (k ∈ groups.*1) then groups.*1 else groups.*1 ++ [k].
Proof.
  induction groups as [|[j js] groups IH]; cbn [push_into].
  - done.
  - rewrite fmap_cons. destruct (decide (j = k)) as [->|Hjk]; rewrite fmap_cons; cbn [fst]; [by rewrite decide_True by left|].
    rewrite IH. case_decide as Hin.
    + by rewrite decide_True by (right; done).
    + by rewrite decide_False by (intros [->|?]%elem_of_cons; done).
Qed.

(** The groups of a list: one per key, in which are exactly the metrics of that key. *)
Lemma groups_exact p l :
  NoDup (groupMetricsByPeriod l p).*1 /\
  (forall k ms, (k, ms) ∈ groupMetricsByPeriod l p <-> ms = in_group p k l /\ ms ≠ []).
Proof.
  unfold groupMetricsByPeriod, in_group. induction l as [|m l [Hnd IH]] using rev_ind.
  - split; [constructor|]. intros k ms. rewrite elem_of_nil. simpl. naive_solver.
  - rewrite foldl_snoc. set (g := foldl _ _ _) in *. split.
    + rewrite push_into_keys. case_decide; [done|]. apply NoDup_app. split_and!; [done| |apply NoDup_singleton].
      intros x Hx Hk. apply list_elem_of_singleton in Hk. by subst.
    + intros k ms. rewrite elem_of_push_into by done. rewrite List.filter_app. simpl.
      case_decide as Hk.
      * subst k. rewrite bool_decide_true by done.
        assert (Hf : default [] (Mem.find g (group_key p m)) = in_group p (group_key p m) l).
        { destruct (Mem.find g (group_key p m)) as [js|] eqn:Hg; simpl.
          - apply Mem.find_elem in Hg; [|done]. by apply IH in Hg as [-> _].
          - destruct (in_group p (group_key p m) l) as [|x xs] eqn:Hx; [done|].
            assert (Hin : (group_key p m, x :: xs) ∈ g) by (apply IH; unfold in_group in Hx; by rewrite Hx).
            apply Mem.find_elem in Hin; [congruence|done]. }
        rewrite Hf. unfold in_group. split; [|naive_solver]. intros ->. split; [done|]. by destruct (List.filter _ l).
      * rewrite bool_decide_false by congruence. rewrite app_nil_r. apply IH.
Qed.

(** The groups hold every metric once. *)
Lemma groups_sum (f : AnalyticsMetric -> Z) p l :
  sumZ ((fun g => sumZ (f <$> g.2)) <$> groupMetricsByPeriod l p) = sumZ (f <$> l).
Proof.
  unfold groupMetricsByPeriod. induction l as [|m l IH] using rev_ind; [done|].
  rewrite foldl_snoc, fmap_app, sumZ_app, <-IH. set (g := foldl _ _ _). clearbody g. clear IH. simpl.
  induction g as [|[j js] g IH]; cbn [push_into].
  - simpl. lia.
  - destruct (decide (j = group_key p m)); csimpl; [rewrite fmap_app, sumZ_app; simpl; lia|lia].
Qed.

Lemma count_of_sum ms : count_of ms = sumZ (count <$> ms).
Proof. unfold count_of. rewrite (foldl_add_sumZ count). lia. Qed.

Lemma insert_metric_run t p st en u v c md now s s' :
  insert_metric t p st en u v c md now s = (Ret tt, s') ->
  exists stored, (rows s').*2 ≡ₚ mkMetric t p st en u stored c md now :: (rows s).*2.
Proof.
  unfold insert_metric, InterestRates.store_numeric, bind, gets, modify.
  destruct (InterestRates.numeric_column 20 2 v) as [stored|e]; [|done].
  intros [= <-]. exists stored. by rewrite rows_save_new by apply fresh_id_None.
Qed.

(** The row a group leads to. *)
Definition row_of (p : AggregationPeriod) (g : MetricType * Z * option string * list AnalyticsMetric) (r : AnalyticsMetric) : Prop :=
  (metric_type r, period_start r, user_id r) = g.1 /\ period r = p /\
  period_end r = getPeriodEnd (period_start r) p /\ count r = sumZ (count <$> g.2).

Lemma save_groups_run p now groups s s' :
  for_each (save_group p now) groups s = (Ret tt, s') ->
  exists new, (rows s').*2 ≡ₚ new ++ (rows s).*2 /\ Forall2 (row_of p) groups new.
Proof.
  revert s. induction groups as [|g groups IH]; intros s; cbn [for_each].
  - intros [= <-]. by exists [].
  - unfold bind. destruct (save_group p now g s) as [[[]|e] s1] eqn:Hg; [|done].
    intros (new & Hp & Hf)%IH. destruct g as [[[t st] u] ms]. apply insert_metric_run in Hg as [stored Hs].
    eexists (_ :: new). split; [rewrite Hp, Hs; apply Permutation_sym, Permutation_middle|].
    constructor; [|done].
    unfold row_of. cbn. by rewrite count_of_sum.
Qed.

(** An aggregation that completes adds one row per type, start of period and user among
    the metrics it selected, leaves the other rows, and conserves the counts: each new row
    carries the sum of the counts of its metrics, and together they carry the sum of all. *)
Theorem aggregation_conserves p a b now (s s' : state) :
  aggregateMetrics p a b now s = (Ret tt, s') ->
  exists new, (rows s').*2 ≡ₚ new ++ (rows s).*2 /\
    NoDup ((fun r => (metric_type r, period_start r, user_id r)) <$> new) /\
    (forall m, m ∈ selected a b s -> exists r, r ∈ new /\ (metric_type r, period_start r, user_id r) = group_key p m) /\
    Forall (fun r => period r = p /\ count r =
      sumZ (count <$> in_group p (metric_type r, period_start r, user_id r) (selected a b s))) new /\
    sumZ (count <$> new) = sumZ (count <$> selected a b s).
Proof.
  unfold aggregateMetrics, bind, gets. intros (new & Hp & Hf)%save_groups_run. exists new.
  destruct (groups_exact p (selected a b s)) as [Hnd Hg]. split; [done|].
  assert (Hk : (fun r => (metric_type r, period_start r, user_id r)) <$> new = (groupMetricsByPeriod (selected a b s) p).*1).
  { clear -Hf. induction Hf as [|g r groups new [Hr _] _ IH]; [done|]. csimpl. by rewrite Hr, IH. }
  rewrite Hk. split_and!; [done| | |].
  - intros m Hm. assert (Hin : (group_key p m, in_group p (group_key p m) (selected a b s)) ∈ groupMetricsByPeriod (selected a b s) p).
    { apply Hg. split; [done|]. apply (elem_of_not_nil m). apply elem_of_List_filter. split; [done|by apply bool_decide_eq_true]. }
    apply (list_elem_of_fmap_2 fst) in Hin. rewrite <-Hk in Hin. apply list_elem_of_fmap in Hin as (r & Hr & Hin). eauto.
  - apply Forall_forall. intros r [i Hi]%list_elem_of_lookup.
    destruct (Forall2_lookup_r _ _ _ _ _ Hf Hi) as (g & Hgin%list_elem_of_lookup_2 & Hr & Hper & _ & Hc).
    split; [done|]. destruct g as [k ms]. apply Hg in Hgin as [-> _]. cbn in Hr, Hc. by rewrite Hc, Hr.
  - rewrite <-(groups_sum count p (selected a b s)). clear -Hf. induction Hf as [|g r groups new Hr _ IH]; [done|].
    csimpl. destruct Hr as (_ & _ & _ & ->). by rewrite IH.
Qed.

(** A request is recorded as a request and a response time, and as an error from status [400]
    on. *)
Theorem request_tracked endpoint method status time rt u now (s s' : state) :
  trackApiRequest endpoint method status time rt u now s = (Ret tt, s') ->
  exists new, (rows s').*2 ≡ₚ new ++ (rows s).*2 /\
    metric_type <$> new ≡ₚ [API_REQUEST; RESPONSE_TIME] ++ (if 400 <=? status then [ERROR_RATE] else []) /\
    Forall (fun r => user_id r = u /\ count r = 1 /\ period r = HOURLY /\
                     period_start r <= now <= period_end r) new.
Proof.
  unfold trackApiRequest, bind, recordMetric.
  destruct (insert_metric API_REQUEST _ _ _ _ _ _ _ _ s) as [[[]|e] s1] eqn:H1; [|done].
  destruct (insert_metric RESPONSE_TIME _ _ _ _ _ _ _ _ s1) as [[[]|e] s2] eqn:H2; [|done].
  assert (Hh : getHourStart now <= now <= getHourEnd now) by (unfold getHourEnd, getHourStart, HOUR; lia).
  apply insert_metric_run in H1 as [v1 H1], H2 as [v2 H2]. rewrite H1 in H2. destruct (400 <=? status).
  - intros [v3 H3]%insert_metric_run. eexists [_; _; _]. split; [rewrite H3, H2; cbn [app]; reflexivity|]. split.
    + apply (Permutation_rev [ERROR_RATE; RESPONSE_TIME; API_REQUEST]).
    + rewrite ?Forall_cons, Forall_nil; by cbn.
  - intros [= <-]. eexists [_; _]. split; [rewrite H2; cbn [app]; reflexivity|]. split; [apply Permutation_swap|rewrite ?Forall_cons, Forall_nil; by cbn].
Qed.

(** ** Behaviour against the comments *)

(** The hourly job does not see the hour that has just ended: unless it runs in the first
    millisecond of an hour, the metrics of earlier hours start before its window. *)
Theorem hourly_job_misses_ended_hour t now m :
  period_start m = getHourStart t -> getHourStart t < getHourStart now -> 0 < now mod HOUR ->
  between (now - HOUR) now m = false.
Proof.
  unfold between. intros -> Ht Hm. apply andb_false_iff. left. apply Z.leb_gt.
  unfold getHourStart, HOUR in *. lia.
Qed.

(** Dashboards of users whose rows have no prediction columns: constant figures. *)
Theorem dashboard_constant (u : record) (s : state) :
  u.["total_predictions"] = VUndef -> u.["reputation_score"] = VUndef ->
  getDashboardKpis (Some u) s =
    (Ret (mkKpi VUndef "0.0" 0 u.["total_winnings_stroops"] 0 0 VUndef "Novice Predictor"), s).
Proof. unfold getDashboardKpis, determineTier. intros -> ->. reflexivity. Qed.
End service.

(** ** Witnesses *)

#[local] Existing Instance MemBackend.

Definition two_requests : state :=
  ((do trackApiRequest "/goals" "GET" 200 (num_of_Z 12) (VNum 12) None 1767225700000 ;>
   trackApiRequest "/goals" "POST" 400 (num_of_Z 8) (VNum 8) None 1767229300000) empty_table).2.

(** A day of two requests, one refused: three groups. *)
Lemma aggregation_conserves_witness :
  exists new s', aggregateMetrics DAILY 1767225600000 1767311999999 1767312000000 two_requests = (Ret tt, s') /\
    (rows s').*2 ≡ₚ new ++ (rows two_requests).*2 /\ sumZ (count <$> new) = 5.
Proof.
  destruct (aggregateMetrics DAILY 1767225600000 1767311999999 1767312000000 two_requests) as [o s'] eqn:Hr.
  assert (Ho : o = Ret tt) by (apply (f_equal fst) in Hr; vm_compute in Hr; by subst o). subst o.
  destruct (aggregation_conserves DAILY 1767225600000 1767311999999 1767312000000 two_requests s' Hr)
    as (new & Hp & _ & _ & _ & Hs).
  exists new, s'. split_and!; [done|done|]. rewrite Hs. vm_compute. reflexivity.
Defined.

(** The rows of an aggregation are summed with the rows they aggregate: a summary counts the
    day's two requests twice after the daily job, and the two daily totals again the next
    time they are aggregated. *)
Theorem aggregates_counted_twice :
  let summary := fun s => r_count <$> (match (getMetricSummary (fun _ => ""%string) (fun _ => ""%string)
      API_REQUEST 1767225600000 1767311999999 None s).1 with Ret r => Some r | Throw _ => None end) in
  summary two_requests = Some 2 /\
  summary ((aggregateDaily 1767312000000 two_requests).2) = Some 4 /\
  summary ((aggregateDaily 1767312000000 ((aggregateDaily 1767312000000 two_requests).2)).2) = Some 8.
Proof. vm_compute. done. Qed.
End Analytics.
