(* ===== verification/Filtering.v ===== *)
(** * Query filters

    Models [backend/src/common/filtering.service.ts]: how a request for filters becomes
    clauses of SQL text with named parameters, and the calls on the query builder.  Texts
    are ASCII; [Date_parse] is [Date.parse] on texts, which the language leaves partly to
    the engine.

    [cond] and [eval] give the meaning of the text the service writes: a clause is the
    printed form of a condition ([print_cond]); [calls_mean] is the condition that the calls
    on the query builder put on a row, and [asks] what a request asks of it, stated apart
    from the code.  [filters_mean_request] says that they are the same. *)
From Stdlib Require Import ZArith Lia Ascii SpecFloat.
From stdpp Require Import base list strings.
From S2P Require Import Prelude Storage JsValue JsNumber JsDate Encoding.
Local Open Scope Z_scope.

Module Filtering.

Inductive FilterCombination := And | Or.
#[export] Instance FilterCombination_eq_dec : EqDecision FilterCombination.
Proof. solve_decision. Defined.

Inductive FilterFieldType := Address | Boolean | DateField | Number.
#[export] Instance FilterFieldType_eq_dec : EqDecision FilterFieldType.
Proof. solve_decision. Defined.

Definition type_text (t : FilterFieldType) : string :=
  match t with Address => "address" | Boolean => "boolean" | DateField => "date" | Number => "number" end.

Inductive SortDirection := ASC | DESC.

Record DateRangeFilter := mkDateRange { from : option (Date + string); to : option (Date + string) }.
Record NumericRangeFilter := mkNumericRange { min : option (number + string); max : option (number + string) }.
Record FilterFieldConfig := mkField { column : string; field_type : FilterFieldType; sortable : option bool }.

Inductive operator := OpEq | OpNe | OpIs | OpIsNot.
#[export] Instance operator_eq_dec : EqDecision operator.
Proof. solve_decision. Defined.

Definition operator_text (o : operator) : string :=
  match o with OpEq => "=" | OpNe => "!=" | OpIs => "IS" | OpIsNot => "IS NOT" end.

(** The values bound to parameters. *)
Inductive param := PBool (b : bool) | PDate (t : Z) | PNum (n : number) | PStr (s : string) | PList (l : list string) | PNull.

Record StatusFilterCondition := mkCondition { c_field : string; c_value : param; c_operator : option operator }.
Record EntityFilterConfig := mkConfig {
  fields : list (string * FilterFieldConfig);
  config_statuses : option (list (string * list StatusFilterCondition));
}.
Record SortRequest := mkSort { s_field : string; s_direction : option string }.

(** An optional object is the list of its entries; [None] and [[]] have the same entries. *)
Record FilteringRequest := mkRequest {
  dateRanges : list (string * DateRangeFilter);
  statuses : option (string + list string);
  numericRanges : list (string * NumericRangeFilter);
  addresses : list (string * (string + list string));
  booleans : list (string * (bool + string));
  combination : option string;
  sort : option SortRequest;
}.

Record FilterClause := mkClause { sql : string; parameters : list (string * param) }.
(** The column is [undefined] when the sort field is a name every object inherits. *)
Record FilterPlan := mkPlan {
  clauses : list FilterClause;
  plan_combination : FilterCombination;
  plan_sort : option (option string * SortDirection);
}.

Definition PARAM_PREFIX : string := "filter".
Definition param_name (i : nat) : string := PARAM_PREFIX +:+ "_" +:+ Z_to_string (Z.of_nat i).

(** ** Objects used as maps *)

(** What every object inherits. *)
Definition inherited : list string :=
  ["constructor"; "toString"; "toLocaleString"; "valueOf"; "hasOwnProperty"; "isPrototypeOf"; "propertyIsEnumerable";
   "__proto__"; "__defineGetter__"; "__defineSetter__"; "__lookupGetter__"; "__lookupSetter__"]%string.

Inductive member (A : Type) := Own (a : A) | Inherited | Absent.
Arguments Own {A}.
Arguments Inherited {A}.
Arguments Absent {A}.

Definition get {A} (obj : list (string * A)) (k : string) : member A :=
  match Mem.find obj k with
  | Some a => Own a
  | None => if bool_decide (k ∈ inherited) then Inherited else Absent
  end.

(** ** Texts *)

Fixpoint split (c : ascii) (s : string) : list string :=
  match s with
  | EmptyString => [""%string]
  | String d s' =>
      if Ascii.eqb d c then ""%string :: split c s'
      else match split c s' with p :: ps => String d p :: ps | [] => [String d ""] end
  end.

Fixpoint map_text (f : ascii -> ascii) (s : string) : string :=
  match s with EmptyString => EmptyString | String c s' => String (f c) (map_text f s') end.
Definition toLowerCase : string -> string :=
  map_text (fun c => let n := N_of_ascii c in if ((65 <=? n) && (n <=? 90))%N then ascii_of_N (n + 32) else c).
Definition toUpperCase : string -> string :=
  map_text (fun c => let n := N_of_ascii c in if ((97 <=? n) && (n <=? 122))%N then ascii_of_N (n - 32) else c).

Definition normalizeArray (value : option (string + list string)) : list string :=
  match value with
  | None => []
  | Some v =>
      let values := match v with inl s => [s] | inr l => l end in
      concat ((fun item => List.filter (fun p => negb (bool_decide (p = ""%string))) (trim <$> split "," item)) <$> values)
  end.

Section service.
Context (Date_parse : string -> Date).

(** ** Reading the values of a request *)

Definition lift {St A} (o : outcome A) : M St A := match o with Ret a => ret a | Throw e => throw e end.

Definition parseOptionalDate (value : option (Date + string)) (label : string) : outcome (option Z) :=
  match value with
  | None => Ret None
  | Some v =>
      match (match v with inl d => d | inr s => Date_parse s end) with
      | Some t => Ret (Some t)
      | None => Throw (BadRequestException (label +:+ " must be a valid date"))
      end
  end.

Definition parseOptionalNumber (value : option (number + string)) (label : string) : outcome (option number) :=
  match value with
  | None => Ret None
  | Some v =>
      let n := match v with inl n => n | inr s => Number_of_string s end in
      if num_finite n then Ret (Some n) else Throw (BadRequestException (label +:+ " must be a valid number"))
  end.

Definition parseBoolean (value : bool + string) (label : string) : outcome bool :=
  match value with
  | inl b => Ret b
  | inr s =>
      if bool_decide (s = "true"%string) then Ret true
      else if bool_decide (s = "false"%string) then Ret false
      else Throw (BadRequestException (label +:+ " must be true or false"))
  end.

Definition assertCombination (c : string) : outcome FilterCombination :=
  if bool_decide (c = "AND"%string) then Ret And
  else if bool_decide (c = "OR"%string) then Ret Or
  else Throw (BadRequestException ("Unsupported filter combination: " +:+ c)).

Context (config : EntityFilterConfig).

(** A function or the prototype has no [type]. *)
Definition getField (field : string) (expected : FilterFieldType) : outcome FilterFieldConfig :=
  let refused := Throw (BadRequestException ("Unsupported " +:+ type_text expected +:+ " filter: " +:+ field)) in
  match get (fields config) field with
  | Own f => if bool_decide (field_type f = expected) then Ret f else refused
  | _ => refused
  end.

(** ** Clauses; the state is [parameterIndex] *)

(** [`${PARAM_PREFIX}_${parameterIndex++}`]. *)
Definition fresh_name : M nat string :=
  await i := gets id in
  do modify S ;>
  ret (param_name i).

Definition bound_clause (col op : string) (v : option param) : M nat (list FilterClause) :=
  match v with
  | None => ret []
  | Some p =>
      await name := fresh_name in
      ret [mkClause (col +:+ " " +:+ op +:+ " :" +:+ name) [(name, p)]]
  end.

Definition range_clauses (col : string) (lo hi : option param) : M nat (list FilterClause) :=
  await a := bound_clause col ">=" lo in
  await b := bound_clause col "<=" hi in
  ret (a ++ b).

Definition date_clauses (entry : string * DateRangeFilter) : M nat (list FilterClause) :=
  let '(field, range) := entry in
  await fieldConfig := lift (getField field DateField) in
  await lo := lift (parseOptionalDate (from range) (field +:+ ".from")) in
  await hi := lift (parseOptionalDate (to range) (field +:+ ".to")) in
  match lo, hi with
  | Some a, Some b =>
      if b <? a then throw (BadRequestException (field +:+ ".from must be before " +:+ field +:+ ".to"))
      else range_clauses (column fieldConfig) (Some (PDate a)) (Some (PDate b))
  | _, _ => range_clauses (column fieldConfig) (PDate <$> lo) (PDate <$> hi)
  end.

Definition number_clauses (entry : string * NumericRangeFilter) : M nat (list FilterClause) :=
  let '(field, range) := entry in
  await fieldConfig := lift (getField field Number) in
  await lo := lift (parseOptionalNumber (min range) (field +:+ ".min")) in
  await hi := lift (parseOptionalNumber (max range) (field +:+ ".max")) in
  match lo, hi with
  | Some a, Some b =>
      if num_ltb b a then throw (BadRequestException (field +:+ ".min must be less than " +:+ field +:+ ".max"))
      else range_clauses (column fieldConfig) (Some (PNum a)) (Some (PNum b))
  | _, _ => range_clauses (column fieldConfig) (PNum <$> lo) (PNum <$> hi)
  end.

Definition address_clause (entry : string * (string + list string)) : M nat (list FilterClause) :=
  let '(field, value) := entry in
  await fieldConfig := lift (getField field Address) in
  let wanted := (fun a => toLowerCase (trim a)) <$> normalizeArray (Some value) in
  if bool_decide (wanted = []) || existsb (fun a => bool_decide (a = ""%string)) wanted
  then throw (BadRequestException (field +:+ " must include a valid address"))
  else
    await name := fresh_name in
    ret [mkClause ("LOWER(" +:+ column fieldConfig +:+ ") IN (:..." +:+ name +:+ ")") [(name, PList wanted)]].

(** The name is taken before the value is read. *)
Definition boolean_clause (entry : string * (bool + string)) : M nat (list FilterClause) :=
  let '(field, value) := entry in
  await fieldConfig := lift (getField field Boolean) in
  await name := fresh_name in
  await b := lift (parseBoolean value field) in
  ret [mkClause (column fieldConfig +:+ " = :" +:+ name) [(name, PBool b)]].

(** *** Statuses *)

Definition condition_sql (c : StatusFilterCondition) : M nat (string * (string * param)) :=
  await name := fresh_name in
  ret (c_field c +:+ " " +:+ operator_text (default OpEq (c_operator c)) +:+ " :" +:+ name, (name, c_value c)).

(** [conditions.map] is not a function when the name is inherited. *)
Definition status_group (status : string) : M nat (string * list (string * param)) :=
  match get (default [] (config_statuses config)) status with
  | Absent => throw (BadRequestException ("Unsupported status filter: " +:+ status))
  | Inherited => throw (TypeError "conditions.map is not a function")
  | Own conditions =>
      await cs := map_each condition_sql conditions in
      ret ("(" +:+ join_with " AND " cs.*1 +:+ ")", cs.*2)
  end.

Definition buildStatusClause (wanted : list string) (startParameterIndex : nat) : outcome FilterClause :=
  match map_each status_group wanted startParameterIndex with
  | (Ret groups, _) => Ret (mkClause ("(" +:+ join_with " OR " groups.*1 +:+ ")") (concat groups.*2))
  | (Throw e, _) => Throw e
  end.

(** [config.statuses?.[status]?.length ?? 0]. *)
Definition status_size (status : string) : nat :=
  match Mem.find (default [] (config_statuses config)) status with Some cs => length cs | None => 0 end.

Definition status_clauses (value : option (string + list string)) : M nat (list FilterClause) :=
  match normalizeArray value with
  | [] => ret []
  | wanted =>
      await i := gets id in
      await c := lift (buildStatusClause wanted i) in
      do modify (fun i => i + foldl (fun n st => n + status_size st) 0 wanted)%nat ;>
      ret [c]
  end.

(** *** Sorting *)

Definition buildSort (s : option SortRequest) : outcome (option (option string * SortDirection)) :=
  match s with
  | None => Ret None
  | Some s =>
      let refused := Throw (BadRequestException ("Unsupported sort field: " +:+ s_field s)) in
      let directed (col : option string) :=
        let d := toUpperCase (default "DESC"%string (s_direction s)) in
        if bool_decide (d = "ASC"%string) then Ret (Some (col, ASC))
        else if bool_decide (d = "DESC"%string) then Ret (Some (col, DESC))
        else Throw (BadRequestException ("Unsupported sort direction: " +:+ default "undefined"%string (s_direction s))) in
      match get (fields config) (s_field s) with
      | Own f => if bool_decide (sortable f = Some false) then refused else directed (Some (column f))
      | Inherited => directed None
      | Absent => refused
      end
  end.

Definition each {A} (f : A -> M nat (list FilterClause)) (l : list A) : M nat (list FilterClause) :=
  await cs := map_each f l in
  ret (concat cs).

Definition plan_clauses (request : FilteringRequest) : M nat (list FilterClause) :=
  await ds := each date_clauses (dateRanges request) in
  await ss := status_clauses (statuses request) in
  await ns := each number_clauses (numericRanges request) in
  await az := each address_clause (addresses request) in
  await bs := each boolean_clause (booleans request) in
  ret (ds ++ ss ++ ns ++ az ++ bs).

Definition buildFilterPlan (request : FilteringRequest) : outcome FilterPlan :=
  match assertCombination (default "AND"%string (combination request)) with
  | Throw e => Throw e
  | Ret comb =>
      match plan_clauses request 0%nat with
      | (Throw e, _) => Throw e
      | (Ret cs, _) =>
          match buildSort (sort request) with
          | Throw e => Throw e
          | Ret srt => Ret (mkPlan cs comb srt)
          end
      end
  end.

(** ** The calls on the query builder *)

Inductive connective := Where | AndWhere | OrWhere.

Inductive builder_call :=
| AndWhereBrackets (inner : list (connective * FilterClause))
| OrderBy (col : option string) (d : SortDirection).

Definition bracket (comb : FilterCombination) (cs : list FilterClause) : list (connective * FilterClause) :=
  match cs with
  | [] => []
  | c :: rest => (Where, c) :: ((fun c => (match comb with Or => OrWhere | And => AndWhere end, c)) <$> rest)
  end.

Definition applyFilters (request : FilteringRequest) : outcome (list builder_call) :=
  match buildFilterPlan request with
  | Throw e => Throw e
  | Ret plan =>
      Ret ((match clauses plan with [] => [] | cs => [AndWhereBrackets (bracket (plan_combination plan) cs)] end)
           ++ (match plan_sort plan with None => [] | Some (col, d) => [OrderBy col d] end))
  end.

(** ** The meaning of the clauses *)

(** A comparison of a column with a parameter: column, operator and parameter name. *)
Definition atom : Type := string * string * string.

Inductive cond :=
| CAtom (a : atom)
| CLowerIn (col name : string)
| CAny (groups : list (list atom)).

Definition print_atom (a : atom) : string := let '(col, op, name) := a in col +:+ " " +:+ op +:+ " :" +:+ name.
Definition print_cond (c : cond) : string :=
  match c with
  | CAtom a => print_atom a
  | CLowerIn col name => "LOWER(" +:+ col +:+ ") IN (:..." +:+ name +:+ ")"
  | CAny groups => "(" +:+ join_with " OR " ((fun g => "(" +:+ join_with " AND " (print_atom <$> g) +:+ ")") <$> groups) +:+ ")"
  end.

(** [AND] and [OR] of SQL, [None] being unknown. *)
Definition and3 (a b : option bool) : option bool :=
  match a, b with
  | Some false, _ | _, Some false => Some false
  | Some true, Some true => Some true
  | _, _ => None
  end.
Definition or3 (a b : option bool) : option bool :=
  match a, b with
  | Some true, _ | _, Some true => Some true
  | Some false, Some false => Some false
  | _, _ => None
  end.
Definition all3 : list (option bool) -> option bool := foldr and3 (Some true).
Definition any3 : list (option bool) -> option bool := foldr or3 (Some false).

Section meaning.
(** The values of columns and the comparisons of the database. *)
Context {V : Type} (db_op : string -> V -> param -> option bool) (db_lower_in : V -> list string -> option bool).

Definition eval_atom (env : string -> option param) (row : string -> V) (a : atom) : option bool :=
  let '(col, op, name) := a in match env name with Some p => db_op op (row col) p | None => None end.
Definition eval (env : string -> option param) (row : string -> V) (c : cond) : option bool :=
  match c with
  | CAtom a => eval_atom env row a
  | CLowerIn col name => match env name with Some (PList l) => db_lower_in (row col) l | _ => None end
  | CAny groups => any3 ((fun g => all3 (eval_atom env row <$> g)) <$> groups)
  end.

(** *** What a request asks of a row, without names and text *)

Definition range_asked (col : string) (lo hi : option param) (row : string -> V) : list (option bool) :=
  match lo with None => [] | Some p => [db_op ">=" (row col) p] end ++
  match hi with None => [] | Some p => [db_op "<=" (row col) p] end.

Definition date_asked (entry : string * DateRangeFilter) (row : string -> V) : list (option bool) :=
  let '(field, range) := entry in
  match getField field DateField, parseOptionalDate (from range) "", parseOptionalDate (to range) "" with
  | Ret f, Ret lo, Ret hi => range_asked (column f) (PDate <$> lo) (PDate <$> hi) row
  | _, _, _ => []
  end.

Definition number_asked (entry : string * NumericRangeFilter) (row : string -> V) : list (option bool) :=
  let '(field, range) := entry in
  match getField field Number, parseOptionalNumber (min range) "", parseOptionalNumber (max range) "" with
  | Ret f, Ret lo, Ret hi => range_asked (column f) (PNum <$> lo) (PNum <$> hi) row
  | _, _, _ => []
  end.

Definition address_asked (entry : string * (string + list string)) (row : string -> V) : list (option bool) :=
  let '(field, value) := entry in
  match getField field Address with
  | Ret f => [db_lower_in (row (column f)) ((fun a => toLowerCase (trim a)) <$> normalizeArray (Some value))]
  | Throw _ => []
  end.

Definition boolean_asked (entry : string * (bool + string)) (row : string -> V) : list (option bool) :=
  let '(field, value) := entry in
  match getField field Boolean, parseBoolean value "" with
  | Ret f, Ret b => [db_op "=" (row (column f)) (PBool b)]
  | _, _ => []
  end.

Definition condition_asked (row : string -> V) (c : StatusFilterCondition) : option bool :=
  db_op (operator_text (default OpEq (c_operator c))) (row (c_field c)) (c_value c).
Definition conditions_of (status : string) : list StatusFilterCondition :=
  default [] (Mem.find (default [] (config_statuses config)) status).
Definition status_asked (value : option (string + list string)) (row : string -> V) : list (option bool) :=
  match normalizeArray value with
  | [] => []
  | wanted => [any3 ((fun st => all3 (condition_asked row <$> conditions_of st)) <$> wanted)]
  end.

Definition asked (request : FilteringRequest) (row : string -> V) : list (option bool) :=
  concat ((fun e => date_asked e row) <$> dateRanges request) ++
  status_asked (statuses request) row ++
  concat ((fun e => number_asked e row) <$> numericRanges request) ++
  concat ((fun e => address_asked e row) <$> addresses request) ++
  concat ((fun e => boolean_asked e row) <$> booleans request).

(** *** Where the text comes from *)

Definition known_columns : list string :=
  (column <$> (fields config).*2) ++ (c_field <$> concat (default [] (config_statuses config)).*2).
Definition known_operators : list string := [">="; "<="; "="; "!="; "IS"; "IS NOT"]%string.

(** Nothing but columns of the configuration, operators and names of parameters. *)
Definition safe_atom (a : atom) : Prop :=
  let '(col, op, name) := a in col ∈ known_columns /\ op ∈ known_operators /\ exists k, name = param_name k.
Definition safe (c : cond) : Prop :=
  match c with
  | CAtom a => safe_atom a
  | CLowerIn col name => col ∈ known_columns /\ exists k, name = param_name k
  | CAny groups => Forall (Forall safe_atom) groups
  end.

Lemma find_value {A} (l : list (string * A)) k v : Mem.find l k = Some v -> v ∈ l.*2.
Proof. induction l as [|[k' v'] l IH]; cbn; [done|]. case_decide; [intros [= ->]; left|right; auto]. Qed.

Lemma getField_known field t f : getField field t = Ret f -> column f ∈ known_columns.
Proof.
  unfold getField, get. destruct (Mem.find (fields config) field) as [g|] eqn:Hf; [|by case_bool_decide].
  case_bool_decide; [|done]. intros [= ->]. apply elem_of_app. left. apply list_elem_of_fmap_2. by eapply find_value.
Qed.

Lemma condition_known status conds c :
  Mem.find (default [] (config_statuses config)) status = Some conds -> c ∈ conds -> c_field c ∈ known_columns.
Proof.
  intros Hf Hc. apply elem_of_app. right. apply list_elem_of_fmap_2. apply list_elem_of_In, in_concat.
  exists conds. split; [apply list_elem_of_In; by eapply find_value|by apply list_elem_of_In].
Qed.

Lemma operator_known o : operator_text o ∈ known_operators.
Proof. apply list_elem_of_In. destruct o; cbn; tauto. Qed.

(** *** Clauses built from index [i] to index [j] mean [w] *)

Definition bindings (cs : list FilterClause) : list (string * param) := concat (parameters <$> cs).
Definition binds (env : string -> option param) (ps : list (string * param)) : Prop :=
  Forall (fun q => env q.1 = Some q.2) ps.

Definition built (i : nat) (cs : list FilterClause) (j : nat) (w : (string -> V) -> list (option bool)) : Prop :=
  (i <= j)%nat /\ (bindings cs).*1 = param_name <$> seq i (j - i) /\
  exists conds, sql <$> cs = print_cond <$> conds /\ Forall safe conds /\
    forall env row, binds env (bindings cs) -> eval env row <$> conds = w row.

Definition builds (m : M nat (list FilterClause)) (w : (string -> V) -> list (option bool)) : Prop :=
  forall i cs j, m i = (Ret cs, j) -> built i cs j w.

Lemma built_nil i : built i [] i (fun _ => []).
Proof. split; [lia|]. rewrite Nat.sub_diag. split; [done|]. exists []. by split_and!. Qed.

Lemma built_app i a j b k w w' : built i a j w -> built j b k w' -> built i (a ++ b) k (fun row => w row ++ w' row).
Proof.
  intros (Hij & Hn & conds & Hs & Hk & He) (Hjk & Hn' & conds' & Hs' & Hk' & He'). split; [lia|].
  unfold bindings in *. rewrite fmap_app, concat_app, !fmap_app, Hn, Hn', <-fmap_app. split.
  - f_equal. replace (k - i)%nat with ((j - i) + (k - j))%nat by lia. rewrite seq_app. by replace (i + (j - i))%nat with j by lia.
  - exists (conds ++ conds'). split; [by rewrite fmap_app, Hs, Hs'|].
    split; [by apply Forall_app|]. intros env row [H1 H2]%Forall_app.
    by rewrite fmap_app, He, He'.
Qed.

Lemma built_one i c cond w :
  (parameters c).*1 = [param_name i] -> sql c = print_cond cond -> safe cond ->
  (forall env row, binds env (parameters c) -> eval env row cond = w row) -> built i [c] (S i) (fun row => [w row]).
Proof.
  intros Hn Hs Hk He. split; [lia|]. replace (S i - i)%nat with 1%nat by lia. unfold bindings. cbn.
  rewrite app_nil_r. split; [done|].
  exists [cond]. simpl. split; [by rewrite Hs|]. split; [by apply Forall_singleton|]. intros env row Hb. by rewrite (He env row Hb).
Qed.

Lemma built_ext i cs j w w' : (forall row, w row = w' row) -> built i cs j w -> built i cs j w'.
Proof. intros Hw (Hij & Hn & conds & Hs & Hk & He). split_and!; [done..|]. exists conds. split_and!; [done..|]. intros. by rewrite He. Qed.

Lemma bind_inv {A B} (m : M nat A) (k : A -> M nat B) i b j :
  bind m k i = (Ret b, j) -> exists a l, m i = (Ret a, l) /\ k a l = (Ret b, j).
Proof. unfold bind. destruct (m i) as [[a|e] l] eqn:Hm; [|done]. eauto. Qed.

Lemma lift_inv {A} (o : outcome A) i a j : lift (St := nat) o i = (Ret a, j) -> o = Ret a /\ j = i.
Proof. destruct o as [x|e]; cbn; [|done]. by intros [= -> ->]. Qed.

Lemma date_label value l l' x : parseOptionalDate value l = Ret x -> parseOptionalDate value l' = Ret x.
Proof. destruct value as [[[|]|s]|]; cbn; try done. by destruct (Date_parse s). Qed.
Lemma number_label value l l' x : parseOptionalNumber value l = Ret x -> parseOptionalNumber value l' = Ret x.
Proof. destruct value as [[n|s]|]; cbn; [by destruct (num_finite n)|by destruct (num_finite _)|done]. Qed.
Lemma boolean_label value l l' x : parseBoolean value l = Ret x -> parseBoolean value l' = Ret x.
Proof. destruct value as [b|s]; unfold parseBoolean; [done|]. repeat case_bool_decide; done. Qed.

Lemma binds_one env n p : binds env [(n, p)] -> env n = Some p.
Proof. unfold binds. by rewrite Forall_singleton. Qed.

(** Inverts a run of binds that ends well. *)
Ltac run_inv :=
  repeat match goal with
  | H : bind _ _ _ = (Ret _, _) |- _ => apply bind_inv in H as (? & ? & ? & H); cbv beta in H
  | H : lift _ _ = (Ret _, _) |- _ => apply lift_inv in H as [? ->]
  | H : ret _ _ = (Ret _, _) |- _ => injection H as <- <-
  | H : throw _ _ = (Ret _, _) |- _ => discriminate H
  | H : fresh_name ?i = (Ret ?n, ?j) |- _ => injection H as <- <-
  end.

Lemma bound_clause_builds col op v :
  col ∈ known_columns -> op ∈ known_operators ->
  builds (bound_clause col op v) (fun row => match v with None => [] | Some p => [db_op op (row col) p] end).
Proof.
  intros Hc Ho i cs j. unfold bound_clause. destruct v as [p|]; intros H; run_inv; [|apply built_nil].
  apply (built_one i _ (CAtom (col, op, param_name i))); [done|done|cbn; eauto|].
  intros env row Hb%binds_one. cbn [eval eval_atom]. by rewrite Hb.
Qed.

Lemma range_clauses_builds col lo hi : col ∈ known_columns -> builds (range_clauses col lo hi) (range_asked col lo hi).
Proof.
  intros Hc i cs j H. unfold range_clauses in H. run_inv.
  eapply built_app; (eapply bound_clause_builds; [done| |done]); apply list_elem_of_In; cbn; tauto.
Qed.

Lemma date_clauses_builds entry : builds (date_clauses entry) (date_asked entry).
Proof.
  destruct entry as [field range]. intros i cs j H. unfold date_clauses in H. run_inv.
  match goal with H1 : parseOptionalDate (from _) _ = Ret ?lo, H2 : parseOptionalDate (to _) _ = Ret ?hi, H3 : getField _ _ = Ret ?f |- _ =>
    apply (date_label _ _ ""%string) in H1, H2;
    assert (Hb : built i cs j (range_asked (column f) (PDate <$> lo) (PDate <$> hi)))
      by (destruct lo, hi; try (destruct (_ <? _); [done|]); (eapply range_clauses_builds; [by eapply getField_known|done]));
    eapply built_ext; [|exact Hb]; intros row; unfold date_asked; by rewrite H3, H1, H2
  end.
Qed.

Lemma number_clauses_builds entry : builds (number_clauses entry) (number_asked entry).
Proof.
  destruct entry as [field range]. intros i cs j H. unfold number_clauses in H. run_inv.
  match goal with H1 : parseOptionalNumber (min _) _ = Ret ?lo, H2 : parseOptionalNumber (max _) _ = Ret ?hi, H3 : getField _ _ = Ret ?f |- _ =>
    apply (number_label _ _ ""%string) in H1, H2;
    assert (Hb : built i cs j (range_asked (column f) (PNum <$> lo) (PNum <$> hi)))
      by (destruct lo, hi; try (destruct (num_ltb _ _); [done|]); (eapply range_clauses_builds; [by eapply getField_known|done]));
    eapply built_ext; [|exact Hb]; intros row; unfold number_asked; by rewrite H3, H1, H2
  end.
Qed.

Lemma address_clause_builds entry : builds (address_clause entry) (address_asked entry).
Proof.
  destruct entry as [field value]. intros i cs j H. unfold address_clause in H. run_inv.
  match goal with H3 : getField _ _ = Ret ?f |- _ =>
    eapply built_ext; [intros row; unfold address_asked; rewrite H3; reflexivity|] end.
  destruct (_ || _) in H; [done|]. run_inv. eapply (built_one _ _ (CLowerIn _ _)); [done|done|split; [by eapply getField_known|eauto]|].
  intros env row Hb%binds_one. cbn [eval eval_atom]. by rewrite Hb.
Qed.

Lemma boolean_clause_builds entry : builds (boolean_clause entry) (boolean_asked entry).
Proof.
  destruct entry as [field value]. intros i cs j H. unfold boolean_clause in H. run_inv.
  match goal with H3 : getField _ _ = Ret ?f, H1 : parseBoolean _ _ = Ret _ |- _ =>
    apply (boolean_label _ _ ""%string) in H1;
    eapply built_ext; [intros row; unfold boolean_asked; rewrite H3, H1; reflexivity|] end.
  eapply (built_one _ _ (CAtom (_, "="%string, _)));
    [done|done|split; [by eapply getField_known|split; [apply (operator_known OpEq)|eauto]]|].
  intros env row Hb%binds_one. cbn [eval eval_atom]. by rewrite Hb.
Qed.

Lemma each_builds {A} (f : A -> M nat (list FilterClause)) w l :
  (forall a, builds (f a) (w a)) -> builds (each f l) (fun row => concat ((fun a => w a row) <$> l)).
Proof.
  intros Hf i cs j H. unfold each in H. apply bind_inv in H as (css & k & Hm & H). injection H as <- ->.
  revert i css Hm. induction l as [|a l IH]; intros i css Hm; cbn [map_each] in Hm; run_inv; [apply built_nil|].
  cbn. eapply built_app; [by eapply Hf|by eapply IH].
Qed.

(** *** Statuses *)

Lemma conditions_run cs i r j :
  Forall (fun c => c_field c ∈ known_columns) cs ->
  map_each condition_sql cs i = (Ret r, j) ->
  j = (i + length cs)%nat /\ r.*2.*1 = param_name <$> seq i (length cs) /\
  exists atoms, r.*1 = print_atom <$> atoms /\ Forall safe_atom atoms /\
    forall env row, binds env r.*2 -> eval_atom env row <$> atoms = condition_asked row <$> cs.
Proof.
  revert i r. induction cs as [|c cs IH]; intros i r Hk Hr; cbn [map_each] in Hr; unfold condition_sql in Hr; run_inv.
  - split_and!; [cbn; lia|done|]. exists []. by split_and!.
  - apply Forall_cons in Hk as [Hc0 Hk]. match goal with H : map_each _ _ _ = _ |- _ => apply IH in H as (-> & Hn & atoms & Ha & Hs & He); [|done] end.
    split_and!; [simpl; lia|cbn; by rewrite Hn|].
    exists ((c_field c, operator_text (default OpEq (c_operator c)), param_name i) :: atoms). split; [cbn; by rewrite Ha|].
    split; [constructor; [|done]; split; [done|]; split; [apply operator_known|eauto]|].
    intros env row [Hc Hb]%Forall_cons. cbn in Hc. rewrite !fmap_cons, (He env row Hb). cbn [eval_atom]. by rewrite Hc.
Qed.

Lemma groups_run wanted i r j :
  map_each status_group wanted i = (Ret r, j) ->
  j = (i + foldr (fun st n => status_size st + n) 0 wanted)%nat /\
  (concat r.*2).*1 = param_name <$> seq i (j - i) /\
  exists groups, r.*1 = (fun g => "(" +:+ join_with " AND " (print_atom <$> g) +:+ ")") <$> groups /\
    Forall (Forall safe_atom) groups /\
    forall env row, binds env (concat r.*2) ->
      (fun g => all3 (eval_atom env row <$> g)) <$> groups =
      (fun st => all3 (condition_asked row <$> conditions_of st)) <$> wanted.
Proof.
  revert i r. induction wanted as [|st wanted IH]; intros i r Hr; cbn [map_each] in Hr; run_inv.
  - rewrite Nat.sub_diag. split_and!; [cbn; lia|done|]. exists []. by split_and!.
  - match goal with H : map_each _ wanted _ = _, H' : status_group _ _ = _ |- _ =>
      rename H' into Hst; apply IH in H as (-> & Hn & groups & Hg & Hk & He) end. clear IH.
    unfold status_group, get in Hst. destruct (Mem.find _ st) as [conds|] eqn:Hf; [|by case_bool_decide].
    run_inv. match goal with H : map_each condition_sql _ _ = _ |- _ => apply conditions_run in H as (-> & Hn' & atoms & Ha & Hk' & He');
      [|apply Forall_forall; intros c Hc; by eapply condition_known] end.
    assert (Hs : status_size st = length conds) by (unfold status_size; by rewrite Hf).
    cbn [foldr]. rewrite Hs. split_and!; [lia| |].
    + cbn. rewrite fmap_app, Hn, Hn', <-fmap_app, <-seq_app. do 2 f_equal. lia.
    + exists (atoms :: groups). split; [cbn; by rewrite Ha, Hg|]. split; [by constructor|]. intros env row Hb. cbn in Hb.
      apply Forall_app in Hb as [Hb1 Hb2]. rewrite !fmap_cons, (He env row Hb2), (He' env row Hb1).
      unfold conditions_of. by rewrite Hf.
Qed.

Lemma foldl_sizes wanted n : foldl (fun n st => n + status_size st)%nat n wanted = (n + foldr (fun st n => status_size st + n) 0 wanted)%nat.
Proof. revert n. induction wanted as [|st wanted IH]; intros n; cbn; [lia|]. rewrite IH. lia. Qed.

Lemma status_clauses_builds value : builds (status_clauses value) (status_asked value).
Proof.
  intros i cs j H. unfold status_clauses in H. unfold status_asked.
  destruct (normalizeArray value) as [|st rest] eqn:Hw; [run_inv; apply built_nil|]. rewrite <-Hw in *. clear Hw.
  set (wanted := normalizeArray value) in *. clearbody wanted.
  unfold bind, gets, modify in H. cbn [id] in H. unfold buildStatusClause in H.
  destruct (map_each status_group wanted i) as [[groups|e] k] eqn:Hm; [|done]. injection H as <- <-.
  apply groups_run in Hm as (-> & Hn & gs & Hg & Hk & He). rewrite foldl_sizes. split; [lia|]. unfold bindings. cbn.
  rewrite app_nil_r. split; [rewrite Hn; do 2 f_equal; lia|].
  exists [CAny gs]. cbn. rewrite Hg. split; [done|]. split; [by apply Forall_singleton|]. intros env row Hb. rewrite ?app_nil_r in Hb. by rewrite (He env row Hb).
Qed.

Lemma plan_clauses_builds request : builds (plan_clauses request) (asked request).
Proof.
  intros i cs j H. unfold plan_clauses in H.
  repeat (apply bind_inv in H as (? & ? & ? & H); cbv beta in H). injection H as <- <-.
  unfold asked. repeat eapply built_app; first
    [ by eapply (each_builds _ _ _ date_clauses_builds) | by eapply status_clauses_builds
    | by eapply (each_builds _ _ _ number_clauses_builds) | by eapply (each_builds _ _ _ address_clause_builds)
    | by eapply (each_builds _ _ _ boolean_clause_builds) ].
Qed.

Lemma param_name_inj i j : param_name i = param_name j -> i = j.
Proof. unfold param_name, PARAM_PREFIX. cbn. intros [= H%Z_to_string_inj]. lia. Qed.

Lemma plan_inv request plan :
  buildFilterPlan request = Ret plan ->
  assertCombination (default "AND"%string (combination request)) = Ret (plan_combination plan) /\
  (exists j, plan_clauses request 0%nat = (Ret (clauses plan), j)) /\ buildSort (sort request) = Ret (plan_sort plan).
Proof.
  unfold buildFilterPlan. destruct (assertCombination _); [|done].
  destruct (plan_clauses request 0%nat) as [[cs|e] j]; [|done]. destruct (buildSort _); [|done]. intros [= <-]. eauto.
Qed.

(** *** The condition of the builder's calls *)

(** The parameters the calls bind. *)
Definition call_bindings (calls : list builder_call) : list (string * param) :=
  concat ((fun c => match c with AndWhereBrackets inner => bindings inner.*2 | OrderBy _ _ => [] end) <$> calls).

(** A clause is the text of a condition that has the value [v] of a row. *)
Definition clause_means (env : string -> option param) (row : string -> V) (c : FilterClause) (v : option bool) : Prop :=
  exists cond, sql c = print_cond cond /\ safe cond /\ v = eval env row cond.

(** The operands of [OR] in a chain of calls: [AND] binds tighter, and [where] starts
    over. *)
Fixpoint disjuncts (cur : list (option bool)) (l : list (connective * option bool)) : list (list (option bool)) :=
  match l with
  | [] => [cur]
  | (Where, v) :: l' => disjuncts [v] l'
  | (AndWhere, v) :: l' => disjuncts (cur ++ [v]) l'
  | (OrWhere, v) :: l' => cur :: disjuncts [v] l'
  end.

Inductive calls_mean (env : string -> option param) (row : string -> V) : list builder_call -> option bool -> Prop :=
| mean_none : calls_mean env row [] (Some true)
| mean_brackets inner vs calls v :
    Forall2 (fun ic x => clause_means env row ic.2 x) inner vs -> calls_mean env row calls v ->
    calls_mean env row (AndWhereBrackets inner :: calls)
      (and3 (any3 (all3 <$> disjuncts [] (zip inner.*1 vs))) v)
| mean_order col d calls v : calls_mean env row calls v -> calls_mean env row (OrderBy col d :: calls) v.

(** *** What a request asks, apart from the code *)

(** A field the configuration declares with this type. *)
Definition declared (field : string) (t : FilterFieldType) (f : FilterFieldConfig) : Prop :=
  Mem.find (fields config) field = Some f /\ field_type f = t.

Inductive date_value : Date + string -> Z -> Prop :=
| date_given t : date_value (inl (Some t)) t
| date_text s t : Date_parse s = Some t -> date_value (inr s) t.

Inductive number_value : number + string -> number -> Prop :=
| number_given n : num_finite n = true -> number_value (inl n) n
| number_text s n : Number_of_string s = n -> num_finite n = true -> number_value (inr s) n.

Inductive boolean_value : bool + string -> bool -> Prop :=
| boolean_given b : boolean_value (inl b) b
| boolean_true : boolean_value (inr "true"%string) true
| boolean_false : boolean_value (inr "false"%string) false.

(** A text lists the parts between its commas that are not blank. *)
Definition lists (text : string) (ws : list string) : Prop :=
  exists parts, parts ≠ [] /\ Forall (fun p => free_of "," p = true) parts /\ join_with "," parts = text /\
    ws = List.filter (fun w => negb (bool_decide (w = ""%string))) (trim <$> parts).

Inductive list_value : option (string + list string) -> list string -> Prop :=
| list_absent : list_value None []
| list_text s ws : lists s ws -> list_value (Some (inl s)) ws
| list_texts l wss : Forall2 lists l wss -> list_value (Some (inr l)) (concat wss).

Definition compared (op : string) (v : V) (bound : option param) : list (option bool) :=
  match bound with None => [] | Some p => [db_op op v p] end.

(** The values, of one row, of the conditions an entry of the request asks for. *)
Inductive date_asks (row : string -> V) : string * DateRangeFilter -> list (option bool) -> Prop :=
| date_entry field range f lo hi :
    declared field DateField f -> option_Forall2 date_value (from range) lo -> option_Forall2 date_value (to range) hi ->
    (forall a b, lo = Some a -> hi = Some b -> a <= b) ->
    date_asks row (field, range) (compared ">=" (row (column f)) (PDate <$> lo) ++ compared "<=" (row (column f)) (PDate <$> hi)).

Inductive number_asks (row : string -> V) : string * NumericRangeFilter -> list (option bool) -> Prop :=
| number_entry field range f lo hi :
    declared field Number f -> option_Forall2 number_value (min range) lo -> option_Forall2 number_value (max range) hi ->
    (forall a b, lo = Some a -> hi = Some b -> num_ltb b a = false) ->
    number_asks row (field, range) (compared ">=" (row (column f)) (PNum <$> lo) ++ compared "<=" (row (column f)) (PNum <$> hi)).

Inductive address_asks (row : string -> V) : string * (string + list string) -> list (option bool) -> Prop :=
| address_entry field value f ws :
    declared field Address f -> list_value (Some value) ws -> ws ≠ [] ->
    address_asks row (field, value) [db_lower_in (row (column f)) ((fun a => toLowerCase (trim a)) <$> ws)].

Inductive boolean_asks (row : string -> V) : string * (bool + string) -> list (option bool) -> Prop :=
| boolean_entry field value f b :
    declared field Boolean f -> boolean_value value b ->
    boolean_asks row (field, value) [db_op "=" (row (column f)) (PBool b)].

(** One of the listed statuses, each with all of its conditions. *)
Inductive status_asks (row : string -> V) (value : option (string + list string)) : list (option bool) -> Prop :=
| status_none : list_value value [] -> status_asks row value []
| status_some ws conds :
    list_value value ws -> ws ≠ [] ->
    Forall2 (fun st cs => Mem.find (default [] (config_statuses config)) st = Some cs) ws conds ->
    status_asks row value [any3 ((fun cs => all3 (condition_asked row <$> cs)) <$> conds)].

Inductive asks (request : FilteringRequest) (row : string -> V) : list (option bool) -> Prop :=
| asks_all ds ss ns az bs :
    Forall2 (date_asks row) (dateRanges request) ds -> status_asks row (statuses request) ss ->
    Forall2 (number_asks row) (numericRanges request) ns -> Forall2 (address_asks row) (addresses request) az ->
    Forall2 (boolean_asks row) (booleans request) bs ->
    asks request row (concat ds ++ ss ++ concat ns ++ concat az ++ concat bs).

(** The conditions are combined as asked, all of them by default; none at all leaves the
    row in. *)
Inductive combines : option string -> list (option bool) -> option bool -> Prop :=
| combine_none c : combines c [] (Some true)
| combine_default vs : vs ≠ [] -> combines None vs (all3 vs)
| combine_and vs : vs ≠ [] -> combines (Some "AND"%string) vs (all3 vs)
| combine_or vs : vs ≠ [] -> combines (Some "OR"%string) vs (any3 vs).

(** *** The two agree *)

Lemma getField_declared field t f : getField field t = Ret f -> declared field t f.
Proof.
  unfold getField, get, declared. destruct (Mem.find _ field) as [g|]; [|by case_bool_decide].
  case_bool_decide; [|done]. by intros [= ->].
Qed.

Lemma parseOptionalDate_value v l d : parseOptionalDate v l = Ret d -> option_Forall2 date_value v d.
Proof.
  destruct v as [[[t|]|s]|]; cbn; try done; [intros [= <-]; constructor; constructor| |intros [= <-]; constructor].
  destruct (Date_parse s) eqn:Hs; [|done]. intros [= <-]. by constructor; constructor.
Qed.

Lemma parseOptionalNumber_value v l n : parseOptionalNumber v l = Ret n -> option_Forall2 number_value v n.
Proof.
  destruct v as [[m|s]|]; cbn; [| |intros [= <-]; constructor]; destruct (num_finite _) eqn:Hf; try done;
    intros [= <-]; by constructor; constructor.
Qed.

Lemma parseBoolean_value v l b : parseBoolean v l = Ret b -> boolean_value v b.
Proof.
  destruct v as [c|s]; cbn; [intros [= <-]; constructor|].
  repeat case_bool_decide; subst; try done; intros [= <-]; constructor.
Qed.

Lemma split_parts c s :
  split c s ≠ [] /\ Forall (fun p => free_of c p = true) (split c s) /\ join_with (String c "") (split c s) = s.
Proof.
  induction s as [|d s (Hne & Hf & Hj)]; [by split_and!; [|constructor|]|]. cbn [split].
  destruct (Ascii.eqb_spec d c) as [->|Hd].
  - split_and!; [done|by constructor|]. destruct (split c s) as [|p ps]; [done|]. cbn in Hj |- *. by rewrite Hj.
  - destruct (split c s) as [|p ps]; [done|]. apply Forall_cons in Hf as [Hp Hf]. split_and!; [done| |].
    + constructor; [|done]. unfold free_of. cbn. rewrite bool_decide_false by done. exact Hp.
    + rewrite <-Hj. by destruct ps.
Qed.

Lemma normalizeArray_value v : list_value v (normalizeArray v).
Proof.
  assert (Hl : forall s, lists s (List.filter (fun p => negb (bool_decide (p = ""%string))) (trim <$> split "," s))).
  { intros s. exists (split "," s). destruct (split_parts "," s) as (H1 & H2 & H3). by split_and!. }
  destruct v as [[s|l]|]; cbn [normalizeArray]; [| |constructor].
  - cbn. rewrite app_nil_r. constructor. apply Hl.
  - constructor. apply Forall2_fmap_r, Forall_Forall2_diag, Forall_forall. auto.
Qed.

Definition runs {A} (m : M nat A) : Prop := exists i a j, m i = (Ret a, j).

Lemma date_clauses_asks e row : runs (date_clauses e) -> date_asks row e (date_asked e row).
Proof.
  destruct e as [field range]. intros (i & cs & j & H). unfold date_clauses in H. run_inv.
  match goal with H1 : parseOptionalDate (from _) _ = Ret ?lo, H2 : parseOptionalDate (to _) _ = Ret ?hi, H3 : getField _ _ = Ret ?f |- _ =>
    unfold date_asked; rewrite H3, (date_label _ _ ""%string _ H1), (date_label _ _ ""%string _ H2);
    apply date_entry; [by apply getField_declared|by eapply parseOptionalDate_value..|] end.
  intros a b -> ->. destruct (Z.ltb_spec b a); [done|lia].
Qed.

Lemma number_clauses_asks e row : runs (number_clauses e) -> number_asks row e (number_asked e row).
Proof.
  destruct e as [field range]. intros (i & cs & j & H). unfold number_clauses in H. run_inv.
  match goal with H1 : parseOptionalNumber (min _) _ = Ret ?lo, H2 : parseOptionalNumber (max _) _ = Ret ?hi, H3 : getField _ _ = Ret ?f |- _ =>
    unfold number_asked; rewrite H3, (number_label _ _ ""%string _ H1), (number_label _ _ ""%string _ H2);
    apply number_entry; [by apply getField_declared|by eapply parseOptionalNumber_value..|] end.
  intros a b -> ->. by destruct (num_ltb b a).
Qed.

Lemma address_clause_asks e row : runs (address_clause e) -> address_asks row e (address_asked e row).
Proof.
  destruct e as [field value]. intros (i & cs & j & H). unfold address_clause in H. run_inv.
  match goal with H3 : getField _ _ = Ret ?f |- _ => unfold address_asked; rewrite H3; apply address_entry end.
  - by apply getField_declared.
  - apply normalizeArray_value.
  - intros Hn. rewrite Hn in H. done.
Qed.

Lemma boolean_clause_asks e row : runs (boolean_clause e) -> boolean_asks row e (boolean_asked e row).
Proof.
  destruct e as [field value]. intros (i & cs & j & H). unfold boolean_clause in H. run_inv.
  match goal with H3 : getField _ _ = Ret ?f, H1 : parseBoolean _ _ = Ret _ |- _ =>
    unfold boolean_asked; rewrite H3, (boolean_label _ _ ""%string _ H1); apply boolean_entry;
    [by apply getField_declared|by eapply parseBoolean_value] end.
Qed.

Lemma each_runs {A} (f : A -> M nat (list FilterClause)) (R : A -> list (option bool) -> Prop) w l :
  (forall a, runs (f a) -> R a (w a)) -> runs (each f l) -> Forall2 R l (w <$> l).
Proof.
  intros HR (i & cs & j & H). unfold each in H. apply bind_inv in H as (css & k & H & _).
  revert i css k H. induction l as [|a l IH]; intros i css k H; [constructor|].
  cbn [map_each] in H. run_inv. csimpl. constructor; [|by eapply IH]. apply HR. by eexists _, _, _.
Qed.

Lemma groups_known wanted i r j :
  map_each status_group wanted i = (Ret r, j) ->
  Forall2 (fun st cs => Mem.find (default [] (config_statuses config)) st = Some cs) wanted (conditions_of <$> wanted).
Proof.
  revert i r j. induction wanted as [|st wanted IH]; intros i r j H; [constructor|].
  cbn [map_each] in H. apply bind_inv in H as (g & k & Hg & H). apply bind_inv in H as (gs & k' & Hgs & _).
  csimpl. constructor; [|by eapply IH]. unfold status_group, get in Hg. unfold conditions_of.
  by destruct (Mem.find _ st) as [cs|]; [|case_bool_decide].
Qed.

Lemma status_clauses_asks value row : runs (status_clauses value) -> status_asks row value (status_asked value row).
Proof.
  intros (i & cs & j & H). unfold status_clauses in H. unfold status_asked.
  pose proof (normalizeArray_value value) as Hv. destruct (normalizeArray value) as [|st rest]; [by constructor|].
  unfold bind, gets in H. unfold buildStatusClause in H.
  destruct (map_each status_group (st :: rest) (id i)) as [[groups|e] k] eqn:Hm; [|done].
  apply groups_known in Hm.
  change (status_asks row value [any3 (((fun cs => all3 (condition_asked row <$> cs)) ∘ conditions_of) <$> st :: rest)]).
  rewrite list_fmap_compose.
  by apply (status_some row value (st :: rest)).
Qed.

Lemma plan_clauses_asks request row : runs (plan_clauses request) -> asks request row (asked request row).
Proof.
  intros (i & cs & j & H). unfold plan_clauses in H.
  repeat (apply bind_inv in H as (? & ? & ? & H); cbv beta in H). unfold asked. constructor.
  - apply (each_runs date_clauses _ (fun e => date_asked e row)); [intros a; apply date_clauses_asks|]. by eexists _, _, _.
  - apply status_clauses_asks. by eexists _, _, _.
  - apply (each_runs number_clauses _ (fun e => number_asked e row)); [intros a; apply number_clauses_asks|]. by eexists _, _, _.
  - apply (each_runs address_clause _ (fun e => address_asked e row)); [intros a; apply address_clause_asks|]. by eexists _, _, _.
  - apply (each_runs boolean_clause _ (fun e => boolean_asked e row)); [intros a; apply boolean_clause_asks|]. by eexists _, _, _.
Qed.

(** Chains of one connective. *)
Lemma disjuncts_and cur vs : disjuncts cur (pair AndWhere <$> vs) = [cur ++ vs].
Proof. revert cur. induction vs as [|v vs IH]; intros cur; cbn; [by rewrite app_nil_r|]. by rewrite IH, <-app_assoc. Qed.
Lemma disjuncts_or v vs : disjuncts [v] (pair OrWhere <$> vs) = (fun x => [x]) <$> v :: vs.
Proof. revert v. induction vs as [|x vs IH]; intros v; cbn; [done|]. by rewrite IH. Qed.

Lemma and3_true_r v : and3 v (Some true) = v.
Proof. by destruct v as [[]|]. Qed.
Lemma or3_false_r v : or3 v (Some false) = v.
Proof. by destruct v as [[]|]. Qed.

Lemma bracket_value comb c cs v vs :
  length cs = length vs ->
  any3 (all3 <$> disjuncts [] (zip (bracket comb (c :: cs)).*1 (v :: vs))) =
    match comb with And => all3 (v :: vs) | Or => any3 (v :: vs) end.
Proof.
  intros Hl. cbn [bracket fmap list_fmap fst zip disjuncts].
  assert (Hz : forall k : connective, zip ((fun c => (k, c)) <$> cs).*1 vs = pair k <$> vs).
  { intros k. rewrite <-list_fmap_compose. clear -Hl. revert vs Hl.
    induction cs as [|x cs IH]; intros [|y vs] Hl; try done. cbn in *. f_equal. apply IH. by injection Hl. }
  destruct comb; cbn [fst]; rewrite Hz.
  - rewrite disjuncts_and. cbn [fmap list_fmap any3 foldr]. apply or3_false_r.
  - rewrite disjuncts_or, <-list_fmap_compose. f_equal.
    rewrite <-(list_fmap_id (v :: vs)) at 2. apply list_fmap_ext. intros _ x _. apply and3_true_r.
Qed.

Lemma bracket_clauses comb cs : (bracket comb cs).*2 = cs.
Proof. destruct cs as [|c cs]; [done|]. cbn. f_equal. rewrite <-list_fmap_compose. apply list_fmap_id. Qed.

Lemma bracket_means env row comb cs conds :
  sql <$> cs = print_cond <$> conds -> Forall safe conds ->
  Forall2 (fun ic x => clause_means env row ic.2 x) (bracket comb cs) (eval env row <$> conds).
Proof.
  intros Hs Hk. apply (Forall2_fmap_l snd (clause_means env row)). rewrite bracket_clauses.
  revert conds Hs Hk. induction cs as [|c cs IH]; intros [|cd conds] Hs Hk; try done.
  cbn in Hs. injection Hs as Hc Hs. apply Forall_cons in Hk as [Hk1 Hk]. csimpl. constructor; [by exists cd|by apply IH].
Qed.

Lemma combination_known c comb vs :
  assertCombination (default "AND"%string c) = Ret comb -> vs ≠ [] ->
  combines c vs (match comb with And => all3 vs | Or => any3 vs end).
Proof.
  unfold assertCombination. intros H Hv.
  destruct c as [t|]; [change (default "AND"%string (Some t)) with t in H|injection H as <-; by constructor].
  repeat case_bool_decide; subst; try done; injection H as <-; by constructor.
Qed.

(** The calls of a plan. *)
Definition order_calls (plan : FilterPlan) : list builder_call :=
  match plan_sort plan with None => [] | Some (col, d) => [OrderBy col d] end.
Definition bracket_calls (plan : FilterPlan) : list builder_call :=
  match clauses plan with [] => [] | c :: cs => [AndWhereBrackets (bracket (plan_combination plan) (c :: cs))] end.

Lemma applyFilters_inv request calls :
  applyFilters request = Ret calls ->
  exists plan, buildFilterPlan request = Ret plan /\ calls = bracket_calls plan ++ order_calls plan.
Proof.
  unfold applyFilters. destruct (buildFilterPlan request) as [plan|]; [|done]. intros [= <-].
  exists plan. split; [done|]. unfold bracket_calls. by destruct (clauses plan).
Qed.

Lemma plan_bindings plan : call_bindings (bracket_calls plan ++ order_calls plan) = bindings (clauses plan).
Proof.
  unfold call_bindings. rewrite fmap_app, concat_app.
  replace (concat (_ <$> order_calls plan)) with (@nil (string * param))
    by (unfold order_calls; by destruct (plan_sort plan) as [[]|]).
  rewrite app_nil_r. unfold bracket_calls. destruct (clauses plan) as [|c cs]; [done|].
  transitivity (bindings (bracket (plan_combination plan) (c :: cs)).*2 ++ []); [reflexivity|].
  by rewrite app_nil_r, bracket_clauses.
Qed.

Lemma order_calls_mean env row plan : calls_mean env row (order_calls plan) (Some true).
Proof. unfold order_calls. destruct (plan_sort plan) as [[col d]|]; repeat constructor. Qed.

(** C16: The calls that [applyFilters] makes on the query builder put on every row the
    condition that the request asks for, whatever the database makes of a comparison: the
    value of the bracket, its chain of [where], [andWhere] and [orWhere] read with [AND]
    binding tighter than [OR] and its parameters taken from what the calls bind, is the
    conjunction (or, when the request says OR, the disjunction) of the values of the date,
    status, number, address and flag conditions of the request.  Every parameter name is
    bound once, and the text has only columns of the configuration, operators and
    parameter names. *)
Theorem filters_mean_request request calls :
  applyFilters request = Ret calls ->
  NoDup (call_bindings calls).*1 /\
  forall row, exists vs v, asks request row vs /\ combines (combination request) vs v /\
    calls_mean (Mem.find (call_bindings calls)) row calls v.
Proof.
  intros (plan & Hp & ->)%applyFilters_inv. apply plan_inv in Hp as (Hcomb & [j Hc] & _).
  assert (Hruns : runs (plan_clauses request)) by (by eexists _, _, _).
  apply plan_clauses_builds in Hc as (_ & Hn & conds & Hs & Hk & He). rewrite plan_bindings.
  assert (Hnd : NoDup (bindings (clauses plan)).*1).
  { rewrite Hn. apply NoDup_fmap_2; [intros x y; apply param_name_inj|apply NoDup_seq]. }
  split; [done|]. intros row. exists (asked request row).
  assert (Henv : eval (Mem.find (bindings (clauses plan))) row <$> conds = asked request row).
  { apply He, Forall_forall. intros [n p] Hin. by apply Mem.find_elem. }
  pose proof (plan_clauses_asks request row Hruns) as Hasks. unfold bracket_calls.
  destruct (clauses plan) as [|c cs].
  - apply symmetry, fmap_nil_inv in Hs as ->. rewrite <-Henv in Hasks |- *.
    exists (Some true). split; [exact Hasks|]. split; [constructor|apply order_calls_mean].
  - destruct conds as [|cd cds]; [done|]. rewrite <-Henv in Hasks |- *.
    eexists. split; [exact Hasks|]. split; [by apply combination_known|].
    rewrite <-(and3_true_r (match plan_combination plan with And => _ | Or => _ end)).
    rewrite fmap_cons, <-(bracket_value _ c cs) by (apply (f_equal length) in Hs; cbn in Hs; rewrite !length_fmap in *; lia).
    apply mean_brackets; [|apply order_calls_mean]. by apply (bracket_means _ _ _ (c :: cs) (cd :: cds)).
Qed.
End meaning.

(** ** Refusals *)

Definition throws {A} (P : exn -> Prop) (m : M nat A) : Prop := forall i e j, m i = (Throw e, j) -> P e.

Lemma throws_ret {A} P (a : A) : throws P (ret a).
Proof. by intros i e j. Qed.
Lemma throws_throw {A} (P : exn -> Prop) e : P e -> throws (A := A) P (throw e).
Proof. intros He i e' j [= <- <-]. done. Qed.
Lemma throws_lift {A} (P : exn -> Prop) (o : outcome A) : (forall e, o = Throw e -> P e) -> throws P (lift o).
Proof. intros Ho i e j. destruct o; cbn; [done|]. intros [= <- <-]. auto. Qed.
Lemma throws_bind {A B} P (m : M nat A) (k : A -> M nat B) : throws P m -> (forall a, throws P (k a)) -> throws P (bind m k).
Proof.
  intros Hm Hk i e j. unfold bind. destruct (m i) as [[a|e'] l] eqn:Hr; [apply Hk|]. intros [= <- <-]. by eapply Hm.
Qed.
Lemma throws_map_each {A B} P (f : A -> M nat B) l : (forall a, a ∈ l -> throws P (f a)) -> throws P (map_each f l).
Proof.
  induction l as [|a l IH]; intros Hf; cbn [map_each]; [apply throws_ret|].
  apply throws_bind; [apply Hf; left|]. intros b. apply throws_bind; [|intros; apply throws_ret].
  apply IH. intros x Hx. apply Hf. by right.
Qed.

Definition bad_request (e : exn) : Prop := exists text, e = BadRequestException text.

Create HintDb refusals.
#[local] Hint Resolve throws_ret throws_throw throws_lift throws_bind : refusals.
#[local] Hint Extern 1 (bad_request (BadRequestException ?t)) => exists t; reflexivity : refusals.

Lemma getField_refuses field t e : getField field t = Throw e -> bad_request e.
Proof.
  unfold getField. destruct (get _ _); [case_bool_decide|..]; try done; intros [= <-]; eexists; reflexivity.
Qed.
Lemma date_refuses value l e : parseOptionalDate value l = Throw e -> bad_request e.
Proof. destruct value as [v|]; cbn; [|done]. destruct (match v with inl _ => _ | inr _ => _ end); [done|]. intros [= <-]. by eexists. Qed.
Lemma number_refuses value l e : parseOptionalNumber value l = Throw e -> bad_request e.
Proof. destruct value as [v|]; cbn; [|done]. destruct (num_finite _); [done|]. intros [= <-]. by eexists. Qed.
Lemma boolean_refuses value l e : parseBoolean value l = Throw e -> bad_request e.
Proof. destruct value as [b|s]; unfold parseBoolean; [done|]. repeat case_bool_decide; try done. intros [= <-]. by eexists. Qed.
#[local] Hint Resolve getField_refuses date_refuses number_refuses boolean_refuses : refusals.

Lemma fresh_name_throws P : throws P fresh_name.
Proof. by intros i e j. Qed.
Lemma range_throws P col lo hi : throws P (range_clauses col lo hi).
Proof.
  assert (Hb : forall op v, throws P (bound_clause col op v)) by (intros op [p|]; by intros i e j).
  unfold range_clauses. auto using throws_bind, throws_ret.
Qed.
#[local] Hint Resolve fresh_name_throws range_throws : refusals.

Ltac refuse :=
  repeat match goal with
  | |- throws _ (bind _ _) => apply throws_bind; [|intros ?]
  | |- throws _ (match ?x with _ => _ end) => destruct x
  | |- throws _ (let _ := _ in _) => cbv zeta
  end; eauto with refusals.

Lemma clauses_refuse :
  (forall e, throws bad_request (date_clauses e)) /\ (forall e, throws bad_request (number_clauses e)) /\
  (forall e, throws bad_request (address_clause e)) /\ (forall e, throws bad_request (boolean_clause e)).
Proof. split_and!; intros [field value]; cbn [date_clauses number_clauses address_clause boolean_clause]; refuse. Qed.

(** What a request can be refused with: 400, except that a status whose name every object
    inherits makes the service fail. *)
Definition refusal (request : FilteringRequest) (e : exn) : Prop :=
  bad_request e \/
  (e = TypeError "conditions.map is not a function" /\
   exists status, status ∈ normalizeArray (statuses request) /\ status ∈ inherited /\
     Mem.find (default [] (config_statuses config)) status = None).

Lemma throws_weaken {A} (P Q : exn -> Prop) (m : M nat A) : (forall e, P e -> Q e) -> throws P m -> throws Q m.
Proof. intros HPQ Hm i e j Hr. eapply HPQ, Hm, Hr. Qed.

Lemma status_refuses request : throws (refusal request) (status_clauses (statuses request)).
Proof.
  unfold status_clauses. destruct (normalizeArray (statuses request)) as [|st rest] eqn:Hw; [apply throws_ret|].
  rewrite <-Hw. apply throws_bind; [by intros i e j|]. intros i.
  apply throws_bind; [|intros c; apply throws_bind; [by intros i' e' j'|intros; apply throws_ret]].
  apply throws_lift. intros e. unfold buildStatusClause.
  destruct (map_each status_group _ i) as [[groups|e'] j] eqn:Hm; [done|]. intros [= ->]. revert i e j Hm.
  apply throws_map_each. intros status Hin. unfold status_group, get.
  destruct (Mem.find _ status) eqn:Hf; [|case_bool_decide as Hb].
  - apply throws_bind; [|intros; apply throws_ret]. apply throws_map_each. intros c _.
    apply throws_bind; [apply fresh_name_throws|intros; apply throws_ret].
  - apply throws_throw. right. eauto.
  - apply throws_throw. left. by eexists.
Qed.

Lemma sort_refuses s e : buildSort s = Throw e -> bad_request e.
Proof.
  destruct s as [s|]; cbn [buildSort]; [|done]. cbv zeta.
  destruct (get _ _); repeat case_bool_decide; try done; intros [= <-]; by eexists.
Qed.

(** Every request the service does not turn into a plan is refused with 400, except when
    it names a status that every object inherits. *)
Theorem filter_refusals request e : buildFilterPlan request = Throw e -> refusal request e.
Proof.
  unfold buildFilterPlan. destruct (assertCombination _) as [comb|e'] eqn:Ha.
  2:{ intros [= <-]. left. revert Ha. unfold assertCombination. repeat case_bool_decide; try done. intros [= <-]. by eexists. }
  destruct (plan_clauses request 0%nat) as [[cs|e'] j] eqn:Hc.
  - destruct (buildSort _) as [srt|e'] eqn:Hs; [done|]. intros [= <-]. left. by eapply sort_refuses.
  - intros [= <-]. revert Hc. generalize 0%nat, e', j. clear. change (throws (refusal request) (plan_clauses request)).
    destruct clauses_refuse as (Hd & Hn & Haz & Hb).
    assert (He : forall {A} (f : A -> M nat (list FilterClause)) l, (forall a, throws bad_request (f a)) ->
              throws (refusal request) (each f l)).
    { intros A f l Hf. apply throws_bind; [|intros; apply throws_ret]. apply throws_map_each. intros a _.
      eapply throws_weaken; [|apply Hf]. by left. }
    unfold plan_clauses. repeat (apply throws_bind; [first [by apply He|apply status_refuses]|intros ?]). apply throws_ret.
Qed.

(** A name every object inherits passes as a sort field; its column is [undefined]. *)
Theorem inherited_sort_accepted name :
  name ∈ inherited -> Mem.find (fields config) name = None ->
  buildSort (Some (mkSort name None)) = Ret (Some (None, DESC)).
Proof. intros Hn Hf. unfold buildSort, get. cbn [s_field s_direction]. rewrite Hf, bool_decide_true by done. reflexivity. Qed.
End service.

(** ** The configurations *)

Definition field (name col : string) (t : FilterFieldType) : string * FilterFieldConfig := (name, mkField col t None).
Definition unsorted (name col : string) : string * FilterFieldConfig := (name, mkField col Address (Some false)).
Definition is_ (f : string) (b : bool) : StatusFilterCondition := mkCondition f (PBool b) None.

Definition creatorEventFilterConfig : EntityFilterConfig :=
  mkConfig
    [field "created_at" "creatorEvent.created_at" DateField;
     field "on_chain_created_at" "creatorEvent.on_chain_created_at" DateField;
     field "participant_count" "creatorEvent.participant_count" Number;
     field "match_count" "creatorEvent.match_count" Number;
     unsorted "creator" "creatorEvent.creator_address";
     field "is_active" "creatorEvent.is_active" Boolean;
     field "is_cancelled" "creatorEvent.is_cancelled" Boolean]
    (Some [("active"%string, [is_ "creatorEvent.is_active" true; is_ "creatorEvent.is_cancelled" false]);
           ("completed"%string, [is_ "creatorEvent.is_active" false; is_ "creatorEvent.is_cancelled" false]);
           ("cancelled"%string, [is_ "creatorEvent.is_cancelled" true])]).

Definition matchFilterConfig : EntityFilterConfig :=
  mkConfig
    [field "created_at" "match.created_at" DateField;
     field "match_time" "match.match_time" DateField;
     field "submitted_at" "match.submitted_at" DateField;
     unsorted "submitted_by" "match.submitted_by";
     field "result_submitted" "match.result_submitted" Boolean]
    (Some [("active"%string, [is_ "match.result_submitted" false]); ("completed"%string, [is_ "match.result_submitted" true])]).

Definition predictionFilterConfig : EntityFilterConfig :=
  mkConfig
    [field "submitted_at" "prediction.submitted_at" DateField;
     field "stake_amount_stroops" "prediction.stake_amount_stroops" Number;
     unsorted "participant" "user.stellar_address";
     field "payout_claimed" "prediction.payout_claimed" Boolean]
    (Some [("active"%string, [is_ "prediction.payout_claimed" false]); ("completed"%string, [is_ "prediction.payout_claimed" true])]).

(** ** Concrete requests *)

Definition no_parse (_ : string) : Date := None.

(** Two statuses, a date range, a number range, an address list and a flag. *)
Definition toy_request : FilteringRequest :=
  mkRequest [("created_at"%string, mkDateRange (Some (inl (Some 1000))) (Some (inl (Some 2000))))]
    (Some (inl "active, cancelled"%string))
    [("participant_count"%string, mkNumericRange (Some (inr "5"%string)) None)]
    [("creator"%string, inl "GABC , gdef"%string)] [("is_active"%string, inr "true"%string)]
    (Some "OR"%string) (Some (mkSort "match_count" (Some "asc"%string))).

Example toy_plan_text :
  match buildFilterPlan no_parse creatorEventFilterConfig toy_request with
  | Ret p => (sql <$> clauses p, plan_combination p, plan_sort p) =
      (["creatorEvent.created_at >= :filter_0"; "creatorEvent.created_at <= :filter_1";
        "((creatorEvent.is_active = :filter_2 AND creatorEvent.is_cancelled = :filter_3) OR (creatorEvent.is_cancelled = :filter_4))";
        "creatorEvent.participant_count >= :filter_5"; "LOWER(creatorEvent.creator_address) IN (:...filter_6)";
        "creatorEvent.is_active = :filter_7"]%string, Or, Some (Some "creatorEvent.match_count"%string, ASC))
  | Throw _ => False
  end.
Proof. vm_compute. reflexivity. Qed.

(** A database in which every comparison holds but the flag's. *)
Definition toy_op (op : string) (_ : unit) (_ : param) : option bool := Some (negb (bool_decide (op = "="%string))).

Lemma filters_mean_request_witness :
  exists calls, applyFilters no_parse creatorEventFilterConfig toy_request = Ret calls /\ length calls = 2%nat /\
    NoDup (call_bindings calls).*1 /\
    exists vs v, asks no_parse creatorEventFilterConfig toy_op (fun _ _ => None) toy_request (fun _ => tt) vs /\
      combines (Some "OR"%string) vs v /\
      calls_mean creatorEventFilterConfig toy_op (fun _ _ => None) (Mem.find (call_bindings calls)) (fun _ => tt) calls v.
Proof.
  destruct (applyFilters no_parse creatorEventFilterConfig toy_request) as [calls|e] eqn:Hp; [|by vm_compute in Hp].
  exists calls. split; [done|]. split.
  - assert (Hl : (match applyFilters no_parse creatorEventFilterConfig toy_request with Ret c => length c | _ => 0%nat end) = 2%nat)
      by (vm_compute; reflexivity). by rewrite Hp in Hl.
  - destruct (filters_mean_request no_parse creatorEventFilterConfig toy_op (fun _ _ => None) toy_request calls Hp) as [H1 H2].
    split; [exact H1|]. apply (H2 (fun _ => tt)).
Defined.

Definition bad_status (st : string) : FilteringRequest := mkRequest [] (Some (inl st)) [] [] [] None None.

Lemma filter_refusals_witness :
  buildFilterPlan no_parse matchFilterConfig (bad_status "toString") = Throw (TypeError "conditions.map is not a function") /\
  refusal matchFilterConfig (bad_status "toString") (TypeError "conditions.map is not a function").
Proof. split; [vm_compute; reflexivity|]. apply (filter_refusals no_parse). vm_compute. reflexivity. Defined.
End Filtering.
