(* ===== verification/Users.v ===== *)
(** * Users: profiles, preferences and follows

    Models [backend/src/users/users.service.ts].  The relations [follower] and [following] of
    [UserFollow] are loaded through the columns [followerId] and [followingId], the default
    names of a relation without a join column; the service writes [follower_id] and
    [following_id].  The migration that creates [user_follows] makes no columns for the
    relations ([relation_columns]), so that every query on whole rows of it fails
    ([follows_unavailable]). *)
From Stdlib Require Import ZArith Lia.
From stdpp Require Import base list strings sorting.
From S2P Require Import Prelude Storage JsValue JsDate Notifications Anchor.
Local Open Scope Z_scope.

Module Users.

Record User := mkUser {
  stellar_address : string;
  username : option string;
  avatar_url : option string;
  created_at : Z;
  deleted_at : option Z;
}.

(** A field of a request: missing, [null] or a value. *)
Definition field (A : Type) : Type := option (option A).

Record UpdateUserDto := mkUpdate { new_username : field string; new_avatar_url : field string }.

Record UserPreferences := mkPreferences {
  userId : string;
  email_notifications : bool;
  marketing_emails : bool;
  goal_created_notifications : bool;
  goal_contribution_notifications : bool;
  goal_reached_notifications : bool;
  deposit_notifications : bool;
  withdrawal_notifications : bool;
  group_settlement_notifications : bool;
  digest_frequency : string;
  digest_hour : Z;
  digest_timezone : string;
  prefs_created_at : Z;
  prefs_updated_at : Z;
}.

Record UpdateUserPreferencesDto := mkPrefsUpdate {
  d_email_notifications : field bool;
  d_marketing_emails : field bool;
  d_goal_created_notifications : field bool;
  d_goal_contribution_notifications : field bool;
  d_goal_reached_notifications : field bool;
  d_deposit_notifications : field bool;
  d_withdrawal_notifications : field bool;
  d_group_settlement_notifications : field bool;
  d_digest_frequency : field string;
  d_digest_hour : field Z;
  d_digest_timezone : field string;
}.

(** [followerId] and [followingId] are the columns of the relations. *)
Record UserFollow := mkFollow {
  follower_id : string;
  following_id : string;
  followerId : option string;
  followingId : option string;
  followed_at : Z;
}.

(** [reputation_score] is no column of the user any more: it is left out of the answer. *)
Record UserFollowResponse := mkFollowResponse {
  f_id : string;
  f_address : string;
  f_username : option string;
  f_avatar_url : option string;
}.
Record FollowList := mkFollowList { f_data : list UserFollowResponse; f_total : Z; f_page : Z; f_limit : Z }.

Record UserExport := mkExport {
  e_profile : string * string * option string * option string * Z;
  e_notifications : list (nat * string * string * string * bool * Z);
  e_deposits : list (nat * Anchor.AnchorDeposit);
  exported_at : string;
}.

(** The columns of a new row. *)
Definition default_preferences (u : string) (now : Z) : UserPreferences :=
  mkPreferences u true false true true true true true true "off" 8 "UTC" now now.

(** [if (dto.x !== undefined) prefs.x = dto.x]; [None] when [null] goes into a column that
    does not take it. *)
Definition pick {A} (new : field A) (old : A) : option A := match new with None => Some old | Some v => v end.

Definition assign_preferences (dto : UpdateUserPreferencesDto) (p : UserPreferences) (now : Z) : option UserPreferences :=
  a ← pick (d_email_notifications dto) (email_notifications p);
  b ← pick (d_marketing_emails dto) (marketing_emails p);
  c ← pick (d_goal_created_notifications dto) (goal_created_notifications p);
  d ← pick (d_goal_contribution_notifications dto) (goal_contribution_notifications p);
  e ← pick (d_goal_reached_notifications dto) (goal_reached_notifications p);
  f ← pick (d_deposit_notifications dto) (deposit_notifications p);
  g ← pick (d_withdrawal_notifications dto) (withdrawal_notifications p);
  h ← pick (d_group_settlement_notifications dto) (group_settlement_notifications p);
  i ← pick (d_digest_frequency dto) (digest_frequency p);
  j ← pick (d_digest_hour dto) (digest_hour p);
  k ← pick (d_digest_timezone dto) (digest_timezone p);
  Some (mkPreferences (userId p) a b c d e f g h i j k (prefs_created_at p) now).

(** Whether [user_follows], as its migration creates it, has the columns [followerId] and
    [followingId]. *)
Definition relation_columns : bool := false.

Section service.
Context {B : Backend}.

Record state := mkState {
  users : table string User;
  preferences : table nat UserPreferences;
  follows : table nat UserFollow;
  notifications : table nat Notifications.Notification;
  deposits : table nat Anchor.AnchorDeposit;
}.
Definition set_users f s := mkState (f (users s)) (preferences s) (follows s) (notifications s) (deposits s).
Definition set_preferences f s := mkState (users s) (f (preferences s)) (follows s) (notifications s) (deposits s).
Definition set_follows f s := mkState (users s) (preferences s) (f (follows s)) (notifications s) (deposits s).

Definition live (u : User) : bool := match deleted_at u with None => true | Some _ => false end.

Definition findAll : M state (list (string * User)) := gets (fun s => List.filter (fun r => live r.2) (rows (users s))).

Definition user_by_id (id : string) (s : state) : option User :=
  match find_one id (users s) with Some u => if live u then Some u else None | None => None end.
Definition user_by_address (a : string) (s : state) : option (string * User) :=
  head (List.filter (fun r => live r.2 && bool_decide (stellar_address r.2 = a)) (rows (users s))).

Definition findById (id : string) : M state User :=
  await u := gets (user_by_id id) in
  of_option (NotFoundException ("User with id " +:+ id +:+ " not found")) u.

Definition findByAddress (a : string) : M state (string * User) :=
  await u := gets (user_by_address a) in
  of_option (NotFoundException ("User with address " +:+ a +:+ " not found")) u.

Definition updateProfile (id : string) (dto : UpdateUserDto) : M state User :=
  await u := findById id in
  let saved := mkUser (stellar_address u) (default (username u) (new_username dto))
                 (default (avatar_url u) (new_avatar_url dto)) (created_at u) (deleted_at u) in
  do modify (set_users (save id saved)) ;>
  ret saved.

Definition exportUserData (id : string) (now : Z) : M state UserExport :=
  await u := findById id in
  await ns := gets (fun s => order_by (fun r => - Notifications.created_at r.2)
    (List.filter (fun r => match Notifications.deleted_at r.2 with None => true | Some _ => false end &&
       bool_decide (Notifications.user_address r.2 = stellar_address u)) (rows (notifications s)))) in
  await ds := gets (fun s => order_by (fun r => - Anchor.dep_created_at r.2)
    (List.filter (fun r => bool_decide (Anchor.dep_user r.2 = id)) (rows (deposits s)))) in
  ret (mkExport (id, stellar_address u, username u, avatar_url u, created_at u)
         ((fun r => (r.1, Notifications.type r.2, Notifications.title r.2, Notifications.message r.2,
                     Notifications.read r.2, Notifications.created_at r.2)) <$> ns)
         ds (toISOString now)).

(** *** Preferences *)

Definition prefs_of (u : string) (s : state) : option (nat * UserPreferences) :=
  head (List.filter (fun r => bool_decide (userId r.2 = u)) (rows (preferences s))).

Definition getOrCreatePreferences (u : string) (now : Z) : M state (nat * UserPreferences) :=
  await found := gets (prefs_of u) in
  match found with
  | Some p => ret p
  | None =>
      await id := gets (fun s => fresh_id (preferences s)) in
      do modify (set_preferences (save id (default_preferences u now))) ;>
      ret (id, default_preferences u now)
  end.

Definition updatePreferences (u : string) (dto : UpdateUserPreferencesDto) (now : Z) : M state (nat * UserPreferences) :=
  await p := getOrCreatePreferences u now in
  match assign_preferences dto p.2 now with
  | None => throw (DatabaseError "23502")
  | Some q =>
      do modify (set_preferences (save p.1 q)) ;>
      ret (p.1, q)
  end.

(** *** Follows *)

(** A query that selects or inserts whole rows needs every column of the entity. *)
Definition follow_query {A} (m : M state A) : M state A :=
  if relation_columns then m else throw (DatabaseError "42703").

Definition follows_pair (a b : string) (f : UserFollow) : bool :=
  bool_decide (follower_id f = a) && bool_decide (following_id f = b).

Definition followUser (followerId followingAddress : string) (now : Z) : M state unit :=
  do findById followerId ;>
  await following := findByAddress followingAddress in
  if bool_decide (followerId = following.1) then throw (BadRequestException "Cannot follow yourself")
  else
    await existing := follow_query (gets (fun s => 0 <? count_where (fun _ => follows_pair followerId following.1) (follows s))) in
    if existing : bool then throw (ConflictException "Already following this user")
    else follow_query (modify (fun s =>
           set_follows (save (fresh_id (follows s)) (mkFollow followerId following.1 None None now)) s)).

Definition unfollowUser (followerId followingAddress : string) : M state unit :=
  await following := findByAddress followingAddress in
  await affected := gets (fun s => count_where (fun _ => follows_pair followerId following.1) (follows s)) in
  do modify (set_follows (delete_where (fun _ => follows_pair followerId following.1))) ;>
  if affected =? 0 then throw (NotFoundException "Follow relationship not found") else ret tt.

(** [undefined] is not a user. *)
Definition mapUserToFollowResponse (u : option (string * User)) : M state UserFollowResponse :=
  match u with
  | None => throw (TypeError "Cannot read properties of null")
  | Some (id, u) => ret (mkFollowResponse id (stellar_address u) (username u) (avatar_url u))
  end.

(** [leftJoinAndSelect] of a relation: the live user its column names. *)
Definition joined (id : option string) (s : state) : option (string * User) :=
  match id with Some i => (fun u => (i, u)) <$> user_by_id i s | None => None end.

Definition follow_list (mine : UserFollow -> bool) (other : UserFollow -> option string) (pg lim : option Z) : M state FollowList :=
  let page := default 1 pg in
  let limit := Z.min (default 20 lim) 50 in
  await found := follow_query (gets (fun s => order_by (fun f => - followed_at f) (List.filter mine ((rows (follows s)).*2)))) in
  await data := map_each (fun f => await u := gets (joined (other f)) in mapUserToFollowResponse u)
                  (take (Z.to_nat limit) (drop (Z.to_nat ((page - 1) * limit)) found)) in
  ret (mkFollowList data (Z.of_nat (length found)) page limit).

Definition getFollowers (a : string) (pg lim : option Z) : M state FollowList :=
  await u := findByAddress a in
  follow_list (fun f => bool_decide (following_id f = u.1)) followerId pg lim.

Definition getFollowing (a : string) (pg lim : option Z) : M state FollowList :=
  await u := findByAddress a in
  follow_list (fun f => bool_decide (follower_id f = u.1)) followingId pg lim.

Definition getFollowStats (a : string) : M state (Z * Z) :=
  await u := findByAddress a in
  await ins := follow_query (gets (fun s => count_where (fun _ f => bool_decide (following_id f = u.1)) (follows s))) in
  await outs := follow_query (gets (fun s => count_where (fun _ f => bool_decide (follower_id f = u.1)) (follows s))) in
  ret (ins, outs).

(** ** Follows over the migrated table *)

Definition graph (s : state) : list (string * string) :=
  (fun f => (follower_id f, following_id f)) <$> (rows (follows s)).*2.

Inductive op := Follow (a addr : string) (now : Z) | Unfollow (a addr : string).
Definition exec (s : state) (o : op) : state :=
  match o with Follow a addr now => (followUser a addr now s).2 | Unfollow a addr => (unfollowUser a addr s).2 end.

Lemma exec_removes s o e : e ∈ graph (exec s o) -> e ∈ graph s.
Proof.
  destruct o as [a addr now|a addr]; cbn [exec].
  - unfold followUser, findById, findByAddress, follow_query, bind, gets, of_option, ret, throw.
    destruct (user_by_id a s); [|done]. destruct (user_by_address addr s) as [[b ub]|]; [|done].
    by case_bool_decide.
  - unfold unfollowUser, findByAddress, bind, gets, of_option, modify, ret, throw.
    destruct (user_by_address addr s) as [[b ub]|]; [|done].
    assert (H : e ∈ graph (set_follows (delete_where (fun _ => follows_pair a b)) s) -> e ∈ graph s).
    { unfold graph. cbn. rewrite !list_elem_of_fmap. intros (f & -> & Hf). exists f. split; [done|].
      apply list_elem_of_fmap in Hf as (r & -> & Hr). apply list_elem_of_fmap. exists r. split; [done|].
      rewrite rows_delete_where in Hr. by apply elem_of_List_filter in Hr as [Hr _]. }
    by destruct (_ =? 0).
Qed.

(** On the table that the migration creates nobody can be followed: a follow of another
    user is answered with the database's error for a missing column and writes nothing,
    so that no sequence of follows and unfollows ever adds a pair; the followers, the
    followed users and the counts of every user fail in the same way. *)
Theorem follows_unavailable (s : state) (addr id : string) (u : User) :
  user_by_address addr s = Some (id, u) ->
  (forall a v now, user_by_id a s = Some v -> a ≠ id -> followUser a addr now s = (Throw (DatabaseError "42703"), s)) /\
  (forall ops e, e ∈ graph (foldl exec s ops) -> e ∈ graph s) /\
  (forall pg lim, getFollowers addr pg lim s = (Throw (DatabaseError "42703"), s)) /\
  (forall pg lim, getFollowing addr pg lim s = (Throw (DatabaseError "42703"), s)) /\
  getFollowStats addr s = (Throw (DatabaseError "42703"), s).
Proof.
  intros Hu.
  assert (Ha : findByAddress addr s = (Ret (id, u), s)) by (unfold findByAddress, bind, gets, of_option; by rewrite Hu).
  split_and!.
  - intros a v now Hv Hne.
    assert (Hf : findById a s = (Ret v, s)) by (unfold findById, bind, gets, of_option; by rewrite Hv).
    unfold followUser, bind. rewrite Hf, Ha. cbn [fst]. by rewrite bool_decide_false.
  - intros ops. revert s Hu Ha. induction ops as [|o ops IH] using rev_ind; intros s Hu Ha e; [done|].
    rewrite foldl_snoc. intros He. by eapply IH, exec_removes.
  - intros pg lim. unfold getFollowers, bind. by rewrite Ha.
  - intros pg lim. unfold getFollowing, bind. by rewrite Ha.
  - unfold getFollowStats, bind. by rewrite Ha.
Qed.

(** ** Preferences *)

Definition one_row_each (s : state) : Prop := NoDup ((fun r => userId r.2) <$> rows (preferences s)).

Lemma prefs_of_spec u id p s : one_row_each s -> prefs_of u s = Some (id, p) <-> find_one id (preferences s) = Some p /\ userId p = u.
Proof.
  intros Hone. rewrite <-elem_of_rows. unfold prefs_of.
  pose proof (elem_of_List_filter (fun r => bool_decide (userId r.2 = u)) (rows (preferences s))) as Hf.
  pose proof (NoDup_fmap_filter (fun r => userId r.2) (fun r => bool_decide (userId r.2 = u)) _ Hone) as Hnd.
  destruct (List.filter _ _) as [|[id' p'] l].
  - split; [done|]. intros [Hin Hu]. exfalso. eapply not_elem_of_nil, Hf. split; [exact Hin|by apply bool_decide_eq_true].
  - specialize (Hf (id', p')) as Hf'. destruct Hf' as [Hf' _]. specialize (Hf' ltac:(left)) as [Hin Hb].
    apply bool_decide_eq_true in Hb. split; [intros [= <- <-]; done|]. intros [Hin' Hu].
    assert (Hin2 : (id, p) ∈ (id', p') :: l) by (apply Hf; split; [done|by apply bool_decide_eq_true]).
    apply elem_of_cons in Hin2 as [[= -> ->]|Hin2]; [done|]. exfalso. csimpl in Hnd. apply NoDup_cons in Hnd as [Hn _].
    apply Hn. cbn in Hb, Hu. rewrite Hb, <-Hu. by apply (list_elem_of_fmap_2 (fun r => userId r.2)) in Hin2.
Qed.

Lemma prefs_of_None u s : prefs_of u s = None -> forall id p, find_one id (preferences s) = Some p -> userId p ≠ u.
Proof.
  unfold prefs_of. intros Hn id p Hp Hu. apply elem_of_rows in Hp.
  assert (Hin : (id, p) ∈ List.filter (fun r => bool_decide (userId r.2 = u)) (rows (preferences s)))
    by (apply elem_of_List_filter; split; [done|by apply bool_decide_eq_true]).
  by destruct (List.filter _ _); [apply elem_of_nil in Hin|].
Qed.

Lemma option_ext {A} (x y : option A) : (forall a, x = Some a <-> y = Some a) -> x = y.
Proof.
  intros H. destruct x as [a|]; [symmetry; by apply H|]. destruct y as [b|]; [|done]. by apply (H b).
Qed.

(** Writing the row of a user. *)
Lemma write_preferences id q s :
  one_row_each s ->
  (exists p, find_one id (preferences s) = Some p /\ userId p = userId q) \/
  (find_one id (preferences s) = None /\ prefs_of (userId q) s = None) ->
  let s' := set_preferences (save id q) s in
  one_row_each s' /\ forall v, prefs_of v s' = if decide (v = userId q) then Some (id, q) else prefs_of v s.
Proof.
  intros Hone Hrow. cbv zeta. set (s' := set_preferences (save id q) s).
  assert (Hone' : one_row_each s').
  { unfold one_row_each. destruct Hrow as [(p & Hp & Hu)|[Hn Hno]].
    - destruct (rows_save_old id p q _ Hp) as (l & H1 & H2). cbn. rewrite H2. unfold one_row_each in Hone. rewrite H1 in Hone.
      csimpl in *. by rewrite <-Hu.
    - cbn. rewrite rows_save_new by done. csimpl. constructor; [|done]. intros Hin. apply list_elem_of_fmap in Hin as ([i p] & Hu & Hp).
      apply elem_of_rows in Hp. by eapply (prefs_of_None _ _ Hno i p). }
  split; [done|]. intros v. apply option_ext. intros [i p]. rewrite prefs_of_spec by done. cbn. rewrite find_one_save.
  destruct (decide (v = userId q)) as [->|Hv].
  - case_decide as Hi; [subst i; split; [by intros [[= <-] _]|by intros [= <-]]|].
    split; [|by intros [= -> _]]. intros [Hp Hu]. exfalso. destruct Hrow as [(p' & Hp' & Hu')|[_ Hno]].
    + apply Hi. pose proof (proj2 (prefs_of_spec (userId q) _ _ s Hone) (conj Hp Hu)) as E1.
      pose proof (proj2 (prefs_of_spec (userId q) _ _ s Hone) (conj Hp' Hu')) as E2. congruence.
    + by eapply (prefs_of_None _ _ Hno).
  - rewrite prefs_of_spec by done. case_decide as Hi; [subst i|done]. split.
    + intros [[= <-] Hu]. by destruct Hv.
    + intros [Hp Hu]. exfalso. destruct Hrow as [(p' & Hp' & Hu')|[Hn _]]; [|congruence].
      apply Hv. rewrite <-Hu, <-Hu'. congruence.
Qed.

Lemma assign_user dto p now q : assign_preferences dto p now = Some q -> userId q = userId p.
Proof.
  unfold assign_preferences, mbind, option_bind. do 11 (destruct (pick _ _); [|done]). intros Hq. injection Hq as <-. done.
Qed.

(** An update of preferences writes exactly the given fields of the row of the user, which
    is made with the default values when there is none, answers that row, and touches no
    other user; [null] in a field is refused by the database and leaves the old values. *)
Theorem preferences_update u dto now (s : state) :
  one_row_each s ->
  let r := updatePreferences u dto now s in
  let old := default (default_preferences u now) (snd <$> prefs_of u s) in
  one_row_each r.2 /\ (forall v, v ≠ u -> prefs_of v r.2 = prefs_of v s) /\
  match assign_preferences dto old now with
  | Some q => exists id, r.1 = Ret (id, q) /\ prefs_of u r.2 = Some (id, q)
  | None => r.1 = Throw (DatabaseError "23502") /\ snd <$> prefs_of u r.2 = Some old
  end.
Proof.
  intros Hone. cbv zeta.
  assert (Hget : exists id s1, getOrCreatePreferences u now s = (Ret (id, default (default_preferences u now) (snd <$> prefs_of u s)), s1) /\
     one_row_each s1 /\ forall v, prefs_of v s1 = if decide (v = u) then Some (id, default (default_preferences u now) (snd <$> prefs_of u s)) else prefs_of v s).
  { unfold getOrCreatePreferences, bind, gets, modify. destruct (prefs_of u s) as [[id p]|] eqn:Hp; cbn.
    - exists id, s. split_and!; [done..|]. intros v. by case_decide; subst.
    - eexists _, _. split; [reflexivity|]. apply (write_preferences _ (default_preferences u now) s Hone).
      right. split; [apply fresh_id_None|done]. }
  destruct Hget as (id & s1 & Hg & Hone1 & Hp1). set (old := default _ _) in *.
  assert (Hu : userId old = u).
  { unfold old. destruct (prefs_of u s) as [[i p]|] eqn:Hp; [|done]. by apply prefs_of_spec in Hp as [_ Hp]. }
  assert (Hold : find_one id (preferences s1) = Some old).
  { apply (prefs_of_spec u id old s1 Hone1). rewrite Hp1. by rewrite decide_True. }
  unfold updatePreferences, bind. rewrite Hg. cbn [fst snd].
  destruct (assign_preferences dto old now) as [q|] eqn:Hq.
  - assert (Hqu : userId q = u).
    { rewrite <-Hu. by apply assign_user in Hq. }
    destruct (write_preferences id q s1 Hone1) as [Hone2 Hp2]; [left; exists old; by rewrite Hu, Hqu|].
    unfold modify, ret. cbn [fst snd]. split_and!; [done| |].
    + intros v Hv. rewrite Hp2, decide_False by congruence. rewrite Hp1. by rewrite decide_False.
    + exists id. split; [done|]. by rewrite Hp2, decide_True.
  - unfold throw. cbn [fst snd]. split_and!; [done| |done|].
    + intros v Hv. rewrite Hp1. by rewrite decide_False.
    + by rewrite Hp1, decide_True.
Qed.

End service.

(** ** Concrete runs *)

#[local] Existing Instance MemBackend.

Definition person (a : string) : User := mkUser a None None 0 None.
Definition toy : state :=
  mkState [("u1"%string, person "GA"); ("u2"%string, person "GB"); ("u3"%string, person "GC")] [] [] [] [].
Lemma follows_unavailable_witness :
  followUser "u1" "GB" 1 toy = (Throw (DatabaseError "42703"), toy).
Proof.
  destruct (follows_unavailable toy "GB" "u2" (person "GB") eq_refl) as [H _]. by eapply H.
Defined.

Definition off : UpdateUserPreferencesDto :=
  mkPrefsUpdate (Some (Some false)) None None None None None None None None None None.
Definition null_hour : UpdateUserPreferencesDto :=
  mkPrefsUpdate None None None None None None None None None (Some None) None.

Lemma preferences_update_witness :
  exists id q, (updatePreferences "u1" off 5 toy).1 = Ret (id, q) /\ email_notifications q = false /\
    prefs_of "u1" (updatePreferences "u1" off 5 toy).2 = Some (id, q).
Proof.
  assert (Hone : one_row_each toy) by (vm_compute; constructor).
  destruct (preferences_update "u1" off 5 toy Hone) as (_ & _ & H).
  destruct (assign_preferences off _ 5) as [q|] eqn:Hq; [|by vm_compute in Hq].
  destruct H as (id & H1 & H2). exists id, q. split_and!; [done| |done].
  vm_compute in Hq. injection Hq as <-. reflexivity.
Defined.

(** A field set to [null] passes the validation of optional fields and fails in the database. *)
Theorem null_preference_fails : (updatePreferences "u1" null_hour 5 toy).1 = Throw (DatabaseError "23502").
Proof. vm_compute. reflexivity. Qed.
End Users.
