(* ===== verification/Contract.v ===== *)
(** * Contract views

    Models [backend/src/contract/contract.service.ts]: read-only calls of the contract by
    simulation, with their retries, and the shapes the answers are brought into.  The node is
    a parameter that answers the n-th request; the argument conversions of the SDK throw on
    what they cannot encode. *)
From Stdlib Require Import ZArith Lia SpecFloat.
From stdpp Require Import base list strings.
From S2P Require Import Prelude JsValue JsNumber.
Local Open Scope Z_scope.

Module Contract.

(** What a simulation gives: its error, or the decoded return value if there is one;
    decoding can throw. *)
Inductive simulation := SimulationError (e : string) | SimulationSuccess (retval : option (outcome jsval)).

(** An argument, encoded. *)
Inductive scval := ScString (s : string) | ScU64 (n : number) | ScAddress (a : string).

Record Rpc := mkRpc {
  getAccount : nat -> outcome unit;
  simulateTransaction : nat -> string -> list scval -> outcome simulation;
  (** [nativeToScVal(n, { type: 'u64' })] and [new Address(a).toScVal()]. *)
  encode_u64 : number -> outcome scval;
  encode_address : string -> outcome scval;
}.

Record ContractEventStatistics := mkStatistics {
  eventId : string;
  participantCount : number;
  matchCount : number;
  totalPredictions : number;
  allMatchesResolved : bool;
  winnersVerified : bool;
  winnerCount : number;
}.
Record ContractPredictionDistribution := mkDistribution { teamA : number; teamB : number; draw : number }.
Record ContractLeaderboardEntry := mkEntry {
  rank : jsval;
  address : jsval;
  total_predictions : number;
  correct_predictions : number;
  accuracy_percentage : number;
  is_winner : bool;
  completion_time : jsval;
}.

(** [v.key] of a value that is not [null]. *)
Definition member (v : jsval) (k : string) : jsval := match v with VObj r => r.[k] | _ => VUndef end.

Section service.
Context (contractId : string) (node : Rpc).

(** The requests made so far. *)
Definition state : Type := nat.

Definition lift {A} (o : outcome A) : M state A := match o with Ret a => ret a | Throw e => throw e end.
Definition request {A} (ask : nat -> outcome A) : M state A :=
  await n := gets id in
  do modify S ;>
  lift (ask n).

(** [getAccount(...).catch(() => another.getAccount(...).catch(() => null))]: whether there
    is an account. *)
Definition load_account : M state bool :=
  catch (do request (getAccount node) ;> ret true)
    (fun _ => catch (do request (getAccount node) ;> ret true) (fun _ => ret false)).

(** One round of the loop. *)
Definition view_attempt (fn : string) (args : list scval) : M state jsval :=
  await account := load_account in
  if negb account then ret VNull
  else
    await sim := request (fun n => simulateTransaction node n fn args) in
    match sim with
    | SimulationError _ => ret VNull
    | SimulationSuccess None => ret VNull
    | SimulationSuccess (Some v) => lift v
    end.

(** [left] rounds before [maxAttempts]. *)
Fixpoint view_loop (left : nat) (fn : string) (args : list scval) : M state jsval :=
  match left with
  | O => ret VNull
  | S left' => catch (view_attempt fn args) (fun _ => view_loop left' fn args)
  end.

Definition viewCall (fn : string) (args : list scval) : M state jsval :=
  if bool_decide (contractId = ""%string) then ret VNull else view_loop 3 fn args.

Definition getEvent (id : string) : M state jsval := viewCall "get_event" [ScString id].
Definition getEventByCode (code : string) : M state jsval := viewCall "get_event_by_code" [ScString code].
Definition getMatch (id : string) : M state jsval := viewCall "get_match" [ScString id].
(** [result ?? []]. *)
Definition or_empty (v : jsval) : jsval := v ?? VArr [].
Definition getEventMatches (id : string) : M state jsval :=
  await r := viewCall "get_event_matches" [ScString id] in ret (or_empty r).
Definition getPrediction (id : string) : M state jsval := viewCall "get_prediction" [ScString id].
Definition getUserPredictions (user id : string) : M state jsval :=
  await a := lift (encode_address node user) in
  await r := viewCall "get_user_predictions" [a; ScString id] in ret (or_empty r).
Definition getEventParticipants (id : string) : M state jsval :=
  await r := viewCall "get_event_participants" [ScString id] in ret (or_empty r).
Definition getEventWinners (id : string) : M state jsval :=
  await r := viewCall "get_event_winners" [ScString id] in ret (or_empty r).
Definition getConfig : M state jsval := viewCall "get_config" [].
Definition getCreationFee : M state jsval := await r := viewCall "get_creation_fee" [] in ret (r ?? VStr "0").
Definition isVerified (a : string) : M state jsval :=
  await x := lift (encode_address node a) in
  await r := viewCall "is_verified" [x] in ret (r ?? VBool false).

(** A property of [null] or [undefined] cannot be read. *)
Definition leaderboard_entry (i : nat) (entry : jsval) : M state ContractLeaderboardEntry :=
  match entry with
  | VUndef | VNull => throw (TypeError "Cannot read properties of null")
  | _ =>
      ret (mkEntry (member entry "rank" ?? VNum (Z.of_nat i + 1)) (member entry "address")
             (js_Number (member entry "total_predictions" ?? VNum 0))
             (js_Number (member entry "correct_predictions" ?? VNum 0))
             (js_Number (member entry "accuracy_percentage" ?? VNum 0))
             (truthy (member entry "is_winner" ?? VBool false))
             (member entry "completion_time" ?? VNull))
  end.

Definition getEventLeaderboard (id : string) : M state (list ContractLeaderboardEntry) :=
  await r := viewCall "get_event_leaderboard" [ScString id] in
  match r with
  | VArr l => map_each (fun e => leaderboard_entry e.1 e.2) (imap (fun i e => (i, e)) l)
  | _ => ret []
  end.

(** [result.camel ?? result.snake ?? d]. *)
Definition either (r : jsval) (camel snake : string) (d : jsval) : jsval := member r camel ?? member r snake ?? d.

Definition event_id_text (raw : jsval) (given : string) : string :=
  match raw with VStr s => s | VNum z => Z_to_string z | _ => given end.

Definition getEventStatistics (id : string) : M state (option ContractEventStatistics) :=
  let numericId := Number_of_string id in
  if negb (num_finite numericId) then ret None
  else
    await a := lift (encode_u64 node numericId) in
    await r := viewCall "get_event_statistics" [a] in
    if negb (truthy r) then ret None
    else ret (Some (mkStatistics (event_id_text (either r "eventId" "event_id" (VStr id)) id)
      (js_Number (either r "participantCount" "participant_count" (VNum 0)))
      (js_Number (either r "matchCount" "match_count" (VNum 0)))
      (js_Number (either r "totalPredictions" "total_predictions" (VNum 0)))
      (truthy (either r "allMatchesResolved" "all_matches_resolved" (VBool false)))
      (truthy (either r "winnersVerified" "winners_verified" (VBool false)))
      (js_Number (either r "winnerCount" "winner_count" (VNum 0))))).

Definition no_distribution : ContractPredictionDistribution := mkDistribution (num_of_Z 0) (num_of_Z 0) (num_of_Z 0).

Definition getPredictionDistribution (id : string) : M state ContractPredictionDistribution :=
  let numericId := Number_of_string id in
  if negb (num_finite numericId) then ret no_distribution
  else
    await a := lift (encode_u64 node numericId) in
    await r := viewCall "get_prediction_distribution" [a] in
    match r with
    | VArr (x :: y :: z :: _) =>
        ret (mkDistribution (js_Number (x ?? VNum 0)) (js_Number (y ?? VNum 0)) (js_Number (z ?? VNum 0)))
    | _ => ret no_distribution
    end.

(** ** Views *)

(** A request of a view: within three per round. *)
Lemma request_counts {A} (ask : nat -> outcome A) n : (request ask n).2 = S n.
Proof. unfold request, bind, gets, modify, lift. cbn. by destruct (ask n). Qed.

Lemma load_account_run n : exists b m, load_account n = (Ret b, m) /\ (n < m <= n + 2)%nat /\
  (b = true -> getAccount node n = Ret tt \/ getAccount node (S n) = Ret tt).
Proof.
  unfold load_account, request, catch, bind, gets, modify, lift, ret, throw. cbn.
  destruct (getAccount node n) as [[]|e] eqn:H1; [exists true, (S n); split_and!; [done|lia|lia|auto]|].
  destruct (getAccount node (S n)) as [[]|e'] eqn:H2; eexists _, _; (split_and!; [done|lia|lia|try done; auto]).
Qed.

(** The value is one the node returned from a simulation of the call. *)
Definition returned (fn : string) (args : list scval) (lo hi : nat) (v : jsval) : Prop :=
  v = VNull \/ exists k, (lo <= k < hi)%nat /\ simulateTransaction node k fn args = Ret (SimulationSuccess (Some (Ret v))).

Lemma view_attempt_run fn args n :
  let r := view_attempt fn args n in
  (n < r.2 <= n + 3)%nat /\ forall v, r.1 = Ret v -> returned fn args n r.2 v.
Proof.
  cbv zeta. unfold view_attempt, bind. destruct (load_account_run n) as (b & m & -> & Hm & _).
  destruct b; cbn [negb]; [|split; [cbn; lia|by intros v [= <-]; left]].
  unfold request, bind, gets, modify, lift. cbn.
  destruct (simulateTransaction node m fn args) as [[e|[[v|e]|]]|e] eqn:Hs; (split; [cbn; lia|]); intros w Hw; cbn in Hw.
  - left. by injection Hw.
  - right. injection Hw as <-. exists m. split; [cbn; lia|done].
  - done.
  - left. by injection Hw.
  - done.
Qed.

Lemma view_loop_run left fn args (n : nat) :
  exists v, (view_loop left fn args n).1 = Ret v /\ ((view_loop left fn args n).2 <= n + 3 * left)%nat /\
    (n <= (view_loop left fn args n).2)%nat /\ returned fn args n (view_loop left fn args n).2 v.
Proof.
  revert n. induction left as [|left IH]; intros n; cbn [view_loop].
  - exists VNull. split_and!; [done|cbn; lia|cbn; lia|by left].
  - destruct (view_attempt_run fn args n) as [Hn Hv]. unfold catch.
    destruct (view_attempt fn args n) as [[v|e] m] eqn:Ha; cbn [fst snd] in *.
    + exists v. split_and!; [done|lia|lia|auto].
    + destruct (IH m) as (v & H1 & H2 & H3 & H4). exists v. split_and!; [done|lia|lia|].
      destruct H4 as [->|(k & Hk & H)]; [by left|]. right. exists k. split; [lia|done].
Qed.

(** A view never throws and ends within nine requests; what it gives is [null] or a value
    that the node returned from a simulation of that function with those arguments. *)
Theorem view_total fn args (n : nat) :
  exists v (m : nat), viewCall fn args n = (Ret v, m) /\ (n <= m <= n + 9)%nat /\ returned fn args n m v.
Proof.
  unfold viewCall. destruct (bool_decide _); [exists VNull, n; split_and!; [done|lia|lia|by left]|].
  destruct (view_loop_run 3 fn args n) as (v & H1 & H2 & H3 & H4). exists v, (view_loop 3 fn args n).2. split_and!; [|lia|lia|exact H4].
  rewrite <-H1. by destruct (view_loop 3 fn args n).
Qed.

(** The source account of a view is a random key.  When the network knows none of them, every
    view gives [null], and every reader its empty answer. *)
Theorem views_blind :
  (forall n, exists e, getAccount node n = Throw e) ->
  forall fn args n, (viewCall fn args n).1 = Ret VNull.
Proof.
  intros Hno fn args n. unfold viewCall. destruct (bool_decide _); [done|]. cbn [view_loop]. unfold catch, view_attempt, bind.
  destruct (load_account_run n) as (b & m & -> & _ & Hb). destruct b; [|done].
  destruct (Hb eq_refl) as [H|H]; [destruct (Hno n) as [e He]|destruct (Hno (S n)) as [e He]]; congruence.
Qed.
End service.
End Contract.
