(* ===== verification/NotificationStream.v ===== *)
(** * The live notification list of the frontend

    Models [frontend/src/hooks/useNotifications.ts]: the incremental parser of the event
    stream, and the hook that keeps the list of notifications, its unread count and its
    optimistic updates.  A run of the hook is a sequence of the steps between its awaits, in
    any interleaving the event loop allows; the fields read through refs are those of the
    last render.

    [sse_chunking]: the parser gives the same events however the stream is cut into chunks.
    [sse_roundtrip]: a stream of well-formed events is read back event by event. *)
From Stdlib Require Import ZArith Lia.
From stdpp Require Import base list strings sorting relations.
From S2P Require Import Prelude JsValue JsText.
Local Open Scope Z_scope.

Module Sse.

Definition LF : Z := 10.
Definition CR : Z := 13.

Record SseEvent := mkSse { event : text; data : text; id : option text }.

(** The length of the match of [/\r\n\r\n|\n\n|\r\r/] at the start of a text, [0] without one. *)
Definition block_sep (u : text) : nat :=
  if starts_with [CR; LF; CR; LF] u then 4
  else if starts_with [LF; LF] u then 2
  else if starts_with [CR; CR] u then 2
  else 0.

(** The same for [/\r\n|\n|\r/]. *)
Definition line_sep (u : text) : nat :=
  if starts_with [CR; LF] u then 2
  else if starts_with [LF] u then 1
  else if starts_with [CR] u then 1
  else 0.

(** The text before the leftmost match and the text after it. *)
Fixpoint first_match (sep : text -> nat) (u : text) : option (text * text) :=
  match u with
  | [] => None
  | c :: u' =>
      match sep u with
      | O => match first_match sep u' with Some (p, r) => Some (c :: p, r) | None => None end
      | S k => Some ([], drop k u')
      end
  end.

(** [u.split(regex)]; there are no more matches than characters. *)
Fixpoint split_n (sep : text -> nat) (fuel : nat) (u : text) : list text :=
  match fuel with
  | O => [u]
  | S n => match first_match sep u with Some (p, r) => p :: split_n sep n r | None => [u] end
  end.
Definition split (sep : text -> nat) (u : text) : list text := split_n sep (length u) u.

(** The variables of the loop over the lines of a block. *)
Record fields := mkFields { f_event : text; f_id : option text; f_data : list text }.

Definition read_line (f : fields) (line : text) : fields :=
  if bool_decide (line = []) || starts_with (units ":") line then f
  else
    let colon := index_of (units ":") line in
    let field := match colon with None => line | Some i => take i line end in
    let value := match colon with None => [] | Some i => drop (S i) line end in
    let value := if starts_with (units " ") value then drop 1 value else value in
    if bool_decide (field = units "event") then mkFields value (f_id f) (f_data f)
    else if bool_decide (field = units "data") then mkFields (f_event f) (f_id f) (f_data f ++ [value])
    else if bool_decide (field = units "id") then mkFields (f_event f) (Some value) (f_data f)
    else f.

(** [data.join("\n")]. *)
Fixpoint join_lines (l : list text) : text :=
  match l with [] => [] | [x] => x | x :: l' => x ++ LF :: join_lines l' end.

Definition parse_block (block : text) : list SseEvent :=
  let f := foldl read_line (mkFields (units "message") None []) (split line_sep block) in
  match f_data f with [] => [] | ds => [mkSse (f_event f) (join_lines ds) (f_id f)] end.

(** One call of the parser: the buffer it leaves and the events it returns. *)
Definition createSseParser (buffer chunk : text) : text * list SseEvent :=
  let blocks := split block_sep (buffer ++ chunk) in
  (default [] (last blocks), concat (parse_block <$> removelast blocks)).

(** The calls of a connection, one per chunk. *)
Fixpoint feed (buffer : text) (chunks : list text) : text * list SseEvent :=
  match chunks with
  | [] => (buffer, [])
  | c :: cs => let r := createSseParser buffer c in let r' := feed r.1 cs in (r'.1, r.2 ++ r'.2)
  end.

(** ** Splitting *)

Lemma first_match_shorter sep u p r : first_match sep u = Some (p, r) -> (length r < length u)%nat.
Proof.
  revert p r. induction u as [|c u IH]; intros p r; cbn [first_match]; [done|].
  destruct (sep (c :: u)) as [|k]; [|intros [= <- <-]; rewrite length_drop; cbn; lia].
  destruct (first_match sep u) as [[p' r']|]; [|done]. intros [= <- <-]. specialize (IH p' r' eq_refl). cbn. lia.
Qed.

Lemma split_n_enough sep n m u : (length u <= n)%nat -> (length u <= m)%nat -> split_n sep n u = split_n sep m u.
Proof.
  revert m u. induction n as [|n IH]; intros m u Hn Hm.
  - destruct u; [|cbn in Hn; lia]. by destruct m.
  - destruct m as [|m]; [destruct u; [done|cbn in Hm; lia]|]. cbn [split_n].
    destruct (first_match sep u) as [[p r]|] eqn:Hf; [|done]. apply first_match_shorter in Hf. f_equal. apply IH; lia.
Qed.

Lemma split_eq sep u : split sep u = match first_match sep u with Some (p, r) => p :: split sep r | None => [u] end.
Proof.
  unfold split. destruct u as [|c u]; [done|]. cbn [length split_n].
  destruct (first_match sep (c :: u)) as [[p r]|] eqn:Hf; [|done]. apply first_match_shorter in Hf. f_equal.
  apply split_n_enough; cbn in *; lia.
Qed.

Lemma split_nonempty sep u : split sep u ≠ [].
Proof. rewrite split_eq. by destruct (first_match sep u) as [[]|]. Qed.

Lemma starts_with_spec p u : starts_with p u = true <-> exists r, u = p ++ r.
Proof.
  revert u. induction p as [|x p IH]; intros u; cbn [starts_with app]; [split; [by exists u|done]|].
  destruct u as [|y u]; [split; [done|by intros [r ?]]|]. rewrite andb_true_iff, Z.eqb_eq, IH. split.
  - intros [-> [r ->]]. by exists r.
  - intros [r [= -> ->]]. eauto.
Qed.

(** The three separators. *)
Lemma block_sep_cases u : match block_sep u with
  | O => (forall r, u ≠ [CR; LF; CR; LF] ++ r) /\ (forall r, u ≠ [LF; LF] ++ r) /\ (forall r, u ≠ [CR; CR] ++ r)
  | k => exists s r, u = s ++ r /\ length s = k /\ (s = [CR; LF; CR; LF] \/ s = [LF; LF] \/ s = [CR; CR])
  end.
Proof.
  unfold block_sep.
  destruct (starts_with [CR; LF; CR; LF] u) eqn:H1; [apply starts_with_spec in H1 as [r ->]; exists [CR; LF; CR; LF], r; auto|].
  destruct (starts_with [LF; LF] u) eqn:H2; [apply starts_with_spec in H2 as [r ->]; exists [LF; LF], r; auto|].
  destruct (starts_with [CR; CR] u) eqn:H3; [apply starts_with_spec in H3 as [r ->]; exists [CR; CR], r; auto|].
  split_and!; intros r ->; [revert H1|revert H2|revert H3]; apply not_false_iff_true, starts_with_spec; eauto.
Qed.

Lemma block_sep_at s r : s = [CR; LF; CR; LF] \/ s = [LF; LF] \/ s = [CR; CR] -> block_sep (s ++ r) = length s.
Proof. by intros [->|[->| ->]]. Qed.

(** A separator stays one when the text goes on, and what a longer text adds at the end makes
    none that begins before an earlier one. *)
Lemma block_sep_app a b k : block_sep a = S k -> block_sep (a ++ b) = S k /\ (S k <= length a)%nat.
Proof.
  intros Hk. pose proof (block_sep_cases a) as Hc. rewrite Hk in Hc. destruct Hc as (s & r & -> & Hl & Hs).
  rewrite <-app_assoc, block_sep_at by done. rewrite length_app. split; [done|lia].
Qed.

Lemma block_sep_straddle c a b p r :
  block_sep (c :: a) = O -> first_match block_sep a = Some (p, r) -> block_sep ((c :: a) ++ b) = O.
Proof.
  intros H0 Hf. pose proof (block_sep_cases (c :: a)) as Hc. rewrite H0 in Hc. destruct Hc as (N1 & N2 & N3).
  pose proof (block_sep_cases ((c :: a) ++ b)) as Hc. destruct (block_sep ((c :: a) ++ b)) as [|k]; [done|].
  destruct Hc as (s & r' & He & _ & Hs). exfalso.
  destruct a as [|x [|y [|z a]]]; [done| | |].
  - revert Hf. cbn. unfold block_sep. cbn. by rewrite !andb_false_r.
  - destruct Hs as [->|[->| ->]]; cbn in He; [|by injection He as -> -> He; eapply N2|by injection He as -> -> He; eapply N3].
    injection He as -> -> -> He. by revert Hf.
  - destruct Hs as [->|[->| ->]]; cbn in He; [|by injection He as -> -> He; eapply N2|by injection He as -> -> He; eapply N3].
    injection He as -> -> -> -> He. by eapply N1.
Qed.

Lemma first_match_app a b p r : first_match block_sep a = Some (p, r) -> first_match block_sep (a ++ b) = Some (p, r ++ b).
Proof.
  revert p r. induction a as [|c a IH]; intros p r; [done|]. cbn [first_match app].
  destruct (block_sep (c :: a)) as [|k] eqn:Hs.
  - destruct (first_match block_sep a) as [[p' r']|] eqn:Hf; [|done]. intros [= <- <-].
    pose proof (block_sep_straddle c a b p' r' Hs Hf) as H0. cbn [app] in H0. by rewrite H0, (IH p' r').
  - intros [= <- <-]. destruct (block_sep_app _ b k Hs) as [H1 Hl]. cbn [app] in H1. rewrite H1.
    do 2 f_equal. apply drop_app_le. cbn in Hl. lia.
Qed.

(** Splitting a text that goes on: the finished blocks stay, the last one is split again with
    what follows. *)
Lemma split_app a b : split block_sep (a ++ b) = removelast (split block_sep a) ++ split block_sep (default [] (last (split block_sep a)) ++ b).
Proof.
  remember (length a) as n eqn:Hn. revert a Hn. induction n as [n IH] using lt_wf_ind. intros a ->.
  rewrite (split_eq _ a). destruct (first_match block_sep a) as [[p r]|] eqn:Hf; [|done].
  rewrite split_eq, (first_match_app a b p r Hf), (IH (length r) (first_match_shorter _ _ _ _ Hf) r eq_refl).
  pose proof (split_nonempty block_sep r) as Hne. destruct (split block_sep r) as [|x l] eqn:Hr; [done|]. done.
Qed.

Lemma feed_step buffer c cs : feed (createSseParser buffer c).1 cs = feed (default [] (last (split block_sep (buffer ++ c)))) cs.
Proof. done. Qed.

(** A buffer that holds no separator. *)
Definition open_block (u : text) : Prop := split block_sep u = [u].

Lemma last_open u : open_block (default [] (last (split block_sep u))).
Proof.
  remember (length u) as n eqn:Hn. revert u Hn. induction n as [n IH] using lt_wf_ind. intros u ->. unfold open_block in *.
  rewrite (split_eq _ u). destruct (first_match block_sep u) as [[p r]|] eqn:Hf.
  - pose proof (split_nonempty block_sep r) as Hne. specialize (IH _ (first_match_shorter _ _ _ _ Hf) r eq_refl).
    destruct (split block_sep r) as [|x l] eqn:Hr; [done|]. done.
  - change (split block_sep u = [u]). by rewrite split_eq, Hf.
Qed.

Lemma removelast_app_ne {A} (l k : list A) : k ≠ [] -> removelast (l ++ k) = l ++ removelast k /\ last (l ++ k) = last k.
Proof.
  intros Hk. split; [by apply removelast_app|]. destruct k as [|x k _] using rev_ind; [done|].
  by rewrite app_assoc, !last_snoc.
Qed.

Lemma feed_concat (chunks : list text) : feed [] chunks = createSseParser [] (concat chunks).
Proof.
  assert (H : forall buffer, open_block buffer -> feed buffer chunks = createSseParser buffer (concat chunks)).
  { induction chunks as [|c cs IH]; intros buffer Ho; cbn [feed concat].
    - unfold createSseParser. rewrite app_nil_r, Ho. done.
    - rewrite IH by apply last_open. unfold createSseParser. cbn [fst snd].
      rewrite app_assoc, (split_app (buffer ++ c) (concat cs)).
      destruct (removelast_app_ne (removelast (split block_sep (buffer ++ c)))
        (split block_sep (default [] (last (split block_sep (buffer ++ c))) ++ concat cs)) (split_nonempty _ _)) as [-> ->].
      by rewrite fmap_app, concat_app. }
  by apply H.
Qed.

(** The events of a stream do not depend on how it is cut into chunks: feeding the chunks
    of two cuts of the same text gives the same events and leaves the same buffer. *)
Theorem sse_chunking (chunks chunks' : list text) : concat chunks = concat chunks' -> feed [] chunks = feed [] chunks'.
Proof. intros H. by rewrite !feed_concat, H. Qed.

(** ** Reading back what a server writes *)

(** An event as it is written: its name, its id, the lines of its data. *)
Record written := mkWritten { w_event : text; w_id : option text; w_data : list text }.

Definition id_line (i : option text) : list text := match i with Some i => [units "id: " ++ i] | None => [] end.
Definition data_line (d : text) : text := units "data: " ++ d.
Definition lines_of (w : written) : list text :=
  (units "event: " ++ w_event w) :: (id_line (w_id w) ++ (data_line <$> w_data w)).
(** Every line is ended, and so is the event. *)
Definition encode (w : written) : text := concat ((fun l => l ++ [LF]) <$> lines_of w) ++ [LF].
Definition decoded (w : written) : SseEvent := mkSse (w_event w) (join_lines (w_data w)) (w_id w).

Definition one_line (l : text) : Prop := (LF ∉ l) /\ (CR ∉ l).
Definition well_formed (w : written) : Prop :=
  one_line (w_event w) /\ from_option one_line True (w_id w) /\ Forall one_line (w_data w) /\ w_data w ≠ [].

Lemma one_line_app a b : one_line a -> one_line b -> one_line (a ++ b).
Proof. unfold one_line. rewrite !elem_of_app. tauto. Qed.

Lemma one_line_cons c l : one_line (c :: l) <-> c ≠ LF /\ c ≠ CR /\ one_line l.
Proof. unfold one_line. rewrite !elem_of_cons. split; [intros [H1 H2]; split_and!; [intros ->|intros ->|..]; tauto|intuition congruence]. Qed.

(** A character that begins no separator. *)
Lemma sep_other c u : c ≠ LF -> c ≠ CR -> block_sep (c :: u) = O /\ line_sep (c :: u) = O.
Proof.
  unfold block_sep, line_sep. intros H1 H2. cbn [starts_with].
  by rewrite !(proj2 (Z.eqb_neq CR c)), !(proj2 (Z.eqb_neq LF c)) by congruence.
Qed.

Lemma first_match_skip sep l u :
  (forall c v, c ≠ LF -> c ≠ CR -> sep (c :: v) = O) -> one_line l ->
  first_match sep (l ++ u) = match first_match sep u with Some (p, r) => Some (l ++ p, r) | None => None end.
Proof.
  intros Hsep. induction l as [|c l IH]; intros Hl; cbn [app]; [by destruct (first_match sep u) as [[]|]|].
  apply one_line_cons in Hl as (H1 & H2 & Hl). cbn [first_match]. rewrite Hsep, IH by done.
  by destruct (first_match sep u) as [[]|].
Qed.

Lemma block_skip l u : one_line l ->
  first_match block_sep (l ++ u) = match first_match block_sep u with Some (p, r) => Some (l ++ p, r) | None => None end.
Proof. apply first_match_skip. intros. by apply sep_other. Qed.

(** Lines that are ended and not empty hold no separator; the empty line ends the block. *)
Lemma block_end ls rest :
  ls ≠ [] -> Forall (fun l => one_line l /\ l ≠ []) ls ->
  first_match block_sep (concat ((fun l => l ++ [LF]) <$> ls) ++ LF :: rest) = Some (join_lines ls, rest).
Proof.
  intros Hne. induction ls as [|l ls IH]; [done|]. intros [[Hl Hnl] Hls]%Forall_cons. cbn [fmap list_fmap concat].
  rewrite <-!app_assoc, block_skip by done. cbn [app]. destruct ls as [|l' ls].
  - cbn. by rewrite app_nil_r.
  - assert (Hf : first_match block_sep (LF :: concat ((fun l => l ++ [LF]) <$> l' :: ls) ++ LF :: rest) =
                 match first_match block_sep (concat ((fun l => l ++ [LF]) <$> l' :: ls) ++ LF :: rest) with
                 | Some (p, r) => Some (LF :: p, r) | None => None end).
    { apply Forall_cons in Hls as [[Hl' Hnl'] _]. destruct l' as [|c l']; [done|].
      apply one_line_cons in Hl' as (Hc & Hc' & _). cbn [fmap list_fmap concat app first_match].
      assert (Hs : forall v, block_sep (LF :: c :: v) = O).
      { intros v. unfold block_sep. cbn [starts_with]. by rewrite (proj2 (Z.eqb_neq LF c)) by congruence. }
      by rewrite Hs. }
    rewrite Hf, IH by done. done.
Qed.

Lemma split_lines ls : ls ≠ [] -> Forall one_line ls -> split line_sep (join_lines ls) = ls.
Proof.
  intros Hne. induction ls as [|l ls IH]; [done|]. intros [Hl Hls]%Forall_cons.
  assert (Hskip : forall u, first_match line_sep (l ++ u) = match first_match line_sep u with Some (p, r) => Some (l ++ p, r) | None => None end).
  { intros u. apply first_match_skip; [|done]. intros. by apply sep_other. }
  destruct ls as [|l' ls].
  - cbn [join_lines]. rewrite split_eq, <-(app_nil_r l), Hskip. done.
  - change (join_lines (l :: l' :: ls)) with (l ++ LF :: join_lines (l' :: ls)). rewrite split_eq, Hskip. cbn [first_match].
    change (line_sep (LF :: join_lines (l' :: ls))) with 1%nat. cbv iota beta.
    by rewrite drop_0, app_nil_r, IH.
Qed.

Lemma read_sse_field f name v :
  name ≠ [] -> 58 ∉ name ->
  read_line f (name ++ units ": " ++ v) =
    (if bool_decide (name = units "event") then mkFields v (f_id f) (f_data f)
     else if bool_decide (name = units "data") then mkFields (f_event f) (f_id f) (f_data f ++ [v])
     else if bool_decide (name = units "id") then mkFields (f_event f) (Some v) (f_data f)
     else f).
Proof.
  intros Hne Hc. unfold read_line. change (units ": ") with [58; 32]. change (units ":") with [58]. cbn [app].
  rewrite index_of_first by done. rewrite bool_decide_false by (by destruct name).
  assert (Hs : starts_with [58] (name ++ 58 :: 32 :: v) = false).
  { destruct name as [|x name]; [done|]. cbn [app starts_with]. rewrite (proj2 (Z.eqb_neq 58 x)); [done|]. intros <-. by destruct Hc; left. }
  rewrite Hs. cbn [orb]. rewrite take_app_length.
  replace (drop (S (length name)) (name ++ 58 :: 32 :: v)) with (32 :: v); [done|].
  clear. induction name as [|x name IH]; [done|]. exact IH.
Qed.

Lemma one_line_test t : forallb (fun c => negb (c =? 10) && negb (c =? 13)) t = true -> one_line t.
Proof.
  rewrite forallb_forall. intros Ht. unfold one_line, LF, CR. split; intros Hin; apply list_elem_of_In, Ht in Hin; done.
Qed.

Lemma lines_one_line w : well_formed w -> Forall one_line (lines_of w).
Proof.
  intros (He & Hi & Hd & _). unfold lines_of, data_line. constructor; [by apply one_line_app; [apply one_line_test|]|]. apply Forall_app. split.
  - destruct (w_id w); [|done]. constructor; [by apply one_line_app; [apply one_line_test|]|done].
  - apply Forall_fmap. eapply Forall_impl; [exact Hd|]. intros d Hl. by apply one_line_app; [apply one_line_test|].
Qed.

Lemma parse_written w : well_formed w -> parse_block (join_lines (lines_of w)) = [decoded w].
Proof.
  intros Hw. pose proof Hw as (He & Hi & Hd & Hne). unfold parse_block. rewrite split_lines.
  - unfold lines_of. cbn [foldl]. change (units "event: ") with (units "event" ++ units ": "). rewrite <-app_assoc.
    rewrite read_sse_field by (done || by apply (bool_decide_unpack _)).
    rewrite bool_decide_true by done. cbn [f_id f_data]. rewrite foldl_app.
    assert (Hid : foldl read_line (mkFields (w_event w) None []) (id_line (w_id w)) = mkFields (w_event w) (w_id w) []).
    { destruct (w_id w) as [i|]; [|done]. cbn [id_line foldl]. change (units "id: ") with (units "id" ++ units ": "). rewrite <-app_assoc.
      by rewrite read_sse_field by (done || by apply (bool_decide_unpack _)). }
    rewrite Hid.
    assert (Hdata : forall l f, foldl read_line f (data_line <$> l) = mkFields (f_event f) (f_id f) (f_data f ++ l)).
    { clear. induction l as [|d l IH]; intros f; cbn [fmap list_fmap foldl]; [rewrite app_nil_r; by destruct f|].
      change (data_line d) with (units "data" ++ units ": " ++ d).
      rewrite read_sse_field by (done || by apply (bool_decide_unpack _)). 
      rewrite bool_decide_false, bool_decide_true by done. rewrite IH. cbn [f_event f_id f_data]. by rewrite <-app_assoc. }
    rewrite Hdata. cbn [f_data f_event f_id app]. unfold decoded. by destruct (w_data w).
  - done.
  - by apply lines_one_line.
Qed.

Lemma lines_of_nonempty w : Forall (fun l => l ≠ []) (lines_of w).
Proof.
  unfold lines_of. constructor; [done|]. apply Forall_app. split; [by destruct (w_id w); [constructor|]|].
  apply Forall_fmap, Forall_true. done.
Qed.

Lemma split_encoded ws : Forall well_formed ws ->
  split block_sep (concat (encode <$> ws)) = ((fun w => join_lines (lines_of w)) <$> ws) ++ [[]].
Proof.
  induction ws as [|w ws IH]; [done|]. intros [Hw Hws]%Forall_cons. cbn [fmap list_fmap concat].
  unfold encode at 1. rewrite <-app_assoc, split_eq. cbn [app]. rewrite block_end; [by rewrite IH|done|].
  assert (Hl : Forall one_line (lines_of w)) by by apply lines_one_line.
  pose proof (lines_of_nonempty w) as Hn. rewrite Forall_forall in *. intros l Hin. split; [by apply Hl|by apply Hn].
Qed.

Lemma feed_encoded (ws : list written) (chunks : list text) :
  Forall well_formed ws -> concat chunks = concat (encode <$> ws) -> feed [] chunks = ([], decoded <$> ws).
Proof.
  intros Hw Hc. rewrite feed_concat, Hc. unfold createSseParser. cbn [app]. rewrite split_encoded by done.
  rewrite last_snoc, removelast_last. f_equal. clear Hc. induction ws as [|w ws IH]; [done|].
  apply Forall_cons in Hw as [Hw Hws]. cbn [fmap list_fmap concat]. by rewrite parse_written, IH.
Qed.

(** C21: A stream of written events is read back event by event, in order and whatever chunks
    it arrives in: name, id and data of each, with nothing left in the buffer. *)
Theorem sse_roundtrip (ws : list written) (chunks : list text) :
  Forall well_formed ws -> concat chunks = concat (encode <$> ws) -> feed [] chunks = ([], decoded <$> ws).
Proof. apply feed_encoded. Qed.

Definition toy_events : list written :=
  [mkWritten (units "notification") (Some (units "7")) [units "{a"; units "b}"]; mkWritten (units "ping") None [[]]].

(** Cut inside a line, and between the two line ends of an event. *)
Lemma sse_roundtrip_witness :
  feed [] [take 3 (concat (encode <$> toy_events)); take 46 (drop 3 (concat (encode <$> toy_events)));
           drop 49 (concat (encode <$> toy_events))] = ([], decoded <$> toy_events).
Proof.
  apply (sse_roundtrip toy_events).
  - assert (H : forall t, forallb (fun c => negb (c =? 10) && negb (c =? 13)) t = true -> one_line t) by apply one_line_test.
    unfold toy_events. rewrite !Forall_cons, Forall_nil. unfold well_formed. cbn. rewrite ?Forall_cons, ?Forall_nil.
    split_and!; try done; apply H; reflexivity.
  - vm_compute. reflexivity.
Defined.

Lemma sse_chunking_witness :
  feed [] [units "data: a"; [LF]; [LF]] = feed [] [units "data: " ; units "a" ++ [LF; LF]].
Proof. apply sse_chunking. vm_compute. reflexivity. Defined.

(** A blank line written with another line end than the line before it does not end an event. *)
Example mixed_line_ends : feed [] [units "data: a" ++ [LF; CR; LF]] = (units "data: a" ++ [LF; CR; LF], []).
Proof. vm_compute. reflexivity. Qed.
End Sse.

Module Hook.
Local Open Scope js_scope.

Record AppNotification := mkApp {
  n_id : string;
  n_type : string;
  n_title : string;
  n_message : string;
  n_data : option jsval;
  n_read : bool;
  createdAt : string;
}.
(** The entity as the backend serialises it: a bigint id is a number or a text. *)
Record ApiNotification := mkApi {
  a_id : jsval;
  a_type : string;
  a_title : string;
  a_message : string;
  a_data : jsval;
  a_read : jsval;
  created_at : string;
}.

Definition toAppNotification (raw : ApiNotification) : AppNotification :=
  mkApp (js_String (a_id raw)) (a_type raw) (a_title raw) (a_message raw)
    (match a_data raw with VUndef | VNull => None | v => Some v end) (truthy (a_read raw)) (created_at raw).

Definition MAX_RECONNECT_DELAY_MS : Z := 30000.
Definition reconnect_delay (attempt : Z) : Z := Z.min MAX_RECONNECT_DELAY_MS (1000 * 2 ^ attempt).

(** The state of the hook and its refs; [signed_in]: there is an address. *)
Record state := mkState {
  notifications : list AppNotification;
  unreadCount : Z;
  isLoading : bool;
  error : option string;
  notificationsRef : list AppNotification;
  unreadCountRef : Z;
  seenIds : list string;
  receivedDuringFetch : list AppNotification;
  signed_in : bool;
}.

Definition with_list l c s := mkState l c (isLoading s) (error s) (notificationsRef s) (unreadCountRef s) (seenIds s) (receivedDuringFetch s) (signed_in s).
Definition with_loading b e s := mkState (notifications s) (unreadCount s) b e (notificationsRef s) (unreadCountRef s) (seenIds s) (receivedDuringFetch s) (signed_in s).
Definition with_seen l s := mkState (notifications s) (unreadCount s) (isLoading s) (error s) (notificationsRef s) (unreadCountRef s) l (receivedDuringFetch s) (signed_in s).
Definition with_received l s := mkState (notifications s) (unreadCount s) (isLoading s) (error s) (notificationsRef s) (unreadCountRef s) (seenIds s) l (signed_in s).
Definition with_address b s := mkState (notifications s) (unreadCount s) (isLoading s) (error s) (notificationsRef s) (unreadCountRef s) (seenIds s) (receivedDuringFetch s) b.

(** A render makes the refs current. *)
Definition render (s : state) : state :=
  mkState (notifications s) (unreadCount s) (isLoading s) (error s) (notifications s) (unreadCount s) (seenIds s) (receivedDuringFetch s) (signed_in s).

Definition ids (l : list AppNotification) : list string := n_id <$> l.
Definition unread (l : list AppNotification) : Z := Z.of_nat (length (List.filter (fun n => negb (n_read n)) l)).

(** [fetchNotifications] up to its request, and after the answer. *)
Definition fetch_start (s : state) : state := with_received [] (with_loading true None s).

Definition fetch_ok (page : list ApiNotification) (serverUnread : Z) (s : state) : state :=
  let fetched := toAppNotification <$> page in
  let missed := rev (List.filter (fun n => negb (bool_decide (n_id n ∈ ids fetched))) (receivedDuringFetch s)) in
  let l := missed ++ fetched in
  with_received [] (with_loading false (error s)
    (with_list l (serverUnread + unread missed) (with_seen (ids l) s))).

Definition fetch_fail (message : string) (s : state) : state := with_received [] (with_loading false (Some message) s).

(** The effect without an address. *)
Definition sign_out (s : state) : state :=
  with_address false (with_loading false (error s) (with_list [] 0 (with_seen [] s))).

Definition receive (n : AppNotification) (s : state) : state :=
  if bool_decide (n_id n ∈ seenIds s) then s
  else with_list (n :: notifications s) (if n_read n then unreadCount s else unreadCount s + 1)
         (with_received (receivedDuringFetch s ++ [n]) (with_seen (n_id n :: seenIds s) s)).

Definition set_read (b : bool) (n : AppNotification) : AppNotification :=
  mkApp (n_id n) (n_type n) (n_title n) (n_message n) (n_data n) b (createdAt n).
Definition set_read_of (id : string) (b : bool) (l : list AppNotification) : list AppNotification :=
  (fun n => if bool_decide (n_id n = id) then set_read b n else n) <$> l.

(** [markAsRead] up to its request: [None] when there is nothing to do. *)
Definition mark_start (id : string) (s : state) : option state :=
  match find (fun n => bool_decide (n_id n = id)) (notificationsRef s) with
  | None => None
  | Some target =>
      if n_read target then None
      else Some (with_list (set_read_of id true (notifications s)) (Z.max 0 (unreadCount s - 1)) s)
  end.
Definition mark_fail (id message : string) (s : state) : state :=
  with_loading (isLoading s) (Some message) (with_list (set_read_of id false (notifications s)) (unreadCount s + 1) s).

(** [markAllAsRead]; [previous] and [previousUnread] are what the refs held at its start. *)
Definition all_start (s : state) : state := with_list (set_read true <$> notifications s) 0 s.
Definition all_ok (serverUnread : Z) (s : state) : state := with_list (notifications s) serverUnread s.
Definition all_fail (previous : list AppNotification) (previousUnread : Z) (message : string) (s : state) : state :=
  with_loading (isLoading s) (Some message) (with_list previous previousUnread s).

(** ** Runs: the state and the requests in flight *)

Inductive request := RFetch | RMark (id : string) | RAll (previous : list AppNotification) (previousUnread : Z).

(** [rollback]: whether a request to mark everything read may fail. *)
Inductive step (rollback : bool) : state * list request -> state * list request -> Prop :=
| SRender s rs : step rollback (s, rs) (render s, rs)
| SFetch s rs : step rollback (s, rs) (with_address true (fetch_start s), RFetch :: rs)
| SFetchOk s rs rs' page n : rs ≡ₚ RFetch :: rs' -> NoDup (ids (toAppNotification <$> page)) ->
    step rollback (s, rs) (fetch_ok page n s, rs')
| SFetchFail s rs rs' e : rs ≡ₚ RFetch :: rs' -> step rollback (s, rs) (fetch_fail e s, rs')
| SSignOut s rs : step rollback (s, rs) (sign_out s, rs)
| SReceive s rs n : signed_in s = true -> step rollback (s, rs) (receive n s, rs)
| SMark s rs id s' : mark_start id s = Some s' -> step rollback (s, rs) (s', RMark id :: rs)
| SMarkOk s rs rs' id : rs ≡ₚ RMark id :: rs' -> step rollback (s, rs) (s, rs')
| SMarkFail s rs rs' id e : rs ≡ₚ RMark id :: rs' -> step rollback (s, rs) (mark_fail id e s, rs')
| SAll s rs : step rollback (s, rs) (all_start s, RAll (notificationsRef s) (unreadCountRef s) :: rs)
| SAllOk s rs rs' l c n : rs ≡ₚ RAll l c :: rs' -> step rollback (s, rs) (all_ok n s, rs')
| SAllFail s rs rs' l c e : rollback = true -> rs ≡ₚ RAll l c :: rs' -> step rollback (s, rs) (all_fail l c e s, rs').

Definition initial : state := mkState [] 0 false None [] 0 [] [] false.

(** ** No notification is listed twice *)

Definition distinct (s : state) : Prop :=
  NoDup (ids (notifications s)) /\ (forall i, i ∈ ids (notifications s) -> i ∈ seenIds s) /\
  NoDup (ids (receivedDuringFetch s)) /\
  (signed_in s = true -> forall i, i ∈ ids (receivedDuringFetch s) -> i ∈ seenIds s).

Lemma ids_set_read id b l : ids (set_read_of id b l) = ids l.
Proof.
  unfold ids, set_read_of. rewrite <-list_fmap_compose. apply list_fmap_ext. intros i n _. cbn. by destruct (bool_decide _).
Qed.
Lemma ids_all_read l : ids (set_read true <$> l) = ids l.
Proof. unfold ids. by rewrite <-list_fmap_compose. Qed.

Lemma ids_filter_NoDup p l : NoDup (ids l) -> NoDup (ids (List.filter p l)).
Proof. apply NoDup_fmap_filter. Qed.

Lemma fetch_ok_distinct page n s :
  NoDup (ids (toAppNotification <$> page)) -> NoDup (ids (receivedDuringFetch s)) -> distinct (fetch_ok page n s).
Proof.
  intros Hp Hr. unfold distinct, fetch_ok. cbn. split_and!; [|done|constructor|intros _ i Hi; by apply elem_of_nil in Hi].
  unfold ids at 1. rewrite fmap_app. apply NoDup_app. split_and!; [| |done].
  - rewrite <-Permutation_rev. by apply ids_filter_NoDup.
  - intros i Hi Hf. apply list_elem_of_fmap in Hi as (x & -> & Hx). apply list_elem_of_In, in_rev, list_elem_of_In, elem_of_List_filter in Hx as [_ Hx].
    by rewrite bool_decide_true in Hx.
Qed.

Lemma step_distinct w w' : step false w w' -> distinct w.1 -> distinct w'.1.
Proof.
  intros Hs (H1 & H2 & H3 & H4). destruct Hs; cbn [fst] in *.
  - done.
  - split_and!; [done|done|constructor|intros _ i Hi; by apply elem_of_nil in Hi].
  - by apply fetch_ok_distinct.
  - split_and!; [done|done|constructor|intros _ i Hi; by apply elem_of_nil in Hi].
  - split_and!; [constructor|intros i Hi; by apply elem_of_nil in Hi|done|done].
  - unfold receive. destruct (bool_decide_reflect (n_id n ∈ seenIds s)) as [|Hn]; [done|]. unfold distinct. cbn. split_and!.
    + constructor; [intros Hi; by apply Hn, H2|done].
    + intros i Hi. apply elem_of_cons in Hi as [->|Hi]; [left|right; auto].
    + unfold ids. rewrite fmap_app. apply NoDup_app. split_and!; [done| |apply NoDup_singleton].
      intros i Hi Hin. apply list_elem_of_singleton in Hin as ->. by apply Hn, H4.
    + intros _ i Hi. unfold ids in Hi. rewrite fmap_app in Hi. apply elem_of_app in Hi as [Hi|Hi]; [right; by apply H4|].
      apply list_elem_of_singleton in Hi as ->. left.
  - unfold mark_start in H. destruct (find _ _) as [t|]; [|done]. destruct (n_read t); [done|]. injection H as <-.
    unfold distinct. cbn. by rewrite ids_set_read.
  - done.
  - unfold distinct. cbn. by rewrite ids_set_read.
  - unfold distinct. cbn. by rewrite ids_all_read.
  - done.
  - done.
Qed.

(** In every run in which no request to mark everything read fails, whatever the order of
    fetches, stream events, renders, sign-outs and rollbacks of single updates, no
    notification is listed twice and every listed one is known as seen. *)
Theorem listed_once s rs :
  rtc (step false) (initial, []) (s, rs) ->
  NoDup (ids (notifications s)) /\ forall i, i ∈ ids (notifications s) -> i ∈ seenIds s.
Proof.
  intros Hr. assert (Hd : distinct s); [|by destruct Hd as (H1 & H2 & _)].
  change s with (s, rs).1. revert Hr. generalize (s, rs). apply (rtc_ind_r (fun w => distinct w.1)).
  - unfold distinct. cbn. split_and!; [apply NoDup_nil_2|intros i Hi; by apply elem_of_nil in Hi|apply NoDup_nil_2|done].
  - intros w w' _ Hw. by apply step_distinct.
Qed.

(** ** A fetch does not wipe out what arrives meanwhile *)

Lemma receive_seen n s i : i ∈ seenIds s -> i ∈ seenIds (receive n s).
Proof. unfold receive. destruct (bool_decide _); [done|]. cbn. by right. Qed.

Lemma receives_kept (ns : list AppNotification) s i :
  i ∈ ids ns -> i ∉ seenIds s -> i ∈ ids (receivedDuringFetch (foldl (fun s n => receive n s) s ns)).
Proof.
  assert (Hkeep : forall l s, i ∈ ids (receivedDuringFetch s) -> i ∈ ids (receivedDuringFetch (foldl (fun s n => receive n s) s l))).
  { induction l as [|n l IH]; intros s' Hi; [done|]. apply IH. unfold receive. destruct (bool_decide _); [done|].
    cbn. unfold ids. rewrite fmap_app. apply elem_of_app. by left. }
  revert s. induction ns as [|n ns IH]; intros s Hi Hs; [by apply elem_of_nil in Hi|]. cbn [foldl].
  destruct (decide (n_id n = i)) as [<-|Hn].
  - apply Hkeep. unfold receive. rewrite bool_decide_false by done. cbn. unfold ids. rewrite fmap_app. apply elem_of_app. right. left.
  - apply IH; [by apply elem_of_cons in Hi as [->|Hi]|]. unfold receive. destruct (bool_decide _); [done|]. cbn.
    intros [->|?]%elem_of_cons; done.
Qed.

(** A notification that the stream brings while a fetch is in flight is in the list after
    the answer, also when the answer does not hold it. *)
Theorem fetch_keeps_received (ns : list AppNotification) page unreadNow s n :
  n ∈ ns -> n_id n ∉ seenIds s ->
  n_id n ∈ ids (notifications (fetch_ok page unreadNow (foldl (fun s n => receive n s) (fetch_start s) ns))).
Proof.
  intros Hn Hs. assert (Hr := receives_kept ns (fetch_start s) (n_id n) (list_elem_of_fmap_2 n_id _ _ Hn) Hs).
  set (s' := foldl _ _ _) in *. unfold fetch_ok. cbn. unfold ids at 1. rewrite fmap_app. apply elem_of_app.
  destruct (decide (n_id n ∈ ids (toAppNotification <$> page))) as [Hp|Hp]; [by right|left].
  apply list_elem_of_fmap in Hr as (x & Hx & Hin). rewrite Hx in *. apply list_elem_of_fmap_2.
  apply list_elem_of_In. rewrite <-in_rev. apply list_elem_of_In, elem_of_List_filter. split; [done|]. by rewrite bool_decide_false.
Qed.

(** ** The unread count follows the list *)

(** A stream event, or an update of one notification with the outcome of its request; the
    page is rendered before each. *)
Inductive event := EReceive (n : AppNotification) | EMark (id : string) (accepted : bool).
Definition handle (s : state) (e : event) : state :=
  match e with
  | EReceive n => receive n (render s)
  | EMark id accepted =>
      match mark_start id (render s) with
      | None => render s
      | Some s' => if accepted then s' else mark_fail id "Failed to mark notification as read" s'
      end
  end.

Lemma unread_cons n l : unread (n :: l) = (if n_read n then 0 else 1) + unread l.
Proof. unfold unread. cbn. destruct (n_read n); cbn [negb length]; lia. Qed.

Lemma set_read_other id b l : id ∉ ids l -> set_read_of id b l = l.
Proof.
  intros Hn. unfold set_read_of. rewrite <-(list_fmap_id l) at 2. apply list_fmap_ext. intros i n Hl. cbn.
  rewrite bool_decide_false; [done|]. intros <-. apply Hn. apply list_elem_of_fmap_2. by eapply list_elem_of_lookup_2.
Qed.

(** Marking a listed unread notification, and taking it back. *)
Lemma mark_listed id l t :
  NoDup (ids l) -> find (fun n => bool_decide (n_id n = id)) l = Some t -> n_read t = false ->
  unread (set_read_of id true l) = unread l - 1 /\ set_read_of id false (set_read_of id true l) = l.
Proof.
  induction l as [|n l IH]; [done|]. intros Hnd Hf Hr. unfold ids in Hnd. cbn in Hnd. apply NoDup_cons in Hnd as [Hn Hnd].
  cbn [find] in Hf. unfold set_read_of. cbn [fmap list_fmap]. fold (set_read_of id true l).
  destruct (bool_decide_reflect (n_id n = id)) as [He|He].
  - injection Hf as <-. subst id. rewrite set_read_other by done. split; [rewrite !unread_cons; cbn; rewrite Hr; lia|].
    cbn [n_id set_read]. rewrite bool_decide_true by done. f_equal; [by destruct n; cbn in *; subst|].
    by apply set_read_other.
  - destruct (IH Hnd Hf Hr) as [H1 H2]. split; [rewrite !unread_cons, H1; lia|]. rewrite bool_decide_false by done. by f_equal.
Qed.

(** Between fetches the unread count stays the number of unread listed notifications plus
    the number that the page did not list, through stream events and accepted or rejected
    updates. *)
Theorem unread_tracks (es : list event) s :
  NoDup (ids (notifications s)) -> (forall i, i ∈ ids (notifications s) -> i ∈ seenIds s) ->
  unread (notifications s) <= unreadCount s ->
  let s' := foldl handle s es in
  unreadCount s' - unread (notifications s') = unreadCount s - unread (notifications s).
Proof.
  intros H1 H2 H3. cbv zeta.
  assert (H : forall e s, NoDup (ids (notifications s)) -> (forall i, i ∈ ids (notifications s) -> i ∈ seenIds s) ->
    unread (notifications s) <= unreadCount s ->
    NoDup (ids (notifications (handle s e))) /\ (forall i, i ∈ ids (notifications (handle s e)) -> i ∈ seenIds (handle s e)) /\
    unreadCount (handle s e) - unread (notifications (handle s e)) = unreadCount s - unread (notifications s)).
  { clear. intros [n|id ok] s H1 H2 H3; cbn [handle].
    - unfold receive. cbn. destruct (bool_decide_reflect (n_id n ∈ seenIds s)) as [|Hn]; [done|]. cbn. split_and!.
      + constructor; [intros Hi; by apply Hn, H2|done].
      + intros i [->|Hi]%elem_of_cons; [left|right; auto].
      + rewrite unread_cons. destruct (n_read n); lia.
    - unfold mark_start. cbn [render notificationsRef notifications unreadCount]. destruct (find _ (notifications s)) as [t|] eqn:Hf; [|done].
      destruct (n_read t) eqn:Hr; [done|]. destruct (mark_listed id _ t H1 Hf Hr) as [Hu Hb].
      assert (Hpos : 0 <= unread (set_read_of id true (notifications s))) by (unfold unread; lia).
      destruct ok; cbn [mark_fail with_list with_loading notifications unreadCount seenIds render];
        rewrite ?Hb, ?ids_set_read; split_and!; try done; lia. }
  revert s H1 H2 H3. induction es as [|e es IH]; intros s H1 H2 H3; [done|]. cbn [foldl].
  destruct (H e s H1 H2 H3) as (G1 & G2 & G3). rewrite IH by (done || lia). done.
Qed.

(** ** Interleavings that go wrong *)

Definition note (i : string) : AppNotification := mkApp i "goal" "t" "m" None false "2026".
Definition api (i : Z) : ApiNotification := mkApi (VNum i) "goal" "t" "m" VUndef (VBool false) "2026".

Lemma listed_once_witness :
  exists s rs, rtc (step false) (initial, []) (s, rs) /\ ids (notifications s) = ["2"; "1"]%string /\ NoDup (ids (notifications s)).
Proof.
  pose (s1 := with_address true (fetch_start initial)). pose (s2 := receive (note "2") s1). pose (s3 := fetch_ok [api 1] 1 s2).
  assert (Hr : rtc (step false) (initial, []) (s3, [])).
  { eapply rtc_l; [apply SFetch|]. eapply rtc_l; [apply (SReceive _ s1 _ (note "2")); reflexivity|].
    eapply rtc_l; [apply (SFetchOk _ s2 _ [] [api 1] 1); [reflexivity|apply NoDup_singleton]|]. apply rtc_refl. }
  exists s3, []. split_and!; [exact Hr|vm_compute; reflexivity|]. exact (proj1 (listed_once s3 [] Hr)).
Defined.

Lemma fetch_keeps_received_witness :
  "7"%string ∈ ids (notifications (fetch_ok [api 1] 1 (foldl (fun s n => receive n s) (fetch_start initial) [note "7"]))).
Proof. apply (fetch_keeps_received [note "7"] [api 1] 1 initial (note "7")); [left|apply not_elem_of_nil]. Defined.

Lemma unread_tracks_witness :
  unreadCount (foldl handle (fetch_ok [api 1; api 2] 5 (fetch_start initial)) [EMark "2" true; EReceive (note "3"); EMark "1" false]) = 5.
Proof.
  set (s := fetch_ok [api 1; api 2] 5 (fetch_start initial)).
  assert (H := unread_tracks [EMark "2" true; EReceive (note "3"); EMark "1" false] s).
  cbv zeta in H. assert (E : unread (notifications (foldl handle s [EMark "2" true; EReceive (note "3"); EMark "1" false])) = 2)
    by (vm_compute; reflexivity). rewrite E in H.
  assert (H' : unreadCount (foldl handle s [EMark "2" true; EReceive (note "3"); EMark "1" false]) - 2 = 3).
  { apply H; [apply (bool_decide_unpack _); vm_compute; reflexivity|done|vm_compute; discriminate]. }
  lia.
Defined.

(** A failed request to mark everything read puts back the list of its start: a notification
    that came meanwhile is gone, and as it counts as seen the stream cannot bring it back. *)
Theorem rollback_drops_notification :
  let s1 := render (fetch_ok [api 1] 1 (with_address true (fetch_start initial))) in
  let s2 := receive (note "2") (all_start s1) in
  let s3 := all_fail (notificationsRef s1) (unreadCountRef s1) "offline" s2 in
  ids (notifications s2) = ["2"; "1"]%string /\ ids (notifications s3) = ["1"]%string /\
  ids (notifications (receive (note "2") s3)) = ["1"]%string.
Proof. vm_compute. done. Qed.

(** Two clicks before the next render count twice. *)
Theorem double_click_counts_twice :
  let s1 := render (fetch_ok [api 1; api 2] 2 (fetch_start initial)) in
  exists s2 s3, mark_start "1" s1 = Some s2 /\ mark_start "1" s2 = Some s3 /\
    unreadCount s3 = 0 /\ unread (notifications s3) = 1.
Proof. eexists _, _. vm_compute. done. Qed.

(** With two fetches in flight the first answer empties the buffer of the second: a
    notification that came in between is lost from the list. *)
Theorem overlapping_fetches_lose :
  let s1 := receive (note "2") (fetch_start (fetch_start initial)) in
  let s2 := fetch_ok [api 1] 1 (fetch_ok [api 1] 1 s1) in
  ids (notifications s1) = ["2"]%string /\ ids (notifications s2) = ["1"]%string.
Proof. vm_compute. done. Qed.

(** The answer to a fetch of the account signed in before is shown to the next one. *)
Theorem stale_response_shown :
  let s1 := fetch_start (with_address true (sign_out (with_address true (fetch_start initial)))) in
  ids (notifications (fetch_ok [api 1] 1 (fetch_ok [api 9] 1 s1))) = ["1"]%string.
Proof. vm_compute. done. Qed.

(** The delay before a reconnection doubles from one second to at most thirty. *)
Theorem reconnect_delay_bounds attempt : 0 <= attempt ->
  1000 <= reconnect_delay attempt <= 30000 /\ reconnect_delay (attempt + 1) = Z.min 30000 (2 * reconnect_delay attempt).
Proof.
  intros Ha. unfold reconnect_delay, MAX_RECONNECT_DELAY_MS. rewrite Z.pow_add_r by lia.
  assert (1 <= 2 ^ attempt) by (apply (Z.pow_le_mono_r 2 0); lia). lia.
Qed.
End Hook.
