(* ===== verification/Live.v ===== *)
(** * Live notifications, from the backend to the page, and the category preferences

    Models [streamForUser] and the category preferences of
    [backend/src/notifications/notifications.service.ts], the envelope that the global
    [ResponseInterceptor] puts around everything a handler emits, events of a stream
    included, and the loop of [frontend/src/hooks/useNotifications.ts] that takes the events
    of the stream.  [served_stream_lists_nothing] composes the published notifications of the
    backend, the interceptor, the text of the stream in any chunks, the parser of the page
    and its list: the envelope hides the event's name, so the page lists none of them.
    [bare_stream_listed] is the composition without the interceptor. *)
From Stdlib Require Import ZArith Lia.
From stdpp Require Import base list strings sets.
From S2P Require Import Prelude Storage JsValue JsText JsDate Notifications Email NotificationStream.
Local Open Scope Z_scope.

Module Live.
Import NotificationStream.

(** A [MessageEvent] of the [@Sse] endpoint. *)
Record MessageEvent := mkMessage { m_type : string; m_data : Notifications.Notification; m_id : string }.

(** What a client subscribed for [userAddress] is sent of the events published meanwhile. *)
Definition streamForUser (userAddress : string) (events : list (string * Notifications.Notification)) : list MessageEvent :=
  (fun e => mkMessage "notification" e.2 (Z_to_string (Z.of_nat (Notifications.id e.2))))
    <$> List.filter (fun e => bool_decide (e.1 = userAddress)) events.

(** The entity as the page gets it. *)
Definition api_of (n : Notifications.Notification) : Hook.ApiNotification :=
  Hook.mkApi (VNum (Z.of_nat (Notifications.id n))) (Notifications.type n) (Notifications.title n) (Notifications.message n)
    (match Notifications.data n with Some d => VObj d | None => VNull end) (VBool (Notifications.read n))
    (toISOString (Notifications.created_at n)).

(** [ResponseInterceptor.intercept], applied to each event of the stream; the answer of an
    [@Sse] handler has status 200 and is no file. *)
Record Envelope := mkEnvelope { success : bool; e_data : MessageEvent; timestamp : string }.
Definition intercept (now : Z) (m : MessageEvent) : Envelope := mkEnvelope true m (toISOString now).

Section stream.
(** The JSON text of an entity and of a message, and [JSON.parse] to an entity. *)
Context (stringify : Notifications.Notification -> text) (stringify_message : MessageEvent -> text)
        (JSON_parse : text -> outcome Hook.ApiNotification).

(** What the framework writes of an object it is given: the line of its [type] when it has
    one, the line of its [id] or of the number [n] of the event, and its [data] in one line;
    then an empty line.  An envelope has neither [type] nor [id]. *)
Definition block_text (lines : list text) : text := concat ((fun l => l ++ [Sse.LF]) <$> lines) ++ [Sse.LF].
Definition envelope_lines (n : nat) (e : Envelope) : list text :=
  [units "id: " ++ units (Z_to_string (Z.of_nat n)); Sse.data_line (stringify_message (e_data e))].

(** The body of the answer, the events numbered from one. *)
Definition served (es : list Envelope) : text :=
  concat (block_text <$> imap (fun i e => envelope_lines (S i) e) es).

(** The same without the interceptor: the event's name, its id and one line of data. *)
Definition bare_event (m : MessageEvent) : Sse.written :=
  Sse.mkWritten (units (m_type m)) (Some (units (m_id m))) [stringify (m_data m)].

(** The body of the reading loop for one event: other events and payloads that are not
    JSON are skipped. *)
Definition take_event (s : Hook.state) (e : Sse.SseEvent) : Hook.state :=
  if bool_decide (Sse.event e = units "notification") then
    match JSON_parse (Sse.data e) with
    | Ret raw => Hook.receive (Hook.toAppNotification raw) s
    | Throw _ => s
    end
  else s.

(** The connection: the chunks it brings, parsed and taken one event after the other. *)
Definition read_stream (chunks : list text) (s : Hook.state) : Hook.state :=
  foldl take_event s (Sse.feed [] chunks).2.

Lemma receives_listed (ns : list Hook.AppNotification) : forall s,
  NoDup (Hook.ids ns) -> (forall i, i ∈ Hook.ids ns -> i ∉ Hook.seenIds s) ->
  Hook.notifications (foldl (fun s n => Hook.receive n s) s ns) = rev ns ++ Hook.notifications s.
Proof.
  induction ns as [|n ns IH]; intros s Hnd Hs; [done|]. cbn [foldl rev]. unfold Hook.ids in Hnd. cbn [fmap list_fmap] in Hnd.
  apply NoDup_cons in Hnd as [Hn Hnd].
  assert (Hrec : Hook.receive n s = Hook.with_list (n :: Hook.notifications s)
     (if Hook.n_read n then Hook.unreadCount s else Hook.unreadCount s + 1)
     (Hook.with_received (Hook.receivedDuringFetch s ++ [n]) (Hook.with_seen (Hook.n_id n :: Hook.seenIds s) s))).
  { unfold Hook.receive. rewrite bool_decide_eq_false_2; [done|]. apply Hs. left. }
  rewrite Hrec, IH; [by rewrite <-app_assoc|done|].
  cbn. intros i Hi Hin. apply elem_of_cons in Hin as [->|Hin]; [done|]. apply (Hs i); [by right|done].
Qed.

(** JSON text has no line breaks, and parsing it gives the entity back. *)
Definition json_like (n : Notifications.Notification) : Prop :=
  Sse.one_line (stringify n) /\ JSON_parse (stringify n) = Ret (api_of n).

Definition published_for (addr : string) (events : list (string * Notifications.Notification)) : list Notifications.Notification :=
  snd <$> List.filter (fun e => bool_decide (e.1 = addr)) events.

Lemma number_line n : Sse.one_line (units (Z_to_string (Z.of_nat n))).
Proof.
  apply Sse.one_line_test, forallb_forall. intros c Hc.
  assert (Hd : is_dec c = true).
  { pose proof (dec_digits (Z.of_nat n) ltac:(lia)) as Hall. rewrite Forall_forall in Hall.
    apply Hall. by apply list_elem_of_In. }
  unfold is_dec in Hd. apply andb_true_iff in Hd as [Hd _]. apply Z.leb_le in Hd.
  rewrite (proj2 (Z.eqb_neq c 10)), (proj2 (Z.eqb_neq c 13)) by lia. done.
Qed.

Lemma written_well_formed addr events : Forall json_like (published_for addr events) -> Forall Sse.well_formed (bare_event <$> streamForUser addr events).
Proof.
  intros Hj. apply Forall_forall. intros w Hw. apply list_elem_of_fmap in Hw as (m & -> & Hm).
  apply list_elem_of_fmap in Hm as (e & -> & He).
  assert (Hone : Sse.one_line (stringify e.2)).
  { rewrite Forall_forall in Hj. by apply Hj, list_elem_of_fmap_2. }
  unfold Sse.well_formed, bare_event. cbn [Sse.w_event Sse.w_id Sse.w_data m_type m_id m_data from_option].
  split; [by apply Sse.one_line_test|]. split; [|split; [constructor; [done|constructor]|done]].
  apply number_line.
Qed.

Lemma take_written s m : json_like (m_data m) -> m_type m = "notification"%string ->
  take_event s (Sse.decoded (bare_event m)) = Hook.receive (Hook.toAppNotification (api_of (m_data m))) s.
Proof.
  intros [_ Hj] Hm. unfold take_event, Sse.decoded, bare_event. cbn [Sse.event Sse.data Sse.w_event Sse.w_data Sse.join_lines].
  rewrite Hm, bool_decide_eq_true_2, Hj by done. done.
Qed.

Lemma fold_events (events : list (string * Notifications.Notification)) (s : Hook.state) addr :
  Forall json_like (published_for addr events) ->
  foldl take_event s (Sse.decoded <$> (bare_event <$> streamForUser addr events)) =
    foldl (fun s n => Hook.receive n s) s ((fun n => Hook.toAppNotification (api_of n)) <$> published_for addr events).
Proof.
  unfold published_for, streamForUser. generalize (List.filter (fun e => bool_decide (e.1 = addr)) events). intros l. revert s.
  induction l as [|e l IH]; intros s Hj; [done|]. cbn [fmap list_fmap] in Hj. apply Forall_cons in Hj as [He Hj].
  cbn [fmap list_fmap foldl]. by rewrite take_written, IH.
Qed.

(** Without the interceptor the page would show, newest first and above what it showed,
    exactly the notifications published for its address since it connected, in whatever
    chunks the stream arrives. *)
Theorem bare_stream_listed (addr : string) (events : list (string * Notifications.Notification)) (chunks : list text) (s : Hook.state) :
  Forall json_like (published_for addr events) ->
  concat chunks = concat (Sse.encode <$> (bare_event <$> streamForUser addr events)) ->
  let mine := published_for addr events in
  let shown := (fun n => Hook.toAppNotification (api_of n)) <$> mine in
  NoDup (Notifications.id <$> mine) -> (forall i, i ∈ Hook.ids shown -> i ∉ Hook.seenIds s) ->
  Hook.notifications (read_stream chunks s) = rev shown ++ Hook.notifications s.
Proof.
  intros Hj Hc mine shown Hnd Hs. unfold read_stream.
  rewrite (Sse.feed_encoded (bare_event <$> streamForUser addr events)) by (done || by apply written_well_formed). cbn [snd].
  rewrite (fold_events _ s _ Hj).
  apply receives_listed; [|done]. unfold Hook.ids, shown. rewrite <-list_fmap_compose.
  replace (_ <$> mine) with ((fun k : nat => Z_to_string (Z.of_nat k)) <$> (Notifications.id <$> mine)) by by rewrite <-list_fmap_compose.
  apply NoDup_fmap_2; [|done]. intros a b Hab. apply Z_to_string_inj in Hab. lia.
Qed.

(** *** The stream as it is served *)

Lemma split_blocks (bs : list (list text)) :
  Forall (fun ls => ls ≠ [] /\ Forall (fun l => Sse.one_line l /\ l ≠ []) ls) bs ->
  Sse.split Sse.block_sep (concat (block_text <$> bs)) = (Sse.join_lines <$> bs) ++ [[]].
Proof.
  induction bs as [|ls bs IH]; [done|]. intros [[Hne Hls] Hbs]%Forall_cons. cbn [fmap list_fmap concat].
  unfold block_text at 1. rewrite <-app_assoc, Sse.split_eq. cbn [app]. by rewrite Sse.block_end, IH.
Qed.

Lemma envelope_lines_ok n e :
  Sse.one_line (stringify_message (e_data e)) -> Forall (fun l => Sse.one_line l /\ l ≠ []) (envelope_lines n e).
Proof.
  intros He. unfold envelope_lines, Sse.data_line. repeat constructor; try done.
  1,2: apply Sse.one_line_app; [by apply Sse.one_line_test|apply number_line].
  1,2: apply Sse.one_line_app; [by apply Sse.one_line_test|done].
Qed.

(** An envelope is parsed as an event without a name. *)
Lemma parse_envelope n e :
  Sse.one_line (stringify_message (e_data e)) ->
  exists d i, Sse.parse_block (Sse.join_lines (envelope_lines n e)) = [Sse.mkSse (units "message") d i].
Proof.
  intros He. unfold Sse.parse_block. rewrite Sse.split_lines; [|done|].
  - unfold envelope_lines, Sse.data_line. cbn [foldl].
    change (units "id: ") with (units "id" ++ units ": "). change (units "data: ") with (units "data" ++ units ": ").
    rewrite <-!app_assoc, Sse.read_sse_field by (done || by apply (bool_decide_unpack _)).
    rewrite Sse.read_sse_field by (done || by apply (bool_decide_unpack _)).
    eexists _, _. reflexivity.
  - eapply Forall_impl; [by apply envelope_lines_ok|]. by intros l [].
Qed.

Lemma take_nameless s d i : take_event s (Sse.mkSse (units "message") d i) = s.
Proof. reflexivity. Qed.

(** No event of the stream as it is served reaches the page: whatever is published for
    its address, at whatever times and in whatever chunks it arrives, reading the stream
    leaves the list, the unread count and all else as they were, since the page takes
    only events named [notification] and the interceptor's envelope has no name. *)
Theorem served_stream_lists_nothing (addr : string) (events : list (string * Notifications.Notification))
    (times : list Z) (chunks : list text) (s : Hook.state) :
  (forall m, Sse.one_line (stringify_message m)) ->
  concat chunks = served (zip_with intercept times (streamForUser addr events)) ->
  read_stream chunks s = s.
Proof.
  intros Hj Hc. unfold read_stream. rewrite Sse.feed_concat, Hc. unfold Sse.createSseParser, served. cbn [app snd].
  rewrite split_blocks, removelast_last.
  - generalize (zip_with intercept times (streamForUser addr events)). intros es.
    assert (H : forall k : nat -> nat, foldl take_event s (concat (Sse.parse_block <$>
              (Sse.join_lines <$> imap (fun i e => envelope_lines (k i) e) es))) = s); [|apply (H S)].
    induction es as [|e es IH]; intros k; [done|]. rewrite imap_cons. cbn [fmap list_fmap concat].
    destruct (parse_envelope (k 0%nat) e (Hj _)) as (d & i & ->). cbn [app foldl]. rewrite take_nameless. apply (IH (k ∘ S)).
  - apply Forall_forall. intros ls (i & e & -> & _)%elem_of_lookup_imap_1. split; [done|]. by apply envelope_lines_ok.
Qed.
End stream.

Definition toy_note : Notifications.Notification :=
  Notifications.mkNotification 7 "GA" "goal" "t" "m" None false 0 None.

Lemma bare_stream_listed_witness :
  let w := Sse.encode (bare_event (fun _ => units "{}") (mkMessage "notification" toy_note "7")) in
  Hook.ids (Hook.notifications (read_stream (fun _ => Ret (api_of toy_note)) [take 9 w; drop 9 w] Hook.initial)) = ["7"%string].
Proof.
  intros w. assert (H := bare_stream_listed (fun _ => units "{}") (fun _ => Ret (api_of toy_note)) "GA"
    [("GA"%string, toy_note); ("GB"%string, toy_note)] [take 9 w; drop 9 w] Hook.initial). rewrite H.
  - reflexivity.
  - constructor; [|constructor]. split; [apply Sse.one_line_test; reflexivity|reflexivity].
  - vm_compute. reflexivity.
  - apply NoDup_singleton.
  - intros i _ Hi. by apply elem_of_nil in Hi.
Defined.

Lemma served_stream_lists_nothing_witness :
  let t := served (fun _ => units "{}") [intercept 1000 (mkMessage "notification" toy_note "7")] in
  read_stream (fun _ => Ret (api_of toy_note)) [take 9 t; drop 9 t] Hook.initial = Hook.initial.
Proof.
  intros t. apply (served_stream_lists_nothing (fun _ => units "{}") (fun _ => Ret (api_of toy_note)) "GA"
    [("GA"%string, toy_note)] [1000]).
  - intros m. apply Sse.one_line_test. reflexivity.
  - vm_compute. reflexivity.
Defined.
End Live.

(** ** Category preferences *)

Module Categories.
Import Email.

(** The channels of a row; the table is keyed by its unique index, user and category. *)
Record Channels := mkChannels { in_app : bool; email : bool; push : bool }.
Record UpdateCategoryPreferenceDto := mkCategoryUpdate {
  u_category : NotificationCategory; u_in_app : option bool; u_email : option bool; u_push : option bool }.
Inductive channel := InApp | EMail | Push.

(** [Object.values(NotificationCategory)]. *)
Definition all_categories : list NotificationCategory :=
  [EventCreated; MatchAdded; PredictionSubmitted; MatchResolved; WinnerVerified; EventCancelled].
Definition new_row : Channels := mkChannels true true false.

Definition select (c : channel) (r : Channels) : bool := match c with InApp => in_app r | EMail => email r | Push => push r end.

Section service.
Context {B : Backend}.

Definition state : Type := table (string * NotificationCategory) Channels.

Definition rows_of (userId : string) (t : state) : list (NotificationCategory * Channels) :=
  (fun r => (r.1.2, r.2)) <$> List.filter (fun r => bool_decide (r.1.1 = userId)) (rows t).

Definition missing (userId : string) (t : state) : list NotificationCategory :=
  List.filter (fun c => negb (existsb (fun r => bool_decide (r.1 = c)) (rows_of userId t))) all_categories.

Definition getCategoryPreferences (userId : string) : M state (list (NotificationCategory * Channels)) :=
  await prefs := gets (rows_of userId) in
  await absent := gets (missing userId) in
  do modify (fun t => foldl (fun t c => save (userId, c) new_row t) t absent) ;>
  ret (prefs ++ ((fun c => (c, new_row)) <$> absent)).

Definition assign (dto : UpdateCategoryPreferenceDto) (r : Channels) : Channels :=
  mkChannels (default (in_app r) (u_in_app dto)) (default (email r) (u_email dto)) (default (push r) (u_push dto)).

Definition upsertCategoryPreference (userId : string) (dto : UpdateCategoryPreferenceDto) : M state Channels :=
  await pref := gets (find_one (userId, u_category dto)) in
  let saved := assign dto (default new_row pref) in
  do modify (save (userId, u_category dto) saved) ;>
  ret saved.

Definition isCategoryEnabled (userId : string) (category : NotificationCategory) (c : channel) : M state bool :=
  await pref := gets (find_one (userId, category)) in
  ret (match pref with None => true | Some r => select c r end).

(** *** Specification: what is in force for a user and a category *)

Definition in_force (t : state) (k : string * NotificationCategory) : Channels := default new_row (find_one k t).

Inductive op := Get (u : string) | Upsert (u : string) (dto : UpdateCategoryPreferenceDto) | Ask (u : string) (k : NotificationCategory) (c : channel).
Definition exec (t : state) (o : op) : state :=
  match o with
  | Get u => (getCategoryPreferences u t).2
  | Upsert u dto => (upsertCategoryPreference u dto t).2
  | Ask u k c => (isCategoryEnabled u k c t).2
  end.
(** Only an update changes what is in force, of its own user and category. *)
Definition spec (f : string * NotificationCategory -> Channels) (o : op) : string * NotificationCategory -> Channels :=
  match o with
  | Upsert u dto => fun k => if decide (k = (u, u_category dto)) then assign dto (f k) else f k
  | _ => f
  end.

Lemma rows_of_spec u t c r : (c, r) ∈ rows_of u t <-> find_one (u, c) t = Some r.
Proof.
  unfold rows_of. rewrite list_elem_of_fmap. split.
  - intros ([[u' c'] r'] & [= -> ->] & H). apply elem_of_List_filter in H as [H Hu]. apply elem_of_rows in H.
    simpl in Hu. by rewrite bool_decide_eq_true in Hu; subst u'.
  - intros H. exists ((u, c), r). split; [done|]. apply elem_of_List_filter. split; [by apply elem_of_rows|simpl; by rewrite bool_decide_eq_true_2].
Qed.

Lemma categories_NoDup : NoDup all_categories.
Proof. apply (bool_decide_unpack _). vm_compute. exact I. Qed.

Lemma rows_of_NoDup u t : NoDup (rows_of u t).*1.
Proof.
  unfold rows_of. rewrite <-list_fmap_compose. pose proof (NoDup_rows t) as Hnd. revert Hnd.
  induction (rows t) as [|[[u' c] r] l IH]; cbn [List.filter fmap list_fmap fst]; intros Hnd; [constructor|].
  apply NoDup_cons in Hnd as [Hn Hnd]. destruct (bool_decide_reflect (u' = u)) as [->|]; [|by apply IH].
  cbn [fmap list_fmap]. constructor; [|by apply IH]. intros Hin. apply Hn.
  apply list_elem_of_fmap in Hin as ([[u' c'] r'] & Hc & Hin). apply elem_of_List_filter in Hin as [Hin Hu].
  apply bool_decide_eq_true in Hu. simpl in *. subst. apply list_elem_of_fmap. by exists ((u, c'), r').
Qed.

Lemma missing_spec u t c : c ∈ missing u t <-> find_one (u, c) t = None.
Proof.
  unfold missing. rewrite elem_of_List_filter. split.
  - intros [_ Hn]. destruct (find_one (u, c) t) as [r|] eqn:Hf; [|done]. apply rows_of_spec in Hf.
    assert (He : existsb (fun r => bool_decide (r.1 = c)) (rows_of u t) = true).
    { apply existsb_exists. exists (c, r). split; [by apply list_elem_of_In|by apply bool_decide_eq_true_2]. }
    by rewrite He in Hn.
  - intros Hf. split; [destruct c; set_solver|].
    destruct (existsb _ _) eqn:He; [|done]. apply existsb_exists in He as ([c' r] & Hin & Hc). apply bool_decide_eq_true in Hc.
    simpl in Hc. subst c'. apply list_elem_of_In, rows_of_spec in Hin. congruence.
Qed.

Lemma save_all u cs (t : state) (k : string * NotificationCategory) :
  find_one k (foldl (fun t c => save (u, c) new_row t) t cs) =
    if decide (k.1 = u /\ k.2 ∈ cs) then Some new_row else find_one k t.
Proof.
  revert t. induction cs as [|c cs IH]; intros t; cbn [foldl].
  - rewrite decide_False; [done|]. intros [_ H]. by apply elem_of_nil in H.
  - rewrite IH, find_one_save. destruct k as [u' c']. cbn [fst snd].
    destruct (decide (u' = u /\ c' ∈ cs)) as [[-> Hc]|Hn]; [by rewrite decide_True by (split; [done|by right])|].
    destruct (decide ((u, c) = (u', c'))) as [[= -> ->]|Hne]; [rewrite decide_True; [done|split; [done|left]]|].
    rewrite decide_False; [done|]. intros [-> Hc]. apply elem_of_cons in Hc as [->|Hc]; [done|]. by apply Hn.
Qed.

Lemma exec_in_force t o k : in_force (exec t o) k = spec (in_force t) o k.
Proof.
  unfold in_force. destruct o as [u|u dto|u c ch]; cbn [exec spec].
  - unfold getCategoryPreferences, bind, gets, modify, ret. cbn [snd]. rewrite save_all.
    destruct (decide _) as [[Hu Hm]|]; [|done]. destruct k as [u' c]. simpl in Hu, Hm. subst u'.
    apply missing_spec in Hm. by rewrite Hm.
  - unfold upsertCategoryPreference, bind, gets, modify, ret. cbn [snd]. rewrite find_one_save.
    destruct (decide (k = (u, u_category dto))) as [->|Hk]; [by rewrite decide_True|by rewrite decide_False].
  - done.
Qed.

(** Over any sequence of reads, questions and updates the preferences in force are
    those of the updates: an update changes the given channels of its user and category
    and nothing else, and reading, although it writes the missing rows, changes nothing.
    A read lists every category exactly once, with what is in force. *)
Theorem categories_refine (ops : list op) (t : state) u :
  (forall k, in_force (foldl exec t ops) k = foldl spec (in_force t) ops k) /\
  exists listed, (getCategoryPreferences u t).1 = Ret listed /\ listed.*1 ≡ₚ all_categories /\
    Forall (fun e => e.2 = in_force t (u, e.1)) listed.
Proof.
  split.
  - assert (Hrun : forall t f, (forall k, in_force t k = f k) -> forall k, in_force (foldl exec t ops) k = foldl spec f ops k).
    { induction ops as [|o ops IH]; intros t' f Hf k; [done|]. cbn [foldl]. apply IH. intros k'. rewrite exec_in_force.
      destruct o as [u'|u' dto|u' c ch]; cbn [spec]; [done| |done]. by rewrite Hf. }
    intros k. by apply Hrun.
  - eexists. split; [done|]. rewrite fmap_app, <-list_fmap_compose.
    assert (Hid : fst ∘ (fun c : NotificationCategory => (c, new_row)) <$> missing u t = missing u t) by apply list_fmap_id.
    rewrite Hid. split.
    + apply NoDup_Permutation.
      * apply NoDup_app. split_and!; [apply rows_of_NoDup| |apply NoDup_ListNoDup, List.NoDup_filter, NoDup_ListNoDup, categories_NoDup].
        intros c Hc Hm. apply list_elem_of_fmap in Hc as ([c' r] & -> & Hc). apply rows_of_spec in Hc. apply missing_spec in Hm. simpl in Hm. congruence.
      * apply categories_NoDup.
      * intros c. split; [intros _; destruct c; set_solver|]. intros _. apply elem_of_app.
        destruct (find_one (u, c) t) as [r|] eqn:Hf; [left|right; by apply missing_spec].
        apply list_elem_of_fmap. exists (c, r). split; [done|by apply rows_of_spec].
    + apply Forall_app. split; apply Forall_forall; unfold in_force.
      * intros [c r] Hin. apply rows_of_spec in Hin. simpl. by rewrite Hin.
      * intros e Hin. apply list_elem_of_fmap in Hin as (c & -> & Hc). apply missing_spec in Hc. simpl. by rewrite Hc.
Qed.
End service.

(** Reading the preferences of a user turns a channel off that was on: without a row every
    channel counts as enabled, while the row a read creates has no push. *)
Theorem reading_disables_push :
  let t0 : state (B := MemBackend) := empty_table in
  (isCategoryEnabled "u" MatchAdded Push t0).1 = Ret true /\
  (isCategoryEnabled "u" MatchAdded Push (getCategoryPreferences "u" t0).2).1 = Ret false.
Proof. split; vm_compute; reflexivity. Qed.
End Categories.
