(* ===== verification/ClientForms.v ===== *)
(** * Amounts and dates typed into the frontend's forms

    Models [parseTopUpAmountToStroops] and [validateTopUpAmount] of
    [frontend/src/hooks/useLockedTopUp.ts], [validateWithdrawAmount] of [useWithdraw.ts],
    [validateDepositAmount] of [useDeposit.ts] and [parseUnlockDate] and
    [validateUnlockDate] of [useCreateLockedPlan.ts].

    What a user types is a list of code units ([JsText.text]).  [reads] says, without
    padding or stripping, which number of stroops a decimal notation stands for; the
    parser and the validators are proved to decide it exactly ([amount_parsed],
    [withdraw_validated]), and an unlock date is accepted exactly when it is a date of
    the calendar ([unlock_date_real]). *)
From Stdlib Require Import ZArith Lia Ascii SpecFloat.
From stdpp Require Import base list strings.
From S2P Require Import Prelude JsValue JsText JsNumber JsDate Activity SorobanTx.
Local Open Scope Z_scope.

Module ClientForms.

(** ** Amounts *)

Definition STROOP_DECIMALS : nat := 7.

Fixpoint span_digits (u : text) : text * text :=
  match u with
  | c :: u' => if is_dec c then let '(d, r) := span_digits u' in (c :: d, r) else ([], u)
  | [] => ([], [])
  end.

(** [/^(\d+)(?:[.,](\d+))?$/.exec(u)]: the two groups. *)
Definition AMOUNT_PATTERN (u : text) : option (text * option text) :=
  let '(whole, rest) := span_digits u in
  match whole, rest with
  | [], _ => None
  | _, [] => Some (whole, None)
  | _, c :: r =>
      if (c =? 46) || (c =? 44) then
        match span_digits r with
        | ((_ :: _) as fraction, []) => Some (whole, Some fraction)
        | _ => None
        end
      else None
  end.

(** [u.replace(/^0+(?=\d)/, "")]. *)
Fixpoint drop_zeros (u : text) : text :=
  match u with
  | c :: ((d :: _) as r) => if (c =? 48) && is_dec d then drop_zeros r else u
  | _ => u
  end.

Definition parseTopUpAmountToStroops (amount : text) : option text :=
  match AMOUNT_PATTERN (text_trim amount) with
  | None => None
  | Some (whole, group) =>
      let fraction := default [] group in
      if (STROOP_DECIMALS <? length fraction)%nat then None
      else Some (drop_zeros (whole ++ padEnd STROOP_DECIMALS 48 fraction))
  end.

Inductive TopUpAmountError := Required | Invalid | TooSmall | TooPrecise.
(** [WithdrawAmountError]: those of a top-up and one more. *)
Inductive WithdrawAmountError := Amount (e : TopUpAmountError) | ExceedsBalance.
Inductive DepositAmountError := DepositRequired | DepositInvalid | DepositTooSmall.

Definition validateTopUpAmount (amount : text) : option TopUpAmountError :=
  match text_trim amount with
  | [] => Some Required
  | trimmed =>
      match AMOUNT_PATTERN trimmed with
      | None => Some Invalid
      | Some (_, group) =>
          if (STROOP_DECIMALS <? length (default [] group))%nat then Some TooPrecise
          else
            match parseTopUpAmountToStroops trimmed with
            | None => Some Invalid
            | Some stroops => if digits_value stroops <=? 0 then Some TooSmall else None
            end
      end
  end.

(** [BigInt(balance || "0")] throws on a balance that is not an integer. *)
Definition validateWithdrawAmount (amount : text) (balance : string) : outcome (option WithdrawAmountError) :=
  match text_trim amount with
  | [] => Ret (Some (Amount Required))
  | trimmed =>
      match AMOUNT_PATTERN trimmed with
      | None => Ret (Some (Amount Invalid))
      | Some (_, group) =>
          if (STROOP_DECIMALS <? length (default [] group))%nat then Ret (Some (Amount TooPrecise))
          else
            match parseTopUpAmountToStroops trimmed with
            | None => Ret (Some (Amount Invalid))
            | Some stroops =>
                if digits_value stroops <=? 0 then Ret (Some (Amount TooSmall))
                else
                  let b := if decide (balance = "") then "0"%string else balance in
                  match BigInt_of_string b with
                  | None => Throw (SyntaxError ("Cannot convert " +:+ b +:+ " to a BigInt"))
                  | Some available =>
                      if available <? digits_value stroops then Ret (Some ExceedsBalance) else Ret None
                  end
            end
      end
  end.

Definition TOP_UP_AMOUNT_ERROR_MESSAGES (e : TopUpAmountError) : string :=
  match e with
  | Required => "Enter an amount to add."
  | Invalid => "Enter a valid number, e.g. 25 or 25.5."
  | TooSmall => "Amount must be greater than zero."
  | TooPrecise => "Amounts can have at most 7 decimal places."
  end.

Definition WITHDRAW_AMOUNT_ERROR_MESSAGES (e : WithdrawAmountError) : string :=
  match e with
  | Amount Required => "Enter an amount to withdraw."
  | ExceedsBalance => "Amount exceeds your available balance."
  | Amount e => TOP_UP_AMOUNT_ERROR_MESSAGES e
  end.

(** [Number(u)]: a text with a character outside ASCII is no number once trimmed. *)
Fixpoint ascii_text (u : text) : option string :=
  match u with
  | [] => Some ""%string
  | c :: u' => if (0 <=? c) && (c <? 128) then String (ascii_of_N (Z.to_N c)) <$> ascii_text u' else None
  end.
Definition Number_of_text (u : text) : number :=
  match ascii_text (text_trim u) with Some s => Number_of_string s | None => S754_nan end.

Definition validateDepositAmount (amount : text) : option DepositAmountError :=
  match text_trim amount with
  | [] => Some DepositRequired
  | trimmed =>
      let value := Number_of_text trimmed in
      if negb (num_finite value) || num_nan value then Some DepositInvalid
      else if num_leb value (num_of_Z 0) then Some DepositTooSmall else None
  end.

(** ** Unlock dates *)

Section unlock.
(** Local time of an instant and the instant of a local time. *)
Context (LocalTime UTC : Z -> Z).

(** [new Date(y, m, d)]: a year from 0 to 99 is one of the twentieth century. *)
Definition local_date (y m d : Z) : Z :=
  let year := if (0 <=? y) && (y <=? 99) then 1900 + y else y in UTC (MakeDay year m d * msPerDay).

(** [/^(\d{4})-(\d{2})-(\d{2})$/.exec(u)]. *)
Definition DATE_PATTERN (u : text) : option (text * text * text) :=
  match u with
  | [a; b; c; d; s; e; f; s'; g; h] =>
      if forallb is_dec [a; b; c; d; e; f; g; h] && (s =? 45) && (s' =? 45)
      then Some ([a; b; c; d], [e; f], [g; h]) else None
  | _ => None
  end.

Definition parseUnlockDate (value : text) : option Z :=
  match DATE_PATTERN (text_trim value) with
  | None => None
  | Some (ty, tm, td) =>
      let y := digits_value ty in let m := digits_value tm in let d := digits_value td in
      let date := local_date y (m - 1) d in
      let '(fullYear, month, day) := ymd (Day (LocalTime date)) in
      if negb (fullYear =? y) || negb (month - 1 =? m - 1) || negb (day =? d) then None else Some date
  end.

Inductive UnlockDateError := DateRequired | DateInvalid | NotFuture.

Definition validateUnlockDate (value : text) (now : Z) : option UnlockDateError :=
  match text_trim value with
  | [] => Some DateRequired
  | _ =>
      match parseUnlockDate value with
      | None => Some DateInvalid
      | Some date => if date <=? now then Some NotFuture else None
      end
  end.
End unlock.

Example form_examples :
  parseTopUpAmountToStroops (units " 12,5 ") = Some (units "125000000") /\
  parseTopUpAmountToStroops (units "0.0000001") = Some (units "1") /\
  parseTopUpAmountToStroops (units "000") = Some (units "0") /\
  parseTopUpAmountToStroops (units "1.12345678") = None /\
  validateDepositAmount (units "1e2") = None /\ validateDepositAmount (units "-1") = Some DepositTooSmall /\
  parseUnlockDate id id (units "2024-02-29") = Some 1709164800000 /\
  parseUnlockDate id id (units "2023-02-29") = None.
Proof. repeat split; vm_compute; reflexivity. Qed.

(** ** What a decimal notation stands for *)

Definition digits (u : text) : Prop := u ≠ [] /\ Forall (fun c => is_dec c = true) u.

(** [u] is a decimal notation with the given whole and fractional digits. *)
Inductive decimal : text -> text -> text -> Prop :=
| decimal_whole w : digits w -> decimal w w []
| decimal_mark w m f : digits w -> m = 46 \/ m = 44 -> digits f -> decimal (w ++ m :: f) w f.

(** [amount] stands for [n] stroops, exactly. *)
Definition reads (amount : text) (n : Z) : Prop :=
  exists w f, decimal (text_trim amount) w f /\ (length f <= STROOP_DECIMALS)%nat /\
    n = digits_value (w ++ f) * 10 ^ (7 - Z.of_nat (length f)).

Lemma span_digits_spec u d r : span_digits u = (d, r) ->
  u = d ++ r /\ Forall (fun c => is_dec c = true) d /\ match r with c :: _ => is_dec c = false | [] => True end.
Proof.
  revert d r. induction u as [|c u IH]; intros d r; cbn [span_digits]; [by intros [= <- <-]|].
  destruct (is_dec c) eqn:Hc; [|intros [= <- <-]; by rewrite Hc].
  destruct (span_digits u) as [d' r'] eqn:Hs. intros [= <- <-].
  destruct (IH d' r' eq_refl) as (-> & Hd & Hr). split; [done|]. split; [by constructor|done].
Qed.

Lemma span_digits_app d r : Forall (fun c => is_dec c = true) d ->
  match r with c :: _ => is_dec c = false | [] => True end -> span_digits (d ++ r) = (d, r).
Proof.
  intros Hd Hr. induction Hd as [|c d Hc Hd IH]; cbn [app span_digits].
  - destruct r as [|c r]; [done|]. cbn [span_digits]. by rewrite Hr.
  - by rewrite Hc, IH.
Qed.

Lemma pattern_sound u w g : AMOUNT_PATTERN u = Some (w, g) -> decimal u w (default [] g).
Proof.
  unfold AMOUNT_PATTERN. destruct (span_digits u) as [w' r] eqn:Hs.
  apply span_digits_spec in Hs as (-> & Hw & _). destruct w' as [|c w']; [done|].
  destruct r as [|m r].
  - intros [= <- <-]. rewrite app_nil_r. by constructor.
  - destruct ((m =? 46) || (m =? 44)) eqn:Hm; [|done].
    destruct (span_digits r) as [f r'] eqn:Hf. apply span_digits_spec in Hf as (-> & Hf & _).
    destruct f as [|x f]; [done|]. destruct r' as [|y r']; [|done]. intros [= <- <-].
    rewrite app_nil_r. constructor; [done| |done].
    apply orb_true_iff in Hm as [Hm|Hm]; apply Z.eqb_eq in Hm; auto.
Qed.

Lemma pattern_complete u w f : decimal u w f -> exists g, AMOUNT_PATTERN u = Some (w, g) /\ default [] g = f.
Proof.
  unfold AMOUNT_PATTERN. intros [? [Hne Hw]|? m ? [Hne Hw] Hm [Hfne Hf]].
  - exists None. rewrite <-(app_nil_r w0) at 1. rewrite span_digits_app by done. by destruct w0.
  - exists (Some f0). rewrite span_digits_app by (destruct Hm as [-> | ->]; done).
    destruct w0 as [|c w0]; [done|].
    assert ((m =? 46) || (m =? 44) = true) as -> by (destruct Hm as [-> | ->]; done).
    rewrite <-(app_nil_r f0) at 1. rewrite span_digits_app by done. by destruct f0.
Qed.

Lemma decimal_functional u w f w' f' : decimal u w f -> decimal u w' f' -> w = w' /\ f = f'.
Proof.
  intros H H'. apply pattern_complete in H as (g & Hg & <-), H' as (g' & Hg' & <-).
  rewrite Hg in Hg'. by injection Hg' as -> ->.
Qed.

Lemma reads_functional amount n m : reads amount n -> reads amount m -> n = m.
Proof.
  intros (w & f & Hd & _ & ->) (w' & f' & Hd' & _ & ->). by destruct (decimal_functional _ _ _ _ _ Hd Hd') as [-> ->].
Qed.

(** Digits without a leading zero are the notation of their value. *)
Lemma digits_value_inj u v : length u = length v -> Forall (fun c => is_dec c = true) u ->
  Forall (fun c => is_dec c = true) v -> digits_value u = digits_value v -> u = v.
Proof.
  revert v. induction u as [|c u IH]; intros [|d v] Hl Hu Hv He; try discriminate Hl; [done|].
  injection Hl as Hl. inversion_clear Hu as [|? ? Hc Hu']. inversion_clear Hv as [|? ? Hd Hv'].
  rewrite !digits_value_cons, Hl in He.
  pose proof (digits_value_bounds u Hu') as Bu. pose proof (digits_value_bounds v Hv') as Bv. rewrite Hl in Bu.
  assert (c = d) as -> by nia. f_equal. apply IH; [done..|lia].
Qed.

Lemma canonical_dec u : digits u -> (forall r, u = 48 :: r -> r = []) -> u = dec (digits_value u).
Proof.
  intros [Hne Hu] Hz. destruct u as [|c r]; [done|]. pose proof (digits_value_bounds _ Hu) as Hb.
  set (n := digits_value (c :: r)) in *. destruct (decide (c = 48)) as [->|Hc].
  - pose proof (Hz r eq_refl) as ->. reflexivity.
  - apply digits_value_inj; [|done|apply dec_digits; lia|by rewrite dec_value by lia].
    apply Nat.le_antisymm; [|apply dec_length; [done|simpl; lia]].
    inversion_clear Hu as [|? ? Hd Hr]. pose proof (digits_value_bounds r Hr).
    assert (Hlow : 10 ^ Z.of_nat (length r) <= n).
    { unfold n. rewrite digits_value_cons. unfold is_dec in Hd. apply andb_true_iff in Hd as [Hd _].
      apply Z.leb_le in Hd. nia. }
    pose proof (digits_value_bounds _ (dec_digits n ltac:(lia))) as Hd'. rewrite dec_value in Hd' by lia.
    assert (Hlt : 10 ^ Z.of_nat (length r) < 10 ^ Z.of_nat (length (dec n))) by lia.
    apply Z.pow_lt_mono_r_iff in Hlt; simpl; lia.
Qed.

Lemma drop_zeros_dec u : digits u -> drop_zeros u = dec (digits_value u).
Proof.
  intros Hu. induction u as [|c u IH]; [by destruct Hu|]. cbn [drop_zeros].
  destruct u as [|d u]; [apply canonical_dec; [done|intros r [= -> ->]; done]|].
  destruct Hu as [_ Hu]. inversion_clear Hu as [|? ? Hc Hu']. assert (is_dec d = true) as -> by by inversion Hu'.
  rewrite andb_true_r. destruct (Z.eqb_spec c 48) as [->|Hne].
  - by apply IH.
  - apply canonical_dec; [split; [done|by constructor]|]. intros r [= -> _]. done.
Qed.

Lemma decimal_digits u w f : decimal u w f -> digits w /\ Forall (fun c => is_dec c = true) f.
Proof. intros [? Hw|? m ? Hw _ [_ Hf]]; (split; [done|]); [constructor|done]. Qed.

Lemma fraction_padded w f : (length f <= STROOP_DECIMALS)%nat ->
  digits_value (w ++ padEnd STROOP_DECIMALS 48 f) = digits_value (w ++ f) * 10 ^ (7 - Z.of_nat (length f)).
Proof.
  unfold STROOP_DECIMALS, padEnd. intros Hf. rewrite app_assoc, digits_value_app, digits_value_zeros, length_replicate.
  rewrite Z.add_0_r. f_equal. f_equal. lia.
Qed.

Lemma parse_decimal amount w f : decimal (text_trim amount) w f ->
  parseTopUpAmountToStroops amount =
    if (STROOP_DECIMALS <? length f)%nat then None
    else Some (dec (digits_value (w ++ f) * 10 ^ (7 - Z.of_nat (length f)))).
Proof.
  intros Hd. unfold parseTopUpAmountToStroops. destruct (pattern_complete _ _ _ Hd) as (g & -> & ->).
  apply decimal_digits in Hd as [[Hne Hw] Hf]. destruct (Nat.ltb_spec STROOP_DECIMALS (length f)); [done|].
  rewrite <-fraction_padded by done. f_equal. apply drop_zeros_dec. split; [by destruct w|].
  apply Forall_app. split; [done|]. apply Forall_app. split; [done|apply replicate_dec].
Qed.

Lemma decimal_trim u w f : decimal u w f -> text_trim u = u.
Proof.
  intros Hd. apply text_trim_none. destruct Hd as [? [_ Hw]|? m ? [_ Hw] Hm [_ Hf]];
    [|apply Forall_app; split; [|constructor; [by destruct Hm as [-> | ->]|]]];
    (eapply Forall_impl; [eassumption|]); exact dec_not_blank.
Qed.

(** The parser of amounts is exact: it answers [s] precisely when what was typed is a
    decimal notation with at most seven fractional digits, and [s] is then the decimal
    notation of the number of stroops it stands for. *)
Theorem amount_parsed (amount s : text) :
  parseTopUpAmountToStroops amount = Some s <-> exists n, reads amount n /\ s = dec n.
Proof.
  split.
  - intros Hp. unfold parseTopUpAmountToStroops in Hp.
    destruct (AMOUNT_PATTERN (text_trim amount)) as [[w g]|] eqn:He; [|done].
    apply pattern_sound in He. pose proof (parse_decimal _ _ _ He) as Hv.
    unfold parseTopUpAmountToStroops in Hv. destruct (pattern_complete _ _ _ He) as (g' & Hg' & Hd).
    rewrite Hg' in Hv. rewrite <-Hd in Hp. rewrite Hp in Hv.
    destruct (Nat.ltb_spec STROOP_DECIMALS (length (default [] g))) as [|Hl]; [done|].
    injection Hv as Hv. eexists. split; [|exact Hv]. by exists w, (default [] g).
  - intros (n & (w & f & Hd & Hl & ->) & ->). rewrite (parse_decimal _ _ _ Hd).
    by destruct (Nat.ltb_spec STROOP_DECIMALS (length f)); [lia|].
Qed.

Lemma value_nonneg w f : digits w -> Forall (fun c => is_dec c = true) f ->
  0 <= digits_value (w ++ f) * 10 ^ (7 - Z.of_nat (length f)).
Proof.
  intros [_ Hw] Hf. pose proof (digits_value_bounds (w ++ f) (proj2 (Forall_app _ _ _) (conj Hw Hf))).
  apply Z.mul_nonneg_nonneg; [lia|apply Z.pow_nonneg; lia].
Qed.

(** A validated top-up: what each answer means. *)
Lemma topup_validated (amount : text) :
  match validateTopUpAmount amount with
  | None => exists n, reads amount n /\ 0 < n
  | Some Required => text_trim amount = []
  | Some Invalid => text_trim amount ≠ [] /\ forall w f, ~ decimal (text_trim amount) w f
  | Some TooPrecise => exists w f, decimal (text_trim amount) w f /\ (STROOP_DECIMALS < length f)%nat
  | Some TooSmall => reads amount 0
  end.
Proof.
  unfold validateTopUpAmount. destruct (text_trim amount) as [|c u] eqn:Ht; [done|].
  rewrite <-Ht. destruct (AMOUNT_PATTERN (text_trim amount)) as [[w g]|] eqn:He.
  2: { split; [by rewrite Ht|]. intros w f Hd.
       destruct (pattern_complete _ _ _ Hd) as (g & Hg & _). congruence. }
  apply pattern_sound in He. set (f := default [] g) in *.
  destruct (Nat.ltb_spec STROOP_DECIMALS (length f)) as [Hl|Hl]; [by exists w, f|].
  assert (Hr : reads amount (digits_value (w ++ f) * 10 ^ (7 - Z.of_nat (length f)))) by by exists w, f.
  pose proof (decimal_digits _ _ _ He) as [Hw Hf]. pose proof (value_nonneg _ _ Hw Hf) as Hn.
  rewrite (parse_decimal (text_trim amount) w f) by by rewrite (decimal_trim _ _ _ He).
  destruct (Nat.ltb_spec STROOP_DECIMALS (length f)) as [|_]; [lia|].
  set (n := digits_value (w ++ f) * 10 ^ (7 - Z.of_nat (length f))) in *. rewrite dec_value by done.
  destruct (Z.leb_spec n 0); [by replace 0 with n by lia|]. by exists n.
Qed.

Lemma parse_reads amount n : reads amount n ->
  parseTopUpAmountToStroops (text_trim amount) = Some (dec n) /\ digits_value (dec n) = n.
Proof.
  intros (w & f & Hd & Hl & ->). pose proof (decimal_digits _ _ _ Hd) as [Hw Hf].
  rewrite (parse_decimal (text_trim amount) w f) by by rewrite (decimal_trim _ _ _ Hd).
  split; [by destruct (Nat.ltb_spec STROOP_DECIMALS (length f)); [lia|]|apply dec_value; by apply value_nonneg].
Qed.

(** A withdrawal is validated like a top-up and then against the balance. *)
Lemma withdraw_like_topup amount balance :
  validateWithdrawAmount amount balance =
    match validateTopUpAmount amount, parseTopUpAmountToStroops (text_trim amount) with
    | Some e, _ => Ret (Some (Amount e))
    | None, Some stroops =>
        let b := if decide (balance = "") then "0"%string else balance in
        match BigInt_of_string b with
        | None => Throw (SyntaxError ("Cannot convert " +:+ b +:+ " to a BigInt"))
        | Some available => if available <? digits_value stroops then Ret (Some ExceedsBalance) else Ret None
        end
    | None, None => Ret None
    end.
Proof.
  unfold validateWithdrawAmount, validateTopUpAmount. destruct (text_trim amount) as [|c u]; [done|].
  destruct (AMOUNT_PATTERN (c :: u)) as [[w g]|]; [|done].
  destruct (STROOP_DECIMALS <? _)%nat; [done|]. destruct (parseTopUpAmountToStroops _) as [st|]; [|done].
  by destruct (digits_value st <=? 0).
Qed.

Lemma withdraw_checked amount balance available :
  BigInt_of_string (if decide (balance = "") then "0"%string else balance) = Some available ->
  (exists e, validateWithdrawAmount amount balance = Ret (Some e) /\ ~ exists n, reads amount n /\ 0 < n <= available) \/
  (exists n, validateWithdrawAmount amount balance = Ret None /\ reads amount n /\ 0 < n <= available).
Proof.
  intros Hb. pose proof (topup_validated amount) as Ht. rewrite withdraw_like_topup. cbv zeta. rewrite Hb.
  destruct (validateTopUpAmount amount) as [e|].
  - left. eexists. split; [done|]. intros (n & Hr & Hn). pose proof Hr as (w & f & Hd & Hl & Hv). destruct e.
    + destruct (pattern_complete _ _ _ Hd) as (g & Hg & _). by rewrite Ht in Hg.
    + by eapply Ht.
    + apply reads_functional with (n := n) in Ht; [lia|done].
    + destruct Ht as (w' & f' & Hd' & Hl'). destruct (decimal_functional _ _ _ _ _ Hd Hd') as [-> ->]. lia.
  - destruct Ht as (n & Hr & Hn). destruct (parse_reads amount n Hr) as [-> ->].
    destruct (Z.ltb_spec available n); [left|right; by exists n].
    eexists. split; [done|]. intros (n' & Hr' & Hn'). rewrite (reads_functional _ _ _ Hr Hr') in *. lia.
Qed.

(** The validation of a withdrawal decides exactly: no error means that a number of
    stroops above zero and within the balance was typed, and each error has its own
    reason: nothing, no decimal notation, too many decimals, zero, above the balance. *)
Theorem withdraw_validated (amount : text) (balance : string) (available : Z) :
  BigInt_of_string (if decide (balance = "") then "0"%string else balance) = Some available ->
  exists e, validateWithdrawAmount amount balance = Ret e /\
    match e with
    | None => exists n, reads amount n /\ 0 < n <= available
    | Some (Amount Required) => text_trim amount = []
    | Some (Amount Invalid) => text_trim amount ≠ [] /\ forall w f, ~ decimal (text_trim amount) w f
    | Some (Amount TooPrecise) => exists w f, decimal (text_trim amount) w f /\ (STROOP_DECIMALS < length f)%nat
    | Some (Amount TooSmall) => reads amount 0
    | Some ExceedsBalance => exists n, reads amount n /\ available < n
    end.
Proof.
  intros Hb. pose proof (topup_validated amount) as Ht. rewrite withdraw_like_topup. cbv zeta. rewrite Hb.
  destruct (validateTopUpAmount amount) as [e|]; [eexists; by split|].
  destruct Ht as (n & Hr & Hn). destruct (parse_reads amount n Hr) as [-> ->].
  destruct (Z.ltb_spec available n); eexists; (split; [done|]); exists n; split; done || lia.
Qed.

(** ** Dates of the calendar *)

Lemma date_pattern u ty tm td :
  DATE_PATTERN u = Some (ty, tm, td) <->
  u = ty ++ 45 :: tm ++ 45 :: td /\ Forall (fun c => is_dec c = true) (ty ++ tm ++ td) /\
  length ty = 4%nat /\ length tm = 2%nat /\ length td = 2%nat.
Proof.
  unfold DATE_PATTERN. split.
  - intros H. do 10 (destruct u as [|? u]; [discriminate H|]). destruct u; [|discriminate H].
    destruct (forallb is_dec _) eqn:Hf; [|discriminate H]. cbn [andb] in H.
    destruct (Z.eqb_spec z3 45) as [->|]; [|discriminate H]. destruct (Z.eqb_spec z6 45) as [->|]; [|discriminate H].
    injection H as <- <- <-. repeat split; [|done..]. apply Forall_forall. intros x Hx.
    rewrite forallb_forall in Hf. apply Hf. by apply list_elem_of_In.
  - intros (-> & Hd & H4 & H2 & H2'). do 4 (destruct ty as [|? ty]; [discriminate H4|]). destruct ty; [|discriminate H4].
    do 2 (destruct tm as [|? tm]; [discriminate H2|]). destruct tm; [|discriminate H2].
    do 2 (destruct td as [|? td]; [discriminate H2'|]). destruct td; [|discriminate H2'].
    cbn [app] in *. by rewrite (forallb_Forall_true _ _ Hd).
Qed.

(** Midnight of a local day is an instant of that day, also where a change of the clocks
    skips midnight itself. *)
Definition keeps_days (LocalTime UTC : Z -> Z) : Prop :=
  forall day, Day (LocalTime (UTC (day * msPerDay))) = day.

(** The twentieth-century reading of a two-digit year is never the year that was typed. *)
Lemma short_year_refused y m d D : 0 <= y <= 99 -> 0 <= m -> 0 <= d ->
  D = MakeDay (1900 + y) (m - 1) d -> (ymd D).1.1 ≠ y.
Proof.
  intros Hy Hm Hd -> He. set (D := MakeDay (1900 + y) (m - 1) d) in *.
  destruct (ymd D) as [[y' m'] d'] eqn:Hymd. simpl in He. subst y'.
  apply ymd_calendar in Hymd as [_ Hrange]. revert Hrange. unfold D, MakeDay.
  set (ym := 1900 + y + (m - 1) / 12). assert (1899 <= ym) by (unfold ym; pose proof (Z.div_le_mono (-1) (m - 1) 12);
    change (-1 / 12) with (-1) in *; lia).
  pose proof (DayFromYear_mono 1899 ym ltac:(done)). pose proof (DayFromYear_mono (y + 1) 100 ltac:(lia)).
  assert (0 <= month_start (leap ym) ((m - 1) mod 12)).
  { destruct (month_start_table (leap ym)) as (_ & _ & H'). apply H'. apply Z.mod_pos_bound. lia. }
  assert (DayFromYear 100 + 1000 < DayFromYear 1899) by (vm_compute; done). lia.
Qed.

(** A text is accepted as an unlock date exactly when it is a year of four digits from
    100 on, a month and a day of that month; the date is then midnight of that local day.
    A 29 February is accepted in leap years only and a 31 April never. *)
Theorem unlock_date_real (LocalTime UTC : Z -> Z) (value : text) (t : Z) :
  keeps_days LocalTime UTC ->
  parseUnlockDate LocalTime UTC value = Some t <->
  exists ty tm td, text_trim value = ty ++ 45 :: tm ++ 45 :: td /\
    Forall (fun c => is_dec c = true) (ty ++ tm ++ td) /\ length ty = 4%nat /\ length tm = 2%nat /\ length td = 2%nat /\
    100 <= digits_value ty /\ calendar_date (digits_value ty) (digits_value tm) (digits_value td) /\
    t = UTC (MakeDay (digits_value ty) (digits_value tm - 1) (digits_value td) * msPerDay).
Proof.
  intros Hdays. unfold parseUnlockDate, local_date. cbv zeta. split.
  - destruct (DATE_PATTERN _) as [[[ty tm] td]|] eqn:Hp; [|done]. apply date_pattern in Hp as (Hu & Hf & Hl).
    intros Ht. exists ty, tm, td. split; [done|]. split; [done|]. apply Forall_app in Hf as [Hy Hf].
    apply Forall_app in Hf as [Hm Hd]. apply digits_value_bounds in Hy, Hm, Hd.
    set (y := digits_value ty) in *. set (m := digits_value tm) in *. set (d := digits_value td) in *.
    rewrite Hdays in Ht. revert Ht. destruct (ymd _) as [[y' m'] d'] eqn:Hymd.
    destruct (Z.eqb_spec y' y) as [->|]; [|done]. destruct (Z.eqb_spec (m' - 1) (m - 1)) as [Hmm|]; [|done].
    destruct (Z.eqb_spec d' d) as [->|]; [|done]. cbn [negb orb]. intros [= <-].
    assert (m' = m) as -> by lia. destruct (Z.leb_spec y 99) as [Hs|Hs].
    + rewrite (proj2 (Z.leb_le 0 y)) in * by lia. cbn [andb] in *.
      by destruct (short_year_refused y m d _ ltac:(lia) ltac:(lia) ltac:(lia) eq_refl); rewrite Hymd.
    + rewrite andb_false_r in *. apply ymd_calendar in Hymd as [Hc _]. destruct Hl as (? & ? & ?).
      repeat split; try done; try apply Hc; lia.
  - intros (ty & tm & td & Hu & Hf & H4 & H2 & H2' & Hy & Hc & ->).
    rewrite (proj2 (date_pattern _ ty tm td)) by done.
    rewrite (proj2 (Z.leb_gt (digits_value ty) 99)), andb_false_r by lia.
    rewrite Hdays, (ymd_MakeDay _ _ _ Hc). by rewrite !Z.eqb_refl.
Qed.

(** ** Amounts of an export *)

Lemma fixed_digits_value n z : 0 <= z < 10 ^ Z.of_nat n ->
  digits_value (units (fixed n z)) = z /\ Forall (fun c => is_dec c = true) (units (fixed n z)) /\ length (units (fixed n z)) = n.
Proof.
  revert z. induction n as [|n IH]; intros z Hz; [|].
  { change (10 ^ Z.of_nat 0) with 1 in Hz. assert (z = 0) as -> by lia. by split; [|split; [constructor|]]. }
  cbn [fixed]. rewrite SorobanTx.units_app. rewrite Nat2Z.inj_succ, Z.pow_succ_r in Hz by lia.
  assert (Hq : 0 <= z / 10 < 10 ^ Z.of_nat n) by (split; [apply Z.div_pos; lia|apply Z.div_lt_upper_bound; lia]).
  destruct (IH (z / 10) Hq) as (Hv & Hf & Hl). pose proof (Z.mod_pos_bound z 10 ltac:(lia)) as Hb.
  assert (Hc : units (String (ascii_of_N (Z.to_N (48 + z mod 10))) EmptyString) = [48 + z mod 10]).
  { unfold units, unit_of. cbn. rewrite N_ascii_embedding by lia. f_equal. lia. }
  rewrite Hc, digits_value_app, Hv, length_app, Hl. cbn [length]. unfold digits_value at 1. cbn [foldl].
  pose proof (Z.div_mod z 10 ltac:(lia)). split; [change (10 ^ Z.of_nat 1) with 10; lia|].
  split; [|lia]. apply Forall_app. split; [done|]. constructor; [|constructor].
  unfold is_dec. rewrite andb_true_iff, !Z.leb_le. lia.
Qed.

(** An amount as the activity export prints it, typed into a form, is read as the same
    number of stroops. *)
Theorem exported_amount_reads_back (n : Z) : 0 <= n ->
  parseTopUpAmountToStroops (units (Activity.formatStroops (Z_to_string n))) = Some (dec n).
Proof.
  intros Hn. destruct (Activity.formatStroops_exact n) as (w & f & Habs & Hw & Hf & ->).
  rewrite (proj2 (Z.ltb_ge n 0)) by lia. rewrite !SorobanTx.units_app. change (units "") with ([] : text).
  cbn [app]. fold (dec w). unfold Activity.STROOPS_PER_UNIT in *.
  destruct (fixed_digits_value 7 f Hf) as (Hv & Hd & Hl).
  assert (Hdec : decimal (dec w ++ 46 :: units (fixed 7 f)) (dec w) (units (fixed 7 f))).
  { constructor; [by split; [apply dec_nonempty|apply dec_digits]|by left|]. split; [|done]. by destruct (units (fixed 7 f)). }
  change (units ".") with [46]. cbn [app].
  rewrite (parse_decimal _ (dec w) (units (fixed 7 f))) by by rewrite (decimal_trim _ _ _ Hdec).
  rewrite Hl, digits_value_app, Hv, Hl, dec_value by done. cbn [STROOP_DECIMALS Nat.ltb Nat.leb].
  do 2 f_equal. change (10 ^ Z.of_nat 7) with 10000000. change (7 - Z.of_nat 7) with 0. lia.
Qed.

(** *** Concrete inputs *)

Lemma withdraw_validated_witness :
  exists e, validateWithdrawAmount (units "2,5") "30000000" = Ret e /\ e = None.
Proof.
  destruct (withdraw_validated (units "2,5") "30000000" 30000000) as (e & He & _); [vm_compute; reflexivity|].
  exists e. split; [exact He|]. vm_compute in He. congruence.
Defined.

Lemma unlock_date_real_witness : parseUnlockDate id id (units "2024-02-29") = Some 1709164800000.
Proof.
  apply (unlock_date_real id id).
  - intros d. unfold Day, id. apply Z.div_mul. discriminate.
  - exists (units "2024"), (units "02"), (units "29"). repeat split; try (vm_compute; first [reflexivity|discriminate]).
    repeat constructor.
Defined.

Lemma exported_amount_reads_back_witness :
  parseTopUpAmountToStroops (units (Activity.formatStroops "125000001")) = Some (units "125000001").
Proof. apply (exported_amount_reads_back 125000001). discriminate. Defined.
End ClientForms.
