(* ===== verification/ApiClient.v ===== *)
(** * The frontend's HTTP client, its session and the hooks that call the backend

    Models [frontend/src/lib/api.ts] ([apiFetch], [apiRequest], the session token),
    [frontend/src/context/SessionProvider.tsx], [unwrapApiData] of [lib/activity.ts], the
    request hooks of [frontend/src/hooks], and on the other side
    [backend/src/common/interceptors/response.interceptor.ts] and
    [common/filters/http-exception.filter.ts], which give every answer its shape.

    The network is a parameter: what it answers to the n-th request.  A call of a hook
    returns the states it shows one after the other ([list Hook]), the last one being
    what stays.  [session_refines] reduces the token, the context and the stored session
    to one abstract session; [withdraw_exact] says what a withdrawal sends;
    [plan_search_fails] and [balance_shown] compose a hook with the backend service behind
    it, whose answers come in the envelope of the interceptor. *)
From Stdlib Require Import ZArith Lia Ascii.
From stdpp Require Import base list strings.
From S2P Require Import Prelude Storage JsValue JsText JsNumber JsDate Encoding Balance LockedPlans ClientForms.
Import ClientForms.
Local Open Scope Z_scope.

Module ApiClient.

(** ** Requests and answers *)

(** [json] is what [response.json()] gives, once: the body is consumed by it. *)
Record Response := mkResponse { status : Z; statusText : string; json : outcome jsval }.
Definition ok (r : Response) : bool := (200 <=? status r) && (status r <=? 299).

(** The [Headers] object: names in lower case. *)
Definition Headers : Type := list (string * string).
Definition has (name : string) (h : Headers) : bool := existsb (fun kv => bool_decide (kv.1 = name)) h.
Definition set (name value : string) (h : Headers) : Headers :=
  if has name h then (fun kv => if decide (kv.1 = name) then (name, value) else kv) <$> h
  else h ++ [(name, value)].

(** A body is kept as the value it is the JSON text of. *)
Record Request := mkRequest { method : string; url : string; headers : Headers; body : option jsval }.

(** [value.member]: reading a member of [undefined] or [null] throws. *)
Definition member (v : jsval) (k : string) : outcome jsval :=
  match v with
  | VUndef | VNull => Throw (TypeError ("Cannot read properties of " +:+ js_String v +:+ " (reading '" +:+ k +:+ "')"))
  | VObj r => Ret r.[k]
  | _ => Ret VUndef
  end.

Definition hex_upper (n : Z) : ascii :=
  nth (Z.to_nat n) (String.list_ascii_of_string "0123456789ABCDEF") "0"%char.
Definition unreserved (c : ascii) : bool :=
  let n := Z.of_N (N_of_ascii c) in
  ((48 <=? n) && (n <=? 57)) || ((65 <=? n) && (n <=? 90)) || ((97 <=? n) && (n <=? 122)) ||
  existsb (fun d => bool_decide (d = c)) (String.list_ascii_of_string "-_.!~*'()").
Definition percent (c : ascii) : string :=
  let n := Z.of_N (N_of_ascii c) in String "%" (String (hex_upper (n / 16)) (String (hex_upper (n mod 16)) "")).
(** [encodeURIComponent(s)], [s] given by its UTF-8 bytes. *)
Fixpoint encodeURIComponent (s : string) : string :=
  match s with
  | EmptyString => EmptyString
  | String c s' => (if unreserved c then String c "" else percent c) +:+ encodeURIComponent s'
  end.
(** The serialisation of [URLSearchParams]. *)
Fixpoint form_encode (s : string) : string :=
  match s with
  | EmptyString => EmptyString
  | String c s' =>
      (if decide (c = " "%char) then "+"
       else if unreserved c && negb (existsb (fun d => bool_decide (d = c)) (String.list_ascii_of_string "!~'()"))
       then String c "" else percent c) +:+ form_encode s'
  end.
Definition URLSearchParams (l : list (string * string)) : string :=
  join_with "&" ((fun kv => form_encode kv.1 +:+ "=" +:+ form_encode kv.2) <$> l).

(** ** The backend's answers *)

(** What a handler returns: a value, or a file that is streamed. *)
Inductive handled := Value (v : jsval) | StreamableFile (content : string).

Definition NO_BODY_STATUS_CODES : list Z := [204; 304].

(** [ResponseInterceptor.intercept]. *)
Definition intercept (statusCode : Z) (data : handled) (now : Z) : handled :=
  match data with
  | StreamableFile c => StreamableFile c
  | Value v =>
      if existsb (Z.eqb statusCode) NO_BODY_STATUS_CODES then Value v
      else Value (VObj [("success"%string, VBool true); ("data"%string, v); ("timestamp"%string, VStr (toISOString now))])
  end.

(** [HttpExceptionFilter.catch]: the status and the body.  An HTTP exception carries its
    message, the messages of a failed validation joined with commas. *)
Definition catch_exception (exception : exn) (now : Z) : Z * jsval :=
  let '(st, message) :=
    match exception with
    | HttpException s m => (s, m)
    | DatabaseError c =>
        if decide (c = "23505") then (409, "A record with these details already exists."%string)
        else (500, "Database query failed"%string)
    | _ => (500, "Internal server error"%string)
    end in
  let message' := if st =? 500 then "Internal server error"%string else message in
  (st, VObj [("success"%string, VBool false);
             ("error"%string, VObj [("code"%string, VNum st); ("message"%string, VStr message')]);
             ("timestamp"%string, VStr (toISOString now))]).

(** [unwrapApiData]. *)
Definition unwrapApiData (b : jsval) : jsval :=
  match b with
  | VObj r =>
      if existsb (fun kv => bool_decide (kv.1 = "data"%string)) r && existsb (fun kv => bool_decide (kv.1 = "success"%string)) r
      then r.["data"] else b
  | _ => b
  end.

(** ** The session *)

(** [token] is the module variable of [api.ts], [user] and [address] the state of the
    provider, [storage] the item of the local storage (the value of its JSON text),
    [handler] the path at which the mounted provider has installed its handler. *)
Record state := mkState {
  token : option string;
  user : option jsval;
  address : option string;
  storage : option jsval;
  handler : option string;
  pushed : list string;
  sent : list Request;
}.

Definition with_token t s := mkState t (user s) (address s) (storage s) (handler s) (pushed s) (sent s).
Definition with_context u a s := mkState (token s) u a (storage s) (handler s) (pushed s) (sent s).
Definition with_storage i s := mkState (token s) (user s) (address s) i (handler s) (pushed s) (sent s).
Definition with_handler h s := mkState (token s) (user s) (address s) (storage s) h (pushed s) (sent s).
Definition push p s := mkState (token s) (user s) (address s) (storage s) (handler s) (pushed s ++ [p]) (sent s).
Definition log r s := mkState (token s) (user s) (address s) (storage s) (handler s) (pushed s) (sent s ++ [r]).

Definition setSessionToken (t : option string) : state -> state := with_token t.

Section client.
(** [NEXT_PUBLIC_API_URL], whether the browser lets the page use the local storage, and
    what the network answers to the n-th request. *)
Context (apiBase : string) (storage_ok : bool) (network : nat -> Request -> outcome Response).

(** [SessionProvider.clearSession]. *)
Definition clear_provider (s : state) : state :=
  let s := with_token None (with_context None None s) in
  if storage_ok then with_storage None s else s.

Definition handleSessionExpired (pathname : string) (s : state) : state :=
  let s := clear_provider s in
  if starts_with (units "/login") (units pathname) then s
  else push ("/login?session_expired=1&returnTo=" +:+
             encodeURIComponent (if decide (pathname = "") then "/"%string else pathname)) s.

(** [clearSession] of [api.ts]. *)
Definition clearSession (s : state) : state :=
  let s := with_token None s in
  match handler s with Some pathname => handleSessionExpired pathname s | None => s end.

Definition signOut (s : state) : state := push "/login" (clear_provider s).

Definition stored_session (t : string) (u : jsval) (a : string) : jsval :=
  VObj [("accessToken"%string, VStr t); ("user"%string, u); ("address"%string, VStr a)].

Definition setSession (t : string) (u : jsval) (a : string) (s : state) : state :=
  let s := with_context (Some u) (Some a) (setSessionToken (Some t) s) in
  if storage_ok then with_storage (Some (stored_session t u a)) s else s.

(** [readStoredSession]: token, user and address, all present. *)
Definition readStoredSession (s : state) : option (jsval * jsval * jsval) :=
  if negb storage_ok then None
  else
    match storage s with
    | Some (VObj r) =>
        if truthy r.["accessToken"] && truthy r.["user"] && truthy r.["address"]
        then Some (r.["accessToken"], r.["user"], r.["address"]) else None
    | _ => None
    end.

(** The page is loaded: the provider starts from the stored session. *)
Definition reload (pathname : string) (s : state) : state :=
  let fresh := mkState None None None (storage s) (Some pathname) (pushed s) (sent s) in
  match readStoredSession fresh with
  | Some (t, u, a) => with_context (Some u) (Some (js_String a)) (setSessionToken (Some (js_String t)) fresh)
  | None => fresh
  end.

Record Init := mkInit { skipAuth : bool; i_method : string; i_headers : Headers; i_body : option jsval }.

(** The request [apiFetch] makes with the current token. *)
Definition request_of (input : string) (init : Init) (current : option string) : Request :=
  let h := i_headers init in
  let h := match current with
           | Some t => if negb (skipAuth init) && negb (bool_decide (t = ""%string))
                       then set "authorization" ("Bearer " +:+ t) h else h
           | None => h
           end in
  let h := match i_body init with
           | Some _ => if has "content-type" h then h else set "content-type" "application/json" h
           | None => h
           end in
  mkRequest (i_method init) (if decide (apiBase = "") then input else apiBase +:+ input) h (i_body init).

Definition apiFetch (input : string) (init : Init) : M state Response :=
  await r := gets (fun s => request_of input init (token s)) in
  await answer := (fun s => (network (length (sent s)) r, log r s)) in
  if status answer =? 401 then
    do modify clearSession ;>
    throw (HttpException 401 "Session expired")
  else ret answer.

Definition lift {A} (o : outcome A) : M state A := match o with Ret a => ret a | Throw e => throw e end.

Definition or_value (v w : jsval) : jsval := if truthy v then v else w.

(** [apiRequest]: an [ApiError] is its status and the text of its message.  A body that is
    not JSON has been read by then, so the [text()] of the last line throws. *)
Definition apiRequest (input : string) (init : Init) : M state jsval :=
  await response := apiFetch input init in
  if negb (ok response) then
    let default_message := "Request failed with status " +:+ Z_to_string (status response) in
    await message :=
      catch (await errorData := lift (json response) in
             await m := lift (member errorData "message") in
             await e := lift (member errorData "error") in
             ret (or_value m (or_value e (VStr default_message))))
            (fun _ => ret (VStr (if decide (statusText response = "") then default_message else statusText response))) in
    throw (HttpException (status response) (js_String message))
  else if status response =? 204 then ret VUndef
  else catch (lift (json response)) (fun _ => throw (TypeError "Body is unusable: Body has already been read")).

(** [api.get], [api.post] and the others: a falsy body is not sent. *)
Definition api_call (verb input : string) (given : jsval) : M state jsval :=
  apiRequest input (mkInit false verb [] (if truthy given then Some given else None)).

(** ** The hooks *)

(** The status and the error message a hook shows. *)
Record Hook := mkHook { h_status : string; h_error : option string }.

(** The message of a failed answer: the [message] of its body, or the fallback. *)
Definition error_message (fallback : string) (r : Response) : M state string :=
  let plain := fallback +:+ ": " +:+ statusText r in
  catch (await errorData := lift (json r) in
         await m := lift (member errorData "message") in
         ret (if truthy m then js_String m else plain))
        (fun _ => ret plain).

Definition checked (fallback : string) (answer : M state Response) : M state Response :=
  await r := answer in
  if ok r then ret r
  else await m := error_message fallback r in throw (HttpException (status r) m).

(** The hooks that only load do not look into a failed answer. *)
Definition checked_plain (fallback : string) (r : Response) : M state Response :=
  if ok r then ret r else throw (HttpException (status r) (fallback +:+ ": " +:+ statusText r)).

(** One call of a hook that sends a request: the result and the states shown. *)
Definition mutation {A} (busy finished : string) (act : M state A) : M state (option A * list Hook) :=
  catch (await a := act in ret (Some a, [mkHook busy None; mkHook finished None]))
        (fun e => ret (None, [mkHook busy None; mkHook "error" (Some (exn_message e))])).

Definition send_json (fallback verb path : string) (hs : Headers) (b : option jsval) : M state jsval :=
  await r := checked fallback (apiFetch path (mkInit false verb hs b)) in lift (json r).

(** [crypto.randomUUID()] at the n-th request. *)
Context (randomUUID : nat -> string).
Definition idempotent {A} (k : Headers -> M state A) : M state A :=
  await key := gets (fun s => randomUUID (length (sent s))) in k [("idempotency-key"%string, key)].

Definition amount_json (amount : text) : jsval :=
  match parseTopUpAmountToStroops amount with
  | None => VNull
  | Some stroops => VStr (default "" (ascii_text stroops))
  end.

Definition withdraw (owner : string) (amount : text) (balance : string) : M state (option jsval * list Hook) :=
  match validateWithdrawAmount amount balance with
  | Throw e => throw e
  | Ret (Some e) => ret (None, [mkHook "error" (Some (WITHDRAW_AMOUNT_ERROR_MESSAGES e))])
  | Ret None =>
      mutation "pending" "success" (idempotent (fun hs =>
        send_json "Failed to withdraw" "POST" "/api/savings/flexible/withdraw" hs
          (Some (VObj [("owner"%string, VStr owner); ("amount"%string, amount_json amount)]))))
  end.

Definition topUp (planId owner : string) (amount : text) : M state (option jsval * list Hook) :=
  match validateTopUpAmount amount with
  | Some e => ret (None, [mkHook "error" (Some (TOP_UP_AMOUNT_ERROR_MESSAGES e))])
  | None =>
      mutation "pending" "success" (idempotent (fun hs =>
        send_json "Failed to top up plan" "POST" ("/api/savings/locked/" +:+ encodeURIComponent planId +:+ "/top-up") hs
          (Some (VObj [("owner"%string, VStr owner); ("amount"%string, amount_json amount)]))))
  end.

Definition createLockedPlan (owner : string) (amount : text) (unlockAt : Z) : M state (option jsval * list Hook) :=
  mutation "pending" "success" (idempotent (fun hs =>
    send_json "Failed to create locked plan" "POST" "/api/savings/locked" hs
      (Some (VObj [("owner"%string, VStr owner); ("amount"%string, amount_json amount);
                   ("unlock_at"%string, VStr (toISOString unlockAt))])))).

Definition json_type : Headers := [("content-type"%string, "application/json"%string)].

Definition createGoal (name targetAmount : string) : M state (option jsval * list Hook) :=
  mutation "submitting" "idle" (send_json "Failed to create goal" "POST" "/api/goals" json_type
    (Some (VObj [("name"%string, VStr name); ("target_amount"%string, VStr targetAmount)]))).

Definition createGroup (name : string) : M state (option jsval * list Hook) :=
  mutation "submitting" "idle" (send_json "Failed to create group" "POST" "/api/savings/groups" json_type
    (Some (VObj [("name"%string, VStr name)]))).

Definition claimGoal (goalId : string) : M state (option jsval * list Hook) :=
  mutation "pending" "success" (send_json "Failed to claim goal" "POST" ("/api/goals/" +:+ goalId +:+ "/claim") [] None).

Definition settleGroup (groupId : string) : M state (option jsval * list Hook) :=
  mutation "pending" "success"
    (send_json "Failed to settle group" "POST" ("/api/savings/groups/" +:+ groupId +:+ "/settle") [] None).

(** The shares are saved without reading the answer. *)
Definition setShares (groupId : string) (sharesBps : list (string * Z)) : M state (option unit * list Hook) :=
  mutation "saving" "success"
    (await r := checked "Failed to save shares" (apiFetch ("/api/savings/groups/" +:+ groupId +:+ "/shares")
       (mkInit false "PUT" json_type
         (Some (VObj [("shares_bps"%string, VObj ((fun kv => (kv.1, VNum kv.2)) <$> sharesBps))])))) in
     ret tt).

(** ** Hooks that load *)

Record Loader := mkLoader { l_data : jsval; l_status : string; l_error : option string }.

(** A load shows that it is loading, then its result; what was shown before stays on an
    error. *)
Definition load (before : Loader) (act : M state (jsval * string)) : M state (list Loader) :=
  let loading := mkLoader (l_data before) "loading" None in
  catch (await r := act in ret [loading; mkLoader r.1 r.2 None])
        (fun e => ret [loading; mkLoader (l_data before) "error" (Some (exn_message e))]).

Definition get_ (path : string) : M state Response := apiFetch path (mkInit false "GET" [] None).

(** [if (!address) return]. *)
Definition given (a : option string) (k : string -> M state (list Loader)) : M state (list Loader) :=
  match a with Some a => if decide (a = "") then ret [] else k a | None => ret [] end.

Definition fetchSummary (a : option string) (before : Loader) : M state (list Loader) :=
  given a (fun a => load before
    (await r := get_ ("/api/savings/summary?address=" +:+ encodeURIComponent a) in
     await r := checked_plain "Failed to load savings summary" r in
     await data := lift (json r) in ret (data, "ready"%string))).


Definition fetchDeposits (a : option string) (before : Loader) : M state (list Loader) :=
  given a (fun a => load before
    (await r := get_ ("/api/savings/deposits?address=" +:+ encodeURIComponent a) in
     if status r =? 404 then ret (VArr [], "ready"%string)
     else
       await r := checked_plain "Failed to load deposit history" r in
       await data := lift (json r) in
       match data with
       | VArr l => ret (VArr l, "ready"%string)
       | _ => await d := lift (member data "deposits") in ret (d ?? VArr [], "ready"%string)
       end)).

(** [query] is what [buildActivityQuery] gives. *)
Definition fetchActivity (query : option string) (before : Loader) : M state (list Loader) :=
  given query (fun q => load before
    (await r := get_ ("/api/savings/activity?" +:+ q) in
     await r := checked_plain "Failed to load activity" r in
     await b := lift (json r) in
     ret (match unwrapApiData b with VArr l => VArr l | _ => VArr [] end, "ready"%string))).

Definition fetchGroup (groupId : option string) (before : Loader) : M state (list Loader) :=
  match groupId with
  | None => ret []
  | Some g =>
      load before
        (await r := get_ ("/api/savings/groups/" +:+ g) in
         if status r =? 404 then ret (VNull, "not-found"%string)
         else
           await r := checked_plain "Failed to load group" r in
           await data := lift (json r) in ret (data, "ready"%string))
  end.

(** A background refresh of the group: only a good answer changes what is shown. *)
Definition poll_group (g : string) (before : Loader) : M state Loader :=
  catch (await r := get_ ("/api/savings/groups/" +:+ g) in
         if negb (ok r) then ret before
         else await data := lift (json r) in ret (mkLoader data (l_status before) (l_error before)))
        (fun _ => ret before).

(** ** The anchor and the referrals *)

Record AnchorDeposit := mkAnchorDeposit { d_session : jsval; depositStatus : string; d_error : option string; d_loading : bool }.

Definition initiateDeposit (assetCode account : string) (before : AnchorDeposit) : M state (list AnchorDeposit) :=
  let requesting := mkAnchorDeposit (d_session before) "requesting" None true in
  catch (await data := send_json "Failed to initiate deposit" "POST" "/api/savings/anchor/deposit" json_type
           (Some (VObj [("asset_code"%string, VStr assetCode); ("account"%string, VStr account)])) in
         ret [requesting; mkAnchorDeposit data "interactive" None false])
        (fun e => ret [requesting; mkAnchorDeposit (d_session before) "error" (Some (exn_message e)) false]).

(** [useDeposit]: an amount that fails the validation starts nothing. *)
Definition deposit (account : string) (amount : text) (before : AnchorDeposit)
  : M state (option DepositAmountError * list AnchorDeposit) :=
  match validateDepositAmount amount with
  | Some e => ret (Some e, [])
  | None => await shown := initiateDeposit "USDC" account before in ret (None, shown)
  end.

Record AnchorWithdraw := mkAnchorWithdraw {
  instructions : jsval; w_status : jsval; withdrawStatus : jsval; w_error : option string; w_loading : bool }.

(** [...(value && { name: value })]. *)
Definition optional (name : string) (value : option string) : list (string * string) :=
  match value with Some v => if decide (v = "") then [] else [(name, v)] | None => [] end.

Record InitiateWithdrawParams := mkWithdrawParams {
  assetCode : string; w_amount : string; w_account : option string; w_type : option string;
  dest : option string; destExtra : option string }.

Definition initiateWithdraw (ps : InitiateWithdrawParams) (before : AnchorWithdraw) : M state (list AnchorWithdraw) :=
  let requesting := mkAnchorWithdraw (instructions before) (w_status before) (VStr "requesting") None true in
  let query := URLSearchParams ([("asset_code"%string, assetCode ps); ("amount"%string, w_amount ps)] ++
    optional "account" (w_account ps) ++ optional "type" (w_type ps) ++ optional "dest" (dest ps) ++ optional "dest_extra" (destExtra ps)) in
  catch (await data := send_json "Failed to initiate withdrawal" "POST" ("/api/anchor/withdraw?" +:+ query) [] None in
         ret [requesting; mkAnchorWithdraw data (w_status before) (VStr "pending_user_transfer_start") None false])
        (fun e => ret [requesting; mkAnchorWithdraw (instructions before) (w_status before) (VStr "error") (Some (exn_message e)) false]).

(** The answer is kept before its status is read, which may throw. *)
Definition checkStatus (transactionId : string) (before : AnchorWithdraw) : M state (list AnchorWithdraw) :=
  let checking := mkAnchorWithdraw (instructions before) (w_status before) (withdrawStatus before) None true in
  let failed kept e := mkAnchorWithdraw (instructions before) kept (VStr "error") (Some (exn_message e)) false in
  catch (await data := send_json "Failed to check withdrawal status" "GET" ("/api/anchor/withdraw/" +:+ transactionId) [] None in
         ret (match (match member data "transaction" with Ret t => member t "status" | Throw e => Throw e end) with
              | Ret st => [checking; mkAnchorWithdraw (instructions before) data st None false]
              | Throw e => [checking; failed data e]
              end))
        (fun e => ret [checking; failed (w_status before) e]).

Record Referrals := mkReferrals { r_data : jsval; r_error : option string; r_loading : bool }.

Definition fetchReferrals (before : Referrals) : M state (list Referrals) :=
  let loading := mkReferrals (r_data before) None true in
  catch (await data := send_json "Failed to load referrals" "GET" "/api/users/me/referrals" [] None in
         ret [loading; mkReferrals data None false])
        (fun e => ret [loading; mkReferrals (r_data before) (Some (exn_message e)) false]).

(** ** The detail of a locked plan *)

Definition PAGE_SIZE : Z := 100.

Definition page_query (a : string) (page : Z) : string :=
  "/api/savings/locked?" +:+
  URLSearchParams [("address"%string, a); ("page"%string, Z_to_string page); ("limit"%string, Z_to_string PAGE_SIZE)].

(** [page * data.limit >= data.total]. *)
Definition page_covers (page : Z) (limit total : jsval) : bool :=
  match limit, total with
  | VNum l, VNum t => t <=? page * l
  | _, _ => num_leb (js_Number total) (num_mul (num_of_Z page) (js_Number limit))
  end.

Definition has_id (planId : string) (p : jsval) : outcome bool :=
  match member p "on_chain_id" with Ret v => Ret (match v with VStr i => bool_decide (i = planId) | _ => false end) | Throw e => Throw e end.

(** [plans.find((p) => p.on_chain_id === planId)]. *)
Fixpoint find_plan (planId : string) (plans : list jsval) : outcome (option jsval) :=
  match plans with
  | [] => Ret None
  | p :: ps =>
      match has_id planId p with
      | Throw e => Throw e
      | Ret true => Ret (Some p)
      | Ret false => find_plan planId ps
      end
  end.

(** One round of the loop: the plan, or whether another page is to be asked for. *)
Definition plan_page (planId a : string) (page : Z) : M state (option jsval * bool) :=
  await r := get_ (page_query a page) in
  await r := checked_plain "Failed to load locked plan" r in
  await data := lift (json r) in
  await plans := lift (member data "plans") in
  match plans with
  | VArr l =>
      await found := lift (find_plan planId l) in
      match found with
      | Some p => ret (Some p, false)
      | None =>
          await lim := lift (member data "limit") in
          await tot := lift (member data "total") in
          ret (None, negb (bool_decide (l = [])) && negb (page_covers page lim tot))
      end
  | VUndef | VNull => throw (TypeError ("Cannot read properties of " +:+ js_String plans +:+ " (reading 'find')"))
  | _ => throw (TypeError "data.plans.find is not a function")
  end.

(** The loop with an allowance of rounds; [None] when it is used up. *)
Fixpoint plan_pages (fuel : nat) (planId a : string) (page : Z) : M state (option (option jsval)) :=
  match fuel with
  | O => ret None
  | S fuel' =>
      await r := plan_page planId a page in
      match r with
      | (Some p, _) => ret (Some (Some p))
      | (None, true) => plan_pages fuel' planId a (page + 1)
      | (None, false) => ret (Some None)
      end
  end.

(** [None]: the loop has not ended within the allowance. *)
Definition fetchPlan (fuel : nat) (planId a : string) (before : Loader) : M state (option (list Loader)) :=
  let loading := mkLoader (l_data before) "loading" None in
  catch (await r := plan_pages fuel planId a 1 in
         ret (match r with
              | None => None
              | Some (Some p) => Some [loading; mkLoader p "ready" None]
              | Some None => Some [loading; mkLoader VNull "not-found" None]
              end))
        (fun e => ret (Some [loading; mkLoader (l_data before) "error" (Some (exn_message e))])).
End client.

(** ** One session *)

(** What the session is: the token, the user and the address of who is signed in. *)
Definition session : Type := option (string * jsval * string).
Definition token_of (A : session) : option string := (fun x => x.1.1) <$> A.

Inductive op :=
| SetSession (t : string) (u : jsval) (a : string)
| SignOut
| Reload (pathname : string)
| Fetch (input : string) (init : Init).

(** A sign-in gives a token, a user and an address. *)
Definition wf_op (o : op) : bool :=
  match o with
  | SetSession t u a => bool_decide (t ≠ ""%string) && truthy u && bool_decide (a ≠ ""%string)
  | _ => true
  end.

Section sessions.
Context (apiBase : string) (network : nat -> Request -> outcome Response).

Definition exec (s : state) (o : op) : state :=
  match o with
  | SetSession t u a => setSession true t u a s
  | SignOut => signOut true s
  | Reload pathname => reload true pathname s
  | Fetch input init => (apiFetch apiBase true network input init s).2
  end.

(** The contract: a sign-in replaces the session, a sign-out and an answer 401 end it, a
    reload keeps it.  The second part lists, for each request, the session it was made in
    and how. *)
Definition spec_step (x : session * list (session * Init)) (o : op) : session * list (session * Init) :=
  let '(A, made) := x in
  match o with
  | SetSession t u a => (Some (t, u, a), made)
  | SignOut => (None, made)
  | Reload _ => (A, made)
  | Fetch input init =>
      (match network (length made) (request_of apiBase input init (token_of A)) with
       | Ret r => if status r =? 401 then None else A
       | Throw _ => A
       end, made ++ [(A, init)])
  end.

(** The token, the context of the provider and the stored item are those of the session. *)
Definition represents (A : session) (s : state) : Prop :=
  is_Some (handler s) /\ token s = token_of A /\ user s = (fun x => x.1.2) <$> A /\ address s = (fun x => x.2) <$> A /\
  storage s = (fun x => stored_session x.1.1 x.1.2 x.2) <$> A /\
  match A with Some (t, u, a) => t ≠ ""%string /\ truthy u = true /\ a ≠ ""%string | None => True end.

Definition header (name : string) (h : Headers) : option string :=
  snd <$> List.find (fun kv => bool_decide (kv.1 = name)) h.

(** A request carries the token of the session it is made in, unless it is told not to. *)
Definition carries (x : session * Init) (r : Request) : Prop :=
  header "authorization" (headers r) =
    match x.1 with
    | Some (t, _, _) => if skipAuth x.2 then header "authorization" (i_headers x.2) else Some ("Bearer " +:+ t)
    | None => header "authorization" (i_headers x.2)
    end.

Lemma header_set name v h : header name (set name v h) = Some v.
Proof.
  unfold set, header. destruct (has name h) eqn:Hh.
  - induction h as [|[k w] h IH]; [done|]. unfold has in *. cbn [existsb fst] in Hh.
    cbn [fmap list_fmap List.find fst]. destruct (decide (k = name)) as [->|Hk]; cbn [fst].
    + by rewrite bool_decide_eq_true_2.
    + rewrite bool_decide_eq_false_2 in * by done. by apply IH.
  - induction h as [|[k w] h IH]; cbn [app List.find fst]; [by rewrite bool_decide_eq_true_2|].
    unfold has in *. cbn [existsb fst] in Hh. apply orb_false_iff in Hh as [-> Hh]. by apply IH.
Qed.

Lemma header_set_other name other v h : name ≠ other -> header name (set other v h) = header name h.
Proof.
  intros Hne. unfold set, header. destruct (has other h).
  - induction h as [|[k w] h IH]; [done|]. cbn [fmap list_fmap List.find fst].
    destruct (decide (k = other)) as [->|Hk]; cbn [fst]; [by rewrite bool_decide_eq_false_2 by done|].
    by destruct (bool_decide (k = name)).
  - induction h as [|[k w] h IH]; cbn [app List.find fst]; [by rewrite bool_decide_eq_false_2 by done|].
    by destruct (bool_decide (k = name)).
Qed.

Lemma request_carries input init A : match A with Some (t, _, _) => t ≠ ""%string | None => True end ->
  carries (A, init) (request_of apiBase input init (token_of A)).
Proof.
  intros Ht. unfold carries, request_of. cbn [headers fst snd].
  assert (Hct : forall h, header "authorization" (match i_body init with
     | Some _ => if has "content-type" h then h else set "content-type" "application/json" h | None => h end) = header "authorization" h).
  { intros h. destruct (i_body init); [|done]. destruct (has "content-type" h); [done|by apply header_set_other]. }
  rewrite Hct. destruct A as [[[t u] a]|]; cbn [token_of fmap option_fmap option_map fst]; [|done].
  rewrite bool_decide_eq_false_2 by done. destruct (skipAuth init); cbn [negb andb]; [done|apply header_set].
Qed.

Lemma expired_represents A s : represents A s -> represents None (clearSession true s).
Proof.
  intros ((p & Hp) & Ht & Hu & Ha & Hs & _). unfold clearSession. cbn [handler with_token]. rewrite Hp.
  unfold handleSessionExpired. by destruct (starts_with _ _); cbn; repeat split; eexists.
Qed.

Lemma stored_session_read t u a s :
  t ≠ ""%string /\ truthy u = true /\ a ≠ ""%string -> storage s = Some (stored_session t u a) ->
  readStoredSession true s = Some (VStr t, u, VStr a).
Proof.
  intros (Ht & Hu & Ha) Hs. unfold readStoredSession. rewrite Hs. cbn [negb stored_session].
  set (r := [_; _; _]). change r.["accessToken"] with (VStr t). change r.["user"] with u. change r.["address"] with (VStr a).
  rewrite Hu. cbn [truthy]. by rewrite !bool_decide_eq_true_2.
Qed.

Lemma exec_represents A made s o : represents A s -> length (sent s) = length made -> wf_op o = true ->
  represents (spec_step (A, made) o).1 (exec s o) /\
  exists rs, sent (exec s o) = sent s ++ rs /\
    (spec_step (A, made) o).2 = made ++ (match o with Fetch _ init => [(A, init)] | _ => [] end) /\
    Forall2 carries (match o with Fetch _ init => [(A, init)] | _ => [] end) rs.
Proof.
  intros HA Hl Ho. pose proof HA as (Hh & Ht & Hu & Ha & Hs & Hne). destruct o as [t u a| |p|input init]; cbn [exec spec_step fst snd].
  - apply andb_true_iff in Ho as [Ho Hav]. apply andb_true_iff in Ho as [Htv Huv].
    apply bool_decide_eq_true in Htv, Hav. split; [by repeat split|]. exists []. by rewrite !app_nil_r.
  - split; [by repeat split|]. exists []. by rewrite !app_nil_r.
  - split; [|exists []; rewrite !app_nil_r; split; [|done]; unfold reload; by destruct (readStoredSession _ _) as [[[? ?] ?]|]].
    unfold reload. rewrite Hs. destruct A as [[[t u] a]|]; [|by repeat split; eexists].
    rewrite (stored_session_read t u a) by done. split; [by eexists|]. by repeat split; try apply Hne.
  - unfold apiFetch, bind, gets, modify, throw, ret. cbn [fst snd]. rewrite Ht, Hl.
    set (r := request_of apiBase input init (token_of A)).
    assert (Hc : Forall2 carries [(A, init)] [r]).
    { constructor; [|constructor]. apply request_carries. destruct A as [[[t u] a]|]; [apply Hne|done]. }
    assert (Hlog : represents A (log r s)) by done.
    destruct (network (length made) r) as [answer|e]; [|split; [done|by exists [r]]].
    destruct (status answer =? 401); cbn [snd]; [|split; [done|by exists [r]]].
    split; [by apply (expired_represents A)|]. exists [r]. split; [|done].
    unfold clearSession. cbn [handler with_token]. destruct Hh as [p Hp]. cbn [log handler]. rewrite Hp.
    unfold handleSessionExpired. by destruct (starts_with _ _).
Qed.

Lemma exec_ops ops : forall (A : session) made s, represents A s -> Forall2 carries made (sent s) -> forallb wf_op ops = true ->
  represents (foldl spec_step (A, made) ops).1 (foldl exec s ops) /\
  Forall2 carries (foldl spec_step (A, made) ops).2 (sent (foldl exec s ops)).
Proof.
  induction ops as [|o ops IH]; intros A made s Hr Hm Hops; [done|].
  cbn [forallb] in Hops. apply andb_true_iff in Hops as [Ho Hops].
  destruct (exec_represents A made s o Hr (eq_sym (Forall2_length _ _ _ Hm)) Ho) as (Hr' & rs & Hsent & Hmade & Hc).
  cbn [foldl]. destruct (spec_step (A, made) o) as [A' made']. cbn [fst snd] in *. apply IH; [done| |done].
  rewrite Hsent, Hmade. by apply Forall2_app.
Qed.

(** C18: Whatever the order of sign-ins, sign-outs, reloads and requests with any answers,
    the token of the client, the signed-in user and the stored session are those of one
    session, which a sign-in replaces, a reload keeps and a sign-out or an answer 401
    ends; and every request carries the token of the session it is made in. *)
Theorem session_refines (ops : list op) (s : state) :
  represents None s -> sent s = [] -> forallb wf_op ops = true ->
  let x := foldl spec_step (None, []) ops in
  represents x.1 (foldl exec s ops) /\ Forall2 carries x.2 (sent (foldl exec s ops)).
Proof.
  intros Hr Hs Hops. apply exec_ops; [done|rewrite Hs; constructor|done].
Qed.
End sessions.

(** ** What a call sends and shows *)

Section calls.
Context (apiBase : string) (storage_ok : bool) (network : nat -> Request -> outcome Response) (randomUUID : nat -> string).

Lemma clearSession_sent s : sent (clearSession storage_ok s) = sent s.
Proof.
  unfold clearSession. destruct (handler (with_token None s)) as [p|]; [|done].
  unfold handleSessionExpired, clear_provider. by destruct storage_ok, (starts_with _ _).
Qed.

Lemma apiFetch_sent input init s :
  sent (apiFetch apiBase storage_ok network input init s).2 = sent s ++ [request_of apiBase input init (token s)].
Proof.
  unfold apiFetch, bind, gets. destruct (network _ _) as [a|e]; [|done].
  destruct (status a =? 401); [|done]. unfold modify, throw. cbn [snd]. by rewrite clearSession_sent.
Qed.

Lemma error_message_run fallback r (s : state) : exists m, error_message fallback r s = (Ret m, s).
Proof.
  unfold error_message, catch, bind, lift, ret, throw. destruct (json r) as [v|]; [|by eexists].
  destruct (member v "message") as [m|]; [|by eexists]. destruct (truthy m); by eexists.
Qed.

Lemma send_json_sent fallback verb path hs b s :
  sent (send_json apiBase storage_ok network fallback verb path hs b s).2 =
    sent s ++ [request_of apiBase path (mkInit false verb hs b) (token s)].
Proof.
  unfold send_json, checked. pose proof (apiFetch_sent path (mkInit false verb hs b) s) as H. unfold bind at 1.
  unfold bind at 1. destruct (apiFetch _ _ _ _ _ s) as [[r|e] s']; [|done]. cbn [snd] in H.
  destruct (ok r); [unfold ret, lift; by destruct (json r)|].
  unfold bind. destruct (error_message_run fallback r s') as [m ->]. done.
Qed.

(** A call settles: it throws nothing, and the state that stays is not the busy one. *)
Lemma mutation_settles {A} busy finished (act : M state A) s :
  exists res last, mutation busy finished act s = (Ret (res, [mkHook busy None; last]), (act s).2) /\
    ((exists a, (act s).1 = Ret a /\ res = Some a /\ last = mkHook finished None) \/
     (exists e, (act s).1 = Throw e /\ res = None /\ last = mkHook "error" (Some (exn_message e)))).
Proof.
  unfold mutation, catch, bind, ret. destruct (act s) as [[a|e] s']; do 2 eexists; (split; [done|]); [left|right]; by eexists.
Qed.

Lemma ascii_text_units w : Forall (fun c => is_dec c = true) (units w) -> ascii_text (units w) = Some w.
Proof.
  induction w as [|c w IH]; [done|]. change (units (String c w)) with (unit_of c :: units w). intros H.
  inversion_clear H as [|? ? Hc Hw]. cbn [ascii_text]. rewrite (IH Hw). unfold is_dec in Hc.
  apply andb_true_iff in Hc as [H1 H2]. apply Z.leb_le in H1, H2.
  rewrite (proj2 (Z.leb_le 0 _)), (proj2 (Z.ltb_lt _ 128)) by lia. cbn [andb fmap option_fmap option_map].
  unfold unit_of. by rewrite N2Z.id, ascii_N_embedding.
Qed.

Lemma amount_json_reads amount n : reads amount n -> amount_json amount = VStr (Z_to_string n).
Proof.
  intros Hr. pose proof Hr as (w & f & Hd & Hl & ->). unfold amount_json.
  rewrite (parse_decimal amount w f Hd). destruct (Nat.ltb_spec STROOP_DECIMALS (length f)); [lia|].
  apply decimal_digits in Hd as [Hw Hf]. unfold dec. rewrite ascii_text_units; [done|].
  apply dec_digits. by apply value_nonneg.
Qed.

(** The idempotency key stays among the headers. *)
Lemma request_key path verb b key current :
  header "idempotency-key" (headers (request_of apiBase path (mkInit false verb [("idempotency-key"%string, key)] b) current)) = Some key.
Proof.
  unfold request_of. cbn [headers i_headers i_body skipAuth negb andb].
  destruct current as [t|]; [destruct (bool_decide (t = ""%string)); cbn [negb]|]; destruct b as [v|];
    try done; destruct (has "content-type" _); rewrite ?header_set_other; done.
Qed.

(** C25: A withdrawal sends nothing unless what was typed is an exact number of stroops
    above zero and within the balance; it then sends exactly one request, of that number
    of stroops and under a fresh idempotency key.  In every case the call ends and the
    hook shows a success or an error. *)
Theorem withdraw_exact owner amount balance available (s : state) :
  BigInt_of_string (if decide (balance = "") then "0"%string else balance) = Some available ->
  exists res shown s', withdraw apiBase storage_ok network randomUUID owner amount balance s = (Ret (res, shown), s') /\
    (exists h, last shown = Some h /\ (h_status h = "success"%string <-> res ≠ None) /\ (h_status h = "error"%string <-> res = None)) /\
    ((sent s' = sent s /\ res = None /\ ~ exists n, reads amount n /\ 0 < n <= available) \/
     (exists n r, reads amount n /\ 0 < n <= available /\ sent s' = sent s ++ [r] /\ method r = "POST"%string /\
        body r = Some (VObj [("owner"%string, VStr owner); ("amount"%string, VStr (Z_to_string n))]) /\
        header "idempotency-key" (headers r) = Some (randomUUID (length (sent s))))).
Proof.
  intros Hb. unfold withdraw. destruct (withdraw_checked amount balance available Hb) as [(e & -> & Hno)|(n & -> & Hr & Hn)].
  - do 3 eexists. split; [done|]. split; [eexists; split; [done|]; split; by split|]. by left.
  - rewrite (amount_json_reads amount n Hr).
    match goal with |- context [mutation _ _ ?act] => destruct (mutation_settles "pending" "success" act s) as (res & h & -> & Hcase) end.
    do 3 eexists. split; [done|]. split.
    { exists h. split; [done|]. destruct Hcase as [(a & _ & -> & ->)|(e & _ & -> & ->)]; split; by split. }
    right. exists n. eexists. split; [done|]. split; [done|].
    unfold idempotent, bind at 1, gets. rewrite send_json_sent. split; [done|]. split; [done|]. split; [done|].
    apply request_key.
Qed.
End calls.

(** ** The hooks over the backend *)

Lemma find_app {A} (p : A -> bool) l k :
  List.find p (l ++ k) = match List.find p l with Some x => Some x | None => List.find p k end.
Proof. induction l as [|x l IH]; [done|]. cbn [app List.find]. by destruct (p x). Qed.

Section backend.
Context {B : Backend} (apiBase : string) (storage_ok : bool) (network : nat -> Request -> outcome Response).

(** The JSON of a row. *)
Definition plan_json (p : LockedPlans.LockedPlan) : jsval :=
  VObj [("on_chain_id"%string, VStr (LockedPlans.on_chain_id p)); ("owner"%string, VStr (LockedPlans.owner p));
        ("balance"%string, VStr (LockedPlans.balance p)); ("unlock_at"%string, VStr (toISOString (LockedPlans.unlock_at p)));
        ("created_at"%string, VStr (toISOString (LockedPlans.created_at p)))].

(** [SavingsController.listLocked]: the body it returns. *)
Definition listLocked (a : string) (page limit : Z) (desc : bool) : M LockedPlans.state jsval :=
  await found := LockedPlans.listByOwner a page limit desc in
  ret (VObj [("address"%string, VStr a); ("plans"%string, VArr (plan_json <$> LockedPlans.data found));
             ("total"%string, VNum (LockedPlans.total found)); ("page"%string, VNum (LockedPlans.page found));
             ("limit"%string, VNum (LockedPlans.limit found))]).


(** The answer to a handler that ran on a table: its value in the envelope of the global
    interceptor, or the body of the exception filter. *)
Definition answer_of {St} (now : Z) (handler : M St jsval) (t : St) : Response :=
  match (handler t).1 with
  | Ret v =>
      mkResponse 200 "OK" (match intercept 200 (Value v) now with
                           | Value b => Ret b
                           | StreamableFile _ => Throw (SyntaxError "Unexpected token")
                           end)
  | Throw e => let '(st, b) := catch_exception e now in mkResponse st "" (Ret b)
  end.

(** The network hands the request of the first page of the plan list to the backend,
    whose table is [t]. *)
Definition serves_plans (a : string) (t : LockedPlans.state) : Prop :=
  forall k current, exists now,
    network k (request_of apiBase (page_query a 1) (mkInit false "GET" [] None) current) =
      Ret (answer_of now (listLocked a 1 PAGE_SIZE false) t).

(** The search for a locked plan ends in an error against every table of plans, the
    owner's plan in it or not: the hook looks for the plans in the answer itself, which
    is the envelope of the interceptor. *)
Theorem plan_search_fails planId a (t : LockedPlans.state) before s fuel :
  serves_plans a t -> (0 < fuel)%nat ->
  exists s', fetchPlan apiBase storage_ok network fuel planId a before s =
    (Ret (Some [mkLoader (l_data before) "loading" None;
                mkLoader (l_data before) "error" (Some "Cannot read properties of undefined (reading 'find')"%string)]), s').
Proof.
  intros Hs Hf. destruct fuel as [|fuel]; [lia|]. destruct (Hs (length (sent s)) (token s)) as [now Hn].
  unfold fetchPlan, catch. cbn [plan_pages]. unfold plan_page, get_, apiFetch, bind, gets. rewrite Hn.
  eexists. reflexivity.
Qed.


End backend.

(** ** Error messages *)

(** The text of a refusal is under [error.message] of the answer; the hooks look for it
    under [message] and show their fallback. *)
Theorem refusal_text_lost fallback e now (s : state) :
  let '(st, b) := catch_exception e now in
  error_message fallback (mkResponse st "Bad Request" (Ret b)) s = (Ret (fallback +:+ ": Bad Request"), s).
Proof.
  unfold catch_exception. destruct e as [st m|m|m|c|m]; try reflexivity. destruct (decide (c = "23505"%string)); reflexivity.
Qed.

(** [apiRequest] finds an object under [error] and makes a text of it. *)
Theorem refusal_text_object apiBase storage_ok network input init (s : state) e now :
  network (length (sent s)) (request_of apiBase input init (token s)) =
    (let '(st, b) := catch_exception e now in Ret (mkResponse st "" (Ret b))) ->
  (catch_exception e now).1 = 400 ->
  (apiRequest apiBase storage_ok network input init s).1 = Throw (HttpException 400 "[object Object]").
Proof.
  intros Hn H400. unfold apiRequest, apiFetch, bind, gets. rewrite Hn.
  destruct (catch_exception e now) as [st b] eqn:Hc. simpl in H400. subst st. unfold catch_exception in Hc.
  destruct e as [st m|m|m|c|m]; [|by injection Hc..| |by injection Hc].
  - injection Hc as -> <-. reflexivity.
  - destruct (decide (c = "23505"%string)); by injection Hc.
Qed.

(** A good answer that is not JSON ends in a [TypeError], not in the [ApiError] of the last
    line: the body has been read. *)
Theorem unparsed_answer_type_error apiBase storage_ok network input init (s : state) e :
  network (length (sent s)) (request_of apiBase input init (token s)) = Ret (mkResponse 200 "OK" (Throw e)) ->
  (apiRequest apiBase storage_ok network input init s).1 = Throw (TypeError "Body is unusable: Body has already been read").
Proof. intros Hn. unfold apiRequest, apiFetch, bind, gets. rewrite Hn. reflexivity. Qed.

(** *** Concrete runs *)

Definition start : state := mkState None None None None (Some "/savings"%string) [] [].
Definition alice : jsval := VObj [("id"%string, VStr "u1")].
Definition plain_get : Init := mkInit false "GET" [] None.
(** The third request is answered 401. *)
Definition expiring (k : nat) (_ : Request) : outcome Response :=
  Ret (mkResponse (if decide (k = 2%nat) then 401 else 200) "" (Ret VNull)).
Definition toy_ops : list op :=
  [SetSession "t1" alice "GA"; Fetch "/a" plain_get; Reload "/savings"; Fetch "/b" plain_get; Fetch "/c" plain_get; Fetch "/d" plain_get].

Lemma session_refines_witness :
  let s := foldl (exec "" expiring) start toy_ops in
  token s = None /\ header "authorization" (headers (nth 1 (sent s) (mkRequest "" "" [] None))) = Some "Bearer t1"%string /\
  header "authorization" (headers (nth 3 (sent s) (mkRequest "" "" [] None))) = None.
Proof.
  destruct (session_refines "" expiring toy_ops start) as [H _]; [by repeat split; eexists|reflexivity|reflexivity|].
  destruct H as (_ & H & _). split; [exact H|]. split; vm_compute; reflexivity.
Defined.

Lemma withdraw_exact_witness :
  exists res shown s', withdraw "" true expiring (fun _ => "k"%string) "GA" (units "2,5") "30000000" start = (Ret (res, shown), s').
Proof.
  destruct (withdraw_exact "" true expiring (fun _ => "k"%string) "GA" (units "2,5") "30000000" 30000000 start)
    as (res & shown & s' & H & _); [vm_compute; reflexivity|]. by exists res, shown, s'.
Defined.

Definition toy_plans : LockedPlans.state :=
  (LockedPlans.upsertCreated (B := MemBackend) "1" "GA" "5" (Some 90) 0
     (LockedPlans.upsertCreated "2" "GA" "6" (Some 40) 0 empty_table).2).2.

Lemma plan_search_fails_witness :
  exists s', fetchPlan "" true (fun _ _ => Ret (answer_of 0 (listLocked (B := MemBackend) "GA" 1 PAGE_SIZE false) toy_plans))
      1 "1" "GA" (mkLoader VNull "" None) start =
    (Ret (Some [mkLoader VNull "loading" None;
                mkLoader VNull "error" (Some "Cannot read properties of undefined (reading 'find')"%string)]), s').
Proof.
  apply (plan_search_fails (B := MemBackend) "" true
    (fun _ _ => Ret (answer_of 0 (listLocked (B := MemBackend) "GA" 1 PAGE_SIZE false) toy_plans))
    "1" "GA" toy_plans (mkLoader VNull "" None) start 1); [|lia].
  intros k current. exists 0. reflexivity.
Defined.


End ApiClient.
