(* ===== verification/Widgets.v ===== *)
(** * State and arithmetic of the savings widgets

    Models the logic of four components of [frontend/src/components]: the ranking and the
    privacy modes of [savings/GroupLeaderboard.tsx], the celebrations of
    [savings/GoalMilestoneCelebration.tsx], the schedules of
    [savings/RecurringDepositScheduler.tsx] with the order of their effects, and the
    editing of [ui/AmountInput.tsx].  The markup they render is not modelled. *)
From Stdlib Require Import ZArith Lia SpecFloat.
From stdpp Require Import base list strings sorting gmap.
From S2P Require Import Prelude JsValue JsText JsNumber JsDate Currency Filtering ClientForms.
Local Open Scope Z_scope.

Module Leaderboard.

Record GroupMember := mkMember { address : string; contributed : string }.

Inductive LeaderboardIdentityMode := full | masked | anonymous.
Inductive LeaderboardAmountMode := amount | percent | hidden.

(** [toBigInt]: a malformed amount counts as zero. *)
Definition toBigInt (value : string) : Z := default 0 (BigInt_of_string value).

Definition maskAddress (a : string) (visibleChars : nat) : string :=
  if (String.length a <=? visibleChars * 2 + 1)%nat then a
  else String.substring 0 visibleChars a +:+ "…" +:+ String.substring (String.length a - visibleChars) visibleChars a.

Section ranking.
(** [a.localeCompare(b) <= 0]. *)
Context (localeLe : string -> string -> bool).

(** The comparison function: larger contributions first, ties by address. *)
Definition before (a b : GroupMember) : bool :=
  let diff := toBigInt (contributed b) - toBigInt (contributed a) in
  if negb (diff =? 0) then diff <? 0 else localeLe (address a) (address b).

(** A stable sort by [before]. *)
Fixpoint insert (m : GroupMember) (l : list GroupMember) : list GroupMember :=
  match l with
  | [] => [m]
  | x :: l' => if before m x then m :: l else x :: insert m l'
  end.
Definition sort (l : list GroupMember) : list GroupMember := foldr insert [] l.

Definition total (members : list GroupMember) : Z := foldl (fun sum m => sum + toBigInt (contributed m)) 0 members.

(** The share of the pool in hundredths of a percent. *)
Definition bps (all : Z) (m : GroupMember) : Z := if 0 <? all then Z.quot (toBigInt (contributed m) * 10000) all else 0.

Record Ranked := mkRanked { member : GroupMember; rank : nat; percent_of : number }.

Definition ranked (members : list GroupMember) : list Ranked :=
  imap (fun index m =>
    mkRanked m (S index) (if 0 <? total members then num_div (num_of_Z (bps (total members) m)) (num_of_Z 100) else num_of_Z 0))
    (sort members).

Definition displayName (mode : LeaderboardIdentityMode) (a : string) (rank : nat) : string :=
  match mode with
  | anonymous => "Member #" +:+ Z_to_string (Z.of_nat rank)
  | masked => maskAddress a 4
  | full => a
  end.

(** A row: the rank, the name, whether it is the viewer's, and the figure shown, which is
    an amount or a percentage. *)
Record row := mkRow { r_rank : nat; r_name : string; r_you : bool; r_figure : option (string + number) }.

Definition shown_row (idm : LeaderboardIdentityMode) (am : LeaderboardAmountMode) (currentAddress : option string) (r : Ranked) : row :=
  mkRow (rank r) (displayName idm (address (member r)) (rank r))
    (match currentAddress with Some c => negb (bool_decide (c = ""%string)) && bool_decide (address (member r) = c) | None => false end)
    (match am with hidden => None | amount => Some (inl (contributed (member r))) | percent => Some (inr (percent_of r)) end).

Definition leaderboard idm am currentAddress members : list row := shown_row idm am currentAddress <$> ranked members.

(** The saved choice: a mode that is not known leaves the default. *)
Definition identity_of (s : string) (d : LeaderboardIdentityMode) : LeaderboardIdentityMode :=
  if decide (s = "full") then full else if decide (s = "masked") then masked
  else if decide (s = "anonymous") then anonymous else d.

(** ** Lemmas *)

Lemma insert_perm m l : insert m l ≡ₚ m :: l.
Proof.
  induction l as [|x l IH]; [done|]. cbn [insert]. destruct (before m x); [done|].
  rewrite IH. apply Permutation_swap.
Qed.
Lemma sort_perm l : sort l ≡ₚ l.
Proof. induction l as [|m l IH]; [done|]. cbn [sort foldr]. fold (sort l). by rewrite insert_perm, IH. Qed.

Definition at_least (a b : GroupMember) : Prop := toBigInt (contributed b) <= toBigInt (contributed a).
Definition ordered (a b : GroupMember) : Prop :=
  toBigInt (contributed b) < toBigInt (contributed a) \/
  (toBigInt (contributed a) = toBigInt (contributed b) /\ localeLe (address a) (address b) = true).

Lemma before_true a b : before a b = true <-> ordered a b.
Proof.
  unfold before, ordered. destruct (Z.eqb_spec (toBigInt (contributed b) - toBigInt (contributed a)) 0) as [He|He]; cbn [negb].
  - split; [intros H; right; split; [lia|done]|intros [H|[_ H]]; [lia|done]].
  - rewrite Z.ltb_lt. split; [intros H; left; lia|intros [H|[H _]]; lia].
Qed.

Lemma sort_sorted (R : GroupMember -> GroupMember -> Prop) l :
  (forall a b c, R a b -> R b c -> R a c) ->
  (forall a b, before a b = true -> R a b) -> (forall a b, before a b = false -> R b a) -> StronglySorted R (sort l).
Proof.
  intros Htrans Hyes Hno. induction l as [|m l IH]; [constructor|]. cbn [sort foldr]. fold (sort l). revert IH.
  generalize (sort l). intros k Hk. induction Hk as [|x k Hk IH Hall]; cbn [insert]; [by repeat constructor|].
  destruct (before m x) eqn:Hb.
  - constructor; [by constructor|]. constructor; [by apply Hyes|].
    eapply Forall_impl; [exact Hall|]. intros y Hy. eapply Htrans; [by apply Hyes|done].
  - constructor; [done|]. rewrite insert_perm. constructor; [by apply Hno|done].
Qed.

Lemma sort_by_contribution l : StronglySorted at_least (sort l).
Proof.
  apply sort_sorted; unfold at_least.
  - lia.
  - intros a b H. apply before_true in H as [H|[H _]]; lia.
  - intros a b H. destruct (Z.le_gt_cases (toBigInt (contributed a)) (toBigInt (contributed b))); [done|].
    assert (before a b = true) by (apply before_true; left; lia). congruence.
Qed.

Lemma total_sumZ l : total l = sumZ ((fun m => toBigInt (contributed m)) <$> l).
Proof.
  unfold total. by rewrite foldl_add_sumZ.
Qed.

Lemma imap_fmap_l {A B C} (f : nat -> A -> B) (g : B -> C) l : imap (fun i x => g (f i x)) l = g <$> imap f l.
Proof. by rewrite fmap_imap. Qed.
Lemma imap_id {A} (l : list A) : imap (fun _ x => x) l = l.
Proof. induction l as [|x l IH]; [done|]. cbn [imap]. f_equal. exact IH. Qed.
Lemma imap_ranks {A} (l : list A) : imap (fun i _ => S i) l = seq 1 (length l).
Proof.
  assert (H : forall k, imap (fun i _ => S (k + i)) l = seq (S k) (length l)); [|exact (H 0%nat)].
  induction l as [|x l IH]; intros k; [done|]. cbn [imap length seq]. f_equal; [lia|].
  rewrite <-(IH (S k)). apply imap_ext. intros i y _. cbn. f_equal. lia.
Qed.

(** An anonymous row as a function of the rank and the contribution. *)
Definition anonymous_row (am : LeaderboardAmountMode) (all : Z) (index : nat) (c : Z) : row :=
  mkRow (S index) ("Member #" +:+ Z_to_string (Z.of_nat (S index))) false
    (match am with
     | percent => Some (inr (if 0 <? all then num_div (num_of_Z (if 0 <? all then Z.quot (c * 10000) all else 0)) (num_of_Z 100) else num_of_Z 0))
     | _ => None
     end).

Lemma anonymous_rows am members : am ≠ amount ->
  leaderboard anonymous am None members =
    imap (anonymous_row am (total members)) ((fun m => toBigInt (contributed m)) <$> sort members).
Proof.
  intros Ham. unfold leaderboard, ranked. rewrite <-imap_fmap_l, imap_fmap. apply imap_ext. intros i m _.
  unfold shown_row, anonymous_row, bps. cbn. by destruct am.
Qed.

Lemma contributions_sorted l : StronglySorted (fun x y => y <= x) ((fun m => toBigInt (contributed m)) <$> sort l).
Proof.
  pose proof (sort_by_contribution l) as H. induction H as [|m k Hk IH Hall]; [constructor|]. cbn [fmap list_fmap].
  constructor; [done|]. by apply Forall_fmap.
Qed.

Lemma bps_sum (members : list GroupMember) :
  Forall (fun m => 0 <= toBigInt (contributed m)) members -> 0 < total members ->
  sumZ (bps (total members) <$> members) <= 10000.
Proof.
  intros Hpos Ht. set (all := total members) in *.
  assert (H : sumZ (bps all <$> members) * all <= sumZ ((fun m => toBigInt (contributed m)) <$> members) * 10000).
  { clear Ht. revert Hpos. generalize all. clear all. intros all Hpos. destruct (Z.ltb_spec 0 all) as [Hall|Hall].
    2: { assert (Hz : bps all <$> members = (fun _ => 0) <$> members).
         { apply list_fmap_ext. intros i m _. unfold bps. by rewrite (proj2 (Z.ltb_ge 0 all)). }
         rewrite Hz. assert (Hs : sumZ ((fun _ : GroupMember => 0) <$> members) = 0) by (clear; induction members; cbn; lia).
         rewrite Hs. assert (0 <= sumZ ((fun m => toBigInt (contributed m)) <$> members)) by (apply sumZ_nonneg, Forall_fmap; done). lia. }
    induction Hpos as [|m l Hm Hl IH]; cbn; [lia|]. unfold bps at 1. rewrite (proj2 (Z.ltb_lt 0 all)) by done.
    pose proof (Z.mul_quot_le (toBigInt (contributed m) * 10000) all ltac:(lia) ltac:(lia)). lia. }
  rewrite <-total_sumZ in H. fold all in H. nia.
Qed.

(** The leaderboard ranks every member exactly once, larger contributions first and
    equal ones by address, with the ranks 1, 2, 3 in that order; the shares it computes,
    cut to hundredths of a percent, never add up to more than the whole. *)
Theorem ranking_correct (members : list GroupMember) :
  (forall a b, localeLe a b = true \/ localeLe b a = true) ->
  (forall a b c, localeLe a b = true -> localeLe b c = true -> localeLe a c = true) ->
  (member <$> ranked members) ≡ₚ members /\ StronglySorted ordered (member <$> ranked members) /\
  rank <$> ranked members = seq 1 (length members) /\
  (Forall (fun m => 0 <= toBigInt (contributed m)) members -> sumZ (bps (total members) <$> members) <= 10000).
Proof.
  intros Htot Htr. assert (Hm : member <$> ranked members = sort members).
  { unfold ranked. rewrite <-imap_fmap_l. apply imap_id. }
  rewrite Hm. split; [apply sort_perm|]. split; [|split].
  - apply sort_sorted; [|apply before_true|].
    + intros a b c [H1|[H1 H1']] [H2|[H2 H2']]; unfold ordered; [left; lia|left; lia|left; lia|right; split; [lia|by eapply Htr]].
    + intros a b Hb. assert (Hn : ~ ordered a b) by (rewrite <-before_true; congruence). unfold ordered in *.
      destruct (Z.lt_trichotomy (toBigInt (contributed a)) (toBigInt (contributed b))) as [H|[H|H]]; [by left| |exfalso; apply Hn; left; lia].
      destruct (Htot (address a) (address b)); [exfalso; apply Hn; by right|right; split; [lia|done]].
  - unfold ranked. rewrite <-imap_fmap_l. rewrite <-(Permutation_length (sort_perm members)). apply imap_ranks.
  - intros Hpos. destruct (Z.ltb_spec 0 (total members)); [by apply bps_sum|].
    assert (Hz : sumZ (bps (total members) <$> members) = 0); [|lia].
    unfold bps. rewrite (proj2 (Z.ltb_ge 0 (total members))) by done. clear. induction members; cbn; lia.
Qed.

(** In the anonymous mode a row tells nothing of an address: two groups whose members
    contributed the same amounts, whoever they are and in whatever order they are listed,
    are shown as the same rows. *)
Theorem anonymous_reveals_nothing (am : LeaderboardAmountMode) (members others : list GroupMember) :
  am ≠ amount ->
  ((fun m => toBigInt (contributed m)) <$> members) ≡ₚ ((fun m => toBigInt (contributed m)) <$> others) ->
  leaderboard anonymous am None members = leaderboard anonymous am None others.
Proof.
  intros Ham Hp. assert (Ht : total members = total others) by (by rewrite !total_sumZ, Hp).
  rewrite !anonymous_rows by done. rewrite Ht. f_equal.
  assert (AntiSymm (=) (fun x y : Z => y <= x)) by (intros x y; lia).
  apply (StronglySorted_unique (fun x y => y <= x)); [apply contributions_sorted..|].
  etrans; [apply fmap_Permutation, sort_perm|]. rewrite Hp. symmetry. apply fmap_Permutation, sort_perm.
Qed.
End ranking.

Lemma ranking_correct_witness :
  rank <$> ranked (fun _ _ => true) [mkMember "G2" "5"; mkMember "G1" "9"] = [1; 2]%nat.
Proof.
  apply (ranking_correct (fun _ _ => true) [mkMember "G2" "5"; mkMember "G1" "9"]).
  - by left.
  - done.
Defined.

Lemma anonymous_reveals_nothing_witness :
  leaderboard (fun _ _ => true) anonymous percent None [mkMember "G1" "5"; mkMember "G2" "9"] =
  leaderboard (fun _ _ => true) anonymous percent None [mkMember "GX" "9"; mkMember "GY" "5"].
Proof. apply (anonymous_reveals_nothing (fun _ _ => true) percent); [discriminate|]. apply Permutation_swap. Defined.
End Leaderboard.

Module Milestones.

Definition MILESTONES : list Z := [100; 75; 50; 25].

(** [celebrated]: the keys of the local storage that are set; [milestone] is the one shown. *)
Record state := mkState { celebrated : list string; milestone : option Z }.

Definition storageKey (goalId : string) (m : Z) : string := "stow-goal-milestone:" +:+ goalId +:+ ":" +:+ Z_to_string m.

Definition reachedMilestone (percentage : number) : option Z := List.find (fun v => num_leb (num_of_Z v) percentage) MILESTONES.

(** The effect of a render with a goal and its percentage; the second part is the
    milestone that is celebrated now. *)
Definition effect (storage_ok : bool) (goalId : string) (percentage : number) (s : state) : state * option Z :=
  match reachedMilestone percentage with
  | None => (s, None)
  | Some m =>
      if storage_ok then
        if bool_decide (storageKey goalId m ∈ celebrated s) then (s, None)
        else (mkState (storageKey goalId m :: celebrated s) (Some m), Some m)
      else (mkState (celebrated s) (Some m), Some m)
  end.

(** The keys celebrated over a run of renders, the latest first. *)
Definition render (x : state * list string) (r : string * number) : state * list string :=
  let '(s', c) := effect true r.1 r.2 x.1 in
  (s', match c with Some m => storageKey r.1 m :: x.2 | None => x.2 end).

Lemma render_once rs : forall x, NoDup x.2 -> (forall k, k ∈ x.2 -> k ∈ celebrated x.1) ->
  NoDup (foldl render x rs).2 /\ (forall k, k ∈ (foldl render x rs).2 -> k ∈ celebrated (foldl render x rs).1).
Proof.
  induction rs as [|[g p] rs IH]; intros [s l] Hnd Hin; [done|]. cbn [foldl]. apply IH; unfold render, effect; cbn [fst snd] in *;
    (destruct (reachedMilestone p) as [m|]; [|done]); (destruct (bool_decide_reflect (storageKey g m ∈ celebrated s)) as [|Hn]; [done|]); cbn.
  - constructor; [intros Hk; by apply Hn, Hin|done].
  - intros k Hk. apply elem_of_cons in Hk as [->|Hk]; [left|right; by apply Hin].
Qed.

(** However often a goal is shown and however its percentage moves, each milestone of
    each goal is celebrated at most once, and what is celebrated is the highest milestone
    the percentage has reached. *)
Theorem celebrated_once (rs : list (string * number)) (s : state) (g : string) (p : number) :
  NoDup (foldl render (s, []) rs).2 /\
  forall ok, (effect ok g p s).2 ≠ None -> (effect ok g p s).2 = reachedMilestone p.
Proof.
  split.
  - apply render_once; [constructor|]. intros k Hk. by apply elem_of_nil in Hk.
  - intros ok. unfold effect. destruct (reachedMilestone p) as [m|]; [|done].
    destruct ok; [|done]. by destruct (bool_decide _).
Qed.

Lemma celebrated_once_witness :
  NoDup (foldl render (mkState [] None, []) [("g"%string, num_of_Z 30); ("g"%string, num_of_Z 30)]).2 /\
  (effect true "g" (num_of_Z 30) (mkState [] None)).2 = Some 25.
Proof.
  destruct (celebrated_once [("g"%string, num_of_Z 30); ("g"%string, num_of_Z 30)] (mkState [] None) "g" (num_of_Z 30)) as [H1 H2].
  split; [exact H1|]. rewrite H2; [reflexivity|]. vm_compute. discriminate.
Defined.

(** A goal that has celebrated 75% and falls back to 60% celebrates 50% as if it had just
    been reached. *)
Theorem falling_back_celebrates :
  (foldl render (mkState [] None, []) [("g"%string, num_of_Z 80); ("g"%string, num_of_Z 60)]).2 =
    [storageKey "g" 50; storageKey "g" 75].
Proof. vm_compute. reflexivity. Qed.
End Milestones.

Module Scheduler.
Import ClientForms.

Record RecurringDepositSchedule := mkSchedule { id : string; amount : string; frequency : string; nextDate : string }.

Definition storageKey (account : string) : string := "stow-recurring-deposits:" +:+ account.

(** [frequency in FREQUENCY_LABELS]: a label or a property every object inherits. *)
Definition known_frequency (f : string) : bool := bool_decide (f ∈ ["weekly"; "biweekly"; "monthly"]%string ++ Filtering.inherited).

Definition to_json (x : RecurringDepositSchedule) : jsval :=
  VObj [("id"%string, VStr (id x)); ("amount"%string, VStr (amount x)); ("frequency"%string, VStr (frequency x)); ("nextDate"%string, VStr (nextDate x))].

Definition valid (v : jsval) : option RecurringDepositSchedule :=
  match v with
  | VObj r =>
      match r.["id"], r.["amount"], r.["nextDate"], r.["frequency"] with
      | VStr i, VStr a, VStr d, VStr f => if known_frequency f then Some (mkSchedule i a f d) else None
      | _, _, _, _ => None
      end
  | _ => None
  end.

(** The items of the local storage, as the values of their JSON texts. *)
Abbreviation storage := (gmap string jsval).

Definition readSchedules (account : string) (st : storage) : list RecurringDepositSchedule :=
  match st !! storageKey account with Some (VArr l) => omap valid l | _ => [] end.

(** The mounted component: the account it is given and its state. *)
Record state := mkState { account : string; schedules : list RecurringDepositSchedule; storageReady : bool; items : storage }.

(** The effect that writes. *)
Definition write_effect (s : state) : state :=
  if storageReady s then mkState (account s) (schedules s) true (<[storageKey (account s) := VArr (to_json <$> schedules s)]> (items s)) else s.

(** A change of state is rendered and the writing effect runs. *)
Definition update (f : list RecurringDepositSchedule -> list RecurringDepositSchedule) (s : state) : state :=
  write_effect (mkState (account s) (f (schedules s)) (storageReady s) (items s)).

(** A render with another account: both effects run with the schedules still shown, the
    first one having read those of the new account; then these are rendered. *)
Definition switch_account (a : string) (s : state) : state :=
  let read := readSchedules a (items s) in
  let s' := write_effect (mkState a (schedules s) (storageReady s) (items s)) in
  write_effect (mkState a read true (items s')).

(** The first render: nothing is ready, so the writing effect waits for the next one. *)
Definition mount (a : string) (st : storage) : state := switch_account a (mkState a [] false st).

(** [saveSchedule]: [editingId] and the fields of the form. *)
Definition saveSchedule (editingId : option string) (fresh typed freq date : string) (s : state) : state * option DepositAmountError :=
  match validateDepositAmount (units typed) with
  | Some e => (s, Some e)
  | None =>
      match editingId with
      | Some (String _ _ as i) =>
          (update (fun current => (fun item => if bool_decide (id item = i) then mkSchedule i (trim typed) freq date else item) <$> current) s, None)
      | _ => (update (fun current => current ++ [mkSchedule (default fresh editingId) (trim typed) freq date]) s, None)
      end
  end.

Definition cancelSchedule (i : string) : state -> state :=
  update (List.filter (fun item => negb (bool_decide (id item = i)))).

(** ** One book of schedules per account *)

Definition book : Type := string -> list RecurringDepositSchedule.
Inductive op := SwitchTo (a : string) | Save (editingId : option string) (fresh typed freq date : string) | Cancel (i : string).

Definition exec (s : state) (o : op) : state :=
  match o with
  | SwitchTo a => switch_account a s
  | Save e fresh typed freq date => (saveSchedule e fresh typed freq date s).1
  | Cancel i => cancelSchedule i s
  end.

(** The list a save or a cancellation makes of the list of the account. *)
Definition edited (o : op) (l : list RecurringDepositSchedule) : list RecurringDepositSchedule :=
  match o with
  | SwitchTo _ => l
  | Save e fresh typed freq date =>
      match validateDepositAmount (units typed), e with
      | Some _, _ => l
      | None, Some (String _ _ as i) => (fun item => if bool_decide (id item = i) then mkSchedule i (trim typed) freq date else item) <$> l
      | None, _ => l ++ [mkSchedule (default fresh e) (trim typed) freq date]
      end
  | Cancel i => List.filter (fun item => negb (bool_decide (id item = i))) l
  end.

(** The contract: the account shown and the book; only the account shown is edited. *)
Definition spec (x : string * book) (o : op) : string * book :=
  match o with
  | SwitchTo a => (a, x.2)
  | _ => (x.1, fun b => if decide (b = x.1) then edited o (x.2 b) else x.2 b)
  end.

Definition wf_op (o : op) : bool := match o with Save _ _ _ f _ => known_frequency f | _ => true end.

Definition represents (x : string * book) (s : state) : Prop :=
  account s = x.1 /\ storageReady s = true /\ schedules s = x.2 x.1 /\
  (forall b, readSchedules b (items s) = x.2 b) /\ Forall (fun i => known_frequency (frequency i) = true) (schedules s).

Lemma storageKey_inj a b : storageKey a = storageKey b -> a = b.
Proof. intros H. by apply String_app_inj in H as [_ H]. Qed.

Lemma valid_to_json l : Forall (fun i => known_frequency (frequency i) = true) l -> omap valid (to_json <$> l) = l.
Proof.
  induction 1 as [|[i a f d] l Hf Hl IH]; [done|]. cbn [fmap list_fmap omap list_omap].
  change (valid (to_json (mkSchedule i a f d))) with (if known_frequency f then Some (mkSchedule i a f d) else None).
  cbn in Hf. rewrite Hf. by f_equal.
Qed.

Lemma read_write a b l st : Forall (fun i => known_frequency (frequency i) = true) l ->
  readSchedules b (<[storageKey a := VArr (to_json <$> l)]> st) = if decide (a = b) then l else readSchedules b st.
Proof.
  intros Hl. unfold readSchedules. destruct (decide (a = b)) as [->|Hne].
  - rewrite lookup_insert_eq. by apply valid_to_json.
  - rewrite lookup_insert_ne; [done|]. intros H. by apply storageKey_inj in H.
Qed.

Lemma read_known a st : Forall (fun i => known_frequency (frequency i) = true) (readSchedules a st).
Proof.
  unfold readSchedules. destruct (st !! storageKey a) as [[]|]; try constructor. apply Forall_forall. intros x Hx.
  apply list_elem_of_omap in Hx as (v & _ & Hv). destruct v as [| | | | | | |r]; try done. cbn in Hv.
  destruct (r.["id"]); try done. destruct (r.["amount"]); try done. destruct (r.["nextDate"]); try done.
  destruct (r.["frequency"]); try done.
  destruct (known_frequency s2) eqn:Hk; [|done]. by injection Hv as <-.
Qed.

Lemma edited_known o l : wf_op o = true -> Forall (fun i => known_frequency (frequency i) = true) l ->
  Forall (fun i => known_frequency (frequency i) = true) (edited o l).
Proof.
  intros Ho Hl. destruct o as [a|e fresh typed freq date|i]; cbn [edited]; [done| |].
  - assert (Hnew : Forall (fun i => known_frequency (frequency i) = true) (l ++ [mkSchedule (default fresh e) (trim typed) freq date]))
      by (apply Forall_app; by repeat constructor).
    destruct (validateDepositAmount _); [done|]. destruct e as [[|c i]|]; [done| |done].
    apply Forall_fmap. eapply Forall_impl; [exact Hl|]. intros x Hx. cbn. by destruct (bool_decide _).
  - apply Forall_forall. intros x Hx. apply elem_of_List_filter in Hx as [Hx _]. rewrite Forall_forall in Hl. by apply Hl.
Qed.

Lemma exec_edit o s : storageReady s = true -> match o with SwitchTo _ => False | _ => True end ->
  exec s o = update (edited o) s \/ (exec s o = s /\ forall l, edited o l = l).
Proof.
  intros Hr. destruct o as [a|e fresh typed freq date|i]; [done| |by left]. intros _. cbn [exec edited]. unfold saveSchedule.
  destruct (validateDepositAmount (units typed)) eqn:Hv; [by right|]. left. unfold update. cbn [edited]. rewrite Hv.
  by destruct e as [[|c i]|].
Qed.

Lemma exec_schedules x s o : represents x s -> wf_op o = true -> represents (spec x o) (exec s o).
Proof.
  intros (Ha & Hr & Hs & Hb & Hk) Ho. destruct x as [cur bk]. cbn [fst snd] in *.
  assert (Hedit : match o with SwitchTo _ => False | _ => True end ->
      represents (cur, fun b => if decide (b = cur) then edited o (bk b) else bk b) (exec s o)).
  { intros Hne. destruct (exec_edit o s Hr Hne) as [-> |[-> Hid]].
    - unfold update, write_effect. cbn [storageReady account schedules items]. rewrite Hr, Ha, Hs.
      assert (Hke : Forall (fun i => known_frequency (frequency i) = true) (edited o (bk cur))) by (apply edited_known; [done|by rewrite <-Hs]).
      split_and!; cbn [account storageReady schedules items fst snd]; [done|done|by rewrite decide_True| |done].
      intros b. rewrite read_write by done. destruct (decide (cur = b)) as [->|Hn]; [by rewrite decide_True|by rewrite decide_False, Hb].
    - split_and!; cbn [fst snd]; [done|done|by rewrite decide_True, Hid| |done].
      intros b. rewrite Hb. destruct (decide (b = cur)); [by rewrite Hid|done]. }
  destruct o as [a|e fresh typed freq date|i]; [|by apply Hedit..]. cbn [exec spec fst snd].
  unfold switch_account, write_effect. cbn [storageReady account schedules items]. rewrite Hr.
  split_and!; cbn [account storageReady schedules items fst snd]; [done|done|apply Hb| |apply read_known].
  intros b. rewrite read_write by apply read_known. destruct (decide (a = b)) as [->|Hn]; [apply Hb|].
  rewrite read_write by done. by rewrite decide_False.
Qed.

(** Whatever schedules are saved, edited and cancelled and however the account is
    switched, the local storage keeps one list per account: an edit changes the list of
    the account shown only, a switch changes none, although it first writes the list still
    shown under the new account. *)
Theorem schedules_per_account (ops : list op) (x : string * book) (s : state) :
  represents x s -> forallb wf_op ops = true -> represents (foldl spec x ops) (foldl exec s ops).
Proof.
  revert x s. induction ops as [|o ops IH]; intros x s Hx Hops; [done|]. cbn [forallb] in Hops.
  apply andb_true_iff in Hops as [Ho Hops]. cbn [foldl]. apply IH; [by apply exec_schedules|done].
Qed.

(** Mounting shows what is stored. *)
Lemma mount_represents a st : represents (a, fun b => readSchedules b st) (mount a st).
Proof.
  unfold mount, switch_account, write_effect. cbn [storageReady items account schedules].
  split_and!; cbn [account storageReady schedules items fst snd]; [done|done|done| |apply read_known].
  intros b. rewrite read_write by apply read_known. by destruct (decide (a = b)) as [->|].
Qed.

Definition toy_ops : list op :=
  [Save None "s1" "25" "weekly" "2026-01-05"; SwitchTo "GB"; Save None "s2" "7.5" "monthly" "2026-02-01"; SwitchTo "GA"].

Lemma schedules_per_account_witness :
  schedules (foldl exec (mount "GA" ∅) toy_ops) = [mkSchedule "s1" "25" "weekly" "2026-01-05"].
Proof.
  destruct (schedules_per_account toy_ops ("GA"%string, fun b => readSchedules b ∅) (mount "GA" ∅)) as (_ & _ & H & _).
  - apply mount_represents.
  - vm_compute. reflexivity.
  - rewrite H. vm_compute. reflexivity.
Defined.

(** Saving the edit of a schedule that has been cancelled while the form was open drops
    what was typed without an error. *)
Theorem cancelled_edit_dropped i typed freq date s :
  validateDepositAmount (units typed) = None -> i ≠ ""%string ->
  let s' := saveSchedule (Some i) "" typed freq date (cancelSchedule i s) in
  schedules s'.1 = schedules (cancelSchedule i s) /\ s'.2 = None.
Proof.
  intros Hv Hi. unfold saveSchedule. rewrite Hv. destruct i as [|c i]; [done|]. cbn [fst snd]. split; [|done].
  assert (Hsch : forall f s, schedules (update f s) = f (schedules s)) by (intros f [a l [] it]; done).
  rewrite Hsch. unfold cancelSchedule. rewrite Hsch.
  induction (schedules s) as [|x l IH]; [done|]. cbn [List.filter]. destruct (bool_decide (id x = String c i)) eqn:Hx; cbn [negb]; [done|].
  cbn [fmap list_fmap]. rewrite Hx. by f_equal.
Qed.
End Scheduler.

Module AmountInput.
Import Currency.

Section input.
Context (I : Intl) (locale : option string) (min max : option Z).

Definition stroopsFor (u : text) : option Z :=
  match validateUsdcAmount I u locale min max with inl n => Some n | inr _ => None end.

(** [u.split(mark)], at most [fuel] times. *)
Fixpoint split_text (fuel : nat) (mark u : text) : list text :=
  match fuel, index_of mark u with
  | S fuel', Some i => take i u :: split_text fuel' mark (drop (i + length mark) u)
  | _, _ => [u]
  end.

(** What is reported to the parent: the text and its stroops; [None] when the edit is not
    accepted. *)
Definition handleChange (next : text) : option (text * option Z) :=
  let seps := getLocaleSeparators I locale in
  if forallb (fun c => is_dec c || is_blank c || bool_decide ([c] = group seps) || bool_decide ([c] = decimal seps)) next then
    match split_text (length next) (decimal seps) next with
    | [_] => Some (next, stroopsFor next)
    | [_; fraction] => if (Z.to_nat USDC_DECIMALS <? length fraction)%nat then None else Some (next, stroopsFor next)
    | _ => None
    end
  else None.

Definition normal_form (n : Z) : text := formatUsdc I (inr n) (mkUsdcOptions locale None (Some (num_of_Z 0)) true false).

Definition handleBlur (value : text) : option (text * option Z) :=
  match parseUsdc I value locale with
  | inr _ => None
  | inl n => let normalized := normal_form n in if decide (normalized = value) then None else Some (normalized, stroopsFor normalized)
  end.

Definition handleMax : option (text * option Z) :=
  match max with None => None | Some m => let formatted := normal_form m in Some (formatted, stroopsFor formatted) end.

Lemma normal_form_parses g d n : Latin (format_for I locale) g d -> 0 <= n -> parseUsdc I (normal_form n) locale = inl n.
Proof.
  intros HL Hn. unfold normal_form.
  pose proof (format_parses I (mkUsdcOptions locale None (Some (num_of_Z 0)) true false) g d n HL Hn) as H.
  cbn [u_locale u_maximumFractionDigits] in H. rewrite H. f_equal. change (10 ^ _) with 1. rewrite Z.mod_1_r. lia.
Qed.

(** Leaving the field rewrites what was typed without changing the amount that is
    reported, and the button for the maximum reports exactly the maximum. *)
Theorem amount_input_faithful g d :
  Latin (format_for I locale) g d ->
  (forall value u reported, handleBlur value = Some (u, reported) -> reported = stroopsFor value) /\
  (forall m, max = Some m -> 0 <= m -> default 1 min <= m -> exists u, handleMax = Some (u, Some m)).
Proof.
  intros HL. split.
  - intros value u reported. unfold handleBlur. destruct (parseUsdc I value locale) as [n|e] eqn:Hp; [|done].
    assert (Hn : 0 <= n) by by eapply parseUsdc_nonneg. destruct (decide _); [done|]. intros [= <- <-].
    unfold stroopsFor, validateUsdcAmount. by rewrite (normal_form_parses g d n HL Hn), Hp.
  - intros m Hm Hpos Hmin. unfold handleMax. rewrite Hm. exists (normal_form m). do 2 f_equal.
    unfold stroopsFor, validateUsdcAmount. rewrite (normal_form_parses g d m HL Hpos).
    rewrite (proj2 (Z.ltb_ge m (default 1 min))) by done. rewrite Hm, (proj2 (Z.ltb_ge m m)) by lia. done.
Qed.
End input.

Lemma amount_input_faithful_witness :
  handleMax US None None (Some 12345000000) = Some (units "1,234.5", Some 12345000000).
Proof.
  destruct (amount_input_faithful US None None (Some 12345000000) 44 46) as [_ H]; [exact en_US_latin|].
  destruct (H 12345000000) as [u Hu]; [reflexivity|lia|simpl; lia|]. vm_compute in Hu. injection Hu as <-. vm_compute. reflexivity.
Defined.
End AmountInput.
