(* ===== verification/Catalog.v ===== *)
(** * The database catalogue and the statements of the migrations

    The migrations of [backend/src/migrations/] are sequences of calls on TypeORM's query
    runner: its schema methods ([createTable], [addColumn], ...) and SQL text ([query]).
    A statement is a value of [stmt]; [exec] is its documented effect on the catalogue of
    PostgreSQL, as a partial function: tables with their columns and constraints, indexes
    (which share the names of tables), enum types.

    The database itself is not part of the repository: it is the parameter [Postgres], of
    which only the laws [query_sound] and [query_blank] are used.  A statement that succeeds
    has the effect of [exec]; on a database without rows a statement that [exec] allows and
    that inserts none succeeds (rows can make it fail, by a null or a duplicate). *)
From Stdlib Require Import ZArith Lia.
From stdpp Require Import base list strings sets gmap countable.
From S2P Require Import Prelude.

Module Catalog.

(** The name of a constraint or an index: given, or generated by TypeORM (a digest of the
    table and the columns, which no given name is) or by PostgreSQL. *)
Inductive name :=
| Named (s : string)
| Generated (kind t : string) (cols : list string).

#[export] Instance name_eq_dec : EqDecision name.
Proof. solve_decision. Defined.

#[export] Instance name_countable : Countable name.
Proof.
  refine (inj_countable'
    (fun n => match n with Named s => inl s | Generated k t c => inr (k, t, c) end)
    (fun x => match x with inl s => Named s | inr (k, t, c) => Generated k t c end) _).
  by intros [].
Defined.

(** What a column is declared with, in the words of the migration. *)
Inductive attr :=
| isPrimary
| isUnique
| notNull
| isNullable
| isArray
| isGenerated
| dflt (text : string)
| len (n : Z)
| precision (n : Z)
| scale (n : Z)
| generationStrategy (s : string)
| onUpdate (s : string)
| enum (values : list string)
(** a type the schema defines, written quoted *)
| userType
(** [GENERATED ALWAYS AS (...) STORED], with the columns it reads *)
| generatedAs (reads : list string).

#[export] Instance attr_eq_dec : EqDecision attr.
Proof. solve_decision. Defined.

Record column := col { c_name : string; c_type : string; c_attrs : list attr }.

Definition has_attr (a : attr) (c : column) : bool := bool_decide (a ∈ c_attrs c).

Definition enum_of (c : column) : option (list string) :=
  head (omap (fun a => match a with enum vs => Some vs | _ => None end) (c_attrs c)).

Inductive con :=
| PRIMARY_KEY (cols : list string)
| UNIQUE (cols : list string)
| FOREIGN_KEY (cols : list string) (ref : string) (ref_cols : list string) (onDelete : string).

Definition con_cols (c : con) : list string :=
  match c with PRIMARY_KEY l | UNIQUE l | FOREIGN_KEY l _ _ _ => l end.

Definition refers_to (t : string) (c : con) : bool :=
  match c with FOREIGN_KEY _ r _ _ => bool_decide (r = t) | _ => false end.

(** An index; [i_owned] when it implements a constraint, which alone can drop it. *)
Record index := ix { i_table : string; i_cols : list string; i_unique : bool; i_where : string; i_owned : bool }.

Record table := mkTable { t_cols : gmap string column; t_cons : gmap name con }.

Record schema := mkSchema {
  tables : gmap string table;
  indexes : gmap name index;
  types : gmap string (list string);
}.

Definition empty_schema : schema := mkSchema ∅ ∅ ∅.

Definition set_tables f s := mkSchema (f (tables s)) (indexes s) (types s).
Definition set_indexes f s := mkSchema (tables s) (f (indexes s)) (types s).
Definition set_types f s := mkSchema (tables s) (indexes s) (f (types s)).

(** *** What the catalogue is asked *)

(** Tables and indexes share one space of names. *)
Definition is_free (n : name) (s : schema) : bool :=
  bool_decide (indexes s !! n = None) &&
  match n with Named t => bool_decide (tables s !! t = None) | Generated _ _ _ => true end.

Definition has_cols (t : string) (cols : list string) (s : schema) : bool :=
  match tables s !! t with
  | Some T => forallb (fun c => bool_decide (is_Some (t_cols T !! c))) cols
  | None => false
  end.

(** The columns a foreign key may refer to: those of a primary key or a unique index. *)
Definition unique_on (t : string) (cols : list string) (s : schema) : bool :=
  existsb (fun p : name * index => bool_decide (i_table p.2 = t) && i_unique p.2 && bool_decide (i_cols p.2 = cols)
             && bool_decide (i_where p.2 = ""%string))
    (map_to_list (indexes s)).

(** Another table has a foreign key to columns of [t] that satisfy [p]. *)
Definition referenced (t : string) (p : list string -> bool) (s : schema) : bool :=
  existsb (fun r : string * table =>
      negb (bool_decide (r.1 = t)) &&
      existsb (fun q : name * con =>
          match q.2 with FOREIGN_KEY _ r rc _ => bool_decide (r = t) && p rc | _ => false end)
        (map_to_list (t_cons r.2)))
    (map_to_list (tables s)).

Definition any (_ : list string) : bool := true.
Definition among (c : string) (l : list string) : bool := bool_decide (c ∈ l).

Definition type_used (n : string) (s : schema) : bool :=
  existsb (fun p : string * table =>
      existsb (fun q : string * column => bool_decide (c_type q.2 = n)) (map_to_list (t_cols p.2)))
    (map_to_list (tables s)).

(** *** Changes *)

Definition guard_ (b : bool) (s : option schema) : option schema := if b then s else None.

Definition on_table (t : string) (f : table -> table) (s : schema) : option schema :=
  match tables s !! t with
  | Some T => Some (set_tables (fun ts => <[t := f T]> ts) s)
  | None => None
  end.

Definition put_index (n : name) (i : index) (s : schema) : option schema :=
  guard_ (is_free n s && has_cols (i_table i) (i_cols i) s) (Some (set_indexes (fun m => <[n := i]> m) s)).

Definition put_con (t : string) (n : name) (c : con) (s : schema) : option schema :=
  guard_ (has_cols t (con_cols c) s &&
          match tables s !! t with Some T => bool_decide (t_cons T !! n = None) | None => false end)
    (let owned l := match put_index n (ix t l true "" true) s with
                    | Some s' => on_table t (fun T => mkTable (t_cols T) (<[n := c]> (t_cons T))) s'
                    | None => None
                    end in
     match c with
     | PRIMARY_KEY l | UNIQUE l => owned l
     | FOREIGN_KEY _ r rc _ =>
         guard_ (has_cols r rc s && unique_on r rc s)
           (on_table t (fun T => mkTable (t_cols T) (<[n := c]> (t_cons T))) s)
     end).

Definition put_column (t : string) (c : column) (s : schema) : option schema :=
  guard_ (negb (has_cols t [c_name c] s) &&
          (negb (has_attr userType c) || bool_decide (is_Some (types s !! c_type c))))
    (on_table t (fun T => mkTable (<[c_name c := c]> (t_cols T)) (t_cons T)) s).

(** Dropping a column drops the indexes and constraints of its table that involve it. *)
Definition cut_column (t c : string) (s : schema) : option schema :=
  guard_ (has_cols t [c] s && negb (referenced t (among c) s))
    (match on_table t (fun T => mkTable (delete c (t_cols T)) (filter (fun p => c ∉ con_cols p.2) (t_cons T))) s with
     | Some s' => Some (set_indexes (filter (fun p : name * index => i_table p.2 ≠ t \/ c ∉ i_cols p.2)) s')
     | None => None
     end).

Definition cut_con (t : string) (n : name) (s : schema) : option schema :=
  match tables s !! t with
  | Some T =>
      match t_cons T !! n with
      | Some c =>
          let cut s := on_table t (fun T => mkTable (t_cols T) (delete n (t_cons T))) s in
          match c with
          | FOREIGN_KEY _ _ _ _ => cut s
          | PRIMARY_KEY l | UNIQUE l =>
              guard_ (negb (referenced t (fun rc => bool_decide (rc = l)) s)) (cut (set_indexes (delete n) s))
          end
      | None => None
      end
  | None => None
  end.

Definition cut_index (n : name) (s : schema) : option schema :=
  match indexes s !! n with
  | Some i =>
      guard_ (negb (i_owned i) &&
              negb (i_unique i && referenced (i_table i) (fun rc => bool_decide (rc = i_cols i)) s))
        (Some (set_indexes (delete n) s))
  | None => None
  end.

(** The table, its constraints and its indexes. *)
Definition cut_table (t : string) (s : schema) : schema :=
  set_tables (delete t) (set_indexes (filter (fun p : name * index => i_table p.2 ≠ t)) s).

(** The foreign keys of other tables to [t], which [CASCADE] drops. *)
Definition cut_references (t : string) (s : schema) : schema :=
  set_tables (fun ts => (fun T => mkTable (t_cols T) (filter (fun p => refers_to t p.2 = false) (t_cons T))) <$> ts) s.

(** The columns of a type, with what involves them, which [CASCADE] drops with the type. *)
Definition cut_typed (n : string) (s : schema) : schema :=
  let typed T := (filter (fun p : string * column => c_type p.2 = n) (map_to_list (t_cols T))).*1 in
  let hit t l := match tables s !! t with Some T => existsb (fun c => bool_decide (c ∈ typed T)) l | None => false end in
  mkSchema
    ((fun T => mkTable (filter (fun p => c_type p.2 ≠ n) (t_cols T))
                 (filter (fun p => existsb (fun c => bool_decide (c ∈ typed T)) (con_cols p.2) = false) (t_cons T))) <$> tables s)
    (filter (fun p : name * index => hit (i_table p.2) (i_cols p.2) = false) (indexes s))
    (types s).

Fixpoint all {A} (f : A -> schema -> option schema) (l : list A) (s : schema) : option schema :=
  match l with
  | [] => Some s
  | x :: l' => match f x s with Some s' => all f l' s' | None => None end
  end.

(** *** Statements *)

Record table_def := Table {
  td_name : string;
  td_columns : list column;
  td_foreignKeys : list (name * con);
  td_indices : list (name * index);
}.

Inductive stmt :=
(** Methods of the query runner. *)
| createTable (d : table_def) (ifNotExist : bool)
| dropTable (t : string) (ifExist : bool)
| addColumn (t : string) (c : column)
| changeColumn (t c : string) (d : column)
| dropColumn (t c : string)
| createIndex (n : name) (i : index)
| dropIndex (t : string) (n : name)
| createForeignKey (t : string) (n : name) (c : con)
| dropForeignKey (t : string) (n : name)
(** the foreign key of a table on a column, when it is found, dropped *)
| dropForeignKeyOf (t c : string)
(** SQL. *)
| CREATE_TABLE (t : string) (cols : list column) (cons : list (name * con))
| DROP_TABLE (if_exists cascade : bool) (t : string)
| ADD_COLUMN (if_not_exists : bool) (t : string) (c : column)
| DROP_COLUMN (if_exists : bool) (t c : string)
| SET_NOT_NULL (t c : string)
| SET_DEFAULT (t c d : string)
| ADD_CONSTRAINT (t : string) (n : name) (c : con)
| DROP_CONSTRAINT (t : string) (n : name)
| CREATE_INDEX (if_not_exists : bool) (n : name) (i : index)
| DROP_INDEX (if_exists : bool) (n : name)
| CREATE_TYPE (n : string) (values : list string)
| DROP_TYPE (if_exists cascade : bool) (n : string)
| CREATE_EXTENSION (n : string)
(** rows: [INSERT], and [UPDATE] or [DELETE], with the columns they name *)
| INSERT (t : string) (cols : list string)
| UPDATE_DELETE (t : string) (cols : list string).

(** TypeORM: a column is [NOT NULL] unless it says otherwise, and a column of type [enum]
    has the type named after its table and itself. *)
Definition orm_column (t : string) (c : column) : column :=
  let attrs := List.filter (fun a => negb (bool_decide (a = isNullable)) && negb (bool_decide (a = notNull))) (c_attrs c) in
  col (c_name c)
    (match enum_of c with Some _ => t +:+ "_" +:+ c_name c +:+ "_enum" | None => c_type c end)
    (if has_attr isNullable c then attrs else notNull :: attrs).

(** The enum types of the columns that are not there yet. *)
Definition enum_types (t : string) (cols : list column) (s : schema) : schema :=
  foldl (fun s c =>
      match enum_of c with
      | Some vs =>
          let n := t +:+ "_" +:+ c_name c +:+ "_enum" in
          match types s !! n with Some _ => s | None => set_types (<[n := vs]>) s end
      | None => s
      end) s cols.

(** The constraints that columns are declared with. *)
Definition column_cons (pk uq : string -> list string -> name) (t : string) (cols : list column) : list (name * con) :=
  let primary := c_name <$> List.filter (has_attr isPrimary) cols in
  (if bool_decide (primary = []) then [] else [(pk t primary, PRIMARY_KEY primary)]) ++
  ((fun c => (uq t [c_name c], UNIQUE [c_name c])) <$> List.filter (has_attr isUnique) cols).

Definition orm_cons : string -> list column -> list (name * con) := column_cons (Generated "PK") (Generated "UQ").
Definition sql_cons : string -> list column -> list (name * con) := column_cons (Generated "pkey") (Generated "key").

(** A table of its columns alone. *)
Definition new_table (t : string) (cols : list column) (s : schema) : option schema :=
  guard_ (is_free (Named t) s && bool_decide (NoDup (c_name <$> cols)) &&
          forallb (fun c => negb (has_attr userType c) || bool_decide (is_Some (types s !! c_type c))) cols)
    (Some (set_tables (fun ts => <[t := mkTable (list_to_map ((fun c => (c_name c, c)) <$> cols)) ∅]> ts) s)).

Definition build_table (t : string) (cols : list column) (cons : list (name * con)) (s : schema) : option schema :=
  match new_table t cols s with
  | Some s' => all (fun p => put_con t p.1 p.2) cons s'
  | None => None
  end.

Definition has_table (t : string) (s : schema) : bool := bool_decide (is_Some (tables s !! t)).

(** The first foreign key of [t] on a column [c]. *)
Definition foreign_key_on (t c : string) (s : schema) : option name :=
  match tables s !! t with
  | Some T =>
      head (omap (fun q : name * con => match q.2 with
                                        | FOREIGN_KEY l _ _ _ => if bool_decide (c ∈ l) then Some q.1 else None
                                        | _ => None
                                        end) (map_to_list (t_cons T)))
  | None => None
  end.

Definition change_column (t c : string) (f : column -> column) (s : schema) : option schema :=
  guard_ (has_cols t [c] s) (on_table t (fun T => mkTable (alter f c (t_cols T)) (t_cons T)) s).

Definition exec (st : stmt) (s : schema) : option schema :=
  match st with
  | createTable d ifNotExist =>
      let t := td_name d in
      if ifNotExist && has_table t s then Some s
      else match build_table t (orm_column t <$> td_columns d) (orm_cons t (td_columns d) ++ td_foreignKeys d)
                   (enum_types t (td_columns d) s) with
           | Some s' => all (fun p => put_index p.1 p.2) (td_indices d) s'
           | None => None
           end
  | dropTable t ifExist =>
      if ifExist && negb (has_table t s) then Some s
      else guard_ (has_table t s && negb (referenced t any s)) (Some (cut_table t s))
  | addColumn t c =>
      match put_column t (orm_column t c) (enum_types t [c] s) with
      | Some s' => all (fun p => put_con t p.1 p.2) (orm_cons t [c]) s'
      | None => None
      end
  | changeColumn t c d => change_column t c (fun _ => orm_column t d) s
  | dropColumn t c => cut_column t c s
  | createIndex n i => put_index n i s
  | dropIndex t n => guard_ (has_table t s) (cut_index n s)
  | createForeignKey t n c => put_con t n c s
  | dropForeignKey t n => cut_con t n s
  | dropForeignKeyOf t c => match foreign_key_on t c s with Some n => cut_con t n s | None => Some s end
  | CREATE_TABLE t cols ks => build_table t cols (sql_cons t cols ++ ks) s
  | DROP_TABLE if_exists cascade t =>
      if if_exists && negb (has_table t s) then Some s
      else guard_ (has_table t s && (cascade || negb (referenced t any s)))
             (Some (cut_table t (if cascade then cut_references t s else s)))
  | ADD_COLUMN if_not_exists t c =>
      if if_not_exists && has_cols t [c_name c] s then Some s
      else match put_column t c s with
           | Some s' => all (fun p => put_con t p.1 p.2) (sql_cons t [c]) s'
           | None => None
           end
  | DROP_COLUMN if_exists t c =>
      if if_exists && has_table t s && negb (has_cols t [c] s) then Some s else cut_column t c s
  | SET_NOT_NULL t c => change_column t c (fun k => col (c_name k) (c_type k) (notNull :: c_attrs k)) s
  | SET_DEFAULT t c d => change_column t c (fun k => col (c_name k) (c_type k) (dflt d :: c_attrs k)) s
  | ADD_CONSTRAINT t n c => put_con t n c s
  | DROP_CONSTRAINT t n => cut_con t n s
  | CREATE_INDEX if_not_exists n i =>
      if if_not_exists && has_table (i_table i) s && negb (is_free n s) then Some s else put_index n i s
  | DROP_INDEX if_exists n =>
      if if_exists && bool_decide (indexes s !! n = None) then Some s else cut_index n s
  | CREATE_TYPE n values => guard_ (bool_decide (types s !! n = None)) (Some (set_types (<[n := values]>) s))
  | DROP_TYPE if_exists cascade n =>
      if if_exists && bool_decide (types s !! n = None) then Some s
      else guard_ (bool_decide (is_Some (types s !! n)) && (cascade || negb (type_used n s)))
             (Some (set_types (delete n) (cut_typed n s)))
  | CREATE_EXTENSION _ => Some s
  | INSERT t cols | UPDATE_DELETE t cols => guard_ (has_cols t cols s) (Some s)
  end.

Definition run : list stmt -> schema -> option schema := all exec.

(** *** The database *)

(** Statements that put no rows in. *)
Definition rowless (st : stmt) : bool := match st with INSERT _ _ => false | _ => true end.

Class Postgres := {
  db : Type;
  catalog : db -> schema;
  blank : db -> Prop;
  query : stmt -> db -> option db;
  query_sound st d d' : query st d = Some d' -> exec st (catalog d) = Some (catalog d');
  query_blank st d s : blank d -> rowless st = true -> exec st (catalog d) = Some s ->
    exists d', query st d = Some d' /\ catalog d' = s /\ blank d';
}.

(** A catalogue by itself is a database without rows. *)
#[export] Instance catalog_only : Postgres.
Proof.
  refine {| db := schema; catalog := id; blank := fun _ => True; query := exec |}; [done|].
  intros st d s _ _ H. by exists s.
Defined.

(** *** Which columns a statement can add *)

Definition has (t c : string) (s : schema) : Prop := has_cols t [c] s = true.

Definition adds (st : stmt) : list (string * string) :=
  let named t l := (fun c => (t, c_name c)) <$> l in
  match st with
  | createTable d _ => named (td_name d) (td_columns d)
  | addColumn t c | ADD_COLUMN _ t c => named t [c]
  | CREATE_TABLE t cols _ => named t cols
  | _ => []
  end.

(** Going from [s] to [s'] no column came but those of [l]. *)
Definition grows (l : list (string * string)) (s s' : schema) : Prop :=
  forall t c, has t c s' -> has t c s \/ (t, c) ∈ l.

Lemma has_spec t c s : has t c s <-> exists T, tables s !! t = Some T /\ is_Some (t_cols T !! c).
Proof.
  unfold has, has_cols. destruct (tables s !! t) as [T|].
  - cbn [forallb]. rewrite andb_true_r, bool_decide_eq_true. split; [by exists T|by intros (? & [= <-] & ?)].
  - split; [done|by intros (? & ? & ?)].
Qed.

Lemma grows_refl l s : grows l s s.
Proof. intros t c. by left. Qed.

Lemma grows_trans l s1 s2 s3 : grows l s1 s2 -> grows l s2 s3 -> grows l s1 s3.
Proof. intros H1 H2 t c [Hh|Hh]%H2; [by apply H1|by right]. Qed.

Lemma grows_weaken l l' s s' : l ⊆ l' -> grows l s s' -> grows l' s s'.
Proof. intros Hl H t c [?|?]%H; [by left|right; by apply Hl]. Qed.

Lemma grows_same l s s' : tables s' = tables s -> grows l s s'.
Proof. intros H t c. rewrite !has_spec, H. by left. Qed.

(** A table keeps or loses its columns. *)
Lemma grows_on_table l t f s s' :
  on_table t f s = Some s' ->
  (forall T c, tables s !! t = Some T -> is_Some (t_cols (f T) !! c) -> is_Some (t_cols T !! c) \/ (t, c) ∈ l) ->
  grows l s s'.
Proof.
  unfold on_table. destruct (tables s !! t) as [T|] eqn:Ht; [|done]. intros [= <-] Hf t' c.
  rewrite !has_spec. cbn [tables set_tables]. intros (T' & HT' & Hc).
  destruct (decide (t = t')) as [<-|Hne].
  - rewrite lookup_insert_eq in HT'. injection HT' as <-. destruct (Hf T c eq_refl Hc) as [?|?]; [left; by exists T|by right].
  - rewrite lookup_insert_ne in HT' by done. left. by exists T'.
Qed.

Lemma guard_inv b o (s : schema) : guard_ b o = Some s -> b = true /\ o = Some s.
Proof. by destruct b. Qed.

Lemma grows_put_index l n i s s' : put_index n i s = Some s' -> grows l s s'.
Proof. intros [_ [= <-]]%guard_inv. by apply grows_same. Qed.

Lemma grows_put_con l t n c s s' : put_con t n c s = Some s' -> grows l s s'.
Proof.
  intros [_ H]%guard_inv.
  assert (Hon : forall s1, on_table t (fun T => mkTable (t_cols T) (<[n := c]> (t_cons T))) s1 = Some s' -> grows l s1 s').
  { intros s1 Hs1. eapply grows_on_table; [exact Hs1|]. intros T k _ Hk. by left. }
  destruct c as [k|k|k r rc od]; cbn in H.
  1-2: destruct (put_index _ _ s) as [s1|] eqn:H1; [|done];
       eapply grows_trans; [by eapply grows_put_index|by apply Hon].
  apply guard_inv in H as [_ H]. by apply Hon.
Qed.

Lemma grows_all {A} (f : A -> schema -> option schema) l xs s s' :
  (forall x s s', x ∈ xs -> f x s = Some s' -> grows l s s') -> all f xs s = Some s' -> grows l s s'.
Proof.
  revert s. induction xs as [|x xs IH]; intros s Hf; cbn [all]; [intros [= <-]; apply grows_refl|].
  destruct (f x s) as [s1|] eqn:H1; [|done]. intros H. eapply grows_trans.
  - eapply Hf; [|exact H1]. apply list_elem_of_here.
  - eapply IH; [|exact H]. intros y s2 s3 Hy. apply Hf. by apply list_elem_of_further.
Qed.

Lemma grows_put_column l t c s s' : (t, c_name c) ∈ l -> put_column t c s = Some s' -> grows l s s'.
Proof.
  intros Hl [_ H]%guard_inv. eapply grows_on_table; [exact H|]. intros T k _ Hk. cbn in Hk.
  destruct (decide (c_name c = k)) as [<-|Hne]; [by right|]. rewrite lookup_insert_ne in Hk by done. by left.
Qed.

Lemma grows_cut_column l t c s s' : cut_column t c s = Some s' -> grows l s s'.
Proof.
  intros [_ H]%guard_inv. destruct (on_table _ _ s) as [s1|] eqn:H1; [|done]. injection H as <-.
  eapply grows_trans; [|by apply (grows_same _ s1)].
  eapply grows_on_table; [exact H1|]. intros T k _ [v Hk]. cbn in Hk.
  apply lookup_delete_Some in Hk as [_ Hk]. left. by exists v.
Qed.

Lemma grows_cut_con l t n s s' : cut_con t n s = Some s' -> grows l s s'.
Proof.
  unfold cut_con. destruct (tables s !! t) as [T|]; [|done]. destruct (t_cons T !! n) as [c|]; [|done].
  assert (Hon : forall s1, on_table t (fun T => mkTable (t_cols T) (delete n (t_cons T))) s1 = Some s' -> grows l s1 s').
  { intros s1 Hs1. eapply grows_on_table; [exact Hs1|]. intros T' k _ Hk. by left. }
  destruct c as [k|k|k r rc od]; [intros [_ H]%guard_inv ..|apply Hon].
  all: eapply grows_trans; [by apply (grows_same _ _ (set_indexes (delete n) s))|by apply Hon].
Qed.

Lemma grows_change_column l t c f s s' : change_column t c f s = Some s' -> grows l s s'.
Proof.
  intros [_ H]%guard_inv. eapply grows_on_table; [exact H|]. intros T k _ Hk. cbn in Hk.
  rewrite lookup_alter_is_Some in Hk. by left.
Qed.

Lemma grows_fmap l f s s' :
  tables s' = f <$> tables s -> (forall T c, is_Some (t_cols (f T) !! c) -> is_Some (t_cols T !! c)) -> grows l s s'.
Proof.
  intros Ht Hf t c. rewrite !has_spec, Ht. intros (T' & HT' & Hc). left.
  rewrite lookup_fmap in HT'. destruct (tables s !! t) as [T|]; [|done]. injection HT' as <-. exists T. by split; [|apply Hf].
Qed.

Lemma grows_cut_table l t s : grows l s (cut_table t s).
Proof.
  intros t' c. rewrite !has_spec. cbn. intros (T & HT & Hc). left. apply lookup_delete_Some in HT as [_ HT]. by exists T.
Qed.

Lemma enum_types_tables t cols s : tables (enum_types t cols s) = tables s.
Proof.
  unfold enum_types. revert s. induction cols as [|c cols IH]; intros s; cbn [foldl]; [done|].
  rewrite IH. destruct (enum_of c); [|done]. by destruct (types s !! _).
Qed.

Lemma grows_build_table l t cols ks s s' :
  (forall c, c ∈ cols -> (t, c_name c) ∈ l) -> build_table t cols ks s = Some s' -> grows l s s'.
Proof.
  intros Hl. unfold build_table. destruct (new_table t cols s) as [s1|] eqn:H1; [|done]. intros H.
  eapply grows_trans; [|eapply grows_all; [|exact H]; intros [] ? ? _; apply grows_put_con].
  apply guard_inv in H1 as [_ [= <-]]. intros t' c. rewrite !has_spec. cbn. intros (T & HT & Hc).
  destruct (decide (t = t')) as [<-|Hne]; [|rewrite lookup_insert_ne in HT by done; left; by exists T].
  rewrite lookup_insert_eq in HT. injection HT as <-. destruct Hc as [k Hc]. cbn in Hc.
  apply elem_of_list_to_map_2, list_elem_of_fmap in Hc as (k' & [= -> ->] & Hk'). right. by apply Hl.
Qed.

Lemma grows_put_cons l t ks s s' : all (fun p => put_con t p.1 p.2) ks s = Some s' -> grows l s s'.
Proof. apply grows_all. intros p s1 s2 _. apply grows_put_con. Qed.

Lemma exec_adds st s s' : exec st s = Some s' -> grows (adds st) s s'.
Proof.
  destruct st; cbn [exec].
  - destruct (_ && _); [intros [= <-]; apply grows_refl|]. destruct (build_table _ _ _ _) as [s1|] eqn:H1; [|done]. intros H.
    eapply grows_trans; [|eapply grows_all; [|exact H]; intros p s2 s3 _; apply grows_put_index].
    eapply grows_trans; [apply (grows_same _ s (enum_types (td_name d) (td_columns d) s)), enum_types_tables|].
    eapply grows_build_table; [|exact H1]. intros c (k & -> & Hk)%list_elem_of_fmap.
    cbn [orm_column c_name]. apply list_elem_of_fmap. by exists k.
  - destruct (_ && _); [intros [= <-]; apply grows_refl|]. intros [_ [= <-]]%guard_inv. apply grows_cut_table.
  - destruct (put_column _ _ _) as [s1|] eqn:H1; [|done]. intros H.
    eapply grows_trans; [|by eapply grows_put_cons].
    eapply grows_trans; [apply (grows_same _ s (enum_types t [c] s)), enum_types_tables|].
    eapply grows_put_column; [|exact H1]. apply list_elem_of_here.
  - apply grows_change_column.
  - apply grows_cut_column.
  - apply grows_put_index.
  - unfold cut_index. intros [_ H]%guard_inv. destruct (indexes s !! n); [|done].
    apply guard_inv in H as [_ [= <-]]. by apply grows_same.
  - apply grows_put_con.
  - apply grows_cut_con.
  - destruct (foreign_key_on _ _ _); [apply grows_cut_con|intros [= <-]; apply grows_refl].
  - apply grows_build_table. intros c Hc. apply list_elem_of_fmap. by exists c.
  - destruct (_ && _); [intros [= <-]; apply grows_refl|]. intros [_ [= <-]]%guard_inv.
    eapply grows_trans; [|apply grows_cut_table]. destruct cascade; [|apply grows_refl]. by eapply grows_fmap.
  - destruct (_ && _); [intros [= <-]; apply grows_refl|]. destruct (put_column _ _ _) as [s1|] eqn:H1; [|done]. intros H.
    eapply grows_trans; [|by eapply grows_put_cons]. eapply grows_put_column; [|exact H1]. apply list_elem_of_here.
  - destruct (_ && _); [intros [= <-]; apply grows_refl|]. apply grows_cut_column.
  - apply grows_change_column.
  - apply grows_change_column.
  - apply grows_put_con.
  - apply grows_cut_con.
  - destruct (_ && _); [intros [= <-]; apply grows_refl|]. apply grows_put_index.
  - destruct (_ && _); [intros [= <-]; apply grows_refl|]. unfold cut_index. destruct (indexes s !! n); [|done].
    intros [_ [= <-]]%guard_inv. by apply grows_same.
  - intros [_ [= <-]]%guard_inv. by apply grows_same.
  - destruct (_ && _); [intros [= <-]; apply grows_refl|]. intros [_ [= <-]]%guard_inv.
    eapply grows_fmap; [done|]. intros T c [k Hk]. cbn in Hk. apply map_lookup_filter_Some in Hk as [Hk _]. by exists k.
  - intros [= <-]. apply grows_refl.
  - intros [_ [= <-]]%guard_inv. apply grows_refl.
  - intros [_ [= <-]]%guard_inv. apply grows_refl.
Qed.

End Catalog.
