(* ===== verification/Migrations.v ===== *)
(** * The migrations

    Models [backend/src/migrations/]: the [up] and [down] of every migration as a list of
    statements, in the order of the calls, and how TypeORM runs them.  [addColumns],
    [dropColumns] and [createIndices] are the loops they stand for; the data of [INSERT] and
    [UPDATE] is reduced to the columns named. *)
From Stdlib Require Import ZArith Lia.
From stdpp Require Import base list strings sets gmap countable.
From S2P Require Import Prelude Catalog.
Local Open Scope Z_scope.

Module Migrations.
Import Catalog.
Local Open Scope string_scope.
Local Open Scope Z_scope.

(** *** [CreateNftRewardsEntities1729432800000] *)

Definition CreateNftRewardsEntities1729432800000_up : list stmt :=
  [ createTable (Table "nft_reward_milestones"
      [col "id" "uuid" [isPrimary; dflt "gen_random_uuid()"];
       col "milestone_type" "enum" [enum ["savings_amount"; "goals_reached"; "consecutive_deposits"; "activity_streak"]];
       col "threshold" "bigint" [];
       col "name" "varchar" [len 255];
       col "description" "text" [];
       col "nft_title" "varchar" [len 255];
       col "nft_description" "text" [];
       col "image_ipfs_cid" "varchar" [len 255];
       col "rarity_tier" "int" [dflt "1"];
       col "is_active" "boolean" [dflt "true"];
       col "is_soulbound" "boolean" [dflt "false"];
       col "created_at" "timestamptz" [dflt "CURRENT_TIMESTAMP"];
       col "updated_at" "timestamptz" [dflt "CURRENT_TIMESTAMP"]]
      [] []) true;
    createIndex (Named "IDX_nft_reward_milestones_milestone_type") (ix "nft_reward_milestones" ["milestone_type"] false "" false);
    createIndex (Named "IDX_nft_reward_milestones_threshold") (ix "nft_reward_milestones" ["threshold"] false "" false);
    createTable (Table "user_nft_rewards"
      [col "id" "uuid" [isPrimary; dflt "gen_random_uuid()"];
       col "user_id" "uuid" [];
       col "milestone_id" "uuid" [];
       col "status" "enum" [enum ["earned"; "minted"; "transferred"]; dflt "'earned'"];
       col "nft_contract_address" "varchar" [len 56; isNullable];
       col "nft_token_id" "varchar" [isNullable];
       col "metadata_ipfs_cid" "varchar" [len 255; isNullable];
       col "mint_tx_hash" "varchar" [len 255; isNullable];
       col "mint_ledger" "bigint" [isNullable];
       col "earned_at" "timestamptz" [dflt "CURRENT_TIMESTAMP"];
       col "minted_at" "timestamptz" [isNullable];
       col "transferred_at" "timestamptz" [isNullable];
       col "updated_at" "timestamptz" [dflt "CURRENT_TIMESTAMP"]]
      [] []) true;
    createIndex (Named "IDX_user_nft_rewards_user_id") (ix "user_nft_rewards" ["user_id"] false "" false);
    createIndex (Named "IDX_user_nft_rewards_milestone_id") (ix "user_nft_rewards" ["milestone_id"] false "" false);
    createIndex (Named "IDX_user_nft_rewards_status") (ix "user_nft_rewards" ["status"] false "" false);
    createIndex (Named "IDX_user_nft_rewards_created_at") (ix "user_nft_rewards" ["earned_at"] false "" false);
    createIndex (Named "UQ_user_milestone_reward") (ix "user_nft_rewards" ["user_id"; "milestone_id"] true "" false);
    createForeignKey "user_nft_rewards" (Generated "FK" "user_nft_rewards" ["user_id"]) (FOREIGN_KEY ["user_id"] "users" ["id"] "CASCADE");
    createForeignKey "user_nft_rewards" (Generated "FK" "user_nft_rewards" ["milestone_id"]) (FOREIGN_KEY ["milestone_id"] "nft_reward_milestones" ["id"] "RESTRICT") ].

Definition CreateNftRewardsEntities1729432800000_down : list stmt :=
  [ dropForeignKeyOf "user_nft_rewards" "user_id";
    dropForeignKeyOf "user_nft_rewards" "milestone_id";
    dropTable "user_nft_rewards" false;
    dropTable "nft_reward_milestones" false ].

(** *** [CreateInterestRatesEntities1729433000000] *)

Definition CreateInterestRatesEntities1729433000000_up : list stmt :=
  [ createTable (Table "interest_rate_configs"
      [col "id" "uuid" [isPrimary; dflt "gen_random_uuid()"];
       col "name" "varchar" [len 255];
       col "description" "text" [];
       col "asset" "varchar" [len 12; dflt "'USDC'"];
       col "base_rate" "numeric" [precision 10; scale 4; dflt "0"];
       col "min_rate" "numeric" [precision 10; scale 4; dflt "0"];
       col "max_rate" "numeric" [precision 10; scale 4; dflt "100"];
       col "optimal_utilization" "numeric" [precision 5; scale 4; dflt "0.85"];
       col "slope_up" "numeric" [precision 10; scale 4; dflt "0.05"];
       col "slope_down" "numeric" [precision 10; scale 4; dflt "0.25"];
       col "smoothing_factor" "numeric" [precision 5; scale 4; dflt "0.1"];
       col "is_active" "boolean" [dflt "true"];
       col "notes" "text" [isNullable];
       col "created_at" "timestamptz" [dflt "CURRENT_TIMESTAMP"];
       col "updated_at" "timestamptz" [dflt "CURRENT_TIMESTAMP"]]
      [] []) true;
    createIndex (Named "IDX_interest_rate_configs_is_active") (ix "interest_rate_configs" ["is_active"] false "" false);
    createTable (Table "interest_rate_history"
      [col "id" "uuid" [isPrimary; dflt "gen_random_uuid()"];
       col "config_id" "uuid" [];
       col "calculated_rate" "numeric" [precision 10; scale 4];
       col "utilization_ratio" "numeric" [precision 5; scale 4];
       col "total_liquidity" "varchar" [];
       col "total_utilization" "varchar" [];
       col "oracle_price" "varchar" [isNullable];
       col "previous_rate" "numeric" [precision 10; scale 4];
       col "rate_delta" "numeric" [precision 10; scale 4];
       col "created_at" "timestamptz" [dflt "CURRENT_TIMESTAMP"]]
      [] []) true;
    createIndex (Named "IDX_interest_rate_history_config_created") (ix "interest_rate_history" ["config_id"; "created_at"] false "" false);
    createIndex (Named "IDX_interest_rate_history_created_at") (ix "interest_rate_history" ["created_at"] false "" false);
    createTable (Table "oracle_data"
      [col "id" "uuid" [isPrimary; dflt "gen_random_uuid()"];
       col "asset" "varchar" [len 12];
       col "source_type" "enum" [enum ["stellar_quest"; "chainlink"; "band_protocol"; "anchor"; "manual"]];
       col "price_usd" "varchar" [isNullable];
       col "price_base" "varchar" [isNullable];
       col "confidence" "numeric" [precision 5; scale 4; isNullable];
       col "price_timestamp" "timestamptz" [];
       col "is_valid" "boolean" [dflt "true"];
       col "notes" "text" [isNullable];
       col "created_at" "timestamptz" [dflt "CURRENT_TIMESTAMP"];
       col "updated_at" "timestamptz" [dflt "CURRENT_TIMESTAMP"]]
      [] []) true;
    createIndex (Named "IDX_oracle_data_asset_source") (ix "oracle_data" ["asset"; "source_type"] false "" false);
    createIndex (Named "IDX_oracle_data_updated_at") (ix "oracle_data" ["updated_at"] false "" false);
    createForeignKey "interest_rate_history" (Generated "FK" "interest_rate_history" ["config_id"]) (FOREIGN_KEY ["config_id"] "interest_rate_configs" ["id"] "RESTRICT") ].

Definition CreateInterestRatesEntities1729433000000_down : list stmt :=
  [ dropForeignKeyOf "interest_rate_history" "config_id";
    dropTable "oracle_data" false;
    dropTable "interest_rate_history" false;
    dropTable "interest_rate_configs" false ].

(** *** [CreateSavingsRoundupEntities1729433200000] *)

Definition CreateSavingsRoundupEntities1729433200000_up : list stmt :=
  [ createTable (Table "roundup_configs"
      [col "id" "uuid" [isPrimary; dflt "gen_random_uuid()"];
       col "user_id" "uuid" [];
       col "name" "varchar" [len 255];
       col "description" "text" [isNullable];
       col "method" "enum" [enum ["nearest_dollar"; "nearest_cent"; "nearest_quarter"; "percentage"; "fixed_amount"]];
       col "method_parameter" "numeric" [precision 10; scale 4; isNullable];
       col "frequency" "enum" [enum ["immediate"; "daily"; "weekly"; "monthly"; "batch"]];
       col "min_roundup_amount" "varchar" [dflt "'1000000'"];
       col "max_roundup_per_transaction" "varchar" [dflt "'100000000'"];
       col "target_vault" "varchar" [dflt "'flexible'"];
       col "is_active" "boolean" [dflt "true"];
       col "is_paused" "boolean" [dflt "false"];
       col "pause_reason" "text" [isNullable];
       col "last_processed_at" "timestamptz" [isNullable];
       col "next_scheduled_at" "timestamptz" [isNullable];
       col "created_at" "timestamptz" [dflt "CURRENT_TIMESTAMP"];
       col "updated_at" "timestamptz" [dflt "CURRENT_TIMESTAMP"]]
      [] []) true;
    createIndex (Named "IDX_roundup_configs_user_id") (ix "roundup_configs" ["user_id"] false "" false);
    createIndex (Named "IDX_roundup_configs_is_active") (ix "roundup_configs" ["is_active"] false "" false);
    createIndex (Named "UQ_user_active_config") (ix "roundup_configs" ["user_id"; "is_active"] true "is_active = true" false);
    createTable (Table "roundup_records"
      [col "id" "uuid" [isPrimary; dflt "gen_random_uuid()"];
       col "user_id" "uuid" [];
       col "config_id" "uuid" [];
       col "status" "enum" [enum ["pending"; "processing"; "completed"; "failed"; "cancelled"]];
       col "trigger_source" "enum" [enum ["transaction"; "external"; "webhook"; "api"; "scheduled"]];
       col "roundup_amount" "varchar" [];
       col "original_amount" "varchar" [isNullable];
       col "method_applied" "varchar" [isNullable];
       col "transaction_reference" "varchar" [isNullable];
       col "trigger_timestamp" "timestamptz" [isNullable];
       col "deposit_tx_hash" "varchar" [isNullable];
       col "deposit_ledger" "bigint" [isNullable];
       col "error_message" "text" [isNullable];
       col "batch_id" "uuid" [isNullable];
       col "metadata" "jsonb" [isNullable];
       col "created_at" "timestamptz" [dflt "CURRENT_TIMESTAMP"];
       col "processed_at" "timestamptz" [isNullable]]
      [] []) true;
    createIndex (Named "IDX_roundup_records_user_created") (ix "roundup_records" ["user_id"; "created_at"] false "" false);
    createIndex (Named "IDX_roundup_records_config_id") (ix "roundup_records" ["config_id"] false "" false);
    createIndex (Named "IDX_roundup_records_status") (ix "roundup_records" ["status"] false "" false);
    createIndex (Named "IDX_roundup_records_created_at") (ix "roundup_records" ["created_at"] false "" false);
    createTable (Table "roundup_batches"
      [col "id" "uuid" [isPrimary; dflt "gen_random_uuid()"];
       col "record_count" "int" [dflt "0"];
       col "total_amount" "varchar" [];
       col "status" "enum" [enum ["pending"; "processing"; "completed"; "partial"; "failed"; "cancelled"]; dflt "'pending'"];
       col "successful_count" "int" [dflt "0"];
       col "failed_count" "int" [dflt "0"];
       col "deposit_tx_hash" "varchar" [isNullable];
       col "deposit_ledger" "bigint" [isNullable];
       col "error_message" "text" [isNullable];
       col "metadata" "jsonb" [isNullable];
       col "created_at" "timestamptz" [dflt "CURRENT_TIMESTAMP"];
       col "processing_started_at" "timestamptz" [isNullable];
       col "processed_at" "timestamptz" [isNullable];
       col "updated_at" "timestamptz" [dflt "CURRENT_TIMESTAMP"]]
      [] []) true;
    createIndex (Named "IDX_roundup_batches_status") (ix "roundup_batches" ["status"] false "" false);
    createIndex (Named "IDX_roundup_batches_created_at") (ix "roundup_batches" ["created_at"] false "" false);
    createIndex (Named "IDX_roundup_batches_processed_at") (ix "roundup_batches" ["processed_at"] false "" false);
    createForeignKey "roundup_configs" (Generated "FK" "roundup_configs" ["user_id"]) (FOREIGN_KEY ["user_id"] "users" ["id"] "CASCADE");
    createForeignKey "roundup_records" (Generated "FK" "roundup_records" ["user_id"]) (FOREIGN_KEY ["user_id"] "users" ["id"] "CASCADE");
    createForeignKey "roundup_records" (Generated "FK" "roundup_records" ["config_id"]) (FOREIGN_KEY ["config_id"] "roundup_configs" ["id"] "RESTRICT") ].

Definition CreateSavingsRoundupEntities1729433200000_down : list stmt :=
  [ dropForeignKeyOf "roundup_configs" "user_id";
    dropForeignKeyOf "roundup_records" "user_id";
    dropForeignKeyOf "roundup_records" "config_id";
    dropTable "roundup_batches" false;
    dropTable "roundup_records" false;
    dropTable "roundup_configs" false ].

(** *** [CreateCreatorEventLeaderboardEntry1750200000000] *)

Definition CreateCreatorEventLeaderboardEntry1750200000000_up : list stmt :=
  [ createTable (Table "creator_event_leaderboard_entries"
      [col "id" "uuid" [isPrimary; generationStrategy "uuid"; dflt "uuid_generate_v4()"];
       col "event_id" "varchar" [len 255; notNull];
       col "user_address" "varchar" [len 255; notNull];
       col "rank" "int" [notNull];
       col "total_predictions" "int" [dflt "0"; notNull];
       col "correct_predictions" "int" [dflt "0"; notNull];
       col "accuracy_percentage" "numeric" [precision 5; scale 2; dflt "0"; notNull];
       col "is_winner" "boolean" [dflt "false"; notNull];
       col "completion_time" "timestamptz" [isNullable];
       col "created_at" "timestamptz" [dflt "CURRENT_TIMESTAMP"; notNull]]
      [] []) true;
    createIndex (Named "UQ_cel_entry_event_address") (ix "creator_event_leaderboard_entries" ["event_id"; "user_address"] true "" false);
    createIndex (Named "IDX_cel_entry_event_rank") (ix "creator_event_leaderboard_entries" ["event_id"; "rank"] false "" false) ].

Definition CreateCreatorEventLeaderboardEntry1750200000000_down : list stmt :=
  [ dropTable "creator_event_leaderboard_entries" false ].

(** *** [CreateUserEntity1774313247489] *)

Definition CreateUserEntity1774313247489_up : list stmt :=
  [ CREATE_TABLE "users"
      [col "id" "uuid" [notNull; dflt "uuid_generate_v4()"];
       col "stellar_address" "character varying" [notNull];
       col "username" "character varying" [];
       col "avatar_url" "character varying" [];
       col "total_predictions" "integer" [notNull; dflt "'0'"];
       col "correct_predictions" "integer" [notNull; dflt "'0'"];
       col "total_staked_stroops" "bigint" [notNull; dflt "'0'"];
       col "total_winnings_stroops" "bigint" [notNull; dflt "'0'"];
       col "reputation_score" "integer" [notNull; dflt "'0'"];
       col "season_points" "integer" [notNull; dflt "'0'"];
       col "role" "character varying" [notNull; dflt "'user'"];
       col "created_at" "TIMESTAMP" [notNull; dflt "now()"];
       col "updated_at" "TIMESTAMP" [notNull; dflt "now()"]]
      [((Named "UQ_42e18df61bbf80f10c661156e11"), (UNIQUE ["stellar_address"]));
       ((Named "PK_a3ffb1c0c8416b9fc6f907b7433"), (PRIMARY_KEY ["id"]))];
    CREATE_INDEX false (Named "IDX_42e18df61bbf80f10c661156e1") (ix "users" ["stellar_address"] false "" false) ].

Definition CreateUserEntity1774313247489_down : list stmt :=
  [ DROP_INDEX false (Named "IDX_42e18df61bbf80f10c661156e1");
    DROP_TABLE false false "users" ].

(** *** [CreateMarketEntity1774431698000] *)

Definition CreateMarketEntity1774431698000_up : list stmt :=
  [ CREATE_TABLE "markets"
      [col "id" "uuid" [notNull; dflt "uuid_generate_v4()"];
       col "on_chain_market_id" "character varying" [notNull];
       col "title" "character varying" [notNull];
       col "description" "text" [notNull];
       col "category" "character varying" [notNull];
       col "outcome_options" "text" [notNull];
       col "end_time" "TIMESTAMP WITH TIME ZONE" [notNull];
       col "resolution_time" "TIMESTAMP WITH TIME ZONE" [notNull];
       col "is_resolved" "boolean" [notNull; dflt "false"];
       col "resolved_outcome" "character varying" [];
       col "is_public" "boolean" [notNull; dflt "true"];
       col "is_cancelled" "boolean" [notNull; dflt "false"];
       col "total_pool_stroops" "bigint" [notNull; dflt "'0'"];
       col "participant_count" "integer" [notNull; dflt "0"];
       col "created_at" "TIMESTAMP" [notNull; dflt "now()"];
       col "creatorId" "uuid" []]
      [((Named "UQ_on_chain_market_id"), (UNIQUE ["on_chain_market_id"]));
       ((Named "PK_markets_id"), (PRIMARY_KEY ["id"]));
       ((Named "FK_markets_creator"), (FOREIGN_KEY ["creatorId"] "users" ["id"] "CASCADE"))];
    CREATE_INDEX false (Named "IDX_on_chain_market_id") (ix "markets" ["on_chain_market_id"] false "" false);
    CREATE_INDEX false (Named "IDX_creator") (ix "markets" ["creatorId"] false "" false);
    CREATE_INDEX false (Named "IDX_category") (ix "markets" ["category"] false "" false);
    CREATE_INDEX false (Named "IDX_is_resolved") (ix "markets" ["is_resolved"] false "" false) ].

Definition CreateMarketEntity1774431698000_down : list stmt :=
  [ DROP_INDEX false (Named "IDX_is_resolved");
    DROP_INDEX false (Named "IDX_category");
    DROP_INDEX false (Named "IDX_creator");
    DROP_INDEX false (Named "IDX_on_chain_market_id");
    DROP_TABLE false false "markets" ].

(** *** [CreateNotificationEntity1774500000000] *)

Definition CreateNotificationEntity1774500000000_up : list stmt :=
  [ CREATE_TYPE "notifications_type_enum" ["competition_started"; "competition_ended"; "leaderboard_updated"; "market_resolved"; "system"];
    CREATE_TABLE "notifications"
      [col "id" "uuid" [notNull; dflt "uuid_generate_v4()"];
       col "user_id" "uuid" [notNull];
       col "type" "notifications_type_enum" [userType; notNull];
       col "title" "character varying" [notNull];
       col "message" "text" [notNull];
       col "is_read" "boolean" [notNull; dflt "false"];
       col "metadata" "jsonb" [];
       col "created_at" "TIMESTAMP" [notNull; dflt "now()"]]
      [((Named "PK_notifications"), (PRIMARY_KEY ["id"]))];
    CREATE_INDEX false (Named "IDX_notifications_user_id") (ix "notifications" ["user_id"] false "" false);
    CREATE_INDEX false (Named "IDX_notifications_user_id_is_read") (ix "notifications" ["user_id"; "is_read"] false "" false);
    ADD_CONSTRAINT "notifications" (Named "FK_notifications_user") (FOREIGN_KEY ["user_id"] "users" ["id"] "CASCADE") ].

Definition CreateNotificationEntity1774500000000_down : list stmt :=
  [ DROP_CONSTRAINT "notifications" (Named "FK_notifications_user");
    DROP_INDEX false (Named "IDX_notifications_user_id_is_read");
    DROP_INDEX false (Named "IDX_notifications_user_id");
    DROP_TABLE false false "notifications";
    DROP_TYPE false false "notifications_type_enum" ].

(** *** [CreatePredictionEntity1774500000000] *)

Definition CreatePredictionEntity1774500000000_up : list stmt :=
  [ CREATE_TABLE "predictions"
      [col "id" "uuid" [notNull; dflt "uuid_generate_v4()"];
       col "chosen_outcome" "character varying" [notNull];
       col "stake_amount_stroops" "bigint" [notNull];
       col "payout_claimed" "boolean" [notNull; dflt "false"];
       col "payout_amount_stroops" "bigint" [notNull; dflt "'0'"];
       col "tx_hash" "character varying" [];
       col "submitted_at" "TIMESTAMP" [notNull; dflt "now()"];
       col "userId" "uuid" [];
       col "marketId" "uuid" []]
      [((Named "PK_predictions_id"), (PRIMARY_KEY ["id"]));
       ((Named "UQ_prediction_user_market"), (UNIQUE ["userId"; "marketId"]));
       ((Named "FK_predictions_user"), (FOREIGN_KEY ["userId"] "users" ["id"] "CASCADE"));
       ((Named "FK_predictions_market"), (FOREIGN_KEY ["marketId"] "markets" ["id"] "CASCADE"))];
    CREATE_INDEX false (Named "IDX_predictions_userId") (ix "predictions" ["userId"] false "" false);
    CREATE_INDEX false (Named "IDX_predictions_marketId") (ix "predictions" ["marketId"] false "" false) ].

Definition CreatePredictionEntity1774500000000_down : list stmt :=
  [ DROP_INDEX false (Named "IDX_predictions_marketId");
    DROP_INDEX false (Named "IDX_predictions_userId");
    DROP_TABLE false false "predictions" ].

(** *** [CreateCompetitionEntity1774500001000] *)

Definition CreateCompetitionEntity1774500001000_up : list stmt :=
  [ CREATE_TYPE "competitions_visibility_enum" ["public"; "private"];
    CREATE_TABLE "competitions"
      [col "id" "uuid" [notNull; dflt "uuid_generate_v4()"];
       col "title" "character varying" [notNull];
       col "description" "text" [notNull];
       col "start_time" "TIMESTAMP WITH TIME ZONE" [notNull];
       col "end_time" "TIMESTAMP WITH TIME ZONE" [notNull];
       col "prize_pool_stroops" "bigint" [notNull; dflt "0"];
       col "max_participants" "integer" [notNull; dflt "0"];
       col "participant_count" "integer" [notNull; dflt "0"];
       col "is_finalized" "boolean" [notNull; dflt "false"];
       col "visibility" "competitions_visibility_enum" [userType; notNull; dflt "'public'"];
       col "invite_code" "character varying" [];
       col "creator_id" "uuid" [];
       col "created_at" "TIMESTAMP" [notNull; dflt "now()"];
       col "updated_at" "TIMESTAMP" [notNull; dflt "now()"]]
      [((Named "PK_competitions"), (PRIMARY_KEY ["id"]))];
    CREATE_INDEX false (Named "IDX_competitions_invite_code_unique_when_set") (ix "competitions" ["invite_code"] true "invite_code IS NOT NULL" false);
    ADD_CONSTRAINT "competitions" (Named "FK_competitions_creator") (FOREIGN_KEY ["creator_id"] "users" ["id"] "SET NULL") ].

Definition CreateCompetitionEntity1774500001000_down : list stmt :=
  [ DROP_CONSTRAINT "competitions" (Named "FK_competitions_creator");
    DROP_INDEX false (Named "IDX_competitions_invite_code_unique_when_set");
    DROP_TABLE false false "competitions";
    DROP_TYPE false false "competitions_visibility_enum" ].

(** *** [CreateLeaderboardEntryEntity1774500002000] *)

Definition CreateLeaderboardEntryEntity1774500002000_up : list stmt :=
  [ CREATE_TABLE "leaderboard_entries"
      [col "id" "uuid" [notNull; dflt "uuid_generate_v4()"];
       col "user_id" "uuid" [notNull];
       col "season_id" "character varying" [];
       col "rank" "integer" [notNull; dflt "0"];
       col "reputation_score" "integer" [notNull; dflt "0"];
       col "season_points" "integer" [notNull; dflt "0"];
       col "total_predictions" "integer" [notNull; dflt "0"];
       col "correct_predictions" "integer" [notNull; dflt "0"];
       col "total_winnings_stroops" "bigint" [notNull; dflt "0"];
       col "created_at" "TIMESTAMP" [notNull; dflt "now()"];
       col "updated_at" "TIMESTAMP" [notNull; dflt "now()"]]
      [((Named "PK_leaderboard_entries"), (PRIMARY_KEY ["id"]))];
    CREATE_INDEX false (Named "IDX_leaderboard_entries_user_id") (ix "leaderboard_entries" ["user_id"] false "" false);
    CREATE_INDEX false (Named "IDX_leaderboard_entries_season_rank") (ix "leaderboard_entries" ["season_id"; "rank"] false "" false);
    ADD_CONSTRAINT "leaderboard_entries" (Named "FK_leaderboard_entries_user") (FOREIGN_KEY ["user_id"] "users" ["id"] "CASCADE") ].

Definition CreateLeaderboardEntryEntity1774500002000_down : list stmt :=
  [ DROP_CONSTRAINT "leaderboard_entries" (Named "FK_leaderboard_entries_user");
    DROP_INDEX false (Named "IDX_leaderboard_entries_season_rank");
    DROP_INDEX false (Named "IDX_leaderboard_entries_user_id");
    DROP_TABLE false false "leaderboard_entries" ].

(** *** [AddUniqueConstraintLeaderboardEntryUserSeason1774500003000] *)

Definition AddUniqueConstraintLeaderboardEntryUserSeason1774500003000_up : list stmt :=
  [ ADD_CONSTRAINT "leaderboard_entries" (Named "UQ_leaderboard_entries_user_season") (UNIQUE ["user_id"; "season_id"]) ].

Definition AddUniqueConstraintLeaderboardEntryUserSeason1774500003000_down : list stmt :=
  [ DROP_CONSTRAINT "leaderboard_entries" (Named "UQ_leaderboard_entries_user_season") ].

(** *** [CreateUserBookmarksTable1774500004000] *)

Definition CreateUserBookmarksTable1774500004000_up : list stmt :=
  [ CREATE_TABLE "user_bookmarks"
      [col "id" "uuid" [notNull; dflt "uuid_generate_v4()"];
       col "created_at" "TIMESTAMP" [notNull; dflt "now()"];
       col "user_id" "uuid" [];
       col "market_id" "uuid" []]
      [((Named "PK_user_bookmarks_id"), (PRIMARY_KEY ["id"]))];
    CREATE_INDEX false (Named "IDX_user_bookmark_unique") (ix "user_bookmarks" ["user_id"; "market_id"] true "" false);
    ADD_CONSTRAINT "user_bookmarks" (Named "FK_user_bookmarks_user") (FOREIGN_KEY ["user_id"] "users" ["id"] "CASCADE");
    ADD_CONSTRAINT "user_bookmarks" (Named "FK_user_bookmarks_market") (FOREIGN_KEY ["market_id"] "markets" ["id"] "CASCADE") ].

Definition CreateUserBookmarksTable1774500004000_down : list stmt :=
  [ DROP_CONSTRAINT "user_bookmarks" (Named "FK_user_bookmarks_market");
    DROP_CONSTRAINT "user_bookmarks" (Named "FK_user_bookmarks_user");
    DROP_INDEX false (Named "IDX_user_bookmark_unique");
    DROP_TABLE false false "user_bookmarks" ].

(** *** [CreateSystemStateEntity1774600000000] *)

Definition CreateSystemStateEntity1774600000000_up : list stmt :=
  [ CREATE_TABLE "system_state"
      [col "key" "character varying" [len 128; notNull];
       col "value" "text" [notNull];
       col "updated_at" "TIMESTAMP" [notNull; dflt "now()"]]
      [((Named "PK_system_state_key"), (PRIMARY_KEY ["key"]))] ].

Definition CreateSystemStateEntity1774600000000_down : list stmt :=
  [ DROP_TABLE false false "system_state" ].

(** *** [CreateSeasonsTable1774650000000] *)

Definition CreateSeasonsTable1774650000000_up : list stmt :=
  [ CREATE_TABLE "seasons"
      [col "id" "uuid" [notNull; dflt "uuid_generate_v4()"];
       col "season_number" "integer" [notNull];
       col "name" "character varying" [len 255; notNull];
       col "starts_at" "TIMESTAMP" [notNull];
       col "ends_at" "TIMESTAMP" [notNull];
       col "reward_pool_stroops" "bigint" [notNull; dflt "0"];
       col "is_active" "boolean" [notNull; dflt "false"];
       col "on_chain_season_id" "integer" [];
       col "soroban_tx_hash" "character varying" [len 128];
       col "created_at" "TIMESTAMP" [notNull; dflt "now()"];
       col "updated_at" "TIMESTAMP" [notNull; dflt "now()"]]
      [((Named "PK_seasons"), (PRIMARY_KEY ["id"]));
       ((Named "UQ_seasons_season_number"), (UNIQUE ["season_number"]))];
    CREATE_INDEX false (Named "IDX_seasons_is_active") (ix "seasons" ["is_active"] false "" false);
    CREATE_INDEX false (Named "IDX_seasons_starts_ends") (ix "seasons" ["starts_at"; "ends_at"] false "" false) ].

Definition CreateSeasonsTable1774650000000_down : list stmt :=
  [ DROP_INDEX false (Named "IDX_seasons_starts_ends");
    DROP_INDEX false (Named "IDX_seasons_is_active");
    DROP_TABLE false false "seasons" ].

(** *** [AddSeasonFinalizationColumns1774660000000] *)

Definition AddSeasonFinalizationColumns1774660000000_up : list stmt :=
  [ ADD_COLUMN false "seasons" (col "is_finalized" "boolean" [notNull; dflt "false"]);
    ADD_COLUMN false "seasons" (col "top_winner_user_id" "uuid" [isNullable]);
    ADD_CONSTRAINT "seasons" (Named "FK_seasons_top_winner_user") (FOREIGN_KEY ["top_winner_user_id"] "users" ["id"] "SET NULL");
    CREATE_INDEX false (Named "IDX_seasons_is_finalized") (ix "seasons" ["is_finalized"] false "" false) ].

Definition AddSeasonFinalizationColumns1774660000000_down : list stmt :=
  [ DROP_INDEX false (Named "IDX_seasons_is_finalized");
    DROP_CONSTRAINT "seasons" (Named "FK_seasons_top_winner_user");
    DROP_COLUMN false "seasons" "top_winner_user_id";
    DROP_COLUMN false "seasons" "is_finalized" ].

(** *** [AdminFeatures1774670000000] *)

Definition AdminFeatures1774670000000_up : list stmt :=
  [ ADD_COLUMN false "users" (col "is_banned" "boolean" [notNull; dflt "false"]);
    ADD_COLUMN false "users" (col "ban_reason" "character varying" []);
    ADD_COLUMN false "users" (col "banned_at" "TIMESTAMP" []);
    ADD_COLUMN false "users" (col "banned_by" "uuid" []);
    CREATE_TABLE "activity_logs"
      [col "id" "uuid" [notNull; dflt "uuid_generate_v4()"];
       col "userId" "uuid" [notNull];
       col "actionType" "character varying" [notNull];
       col "actionDetails" "jsonb" [];
       col "ipAddress" "character varying" [];
       col "timestamp" "TIMESTAMP" [notNull; dflt "now()"]]
      [((Named "PK_activity_logs_id"), (PRIMARY_KEY ["id"]))];
    ADD_CONSTRAINT "activity_logs" (Named "FK_activity_logs_userId") (FOREIGN_KEY ["userId"] "users" ["id"] "CASCADE") ].

Definition AdminFeatures1774670000000_down : list stmt :=
  [ DROP_CONSTRAINT "activity_logs" (Named "FK_activity_logs_userId");
    DROP_TABLE false false "activity_logs";
    DROP_COLUMN false "users" "banned_by";
    DROP_COLUMN false "users" "banned_at";
    DROP_COLUMN false "users" "ban_reason";
    DROP_COLUMN false "users" "is_banned" ].

(** *** [CreateFlagEntity1774670001000] *)

Definition CreateFlagEntity1774670001000_up : list stmt :=
  [ CREATE_TABLE "flags"
      [col "id" "uuid" [notNull; dflt "uuid_generate_v4()"];
       col "market_id" "uuid" [notNull];
       col "user_id" "uuid" [notNull];
       col "reason" "character varying" [notNull];
       col "status" "character varying" [notNull; dflt "'pending'"];
       col "description" "text" [];
       col "resolution_action" "character varying" [];
       col "admin_notes" "text" [];
       col "resolved_by" "uuid" [];
       col "resolved_at" "TIMESTAMP WITH TIME ZONE" [];
       col "created_at" "TIMESTAMP" [notNull; dflt "now()"]]
      [((Named "PK_f8a1c3e4b2d6a7f8c9e0d1a2b3"), (PRIMARY_KEY ["id"]))];
    CREATE_INDEX false (Named "IDX_flags_market_id") (ix "flags" ["market_id"] false "" false);
    CREATE_INDEX false (Named "IDX_flags_user_id") (ix "flags" ["user_id"] false "" false);
    CREATE_INDEX false (Named "IDX_flags_status") (ix "flags" ["status"] false "" false);
    CREATE_INDEX false (Named "IDX_flags_reason") (ix "flags" ["reason"] false "" false);
    ADD_CONSTRAINT "flags" (Named "FK_flags_market_id") (FOREIGN_KEY ["market_id"] "markets" ["id"] "CASCADE");
    ADD_CONSTRAINT "flags" (Named "FK_flags_user_id") (FOREIGN_KEY ["user_id"] "users" ["id"] "CASCADE");
    ADD_CONSTRAINT "flags" (Named "FK_flags_resolved_by") (FOREIGN_KEY ["resolved_by"] "users" ["id"] "SET NULL") ].

Definition CreateFlagEntity1774670001000_down : list stmt :=
  [ DROP_CONSTRAINT "flags" (Named "FK_flags_resolved_by");
    DROP_CONSTRAINT "flags" (Named "FK_flags_user_id");
    DROP_CONSTRAINT "flags" (Named "FK_flags_market_id");
    DROP_INDEX false (Named "IDX_flags_reason");
    DROP_INDEX false (Named "IDX_flags_status");
    DROP_INDEX false (Named "IDX_flags_user_id");
    DROP_INDEX false (Named "IDX_flags_market_id");
    DROP_TABLE false false "flags" ].

(** *** [CreateCommentsTable1774800000000] *)

Definition CreateCommentsTable1774800000000_up : list stmt :=
  [ createTable (Table "comments"
      [col "id" "uuid" [isPrimary; isGenerated; generationStrategy "uuid"];
       col "content" "text" [];
       col "authorId" "uuid" [];
       col "marketId" "uuid" [];
       col "parentId" "uuid" [isNullable];
       col "is_moderated" "boolean" [dflt "false"];
       col "moderation_reason" "varchar" [isNullable];
       col "created_at" "timestamp" [dflt "now()"];
       col "updated_at" "timestamp" [dflt "now()"]]
      [] []) true;
    createForeignKey "comments" (Generated "FK" "comments" ["authorId"]) (FOREIGN_KEY ["authorId"] "users" ["id"] "CASCADE");
    createForeignKey "comments" (Generated "FK" "comments" ["marketId"]) (FOREIGN_KEY ["marketId"] "markets" ["id"] "CASCADE");
    createForeignKey "comments" (Generated "FK" "comments" ["parentId"]) (FOREIGN_KEY ["parentId"] "comments" ["id"] "CASCADE");
    createIndex (Named "IDX_COMMENTS_AUTHOR") (ix "comments" ["authorId"] false "" false);
    createIndex (Named "IDX_COMMENTS_MARKET") (ix "comments" ["marketId"] false "" false);
    createIndex (Named "IDX_COMMENTS_PARENT") (ix "comments" ["parentId"] false "" false) ].

Definition CreateCommentsTable1774800000000_down : list stmt :=
  [ dropTable "comments" false ].

(** *** [AddFeaturedFieldsToMarket1774821713259] *)

Definition AddFeaturedFieldsToMarket1774821713259_up : list stmt :=
  [ ADD_COLUMN false "markets" (col "is_featured" "boolean" [notNull; dflt "false"]);
    ADD_COLUMN false "markets" (col "featured_at" "TIMESTAMP WITH TIME ZONE" []);
    CREATE_INDEX false (Named "IDX_is_featured") (ix "markets" ["is_featured"] false "" false) ].

Definition AddFeaturedFieldsToMarket1774821713259_down : list stmt :=
  [ DROP_INDEX false (Named "IDX_is_featured");
    DROP_COLUMN false "markets" "featured_at";
    DROP_COLUMN false "markets" "is_featured" ].

(** *** [CreateMarketTemplatesTable1774900000000] *)

Definition CreateMarketTemplatesTable1774900000000_up : list stmt :=
  [ createTable (Table "market_templates"
      [col "id" "uuid" [isPrimary; isGenerated; generationStrategy "uuid"];
       col "title" "varchar" [];
       col "description" "text" [];
       col "category" "varchar" [];
       col "outcome_options" "text" [];
       col "suggested_duration_days" "integer" [];
       col "created_at" "timestamp" [dflt "now()"]]
      [] []) true;
    INSERT "market_templates" ["title"; "description"; "category"; "outcome_options"; "suggested_duration_days"];
    INSERT "market_templates" ["title"; "description"; "category"; "outcome_options"; "suggested_duration_days"];
    INSERT "market_templates" ["title"; "description"; "category"; "outcome_options"; "suggested_duration_days"];
    INSERT "market_templates" ["title"; "description"; "category"; "outcome_options"; "suggested_duration_days"] ].

Definition CreateMarketTemplatesTable1774900000000_down : list stmt :=
  [ dropTable "market_templates" false ].

(** *** [AddPredictionNoteColumn1775000000000] *)

Definition AddPredictionNoteColumn1775000000000_up : list stmt :=
  [ ADD_COLUMN false "predictions" (col "note" "text" []) ].

Definition AddPredictionNoteColumn1775000000000_down : list stmt :=
  [ DROP_COLUMN false "predictions" "note" ].

(** *** [CreateLeaderboardHistoryTable1775000000000] *)

Definition CreateLeaderboardHistoryTable1775000000000_up : list stmt :=
  [ CREATE_TABLE "leaderboard_history"
      [col "id" "uuid" [isPrimary; dflt "uuid_generate_v4()"];
       col "user_id" "uuid" [notNull];
       col "snapshot_date" "DATE" [notNull];
       col "rank" "integer" [notNull; dflt "0"];
       col "reputation_score" "integer" [notNull; dflt "0"];
       col "season_points" "integer" [notNull; dflt "0"];
       col "total_predictions" "integer" [notNull; dflt "0"];
       col "correct_predictions" "integer" [notNull; dflt "0"];
       col "total_winnings_stroops" "bigint" [notNull; dflt "0"];
       col "season_id" "uuid" [];
       col "created_at" "TIMESTAMP" [notNull; dflt "now()"]]
      [((Named "FK_leaderboard_history_user"), (FOREIGN_KEY ["user_id"] "users" ["id"] "CASCADE"));
       ((Named "UQ_leaderboard_history_user_date_season"), (UNIQUE ["user_id"; "snapshot_date"; "season_id"]))];
    CREATE_INDEX false (Named "IDX_leaderboard_history_snapshot_date") (ix "leaderboard_history" ["snapshot_date"] false "" false);
    CREATE_INDEX false (Named "IDX_leaderboard_history_user_id") (ix "leaderboard_history" ["user_id"] false "" false);
    CREATE_INDEX false (Named "IDX_leaderboard_history_season_id") (ix "leaderboard_history" ["season_id"] false "" false) ].

Definition CreateLeaderboardHistoryTable1775000000000_down : list stmt :=
  [ DROP_INDEX false (Named "IDX_leaderboard_history_season_id");
    DROP_INDEX false (Named "IDX_leaderboard_history_user_id");
    DROP_INDEX false (Named "IDX_leaderboard_history_snapshot_date");
    DROP_TABLE false false "leaderboard_history" ].

(** *** [UpdateNotificationSchema1775100000000] *)

Definition UpdateNotificationSchema1775100000000_up : list stmt :=
  [ DROP_CONSTRAINT "notifications" (Named "FK_notifications_user");
    DROP_INDEX false (Named "IDX_notifications_user_id_is_read");
    DROP_INDEX false (Named "IDX_notifications_user_id");
    DROP_TYPE false false "notifications_type_enum";
    DROP_TABLE false false "notifications";
    CREATE_TABLE "notifications"
      [col "id" "bigserial" [notNull];
       col "user_address" "character varying" [notNull];
       col "type" "character varying" [notNull];
       col "title" "character varying" [notNull];
       col "message" "text" [notNull];
       col "data" "jsonb" [];
       col "read" "boolean" [notNull; dflt "false"];
       col "created_at" "TIMESTAMP" [notNull; dflt "now()"];
       col "deleted_at" "TIMESTAMP" []]
      [((Named "PK_notifications"), (PRIMARY_KEY ["id"]))];
    CREATE_INDEX false (Named "IDX_notifications_user_address") (ix "notifications" ["user_address"] false "" false);
    CREATE_INDEX false (Named "IDX_notifications_type") (ix "notifications" ["type"] false "" false);
    CREATE_INDEX false (Named "IDX_notifications_read") (ix "notifications" ["read"] false "" false);
    CREATE_INDEX false (Named "IDX_notifications_created_at") (ix "notifications" ["created_at"] false "" false);
    CREATE_INDEX false (Named "IDX_notifications_user_address_read_created_at") (ix "notifications" ["user_address"; "read"; "created_at"] false "" false) ].

Definition UpdateNotificationSchema1775100000000_down : list stmt :=
  [ DROP_INDEX false (Named "IDX_notifications_user_address_read_created_at");
    DROP_INDEX false (Named "IDX_notifications_created_at");
    DROP_INDEX false (Named "IDX_notifications_read");
    DROP_INDEX false (Named "IDX_notifications_type");
    DROP_INDEX false (Named "IDX_notifications_user_address");
    DROP_TABLE false false "notifications";
    CREATE_TYPE "notifications_type_enum" ["competition_started"; "competition_ended"; "leaderboard_updated"; "market_resolved"; "system"];
    CREATE_TABLE "notifications"
      [col "id" "uuid" [notNull; dflt "uuid_generate_v4()"];
       col "user_id" "uuid" [notNull];
       col "type" "notifications_type_enum" [userType; notNull];
       col "title" "character varying" [notNull];
       col "message" "text" [notNull];
       col "is_read" "boolean" [notNull; dflt "false"];
       col "metadata" "jsonb" [];
       col "created_at" "TIMESTAMP" [notNull; dflt "now()"]]
      [((Named "PK_notifications"), (PRIMARY_KEY ["id"]))];
    CREATE_INDEX false (Named "IDX_notifications_user_id") (ix "notifications" ["user_id"] false "" false);
    CREATE_INDEX false (Named "IDX_notifications_user_id_is_read") (ix "notifications" ["user_id"; "is_read"] false "" false);
    ADD_CONSTRAINT "notifications" (Named "FK_notifications_user") (FOREIGN_KEY ["user_id"] "users" ["id"] "CASCADE") ].

(** *** [AddSoftDeleteToNotifications1775200000000] *)

Definition AddSoftDeleteToNotifications1775200000000_up : list stmt :=
  [ ADD_COLUMN false "notifications" (col "deleted_at" "TIMESTAMP" []) ].

Definition AddSoftDeleteToNotifications1775200000000_down : list stmt :=
  [ DROP_COLUMN false "notifications" "deleted_at" ].

(** *** [AddParticipantCountToSeasons1775300000000] *)

Definition AddParticipantCountToSeasons1775300000000_up : list stmt :=
  [ ADD_COLUMN false "seasons" (col "participant_count" "integer" [notNull; dflt "0"]) ].

Definition AddParticipantCountToSeasons1775300000000_down : list stmt :=
  [ DROP_COLUMN false "seasons" "participant_count" ].

(** *** [CreateUserPreferencesTable1775300000000] *)

Definition CreateUserPreferencesTable1775300000000_up : list stmt :=
  [ CREATE_TABLE "user_preferences"
      [col "id" "uuid" [notNull; dflt "uuid_generate_v4()"];
       col "user_id" "uuid" [notNull];
       col "email_notifications" "boolean" [notNull; dflt "true"];
       col "market_resolution_notifications" "boolean" [notNull; dflt "true"];
       col "competition_notifications" "boolean" [notNull; dflt "true"];
       col "leaderboard_notifications" "boolean" [notNull; dflt "true"];
       col "marketing_emails" "boolean" [notNull; dflt "false"];
       col "created_at" "TIMESTAMP" [notNull; dflt "now()"];
       col "updated_at" "TIMESTAMP" [notNull; dflt "now()"]]
      [((Named "REL_user_preferences_user_id"), (UNIQUE ["user_id"]));
       ((Named "PK_user_preferences_id"), (PRIMARY_KEY ["id"]));
       ((Named "FK_user_preferences_user_id"), (FOREIGN_KEY ["user_id"] "users" ["id"] "CASCADE"))];
    CREATE_INDEX false (Named "IDX_user_preferences_user_id") (ix "user_preferences" ["user_id"] false "" false) ].

Definition CreateUserPreferencesTable1775300000000_down : list stmt :=
  [ DROP_INDEX false (Named "IDX_user_preferences_user_id");
    DROP_TABLE false false "user_preferences" ].

(** *** [CreateUserFollowsTable1775310000000] *)

Definition CreateUserFollowsTable1775310000000_up : list stmt :=
  [ CREATE_TABLE "user_follows"
      [col "id" "uuid" [notNull; dflt "uuid_generate_v4()"];
       col "follower_id" "uuid" [notNull];
       col "following_id" "uuid" [notNull];
       col "created_at" "TIMESTAMP" [notNull; dflt "now()"]]
      [((Named "UQ_user_follows_follower_following"), (UNIQUE ["follower_id"; "following_id"]));
       ((Named "PK_user_follows_id"), (PRIMARY_KEY ["id"]));
       ((Named "FK_user_follows_follower_id"), (FOREIGN_KEY ["follower_id"] "users" ["id"] "CASCADE"));
       ((Named "FK_user_follows_following_id"), (FOREIGN_KEY ["following_id"] "users" ["id"] "CASCADE"))];
    CREATE_INDEX false (Named "IDX_user_follows_follower_id") (ix "user_follows" ["follower_id"] false "" false);
    CREATE_INDEX false (Named "IDX_user_follows_following_id") (ix "user_follows" ["following_id"] false "" false) ].

Definition CreateUserFollowsTable1775310000000_down : list stmt :=
  [ DROP_INDEX false (Named "IDX_user_follows_following_id");
    DROP_INDEX false (Named "IDX_user_follows_follower_id");
    DROP_TABLE false false "user_follows" ].

(** *** [AddCompetitionCancelledFlag1775400000000] *)

Definition AddCompetitionCancelledFlag1775400000000_up : list stmt :=
  [ ADD_COLUMN false "competitions" (col "is_cancelled" "boolean" [notNull; dflt "false"]) ].

Definition AddCompetitionCancelledFlag1775400000000_down : list stmt :=
  [ DROP_COLUMN false "competitions" "is_cancelled" ].

(** *** [CreateDisputesTable1775500000000] *)

Definition CreateDisputesTable1775500000000_up : list stmt :=
  [ createTable (Table "disputes"
      [col "id" "uuid" [isPrimary; generationStrategy "uuid"; dflt "uuid_generate_v4()"];
       col "market_id" "uuid" [notNull];
       col "disputant_id" "uuid" [notNull];
       col "reason" "text" [notNull];
       col "status" "varchar" [len 20; dflt "'pending'"; notNull];
       col "resolution" "varchar" [len 20; isNullable];
       col "admin_notes" "text" [isNullable];
       col "resolved_by_id" "uuid" [isNullable];
       col "resolved_at" "timestamp" [isNullable];
       col "on_chain_dispute_id" "varchar" [len 255; isNullable];
       col "on_chain_resolution_tx" "varchar" [len 255; isNullable];
       col "created_at" "timestamp" [dflt "CURRENT_TIMESTAMP"; notNull]]
      [((Named "FK_disputes_market_id"), (FOREIGN_KEY ["market_id"] "markets" ["id"] "CASCADE")); ((Named "FK_disputes_disputant_id"), (FOREIGN_KEY ["disputant_id"] "users" ["id"] "CASCADE")); ((Named "FK_disputes_resolved_by_id"), (FOREIGN_KEY ["resolved_by_id"] "users" ["id"] "SET NULL"))] []) true;
    createIndex (Named "IDX_disputes_market_id") (ix "disputes" ["market_id"] false "" false);
    createIndex (Named "IDX_disputes_disputant_id") (ix "disputes" ["disputant_id"] false "" false);
    createIndex (Named "IDX_disputes_status") (ix "disputes" ["status"] false "" false);
    createIndex (Named "IDX_disputes_resolved_by_id") (ix "disputes" ["resolved_by_id"] false "" false) ].

Definition CreateDisputesTable1775500000000_down : list stmt :=
  [ dropTable "disputes" false ].

(** *** [AddCreatorEventsSearchIndexes1775600000000] *)

Definition AddCreatorEventsSearchIndexes1775600000000_up : list stmt :=
  [ CREATE_INDEX true (Named "IDX_creator_events_search_vector") (ix "creator_events" ["title"; "description"; "creator_address"] false "" false);
    CREATE_INDEX true (Named "IDX_creator_events_status_creator") (ix "creator_events" ["is_active"; "is_cancelled"; "creator_address"] false "" false) ].

Definition AddCreatorEventsSearchIndexes1775600000000_down : list stmt :=
  [ DROP_INDEX true (Named "IDX_creator_events_status_creator");
    DROP_INDEX true (Named "IDX_creator_events_search_vector") ].

(** *** [AddFilteringIndexes1775700000000] *)

Definition AddFilteringIndexes1775700000000_up : list stmt :=
  [ CREATE_INDEX true (Named "IDX_creator_events_status_created") (ix "creator_events" ["is_active"; "is_cancelled"; "created_at"] false "" false);
    CREATE_INDEX true (Named "IDX_creator_events_creator_created") (ix "creator_events" ["creator_address"; "created_at"] false "" false);
    CREATE_INDEX true (Named "IDX_creator_events_participant_count") (ix "creator_events" ["participant_count"] false "" false);
    CREATE_INDEX true (Named "IDX_creator_events_match_count") (ix "creator_events" ["match_count"] false "" false);
    CREATE_INDEX true (Named "IDX_event_matches_result_match_time") (ix "event_matches" ["result_submitted"; "match_time"] false "" false);
    CREATE_INDEX true (Named "IDX_event_matches_match_time") (ix "event_matches" ["match_time"] false "" false);
    CREATE_INDEX true (Named "IDX_event_matches_submitted_by") (ix "event_matches" ["submitted_by"] false "" false);
    CREATE_INDEX true (Named "IDX_predictions_submitted_at") (ix "predictions" ["submitted_at"] false "" false);
    CREATE_INDEX true (Named "IDX_predictions_payout_submitted") (ix "predictions" ["payout_claimed"; "submitted_at"] false "" false) ].

Definition AddFilteringIndexes1775700000000_down : list stmt :=
  [ DROP_INDEX true (Named "IDX_predictions_payout_submitted");
    DROP_INDEX true (Named "IDX_predictions_submitted_at");
    DROP_INDEX true (Named "IDX_event_matches_submitted_by");
    DROP_INDEX true (Named "IDX_event_matches_match_time");
    DROP_INDEX true (Named "IDX_event_matches_result_match_time");
    DROP_INDEX true (Named "IDX_creator_events_match_count");
    DROP_INDEX true (Named "IDX_creator_events_participant_count");
    DROP_INDEX true (Named "IDX_creator_events_creator_created");
    DROP_INDEX true (Named "IDX_creator_events_status_created") ].

(** *** [AddCreatorEventCampaignFields1775800000000] *)

Definition AddCreatorEventCampaignFields1775800000000_up : list stmt :=
  [ ADD_COLUMN true "creator_events" (col "start_time" "TIMESTAMP WITH TIME ZONE" []);
    ADD_COLUMN true "creator_events" (col "end_time" "TIMESTAMP WITH TIME ZONE" []);
    ADD_COLUMN true "creator_events" (col "prize_pool" "BIGINT" [dflt "'0'"]);
    ADD_COLUMN true "creator_events" (col "reward_distribution" "INTEGER" [isArray; dflt "'{}'::integer[]"]);
    ADD_COLUMN true "creator_events" (col "entry_fee" "BIGINT" [dflt "'0'"]);
    ADD_COLUMN true "creator_events" (col "category" "VARCHAR" [len 100; dflt "'general'"]);
    ADD_COLUMN true "creator_events" (col "banner_url" "VARCHAR" [len 2048]);
    ADD_COLUMN true "creator_events" (col "is_finalized" "BOOLEAN" [dflt "false"]);
    UPDATE_DELETE "creator_events" ["id"; "start_time"; "on_chain_created_at"; "created_at"; "category"; "end_time"; "prize_pool"; "reward_distribution"; "entry_fee"; "is_finalized"];
    SET_NOT_NULL "creator_events" "start_time";
    SET_NOT_NULL "creator_events" "end_time";
    SET_DEFAULT "creator_events" "prize_pool" "'0'";
    SET_NOT_NULL "creator_events" "prize_pool";
    SET_DEFAULT "creator_events" "reward_distribution" "'{}'::integer[]";
    SET_NOT_NULL "creator_events" "reward_distribution";
    SET_DEFAULT "creator_events" "entry_fee" "'0'";
    SET_NOT_NULL "creator_events" "entry_fee";
    SET_DEFAULT "creator_events" "category" "'general'";
    SET_NOT_NULL "creator_events" "category";
    SET_DEFAULT "creator_events" "is_finalized" "false";
    SET_NOT_NULL "creator_events" "is_finalized";
    CREATE_INDEX true (Named "IDX_creator_events_category") (ix "creator_events" ["category"] false "" false);
    CREATE_INDEX true (Named "IDX_creator_events_campaign_window") (ix "creator_events" ["is_active"; "is_cancelled"; "start_time"; "end_time"] false "" false) ].

Definition AddCreatorEventCampaignFields1775800000000_down : list stmt :=
  [ DROP_INDEX true (Named "IDX_creator_events_campaign_window");
    DROP_INDEX true (Named "IDX_creator_events_category");
    DROP_COLUMN true "creator_events" "is_finalized";
    DROP_COLUMN true "creator_events" "banner_url";
    DROP_COLUMN true "creator_events" "category";
    DROP_COLUMN true "creator_events" "entry_fee";
    DROP_COLUMN true "creator_events" "reward_distribution";
    DROP_COLUMN true "creator_events" "prize_pool";
    DROP_COLUMN true "creator_events" "end_time";
    DROP_COLUMN true "creator_events" "start_time" ].

(** *** [AddScoreAndMultiplierToMatch1775800000000] *)

Definition AddScoreAndMultiplierToMatch1775800000000_up : list stmt :=
  [ addColumn "event_matches" (col "home_score" "int" [isNullable]);
    addColumn "event_matches" (col "away_score" "int" [isNullable]);
    addColumn "event_matches" (col "points_multiplier" "int" [dflt "1"]) ].

Definition AddScoreAndMultiplierToMatch1775800000000_down : list stmt :=
  [ dropColumn "event_matches" "points_multiplier";
    dropColumn "event_matches" "away_score";
    dropColumn "event_matches" "home_score" ].

(** *** [AddScorelineAndPointsToMatchPrediction1775900000000] *)

Definition AddScorelineAndPointsToMatchPrediction1775900000000_up : list stmt :=
  [ addColumn "match_predictions" (col "predicted_home_score" "int" [isNullable]);
    addColumn "match_predictions" (col "predicted_away_score" "int" [isNullable]);
    addColumn "match_predictions" (col "points_earned" "int" [dflt "0"]) ].

Definition AddScorelineAndPointsToMatchPrediction1775900000000_down : list stmt :=
  [ dropColumn "match_predictions" "points_earned";
    dropColumn "match_predictions" "predicted_away_score";
    dropColumn "match_predictions" "predicted_home_score" ].

(** *** [AddTotalEntryFeesCollected1775900000000] *)

Definition AddTotalEntryFeesCollected1775900000000_up : list stmt :=
  [ ADD_COLUMN true "creator_events" (col "total_entry_fees_collected" "BIGINT" [dflt "'0'"]);
    UPDATE_DELETE "creator_events" ["total_entry_fees_collected"];
    SET_DEFAULT "creator_events" "total_entry_fees_collected" "'0'";
    SET_NOT_NULL "creator_events" "total_entry_fees_collected" ].

Definition AddTotalEntryFeesCollected1775900000000_down : list stmt :=
  [ DROP_COLUMN true "creator_events" "total_entry_fees_collected" ].

(** *** [CreateCreatorEventPayout1776000000000] *)

Definition CreateCreatorEventPayout1776000000000_up : list stmt :=
  [ createTable (Table "creator_event_payouts"
      [col "id" "uuid" [isPrimary; generationStrategy "uuid"; dflt "uuid_generate_v4()"];
       col "event_id" "varchar" [len 255; notNull];
       col "user_address" "varchar" [len 255; notNull];
       col "payout_amount_stroops" "bigint" [dflt "0"; notNull];
       col "is_claimed" "boolean" [dflt "false"; notNull];
       col "leaderboard_entry_id" "uuid" [notNull];
       col "created_at" "timestamptz" [dflt "CURRENT_TIMESTAMP"; notNull]]
      [] []) true;
    createIndex (Named "UQ_cep_event_address") (ix "creator_event_payouts" ["event_id"; "user_address"] true "" false);
    createIndex (Named "IDX_cep_event_id") (ix "creator_event_payouts" ["event_id"] false "" false);
    createForeignKey "creator_event_payouts" (Named "FK_cep_leaderboard_entry") (FOREIGN_KEY ["leaderboard_entry_id"] "creator_event_leaderboard_entries" ["id"] "CASCADE") ].

Definition CreateCreatorEventPayout1776000000000_down : list stmt :=
  [ dropTable "creator_event_payouts" false ].

(** *** [CreateWebhooksTablesWithDelivery1776100000000] *)

Definition CreateWebhooksTablesWithDelivery1776100000000_up : list stmt :=
  [ createTable (Table "webhook_endpoints"
      [col "id" "uuid" [isPrimary; generationStrategy "uuid"; dflt "uuid_generate_v4()"];
       col "userId" "uuid" [notNull];
       col "url" "varchar" [notNull];
       col "event_types" "text" [notNull];
       col "secret_key" "varchar" [len 64; notNull];
       col "is_active" "boolean" [dflt "true"; notNull];
       col "failure_count" "int" [dflt "0"; notNull];
       col "last_delivery_at" "timestamptz" [isNullable];
       col "last_failure_at" "timestamptz" [isNullable];
       col "created_at" "timestamptz" [dflt "CURRENT_TIMESTAMP"; notNull];
       col "updated_at" "timestamptz" [dflt "CURRENT_TIMESTAMP"; notNull]]
      [] []) true;
    createIndex (Named "IDX_we_user_id") (ix "webhook_endpoints" ["userId"] false "" false);
    createIndex (Named "IDX_we_user_is_active") (ix "webhook_endpoints" ["userId"; "is_active"] false "" false);
    createIndex (Named "IDX_we_event_types") (ix "webhook_endpoints" ["event_types"] false "" false);
    createForeignKey "webhook_endpoints" (Named "FK_we_user") (FOREIGN_KEY ["userId"] "users" ["id"] "CASCADE");
    createTable (Table "webhook_delivery_logs"
      [col "id" "uuid" [isPrimary; generationStrategy "uuid"; dflt "uuid_generate_v4()"];
       col "endpoint_id" "uuid" [notNull];
       col "event_type" "varchar" [notNull];
       col "payload" "jsonb" [notNull];
       col "status" "varchar" [dflt "'pending'"; notNull];
       col "attempt_count" "int" [dflt "0"; notNull];
       col "http_status_code" "int" [isNullable];
       col "error_message" "text" [isNullable];
       col "next_retry_at" "timestamptz" [isNullable];
       col "created_at" "timestamptz" [dflt "CURRENT_TIMESTAMP"; notNull];
       col "delivered_at" "timestamptz" [isNullable]]
      [] []) true;
    createIndex (Named "IDX_wdl_endpoint_id") (ix "webhook_delivery_logs" ["endpoint_id"] false "" false);
    createIndex (Named "IDX_wdl_status") (ix "webhook_delivery_logs" ["status"] false "" false);
    createIndex (Named "IDX_wdl_event_type") (ix "webhook_delivery_logs" ["event_type"] false "" false);
    createIndex (Named "IDX_wdl_endpoint_status") (ix "webhook_delivery_logs" ["endpoint_id"; "status"] false "" false);
    createIndex (Named "IDX_wdl_created_at") (ix "webhook_delivery_logs" ["created_at"] false "" false);
    createIndex (Named "IDX_wdl_endpoint_created_at") (ix "webhook_delivery_logs" ["endpoint_id"; "created_at"] false "" false);
    createForeignKey "webhook_delivery_logs" (Named "FK_wdl_endpoint") (FOREIGN_KEY ["endpoint_id"] "webhook_endpoints" ["id"] "CASCADE") ].

Definition CreateWebhooksTablesWithDelivery1776100000000_down : list stmt :=
  [ dropTable "webhook_delivery_logs" false;
    dropTable "webhook_endpoints" false ].

(** *** [AddNotificationDigest1776200000000] *)

Definition AddNotificationDigest1776200000000_up : list stmt :=
  [ ADD_COLUMN true "user_preferences" (col "digest_frequency" "varchar" [notNull; dflt "'off'"]);
    ADD_COLUMN true "users" (col "email" "varchar" [isNullable]);
    createTable (Table "notification_digest_state"
      [col "id" "uuid" [isPrimary; generationStrategy "uuid"; dflt "uuid_generate_v4()"];
       col "user_id" "uuid" [notNull];
       col "last_daily_period" "varchar" [isNullable];
       col "last_weekly_period" "varchar" [isNullable];
       col "updated_at" "timestamp" [dflt "now()"; onUpdate "now()"]]
      [] []) true;
    createIndex (Named "UQ_notification_digest_state_user_id") (ix "notification_digest_state" ["user_id"] true "" false) ].

Definition AddNotificationDigest1776200000000_down : list stmt :=
  [ dropTable "notification_digest_state" true;
    DROP_COLUMN true "users" "email";
    DROP_COLUMN true "user_preferences" "digest_frequency" ].

(** *** [AddSearchVectors1776200000000] *)

Definition AddSearchVectors1776200000000_up : list stmt :=
  [ ADD_COLUMN true "markets" (col "search_vector" "tsvector" [generatedAs ["title"; "description"]]);
    CREATE_INDEX true (Named "IDX_markets_search_vector") (ix "markets" ["search_vector"] false "" false);
    ADD_COLUMN true "users" (col "search_vector" "tsvector" [generatedAs ["username"; "stellar_address"]]);
    CREATE_INDEX true (Named "IDX_users_search_vector") (ix "users" ["search_vector"] false "" false);
    ADD_COLUMN true "competitions" (col "search_vector" "tsvector" [generatedAs ["title"; "description"]]);
    CREATE_INDEX true (Named "IDX_competitions_search_vector") (ix "competitions" ["search_vector"] false "" false) ].

Definition AddSearchVectors1776200000000_down : list stmt :=
  [ DROP_INDEX true (Named "IDX_markets_search_vector");
    DROP_COLUMN true "markets" "search_vector";
    DROP_INDEX true (Named "IDX_users_search_vector");
    DROP_COLUMN true "users" "search_vector";
    DROP_INDEX true (Named "IDX_competitions_search_vector");
    DROP_COLUMN true "competitions" "search_vector" ].

(** *** [CreateChainSyncCheckpointTable1776200000000] *)

Definition CreateChainSyncCheckpointTable1776200000000_up : list stmt :=
  [ createTable (Table "chain_sync_checkpoints"
      [col "contract_id" "varchar" [len 128; isPrimary];
       col "last_indexed_ledger" "bigint" [dflt "0"];
       col "chain_head_ledger" "bigint" [dflt "0"];
       col "last_reconciled_from" "bigint" [dflt "0"];
       col "last_reconciled_to" "bigint" [dflt "0"];
       col "last_reconciled_at" "timestamptz" [isNullable];
       col "last_backfill_count" "int" [dflt "0"];
       col "created_at" "timestamptz" [dflt "now()"];
       col "updated_at" "timestamptz" [dflt "now()"]]
      [] []) true ].

Definition CreateChainSyncCheckpointTable1776200000000_down : list stmt :=
  [ dropTable "chain_sync_checkpoints" false ].

(** *** [AddDataExportJobAndUserSoftDelete1776300000000] *)

Definition AddDataExportJobAndUserSoftDelete1776300000000_up : list stmt :=
  [ ADD_COLUMN false "users" (col "deleted_at" "TIMESTAMP" []);
    CREATE_TABLE "data_export_jobs"
      [col "id" "uuid" [notNull; dflt "uuid_generate_v4()"];
       col "user_id" "uuid" [notNull];
       col "status" "character varying" [notNull; dflt "'pending'"];
       col "file_path" "character varying" [];
       col "expires_at" "TIMESTAMP" [];
       col "created_at" "TIMESTAMP" [notNull; dflt "now()"];
       col "updated_at" "TIMESTAMP" [notNull; dflt "now()"]]
      [((Named "PK_data_export_jobs"), (PRIMARY_KEY ["id"]))];
    CREATE_INDEX false (Named "IDX_data_export_jobs_user_id") (ix "data_export_jobs" ["user_id"] false "" false);
    CREATE_INDEX false (Named "IDX_data_export_jobs_status") (ix "data_export_jobs" ["status"] false "" false);
    CREATE_INDEX false (Named "IDX_data_export_jobs_expires_at") (ix "data_export_jobs" ["expires_at"] false "expires_at IS NOT NULL" false) ].

Definition AddDataExportJobAndUserSoftDelete1776300000000_down : list stmt :=
  [ DROP_INDEX true (Named "IDX_data_export_jobs_expires_at");
    DROP_INDEX true (Named "IDX_data_export_jobs_status");
    DROP_INDEX true (Named "IDX_data_export_jobs_user_id");
    DROP_TABLE false false "data_export_jobs";
    DROP_COLUMN false "users" "deleted_at" ].

(** *** [CreateApiKeys1776400000000] *)

Definition CreateApiKeys1776400000000_up : list stmt :=
  [ createTable (Table "api_keys"
      [col "id" "uuid" [isPrimary; generationStrategy "uuid"; dflt "uuid_generate_v4()"];
       col "userId" "uuid" [notNull];
       col "name" "varchar" [len 100; notNull];
       col "key_prefix" "varchar" [len 12; notNull];
       col "key_hash" "varchar" [notNull];
       col "scopes" "text" [isArray; dflt "'{}'"; notNull];
       col "expires_at" "timestamptz" [isNullable];
       col "revoked_at" "timestamptz" [isNullable];
       col "last_used_at" "timestamptz" [isNullable];
       col "created_at" "timestamptz" [dflt "CURRENT_TIMESTAMP"; notNull];
       col "updated_at" "timestamptz" [dflt "CURRENT_TIMESTAMP"; notNull]]
      [] []) true;
    createIndex (Named "IDX_ak_user_id") (ix "api_keys" ["userId"] false "" false);
    createIndex (Named "IDX_ak_key_prefix") (ix "api_keys" ["key_prefix"] false "" false);
    createIndex (Named "IDX_ak_revoked_at") (ix "api_keys" ["revoked_at"] false "" false);
    createIndex (Named "IDX_ak_expires_at") (ix "api_keys" ["expires_at"] false "" false);
    createIndex (Named "IDX_ak_user_revoked") (ix "api_keys" ["userId"; "revoked_at"] false "" false);
    createForeignKey "api_keys" (Named "FK_ak_user") (FOREIGN_KEY ["userId"] "users" ["id"] "CASCADE") ].

Definition CreateApiKeys1776400000000_down : list stmt :=
  [ dropForeignKey "api_keys" (Named "FK_ak_user");
    dropTable "api_keys" false ].

(** *** [CreateIdempotencyKeys1776500000000] *)

Definition CreateIdempotencyKeys1776500000000_up : list stmt :=
  [ createTable (Table "idempotency_keys"
      [col "id" "uuid" [isPrimary; generationStrategy "uuid"; dflt "uuid_generate_v4()"];
       col "key" "varchar" [len 255; notNull];
       col "userId" "uuid" [notNull];
       col "request_hash" "varchar" [len 64; notNull];
       col "status_code" "int" [isNullable];
       col "response_body" "jsonb" [isNullable];
       col "in_progress" "boolean" [dflt "true"; notNull];
       col "created_at" "timestamptz" [dflt "CURRENT_TIMESTAMP"; notNull]]
      [] []) true;
    createIndex (Named "IDX_idempotency_key_user") (ix "idempotency_keys" ["key"; "userId"] true "" false);
    createIndex (Named "IDX_idempotency_created_at") (ix "idempotency_keys" ["created_at"] false "" false);
    createForeignKey "idempotency_keys" (Named "FK_idempotency_user") (FOREIGN_KEY ["userId"] "users" ["id"] "CASCADE") ].

Definition CreateIdempotencyKeys1776500000000_down : list stmt :=
  [ dropForeignKey "idempotency_keys" (Named "FK_idempotency_user");
    dropTable "idempotency_keys" false ].

(** *** [AddPgTrgmAndTrigramIndexes1776600000000] *)

Definition AddPgTrgmAndTrigramIndexes1776600000000_up : list stmt :=
  [ CREATE_EXTENSION "pg_trgm";
    CREATE_INDEX true (Named "IDX_markets_title_trgm") (ix "markets" ["title"] false "" false);
    CREATE_INDEX true (Named "IDX_markets_description_trgm") (ix "markets" ["description"] false "" false);
    CREATE_INDEX true (Named "IDX_users_username_trgm") (ix "users" ["username"] false "" false);
    CREATE_INDEX true (Named "IDX_competitions_title_trgm") (ix "competitions" ["title"] false "" false);
    CREATE_INDEX true (Named "IDX_competitions_description_trgm") (ix "competitions" ["description"] false "" false) ].

Definition AddPgTrgmAndTrigramIndexes1776600000000_down : list stmt :=
  [ DROP_INDEX true (Named "IDX_competitions_description_trgm");
    DROP_INDEX true (Named "IDX_competitions_title_trgm");
    DROP_INDEX true (Named "IDX_users_username_trgm");
    DROP_INDEX true (Named "IDX_markets_description_trgm");
    DROP_INDEX true (Named "IDX_markets_title_trgm") ].

(** *** [CreateLeaderboardSnapshotsTable1776600000000] *)

Definition CreateLeaderboardSnapshotsTable1776600000000_up : list stmt :=
  [ CREATE_TABLE "leaderboard_snapshots"
      [col "id" "uuid" [isPrimary; dflt "uuid_generate_v4()"];
       col "user_id" "uuid" [notNull];
       col "season_id" "uuid" [];
       col "captured_at" "TIMESTAMPTZ" [notNull];
       col "rank" "integer" [notNull; dflt "0"];
       col "score" "integer" [notNull; dflt "0"];
       col "created_at" "TIMESTAMP" [notNull; dflt "now()"]]
      [((Named "FK_leaderboard_snapshots_user"), (FOREIGN_KEY ["user_id"] "users" ["id"] "CASCADE"));
       ((Named "UQ_leaderboard_snapshots_user_season_captured"), (UNIQUE ["user_id"; "season_id"; "captured_at"]))];
    CREATE_INDEX false (Named "IDX_leaderboard_snapshots_season_captured") (ix "leaderboard_snapshots" ["season_id"; "captured_at"] false "" false);
    CREATE_INDEX false (Named "IDX_leaderboard_snapshots_user_captured") (ix "leaderboard_snapshots" ["user_id"; "captured_at"] false "" false) ].

Definition CreateLeaderboardSnapshotsTable1776600000000_down : list stmt :=
  [ DROP_INDEX false (Named "IDX_leaderboard_snapshots_user_captured");
    DROP_INDEX false (Named "IDX_leaderboard_snapshots_season_captured");
    DROP_TABLE false false "leaderboard_snapshots" ].

(** *** [AddMarketSettlementState1776700000000] *)

Definition AddMarketSettlementState1776700000000_up : list stmt :=
  [ CREATE_TYPE "market_settlement_state" ["pending"; "proposed"; "challenged"; "settled"];
    ADD_COLUMN false "markets" (col "settlement_state" "market_settlement_state" [userType; notNull; dflt "'pending'"]);
    ADD_COLUMN false "markets" (col "proposed_outcome" "character varying" []);
    ADD_COLUMN false "markets" (col "resolution_proposed_at" "TIMESTAMP WITH TIME ZONE" []);
    ADD_COLUMN false "markets" (col "grace_period_seconds" "integer" [notNull; dflt "86400"]);
    CREATE_INDEX false (Named "IDX_markets_settlement_state") (ix "markets" ["settlement_state"] false "" false) ].

Definition AddMarketSettlementState1776700000000_down : list stmt :=
  [ DROP_INDEX false (Named "IDX_markets_settlement_state");
    DROP_COLUMN false "markets" "grace_period_seconds";
    DROP_COLUMN false "markets" "resolution_proposed_at";
    DROP_COLUMN false "markets" "proposed_outcome";
    DROP_COLUMN false "markets" "settlement_state";
    DROP_TYPE false false "market_settlement_state" ].

(** *** [AddOracleAnomalyDetection1776700000000] *)

Definition AddOracleAnomalyDetection1776700000000_up : list stmt :=
  [ CREATE_TYPE "oracle_submissions_review_status_enum" ["not_required"; "held"; "approved"; "rejected"];
    ADD_COLUMN false "oracle_submissions" (col "is_anomaly" "boolean" [notNull; dflt "false"]);
    ADD_COLUMN false "oracle_submissions" (col "anomaly_score" "double precision" []);
    ADD_COLUMN false "oracle_submissions" (col "review_status" "oracle_submissions_review_status_enum" [userType; notNull; dflt "'not_required'"]);
    ADD_COLUMN false "oracle_submissions" (col "reviewed_by" "varchar" [len 255]);
    ADD_COLUMN false "oracle_submissions" (col "reviewed_at" "TIMESTAMPTZ" []);
    CREATE_INDEX false (Named "IDX_oracle_submissions_is_anomaly") (ix "oracle_submissions" ["is_anomaly"] false "" false);
    CREATE_INDEX false (Named "IDX_oracle_submissions_review_status") (ix "oracle_submissions" ["review_status"] false "" false);
    CREATE_INDEX false (Named "IDX_oracle_submissions_data_source_created") (ix "oracle_submissions" ["data_source"; "created_at"] false "" false);
    CREATE_TABLE "oracle_submission_flags"
      [col "id" "uuid" [isPrimary; dflt "uuid_generate_v4()"];
       col "submission_id" "uuid" [notNull];
       col "match_id" "varchar" [len 255; notNull];
       col "data_source" "varchar" [len 500; notNull];
       col "observed_value" "double precision" [notNull];
       col "baseline_mean" "double precision" [notNull];
       col "baseline_stddev" "double precision" [notNull];
       col "deviation" "double precision" [notNull];
       col "threshold" "double precision" [notNull];
       col "sample_size" "integer" [notNull];
       col "held" "boolean" [notNull; dflt "false"];
       col "reason" "varchar" [len 500];
       col "created_at" "TIMESTAMPTZ" [notNull; dflt "now()"]]
      [((Named "FK_oracle_submission_flags_submission"), (FOREIGN_KEY ["submission_id"] "oracle_submissions" ["id"] "CASCADE"))];
    CREATE_INDEX false (Named "IDX_oracle_submission_flags_submission") (ix "oracle_submission_flags" ["submission_id"] false "" false);
    CREATE_INDEX false (Named "IDX_oracle_submission_flags_source_created") (ix "oracle_submission_flags" ["data_source"; "created_at"] false "" false);
    CREATE_INDEX false (Named "IDX_oracle_submission_flags_held") (ix "oracle_submission_flags" ["held"] false "" false) ].

Definition AddOracleAnomalyDetection1776700000000_down : list stmt :=
  [ DROP_INDEX false (Named "IDX_oracle_submission_flags_held");
    DROP_INDEX false (Named "IDX_oracle_submission_flags_source_created");
    DROP_INDEX false (Named "IDX_oracle_submission_flags_submission");
    DROP_TABLE false false "oracle_submission_flags";
    DROP_INDEX false (Named "IDX_oracle_submissions_data_source_created");
    DROP_INDEX false (Named "IDX_oracle_submissions_review_status");
    DROP_INDEX false (Named "IDX_oracle_submissions_is_anomaly");
    DROP_COLUMN false "oracle_submissions" "reviewed_at";
    DROP_COLUMN false "oracle_submissions" "reviewed_by";
    DROP_COLUMN false "oracle_submissions" "review_status";
    DROP_COLUMN false "oracle_submissions" "anomaly_score";
    DROP_COLUMN false "oracle_submissions" "is_anomaly";
    DROP_TYPE false false "oracle_submissions_review_status_enum" ].

(** *** [CreateUserFlags1776800000000] *)

Definition CreateUserFlags1776800000000_up : list stmt :=
  [ createTable (Table "user_flags"
      [col "id" "uuid" [isPrimary; generationStrategy "uuid"; dflt "uuid_generate_v4()"];
       col "user_id" "uuid" [notNull];
       col "reason" "varchar" [len 500; isNullable];
       col "flagged_by" "varchar" [notNull];
       col "created_at" "timestamptz" [dflt "CURRENT_TIMESTAMP"; notNull]]
      [] []) true;
    createIndex (Named "IDX_user_flags_user_id") (ix "user_flags" ["user_id"] false "" false);
    createForeignKey "user_flags" (Named "FK_user_flags_user") (FOREIGN_KEY ["user_id"] "users" ["id"] "CASCADE") ].

Definition CreateUserFlags1776800000000_down : list stmt :=
  [ dropForeignKey "user_flags" (Named "FK_user_flags_user");
    dropTable "user_flags" false ].

(** *** [CreateDisputeEvidence1776900000000] *)

Definition CreateDisputeEvidence1776900000000_up : list stmt :=
  [ createTable (Table "dispute_evidence"
      [col "id" "uuid" [isPrimary; generationStrategy "uuid"; dflt "uuid_generate_v4()"];
       col "dispute_id" "uuid" [notNull];
       col "uploaded_by_id" "uuid" [notNull];
       col "file_url" "varchar" [len 2048; notNull];
       col "file_name" "varchar" [len 255; notNull];
       col "mime_type" "varchar" [len 100; notNull];
       col "size_bytes" "bigint" [notNull];
       col "description" "text" [isNullable];
       col "created_at" "timestamptz" [dflt "CURRENT_TIMESTAMP"; notNull]]
      [] []) true;
    createIndex (Named "IDX_dispute_evidence_dispute_id") (ix "dispute_evidence" ["dispute_id"] false "" false);
    createIndex (Named "IDX_dispute_evidence_uploaded_by_id") (ix "dispute_evidence" ["uploaded_by_id"] false "" false);
    createForeignKey "dispute_evidence" (Named "FK_dispute_evidence_dispute") (FOREIGN_KEY ["dispute_id"] "disputes" ["id"] "CASCADE");
    createForeignKey "dispute_evidence" (Named "FK_dispute_evidence_uploaded_by") (FOREIGN_KEY ["uploaded_by_id"] "users" ["id"] "CASCADE") ].

Definition CreateDisputeEvidence1776900000000_down : list stmt :=
  [ dropForeignKey "dispute_evidence" (Named "FK_dispute_evidence_uploaded_by");
    dropForeignKey "dispute_evidence" (Named "FK_dispute_evidence_dispute");
    dropTable "dispute_evidence" false ].

(** *** [CreateCompetitionBracket1777000000000] *)

Definition CreateCompetitionBracket1777000000000_up : list stmt :=
  [ CREATE_TYPE "competition_brackets_status_enum" ["pending"; "in_progress"; "completed"];
    CREATE_TABLE "competition_brackets"
      [col "id" "uuid" [isPrimary; dflt "uuid_generate_v4()"];
       col "competition_id" "uuid" [notNull];
       col "total_rounds" "integer" [notNull];
       col "status" "competition_brackets_status_enum" [userType; notNull; dflt "'pending'"];
       col "generated_at" "TIMESTAMPTZ" [notNull; dflt "now()"]]
      [((Named "FK_competition_brackets_competition"), (FOREIGN_KEY ["competition_id"] "competitions" ["id"] "CASCADE"))];
    CREATE_INDEX false (Named "IDX_competition_brackets_competition_id") (ix "competition_brackets" ["competition_id"] true "" false);
    CREATE_TABLE "bracket_rounds"
      [col "id" "uuid" [isPrimary; dflt "uuid_generate_v4()"];
       col "bracket_id" "uuid" [notNull];
       col "round_number" "integer" [notNull];
       col "name" "varchar" [len 255; notNull]]
      [((Named "FK_bracket_rounds_bracket"), (FOREIGN_KEY ["bracket_id"] "competition_brackets" ["id"] "CASCADE"))];
    CREATE_INDEX false (Named "IDX_bracket_rounds_bracket_round") (ix "bracket_rounds" ["bracket_id"; "round_number"] true "" false);
    CREATE_TABLE "bracket_matchups"
      [col "id" "uuid" [isPrimary; dflt "uuid_generate_v4()"];
       col "round_id" "uuid" [notNull];
       col "match_number" "integer" [notNull];
       col "participant_1_id" "uuid" [];
       col "participant_2_id" "uuid" [];
       col "winner_id" "uuid" [];
       col "is_bye" "boolean" [notNull; dflt "false"]]
      [((Named "FK_bracket_matchups_round"), (FOREIGN_KEY ["round_id"] "bracket_rounds" ["id"] "CASCADE"));
       ((Named "FK_bracket_matchups_participant_1"), (FOREIGN_KEY ["participant_1_id"] "competition_participants" ["id"] "SET NULL"));
       ((Named "FK_bracket_matchups_participant_2"), (FOREIGN_KEY ["participant_2_id"] "competition_participants" ["id"] "SET NULL"));
       ((Named "FK_bracket_matchups_winner"), (FOREIGN_KEY ["winner_id"] "competition_participants" ["id"] "SET NULL"))];
    CREATE_INDEX false (Named "IDX_bracket_matchups_round_match") (ix "bracket_matchups" ["round_id"; "match_number"] true "" false) ].

Definition CreateCompetitionBracket1777000000000_down : list stmt :=
  [ DROP_INDEX false (Named "IDX_bracket_matchups_round_match");
    DROP_TABLE false false "bracket_matchups";
    DROP_INDEX false (Named "IDX_bracket_rounds_bracket_round");
    DROP_TABLE false false "bracket_rounds";
    DROP_INDEX false (Named "IDX_competition_brackets_competition_id");
    DROP_TABLE false false "competition_brackets";
    DROP_TYPE false false "competition_brackets_status_enum" ].

(** *** [CreateRefreshTokens1777000000000] *)

Definition CreateRefreshTokens1777000000000_up : list stmt :=
  [ createTable (Table "refresh_tokens"
      [col "id" "uuid" [isPrimary; generationStrategy "uuid"; dflt "uuid_generate_v4()"];
       col "user_id" "uuid" [notNull];
       col "family_id" "uuid" [notNull];
       col "token_hash" "varchar" [len 64; notNull; isUnique];
       col "previous_token_id" "uuid" [isNullable];
       col "revoked_at" "timestamptz" [isNullable];
       col "expires_at" "timestamptz" [notNull];
       col "created_at" "timestamptz" [dflt "CURRENT_TIMESTAMP"; notNull]]
      [] []) true;
    createIndex (Named "IDX_refresh_tokens_user_id") (ix "refresh_tokens" ["user_id"] false "" false);
    createIndex (Named "IDX_refresh_tokens_family_id") (ix "refresh_tokens" ["family_id"] false "" false);
    createIndex (Named "IDX_refresh_tokens_previous_token_id") (ix "refresh_tokens" ["previous_token_id"] false "" false);
    createForeignKey "refresh_tokens" (Named "FK_refresh_tokens_user") (FOREIGN_KEY ["user_id"] "users" ["id"] "CASCADE") ].

Definition CreateRefreshTokens1777000000000_down : list stmt :=
  [ dropForeignKey "refresh_tokens" (Named "FK_refresh_tokens_user");
    dropTable "refresh_tokens" false ].

(** *** [CreateNotificationCategoryPreferences1777000000001] *)

Definition CreateNotificationCategoryPreferences1777000000001_up : list stmt :=
  [ CREATE_TYPE "notification_category_preferences_category_enum" ["event_created"; "match_added"; "prediction_submitted"; "match_resolved"; "winner_verified"; "event_cancelled"];
    CREATE_TABLE "notification_category_preferences"
      [col "id" "uuid" [isPrimary; dflt "uuid_generate_v4()"];
       col "userId" "uuid" [notNull];
       col "category" "notification_category_preferences_category_enum" [userType; notNull];
       col "in_app" "boolean" [notNull; dflt "true"];
       col "email" "boolean" [notNull; dflt "true"];
       col "push" "boolean" [notNull; dflt "false"];
       col "createdAt" "TIMESTAMPTZ" [notNull; dflt "now()"];
       col "updatedAt" "TIMESTAMPTZ" [notNull; dflt "now()"]]
      [((Named "UQ_notification_category_user_category"), (UNIQUE ["userId"; "category"]))];
    CREATE_INDEX false (Named "IDX_notification_category_preferences_userId") (ix "notification_category_preferences" ["userId"] false "" false);
    CREATE_INDEX false (Named "IDX_notification_category_preferences_category") (ix "notification_category_preferences" ["category"] false "" false) ].

Definition CreateNotificationCategoryPreferences1777000000001_down : list stmt :=
  [ DROP_INDEX false (Named "IDX_notification_category_preferences_category");
    DROP_INDEX false (Named "IDX_notification_category_preferences_userId");
    DROP_TABLE false false "notification_category_preferences";
    DROP_TYPE false false "notification_category_preferences_category_enum" ].

(** *** [CreateAuthAuditEvents1777000100000] *)

Definition CreateAuthAuditEvents1777000100000_up : list stmt :=
  [ createTable (Table "auth_audit_events"
      [col "id" "uuid" [isPrimary; generationStrategy "uuid"; dflt "uuid_generate_v4()"];
       col "user_id" "uuid" [isNullable];
       col "family_id" "uuid" [isNullable];
       col "event_type" "varchar" [len 64; notNull];
       col "metadata" "jsonb" [isNullable];
       col "created_at" "timestamptz" [dflt "CURRENT_TIMESTAMP"; notNull]]
      [] []) true;
    createIndex (Named "IDX_auth_audit_events_user_id") (ix "auth_audit_events" ["user_id"] false "" false);
    createIndex (Named "IDX_auth_audit_events_family_id") (ix "auth_audit_events" ["family_id"] false "" false);
    createForeignKey "auth_audit_events" (Named "FK_auth_audit_events_user") (FOREIGN_KEY ["user_id"] "users" ["id"] "CASCADE") ].

Definition CreateAuthAuditEvents1777000100000_down : list stmt :=
  [ dropForeignKey "auth_audit_events" (Named "FK_auth_audit_events_user");
    dropTable "auth_audit_events" false ].

(** *** [AddLastIndexedLedgerHashToChainSyncCheckpoint1777100000000] *)

Definition AddLastIndexedLedgerHashToChainSyncCheckpoint1777100000000_up : list stmt :=
  [ addColumn "chain_sync_checkpoints" (col "last_indexed_ledger_hash" "varchar" [len 128; isNullable]) ].

Definition AddLastIndexedLedgerHashToChainSyncCheckpoint1777100000000_down : list stmt :=
  [ dropColumn "chain_sync_checkpoints" "last_indexed_ledger_hash" ].

(** *** [CreateReorgEventsTable1777100100000] *)

Definition CreateReorgEventsTable1777100100000_up : list stmt :=
  [ createTable (Table "reorg_events"
      [col "id" "uuid" [isPrimary; generationStrategy "uuid"; dflt "uuid_generate_v4()"];
       col "contract_id" "varchar" [len 128];
       col "fork_ledger" "bigint" [];
       col "previous_ledger" "bigint" [];
       col "previous_hash" "varchar" [len 128; isNullable];
       col "new_hash" "varchar" [len 128; isNullable];
       col "rolled_back_event_count" "int" [];
       col "detected_at" "timestamptz" [dflt "now()"]]
      [] []) true;
    createIndex (Named "IDX_reorg_events_contract_id") (ix "reorg_events" ["contract_id"] false "" false) ].

Definition CreateReorgEventsTable1777100100000_down : list stmt :=
  [ dropIndex "reorg_events" (Named "IDX_reorg_events_contract_id");
    dropTable "reorg_events" false ].

(** *** [CreateWebhookProcessedEvents1777200000000] *)

Definition CreateWebhookProcessedEvents1777200000000_up : list stmt :=
  [ createTable (Table "webhook_processed_events"
      [col "id" "uuid" [isPrimary; generationStrategy "uuid"; dflt "uuid_generate_v4()"];
       col "source" "varchar" [len 64; notNull];
       col "event_id" "varchar" [len 255; notNull];
       col "received_at" "timestamptz" [dflt "CURRENT_TIMESTAMP"; notNull]]
      [] []) true;
    createIndex (Named "IDX_webhook_processed_events_source_event_id") (ix "webhook_processed_events" ["source"; "event_id"] true "" false) ].

Definition CreateWebhookProcessedEvents1777200000000_down : list stmt :=
  [ dropTable "webhook_processed_events" false ].

(** *** [AddExternalMatchResultIngestion1777300000000] *)

Definition AddExternalMatchResultIngestion1777300000000_up : list stmt :=
  [ addColumn "event_matches" (col "external_id" "varchar" [len 255; isNullable; isUnique]);
    createTable (Table "external_match_results"
      [col "id" "uuid" [isPrimary; generationStrategy "uuid"; isGenerated];
       col "match_id" "uuid" [];
       col "external_id" "varchar" [len 255];
       col "home_score" "int" [];
       col "away_score" "int" [];
       col "winning_team" "enum" [enum ["TEAM_A"; "TEAM_B"; "DRAW"]];
       col "status" "enum" [enum ["PENDING_CONFIRMATION"]; dflt "'PENDING_CONFIRMATION'"];
       col "created_at" "timestamptz" [dflt "now()"]]
      [] []) false;
    createForeignKey "external_match_results" (Generated "FK" "external_match_results" ["match_id"]) (FOREIGN_KEY ["match_id"] "event_matches" ["id"] "CASCADE");
    createIndex (Generated "IDX" "external_match_results" ["match_id"]) (ix "external_match_results" ["match_id"] true "" false) ].

Definition AddExternalMatchResultIngestion1777300000000_down : list stmt :=
  [ dropTable "external_match_results" false;
    dropColumn "event_matches" "external_id" ].

(** *** [AddSeasonRolloverProcessedAt1777300000000] *)

Definition AddSeasonRolloverProcessedAt1777300000000_up : list stmt :=
  [ ADD_COLUMN true "seasons" (col "rollover_processed_at" "TIMESTAMP" []) ].

Definition AddSeasonRolloverProcessedAt1777300000000_down : list stmt :=
  [ DROP_COLUMN true "seasons" "rollover_processed_at" ].

(** *** [AddDigestSchedulingToUserPreferences1777400000000] *)

Definition AddDigestSchedulingToUserPreferences1777400000000_up : list stmt :=
  [ ADD_COLUMN true "user_preferences" (col "digest_hour" "integer" [notNull; dflt "8"]);
    ADD_COLUMN true "user_preferences" (col "digest_timezone" "varchar" [notNull; dflt "'UTC'"]) ].

Definition AddDigestSchedulingToUserPreferences1777400000000_down : list stmt :=
  [ DROP_COLUMN true "user_preferences" "digest_timezone";
    DROP_COLUMN true "user_preferences" "digest_hour" ].

(** *** [CreateOracleSourceReliability1777400000000] *)

Definition CreateOracleSourceReliability1777400000000_up : list stmt :=
  [ CREATE_TABLE "oracle_source_reliability"
      [col "id" "uuid" [notNull; dflt "uuid_generate_v4()"];
       col "data_source" "varchar" [len 500; notNull];
       col "total_submissions" "integer" [notNull; dflt "0"];
       col "correct_submissions" "integer" [notNull; dflt "0"];
       col "reliability_score" "double precision" [];
       col "created_at" "timestamptz" [notNull; dflt "now()"];
       col "updated_at" "timestamptz" [notNull; dflt "now()"]]
      [((Named "PK_oracle_source_reliability"), (PRIMARY_KEY ["id"]));
       ((Named "UQ_oracle_source_reliability_source"), (UNIQUE ["data_source"]))] ].

Definition CreateOracleSourceReliability1777400000000_down : list stmt :=
  [ DROP_TABLE false false "oracle_source_reliability" ].

(** *** [CreatePredictionFraudFlags1777500000000] *)

Definition CreatePredictionFraudFlags1777500000000_up : list stmt :=
  [ createTable (Table "prediction_fraud_flags"
      [col "id" "uuid" [isPrimary; generationStrategy "uuid"; dflt "uuid_generate_v4()"];
       col "user_id" "uuid" [notNull];
       col "signal_type" "varchar" [len 50; notNull];
       col "score" "double precision" [notNull];
       col "threshold" "double precision" [notNull];
       col "details" "jsonb" [notNull];
       col "status" "varchar" [len 20; dflt "'open'"; notNull];
       col "reviewed_by" "uuid" [isNullable];
       col "reviewed_at" "timestamptz" [isNullable];
       col "created_at" "timestamptz" [dflt "CURRENT_TIMESTAMP"; notNull]]
      [] []) true;
    createIndex (Named "IDX_prediction_fraud_flags_user_id") (ix "prediction_fraud_flags" ["user_id"] false "" false);
    createIndex (Named "IDX_prediction_fraud_flags_signal_type") (ix "prediction_fraud_flags" ["signal_type"] false "" false);
    createIndex (Named "IDX_prediction_fraud_flags_status") (ix "prediction_fraud_flags" ["status"] false "" false);
    createForeignKey "prediction_fraud_flags" (Named "FK_prediction_fraud_flags_user") (FOREIGN_KEY ["user_id"] "users" ["id"] "CASCADE") ].

Definition CreatePredictionFraudFlags1777500000000_down : list stmt :=
  [ dropForeignKey "prediction_fraud_flags" (Named "FK_prediction_fraud_flags_user");
    dropTable "prediction_fraud_flags" false ].

(** *** [AddDisputeSlaFields1777600000000] *)

Definition AddDisputeSlaFields1777600000000_up : list stmt :=
  [ addColumn "disputes" (col "sla_stage" "varchar" [len 20; dflt "'initial_review'"; notNull]);
    addColumn "disputes" (col "sla_deadline" "timestamptz" [isNullable]);
    addColumn "disputes" (col "sla_breached_at" "timestamptz" [isNullable]);
    addColumn "disputes" (col "sla_approaching_notified_at" "timestamptz" [isNullable]);
    addColumn "disputes" (col "sla_breached_notified_at" "timestamptz" [isNullable]);
    addColumn "disputes" (col "assigned_arbiter_id" "uuid" [isNullable]);
    UPDATE_DELETE "disputes" ["sla_deadline"; "created_at"];
    changeColumn "disputes" "sla_deadline" (col "sla_deadline" "timestamptz" [notNull]);
    createIndex (Named "IDX_disputes_sla_stage") (ix "disputes" ["sla_stage"] false "" false);
    createIndex (Named "IDX_disputes_assigned_arbiter_id") (ix "disputes" ["assigned_arbiter_id"] false "" false);
    createForeignKey "disputes" (Named "FK_disputes_assigned_arbiter_id") (FOREIGN_KEY ["assigned_arbiter_id"] "users" ["id"] "SET NULL") ].

Definition AddDisputeSlaFields1777600000000_down : list stmt :=
  [ dropForeignKey "disputes" (Named "FK_disputes_assigned_arbiter_id");
    dropIndex "disputes" (Named "IDX_disputes_assigned_arbiter_id");
    dropIndex "disputes" (Named "IDX_disputes_sla_stage");
    dropColumn "disputes" "assigned_arbiter_id";
    dropColumn "disputes" "sla_breached_notified_at";
    dropColumn "disputes" "sla_approaching_notified_at";
    dropColumn "disputes" "sla_breached_at";
    dropColumn "disputes" "sla_deadline";
    dropColumn "disputes" "sla_stage" ].

(** *** [CreateUserReferrals1777700000000] *)

Definition CreateUserReferrals1777700000000_up : list stmt :=
  [ createTable (Table "user_referrals"
      [col "id" "uuid" [isPrimary; generationStrategy "uuid"; dflt "uuid_generate_v4()"];
       col "referrer_id" "uuid" [notNull];
       col "referred_id" "uuid" [notNull; isUnique];
       col "status" "varchar" [len 20; dflt "'pending'"; notNull];
       col "qualified_at" "timestamptz" [isNullable];
       col "created_at" "timestamptz" [dflt "CURRENT_TIMESTAMP"; notNull]]
      [] []) true;
    createIndex (Named "IDX_user_referrals_referrer_id") (ix "user_referrals" ["referrer_id"] false "" false);
    createIndex (Named "IDX_user_referrals_status") (ix "user_referrals" ["status"] false "" false);
    createForeignKey "user_referrals" (Named "FK_user_referrals_referrer") (FOREIGN_KEY ["referrer_id"] "users" ["id"] "CASCADE");
    createForeignKey "user_referrals" (Named "FK_user_referrals_referred") (FOREIGN_KEY ["referred_id"] "users" ["id"] "CASCADE") ].

Definition CreateUserReferrals1777700000000_down : list stmt :=
  [ dropForeignKey "user_referrals" (Named "FK_user_referrals_referred");
    dropForeignKey "user_referrals" (Named "FK_user_referrals_referrer");
    dropTable "user_referrals" false ].

(** *** [AddDisputeTieredEscalation1777800000000] *)

Definition AddDisputeTieredEscalation1777800000000_up : list stmt :=
  [ addColumn "disputes" (col "tier" "int" [dflt "1"; notNull]);
    addColumn "disputes" (col "quorum_threshold" "int" [dflt "0"; notNull]);
    addColumn "disputes" (col "escalated_from_id" "uuid" [isNullable]);
    createIndex (Named "IDX_disputes_tier") (ix "disputes" ["tier"] false "" false);
    createIndex (Named "IDX_disputes_escalated_from_id") (ix "disputes" ["escalated_from_id"] false "" false);
    createForeignKey "disputes" (Named "FK_disputes_escalated_from_id") (FOREIGN_KEY ["escalated_from_id"] "disputes" ["id"] "SET NULL");
    createTable (Table "dispute_votes"
      [col "id" "uuid" [isPrimary; dflt "uuid_generate_v4()"];
       col "dispute_id" "uuid" [notNull];
       col "voter_id" "uuid" [notNull];
       col "voter_address" "varchar" [notNull];
       col "outcome" "varchar" [len 20; notNull];
       col "weight" "int" [dflt "0"; notNull];
       col "tier" "int" [dflt "1"; notNull];
       col "created_at" "timestamp" [dflt "now()"; notNull]]
      [] []) true;
    createIndex (Named "IDX_dispute_votes_dispute_id") (ix "dispute_votes" ["dispute_id"] false "" false);
    createIndex (Named "IDX_dispute_votes_voter_address") (ix "dispute_votes" ["voter_address"] false "" false);
    createIndex (Named "UQ_dispute_votes_dispute_address") (ix "dispute_votes" ["dispute_id"; "voter_address"] true "" false);
    createForeignKey "dispute_votes" (Named "FK_dispute_votes_dispute_id") (FOREIGN_KEY ["dispute_id"] "disputes" ["id"] "CASCADE");
    createForeignKey "dispute_votes" (Named "FK_dispute_votes_voter_id") (FOREIGN_KEY ["voter_id"] "users" ["id"] "CASCADE") ].

Definition AddDisputeTieredEscalation1777800000000_down : list stmt :=
  [ dropTable "dispute_votes" true;
    dropForeignKey "disputes" (Named "FK_disputes_escalated_from_id");
    dropIndex "disputes" (Named "IDX_disputes_escalated_from_id");
    dropIndex "disputes" (Named "IDX_disputes_tier");
    dropColumn "disputes" "escalated_from_id";
    dropColumn "disputes" "quorum_threshold";
    dropColumn "disputes" "tier" ].

(** *** [CreateAnchorDeposits1777900000000] *)

Definition CreateAnchorDeposits1777900000000_up : list stmt :=
  [ createTable (Table "anchor_deposits"
      [col "id" "uuid" [isPrimary; generationStrategy "uuid"; dflt "uuid_generate_v4()"];
       col "user_id" "uuid" [notNull];
       col "stellar_account" "varchar" [notNull];
       col "asset_code" "varchar" [notNull];
       col "transaction_id" "varchar" [isNullable];
       col "interactive_url" "varchar" [isNullable];
       col "status" "varchar" [dflt "'pending'"; notNull];
       col "created_at" "timestamp" [dflt "now()"; notNull];
       col "updated_at" "timestamp" [dflt "now()"; notNull]]
      [] []) true;
    createIndex (Named "IDX_anchor_deposits_user_id") (ix "anchor_deposits" ["user_id"] false "" false);
    createIndex (Named "UQ_anchor_deposits_transaction_id") (ix "anchor_deposits" ["transaction_id"] true "transaction_id IS NOT NULL" false) ].

Definition CreateAnchorDeposits1777900000000_down : list stmt :=
  [ dropTable "anchor_deposits" true ].

(** *** [CreateGoalsAndBalances1778000000000] *)

Definition CreateGoalsAndBalances1778000000000_up : list stmt :=
  [ createTable (Table "goals"
      [col "id" "uuid" [isPrimary; generationStrategy "uuid"; dflt "uuid_generate_v4()"];
       col "on_chain_id" "varchar" [notNull];
       col "owner" "varchar" [notNull];
       col "name" "varchar" [notNull];
       col "target_amount" "varchar" [notNull];
       col "current_amount" "varchar" [dflt "'0'"; notNull];
       col "status" "enum" [enum ["active"; "reached"]; dflt "'active'"; notNull];
       col "reached_at" "timestamptz" [isNullable];
       col "created_at" "timestamp" [dflt "now()"; notNull];
       col "updated_at" "timestamp" [dflt "now()"; notNull]]
      [] []) true;
    createIndex (Named "UQ_goals_on_chain_id") (ix "goals" ["on_chain_id"] true "" false);
    createIndex (Named "IDX_goals_owner") (ix "goals" ["owner"] false "" false);
    createTable (Table "balances"
      [col "id" "uuid" [isPrimary; generationStrategy "uuid"; dflt "uuid_generate_v4()"];
       col "account" "varchar" [notNull];
       col "amount" "varchar" [dflt "'0'"; notNull];
       col "updated_at" "timestamp" [dflt "now()"; notNull]]
      [] []) true;
    createIndex (Named "UQ_balances_account") (ix "balances" ["account"] true "" false) ].

Definition CreateGoalsAndBalances1778000000000_down : list stmt :=
  [ dropTable "balances" true;
    dropTable "goals" true ].

(** *** [ReplaceMarketPreferencesWithSavings1778100000000] *)

Definition ReplaceMarketPreferencesWithSavings1778100000000_up : list stmt :=
  [ DROP_COLUMN true "user_preferences" "market_resolution_notifications";
    DROP_COLUMN true "user_preferences" "competition_notifications";
    DROP_COLUMN true "user_preferences" "leaderboard_notifications";
    DROP_COLUMN true "user_preferences" "event_created_notifications";
    DROP_COLUMN true "user_preferences" "match_added_notifications";
    DROP_COLUMN true "user_preferences" "prediction_submitted_notifications";
    DROP_COLUMN true "user_preferences" "match_resolved_notifications";
    DROP_COLUMN true "user_preferences" "winner_verified_notifications";
    DROP_COLUMN true "user_preferences" "event_cancelled_notifications";
    ADD_COLUMN true "user_preferences" (col "goal_created_notifications" "boolean" [notNull; dflt "true"]);
    ADD_COLUMN true "user_preferences" (col "goal_contribution_notifications" "boolean" [notNull; dflt "true"]);
    ADD_COLUMN true "user_preferences" (col "goal_reached_notifications" "boolean" [notNull; dflt "true"]);
    ADD_COLUMN true "user_preferences" (col "deposit_notifications" "boolean" [notNull; dflt "true"]);
    ADD_COLUMN true "user_preferences" (col "withdrawal_notifications" "boolean" [notNull; dflt "true"]);
    ADD_COLUMN true "user_preferences" (col "group_settlement_notifications" "boolean" [notNull; dflt "true"]) ].

Definition ReplaceMarketPreferencesWithSavings1778100000000_down : list stmt :=
  [ DROP_COLUMN true "user_preferences" "group_settlement_notifications";
    DROP_COLUMN true "user_preferences" "withdrawal_notifications";
    DROP_COLUMN true "user_preferences" "deposit_notifications";
    DROP_COLUMN true "user_preferences" "goal_reached_notifications";
    DROP_COLUMN true "user_preferences" "goal_contribution_notifications";
    DROP_COLUMN true "user_preferences" "goal_created_notifications";
    ADD_COLUMN true "user_preferences" (col "market_resolution_notifications" "boolean" [notNull; dflt "true"]);
    ADD_COLUMN true "user_preferences" (col "competition_notifications" "boolean" [notNull; dflt "true"]);
    ADD_COLUMN true "user_preferences" (col "leaderboard_notifications" "boolean" [notNull; dflt "true"]);
    ADD_COLUMN true "user_preferences" (col "event_created_notifications" "boolean" [notNull; dflt "true"]);
    ADD_COLUMN true "user_preferences" (col "match_added_notifications" "boolean" [notNull; dflt "true"]);
    ADD_COLUMN true "user_preferences" (col "prediction_submitted_notifications" "boolean" [notNull; dflt "true"]);
    ADD_COLUMN true "user_preferences" (col "match_resolved_notifications" "boolean" [notNull; dflt "true"]);
    ADD_COLUMN true "user_preferences" (col "winner_verified_notifications" "boolean" [notNull; dflt "true"]);
    ADD_COLUMN true "user_preferences" (col "event_cancelled_notifications" "boolean" [notNull; dflt "true"]) ].

(** *** [DropLegacyPredictionMarketTables1778200000000] *)

Definition legacyTables : list string :=
  ["bracket_matchups"; "bracket_rounds"; "competition_brackets"; "competition_participants"; "competitions";
   "dispute_evidence"; "dispute_votes"; "disputes"; "match_predictions"; "event_matches";
   "external_match_results"; "predictions"; "markets"; "market_templates"; "prediction_fraud_flags";
   "creator_event_leaderboard_entries"; "creator_event_payouts"; "creator_events"; "leaderboard_entries";
   "leaderboard_history"; "leaderboard_snapshots"; "seasons"; "comments"; "user_bookmarks";
   "oracle_submission_flags"; "oracle_source_reliability"; "oracle_submissions"; "activity_logs"; "flags";
   "user_achievements"].

Definition legacyTypes : list string :=
  ["competitions_visibility_enum"; "competition_brackets_status_enum"; "market_settlement_state";
   "oracle_submissions_review_status_enum"].

Definition DropLegacyPredictionMarketTables1778200000000_up : list stmt :=
  (DROP_TABLE true true <$> legacyTables) ++ (DROP_TYPE true true <$> legacyTypes).

Definition DropLegacyPredictionMarketTables1778200000000_down : list stmt := [].

(** *** [CreateWebAuthnCredentials1778300000000] *)

Definition CreateWebAuthnCredentials1778300000000_up : list stmt :=
  [ createTable (Table "webauthn_credentials"
      [col "id" "uuid" [isPrimary; generationStrategy "uuid"; dflt "uuid_generate_v4()"];
       col "user_id" "uuid" [notNull];
       col "credential_id" "varchar" [notNull; isUnique];
       col "public_key" "bytea" [notNull];
       col "counter" "bigint" [notNull; dflt "0"];
       col "device_type" "varchar" [isNullable];
       col "backed_up" "boolean" [notNull; dflt "false"];
       col "transports" "text" [isArray; isNullable];
       col "created_at" "timestamptz" [dflt "CURRENT_TIMESTAMP"; notNull];
       col "last_used_at" "timestamptz" [isNullable]]
      [] []) true;
    createIndex (Named "IDX_webauthn_credentials_user_id") (ix "webauthn_credentials" ["user_id"] false "" false);
    createForeignKey "webauthn_credentials" (Named "FK_webauthn_credentials_user") (FOREIGN_KEY ["user_id"] "users" ["id"] "CASCADE") ].

Definition CreateWebAuthnCredentials1778300000000_down : list stmt :=
  [ dropForeignKey "webauthn_credentials" (Named "FK_webauthn_credentials_user");
    dropTable "webauthn_credentials" false ].

(** *** [CreateGroups1778400000000] *)

Definition CreateGroups1778400000000_up : list stmt :=
  [ createTable (Table "groups"
      [col "id" "uuid" [isPrimary; generationStrategy "uuid"; dflt "uuid_generate_v4()"];
       col "on_chain_id" "varchar" [notNull];
       col "creator" "varchar" [notNull];
       col "name" "varchar" [notNull];
       col "members" "text" [isArray; dflt "'{}'"; notNull];
       col "balance" "varchar" [dflt "'0'"; notNull];
       col "open" "boolean" [dflt "true"; notNull];
       col "created_at" "timestamp" [dflt "now()"; notNull];
       col "updated_at" "timestamp" [dflt "now()"; notNull]]
      [] []) true;
    createIndex (Named "UQ_groups_on_chain_id") (ix "groups" ["on_chain_id"] true "" false);
    CREATE_INDEX true (Named "IDX_groups_members") (ix "groups" ["members"] false "" false) ].

Definition CreateGroups1778400000000_down : list stmt :=
  [ DROP_INDEX true (Named "IDX_groups_members");
    dropTable "groups" true ].

(** *** [RemovePredictionColumnsFromUser1778400000000] *)

Definition RemovePredictionColumnsFromUser1778400000000_up : list stmt :=
  [ dropColumn "users" "total_predictions";
    dropColumn "users" "correct_predictions";
    dropColumn "users" "total_staked_stroops";
    dropColumn "users" "total_winnings_stroops";
    dropColumn "users" "reputation_score";
    dropColumn "users" "season_points" ].

Definition RemovePredictionColumnsFromUser1778400000000_down : list stmt :=
  [ addColumn "users" (col "total_predictions" "integer" [dflt "0"; notNull]);
    addColumn "users" (col "correct_predictions" "integer" [dflt "0"; notNull]);
    addColumn "users" (col "total_staked_stroops" "bigint" [dflt "0"; notNull]);
    addColumn "users" (col "total_winnings_stroops" "bigint" [dflt "0"; notNull]);
    addColumn "users" (col "reputation_score" "integer" [dflt "0"; notNull]);
    addColumn "users" (col "season_points" "integer" [dflt "0"; notNull]) ].

(** *** [CreateGroups1778500000000] *)

Definition CreateGroups1778500000000_up : list stmt :=
  [ createTable (Table "groups"
      [col "id" "uuid" [isPrimary; generationStrategy "uuid"; dflt "uuid_generate_v4()"];
       col "on_chain_id" "varchar" [notNull];
       col "balance" "varchar" [dflt "'0'"; notNull];
       col "settled" "boolean" [dflt "false"; notNull];
       col "settled_at" "timestamptz" [isNullable];
       col "created_at" "timestamp" [dflt "now()"; notNull];
       col "updated_at" "timestamp" [dflt "now()"; notNull]]
      [] []) true;
    createIndex (Named "UQ_groups_on_chain_id") (ix "groups" ["on_chain_id"] true "" false) ].

Definition CreateGroups1778500000000_down : list stmt :=
  [ dropTable "groups" true ].

(** *** [CreateLockedPlans1778600000000] *)

Definition CreateLockedPlans1778600000000_up : list stmt :=
  [ createTable (Table "locked_plans"
      [col "id" "uuid" [isPrimary; generationStrategy "uuid"; dflt "uuid_generate_v4()"];
       col "on_chain_id" "varchar" [notNull];
       col "owner" "varchar" [notNull];
       col "balance" "varchar" [dflt "'0'"; notNull];
       col "unlock_at" "timestamptz" [notNull];
       col "created_at" "timestamp" [dflt "now()"; notNull];
       col "updated_at" "timestamp" [dflt "now()"; notNull]]
      [] []) true;
    createIndex (Named "UQ_locked_plans_on_chain_id") (ix "locked_plans" ["on_chain_id"] true "" false);
    createIndex (Named "IDX_locked_plans_owner") (ix "locked_plans" ["owner"] false "" false);
    createIndex (Named "IDX_locked_plans_unlock_at") (ix "locked_plans" ["unlock_at"] false "" false) ].

Definition CreateLockedPlans1778600000000_down : list stmt :=
  [ dropTable "locked_plans" true ].

(** *** [CreateSavingsAccounts1778700000000] *)

Definition CreateSavingsAccounts1778700000000_up : list stmt :=
  [ createTable (Table "savings_accounts"
      [col "id" "uuid" [isPrimary; generationStrategy "uuid"; dflt "uuid_generate_v4()"];
       col "owner" "varchar" [notNull];
       col "balance" "varchar" [dflt "'0'"; notNull];
       col "created_at" "timestamp" [dflt "now()"; notNull];
       col "updated_at" "timestamp" [dflt "now()"; notNull]]
      [] []) true;
    createIndex (Named "UQ_savings_accounts_owner") (ix "savings_accounts" ["owner"] true "" false);
    createIndex (Named "IDX_savings_accounts_owner") (ix "savings_accounts" ["owner"] false "" false) ].

Definition CreateSavingsAccounts1778700000000_down : list stmt :=
  [ dropTable "savings_accounts" true ].

(** *** [UpdateNotificationTypesForSavings1778700000000] *)

Definition UpdateNotificationTypesForSavings1778700000000_up : list stmt :=
  [ UPDATE_DELETE "notifications" ["type"] ].

Definition UpdateNotificationTypesForSavings1778700000000_down : list stmt := [].

(** *** [CreateGroupMembers1778800000000] *)

Definition CreateGroupMembers1778800000000_up : list stmt :=
  [ addColumn "groups" (col "creator" "varchar" [isNullable]);
    addColumn "groups" (col "name" "varchar" [isNullable]);
    addColumn "groups" (col "open" "boolean" [dflt "true"; notNull]);
    createTable (Table "group_members"
      [col "id" "uuid" [isPrimary; generationStrategy "uuid"; dflt "uuid_generate_v4()"];
       col "group_id" "uuid" [notNull];
       col "address" "varchar" [notNull];
       col "share_bps" "integer" [dflt "0"; notNull];
       col "created_at" "timestamp" [dflt "now()"; notNull];
       col "updated_at" "timestamp" [dflt "now()"; notNull]]
      [] []) true;
    createForeignKey "group_members" (Named "FK_group_members_group_id") (FOREIGN_KEY ["group_id"] "groups" ["id"] "CASCADE");
    createIndex (Named "UQ_group_members_group_id_address") (ix "group_members" ["group_id"; "address"] true "" false);
    createIndex (Named "IDX_group_members_address") (ix "group_members" ["address"] false "" false) ].

Definition CreateGroupMembers1778800000000_down : list stmt :=
  [ dropTable "group_members" true;
    dropColumn "groups" "open";
    dropColumn "groups" "name";
    dropColumn "groups" "creator" ].

(** *** [AddCreatedAtToBalances1778900000000] *)

Definition AddCreatedAtToBalances1778900000000_up : list stmt :=
  [ addColumn "balances" (col "created_at" "timestamp" [dflt "now()"; notNull]) ].

Definition AddCreatedAtToBalances1778900000000_down : list stmt :=
  [ dropColumn "balances" "created_at" ].

(** *** [CreatePendingWithdrawals1779000000000] *)

Definition CreatePendingWithdrawals1779000000000_up : list stmt :=
  [ createTable (Table "pending_withdrawals"
      [col "id" "uuid" [isPrimary; generationStrategy "uuid"; dflt "uuid_generate_v4()"];
       col "request_id" "varchar" [notNull];
       col "owner" "varchar" [notNull];
       col "shares" "varchar" [notNull];
       col "claimable_at" "timestamptz" [notNull];
       col "status" "enum" [enum ["pending"; "claimed"; "cancelled"]; dflt "'pending'"; notNull];
       col "cancelled_at" "timestamptz" [isNullable];
       col "created_at" "timestamp" [dflt "now()"; notNull];
       col "updated_at" "timestamp" [dflt "now()"; notNull]]
      [] []) true;
    createIndex (Named "UQ_pending_withdrawals_request_id") (ix "pending_withdrawals" ["request_id"] true "" false);
    createIndex (Named "IDX_pending_withdrawals_status") (ix "pending_withdrawals" ["status"] false "" false) ].

Definition CreatePendingWithdrawals1779000000000_down : list stmt :=
  [ dropTable "pending_withdrawals" true ].

(** *** [CreateHarvestHistory1779100000000] *)

Definition CreateHarvestHistory1779100000000_up : list stmt :=
  [ createTable (Table "harvest_history"
      [col "id" "uuid" [isPrimary; generationStrategy "uuid"; dflt "uuid_generate_v4()"];
       col "delta" "varchar" [notNull];
       col "fee" "varchar" [dflt "'0'"; notNull];
       col "harvested_at" "timestamptz" [notNull];
       col "ledger" "bigint" [isNullable];
       col "tx_hash" "varchar" [isNullable];
       col "created_at" "timestamp" [dflt "now()"; notNull]]
      [] []) true ].

Definition CreateHarvestHistory1779100000000_down : list stmt :=
  [ dropTable "harvest_history" true ].

(** *** [CreateYieldPositions1790360848678] *)

Definition CreateYieldPositions1790360848678_up : list stmt :=
  [ createTable (Table "yield_positions"
      [col "id" "uuid" [isPrimary; generationStrategy "uuid"; dflt "uuid_generate_v4()"];
       col "owner" "varchar" [notNull];
       col "shares" "varchar" [dflt "'0'"; notNull];
       col "exchange_rate_snapshot" "varchar" [isNullable];
       col "created_at" "timestamp" [dflt "now()"; notNull];
       col "updated_at" "timestamp" [dflt "now()"; notNull]]
      [] [((Named "IDX_yield_positions_owner"), (ix "yield_positions" ["owner"] true "" false))]) false ].

Definition CreateYieldPositions1790360848678_down : list stmt :=
  [ dropTable "yield_positions" false ].

(** *** [CreateOAuthAuthentication1792509000000] *)

Definition CreateOAuthAuthentication1792509000000_up : list stmt :=
  [ createTable (Table "oauth_identities"
      [col "id" "uuid" [isPrimary; generationStrategy "uuid"; dflt "uuid_generate_v4()"];
       col "user_id" "uuid" [notNull];
       col "provider" "varchar" [len 16; notNull];
       col "provider_user_id" "varchar" [len 255; notNull];
       col "email" "varchar" [isNullable];
       col "display_name" "varchar" [isNullable];
       col "created_at" "timestamptz" [dflt "CURRENT_TIMESTAMP"; notNull]]
      [] []) false;
    createIndex (Named "UQ_oauth_identities_provider_subject") (ix "oauth_identities" ["provider"; "provider_user_id"] true "" false);
    createIndex (Named "UQ_oauth_identities_user_provider") (ix "oauth_identities" ["user_id"; "provider"] true "" false);
    createForeignKey "oauth_identities" (Named "FK_oauth_identities_user") (FOREIGN_KEY ["user_id"] "users" ["id"] "CASCADE");
    createTable (Table "oauth_transactions"
      [col "id" "uuid" [isPrimary; generationStrategy "uuid"; dflt "uuid_generate_v4()"];
       col "state_hash" "varchar" [len 64; isUnique; notNull];
       col "provider" "varchar" [len 16; notNull];
       col "intent" "varchar" [len 8; notNull];
       col "user_id" "uuid" [isNullable];
       col "nonce" "varchar" [len 128; isNullable];
       col "client_verifier_hash" "varchar" [len 64; notNull];
       col "expires_at" "timestamptz" [notNull];
       col "consumed_at" "timestamptz" [isNullable];
       col "exchange_code_hash" "varchar" [len 64; isUnique; isNullable];
       col "exchanged_at" "timestamptz" [isNullable];
       col "return_to" "varchar" [len 512; isNullable];
       col "created_at" "timestamptz" [dflt "CURRENT_TIMESTAMP"; notNull]]
      [] []) false;
    createIndex (Named "IDX_oauth_transactions_expires_at") (ix "oauth_transactions" ["expires_at"] false "" false);
    createForeignKey "oauth_transactions" (Named "FK_oauth_transactions_user") (FOREIGN_KEY ["user_id"] "users" ["id"] "CASCADE") ].

Definition CreateOAuthAuthentication1792509000000_down : list stmt :=
  [ dropForeignKey "oauth_transactions" (Named "FK_oauth_transactions_user");
    dropTable "oauth_transactions" false;
    dropForeignKey "oauth_identities" (Named "FK_oauth_identities_user");
    dropTable "oauth_identities" false ].

(** *** The list *)

Record migration := mkMigration { m_name : string; m_up : list stmt; m_down : list stmt }.

(** In the order of their timestamps; those of the same time in the order of their files. *)
Definition migrations : list migration :=
  [ mkMigration "CreateNftRewardsEntities1729432800000" CreateNftRewardsEntities1729432800000_up CreateNftRewardsEntities1729432800000_down;
    mkMigration "CreateInterestRatesEntities1729433000000" CreateInterestRatesEntities1729433000000_up CreateInterestRatesEntities1729433000000_down;
    mkMigration "CreateSavingsRoundupEntities1729433200000" CreateSavingsRoundupEntities1729433200000_up CreateSavingsRoundupEntities1729433200000_down;
    mkMigration "CreateCreatorEventLeaderboardEntry1750200000000" CreateCreatorEventLeaderboardEntry1750200000000_up CreateCreatorEventLeaderboardEntry1750200000000_down;
    mkMigration "CreateUserEntity1774313247489" CreateUserEntity1774313247489_up CreateUserEntity1774313247489_down;
    mkMigration "CreateMarketEntity1774431698000" CreateMarketEntity1774431698000_up CreateMarketEntity1774431698000_down;
    mkMigration "CreateNotificationEntity1774500000000" CreateNotificationEntity1774500000000_up CreateNotificationEntity1774500000000_down;
    mkMigration "CreatePredictionEntity1774500000000" CreatePredictionEntity1774500000000_up CreatePredictionEntity1774500000000_down;
    mkMigration "CreateCompetitionEntity1774500001000" CreateCompetitionEntity1774500001000_up CreateCompetitionEntity1774500001000_down;
    mkMigration "CreateLeaderboardEntryEntity1774500002000" CreateLeaderboardEntryEntity1774500002000_up CreateLeaderboardEntryEntity1774500002000_down;
    mkMigration "AddUniqueConstraintLeaderboardEntryUserSeason1774500003000" AddUniqueConstraintLeaderboardEntryUserSeason1774500003000_up AddUniqueConstraintLeaderboardEntryUserSeason1774500003000_down;
    mkMigration "CreateUserBookmarksTable1774500004000" CreateUserBookmarksTable1774500004000_up CreateUserBookmarksTable1774500004000_down;
    mkMigration "CreateSystemStateEntity1774600000000" CreateSystemStateEntity1774600000000_up CreateSystemStateEntity1774600000000_down;
    mkMigration "CreateSeasonsTable1774650000000" CreateSeasonsTable1774650000000_up CreateSeasonsTable1774650000000_down;
    mkMigration "AddSeasonFinalizationColumns1774660000000" AddSeasonFinalizationColumns1774660000000_up AddSeasonFinalizationColumns1774660000000_down;
    mkMigration "AdminFeatures1774670000000" AdminFeatures1774670000000_up AdminFeatures1774670000000_down;
    mkMigration "CreateFlagEntity1774670001000" CreateFlagEntity1774670001000_up CreateFlagEntity1774670001000_down;
    mkMigration "CreateCommentsTable1774800000000" CreateCommentsTable1774800000000_up CreateCommentsTable1774800000000_down;
    mkMigration "AddFeaturedFieldsToMarket1774821713259" AddFeaturedFieldsToMarket1774821713259_up AddFeaturedFieldsToMarket1774821713259_down;
    mkMigration "CreateMarketTemplatesTable1774900000000" CreateMarketTemplatesTable1774900000000_up CreateMarketTemplatesTable1774900000000_down;
    mkMigration "AddPredictionNoteColumn1775000000000" AddPredictionNoteColumn1775000000000_up AddPredictionNoteColumn1775000000000_down;
    mkMigration "CreateLeaderboardHistoryTable1775000000000" CreateLeaderboardHistoryTable1775000000000_up CreateLeaderboardHistoryTable1775000000000_down;
    mkMigration "UpdateNotificationSchema1775100000000" UpdateNotificationSchema1775100000000_up UpdateNotificationSchema1775100000000_down;
    mkMigration "AddSoftDeleteToNotifications1775200000000" AddSoftDeleteToNotifications1775200000000_up AddSoftDeleteToNotifications1775200000000_down;
    mkMigration "AddParticipantCountToSeasons1775300000000" AddParticipantCountToSeasons1775300000000_up AddParticipantCountToSeasons1775300000000_down;
    mkMigration "CreateUserPreferencesTable1775300000000" CreateUserPreferencesTable1775300000000_up CreateUserPreferencesTable1775300000000_down;
    mkMigration "CreateUserFollowsTable1775310000000" CreateUserFollowsTable1775310000000_up CreateUserFollowsTable1775310000000_down;
    mkMigration "AddCompetitionCancelledFlag1775400000000" AddCompetitionCancelledFlag1775400000000_up AddCompetitionCancelledFlag1775400000000_down;
    mkMigration "CreateDisputesTable1775500000000" CreateDisputesTable1775500000000_up CreateDisputesTable1775500000000_down;
    mkMigration "AddCreatorEventsSearchIndexes1775600000000" AddCreatorEventsSearchIndexes1775600000000_up AddCreatorEventsSearchIndexes1775600000000_down;
    mkMigration "AddFilteringIndexes1775700000000" AddFilteringIndexes1775700000000_up AddFilteringIndexes1775700000000_down;
    mkMigration "AddCreatorEventCampaignFields1775800000000" AddCreatorEventCampaignFields1775800000000_up AddCreatorEventCampaignFields1775800000000_down;
    mkMigration "AddScoreAndMultiplierToMatch1775800000000" AddScoreAndMultiplierToMatch1775800000000_up AddScoreAndMultiplierToMatch1775800000000_down;
    mkMigration "AddScorelineAndPointsToMatchPrediction1775900000000" AddScorelineAndPointsToMatchPrediction1775900000000_up AddScorelineAndPointsToMatchPrediction1775900000000_down;
    mkMigration "AddTotalEntryFeesCollected1775900000000" AddTotalEntryFeesCollected1775900000000_up AddTotalEntryFeesCollected1775900000000_down;
    mkMigration "CreateCreatorEventPayout1776000000000" CreateCreatorEventPayout1776000000000_up CreateCreatorEventPayout1776000000000_down;
    mkMigration "CreateWebhooksTablesWithDelivery1776100000000" CreateWebhooksTablesWithDelivery1776100000000_up CreateWebhooksTablesWithDelivery1776100000000_down;
    mkMigration "AddNotificationDigest1776200000000" AddNotificationDigest1776200000000_up AddNotificationDigest1776200000000_down;
    mkMigration "AddSearchVectors1776200000000" AddSearchVectors1776200000000_up AddSearchVectors1776200000000_down;
    mkMigration "CreateChainSyncCheckpointTable1776200000000" CreateChainSyncCheckpointTable1776200000000_up CreateChainSyncCheckpointTable1776200000000_down;
    mkMigration "AddDataExportJobAndUserSoftDelete1776300000000" AddDataExportJobAndUserSoftDelete1776300000000_up AddDataExportJobAndUserSoftDelete1776300000000_down;
    mkMigration "CreateApiKeys1776400000000" CreateApiKeys1776400000000_up CreateApiKeys1776400000000_down;
    mkMigration "CreateIdempotencyKeys1776500000000" CreateIdempotencyKeys1776500000000_up CreateIdempotencyKeys1776500000000_down;
    mkMigration "AddPgTrgmAndTrigramIndexes1776600000000" AddPgTrgmAndTrigramIndexes1776600000000_up AddPgTrgmAndTrigramIndexes1776600000000_down;
    mkMigration "CreateLeaderboardSnapshotsTable1776600000000" CreateLeaderboardSnapshotsTable1776600000000_up CreateLeaderboardSnapshotsTable1776600000000_down;
    mkMigration "AddMarketSettlementState1776700000000" AddMarketSettlementState1776700000000_up AddMarketSettlementState1776700000000_down;
    mkMigration "AddOracleAnomalyDetection1776700000000" AddOracleAnomalyDetection1776700000000_up AddOracleAnomalyDetection1776700000000_down;
    mkMigration "CreateUserFlags1776800000000" CreateUserFlags1776800000000_up CreateUserFlags1776800000000_down;
    mkMigration "CreateDisputeEvidence1776900000000" CreateDisputeEvidence1776900000000_up CreateDisputeEvidence1776900000000_down;
    mkMigration "CreateCompetitionBracket1777000000000" CreateCompetitionBracket1777000000000_up CreateCompetitionBracket1777000000000_down;
    mkMigration "CreateRefreshTokens1777000000000" CreateRefreshTokens1777000000000_up CreateRefreshTokens1777000000000_down;
    mkMigration "CreateNotificationCategoryPreferences1777000000001" CreateNotificationCategoryPreferences1777000000001_up CreateNotificationCategoryPreferences1777000000001_down;
    mkMigration "CreateAuthAuditEvents1777000100000" CreateAuthAuditEvents1777000100000_up CreateAuthAuditEvents1777000100000_down;
    mkMigration "AddLastIndexedLedgerHashToChainSyncCheckpoint1777100000000" AddLastIndexedLedgerHashToChainSyncCheckpoint1777100000000_up AddLastIndexedLedgerHashToChainSyncCheckpoint1777100000000_down;
    mkMigration "CreateReorgEventsTable1777100100000" CreateReorgEventsTable1777100100000_up CreateReorgEventsTable1777100100000_down;
    mkMigration "CreateWebhookProcessedEvents1777200000000" CreateWebhookProcessedEvents1777200000000_up CreateWebhookProcessedEvents1777200000000_down;
    mkMigration "AddExternalMatchResultIngestion1777300000000" AddExternalMatchResultIngestion1777300000000_up AddExternalMatchResultIngestion1777300000000_down;
    mkMigration "AddSeasonRolloverProcessedAt1777300000000" AddSeasonRolloverProcessedAt1777300000000_up AddSeasonRolloverProcessedAt1777300000000_down;
    mkMigration "AddDigestSchedulingToUserPreferences1777400000000" AddDigestSchedulingToUserPreferences1777400000000_up AddDigestSchedulingToUserPreferences1777400000000_down;
    mkMigration "CreateOracleSourceReliability1777400000000" CreateOracleSourceReliability1777400000000_up CreateOracleSourceReliability1777400000000_down;
    mkMigration "CreatePredictionFraudFlags1777500000000" CreatePredictionFraudFlags1777500000000_up CreatePredictionFraudFlags1777500000000_down;
    mkMigration "AddDisputeSlaFields1777600000000" AddDisputeSlaFields1777600000000_up AddDisputeSlaFields1777600000000_down;
    mkMigration "CreateUserReferrals1777700000000" CreateUserReferrals1777700000000_up CreateUserReferrals1777700000000_down;
    mkMigration "AddDisputeTieredEscalation1777800000000" AddDisputeTieredEscalation1777800000000_up AddDisputeTieredEscalation1777800000000_down;
    mkMigration "CreateAnchorDeposits1777900000000" CreateAnchorDeposits1777900000000_up CreateAnchorDeposits1777900000000_down;
    mkMigration "CreateGoalsAndBalances1778000000000" CreateGoalsAndBalances1778000000000_up CreateGoalsAndBalances1778000000000_down;
    mkMigration "ReplaceMarketPreferencesWithSavings1778100000000" ReplaceMarketPreferencesWithSavings1778100000000_up ReplaceMarketPreferencesWithSavings1778100000000_down;
    mkMigration "DropLegacyPredictionMarketTables1778200000000" DropLegacyPredictionMarketTables1778200000000_up DropLegacyPredictionMarketTables1778200000000_down;
    mkMigration "CreateWebAuthnCredentials1778300000000" CreateWebAuthnCredentials1778300000000_up CreateWebAuthnCredentials1778300000000_down;
    mkMigration "CreateGroups1778400000000" CreateGroups1778400000000_up CreateGroups1778400000000_down;
    mkMigration "RemovePredictionColumnsFromUser1778400000000" RemovePredictionColumnsFromUser1778400000000_up RemovePredictionColumnsFromUser1778400000000_down;
    mkMigration "CreateGroups1778500000000" CreateGroups1778500000000_up CreateGroups1778500000000_down;
    mkMigration "CreateLockedPlans1778600000000" CreateLockedPlans1778600000000_up CreateLockedPlans1778600000000_down;
    mkMigration "CreateSavingsAccounts1778700000000" CreateSavingsAccounts1778700000000_up CreateSavingsAccounts1778700000000_down;
    mkMigration "UpdateNotificationTypesForSavings1778700000000" UpdateNotificationTypesForSavings1778700000000_up UpdateNotificationTypesForSavings1778700000000_down;
    mkMigration "CreateGroupMembers1778800000000" CreateGroupMembers1778800000000_up CreateGroupMembers1778800000000_down;
    mkMigration "AddCreatedAtToBalances1778900000000" AddCreatedAtToBalances1778900000000_up AddCreatedAtToBalances1778900000000_down;
    mkMigration "CreatePendingWithdrawals1779000000000" CreatePendingWithdrawals1779000000000_up CreatePendingWithdrawals1779000000000_down;
    mkMigration "CreateHarvestHistory1779100000000" CreateHarvestHistory1779100000000_up CreateHarvestHistory1779100000000_down;
    mkMigration "CreateYieldPositions1790360848678" CreateYieldPositions1790360848678_up CreateYieldPositions1790360848678_down;
    mkMigration "CreateOAuthAuthentication1792509000000" CreateOAuthAuthentication1792509000000_up CreateOAuthAuthentication1792509000000_down ].

End Migrations.
