(* ===== verification/Schema.v ===== *)
(** * The schema: what the migrations leave of what the entities need

    Models how TypeORM runs the migrations of [Migrations] ([migration:run] of
    [backend/package.json], with the data source of [backend/src/config/typeorm.config.ts])
    and the tables and columns that the entities of [backend/src/] declare: those of
    [@Column] and its kin, and the join columns of relations.

    [migrations_never_complete]: on no database can all migrations be run.
    [unmigrated_columns]: which columns no sequence of migrations creates.
    [repaired_builds_schema]: without the migrations that fail, and with the users first, a
    fresh database gets every other column. *)
From Stdlib Require Import ZArith Lia.
From stdpp Require Import base list strings sets gmap countable.
From S2P Require Import Prelude Catalog Migrations.
Local Open Scope string_scope.
Local Open Scope list_scope.

Module Schema.
Import Catalog Migrations.

(** ** Entities *)

Record entity := mkEntity { e_name : string; e_table : string; e_columns : list string }.

Definition DataExportJob_entity : entity := mkEntity "DataExportJob" "data_export_jobs"
  ["id"; "user_id"; "status"; "file_path"; "expires_at"; "created_at"; "updated_at"].

Definition AdminAuditLog_entity : entity := mkEntity "AdminAuditLog" "admin_audit_logs"
  ["id"; "actor_id"; "action"; "target_type"; "target_id"; "metadata"; "checksum"; "created_at"].

Definition UserFlag_entity : entity := mkEntity "UserFlag" "user_flags"
  ["id"; "user_id"; "reason"; "flagged_by"; "created_at"].

Definition VerifiedAddress_entity : entity := mkEntity "VerifiedAddress" "verified_addresses"
  ["id"; "address"; "verified_by"; "events_created"; "verified_at"].

Definition AnalyticsMetric_entity : entity := mkEntity "AnalyticsMetric" "analytics_metrics"
  ["id"; "metric_type"; "period"; "period_start"; "period_end"; "user_id"; "value"; "count"; "metadata";
   "created_at"; "updated_at"].

Definition ApiKey_entity : entity := mkEntity "ApiKey" "api_keys"
  ["id"; "userId"; "name"; "key_prefix"; "key_hash"; "scopes"; "expires_at"; "revoked_at"; "last_used_at";
   "created_at"; "updated_at"].

Definition AuthAuditEvent_entity : entity := mkEntity "AuthAuditEvent" "auth_audit_events"
  ["id"; "user_id"; "family_id"; "event_type"; "metadata"; "created_at"].

Definition OAuthIdentity_entity : entity := mkEntity "OAuthIdentity" "oauth_identities"
  ["id"; "user_id"; "provider"; "provider_user_id"; "email"; "display_name"; "created_at"].

Definition OAuthTransaction_entity : entity := mkEntity "OAuthTransaction" "oauth_transactions"
  ["id"; "state_hash"; "provider"; "intent"; "user_id"; "nonce"; "client_verifier_hash"; "expires_at";
   "consumed_at"; "exchange_code_hash"; "exchanged_at"; "return_to"; "created_at"].

Definition RefreshToken_entity : entity := mkEntity "RefreshToken" "refresh_tokens"
  ["id"; "user_id"; "family_id"; "token_hash"; "previous_token_id"; "revoked_at"; "expires_at"; "created_at"].

Definition TwoFactorAuth_entity : entity := mkEntity "TwoFactorAuth" "two_factor_auth"
  ["id"; "userId"; "secret"; "isEnabled"; "isVerified"; "backupCodes"; "lastUsedAt"; "failedAttempts";
   "lockedUntil"; "createdAt"; "updatedAt"].

Definition TwoFactorRecovery_entity : entity := mkEntity "TwoFactorRecovery" "two_factor_recovery"
  ["id"; "userId"; "recoveryToken"; "expiresAt"; "isUsed"; "usedAt"; "ipAddress"; "userAgent"; "createdAt"].

Definition WebAuthnCredential_entity : entity := mkEntity "WebAuthnCredential" "webauthn_credentials"
  ["id"; "user_id"; "credential_id"; "public_key"; "counter"; "device_type"; "backed_up"; "transports";
   "created_at"; "last_used_at"].

Definition IdempotencyKey_entity : entity := mkEntity "IdempotencyKey" "idempotency_keys"
  ["id"; "key"; "userId"; "request_hash"; "status_code"; "response_body"; "in_progress"; "created_at"].

Definition Goal_entity : entity := mkEntity "Goal" "goals"
  ["id"; "on_chain_id"; "owner"; "name"; "target_amount"; "current_amount"; "status"; "reached_at";
   "created_at"; "updated_at"].

Definition ChainSyncCheckpoint_entity : entity := mkEntity "ChainSyncCheckpoint" "chain_sync_checkpoints"
  ["contract_id"; "last_indexed_ledger"; "last_indexed_ledger_hash"; "chain_head_ledger";
   "last_reconciled_from"; "last_reconciled_to"; "last_reconciled_at"; "last_backfill_count"; "created_at";
   "updated_at"].

Definition ContractEvent_entity : entity := mkEntity "ContractEvent" "contract_events"
  ["id"; "ledger"; "log_index"; "event_type"; "data"; "tx_hash"; "status"; "error_message"; "retry_count";
   "created_at"; "processed_at"].

Definition FeeHistory_entity : entity := mkEntity "FeeHistory" "fee_history"
  ["id"; "old_fee_stroops"; "new_fee_stroops"; "updated_by"; "ledger"; "tx_hash"; "created_at"].

Definition HarvestHistory_entity : entity := mkEntity "HarvestHistory" "harvest_history"
  ["id"; "delta"; "fee"; "harvested_at"; "ledger"; "tx_hash"; "created_at"].

Definition IndexerCheckpoint_entity : entity := mkEntity "IndexerCheckpoint" "indexer_checkpoints"
  ["key"; "value"; "meta"; "updated_at"].

Definition PendingWithdrawal_entity : entity := mkEntity "PendingWithdrawal" "pending_withdrawals"
  ["id"; "request_id"; "owner"; "shares"; "claimable_at"; "status"; "cancelled_at"; "created_at";
   "updated_at"].

Definition ReorgEvent_entity : entity := mkEntity "ReorgEvent" "reorg_events"
  ["id"; "contract_id"; "fork_ledger"; "previous_ledger"; "previous_hash"; "new_hash";
   "rolled_back_event_count"; "detected_at"].

Definition InterestRateConfig_entity : entity := mkEntity "InterestRateConfig" "interest_rate_configs"
  ["id"; "name"; "description"; "asset"; "base_rate"; "min_rate"; "max_rate"; "optimal_utilization";
   "slope_up"; "slope_down"; "smoothing_factor"; "is_active"; "notes"; "created_at"; "updated_at"].

Definition InterestRateHistory_entity : entity := mkEntity "InterestRateHistory" "interest_rate_history"
  ["id"; "config_id"; "calculated_rate"; "utilization_ratio"; "total_liquidity"; "total_utilization";
   "oracle_price"; "previous_rate"; "rate_delta"; "created_at"].

Definition OracleData_entity : entity := mkEntity "OracleData" "oracle_data"
  ["id"; "asset"; "source_type"; "price_usd"; "price_base"; "confidence"; "price_timestamp"; "is_valid";
   "notes"; "created_at"; "updated_at"].

Definition NftRewardMilestone_entity : entity := mkEntity "NftRewardMilestone" "nft_reward_milestones"
  ["id"; "milestone_type"; "threshold"; "name"; "description"; "nft_title"; "nft_description";
   "image_ipfs_cid"; "rarity_tier"; "is_active"; "is_soulbound"; "created_at"; "updated_at"].

Definition UserNftReward_entity : entity := mkEntity "UserNftReward" "user_nft_rewards"
  ["id"; "user_id"; "milestone_id"; "status"; "nft_contract_address"; "nft_token_id"; "metadata_ipfs_cid";
   "mint_tx_hash"; "mint_ledger"; "earned_at"; "minted_at"; "transferred_at"; "updated_at"].

Definition NotificationCategoryPreference_entity : entity := mkEntity "NotificationCategoryPreference" "notification_category_preferences"
  ["id"; "userId"; "category"; "in_app"; "email"; "push"; "createdAt"; "updatedAt"].

Definition NotificationDigestState_entity : entity := mkEntity "NotificationDigestState" "notification_digest_state"
  ["id"; "user_id"; "last_daily_period"; "last_weekly_period"; "updated_at"].

Definition NotificationPreference_entity : entity := mkEntity "NotificationPreference" "notification_preferences"
  ["id"; "userId"; "channel"; "frequency"; "quietHours"; "yieldEarnedEnabled"; "createdAt"; "updatedAt"].

Definition Notification_entity : entity := mkEntity "Notification" "notifications"
  ["id"; "user_address"; "type"; "title"; "message"; "data"; "read"; "created_at"; "deleted_at"].

Definition RoundupBatch_entity : entity := mkEntity "RoundupBatch" "roundup_batches"
  ["id"; "record_count"; "total_amount"; "status"; "successful_count"; "failed_count"; "deposit_tx_hash";
   "deposit_ledger"; "error_message"; "metadata"; "created_at"; "processing_started_at"; "processed_at";
   "updated_at"].

Definition RoundupConfig_entity : entity := mkEntity "RoundupConfig" "roundup_configs"
  ["id"; "user_id"; "name"; "description"; "method"; "method_parameter"; "frequency"; "min_roundup_amount";
   "max_roundup_per_transaction"; "target_vault"; "is_active"; "is_paused"; "pause_reason";
   "last_processed_at"; "next_scheduled_at"; "created_at"; "updated_at"].

Definition RoundupRecord_entity : entity := mkEntity "RoundupRecord" "roundup_records"
  ["id"; "user_id"; "config_id"; "status"; "trigger_source"; "roundup_amount"; "original_amount";
   "method_applied"; "transaction_reference"; "trigger_timestamp"; "deposit_tx_hash"; "deposit_ledger";
   "error_message"; "batch_id"; "metadata"; "created_at"; "processed_at"].

Definition AnchorDeposit_entity : entity := mkEntity "AnchorDeposit" "anchor_deposits"
  ["id"; "user_id"; "stellar_account"; "asset_code"; "transaction_id"; "interactive_url"; "status";
   "created_at"; "updated_at"].

Definition Balance_entity : entity := mkEntity "Balance" "balances"
  ["id"; "account"; "amount"; "created_at"; "updated_at"].

Definition GroupMember_entity : entity := mkEntity "GroupMember" "group_members"
  ["id"; "group_id"; "address"; "share_bps"; "created_at"; "updated_at"].

Definition Group_entity : entity := mkEntity "Group" "groups"
  ["id"; "on_chain_id"; "creator"; "name"; "balance"; "open"; "settled"; "settled_at"; "created_at";
   "updated_at"].

Definition LockedPlan_entity : entity := mkEntity "LockedPlan" "locked_plans"
  ["id"; "on_chain_id"; "owner"; "balance"; "unlock_at"; "created_at"; "updated_at"].

Definition SavingsAccount_entity : entity := mkEntity "SavingsAccount" "savings_accounts"
  ["id"; "owner"; "balance"; "created_at"; "updated_at"].

Definition YieldPosition_entity : entity := mkEntity "YieldPosition" "yield_positions"
  ["id"; "owner"; "shares"; "exchange_rate_snapshot"; "created_at"; "updated_at"].

Definition SystemState_entity : entity := mkEntity "SystemState" "system_state"
  ["key"; "value"; "updated_at"].

Definition ReferralReward_entity : entity := mkEntity "ReferralReward" "referral_rewards"
  ["id"; "referral_id"; "recipient_id"; "type"; "amount"; "asset_code"; "status"; "issued_at"; "metadata";
   "created_at"].

Definition UserFollow_entity : entity := mkEntity "UserFollow" "user_follows"
  ["id"; "follower_id"; "followerId"; "following_id"; "followingId"; "created_at"].

Definition UserPreferences_entity : entity := mkEntity "UserPreferences" "user_preferences"
  ["id"; "user_id"; "email_notifications"; "marketing_emails"; "goal_created_notifications";
   "goal_contribution_notifications"; "goal_reached_notifications"; "deposit_notifications";
   "withdrawal_notifications"; "group_settlement_notifications"; "digest_frequency"; "digest_hour";
   "digest_timezone"; "created_at"; "updated_at"].

Definition UserReferral_entity : entity := mkEntity "UserReferral" "user_referrals"
  ["id"; "referrer_id"; "referred_id"; "status"; "qualified_at"; "created_at"].

Definition User_entity : entity := mkEntity "User" "users"
  ["id"; "stellar_address"; "username"; "avatar_url"; "role"; "email"; "is_banned"; "ban_reason";
   "banned_at"; "banned_by"; "preferences_id"; "created_at"; "updated_at"; "deleted_at"].

Definition WebhookDeliveryLog_entity : entity := mkEntity "WebhookDeliveryLog" "webhook_delivery_logs"
  ["id"; "endpoint_id"; "event_type"; "payload"; "status"; "attempt_count"; "http_status_code";
   "error_message"; "next_retry_at"; "created_at"; "delivered_at"].

Definition WebhookEndpoint_entity : entity := mkEntity "WebhookEndpoint" "webhook_endpoints"
  ["id"; "userId"; "url"; "event_types"; "secret_key"; "is_active"; "failure_count"; "last_delivery_at";
   "last_failure_at"; "created_at"; "updated_at"].

Definition WebhookProcessedEvent_entity : entity := mkEntity "WebhookProcessedEvent" "webhook_processed_events"
  ["id"; "source"; "event_id"; "received_at"].

Definition entities : list entity :=
  [DataExportJob_entity; AdminAuditLog_entity; UserFlag_entity; VerifiedAddress_entity;
   AnalyticsMetric_entity; ApiKey_entity; AuthAuditEvent_entity; OAuthIdentity_entity;
   OAuthTransaction_entity; RefreshToken_entity; TwoFactorAuth_entity; TwoFactorRecovery_entity;
   WebAuthnCredential_entity; IdempotencyKey_entity; Goal_entity; ChainSyncCheckpoint_entity;
   ContractEvent_entity; FeeHistory_entity; HarvestHistory_entity; IndexerCheckpoint_entity;
   PendingWithdrawal_entity; ReorgEvent_entity; InterestRateConfig_entity; InterestRateHistory_entity;
   OracleData_entity; NftRewardMilestone_entity; UserNftReward_entity; NotificationCategoryPreference_entity;
   NotificationDigestState_entity; NotificationPreference_entity; Notification_entity; RoundupBatch_entity;
   RoundupConfig_entity; RoundupRecord_entity; AnchorDeposit_entity; Balance_entity; GroupMember_entity;
   Group_entity; LockedPlan_entity; SavingsAccount_entity; YieldPosition_entity; SystemState_entity;
   ReferralReward_entity; UserFollow_entity; UserPreferences_entity; UserReferral_entity; User_entity;
   WebhookDeliveryLog_entity; WebhookEndpoint_entity; WebhookProcessedEvent_entity].

(** The columns of an entity, with their table. *)
Definition needs (e : entity) : list (string * string) := (fun c => (e_table e, c)) <$> e_columns e.

(** ** The runner *)

Section runner.
Context {P : Postgres}.

(** The database and the names in its table of executed migrations. *)
Record state := mkState { done : list string; database : db }.

Fixpoint query_all (l : list stmt) (d : db) : option db :=
  match l with
  | [] => Some d
  | st :: l' => match query st d with Some d' => query_all l' d' | None => None end
  end.

Definition pending (dn : list string) : list migration :=
  List.filter (fun m => negb (bool_decide (m_name m ∈ dn))) migrations.

(** All pending migrations in one transaction: an error rolls everything back. *)
Definition runMigrations : M state unit := fun s =>
  let todo := pending (done s) in
  match query_all (todo ≫= m_up) (database s) with
  | Some d => (Ret tt, mkState (done s ++ (m_name <$> todo))%list d)
  | None => (Throw (JsError "QueryFailedError"), s)
  end.

(** The last executed migration, in a transaction. *)
Definition undoLastMigration : M state unit := fun s =>
  match head (rev (done s)) with
  | None => (Ret tt, s)
  | Some n =>
      match find (fun m => bool_decide (m_name m = n)) migrations with
      | None => (Throw (JsError ("No migration " +:+ n +:+ " was found in the source code.")), s)
      | Some m =>
          match query_all (m_down m) (database s) with
          | Some d => (Ret tt, mkState (removelast (done s)) d)
          | None => (Throw (JsError "QueryFailedError"), s)
          end
      end
  end.

Lemma query_all_run l d d' : query_all l d = Some d' -> run l (catalog d) = Some (catalog d').
Proof.
  unfold run. revert d. induction l as [|st l IH]; intros d; cbn [query_all all]; [by intros [= <-]|].
  destruct (query st d) as [d1|] eqn:H1; [|done]. apply query_sound in H1. rewrite H1. apply IH.
Qed.

Lemma run_app l1 l2 s : run (l1 ++ l2)%list s = run l1 s ≫= run l2.
Proof.
  unfold run. revert s. induction l1 as [|st l1 IH]; intros s; cbn [all app]; [done|].
  destruct (exec st s); [apply IH|done].
Qed.

(** When no catalogue lets the pending statements succeed, the run throws and changes nothing. *)
Lemma run_blocked s : (forall c, run (pending (done s) ≫= m_up) c = None) -> exists e, runMigrations s = (Throw e, s).
Proof.
  intros H. unfold runMigrations. destruct (query_all _ _) as [d|] eqn:Hq; [|by eexists].
  apply query_all_run in Hq. by rewrite H in Hq.
Qed.

(** *** The notifications *)

Lemma put_index_tables n i s s' : put_index n i s = Some s' -> tables s' = tables s.
Proof. by intros [_ [= <-]]%guard_inv. Qed.

Lemma all_put_con_tables t ks s s' c :
  all (fun p => put_con t p.1 p.2) ks s = Some s' -> has t c s -> has t c s'.
Proof.
  revert s. induction ks as [|[n k] ks IH]; intros s; cbn [all fst snd]; [by intros [= <-]|].
  destruct (put_con t n k s) as [s1|] eqn:H1; [|done]. intros H Hc. apply (IH s1 H).
  apply has_spec in Hc as (T & HT & Hc). apply guard_inv in H1 as [_ H1]. apply has_spec.
  assert (Hon : forall s2, tables s2 = tables s -> on_table t (fun T => mkTable (t_cols T) (<[n := k]> (t_cons T))) s2 = Some s1 ->
                exists T, tables s1 !! t = Some T /\ is_Some (t_cols T !! c)).
  { intros s2 Ht2. unfold on_table. rewrite Ht2, HT. intros [= <-]. eexists. cbn. rewrite Ht2, lookup_insert_eq. by split. }
  destruct k; cbn in H1.
  1-2: destruct (put_index _ _ s) as [s2|] eqn:H2; [|done]; apply (Hon s2); [by eapply put_index_tables|done].
  apply guard_inv in H1 as [_ H1]. by apply (Hon s).
Qed.

Lemma create_table_has t cols ks s s' c :
  exec (CREATE_TABLE t cols ks) s = Some s' -> c ∈ c_name <$> cols -> has t c s'.
Proof.
  cbn [exec]. unfold build_table. destruct (new_table t cols s) as [s1|] eqn:H1; [|done]. intros H Hc.
  eapply all_put_con_tables; [exact H|]. apply guard_inv in H1 as [H1 [= <-]]. apply has_spec.
  eexists. split; [cbn; by rewrite lookup_insert_eq|]. cbn.
  apply andb_true_iff in H1 as [H1 _]. apply andb_true_iff in H1 as [_ H1]. apply bool_decide_eq_true in H1.
  apply list_elem_of_fmap in Hc as (k & -> & Hk). exists k.
  apply elem_of_list_to_map_1; [by rewrite <-list_fmap_compose|]. apply list_elem_of_fmap. by exists k.
Qed.

Definition makes_index (st : stmt) : bool :=
  match st with createIndex _ _ | CREATE_INDEX _ _ _ => true | _ => false end.

Lemma indexes_keep_tables l s s' : forallb makes_index l = true -> run l s = Some s' -> tables s' = tables s.
Proof.
  unfold run. revert s. induction l as [|st l IH]; intros s; cbn [forallb all]; [by intros _ [= <-]|].
  intros [Hst Hl]%andb_true_iff. destruct (exec st s) as [s1|] eqn:H1; [|done]. intros H. rewrite (IH s1 Hl H).
  destruct st; try done; cbn [exec] in H1; [by eapply put_index_tables|].
  destruct (_ && _); [by injection H1 as <-|by eapply put_index_tables].
Qed.

(** [UpdateNotificationSchema] gives the table the column that the next migration adds. *)
Lemma updated_notifications s s' : run UpdateNotificationSchema1775100000000_up s = Some s' -> has "notifications" "deleted_at" s'.
Proof.
  assert (Hup : exists l cols ks r, UpdateNotificationSchema1775100000000_up = l ++ CREATE_TABLE "notifications" cols ks :: r /\
                  "deleted_at" ∈ c_name <$> cols /\ forallb makes_index r = true).
  { do 4 eexists. split; [exact (eq_sym (take_drop 5 _))|]. split; [|reflexivity]. cbn. set_solver. }
  destruct Hup as (l & cols & ks & r & -> & Hc & Hr). rewrite run_app. destruct (run l s) as [s1|]; [|done].
  cbn [mbind option_bind]. unfold run. cbn [all]. destruct (exec _ s1) as [s2|] eqn:H2; [|done]. intros H.
  apply (create_table_has _ _ _ _ _ _ H2) in Hc. apply has_spec. rewrite (indexes_keep_tables r s2 s' Hr H).
  by apply has_spec.
Qed.

Lemma notifications_blocked s :
  run (UpdateNotificationSchema1775100000000_up ++ AddSoftDeleteToNotifications1775200000000_up) s = None.
Proof.
  rewrite run_app. destruct (run UpdateNotificationSchema1775100000000_up s) as [s1|] eqn:H1; [|done]. cbn [mbind option_bind].
  apply updated_notifications in H1. unfold run, AddSoftDeleteToNotifications1775200000000_up. cbn [all exec andb].
  unfold put_column. cbn [c_name]. unfold has in H1. by rewrite H1.
Qed.

(** *** The groups *)

(** An index stays while tables, constraints and indexes are added. *)
Lemma put_index_keeps n i n' j s s' : put_index n i s = Some s' -> indexes s !! n' = Some j -> indexes s' !! n' = Some j.
Proof.
  intros [Hf [= <-]]%guard_inv Hj. cbn. rewrite lookup_insert_ne; [done|]. intros ->.
  apply andb_true_iff in Hf as [Hf _]. apply andb_true_iff in Hf as [Hf _]. apply bool_decide_eq_true in Hf. congruence.
Qed.

Lemma on_table_indexes t f s s' : on_table t f s = Some s' -> indexes s' = indexes s.
Proof. unfold on_table. destruct (tables s !! t); [|done]. by intros [= <-]. Qed.

Lemma put_con_keeps t n c n' j s s' : put_con t n c s = Some s' -> indexes s !! n' = Some j -> indexes s' !! n' = Some j.
Proof.
  intros [_ H]%guard_inv Hj. destruct c; cbn in H.
  1-2: destruct (put_index _ _ s) as [s1|] eqn:H1; [|done]; apply on_table_indexes in H; rewrite H; by eapply put_index_keeps.
  apply guard_inv in H as [_ H]. apply on_table_indexes in H. by rewrite H.
Qed.

Lemma all_keeps {A} (f : A -> schema -> option schema) n j xs s s' :
  (forall x s s', f x s = Some s' -> indexes s !! n = Some j -> indexes s' !! n = Some j) ->
  all f xs s = Some s' -> indexes s !! n = Some j -> indexes s' !! n = Some j.
Proof.
  intros Hf. revert s. induction xs as [|x xs IH]; intros s; cbn [all]; [by intros [= <-]|].
  destruct (f x s) as [s1|] eqn:H1; [|done]. intros H Hj. apply (IH s1 H). by eapply Hf.
Qed.

Lemma enum_types_indexes t cols s : indexes (enum_types t cols s) = indexes s.
Proof.
  unfold enum_types. revert s. induction cols as [|c cols IH]; intros s; cbn [foldl]; [done|].
  rewrite IH. destruct (enum_of c); [|done]. by destruct (types s !! _).
Qed.

Lemma createTable_keeps d b n j s s' :
  exec (createTable d b) s = Some s' -> indexes s !! n = Some j -> indexes s' !! n = Some j.
Proof.
  cbn [exec]. destruct (_ && _); [by intros [= <-]|]. unfold build_table.
  destruct (new_table _ _ _) as [s1|] eqn:H1; [|done].
  destruct (all _ _ s1) as [s2|] eqn:H2; [|done]. intros H Hj.
  eapply all_keeps; [|exact H|]; [intros x ? ? Hx Hj'; exact (put_index_keeps _ _ _ _ _ _ Hx Hj')|].
  eapply all_keeps; [|exact H2|]; [intros x ? ? Hx Hj'; exact (put_con_keeps _ _ _ _ _ _ _ Hx Hj')|].
  apply guard_inv in H1 as [_ [= <-]]. cbn. by rewrite enum_types_indexes.
Qed.

Definition groups_index (s : schema) : Prop :=
  exists i, indexes s !! Named "UQ_groups_on_chain_id" = Some i /\ i_table i = "groups".

Lemma groups_created s s' : run CreateGroups1778400000000_up s = Some s' -> groups_index s'.
Proof.
  unfold run, CreateGroups1778400000000_up. cbn [all]. destruct (exec (createTable _ _) s) as [s1|]; [|done].
  destruct (exec (createIndex _ _) s1) as [s2|] eqn:H2; [|done].
  destruct (exec (CREATE_INDEX _ _ _) s2) as [s3|] eqn:H3; [|done]. intros [= <-].
  apply guard_inv in H2 as [_ [= <-]]. revert H3. cbn [exec].
  destruct (_ && _); [intros [= <-]|intros H3; exists (ix "groups" ["on_chain_id"] true "" false); split; [|done]; eapply put_index_keeps; [exact H3|]];
    [eexists; split; [cbn; apply lookup_insert_eq|done]|cbn; apply lookup_insert_eq].
Qed.

Lemma groups_kept l s s' :
  forallb (fun st => match st with dropColumn t _ => negb (bool_decide (t = "groups")) | _ => false end) l = true ->
  run l s = Some s' -> groups_index s -> groups_index s'.
Proof.
  unfold run. revert s. induction l as [|st l IH]; intros s; cbn [forallb all]; [by intros _ [= <-]|].
  intros [Hst Hl]%andb_true_iff. destruct (exec st s) as [s1|] eqn:H1; [|done]. intros H Hg. apply (IH s1 Hl H).
  destruct st; try done. apply negb_true_iff, bool_decide_eq_false in Hst. destruct Hg as (i & Hi & Ht).
  apply guard_inv in H1 as [_ H1]. destruct (on_table _ _ s) as [s2|] eqn:H2; [|done]. injection H1 as <-.
  apply on_table_indexes in H2. exists i. split; [|done]. cbn. apply map_lookup_filter_Some. rewrite H2.
  split; [done|]. left. cbn. congruence.
Qed.

Lemma groups_blocked s : groups_index s -> run CreateGroups1778500000000_up s = None.
Proof.
  intros (i & Hi & Ht). unfold run, CreateGroups1778500000000_up. cbn [all].
  destruct (exec (createTable _ _) s) as [s1|] eqn:H1; [|done]. apply (createTable_keeps _ _ _ _ _ _ H1) in Hi.
  cbn [exec]. unfold put_index, is_free. by rewrite Hi.
Qed.

(** *** No run completes *)

Lemma blocked_between l1 l2 l3 s :
  (forall c, run (l2 ≫= m_up) c = None) -> run ((l1 ++ l2 ++ l3) ≫= m_up) s = None.
Proof.
  intros H. rewrite !bind_app, !run_app. destruct (run (l1 ≫= m_up) s) as [s1|]; [|done]. cbn [mbind option_bind].
  by rewrite run_app, H.
Qed.

(** The migrations are [k] ones, the ones in [l], and the rest. *)
Lemma pending_between k l dn :
  take (length l) (drop k migrations) = l ->
  exists l1 l3, pending dn = l1 ++ List.filter (fun m => negb (bool_decide (m_name m ∈ dn))) l ++ l3.
Proof.
  intros H. rewrite <-H. unfold pending. do 2 eexists.
  rewrite <-(take_drop k migrations) at 1. rewrite <-(take_drop (length l) (drop k migrations)) at 1.
  by rewrite !List.filter_app, H.
Qed.

(** C40: No database lets a run complete that has to change the notifications or to create the
    groups: the second of two migrations adds a column, or an index, that the first one left
    there.  The run throws and, being one transaction, leaves the database as it was; so the
    documented set-up of a fresh database never creates a table. *)
Theorem migrations_never_complete (s : state) :
  (("UpdateNotificationSchema1775100000000" ∉ done s) /\ ("AddSoftDeleteToNotifications1775200000000" ∉ done s)) \/
  (("CreateGroups1778400000000" ∉ done s) /\ ("CreateGroups1778500000000" ∉ done s)) ->
  exists e, runMigrations s = (Throw e, s).
Proof.
  intros H. apply run_blocked. intros c. destruct H as [[H1 H2]|[H1 H2]].
  - destruct (pending_between 22 (take 2 (drop 22 migrations)) (done s) eq_refl) as (l1 & l3 & ->).
    apply blocked_between. clear c. intros c. cbn [take drop migrations List.filter m_name].
    rewrite !bool_decide_eq_false_2 by done. cbn [negb]. apply notifications_blocked.
  - destruct (pending_between 69 (take 3 (drop 69 migrations)) (done s) eq_refl) as (l1 & l3 & ->).
    apply blocked_between. clear c. intros c. cbn [take drop migrations List.filter m_name].
    rewrite (bool_decide_eq_false_2 _ H1), (bool_decide_eq_false_2 _ H2). cbn [negb].
    destruct (negb _); cbn [mbind list_bind m_up]; rewrite ?app_nil_r, !run_app;
      destruct (run CreateGroups1778400000000_up c) as [c1|] eqn:Hc1; try done; cbn [mbind option_bind];
      apply groups_created in Hc1; [|by apply groups_blocked].
    rewrite run_app. destruct (run RemovePredictionColumnsFromUser1778400000000_up c1) as [c2|] eqn:Hc2; [|done].
    cbn [mbind option_bind]. apply groups_blocked. by eapply groups_kept; [|exact Hc2|].
Qed.

(** *** Columns that no migration creates *)

(** A step runs one migration or reverts it, in a transaction; what fails changes nothing. *)
Inductive step := Up (m : migration) | Down (m : migration).

Definition script (x : step) : list stmt := match x with Up m => m_up m | Down m => m_down m end.
Definition of_step (x : step) : migration := match x with Up m | Down m => m end.

Definition do_step (d : db) (x : step) : db := default d (query_all (script x) d).

(** Every column that a statement of some migration adds. *)
Definition written : list (string * string) := migrations ≫= fun m => (m_up m ++ m_down m) ≫= adds.

(** The tables of entities that no migration creates, among them the event store and the
    checkpoints of the indexer. *)
Definition unmigrated_tables : list string :=
  ["admin_audit_logs"; "verified_addresses"; "analytics_metrics"; "two_factor_auth"; "two_factor_recovery";
   "contract_events"; "fee_history"; "indexer_checkpoints"; "notification_preferences"; "referral_rewards"].

(** The join columns of entities that no migration creates: the preferences of a user and
    the relations of a follow. *)
Definition unmigrated_joins : list (string * string) :=
  [("user_follows", "followerId"); ("user_follows", "followingId"); ("users", "preferences_id")].

Definition unmigrated (p : string * string) : bool :=
  bool_decide (p.1 ∈ unmigrated_tables) || bool_decide (p ∈ unmigrated_joins).

Lemma unmigrated_not_written : forallb (fun p => negb (unmigrated p)) written = true.
Proof. vm_compute. reflexivity. Qed.

Lemma run_grows l s s' : run l s = Some s' -> grows (l ≫= adds) s s'.
Proof.
  intros H. eapply grows_all; [|exact H]. intros st s1 s2 Hst H1. eapply grows_weaken; [|by apply exec_adds].
  intros p Hp. apply list_elem_of_bind. by exists st.
Qed.

Lemma step_grows x d : of_step x ∈ migrations -> grows written (catalog d) (catalog (do_step d x)).
Proof.
  intros Hm. unfold do_step. destruct (query_all (script x) d) as [d'|] eqn:Hq; cbn [default]; [|apply grows_refl].
  eapply grows_weaken; [|eapply run_grows, query_all_run, Hq]. intros p Hp. apply list_elem_of_bind.
  exists (of_step x). split; [|done]. rewrite bind_app. apply elem_of_app. destruct x; [by left|by right].
Qed.

(** Whatever migrations are run or reverted, in whatever order and on whatever database, the
    tables and join columns that no migration writes are there only if they were there
    before. *)
Theorem unmigrated_columns (xs : list step) (d : db) (t c : string) :
  Forall (fun x => of_step x ∈ migrations) xs -> unmigrated (t, c) = true ->
  has t c (catalog (foldl do_step d xs)) -> has t c (catalog d).
Proof.
  intros Hxs Hu. assert (Hw : (t, c) ∉ written).
  { intros Hw. pose proof unmigrated_not_written as H. rewrite forallb_forall in H.
    specialize (H (t, c) (proj1 (list_elem_of_In _ _) Hw)). by rewrite Hu in H. }
  revert d. induction Hxs as [|x xs Hx _ IH]; intros d; cbn [foldl]; [done|].
  intros Hh%IH. by destruct (step_grows x d Hx t c Hh).
Qed.

(** *** What is left to do *)

(** The migrations that cannot run: of each pair above the first, and those that need tables
    that do not exist; and the one that inserts rows, in a table that is dropped later. *)
Definition blockers : list string :=
  ["UpdateNotificationSchema1775100000000"; "CreateGroups1778400000000"; "CreateMarketTemplatesTable1774900000000";
   "AddCreatorEventsSearchIndexes1775600000000"; "AddFilteringIndexes1775700000000";
   "AddCreatorEventCampaignFields1775800000000"; "AddScoreAndMultiplierToMatch1775800000000";
   "AddScorelineAndPointsToMatchPrediction1775900000000"; "AddTotalEntryFeesCollected1775900000000";
   "AddOracleAnomalyDetection1776700000000"; "CreateCompetitionBracket1777000000000";
   "AddExternalMatchResultIngestion1777300000000"].

Definition users_first : string := "CreateUserEntity1774313247489".

(** The others, with the users before what refers to them. *)
Definition repaired : list migration :=
  List.filter (fun m => bool_decide (m_name m = users_first)) migrations ++
  List.filter (fun m => negb (bool_decide (m_name m ∈ users_first :: blockers))) migrations.

(** The columns of notifications that the left-out [UpdateNotificationSchema] would give. *)
Definition notification_columns : list (string * string) :=
  [("notifications", "user_address"); ("notifications", "data"); ("notifications", "read")].

Definition provided (s : schema) : bool :=
  forallb (fun p => has_cols p.1 [p.2] s || unmigrated p || bool_decide (p ∈ notification_columns)) (entities ≫= needs).

Lemma repaired_check : (match run (repaired ≫= m_up) empty_schema with Some s => provided s | None => false end) = true.
Proof. vm_compute. reflexivity. Qed.

Lemma repaired_rowless : forallb rowless (repaired ≫= m_up) = true.
Proof. vm_compute. reflexivity. Qed.

Lemma query_all_blank l d s :
  blank d -> forallb rowless l = true -> run l (catalog d) = Some s -> exists d', query_all l d = Some d' /\ catalog d' = s.
Proof.
  unfold run. revert d. induction l as [|st l IH]; intros d Hb; cbn [forallb all query_all]; [intros _ [= <-]; by exists d|].
  intros [Hst Hl]%andb_true_iff. destruct (exec st (catalog d)) as [s1|] eqn:H1; [|done]. intros H.
  destruct (query_blank st d s1 Hb Hst H1) as (d1 & -> & <- & Hb1). by apply IH.
Qed.

(** On a fresh database without rows the other migrations all succeed when the users come
    first, and then every entity finds its columns, but for those above. *)
Theorem repaired_builds_schema (d : db) :
  blank d -> catalog d = empty_schema ->
  exists d', query_all (repaired ≫= m_up) d = Some d' /\
    forall e c, e ∈ entities -> c ∈ e_columns e ->
      has (e_table e) c (catalog d') \/ unmigrated (e_table e, c) = true \/ (e_table e, c) ∈ notification_columns.
Proof.
  intros Hb Hd. pose proof repaired_check as H. destruct (run (repaired ≫= m_up) empty_schema) as [s|] eqn:Hr; [|done].
  rewrite <-Hd in Hr. destruct (query_all_blank (repaired ≫= m_up) d s Hb repaired_rowless Hr) as (d' & -> & Hd'). exists d'. split; [done|].
  intros e c He Hc. rewrite Hd'. unfold provided in H. rewrite forallb_forall in H.
  assert (Hin : In (e_table e, c) (entities ≫= needs)).
  { apply list_elem_of_In, list_elem_of_bind. exists e. split; [|done]. apply list_elem_of_fmap. by exists c. }
  specialize (H _ Hin). apply orb_true_iff in H as [[H|H]%orb_true_iff|H%bool_decide_eq_true]; [by left|right; by left|right; by right].
Qed.

End runner.

(** *** On a database that is a catalogue *)

Definition fresh : state (P := catalog_only) := mkState (P := catalog_only) [] empty_schema.

Lemma migrations_never_complete_witness : exists e, runMigrations fresh = (Throw e, fresh).
Proof. apply (migrations_never_complete fresh). left. split; apply not_elem_of_nil. Defined.

Definition goals_migration : migration :=
  mkMigration "CreateGoalsAndBalances1778000000000" CreateGoalsAndBalances1778000000000_up
    CreateGoalsAndBalances1778000000000_down.

Lemma unmigrated_columns_witness :
  has "contract_events" "id" (catalog (foldl (do_step (P := catalog_only)) empty_schema [Up goals_migration; Down goals_migration])) ->
  has "contract_events" "id" (catalog (Postgres := catalog_only) empty_schema).
Proof.
  apply (unmigrated_columns (P := catalog_only) [Up goals_migration; Down goals_migration] empty_schema "contract_events" "id").
  - assert (Hm : goals_migration ∈ migrations).
    { apply (list_elem_of_lookup_2 _ 65). reflexivity. }
    repeat constructor; exact Hm.
  - reflexivity.
Defined.

Lemma repaired_builds_schema_witness :
  exists s, query_all (P := catalog_only) (repaired ≫= m_up) empty_schema = Some s /\
    has "balances" "amount" (catalog (Postgres := catalog_only) s).
Proof.
  destruct (repaired_builds_schema (P := catalog_only) empty_schema I eq_refl) as (s & Hs & H). exists s. split; [exact Hs|].
  assert (He : Balance_entity ∈ entities) by (apply (list_elem_of_lookup_2 _ 35); reflexivity).
  assert (Hc : "amount" ∈ e_columns Balance_entity) by (apply (list_elem_of_lookup_2 _ 2); reflexivity).
  destruct (H Balance_entity "amount" He Hc) as [Hh|[Hh|Hh]]; [exact Hh|discriminate Hh|].
  exfalso. apply list_elem_of_In in Hh. destruct Hh as [Hh|[Hh|[Hh|[]]]]; discriminate Hh.
Defined.

End Schema.
