(* ===== verification/Routes.v ===== *)
(** * The routes of the HTTP server

    The controllers and modules of src/backend/src.  A controller is its path
    prefix, its decorators and its endpoints in declaration order; an endpoint is
    one decorated method: the verb and path of its route decorator, the decorators
    the server reads, and the body as a list of steps.

    A step names a method of an injected service and, for every argument, the
    parts of the request the argument is computed from, in the order in which the
    expression uses them ([query.limit ?? 50] is [QueryParam "limit"; Fixed "50"]).
    The bodies' own checks keep their place between the calls, with the answer
    they give.  What a handler does to shape the value it returns is left out,
    and so are the decorators that only document ([Api...]).

    [Server.v] gives the steps, the guards and the dispatch their meaning. *)
From Stdlib Require Import ZArith Ascii.
From stdpp Require Import base list strings.
From S2P Require Import Prelude OAuth.
Local Open Scope Z_scope.
Local Open Scope string_scope.
Local Open Scope list_scope.

Inductive verb := GET | POST | PUT | PATCH | DELETE.

(** A segment of a path: a literal or a parameter. *)
Inductive seg := Lit (s : string) | Par (s : string).

Inductive guard := JwtAuthGuard | RolesGuard | ApiKeyGuard | WebhookSignatureGuard.

Inductive decorator :=
| Public
| Roles (roles : list string)
| UseGuards (guards : list guard)
| HttpCode (status : Z)
| ThrottleTier (tier : string)
| Scopes (scopes : list string)
| UseInterceptors (interceptors : list string)
| CacheTTL (seconds : Z)
| UsePipes (pipes : list string)
| Header (header : list string).

(** Where an argument comes from. *)
Inductive source :=
| TheUser
| UserId
| UserAddress
| PathParam (name : string)
| AllParams
| QueryParam (name : string)
| WholeQuery
| BodyField (name : string)   (* a parameter decorated with the field's name *)
| DtoField (name : string)    (* a field read from the decorated body *)
| WholeBody
| Result                      (* what the latest call returned *)
| ItemField (name : string)   (* of the element of the loop *)
| Config (name : string)
| Fixed (text : string).

Inductive check :=
| SameAddress (claimed : source)      (* the caller's address is the one claimed *)
| OwnedByCaller                       (* the latest result belongs to the caller *)
| Found                               (* the latest result is not null *)
| Required (s : source)               (* not empty *)
| OneOf (s : source) (allowed : list string).

(** What a failed check answers. *)
Inductive refusal := Throws (status : Z) | Replies.

Inductive condition :=
| Truthy (s : source)
| Defined (s : source)
| Configured (name placeholder : string)
| OtherActive (s : source).           (* the element has another id and is active *)

Inductive step :=
| Call (service method : string) (args : list (list source))
| Check (c : check) (r : refusal)
| When (c : condition) (yes no : list step)
| ForEach (body : list step)          (* over the latest result *)
| Try (body handler : list step)      (* the handler answers http exceptions *)
| Redirect.

Record endpoint := mkEndpoint {
  e_name : string;
  e_verb : verb;
  e_path : list seg;
  e_decorators : list decorator;
  e_steps : list step;
}.

Record controller := mkController {
  c_name : string;
  c_path : list seg;
  c_decorators : list decorator;
  c_endpoints : list endpoint;
}.

Record module := mkModule { m_name : string; m_imports : list string; m_controllers : list controller }.

#[export] Instance verb_eq_dec : EqDecision verb.
Proof. solve_decision. Defined.
#[export] Instance seg_eq_dec : EqDecision seg.
Proof. solve_decision. Defined.
#[export] Instance source_eq_dec : EqDecision source.
Proof. solve_decision. Defined.

(** The names [parseOAuthProvider] accepts. *)
Definition OAUTH_PROVIDERS : list string := OAuth.provider_name <$> OAuth.OAUTH_PROVIDERS.

(** ** The controllers *)

(** *** [AccountController] *)

Definition AccountController_requestExport : endpoint := mkEndpoint "requestExport" POST [Lit "export"]
  []
  [Call "accountService" "requestExport" [[UserId]]].

Definition AccountController_getExportStatus : endpoint := mkEndpoint "getExportStatus" GET [Lit "export"; Par "jobId"]
  []
  [Call "accountService" "getExportStatus" [[UserId]; [PathParam "jobId"]]].

Definition AccountController_downloadExport : endpoint := mkEndpoint "downloadExport" GET [Lit "export"; Par "jobId"; Lit "download"]
  []
  [Call "accountService" "downloadExport" [[UserId]; [PathParam "jobId"]]].

Definition AccountController_deleteAccount : endpoint := mkEndpoint "deleteAccount" DELETE []
  [HttpCode 204]
  [Call "accountService" "deleteAccount" [[UserId]]].

Definition AccountController : controller := mkController "AccountController" [Lit "account"]
  []
  [AccountController_requestExport;
   AccountController_getExportStatus;
   AccountController_downloadExport;
   AccountController_deleteAccount].

(** *** [ActivityController] *)

Definition ActivityController_list : endpoint := mkEndpoint "list" GET []
  [Public; ThrottleTier "read"]
  [Call "activityService" "list" [[WholeQuery]]].

Definition ActivityController_export : endpoint := mkEndpoint "export" GET [Lit "export"]
  [Public; ThrottleTier "read"]
  [Call "activityService" "exportCsv" [[WholeQuery]]].

Definition ActivityController : controller := mkController "ActivityController" [Lit "savings"; Lit "activity"]
  [UsePipes ["ValidationPipe"]]
  [ActivityController_list;
   ActivityController_export].

(** *** [AdminController] *)

Definition AdminController_listUsers : endpoint := mkEndpoint "listUsers" GET [Lit "users"]
  []
  [Call "adminService" "listUsers" [[WholeQuery]]].

Definition AdminController_listVerifiedAddresses : endpoint := mkEndpoint "listVerifiedAddresses" GET [Lit "verified-addresses"]
  [UseInterceptors ["CacheInterceptor"]; CacheTTL 120]
  [Call "adminService" "listVerifiedAddresses" [[WholeQuery]]].

Definition AdminController_getSavingsOverview : endpoint := mkEndpoint "getSavingsOverview" GET [Lit "savings"; Lit "overview"]
  [Roles ["admin"; "moderator"]; UseInterceptors ["AdminAuditInterceptor"]]
  [Call "adminService" "getSavingsOverview" []].

Definition AdminController_getYieldOverview : endpoint := mkEndpoint "getYieldOverview" GET [Lit "savings"; Lit "yield"; Lit "overview"]
  [Roles ["admin"; "moderator"]; UseInterceptors ["AdminAuditInterceptor"]]
  [Call "adminService" "getYieldOverview" []].

Definition AdminController_banUser : endpoint := mkEndpoint "banUser" PATCH [Lit "users"; Par "id"; Lit "ban"]
  []
  [Call "adminService" "banUser" [[PathParam "id"]; [DtoField "reason"]; [UserId]]].

Definition AdminController_unbanUser : endpoint := mkEndpoint "unbanUser" PATCH [Lit "users"; Par "id"; Lit "unban"]
  []
  [Call "adminService" "unbanUser" [[PathParam "id"]; [UserId]]].

Definition AdminController_bulkUserAction : endpoint := mkEndpoint "bulkUserAction" POST [Lit "users"; Lit "bulk-action"]
  [HttpCode 200; UseInterceptors ["AdminAuditInterceptor"]]
  [Call "adminService" "bulkUserAction" [[WholeBody]; [UserId]]].

Definition AdminController_importUsersFromCsv : endpoint := mkEndpoint "importUsersFromCsv" POST [Lit "users"; Lit "import"; Lit "csv"]
  [HttpCode 200; UseInterceptors ["AdminAuditInterceptor"]]
  [Call "adminService" "importUsersFromCsv" [[WholeBody]; [UserId]]].

Definition AdminController_updateUserRole : endpoint := mkEndpoint "updateUserRole" PATCH [Lit "users"; Par "id"; Lit "role"]
  []
  [Call "adminService" "updateUserRole" [[PathParam "id"]; [WholeBody]; [UserId]]].

Definition AdminController_getDashboardStats : endpoint := mkEndpoint "getDashboardStats" GET [Lit "dashboard"; Lit "stats"]
  [UseInterceptors ["CacheInterceptor"]; CacheTTL 300]
  [Call "adminService" "getDashboardStats" []].

Definition AdminController_getRecentActivity : endpoint := mkEndpoint "getRecentActivity" GET [Lit "dashboard"; Lit "activity"]
  [UseInterceptors ["CacheInterceptor"]; CacheTTL 60]
  [Call "adminService" "getRecentActivity" [[WholeQuery]]].

Definition AdminController_getAnalytics : endpoint := mkEndpoint "getAnalytics" GET [Lit "dashboard"; Lit "analytics"]
  [UseInterceptors ["CacheInterceptor"]; CacheTTL 600]
  [Call "adminService" "getAnalytics" [[WholeQuery]]].

Definition AdminController_getNotificationOverview : endpoint := mkEndpoint "getNotificationOverview" GET [Lit "notifications"; Lit "overview"]
  [UseInterceptors ["CacheInterceptor"]; CacheTTL 120]
  [Call "adminService" "getNotificationOverview" []].

Definition AdminController_getSystemHealth : endpoint := mkEndpoint "getSystemHealth" GET [Lit "system"; Lit "health"]
  []
  [Call "adminService" "getSystemHealth" []].

Definition AdminController_getAuditLogs : endpoint := mkEndpoint "getAuditLogs" GET [Lit "audit-logs"]
  [UseInterceptors ["CacheInterceptor"]; CacheTTL 60]
  [Call "adminService" "getAuditLogs" [[WholeQuery]]].

Definition AdminController_verifyAuditIntegrity : endpoint := mkEndpoint "verifyAuditIntegrity" GET [Lit "audit-logs"; Lit "integrity"]
  []
  [Call "adminService" "verifyAuditIntegrity" []].

Definition AdminController_getReferralOverview : endpoint := mkEndpoint "getReferralOverview" GET [Lit "referrals"; Lit "overview"]
  []
  [Call "adminService" "getReferralOverview" []].

Definition AdminController_listReferrals : endpoint := mkEndpoint "listReferrals" GET [Lit "referrals"]
  [UseInterceptors ["CacheInterceptor"]; CacheTTL 60]
  [Call "adminService" "listReferrals" [[WholeQuery]]].

Definition AdminController_exportReport : endpoint := mkEndpoint "exportReport" GET [Lit "reports"; Lit "export"]
  []
  [Call "adminService" "exportReport" [[WholeQuery]]].

Definition AdminController : controller := mkController "AdminController" [Lit "admin"]
  [UseGuards [JwtAuthGuard; RolesGuard]; Roles ["admin"]]
  [AdminController_listUsers;
   AdminController_listVerifiedAddresses;
   AdminController_getSavingsOverview;
   AdminController_getYieldOverview;
   AdminController_banUser;
   AdminController_unbanUser;
   AdminController_bulkUserAction;
   AdminController_importUsersFromCsv;
   AdminController_updateUserRole;
   AdminController_getDashboardStats;
   AdminController_getRecentActivity;
   AdminController_getAnalytics;
   AdminController_getNotificationOverview;
   AdminController_getSystemHealth;
   AdminController_getAuditLogs;
   AdminController_verifyAuditIntegrity;
   AdminController_getReferralOverview;
   AdminController_listReferrals;
   AdminController_exportReport].

(** *** [AnalyticsController] *)

Definition AnalyticsController_getDashboard : endpoint := mkEndpoint "getDashboard" GET [Lit "dashboard"]
  [ThrottleTier "read"]
  [Call "analyticsService" "getDashboardKpis" [[UserId]]].

Definition AnalyticsController_getMetrics : endpoint := mkEndpoint "getMetrics" GET [Lit "metrics"]
  [ThrottleTier "read"]
  [Call "analyticsService" "getMetrics" [[QueryParam "metric_type"; Fixed "MetricType.USER_ACTIVITY"]; [QueryParam "period"; Fixed "AggregationPeriod.DAILY"]; [QueryParam "start_date"; Fixed "Date.now()"]; [QueryParam "end_date"; Fixed "Date.now()"]; [QueryParam "user_id"; UserId]]].

Definition AnalyticsController_getMetricSummary : endpoint := mkEndpoint "getMetricSummary" GET [Lit "summary"]
  [ThrottleTier "read"]
  [Call "analyticsService" "getMetricSummary" [[QueryParam "metric_type"; Fixed "MetricType.USER_ACTIVITY"]; [QueryParam "start_date"; Fixed "Date.now()"]; [QueryParam "end_date"; Fixed "Date.now()"]; [QueryParam "user_id"; UserId]]].

Definition AnalyticsController_getMetricTypes : endpoint := mkEndpoint "getMetricTypes" GET [Lit "types"]
  [ThrottleTier "read"]
  [].

Definition AnalyticsController : controller := mkController "AnalyticsController" [Lit "analytics"]
  [UseGuards [JwtAuthGuard]]
  [AnalyticsController_getDashboard;
   AnalyticsController_getMetrics;
   AnalyticsController_getMetricSummary;
   AnalyticsController_getMetricTypes].

(** *** [AppController] *)

Definition AppController_getHello : endpoint := mkEndpoint "getHello" GET []
  [Public]
  [Call "appService" "getHello" []].

Definition AppController_getAdminData : endpoint := mkEndpoint "getAdminData" GET [Lit "admin-only"]
  [Roles ["admin"]]
  [].

Definition AppController : controller := mkController "AppController" []
  []
  [AppController_getHello;
   AppController_getAdminData].

(** *** [ApiKeyController] *)

Definition ApiKeyController_create : endpoint := mkEndpoint "create" POST []
  [HttpCode 201]
  [Call "apiKeyService" "create" [[UserId]; [WholeBody]]].

Definition ApiKeyController_list : endpoint := mkEndpoint "list" GET []
  [HttpCode 200]
  [Call "apiKeyService" "listForUser" [[UserId]]].

Definition ApiKeyController_revoke : endpoint := mkEndpoint "revoke" DELETE [Par "id"]
  [HttpCode 200]
  [Call "apiKeyService" "revoke" [[PathParam "id"]; [UserId]]].

Definition ApiKeyController : controller := mkController "ApiKeyController" [Lit "auth"; Lit "api-keys"]
  []
  [ApiKeyController_create;
   ApiKeyController_list;
   ApiKeyController_revoke].

(** *** [AuthController] *)

Definition AuthController_getOAuthProviders : endpoint := mkEndpoint "getOAuthProviders" GET [Lit "oauth"; Lit "providers"]
  [Public]
  [Call "oauthService" "availableProviders" []].

Definition AuthController_startOAuthLogin : endpoint := mkEndpoint "startOAuthLogin" POST [Lit "oauth"; Par "provider"; Lit "start"]
  [Public; HttpCode 200]
  [Check (OneOf (PathParam "provider") OAUTH_PROVIDERS) (Throws 400);
   Call "oauthService" "beginLogin" [[PathParam "provider"]; [DtoField "client_verifier"]; [DtoField "return_to"]]].

Definition AuthController_startOAuthLink : endpoint := mkEndpoint "startOAuthLink" POST [Lit "oauth"; Par "provider"; Lit "link"; Lit "start"]
  [HttpCode 200]
  [Check (OneOf (PathParam "provider") OAUTH_PROVIDERS) (Throws 400);
   Call "oauthService" "beginLink" [[PathParam "provider"]; [UserId]; [DtoField "client_verifier"]]].

Definition AuthController_getOAuthIdentities : endpoint := mkEndpoint "getOAuthIdentities" GET [Lit "oauth"; Lit "identities"]
  []
  [Call "oauthService" "linkedProviders" [[UserId]]].

Definition AuthController_exchangeOAuthCode : endpoint := mkEndpoint "exchangeOAuthCode" POST [Lit "oauth"; Lit "exchange"]
  [Public; HttpCode 200]
  [Call "oauthService" "exchangeCode" [[DtoField "code"]; [DtoField "code_verifier"]]].

Definition AuthController_oauthCallback : endpoint := mkEndpoint "oauthCallback" GET [Lit "oauth"; Lit "callback"]
  [Public]
  [Try
     [Call "oauthService" "providerForState" [[QueryParam "state"]];
      When (Truthy (QueryParam "error"))
        [Call "oauthService" "completeProviderError" [[Result]; [QueryParam "state"]; [QueryParam "error"]]]
        [Call "oauthService" "completeCallback" [[Result]; [QueryParam "state"]; [QueryParam "code"]]];
      Redirect]
     [Call "oauthService" "callbackFailureForState" [[QueryParam "state"]]; Redirect]].

Definition AuthController_generateChallenge : endpoint := mkEndpoint "generateChallenge" POST [Lit "challenge"]
  [HttpCode 200]
  [Call "authService" "generateChallenge" [[DtoField "stellar_address"]]].

Definition AuthController_verifyChallenge : endpoint := mkEndpoint "verifyChallenge" POST [Lit "verify"]
  [HttpCode 200]
  [Call "authService" "verifyChallenge" [[DtoField "stellar_address"]; [DtoField "signed_challenge"]]].

Definition AuthController_verifyWallet : endpoint := mkEndpoint "verifyWallet" POST [Lit "verify-wallet"]
  [HttpCode 200]
  [Call "authService" "verifyStellarSignature" [[DtoField "stellar_address"]; [DtoField "challenge"]; [DtoField "signature"]]].

Definition AuthController_beginPasskeyAuthentication : endpoint := mkEndpoint "beginPasskeyAuthentication" POST [Lit "passkey"; Lit "authenticate"; Lit "begin"]
  [Public; HttpCode 200]
  [Call "authService" "beginPasskeyAuthentication" []].

Definition AuthController_finishPasskeyAuthentication : endpoint := mkEndpoint "finishPasskeyAuthentication" POST [Lit "passkey"; Lit "authenticate"; Lit "finish"]
  [Public; HttpCode 200]
  [Call "authService" "finishPasskeyAuthentication" [[DtoField "response"]]].

Definition AuthController_beginPasskeyRegistration : endpoint := mkEndpoint "beginPasskeyRegistration" POST [Lit "passkey"; Lit "register"; Lit "begin"]
  [HttpCode 200]
  [Call "authService" "beginPasskeyRegistration" [[TheUser]; [DtoField "display_name"]]].

Definition AuthController_finishPasskeyRegistration : endpoint := mkEndpoint "finishPasskeyRegistration" POST [Lit "passkey"; Lit "register"; Lit "finish"]
  [HttpCode 200]
  [Call "authService" "finishPasskeyRegistration" [[TheUser]; [DtoField "response"]]].

Definition AuthController_getRateLimitStatus : endpoint := mkEndpoint "getRateLimitStatus" GET [Lit "rate-limit"]
  []
  [Call "rateLimitService" "getStatus" [[UserId]]].

Definition AuthController_refreshToken : endpoint := mkEndpoint "refreshToken" POST [Lit "refresh"]
  [Public; HttpCode 200]
  [Call "authService" "rotateRefreshToken" [[DtoField "refresh_token"]]].

Definition AuthController : controller := mkController "AuthController" [Lit "auth"]
  [ThrottleTier "auth"]
  [AuthController_getOAuthProviders;
   AuthController_startOAuthLogin;
   AuthController_startOAuthLink;
   AuthController_getOAuthIdentities;
   AuthController_exchangeOAuthCode;
   AuthController_oauthCallback;
   AuthController_generateChallenge;
   AuthController_verifyChallenge;
   AuthController_verifyWallet;
   AuthController_beginPasskeyAuthentication;
   AuthController_finishPasskeyAuthentication;
   AuthController_beginPasskeyRegistration;
   AuthController_finishPasskeyRegistration;
   AuthController_getRateLimitStatus;
   AuthController_refreshToken].

(** *** [BackupController] *)

Definition BackupController_create : endpoint := mkEndpoint "create" POST []
  []
  [Call "backupService" "createBackup" []].

Definition BackupController_list : endpoint := mkEndpoint "list" GET []
  []
  [Call "backupService" "listBackups" []].

Definition BackupController_verify : endpoint := mkEndpoint "verify" POST [Par "id"; Lit "verify"]
  []
  [Call "backupService" "verifyBackup" [[PathParam "id"]]].

Definition BackupController_restore : endpoint := mkEndpoint "restore" POST [Par "id"; Lit "restore"]
  []
  [Call "backupService" "restoreBackup" [[PathParam "id"]; [BodyField "targetTime"]]].

Definition BackupController : controller := mkController "BackupController" [Lit "backup"]
  []
  [BackupController_create;
   BackupController_list;
   BackupController_verify;
   BackupController_restore].

(** *** [FxRateController] *)

Definition FxRateController_getRates : endpoint := mkEndpoint "getRates" GET []
  [Public]
  [Call "fxRateService" "getRates" []].

Definition FxRateController : controller := mkController "FxRateController" [Lit "fx-rates"]
  []
  [FxRateController_getRates].

(** *** [GoalsController] *)

Definition GoalsController_list : endpoint := mkEndpoint "list" GET []
  []
  [Call "goalsService" "list" [[QueryParam "owner"]]].

Definition GoalsController_summary : endpoint := mkEndpoint "summary" GET [Lit "summary"]
  []
  [Call "goalsService" "summary" [[QueryParam "owner"]]].

Definition GoalsController_getOne : endpoint := mkEndpoint "getOne" GET [Par "id"]
  []
  [Call "goalsService" "getByOnChainId" [[PathParam "id"]]].

Definition GoalsController_claim : endpoint := mkEndpoint "claim" POST [Par "id"; Lit "claim"]
  []
  [Call "goalsService" "claim" [[PathParam "id"]]].

Definition GoalsController : controller := mkController "GoalsController" [Lit "goals"]
  []
  [GoalsController_list;
   GoalsController_summary;
   GoalsController_getOne;
   GoalsController_claim].

(** *** [HealthController] *)

Definition HealthController_check : endpoint := mkEndpoint "check" GET []
  [Public]
  [Call "healthService" "checkHealth" []].

Definition HealthController_checkLiveness : endpoint := mkEndpoint "checkLiveness" GET [Lit "live"]
  [Public]
  [Call "healthService" "checkLiveness" []].

Definition HealthController_checkReadiness : endpoint := mkEndpoint "checkReadiness" GET [Lit "ready"]
  [Public]
  [Call "healthService" "checkReadiness" []].

Definition HealthController_checkDependencies : endpoint := mkEndpoint "checkDependencies" GET [Lit "dependencies"]
  [Public]
  [Call "healthService" "checkDetailed" [[Fixed "true"]]].

Definition HealthController_checkPing : endpoint := mkEndpoint "checkPing" GET [Lit "ping"]
  [Public]
  [Call "healthService" "checkPing" []].

Definition HealthController_checkDetailed : endpoint := mkEndpoint "checkDetailed" GET [Lit "detailed"]
  [Public]
  [Call "healthService" "checkDetailed" [[QueryParam "verbose"]]].

Definition HealthController : controller := mkController "HealthController" [Lit "health"]
  []
  [HealthController_check;
   HealthController_checkLiveness;
   HealthController_checkReadiness;
   HealthController_checkDependencies;
   HealthController_checkPing;
   HealthController_checkDetailed].

(** *** [IndexerHealthController] *)

Definition IndexerHealthController_getHealth : endpoint := mkEndpoint "getHealth" GET [Lit "health"]
  [Public]
  [Call "healthService" "getHealth" []].

Definition IndexerHealthController_getDashboard : endpoint := mkEndpoint "getDashboard" GET [Lit "health"; Lit "dashboard"]
  [Public]
  [Call "healthService" "getDashboard" []].

Definition IndexerHealthController_getPrometheusMetrics : endpoint := mkEndpoint "getPrometheusMetrics" GET [Lit "health"; Lit "prometheus"]
  [Public; Header ["Content-Type"; "text/plain; version=0.0.4; charset=utf-8"]]
  [Call "healthService" "getPrometheusMetrics" []].

Definition IndexerHealthController_getReconciliationStatus : endpoint := mkEndpoint "getReconciliationStatus" GET [Lit "health"; Lit "reconciliation"]
  [Public]
  [Call "reconciliationService" "getStatus" [];
   When (Configured "SOROBAN_CONTRACT_ID" "your-contract-id-here")
     [Call "reconciliationService" "getCheckpointForContract" [[Config "SOROBAN_CONTRACT_ID"]]] []].

Definition IndexerHealthController_triggerSync : endpoint := mkEndpoint "triggerSync" POST [Lit "health"; Lit "sync"]
  [UseGuards [JwtAuthGuard; RolesGuard]; Roles ["admin"]]
  [Call "healthService" "triggerManualSync" []].

Definition IndexerHealthController : controller := mkController "IndexerHealthController" [Lit "indexer"]
  []
  [IndexerHealthController_getHealth;
   IndexerHealthController_getDashboard;
   IndexerHealthController_getPrometheusMetrics;
   IndexerHealthController_getReconciliationStatus;
   IndexerHealthController_triggerSync].

(** *** [IndexerController] *)

Definition IndexerController_reindex : endpoint := mkEndpoint "reindex" POST [Lit "reindex"]
  []
  [Call "indexerService" "reindex" [[DtoField "from_ledger"]]].

Definition IndexerController_getEvents : endpoint := mkEndpoint "getEvents" GET [Lit "events"]
  [UseInterceptors ["CacheInterceptor"]; CacheTTL 30]
  [Call "indexerService" "getEventsPaginated" [[QueryParam "cursor"]; [QueryParam "limit"; Fixed "50"]]].

Definition IndexerController_getMetrics : endpoint := mkEndpoint "getMetrics" GET [Lit "metrics"]
  []
  [Call "indexerService" "getMetrics" []].

Definition IndexerController_retryFailed : endpoint := mkEndpoint "retryFailed" POST [Lit "retry"]
  []
  [Call "indexerService" "retryFailedEvents" []].

Definition IndexerController_backfill : endpoint := mkEndpoint "backfill" POST [Lit "backfill"]
  []
  [Call "indexerService" "backfillEvents" [[DtoField "from_ledger"]; [DtoField "to_ledger"]]].

Definition IndexerController_getReorgs : endpoint := mkEndpoint "getReorgs" GET [Lit "reorgs"]
  []
  [Call "reconciliationService" "getReorgEvents" [[QueryParam "contract_id"]; [QueryParam "limit"; Fixed "50"]]].

Definition IndexerController : controller := mkController "IndexerController" [Lit "admin"; Lit "indexer"]
  [UseGuards [JwtAuthGuard; RolesGuard]; Roles ["admin"]]
  [IndexerController_reindex;
   IndexerController_getEvents;
   IndexerController_getMetrics;
   IndexerController_retryFailed;
   IndexerController_backfill;
   IndexerController_getReorgs].

(** *** [InterestRatesAdminController] *)

Definition InterestRatesAdminController_listConfigs : endpoint := mkEndpoint "listConfigs" GET [Lit "configs"]
  []
  [Call "interestRateService" "listConfigs" []].

Definition InterestRatesAdminController_getActiveConfig : endpoint := mkEndpoint "getActiveConfig" GET [Lit "configs"; Lit "active"]
  []
  [Call "interestRateService" "getActiveConfig" []].

Definition InterestRatesAdminController_getConfig : endpoint := mkEndpoint "getConfig" GET [Lit "configs"; Par "configId"]
  []
  [Call "interestRateService" "getConfig" [[PathParam "configId"]]].

Definition InterestRatesAdminController_createConfig : endpoint := mkEndpoint "createConfig" POST [Lit "configs"]
  []
  [Call "interestRateService" "createConfig" [[WholeBody]]].

Definition InterestRatesAdminController_updateConfig : endpoint := mkEndpoint "updateConfig" PUT [Lit "configs"; Par "configId"]
  []
  [Call "interestRateService" "updateConfig" [[PathParam "configId"]; [WholeBody]]].

Definition InterestRatesAdminController_activateConfig : endpoint := mkEndpoint "activateConfig" POST [Lit "configs"; Par "configId"; Lit "activate"]
  []
  [Call "interestRateService" "listConfigs" [];
   ForEach
     [When (OtherActive (PathParam "configId"))
        [Call "interestRateService" "updateConfig" [[ItemField "id"]; [Fixed "{is_active:false,}"]]] []];
   Call "interestRateService" "updateConfig" [[PathParam "configId"]; [Fixed "{is_active:true,}"]]].

Definition InterestRatesAdminController_getStats : endpoint := mkEndpoint "getStats" GET [Lit "stats"]
  []
  [Call "interestRateService" "getActiveConfig" [];
   Call "interestRateService" "listConfigs" []].

Definition InterestRatesAdminController : controller := mkController "InterestRatesAdminController" [Lit "admin"; Lit "interest-rates"]
  [UseGuards [JwtAuthGuard; RolesGuard]; Roles ["admin"]]
  [InterestRatesAdminController_listConfigs;
   InterestRatesAdminController_getActiveConfig;
   InterestRatesAdminController_getConfig;
   InterestRatesAdminController_createConfig;
   InterestRatesAdminController_updateConfig;
   InterestRatesAdminController_activateConfig;
   InterestRatesAdminController_getStats].

(** *** [InterestRatesController] *)

Definition InterestRatesController_getCurrentRate : endpoint := mkEndpoint "getCurrentRate" GET [Lit "current"]
  []
  [Call "interestRateService" "getCurrentRate" []].

Definition InterestRatesController_getRateForConfig : endpoint := mkEndpoint "getRateForConfig" GET [Lit "config"; Par "configId"; Lit "current"]
  []
  [Call "interestRateService" "calculateCurrentRate" [[PathParam "configId"]]].

Definition InterestRatesController_listConfigs : endpoint := mkEndpoint "listConfigs" GET [Lit "config"]
  []
  [Call "interestRateService" "listConfigs" [[QueryParam "active"; Fixed "false"]]].

Definition InterestRatesController_getConfig : endpoint := mkEndpoint "getConfig" GET [Lit "config"; Par "configId"]
  []
  [Call "interestRateService" "getConfig" [[PathParam "configId"]]].

Definition InterestRatesController_getRateHistory : endpoint := mkEndpoint "getRateHistory" GET [Lit "history"; Par "configId"]
  []
  [Call "interestRateService" "getRateHistory" [[PathParam "configId"]; [QueryParam "limit"; Fixed "100"]]].

Definition InterestRatesController_projectRate : endpoint := mkEndpoint "projectRate" GET [Lit "project"; Par "configId"]
  []
  [Call "interestRateService" "getConfig" [[PathParam "configId"]];
   Call "interestRateService" "projectRate" [[PathParam "configId"]; [QueryParam "utilization"]]].

Definition InterestRatesController_getUtilizationMetrics : endpoint := mkEndpoint "getUtilizationMetrics" GET [Lit "utilization"]
  []
  [Call "interestRateService" "getUtilizationMetrics" []].

Definition InterestRatesController : controller := mkController "InterestRatesController" [Lit "interest-rates"]
  [UseGuards [JwtAuthGuard]]
  [InterestRatesController_getCurrentRate;
   InterestRatesController_getRateForConfig;
   InterestRatesController_listConfigs;
   InterestRatesController_getConfig;
   InterestRatesController_getRateHistory;
   InterestRatesController_projectRate;
   InterestRatesController_getUtilizationMetrics].

(** *** [MetricsController] *)

Definition MetricsController_getMetrics : endpoint := mkEndpoint "getMetrics" GET []
  [Public]
  [Call "metricsService" "getMetrics" [];
   Call "metricsService" "getContentType" []].

Definition MetricsController : controller := mkController "MetricsController" [Lit "metrics"]
  []
  [MetricsController_getMetrics].

(** *** [NftRewardsAdminController] *)

Definition NftRewardsAdminController_listMilestones : endpoint := mkEndpoint "listMilestones" GET [Lit "milestones"]
  []
  [When (Defined (QueryParam "active"))
     [Call "adminService" "listMilestones" [[QueryParam "active"]]]
     [Call "adminService" "listMilestones" []]].

Definition NftRewardsAdminController_getMilestone : endpoint := mkEndpoint "getMilestone" GET [Lit "milestones"; Par "milestoneId"]
  []
  [Call "adminService" "getMilestone" [[PathParam "milestoneId"]]].

Definition NftRewardsAdminController_createMilestone : endpoint := mkEndpoint "createMilestone" POST [Lit "milestones"]
  []
  [Call "adminService" "createMilestone" [[WholeBody]]].

Definition NftRewardsAdminController_updateMilestone : endpoint := mkEndpoint "updateMilestone" PUT [Lit "milestones"; Par "milestoneId"]
  []
  [Call "adminService" "updateMilestone" [[PathParam "milestoneId"]; [WholeBody]]].

Definition NftRewardsAdminController_deactivateMilestone : endpoint := mkEndpoint "deactivateMilestone" POST [Lit "milestones"; Par "milestoneId"; Lit "deactivate"]
  []
  [Call "adminService" "updateMilestone" [[PathParam "milestoneId"]; [Fixed "{is_active:false}"]]].

Definition NftRewardsAdminController_getStats : endpoint := mkEndpoint "getStats" GET [Lit "stats"]
  []
  [Call "adminService" "getStats" []].

Definition NftRewardsAdminController_getUserRewards : endpoint := mkEndpoint "getUserRewards" GET [Lit "user-rewards"; Par "userId"]
  []
  [Call "adminService" "getUserRewardsAdmin" [[PathParam "userId"]]].

Definition NftRewardsAdminController : controller := mkController "NftRewardsAdminController" [Lit "admin"; Lit "nft-rewards"]
  [UseGuards [JwtAuthGuard; RolesGuard]; Roles ["admin"]]
  [NftRewardsAdminController_listMilestones;
   NftRewardsAdminController_getMilestone;
   NftRewardsAdminController_createMilestone;
   NftRewardsAdminController_updateMilestone;
   NftRewardsAdminController_deactivateMilestone;
   NftRewardsAdminController_getStats;
   NftRewardsAdminController_getUserRewards].

(** *** [NftRewardsController] *)

Definition NftRewardsController_getMilestoneProgress : endpoint := mkEndpoint "getMilestoneProgress" GET [Lit "milestones"; Lit "progress"]
  []
  [Call "nftRewardsService" "getUserMilestoneProgress" [[UserId]]].

Definition NftRewardsController_getRewards : endpoint := mkEndpoint "getRewards" GET [Lit "rewards"]
  []
  [Call "nftRewardsService" "getUserRewards" [[UserId]]].

Definition NftRewardsController_getReward : endpoint := mkEndpoint "getReward" GET [Lit "rewards"; Par "rewardId"]
  []
  [Call "nftRewardsService" "getReward" [[PathParam "rewardId"]]].

Definition NftRewardsController_evaluateRewards : endpoint := mkEndpoint "evaluateRewards" POST [Lit "evaluate"]
  []
  [Call "nftRewardsService" "evaluateAndMintRewards" [[UserId]]].

Definition NftRewardsController_transferReward : endpoint := mkEndpoint "transferReward" PATCH [Lit "rewards"; Par "rewardId"; Lit "transfer"]
  []
  [Call "nftRewardsService" "getReward" [[PathParam "rewardId"]];
   Check OwnedByCaller (Throws 400);
   Call "nftRewardsService" "updateRewardStatus" [[PathParam "rewardId"]; [Fixed "NftRewardStatus.TRANSFERRED"]]].

Definition NftRewardsController : controller := mkController "NftRewardsController" [Lit "nft-rewards"]
  [UseGuards [JwtAuthGuard]]
  [NftRewardsController_getMilestoneProgress;
   NftRewardsController_getRewards;
   NftRewardsController_getReward;
   NftRewardsController_evaluateRewards;
   NftRewardsController_transferReward].

(** *** [NotificationsController] *)

Definition NotificationsController_getNotifications : endpoint := mkEndpoint "getNotifications" GET [Par "address"]
  [UseGuards [JwtAuthGuard]]
  [Check (SameAddress (PathParam "address")) Replies;
   Call "notificationsService" "findAllForUser" [[PathParam "address"]; [QueryParam "page"; Fixed "1"]; [QueryParam "limit"; Fixed "20"]; [QueryParam "read"]; [QueryParam "type"]]].

Definition NotificationsController_streamNotifications : endpoint := mkEndpoint "streamNotifications" GET [Par "address"; Lit "stream"]
  [UseGuards [JwtAuthGuard]]
  [Check (SameAddress (PathParam "address")) (Throws 401);
   Call "notificationsService" "streamForUser" [[PathParam "address"]]].

Definition NotificationsController_getPreferences : endpoint := mkEndpoint "getPreferences" GET [Lit "preferences"]
  [UseGuards [JwtAuthGuard]]
  [Call "notificationsService" "getPreferences" [[UserId]]].

Definition NotificationsController_upsertPreference : endpoint := mkEndpoint "upsertPreference" PUT [Lit "preferences"]
  [UseGuards [JwtAuthGuard]; HttpCode 200]
  [Call "notificationsService" "upsertPreference" [[UserId]; [DtoField "channel"]; [DtoField "frequency"]; [DtoField "quietHours"]]].

Definition NotificationsController_getCategoryPreferences : endpoint := mkEndpoint "getCategoryPreferences" GET [Lit "category-preferences"]
  [UseGuards [JwtAuthGuard]]
  [Call "notificationsService" "getCategoryPreferences" [[UserId]]].

Definition NotificationsController_upsertCategoryPreference : endpoint := mkEndpoint "upsertCategoryPreference" PUT [Lit "category-preferences"]
  [UseGuards [JwtAuthGuard]; HttpCode 200]
  [Call "notificationsService" "upsertCategoryPreference" [[UserId]; [WholeBody]]].

Definition NotificationsController_markAllAsRead : endpoint := mkEndpoint "markAllAsRead" PATCH [Lit "read-all"]
  [UseGuards [JwtAuthGuard]; HttpCode 200]
  [Call "notificationsService" "markAllAsRead" [[UserAddress]]].

Definition NotificationsController_markAllAsUnread : endpoint := mkEndpoint "markAllAsUnread" PATCH [Lit "unread-all"]
  [UseGuards [JwtAuthGuard]; HttpCode 200]
  [Call "notificationsService" "markAllAsUnread" [[UserAddress]]].

Definition NotificationsController_markMultipleAsRead : endpoint := mkEndpoint "markMultipleAsRead" PATCH [Lit "bulk"; Lit "read"]
  [UseGuards [JwtAuthGuard]; HttpCode 200]
  [Call "notificationsService" "markMultipleAsRead" [[UserAddress]; [DtoField "notificationIds"]]].

Definition NotificationsController_markMultipleAsUnread : endpoint := mkEndpoint "markMultipleAsUnread" PATCH [Lit "bulk"; Lit "unread"]
  [UseGuards [JwtAuthGuard]; HttpCode 200]
  [Call "notificationsService" "markMultipleAsUnread" [[UserAddress]; [DtoField "notificationIds"]]].

Definition NotificationsController_markAsRead : endpoint := mkEndpoint "markAsRead" PATCH [Par "id"; Lit "read"]
  [UseGuards [JwtAuthGuard]; HttpCode 204]
  [Call "notificationsService" "markAsRead" [[PathParam "id"]; [UserAddress]]].

Definition NotificationsController_remove : endpoint := mkEndpoint "remove" DELETE [Par "id"]
  [UseGuards [JwtAuthGuard]; HttpCode 204]
  [Call "notificationsService" "remove" [[PathParam "id"]; [UserAddress]]].

Definition NotificationsController : controller := mkController "NotificationsController" [Lit "notifications"]
  []
  [NotificationsController_getNotifications;
   NotificationsController_streamNotifications;
   NotificationsController_getPreferences;
   NotificationsController_upsertPreference;
   NotificationsController_getCategoryPreferences;
   NotificationsController_upsertCategoryPreference;
   NotificationsController_markAllAsRead;
   NotificationsController_markAllAsUnread;
   NotificationsController_markMultipleAsRead;
   NotificationsController_markMultipleAsUnread;
   NotificationsController_markAsRead;
   NotificationsController_remove].

(** *** [RoundupController] *)

Definition RoundupController_createConfig : endpoint := mkEndpoint "createConfig" POST [Lit "config"]
  []
  [Call "roundupService" "createConfig" [[UserId]; [WholeBody]]].

Definition RoundupController_listConfigs : endpoint := mkEndpoint "listConfigs" GET [Lit "config"]
  []
  [Call "roundupService" "listConfigs" [[UserId]]].

Definition RoundupController_getConfig : endpoint := mkEndpoint "getConfig" GET [Lit "config"; Par "configId"]
  []
  [Call "roundupService" "getConfig" [[PathParam "configId"]];
   Check OwnedByCaller (Throws 400)].

Definition RoundupController_updateConfig : endpoint := mkEndpoint "updateConfig" PUT [Lit "config"; Par "configId"]
  []
  [Call "roundupService" "getConfig" [[PathParam "configId"]];
   Check OwnedByCaller (Throws 400);
   Call "roundupService" "updateConfig" [[PathParam "configId"]; [WholeBody]]].

Definition RoundupController_pauseConfig : endpoint := mkEndpoint "pauseConfig" POST [Lit "config"; Par "configId"; Lit "pause"]
  []
  [Call "roundupService" "getConfig" [[PathParam "configId"]];
   Check OwnedByCaller (Throws 400);
   Call "roundupService" "pauseConfig" [[PathParam "configId"]; [BodyField "reason"]]].

Definition RoundupController_resumeConfig : endpoint := mkEndpoint "resumeConfig" POST [Lit "config"; Par "configId"; Lit "resume"]
  []
  [Call "roundupService" "getConfig" [[PathParam "configId"]];
   Check OwnedByCaller (Throws 400);
   Call "roundupService" "resumeConfig" [[PathParam "configId"]]].

Definition RoundupController_listRecords : endpoint := mkEndpoint "listRecords" GET [Lit "records"]
  []
  [Call "roundupService" "listRecords" [[UserId]]].

Definition RoundupController_listPendingRecords : endpoint := mkEndpoint "listPendingRecords" GET [Lit "records"; Lit "pending"]
  []
  [Call "roundupService" "listPendingRecords" [[UserId]]].

Definition RoundupController_getRecord : endpoint := mkEndpoint "getRecord" GET [Lit "records"; Par "recordId"]
  []
  [Call "roundupService" "getRecord" [[PathParam "recordId"]];
   Check OwnedByCaller (Throws 400)].

Definition RoundupController_processRecords : endpoint := mkEndpoint "processRecords" POST [Lit "process"]
  []
  [Call "roundupService" "processRecordsForUser" [[UserId]]].

Definition RoundupController_triggerRoundup : endpoint := mkEndpoint "triggerRoundup" POST [Lit "trigger"; Par "configId"]
  []
  [Call "roundupService" "getConfig" [[PathParam "configId"]];
   Check OwnedByCaller (Throws 400);
   Call "roundupService" "triggerExternalRoundup" [[UserId]; [PathParam "configId"]]].

Definition RoundupController_getStats : endpoint := mkEndpoint "getStats" GET [Lit "stats"]
  []
  [Call "roundupService" "getStats" [[UserId]]].

Definition RoundupController : controller := mkController "RoundupController" [Lit "savings"; Lit "roundup"]
  [UseGuards [JwtAuthGuard]]
  [RoundupController_createConfig;
   RoundupController_listConfigs;
   RoundupController_getConfig;
   RoundupController_updateConfig;
   RoundupController_pauseConfig;
   RoundupController_resumeConfig;
   RoundupController_listRecords;
   RoundupController_listPendingRecords;
   RoundupController_getRecord;
   RoundupController_processRecords;
   RoundupController_triggerRoundup;
   RoundupController_getStats].

(** *** [AnchorCallbackController] *)

Definition AnchorCallbackController_handleSep24Callback : endpoint := mkEndpoint "handleSep24Callback" POST [Lit "sep24"]
  [HttpCode 200]
  [Call "anchorService" "processCallback" [[DtoField "transaction_id"]; [DtoField "status"]]].

Definition AnchorCallbackController : controller := mkController "AnchorCallbackController" [Lit "savings"; Lit "anchor"; Lit "callbacks"]
  [Public; UseGuards [WebhookSignatureGuard]; UsePipes ["ValidationPipe"]]
  [AnchorCallbackController_handleSep24Callback].

(** *** [AnchorController] *)

Definition AnchorController_initiateDeposit : endpoint := mkEndpoint "initiateDeposit" POST [Lit "deposit"]
  [HttpCode 201; ThrottleTier "write"]
  [Call "anchorService" "initiateDeposit" [[UserId]; [WholeBody]]].

Definition AnchorController_getQuote : endpoint := mkEndpoint "getQuote" GET [Lit "quote"]
  [Public; ThrottleTier "read"]
  [Call "anchorService" "getQuote" [[QueryParam "sell_asset"]; [QueryParam "buy_asset"]; [QueryParam "sell_amount"]]].

Definition AnchorController : controller := mkController "AnchorController" [Lit "savings"; Lit "anchor"]
  [UsePipes ["ValidationPipe"]]
  [AnchorController_initiateDeposit;
   AnchorController_getQuote].

(** *** [BalanceController] *)

Definition BalanceController_get : endpoint := mkEndpoint "get" GET [Par "account"]
  [ThrottleTier "read"]
  [Call "balanceService" "get" [[PathParam "account"]]].

Definition BalanceController : controller := mkController "BalanceController" [Lit "savings"; Lit "balance"]
  [UsePipes ["ValidationPipe"]]
  [BalanceController_get].

(** *** [SavingsController] *)

Definition SavingsController_ping : endpoint := mkEndpoint "ping" GET [Lit "ping"]
  [Public]
  [Call "savingsService" "ping" []].

Definition SavingsController_listGoals : endpoint := mkEndpoint "listGoals" GET [Lit "goals"]
  [Public]
  [Call "goalsService" "listByOwnerPaginated" [[QueryParam "address"]; [QueryParam "page"]; [QueryParam "limit"]; [QueryParam "sort"]]].

Definition SavingsController_listLocked : endpoint := mkEndpoint "listLocked" GET [Lit "locked"]
  [Public]
  [Call "lockedPlansService" "listByOwner" [[QueryParam "address"]; [QueryParam "page"]; [QueryParam "limit"]; [QueryParam "sort"]]].

Definition SavingsController_getAccount : endpoint := mkEndpoint "getAccount" GET [Lit "accounts"; Par "address"]
  [Public]
  [Call "balanceService" "findAccount" [[PathParam "address"]];
   Check Found (Throws 404)].

Definition SavingsController_summary : endpoint := mkEndpoint "summary" GET [Lit "summary"]
  [Public]
  [Check (Required (QueryParam "address")) (Throws 400);
   Call "savingsService" "summary" [[QueryParam "address"]]].

Definition SavingsController_getYieldPosition : endpoint := mkEndpoint "getYieldPosition" GET [Lit "yield"; Lit "position"]
  [UseGuards [JwtAuthGuard]]
  [Call "savingsService" "getYieldPosition" [[UserAddress]]].

Definition SavingsController_getYieldRate : endpoint := mkEndpoint "getYieldRate" GET [Lit "yield"; Lit "rate"]
  [Public]
  [Call "savingsService" "getYieldRate" []].

Definition SavingsController_getYieldAdminOverview : endpoint := mkEndpoint "getYieldAdminOverview" GET [Lit "yield"; Lit "admin"; Lit "overview"]
  [UseGuards [JwtAuthGuard]]
  [Call "savingsService" "getYieldAdminOverview" []].

Definition SavingsController_yieldDeposit : endpoint := mkEndpoint "yieldDeposit" POST [Lit "yield"; Lit "deposit"]
  [UseGuards [JwtAuthGuard]; ThrottleTier "write"; HttpCode 200]
  [Call "savingsService" "depositYield" [[UserAddress]; [DtoField "amount"]]].

Definition SavingsController_yieldOptIn : endpoint := mkEndpoint "yieldOptIn" POST [Lit "yield"; Lit "opt-in"]
  [UseGuards [JwtAuthGuard]; ThrottleTier "write"; HttpCode 200]
  [Call "savingsService" "depositYield" [[UserAddress]; [DtoField "amount"]]].

Definition SavingsController_yieldWithdrawRequest : endpoint := mkEndpoint "yieldWithdrawRequest" POST [Lit "yield"; Lit "withdraw-request"]
  [UseGuards [JwtAuthGuard]; ThrottleTier "write"; HttpCode 200]
  [Call "savingsService" "requestYieldWithdrawal" [[UserAddress]; [DtoField "shares"]]].

Definition SavingsController_yieldWithdraw : endpoint := mkEndpoint "yieldWithdraw" POST [Lit "yield"; Lit "withdraw"]
  [UseGuards [JwtAuthGuard]; ThrottleTier "write"; HttpCode 200]
  [Call "savingsService" "requestYieldWithdrawal" [[UserAddress]; [DtoField "shares"]]].

Definition SavingsController : controller := mkController "SavingsController" [Lit "savings"]
  [UsePipes ["ValidationPipe"]]
  [SavingsController_ping;
   SavingsController_listGoals;
   SavingsController_listLocked;
   SavingsController_getAccount;
   SavingsController_summary;
   SavingsController_getYieldPosition;
   SavingsController_getYieldRate;
   SavingsController_getYieldAdminOverview;
   SavingsController_yieldDeposit;
   SavingsController_yieldOptIn;
   SavingsController_yieldWithdrawRequest;
   SavingsController_yieldWithdraw].

(** *** [ReferralController] *)

Definition ReferralController_claim : endpoint := mkEndpoint "claim" POST [Lit "claim"]
  [HttpCode 201]
  [Call "referralService" "claimReferral" [[UserId]; [DtoField "referrer_id"]]].

Definition ReferralController_getMyReferrals : endpoint := mkEndpoint "getMyReferrals" GET [Lit "me"]
  []
  [Call "referralService" "getMyReferrals" [[UserId]]].

Definition ReferralController_getMyRewards : endpoint := mkEndpoint "getMyRewards" GET [Lit "me"; Lit "rewards"]
  []
  [Call "referralService" "getMyRewards" [[UserId]; [WholeQuery]]].

Definition ReferralController : controller := mkController "ReferralController" [Lit "referrals"]
  []
  [ReferralController_claim;
   ReferralController_getMyReferrals;
   ReferralController_getMyRewards].

(** *** [UsersController] *)

Definition UsersController_getOwnProfile : endpoint := mkEndpoint "getOwnProfile" GET [Lit "me"]
  []
  [].

Definition UsersController_getMyReferrals : endpoint := mkEndpoint "getMyReferrals" GET [Lit "me"; Lit "referrals"]
  []
  [Call "referralService" "getMyReferrals" [[UserId]]].

Definition UsersController_claimReferral : endpoint := mkEndpoint "claimReferral" POST [Lit "me"; Lit "referrals"; Lit "claim"]
  [UsePipes ["ValidationPipe"]]
  [Call "referralService" "claimReferral" [[UserId]; [DtoField "referrer_id"]]].

Definition UsersController_getMyReferralRewards : endpoint := mkEndpoint "getMyReferralRewards" GET [Lit "me"; Lit "referrals"; Lit "rewards"]
  []
  [Call "referralService" "getMyRewards" [[UserId]; [WholeQuery]]].

Definition UsersController_updateOwnProfile : endpoint := mkEndpoint "updateOwnProfile" PATCH [Lit "me"]
  [UsePipes ["ValidationPipe"]]
  [Call "usersService" "updateProfile" [[UserId]; [WholeBody]]].

Definition UsersController_getPublicProfile : endpoint := mkEndpoint "getPublicProfile" GET [Par "address"]
  [Public]
  [Call "usersService" "findByAddress" [[PathParam "address"]]].

Definition UsersController_exportData : endpoint := mkEndpoint "exportData" GET [Lit "me"; Lit "export"]
  []
  [Call "usersService" "exportUserData" [[UserId]]].

Definition UsersController_updatePreferences : endpoint := mkEndpoint "updatePreferences" PATCH [Lit "me"; Lit "preferences"]
  [UsePipes ["ValidationPipe"]]
  [Call "usersService" "updatePreferences" [[UserId]; [WholeBody]]].

Definition UsersController_followUser : endpoint := mkEndpoint "followUser" POST [Par "address"; Lit "follow"]
  []
  [Call "usersService" "followUser" [[UserId]; [PathParam "address"]]].

Definition UsersController_unfollowUser : endpoint := mkEndpoint "unfollowUser" DELETE [Par "address"; Lit "unfollow"]
  []
  [Call "usersService" "unfollowUser" [[UserId]; [PathParam "address"]]].

Definition UsersController_getFollowers : endpoint := mkEndpoint "getFollowers" GET [Par "address"; Lit "followers"]
  [Public; UsePipes ["ValidationPipe"]]
  [Call "usersService" "getFollowers" [[PathParam "address"]; [WholeQuery]]].

Definition UsersController_getFollowing : endpoint := mkEndpoint "getFollowing" GET [Par "address"; Lit "following"]
  [Public; UsePipes ["ValidationPipe"]]
  [Call "usersService" "getFollowing" [[PathParam "address"]; [WholeQuery]]].

Definition UsersController_getFollowStats : endpoint := mkEndpoint "getFollowStats" GET [Par "address"; Lit "follow-stats"]
  [Public]
  [Call "usersService" "getFollowStats" [[PathParam "address"]]].

Definition UsersController : controller := mkController "UsersController" [Lit "users"]
  []
  [UsersController_getOwnProfile;
   UsersController_getMyReferrals;
   UsersController_claimReferral;
   UsersController_getMyReferralRewards;
   UsersController_updateOwnProfile;
   UsersController_getPublicProfile;
   UsersController_exportData;
   UsersController_updatePreferences;
   UsersController_followUser;
   UsersController_unfollowUser;
   UsersController_getFollowers;
   UsersController_getFollowing;
   UsersController_getFollowStats].

(** *** [WebhookReceiverController] *)

Definition WebhookReceiverController_receive : endpoint := mkEndpoint "receive" POST [Par "source"]
  [HttpCode 200]
  [].

Definition WebhookReceiverController : controller := mkController "WebhookReceiverController" [Lit "webhooks"; Lit "incoming"]
  [Public; UseGuards [WebhookSignatureGuard]]
  [WebhookReceiverController_receive].

(** *** [WebhooksController] *)

Definition WebhooksController_createEndpoint : endpoint := mkEndpoint "createEndpoint" POST [Lit "endpoints"]
  [Scopes ["webhooks:write"]]
  [Call "webhooksService" "createEndpoint" [[TheUser]; [WholeBody]]].

Definition WebhooksController_listEndpoints : endpoint := mkEndpoint "listEndpoints" GET [Lit "endpoints"]
  [Scopes ["webhooks:read"]]
  [Call "webhooksService" "listEndpoints" [[UserId]]].

Definition WebhooksController_getEndpoint : endpoint := mkEndpoint "getEndpoint" GET [Lit "endpoints"; Par "id"]
  [Scopes ["webhooks:read"]]
  [Call "webhooksService" "findEndpointById" [[PathParam "id"]; [UserId]]].

Definition WebhooksController_updateEndpoint : endpoint := mkEndpoint "updateEndpoint" PATCH [Lit "endpoints"; Par "id"]
  [Scopes ["webhooks:write"]]
  [Call "webhooksService" "updateEndpoint" [[PathParam "id"]; [UserId]; [WholeBody]]].

Definition WebhooksController_deleteEndpoint : endpoint := mkEndpoint "deleteEndpoint" DELETE [Lit "endpoints"; Par "id"]
  [Scopes ["webhooks:write"]]
  [Call "webhooksService" "deleteEndpoint" [[PathParam "id"]; [UserId]]].

Definition WebhooksController_getDeliveryLogs : endpoint := mkEndpoint "getDeliveryLogs" GET [Lit "endpoints"; Par "id"; Lit "deliveries"]
  [Scopes ["webhooks:read"]]
  [Call "webhooksService" "getDeliveryLogs" [[PathParam "id"]; [UserId]; [QueryParam "limit"; Fixed "50"]; [QueryParam "offset"; Fixed "0"]]].

Definition WebhooksController : controller := mkController "WebhooksController" [Lit "webhooks"]
  [UseGuards [JwtAuthGuard; ApiKeyGuard]]
  [WebhooksController_createEndpoint;
   WebhooksController_listEndpoints;
   WebhooksController_getEndpoint;
   WebhooksController_updateEndpoint;
   WebhooksController_deleteEndpoint;
   WebhooksController_getDeliveryLogs].

(** ** The modules

    A module lists the modules it imports, by name, and its controllers. *)

Definition AccountModule : module := mkModule "AccountModule" []
  [AccountController].

Definition ActivityModule : module := mkModule "ActivityModule" []
  [ActivityController].

Definition AdminModule : module := mkModule "AdminModule" ["SorobanModule"; "ReferralModule"]
  [AdminController].

Definition AnalyticsModule : module := mkModule "AnalyticsModule" []
  [AnalyticsController].

Definition AppModule : module := mkModule "AppModule" ["CacheModule"; "MetricsModule"; "HealthModule"; "AuthModule"; "UsersModule"; "NotificationsModule"; "SorobanModule"; "AdminModule"; "CommonModule"; "IndexerModule"; "ContractModule"; "WebhooksModule"; "AccountModule"; "SavingsModule"; "ActivityModule"; "BackupModule"; "AnchorModule"; "CsvImportModule"; "GraphqlApiModule"]
  [AppController].

Definition AuthModule : module := mkModule "AuthModule" []
  [AuthController; ApiKeyController].

Definition BackupModule : module := mkModule "BackupModule" []
  [BackupController].

Definition CacheModule : module := mkModule "CacheModule" []
  [].

Definition CommonModule : module := mkModule "CommonModule" []
  [FxRateController].

Definition ContractModule : module := mkModule "ContractModule" []
  [].

Definition DatabaseModule : module := mkModule "DatabaseModule" []
  [].

Definition GoalsModule : module := mkModule "GoalsModule" []
  [GoalsController].

Definition HealthModule : module := mkModule "HealthModule" ["IndexerModule"]
  [HealthController].

Definition IndexerModule : module := mkModule "IndexerModule" ["SavingsProjectionModule"]
  [IndexerController; IndexerHealthController].

Definition InterestRatesModule : module := mkModule "InterestRatesModule" []
  [InterestRatesController; InterestRatesAdminController].

Definition MetricsModule : module := mkModule "MetricsModule" []
  [MetricsController].

Definition NftRewardsModule : module := mkModule "NftRewardsModule" []
  [NftRewardsController; NftRewardsAdminController].

Definition NotificationsModule : module := mkModule "NotificationsModule" ["UsersModule"]
  [NotificationsController].

Definition ReferralModule : module := mkModule "ReferralModule" []
  [ReferralController].

Definition SavingsProjectionModule : module := mkModule "SavingsProjectionModule" ["GoalsModule"; "SavingsModule"; "NotificationsModule"]
  [].

Definition RoundupModule : module := mkModule "RoundupModule" ["SavingsModule"]
  [RoundupController].

Definition SavingsModule : module := mkModule "SavingsModule" ["GoalsModule"; "ReferralModule"]
  [AnchorController; AnchorCallbackController; BalanceController; SavingsController].

Definition SorobanModule : module := mkModule "SorobanModule" ["SavingsProjectionModule"]
  [].

Definition UsersModule : module := mkModule "UsersModule" ["ReferralModule"]
  [UsersController].

Definition WebhooksModule : module := mkModule "WebhooksModule" []
  [WebhooksController; WebhookReceiverController].

(** Every module of the sources. *)
Definition all_modules : list module :=
  [AccountModule;
   ActivityModule;
   AdminModule;
   AnalyticsModule;
   AppModule;
   AuthModule;
   BackupModule;
   CacheModule;
   CommonModule;
   ContractModule;
   DatabaseModule;
   GoalsModule;
   HealthModule;
   IndexerModule;
   InterestRatesModule;
   MetricsModule;
   NftRewardsModule;
   NotificationsModule;
   ReferralModule;
   SavingsProjectionModule;
   RoundupModule;
   SavingsModule;
   SorobanModule;
   UsersModule;
   WebhooksModule].

Definition find_module (n : string) : option module :=
  List.find (fun m => String.eqb (m_name m) n) all_modules.

(** The modules that import of the root reaches, each once, in the order of a
    depth-first walk; the fuel bounds the depth of the imports. *)
Fixpoint scan (fuel : nat) (seen : list string) (n : string) : list string :=
  match fuel with
  | O => seen
  | S fuel' =>
      if bool_decide (n ∈ seen) then seen
      else match find_module n with
           | Some m => foldl (scan fuel') (seen ++ [n]) (m_imports m)
           | None => seen
           end
  end.

Definition served_modules : list module :=
  omap find_module (scan 10 [] "AppModule").

Definition served_controllers : list controller := mjoin (m_controllers <$> served_modules).

(** A route: an endpoint with its controller. *)
Definition route : Type := controller * endpoint.

Definition routes_of (c : controller) : list route := pair c <$> c_endpoints c.

Definition served_routes : list route := mjoin (routes_of <$> served_controllers).

Definition route_path (r : route) : list seg := c_path r.1 ++ e_path r.2.
Definition route_verb (r : route) : verb := e_verb r.2.
Definition route_name (r : route) : string := (c_name r.1 +:+ "." +:+ e_name r.2)%string.

(** The depth of the scan is enough: what the served modules import is served too,
    but for three modules that no file of the sources defines. *)
Lemma served_closed :
  forallb (fun n => bool_decide (n ∈ m_name <$> served_modules))
    (List.filter (fun n => negb (bool_decide (n ∈ ["AnchorModule"; "CsvImportModule"; "GraphqlApiModule"])))
       (mjoin (m_imports <$> served_modules))) = true /\
  forallb (fun n => match find_module n with None => true | Some _ => false end)
    ["AnchorModule"; "CsvImportModule"; "GraphqlApiModule"] = true.
Proof. split; vm_compute; reflexivity. Qed.

(** Six controllers belong to modules that the application imports nowhere. *)
Lemma never_served :
  mjoin ((fun m => c_name <$> m_controllers m) <$>
    List.filter (fun m => negb (bool_decide (m_name m ∈ m_name <$> served_modules))) all_modules) =
  ["AnalyticsController"; "InterestRatesController"; "InterestRatesAdminController"; "NftRewardsController";
   "NftRewardsAdminController"; "RoundupController"].
Proof. vm_compute. reflexivity. Qed.
