(* ===== verification/Server.v ===== *)
(** * The HTTP server: dispatch, guards and handlers

    What a request goes through (main.ts, app.module.ts): Express picks the first
    registered route whose verb and path match; the global guards run
    ([TieredThrottlerGuard], [JwtAuthGuard], [RolesGuard]), then the guards of the
    controller and of the method; then the interceptors and pipes of the method,
    and its body, as the steps of [Routes.v].

    Routes are registered module by module.  No route of a controller can match a
    path of another one, so the order of the modules does not matter; the order
    inside a controller does.

    The framework (passport's token check, the counters of the throttler, the
    pipes) and the services are the fields of the class [Server]: the services
    are modelled one by one in the other files, here only the calls count.  The
    state is the services' own with the log of the calls made. *)
From Stdlib Require Import ZArith Lia Ascii.
From stdpp Require Import base list strings.
From S2P Require Import Prelude JsValue Filtering Routes.
Local Open Scope Z_scope.
Local Open Scope string_scope.
Local Open Scope list_scope.

Module Server.

(** The columns of a user the server looks at. *)
Record user := mkUser { id : string; stellar_address : string; role : string; is_banned : bool }.

Record request := mkRequest {
  r_verb : verb;
  r_path : list string;             (* the segments of the path *)
  authorization : option string;
  x_api_key : option string;
  query : record;
  body : jsval;
}.

(** ** Dispatch *)

(** The global prefix and the default version. *)
Definition api_prefix : list seg := [Lit "api"; Lit "v1"].

(** The parameters when the path matches: a literal whatever its case, a
    parameter any segment that is not empty. *)
Fixpoint match_path (p : list seg) (s : list string) : option (list (string * string)) :=
  match p, s with
  | [], [] => Some []
  | Lit l :: p', x :: s' =>
      if String.eqb (Filtering.toLowerCase l) (Filtering.toLowerCase x) then match_path p' s' else None
  | Par n :: p', x :: s' =>
      if String.eqb x "" then None else cons (n, x) <$> match_path p' s'
  | _, _ => None
  end.

Definition match_route (r : route) (v : verb) (s : list string) : option (list (string * string)) :=
  if decide (route_verb r = v) then match_path (api_prefix ++ route_path r) s else None.

Fixpoint dispatch_in (rs : list route) (v : verb) (s : list string) : option (route * list (string * string)) :=
  match rs with
  | [] => None
  | r :: rs' => match match_route r v s with Some ps => Some (r, ps) | None => dispatch_in rs' v s end
  end.

Definition dispatch : verb -> list string -> option (route * list (string * string)) := dispatch_in served_routes.

(** *** Which routes can be reached *)

(** A path with its parameters replaced, and the bindings a match gives back. *)
Definition fill (v : string -> string) (p : list seg) : list string :=
  (fun x => match x with Lit l => l | Par n => v n end) <$> p.

Definition bindings (v : string -> string) (p : list seg) : list (string * string) :=
  omap (fun x => match x with Lit _ => None | Par n => Some (n, v n) end) p.

Definition literals (rs : list route) : list string :=
  mjoin ((fun r => omap (fun x => match x with Lit l => Some l | Par _ => None end) (api_prefix ++ route_path r)) <$> rs).

(** Values no literal of the table is equal to. *)
Definition fresh (v : string -> string) (rs : list route) : Prop :=
  forall n, v n ≠ "" /\ forall l, l ∈ literals rs -> Filtering.toLowerCase l ≠ Filtering.toLowerCase (v n).

(** The first path matches every filling of the second. *)
Fixpoint covers (p q : list seg) : bool :=
  match p, q with
  | [], [] => true
  | Lit a :: p', Lit b :: q' => String.eqb (Filtering.toLowerCase a) (Filtering.toLowerCase b) && covers p' q'
  | Par _ :: p', Lit b :: q' => negb (String.eqb b "") && covers p' q'
  | Par _ :: p', Par _ :: q' => covers p' q'
  | _, _ => false
  end.

Definition overrides (r' r : route) : bool :=
  bool_decide (route_verb r' = route_verb r) && covers (api_prefix ++ route_path r') (api_prefix ++ route_path r).

(** The routes behind an earlier one. *)
Fixpoint shadowed_in (before rs : list route) : list string :=
  match rs with
  | [] => []
  | r :: rs' =>
      (if existsb (fun r' => overrides r' r) before then [route_name r] else []) ++
      shadowed_in (before ++ [r]) rs'
  end.

Definition shadowed : list string := shadowed_in [] served_routes.

Lemma match_covers (v : string -> string) (p q : list seg) :
  (forall n, v n ≠ "" /\ forall l, Lit l ∈ p -> Filtering.toLowerCase l ≠ Filtering.toLowerCase (v n)) ->
  covers p q = false -> match_path p (fill v q) = None.
Proof.
  intros Hv. revert q. induction p as [|[a|a] p IH]; intros [|[b|b] q]; simpl; try done.
  - destruct (String.eqb _ _); [|done]. apply IH. intros n. split; [apply Hv|]. intros l Hl. apply Hv. by right.
  - intros _. destruct (String.eqb_spec (Filtering.toLowerCase a) (Filtering.toLowerCase (v b))) as [E|]; [|done].
    exfalso. apply (proj2 (Hv b) a); [by left|done].
  - destruct (String.eqb b ""); [done|]. simpl. intros Hc. rewrite IH; [done| |done].
    intros n. split; [apply Hv|]. intros l Hl. apply Hv. by right.
  - intros Hc. destruct (String.eqb (v b) ""); [done|]. rewrite IH; [done| |done].
    intros n. split; [apply Hv|]. intros l Hl. apply Hv. by right.
Qed.

Lemma match_self (v : string -> string) (p : list seg) :
  (forall n, v n ≠ "") -> match_path p (fill v p) = Some (bindings v p).
Proof.
  intros Hv. induction p as [|[a|a] p IH]; simpl; [done| |].
  - by rewrite String.eqb_refl.
  - destruct (String.eqb_spec (v a) "") as [E|_]; [by apply Hv in E|]. by rewrite IH.
Qed.

Lemma literals_elem (rs : list route) (r : route) (l : string) :
  r ∈ rs -> Lit l ∈ api_prefix ++ route_path r -> l ∈ literals rs.
Proof.
  intros Hr Hl. unfold literals. apply list_elem_of_join. eexists. split; [|by apply list_elem_of_fmap_2].
  apply list_elem_of_omap. by exists (Lit l).
Qed.

(** A route that no earlier route overrides answers its own paths. *)
Lemma dispatch_unshadowed (v : string -> string) (before rs : list route) (r : route) :
  fresh v (before ++ r :: rs) -> existsb (fun r' => overrides r' r) before = false ->
  dispatch_in (before ++ r :: rs) (route_verb r) (fill v (api_prefix ++ route_path r)) =
    Some (r, bindings v (api_prefix ++ route_path r)).
Proof.
  intros Hv Hb. assert (Hfr : forall r', r' ∈ before ++ r :: rs -> forall n, v n ≠ "" /\
    forall l, Lit l ∈ api_prefix ++ route_path r' -> Filtering.toLowerCase l ≠ Filtering.toLowerCase (v n)).
  { intros r' Hr' n. split; [apply Hv|]. intros l Hl. apply Hv. by eapply literals_elem. }
  clear Hv. induction before as [|r' before IH]; cbn [dispatch_in]; rewrite ?app_nil_l, <- ?app_comm_cons;
    cbn [dispatch_in].
  - unfold match_route. rewrite decide_True by done. rewrite match_self; [done|].
    intros n. exact (proj1 (Hfr r ltac:(left) n)).
  - cbn [existsb] in Hb. apply orb_false_iff in Hb as [Ho Hb]. unfold overrides in Ho. unfold match_route at 1.
    case_decide as Hverb.
    + rewrite bool_decide_eq_true_2 in Ho by done. rewrite match_covers; [|apply Hfr; left|exact Ho].
      apply IH; [done|]. intros r0 Hr0. apply Hfr. by right.
    + apply IH; [done|]. intros r0 Hr0. apply Hfr. by right.
Qed.

Lemma shadowed_in_complete (before rs : list route) (i : nat) (r : route) :
  rs !! i = Some r -> route_name r ∉ shadowed_in before rs ->
  existsb (fun r' => overrides r' r) (before ++ take i rs) = false.
Proof.
  revert before i. induction rs as [|r0 rs IH]; intros before [|i]; simpl; try done.
  - intros [= ->] Hn. rewrite app_nil_r. destruct (existsb _ before); [|done].
    exfalso. apply Hn. apply elem_of_app. left. by left.
  - intros Hi Hn. rewrite cons_middle, app_assoc. apply IH; [done|].
    intros H. apply Hn. apply elem_of_app. by right.
Qed.

Lemma dispatch_served (v : string -> string) (r : route) :
  fresh v served_routes -> r ∈ served_routes -> (route_name r ∉ shadowed) ->
  dispatch (route_verb r) (fill v (api_prefix ++ route_path r)) =
    Some (r, bindings v (api_prefix ++ route_path r)).
Proof.
  unfold dispatch, shadowed. generalize served_routes. intros rs Hv [i Hi]%list_elem_of_lookup Hn.
  pose proof (shadowed_in_complete [] rs i r Hi Hn) as Hb. simpl in Hb.
  revert Hv. rewrite <- (take_drop_middle rs i r Hi) at 1 2. intros Hv. by apply dispatch_unshadowed.
Qed.

Lemma dispatch_in_elem (rs : list route) (v : verb) (path : list string) (r : route) (ps : list (string * string)) :
  dispatch_in rs v path = Some (r, ps) -> r ∈ rs.
Proof.
  induction rs as [|r' rs IH]; simpl; [done|].
  destruct (match_route r' v path); [intros [= -> ->]; left|intros H; right; auto].
Qed.

(** A test that holds of the whole table holds of each of its routes. *)
Lemma of_table {A} (f : A -> bool) (l : list A) : forallb f l = true -> forall x, x ∈ l -> f x = true.
Proof. intros H x Hx. rewrite forallb_forall in H. apply H. by apply list_elem_of_In. Qed.

(** The two routes behind the inbox of an address. *)
Definition hidden : list string :=
  ["NotificationsController.getPreferences"; "NotificationsController.getCategoryPreferences"].

Definition hidden_by_inbox (r : route) : bool :=
  negb (bool_decide (route_name r ∈ hidden)) ||
  bool_decide (bindings (fun _ => "") (api_prefix ++ route_path r) = []) &&
  match dispatch (route_verb r) (fill (fun _ => "") (api_prefix ++ route_path r)) with
  | Some (q, ps) => bool_decide (route_name q = "NotificationsController.getNotifications") &&
                    bool_decide (ps = [("address", List.last (fill (fun _ => "") (route_path r)) "")])
  | None => false
  end.

Lemma shadowed_hidden : shadowed = hidden.
Proof. vm_compute. reflexivity. Qed.

Lemma fill_constant (v v' : string -> string) (p : list seg) : bindings v p = [] -> fill v' p = fill v p.
Proof. induction p as [|[l|n] p IH]; simpl; [done| |done]. intros H. by rewrite IH. Qed.

Lemma bindings_nil_app (v : string -> string) (p q : list seg) : bindings v (p ++ q) = [] -> bindings v q = [].
Proof. unfold bindings. rewrite omap_app. intros H. by apply app_eq_nil in H as [_ H]. Qed.

Lemma served_hidden : forall r, r ∈ served_routes -> hidden_by_inbox r = true.
Proof. apply of_table. vm_compute. reflexivity. Qed.

(** C38: Every served route answers its own paths, whatever values stand for its parameters,
    as long as they are not segments of other routes, and with these values; except
    the reads of the two kinds of notification preferences, which are taken for the
    inbox of an address and never reached. *)
Theorem routes_reachable (v : string -> string) (r : route) :
  fresh v served_routes -> r ∈ served_routes ->
  let path := fill v (api_prefix ++ route_path r) in
  (route_name r ∉ hidden -> dispatch (route_verb r) path = Some (r, bindings v (api_prefix ++ route_path r))) /\
  (route_name r ∈ hidden -> exists q,
     dispatch (route_verb r) path = Some (q, [("address", List.last (fill v (route_path r)) "")]) /\
     route_name q = "NotificationsController.getNotifications").
Proof.
  intros Hv Hr path. split; intros Hn; unfold path; clear path.
  - apply dispatch_served; [exact Hv|exact Hr|]. by rewrite shadowed_hidden.
  - pose proof (served_hidden r Hr) as H. clear Hr Hv. unfold hidden_by_inbox in H.
    rewrite bool_decide_eq_true_2 in H by exact Hn. cbn [negb orb] in H.
    apply andb_prop in H as [Hb H]. apply bool_decide_eq_true in Hb.
    rewrite (fill_constant _ v _ Hb), (fill_constant _ v _ (bindings_nil_app _ _ _ Hb)).
    revert H. generalize (dispatch (route_verb r) (fill (fun _ => "") (api_prefix ++ route_path r))) as d.
    intros [[q ps]|] H; [|discriminate H]. apply andb_prop in H as [Hq Hps].
    apply bool_decide_eq_true in Hq, Hps. exists q. by rewrite Hps.
Qed.

Lemma dispatch_elem (v : verb) (path : list string) (r : route) (ps : list (string * string)) :
  dispatch v path = Some (r, ps) -> r ∈ served_routes.
Proof. apply dispatch_in_elem. Qed.

(** ** Metadata: [getAllAndOverride], the method's before the controller's *)

Definition metadata {A} (f : decorator -> option A) (r : route) : option A :=
  match omap f (e_decorators r.2) with
  | a :: _ => Some a
  | [] => head (omap f (c_decorators r.1))
  end.

Definition isPublic (r : route) : bool :=
  default false (metadata (fun d => match d with Public => Some true | _ => None end) r).
Definition requiredRoles : route -> option (list string) :=
  metadata (fun d => match d with Roles l => Some l | _ => None end).
Definition requiredScopes : route -> option (list string) :=
  metadata (fun d => match d with Scopes l => Some l | _ => None end).
Definition throttleTier (r : route) : string :=
  default "default" (metadata (fun d => match d with ThrottleTier t => Some t | _ => None end) r).

(** The guards bound to the controller, then those bound to the method. *)
Definition bound_guards (r : route) : list guard :=
  let guards_in d := match d with UseGuards l => l | _ => [] end in
  mjoin (guards_in <$> c_decorators r.1) ++ mjoin (guards_in <$> e_decorators r.2).

(** The status of a handler that returns: [@HttpCode], or the verb's own. *)
Definition success_status (r : route) : Z :=
  default (if decide (e_verb r.2 = POST) then 201 else 200)
    (metadata (fun d => match d with HttpCode n => Some n | _ => None end) r).

Definition route_interceptors (r : route) : list string :=
  let names_in d := match d with UseInterceptors l => l | _ => [] end in
  mjoin (names_in <$> c_decorators r.1) ++ mjoin (names_in <$> e_decorators r.2).

(** The throttlers the application configures. *)
Definition throttlers : list string := ["default"; "auth"; "read"; "write"].

(** What passport-jwt makes of the header. *)
Inductive verified := Subject (sub : string) | Expired | Invalid.

Definition call : Type := string * string * list (list jsval).

Class Server := {
  W : Type;
  jwt : option string -> verified;
  findUser : string -> W -> option user;
  throttle : string -> request -> M W bool;
  apiKeyGuard : option string -> list string -> M W user;
  signatureGuard : list (string * string) -> request -> M W unit;
  interceptor : string -> request -> M W (option Z);
  pipes : string -> request -> M W unit;
  config : string -> jsval;
  service : string -> string -> list (list jsval) -> M W jsval;
}.

(** The table is large: only [vm_compute] unfolds it. *)
#[local] Opaque served_routes dispatch.

Section server.
Context {SV : Server}.

Definition state : Type := W * list call.

(** What the framework and the services do leaves the log alone. *)
Definition lift {A} (m : M W A) : M state A := zoom fst (fun w s => (w, s.2)) m.

Definition invoke (svc m : string) (args : list (list jsval)) : M state jsval :=
  do modify (fun s => (s.1, s.2 ++ [(svc, m, args)])) ;>
  lift (service svc m args).

(** ** Guards *)

Definition forbidden : exn := HttpException 403 "Forbidden resource".
Definition unauthorized : exn := UnauthorizedException "Unauthorized".

Definition TieredThrottlerGuard_canActivate (r : route) (req : request) : M state bool :=
  if bool_decide (throttleTier r ∈ throttlers) then lift (throttle (throttleTier r) req) else ret true.

(** [JwtStrategy.validate]. *)
Definition validate (sub : string) : M state user :=
  await u := gets (fun s => findUser sub s.1) in
  of_option unauthorized u.

(** [JwtAuthGuard]: [canActivate] and [handleRequest]; the user it leaves on the request. *)
Definition JwtAuthGuard_canActivate (r : route) (req : request) (u : option user) : M state (option user) :=
  if isPublic r then ret u
  else match jwt (authorization req) with
       | Expired => throw (UnauthorizedException "Token expired")
       | Invalid => throw unauthorized
       | Subject sub => await v := validate sub in ret (Some v)
       end.

Definition has_role (roles : list string) (u : option user) : bool :=
  match u with Some v => existsb (String.eqb (role v)) roles | None => false end.

Definition RolesGuard_canActivate (r : route) (u : option user) : bool :=
  match requiredRoles r with None => true | Some roles => has_role roles u end.

(** [BanGuard]. *)
Definition BanGuard_canActivate (u : option user) : M state bool :=
  match u with
  | Some v => if is_banned v then throw (HttpException 403 "Your account has been banned") else ret true
  | None => ret true
  end.

Definition run_guard (g : guard) (r : route) (ps : list (string * string)) (req : request) (u : option user)
  : M state (option user) :=
  match g with
  | JwtAuthGuard => JwtAuthGuard_canActivate r req u
  | RolesGuard => if RolesGuard_canActivate r u then ret u else throw forbidden
  | ApiKeyGuard =>
      await v := lift (apiKeyGuard (x_api_key req) (default [] (requiredScopes r))) in ret (Some v)
  | WebhookSignatureGuard => do lift (signatureGuard ps req) ;> ret u
  end.

Fixpoint run_guards (gs : list guard) (r : route) (ps : list (string * string)) (req : request) (u : option user)
  : M state (option user) :=
  match gs with
  | [] => ret u
  | g :: gs' => await u' := run_guard g r ps req u in run_guards gs' r ps req u'
  end.

(** The global guards, then the bound ones. *)
Definition authorize (r : route) (ps : list (string * string)) (req : request) : M state (option user) :=
  await ok := TieredThrottlerGuard_canActivate r req in
  if negb ok then throw forbidden
  else run_guards ([JwtAuthGuard; RolesGuard] ++ bound_guards r) r ps req None.

(** ** Handlers *)

Record env := mkEnv { e_user : option user; e_params : list (string * string); e_req : request; e_item : jsval }.

Definition undefined_user : exn := TypeError "Cannot read properties of undefined".

Definition field (v : jsval) (f : string) : M state jsval :=
  match v with
  | VObj r => ret (prop r f)
  | VUndef | VNull => throw undefined_user
  | _ => ret VUndef
  end.

Definition user_object (u : user) : jsval :=
  VObj [("id", VStr (id u)); ("stellar_address", VStr (stellar_address u)); ("role", VStr (role u));
        ("is_banned", VBool (is_banned u))].

(** A property of [request.user]. *)
Definition of_user (u : option user) (f : user -> jsval) : M state jsval :=
  match u with Some v => ret (f v) | None => throw undefined_user end.

Definition param (ps : list (string * string)) (n : string) : jsval :=
  match List.find (fun p => String.eqb p.1 n) ps with Some p => VStr p.2 | None => VUndef end.

Definition read (e : env) (res : jsval) (s : source) : M state jsval :=
  match s with
  | TheUser => of_user (e_user e) user_object
  | UserId => of_user (e_user e) (fun u => VStr (id u))
  | UserAddress => of_user (e_user e) (fun u => VStr (stellar_address u))
  | PathParam n => ret (param (e_params e) n)
  | AllParams => ret (VObj ((fun p => (p.1, VStr p.2)) <$> e_params e))
  | QueryParam n => ret (prop (query (e_req e)) n)
  | WholeQuery => ret (VObj (query (e_req e)))
  | BodyField n => match body (e_req e) with VObj r => ret (prop r n) | v => ret v end
  | DtoField n => field (body (e_req e)) n
  | WholeBody => ret (body (e_req e))
  | Result => ret res
  | ItemField n => field (e_item e) n
  | Config n => ret (config n)
  | Fixed t => ret (VStr t)
  end.

Definition same_string (v w : jsval) : bool :=
  match v, w with VStr a, VStr b => String.eqb a b | _, _ => false end.

Definition holds (e : env) (res : jsval) (c : check) : M state bool :=
  match c with
  | SameAddress s => await a := read e res UserAddress in await b := read e res s in ret (same_string a b)
  | OwnedByCaller => await o := field res "user_id" in await i := read e res UserId in ret (same_string o i)
  | Found => ret (truthy res)
  | Required s => await v := read e res s in ret (truthy v)
  | OneOf s l => await v := read e res s in ret (existsb (fun x => same_string v (VStr x)) l)
  end.

Definition test (e : env) (res : jsval) (c : condition) : M state bool :=
  match c with
  | Truthy s => await v := read e res s in ret (truthy v)
  | Defined s => await v := read e res s in ret (match v with VUndef => false | _ => true end)
  | Configured n placeholder =>
      let v := config n in ret (truthy v && negb (same_string v (VStr placeholder)))
  | OtherActive s =>
      await i := field (e_item e) "id" in
      await a := field (e_item e) "is_active" in
      await v := read e res s in
      ret (negb (same_string i v) && truthy a)
  end.

(** The elements of an array; anything else is not iterable. *)
Definition items (v : jsval) : M state (list jsval) :=
  match v with VArr l => ret l | _ => throw (TypeError "object is not iterable") end.

Definition with_item (e : env) (v : jsval) : env := mkEnv (e_user e) (e_params e) (e_req e) v.

(** A step yields the latest result, or the status of an answer that ends the handler. *)
Fixpoint run_step (ok : Z) (e : env) (res : jsval) (s : step) {struct s} : M state (jsval + Z) :=
  let run_list := fix run_list (e : env) (res : jsval) (l : list step) : M state (jsval + Z) :=
    match l with
    | [] => ret (inl res)
    | s' :: l' =>
        await o := run_step ok e res s' in
        match o with inl res' => run_list e res' l' | inr z => ret (inr z) end
    end in
  match s with
  | Call svc m args =>
      await vs := map_each (map_each (read e res)) args in
      await v := invoke svc m vs in
      ret (inl v)
  | Check c refuse =>
      await b := holds e res c in
      if b then ret (inl res)
      else match refuse with Throws st => throw (HttpException st "") | Replies => ret (inr ok) end
  | When c yes no =>
      await b := test e res c in
      if b then run_list e res yes else run_list e res no
  | ForEach l =>
      await vs := items res in
      do for_each (fun v => do run_list (with_item e v) res l ;> ret tt) vs ;>
      ret (inl res)
  | Try l h =>
      catch (run_list e res l)
        (fun x => match x with HttpException _ _ => run_list e res h | _ => throw x end)
  | Redirect => ret (inr 302)
  end.

Fixpoint run_steps (ok : Z) (e : env) (res : jsval) (l : list step) : M state Z :=
  match l with
  | [] => ret ok
  | s :: l' =>
      await o := run_step ok e res s in
      match o with inl res' => run_steps ok e res' l' | inr z => ret z end
  end.

(** The interceptors of the route in turn; one may answer in place of the handler. *)
Fixpoint intercept (names : list string) (req : request) : M state (option Z) :=
  match names with
  | [] => ret None
  | n :: names' =>
      await a := lift (interceptor n req) in
      match a with Some z => ret (Some z) | None => intercept names' req end
  end.

Definition run_route (r : route) (ps : list (string * string)) (req : request) : M state Z :=
  await u := authorize r ps req in
  await cached := intercept (route_interceptors r) req in
  match cached with
  | Some z => ret z
  | None =>
      do lift (pipes (route_name r) req) ;>
      run_steps (success_status r) (mkEnv u ps req VUndef) VUndef (e_steps r.2)
  end.

(** The status the server answers, or the exception its filter turns into one. *)
Definition handle (req : request) : M state Z :=
  match dispatch (r_verb req) (r_path req) with
  | None => throw (NotFoundException "Cannot find the route")
  | Some (r, ps) => run_route r ps req
  end.

(** ** What each route asks of the caller *)

Inductive policy :=
| Anyone                                (* no credentials *)
| SignedBody                            (* the shared secret of the webhooks *)
| AnyUser                               (* a valid token *)
| OneOfRoles (roles : list string)      (* a valid token of a user with such a role *)
| KeyWith (scopes : list string).       (* a valid token and an API key with the scopes *)

Definition policy_of (r : route) : policy :=
  match isPublic r, requiredRoles r, bound_guards r with
  | true, _, [] => Anyone
  | true, _, _ => SignedBody
  | false, Some roles, _ => OneOfRoles roles
  | false, None, [JwtAuthGuard; ApiKeyGuard] => KeyWith (default [] (requiredScopes r))
  | false, None, _ => AnyUser
  end.

(** The user of a valid token. *)
Definition token_user (req : request) : M state user :=
  match jwt (authorization req) with
  | Expired => throw (UnauthorizedException "Token expired")
  | Invalid => throw unauthorized
  | Subject sub => validate sub
  end.

(** What admits a request to a route of a policy. *)
Definition screen_request (p : policy) (ps : list (string * string)) (req : request) : M state (option user) :=
  match p with
  | Anyone => ret None
  | SignedBody => do lift (signatureGuard ps req) ;> ret None
  | AnyUser => await u := token_user req in ret (Some u)
  | OneOfRoles roles =>
      await u := token_user req in
      if has_role roles (Some u) then ret (Some u) else throw forbidden
  | KeyWith scopes =>
      do token_user req ;>
      await u := lift (apiKeyGuard (x_api_key req) scopes) in ret (Some u)
  end.

(** Where the throttler sends the request first. *)
Definition throttled {A} (r : route) (req : request) (k : M state A) : M state A :=
  await ok := lift (throttle (throttleTier r) req) in
  if negb ok then throw forbidden else k.

(** ** The guards implement the policy *)

(** The combinations of decorators the controllers use. *)
Definition regular (r : route) : bool :=
  bool_decide (throttleTier r ∈ throttlers) &&
  match isPublic r, requiredRoles r, bound_guards r with
  | true, None, ([] | [WebhookSignatureGuard]) => true
  | false, Some _, ([] | [JwtAuthGuard; RolesGuard]) => true
  | false, None, ([] | [JwtAuthGuard] | [JwtAuthGuard; ApiKeyGuard]) => true
  | _, _, _ => false
  end.

Lemma served_regular : forall r, r ∈ served_routes -> regular r = true.
Proof. apply of_table. vm_compute. reflexivity. Qed.

Lemma bind_ret {St A B} (a : A) (k : A -> M St B) (s : St) : bind (ret a) k s = k a s.
Proof. done. Qed.

(** The token check twice is the token check once. *)
Lemma token_twice {A} (req : request) (k : user -> M state A) (s : state) :
  bind (token_user req) (fun _ => bind (token_user req) k) s = bind (token_user req) k s.
Proof.
  unfold token_user, validate, bind, gets, of_option, throw, ret.
  destruct (jwt (authorization req)) as [sub| |]; [|done|done].
  destruct (findUser sub s.1) as [u|] eqn:E; [|done]. by rewrite E.
Qed.

Lemma jwt_guard_token (r : route) (req : request) (u : option user) (s : state) :
  isPublic r = false ->
  JwtAuthGuard_canActivate r req u s = bind (token_user req) (fun v => ret (Some v)) s.
Proof.
  intros Hp. unfold JwtAuthGuard_canActivate, token_user. rewrite Hp.
  by destruct (jwt (authorization req)).
Qed.

Lemma regular_authorize (r : route) (ps : list (string * string)) (req : request) (s : state) :
  regular r = true -> authorize r ps req s = throttled r req (screen_request (policy_of r) ps req) s.
Proof.
  unfold regular. intros [Ht Hs]%andb_prop. apply bool_decide_eq_true in Ht.
  unfold authorize, throttled, TieredThrottlerGuard_canActivate. rewrite bool_decide_eq_true_2 by done.
  unfold bind at 1. symmetry. unfold bind at 1. symmetry.
  destruct (lift _ s) as [[[|]|e] s']; cbn [negb]; [|done|done].
  unfold policy_of. cbn [app run_guards run_guard]. unfold RolesGuard_canActivate.
  destruct (isPublic r) eqn:Hp; destruct (requiredRoles r) as [roles|] eqn:Hro; try done.
  - unfold JwtAuthGuard_canActivate. rewrite Hp. unfold bind at 1 2, ret at 1 2.
    destruct (bound_guards r) as [|[] [|]]; try done. cbn [run_guards run_guard screen_request].
    unfold bind, ret. by destruct (lift (signatureGuard ps req) s') as [[]].
  - destruct (bound_guards r) as [|[] [|[] [|]]]; try done; cbn [run_guards run_guard screen_request];
      unfold RolesGuard_canActivate; rewrite ?Hro; unfold bind at 1; rewrite jwt_guard_token by done;
      unfold token_user, validate, bind, gets, of_option, throw, ret;
      destruct (jwt (authorization req)) as [sub| |] eqn:Hj; try done;
      destruct (findUser sub s'.1) as [u|] eqn:Hf; try done;
      destruct (has_role roles (Some u)) eqn:Hh; try done.
    unfold JwtAuthGuard_canActivate, validate, bind, gets, of_option, ret. by rewrite Hp, Hj, Hf, Hh.
  - destruct (bound_guards r) as [|[] [|[] [|]]]; try done; cbn [run_guards run_guard screen_request];
      unfold bind at 1; rewrite jwt_guard_token by done;
      unfold token_user, validate, bind, gets, of_option, throw, ret;
      destruct (jwt (authorization req)) as [sub| |] eqn:Hj; try done;
      destruct (findUser sub s'.1) as [u|] eqn:Hf; try done.
    + unfold JwtAuthGuard_canActivate, validate, bind, gets, of_option, ret. by rewrite Hp, Hj, Hf.
    + unfold JwtAuthGuard_canActivate, validate, bind, gets, of_option, ret. rewrite Hp, Hj, Hf.
      by destruct (lift _ s') as [[]].
Qed.

(** ** No call before the guards have passed *)

(** What the guards have seen when they let a request through. *)
Definition satisfied (p : policy) (ps : list (string * string)) (req : request) (w : W) : Prop :=
  let token u := exists sub, jwt (authorization req) = Subject sub /\ findUser sub w = Some u in
  match p with
  | Anyone => True
  | SignedBody => (signatureGuard ps req w).1 = Ret tt
  | AnyUser => exists u, token u
  | OneOfRoles roles => exists u, token u /\ role u ∈ roles
  | KeyWith scopes => (exists u, token u) /\ exists u, (apiKeyGuard (x_api_key req) scopes w).1 = Ret u
  end.

Lemma lift_run {A} (m : M W A) (w : W) (log : list call) : lift m (w, log) = ((m w).1, ((m w).2, log)).
Proof. unfold lift, zoom. simpl. by destruct (m w). Qed.

Lemma token_user_run (req : request) (w : W) (log : list call) :
  (exists u sub, jwt (authorization req) = Subject sub /\ findUser sub w = Some u /\
     token_user req (w, log) = (Ret u, (w, log))) \/
  (exists e, token_user req (w, log) = (Throw e, (w, log))).
Proof.
  unfold token_user, validate, bind, gets, of_option, throw, ret.
  destruct (jwt (authorization req)) as [sub| |]; [|by right; eexists|by right; eexists].
  simpl. destruct (findUser sub w) as [u|] eqn:E; [left; by exists u, sub|right; by eexists].
Qed.

Lemma has_role_elem (roles : list string) (u : user) : has_role roles (Some u) = true -> role u ∈ roles.
Proof.
  simpl. intros H. apply existsb_exists in H as (x & Hx & E). apply String.eqb_eq in E. rewrite E.
  by apply list_elem_of_In.
Qed.

Lemma screen_run (p : policy) (ps : list (string * string)) (req : request) (w : W) (log : list call) :
  (exists u w', screen_request p ps req (w, log) = (Ret u, (w', log)) /\ satisfied p ps req w) \/
  (exists e w', screen_request p ps req (w, log) = (Throw e, (w', log))).
Proof.
  destruct p as [| | |roles|scopes]; cbn [screen_request satisfied].
  - left. by exists None, w.
  - unfold bind. rewrite lift_run. destruct (signatureGuard ps req w) as [[[]|e] w'] eqn:E; simpl;
      [left|right; by eexists _, _]. by eexists _, _.
  - destruct (token_user_run req w log) as [(u & sub & Hj & Hf & Hr)|(e & Hr)]; unfold bind; rewrite Hr;
      [left|right; by eexists _, _]. exists (Some u), w. split; [done|]. by exists u, sub.
  - destruct (token_user_run req w log) as [(u & sub & Hj & Hf & Hr)|(e & Hr)]; unfold bind; rewrite Hr;
      [|right; by eexists _, _].
    destruct (has_role roles (Some u)) eqn:Hh; [left|right; by eexists _, _].
    exists (Some u), w. split; [done|]. exists u. split; [by exists sub|by apply has_role_elem].
  - destruct (token_user_run req w log) as [(u & sub & Hj & Hf & Hr)|(e & Hr)]; unfold bind; rewrite Hr;
      [|right; by eexists _, _].
    rewrite lift_run. destruct (apiKeyGuard (x_api_key req) scopes w) as [[v|e] w'] eqn:E; simpl;
      [left|right; by eexists _, _].
    exists (Some v), w'. split; [done|]. split; [by exists u, sub|by exists v].
Qed.

(** The throttler, then what the policy asks: a refusal leaves the log as it was. *)
Lemma authorize_run (r : route) (ps : list (string * string)) (req : request) (w : W) (log : list call) :
  r ∈ served_routes ->
  (exists u w', authorize r ps req (w, log) = (Ret u, (w', log)) /\
     satisfied (policy_of r) ps req (throttle (throttleTier r) req w).2) \/
  (exists e w', authorize r ps req (w, log) = (Throw e, (w', log))).
Proof.
  intros Hr. rewrite regular_authorize by (exact (served_regular r Hr)). unfold throttled, bind. rewrite lift_run.
  destruct (throttle (throttleTier r) req w) as [[[|]|e] w']; simpl; [|right; by eexists _, _|right; by eexists _, _].
  apply screen_run.
Qed.

Lemma run_route_calls (r : route) (ps : list (string * string)) (req : request) (w w' : W) (log log' : list call)
    (o : outcome Z) :
  r ∈ served_routes -> run_route r ps req (w, log) = (o, (w', log')) -> log' ≠ log ->
  satisfied (policy_of r) ps req (throttle (throttleTier r) req w).2.
Proof.
  intros Hr Hrun Hlog. unfold run_route, bind in Hrun.
  destruct (authorize_run r ps req w log Hr) as [(u & w1 & Hau & Hs)|(e & w1 & Hau)]; [exact Hs|].
  clear Hr. rewrite Hau in Hrun. by simplify_eq.
Qed.

(** C17: A service method is called only after the guards of the route have seen what the
    route's policy asks for: nothing on a public route, the signed body on the two
    webhook routes, elsewhere the token of an existing user, with one of the roles
    of the route, or with an API key that has the scopes of the route. *)
Theorem calls_need_policy (req : request) (w w' : W) (log log' : list call) (o : outcome Z) :
  handle req (w, log) = (o, (w', log')) -> log' ≠ log ->
  exists r ps, dispatch (r_verb req) (r_path req) = Some (r, ps) /\
    satisfied (policy_of r) ps req (throttle (throttleTier r) req w).2.
Proof.
  unfold handle. pose proof (dispatch_elem (r_verb req) (r_path req)) as Hr. revert Hr.
  generalize (dispatch (r_verb req) (r_path req)) as d. intros [[r ps]|] Hr Hrun Hlog.
  - exists r, ps. split; [reflexivity|]. exact (run_route_calls r ps req w w' log log' o (Hr r ps eq_refl) Hrun Hlog).
  - clear Hr. unfold throw in Hrun. by simplify_eq.
Qed.

(** The guards of every served route, the global ones and those of the decorators,
    come to the throttler followed by what the route's policy asks. *)
Theorem guards_refine_policy (r : route) (ps : list (string * string)) (req : request) (s : state) :
  r ∈ served_routes -> authorize r ps req s = throttled r req (screen_request (policy_of r) ps req) s.
Proof. intros Hr. apply regular_authorize. exact (served_regular r Hr). Qed.

Definition overviews : list string := ["AdminController.getSavingsOverview"; "AdminController.getYieldOverview"].

Definition admin_policy (r : route) : bool :=
  match head (route_path r), policy_of r with
  | Some (Lit a), p =>
      negb (String.eqb a "admin") ||
      match p with
      | OneOfRoles l =>
          bool_decide (l = ["admin"]) ||
          bool_decide (l = ["admin"; "moderator"]) && bool_decide (route_name r ∈ overviews)
      | _ => false
      end
  | _, _ => true
  end.

(** Every served path under [admin] asks for the admin role; two overviews also let moderators in. *)
Theorem admin_paths_need_admin (r : route) (rest : list seg) :
  r ∈ served_routes -> route_path r = Lit "admin" :: rest ->
  policy_of r = OneOfRoles ["admin"] \/
  policy_of r = OneOfRoles ["admin"; "moderator"] /\ route_name r ∈ overviews.
Proof.
  intros Hr Hp. assert (Ha : forall r, r ∈ served_routes -> admin_policy r = true).
  { apply of_table. vm_compute. reflexivity. }
  specialize (Ha r Hr). clear Hr. unfold admin_policy in Ha. rewrite Hp in Ha. cbn [head] in Ha.
  rewrite String.eqb_refl in Ha. cbn [negb orb] in Ha. destruct (policy_of r); try discriminate Ha.
  apply orb_true_iff in Ha as [Ha%bool_decide_eq_true|[Ha Hn]%andb_prop]; [left; by f_equal|right].
  apply bool_decide_eq_true in Ha, Hn. by subst.
Qed.

(** The three routes of the wallet login. *)
Definition wallet_login : list string := ["challenge"; "verify"; "verify-wallet"].

Definition wants_token (x : string) : bool :=
  match dispatch POST ["api"; "v1"; "auth"; x] with
  | Some (r, _) =>
      match policy_of r with AnyUser => String.eqb (throttleTier r) "auth" | _ => false end
  | None => false
  end.

Lemma wallet_login_policy (x : string) : x ∈ wallet_login ->
  exists r ps, dispatch POST ["api"; "v1"; "auth"; x] = Some (r, ps) /\ policy_of r = AnyUser /\ throttleTier r = "auth".
Proof.
  intros Hx. assert (Hall : forall x, x ∈ wallet_login -> wants_token x = true).
  { apply of_table. vm_compute. reflexivity. }
  specialize (Hall x Hx). unfold wants_token in Hall. destruct (dispatch _ _) as [[r ps]|]; [|discriminate Hall].
  exists r, ps. split; [reflexivity|]. destruct (policy_of r); try discriminate Hall.
  split; [reflexivity|]. by apply String.eqb_eq.
Qed.

(** A client that has no token yet cannot log in with its wallet: asking for a
    challenge, or answering one, is refused with 401 before the service is called. *)
Theorem wallet_login_needs_session (x : string) (req : request) (w w' : W) (log : list call) :
  x ∈ wallet_login -> r_verb req = POST -> r_path req = ["api"; "v1"; "auth"; x] ->
  jwt (authorization req) = Invalid -> throttle "auth" req w = (Ret true, w') ->
  handle req (w, log) = (Throw unauthorized, (w', log)).
Proof.
  intros Hx Hv Hp Hj Ht. destruct (wallet_login_policy x Hx) as (r & ps & Hd & Hpo & Htier).
  unfold handle. rewrite Hv, Hp, Hd. unfold run_route, bind at 1.
  rewrite regular_authorize by (exact (served_regular r (dispatch_elem _ _ _ _ Hd))).
  unfold throttled, bind. rewrite Htier, lift_run, Ht. simpl. rewrite Hpo.
  unfold screen_request, token_user, bind. by rewrite Hj.
Qed.

(** ** Whose data a route touches *)

(** An argument that is the caller: [user], [user.id] or [user.stellar_address]. *)
Definition is_caller (l : list source) : bool :=
  match l with [TheUser] | [UserId] | [UserAddress] => true | _ => false end.

(** Every call of the handler passes the caller to the service. *)
Definition personal_step (s : step) : bool :=
  match s with Call _ _ args => existsb is_caller args | Check _ _ => true | _ => false end.
Definition personal (r : route) : bool := forallb personal_step (e_steps r.2).

Definition caller_values (u : user) : list jsval := [user_object u; VStr (id u); VStr (stellar_address u)].

Definition by_caller (ou : option user) (c : call) : Prop :=
  exists u v, ou = Some u /\ v ∈ caller_values u /\ [v] ∈ c.2.

(** The calls made since [log]. *)
Definition logged (P : call -> Prop) (log : list call) (s : state) : Prop :=
  exists extra, s.2 = log ++ extra /\ Forall P extra.

Lemma preserves_field (I : state -> Prop) (v : jsval) (f : string) : preserves I (field v f).
Proof. destruct v; simpl; eauto with stow. Qed.

Lemma preserves_read (I : state -> Prop) (e : env) (res : jsval) (s : source) : preserves I (read e res s).
Proof.
  destruct s; cbn [read]; unfold of_user;
    try (destruct (e_user e)); try (destruct (body (e_req e))); eauto using preserves_field with stow.
Qed.

Lemma preserves_holds (I : state -> Prop) (e : env) (res : jsval) (c : check) : preserves I (holds e res c).
Proof.
  destruct c; simpl; preserve; try apply preserves_read; try apply preserves_field;
    unfold of_user; destruct (e_user e); eauto with stow.
Qed.

Lemma preserves_lift_log {A} (P : call -> Prop) (log : list call) (m : M W A) : preserves (logged P log) (lift m).
Proof. intros [w l] H. by rewrite lift_run. Qed.

(** Evaluated arguments: one list of values for each list of sources. *)
Lemma args_caller (e : env) (res : jsval) (args : list (list source)) (vs : list (list jsval)) (s s' : state) :
  map_each (map_each (read e res)) args s = (Ret vs, s') -> existsb is_caller args = true ->
  exists u v, e_user e = Some u /\ v ∈ caller_values u /\ [v] ∈ vs.
Proof.
  revert vs s. induction args as [|l args IH]; intros vs s; [done|].
  cbn [map_each existsb]. unfold bind at 1. destruct (map_each (read e res) l s) as [[ys|x] s1] eqn:Hl; [|done].
  unfold bind. destruct (map_each (map_each (read e res)) args s1) as [[zs|x] s2] eqn:Hr; [|done].
  intros [= <- <-] Hc. apply orb_true_iff in Hc as [Hc|Hc].
  - destruct l as [|[] []]; try discriminate Hc; revert Hl; cbn [map_each read]; unfold of_user, bind, throw, ret;
      (destruct (e_user e) as [u|]; [|done]); intros [= <- <-]; exists u; eexists;
      (split; [done|split; [|by left]]); unfold caller_values; eauto using list_elem_of_here, list_elem_of_further.
  - destruct (IH zs s1 Hr Hc) as (u & v & Hu & Hv & Hin). exists u, v. split_and!; [done..|by right].
Qed.

Lemma args_state (I : state -> Prop) (e : env) (res : jsval) (args : list (list source)) :
  preserves I (map_each (map_each (read e res)) args).
Proof. apply preserves_map_each. intros l. apply preserves_map_each. intros x. apply preserves_read. Qed.

Lemma logged_call (P : call -> Prop) (log : list call) (svc m : string) (vs : list (list jsval)) (s : state) :
  P (svc, m, vs) -> logged P log s -> logged P log (invoke svc m vs s).2.
Proof.
  destruct s as [w l]. intros HP (extra & Hs & Hall). simpl in Hs. unfold invoke, bind, modify.
  apply preserves_lift_log. exists (extra ++ [(svc, m, vs)]). cbn [fst snd]. rewrite Hs, app_assoc. split; [done|].
  apply Forall_app. split; [done|]. by constructor.
Qed.

Lemma personal_run_step (ok : Z) (e : env) (res : jsval) (log : list call) (st : step) :
  personal_step st = true -> preserves (logged (by_caller (e_user e)) log) (run_step ok e res st).
Proof.
  destruct st as [svc m args|c refuse| | | |]; try discriminate; cbn [personal_step run_step]; intros Hp.
  - intros s Hs. unfold bind. pose proof (args_state (logged (by_caller (e_user e)) log) e res args s Hs) as Ha.
    destruct (map_each (map_each (read e res)) args s) as [[vs|x] s1] eqn:Hargs; [|done]. simpl in Ha.
    pose proof (logged_call (by_caller (e_user e)) log svc m vs s1) as Hc.
    destruct (invoke svc m vs s1) as [[v|x] s2]; simpl in *; apply Hc; try done;
      destruct (args_caller e res args vs s s1 Hargs Hp) as (u & w & Hu & Hw & Hin); by exists u, w.
  - apply preserves_bind; [apply preserves_holds|]. intros []; [apply preserves_ret|].
    destruct refuse; [apply preserves_throw|apply preserves_ret].
Qed.

Lemma personal_run_steps (ok : Z) (e : env) (log : list call) (l : list step) : forall res : jsval,
  forallb personal_step l = true -> preserves (logged (by_caller (e_user e)) log) (run_steps ok e res l).
Proof.
  induction l as [|st l IH]; intros res; cbn [run_steps forallb]; [intros _; apply preserves_ret|].
  intros [Hs Hl]%andb_prop. apply preserves_bind; [by apply personal_run_step|].
  intros [res'|z]; [by apply IH|apply preserves_ret].
Qed.

Lemma preserves_intercept (P : call -> Prop) (log : list call) (names : list string) (req : request) :
  preserves (logged P log) (intercept names req).
Proof.
  induction names as [|n names IH]; simpl; [apply preserves_ret|].
  apply preserves_bind; [apply preserves_lift_log|]. intros [z|]; [apply preserves_ret|apply IH].
Qed.

(** On a route whose handler passes the caller to its services, every call the server
    makes has as an argument the user the guards admitted, the user's id or address:
    no part of the request can name another account in its place. *)
Theorem personal_routes_act_for_caller (r : route) (ps : list (string * string)) (req : request)
    (w w' : W) (log log' : list call) (o : outcome Z) :
  r ∈ served_routes -> personal r = true -> run_route r ps req (w, log) = (o, (w', log')) ->
  exists extra, log' = log ++ extra /\
    Forall (fun c => exists u s, authorize r ps req (w, log) = (Ret (Some u), s) /\ by_caller (Some u) c) extra.
Proof.
  intros Hr Hp Hrun.
  destruct (authorize_run r ps req w log Hr) as [(u & w1 & Hau & _)|(e & w1 & Hau)]; clear Hr;
    unfold run_route, bind at 1 in Hrun; rewrite Hau in Hrun; [|exists []; simplify_eq; by rewrite app_nil_r].
  assert (Hl : logged (by_caller u) log (w', log')).
  { apply (f_equal snd) in Hrun. simpl in Hrun. rewrite <- Hrun.
    apply preserves_bind; [apply preserves_intercept| |by exists []; rewrite app_nil_r].
    intros [z|]; [apply preserves_ret|]. apply preserves_bind; [apply preserves_lift_log|]. intros _.
    by apply (personal_run_steps _ (mkEnv u ps req VUndef)). }
  destruct Hl as (extra & Hlog & Hall). exists extra. split; [done|].
  eapply Forall_impl; [exact Hall|]. intros c (v & x & -> & Hx). exists v, (w1, log). split; [done|]. by exists v, x.
Qed.

(** The routes any user may call whose handlers do not pass the caller along: four
    of the goals, the balance of an account, the yield overview, the inbox (which
    compares the address itself), the wallet login and the four backup routes. *)
Theorem routes_without_caller :
  route_name <$> List.filter (fun r => negb (personal r) && match policy_of r with AnyUser => true | _ => false end)
    served_routes =
  ["GoalsController.list"; "GoalsController.summary"; "GoalsController.getOne"; "GoalsController.claim";
   "BalanceController.get"; "SavingsController.getYieldAdminOverview";
   "NotificationsController.getNotifications"; "NotificationsController.streamNotifications";
   "AuthController.generateChallenge"; "AuthController.verifyChallenge"; "AuthController.verifyWallet";
   "BackupController.create"; "BackupController.list"; "BackupController.verify"; "BackupController.restore"].
Proof. vm_compute. reflexivity. Qed.

(** A ban changes nothing: a banned user's token is admitted, though [BanGuard] refuses the user. *)
Theorem ban_not_enforced (r : route) (ps : list (string * string)) (req : request) (w : W) (log : list call)
    (sub : string) (u : user) :
  r ∈ served_routes -> policy_of r = AnyUser ->
  jwt (authorization req) = Subject sub -> throttle (throttleTier r) req w = (Ret true, w) ->
  findUser sub w = Some u -> is_banned u = true ->
  authorize r ps req (w, log) = (Ret (Some u), (w, log)) /\
  is_ret (BanGuard_canActivate (Some u) (w, log)).1 = false.
Proof.
  intros Hr Hp Hj Ht Hu Hb. split; [|unfold BanGuard_canActivate; by rewrite Hb].
  rewrite regular_authorize by (exact (served_regular r Hr)). clear Hr.
  unfold throttled, bind. rewrite lift_run, Ht. simpl. rewrite Hp.
  unfold screen_request, token_user, validate, bind, gets, of_option, ret. rewrite Hj. simpl. by rewrite Hu.
Qed.

End server.

(** ** A concrete server *)

Definition admin_user : user := mkUser "u1" "GADMIN" "admin" false.
Definition banned_user : user := mkUser "u2" "GBAD" "user" true.

(** Two users, who come with the tokens [Bearer u1] and [Bearer u2]; services that answer [null]. *)
#[local] Instance demo : Server := {|
  W := unit;
  jwt h := match h with Some t => if String.prefix "Bearer u" t then Subject (String.substring 7 2 t) else Invalid
                      | None => Invalid end;
  findUser sub _ := if String.eqb sub "u1" then Some admin_user
                    else if String.eqb sub "u2" then Some banned_user else None;
  throttle _ _ := ret true;
  apiKeyGuard _ _ := throw (UnauthorizedException "X-API-Key header is required");
  signatureGuard _ _ := ret tt;
  interceptor _ _ := ret None;
  pipes _ _ := ret tt;
  config _ := VUndef;
  service _ _ _ := ret VNull |}.

Definition get (path : list string) (token : option string) : request := mkRequest GET path token None [] VUndef.

Lemma calls_need_policy_witness :
  satisfied (policy_of (AdminController, AdminController_listUsers)) []
    (get ["api"; "v1"; "admin"; "users"] (Some "Bearer u1")) tt.
Proof.
  destruct (calls_need_policy (SV := demo) (get ["api"; "v1"; "admin"; "users"] (Some "Bearer u1")) tt tt []
    [("adminService", "listUsers", [[VObj []]])] (Ret 200)) as (r & ps & Hd & Hs).
  - vm_compute. reflexivity.
  - discriminate.
  - assert (E : dispatch GET ["api"; "v1"; "admin"; "users"] = Some ((AdminController, AdminController_listUsers), []))
      by (vm_compute; reflexivity).
    cbn [get r_verb r_path] in Hd. rewrite E in Hd. injection Hd as <- <-. exact Hs.
Defined.

Lemma guards_refine_policy_witness :
  authorize (BackupController, BackupController_restore) [("id", "7")] (get [] (Some "Bearer u2")) (tt, []) =
    (Ret (Some banned_user), (tt, [])).
Proof.
  rewrite (guards_refine_policy (SV := demo) (BackupController, BackupController_restore)).
  - vm_compute. reflexivity.
  - apply (list_elem_of_lookup_2 _ 122). vm_compute. reflexivity.
Defined.

Lemma routes_reachable_witness :
  dispatch GET ["api"; "v1"; "users"; "zz"] = Some ((UsersController, UsersController_getPublicProfile), [("address", "zz")]).
Proof.
  refine (proj1 (routes_reachable (fun _ => "zz") (UsersController, UsersController_getPublicProfile) _ _) _).
  - intros n. split; [discriminate|]. intros l Hl E.
    assert (Ht : forall l, l ∈ literals served_routes ->
      negb (String.eqb (Filtering.toLowerCase l) (Filtering.toLowerCase "zz")) = true).
    { apply of_table. vm_compute. reflexivity. }
    specialize (Ht l Hl). rewrite E, String.eqb_refl in Ht. discriminate Ht.
  - apply (list_elem_of_lookup_2 _ 60). vm_compute. reflexivity.
  - apply (bool_decide_unpack _). vm_compute. reflexivity.
Defined.

Lemma wallet_login_needs_session_witness :
  handle (mkRequest POST ["api"; "v1"; "auth"; "challenge"] None None [] (VObj [("stellar_address", VStr "GA")])) (tt, []) =
    (Throw unauthorized, (tt, [])).
Proof.
  apply (wallet_login_needs_session (SV := demo) "challenge"); try (vm_compute; reflexivity).
  apply (list_elem_of_lookup_2 _ 0). reflexivity.
Defined.

Lemma personal_routes_act_for_caller_witness :
  exists extra, [("accountService", "requestExport", [[VStr "u1"]])] = [] ++ extra /\
    Forall (fun c => exists u s, authorize (AccountController, AccountController_requestExport) []
       (get [] (Some "Bearer u1")) (tt, []) = (Ret (Some u), s) /\ by_caller (Some u) c) extra.
Proof.
  apply (personal_routes_act_for_caller (SV := demo) (AccountController, AccountController_requestExport) []
    (get [] (Some "Bearer u1")) tt tt [] [("accountService", "requestExport", [[VStr "u1"]])] (Ret 201)).
  - apply (list_elem_of_lookup_2 _ 113). vm_compute. reflexivity.
  - vm_compute. reflexivity.
  - vm_compute. reflexivity.
Defined.

Lemma admin_paths_need_admin_witness :
  policy_of (AdminController, AdminController_banUser) = OneOfRoles ["admin"].
Proof.
  destruct (admin_paths_need_admin (AdminController, AdminController_banUser) [Lit "users"; Par "id"; Lit "ban"]) as [H|[H _]].
  - apply (list_elem_of_lookup_2 _ 90). vm_compute. reflexivity.
  - vm_compute. reflexivity.
  - exact H.
  - exfalso. vm_compute in H. discriminate H.
Defined.

Lemma ban_not_enforced_witness :
  authorize (UsersController, UsersController_getOwnProfile) [] (get [] (Some "Bearer u2")) (tt, []) =
    (Ret (Some banned_user), (tt, [])).
Proof.
  apply (ban_not_enforced (SV := demo) (UsersController, UsersController_getOwnProfile) [] (get [] (Some "Bearer u2")) tt [] "u2" banned_user);
    try (vm_compute; reflexivity).
  apply (list_elem_of_lookup_2 _ 55). vm_compute. reflexivity.
Defined.
End Server.
