(* ===== verification/Sms.v ===== *)
(** * Text messages

    Models [backend/src/notifications/sms.service.ts]: a message is stored, sent in the
    background through the configured provider, and tried again after growing delays
    until it is sent or the attempts are used up.

    The file of the entity the service imports is not in the sources: the values of
    its status are an interface, [SmsStatuses], with the four names the service uses.
    The HTTP client is a parameter.  The background attempts and the timers are the
    list of tasks of the state; any of them may run next. *)
From Stdlib Require Import ZArith Lia.
From stdpp Require Import base list strings sets.
From S2P Require Import Prelude Storage JsValue JsNumber.
Local Open Scope Z_scope.

Module Sms.

Class SmsStatuses := {
  SmsStatus : Type;
  SmsStatus_eq_dec :: EqDecision SmsStatus;
  PENDING : SmsStatus;
  SENT : SmsStatus;
  DELIVERED : SmsStatus;
  FAILED : SmsStatus;
  statuses_distinct : NoDup [PENDING; SENT; DELIVERED; FAILED];
}.

(** What a [post] gives: the data of the response, or an error with
    [error.response?.data?.message] and [error.message]. *)
Inductive reply :=
| Answered (data : jsval)
| Raised (response_message : jsval) (message : string).

(** What a provider returns. *)
Record result := mkResult { success : bool; externalId : jsval; error : jsval }.

Record config := mkConfig {
  SMS_PROVIDER : option string;
  SMS_RETRY_MAX_ATTEMPTS : option Z;
  SMS_RETRY_BASE_DELAY_MS : option Z;
  TWILIO_ACCOUNT_SID : option string;
  TWILIO_AUTH_TOKEN : option string;
  TWILIO_PHONE_NUMBER : option string;
  AFRICASTALKING_API_KEY : option string;
  AFRICASTALKING_USERNAME : option string;
  AFRICASTALKING_SENDER_ID : option string;
}.

Section service.
Context {B : Backend} {S : SmsStatuses} (cfg : config).
(** [httpService.post] at a time, to a URL, of a form; and [base64]. *)
Context (post : Z -> string -> list (string * string) -> list (string * string) -> reply) (base64 : string -> string).

Record SmsNotification := mkSms {
  phone_number : string;
  message : string;
  user_id : option string;
  status : SmsStatus;
  sms_provider : string;
  metadata : jsval;
  attempts : Z;
  sent_at : option Z;
  delivered_at : option Z;
  external_id : jsval;
  error_message : option string;
  created_at : Z;
}.

(** A task: the next attempt at a message and when it is due. *)
Record task := mkTask { t_id : nat; t_attempt : Z; t_due : Z }.

Record state := mkState { messages : table nat SmsNotification; tasks : list task }.

Definition provider : string := default "twilio"%string (SMS_PROVIDER cfg).
Definition maxRetries : Z := default 3 (SMS_RETRY_MAX_ATTEMPTS cfg).
Definition retryDelay : Z := default 1000 (SMS_RETRY_BASE_DELAY_MS cfg).

(** ** Providers *)

(** [o && o !== ''] *)
Definition given (o : option string) : bool :=
  match o with Some s => negb (String.eqb s "") | None => false end.

Definition failure (e : jsval) : result := mkResult false VUndef e.

(** [data.f], [None] when it throws. *)
Definition member (v : jsval) (f : string) : option jsval :=
  match v with VObj r => Some (prop r f) | VUndef | VNull => None | _ => Some VUndef end.

(** [v?.f]. *)
Definition optional (v : jsval) (f : string) : jsval := default VUndef (member v f).

(** [a || b]. *)
Definition or_else (a b : jsval) : jsval := if truthy a then a else b.

Definition cannot_read : jsval := VStr "Cannot read properties of undefined".

Definition raised (response_message : jsval) (m : string) : result := failure (or_else response_message (VStr m)).

Definition sendViaTwilio (now : Z) (phone text : string) : result :=
  let sid := default "" (TWILIO_ACCOUNT_SID cfg) in
  let token := default "" (TWILIO_AUTH_TOKEN cfg) in
  let from := default "" (TWILIO_PHONE_NUMBER cfg) in
  if negb (given (TWILIO_ACCOUNT_SID cfg) && given (TWILIO_AUTH_TOKEN cfg) && given (TWILIO_PHONE_NUMBER cfg))
  then failure (VStr "Twilio credentials not configured")
  else
    match post now ("https://api.twilio.com/2010-04-01/Accounts/" +:+ sid +:+ "/Messages.json")%string
            [("To", phone); ("From", from); ("Body", text)]%string
            [("Authorization", "Basic " +:+ base64 (sid +:+ ":" +:+ token));
             ("Content-Type", "application/x-www-form-urlencoded")]%string with
    | Answered data =>
        match member data "sid" with
        | Some sid => mkResult true sid VUndef
        | None => failure cannot_read
        end
    | Raised rm m => raised rm m
    end.

Definition sendViaAwsSns : result :=
  failure (VStr "AWS SNS provider not fully implemented. Install @aws-sdk/client-sns").

(** [Recipients?.[0]]. *)
Definition first (v : jsval) : jsval := match v with VArr (x :: _) => x | _ => VUndef end.

Definition sendViaAfricasTalking (now : Z) (phone text : string) : result :=
  let apiKey := default "" (AFRICASTALKING_API_KEY cfg) in
  let username := default "" (AFRICASTALKING_USERNAME cfg) in
  let from := default "STOW" (AFRICASTALKING_SENDER_ID cfg) in
  if negb (given (AFRICASTALKING_API_KEY cfg) && given (AFRICASTALKING_USERNAME cfg))
  then failure (VStr "Africa's Talking credentials not configured")
  else
    match post now "https://api.africastalking.com/version1/messaging"
            [("username", username); ("to", phone); ("message", text); ("from", from)]%string
            [("apiKey", apiKey); ("Content-Type", "application/x-www-form-urlencoded");
             ("Accept", "application/json")]%string with
    | Answered data =>
        match member data "SMSMessageData" with
        | None => failure cannot_read
        | Some d =>
            let r := first (optional d "Recipients") in
            match optional r "status" with
            | VStr "Success" => mkResult true (optional r "messageId") VUndef
            | st => failure (or_else st (VStr "Unknown error from Africa's Talking"))
            end
        end
    | Raised rm m => raised rm m
    end.

Definition send (now : Z) (phone text : string) : result :=
  if String.eqb provider "twilio" then sendViaTwilio now phone text
  else if String.eqb provider "aws-sns" then sendViaAwsSns
  else if String.eqb provider "africastalking" then sendViaAfricasTalking now phone text
  else failure (VStr ("Unknown provider: " +:+ provider)).

(** ** Operations *)

Definition put (id : nat) (v : SmsNotification) : M state unit :=
  modify (fun s => mkState (save id v (messages s)) (tasks s)).

Definition start (t : task) : M state unit := modify (fun s => mkState (messages s) (tasks s ++ [t])).

Definition set_attempts (n : Z) (v : SmsNotification) : SmsNotification :=
  mkSms (phone_number v) (message v) (user_id v) (status v) (sms_provider v) (metadata v) n (sent_at v)
    (delivered_at v) (external_id v) (error_message v) (created_at v).
Definition set_sent (now : Z) (ext : jsval) (v : SmsNotification) : SmsNotification :=
  mkSms (phone_number v) (message v) (user_id v) SENT (sms_provider v) (metadata v) (attempts v) (Some now)
    (delivered_at v) (or_else ext VNull) (error_message v) (created_at v).
Definition set_failed (e : string) (v : SmsNotification) : SmsNotification :=
  mkSms (phone_number v) (message v) (user_id v) FAILED (sms_provider v) (metadata v) (attempts v) (sent_at v)
    (delivered_at v) (external_id v) (Some e) (created_at v).
Definition set_status (st : SmsStatus) (delivered : option Z) (v : SmsNotification) : SmsNotification :=
  mkSms (phone_number v) (message v) (user_id v) st (sms_provider v) (metadata v) (attempts v) (sent_at v)
    (match delivered with Some _ => delivered | None => delivered_at v end)
    (external_id v) (error_message v) (created_at v).
Definition set_retry (v : SmsNotification) : SmsNotification :=
  mkSms (phone_number v) (message v) (user_id v) PENDING (sms_provider v) (metadata v) 0 (sent_at v)
    (delivered_at v) (external_id v) None (created_at v).

Definition backoff (attemptNumber : Z) : Z := retryDelay * 4 ^ (attemptNumber - 1).

Definition attemptSend (id : nat) (attemptNumber now : Z) : M state unit :=
  await found := gets (fun s => find_one id (messages s)) in
  match found with
  | None => ret tt
  | Some sms0 =>
      let sms := set_attempts attemptNumber sms0 in
      do put id sms ;>
      let r := send now (phone_number sms) (message sms) in
      if success r then put id (set_sent now (externalId r) sms)
      else if attemptNumber <? maxRetries
           then start (mkTask id (attemptNumber + 1) (now + backoff attemptNumber))
           else put id (set_failed (js_String (or_else (error r) (VStr "Unknown error"))) sms)
  end.

Definition sendSms (phone text : string) (uid : option string) (meta : jsval) (now : Z) : M state nat :=
  await id := gets (fun s => fresh_id (messages s)) in
  do put id (mkSms phone text uid PENDING provider (or_else meta VNull) 0 None None VNull None now) ;>
  do start (mkTask id 1 now) ;>
  ret id.

Definition updateStatus (ext : string) (st : SmsStatus) (delivered : option Z) : M state unit :=
  await found := gets (fun s =>
    List.find (fun r => match external_id r.2 with VStr e => String.eqb e ext | _ => false end) (rows (messages s))) in
  match found with
  | None => ret tt
  | Some (id, sms) => put id (set_status st delivered sms)
  end.

Definition retrySms (id : nat) (now : Z) : M state unit :=
  await found := gets (fun s => find_one id (messages s)) in
  match found with
  | None => throw (JsError "SMS not found")
  | Some sms =>
      if decide (status sms = FAILED) then
        do put id (set_retry sms) ;>
        attemptSend id 1 now
      else throw (JsError "Can only retry failed SMS")
  end.

Record stats := mkStats { total : Z; sent : Z; delivered : Z; failed : Z; pending : Z; delivery_rate : number }.

Definition getStats (from until : option Z) : M state stats :=
  gets (fun s =>
    let within v := match from with Some d => d <=? created_at v | None => true end &&
                    match until with Some d => created_at v <=? d | None => true end in
    let count st := count_where (fun _ v => within v && bool_decide (status v = st)) (messages s) in
    let total := count_where (fun _ v => within v) (messages s) in
    let rate := if 0 <? total
                then num_mul (num_div (num_of_Z (count DELIVERED)) (num_of_Z total)) (num_of_Z 100)
                else num_of_Z 0 in
    mkStats total (count SENT) (count DELIVERED) (count FAILED) (count PENDING)
      (num_div (num_of_Z (default 0 (num_round (num_mul rate (num_of_Z 100))))) (num_of_Z 100))).

Definition getUserSms (uid : string) (page limit : Z) : M state (list (nat * SmsNotification) * Z) :=
  gets (fun s =>
    let found := List.filter (fun r => bool_decide (user_id r.2 = Some uid)) (rows (messages s)) in
    let ordered := order_by (fun r => - created_at r.2) found in
    (take (Z.to_nat limit) (drop (Z.to_nat ((page - 1) * limit)) ordered), Z.of_nat (length found))).

(** ** The tasks *)

(** The oldest task runs at a time. *)
Definition run_task (now : Z) : M state unit :=
  fun s => match tasks s with
           | [] => (Ret tt, s)
           | t :: ts => attemptSend (t_id t) (t_attempt t) now (mkState (messages s) ts)
           end.

Definition run_tasks (times : list Z) : M state unit := for_each run_task times.

Definition settled (v : SmsNotification) : Prop := status v = SENT \/ status v = FAILED.

(** One attempt settles the message or schedules the next, and starts nothing else. *)
Lemma attemptSend_spec (id : nat) (n now : Z) (s : state) (v : SmsNotification) :
  find_one id (messages s) = Some v ->
  exists s' v', attemptSend id n now s = (Ret tt, s') /\ find_one id (messages s') = Some v' /\
    attempts v' = n /\ user_id v' = user_id v /\ message v' = message v /\
    (settled v' /\ tasks s' = tasks s \/
     n < maxRetries /\ status v' = status v /\ tasks s' = tasks s ++ [mkTask id (n + 1) (now + backoff n)]).
Proof.
  intros Hv. unfold attemptSend, bind, gets. rewrite Hv. unfold put, start, modify. simpl.
  destruct (success _); [|destruct (n <? maxRetries) eqn:Hn].
  all: eexists _, _; split; [reflexivity|]; simpl; split; [apply find_one_save_eq|]; simpl.
  - split_and!; [done..|]. left. split; [by left|done].
  - split_and!; [done..|]. right. split; [by apply Z.ltb_lt|done].
  - split_and!; [done..|]. left. split; [by right|done].
Qed.

(** A chain of attempts ends: it takes at most [maxRetries] of them. *)
Lemma chain_settles (times : list Z) (id : nat) (n due : Z) (s : state) (v : SmsNotification) :
  find_one id (messages s) = Some v -> tasks s = [mkTask id n due] -> n <= Z.max 1 maxRetries ->
  Z.max 1 maxRetries - n < Z.of_nat (length times) ->
  exists s' v', run_tasks times s = (Ret tt, s') /\ tasks s' = [] /\ find_one id (messages s') = Some v' /\
    settled v' /\ n <= attempts v' <= Z.max 1 maxRetries /\ user_id v' = user_id v /\ message v' = message v.
Proof.
  revert n due s v. induction times as [|now times IH]; intros n due s v Hv Ht Hn Hlen; simpl in Hlen; [lia|].
  unfold run_tasks. simpl. unfold bind at 1. unfold run_task at 1. rewrite Ht. simpl.
  destruct (attemptSend_spec id n now (mkState (messages s) []) v Hv)
    as (s1 & v1 & -> & Hv1 & Ha & Hu & Hm & [[Hset Htasks]|(Hlt & _ & Htasks)]); simpl in Htasks.
  - exists s1, v1. split_and!; try done; try lia.
    clear -Htasks. induction times as [|t times IH]; simpl; [done|].
    unfold bind, run_task at 1. by rewrite Htasks.
  - destruct (IH (n + 1) (now + backoff n) s1 v1 Hv1 Htasks) as (s' & v' & Hrun & H1 & H2 & H3 & H4 & H5 & H6); [lia..|].
    exists s', v'. unfold run_tasks in Hrun. rewrite Hrun. split_and!; try done; try lia; congruence.
Qed.

(** A message that is sent settles: whatever the provider answers, after at most as many
    attempts as configured (and at least one) the message is sent or failed, nothing
    is left to run, and the text and its user are those given. *)
Theorem sms_settles (phone text : string) (uid : option string) (meta : jsval) (now : Z) (times : list Z) (s : state) :
  tasks s = [] -> Z.max 1 maxRetries <= Z.of_nat (length times) ->
  exists id s1 s2 v, sendSms phone text uid meta now s = (Ret id, s1) /\
    run_tasks times s1 = (Ret tt, s2) /\ tasks s2 = [] /\ find_one id (messages s2) = Some v /\
    settled v /\ 1 <= attempts v <= Z.max 1 maxRetries /\ user_id v = uid /\ message v = text.
Proof.
  intros Ht Hlen. unfold sendSms, bind, gets, put, start, modify, ret. simpl. rewrite Ht.
  match goal with |- context [save ?i ?v ?t] =>
    edestruct (chain_settles times i 1 now (mkState (save i v t) [mkTask i 1 now]) v)
      as (s' & v' & H1 & H2 & H3 & H4 & H5 & H6 & H7) end; simpl; [apply find_one_save_eq|done|lia|lia|].
  eexists _, _, s', v'. split_and!; try done; lia.
Qed.

(** The wait before the last attempt, all delays added up: a third of [4^(n-1) - 1] delays. *)
Lemma backoff_total (n : nat) :
  3 * sumZ (map (fun i => backoff (Z.of_nat i)) (seq 1 n)) = retryDelay * (4 ^ Z.of_nat n - 1).
Proof.
  induction n as [|n IH]; [simpl; lia|].
  rewrite seq_S, map_app, sumZ_app, Z.mul_add_distr_l, IH. cbn [map sumZ]. unfold backoff.
  replace (Z.of_nat (1 + n) - 1) with (Z.of_nat n) by lia.
  rewrite (Nat2Z.inj_succ n), Z.pow_succ_r by lia. ring.
Qed.

(** Only a failed message can be tried again. *)
Lemma retry_only_failed (id : nat) (now : Z) (s : state) (v : SmsNotification) :
  find_one id (messages s) = Some v -> status v ≠ FAILED ->
  retrySms id now s = (Throw (JsError "Can only retry failed SMS"), s).
Proof. intros Hv Hs. unfold retrySms, bind, gets. rewrite Hv. by rewrite decide_False. Qed.

Lemma statuses_ne :
  PENDING ≠ SENT /\ PENDING ≠ DELIVERED /\ PENDING ≠ FAILED /\ SENT ≠ DELIVERED /\ SENT ≠ FAILED /\ DELIVERED ≠ FAILED.
Proof.
  pose proof statuses_distinct as H. rewrite !NoDup_cons, !not_elem_of_cons in H. tauto.
Qed.

(** Every message is counted under one of the four states of the statistics when no
    other state is used. *)
Lemma stats_partition (s : state) :
  (forall id v, find_one id (messages s) = Some v -> status v ∈ [PENDING; SENT; DELIVERED; FAILED]) ->
  match (getStats None None s).1 with
  | Ret r => total r = sent r + delivered r + failed r + pending r
  | Throw _ => False
  end.
Proof.
  intros Hall. unfold getStats, gets. simpl. unfold count_where.
  assert (Hrows : forall r, r ∈ rows (messages s) -> status r.2 ∈ [PENDING; SENT; DELIVERED; FAILED]).
  { intros [i v] Hr. apply elem_of_rows in Hr. by eapply Hall. }
  destruct statuses_ne as (H1 & H2 & H3 & H4 & H5 & H6). revert Hrows. generalize (rows (messages s)) as l.
  induction l as [|r l IH]; intros Hrows; [done|]. simpl.
  specialize (IH (fun x Hx => Hrows x (list_elem_of_further _ _ _ Hx))).
  pose proof (Hrows r (list_elem_of_here _ _)) as Hr.
  apply elem_of_cons in Hr as [Hr|[Hr|[Hr|[Hr|Hr]%elem_of_cons]%elem_of_cons]%elem_of_cons];
    [..|by apply not_elem_of_nil in Hr]; rewrite Hr;
    repeat case_bool_decide; try congruence; rewrite ?length_cons; lia.
Qed.

End service.

(** ** Concrete runs *)

Inductive demo_status := pending_ | sent_ | delivered_ | failed_.
#[local] Instance demo_status_eq_dec : EqDecision demo_status.
Proof. solve_decision. Defined.
Lemma demo_distinct : NoDup [pending_; sent_; delivered_; failed_].
Proof. by apply (bool_decide_unpack _). Qed.
#[local] Instance demo_statuses : SmsStatuses := {|
  SmsStatus := demo_status; PENDING := pending_; SENT := sent_; DELIVERED := delivered_; FAILED := failed_;
  statuses_distinct := demo_distinct |}.

Definition twilio : config :=
  mkConfig None None None (Some "sid") (Some "token") (Some "+1") None None None.

(** A provider that answers at even times only. *)
Definition flaky (now : Z) (_ : string) (_ _ : list (string * string)) : reply :=
  if Z.even now then Answered (VObj [("sid", VStr "m1")])%string else Raised VUndef "timeout".

Definition start_state : state (B := MemBackend) := mkState empty_table [].

Lemma sms_settles_witness :
  exists id s1 s2 v, sendSms (B := MemBackend) twilio "+2" "hello" None VUndef 1 start_state = (Ret id, s1) /\
    run_tasks twilio flaky (fun x => x) [1; 3; 5] s1 = (Ret tt, s2) /\ tasks s2 = [] /\
    find_one id (messages s2) = Some v /\
    settled v /\ 1 <= attempts v <= Z.max 1 (maxRetries twilio) /\ user_id v = None /\ message v = "hello"%string.
Proof.
  apply (sms_settles (B := MemBackend) twilio flaky (fun x => x) "+2" "hello" None VUndef 1 [1; 3; 5] start_state).
  - reflexivity.
  - vm_compute. discriminate.
Defined.

(** Sent, reported as failed, tried again, and, before the next attempt, reported as
    delivered after all. *)
Definition late_report : M (state (B := MemBackend)) unit :=
  await id := sendSms twilio "+2" "hello" None VUndef 0 in
  do run_task twilio flaky (fun x => x) 0 ;>
  do updateStatus "m1" FAILED None ;>
  do retrySms twilio flaky (fun x => x) id 1 ;>
  updateStatus "m1" DELIVERED (Some 2).

(** The report does not stop the chain of attempts: the text goes out again and the
    message, known to be delivered, is only sent. *)
Theorem late_report_sends_again :
  let s := (late_report start_state).2 in
  (map (fun r => (status r.2, length (tasks s))) (rows (messages s)),
   map (fun r => status r.2) (rows (messages (run_task twilio flaky (fun x => x) 4 s).2))) =
  ([(DELIVERED, 1%nat)], [SENT]).
Proof. vm_compute. reflexivity. Qed.

End Sms.
