(* ===== verification/Backup.v ===== *)
(** * Database backups

    Models [backend/src/backup/backup.service.ts]: dumps of the database in files, each
    with a record of its size and digest next to it, and their restoration.

    The directory is a map from paths to files.  A file holds SQL or the JSON text of a
    record ([JSON.parse] of what [JSON.stringify] wrote gives the record back); any
    other text is one [JSON.parse] refuses.  [pg_dump], [psql] and the digest are
    parameters; what [psql] is given is kept in the state. *)
From Stdlib Require Import ZArith Lia Ascii.
From stdpp Require Import base list strings sorting gmap.
From S2P Require Import Prelude JsValue.
Local Open Scope Z_scope.

Module Backup.

Record BackupRecord := mkRecord {
  id : string;
  file : string;
  createdAt : Z;
  sizeBytes : Z;
  checksum : string;
  verified : bool;
}.

Inductive content := Sql (text : string) | Json (r : BackupRecord) | Text (t : string).

(** ** [path.join] *)

Fixpoint split_path (s acc : string) : list string :=
  match s with
  | EmptyString => [acc]
  | String "/" s' => acc :: split_path s' ""
  | String c s' => split_path s' (acc +:+ String c "")
  end%char.

(** The segments without empty ones and dots, [..] taking the one before away. *)
Definition normalize (segs : list string) : list string :=
  foldl (fun acc x =>
    if String.eqb x "" || String.eqb x "." then acc
    else if String.eqb x ".." then removelast acc
    else acc ++ [x]) [] segs.

(** [join(dir, name)] of an absolute directory. *)
Definition join (dir name : string) : string :=
  ("/" +:+ join_with "/" (normalize (split_path dir "" ++ split_path name "")))%string.

Section service.
(** The database, what [pg_dump] writes of it, what [psql] makes of a text: [None] is
    an exit code that is not zero. *)
Context {DB : Type} (pg_dump : DB -> option string) (psql : string -> DB -> option DB) (sha256 : string -> string).
Context (backupDir : string).

Record state := mkState { files : gmap string content; db : DB; ran : list string }.

Definition write (path : string) (c : content) : M state unit :=
  modify (fun s => mkState (<[path:=c]> (files s)) (db s) (ran s)).

(** [fs.readFile]: the bytes of a file of SQL. *)
Definition readFile (path : string) : M state content :=
  await c := gets (fun s => files s !! path) in
  of_option (JsError "ENOENT") c.

Definition bytes_of (c : content) : option string := match c with Sql t | Text t => Some t | Json _ => None end.

Definition meta_of (f : string) : string := (f +:+ ".meta.json")%string.
Definition sql_name (i : string) : string := (i +:+ ".sql")%string.

Definition createBackup (now : Z) : M state BackupRecord :=
  let i := ("backup-" +:+ Z_to_string now)%string in
  let f := join backupDir (sql_name i) in
  await d := gets db in
  match pg_dump d with
  | None => throw (JsError "Command failed: pg_dump")
  | Some text =>
      do write f (Sql text) ;>
      let r := mkRecord i f now (Z.of_nat (String.length text)) (sha256 text) false in
      do write (meta_of f) (Json r) ;>
      ret r
  end.


(** [getBackup]: any failure is a missing backup. *)
Definition getBackup (i : string) : M state BackupRecord :=
  await c := gets (fun s => files s !! join backupDir (meta_of (sql_name i))) in
  match c with
  | Some (Json r) => ret r
  | _ => throw (NotFoundException ("Backup " +:+ i +:+ " not found"))
  end.

Definition set_verified (b : bool) (r : BackupRecord) : BackupRecord :=
  mkRecord (id r) (file r) (createdAt r) (sizeBytes r) (checksum r) b.

Definition intact (r : BackupRecord) (text : string) : bool :=
  String.eqb (sha256 text) (checksum r) && (Z.of_nat (String.length text) =? sizeBytes r).

Definition verifyBackup (i : string) : M state BackupRecord :=
  await r := getBackup i in
  await c := readFile (file r) in
  let ok := match bytes_of c with Some t => intact r t | None => false end in
  do write (meta_of (file r)) (Json (set_verified ok r)) ;>
  if ok then ret (set_verified true r) else throw (JsError ("Backup " +:+ i +:+ " failed verification")).

(** [psql --file]: the text of the file is run on the database. *)
Definition run_psql (path : string) : M state unit :=
  await c := readFile path in
  match bytes_of c with
  | None => throw (JsError "Command failed: psql")
  | Some t =>
      do modify (fun s => mkState (files s) (db s) (ran s ++ [t])) ;>
      await d := gets db in
      match psql t d with
      | None => throw (JsError "Command failed: psql")
      | Some d' => modify (fun s => mkState (files s) d' (ran s))
      end
  end.

(** [new Date(targetTime)] as a time, [None] when it is invalid; the command only creates
    a restore point. *)
Definition recoverToPointInTime (parse : string -> option Z) (command : Z -> DB -> option DB) (target : string) : M state unit :=
  match parse target with
  | None => throw (JsError ("Invalid point-in-time target: " +:+ target))
  | Some t =>
      await d := gets db in
      match command t d with
      | None => throw (JsError "Command failed: psql")
      | Some d' => modify (fun s => mkState (files s) d' (ran s))
      end
  end.

Definition restoreBackup (parse : string -> option Z) (command : Z -> DB -> option DB) (i : string) (target : option string)
  : M state unit :=
  await r := getBackup i in
  do verifyBackup i ;>
  do run_psql (file r) ;>
  match target with
  | Some EmptyString | None => ret tt
  | Some t => recoverToPointInTime parse command t
  end.

(** The records of the directory, newest first; nothing when one of them cannot be read. *)
Definition is_meta (path : string) : bool :=
  let n := String.length path in
  String.eqb (String.substring (n - 10) 10 path) ".meta.json".

Fixpoint parse_all (l : list (string * content)) : option (list BackupRecord) :=
  match l with
  | [] => Some []
  | (_, Json r) :: l' => cons r <$> parse_all l'
  | _ :: _ => None
  end.

Definition newer (a b : BackupRecord) : Prop := createdAt b <= createdAt a.
#[local] Instance newer_dec : RelDecision newer := fun a b => Z_le_dec (createdAt b) (createdAt a).

Definition listBackups : M state (list BackupRecord) :=
  gets (fun s =>
    match parse_all (List.filter (fun e => is_meta e.1) (map_to_list (files s))) with
    | Some l => merge_sort newer l
    | None => []
    end).

(** ** What is restored *)






(** ** Dumps and their restoration *)


















End service.

(** ** Concrete runs *)

(** A database is its dump; the digest is the text. *)
Definition dumping (d : string) : option string := Some d.
Definition loading (t d : string) : option string := Some t.

Definition run_create := createBackup dumping (fun t => t) "/var/backups".
Definition run_restore := restoreBackup loading (fun t => t) "/var/backups" (fun _ => None) (fun _ d => Some d).

Definition day1 : state := (run_create 1 (mkState (DB := string) ∅ "v1" [])).2.


(** A damaged dump is refused. *)
Example damaged_refused :
  is_ret (run_restore "backup-1" None
    (mkState (<["/var/backups/backup-1.sql"%string:=Sql "drop"]> (files day1)) "v2"%string [])).1 = false.
Proof. vm_compute. reflexivity. Qed.

(** The id is not checked: it can lead out of the directory of the backups. *)
Theorem id_leaves_directory :
  join "/var/backups" (meta_of (sql_name "../../tmp/evil")) = "/tmp/evil.sql.meta.json"%string.
Proof. vm_compute. reflexivity. Qed.

End Backup.
