(* ===== verification/Fx.v ===== *)
(** * Exchange rates

    Models [backend/src/common/fx-rate.service.ts]: the rates are fetched from a
    configured source, kept in the cache for five minutes, and used to show an amount
    of stroops in another currency; when they cannot be had, amounts stay in the base
    currency.  The request to the source is a parameter. *)
From Stdlib Require Import ZArith Lia SpecFloat.
From stdpp Require Import base list strings.
From S2P Require Import Prelude Storage JsValue JsNumber Filtering.
Local Open Scope Z_scope.

Module Fx.

Definition BASE_CURRENCY : string := "XLM".
Definition CACHE_KEY : string := "fx:rates".
Definition CACHE_TTL_MS : Z := 5 * 60 * 1000.
Definition DEFAULT_URL : string := "https://api.exchangerate-api.com/v4/latest/USD".

(** The rates are numbers by currency; an entry that is missing is [undefined]. *)
Record FxRates := mkRates { base : string; rates : list (string * number); fetched_at : Z }.

Section service.
Context {B : Backend}.
(** [axios.get] at a time: the [rates] of the data, when it has any, or an error. *)
Context (apiUrl : option string) (get : Z -> string -> outcome (option (list (string * number)))).

Definition state : Type := cache FxRates.

Definition url : string := default DEFAULT_URL apiUrl.

Definition fetched (now : Z) : outcome FxRates :=
  match get now url with
  | Ret data => Ret (mkRates BASE_CURRENCY (default [] data) now)
  | Throw e => Throw e
  end.

Definition getRates (now : Z) : M state FxRates :=
  await cached := gets (cache_get CACHE_KEY now) in
  match cached with
  | Some r => ret r
  | None =>
      match fetched now with
      | Ret r => do modify (cache_set CACHE_KEY r CACHE_TTL_MS now) ;> ret r
      | Throw _ => ret (mkRates BASE_CURRENCY [] now)
      end
  end.

Definition rate_of (r : FxRates) (currency : string) : option number :=
  snd <$> List.find (fun p => String.eqb p.1 currency) (rates r).

(** [!rate]: missing, zero or not a number. *)
Definition no_rate (f : option number) : bool :=
  match f with Some (S754_zero _) | Some S754_nan | None => true | _ => false end.

Definition convert (stroops : jsval) (currency : option string) (now : Z) : M state (number * string) :=
  let xlm := num_div (js_Number stroops) (num_of_Z 10000000) in
  match currency with
  | None | Some EmptyString => ret (xlm, BASE_CURRENCY)
  | Some c =>
      let up := Filtering.toUpperCase c in
      if String.eqb up BASE_CURRENCY then ret (xlm, BASE_CURRENCY)
      else
        await r := getRates now in
        let rate := rate_of r up in
        if no_rate rate then ret (xlm, BASE_CURRENCY)
        else ret (num_mul xlm (default S754_nan rate), up)
  end.

(** ** The rates are fresh *)

(** Some rates were fetched at a time. *)
Definition fetch_at (t : Z) (r : FxRates) : Prop := fetched t = Ret r.

(** What the cache can give at [now] was fetched within the last five minutes. *)
Definition fresh (now : Z) (s : state) : Prop :=
  forall now' r, now <= now' -> cache_get CACHE_KEY now' s = Some r ->
    exists t, fetch_at t r /\ t <= now /\ now' < t + CACHE_TTL_MS.

Lemma fresh_later (now now' : Z) (s : state) : now <= now' -> fresh now s -> fresh now' s.
Proof. intros Hle Hs n r Hn Hr. destruct (Hs n r ltac:(lia) Hr) as (t & Ht & H1 & H2). exists t. split_and!; [done|lia..]. Qed.

Lemma getRates_fresh (now : Z) (s : state) : fresh now s -> fresh now (getRates now s).2.
Proof.
  intros Hs. unfold getRates, bind, gets, ret, modify. destruct (cache_get CACHE_KEY now s); [done|].
  destruct (fetched now) as [r|e] eqn:Hf; [|done]. simpl. intros n r' Hn Hr.
  apply cache_get_set in Hr as [-> Hlt]. exists now. split_and!; [done|lia..].
Qed.

Lemma convert_state (stroops : jsval) (currency : option string) (now : Z) (s : state) :
  (convert stroops currency now s).2 = s \/ (convert stroops currency now s).2 = (getRates now s).2.
Proof.
  unfold convert. destruct currency as [[|c cs]|]; [by left| |by left].
  destruct (String.eqb _ BASE_CURRENCY); [by left|]. right. unfold bind at 1.
  destruct (getRates now s) as [[r|e] s'] eqn:E; [|done]. by destruct (no_rate _).
Qed.

(** Calls at times that do not decrease. *)
Inductive call := GetRates (now : Z) | Convert (stroops : jsval) (currency : option string) (now : Z).
Definition time (c : call) : Z := match c with GetRates t | Convert _ _ t => t end.
Definition exec (c : call) (s : state) : state :=
  match c with GetRates t => (getRates t s).2 | Convert a cur t => (convert a cur t s).2 end.

Fixpoint ordered (now : Z) (cs : list call) : Prop :=
  match cs with [] => True | c :: cs' => now <= time c /\ ordered (time c) cs' end.

Definition run_calls (cs : list call) (s : state) : state := foldl (fun s c => exec c s) s cs.

Lemma run_fresh (cs : list call) : forall now s, ordered now cs -> fresh now s ->
  fresh (foldl (fun _ c => time c) now cs) (run_calls cs s).
Proof.
  induction cs as [|c cs IH]; intros now s Ho Hs; [done|]. simpl in Ho. destruct Ho as [Hle Ho].
  simpl. apply IH; [done|]. apply (fresh_later _ (time c)) in Hs; [|done].
  destruct c as [t|a cur t]; simpl in *; [by apply getRates_fresh|].
  destruct (convert_state a cur t s) as [->| ->]; [done|by apply getRates_fresh].
Qed.

(** After any calls, the rates the service answers are those of a fetch of the last five
    minutes, or none at all when the source fails just now. *)
Theorem rates_fresh (cs : list call) (start now : Z) :
  ordered start (cs ++ [GetRates now]) ->
  exists r, (getRates now (run_calls cs empty_cache)).1 = Ret r /\
    ((exists t, fetch_at t r /\ t <= now < t + CACHE_TTL_MS) \/
     (exists e, fetched now = Throw e) /\ r = mkRates BASE_CURRENCY [] now).
Proof.
  intros Ho. set (s := run_calls cs empty_cache).
  assert (Hs : fresh now s).
  { apply (fresh_later (foldl (fun _ c => time c) start cs)).
    - clear -Ho. revert start Ho. induction cs as [|c cs IH]; intros start Ho; simpl in *; [lia|]. apply IH, Ho.
    - apply run_fresh; [|intros n r _ Hr; by rewrite cache_get_empty in Hr].
      clear -Ho. revert start Ho. induction cs as [|c cs IH]; intros start Ho; simpl in *; [done|].
      split; [apply Ho|]. apply IH, Ho. }
  unfold getRates, bind, gets, ret, modify.
  destruct (cache_get CACHE_KEY now s) as [r|] eqn:Hc.
  - exists r. split; [done|]. left. destruct (Hs now r ltac:(lia) Hc) as (t & Ht & H1 & H2). by exists t.
  - destruct (fetched now) as [r|e] eqn:Hf; [exists r|exists (mkRates BASE_CURRENCY [] now)]; split; try done.
    + left. exists now. split; [done|]. unfold CACHE_TTL_MS. lia.
    + right. split; [by exists e|done].
Qed.

(** A conversion always answers, whatever the source does: in the currency asked for, or
    in the base currency when there is no rate. *)
Lemma convert_answers (stroops : jsval) (c : string) (now : Z) (s : state) :
  exists f cur, (convert stroops (Some c) now s).1 = Ret (f, cur) /\
    (cur = BASE_CURRENCY \/ cur = Filtering.toUpperCase c).
Proof.
  unfold convert. destruct c as [|x c]; [eexists _, _; split; [reflexivity|by left]|].
  destruct (String.eqb _ BASE_CURRENCY); [eexists _, _; split; [reflexivity|by left]|].
  unfold bind, getRates, bind, gets, ret, modify.
  destruct (cache_get CACHE_KEY now s); [|destruct (fetched now)]; cbn [fst];
    try (match goal with |- context [no_rate ?r] => destruct (no_rate r) end);
    eexists _, _; (split; [reflexivity|]); auto.
Qed.
End service.

(** ** Concrete runs *)

(** The default source quotes the currencies for one dollar. *)
Definition dollars (_ : Z) (_ : string) : outcome (option (list (string * number))) :=
  Ret (Some [("USD", num_of_Z 1); ("EUR", num_of_decimal 9 (-1))])%string.

Lemma rates_fresh_witness :
  exists r, (getRates (B := MemBackend) None dollars 400000 (run_calls None dollars [GetRates 0] empty_cache)).1 = Ret r /\
    ((exists t, fetch_at None dollars t r /\ t <= 400000 < t + CACHE_TTL_MS) \/
     (exists e, fetched None dollars 400000 = Throw e) /\ r = mkRates BASE_CURRENCY [] 400000).
Proof.
  apply (rates_fresh (B := MemBackend) None dollars [GetRates 0] 0 400000). simpl. lia.
Defined.

(** Ten XLM are shown as ten dollars: the rates of the default source are per dollar,
    and the service takes them as rates per XLM. *)
Theorem default_source_quotes_dollars :
  (convert (B := MemBackend) None dollars (VStr "100000000") (Some "usd"%string) 0 empty_cache).1 =
    Ret (num_of_Z 10, "USD"%string).
Proof. vm_compute. reflexivity. Qed.

End Fx.
